(* ===== verification/_CoqProject ===== *)
-Q . S2P
Prelude.v
Bits.v
DynArray.v
BigInteger.v
BigDivide.v
BigText.v
Decimal.v
BigBytes.v
TypeTraits.v
Chrono.v
Memory.v
Utf8.v
AppBuffer.v
AppRead.v
AppProps.v
Diag.v
DiagProps.v
SqlLex.v
SqlProps.v
OrdMap.v
Params.v
Statement.v
StmtProps.v
FetchProps.v
StmtInv.v
Config.v
ConfigParse.v
ConfigProps.v
ConfigRound.v
DsnProps.v
Meta.v
Connection.v
ConnProps.v
InfoTables.v
JavaHome.v
HandleRegistry.v
DocColumn.v
MetaQueries.v
DataQuery.v
DataProps.v
ConvProps.v
MetaProps.v
Driver.v
DriverProps.v
Odbc.v
EntryPoints.v
OdbcInv.v
OdbcProps.v
Interop.v
InteropProps.v
InteropBounds.v
BinUtils.v
BinSchema.v
BinObject.v
BinWriter.v
BinReader.v
BinValues.v
BinLayout.v
BinTop.v
BinFields.v
BinSkip.v
BinDoc.v
BinColl.v
BinProps.v
ParamWire.v
PageRow.v
Message.v
Streaming.v
MessageProps.v
ParamProps.v
PageProps.v
StreamProps.v
Jni.v
JniContext.v
JniWrap.v
JniRules.v
JniSafe.v
JniCreate.v
JniRead.v
JniProps.v
