(* ===== verification/Prelude.v ===== *)
(** A verification library of the Amazon DocumentDB ODBC driver.

    * The program

    The driver is a shared library that an application calls through the ODBC C
    functions ([src/src/odbc/src/odbc.cpp]).  An environment handle makes connection
    handles, a connection makes statement handles; a statement owns the bindings of
    columns and parameters, and the current query.  Queries ask the DocumentDB JDBC
    driver (through JNI) for metadata and MongoDB for documents; rows are converted
    into the application's buffers by [ApplicationDataBuffer].  Errors are records in
    the diagnostics of the handle.  Below lie the numeric types (bits, growable arrays,
    big integers, decimals), dates and times, text conversion, and the tables that
    relate the SQL, ODBC and JDBC types.

    * The files, and what they model

    - Prelude: outcomes ([Ok], [Throw], [UB] for behaviour that C++ leaves undefined),
      widths of integers, loops with fuel, lemmas on lists and numerals.
    - Bits: [common/bits.cpp].  DynArray: [common/dynamic_size_array.h].
    - BigInteger, BigDivide, BigText, BigBytes: [common/big_integer.cpp] and [.h]:
      arithmetic, Knuth's division, text, bytes; the wire format of decimals in
      [utility.cpp].
    - Decimal: [common/decimal.cpp] and [.h].
    - TypeTraits: [type_traits.cpp].
    - Chrono: dates, times, timestamps and GUIDs; the calendar is a class.
    - Memory: the application's memory, a finite map from addresses to bytes.
      Utf8: the text conversions of [utility.cpp].
    - AppBuffer, AppRead, AppProps: [app/application_data_buffer.cpp], writing,
      reading, properties.
    - Diag, DiagProps: [common_types.cpp], [diagnostic/], and the ODBC functions that
      hand diagnostics out.
    - SqlLex, SqlProps: [sql/]: the lexer and the parser of the driver's own commands.
    - OrdMap: [std::map] as a sorted association list.
    - Params, Statement: [app/parameter.cpp], [app/parameter_set.cpp], [statement.cpp].
      StmtProps: the protocol of data at execution.  FetchProps: rowsets.  StmtInv: the
      invariant of the handle under every call.
    - Config: [config/configuration.cpp] and the option types; ConfigParse:
      [config/connection_string_parser.cpp], [config/config_tools.cpp],
      [dsn_config.cpp].  ConfigProps, ConfigRound, DsnProps: encoding for URIs, the
      round trip of connection strings, data sources.
    - Meta: [meta/], the metadata of columns, tables and keys.
    - Connection: [connection.cpp], [environment.cpp], [jni/documentdb_connection.cpp].
      ConnProps: the phases of a connection.
      InfoTables: the tables of [SQLGetInfo] ([config/connection_info.cpp]).
    - JavaHome: [jni/os/linux/utils.cpp], the home directory, the class path and the
      library of the Java machine.
    - HandleRegistry: [impl/handle_registry.cpp], for any number of threads.
    - DocColumn: floating-point numbers in buffers, and [documentdb_column.cpp], the
      conversion of BSON values.  ConvProps: what it converts and reports.
    - MetaQueries: the catalog queries of [query/].  MetaProps: their properties.
    - DataQuery: [query/data_query.cpp], [documentdb_cursor.cpp], [documentdb_row.cpp],
      [documentdb_error.cpp].  DataProps: fetching.
    - Driver: [query/batch_query.cpp], [query/internal_query.h], the exchange with the
      server, and all queries behind the interface that the statement uses.  DriverProps:
      the pages of a batch; a SELECT on one statement; what becomes of calls that need
      the server.
    - Odbc: [odbc.cpp], the functions that the application calls, on a table of the
      objects that are alive ([Handles]); a handle is an address, and each function tests
      it, reads its texts from memory and calls the object.  OdbcInv: the invariant of the
      table, and which handle a call may change.  OdbcProps: a SELECT, the description of
      a column and the native text of a query, as the application sees them.
      EntryPoints: [entry_points.cpp], all functions that the library exports.
    - Interop: [impl/interop/]: chunks of memory with unwritten cells, the output stream
      that grows them and the input stream that reads them.  InteropProps: what writing
      leaves and reading finds ([emits], [parses]).  InteropBounds: no read leaves the
      data.
    - BinUtils: [impl/binary/binary_utils.cpp], the primitive values, with a class
      ([Codec]) for those that read what they write.  BinSchema: [binary_schema.cpp] and
      the type manager with its snapshots and handlers.  BinObject: objects in memory.
      BinWriter, BinReader: [binary_writer_impl] and [binary_reader_impl], every
      operation of the raw and the named form.
    - BinValues, BinLayout, BinTop, BinFields, BinSkip, BinDoc, BinColl: the lemmas on
      single values, the bytes of an object, top-level objects, finding fields, skipping,
      objects made of any fields ([Doc]), and collections.  BinProps: their theorems.
    - ParamWire: [Parameter::Write], [ParameterSet::Write] and the functions of
      [utility.cpp] on the writer and the reader.  ParamProps: the rows they write.
    - PageRow: [result_page.cpp], [row.cpp], [column.cpp], [cursor.cpp].  PageProps: a
      page shows its rows.
    - Message: [message.cpp], [protocol_version.cpp].  MessageProps: requests and
      responses on the wire.
    - Streaming: [streaming/].  StreamProps: what reaches the server.
    - Jni: the calls into the Java machine ([jni/java.cpp], [jni/java.h]): references, the
      pending exception, the shared pointers to global references, classes, methods and
      [JniContext::Create].  JniContext: every operation of [JniContext].  JniWrap: the
      objects around them ([jni/result_set.cpp], [jni/database_metadata.cpp],
      [jni/documentdb_connection.cpp], [jni/documentdb_query_mapping_service.cpp]) and the
      reading of Java lists and rows.  JniRules, JniSafe, JniCreate, JniRead: rules for the
      operations, sequences of them, making a context, reading results.  JniProps: their
      theorems, with a small machine.

    * Conventions

    An object is a record, an operation a function that takes the object and returns
    the new one; an operation that writes through the application's pointers also
    takes and returns the memory.  A C++ integer is a [Z] in the range of its type,
    conversions and wrap-around are written out ([u64], [i32], ...), and signed
    overflow, out-of-range access and use of unset variables are [UB].  Exceptions are
    [Throw].  What the sources take from elsewhere is a class: the platform
    ([Platform]: width of characters, of [long], locale, floating-point text), the
    calendar of Boost ([Calendar]), the machine's directories ([Host]), the printing of
    numbers ([NumberTexts]); each has a concrete instance, which the witnesses use.
    What the JVM and MongoDB answer is an argument ([Answers], [DataAnswers], [World]), and
    so are the addresses that [new] returns and those of local variables whose pointers
    are handed out.  Below [Answers] lies the bridge: there the machine is the class [Jvm]
    (its classes, what its methods answer and throw), the state is what the JNI keeps for
    the native side, and using it wrongly is [UB].  What the driver relies on is stated
    apart: methods answer by their signatures ([JvmTyped]), there is memory for references
    ([JvmRoom]), exceptions tell their class and message ([JvmTalks]).  The file system is
    the record [FileSystem], the headers of ODBC a function from names to numbers.
    The interfaces between components are classes too: the queries a statement runs
    ([QueryOps], with the driver's queries as the instance [DriverQueries]) and the
    server ([Server], [BatchServer], with the driver's own [SyncMessage], which does
    nothing, as the instances of Driver).

    Loops are [while] with fuel; the fuel is a bound on the number of passes (such as
    the length of the text, or the number of limbs), and theorems such as
    [Shift_correct], [Divide_correct] or [Pow_correct] state that the result is there,
    i.e. that the fuel is enough.

    * What the theorems show

    Numbers: the big integers compute what they stand for, print and parse each other,
    and survive the byte format; Knuth's division is right except where its correction
    step is dead.  Buffers: conversions write inside the application's buffer, keep the
    longest prefix that fits and report truncation; the exceptions are theorems too.
    Diagnostics: the states are told apart by their codes, and an application that
    reads until there is no more gets every record once.  SQL: the lexer returns on all
    texts; commands parse to what they say.  Statements: the handle's invariant, the
    report of a rowset, and the protocol of data at execution, with the two places
    where it breaks.  Configurations: a connection string brings back the configuration
    it was written from, the parser returns on every text, and a data source never
    overrides what the string sets.  Connections: every call is a step of a small state
    machine, whatever the other side answers.  Queries: fetching refines walking through
    the documents or rows that were answered, for data and for the catalog; conversions
    are exact where the type holds the value; a batch is sent in pages that cover it.
    The whole: [SQLExecDirect] with a SELECT and [SQLFetch] walk through the documents of
    its result ([odbc_select], which composes the entry points, the statement, the data
    query, the cursor, the row and the conversions); and whatever an application calls,
    the handles refer to each other as they should and keep their own invariants
    ([odbc_invariant], which composes those of statements and connections), and a call
    changes no handle but its own ([calls_isolated]).
    The wire: reading a stream never leaves its data ([stream_reads_bounded]); an object
    has the layout of the format and is read back by the names of its fields, collections
    element by element, and values can be skipped; parameters are written row by row, a
    page of results shows its rows, requests and responses are read back, and streaming
    delivers every row once and in order to a server that takes the batches.
    Java: a client of the bridge may call its operations in any order on the pointers it
    keeps, and nothing undefined happens and no reference is lost
    ([bridge_sequences_safe]); making a context is a search through the classes and
    methods ([context_creation]); getters give null, error or value ([getter_branches]);
    tables and mapped queries are read through it as they are.  The home directory is
    found, the search ends, and the class path lists its libraries ([java_found]).
    [SQLGetInfo] answers every type by the tables of the constructor ([info_answers]).
    The registry of handles gives no handle twice and keeps its pointers until they are
    released, whatever the threads do ([registry_threads]).

    * Not modelled, and why
    - The Java machine itself and the code in Java.  Of the bridge: logging, loading
      [jvm.dll] on Windows, the lock around [JniContext::Create], and the table of
      callbacks, whose functions nothing defines.
    - The code inherited from Apache Ignite for caches, clusters and compute tasks
      ([impl/cache/], [impl/compute/], [impl/cluster/], [ignite_environment.cpp] and the
      headers above them): nothing of the driver reaches it.  Of the binary protocol the
      memory that the JVM owns and the classes that only forward to the writer and the
      reader are left out.  Sending a message is not in the code any more
      ([Connection::SyncMessage] does nothing); the messages themselves are modelled.
    - Writing logs, and writing data sources through the installer library.
    - The Windows dialogs.
    - Concurrency: the locks, events and thread-local storage of [common/concurrent.h],
      which are the operating system's.  The handle registry is modelled for threads that
      interleave step by step on a sequentially consistent memory; all else is used by one
      thread at a time.
    - The conversions between decimals and floating-point numbers, which are parameters
      where they occur.
*)
From stdpp Require Export base list numbers option strings gmap.
From Stdlib Require Export ZArith Lia.
From Stdlib Require Export Ascii.

#[export] Set Default Goal Selector "!".
#[export] Set Warnings "-notation-for-abbreviation".
Global Open Scope Z_scope.

(** * Fixed-width integers *)

(** Conversion to a [w]-bit unsigned integer. *)
Definition wrapU (w z : Z) : Z := z mod 2 ^ w.

(** Conversion to a [w]-bit two's-complement integer. *)
Definition wrapS (w z : Z) : Z := (z + 2 ^ (w - 1)) mod 2 ^ w - 2 ^ (w - 1).

Abbreviation u8 := (wrapU 8).
Abbreviation u16 := (wrapU 16).
Abbreviation u32 := (wrapU 32).
Abbreviation u64 := (wrapU 64).
Abbreviation i8 := (wrapS 8).
Abbreviation i16 := (wrapS 16).
Abbreviation i32 := (wrapS 32).
Abbreviation i64 := (wrapS 64).

(** Membership of a [w]-bit range. *)
Definition inU (w z : Z) : Prop := 0 <= z < 2 ^ w.
Definition inS (w z : Z) : Prop := - 2 ^ (w - 1) <= z < 2 ^ (w - 1).

#[export] Instance inU_dec w z : Decision (inU w z).
Proof. unfold inU. apply _. Defined.
#[export] Instance inS_dec w z : Decision (inS w z).
Proof. unfold inS. apply _. Defined.

(** * Results of operations *)

(** A C++ operation returns, throws (the error carries a code) or runs into
    undefined behaviour, such as an access outside an array. *)
Inductive outcome (E A : Type) : Type :=
| Ok (a : A)
| Throw (e : E)
| UB.
Arguments Ok {E A} a.
Arguments Throw {E A} e.
Arguments UB {E A}.

Definition obind {E A B} (m : outcome E A) (k : A -> outcome E B) : outcome E B :=
  match m with
  | Ok a => k a
  | Throw e => Throw e
  | UB => UB
  end.

Notation "'let*' x := m 'in' k" := (obind m (fun x => k))
  (at level 10, x pattern, k at level 200).

(** Signed arithmetic of width [w]: a result outside the range is undefined. *)
Definition checked {E} (w z : Z) : outcome E Z := if bool_decide (inS w z) then Ok z else UB.

(** * Loops *)

(** [for (i = 0; i < n; ++i) s = f(i, s)]. *)
Fixpoint for_up {St} (n : nat) (f : nat -> St -> St) (s : St) : St :=
  match n with
  | O => s
  | S i => f i (for_up i f s)
  end.

(** [for (i = n - 1; i >= 0; --i) s = f(i, s)]. *)
Fixpoint for_down {St} (n : nat) (f : nat -> St -> St) (s : St) : St :=
  match n with
  | O => s
  | S i => for_down i f (f i s)
  end.

(** One pass of a [while] loop: go round again with a new state, or leave. *)
Inductive pass (St R : Type) : Type :=
| Continue (s : St)
| Break (r : R).
Arguments Continue {St R} s.
Arguments Break {St R} r.

(** A [while] loop given [fuel] passes; [None] when they do not suffice. *)
Fixpoint while {St R} (fuel : nat) (body : St -> pass St R) (s : St) : option R :=
  match fuel with
  | O => None
  | S k =>
      match body s with
      | Continue s' => while k body s'
      | Break r => Some r
      end
  end.

(** * Lemmas on the above *)

Create HintDb mach.

(** [widths] evaluates the powers of two that the width definitions introduce. *)
Ltac widths :=
  unfold wrapU, wrapS, inU, inS in *;
  repeat match goal with
  | |- context [2 ^ ?k] =>
      let v := eval vm_compute in (2 ^ k) in
      lazymatch isZcst v with true => change (2 ^ k) with v end
  | H : context [2 ^ ?k] |- _ =>
      let v := eval vm_compute in (2 ^ k) in
      lazymatch isZcst v with true => change (2 ^ k) with v in H end
  end.

Section loops.
Context {St : Type} (f : nat -> St -> St).

(** The invariant rule of a counting loop. *)
Lemma for_up_ind (P : nat -> St -> Prop) n s :
  P 0%nat s ->
  (forall i t, (i < n)%nat -> P i t -> P (S i) (f i t)) ->
  P n (for_up n f s).
Proof.
  intros H0 Hstep. induction n as [|n IH]; simpl; [done|].
  apply Hstep; [lia|]. apply IH. intros i t Hi. apply Hstep. lia.
Qed.

Lemma for_down_ind (P : nat -> St -> Prop) n s :
  P n s ->
  (forall i t, (i < n)%nat -> P (S i) t -> P i (f i t)) ->
  P 0%nat (for_down n f s).
Proof.
  revert s. induction n as [|n IH]; simpl; intros s Hn Hstep; [done|].
  apply IH.
  - apply Hstep; [lia|done].
  - intros i t Hi. apply Hstep. lia.
Qed.

End loops.

(** A loop whose passes lower a measure ends, in any invariant-closed set of states. *)
Lemma while_total {St R} (body : St -> pass St R) (inv : St -> Prop) (post : R -> Prop)
    (m : St -> nat) fuel s :
  inv s -> (m s < fuel)%nat ->
  (forall t, inv t ->
     match body t with
     | Continue t' => inv t' /\ (m t' < m t)%nat
     | Break r => post r
     end) ->
  exists r, while fuel body s = Some r /\ post r.
Proof.
  intros Hinv Hm Hbody. revert s Hinv Hm.
  induction fuel as [|k IH]; intros s Hinv Hm; [lia|]. simpl.
  specialize (Hbody s Hinv). destruct (body s) as [t'|r].
  - destruct Hbody. apply IH; [done|lia].
  - eauto.
Qed.

(** The invariant rule of a loop that ended. *)
Lemma while_rule {St R} (body : St -> pass St R) (inv : St -> Prop) (post : R -> Prop) fuel s r :
  inv s ->
  (forall t, inv t -> match body t with Continue t' => inv t' | Break r => post r end) ->
  while fuel body s = Some r -> post r.
Proof.
  intros Hinv Hbody. revert s Hinv. induction fuel as [|k IH]; intros s Hinv Hw; [done|]. simpl in Hw.
  specialize (Hbody s Hinv). destruct (body s) as [t'|r']; [by apply (IH t')|by injection Hw as <-].
Qed.

Lemma checked_ok {E} w z : inS w z -> @checked E w z = Ok z.
Proof. intros H. unfold checked. by rewrite bool_decide_true. Qed.

Section widths.
Context (w : Z).

Lemma wrapU_range z : 0 <= w -> inU w (wrapU w z).
Proof. intros. apply Z.mod_pos_bound. apply Z.pow_pos_nonneg; lia. Qed.

Lemma wrapU_small z : inU w z -> wrapU w z = z.
Proof. apply Z.mod_small. Qed.

Lemma wrapS_range z : 0 < w -> inS w (wrapS w z).
Proof.
  intros. unfold inS, wrapS.
  assert (2 ^ w = 2 * 2 ^ (w - 1)) by (rewrite <- Z.pow_succ_r by lia; f_equal; lia).
  pose proof (Z.mod_pos_bound (z + 2 ^ (w - 1)) (2 ^ w)).
  pose proof (Z.pow_pos_nonneg 2 (w - 1)). lia.
Qed.

Lemma wrapS_small z : 0 < w -> inS w z -> wrapS w z = z.
Proof.
  intros. unfold inS, wrapS in *.
  assert (2 ^ w = 2 * 2 ^ (w - 1)) by (rewrite <- Z.pow_succ_r by lia; f_equal; lia).
  rewrite Z.mod_small; lia.
Qed.

(** Two's complement in terms of the unsigned residue. *)
Lemma wrapS_cases z :
  0 < w ->
  wrapS w z = if wrapU w z <? 2 ^ (w - 1) then wrapU w z else wrapU w z - 2 ^ w.
Proof.
  intros Hw. unfold wrapS, wrapU.
  assert (2 ^ w = 2 * 2 ^ (w - 1)) as E by (rewrite <- Z.pow_succ_r by lia; f_equal; lia).
  pose proof (Z.pow_pos_nonneg 2 (w - 1)).
  pose proof (Z.mod_pos_bound z (2 ^ w)).
  pose proof (Z.div_mod z (2 ^ w)).
  destruct (Z.ltb_spec (z mod 2 ^ w) (2 ^ (w - 1))).
  - rewrite <- (Z.mod_unique_pos _ _ (z / 2 ^ w) (z mod 2 ^ w + 2 ^ (w - 1))); lia.
  - rewrite <- (Z.mod_unique_pos _ _ (z / 2 ^ w + 1) (z mod 2 ^ w - 2 ^ (w - 1))); lia.
Qed.

Lemma wrapU_wrapS z : 0 < w -> wrapU w (wrapS w z) = wrapU w z.
Proof. intros. unfold wrapU, wrapS. rewrite Zminus_mod_idemp_l. f_equal. lia. Qed.

Lemma wrapS_eq0 z : 0 < w -> wrapS w z = 0 <-> wrapU w z = 0.
Proof.
  intros. rewrite wrapS_cases by done. pose proof (wrapU_range z ltac:(lia)).
  unfold inU in *. pose proof (Z.pow_pos_nonneg 2 (w - 1)).
  destruct (Z.ltb_spec (wrapU w z) (2 ^ (w - 1))); lia.
Qed.

End widths.

#[export] Hint Resolve wrapU_range wrapS_range : mach.
#[export] Hint Extern 4 (_ <= _) => lia : mach.
#[export] Hint Extern 4 (_ < _) => lia : mach.
