(* ===== verification/Bits.v ===== *)
(** Bit counting and decimal-length helpers: [src/src/odbc/src/common/bits.cpp]
    and the inline functions of [common/bits.h].  Each function is the source's
    sequence of shifts and tests on machine integers; the theorems relate it to
    [Z.log2], to divisibility by powers of two and to powers of ten. *)
From S2P Require Import Prelude.

(** * Definitions *)

(** One halving step of [NumberOfTrailingZerosI32]: shift left by [k] and keep
    the shifted word when it is not zero. *)
Definition tz_step (k : Z) (st : Z * Z) : Z * Z :=
  let '(n, i) := st in
  let y := i32 (i ≪ k) in
  if negb (y =? 0) then (n - k, y) else (n, i).

Definition NumberOfTrailingZerosI32 (i : Z) : Z :=
  if i =? 0 then 32 else
  let '(n, i) := tz_step 2 (tz_step 4 (tz_step 8 (tz_step 16 (31, i)))) in
  n - i32 (u32 (i32 (i ≪ 1)) ≫ 31).

(** One halving step of [NumberOfLeadingZerosU32]: when the top [k] bits of the
    word are clear, count them and shift them out. *)
Definition lz_step (k : Z) (st : Z * Z) : Z * Z :=
  let '(n, i) := st in
  if i ≫ (32 - k) =? 0 then (n + k, u32 (i ≪ k)) else (n, i).

Definition NumberOfLeadingZerosU32 (i : Z) : Z :=
  if i =? 0 then 32 else
  let '(n, i) := lz_step 2 (lz_step 4 (lz_step 8 (lz_step 16 (1, i)))) in
  n - i32 (i ≫ 31).

Definition NumberOfLeadingZerosI32 (i : Z) : Z := NumberOfLeadingZerosU32 (u32 i).

Definition NumberOfLeadingZerosU64 (i : Z) : Z :=
  if i =? 0 then 64 else
  let n := 1 in
  let x := u32 (i ≫ 32) in
  let '(n, x) := if x =? 0 then (n + 32, u32 i) else (n, x) in
  let '(n, x) := lz_step 2 (lz_step 4 (lz_step 8 (lz_step 16 (n, x)))) in
  i32 (n - (x ≫ 31)).

Definition NumberOfLeadingZerosI64 (i : Z) : Z := NumberOfLeadingZerosU64 (u64 i).

Definition BitCountI32 (i : Z) : Z :=
  let ui := u32 i in
  let ui := u32 (ui - Z.land (ui ≫ 1) 0x55555555) in
  let ui := u32 (Z.land ui 0x33333333 + Z.land (ui ≫ 2) 0x33333333) in
  let ui := Z.land (u32 (ui + (ui ≫ 4))) 0x0f0f0f0f in
  let ui := u32 (ui + (ui ≫ 8)) in
  let ui := u32 (ui + (ui ≫ 16)) in
  i32 (Z.land ui 0x3f).

Definition BitLengthI32 (i : Z) : Z := 32 - NumberOfLeadingZerosI32 i.

Definition BitLengthU32 (i : Z) : Z := 32 - NumberOfLeadingZerosU32 i.

Definition INT32_MAX : Z := 2147483647.

Definition GetCapasityForSize (size : Z) : Z :=
  if size <=? 8 then 8 else
  let bl := BitLengthI32 size in
  if 30 <? bl then INT32_MAX else
  let res := i32 (1 ≪ bl) in
  if res <? size then i32 (res ≪ 1) else res.

Definition UINT64_MAX_PRECISION : Z := 20.

Definition TEN_POWERS_TABLE : list Z :=
  [1; 10; 100; 1000; 10000; 100000; 1000000; 10000000; 100000000; 1000000000;
   10000000000; 100000000000; 1000000000000; 10000000000000; 100000000000000;
   1000000000000000; 10000000000000000; 100000000000000000;
   1000000000000000000; 10000000000000000000].

(** The table lookup; the source asserts [0 <= n < UINT64_MAX_PRECISION]. *)
Definition TenPowerU64 (n : Z) : Z := TEN_POWERS_TABLE !!! Z.to_nat n.

Definition DigitLength (x : Z) : Z :=
  if x <? 10 then 1 else
  let r := i32 ((64 - NumberOfLeadingZerosU64 x + 1) * 1233) ≫ 12 in
  if (r =? UINT64_MAX_PRECISION) || (x <? TenPowerU64 r) then r else r + 1.

(** [-i] is computed in [int64_t]; both shifted halves are joined as [uint64_t]
    and the result is cut to [int32_t]. *)
Definition Signum64 (i : Z) : Z :=
  i32 (Z.lor (u64 (i64 (- i)) ≫ 63) (u64 (i ≫ 63))).

Definition MakeU64 (higher lower : Z) : Z := Z.lor (u64 (higher ≪ 32)) lower.

Definition MakeI64 (higher lower : Z) : Z := i64 (MakeU64 higher lower).

Definition MakeU32 (x y n : Z) : Z := Z.lor (u32 (x ≪ n)) (y ≫ (32 - n)).

Definition MakeI32 (x y n : Z) : Z := i32 (MakeU32 x y n).

(** * Leading zeros *)

(** The state of the search started at count [c]: [i] is the input shifted left
    by [n - c] bits, still a non-zero 32-bit word. *)
Definition lz_inv (c x : Z) (st : Z * Z) : Prop :=
  0 < st.2 < 2 ^ 32 /\ c <= st.1 /\ st.2 = x * 2 ^ (st.1 - c).

Lemma shiftr_eq0 x k : 0 <= x -> 0 <= k -> (x ≫ k = 0) <-> x < 2 ^ k.
Proof.
  intros. rewrite Z.shiftr_div_pow2 by lia.
  pose proof (Z.pow_pos_nonneg 2 k). rewrite Z.div_small_iff by lia. lia.
Qed.

Lemma lz_step_inv c x k st :
  0 < k <= 16 -> lz_inv c x st -> 2 ^ (32 - 2 * k) <= st.2 ->
  lz_inv c x (lz_step k st) /\ 2 ^ (32 - k) <= (lz_step k st).2.
Proof.
  intros Hk [Hi [Hn Heq]] Hlow. destruct st as [n i]; simpl in *.
  destruct (Z.eqb_spec (i ≫ (32 - k)) 0) as [H0|H0]; simpl.
  - rewrite shiftr_eq0 in H0 by lia.
    assert (2 ^ 32 = 2 ^ (32 - k) * 2 ^ k) as E by (rewrite <- Z.pow_add_r by lia; f_equal; lia).
    assert (2 ^ (32 - k) = 2 ^ (32 - 2 * k) * 2 ^ k) as E'
      by (rewrite <- Z.pow_add_r by lia; f_equal; lia).
    pose proof (Z.pow_pos_nonneg 2 k ltac:(lia) ltac:(lia)).
    rewrite Z.shiftl_mul_pow2, wrapU_small by (unfold inU; nia || lia).
    split; [split; [|split]|]; simpl; try nia.
    rewrite Heq. replace (n + k - c) with ((n - c) + k) by lia.
    rewrite Z.pow_add_r by lia. ring.
  - rewrite shiftr_eq0 in H0 by lia. split; [done|lia].
Qed.

Lemma lz_chain c x st :
  lz_inv c x st ->
  let st' := lz_step 2 (lz_step 4 (lz_step 8 (lz_step 16 st))) in
  lz_inv c x st' /\ 2 ^ 30 <= st'.2.
Proof.
  intros H. simpl.
  destruct (lz_step_inv c x 16 st) as [H1 L1]; [lia|done|destruct H; simpl; lia|].
  destruct (lz_step_inv c x 8 _ ltac:(lia) H1 L1) as [H2 L2].
  destruct (lz_step_inv c x 4 _ ltac:(lia) H2 L2) as [H3 L3].
  exact (lz_step_inv c x 2 _ ltac:(lia) H3 L3).
Qed.

Lemma lz_finish c x n i :
  0 < x -> lz_inv c x (n, i) -> 2 ^ 30 <= i -> n - (i ≫ 31) = 30 + c - Z.log2 x.
Proof.
  intros Hx [Hi [Hn Heq]] Hlow; simpl in *.
  assert (Z.log2 i = Z.log2 x + (n - c)) as Hlog.
  { rewrite Heq, Z.log2_mul_pow2 by lia. lia. }
  rewrite Z.shiftr_div_pow2 by lia.
  destruct (Z.lt_ge_cases i (2 ^ 31)).
  - rewrite (Z.log2_unique i 30) in Hlog by lia. rewrite Z.div_small by lia. lia.
  - rewrite (Z.log2_unique i 31) in Hlog by lia.
    rewrite <- (Z.div_unique i (2 ^ 31) 1 (i - 2 ^ 31)) by lia. lia.
Qed.

Lemma shiftr31_small i : 0 <= i < 2 ^ 32 -> 0 <= i ≫ 31 <= 1.
Proof.
  intros. rewrite Z.shiftr_div_pow2 by lia.
  pose proof (Z.div_lt_upper_bound i (2 ^ 31) 2). pose proof (Z.div_pos i (2 ^ 31)). lia.
Qed.

Lemma nlz32 i : inU 32 i -> 0 < i -> NumberOfLeadingZerosU32 i = 31 - Z.log2 i.
Proof.
  intros Hr Hi. unfold NumberOfLeadingZerosU32.
  destruct (Z.eqb_spec i 0) as [|_]; [lia|].
  destruct (lz_chain 1 i (1, i)) as [Hinv Hlow].
  { unfold lz_inv; cbn [fst snd]. unfold inU in Hr. lia. }
  destruct (lz_step 2 _) as [n j] eqn:E.
  rewrite wrapS_small; [by apply (lz_finish 1)|lia|].
  pose proof (shiftr31_small j). destruct Hinv; cbn [fst snd] in *. widths. lia.
Qed.

Lemma log2_shiftr32 i : 0 <= i -> 0 < i ≫ 32 -> Z.log2 (i ≫ 32) = Z.log2 i - 32.
Proof.
  intros Hi H. assert (2 ^ 32 <= i) as Hge.
  { destruct (Z.lt_ge_cases i (2 ^ 32)) as [Hlt|]; [|done].
    apply shiftr_eq0 in Hlt; lia. }
  pose proof (Z.log2_le_mono _ _ Hge) as Hlog. rewrite Z.log2_pow2 in Hlog by lia.
  rewrite Z.log2_shiftr; lia.
Qed.

Lemma nlz64 i : inU 64 i -> 0 < i -> NumberOfLeadingZerosU64 i = 63 - Z.log2 i.
Proof.
  intros Hr Hi. unfold NumberOfLeadingZerosU64.
  destruct (Z.eqb_spec i 0) as [|_]; [lia|].
  assert (0 <= i ≫ 32 < 2 ^ 32) as Hhi.
  { rewrite Z.shiftr_div_pow2 by lia. unfold inU in Hr.
    split; [apply Z.div_pos; lia|apply Z.div_lt_upper_bound; lia]. }
  rewrite (wrapU_small 32 (i ≫ 32)) by done.
  set (st := if i ≫ 32 =? 0 then _ else _).
  assert (exists c x, lz_inv c x st /\ 0 < x /\ 1 <= c <= 33
            /\ 30 + c - Z.log2 x = 63 - Z.log2 i) as (c & x & H0 & Hx & Hc & Hlog).
  { unfold st. destruct (Z.eqb_spec (i ≫ 32) 0) as [H0|H0].
    - apply shiftr_eq0 in H0; [|lia..].
      exists 33, i. unfold lz_inv; cbn [fst snd]. rewrite wrapU_small by (unfold inU; lia). lia.
    - exists 1, (i ≫ 32). unfold lz_inv; cbn [fst snd]. rewrite log2_shiftr32 by lia. lia. }
  destruct st as [n0 x0].
  destruct (lz_chain c x (n0, x0) H0) as [Hinv Hlow].
  destruct (lz_step 2 _) as [n j] eqn:E.
  rewrite (lz_finish c x n j) by done. rewrite Hlog.
  apply wrapS_small; [lia|]. pose proof (Z.log2_nonneg i).
  unfold inU in Hr. assert (Z.log2 i < 64) by (apply Z.log2_lt_pow2; lia).
  widths. lia.
Qed.

Lemma bit_length_u32 i : inU 32 i -> 0 < i -> BitLengthU32 i = Z.log2 i + 1.
Proof. intros. unfold BitLengthU32. rewrite nlz32 by done. lia. Qed.

(** * Trailing zeros *)

(** [i], seen as a 32-bit word, has exactly [t] trailing zeros. *)
Definition has_tz (i t : Z) : Prop :=
  0 <= t < 32 /\ exists o, 0 <= o /\ u32 i = 2 ^ t * (2 * o + 1).

Lemma has_tz_shift i t k :
  has_tz i t -> 0 <= k -> t + k < 32 -> has_tz (i32 (i ≪ k)) (t + k).
Proof.
  intros [Ht (o & Ho & E)] Hk Htk. split; [lia|].
  assert (u32 (i32 (i ≪ k)) = 2 ^ (t + k) * ((2 * o + 1) mod 2 ^ (32 - (t + k)))) as ->.
  { rewrite wrapU_wrapS by lia. unfold wrapU in *.
    rewrite Z.shiftl_mul_pow2, <- Z.mul_mod_idemp_l, E by lia.
    replace (2 ^ t * (2 * o + 1) * 2 ^ k) with (2 ^ (t + k) * (2 * o + 1))
      by (rewrite Z.pow_add_r by lia; lia).
    replace (2 ^ 32) with (2 ^ (t + k) * 2 ^ (32 - (t + k)))
      by (rewrite <- Z.pow_add_r by lia; f_equal; lia).
    apply Z.mul_mod_distr_l; apply Z.pow_nonzero; lia. }
  set (m := 32 - (t + k)).
  assert (2 ^ m = 2 * 2 ^ (m - 1)) as Em
    by (rewrite <- Z.pow_succ_r by (unfold m; lia); f_equal; lia).
  pose proof (Z.pow_pos_nonneg 2 (m - 1) ltac:(lia) ltac:(unfold m; lia)).
  exists (o mod 2 ^ (m - 1)). split; [apply Z.mod_pos_bound; lia|]. f_equal.
  symmetry. apply (Z.mod_unique_pos _ _ (o / 2 ^ (m - 1))).
  - pose proof (Z.mod_pos_bound o (2 ^ (m - 1)) ltac:(lia)). lia.
  - pose proof (Z.div_mod o (2 ^ (m - 1)) ltac:(lia)). nia.
Qed.

Lemma has_tz_zero i t k : has_tz i t -> 0 <= k <= 32 -> i32 (i ≪ k) = 0 <-> 32 <= t + k.
Proof.
  intros [Ht (o & Ho & E)] Hk.
  rewrite wrapS_eq0 by lia.
  unfold wrapU in *. rewrite Z.shiftl_mul_pow2, <- Z.mul_mod_idemp_l, E by lia.
  replace (2 ^ t * (2 * o + 1) * 2 ^ k) with (2 ^ (t + k) * (2 * o + 1))
    by (rewrite Z.pow_add_r by lia; lia).
  split; intros H.
  - destruct (Z.lt_ge_cases (t + k) 32) as [Hlt|]; [|done]. exfalso.
    replace (2 ^ 32) with (2 ^ (t + k) * (2 * 2 ^ (31 - (t + k)))) in H
      by (rewrite <- Z.pow_succ_r, <- Z.pow_add_r by lia; f_equal; lia).
    pose proof (Z.pow_pos_nonneg 2 (t + k) ltac:(lia) ltac:(lia)).
    pose proof (Z.pow_pos_nonneg 2 (31 - (t + k)) ltac:(lia) ltac:(lia)).
    rewrite Z.mul_mod_distr_l in H by lia.
    assert (((2 * o + 1) mod (2 * 2 ^ (31 - (t + k)))) = 0) as H2 by nia.
    apply Z.mod_divide in H2; [|lia]. destruct H2 as [q Hq].
    assert (2 * o + 1 = 2 * (q * 2 ^ (31 - (t + k)))) by lia. lia.
  - replace (2 ^ (t + k)) with (2 ^ 32 * 2 ^ (t + k - 32))
      by (rewrite <- Z.pow_add_r by lia; f_equal; lia).
    rewrite <- Z.mul_assoc, Z.mul_comm. apply Z.mod_mul. lia.
Qed.

(** The state of the search: [n] has gone down by as much as the zeros of the
    word have gone up. *)
Lemma tz_step_inv t0 k n i t :
  0 < k <= 16 -> has_tz i t -> n = 31 + t0 - t -> 32 - 2 * k <= t ->
  exists n' i' t', tz_step k (n, i) = (n', i') /\ has_tz i' t'
    /\ n' = 31 + t0 - t' /\ 32 - k <= t'.
Proof.
  intros Hk Htz Hn Hlow. unfold tz_step.
  destruct (Z.eqb_spec (i32 (i ≪ k)) 0) as [H0|H0]; simpl negb; cbv iota.
  - rewrite (has_tz_zero i t) in H0 by (done || lia). exists n, i, t. split; [done|]. split; [done|]. lia.
  - rewrite (has_tz_zero i t) in H0 by (done || lia).
    exists (n - k), (i32 (i ≪ k)), (t + k).
    split; [done|]. split; [apply has_tz_shift; done || lia|]. lia.
Qed.

(** A word with [31] or [30] trailing zeros: the second-highest bit tells which. *)
Lemma tz_finish i t :
  has_tz i t -> 30 <= t -> u32 (i32 (i ≪ 1)) ≫ 31 = if t =? 30 then 1 else 0.
Proof.
  intros [Ht (o & Ho & E)] Hlow. rewrite wrapU_wrapS by lia. unfold wrapU in *.
  rewrite Z.shiftl_mul_pow2, <- Z.mul_mod_idemp_l, E by lia.
  rewrite Z.shiftr_div_pow2 by lia.
  pose proof (Z.mod_pos_bound i (2 ^ 32)).
  destruct (Z.eqb_spec t 30) as [->|?].
  - assert (o = 0 \/ o = 1) as [-> | ->] by lia; reflexivity.
  - replace t with 31 in * by lia. assert (o = 0) as -> by lia. reflexivity.
Qed.

Lemma ntz32 i t : has_tz i t -> i <> 0 -> NumberOfTrailingZerosI32 i = t.
Proof.
  intros H Hi. unfold NumberOfTrailingZerosI32. destruct (Z.eqb_spec i 0) as [|_]; [lia|].
  assert (0 <= t < 32) as Ht by apply H.
  destruct (tz_step_inv t 16 31 i t) as (n1 & i1 & t1 & -> & H1 & E1 & L1); [done || lia..|].
  destruct (tz_step_inv t 8 n1 i1 t1) as (n2 & i2 & t2 & -> & H2 & E2 & L2); [done || lia..|].
  destruct (tz_step_inv t 4 n2 i2 t2) as (n3 & i3 & t3 & -> & H3 & E3 & L3); [done || lia..|].
  destruct (tz_step_inv t 2 n3 i3 t3) as (n4 & i4 & t4 & -> & H4 & E4 & L4); [done || lia..|].
  rewrite (tz_finish i4 t4) by (done || lia).
  assert (t4 < 32) by apply H4.
  destruct (Z.eqb_spec t4 30); rewrite wrapS_small by (widths; lia); lia.
Qed.

(** Every non-zero word has a number of trailing zeros. *)
Lemma odd_part n x : 0 < x < 2 ^ Z.of_nat n ->
  exists t o, 0 <= t < Z.of_nat n /\ 0 <= o /\ x = 2 ^ t * (2 * o + 1).
Proof.
  revert x. induction n as [|n IH]; intros x Hx; [simpl in Hx; lia|].
  rewrite Nat2Z.inj_succ, Z.pow_succ_r in Hx by lia.
  pose proof (Z.div_mod x 2 ltac:(lia)). pose proof (Z.mod_pos_bound x 2 ltac:(lia)).
  destruct (Z.eq_dec (x mod 2) 0) as [E|E].
  - destruct (IH (x / 2)) as (t & o & Ht & Ho & Eq); [lia|].
    exists (t + 1), o. rewrite Z.pow_add_r by lia. change (2 ^ 1) with 2. split; [lia|]. lia.
  - exists 0, (x / 2). change (2 ^ 0) with 1. split; [lia|]. split; [apply Z.div_pos; lia|lia].
Qed.

Lemma exists_tz i : inS 32 i -> i <> 0 -> exists t, has_tz i t.
Proof.
  intros Hr Hi. pose proof (wrapU_range 32 i ltac:(lia)) as Hu.
  assert (u32 i <> 0) as Hnz.
  { rewrite <- wrapS_eq0, wrapS_small by (done || lia). done. }
  destruct (odd_part 32 (u32 i)) as (t & o & Ht & Ho & E); [unfold inU in Hu; simpl; lia|].
  exists t. split; [simpl in Ht; lia|]. eauto.
Qed.

(** * Capacity and decimal length *)

Lemma ten_power_u64 n : 0 <= n < UINT64_MAX_PRECISION -> TenPowerU64 n = 10 ^ n.
Proof.
  intros H. unfold UINT64_MAX_PRECISION in H.
  assert (forall m, (m < 20)%nat -> TEN_POWERS_TABLE !!! m = 10 ^ Z.of_nat m) as T.
  { intros m Hm. do 20 (destruct m as [|m]; [reflexivity|]). lia. }
  unfold TenPowerU64. rewrite T by lia. rewrite Z2Nat.id by lia. done.
Qed.

(** For each bit length the source's estimate of [log10] is one of the two
    decimal lengths such numbers can have. *)
Definition digit_estimate (l : Z) : Z := ((l + 1) * 1233) ≫ 12.

Definition digit_estimate_ok (l : Z) : bool :=
  let r := digit_estimate l in
  (1 <=? r) && (r <? 20) && (10 ^ (r - 1) <=? 2 ^ (l - 1)) && (2 ^ l <=? 10 ^ (r + 1)).

Lemma digit_estimates l : 4 <= l <= 64 -> digit_estimate_ok l = true.
Proof.
  intros Hl.
  assert (forallb digit_estimate_ok (Z.of_nat <$> seq 4 61) = true) as H by reflexivity.
  rewrite forallb_forall in H. apply H. apply list_elem_of_In, list_elem_of_fmap.
  exists (Z.to_nat l). split; [lia|]. apply elem_of_seq. lia.
Qed.

Lemma digit_length x :
  inU 64 x -> 0 < x -> 10 ^ (DigitLength x - 1) <= x < 10 ^ DigitLength x.
Proof.
  intros Hr Hx. unfold DigitLength. destruct (Z.ltb_spec x 10); [lia|].
  rewrite nlz64 by done. unfold inU in Hr.
  assert (3 <= Z.log2 x < 64) as Hl.
  { split; [apply (Z.log2_le_mono 8); lia|apply Z.log2_lt_pow2; lia]. }
  replace (64 - (63 - Z.log2 x) + 1) with ((Z.log2 x + 1) + 1) by lia.
  rewrite wrapS_small by (widths; lia). fold (digit_estimate (Z.log2 x + 1)).
  pose proof (digit_estimates (Z.log2 x + 1) ltac:(lia)) as Hok.
  unfold digit_estimate_ok in Hok. set (r := digit_estimate _) in *.
  rewrite !andb_true_iff, !Z.leb_le, Z.ltb_lt in Hok.
  rewrite Z.add_simpl_r in Hok. destruct Hok as [[[? ?] ?] ?].
  pose proof (Z.log2_spec x Hx) as Hspec. unfold Z.succ in Hspec.
  rewrite ten_power_u64 by (unfold UINT64_MAX_PRECISION; lia).
  destruct (Z.eqb_spec r UINT64_MAX_PRECISION) as [|_]; [unfold UINT64_MAX_PRECISION in *; lia|].
  destruct (Z.ltb_spec x (10 ^ r)); simpl; [lia|]. rewrite Z.add_simpl_r. lia.
Qed.

Lemma capacity_for_size size :
  0 < size <= INT32_MAX -> size <= GetCapasityForSize size <= INT32_MAX.
Proof.
  intros Hs. unfold GetCapasityForSize, INT32_MAX in *.
  destruct (Z.leb_spec size 8); [lia|]. unfold BitLengthI32, NumberOfLeadingZerosI32.
  rewrite wrapU_small by (widths; lia). rewrite nlz32 by (widths; lia).
  destruct (Z.ltb_spec 30 (32 - (31 - Z.log2 size))); [lia|].
  set (bl := 32 - (31 - Z.log2 size)) in *.
  pose proof (Z.log2_spec size ltac:(lia)) as Hspec.
  replace (Z.succ (Z.log2 size)) with bl in Hspec by (unfold bl; lia).
  assert (2 ^ bl <= 2 ^ 30) by (apply Z.pow_le_mono_r; lia).
  rewrite Z.shiftl_1_l, wrapS_small by (widths; lia).
  destruct (Z.ltb_spec (2 ^ bl) size); lia.
Qed.

Lemma make_u64 hi lo : inU 32 hi -> inU 32 lo -> MakeU64 hi lo = hi * 2 ^ 32 + lo.
Proof.
  intros Hh Hl. unfold MakeU64. unfold inU in *.
  rewrite Z.shiftl_mul_pow2, wrapU_small by (unfold inU; lia).
  symmetry. apply Z.add_nocarry_lor. apply Z.bits_inj'. intros n Hn.
  rewrite Z.land_spec, Z.bits_0, <- Z.shiftl_mul_pow2 by lia.
  destruct (Z.lt_ge_cases n 32).
  - rewrite Z.shiftl_spec_low by lia. done.
  - rewrite (Z.bits_above_log2 lo) by (destruct (Z.eq_dec lo 0) as [->|];
      [simpl; lia|assert (Z.log2 lo < 32) by (apply Z.log2_lt_pow2; lia); lia]).
    apply andb_false_r.
Qed.

(** * Properties *)

(** For every word, [NumberOfLeadingZerosU32] and [NumberOfLeadingZerosU64] return
    the number of zero bits above the highest set bit (the width itself for zero),
    and [BitLengthU32] the position of that bit counted from one. *)
Theorem NumberOfLeadingZeros_correct i :
  (inU 32 i ->
     NumberOfLeadingZerosU32 i = (if i =? 0 then 32 else 31 - Z.log2 i)
     /\ BitLengthU32 i = (if i =? 0 then 0 else Z.log2 i + 1))
  /\ (inU 64 i -> NumberOfLeadingZerosU64 i = if i =? 0 then 64 else 63 - Z.log2 i).
Proof.
  split; intros H; destruct (Z.eqb_spec i 0) as [->|Hnz]; try (split; reflexivity); try reflexivity.
  - rewrite bit_length_u32, nlz32 by (done || unfold inU in H; lia). done.
  - apply nlz64; [done|]. unfold inU in H. lia.
Qed.

Lemma NumberOfLeadingZeros_correct_witness :
  NumberOfLeadingZerosU32 4096 = 31 - Z.log2 4096 /\ BitLengthU32 4096 = Z.log2 4096 + 1
  /\ NumberOfLeadingZerosU64 (2 ^ 40) = 63 - Z.log2 (2 ^ 40).
Proof.
  split; [|split].
  - apply (NumberOfLeadingZeros_correct 4096). split; [lia|reflexivity].
  - apply (NumberOfLeadingZeros_correct 4096). split; [lia|reflexivity].
  - apply (NumberOfLeadingZeros_correct (2 ^ 40)). split; [lia|reflexivity].
Defined.

(** [NumberOfTrailingZerosI32] of a non-zero word is the exponent of the highest
    power of two dividing it, read as an unsigned 32-bit number. *)
Theorem NumberOfTrailingZeros_correct i :
  inS 32 i -> i <> 0 ->
  let t := NumberOfTrailingZerosI32 i in
  0 <= t < 32 /\ exists o, 0 <= o /\ u32 i = 2 ^ t * (2 * o + 1).
Proof.
  intros Hr Hi. destruct (exists_tz i Hr Hi) as [t Ht]. cbv zeta.
  rewrite (ntz32 i t Ht Hi). exact Ht.
Qed.

Lemma NumberOfTrailingZeros_correct_witness :
  let t := NumberOfTrailingZerosI32 (-48) in
  0 <= t < 32 /\ exists o, 0 <= o /\ u32 (-48) = 2 ^ t * (2 * o + 1).
Proof. apply (NumberOfTrailingZeros_correct (-48)); [split; lia || reflexivity|lia]. Defined.

(** [DigitLength] of a positive 64-bit number is its number of decimal digits. *)
Theorem DigitLength_correct x :
  inU 64 x -> 0 < x -> 10 ^ (DigitLength x - 1) <= x < 10 ^ DigitLength x.
Proof. apply digit_length. Qed.

Lemma DigitLength_correct_witness :
  10 ^ (DigitLength 18446744073709551615 - 1) <= 18446744073709551615 < 10 ^ DigitLength 18446744073709551615.
Proof. apply DigitLength_correct; [split; lia || reflexivity|lia]. Defined.
