(* ===== verification/DynArray.v ===== *)
(** The growable array [DynamicSizeArray<T>] of
    [src/src/odbc/include/documentdb/odbc/common/dynamic_size_array.h], which
    holds the magnitude of every [BigInteger].

    The model keeps what the class keeps: a size, a capacity and a block of
    cells, a cell being [None] while no object is constructed in it.  [repr]
    relates an array to the list of its elements, and the theorems show that
    every operation does to that list what its documentation says, whatever the
    reallocations underneath. *)
From S2P Require Import Prelude Bits.

(** * Definitions *)

Record dyn_array (A : Type) : Type := DynArr {
  size : Z;
  capasity : Z;
  cells : list (option A);
}.
Arguments DynArr {A} _ _ _.
Arguments size {A} _.
Arguments capasity {A} _.
Arguments cells {A} _.

Section ops.
Context {A : Type} `{!Inhabited A}.

(** [alloc.Allocate(n)]: a block without objects. *)
Definition allocate (n : Z) : list (option A) := replicate (Z.to_nat n) None.

(** The loops [alloc.Destruct(it)] over the cells [from .. to - 1]. *)
Definition destruct_range (from to : Z) (c : list (option A)) : list (option A) :=
  list_inserts (Z.to_nat from) (replicate (Z.to_nat (to - from)) None) c.

(** The loops [alloc.Construct(data + pos + i, src[i])]. *)
Definition construct_from (pos : Z) (src : list A) (c : list (option A)) : list (option A) :=
  list_inserts (Z.to_nat pos) (Some <$> src) c.

Definition empty_array : dyn_array A := DynArr 0 0 [].

Definition with_length (len : Z) : dyn_array A :=
  let cap := GetCapasityForSize len in
  DynArr 0 cap (allocate cap).

(** [Assign(src, len)]. *)
Definition AssignRange (src : list A) (d : dyn_array A) : dyn_array A :=
  let c := destruct_range 0 (size d) (cells d) in
  let len := Z.of_nat (length src) in
  let '(cap, c) :=
    if capasity d <? len
    then let cap := GetCapasityForSize len in (cap, allocate cap)
    else (capasity d, c) in
  DynArr len cap (construct_from 0 src c).

(** The elements a pass over [data .. data + size - 1] reads; [None] when it
    meets a cell without an object or leaves the block. *)
Definition read_all (d : dyn_array A) : option (list A) :=
  if Z.of_nat (length (cells d)) <? size d then None
  else mapM id (take (Z.to_nat (size d)) (cells d)).

(** [Assign(other)] from another array. *)
Definition Assign (other d : dyn_array A) : dyn_array A :=
  AssignRange (default [] (read_all other)) d.

Definition Swap (d other : dyn_array A) : dyn_array A * dyn_array A := (other, d).

Definition Reserve (newCapacity : Z) (d : dyn_array A) : dyn_array A :=
  if capasity d <? newCapacity then
    let tmp := Assign d (with_length newCapacity) in
    (Swap d tmp).1
  else d.

Definition Append (src : list A) (d : dyn_array A) : dyn_array A :=
  let d := Reserve (size d + Z.of_nat (length src)) d in
  DynArr (size d + Z.of_nat (length src)) (capasity d)
    (construct_from (size d) src (cells d)).

Definition IsEmpty (d : dyn_array A) : bool := size d =? 0.

Definition Clear (d : dyn_array A) : dyn_array A :=
  DynArr 0 (capasity d) (destruct_range 0 (size d) (cells d)).

Definition Resize (newSize : Z) (d : dyn_array A) : dyn_array A :=
  let d := if capasity d <? newSize then Reserve newSize d else d in
  let c :=
    if size d <? newSize
    then construct_from (size d) (replicate (Z.to_nat (newSize - size d)) inhabitant) (cells d)
    else destruct_range newSize (size d) (cells d) in
  DynArr newSize (capasity d) c.

(** [operator[]]: the assertion is [idx < size], and what lies outside the
    constructed cells must not be read. *)
Definition at_index (d : dyn_array A) (idx : Z) : outcome unit A :=
  if (0 <=? idx) && (idx <? size d) then
    match cells d !! Z.to_nat idx with
    | Some (Some x) => Ok x
    | _ => UB
    end
  else UB.

Definition set_index (d : dyn_array A) (idx : Z) (x : A) : outcome unit (dyn_array A) :=
  if (0 <=? idx) && (idx <? size d)
  then Ok (DynArr (size d) (capasity d) (<[Z.to_nat idx := Some x]> (cells d)))
  else UB.

Definition Back (d : dyn_array A) : outcome unit A := at_index d (size d - 1).

Definition Front (d : dyn_array A) : outcome unit A := at_index d 0.

(** [Resize(size + 1); Back() = val]. *)
Definition PushBack (x : A) (d : dyn_array A) : outcome unit (dyn_array A) :=
  let d := Resize (size d + 1) d in
  set_index d (size d - 1) x.

End ops.

(** * Programs over an array, concretely and on lists *)

(** The mutating operations, as a client issues them. *)
Inductive array_op (A : Type) : Type :=
| OpAssign (src : list A)
| OpAppend (src : list A)
| OpClear
| OpReserve (n : Z)
| OpResize (n : Z)
| OpSet (i : nat) (x : A)
| OpPushBack (x : A).
Arguments OpAssign {A} src.
Arguments OpAppend {A} src.
Arguments OpClear {A}.
Arguments OpReserve {A} n.
Arguments OpResize {A} n.
Arguments OpSet {A} i x.
Arguments OpPushBack {A} x.

Section programs.
Context {A : Type} `{!Inhabited A}.

Definition run_op (o : array_op A) (d : dyn_array A) : outcome unit (dyn_array A) :=
  match o with
  | OpAssign src => Ok (AssignRange src d)
  | OpAppend src => Ok (Append src d)
  | OpClear => Ok (Clear d)
  | OpReserve n => Ok (Reserve n d)
  | OpResize n => Ok (Resize n d)
  | OpSet i x => set_index d (Z.of_nat i) x
  | OpPushBack x => PushBack x d
  end.

Fixpoint run_ops (os : list (array_op A)) (d : dyn_array A) : outcome unit (dyn_array A) :=
  match os with
  | [] => Ok d
  | o :: os => let* d := run_op o d in run_ops os d
  end.

(** What the same operation means for the list of elements. *)
Definition spec_op (o : array_op A) (l : list A) : list A :=
  match o with
  | OpAssign src => src
  | OpAppend src => l ++ src
  | OpClear => []
  | OpReserve _ => l
  | OpResize n => resize (Z.to_nat n) inhabitant l
  | OpSet i x => <[i := x]> l
  | OpPushBack x => l ++ [x]
  end.

(** The operation respects its assertion and the range of [int32_t] sizes. *)
Definition op_ok (o : array_op A) (l : list A) : bool :=
  (Z.of_nat (length (spec_op o l)) <=? INT32_MAX)
  && match o with
     | OpReserve n => n <=? INT32_MAX
     | OpResize n => 0 <=? n
     | OpSet i _ => bool_decide (i < length l)%nat
     | _ => true
     end.

Fixpoint ops_ok (os : list (array_op A)) (l : list A) : bool :=
  match os with
  | [] => true
  | o :: os => op_ok o l && ops_ok os (spec_op o l)
  end.

End programs.

(** * The elements an array represents *)

Section repr.
Context {A : Type} `{!Inhabited A}.
Implicit Types (d : dyn_array A) (l src : list A).

(** [d] holds exactly the elements of [l], in a block of its capacity. *)
Definition repr d l : Prop :=
  size d = Z.of_nat (length l)
  /\ capasity d = Z.of_nat (length (cells d))
  /\ capasity d <= INT32_MAX
  /\ take (length l) (cells d) = Some <$> l.

Lemma repr_fits d l : repr d l -> (length l <= length (cells d))%nat.
Proof.
  intros (_ & _ & _ & H). apply (f_equal length) in H.
  rewrite length_take, length_fmap in H. lia.
Qed.

Lemma inserts_split {B} (k c : list B) i :
  (i + length k <= length c)%nat ->
  list_inserts i k c = take i c ++ k ++ drop (i + length k) c.
Proof.
  intros H. apply list_eq. intros j.
  destruct (decide (i <= j < i + length k)%nat) as [[? ?]|Hout].
  - rewrite list_lookup_inserts by lia.
    rewrite lookup_app_r by (rewrite length_take; lia).
    rewrite lookup_app_l by (rewrite length_take; lia).
    rewrite length_take. f_equal. lia.
  - assert (j < i \/ i + length k <= j)%nat as [Hj|Hj] by lia.
    + rewrite list_lookup_inserts_lt by lia.
      rewrite lookup_app_l by (rewrite length_take; lia). by rewrite lookup_take_lt by lia.
    + rewrite list_lookup_inserts_ge by lia.
      rewrite lookup_app_r, length_take by (rewrite length_take; lia).
      rewrite lookup_app_r by lia. rewrite lookup_drop. f_equal. lia.
Qed.

Lemma read_all_repr d l : repr d l -> read_all d = Some l.
Proof.
  intros Hr. pose proof (repr_fits d l Hr). destruct Hr as (Hs & Hc & _ & Ht).
  unfold read_all. rewrite Hs. destruct (Z.ltb_spec (Z.of_nat (length (cells d)))
    (Z.of_nat (length l))); [lia|].
  rewrite Nat2Z.id, Ht. by apply mapM_fmap_Some.
Qed.

Lemma construct_prefix src (c : list (option A)) :
  (length src <= length c)%nat ->
  length (construct_from 0 src c) = length c
  /\ take (length src) (construct_from 0 src c) = Some <$> src.
Proof.
  intros H. unfold construct_from. rewrite length_inserts. split; [done|].
  rewrite inserts_split by (rewrite length_fmap; simpl; lia).
  simpl. rewrite length_fmap. rewrite take_app_le by (rewrite length_fmap; done).
  rewrite take_ge by (rewrite length_fmap; done). done.
Qed.

Lemma length_allocate n : length (allocate (A:=A) n) = Z.to_nat n.
Proof. apply length_replicate. Qed.

(** A prefix of the cells survives writes behind it. *)
Lemma take_inserts_before {B} n i (k c : list B) :
  (n <= i)%nat -> take n (list_inserts i k c) = take n c.
Proof.
  intros H. apply list_eq. intros j. destruct (decide (j < n)%nat).
  - rewrite !lookup_take_lt by lia. apply list_lookup_inserts_lt. lia.
  - rewrite !lookup_take_ge by lia. done.
Qed.

Lemma repr_empty : repr empty_array [].
Proof. repeat split. unfold INT32_MAX. simpl. lia. Qed.

Lemma repr_with_length n : 0 < n <= INT32_MAX -> repr (with_length n) [].
Proof.
  intros H. pose proof (capacity_for_size n H). unfold repr, with_length; simpl.
  rewrite length_allocate. repeat split; lia.
Qed.

Lemma with_length_capacity n :
  0 < n <= INT32_MAX -> n <= capasity (with_length (A:=A) n).
Proof. intros H. pose proof (capacity_for_size n H). simpl. lia. Qed.

Lemma repr_assign_range d l src :
  repr d l -> Z.of_nat (length src) <= INT32_MAX -> repr (AssignRange src d) src.
Proof.
  intros (Hs & Hc & Hmax & Ht) Hlen. unfold AssignRange.
  destruct (Z.ltb_spec (capasity d) (Z.of_nat (length src))).
  - pose proof (capacity_for_size (Z.of_nat (length src)) ltac:(lia)).
    destruct (construct_prefix src (allocate (GetCapasityForSize (Z.of_nat (length src)))))
      as [Hl Htk]; [rewrite length_allocate; lia|].
    unfold repr; simpl. rewrite Hl, length_allocate. repeat split; try done; lia.
  - destruct (construct_prefix src (destruct_range 0 (size d) (cells d)))
      as [Hl Htk]; [unfold destruct_range; rewrite length_inserts; lia|].
    unfold repr; simpl. rewrite Hl. unfold destruct_range. rewrite length_inserts.
    repeat split; done || lia.
Qed.

Lemma repr_assign d other l k :
  repr d l -> repr other k -> Z.of_nat (length k) <= INT32_MAX -> repr (Assign other d) k.
Proof.
  intros Hd Ho Hk. unfold Assign. rewrite (read_all_repr other k Ho). simpl.
  by apply (repr_assign_range d l).
Qed.

Lemma repr_reserve d l n :
  repr d l -> n <= INT32_MAX ->
  repr (Reserve n d) l /\ n <= capasity (Reserve n d).
Proof.
  intros Hr Hn. pose proof (repr_fits d l Hr) as Hfit. destruct (Hr) as (Hs & Hc & Hmax & Ht).
  unfold Reserve. destruct (Z.ltb_spec (capasity d) n); [|done]. simpl.
  pose proof (with_length_capacity n ltac:(lia)) as Hcap.
  split.
  - apply (repr_assign _ _ []); [apply repr_with_length; lia|done|lia].
  - unfold Assign, AssignRange. rewrite (read_all_repr d l Hr). simpl default.
    destruct (Z.ltb_spec (capasity (with_length (A:=A) n)) (Z.of_nat (length l))); [lia|done].
Qed.

(** Writing objects right behind the elements appends them. *)
Lemma repr_construct_end d l k :
  repr d l -> Z.of_nat (length l + length k) <= capasity d ->
  repr (DynArr (size d + Z.of_nat (length k)) (capasity d)
          (construct_from (size d) k (cells d))) (l ++ k).
Proof.
  intros (Hs & Hc & Hmax & Ht) Hfit. unfold repr, construct_from; simpl.
  rewrite length_inserts, length_app, Hs, Nat2Z.id.
  split; [lia|]. split; [lia|]. split; [done|].
  rewrite inserts_split by (rewrite length_fmap; lia). rewrite length_fmap, Ht, app_assoc.
  rewrite take_app_le by (rewrite length_app, !length_fmap; lia).
  rewrite take_ge by (rewrite length_app, !length_fmap; lia).
  by rewrite fmap_app.
Qed.

Lemma repr_resize d l n :
  repr d l -> 0 <= n <= INT32_MAX ->
  repr (Resize n d) (resize (Z.to_nat n) inhabitant l).
Proof.
  intros Hr Hn. unfold Resize.
  set (d' := if capasity d <? n then Reserve n d else d).
  assert (repr d' l /\ n <= capasity d') as [Hr' Hcap].
  { unfold d'. destruct (Z.ltb_spec (capasity d) n); [apply repr_reserve; done || lia|done]. }
  clearbody d'. clear d Hr. pose proof (repr_fits d' l Hr') as Hfit.
  destruct (Hr') as (Hs & Hc & Hmax & Ht).
  destruct (Z.ltb_spec (size d') n).
  - rewrite resize_ge by lia.
    replace (Z.to_nat n - length l)%nat with (Z.to_nat (n - size d')) by lia.
    replace n with (size d' + Z.of_nat (length (replicate (Z.to_nat (n - size d')) (inhabitant : A))))
      at 1 by (rewrite length_replicate; lia).
    apply repr_construct_end; [done|]. rewrite length_replicate. lia.
  - rewrite resize_le by lia. unfold repr, destruct_range; simpl.
    rewrite length_inserts, length_take, Nat.min_l by lia.
    split; [lia|]. split; [lia|]. split; [done|].
    rewrite take_inserts_before by lia. rewrite fmap_take, <- Ht, take_take. f_equal. lia.
Qed.

Lemma repr_clear d l : repr d l -> repr (Clear d) [].
Proof.
  intros (Hs & Hc & Hmax & Ht). unfold repr, Clear, destruct_range; simpl.
  rewrite length_inserts. done.
Qed.

Lemma repr_append d l src :
  repr d l -> Z.of_nat (length l + length src) <= INT32_MAX -> repr (Append src d) (l ++ src).
Proof.
  intros Hr Hlen. destruct (Hr) as (Hs & _).
  destruct (repr_reserve d l (size d + Z.of_nat (length src)) Hr ltac:(lia)) as [Hr' Hcap].
  unfold Append. apply repr_construct_end; [done|]. lia.
Qed.

Lemma repr_at_index d l i x : repr d l -> l !! i = Some x -> at_index d (Z.of_nat i) = Ok x.
Proof.
  intros (Hs & _ & _ & Ht) Hi. pose proof (lookup_lt_Some _ _ _ Hi).
  unfold at_index. rewrite Hs, Nat2Z.id.
  destruct (Z.leb_spec 0 (Z.of_nat i)); [|lia].
  destruct (Z.ltb_spec (Z.of_nat i) (Z.of_nat (length l))); [|lia]. simpl.
  assert (cells d !! i = Some (Some x)) as ->; [|done].
  rewrite <- (lookup_take_lt (cells d) (length l)) by lia.
  by rewrite Ht, list_lookup_fmap, Hi.
Qed.

Lemma repr_set_index d l i x :
  repr d l -> (i < length l)%nat ->
  exists d', set_index d (Z.of_nat i) x = Ok d' /\ repr d' (<[i:=x]> l).
Proof.
  intros Hr Hi. pose proof (repr_fits d l Hr). destruct Hr as (Hs & Hc & Hmax & Ht).
  unfold set_index. rewrite Hs, Nat2Z.id.
  destruct (Z.leb_spec 0 (Z.of_nat i)); [|lia].
  destruct (Z.ltb_spec (Z.of_nat i) (Z.of_nat (length l))); [|lia]. simpl.
  eexists. split; [done|]. unfold repr; simpl. rewrite !length_insert.
  split; [done|]. split; [done|]. split; [done|].
  rewrite list_fmap_insert, <- Ht. by rewrite take_insert_lt.
Qed.

Lemma repr_push_back d l x :
  repr d l -> Z.of_nat (length l) < INT32_MAX ->
  exists d', PushBack x d = Ok d' /\ repr d' (l ++ [x]).
Proof.
  intros Hr Hlen. destruct (Hr) as (Hs & _). unfold PushBack.
  pose proof (repr_resize d l (size d + 1) Hr ltac:(lia)) as Hr'.
  replace (Z.to_nat (size d + 1)) with (S (length l)) in Hr' by lia.
  rewrite resize_ge in Hr' by lia. replace (S (length l) - length l)%nat with 1%nat in Hr' by lia.
  simpl size. replace (size d + 1 - 1) with (Z.of_nat (length l)) by lia.
  destruct (repr_set_index _ _ (length l) x Hr') as (d' & -> & Hd').
  { rewrite length_app. simpl. lia. }
  exists d'. split; [done|]. rewrite insert_app_r_alt in Hd' by lia.
  by rewrite Nat.sub_diag in Hd'.
Qed.

Lemma repr_run_op o d l :
  repr d l -> op_ok o l = true -> exists d', run_op o d = Ok d' /\ repr d' (spec_op o l).
Proof.
  intros Hr Hok. unfold op_ok in Hok. rewrite andb_true_iff, Z.leb_le in Hok.
  destruct Hok as [Hlen Hok].
  destruct o as [src|src| |n|n|i x|x]; cbn [run_op spec_op] in *;
    rewrite ?length_app, ?length_resize, ?length_insert in Hlen.
  - eauto using repr_assign_range.
  - eauto using repr_append with lia.
  - eauto using repr_clear.
  - apply Z.leb_le in Hok. eexists. split; [done|]. by apply repr_reserve.
  - apply Z.leb_le in Hok. eexists. split; [done|]. apply repr_resize; [done|lia].
  - apply bool_decide_eq_true in Hok. by apply repr_set_index.
  - simpl in Hlen. apply repr_push_back; [done|lia].
Qed.

End repr.

(** * Properties *)


Definition sample_program : list (array_op Z) :=
  [OpAppend [1; 2; 3]; OpResize 12; OpSet 11 7; OpPushBack 9; OpReserve 40; OpResize 2].

