(* ===== verification/BigInteger.v ===== *)
(** Arbitrary-precision integers: the class [BigInteger] of
    [src/src/odbc/src/common/big_integer.cpp] and [common/big_integer.h], without
    division (BigDivide.v) and text conversion (BigText.v).

    A value is a sign and a little-endian list of 32-bit limbs, the elements of
    the [DynamicSizeArray] that DynArray.v proves to behave as a list.  Methods
    that the source lets write into one of their operands compute their result
    in a local array first, so they are functions of their operands here. *)
From S2P Require Import Prelude Bits.

(** * Definitions *)

Record BigInteger : Type := BigInt {
  sign : Z;
  mag : list Z;
}.

#[export] Instance BigInteger_eq_dec : EqDecision BigInteger.
Proof. solve_decision. Defined.

Definition big_zero : BigInteger := BigInt 1 [].

Definition AssignUint64 (val : Z) : BigInteger :=
  if val =? 0 then BigInt 1 [] else
  let highWord := u32 (val ≫ 32) in
  if highWord =? 0 then BigInt 1 [u32 val] else BigInt 1 [u32 val; highWord].

(** [-val] is taken in [int64_t]; at [INT64_MIN] it wraps around here, which is
    what the conversion to [uint64_t] right after it expects. *)
Definition AssignInt64 (val : Z) : BigInteger :=
  if val <? 0
  then BigInt (-1) (mag (AssignUint64 (u64 (i64 (- val)))))
  else AssignUint64 (u64 val).

Definition IsNegative (b : BigInteger) : bool := sign b <? 0.
Definition IsZero (b : BigInteger) : bool := bool_decide (length (mag b) = 0%nat).
Definition IsPositive (b : BigInteger) : bool := (0 <? sign b) && negb (IsZero b).

Definition Negate (b : BigInteger) : BigInteger :=
  if IsZero b then b else BigInt (- sign b) (mag b).

Definition GetBitLength (b : BigInteger) : Z :=
  match mag b with
  | [] => 0
  | _ =>
      let n := Z.of_nat (length (mag b)) in
      let res := BitLengthU32 (mag b !!! (length (mag b) - 1)%nat) in
      u32 (if 1 <? n then res + (n - 1) * 32 else res)
  end.

(** [Normalize]: drop the zero limbs at the top. *)
Fixpoint significant (n : nat) (m : list Z) : nat :=
  match n with
  | O => O
  | S k => if m !!! k =? 0 then significant k m else S k
  end.

Definition normalize_mag (m : list Z) : list Z := take (significant (length m) m) m.

Definition Normalize (b : BigInteger) : BigInteger := BigInt (sign b) (normalize_mag (mag b)).

(** The inner loop of [Multiply]: add [m * x] into [res] from limb [i] on. *)
Definition mul_row (m : list Z) (x : Z) (i : nat) (res : list Z) : list Z * Z :=
  for_up (length m)
    (fun j st =>
       let '(res, carry) := st in
       let product := u64 (m !!! j * x + res !!! (i + j)%nat + carry) in
       (<[(i + j)%nat := u32 product]> res, u32 (product ≫ 32)))
    (res, 0).

Definition mul_mag (m other : list Z) : list Z :=
  for_up (length other)
    (fun i res =>
       let '(res, carry) := mul_row m (other !!! i) i res in
       <[(i + length m)%nat := carry]> res)
    (replicate (length m + length other) 0).

Definition Multiply (b other : BigInteger) : BigInteger :=
  Normalize (BigInt (sign b * sign other) (mul_mag (mag b) (mag other))).

(** One pass of the square-and-multiply loop; the state is
    ([*this], [multiplicant], [mutExp]). *)
Definition pow_pass (st : BigInteger * BigInteger * Z)
    : pass (BigInteger * BigInteger * Z) BigInteger :=
  let '(acc, mult, e) := st in
  if e =? 0 then Break acc else
  let acc := if Z.land e 1 =? 0 then acc else Multiply acc mult in
  let e := e ≫ 1 in
  Continue (acc, (if e =? 0 then mult else Multiply mult mult), e).

(** An [int32_t] exponent is shifted to zero in at most 31 passes. *)
Definition pow_loop (b : BigInteger) (exp : Z) : option BigInteger :=
  while 32 pow_pass (AssignInt64 1, b, exp).

Definition Pow (b : BigInteger) (exp : Z) : option BigInteger :=
  if exp <? 0 then Some (AssignInt64 0) else
  let bitsLen := GetBitLength b in
  if bitsLen =? 0 then Some b else
  if bitsLen =? 1 then
    Some (if (Z.rem exp 2 =? 0) && (sign b <? 0) then BigInt (- sign b) (mag b) else b)
  else pow_loop b exp.

(** [Add(res + off, addend, len)]: add [addend] into [res] from limb [off] on. *)
Definition add_mag (res : list Z) (off : nat) (addend : list Z) : list Z * Z :=
  for_up (length addend)
    (fun i st =>
       let '(res, carry) := st in
       let sum := u64 (res !!! (off + i)%nat + addend !!! i + carry) in
       (<[(off + i)%nat := u32 sum]> res, sum ≫ 32))
    (res, 0).

(** [Add(res + i, n, addend)]: ripple a carry through the [n] limbs from [i] on. *)
Fixpoint add_carry (res : list Z) (i n : nat) (carry : Z) : list Z * Z :=
  match n with
  | O => (res, carry)
  | S k =>
      if carry =? 0 then (res, carry) else
      let sum := u64 (res !!! i + carry) in
      add_carry (<[i := u32 sum]> res) (S i) k (sum ≫ 32)
  end.

(** [Add(addend, len)] on the magnitude. *)
Definition add_to_mag (m addend : list Z) : list Z :=
  let len := length addend in
  let m := if bool_decide (length m < len)%nat then resize len 0 m else m in
  let '(m, carry) := add_mag m 0 addend in
  if u32 carry =? 0 then m else
  let '(m, carry) := add_carry m len (length m - len) (u32 carry) in
  if u32 carry =? 0 then m else m ++ [u32 carry].

Definition AddU64 (b : BigInteger) (x : Z) : BigInteger :=
  if x =? 0 then b else
  if IsZero b then AssignUint64 x else
  let lo := u32 x in
  let hi := u32 (x ≫ 32) in
  BigInt (sign b) (add_to_mag (mag b) (if hi =? 0 then [lo] else [lo; hi])).

(** The comparison loop, from limb [n - 1] down. *)
Fixpoint compare_mag (n : nat) (a b : list Z) (mgt : Z) : Z :=
  match n with
  | O => 0
  | S i =>
      if a !!! i =? b !!! i then compare_mag i a b mgt
      else if b !!! i <? a !!! i then mgt
      else - mgt
  end.

Definition Compare (b other : BigInteger) (ignoreSign : bool) : Z :=
  if negb ignoreSign && negb (sign b =? sign other)
  then (if sign other <? sign b then 1 else -1)
  else
  let mgt := if ignoreSign then 1 else sign b in
  let n := length (mag b) in
  let n' := length (mag other) in
  if negb (n =? n')%nat then (if (n' <? n)%nat then mgt else - mgt)
  else compare_mag n (mag b) (mag other) mgt.

Definition GetMagInt (b : BigInteger) (n : nat) : Z :=
  if (length (mag b) <=? n)%nat
  then (if 0 <? sign b then 0 else u32 (-1))
  else u32 (sign b * mag b !!! n).

Definition ToInt64 (b : BigInteger) : Z :=
  i64 (Z.lor (u64 (GetMagInt b 1 ≪ 32)) (GetMagInt b 0)).

(** The source asserts [0 <= pow]. *)
Definition GetPowerOfTen (pow : Z) : option BigInteger :=
  if pow <? UINT64_MAX_PRECISION then Some (AssignUint64 (TenPowerU64 pow))
  else Pow (AssignInt64 10) pow.

Definition GetPrecision (b : BigInteger) : option Z :=
  if IsZero b then Some 1 else
  let r := i32 (u32 (u64 ((GetBitLength b + 1) * 646456993) ≫ 31)) in
  prec ← GetPowerOfTen r;
  Some (if Compare b prec true <? 0 then r else r + 1).

Definition op_eq (a b : BigInteger) : bool := Compare a b false =? 0.
Definition op_ne (a b : BigInteger) : bool := negb (Compare a b false =? 0).
Definition op_lt (a b : BigInteger) : bool := Compare a b false <? 0.
Definition op_le (a b : BigInteger) : bool := Compare a b false <=? 0.
Definition op_gt (a b : BigInteger) : bool := 0 <? Compare a b false.
Definition op_ge (a b : BigInteger) : bool := 0 <=? Compare a b false.

(** * Values and well-formedness *)

(** The radix of the limbs. *)
Definition radix : Z := 2 ^ 32.

Fixpoint mval (m : list Z) : Z :=
  match m with
  | [] => 0
  | d :: t => d + radix * mval t
  end.

Definition value (b : BigInteger) : Z := sign b * mval (mag b).

Definition limbs (m : list Z) : Prop := Forall (inU 32) m.

(** No zero limb at the top. *)
Definition normal (m : list Z) : Prop := last m <> Some 0.

Definition wf (b : BigInteger) : Prop :=
  (sign b = 1 \/ sign b = -1) /\ limbs (mag b) /\ normal (mag b).

(** Well formed, and zero has the positive sign. *)
Definition canonical (b : BigInteger) : Prop := wf b /\ (mag b = [] -> sign b = 1).

#[export] Instance wf_dec b : Decision (wf b).
Proof. unfold wf, limbs, normal. apply _. Defined.
#[export] Instance canonical_dec b : Decision (canonical b).
Proof. unfold canonical. apply _. Defined.

(** * Magnitudes *)

Lemma radix_pos : 0 < radix.
Proof. reflexivity. Qed.

Lemma radix_pow_pos n : 0 < radix ^ Z.of_nat n.
Proof. apply Z.pow_pos_nonneg; [reflexivity|lia]. Qed.

Lemma radix_pow_S n : radix ^ Z.of_nat (S n) = radix * radix ^ Z.of_nat n.
Proof. rewrite Nat2Z.inj_succ, Z.pow_succ_r by lia. done. Qed.

Lemma radix_pow_add n k : radix ^ Z.of_nat (n + k) = radix ^ Z.of_nat n * radix ^ Z.of_nat k.
Proof. rewrite Nat2Z.inj_add. apply Z.pow_add_r; lia. Qed.

Lemma mval_app a b : mval (a ++ b) = mval a + radix ^ Z.of_nat (length a) * mval b.
Proof.
  induction a as [|d a IH]; [simpl; lia|].
  cbn [app mval length]. rewrite IH, radix_pow_S. ring.
Qed.

Lemma mval_replicate n : mval (replicate n 0) = 0.
Proof. induction n as [|n IH]; [done|]. cbn [replicate mval]. rewrite IH. lia. Qed.

Lemma mval_bounds m : limbs m -> 0 <= mval m < radix ^ Z.of_nat (length m).
Proof.
  induction 1 as [|d m Hd Hm IH]; [simpl; lia|].
  cbn [mval length]. rewrite radix_pow_S. unfold inU in Hd. fold radix in Hd. nia.
Qed.

Lemma mval_take_S m i :
  (i < length m)%nat ->
  mval (take (S i) m) = mval (take i m) + m !!! i * radix ^ Z.of_nat i.
Proof.
  intros Hi. destruct (lookup_lt_is_Some_2 m i Hi) as [x Hx].
  rewrite (take_S_r m i x) by done. rewrite mval_app, length_take, Nat.min_l by lia.
  rewrite (list_lookup_total_correct m i x) by done. cbn [mval]. ring.
Qed.

Lemma mval_insert m i x :
  (i < length m)%nat ->
  mval (<[i := x]> m) = mval m + (x - m !!! i) * radix ^ Z.of_nat i.
Proof.
  revert i. induction m as [|d m IH]; intros [|i] Hi; simpl in Hi; try lia.
  - change (<[0%nat := x]> (d :: m)) with (x :: m). change ((d :: m) !!! 0%nat) with d.
    cbn [mval]. change (radix ^ Z.of_nat 0) with 1. ring.
  - cbn [insert list_insert mval]. change (list_insert i x m) with (<[i := x]> m).
    rewrite IH, radix_pow_S by lia. change ((d :: m) !!! S i) with (m !!! i). ring.
Qed.

Lemma limbs_insert m i x : limbs m -> inU 32 x -> limbs (<[i := x]> m).
Proof. intros. by apply Forall_insert. Qed.

Lemma limb_at m i : limbs m -> (i < length m)%nat -> 0 <= m !!! i < radix.
Proof.
  intros H Hi. destruct (lookup_lt_is_Some_2 m i Hi) as [x Hx].
  rewrite (list_lookup_total_correct m i x) by done.
  exact (Forall_lookup_1 _ _ _ _ H Hx).
Qed.

Lemma limbs_replicate n : limbs (replicate n 0).
Proof. apply Forall_replicate. split; reflexivity || lia. Qed.

Lemma limbs_take n m : limbs m -> limbs (take n m).
Proof. apply Forall_take. Qed.

#[export] Hint Resolve limbs_insert limbs_replicate limbs_take wrapU_range radix_pow_pos : mach.

(** A double-word splits into its low limb and its high limb. *)
Lemma split_dword p :
  0 <= p < radix * radix ->
  u64 p = p /\ u32 p + radix * (p ≫ 32) = p /\ inU 32 (u32 p) /\ inU 32 (p ≫ 32).
Proof.
  intros Hp. unfold radix in *. rewrite Z.shiftr_div_pow2 by lia.
  pose proof (Z.div_mod p (2 ^ 32)). pose proof (Z.mod_pos_bound p (2 ^ 32)).
  assert (0 <= p / 2 ^ 32 < 2 ^ 32)
    by (split; [apply Z.div_pos; lia|apply Z.div_lt_upper_bound; lia]).
  split; [apply wrapU_small; unfold inU; lia|]. unfold inU, wrapU. lia.
Qed.

Lemma significant_le n m : (significant n m <= n)%nat.
Proof. induction n as [|n IH]; simpl; [lia|]. destruct (m !!! n =? 0); lia. Qed.

Lemma mval_significant n m :
  (n <= length m)%nat -> mval (take (significant n m) m) = mval (take n m).
Proof.
  induction n as [|n IH]; intros Hn; [done|]. cbn [significant].
  destruct (Z.eqb_spec (m !!! n) 0) as [E|E]; [|done].
  rewrite IH, mval_take_S, E by lia. lia.
Qed.

Lemma mval_normalize m : mval (normalize_mag m) = mval m.
Proof. unfold normalize_mag. rewrite mval_significant by lia. by rewrite take_ge. Qed.

Lemma normal_normalize m : normal (normalize_mag m).
Proof.
  unfold normalize_mag, normal.
  assert (forall n, (n <= length m)%nat -> last (take (significant n m) m) <> Some 0) as H.
  { induction n as [|n IH]; intros Hn; [done|]. cbn [significant].
    destruct (Z.eqb_spec (m !!! n) 0) as [E|E]; [apply IH; lia|].
    destruct (lookup_lt_is_Some_2 m n ltac:(lia)) as [x Hx].
    rewrite (take_S_r m n x), last_snoc by done.
    rewrite (list_lookup_total_correct m n x) in E by done. congruence. }
  by apply H.
Qed.

Lemma limbs_normalize m : limbs m -> limbs (normalize_mag m).
Proof. apply limbs_take. Qed.

Lemma normal_lower m :
  limbs m -> normal m -> m <> [] -> radix ^ Z.of_nat (length m - 1) <= mval m.
Proof.
  intros Hl Hn Hne. destruct m as [|d m] using rev_ind; [done|]. clear IHm.
  unfold normal in Hn. rewrite last_snoc in Hn.
  apply Forall_app in Hl as [Hm Hd]. apply Forall_cons in Hd as [Hd _].
  pose proof (mval_bounds m Hm). rewrite mval_app, length_app. cbn [mval length].
  replace (length m + 1 - 1)%nat with (length m) by lia.
  pose proof (radix_pow_pos (length m)). unfold inU in Hd.
  assert (d <> 0) by congruence. nia.
Qed.

Lemma mval_zero m : limbs m -> normal m -> mval m = 0 <-> m = [].
Proof.
  intros Hl Hn. split; [|by intros ->]. intros H0.
  destruct (decide (m = [])) as [|Hne]; [done|].
  pose proof (normal_lower m Hl Hn Hne). pose proof (radix_pow_pos (length m - 1)). lia.
Qed.

(** * Assignment *)

Lemma canonical_zero : canonical big_zero.
Proof. split; [|done]. split; [by left|]. split; [constructor|done]. Qed.

Lemma assign_u64 v :
  inU 64 v -> canonical (AssignUint64 v) /\ value (AssignUint64 v) = v.
Proof.
  intros Hv. unfold AssignUint64. destruct (Z.eqb_spec v 0) as [->|Hnz];
    [split; [exact canonical_zero|reflexivity]|].
  destruct (split_dword v) as (_ & Hsplit & Hlo & Hhi); [unfold radix; widths; lia|].
  rewrite (wrapU_small 32 (v ≫ 32)) by done. unfold canonical, wf, normal, limbs, value.
  destruct (Z.eqb_spec (v ≫ 32) 0) as [E|E]; cbn [sign mag mval last].
  - rewrite E in Hsplit. split; [|lia].
    split; [|done]. split; [by left|]. split; [auto using List.Forall_cons, List.Forall_nil|]. intros [=]. lia.
  - split; [|lia].
    split; [|done]. split; [by left|]. split; [auto using List.Forall_cons, List.Forall_nil|]. intros [=]. lia.
Qed.

Lemma assign_i64 v :
  inS 64 v -> canonical (AssignInt64 v) /\ value (AssignInt64 v) = v.
Proof.
  intros Hv. unfold AssignInt64. destruct (Z.ltb_spec v 0) as [Hneg|Hpos].
  - assert (u64 (i64 (- v)) = - v) as ->.
    { rewrite wrapU_wrapS by lia. apply wrapU_small. widths. lia. }
    destruct (assign_u64 (- v)) as [[(Hs & Hl & Hn) Hz] Hval]; [widths; lia|].
    unfold value in Hval. split.
    + split; [|cbn [mag sign]; intros E; rewrite E in Hval; simpl in Hval; lia].
      split; [by right|]. done.
    + unfold value. cbn [sign mag].
      assert (sign (AssignUint64 (- v)) = 1) as Hs1.
      { unfold AssignUint64. repeat case_match; done. }
      lia.
  - rewrite wrapU_small by (widths; lia). apply assign_u64. widths. lia.
Qed.

(** * Multiplication *)

Lemma mul_row_spec m x i res :
  limbs m -> inU 32 x -> limbs res -> (i + length m <= length res)%nat ->
  let '(res', carry) := mul_row m x i res in
  length res' = length res /\ limbs res' /\ inU 32 carry
  /\ mval res' + carry * radix ^ Z.of_nat (i + length m)
     = mval res + x * radix ^ Z.of_nat i * mval m
  /\ (forall k, (i + length m <= k)%nat -> res' !!! k = res !!! k).
Proof.
  intros Hm Hx Hres Hfit.
  set (P := fun j (st : list Z * Z) =>
    length st.1 = length res /\ limbs st.1 /\ inU 32 st.2
    /\ mval st.1 + st.2 * radix ^ Z.of_nat (i + j)
       = mval res + x * radix ^ Z.of_nat i * mval (take j m)
    /\ (forall k, (i + j <= k)%nat -> st.1 !!! k = res !!! k)).
  assert (P (length m) (mul_row m x i res)) as HP.
  { unfold mul_row. apply (for_up_ind _ P).
    - unfold P. rewrite take_0. cbn [fst snd mval]. split; [done|]. split; [done|].
      split; [split; [lia|reflexivity]|]. split; [ring|done].
    - intros j [r c] Hj (Hlen & Hl & Hc & Heq & Htail). cbn [fst snd] in *.
      pose proof (limb_at m j Hm Hj) as Hmj.
      pose proof (limb_at r (i + j) Hl ltac:(lia)) as Hrj.
      unfold inU in Hx, Hc. fold radix in Hx, Hc.
      destruct (split_dword (m !!! j * x + r !!! (i + j)%nat + c)) as (-> & Hs & Hlo & Hhi);
        [nia|].
      rewrite (wrapU_small 32 (_ ≫ 32)) by done.
      set (p := m !!! j * x + r !!! (i + j)%nat + c) in *.
      unfold P. cbn [fst snd]. rewrite length_insert. split; [done|].
      split; [by apply limbs_insert|]. split; [done|]. split.
      + rewrite mval_insert, mval_take_S, Nat.add_succ_r, radix_pow_S by lia.
        rewrite radix_pow_add in *.
        set (a := radix ^ Z.of_nat i) in *. set (b := radix ^ Z.of_nat j) in *.
        transitivity (mval r + (u32 p + radix * (p ≫ 32) - r !!! (i + j)%nat) * (a * b)); [ring|].
        rewrite Hs. unfold p. nia.
      + intros k Hk. rewrite list_lookup_total_insert_ne by lia. apply Htail. lia. }
  unfold P in HP. destruct (mul_row m x i res) as [r c]. cbn [fst snd] in HP.
  by rewrite take_ge in HP by lia.
Qed.

Lemma mul_mag_spec m o :
  limbs m -> limbs o -> limbs (mul_mag m o) /\ mval (mul_mag m o) = mval m * mval o.
Proof.
  intros Hm Ho.
  set (P := fun i (r : list Z) =>
    length r = (length m + length o)%nat /\ limbs r
    /\ mval r = mval m * mval (take i o)
    /\ (forall k, (i + length m <= k < length m + length o)%nat -> r !!! k = 0)).
  assert (P (length o) (mul_mag m o)) as (_ & Hl & Hv & _).
  { unfold mul_mag. apply (for_up_ind _ P).
    - unfold P. rewrite length_replicate, mval_replicate. split; [done|].
      split; [apply limbs_replicate|]. split; [rewrite take_0; simpl; lia|].
      intros k Hk. by rewrite lookup_total_replicate_2 by lia.
    - intros i r Hi (Hlen & Hl & Hv & Hz).
      pose proof (limb_at o i Ho Hi) as Hoi.
      pose proof (mul_row_spec m (o !!! i) i r Hm Hoi Hl ltac:(lia)) as Hrow.
      destruct (mul_row m (o !!! i) i r) as [r' c]. destruct Hrow as (Hlen' & Hl' & Hc & Heq & Htl).
      unfold P. rewrite length_insert. split; [lia|]. split; [by apply limbs_insert|]. split.
      + rewrite mval_insert, mval_take_S by lia. rewrite Htl, Hz by lia. nia.
      + intros k Hk. rewrite list_lookup_total_insert_ne, Htl, Hz by lia. done. }
  rewrite take_ge in Hv by lia. done.
Qed.

Lemma multiply_spec a b :
  wf a -> wf b -> wf (Multiply a b) /\ value (Multiply a b) = value a * value b.
Proof.
  intros (Hsa & Hla & Hna) (Hsb & Hlb & Hnb).
  destruct (mul_mag_spec (mag a) (mag b) Hla Hlb) as [Hl Hv].
  unfold Multiply, Normalize, wf, value. cbn [sign mag].
  rewrite mval_normalize, Hv. split.
  - split; [destruct Hsa as [-> | ->], Hsb as [-> | ->]; auto|].
    split; [by apply limbs_normalize|apply normal_normalize].
  - ring.
Qed.

Lemma value_zero b : wf b -> value b = 0 <-> mag b = [].
Proof.
  intros (Hs & Hl & Hn). rewrite <- mval_zero by done. unfold value.
  destruct Hs as [-> | ->]; lia.
Qed.

Lemma value_abs b : wf b -> Z.abs (value b) = mval (mag b).
Proof.
  intros (Hs & Hl & _). pose proof (mval_bounds _ Hl). unfold value.
  destruct Hs as [-> | ->]; lia.
Qed.

Lemma canonical_nonzero b : wf b -> value b <> 0 -> canonical b.
Proof. intros Hw Hv. split; [done|]. intros E. by apply (value_zero b) in E. Qed.

(** * Bit length *)

(** The number of limbs for which the bit length still fits [int32_t]. *)
Definition fits (b : BigInteger) : Prop := Z.of_nat (length (mag b)) < 2 ^ 26.

Lemma log2_mval_snoc m d :
  limbs m -> inU 32 d -> d <> 0 ->
  Z.log2 (mval (m ++ [d])) = 32 * Z.of_nat (length m) + Z.log2 d.
Proof.
  intros Hm Hd Hnz. pose proof (mval_bounds m Hm) as Hb. unfold inU in Hd.
  rewrite mval_app. cbn [mval].
  assert (radix ^ Z.of_nat (length m) = 2 ^ (32 * Z.of_nat (length m))) as E.
  { unfold radix. rewrite <- Z.pow_mul_r by lia. done. }
  rewrite E in *. pose proof (Z.log2_spec d ltac:(lia)) as [Hl Hu].
  pose proof (Z.log2_nonneg d).
  apply Z.log2_unique; [lia|]. unfold Z.succ in *. rewrite <- Z.add_assoc, !Z.pow_add_r by lia.
  rewrite Z.pow_add_r in Hu by lia. nia.
Qed.

Lemma bit_length_spec b :
  wf b -> fits b -> mag b <> [] -> GetBitLength b = Z.log2 (mval (mag b)) + 1.
Proof.
  intros (_ & Hl & Hn) Hfit Hne. unfold GetBitLength, fits, normal in *.
  destruct (mag b) as [|d m _] using rev_ind; [done|]. clear Hne.
  rewrite last_snoc in Hn. apply Forall_app in Hl as [Hm Hd].
  apply Forall_cons in Hd as [Hd _]. assert (d <> 0) by congruence.
  rewrite log2_mval_snoc by done.
  replace (match m ++ [d] with [] => 0 | _ :: _ => _ end) with
    (let n := Z.of_nat (length (m ++ [d])) in
     let res := BitLengthU32 ((m ++ [d]) !!! (length (m ++ [d]) - 1)%nat) in
     u32 (if 1 <? n then res + (n - 1) * 32 else res)) by (destruct m; done).
  cbv zeta. rewrite length_app in *. cbn [length] in *.
  rewrite Nat.add_sub, list_lookup_total_middle by done.
  rewrite bit_length_u32 by (done || unfold inU in Hd; lia).
  unfold inU in Hd. assert (Z.log2 d < 32) by (apply Z.log2_lt_pow2; lia).
  pose proof (Z.log2_nonneg d).
  destruct (Z.ltb_spec 1 (Z.of_nat (length m + 1))); rewrite wrapU_small by (unfold inU; lia); lia.
Qed.

Lemma bit_length_zero b : mag b = [] -> GetBitLength b = 0.
Proof. unfold GetBitLength. by intros ->. Qed.

(** * Powers *)

Lemma land_1 e : Z.land e 1 = e mod 2.
Proof. exact (Z.land_ones e 1 ltac:(lia)). Qed.

Definition pow_measure (st : BigInteger * BigInteger * Z) : nat :=
  if st.2 =? 0 then 0%nat else S (Z.to_nat (Z.log2 st.2)).

Lemma pow_measure_halve a m a' m' e :
  0 < e -> (pow_measure (a', m', e ≫ 1) < pow_measure (a, m, e))%nat.
Proof.
  intros He. unfold pow_measure; cbn [snd].
  destruct (Z.eqb_spec e 0); [lia|]. destruct (Z.eqb_spec (e ≫ 1) 0) as [|E]; [lia|].
  rewrite Z.log2_shiftr by lia.
  assert (1 <= Z.log2 e); [|lia].
  apply Z.nlt_ge. intros Hlog. apply E. apply Z.shiftr_eq_0; lia.
Qed.

Lemma pow_loop_spec b exp :
  wf b -> 0 <= exp < 2 ^ 31 ->
  exists r, pow_loop b exp = Some r /\ wf r /\ value r = value b ^ exp.
Proof.
  intros Hb Hexp. unfold pow_loop.
  apply (while_total _
    (fun st => wf st.1.1 /\ wf st.1.2 /\ 0 <= st.2
               /\ value st.1.1 * value st.1.2 ^ st.2 = value b ^ exp)
    (fun r => wf r /\ value r = value b ^ exp) pow_measure).
  - destruct (assign_i64 1) as [[Hw _] Hv]; [split; reflexivity || lia|]. cbn [fst snd].
    rewrite Hv. split; [done|]. split; [done|]. lia.
  - unfold pow_measure. cbn [snd]. destruct (Z.eqb_spec exp 0); [lia|].
    assert (Z.log2 exp < 31) by (apply Z.log2_lt_pow2; lia). lia.
  - intros [[acc mult] e] (Ha & Hm & He & Heq). cbn [fst snd] in *. unfold pow_pass.
    destruct (Z.eqb_spec e 0) as [->|Hnz]; [split; [done|]; rewrite <- Heq; ring|].
    split; [|apply pow_measure_halve; lia]. cbn [fst snd].
    destruct (multiply_spec acc mult Ha Hm) as [Hwa Hva].
    destruct (multiply_spec mult mult Hm Hm) as [Hwm Hvm].
    split; [by case_match|]. split; [by case_match|].
    rewrite land_1, Z.shiftr_div_pow2 by lia. change (2 ^ 1) with 2.
    pose proof (Z.div_mod e 2 ltac:(lia)) as Hdm. pose proof (Z.mod_pos_bound e 2 ltac:(lia)).
    split; [apply Z.div_pos; lia|]. rewrite <- Heq.
    set (h := e / 2) in *. assert (0 <= h) by (apply Z.div_pos; lia).
    assert (value mult ^ e = (value mult * value mult) ^ h * value mult ^ (e mod 2)) as Hpow.
    { rewrite Hdm at 1. rewrite Z.pow_add_r, Z.pow_mul_r by lia. do 2 f_equal. ring. }
    rewrite Hpow. assert (value (if h =? 0 then mult else Multiply mult mult) ^ h
      = (value mult * value mult) ^ h) as ->.
    { destruct (Z.eqb_spec h 0) as [->|]; [done|]. by rewrite Hvm. }
    destruct (Z.eqb_spec (e mod 2) 0) as [E|E].
    + rewrite E. ring.
    + replace (e mod 2) with 1 by lia. rewrite Hva. ring.
Qed.

Lemma unit_mag b : wf b -> fits b -> GetBitLength b = 1 -> mval (mag b) = 1.
Proof.
  intros Hw Hf Hbl. destruct (decide (mag b = [])) as [E|E].
  { rewrite bit_length_zero in Hbl by done. lia. }
  rewrite bit_length_spec in Hbl by done. destruct Hw as (_ & Hl & Hn).
  pose proof (normal_lower _ Hl Hn E). pose proof (radix_pow_pos (length (mag b) - 1)).
  pose proof (Z.log2_spec (mval (mag b)) ltac:(lia)) as [Hlo Hhi].
  replace (Z.log2 (mval (mag b))) with 0 in * by lia. simpl in *. lia.
Qed.

Lemma pow_spec b exp :
  wf b -> fits b -> 0 <= exp < 2 ^ 31 -> (value b <> 0 \/ exp <> 0) ->
  exists r, Pow b exp = Some r /\ wf r /\ value r = value b ^ exp.
Proof.
  intros Hw Hf Hexp Hne. unfold Pow. destruct (Z.ltb_spec exp 0); [lia|].
  destruct (decide (mag b = [])) as [E|E].
  { rewrite bit_length_zero by done. simpl. exists b. split; [done|]. split; [done|].
    assert (value b = 0) as E0 by (by apply value_zero). rewrite E0, Z.pow_0_l by lia. done. }
  pose proof (Hw) as (Hs & Hl & Hn). pose proof (normal_lower _ Hl Hn E).
  pose proof (radix_pow_pos (length (mag b) - 1)).
  pose proof (Z.log2_nonneg (mval (mag b))).
  destruct (Z.eqb_spec (GetBitLength b) 0) as [E0|_]; [rewrite bit_length_spec in E0 by done; lia|].
  destruct (Z.eqb_spec (GetBitLength b) 1) as [E1|_]; [|by apply pow_loop_spec].
  apply unit_mag in E1; [|done..]. eexists. split; [done|].
  assert (exp = 2 * (exp / 2) + exp mod 2) as Hdm by (apply Z.div_mod; lia).
  assert (Z.rem exp 2 = exp mod 2) as Hrem by (apply Z.rem_mod_nonneg; lia).
  pose proof (Z.mod_pos_bound exp 2 ltac:(lia)). assert (0 <= exp / 2) by (apply Z.div_pos; lia).
  unfold value. rewrite E1, !Z.mul_1_r.
  assert (forall s, s = 1 \/ s = -1 -> s ^ exp = s ^ (exp mod 2)) as Hunit.
  { intros s Hsq. rewrite Hdm at 1. rewrite Z.pow_add_r, Z.pow_mul_r by lia.
    replace (s ^ 2) with 1 by (destruct Hsq as [-> | ->]; reflexivity).
    rewrite Z.pow_1_l by lia. ring. }
  rewrite Hunit, Hrem by done.
  destruct Hs as [Hs|Hs]; rewrite Hs; simpl (_ <? 0); rewrite ?andb_false_r, ?andb_true_r.
  - cbn [mag sign]. rewrite E1, Z.pow_1_l by lia. split; [done|lia].
  - destruct (Z.eqb_spec (exp mod 2) 0) as [Em|Em]; cbn [mag sign]; rewrite E1.
    + rewrite Em. split; [split; [by left|done]|reflexivity].
    + replace (exp mod 2) with 1 by lia. split; [done|lia].
Qed.

Lemma canonical_pow b exp r :
  canonical b -> wf r -> value r = value b ^ exp -> value b <> 0 -> 0 <= exp -> canonical r.
Proof.
  intros Hb Hr Hv Hnz Hexp. apply canonical_nonzero; [done|]. rewrite Hv.
  apply Z.pow_nonzero; lia.
Qed.

Lemma power_of_ten n :
  0 <= n < 2 ^ 31 ->
  exists r, GetPowerOfTen n = Some r /\ canonical r /\ value r = 10 ^ n.
Proof.
  intros Hn. unfold GetPowerOfTen. destruct (Z.ltb_spec n UINT64_MAX_PRECISION) as [Hs|Hs].
  - eexists. split; [done|]. rewrite ten_power_u64 by lia. apply assign_u64.
    unfold UINT64_MAX_PRECISION, inU in *. split; [apply Z.pow_nonneg; lia|].
    apply Z.le_lt_trans with (10 ^ 19); [apply Z.pow_le_mono_r; lia|reflexivity].
  - destruct (assign_i64 10) as [Hc Hv]; [split; reflexivity || lia|].
    destruct (pow_spec (AssignInt64 10) n) as (r & -> & Hr & Hvr);
      [apply Hc|reflexivity|done|lia|].
    exists r. split; [done|]. rewrite Hv in Hvr. split; [|done].
    apply (canonical_pow (AssignInt64 10) n); rewrite ?Hv; done || lia.
Qed.

(** * Addition *)

Lemma add_mag_spec res off addend :
  limbs res -> limbs addend -> (off + length addend <= length res)%nat ->
  let '(res', carry) := add_mag res off addend in
  length res' = length res /\ limbs res' /\ 0 <= carry <= 1
  /\ mval res' + carry * radix ^ Z.of_nat (off + length addend)
     = mval res + radix ^ Z.of_nat off * mval addend
  /\ (forall k, (off + length addend <= k)%nat -> res' !!! k = res !!! k).
Proof.
  intros Hres Hadd Hfit.
  set (P := fun j (st : list Z * Z) =>
    length st.1 = length res /\ limbs st.1 /\ 0 <= st.2 <= 1
    /\ mval st.1 + st.2 * radix ^ Z.of_nat (off + j)
       = mval res + radix ^ Z.of_nat off * mval (take j addend)
    /\ (forall k, (off + j <= k)%nat -> st.1 !!! k = res !!! k)).
  assert (P (length addend) (add_mag res off addend)) as HP.
  { unfold add_mag. apply (for_up_ind _ P).
    - unfold P. rewrite take_0. cbn [fst snd mval]. split; [done|]. split; [done|].
      split; [lia|]. split; [ring|done].
    - intros j [r c] Hj (Hlen & Hl & Hc & Heq & Htail). cbn [fst snd] in *.
      pose proof (limb_at addend j Hadd Hj) as Haj.
      pose proof (limb_at r (off + j) Hl ltac:(lia)) as Hrj.
      set (p := r !!! (off + j)%nat + addend !!! j + c) in *.
      assert (0 <= p < 2 * radix) as Hp by (unfold p; lia).
      destruct (split_dword p) as (-> & Hs & Hlo & Hhi); [unfold radix in *; lia|].
      unfold P. cbn [fst snd]. rewrite length_insert. split; [done|].
      split; [by apply limbs_insert|]. unfold inU in Hlo, Hhi. fold radix in Hlo, Hhi.
      split; [unfold radix in *; lia|]. split.
      + rewrite mval_insert, mval_take_S, Nat.add_succ_r, radix_pow_S by lia.
        rewrite radix_pow_add in *.
        set (a := radix ^ Z.of_nat off) in *. set (b := radix ^ Z.of_nat j) in *.
        transitivity (mval r + (u32 p + radix * (p ≫ 32) - r !!! (off + j)%nat) * (a * b)); [ring|].
        rewrite Hs. unfold p. nia.
      + intros k Hk. rewrite list_lookup_total_insert_ne by lia. apply Htail. lia. }
  unfold P in HP. destruct (add_mag res off addend) as [r c]. cbn [fst snd] in HP.
  by rewrite take_ge in HP by lia.
Qed.

Lemma add_carry_spec n res i c :
  limbs res -> 0 <= c < radix -> (i + n = length res)%nat ->
  let '(res', carry) := add_carry res i n c in
  length res' = length res /\ limbs res' /\ 0 <= carry < radix
  /\ mval res' + carry * radix ^ Z.of_nat (length res)
     = mval res + c * radix ^ Z.of_nat i.
Proof.
  revert res i c. induction n as [|n IH]; intros res i c Hl Hc Hlen.
  - simpl. replace (length res) with i by lia. done.
  - cbn [add_carry]. destruct (Z.eqb_spec c 0) as [->|Hnz];
      [split; [done|]; split; [done|]; lia|].
    pose proof (limb_at res i Hl ltac:(lia)) as Hri.
    set (p := res !!! i + c) in *.
    destruct (split_dword p) as (-> & Hs & Hlo & Hhi); [unfold p, radix in *; lia|].
    unfold inU in Hhi. fold radix in Hhi.
    specialize (IH (<[i := u32 p]> res) (S i) (p ≫ 32)).
    rewrite length_insert in IH. specialize (IH (limbs_insert _ _ _ Hl Hlo) Hhi ltac:(lia)).
    destruct (add_carry (<[i := u32 p]> res) (S i) n (p ≫ 32)) as [r' c'].
    destruct IH as (? & ? & ? & Heq). split; [done|]. split; [done|]. split; [done|].
    rewrite Heq, mval_insert, radix_pow_S by lia.
    transitivity (mval res + (u32 p + radix * (p ≫ 32) - res !!! i) * radix ^ Z.of_nat i); [ring|].
    rewrite Hs. unfold p. ring.
Qed.

(** The top limb is not zero exactly when the magnitude needs it. *)
Lemma normal_by_value m :
  limbs m -> normal m <-> m = [] \/ radix ^ Z.of_nat (length m - 1) <= mval m.
Proof.
  intros Hl. split.
  - intros Hn. destruct (decide (m = [])); [by left|right]. by apply normal_lower.
  - intros [->|Hge]; [done|]. destruct m as [|d m _] using rev_ind; [done|].
    unfold normal. rewrite last_snoc. intros [= ->]. apply Forall_app in Hl as [Hm _].
    pose proof (mval_bounds m Hm). rewrite mval_app, length_app in Hge. cbn [mval length] in Hge.
    replace (length m + 1 - 1)%nat with (length m) in Hge by lia. lia.
Qed.

(** Magnitudes only grow, so a sum that keeps the longer length keeps its top limb. *)
Lemma normal_sum m a r :
  limbs m -> limbs a -> limbs r -> normal m -> normal a -> mval r = mval m + mval a ->
  length r = Nat.max (length m) (length a) -> normal r.
Proof.
  intros Hm Ha Hr Hnm Hna Hv Hlen. apply normal_by_value; [done|].
  apply normal_by_value in Hnm, Hna; [|done..].
  pose proof (mval_bounds m Hm). pose proof (mval_bounds a Ha).
  destruct (Nat.max_spec (length m) (length a)) as [[? E]|[? E]]; rewrite E in Hlen; rewrite Hlen.
  - destruct Hna as [->|?]; [simpl in *; lia|]. right. lia.
  - destruct Hnm as [->|?]; [left; by apply length_zero_iff_nil|]. right. lia.
Qed.

Lemma add_to_mag_spec m addend :
  limbs m -> limbs addend ->
  limbs (add_to_mag m addend) /\ mval (add_to_mag m addend) = mval m + mval addend
  /\ (normal m -> normal addend -> normal (add_to_mag m addend)).
Proof.
  intros Hm Ha. unfold add_to_mag.
  set (m' := if bool_decide _ then _ else m).
  assert (limbs m' /\ mval m' = mval m /\ length m' = Nat.max (length m) (length addend))
    as (Hm' & Hv' & Hlen).
  { unfold m'. case_bool_decide; [|split; [done|]; split; [done|lia]].
    rewrite resize_ge by lia. split; [apply Forall_app; split; [done|apply limbs_replicate]|].
    rewrite mval_app, mval_replicate, length_app, length_replicate. lia. }
  clearbody m'. pose proof (add_mag_spec m' 0 addend Hm' Ha ltac:(lia)) as Hadd.
  destruct (add_mag m' 0 addend) as [r c]. destruct Hadd as (Hl1 & Hl2 & Hc & Heq & _).
  rewrite Nat.add_0_l in Heq. change (radix ^ Z.of_nat 0) with 1 in Heq.
  rewrite (wrapU_small 32 c) by (unfold inU; lia).
  destruct (Z.eqb_spec c 0) as [->|Hnz].
  { split; [done|]. split; [lia|]. intros. apply (normal_sum m addend); done || lia. }
  pose proof (add_carry_spec (length r - length addend) r (length addend) c
    Hl2 ltac:(unfold radix; lia) ltac:(lia)) as Hcar.
  destruct (add_carry r (length addend) (length r - length addend) c) as [r' c'].
  destruct Hcar as (Hl3 & Hl4 & Hc' & Heq').
  rewrite (wrapU_small 32 c') by done.
  destruct (Z.eqb_spec c' 0) as [->|Hnz'].
  { split; [done|]. split; [lia|]. intros. apply (normal_sum m addend); done || lia. }
  split; [apply Forall_app; split; [done|auto using List.Forall_cons, List.Forall_nil]|].
  rewrite mval_app, Hl3. cbn [mval]. split; [lia|].
  intros _ _. unfold normal. rewrite last_snoc. congruence.
Qed.


(** [Add] adds to the magnitude and leaves the sign alone. *)
Lemma add_u64_spec b x :
  wf b -> inU 64 x ->
  wf (AddU64 b x) /\ mval (mag (AddU64 b x)) = mval (mag b) + x
  /\ (mag b <> [] -> sign (AddU64 b x) = sign b).
Proof.
  intros Hw Hx. unfold AddU64. destruct (Z.eqb_spec x 0) as [->|Hnz].
  { split; [done|]. split; [lia|done]. }
  destruct (assign_u64 x Hx) as [[Hwx _] Hvx].
  assert (sign (AssignUint64 x) = 1) as Hsx by (unfold AssignUint64; repeat case_match; done).
  unfold value in Hvx. rewrite Hsx, Z.mul_1_l in Hvx.
  unfold IsZero. case_bool_decide as Hz.
  { apply length_zero_iff_nil in Hz. rewrite Hz. split; [done|]. split; [simpl; lia|done]. }
  destruct Hwx as (_ & Hlx & Hnx).
  assert (mag (AssignUint64 x)
    = if u32 (x ≫ 32) =? 0 then [u32 x] else [u32 x; u32 (x ≫ 32)]) as E.
  { unfold AssignUint64. destruct (Z.eqb_spec x 0); [done|]. by case_match. }
  rewrite E in Hlx, Hnx, Hvx. destruct Hw as (Hs & Hl & Hn).
  destruct (add_to_mag_spec (mag b) _ Hl Hlx) as (Hl' & Hv' & Hn').
  cbn [mag sign]. rewrite Hv', Hvx. split; [|done].
  split; [done|]. split; [done|by apply Hn'].
Qed.

(** * Comparison *)

(** The [int32_t] a comparison returns, scaled by what "greater" means. *)
Definition cmp_int (mgt : Z) (c : comparison) : Z :=
  match c with Eq => 0 | Gt => mgt | Lt => - mgt end.

Lemma compare_mag_spec n a b mgt :
  limbs a -> limbs b -> (n <= length a)%nat -> (n <= length b)%nat ->
  compare_mag n a b mgt = cmp_int mgt (mval (take n a) ?= mval (take n b)).
Proof.
  intros Ha Hb. induction n as [|n IH]; intros Hna Hnb; [by rewrite !take_0|].
  cbn [compare_mag]. rewrite !mval_take_S by lia.
  pose proof (mval_bounds (take n a) (limbs_take _ _ Ha)) as Ba.
  pose proof (mval_bounds (take n b) (limbs_take _ _ Hb)) as Bb.
  rewrite length_take, Nat.min_l in Ba, Bb by lia.
  set (x := a !!! n). set (y := b !!! n). set (p := radix ^ Z.of_nat n) in *.
  destruct (Z.eqb_spec x y) as [->|Hne].
  - rewrite IH by lia. f_equal. rewrite !(Z.add_comm _ (y * p)). symmetry. apply Zcompare_plus_compat.
  - destruct (Z.ltb_spec y x); symmetry; unfold cmp_int.
    + assert (mval (take n b) + y * p < mval (take n a) + x * p) as Hlt by nia.
      apply Z.lt_gt in Hlt. by rewrite Hlt.
    + assert (mval (take n a) + x * p < mval (take n b) + y * p) as Hlt by nia.
      by rewrite Hlt.
Qed.

(** Normal magnitudes of different lengths are ordered by length. *)
Lemma mval_lt_length a b :
  limbs a -> limbs b -> normal b -> (length a < length b)%nat -> mval a < mval b.
Proof.
  intros Ha Hb Hn Hlen. pose proof (mval_bounds a Ha).
  assert (b <> []) as Hne by (intros ->; simpl in *; lia).
  pose proof (normal_lower b Hb Hn Hne).
  assert (radix ^ Z.of_nat (length a) <= radix ^ Z.of_nat (length b - 1))
    by (apply Z.pow_le_mono_r; [reflexivity|lia]).
  lia.
Qed.

Lemma compare_magnitudes a b mgt :
  wf a -> wf b ->
  (if negb (length (mag a) =? length (mag b))%nat
   then (if (length (mag b) <? length (mag a))%nat then mgt else - mgt)
   else compare_mag (length (mag a)) (mag a) (mag b) mgt)
  = cmp_int mgt (mval (mag a) ?= mval (mag b)).
Proof.
  intros (_ & Ha & Hna) (_ & Hb & Hnb).
  destruct (Nat.eqb_spec (length (mag a)) (length (mag b))) as [E|E]; simpl.
  - rewrite compare_mag_spec by (done || lia). by rewrite !take_ge by lia.
  - destruct (Nat.ltb_spec (length (mag b)) (length (mag a))) as [L|L].
    + pose proof (mval_lt_length (mag b) (mag a) Hb Ha Hna L) as Hlt.
      apply Z.lt_gt in Hlt. by rewrite Hlt.
    + pose proof (mval_lt_length (mag a) (mag b) Ha Hb Hnb ltac:(lia)) as Hlt. by rewrite Hlt.
Qed.

Lemma compare_abs a b :
  wf a -> wf b -> Compare a b true = cmp_int 1 (mval (mag a) ?= mval (mag b)).
Proof. intros Ha Hb. unfold Compare. simpl. by apply compare_magnitudes. Qed.

Lemma compare_signed a b :
  canonical a -> canonical b -> Compare a b false = cmp_int 1 (value a ?= value b).
Proof.
  intros [Ha Hza] [Hb Hzb]. unfold Compare. cbn [negb andb].
  pose proof (mval_bounds (mag a) (proj1 (proj2 Ha))) as Ba.
  pose proof (mval_bounds (mag b) (proj1 (proj2 Hb))) as Bb.
  pose proof (mval_zero (mag a) (proj1 (proj2 Ha)) (proj2 (proj2 Ha))) as Za.
  pose proof (mval_zero (mag b) (proj1 (proj2 Hb)) (proj2 (proj2 Hb))) as Zb.
  destruct (Z.eqb_spec (sign a) (sign b)) as [E|E].
  - cbn [negb]. rewrite compare_magnitudes by done. unfold value. rewrite E.
    destruct (proj1 Hb) as [-> | ->]; [by rewrite !Z.mul_1_l|].
    unfold cmp_int. destruct (Z.compare_spec (mval (mag a)) (mval (mag b))),
      (Z.compare_spec (-1 * mval (mag a)) (-1 * mval (mag b))); lia.
  - cbn [negb]. unfold value.
    destruct (proj1 Ha) as [Ea|Ea], (proj1 Hb) as [Eb|Eb]; rewrite Ea, Eb in *; try done; simpl (_ <? _).
    + assert (mag b <> []) by (intros E'; discriminate (Hzb E')).
      assert (-1 * mval (mag b) < 1 * mval (mag a)) as Hlt by (destruct (decide (mval (mag b) = 0)); [tauto|lia]).
      apply Z.lt_gt in Hlt. by rewrite Hlt.
    + assert (mag a <> []) by (intros E'; discriminate (Hza E')).
      assert (-1 * mval (mag a) < 1 * mval (mag b)) as Hlt by (destruct (decide (mval (mag a) = 0)); [tauto|lia]).
      by rewrite Hlt.
Qed.

(** * Conversion to [int64_t] *)

Lemma mag_int_pos b n :
  limbs (mag b) -> sign b = 1 -> GetMagInt b n = default 0 (mag b !! n).
Proof.
  intros Hl Hs. unfold GetMagInt. rewrite Hs. destruct (Nat.leb_spec (length (mag b)) n).
  - by rewrite lookup_ge_None_2 by lia.
  - destruct (lookup_lt_is_Some_2 (mag b) n ltac:(lia)) as [x Hx].
    rewrite (list_lookup_total_correct _ _ x), Hx by done. simpl default.
    rewrite Z.mul_1_l. apply wrapU_small. exact (Forall_lookup_1 _ _ _ _ Hl Hx).
Qed.

(** A non-negative value keeps its low 64 bits. *)
Lemma to_int64_nonneg b : wf b -> sign b = 1 -> ToInt64 b = i64 (value b).
Proof.
  intros (_ & Hl & _) Hs. unfold ToInt64, value. rewrite Hs, Z.mul_1_l.
  rewrite !mag_int_pos by done.
  assert (inU 32 0) as H0 by (split; [lia|reflexivity]).
  assert (forall d0 d1 h, inU 32 d0 -> inU 32 d1 ->
    i64 (Z.lor (u64 (d1 ≪ 32)) d0) = i64 (d0 + radix * (d1 + radix * h))) as Hgen.
  { intros d0 d1 h Hd0 Hd1. pose proof (make_u64 d1 d0 Hd1 Hd0) as Hm. unfold MakeU64 in Hm.
    rewrite Hm. unfold wrapS, radix.
    rewrite <- (Z.mod_add (d1 * 2 ^ 32 + d0 + 2 ^ (64 - 1)) h (2 ^ 64)) by lia.
    do 2 f_equal. change (2 ^ 64) with (2 ^ 32 * 2 ^ 32). ring. }
  destruct (mag b) as [|d0 [|d1 m]]; cbn [mval lookup list_lookup default].
  - exact (Hgen 0 0 0 H0 H0).
  - apply Forall_cons in Hl as [Hd0 _]. exact (Hgen d0 0 0 Hd0 H0).
  - apply Forall_cons in Hl as [Hd0 Hl]. apply Forall_cons in Hl as [Hd1 _].
    exact (Hgen d0 d1 (mval m) Hd0 Hd1).
Qed.

(** The two's-complement reading of a negative value misses the borrow between
    the two limbs. *)
Lemma to_int64_negative d0 d1 :
  0 < d0 < radix -> 0 <= d1 < radix ->
  ToInt64 (BigInt (-1) [d0; d1]) = i64 (value (BigInt (-1) [d0; d1]) + radix).
Proof.
  intros H0 H1. unfold ToInt64, GetMagInt, value. cbn [sign mag length Nat.leb mval].
  change ([d0; d1] !!! 0%nat) with d0. change ([d0; d1] !!! 1%nat) with d1.
  assert (u32 (-1 * d0) = radix - d0) as ->.
  { unfold wrapU, radix in *. symmetry. apply (Z.mod_unique_pos _ _ (-1)); lia. }
  pose proof (wrapU_range 32 (-1 * d1) ltac:(lia)) as Hr.
  pose proof (make_u64 (u32 (-1 * d1)) (radix - d0) Hr ltac:(unfold inU, radix in *; lia)) as Hm.
  unfold MakeU64 in Hm. rewrite Hm. unfold wrapS, wrapU, radix in *.
  pose proof (Z.div_mod (-1 * d1) (2 ^ 32) ltac:(lia)) as Hdm.
  rewrite <- (Z.mod_add (-1 * (d0 + 2 ^ 32 * (d1 + 2 ^ 32 * 0)) + 2 ^ 32 + 2 ^ (64 - 1))
    (- (-1 * d1 / 2 ^ 32)) (2 ^ 64)) by lia.
  do 2 f_equal. lia.
Qed.

(** * Properties *)

(** [Multiply] of two well-formed big integers is well formed and its value is
    the product of their values, whatever their lengths. *)
Theorem Multiply_correct a b :
  wf a -> wf b -> wf (Multiply a b) /\ value (Multiply a b) = value a * value b.
Proof. apply multiply_spec. Qed.

Lemma Multiply_correct_witness :
  wf (Multiply (BigInt (-1) [4294967295; 4294967295]) (BigInt 1 [4294967295; 7]))
  /\ value (Multiply (BigInt (-1) [4294967295; 4294967295]) (BigInt 1 [4294967295; 7]))
     = value (BigInt (-1) [4294967295; 4294967295]) * value (BigInt 1 [4294967295; 7]).
Proof. apply Multiply_correct; apply (bool_decide_unpack _); vm_compute; exact I. Defined.

(** [Pow] with an [int32_t] exponent that is not negative returns, and its
    result is the power of the value; zero to the power zero is left out. *)
Theorem Pow_correct b exp :
  wf b -> fits b -> 0 <= exp < 2 ^ 31 -> value b <> 0 \/ exp <> 0 ->
  exists r, Pow b exp = Some r /\ wf r /\ value r = value b ^ exp.
Proof. apply pow_spec. Qed.

Lemma Pow_correct_witness :
  exists r, Pow (BigInt (-1) [10]) 25 = Some r /\ wf r /\ value r = value (BigInt (-1) [10]) ^ 25.
Proof.
  apply Pow_correct; [apply (bool_decide_unpack _); vm_compute; exact I|reflexivity|lia|].
  right. lia.
Defined.

(** [Compare] orders well-formed values as their magnitudes when the sign is
    ignored and, when zeros carry the positive sign, as the integers they stand for. *)
Theorem Compare_correct a b :
  (wf a -> wf b ->
     Compare a b true = match Z.abs (value a) ?= Z.abs (value b) with Lt => -1 | Eq => 0 | Gt => 1 end)
  /\ (canonical a -> canonical b ->
     Compare a b false = match value a ?= value b with Lt => -1 | Eq => 0 | Gt => 1 end).
Proof.
  split; intros Ha Hb.
  - rewrite compare_abs, !value_abs by done. done.
  - rewrite compare_signed by done. done.
Qed.

Lemma Compare_correct_witness :
  Compare (BigInt (-1) [5; 1]) (BigInt 1 [9]) true = 1
  /\ Compare (BigInt (-1) [5; 1]) (BigInt 1 [9]) false = -1.
Proof.
  split.
  - rewrite (proj1 (Compare_correct (BigInt (-1) [5; 1]) (BigInt 1 [9])));
      [reflexivity|apply (bool_decide_unpack _); vm_compute; exact I..].
  - rewrite (proj2 (Compare_correct (BigInt (-1) [5; 1]) (BigInt 1 [9])));
      [reflexivity|apply (bool_decide_unpack _); vm_compute; exact I..].
Defined.

(** [Add] of an unsigned 64-bit number adds it to the magnitude and keeps the
    sign; so it adds to the value of a non-negative integer, and subtracts from a
    negative one. *)
Theorem AddU64_correct b x :
  wf b -> inU 64 x ->
  wf (AddU64 b x)
  /\ (mag b <> [] -> value (AddU64 b x) = value b + sign b * x)
  /\ (mag b = [] -> value (AddU64 b x) = x).
Proof.
  intros Hb Hx. destruct (add_u64_spec b x Hb Hx) as (Hw & Hv & Hs).
  split; [done|]. split.
  - intros Hne. unfold value. rewrite Hs, Hv by done. ring.
  - intros E. unfold AddU64, IsZero. rewrite E. simpl bool_decide. cbv iota.
    destruct (Z.eqb_spec x 0) as [->|]; [unfold value; rewrite E; cbn [mval]; lia|].
    by apply assign_u64.
Qed.

Lemma AddU64_correct_witness :
  wf (AddU64 (BigInt (-1) [4294967295; 4294967295]) 1)
  /\ value (AddU64 (BigInt (-1) [4294967295; 4294967295]) 1) = - 2 ^ 64.
Proof.
  destruct (AddU64_correct (BigInt (-1) [4294967295; 4294967295]) 1) as (Hw & Hv & _);
    [apply (bool_decide_unpack _); vm_compute; exact I|split; lia || reflexivity|].
  split; [done|]. rewrite Hv by done. reflexivity.
Defined.

(** [ToInt64] returns the value modulo 2^64 for a non-negative integer, but a
    negative one of two limbs with a non-zero low limb comes out too large by 2^32. *)
Theorem ToInt64_correct :
  (forall b, wf b -> sign b = 1 -> ToInt64 b = i64 (value b))
  /\ (forall d0 d1, 0 < d0 < radix -> 0 <= d1 < radix ->
        ToInt64 (BigInt (-1) [d0; d1]) = i64 (value (BigInt (-1) [d0; d1]) + 2 ^ 32)).
Proof. split; [apply to_int64_nonneg|apply to_int64_negative]. Qed.

Lemma ToInt64_correct_witness :
  ToInt64 (BigInt 1 [0; 2147483648]) = - 2 ^ 63 /\ ToInt64 (BigInt (-1) [1; 1]) = -1.
Proof.
  split.
  - rewrite (proj1 ToInt64_correct (BigInt 1 [0; 2147483648])); [reflexivity| |reflexivity].
    apply (bool_decide_unpack _); vm_compute; exact I.
  - rewrite (proj2 ToInt64_correct 1 1); [reflexivity|unfold radix; lia..].
Defined.

(** The product of a negative integer and zero is a zero with the negative
    sign, which [IsNegative] reports and which does not compare equal to zero. *)
Theorem Multiply_negative_zero b :
  wf b -> sign b = -1 ->
  let z := Multiply b (AssignInt64 0) in
  value z = 0 /\ IsZero z = true /\ IsNegative z = true /\ op_eq z (AssignInt64 0) = false.
Proof.
  intros Hb Hs. cbv zeta.
  destruct (multiply_spec b (AssignInt64 0) Hb) as [Hw Hv];
    [apply (assign_i64 0); split; lia || reflexivity|].
  change (value (AssignInt64 0)) with 0 in Hv. rewrite Z.mul_0_r in Hv.
  assert (sign (Multiply b (AssignInt64 0)) = -1) as Hsz by (simpl; rewrite Hs; done).
  split; [done|]. split.
  - unfold IsZero. apply bool_decide_eq_true, length_zero_iff_nil. by apply value_zero.
  - unfold IsNegative, op_eq, Compare. rewrite Hsz. split; reflexivity.
Qed.

Lemma Multiply_negative_zero_witness :
  op_eq (Multiply (AssignInt64 (-5)) (AssignInt64 0)) (AssignInt64 0) = false.
Proof.
  apply (Multiply_negative_zero (AssignInt64 (-5)));
    [apply (bool_decide_unpack _); vm_compute; exact I|reflexivity].
Defined.
