(* ===== verification/BigDivide.v ===== *)
(** Division of big integers: [BigInteger::Divide] and the array helpers it is
    built from ([ShiftLeft], [ShiftRight], [MultiplyAndSubstruct], [Add]) of
    [src/src/odbc/src/common/big_integer.cpp].

    The general case is Knuth's algorithm D on 32-bit limbs.  The model follows
    the source's machine arithmetic to the letter, including the unsigned
    subtraction whose result is tested for being negative: the correction branch
    behind that test is never entered, so a division is right exactly as long as
    no quotient digit is overestimated.  The theorems state this condition as an
    executable one ([Divide_overestimates]), prove the division correct under it,
    and prove that it always holds for divisors of two limbs. *)
From S2P Require Import Prelude Bits BigInteger.

(** * Definitions *)

Definition DOCUMENTDB_ERR_ILLEGAL_ARGUMENT : Z := 2001.

Definition UINT32_MAX : Z := 4294967295.

(** [ShiftLeft(in, len, out, n)]; [out] is at least as long as [in]. *)
Definition ShiftLeft (inp out : list Z) (n : Z) : list Z :=
  if n =? 0 then list_inserts 0 inp out else
  let out :=
    for_down (length inp - 1)
      (fun k out =>
         <[S k := Z.lor (u32 (inp !!! S k ≪ n)) (inp !!! k ≫ (32 - n))]> out)
      out in
  <[0%nat := u32 (inp !!! 0%nat ≪ n)]> out.

(** [ShiftRight(in, len, out, n)]. *)
Definition ShiftRight (inp : list Z) (len : nat) (out : list Z) (n : Z) : list Z :=
  if n =? 0 then list_inserts 0 (take len inp) out else
  let out :=
    for_up (len - 1)
      (fun i out =>
         <[i := Z.lor (inp !!! i ≫ n) (u32 (inp !!! S i ≪ (32 - n)))]> out)
      out in
  <[(len - 1)%nat := inp !!! (len - 1)%nat ≫ n]> out.

(** [MultiplyAndSubstruct(q + off, a, alen, x)]. *)
Definition MultiplyAndSubstruct (q : list Z) (off : nat) (a : list Z) (x : Z) : list Z * Z :=
  let '(q, carry) :=
    for_up (length a)
      (fun i st =>
         let '(q, carry) := st in
         let product := u64 (a !!! i * x) in
         let difference := i64 (u64 (q !!! (off + i)%nat - carry - Z.land product 0xFFFFFFFF)) in
         (<[(off + i)%nat := u32 difference]> q,
          u64 ((product ≫ 32) - (difference ≫ 32))))
      (q, 0) in
  (q, u32 carry).

(** A read of an array at an [int32_t] index; [None] outside the array. *)
Definition rd (l : list Z) (i : Z) : option Z :=
  if 0 <=? i then l !! Z.to_nat i else None.

(** One pass of the loop that lowers the estimated quotient digit.  The second
    test reads [nv[vlen - 2]] and [nu[i + vlen - 2]]. *)
Definition adjust_pass (nv nu : list Z) (i : nat) (st : Z * Z)
    : pass (Z * Z) (outcome Z (Z * Z)) :=
  let '(qhat, rhat) := st in
  let vlen := Z.of_nat (length nv) in
  let lower :=
    let qhat := u64 (qhat - 1) in
    let rhat := u64 (rhat + nv !!! (length nv - 1)%nat) in
    if UINT32_MAX <? rhat then Break (Ok (qhat, rhat)) else Continue (qhat, rhat) in
  if UINT32_MAX <? qhat then lower else
  match rd nv (vlen - 2), rd nu (Z.of_nat i + vlen - 2) with
  | Some v2, Some u2 =>
      if u64 ((UINT32_MAX + 1) * rhat + u2) <? u64 (qhat * v2) then lower
      else Break (Ok (qhat, rhat))
  | _, _ => Break UB
  end.

(** Each pass adds a normalized top limb to [rhat], so the loop leaves within
    three passes. *)
Definition adjust (nv nu : list Z) (i : nat) (qhat rhat : Z) : outcome Z (Z * Z) :=
  match while 3 (adjust_pass nv nu i) (qhat, rhat) with
  | Some r => r
  | None => UB
  end.

(** The estimate of quotient digit [i]. *)
Definition estimate (nv nu : list Z) (i : nat) : outcome Z Z :=
  let vlen := length nv in
  let base := MakeU64 (nu !!! (i + vlen)%nat) (nu !!! (i + vlen - 1)%nat) in
  let top := nv !!! (vlen - 1)%nat in
  let* (qhat, _) := adjust nv nu i (base / top) (base mod top) in
  Ok (u32 qhat).

(** Subtract [qhat32] times the divisor at digit [i], correct, store the digit. *)
Definition subtract_digit (nv nu : list Z) (i : nat) (qhat32 : Z) : list Z * Z :=
  let vlen := length nv in
  let '(nu, carry) := MultiplyAndSubstruct nu i nv qhat32 in
  (* Both operands are [uint32_t]: the difference wraps around. *)
  let difference := u32 (nu !!! (i + vlen)%nat - carry) in
  let nu := <[(i + vlen)%nat := u32 difference]> nu in
  if difference <? 0
  then ((add_mag nu i nv).1, u32 (qhat32 - 1))
  else (nu, qhat32).

(** The main loop, from digit [n - 1] down. *)
Fixpoint divide_digits (n : nat) (nv nu q : list Z) : outcome Z (list Z * list Z) :=
  match n with
  | O => Ok (nu, q)
  | S i =>
      let* qhat32 := estimate nv nu i in
      let '(nu, digit) := subtract_digit nv nu i qhat32 in
      divide_digits i nv nu (<[i := digit]> q)
  end.

(** The normalized dividend: one zero limb more, or two when the shift spills. *)
Definition normalize_dividend (u : list Z) (shift : Z) : list Z :=
  let ulen := length u in
  let back := u !!! (ulen - 1)%nat in
  if shift <=? NumberOfLeadingZerosU32 back
  then ShiftLeft u (replicate (ulen + 1) 0) shift
  else <[ulen := back ≫ (32 - shift)]> (ShiftLeft u (replicate (ulen + 2) 0) shift).

(** Algorithm D on magnitudes: the quotient limbs and the shifted remainder.
    The limbs of [res] that [q.Resize] keeps are all overwritten by the loop. *)
Definition divide_mag (u v : list Z) : outcome Z (list Z * list Z) :=
  let vlen := length v in
  let shift := NumberOfLeadingZerosU32 (v !!! (vlen - 1)%nat) in
  let nv := ShiftLeft v (replicate vlen 0) shift in
  let nu := normalize_dividend u shift in
  let digits := (length u - vlen + 1)%nat in
  let* (nu, q) := divide_digits digits nv nu (replicate digits 0) in
  Ok (q, ShiftRight nu vlen (replicate vlen 0) shift).

(** [Divide(divisor, res, rem)]: quotient and remainder.  [res] and [rem] may be
    the dividend; the overload without a remainder drops the second part. *)
Definition Divide (b divisor : BigInteger) : outcome Z (BigInteger * BigInteger) :=
  if IsZero divisor then Throw DOCUMENTDB_ERR_ILLEGAL_ARGUMENT else
  let compRes := Compare b divisor true in
  let resSign := sign b * sign divisor in
  if compRes =? 0 then Ok (AssignInt64 resSign, AssignInt64 0) else
  if compRes =? -1 then Ok (AssignInt64 0, b) else
  if GetBitLength divisor =? 1 then Ok (BigInt (sign b * sign divisor) (mag b), AssignInt64 0) else
  if (length (mag b) <=? 2)%nat then
    let u := mag b !!! 0%nat in
    let v := mag divisor !!! 0%nat in
    let u := if (length (mag b) =? 2)%nat then Z.lor u (u64 (mag b !!! 1%nat ≪ 32)) else u in
    let v := if (length (mag divisor) =? 2)%nat
             then Z.lor v (u64 (mag divisor !!! 1%nat ≪ 32)) else v in
    Ok (AssignInt64 (resSign * i64 (u / v)), AssignInt64 (resSign * i64 (u mod v)))
  else
    let* (q, r) := divide_mag (mag b) (mag divisor) in
    Ok (Normalize (BigInt resSign q), Normalize (BigInt resSign r)).

(** The estimate for digit [i] exceeds the digit: subtracting that multiple of the
    divisor would go below zero. *)
Definition overestimated (nv nu : list Z) (i : nat) (qhat32 : Z) : bool :=
  mval nu <? qhat32 * (mval nv * radix ^ Z.of_nat i).

(** Whether any digit of the main loop is overestimated. *)
Fixpoint digits_overestimated (n : nat) (nv nu : list Z) : bool :=
  match n with
  | O => false
  | S i =>
      match estimate nv nu i with
      | Ok qhat32 =>
          overestimated nv nu i qhat32
          || digits_overestimated i nv (subtract_digit nv nu i qhat32).1
      | _ => false
      end
  end.

(** Whether the division of [u] by [v] meets an overestimated digit. *)
Definition Divide_overestimates (u v : list Z) : bool :=
  let shift := NumberOfLeadingZerosU32 (v !!! (length v - 1)%nat) in
  digits_overestimated (length u - length v + 1)
    (ShiftLeft v (replicate (length v) 0) shift) (normalize_dividend u shift).

(** The divisions that neither read outside the divisor nor meet an
    overestimated digit: the easy cases of [Divide], and algorithm D with a
    divisor of two or more limbs and exact estimates. *)
Definition Divide_safe (b divisor : BigInteger) : bool :=
  (length (mag b) <=? 2)%nat || (GetBitLength divisor =? 1)
  || (Compare b divisor true <=? 0)
  || ((2 <=? length (mag divisor))%nat && negb (Divide_overestimates (mag b) (mag divisor))).

(** * Shifts *)

Section shift_words.
Context (n : Z) (Hn : 0 < n < 32).

Lemma shl_split x :
  0 <= x < radix -> x * 2 ^ n = u32 (x ≪ n) + radix * (x ≫ (32 - n)).
Proof.
  intros Hx. unfold wrapU, radix in *. rewrite Z.shiftl_mul_pow2, Z.shiftr_div_pow2 by lia.
  assert (2 ^ 32 = 2 ^ (32 - n) * 2 ^ n) as E by (rewrite <- Z.pow_add_r by lia; f_equal; lia).
  pose proof (Z.pow_pos_nonneg 2 n ltac:(lia) ltac:(lia)).
  pose proof (Z.pow_pos_nonneg 2 (32 - n) ltac:(lia) ltac:(lia)).
  rewrite E at 1. rewrite Z.mul_mod_distr_r by lia. rewrite E.
  pose proof (Z.div_mod x (2 ^ (32 - n)) ltac:(lia)). nia.
Qed.

Lemma spill_range x : 0 <= x < radix -> 0 <= x ≫ (32 - n) < 2 ^ n.
Proof.
  intros Hx. unfold radix in *. rewrite Z.shiftr_div_pow2 by lia.
  assert (2 ^ 32 = 2 ^ (32 - n) * 2 ^ n) as E by (rewrite <- Z.pow_add_r by lia; f_equal; lia).
  pose proof (Z.pow_pos_nonneg 2 (32 - n) ltac:(lia) ltac:(lia)).
  split; [apply Z.div_pos; lia|apply Z.div_lt_upper_bound; lia].
Qed.

(** The shifted-in bits land where the shift left zeros. *)
Lemma lor_shl_spill x y :
  0 <= y < 2 ^ n -> Z.lor (u32 (x ≪ n)) y = u32 (x ≪ n) + y.
Proof.
  intros Hy. symmetry. apply Z.add_nocarry_lor. apply Z.bits_inj'. intros k Hk.
  rewrite Z.land_spec, Z.bits_0. destruct (Z.lt_ge_cases k n).
  - unfold wrapU. rewrite Z.mod_pow2_bits_low, Z.shiftl_spec_low by lia. done.
  - rewrite (Z.bits_above_log2 y); [apply andb_false_r|lia|].
    destruct (Z.eq_dec y 0) as [->|]; [simpl; lia|].
    assert (Z.log2 y < n) by (apply Z.log2_lt_pow2; lia). lia.
Qed.

Lemma shl_word_range x y :
  0 <= y < 2 ^ n -> inU 32 (Z.lor (u32 (x ≪ n)) y).
Proof.
  intros Hy. rewrite lor_shl_spill by done. unfold inU, wrapU.
  rewrite Z.shiftl_mul_pow2 by lia.
  assert (2 ^ 32 = 2 ^ (32 - n) * 2 ^ n) as E by (rewrite <- Z.pow_add_r by lia; f_equal; lia).
  pose proof (Z.pow_pos_nonneg 2 n ltac:(lia) ltac:(lia)).
  pose proof (Z.pow_pos_nonneg 2 (32 - n) ltac:(lia) ltac:(lia)).
  rewrite E, Z.mul_mod_distr_r by lia.
  pose proof (Z.mod_pos_bound x (2 ^ (32 - n)) ltac:(lia)). nia.
Qed.

End shift_words.

(** [ShiftLeft] into a zeroed array multiplies by [2^n], but for the bits that
    leave the top limb. *)
Lemma shift_left_spec inp k n :
  limbs inp -> inp <> [] -> 0 <= n < 32 -> (length inp <= k)%nat ->
  let out := ShiftLeft inp (replicate k 0) n in
  length out = k /\ limbs out
  /\ mval out + (inp !!! (length inp - 1)%nat ≫ (32 - n)) * radix ^ Z.of_nat (length inp)
     = mval inp * 2 ^ n
  /\ (forall j, (length inp <= j < k)%nat -> out !!! j = 0).
Proof.
  intros Hl Hne Hn Hk. unfold ShiftLeft. destruct (Z.eqb_spec n 0) as [->|Hnz].
  - assert (list_inserts 0 inp (replicate k 0) = inp ++ replicate (k - length inp) 0) as ->.
    { replace k with (length inp + (k - length inp))%nat at 1 by lia.
      rewrite replicate_add. apply list_inserts_0_r. by rewrite length_replicate. }
    rewrite length_app, length_replicate, mval_app, mval_replicate.
    split; [lia|]. split; [apply Forall_app; split; [done|apply limbs_replicate]|].
    assert (length inp <> 0)%nat by (by destruct inp).
    pose proof (limb_at inp (length inp - 1) Hl ltac:(lia)) as Htop.
    split.
    + rewrite Z.shiftr_div_pow2, Z.div_small by (unfold radix in Htop; lia). lia.
    + intros j Hj. rewrite lookup_total_app_r by lia.
      by rewrite lookup_total_replicate_2 by lia.
  - assert (0 < n < 32) as Hn' by lia. assert (length inp <> 0)%nat by (by destruct inp).
    set (L := length inp) in *. set (top := inp !!! (L - 1)%nat ≫ (32 - n)).
    set (P := fun i (out : list Z) =>
      length out = k /\ limbs out
      /\ mval out + top * radix ^ Z.of_nat L
         = (mval inp - mval (take (S i) inp)) * 2 ^ n
           + (inp !!! i ≫ (32 - n)) * radix ^ Z.of_nat (S i)
      /\ (forall j, ((j <= i) \/ (L <= j))%nat -> (j < k)%nat -> out !!! j = 0)).
    set (o := for_down _ _ _). assert (P 0%nat o) as (Ho1 & Ho2 & Ho3 & Ho4).
    { apply (for_down_ind _ P).
      - unfold P. rewrite length_replicate, mval_replicate. split; [done|].
        split; [apply limbs_replicate|]. split.
        + replace (S (L - 1)) with L by lia. rewrite take_ge by (unfold L; lia). fold top. lia.
        + intros j _ Hj. by rewrite lookup_total_replicate_2 by lia.
      - intros i out Hi (H1 & H2 & H3 & H4).
        pose proof (limb_at inp i Hl ltac:(lia)) as Hii.
        pose proof (limb_at inp (S i) Hl ltac:(lia)) as HiS.
        pose proof (spill_range n Hn' _ Hii) as Hsp.
        unfold P. rewrite length_insert. split; [done|].
        split; [apply limbs_insert; [done|by apply shl_word_range]|]. split.
        + rewrite mval_insert, H4, lor_shl_spill by (done || lia).
          rewrite (mval_take_S inp (S i)) in H3 by lia.
          pose proof (shl_split n Hn' _ HiS) as Hs. rewrite (radix_pow_S (S i)) in H3. nia.
        + intros j Hj Hjk. rewrite list_lookup_total_insert_ne by lia. apply H4; lia. }
    rewrite length_insert. split; [done|].
    pose proof (limb_at inp 0 Hl ltac:(lia)) as H0.
    split; [apply limbs_insert; [done|apply wrapU_range; lia]|]. split.
    + rewrite mval_insert, Ho4 by lia.
      rewrite (mval_take_S inp 0), take_0 in Ho3 by lia. cbn [mval] in Ho3.
      pose proof (shl_split n Hn' _ H0) as Hs.
      change (radix ^ Z.of_nat 0) with 1 in *. change (radix ^ Z.of_nat 1) with radix in Ho3. lia.
    + intros j Hj. rewrite list_lookup_total_insert_ne by lia. apply Ho4; lia.
Qed.

(** [ShiftRight] divides by [2^n], rounding down. *)
Lemma shift_right_spec inp len n :
  limbs inp -> (0 < len <= length inp)%nat -> 0 <= n < 32 ->
  let out := ShiftRight inp len (replicate len 0) n in
  length out = len /\ limbs out
  /\ mval out * 2 ^ n = mval (take len inp) - (inp !!! 0%nat) mod 2 ^ n.
Proof.
  intros Hl Hlen Hn. unfold ShiftRight. destruct (Z.eqb_spec n 0) as [->|Hnz].
  - pose proof (list_inserts_0_r (take len inp) (replicate len 0) []) as E.
    rewrite !app_nil_r in E. rewrite E by (rewrite length_take, length_replicate; lia).
    rewrite length_take, Nat.min_l by lia. split; [done|]. split; [by apply limbs_take|].
    rewrite Z.mod_1_r. lia.
  - assert (0 < 32 - n < 32) as Hn' by lia.
    pose proof (Z.pow_pos_nonneg 2 n ltac:(lia) ltac:(lia)) as Hp.
    assert (radix = 2 ^ n * 2 ^ (32 - n)) as Er
      by (unfold radix; rewrite <- Z.pow_add_r by lia; f_equal; lia).
    assert (forall x, 0 <= x < radix ->
      0 <= x ≫ n < 2 ^ (32 - n) /\ x = 2 ^ n * (x ≫ n) + x mod 2 ^ n) as Hx.
    { intros x Hx. pose proof (spill_range (32 - n) Hn' x Hx) as Hr.
      replace (32 - (32 - n)) with n in Hr by lia. split; [done|].
      rewrite Z.shiftr_div_pow2 by lia. apply Z.div_mod. lia. }
    set (P := fun i (out : list Z) =>
      length out = len /\ limbs out
      /\ mval out * 2 ^ n = mval (take i inp) - (inp !!! 0%nat) mod 2 ^ n
           + ((inp !!! i) mod 2 ^ n) * radix ^ Z.of_nat i
      /\ (forall j, (i <= j < len)%nat -> out !!! j = 0)).
    set (o := for_up _ _ _). assert (P (len - 1)%nat o) as (Ho1 & Ho2 & Ho3 & Ho4).
    { apply (for_up_ind _ P).
      - unfold P. rewrite length_replicate, mval_replicate, take_0. split; [done|].
        split; [apply limbs_replicate|]. split; [cbn [mval]; lia|].
        intros j Hj. by rewrite lookup_total_replicate_2 by lia.
      - intros i out Hi (H1 & H2 & H3 & H4).
        pose proof (limb_at inp i Hl ltac:(lia)) as Hii.
        pose proof (limb_at inp (S i) Hl ltac:(lia)) as HiS.
        destruct (Hx _ Hii) as [Hsp Hdm]. destruct (Hx _ HiS) as [_ HdmS].
        rewrite Z.lor_comm. unfold P. rewrite length_insert. split; [done|].
        split; [apply limbs_insert; [done|by apply shl_word_range]|]. split.
        + rewrite mval_insert, H4, lor_shl_spill, mval_take_S, radix_pow_S by (done || lia).
          pose proof (shl_split (32 - n) Hn' _ HiS) as Hs.
          replace (32 - (32 - n)) with n in Hs by lia.
          set (lo := u32 (inp !!! S i ≪ (32 - n))) in *. set (hi := inp !!! S i ≫ n) in *.
          set (y := inp !!! S i) in *. set (x := inp !!! i) in *.
          assert (lo * 2 ^ n = radix * (y mod 2 ^ n)) as Hlo.
          { replace lo with (y * 2 ^ (32 - n) - radix * hi) by lia.
            replace (y mod 2 ^ n) with (y - 2 ^ n * hi) by lia. rewrite Er. ring. }
          rewrite Z.mul_add_distr_r, H3.
          transitivity (mval (take i inp) - inp !!! 0%nat mod 2 ^ n + x mod 2 ^ n * radix ^ Z.of_nat i
            + (lo * 2 ^ n + 2 ^ n * (x ≫ n)) * radix ^ Z.of_nat i); [ring|].
          rewrite Hlo. replace (2 ^ n * (x ≫ n)) with (x - x mod 2 ^ n) by lia. ring.
        + intros j Hj. rewrite list_lookup_total_insert_ne by lia. apply H4; lia. }
    pose proof (limb_at inp (len - 1) Hl ltac:(lia)) as Ht.
    destruct (Hx _ Ht) as [Htr Htd]. rewrite length_insert. split; [done|].
    assert (inU 32 (inp !!! (len - 1)%nat ≫ n)) as Hin.
    { unfold inU. fold radix. assert (0 < 2 ^ (32 - n)) by lia. nia. }
    split; [by apply limbs_insert|].
    rewrite mval_insert, Ho4, Z.mul_add_distr_r, Ho3 by lia.
    replace (take len inp) with (take (S (len - 1)) inp) by (f_equal; lia).
    rewrite mval_take_S by lia.
    set (x := inp !!! (len - 1)%nat) in *.
    replace ((x ≫ n - 0) * radix ^ Z.of_nat (len - 1) * 2 ^ n)
      with ((x - x mod 2 ^ n) * radix ^ Z.of_nat (len - 1)) by (rewrite Htd at 1; ring).
    ring.
Qed.

(** * Multiply and subtract *)

Lemma land_low x : Z.land x 0xFFFFFFFF = x mod radix.
Proof. change 0xFFFFFFFF with (Z.ones 32). apply Z.land_ones. lia. Qed.

Lemma multiply_subtract_spec q off a x :
  limbs q -> limbs a -> inU 32 x -> (off + length a <= length q)%nat ->
  let '(q', carry) := MultiplyAndSubstruct q off a x in
  length q' = length q /\ limbs q' /\ inU 32 carry
  /\ mval q' - carry * radix ^ Z.of_nat (off + length a)
     = mval q - x * radix ^ Z.of_nat off * mval a
  /\ (forall k, (off + length a <= k)%nat -> q' !!! k = q !!! k).
Proof.
  intros Hq Ha Hx Hfit. unfold MultiplyAndSubstruct. unfold inU in Hx. fold radix in Hx.
  set (P := fun j (st : list Z * Z) =>
    length st.1 = length q /\ limbs st.1 /\ inU 32 st.2
    /\ mval st.1 - st.2 * radix ^ Z.of_nat (off + j)
       = mval q - x * radix ^ Z.of_nat off * mval (take j a)
    /\ (forall k, (off + j <= k)%nat -> st.1 !!! k = q !!! k)).
  set (o := for_up _ _ _). assert (P (length a) o) as HP.
  { apply (for_up_ind _ P).
    - unfold P. rewrite take_0. cbn [fst snd mval]. split; [done|]. split; [done|].
      split; [split; [lia|reflexivity]|]. split; [ring|done].
    - intros j [r c] Hj (Hlen & Hl & Hc & Heq & Htail). cbn [fst snd] in *.
      pose proof (limb_at a j Ha Hj) as Haj.
      pose proof (limb_at r (off + j) Hl ltac:(lia)) as Hrj.
      unfold inU in Hc. fold radix in Hc. rewrite land_low.
      destruct (split_dword (a !!! j * x)) as (-> & Hs & Hlo & Hhi); [nia|].
      set (p := a !!! j * x) in *. set (hi := p ≫ 32) in *.
      change (p mod radix) with (u32 p). set (lo := u32 p) in *.
      unfold inU in Hlo, Hhi. fold radix in Hlo, Hhi.
      set (D := r !!! (off + j)%nat - c - lo).
      assert (- 2 * radix < D < radix) as HD by (unfold D; lia).
      assert (i64 (u64 D) = D) as ->.
      { unfold radix in *. rewrite wrapS_cases by lia. unfold wrapU. rewrite Z.mod_mod by lia.
        destruct (Z.lt_ge_cases D 0).
        - rewrite <- (Z.mod_unique_pos D (2 ^ 64) (-1) (D + 2 ^ 64)) by lia.
          destruct (Z.ltb_spec (D + 2 ^ 64) (2 ^ (64 - 1))); lia.
        - rewrite Z.mod_small by lia. destruct (Z.ltb_spec D (2 ^ (64 - 1))); lia. }
      pose proof (Z.div_mod D radix ltac:(done)) as Hdm.
      pose proof (Z.mod_pos_bound D radix ltac:(done)) as Hmb.
      rewrite (Z.shiftr_div_pow2 D) by lia. fold radix.
      change (u32 D) with (D mod radix).
      assert (hi - D / radix < radix) as Hub.
      { assert (radix * (hi - D / radix) = p + c - r !!! (off + j)%nat + D mod radix)
          by (unfold D in *; lia). unfold p in *. nia. }
      assert (0 <= hi - D / radix) as Hlb by nia.
      rewrite (wrapU_small 64) by (unfold inU, radix in *; lia).
      unfold P. cbn [fst snd]. rewrite length_insert. split; [done|].
      split; [by apply limbs_insert|]. split; [done|]. split.
      + rewrite mval_insert, mval_take_S, Nat.add_succ_r, radix_pow_S by lia.
        rewrite radix_pow_add in *.
        set (e := radix ^ Z.of_nat off) in *. set (b := radix ^ Z.of_nat j) in *.
        transitivity (mval r + (D mod radix + radix * (D / radix) - radix * hi
                        - r !!! (off + j)%nat) * (e * b)); [ring|].
        replace (D mod radix + radix * (D / radix)) with D by lia. unfold D, p in *. nia.
      + intros k Hk. rewrite list_lookup_total_insert_ne by lia. apply Htail. lia. }
  unfold P in HP. destruct o as [r c]. cbn [fst snd] in HP. rewrite take_ge in HP by lia.
  destruct HP as (? & ? & Hc & ? & ?). rewrite wrapU_small by done. done.
Qed.

(** * The estimate of a quotient digit *)

(** A magnitude below [radix^(k+3)] by its top three limbs. *)
Lemma mval_top3 m k :
  limbs m -> (k + 2 < length m)%nat -> mval m < radix ^ Z.of_nat (k + 3) ->
  exists low, 0 <= low < radix ^ Z.of_nat k
    /\ mval m = (m !!! (k + 2)%nat * radix * radix + m !!! (k + 1)%nat * radix + m !!! k)
                * radix ^ Z.of_nat k + low.
Proof.
  intros Hl Hlen Hlt. exists (mval (take k m)).
  pose proof (mval_bounds _ (limbs_take k m Hl)) as Hb.
  rewrite length_take, Nat.min_l in Hb by lia. split; [done|].
  rewrite <- (take_drop (k + 3) m), mval_app, length_take, Nat.min_l in Hlt by lia.
  rewrite <- (take_drop (k + 3) m) at 1. rewrite mval_app, length_take, Nat.min_l by lia.
  pose proof (mval_bounds _ (limbs_take (k + 3) m Hl)) as [H0 _].
  assert (limbs (drop (k + 3) m)) as Hd by (by apply Forall_drop).
  pose proof (mval_bounds _ Hd) as [H1 _]. pose proof (radix_pow_pos (k + 3)).
  replace (mval (drop (k + 3) m)) with 0 by nia.
  replace (k + 3)%nat with (S (k + 2)) by lia. rewrite mval_take_S by lia.
  replace (k + 2)%nat with (S (k + 1)) by lia. rewrite mval_take_S by lia.
  replace (k + 1)%nat with (S k) by lia. rewrite mval_take_S by lia.
  rewrite !radix_pow_S. ring.
Qed.

Lemma mval_top2 m :
  limbs m -> (2 <= length m)%nat ->
  exists low, 0 <= low < radix ^ Z.of_nat (length m - 2)
    /\ mval m = (m !!! (length m - 1)%nat * radix + m !!! (length m - 2)%nat)
                * radix ^ Z.of_nat (length m - 2) + low.
Proof.
  intros Hl Hlen. exists (mval (take (length m - 2) m)).
  pose proof (mval_bounds _ (limbs_take (length m - 2) m Hl)) as Hb.
  rewrite length_take, Nat.min_l in Hb by lia. split; [done|].
  rewrite <- (take_ge m (length m)) at 1 by lia.
  set (k := (length m - 2)%nat) in *.
  replace (take (length m) m) with (take (S (S k)) m) by (f_equal; lia).
  rewrite !mval_take_S by lia. replace (length m - 1)%nat with (S k) by lia.
  rewrite radix_pow_S. ring.
Qed.

Lemma rd_spec l i : (i < length l)%nat -> rd l (Z.of_nat i) = Some (l !!! i).
Proof.
  intros Hi. unfold rd. destruct (Z.leb_spec 0 (Z.of_nat i)); [|lia].
  rewrite Nat2Z.id. by apply list_lookup_lookup_total_lt.
Qed.

Section estimate.
Context (nv nu : list Z) (i : nat).
Abbreviation n := (length nv).
Abbreviation top := (nv !!! (length nv - 1)%nat).
Abbreviation sec := (nv !!! (length nv - 2)%nat).
Abbreviation V := (mval nv).
Abbreviation u0 := (nu !!! (i + length nv)%nat).
Abbreviation u1 := (nu !!! (i + length nv - 1)%nat).
Abbreviation u2 := (nu !!! (i + length nv - 2)%nat).
Abbreviation T2 := (u0 * radix + u1).

(** The divisor is normalized and the part of the dividend above digit [i] is
    already smaller than it. *)
Definition digit_ready : Prop :=
  limbs nv /\ limbs nu /\ (2 <= length nv)%nat /\ (i + length nv < length nu)%nat
  /\ 2 ^ 31 <= nv !!! (length nv - 1)%nat
  /\ mval nu < mval nv * radix ^ Z.of_nat (S i).

Hypothesis ready : digit_ready.

Lemma ready_words :
  0 <= u0 < radix /\ 0 <= u1 < radix /\ 0 <= u2 < radix /\ 2 ^ 31 <= top < radix /\ 0 <= sec < radix.
Proof.
  destruct ready as (Hnv & Hnu & Hn & Hi & Htop & _).
  pose proof (limb_at nu (i + n) Hnu ltac:(lia)).
  pose proof (limb_at nu (i + n - 1) Hnu ltac:(lia)).
  pose proof (limb_at nu (i + n - 2) Hnu ltac:(lia)).
  pose proof (limb_at nv (n - 1) Hnv ltac:(lia)).
  pose proof (limb_at nv (n - 2) Hnv ltac:(lia)).
  lia.
Qed.

(** The scale of the third limb from the top. *)
Abbreviation E := (radix ^ Z.of_nat (length nv - 2)).

Lemma ready_values :
  exists lowv lowu, 0 <= lowv < E /\ 0 <= lowu < E * radix ^ Z.of_nat i
    /\ V = (top * radix + sec) * E + lowv
    /\ mval nu = (T2 * radix + u2) * (E * radix ^ Z.of_nat i) + lowu.
Proof.
  destruct ready as (Hnv & Hnu & Hn & Hi & Htop & Hlt).
  assert (i + n - 2 + 3 = n + S i /\ i + n - 2 + 2 = i + n /\ i + n - 2 + 1 = i + n - 1
          /\ i + n - 2 = n - 2 + i)%nat as (E3 & E2 & E1 & E0) by lia.
  assert (i + n - 2 + 2 < length nu)%nat as Hlen by lia.
  assert (mval nu < radix ^ Z.of_nat ((i + n - 2) + 3)) as Hlt'.
  { rewrite E3, radix_pow_add. apply Z.lt_trans with (1 := Hlt).
    apply Z.mul_lt_mono_pos_r; [apply radix_pow_pos|by apply mval_bounds]. }
  destruct (mval_top2 nv Hnv Hn) as (lowv & Hlv & HV).
  destruct (mval_top3 nu (i + n - 2) Hnu Hlen Hlt') as (lowu & Hlu & HU).
  exists lowv, lowu. rewrite <- radix_pow_add, <- E0.
  split; [done|]. split; [done|]. split; [done|]. rewrite HU, E2, E1. ring.
Qed.

(** No digit above [qhat] fits. *)
Definition covers (qhat : Z) : Prop := mval nu < (qhat + 1) * (V * radix ^ Z.of_nat i).

Lemma u0_le_top : u0 <= top.
Proof.
  destruct ready_values as (lowv & lowu & Hlv & Hlu & HV & HU).
  destruct ready as (_ & _ & _ & _ & _ & Hlt). rewrite radix_pow_S in Hlt.
  pose proof ready_words as Hw. pose proof (radix_pow_pos i) as HR.
  set (R := radix ^ Z.of_nat i) in *. apply Z.nlt_ge. intros Hgt.
  assert (V < (top + 1) * radix * E) as HVlt by nia.
  assert ((top + 1) * radix * radix <= T2 * radix + u2) as HT by nia.
  assert (V * (radix * R) < (top + 1) * radix * E * (radix * R)) as H1
    by (apply Z.mul_lt_mono_pos_r; [unfold radix in *; lia|done]).
  assert ((top + 1) * radix * radix * (E * R) <= (T2 * radix + u2) * (E * R)) as H2
    by (apply Z.mul_le_mono_nonneg_r; [lia|done]).
  clear HVlt HT. lia.
Qed.

Lemma top_pos : 0 < top.
Proof. destruct ready as (_ & _ & _ & _ & Htop & _). lia. Qed.

Lemma T2_nonneg : 0 <= T2.
Proof. pose proof ready_words as (B0 & B1 & _). unfold radix in *. lia. Qed.

(** Rounding up the three top limbs of the dividend. *)
Lemma covers_by_top3 q b :
  T2 * radix + u2 + 1 <= b -> b * E <= q * V -> mval nu < q * (V * radix ^ Z.of_nat i).
Proof.
  intros Hb HE. destruct ready_values as (lowv & lowu & Hlv & Hlu & HV & HU). rewrite HU.
  pose proof (radix_pow_pos i) as HR. clear HU HV Hlv.
  set (R := radix ^ Z.of_nat i) in *. set (a := T2 * radix + u2) in *. clearbody a R.
  assert ((a + 1) * (E * R) <= b * (E * R)) by (apply Z.mul_le_mono_nonneg_r; lia).
  assert (b * E * R <= q * V * R) by (apply Z.mul_le_mono_nonneg_r; lia). lia.
Qed.

Lemma divisor_lower : (top * radix + sec) * E <= V.
Proof. destruct ready_values as (lowv & lowu & Hlv & Hlu & HV & _). lia. Qed.

Lemma covers_initial : covers (T2 / top).
Proof.
  pose proof ready_words as (B0 & B1 & B2 & BT & BS). pose proof top_pos as Hpos.
  pose proof divisor_lower as HV. pose proof (radix_pow_pos (n - 2)) as HE.
  pose proof (Z.mul_succ_div_gt T2 top Hpos) as Hdiv.
  assert (0 <= T2 / top) as Hq by (apply Z.div_pos; [apply T2_nonneg|done]).
  unfold covers. set (qh := T2 / top) in *. clearbody qh.
  apply (covers_by_top3 _ ((qh + 1) * (top * radix))).
  - assert ((T2 + 1) * radix <= (top * Z.succ qh) * radix) by (apply Z.mul_le_mono_nonneg_r; lia).
    lia.
  - transitivity ((qh + 1) * ((top * radix + sec) * E)).
    + rewrite <- !Z.mul_assoc. apply Z.mul_le_mono_nonneg_l; [lia|].
      rewrite Z.mul_assoc. apply Z.mul_le_mono_nonneg_r; lia.
    + apply Z.mul_le_mono_nonneg_l; lia.
Qed.

(** An overestimate that the three top limbs reveal is lowered. *)
Lemma covers_lower qhat :
  T2 * radix + u2 < qhat * (top * radix + sec) -> 0 <= qhat -> covers (qhat - 1).
Proof.
  intros Htest Hq. unfold covers. rewrite Z.sub_add.
  apply (covers_by_top3 _ (qhat * (top * radix + sec))); [lia|].
  rewrite <- Z.mul_assoc. apply Z.mul_le_mono_nonneg_l; [done|]. apply divisor_lower.
Qed.

Lemma covers_max qhat : UINT32_MAX < qhat -> covers (qhat - 1).
Proof.
  intros Hq. destruct ready as (Hnv & _ & _ & _ & _ & Hlt). unfold covers.
  rewrite radix_pow_S in Hlt. pose proof (mval_bounds nv Hnv). pose proof (radix_pow_pos i).
  assert (radix <= qhat) by (unfold UINT32_MAX, radix in *; lia).
  assert (0 <= V * radix ^ Z.of_nat i) by nia. nia.
Qed.

(** The estimate [qhat] with its remainder, while it is being lowered. *)
Definition adjusting (st : Z * Z) : Prop :=
  T2 = st.1 * top + st.2 /\ 0 <= st.1 < 2 ^ 64 /\ 0 <= st.2 <= UINT32_MAX /\ covers st.1.

(** What the loop leaves: a 32-bit digit, not too small, and not too large as far
    as the two top limbs of the divisor tell. *)
Definition adjusted (r : outcome Z (Z * Z)) : Prop :=
  exists qhat rhat, r = Ok (qhat, rhat) /\ 0 <= qhat <= UINT32_MAX /\ covers qhat
    /\ qhat * (top * radix + sec) <= T2 * radix + u2.

Definition adjust_measure (st : Z * Z) : nat := if st.2 <? top then 2 else 1.

Lemma lower_spec qhat rhat :
  adjusting (qhat, rhat) -> 1 <= qhat -> covers (qhat - 1) ->
  match (if UINT32_MAX <? u64 (rhat + top)
         then Break (Ok (u64 (qhat - 1), u64 (rhat + top)))
         else Continue (u64 (qhat - 1), u64 (rhat + top)) : pass _ (outcome Z (Z * Z))) with
  | Continue st' => adjusting st' /\ (adjust_measure st' < adjust_measure (qhat, rhat))%nat
  | Break r => adjusted r
  end.
Proof.
  intros (HT & Hq & Hr & _) Hq1 Hc. cbn [fst snd] in *.
  pose proof ready_words as (B0 & B1 & B2 & BT & BS). pose proof u0_le_top as Hle.
  unfold radix, UINT32_MAX in *.
  rewrite !(wrapU_small 64) by (unfold inU; lia).
  destruct (Z.ltb_spec 4294967295 (rhat + top)) as [Hb|Hb].
  - exists (qhat - 1), (rhat + top). split; [done|].
    assert (qhat - 1 <= UINT32_MAX) by (unfold UINT32_MAX; nia).
    split; [lia|]. split; [done|]. unfold radix, UINT32_MAX in *.
    assert ((qhat - 1) * sec <= 4294967295 * 4294967295) by (apply Z.mul_le_mono_nonneg; lia).
    lia.
  - split; [repeat split; cbn [fst snd]; unfold UINT32_MAX, radix; done || lia|].
    unfold adjust_measure; cbn [snd].
    destruct (Z.ltb_spec (rhat + top) top), (Z.ltb_spec rhat top); lia.
Qed.

Lemma adjust_pass_spec st :
  adjusting st ->
  match adjust_pass nv nu i st with
  | Continue st' => adjusting st' /\ (adjust_measure st' < adjust_measure st)%nat
  | Break r => adjusted r
  end.
Proof.
  destruct st as [qhat rhat]. intros Hadj. pose proof Hadj as (HT & Hq & Hr & Hc).
  cbn [fst snd] in *. unfold adjust_pass.
  destruct (Z.ltb_spec UINT32_MAX qhat) as [Hbig|Hsmall].
  - apply lower_spec; [done|unfold UINT32_MAX in *; lia|by apply covers_max].
  - pose proof ready_words as (B0 & B1 & B2 & BT & BS).
    destruct ready as (_ & _ & Hn & Hi & _ & _).
    replace (Z.of_nat (length nv) - 2) with (Z.of_nat (length nv - 2)) by lia.
    replace (Z.of_nat i + Z.of_nat (length nv) - 2) with (Z.of_nat (i + length nv - 2)) by lia.
    rewrite !rd_spec by lia.
    assert (0 <= qhat * sec <= UINT32_MAX * UINT32_MAX) as Hprod.
    { unfold UINT32_MAX, radix in *.
      split; [apply Z.mul_nonneg_nonneg; lia|apply Z.mul_le_mono_nonneg; lia]. }
    rewrite (wrapU_small 64 ((UINT32_MAX + 1) * rhat + u2))
      by (unfold inU, UINT32_MAX, radix in *; lia).
    rewrite (wrapU_small 64 (qhat * sec)) by (unfold inU, UINT32_MAX in *; lia).
    destruct (Z.ltb_spec ((UINT32_MAX + 1) * rhat + u2) (qhat * sec)) as [Hlt|Hge];
      unfold UINT32_MAX, radix in Hlt || unfold UINT32_MAX in Hge.
    + apply lower_spec; [done| |].
      * destruct (Z.eq_dec qhat 0) as [->|]; lia.
      * apply covers_lower; [|lia]. unfold radix in *. lia.
    + exists qhat, rhat. split; [done|]. split; [lia|]. split; [done|]. unfold radix in *. lia.
Qed.

Lemma adjust_spec : adjusted (adjust nv nu i (T2 / top) (T2 mod top)).
Proof.
  pose proof ready_words as (B0 & B1 & B2 & BT & BS).
  pose proof top_pos as Hpos. pose proof T2_nonneg as HT.
  assert (top <> 0) as Hne by lia. pose proof (Z.div_mod T2 top Hne) as Hdm.
  pose proof (Z.mod_pos_bound T2 top Hpos) as Hmod.
  unfold adjust.
  destruct (while_total (adjust_pass nv nu i) adjusting adjusted adjust_measure 3
    (T2 / top, T2 mod top)) as (r & -> & Hr); [|unfold adjust_measure; case_match; lia|
      apply adjust_pass_spec|done].
  repeat split; cbn [fst snd]; try apply covers_initial; try (unfold UINT32_MAX, radix in *; lia).
  by apply Z.div_pos.
Qed.

Lemma estimate_spec :
  exists qhat, estimate nv nu i = Ok qhat /\ inU 32 qhat /\ covers qhat
    /\ qhat * (top * radix + sec) <= T2 * radix + u2.
Proof.
  pose proof ready_words as (B0 & B1 & B2 & BT & BS).
  unfold estimate. rewrite make_u64 by done. fold radix.
  destruct adjust_spec as (qhat & rhat & -> & Hq & Hc & Hle). simpl.
  unfold UINT32_MAX in Hq. rewrite wrapU_small by (unfold inU; lia).
  exists qhat. split; [done|]. split; [unfold inU; lia|done].
Qed.

End estimate.

(** * Subtracting a digit *)

Lemma drop_top nu k :
  limbs nu -> (k < length nu)%nat -> mval nu < radix ^ Z.of_nat (S k) ->
  mval (drop k nu) = nu !!! k.
Proof.
  intros Hl Hk Hlt. destruct (lookup_lt_is_Some_2 nu k Hk) as [x Hx].
  rewrite (list_lookup_total_correct _ _ x) by done.
  pose proof (drop_S nu x k Hx) as Hd. rewrite Hd. cbn [mval].
  assert (limbs (drop (S k) nu)) as Hl' by (by apply Forall_drop).
  pose proof (mval_bounds _ Hl') as [H0 _].
  rewrite <- (take_drop (S k) nu), mval_app, length_take, Nat.min_l in Hlt by lia.
  pose proof (mval_bounds _ (limbs_take (S k) nu Hl)) as [H1 _].
  pose proof (radix_pow_pos (S k)). assert (mval (drop (S k) nu) = 0) by nia. lia.
Qed.

Lemma subtract_digit_spec nv nu i qhat :
  digit_ready nv nu i -> inU 32 qhat -> overestimated nv nu i qhat = false ->
  exists nu', subtract_digit nv nu i qhat = (nu', qhat) /\ limbs nu' /\ length nu' = length nu
    /\ mval nu' = mval nu - qhat * (mval nv * radix ^ Z.of_nat i).
Proof.
  intros (Hnv & Hnu & Hn & Hi & _ & Hlt) Hq Hover. unfold overestimated in Hover.
  apply Z.ltb_ge in Hover. unfold subtract_digit.
  pose proof (multiply_subtract_spec nu i nv qhat Hnu Hnv Hq ltac:(lia)) as Hms.
  destruct (MultiplyAndSubstruct nu i nv qhat) as [r c].
  destruct Hms as (Hlen & Hr & Hc & Heq & Htail).
  set (k := (i + length nv)%nat) in *.
  assert (mval (drop k r) = r !!! k) as Hdrop.
  { assert (drop k r = drop k nu) as ->.
    { apply list_eq_same_length with (length nu - k)%nat; [by rewrite length_drop|
        by rewrite length_drop, Hlen|].
      intros j x y Hj Hx Hy. rewrite lookup_drop in Hx, Hy.
      apply list_lookup_total_correct in Hx, Hy. rewrite <- Hx, <- Hy. apply Htail. lia. }
    rewrite Htail by lia. apply drop_top; [done|lia|].
    apply Z.lt_trans with (1 := Hlt). replace (S k) with (length nv + S i)%nat by lia.
    rewrite radix_pow_add. apply Z.mul_lt_mono_pos_r; [apply radix_pow_pos|by apply mval_bounds]. }
  assert (mval r = mval (take k r) + radix ^ Z.of_nat k * (r !!! k)) as Hsplit.
  { rewrite <- (take_drop k r) at 1. rewrite mval_app, length_take, Nat.min_l, Hdrop by lia. done. }
  pose proof (mval_bounds _ (limbs_take k r Hr)) as Hlow.
  rewrite length_take, Nat.min_l in Hlow by lia.
  pose proof (limb_at r k Hr ltac:(lia)) as Hk. unfold inU in Hc. fold radix in Hc.
  assert (c <= r !!! k) as Hge by nia.
  rewrite !(wrapU_small 32) by (unfold inU; fold radix; lia).
  destruct (Z.ltb_spec (r !!! k - c) 0); [lia|].
  eexists. split; [done|]. rewrite length_insert.
  split; [apply limbs_insert; [done|unfold inU; fold radix; lia]|]. split; [done|].
  rewrite mval_insert by lia. nia.
Qed.

(** * The main loop *)

(** The loop is about to produce the digits below [n]. *)
Definition loop_ready (nv nu : list Z) (n : nat) : Prop :=
  limbs nv /\ limbs nu /\ (2 <= length nv)%nat /\ (n + length nv <= length nu)%nat
  /\ 2 ^ 31 <= nv !!! (length nv - 1)%nat
  /\ mval nu < mval nv * radix ^ Z.of_nat n.

Lemma loop_digit_ready nv nu i : loop_ready nv nu (S i) <-> digit_ready nv nu i.
Proof. unfold loop_ready, digit_ready. split; intros; destruct_and!; repeat split; done || lia. Qed.

Lemma loop_ready_next nv nu nu' i qhat :
  loop_ready nv nu (S i) -> covers nv nu i qhat -> limbs nu' -> length nu' = length nu ->
  mval nu' = mval nu - qhat * (mval nv * radix ^ Z.of_nat i) ->
  loop_ready nv nu' i.
Proof.
  intros (Hnv & Hnu & Hn & Hi & Htop & Hlt) Hc Hl Hlen Hv. unfold covers in Hc.
  repeat split; try done; lia.
Qed.

Lemma divide_digits_spec n nv nu q :
  loop_ready nv nu n -> limbs q -> (n <= length q)%nat ->
  (forall k, (k < n)%nat -> q !!! k = 0) ->
  digits_overestimated n nv nu = false ->
  exists nu' q', divide_digits n nv nu q = Ok (nu', q')
    /\ loop_ready nv nu' 0 /\ limbs q' /\ length nu' = length nu /\ length q' = length q
    /\ mval nu + mval nv * mval q = mval nu' + mval nv * mval q'.
Proof.
  revert nu q. induction n as [|i IH]; intros nu q Hready Hq Hlen Hzero Hover.
  - exists nu, q. by split_and!.
  - pose proof (proj1 (loop_digit_ready nv nu i) Hready) as Hdr.
    destruct (estimate_spec nv nu i Hdr) as (qhat & Hest & Hqr & Hcov & _).
    cbn [divide_digits digits_overestimated] in *. rewrite Hest in *. simpl obind.
    apply orb_false_iff in Hover as [Hover1 Hover2].
    destruct (subtract_digit_spec nv nu i qhat Hdr Hqr Hover1) as (nu1 & Hsub & Hl1 & Hlen1 & Hv1).
    rewrite Hsub in *. cbn [fst] in Hover2.
    pose proof (loop_ready_next nv nu nu1 i qhat Hready Hcov Hl1 Hlen1 Hv1) as Hready1.
    destruct (IH nu1 (<[i := qhat]> q)) as (nu' & q' & -> & H1 & H2 & H3 & H4 & H5);
      [done|by apply limbs_insert|rewrite length_insert; lia| |done|].
    { intros k Hk. rewrite list_lookup_total_insert_ne by lia. apply Hzero. lia. }
    rewrite length_insert in H4. exists nu', q'. split; [done|]. split; [done|]. split; [done|].
    split; [congruence|]. split; [done|]. rewrite <- H5, Hv1, mval_insert, Hzero by lia. ring.
Qed.

(** With two limbs the test of the loop looks at the whole divisor, so the
    estimates are exact. *)
Lemma two_limbs_exact n nv nu :
  loop_ready nv nu n -> length nv = 2%nat -> digits_overestimated n nv nu = false.
Proof.
  revert nu. induction n as [|i IH]; intros nu Hready Htwo; [done|].
  pose proof (proj1 (loop_digit_ready nv nu i) Hready) as Hdr.
  destruct (estimate_spec nv nu i Hdr) as (qhat & Hest & Hqr & Hcov & Hle).
  cbn [digits_overestimated]. rewrite Hest.
  assert (overestimated nv nu i qhat = false) as Hover.
  { destruct (ready_values nv nu i Hdr) as (lowv & lowu & Hlv & Hlu & HV & HU).
    rewrite Htwo in *. change (radix ^ Z.of_nat (2 - 2)) with 1 in *.
    apply Z.ltb_ge. rewrite HU, HV. replace lowv with 0 by lia.
    pose proof (radix_pow_pos i). nia. }
  rewrite Hover. simpl orb.
  destruct (subtract_digit_spec nv nu i qhat Hdr Hqr Hover) as (nu1 & -> & Hl1 & Hlen1 & Hv1).
  apply IH; [|done]. by apply (loop_ready_next nv nu nu1 i qhat).
Qed.

(** * Normalization of the operands *)

Lemma top_shift d :
  0 < d < radix -> 0 <= NumberOfLeadingZerosU32 d < 32
  /\ 2 ^ 31 <= d * 2 ^ NumberOfLeadingZerosU32 d < radix.
Proof.
  intros Hd. unfold radix in *. rewrite nlz32 by (unfold inU; lia).
  assert (0 <= Z.log2 d < 32) by (split; [apply Z.log2_nonneg|apply Z.log2_lt_pow2; lia]).
  split; [lia|]. pose proof (Z.log2_spec d ltac:(lia)) as [Hlo Hhi].
  set (l := Z.log2 d) in *.
  assert (2 ^ 31 = 2 ^ l * 2 ^ (31 - l)) as E1 by (rewrite <- Z.pow_add_r by lia; f_equal; lia).
  assert (2 ^ 32 = 2 ^ Z.succ l * 2 ^ (31 - l)) as E2 by (rewrite <- Z.pow_add_r by lia; f_equal; lia).
  pose proof (Z.pow_pos_nonneg 2 (31 - l) ltac:(lia) ltac:(lia)). rewrite E1, E2. nia.
Qed.

(** Bits spill out of a word exactly when it has fewer leading zeros than the shift. *)
Lemma spill_zero d n :
  0 < d < radix -> 0 <= n < 32 -> d ≫ (32 - n) = 0 <-> n <= NumberOfLeadingZerosU32 d.
Proof.
  intros Hd Hn. unfold radix in Hd. rewrite shiftr_eq0 by lia. rewrite nlz32 by (unfold inU; lia).
  rewrite Z.log2_lt_pow2 by lia. lia.
Qed.

Lemma mval_take_small m k :
  limbs m -> (k <= length m)%nat -> mval m < radix ^ Z.of_nat k -> mval (take k m) = mval m.
Proof.
  intros Hl Hk Hlt. rewrite <- (take_drop k m) in Hlt. rewrite <- (take_drop k m) at 2.
  rewrite mval_app, length_take, Nat.min_l in * by lia.
  assert (limbs (drop k m)) as Hd by (by apply Forall_drop).
  pose proof (mval_bounds _ Hd) as [H0 _]. pose proof (mval_bounds _ (limbs_take k m Hl)) as [H1 _].
  pose proof (radix_pow_pos k). assert (mval (drop k m) = 0) as -> by nia. lia.
Qed.

(** The low bits of a magnitude are those of its first limb. *)
Lemma mval_low m s : m <> [] -> 0 <= s <= 32 -> mval m mod 2 ^ s = (m !!! 0%nat) mod 2 ^ s.
Proof.
  destruct m as [|d m]; [done|]. intros _ Hs. cbn [mval].
  change ((d :: m) !!! 0%nat) with d. unfold radix.
  replace (2 ^ 32) with (2 ^ (32 - s) * 2 ^ s) by (rewrite <- Z.pow_add_r by lia; f_equal; lia).
  replace (2 ^ (32 - s) * 2 ^ s * mval m) with ((2 ^ (32 - s) * mval m) * 2 ^ s) by ring.
  apply Z.mod_add. apply Z.pow_nonzero; lia.
Qed.

Lemma top_limb m :
  limbs m -> normal m -> m <> [] -> 0 < m !!! (length m - 1)%nat < radix.
Proof.
  intros Hl Hn Hne. assert (length m <> 0)%nat by (by destruct m).
  pose proof (limb_at m (length m - 1) Hl ltac:(lia)) as Hr.
  unfold normal in Hn. rewrite last_lookup in Hn.
  destruct (lookup_lt_is_Some_2 m (length m - 1) ltac:(lia)) as [x Hx].
  rewrite (list_lookup_total_correct _ _ x) in * by done.
  replace (pred (length m)) with (length m - 1)%nat in Hn by lia. rewrite Hx in Hn.
  assert (x <> 0) by congruence. lia.
Qed.

Lemma normalized_divisor v :
  limbs v -> normal v -> v <> [] ->
  let s := NumberOfLeadingZerosU32 (v !!! (length v - 1)%nat) in
  let nv := ShiftLeft v (replicate (length v) 0) s in
  length nv = length v /\ limbs nv /\ mval nv = mval v * 2 ^ s
  /\ 2 ^ 31 <= nv !!! (length nv - 1)%nat.
Proof.
  intros Hl Hn Hne. simpl. pose proof (top_limb v Hl Hn Hne) as Hd.
  set (d := v !!! (length v - 1)%nat) in *.
  destruct (top_shift d Hd) as [Hs Htop]. set (s := NumberOfLeadingZerosU32 d) in *.
  destruct (shift_left_spec v (length v) s Hl Hne Hs ltac:(lia)) as (H1 & H2 & H3 & _).
  fold d in H3. rewrite (proj2 (spill_zero d s Hd Hs)) in H3 by (unfold s; lia).
  set (nv := ShiftLeft _ _ _) in *. rewrite Z.mul_0_l, Z.add_0_r in H3.
  split; [done|]. split; [done|]. split; [done|]. rewrite H1.
  assert (length v <> 0)%nat by (by destruct v).
  pose proof (mval_take_S nv (length v - 1) ltac:(lia)) as Hnv.
  pose proof (mval_take_S v (length v - 1) ltac:(lia)) as Hv.
  replace (S (length v - 1)) with (length v) in * by lia.
  rewrite take_ge in Hnv, Hv by lia. fold d in Hv.
  pose proof (mval_bounds _ (limbs_take (length v - 1) nv H2)) as Hb.
  pose proof (mval_bounds _ (limbs_take (length v - 1) v Hl)) as Hb'.
  rewrite length_take, Nat.min_l in Hb, Hb' by lia.
  set (p := radix ^ Z.of_nat (length v - 1)) in *.
  assert (d * 2 ^ s * p <= mval nv) as Hge.
  { rewrite H3, Hv. pose proof (Z.pow_pos_nonneg 2 s ltac:(lia) ltac:(lia)). nia. }
  assert (2 ^ 31 * p <= mval nv) by nia. nia.
Qed.

Lemma normalized_dividend u s :
  limbs u -> normal u -> u <> [] -> 0 <= s < 32 ->
  let nu := normalize_dividend u s in
  (length u + 1 <= length nu)%nat /\ limbs nu /\ mval nu = mval u * 2 ^ s.
Proof.
  intros Hl Hn Hne Hs. unfold normalize_dividend. pose proof (top_limb u Hl Hn Hne) as Hd.
  set (d := u !!! (length u - 1)%nat) in *.
  destruct (Z.leb_spec s (NumberOfLeadingZerosU32 d)) as [Hle|Hgt].
  - destruct (shift_left_spec u (length u + 1) s Hl Hne Hs ltac:(lia)) as (H1 & H2 & H3 & _).
    fold d in H3. rewrite (proj2 (spill_zero d s Hd Hs)) in H3 by done.
    split; [lia|]. split; [done|]. lia.
  - destruct (shift_left_spec u (length u + 2) s Hl Hne Hs ltac:(lia)) as (H1 & H2 & H3 & H4).
    fold d in H3. rewrite length_insert. split; [lia|].
    assert (0 < s) as Hpos.
    { destruct (Z.eq_dec s 0) as [->|]; [|lia]. destruct (top_shift d Hd) as [Hr _]. lia. }
    pose proof (spill_range s ltac:(lia) d ltac:(lia)) as Hsp.
    assert (2 ^ s <= 2 ^ 32) by (apply Z.pow_le_mono_r; lia).
    split; [apply limbs_insert; [done|unfold inU; lia]|].
    rewrite mval_insert, H4 by lia. lia.
Qed.

(** * Division of magnitudes *)

Section divide_mag.
Context (u v : list Z).
Hypothesis Hu : limbs u /\ normal u.
Hypothesis Hv : limbs v /\ normal v.
Hypothesis Hlen : (2 <= length v <= length u)%nat.

Abbreviation shift := (NumberOfLeadingZerosU32 (v !!! (length v - 1)%nat)).
Abbreviation nv := (ShiftLeft v (replicate (length v) 0) shift).
Abbreviation nu := (normalize_dividend u shift).

Lemma operands_nonempty : u <> [] /\ v <> [].
Proof. split; intros ->; simpl in Hlen; lia. Qed.

Lemma shift_range : 0 <= shift < 32.
Proof. destruct operands_nonempty, Hv. by apply top_shift, top_limb. Qed.

Lemma divide_loop_ready : loop_ready nv nu (length u - length v + 1).
Proof.
  destruct operands_nonempty as [Hnu Hnv], Hu as [Hlu Hnlu], Hv as [Hlv Hnlv].
  pose proof shift_range as Hs.
  destruct (normalized_divisor v Hlv Hnlv Hnv) as (H1 & H2 & H3 & H4).
  destruct (normalized_dividend u shift Hlu Hnlu Hnu Hs) as (H5 & H6 & H7).
  split; [done|]. split; [done|]. split; [lia|]. split; [lia|]. split; [done|].
  rewrite H7, H3. pose proof (mval_bounds u Hlu) as [_ Hub].
  pose proof (normal_lower v Hlv Hnlv Hnv) as Hvb.
  assert (0 < 2 ^ shift) as Hp by (apply Z.pow_pos_nonneg; lia).
  replace (length u) with (length v - 1 + (length u - length v + 1))%nat in Hub at 1 by lia.
  rewrite radix_pow_add in Hub. pose proof (radix_pow_pos (length u - length v + 1)).
  set (R := radix ^ Z.of_nat (length u - length v + 1)) in *.
  assert (mval u < mval v * R) by nia. nia.
Qed.

Lemma divide_mag_spec :
  Divide_overestimates u v = false ->
  exists q r, divide_mag u v = Ok (q, r) /\ limbs q /\ limbs r
    /\ mval q = mval u / mval v /\ mval r = mval u mod mval v.
Proof.
  intros Hover. destruct operands_nonempty as [Hnu Hnv], Hu as [Hlu Hnlu], Hv as [Hlv Hnlv].
  pose proof shift_range as Hs. pose proof divide_loop_ready as Hready.
  destruct (normalized_divisor v Hlv Hnlv Hnv) as (H1 & H2 & H3 & H4).
  destruct (normalized_dividend u shift Hlu Hnlu Hnu Hs) as (H5 & H6 & H7).
  set (digits := (length u - length v + 1)%nat) in *.
  destruct (divide_digits_spec digits nv nu (replicate digits 0) Hready (limbs_replicate _))
    as (nu' & q & Hdiv & Hready' & Hq & Hlnu & _ & Heq);
    [by rewrite length_replicate|intros; by rewrite lookup_total_replicate_2|done|].
  unfold divide_mag. fold digits. rewrite Hdiv. cbn [obind]. rewrite mval_replicate, H3, H7 in Heq.
  destruct Hready' as (_ & Hlnu' & _ & Hfit & _ & Hlt). rewrite H3 in Hlt.
  change (radix ^ Z.of_nat 0) with 1 in Hlt.
  assert (0 < 2 ^ shift) as Hp by (apply Z.pow_pos_nonneg; lia).
  pose proof (mval_bounds nu' Hlnu') as [Hnn _]. pose proof (mval_bounds nv H2) as [_ Hnvb].
  rewrite H1, H3 in Hnvb.
  destruct (shift_right_spec nu' (length v) shift Hlnu' ltac:(lia) Hs) as (_ & Hr & Hrv).
  rewrite mval_take_small in Hrv by (done || lia).
  rewrite <- mval_low in Hrv by (done || lia || intros ->; simpl in *; lia).
  set (r := ShiftRight nu' (length v) (replicate (length v) 0) shift) in *.
  assert (mval nu' = (mval u - mval v * mval q) * 2 ^ shift) as Hnu' by lia.
  rewrite Hnu', Z.mod_mul, Z.sub_0_r in Hrv by lia. apply Z.mul_reg_r in Hrv; [|lia].
  exists q, r. split; [done|]. split; [done|]. split; [done|]. rewrite Hrv.
  assert (0 <= mval u - mval v * mval q < mval v) as Hrange by nia.
  split; [apply Z.div_unique_pos with (mval u - mval v * mval q)
         |apply Z.mod_unique_pos with (mval q)]; lia.
Qed.

End divide_mag.

(** No digit is overestimated when the divisor has two limbs. *)
Lemma two_limb_divisor u v :
  limbs u /\ normal u -> limbs v /\ normal v -> (length v = 2)%nat -> (2 <= length u)%nat ->
  Divide_overestimates u v = false.
Proof.
  intros Hu Hv H2 Hlen. unfold Divide_overestimates.
  apply two_limbs_exact; [apply divide_loop_ready; done || lia|].
  destruct (normalized_divisor v) as (-> & _); [apply Hv..| |done].
  intros ->. simpl in H2. lia.
Qed.

(** * Division *)

(** The two-limb operands of the 64-bit case. *)
Lemma join_two m :
  limbs m -> (0 < length m <= 2)%nat ->
  (if (length m =? 2)%nat then Z.lor (m !!! 0%nat) (u64 (m !!! 1%nat ≪ 32)) else m !!! 0%nat) = mval m.
Proof.
  intros Hl Hlen. destruct m as [|d0 [|d1 [|]]]; simpl in Hlen; try lia.
  - cbn. lia.
  - apply Forall_cons in Hl as [H0 Hl]. apply Forall_cons in Hl as [H1 _].
    change ([d0; d1] !!! 0%nat) with d0. change ([d0; d1] !!! 1%nat) with d1.
    pose proof (make_u64 d1 d0 H1 H0) as Hm. unfold MakeU64 in Hm.
    cbn [length Nat.eqb]. rewrite Z.lor_comm, Hm. cbn [mval]. unfold radix. lia.
Qed.

Lemma normalize_wf s m : (s = 1 \/ s = -1) -> limbs m ->
  wf (Normalize (BigInt s m)) /\ mval (mag (Normalize (BigInt s m))) = mval m.
Proof.
  intros Hs Hl. unfold Normalize. cbn [sign mag]. rewrite mval_normalize.
  split; [split; [done|split; [by apply limbs_normalize|apply normal_normalize]]|done].
Qed.

Lemma sign_mul a b : wf a -> wf b -> sign a * sign b = 1 \/ sign a * sign b = -1.
Proof. intros (Ha & _) (Hb & _). destruct Ha as [-> | ->], Hb as [-> | ->]; auto. Qed.

(** Magnitude and sign of a small signed number. *)
Lemma assign_signed s x :
  (s = 1 \/ s = -1) -> 0 <= x < 2 ^ 63 ->
  wf (AssignInt64 (s * x)) /\ mval (mag (AssignInt64 (s * x))) = x
  /\ value (AssignInt64 (s * x)) = s * x.
Proof.
  intros Hs Hx. assert (inS 64 (s * x)) as Hin by (unfold inS; destruct Hs as [-> | ->]; lia).
  destruct (assign_i64 _ Hin) as [[Hw _] Hv]. split; [done|]. split; [|done].
  destruct Hw as (Hsg & Hl & _). pose proof (mval_bounds _ Hl).
  unfold value in Hv. destruct Hsg as [E|E], Hs as [-> | ->]; rewrite E in Hv; lia.
Qed.

(** What a division promises about its results. *)
Definition division_of (b d q r : BigInteger) : Prop :=
  wf q /\ wf r
  /\ value q = sign b * sign d * (mval (mag b) / mval (mag d))
  /\ mval (mag r) = mval (mag b) mod mval (mag d)
  /\ (sign d = 1 -> value r = sign b * (mval (mag b) mod mval (mag d)))
  /\ (sign b = 1 -> sign d = 1 -> sign q = 1 /\ sign r = 1).

Lemma assign_nonneg_sign x : 0 <= x -> sign (AssignInt64 x) = 1.
Proof.
  intros Hx. unfold AssignInt64. destruct (Z.ltb_spec x 0); [lia|].
  unfold AssignUint64. repeat case_match; done.
Qed.

Lemma division_small b d :
  wf b -> wf d -> mval (mag b) < mval (mag d) -> division_of b d (AssignInt64 0) b.
Proof.
  intros Hb Hd Hlt. pose proof (mval_bounds _ (proj1 (proj2 Hb))).
  unfold division_of. rewrite Z.div_small, Z.mod_small by lia.
  destruct (assign_i64 0) as [[Hw _] Hv]; [split; reflexivity || lia|].
  split; [done|]. split; [done|]. split; [lia|]. split; [done|]. done.
Qed.

Lemma division_by_parts b d s q r :
  s = sign b * sign d -> (s = 1 \/ s = -1) -> limbs q -> limbs r ->
  mval q = mval (mag b) / mval (mag d) -> mval r = mval (mag b) mod mval (mag d) ->
  division_of b d (Normalize (BigInt s q)) (Normalize (BigInt s r)).
Proof.
  intros Es Hs Hq Hr Eq Er.
  destruct (normalize_wf s q Hs Hq) as [Hwq Hvq]. destruct (normalize_wf s r Hs Hr) as [Hwr Hvr].
  unfold division_of, value. rewrite Hvq, Hvr, Eq, Er. cbn [sign Normalize].
  split; [done|]. split; [done|]. split; [by rewrite Es|]. split; [done|].
  split; [intros E; rewrite Es, E; ring|]. intros E1 E2. rewrite Es, E1, E2. done.
Qed.

Lemma division_by_words b d s :
  s = sign b * sign d -> (s = 1 \/ s = -1) ->
  1 < mval (mag d) < mval (mag b) -> mval (mag b) < 2 ^ 64 ->
  let u := mval (mag b) in
  let v := mval (mag d) in
  division_of b d (AssignInt64 (s * i64 (u / v))) (AssignInt64 (s * i64 (u mod v))).
Proof.
  intros Es Hs Hd Hb. simpl. set (u := mval (mag b)) in *. set (v := mval (mag d)) in *.
  pose proof (Z.div_mod u v ltac:(lia)). pose proof (Z.mod_pos_bound u v ltac:(lia)).
  assert (0 <= u / v < 2 ^ 63) by (split; [apply Z.div_pos; lia|apply Z.div_lt_upper_bound; nia]).
  assert (1 <= u / v) by (apply Z.div_le_lower_bound; lia).
  assert (u mod v < 2 ^ 63) by nia.
  rewrite !wrapS_small by (unfold inS; lia).
  destruct (assign_signed s (u / v) Hs ltac:(lia)) as (Hwq & _ & Hvq).
  destruct (assign_signed s (u mod v) Hs ltac:(lia)) as (Hwr & Hmr & Hvr).
  split; [done|]. split; [done|]. split; [rewrite Hvq; by rewrite Es|]. split; [done|].
  split; [intros E; rewrite Hvr, Es, E; unfold u, v; ring|].
  intros E1 E2. rewrite Es, E1, E2, !assign_nonneg_sign by lia. done.
Qed.

Lemma divide_spec b d :
  wf b -> wf d -> fits d -> mag d <> [] -> Divide_safe b d = true ->
  exists q r, Divide b d = Ok (q, r) /\ division_of b d q r.
Proof.
  intros Hb Hd Hfit Hne Hsafe. pose proof (sign_mul b d Hb Hd) as Hs.
  pose proof (Hb) as (Hsb & Hlb & Hnb). pose proof (Hd) as (Hsd & Hld & Hnd).
  pose proof (normal_lower _ Hld Hnd Hne) as Hd0. pose proof (radix_pow_pos (length (mag d) - 1)).
  unfold Divide. unfold IsZero. case_bool_decide as Hz; [by apply length_zero_iff_nil in Hz|].
  unfold Divide_safe in Hsafe. rewrite compare_abs in * by done.
  destruct (Z.compare_spec (mval (mag b)) (mval (mag d))) as [Hc|Hc|Hc]; cbn [cmp_int] in *; simpl (_ =? _).
  - eexists _, _. split; [done|]. unfold division_of. rewrite Hc, Z.div_same, Z.mod_same by lia.
    destruct (assign_signed (sign b * sign d) 1 Hs ltac:(lia)) as (Hw & _ & Hv).
    rewrite Z.mul_1_r in Hw, Hv.
    split; [done|]. split; [apply (assign_i64 0); split; reflexivity || lia|].
    split; [lia|]. split; [done|].
    split; [intros _; change (value (AssignInt64 0)) with 0; lia|]. by intros -> ->.
  - exists (AssignInt64 0), b. split; [done|]. by apply division_small.
  - destruct (Z.eqb_spec (GetBitLength d) 1) as [E1|E1].
    + apply unit_mag in E1; [|done..]. eexists _, _. split; [done|].
      unfold division_of. rewrite E1, Z.div_1_r, Z.mod_1_r.
      split; [split; [done|done]|]. split; [apply (assign_i64 0); split; reflexivity || lia|].
      split; [done|]. split; [done|].
      split; [intros _; change (value (AssignInt64 0)) with 0; lia|]. by intros -> ->.
    + assert (1 < mval (mag d)) as Hgt.
      { apply Z.nle_gt. intros Hle. apply E1. rewrite bit_length_spec by done.
        assert (mval (mag d) = 1) as -> by lia. done. }
      pose proof (mval_bounds _ Hlb) as Bb.
      destruct (Nat.leb_spec (length (mag b)) 2) as [Htwo|Hmany].
      * assert (length (mag d) <= length (mag b))%nat as Hdb.
        { apply Nat.nlt_ge. intros Hlt. pose proof (mval_lt_length _ _ Hlb Hld Hnd Hlt). lia. }
        rewrite !join_two by (done || lia).
        eexists _, _. split; [done|]. apply division_by_words; [done|done|lia|].
        apply Z.lt_le_trans with (1 := proj2 Bb). change (2 ^ 64) with (radix ^ Z.of_nat 2).
        apply Z.pow_le_mono_r; [reflexivity|lia].
      * apply andb_true_iff in Hsafe as [Hv2 Hover]. apply Nat.leb_le in Hv2.
        apply negb_true_iff in Hover.
        assert (length (mag d) <= length (mag b))%nat as Hdb.
        { apply Nat.nlt_ge. intros Hlt. pose proof (mval_lt_length _ _ Hlb Hld Hnd Hlt). lia. }
        destruct (divide_mag_spec (mag b) (mag d)) as (q & r & -> & Hq & Hr & Eq & Er); [done..|].
        simpl obind. eexists _, _. split; [done|]. by apply division_by_parts.
Qed.

Lemma two_limb_safe b d : wf b -> wf d -> length (mag d) = 2%nat -> Divide_safe b d = true.
Proof.
  intros (_ & Hlb & Hnb) (_ & Hld & Hnd) H2. unfold Divide_safe. rewrite H2.
  destruct (Nat.leb_spec (length (mag b)) 2); [done|]. rewrite two_limb_divisor by (done || lia).
  by rewrite !orb_true_r.
Qed.

(** The promise on magnitudes, as truncated division of the values. *)
Lemma signed_division b d q r :
  wf b -> wf d -> mag d <> [] -> wf r ->
  value q = sign b * sign d * (mval (mag b) / mval (mag d)) ->
  mval (mag r) = mval (mag b) mod mval (mag d) ->
  (sign d = 1 -> value r = sign b * (mval (mag b) mod mval (mag d))) ->
  value q = Z.quot (value b) (value d)
  /\ Z.abs (value r) = Z.abs (Z.rem (value b) (value d))
  /\ (0 < value d -> value b = value q * value d + value r).
Proof.
  intros Hb Hd Hne Hr Hq Hm Hpos. rewrite value_abs, Hm by done.
  pose proof (mval_bounds _ (proj1 (proj2 Hb))) as Bb.
  pose proof (normal_lower _ (proj1 (proj2 Hd)) (proj2 (proj2 Hd)) Hne).
  pose proof (radix_pow_pos (length (mag d) - 1)).
  pose proof (Z.div_mod (mval (mag b)) (mval (mag d)) ltac:(lia)) as Hdm.
  pose proof (Z.mod_pos_bound (mval (mag b)) (mval (mag d)) ltac:(lia)).
  rewrite Hq. unfold value in *. set (u := mval (mag b)) in *. set (v := mval (mag d)) in *.
  destruct (proj1 Hb) as [E|E], (proj1 Hd) as [E'|E']; rewrite E, E' in *;
    rewrite ?Z.mul_1_l, <- ?Z.opp_eq_mul_m1, ?(Z.mul_comm (-1)), <- ?Z.opp_eq_mul_m1;
    rewrite ?Z.quot_opp_opp, ?Z.quot_opp_l, ?Z.quot_opp_r, ?Z.rem_opp_opp, ?Z.rem_opp_l, ?Z.rem_opp_r,
      ?Z.quot_div_nonneg, ?Z.rem_mod_nonneg by lia; try lia.
Qed.

(** * Divisors of one limb *)

(** The first estimate of a division by one limb fits a word, and the test that
    follows reads the limb below the divisor's only one. *)
Lemma one_limb_divide u d :
  limbs u /\ normal u -> (3 <= length u)%nat -> 0 < d < radix -> divide_mag u [d] = UB.
Proof.
  intros [Hl Hn] Hlen Hd. unfold divide_mag. cbn [length].
  change ([d] !!! (1 - 1)%nat) with d. set (s := NumberOfLeadingZerosU32 d).
  assert (limbs [d]) as Hld by (apply Forall_singleton; exact (conj (Z.lt_le_incl _ _ (proj1 Hd)) (proj2 Hd))).
  assert (normal [d]) as Hnd by (unfold normal; simpl; intros [=]; lia).
  destruct (normalized_divisor [d] Hld Hnd) as (H1 & H2 & H3 & H4); [done|].
  cbn [length] in *. change ([d] !!! (1 - 1)%nat) with d in *. fold s in H1, H2, H3, H4.
  destruct (top_shift d Hd) as [Hs _]. fold s in Hs.
  destruct (normalized_dividend u s Hl Hn) as (H5 & H6 & H7);
    [intros ->; simpl in Hlen; lia|done|].
  set (nv := ShiftLeft [d] _ s) in *. set (nu := normalize_dividend u s) in *.
  replace (length u - 1 + 1)%nat with (S (length u - 1)) by lia. cbn [divide_digits].
  unfold estimate. rewrite H1 in *. set (i := (length u - 1)%nat).
  replace (i + 1)%nat with (length u) by lia. replace (length u - 1)%nat with i by lia.
  pose proof (limb_at nu (length u) H6 ltac:(lia)) as Hu0.
  pose proof (limb_at nu i H6 ltac:(lia)) as Hu1.
  pose proof (limb_at nv 0 H2 ltac:(lia)) as Htop. simpl (1 - 1)%nat in *.
  rewrite make_u64 by (unfold inU, radix in *; lia).
  set (top := nv !!! 0%nat) in *. set (u0 := nu !!! length u) in *. set (u1 := nu !!! i) in *.
  assert (u0 < top) as Hlt.
  { pose proof (mval_bounds u Hl) as [_ Hub].
    pose proof (mval_take_S nu (length u) ltac:(lia)) as Ht. fold u0 in Ht.
    pose proof (mval_bounds _ (limbs_take (length u) nu H6)) as [Ht0 _].
    assert (mval (take (S (length u)) nu) <= mval nu) as Hle.
    { rewrite <- (take_drop (S (length u)) nu) at 2. rewrite mval_app.
      assert (limbs (drop (S (length u)) nu)) as Hd' by (by apply Forall_drop).
      pose proof (mval_bounds _ Hd') as [Hd0 _].
      pose proof (radix_pow_pos (length (take (S (length u)) nu))). nia. }
    pose proof (radix_pow_pos (length u)) as Hp.
    assert (2 ^ s <= 2 ^ 31) by (apply Z.pow_le_mono_r; lia).
    set (R := radix ^ Z.of_nat (length u)) in *.
    assert (u0 * R < R * 2 ^ s) by nia. nia. }
  assert ((u0 * 2 ^ 32 + u1) / top <= UINT32_MAX) as Hq.
  { apply Z.lt_succ_r, Z.div_lt_upper_bound; [lia|]. unfold radix, UINT32_MAX in *. lia. }
  unfold adjust. cbn [while]. unfold adjust_pass at 1. rewrite H1.
  destruct (Z.ltb_spec UINT32_MAX ((u0 * 2 ^ 32 + u1) / top)); [lia|]. reflexivity.
Qed.

(** * Properties *)

(** C37: When the dividend has at most two limbs, or the divisor is not smaller in
    magnitude, or is one, or has two or more limbs and no quotient digit is
    overestimated, [Divide] returns: the quotient is the truncated quotient of
    the values and the remainder has the magnitude of the truncated remainder;
    for a positive divisor the remainder has its value too, so that
    dividend = quotient * divisor + remainder. *)
Theorem Divide_correct b d :
  wf b -> wf d -> fits d -> value d <> 0 -> Divide_safe b d = true ->
  exists q r, Divide b d = Ok (q, r) /\ wf q /\ wf r
    /\ value q = Z.quot (value b) (value d)
    /\ Z.abs (value r) = Z.abs (Z.rem (value b) (value d))
    /\ (0 < value d -> value b = value q * value d + value r).
Proof.
  intros Hb Hd Hf Hnz Hsafe.
  assert (mag d <> []) as Hne by (by intros E; apply Hnz, value_zero).
  destruct (divide_spec b d Hb Hd Hf Hne Hsafe) as (q & r & Hdiv & Hq & Hr & Hvq & Hvr & Hpos & _).
  exists q, r. split; [done|]. split; [done|]. split; [done|].
  by apply signed_division.
Qed.

Lemma Divide_correct_witness :
  exists q r, Divide (BigInt (-1) [5; 6; 7; 8]) (BigInt 1 [1; 2; 3]) = Ok (q, r)
    /\ value q = Z.quot (value (BigInt (-1) [5; 6; 7; 8])) (value (BigInt 1 [1; 2; 3])).
Proof.
  destruct (Divide_correct (BigInt (-1) [5; 6; 7; 8]) (BigInt 1 [1; 2; 3]))
    as (q & r & Hd & _ & _ & Hq & _);
    [apply (bool_decide_unpack _); vm_compute; exact I..|reflexivity|discriminate|reflexivity|].
  exists q, r. exact (conj Hd Hq).
Defined.

(** Division by a divisor of exactly two limbs, such as the power of ten that
    printing divides by, is always right. *)
Theorem Divide_two_limbs_correct b d :
  wf b -> wf d -> length (mag d) = 2%nat ->
  exists q r, Divide b d = Ok (q, r) /\ wf q /\ wf r
    /\ value q = Z.quot (value b) (value d)
    /\ Z.abs (value r) = Z.abs (Z.rem (value b) (value d)).
Proof.
  intros Hb Hd H2. assert (fits d) as Hf by (unfold fits; rewrite H2; reflexivity).
  assert (mag d <> []) as Hne by (by intros E; rewrite E in H2).
  destruct (divide_spec b d Hb Hd Hf Hne (two_limb_safe b d Hb Hd H2))
    as (q & r & Hdiv & Hq & Hr & Hvq & Hvr & Hpos & _).
  exists q, r. split; [done|]. split; [done|]. split; [done|].
  destruct (signed_division b d q r Hb Hd Hne Hr Hvq Hvr Hpos) as (? & ? & _). done.
Qed.

Lemma Divide_two_limbs_correct_witness :
  exists q r, Divide (BigInt 1 [5; 6; 7; 8]) (BigInt (-1) [1; 2147483648]) = Ok (q, r)
    /\ value q = Z.quot (value (BigInt 1 [5; 6; 7; 8])) (value (BigInt (-1) [1; 2147483648])).
Proof.
  destruct (Divide_two_limbs_correct (BigInt 1 [5; 6; 7; 8]) (BigInt (-1) [1; 2147483648]))
    as (q & r & Hd & _ & _ & Hq & _);
    [apply (bool_decide_unpack _); vm_compute; exact I..|reflexivity|].
  exists q, r. exact (conj Hd Hq).
Defined.

(** A dividend of three or more limbs divided by a single limb greater than one
    makes [Divide] read the divisor at index -1: the access is out of bounds. *)
Theorem Divide_one_limb_out_of_bounds b d :
  wf b -> wf d -> (3 <= length (mag b))%nat -> length (mag d) = 1%nat -> 1 < Z.abs (value d) ->
  Divide b d = UB.
Proof.
  intros Hb Hd H3 H1 Hgt. rewrite value_abs in Hgt by done.
  assert (mag d <> []) as Hne by (by intros E; rewrite E in H1).
  unfold Divide, IsZero. rewrite H1. simpl bool_decide. cbv iota.
  pose proof (Hb) as (_ & Hlb & Hnb). pose proof (Hd) as (_ & Hld & Hnd).
  pose proof (mval_lt_length (mag d) (mag b) Hld Hlb Hnb ltac:(lia)) as Hlt.
  rewrite compare_abs by done. apply Z.lt_gt in Hlt. rewrite Hlt. simpl (_ =? _). cbv iota.
  destruct (Z.eqb_spec (GetBitLength d) 1) as [E|_].
  { apply unit_mag in E; [lia|done|]. unfold fits. rewrite H1. reflexivity. }
  destruct (Nat.leb_spec (length (mag b)) 2); [lia|].
  destruct (mag d) as [|x [|]]; try done. apply Forall_cons in Hld as [Hx _].
  cbn [mval] in Hgt. unfold inU in Hx. fold radix in Hx.
  rewrite one_limb_divide by (done || lia). reflexivity.
Qed.

Lemma Divide_one_limb_out_of_bounds_witness : Divide (BigInt 1 [0; 0; 1]) (BigInt 1 [10]) = UB.
Proof.
  apply Divide_one_limb_out_of_bounds; [apply (bool_decide_unpack _); vm_compute; exact I..|
    simpl; lia|reflexivity|reflexivity].
Defined.

(** The correction of an overestimated quotient digit never runs: dividing
    2 * 10^28 - 1 by 10^28 yields the quotient 2 and a remainder that is not the
    difference. *)
Theorem Divide_overestimate_uncorrected :
  exists b d q r, canonical b /\ canonical d
    /\ value b = 2 * 10 ^ 28 - 1 /\ value d = 10 ^ 28
    /\ Divide b d = Ok (q, r) /\ value q = 2 /\ value b <> value q * value d + value r.
Proof.
  exists (BigInt 1 [536870911; 2085225666; 1084202172]), (BigInt 1 [268435456; 1042612833; 542101086]).
  eexists (BigInt 1 [2]), _.
  split; [apply (bool_decide_unpack _); vm_compute; exact I|].
  split; [apply (bool_decide_unpack _); vm_compute; exact I|].
  split; [reflexivity|]. split; [reflexivity|].
  split; [vm_compute; reflexivity|]. split; [reflexivity|]. vm_compute. discriminate.
Qed.

(** With a negative divisor the remainder takes the sign of the quotient, so the
    dividend is not quotient times divisor plus remainder: 7 divided by -2. *)
Theorem Divide_negative_divisor_remainder :
  exists q r, Divide (AssignInt64 7) (AssignInt64 (-2)) = Ok (q, r)
    /\ value q = -3 /\ value r = -1 /\ value q * -2 + value r <> 7.
Proof.
  exists (AssignInt64 (-3)), (AssignInt64 (-1)).
  split; [reflexivity|]. split; [reflexivity|]. split; [reflexivity|]. discriminate.
Qed.
