(* ===== verification/BigText.v ===== *)
(** Text conversion of big integers: the stream operators [operator<<] and
    [operator>>] of [src/src/odbc/include/documentdb/odbc/common/big_integer.h].

    A stream is the list of its characters.  The operators of the standard
    library that they build on (printing a [uint64_t], padding to a width,
    skipping white space, [peek] and [ignore]) are modelled as they act on that
    list in the default "C" locale. *)
From S2P Require Import Prelude Bits BigInteger BigDivide.

(** * Characters *)

Definition code (c : ascii) : Z := Z.of_N (N_of_ascii c).

Definition digit_char (d : Z) : ascii := ascii_of_N (Z.to_N (48 + d)).

Definition isdigit (c : ascii) : bool := (48 <=? code c) && (code c <=? 57).

Definition isspace (c : ascii) : bool := (code c =? 32) || ((9 <=? code c) && (code c <=? 13)).

Fixpoint skip_ws (cs : list ascii) : list ascii :=
  match cs with
  | c :: t => if isspace c then skip_ws t else cs
  | [] => []
  end.

(** [os << n] for an unsigned integer of at most [fuel] decimal digits. *)
Fixpoint dec_digits (fuel : nat) (n : Z) (acc : list ascii) : list ascii :=
  match fuel with
  | O => acc
  | S k =>
      let acc := digit_char (n mod 10) :: acc in
      if n <? 10 then acc else dec_digits k (n / 10) acc
  end.

Definition print_u64 (n : Z) : list ascii := dec_digits 20 n [].

(** [os.fill('0'); os.width(w)] before an insertion. *)
Definition pad (w : nat) (s : list ascii) : list ascii :=
  replicate (w - length s) (digit_char 0) ++ s.

(** * Output *)

Definition maxResultDigits : nat := 19.

Definition maxUintTenPower : BigInteger := AssignUint64 10000000000000000000.

(** The loop that splits [left] into chunks of 19 digits, lowest first. *)
Fixpoint split_chunks (fuel : nat) (left : BigInteger) : outcome Z (list Z) :=
  if IsZero left then Ok [] else
  match fuel with
  | O => UB
  | S k =>
      let* (rest, res) := Divide left maxUintTenPower in
      let* vals := split_chunks k rest in
      Ok (u64 (ToInt64 res) :: vals)
  end.

(** The chunks, highest first; all but the highest are padded. *)
Definition print_chunks (vals : list Z) : list ascii :=
  match rev vals with
  | [] => []
  | hd :: tl => print_u64 hd ++ concat (map (fun v => pad maxResultDigits (print_u64 v)) tl)
  end.

Definition abs_sign (b : BigInteger) : BigInteger :=
  if sign b <? 0 then BigInt (- sign b) (mag b) else b.

Definition print_big (val : BigInteger) : outcome Z (list ascii) :=
  if IsZero val then Ok [digit_char 0] else
  let minus := if sign val <? 0 then ["-"%char] else [] in
  let* (rest, res) := Divide val maxUintTenPower in
  let res := abs_sign res in
  let rest := abs_sign rest in
  (* A chunk takes more than one limb away, so the limbs bound the passes. *)
  let* vals := split_chunks (length (mag val)) rest in
  Ok (minus ++ print_chunks (u64 (ToInt64 res) :: vals)).

(** * Input *)

(** [val = val * 10^partDigits + part]. *)
Definition flush (val : BigInteger) (part partDigits : Z) : option BigInteger :=
  pow ← GetPowerOfTen partDigits;
  Some (AddU64 (Multiply val pow) part).

(** The digit loop; the state is ([val], [part], [partDigits]). *)
Fixpoint read_digits (cs : list ascii) (val : BigInteger) (part partDigits : Z)
    : option (BigInteger * Z * Z * list ascii) :=
  match cs with
  | c :: t =>
      if isdigit c then
        let part := u64 (part * 10 + (code c - 48)) in
        let partDigits := partDigits + 1 in
        if 1000000000000000000 <=? part then
          val ← flush val part partDigits;
          read_digits t val 0 0
        else read_digits t val part partDigits
      else Some (val, part, partDigits, cs)
  | [] => Some (val, part, partDigits, cs)
  end.

(** [is >> val]: the value and the unread characters. *)
Definition parse_big (inp : list ascii) : option (BigInteger * list ascii) :=
  match skip_ws inp with
  | [] => Some (AssignInt64 0, [])
  | (c :: t) as cs =>
      let '(sgn, cs) :=
        if (code c =? 45) || (code c =? 43)
        then (if code c =? 45 then -1 else 1, t)
        else (1, cs) in
      '(val, part, partDigits, rest) ← read_digits cs (AssignInt64 0) 0 0;
      val ← (if partDigits =? 0 then Some val else flush val part partDigits);
      Some (if sgn <? 0 then Negate val else val, rest)
  end.

(** [AssignString(val, len)]. *)
Definition AssignString (s : list ascii) : option BigInteger := fst <$> parse_big s.

(** * Decimal numerals *)

(** The value of a string of digits. *)
Definition dval (s : list ascii) : Z := foldl (fun a c => a * 10 + (code c - 48)) 0 s.

Definition digits (s : list ascii) : Prop := Forall (fun c => isdigit c = true) s.

(** [s] is the decimal numeral of [n]: digits only, no needless leading zero. *)
Definition numeral (s : list ascii) (n : Z) : Prop :=
  s <> [] /\ digits s /\ dval s = n /\ (head s = Some (digit_char 0) -> s = [digit_char 0]).

#[export] Instance digits_dec s : Decision (digits s).
Proof. unfold digits. apply _. Defined.

Lemma code_digit d : 0 <= d <= 9 -> code (digit_char d) = 48 + d.
Proof.
  intros Hd. unfold code, digit_char. rewrite N_ascii_embedding by lia. lia.
Qed.

Lemma digit_is_digit d : 0 <= d <= 9 -> isdigit (digit_char d) = true.
Proof. intros Hd. unfold isdigit. rewrite code_digit by done. apply andb_true_iff. lia. Qed.

Lemma digit_code c : isdigit c = true -> 0 <= code c - 48 <= 9.
Proof. unfold isdigit. rewrite andb_true_iff, !Z.leb_le. lia. Qed.

Lemma code_inj a b : code a = code b -> a = b.
Proof.
  unfold code. intros H. apply N2Z.inj in H.
  rewrite <- (ascii_N_embedding a), <- (ascii_N_embedding b). by rewrite H.
Qed.

Lemma dval_snoc s c : dval (s ++ [c]) = dval s * 10 + (code c - 48).
Proof. unfold dval. by rewrite foldl_app. Qed.

Lemma dval_app a b : dval (a ++ b) = dval a * 10 ^ Z.of_nat (length b) + dval b.
Proof.
  induction b as [|c b IH] using rev_ind.
  - rewrite app_nil_r. cbn. lia.
  - rewrite app_assoc, !dval_snoc, IH, length_app. cbn [length].
    rewrite Nat2Z.inj_add, Z.pow_add_r by lia. change (10 ^ Z.of_nat 1) with 10. ring.
Qed.

Lemma dval_bounds s : digits s -> 0 <= dval s < 10 ^ Z.of_nat (length s).
Proof.
  induction s as [|c s IH] using rev_ind; intros Hd; [cbn; lia|].
  apply Forall_app in Hd as [Hs Hc]. apply Forall_cons in Hc as [Hc _].
  apply digit_code in Hc. rewrite dval_snoc, length_app. cbn [length].
  rewrite Nat2Z.inj_add, Z.pow_add_r by lia. change (10 ^ Z.of_nat 1) with 10.
  specialize (IH Hs). lia.
Qed.

(** A numeral is as long as its value needs. *)
Lemma numeral_lower s n : numeral s n -> 0 < n -> 10 ^ Z.of_nat (length s - 1) <= n.
Proof.
  intros (Hne & Hd & Hv & Hz) Hn. destruct s as [|c s]; [done|].
  apply Forall_cons in Hd as [Hc Hd]. pose proof (dval_bounds s Hd).
  assert (1 <= code c - 48) as Hc1.
  { pose proof (digit_code c Hc). destruct (decide (code c = 48)) as [E|]; [|lia].
    assert (c = digit_char 0) as -> by (by apply code_inj).
    specialize (Hz eq_refl). rewrite Hz in Hv. cbn in Hv. lia. }
  change (c :: s) with ([c] ++ s) in Hv. rewrite dval_app in Hv.
  cbn [length]. replace (S (length s) - 1)%nat with (length s) by lia.
  unfold dval at 1 in Hv. simpl foldl in Hv.
  assert (0 < 10 ^ Z.of_nat (length s)) by (apply Z.pow_pos_nonneg; lia). nia.
Qed.

Lemma numeral_length s n k :
  numeral s n -> n < 10 ^ Z.of_nat k -> (1 <= k)%nat -> (length s <= k)%nat.
Proof.
  intros Hs Hlt Hk. destruct (Z.le_gt_cases n 0) as [Hn|Hn].
  - destruct Hs as (Hne & Hd & Hv & Hz). pose proof (dval_bounds s Hd).
    destruct s as [|c s]; [done|].
    apply Forall_cons in Hd as [Hc Hd]. pose proof (dval_bounds s Hd). pose proof (digit_code c Hc).
    change (c :: s) with ([c] ++ s) in Hv. rewrite dval_app in Hv.
    unfold dval at 1 in Hv. simpl foldl in Hv.
    assert (0 < 10 ^ Z.of_nat (length s)) by (apply Z.pow_pos_nonneg; lia).
    assert (c = digit_char 0) as -> by (apply code_inj; rewrite code_digit; nia).
    rewrite (Hz eq_refl). simpl. lia.
  - pose proof (numeral_lower s n Hs Hn) as Hlow.
    assert (Z.of_nat (length s - 1) < Z.of_nat k); [|lia].
    apply (Z.pow_lt_mono_r_iff 10); [lia|lia|]. by apply Z.le_lt_trans with n.
Qed.

Lemma dec_digits_spec fuel n acc :
  0 <= n < 10 ^ Z.of_nat fuel -> (0 < fuel)%nat ->
  exists s, dec_digits fuel n acc = s ++ acc /\ numeral s n.
Proof.
  revert n acc. induction fuel as [|k IH]; intros n acc Hn Hf; [lia|]. cbn [dec_digits].
  destruct (Z.ltb_spec n 10) as [Hs|Hb].
  - exists [digit_char n]. rewrite Z.mod_small by lia. split; [done|].
    unfold numeral, digits. split; [done|].
    split; [apply Forall_singleton; apply digit_is_digit; lia|].
    split; [unfold dval; simpl; rewrite code_digit by lia; lia|]. by intros [= ->].
  - pose proof (Z.mod_pos_bound n 10 ltac:(lia)). pose proof (Z.div_mod n 10 ltac:(lia)).
    rewrite Nat2Z.inj_succ, Z.pow_succ_r in Hn by lia.
    destruct (IH (n / 10) (digit_char (n mod 10) :: acc)) as (s & -> & Hne & Hd & Hv & Hz).
    { split; [apply Z.div_pos; lia|apply Z.div_lt_upper_bound; lia]. }
    { destruct k; [|lia]. change (10 ^ Z.of_nat 0) with 1 in Hn. lia. }
    exists (s ++ [digit_char (n mod 10)]). split; [by rewrite <- app_assoc|].
    split; [by destruct s|].
    split; [apply Forall_app; split; [done|apply Forall_singleton, digit_is_digit; lia]|].
    split; [rewrite dval_snoc, Hv, code_digit by lia; lia|].
    intros Hh. assert (head s = Some (digit_char 0)) as Hh' by (by destruct s).
    rewrite (Hz Hh') in Hv. change (dval [digit_char 0]) with 0 in Hv. lia.
Qed.

Lemma print_u64_spec n : 0 <= n < 10 ^ 20 -> numeral (print_u64 n) n.
Proof.
  intros Hn. unfold print_u64. destruct (dec_digits_spec 20 n [] Hn ltac:(lia)) as (s & -> & Hs).
  by rewrite app_nil_r.
Qed.

Lemma dval_zeros k : dval (replicate k (digit_char 0)) = 0.
Proof.
  induction k as [|k IH]; [done|]. rewrite replicate_S_end, dval_snoc, IH, code_digit by lia. lia.
Qed.

Lemma pad_spec n :
  0 <= n < 10 ^ 19 ->
  let s := pad maxResultDigits (print_u64 n) in
  length s = 19%nat /\ digits s /\ dval s = n.
Proof.
  intros Hn. pose proof (print_u64_spec n ltac:(lia)) as Hnum.
  pose proof (numeral_length _ _ 19 Hnum ltac:(lia) ltac:(lia)) as Hlen.
  destruct Hnum as (_ & Hd & Hv & _). unfold pad, maxResultDigits. simpl.
  rewrite length_app, length_replicate. split; [lia|].
  split; [apply Forall_app; split; [apply Forall_replicate, digit_is_digit; lia|done]|].
  rewrite dval_app, dval_zeros, Hv. lia.
Qed.

(** * Chunks *)

Definition chunk : Z := 10 ^ 19.

(** The value of a list of chunks, lowest first. *)
Fixpoint cval (vals : list Z) : Z :=
  match vals with
  | [] => 0
  | v :: t => v + chunk * cval t
  end.

Definition chunks (vals : list Z) : Prop := Forall (fun v => 0 <= v < chunk) vals.

Lemma cval_snoc vals v : cval (vals ++ [v]) = cval vals + chunk ^ Z.of_nat (length vals) * v.
Proof.
  induction vals as [|w vals IH]; [simpl; lia|]. cbn [app cval length].
  rewrite IH, Nat2Z.inj_succ, Z.pow_succ_r by lia. ring.
Qed.

(** The padded chunks below the highest. *)
Lemma padded_chunks vals :
  chunks vals ->
  let s := concat (map (fun v => pad maxResultDigits (print_u64 v)) (rev vals)) in
  Z.of_nat (length s) = 19 * Z.of_nat (length vals) /\ digits s /\ dval s = cval vals.
Proof.
  induction vals as [|v vals IH]; intros Hc; [repeat split; constructor|].
  apply Forall_cons in Hc as [Hv Hc]. specialize (IH Hc). cbv zeta in IH |- *.
  cbn [rev]. rewrite map_app, concat_app. cbn [map concat]. rewrite app_nil_r.
  set (s := concat (map _ (rev vals))) in *. destruct IH as (Hlen & Hd & Hval).
  destruct (pad_spec v Hv) as (Hlen' & Hd' & Hval').
  rewrite length_app, Hlen'. cbn [length cval]. split; [lia|].
  split; [by apply Forall_app|].
  rewrite dval_app, Hval, Hval', Hlen'. change (10 ^ Z.of_nat 19) with chunk. ring.
Qed.

(** The printed chunks are the numeral of their value. *)
Lemma print_chunks_spec vals v :
  chunks vals -> 0 <= v < chunk -> (0 < v \/ vals = []) ->
  numeral (print_chunks (vals ++ [v])) (cval (vals ++ [v])).
Proof.
  intros Hc Hv Htop. unfold print_chunks. rewrite rev_app_distr. cbn [rev app].
  destruct (print_u64_spec v) as (Hne & Hd & Hval & Hz); [unfold chunk in Hv; lia|].
  destruct (padded_chunks vals Hc) as (Hlen & Hd' & Hval').
  set (s := print_u64 v) in *. set (t := concat _) in *.
  split; [by destruct s|]. split; [by apply Forall_app|]. split.
  - rewrite dval_app, Hval, Hval', cval_snoc, Hlen.
    assert (10 ^ (19 * Z.of_nat (length vals)) = chunk ^ Z.of_nat (length vals)) as ->
      by (unfold chunk; rewrite <- Z.pow_mul_r by lia; done). ring.
  - intros Hh. assert (head s = Some (digit_char 0)) as Hh' by (by destruct s).
    specialize (Hz Hh'). destruct Htop as [Hpos|Hnil].
    + rewrite Hz in Hval. change (dval [digit_char 0]) with 0 in Hval. lia.
    + rewrite Hz. unfold t. by rewrite Hnil.
Qed.

Lemma ten19_facts :
  wf maxUintTenPower /\ fits maxUintTenPower /\ sign maxUintTenPower = 1
  /\ length (mag maxUintTenPower) = 2%nat /\ mval (mag maxUintTenPower) = chunk.
Proof.
  split; [apply (assign_u64 10000000000000000000); split; reflexivity || lia|].
  split; [reflexivity|]. split; [reflexivity|]. split; reflexivity.
Qed.

(** Dividing by [10^19] gives the next chunk and the rest, for any sign. *)
Lemma divide_ten19 b :
  wf b ->
  exists q r, Divide b maxUintTenPower = Ok (q, r) /\ wf q /\ wf r
    /\ mval (mag q) = mval (mag b) / chunk /\ mval (mag r) = mval (mag b) mod chunk
    /\ (sign b = 1 -> sign q = 1 /\ sign r = 1).
Proof.
  intros Hb. destruct ten19_facts as (Hw & Hf & Hs & Hl & Hv).
  destruct (divide_spec b maxUintTenPower Hb Hw Hf) as (q & r & Hd & Hwq & Hwr & Hq & Hr & _ & Hsg).
  { intros E. rewrite E in Hl. done. }
  { by apply two_limb_safe. }
  exists q, r. rewrite Hs, Hv in *. split; [done|]. split; [done|]. split; [done|].
  split; [|by auto]. unfold value in Hq.
  pose proof (mval_bounds _ (proj1 (proj2 Hwq))). pose proof (mval_bounds _ (proj1 (proj2 Hb))).
  assert (0 <= mval (mag b) / chunk) by (apply Z.div_pos; [lia|reflexivity]).
  destruct (proj1 Hwq) as [E|E], (proj1 Hb) as [E'|E']; rewrite E, E' in Hq; lia.
Qed.

(** The low 64 bits of a remainder are the remainder. *)
Lemma chunk_to_int64 r :
  wf r -> sign r = 1 -> mval (mag r) < chunk -> u64 (ToInt64 r) = mval (mag r).
Proof.
  intros Hw Hs Hlt. rewrite to_int64_nonneg, wrapU_wrapS by (done || lia).
  unfold value. rewrite Hs, Z.mul_1_l. apply wrapU_small.
  pose proof (mval_bounds _ (proj1 (proj2 Hw))). unfold inU, chunk in *. lia.
Qed.

Lemma is_zero_spec b : wf b -> IsZero b = true <-> mval (mag b) = 0.
Proof.
  intros (_ & Hl & Hn). unfold IsZero. rewrite bool_decide_eq_true, mval_zero by done.
  apply length_zero_iff_nil.
Qed.

(** The highest chunk is not zero. *)
Definition top_nonzero (vals : list Z) : Prop :=
  vals = [] \/ exists init v, vals = init ++ [v] /\ 0 < v.

Lemma top_nonzero_cons r vals :
  (vals = [] -> 0 < r) -> top_nonzero vals -> top_nonzero (r :: vals).
Proof.
  intros Hr [->|(init & v & -> & Hv)]; right.
  - exists [], r. auto.
  - exists (r :: init), v. auto.
Qed.

Lemma split_chunks_spec fuel b :
  wf b -> sign b = 1 -> mval (mag b) < chunk ^ Z.of_nat fuel ->
  exists vals, split_chunks fuel b = Ok vals /\ chunks vals
    /\ cval vals = mval (mag b) /\ top_nonzero vals.
Proof.
  revert b. induction fuel as [|k IH]; intros b Hw Hs Hlt;
    pose proof (mval_bounds _ (proj1 (proj2 Hw))) as Hnn; cbn [split_chunks];
    destruct (IsZero b) eqn:Hz.
  1, 3: exists []; apply is_zero_spec in Hz; [|done]; split; [done|];
    split; [constructor|]; split; [done|]; by left.
  - exfalso. change (chunk ^ Z.of_nat 0) with 1 in Hlt.
    assert (mval (mag b) = 0) as H0 by lia. apply is_zero_spec in H0; [congruence|done].
  - assert (mval (mag b) <> 0) by (intros E; apply is_zero_spec in E; [congruence|done]).
    destruct (divide_ten19 b Hw) as (q & r & -> & Hwq & Hwr & Hq & Hr & Hsg).
    destruct (Hsg Hs) as [Hsq Hsr]. cbn [obind].
    rewrite Nat2Z.inj_succ, Z.pow_succ_r in Hlt by lia.
    pose proof (Z.mod_pos_bound (mval (mag b)) chunk ltac:(done)) as Hmod.
    pose proof (Z.div_mod (mval (mag b)) chunk ltac:(done)) as Hdm.
    destruct (IH q Hwq Hsq) as (vals & -> & Hc & Hv & Ht).
    { rewrite Hq. by apply Z.div_lt_upper_bound. }
    cbn [obind]. rewrite chunk_to_int64 by (done || lia).
    eexists. split; [done|]. rewrite Hr.
    split; [apply Forall_cons; split; done|].
    split; [cbn [cval]; rewrite Hv, Hq; lia|]. apply top_nonzero_cons; [|done].
    intros ->. simpl in Hv. lia.
Qed.

Lemma abs_sign_spec b :
  wf b -> wf (abs_sign b) /\ sign (abs_sign b) = 1 /\ mag (abs_sign b) = mag b.
Proof.
  intros (Hs & Hl & Hn). unfold abs_sign. destruct Hs as [E|E]; rewrite E; simpl.
  - split; [split; [by left|done]|done].
  - split; [split; [by left|done]|done].
Qed.

Lemma chunk_radix n : radix ^ Z.of_nat n <= chunk ^ Z.of_nat n.
Proof. apply Z.pow_le_mono_l. split; apply Z.leb_le; reflexivity. Qed.

Definition minus_of (b : BigInteger) : list ascii := if sign b <? 0 then ["-"%char] else [].

Lemma print_big_spec b :
  wf b -> mag b <> [] ->
  exists s, print_big b = Ok (minus_of b ++ s) /\ numeral s (mval (mag b)).
Proof.
  intros Hw Hne. unfold print_big.
  pose proof (mval_bounds _ (proj1 (proj2 Hw))) as Hb.
  destruct (IsZero b) eqn:Hz.
  { apply is_zero_spec in Hz; [|done]. apply mval_zero in Hz; [done|apply Hw..]. }
  destruct (divide_ten19 b Hw) as (q & r & -> & Hwq & Hwr & Hq & Hr & _). cbn [obind].
  destruct (abs_sign_spec q Hwq) as (Hwq' & Hsq' & Hmq).
  destruct (abs_sign_spec r Hwr) as (Hwr' & Hsr' & Hmr).
  pose proof (Z.mod_pos_bound (mval (mag b)) chunk ltac:(done)) as Hmod.
  pose proof (Z.div_mod (mval (mag b)) chunk ltac:(done)) as Hdm.
  destruct (split_chunks_spec (length (mag b)) (abs_sign q) Hwq' Hsq')
    as (vals & -> & Hc & Hv & Ht).
  { rewrite Hmq, Hq. pose proof (chunk_radix (length (mag b))).
    apply Z.le_lt_trans with (mval (mag b)); [|lia].
    apply Z.div_le_upper_bound; [done|]. unfold chunk. lia. }
  cbn [obind]. rewrite chunk_to_int64 by (done || rewrite ?Hmr, ?Hr; lia). rewrite Hmr, Hr.
  rewrite Hmq, Hq in Hv. eexists. split; [done|].
  assert (cval (mval (mag b) mod chunk :: vals) = mval (mag b)) as Hcv by (cbn [cval]; lia).
  rewrite <- Hcv at 2. clear Hcv. destruct Ht as [->|(init & v & -> & Hpos)].
  - apply (print_chunks_spec []); [constructor|done|by right].
  - apply Forall_app in Hc as [Hci Hcv]. apply Forall_cons in Hcv as [Hcv _].
    apply (print_chunks_spec (_ :: init)); [by apply Forall_cons|done|by left].
Qed.

(** * Reading *)

Definition nonneg (b : BigInteger) : Prop := wf b /\ sign b = 1.

Lemma nonneg_value b : nonneg b -> value b = mval (mag b).
Proof. intros [_ Hs]. unfold value. rewrite Hs. lia. Qed.

Lemma nonneg_canonical b : nonneg b -> canonical b.
Proof. intros [Hw Hs]. by split. Qed.

Lemma canonical_pos b : canonical b -> 0 <= value b -> nonneg b.
Proof.
  intros [Hw Hz] Hv. split; [done|]. destruct (proj1 Hw) as [E|E]; [done|].
  pose proof (mval_bounds _ (proj1 (proj2 Hw))). unfold value in Hv. rewrite E in Hv.
  apply Hz. apply mval_zero; [apply Hw..|]. lia.
Qed.

Lemma flush_spec val part pd :
  nonneg val -> inU 64 part -> 0 <= pd < 2 ^ 31 ->
  exists v, flush val part pd = Some v /\ nonneg v /\ value v = value val * 10 ^ pd + part.
Proof.
  intros Hval Hpart Hpd. unfold flush.
  destruct (power_of_ten pd Hpd) as (p & -> & Hp & Hpv). simpl.
  assert (nonneg p) as Hpn.
  { apply canonical_pos; [done|]. rewrite Hpv. apply Z.pow_nonneg. lia. }
  destruct Hval as [Hw Hs], Hpn as [Hpw Hps].
  destruct (multiply_spec val p Hw Hpw) as [Hmw Hmv].
  assert (sign (Multiply val p) = 1) as Hms by (simpl; rewrite Hs, Hps; done).
  destruct (add_u64_spec (Multiply val p) part Hmw Hpart) as (Haw & Hav & Has).
  exists (AddU64 (Multiply val p) part). split; [done|].
  assert (nonneg (AddU64 (Multiply val p) part)) as Hn.
  { split; [done|]. destruct (decide (mag (Multiply val p) = [])) as [E|E].
    - unfold AddU64. destruct (part =? 0); [done|]. unfold IsZero. rewrite E. simpl.
      unfold AssignUint64. repeat case_match; done.
    - rewrite Has; done. }
  split; [done|]. rewrite nonneg_value, Hav by done.
  rewrite <- (nonneg_value (Multiply val p)) by done. rewrite Hmv, Hpv. done.
Qed.

(** Reading a run of digits multiplies what was read and adds the run. *)
Lemma read_digits_spec ds rest val part pd :
  digits ds -> (forall c t, rest = c :: t -> isdigit c = false) ->
  nonneg val -> 0 <= part < 10 ^ 18 -> 0 <= pd -> pd + Z.of_nat (length ds) < 2 ^ 31 ->
  (pd = 0 -> part = 0) ->
  exists val' part' pd', read_digits (ds ++ rest) val part pd = Some (val', part', pd', rest)
    /\ nonneg val' /\ 0 <= part' < 10 ^ 18 /\ 0 <= pd' < 2 ^ 31 /\ (pd' = 0 -> part' = 0)
    /\ value val' * 10 ^ pd' + part'
       = (value val * 10 ^ pd + part) * 10 ^ Z.of_nat (length ds) + dval ds.
Proof.
  intros Hds Hrest. revert val part pd.
  induction ds as [|c ds IH]; intros val part pd Hval Hpart Hpd Hlen Hz.
  - exists val, part, pd. split; [|split; [done|]; split; [done|]; split; [simpl in Hlen; lia|];
      split; [done|]; cbn; lia].
    destruct rest as [|c t]; [done|]. simpl. by rewrite (Hrest c t).
  - apply Forall_cons in Hds as [Hc Hds]. pose proof (digit_code c Hc) as Hd.
    cbn [app read_digits length] in *. rewrite Hc.
    rewrite wrapU_small by (unfold inU; lia). set (d := code c - 48) in *.
    assert (dval (c :: ds) = d * 10 ^ Z.of_nat (length ds) + dval ds) as Hdv.
    { change (c :: ds) with ([c] ++ ds). rewrite dval_app. done. }
    rewrite Hdv, Nat2Z.inj_succ, Z.pow_succ_r by lia.
    destruct (Z.leb_spec 1000000000000000000 (part * 10 + d)) as [Hbig|Hsmall].
    + destruct (flush_spec val (part * 10 + d) (pd + 1)) as (v & -> & Hv & Hvv);
        [done|unfold inU; lia|lia|]. simpl.
      destruct (IH Hds v 0 0) as (v' & p' & pd' & -> & H1 & H2 & H3 & H4 & H5); [done|lia|lia|lia|done|].
      exists v', p', pd'. split; [done|]. split; [done|]. split; [done|]. split; [done|].
      split; [done|]. rewrite H5, Hvv, Z.pow_add_r by lia. change (10 ^ 1) with 10.
      change (10 ^ 0) with 1. ring.
    + destruct (IH Hds val (part * 10 + d) (pd + 1))
        as (v' & p' & pd' & -> & H1 & H2 & H3 & H4 & H5); [done|lia|lia|lia|lia|].
      exists v', p', pd'. split; [done|]. split; [done|]. split; [done|]. split; [done|].
      split; [done|]. rewrite H5, Z.pow_add_r by lia. change (10 ^ 1) with 10. ring.
Qed.

Lemma skip_ws_app ws t :
  Forall (fun c => isspace c = true) ws ->
  (forall c u, t = c :: u -> isspace c = false) -> skip_ws (ws ++ t) = t.
Proof.
  intros Hws Ht. induction Hws as [|c ws Hc Hws IH].
  - destruct t as [|c u]; [done|]. simpl. by rewrite (Ht c u).
  - simpl. by rewrite Hc.
Qed.

Lemma digit_not_space c : isdigit c = true -> isspace c = false.
Proof.
  intros H. apply digit_code in H. unfold isspace.
  destruct (Z.eqb_spec (code c) 32); [lia|]. destruct (Z.leb_spec 9 (code c)); [|done].
  destruct (Z.leb_spec (code c) 13); [lia|done].
Qed.

Lemma digit_not_sign c : isdigit c = true -> (code c =? 45) || (code c =? 43) = false.
Proof.
  intros H. apply digit_code in H.
  destruct (Z.eqb_spec (code c) 45); [lia|]. destruct (Z.eqb_spec (code c) 43); [lia|done].
Qed.

(** The optional sign of a number in text, and what it means. *)
Inductive text_sign : list ascii -> Z -> Prop :=
| sign_none : text_sign [] 1
| sign_plus : text_sign ["+"%char] 1
| sign_minus : text_sign ["-"%char] (-1).

Lemma negate_spec b : nonneg b -> canonical (Negate b) /\ value (Negate b) = - value b.
Proof.
  intros Hn. pose proof (nonneg_canonical b Hn) as Hc. destruct Hn as [Hw Hs]. unfold Negate.
  destruct (IsZero b) eqn:Hz.
  - split; [done|]. apply is_zero_spec in Hz; [|done]. unfold value. rewrite Hz. lia.
  - unfold value. cbn [sign mag]. split; [|lia].
    split; [split; [right; cbn [sign]; lia|apply Hw]|]. cbn [mag sign]. intros E.
    unfold IsZero in Hz. rewrite E in Hz. done.
Qed.

Lemma parse_big_spec ws sg s ds rest :
  Forall (fun c => isspace c = true) ws -> text_sign sg s -> digits ds -> ds <> [] ->
  (forall c t, rest = c :: t -> isdigit c = false) -> Z.of_nat (length ds) < 2 ^ 31 ->
  exists b, parse_big (ws ++ sg ++ ds ++ rest) = Some (b, rest)
    /\ canonical b /\ value b = s * dval ds.
Proof.
  intros Hws Hsg Hds Hne Hrest Hlen. unfold parse_big.
  destruct ds as [|d ds]; [done|]. pose proof (proj1 (proj1 (Forall_cons _ _ _) Hds)) as Hd.
  rewrite skip_ws_app; [|done|].
  2:{ destruct Hsg; intros c u [= <- _]; [by apply digit_not_space|reflexivity|reflexivity]. }
  destruct (assign_i64 0) as [H0c H0v]; [split; reflexivity || lia|].
  destruct (read_digits_spec (d :: ds) rest (AssignInt64 0) 0 0 Hds Hrest)
    as (v & p & pd & Hrd & Hv & Hp & Hpd & Hz & Heq);
    [by apply canonical_pos; rewrite ?H0v|lia|lia|lia|done|].
  assert (value v * 10 ^ pd + p = dval (d :: ds)) as Heq' by (rewrite Heq, H0v; ring).
  clear Heq. rename Heq' into Heq.
  assert (exists w, (if pd =? 0 then Some v else flush v p pd) = Some w /\ nonneg w
            /\ value w = dval (d :: ds)) as (w & Hw & Hnw & Hvw).
  { destruct (Z.eqb_spec pd 0) as [->|].
    - exists v. split; [done|]. split; [done|]. rewrite <- Heq, Hz by done.
      change (10 ^ 0) with 1. lia.
    - destruct (flush_spec v p pd Hv) as (w & -> & Hnw & Hvw); [unfold inU; lia|lia|].
      exists w. split; [done|]. split; [done|]. lia. }
  pose proof (nonneg_canonical w Hnw). destruct (negate_spec w Hnw) as [Hnc Hnv].
  destruct Hsg; cbn [app].
  - rewrite (digit_not_sign d Hd). change (d :: ds ++ rest) with ((d :: ds) ++ rest).
    rewrite Hrd. cbn. rewrite Hw. cbn. exists w.
    split; [done|]. split; [done|]. change (value w = 1 * dval (d :: ds)). lia.
  - change ((code "+"%char =? 45) || (code "+"%char =? 43)) with true.
    change (code "+"%char =? 45) with false. cbv iota beta.
    change (d :: ds ++ rest) with ((d :: ds) ++ rest). rewrite Hrd. cbn. rewrite Hw. cbn.
    exists w. split; [done|]. split; [done|]. change (value w = 1 * dval (d :: ds)). lia.
  - change ((code "-"%char =? 45) || (code "-"%char =? 43)) with true.
    change (code "-"%char =? 45) with true. cbv iota beta.
    change (d :: ds ++ rest) with ((d :: ds) ++ rest). rewrite Hrd. cbn. rewrite Hw. cbn.
    exists (Negate w). split; [done|]. split; [done|].
    change (value (Negate w) = -1 * dval (d :: ds)). lia.
Qed.

(** * Representations are unique *)

Lemma mval_inj_length a b :
  limbs a -> limbs b -> length a = length b -> mval a = mval b -> a = b.
Proof.
  revert b. induction a as [|x a IH]; intros [|y b] Ha Hb Hlen Hv; try done.
  apply Forall_cons in Ha as [Hx Ha], Hb as [Hy Hb]. cbn [mval] in Hv.
  unfold inU, radix in *. assert (x = y /\ mval a = mval b) as [-> Hab] by lia.
  f_equal. apply IH; [done|done| |done]. simpl in Hlen. lia.
Qed.

Lemma mval_inj a b :
  limbs a -> limbs b -> normal a -> normal b -> mval a = mval b -> a = b.
Proof.
  intros Ha Hb Hna Hnb Hv. apply mval_inj_length; [done|done| |done].
  destruct (Nat.lt_trichotomy (length a) (length b)) as [Hlt|[?|Hlt]]; [|done|].
  - pose proof (mval_lt_length a b Ha Hb Hnb Hlt). lia.
  - pose proof (mval_lt_length b a Hb Ha Hna Hlt). lia.
Qed.

Lemma canonical_inj a b : canonical a -> canonical b -> value a = value b -> a = b.
Proof.
  intros [Ha Hza] [Hb Hzb] Hv.
  pose proof (mval_bounds _ (proj1 (proj2 Ha))). pose proof (mval_bounds _ (proj1 (proj2 Hb))).
  assert (mval (mag a) = mval (mag b)) as Hm.
  { unfold value in Hv. destruct (proj1 Ha) as [E|E], (proj1 Hb) as [E'|E'];
      rewrite E, E' in Hv; lia. }
  apply mval_inj in Hm; [|apply Ha|apply Hb|apply Ha|apply Hb].
  destruct a as [sa ma], b as [sb mb]. cbn [sign mag value] in *. subst mb. f_equal.
  destruct (decide (ma = [])) as [E|E]; [rewrite Hza, Hzb by done; done|].
  assert (mval ma <> 0) by (intros E'; apply mval_zero in E'; [done|apply Ha..]).
  unfold value in Hv; cbn [sign mag] in Hv. nia.
Qed.

(** A numeral of a value of [n] limbs has at most [10 * n] digits. *)
Lemma numeral_limbs s m :
  limbs m -> m <> [] -> numeral s (mval m) -> Z.of_nat (length s) <= 10 * Z.of_nat (length m).
Proof.
  intros Hl Hne Hs. pose proof (mval_bounds m Hl) as [_ Hb].
  assert (length m <> 0)%nat by (by destruct m).
  assert (mval m < 10 ^ Z.of_nat (10 * length m)) as Hlt.
  { apply Z.lt_le_trans with (1 := Hb). rewrite Nat2Z.inj_mul, Z.pow_mul_r by lia.
    apply Z.pow_le_mono_l. split; apply Z.leb_le; reflexivity. }
  pose proof (numeral_length s (mval m) (10 * length m) Hs Hlt ltac:(lia)). lia.
Qed.

Lemma print_zero b : mag b = [] -> print_big b = Ok [digit_char 0].
Proof. intros E. unfold print_big, IsZero. by rewrite E. Qed.

(** * Properties *)

(** [operator<<] never fails on a well-formed integer: it writes a minus sign for
    a negative one and then the decimal numeral of the magnitude, without
    needless leading zeros; zero is written as a single 0 whatever its sign. *)
Theorem print_big_correct b :
  wf b ->
  exists s, print_big b = Ok ((if value b <? 0 then ["-"%char] else []) ++ s)
    /\ numeral s (Z.abs (value b)).
Proof.
  intros Hb. rewrite value_abs by done. destruct (decide (mag b = [])) as [E|E].
  - exists [digit_char 0]. assert (value b = 0) as -> by (by apply value_zero).
    rewrite print_zero, E by done. split; [done|]. split; [done|].
    split; [apply Forall_singleton; reflexivity|]. split; [reflexivity|done].
  - destruct (print_big_spec b Hb E) as (s & -> & Hs). exists s. split; [|done].
    assert (minus_of b = if value b <? 0 then ["-"%char] else []) as ->; [|done].
    assert (mval (mag b) <> 0) by (intros H0; apply mval_zero in H0; [done|apply Hb..]).
    pose proof (mval_bounds _ (proj1 (proj2 Hb))). unfold minus_of, value.
    destruct (proj1 Hb) as [-> | ->]; simpl (_ <? 0); cbv iota.
    + destruct (Z.ltb_spec (1 * mval (mag b)) 0); [lia|done].
    + destruct (Z.ltb_spec (-1 * mval (mag b)) 0); [done|lia].
Qed.

Lemma print_big_correct_witness :
  exists s, print_big (BigInt (-1) [0; 0; 0; 1]) = Ok (["-"%char] ++ s) /\ numeral s (2 ^ 96).
Proof.
  destruct (print_big_correct (BigInt (-1) [0; 0; 0; 1])) as (s & Hp & Hs);
    [apply (bool_decide_unpack _); vm_compute; exact I|].
  exists s. exact (conj Hp Hs).
Defined.

(** [operator>>] skips white space, accepts an optional sign and reads the
    following digits up to the first other character, however many there are
    below the [int32_t] range; the result is in canonical form and has the value
    the digits denote. *)
Theorem parse_big_correct ws sg s ds rest :
  Forall (fun c => isspace c = true) ws -> text_sign sg s -> digits ds -> ds <> [] ->
  (forall c t, rest = c :: t -> isdigit c = false) -> Z.of_nat (length ds) < 2 ^ 31 ->
  exists b, parse_big (ws ++ sg ++ ds ++ rest) = Some (b, rest)
    /\ canonical b /\ value b = s * dval ds.
Proof. apply parse_big_spec. Qed.

Lemma parse_big_correct_witness :
  let ds := String.list_ascii_of_string "000123456789012345678901234567890" in
  exists b, parse_big (String.list_ascii_of_string "  -000123456789012345678901234567890e5")
              = Some (b, ["e"%char; "5"%char])
    /\ canonical b /\ value b = -1 * dval ds.
Proof.
  apply (parse_big_correct [" "%char; " "%char] ["-"%char] (-1)
    (String.list_ascii_of_string "000123456789012345678901234567890") ["e"%char; "5"%char]).
  - apply (bool_decide_unpack _); vm_compute; exact I.
  - constructor.
  - apply (bool_decide_unpack _); vm_compute; exact I.
  - discriminate.
  - intros c t [= <- _]. reflexivity.
  - reflexivity.
Defined.

(** C36: Reading back what was printed gives the same object: [operator>>] after
    [operator<<] is the identity on integers in canonical form, of fewer than
    2^26 limbs. *)
Theorem print_parse_roundtrip b :
  canonical b -> fits b ->
  exists s, print_big b = Ok s /\ parse_big s = Some (b, []).
Proof.
  intros Hc Hf. pose proof Hc as [Hb Hz]. destruct (decide (mag b = [])) as [E|E].
  - exists [digit_char 0]. rewrite print_zero by done. split; [done|].
    destruct b as [sg m]. simpl in *. rewrite E, Hz by done. reflexivity.
  - destruct (print_big_spec b Hb E) as (s & Hp & Hs). eexists. split; [done|].
    pose proof (numeral_limbs s (mag b) (proj1 (proj2 Hb)) E Hs) as Hlen. unfold fits in Hf.
    destruct Hs as (Hne & Hd & Hv & _).
    assert (text_sign (minus_of b) (sign b)) as Hsg
      by (unfold minus_of; destruct (proj1 Hb) as [-> | ->]; constructor).
    destruct (parse_big_spec [] (minus_of b) (sign b) s [] ltac:(constructor) Hsg Hd Hne ltac:(done)
      ltac:(lia)) as (b' & Hp' & Hc' & Hv').
    rewrite app_nil_r, app_nil_l in Hp'. rewrite Hp'. do 2 f_equal.
    apply canonical_inj; [done|done|]. by rewrite Hv', Hv.
Qed.

Lemma print_parse_roundtrip_witness :
  exists s, print_big (BigInt (-1) [7; 0; 4294967295; 1]) = Ok s
    /\ parse_big s = Some (BigInt (-1) [7; 0; 4294967295; 1], []).
Proof.
  apply print_parse_roundtrip; [apply (bool_decide_unpack _); vm_compute; exact I|reflexivity].
Defined.
