(* ===== verification/Decimal.v ===== *)
(** Decimal numbers: [src/src/odbc/src/common/decimal.cpp] and the stream operators
    of [src/src/odbc/include/documentdb/odbc/common/decimal.h].

    A decimal is a big integer with an [int32_t] scale; it stands for the
    integer times ten to the minus scale.  The theorems say that comparison,
    rescaling and text conversion respect that reading, and where they do not. *)
From S2P Require Import Prelude Bits BigInteger BigDivide BigText.

Record Decimal : Type := Dec {
  scale : Z;
  magnitude : BigInteger
}.

#[export] Instance Decimal_eq_dec : EqDecision Decimal.
Proof. solve_decision. Defined.

Definition dec_zero : Decimal := Dec 0 (AssignInt64 0).

(** * Operations of decimal.cpp *)

Definition dec_of_int64 (val sc : Z) : Decimal := Dec sc (AssignInt64 val).
Definition dec_of_big (val : BigInteger) (sc : Z) : Decimal := Dec sc val.

(** The power of ten exists for every exponent that reaches it here; [UB] stands
    for the arithmetic that leaves the [int32_t] range. *)
Definition power_of_ten_or_ub (n : Z) : outcome Z BigInteger :=
  match GetPowerOfTen n with
  | Some p => Ok p
  | None => UB
  end.

Definition SetScale (d : Decimal) (newScale : Z) (res : Decimal) : outcome Z Decimal :=
  if scale d =? newScale then Ok res else
  let diff := scale d - newScale in
  if bool_decide (inS 32 diff /\ diff <> -2 ^ 31) then
    if 0 <? diff then
      let* adjustment := power_of_ten_or_ub diff in
      let* (q, _) := Divide (magnitude d) adjustment in
      Ok (Dec newScale q)
    else
      let* adjustment := power_of_ten_or_ub (- diff) in
      Ok (Dec newScale (Multiply (magnitude d) adjustment))
  else UB.

Definition dec_ToInt64 (d : Decimal) : outcome Z Z :=
  if scale d =? 0 then Ok (ToInt64 (magnitude d)) else
  let* zeroScaled := SetScale d 0 dec_zero in
  Ok (ToInt64 (magnitude zeroScaled)).

Definition dec_GetPrecision (d : Decimal) : option Z := GetPrecision (magnitude d).
Definition dec_Swap (a b : Decimal) : Decimal * Decimal := (b, a).
Definition GetMagnitudeLength (d : Decimal) : Z := Z.of_nat (length (mag (magnitude d))).
Definition dec_AssignInt64 (val : Z) : Decimal := Dec 0 (AssignInt64 val).
Definition dec_AssignUint64 (val : Z) : Decimal := Dec 0 (AssignUint64 val).

Definition dec_IsNegative (d : Decimal) : bool := IsNegative (magnitude d).
Definition dec_IsZero (d : Decimal) : bool := IsZero (magnitude d).
Definition dec_IsPositive (d : Decimal) : bool := IsPositive (magnitude d).

Definition dec_Compare (d other : Decimal) : outcome Z Z :=
  if dec_IsZero d && dec_IsZero other then Ok 0 else
  if scale d =? scale other then Ok (Compare (magnitude d) (magnitude other) false) else
  if scale other <? scale d then
    let* scaled := SetScale other (scale d) dec_zero in
    Ok (Compare (magnitude d) (magnitude scaled) false)
  else
    let* scaled := SetScale d (scale other) dec_zero in
    Ok (Compare (magnitude scaled) (magnitude other) false).

Definition dec_test (p : Z -> bool) (a b : Decimal) : outcome Z bool :=
  let* c := dec_Compare a b in Ok (p c).
Definition dec_eq := dec_test (fun c => c =? 0).
Definition dec_ne := dec_test (fun c => negb (c =? 0)).
Definition dec_lt := dec_test (fun c => c <? 0).
Definition dec_le := dec_test (fun c => c <=? 0).
Definition dec_gt := dec_test (fun c => 0 <? c).
Definition dec_ge := dec_test (fun c => 0 <=? c).

(** * Output *)

(** [lastNonZero + 1], for the characters from [magBegin] below [n]. *)
Fixpoint last_non_zero (magStr : list ascii) (magBegin n : nat) : nat :=
  match n with
  | O => 0
  | S k =>
      if (magBegin <=? k)%nat && bool_decide (magStr !! k = Some (digit_char 0))
      then last_non_zero magStr magBegin k else n
  end.

(** [os.write(&s[from], count)]. *)
Definition slice (s : list ascii) (from : nat) (count : Z) : list ascii :=
  take (Z.to_nat count) (drop from s).

Definition print_fraction (magStr : list ascii) (sc : Z) : list ascii :=
  let negative := bool_decide (head magStr = Some "-"%char) in
  let magBegin := if negative then 1%nat else 0%nat in
  let magLen := Z.of_nat (length magStr) - Z.of_nat magBegin in
  let stop := last_non_zero magStr magBegin (length magStr) in
  let dotPos := magLen - sc in
  (if negative then ["-"%char] else []) ++
  if dotPos <=? 0 then
    digit_char 0 :: "."%char :: replicate (Z.to_nat (- dotPos)) (digit_char 0)
      ++ slice magStr magBegin (Z.of_nat stop - Z.of_nat magBegin)
  else
    let afterDot := Z.of_nat stop - dotPos - Z.of_nat magBegin in
    slice magStr magBegin dotPos ++
    (if 0 <? afterDot
     then "."%char :: slice magStr (magBegin + Z.to_nat dotPos) afterDot else []).

Definition print_decimal (d : Decimal) : outcome Z (list ascii) :=
  if bool_decide (mag (magnitude d) = []) then Ok [digit_char 0] else
  let* magStr := print_big (magnitude d) in
  if scale d =? -2 ^ 31 then UB else
  if scale d <=? 0
  then Ok (magStr ++ replicate (Z.to_nat (- scale d)) (digit_char 0))
  else Ok (print_fraction magStr (scale d)).

(** * Input *)

(** The loop over digits and the decimal point; [sc] is negative before the point. *)
Fixpoint read_number (cs : list ascii) (val : BigInteger) (part pd sc : Z)
    : option (BigInteger * Z * Z * Z * list ascii) :=
  match cs with
  | [] => Some (val, part, pd, sc, cs)
  | c :: t =>
      let step :=
        if isdigit c then Some (u64 (part * 10 + (code c - 48)), pd + 1, sc)
        else if (code c =? 46) && (sc <? 0) then Some (part, pd, 0) else None in
      match step with
      | None => Some (val, part, pd, sc, cs)
      | Some (part, pd, sc) =>
          '(val, part, pd) ←
            (if 1000000000000000000 <=? part
             then v ← flush val part pd; Some (v, 0, 0) else Some (val, part, pd));
          read_number t val part pd (if 0 <=? sc then sc + 1 else sc)
      end
  end.

(** The longest run of digits at the front, and the rest. *)
Fixpoint span_digits (cs : list ascii) : list ascii * list ascii :=
  match cs with
  | c :: t => if isdigit c then let '(ds, r) := span_digits t in (c :: ds, r) else ([], cs)
  | [] => ([], [])
  end.

(** [int32_t exp = 0; is >> exp]: white space, a sign and digits; a number out of
    range gives the nearest bound, and no number at all gives 0. *)
Definition read_int32 (inp : list ascii) : Z * list ascii :=
  let cs := skip_ws inp in
  let '(sgn, cs) :=
    match cs with
    | c :: t => if code c =? 45 then (-1, t) else if code c =? 43 then (1, t) else (1, cs)
    | [] => (1, [])
    end in
  let '(ds, rest) := span_digits cs in
  let v := sgn * foldl (fun a c => a * 10 + (code c - 48)) 0 ds in
  (Z.max (- 2 ^ 31) (Z.min v (2 ^ 31 - 1)), rest).

(** The exponent, subtracted from the scale; [None] when that overflows. *)
Definition read_exponent (rest : list ascii) (sc : Z) : option (Z * list ascii) :=
  match rest with
  | c :: t =>
      if (code c =? 101) || (code c =? 69) then
        let '(exp, rest) := read_int32 t in
        if bool_decide (inS 32 (sc - exp)) then Some (sc - exp, rest) else None
      else Some (sc, rest)
  | [] => Some (sc, rest)
  end.

(** [is >> val]. *)
Definition parse_decimal (inp : list ascii) : option (Decimal * list ascii) :=
  match skip_ws inp with
  | [] => Some (dec_AssignInt64 0, [])
  | (c :: t) as cs =>
      let '(sgn, cs) :=
        if (code c =? 45) || (code c =? 43)
        then (if code c =? 45 then -1 else 1, t)
        else (1, cs) in
      '(val, part, pd, sc, rest) ← read_number cs (AssignInt64 0) 0 0 (-1);
      val ← (if pd =? 0 then Some val else flush val part pd);
      '(sc, rest) ← read_exponent rest (if sc <? 0 then 0 else sc - 1);
      Some (Dec sc (if sgn <? 0 then Negate val else val), rest)
  end.

Definition dec_AssignString (s : list ascii) : option Decimal := fst <$> parse_decimal s.

(** * The number a decimal stands for *)

(** The value at a common scale, [k >= scale d]. *)
Definition at_scale (k : Z) (d : Decimal) : Z := value (magnitude d) * 10 ^ (k - scale d).

Definition common_scale (a b : Decimal) : Z := Z.max (scale a) (scale b).

(** Equality of numbers, coarser than equality of representations. *)
Definition same_number (a b : Decimal) : Prop :=
  at_scale (common_scale a b) a = at_scale (common_scale a b) b.

Definition dec_wf (d : Decimal) : Prop := canonical (magnitude d) /\ inS 32 (scale d).

#[export] Instance dec_wf_dec d : Decision (dec_wf d).
Proof. unfold dec_wf. apply _. Defined.

(** ** Scales *)

Lemma at_scale_shift j k d :
  scale d <= j -> j <= k -> at_scale k d = at_scale j d * 10 ^ (k - j).
Proof.
  intros Hd Hjk. unfold at_scale. rewrite <- Z.mul_assoc, <- Z.pow_add_r by lia.
  do 2 f_equal. lia.
Qed.

Lemma ten_pow_pos n : 0 <= n -> 0 < 10 ^ n.
Proof. intros. apply Z.pow_pos_nonneg; lia. Qed.

(** Numbers can be compared at any scale that suits both. *)
Lemma at_scale_compare k a b :
  scale a <= k -> scale b <= k ->
  (at_scale k a ?= at_scale k b)
  = (at_scale (common_scale a b) a ?= at_scale (common_scale a b) b).
Proof.
  intros Ha Hb. unfold common_scale. set (j := Z.max (scale a) (scale b)).
  rewrite (at_scale_shift j k a), (at_scale_shift j k b) by lia.
  symmetry. apply Zmult_compare_compat_r. apply Z.lt_gt, ten_pow_pos. lia.
Qed.

Lemma same_number_at k a b :
  scale a <= k -> scale b <= k -> same_number a b <-> at_scale k a = at_scale k b.
Proof.
  intros Ha Hb. unfold same_number. rewrite <- !Z.compare_eq_iff.
  by rewrite (at_scale_compare k a b Ha Hb).
Qed.

#[export] Instance same_number_equiv : Equivalence same_number.
Proof.
  split.
  - intros a. reflexivity.
  - intros a b. rewrite (same_number_at (common_scale a b) a b), (same_number_at (common_scale a b) b a);
      unfold common_scale; done || lia.
  - intros a b c. set (k := Z.max (scale a) (Z.max (scale b) (scale c))).
    rewrite (same_number_at k a b), (same_number_at k b c), (same_number_at k a c) by lia. congruence.
Qed.

(** Raising the scale multiplies by a power of ten. *)
Lemma raise_scale d k res :
  canonical (magnitude d) -> scale d < k -> k - scale d < 2 ^ 31 ->
  exists d', SetScale d k res = Ok d' /\ scale d' = k /\ canonical (magnitude d')
    /\ value (magnitude d') = at_scale k d.
Proof.
  intros Hc Hlt Hr. unfold SetScale. rewrite (proj2 (Z.eqb_neq _ _)) by lia.
  rewrite bool_decide_true by (unfold inS; simpl; lia).
  rewrite (proj2 (Z.ltb_ge _ _)) by lia.
  destruct (power_of_ten (- (scale d - k)) ltac:(lia)) as (p & Hp & Hpc & Hpv).
  unfold power_of_ten_or_ub. rewrite Hp. cbn [obind]. eexists. split; [reflexivity|].
  split; [done|]. cbn [magnitude].
  destruct (multiply_spec (magnitude d) p (proj1 Hc) (proj1 Hpc)) as [Hw Hv].
  split; [|rewrite Hv, Hpv; unfold at_scale; do 2 f_equal; lia].
  assert (0 < value p) as Hpos by (rewrite Hpv; apply ten_pow_pos; lia).
  destruct (canonical_pos p Hpc ltac:(lia)) as [_ Hs].
  destruct (decide (value (magnitude d) = 0)) as [E|E].
  - split; [done|]. intros _. apply value_zero in E; [|apply Hc].
    change (sign (magnitude d) * sign p = 1). rewrite Hs, (proj2 Hc) by done. done.
  - apply canonical_nonzero; [done|]. rewrite Hv. nia.
Qed.

(** The powers of ten below [10^(2^28)] have fewer than [2^26] limbs. *)
Lemma power_of_ten_fits n p :
  0 <= n < 2 ^ 28 -> canonical p -> value p = 10 ^ n -> fits p.
Proof.
  intros Hn Hp Hv. unfold fits. pose proof (ten_pow_pos n ltac:(lia)).
  assert (mag p <> []) as Hne by (intros E; apply value_zero in E; [lia|apply Hp]).
  pose proof (canonical_pos p Hp ltac:(lia)) as Hnn. rewrite nonneg_value in Hv by done.
  pose proof (normal_lower _ (proj1 (proj2 (proj1 Hp))) (proj2 (proj2 (proj1 Hp))) Hne) as Hlow.
  assert (10 ^ n <= 2 ^ (4 * n)) as Hup.
  { rewrite Z.pow_mul_r by lia. apply Z.pow_le_mono_l. split; apply Z.leb_le; reflexivity. }
  rewrite Hv in Hlow. unfold radix in Hlow. rewrite <- Z.pow_mul_r in Hlow by lia.
  assert (2 ^ (32 * Z.of_nat (length (mag p) - 1)) <= 2 ^ (4 * n)) as Hle by lia.
  apply Z.pow_le_mono_r_iff in Hle; [lia|lia|lia].
Qed.

(** Lowering the scale divides, truncating, where the division is safe. *)
Lemma lower_scale d k res p :
  wf (magnitude d) -> k < scale d -> scale d - k < 2 ^ 28 ->
  GetPowerOfTen (scale d - k) = Some p -> Divide_safe (magnitude d) p = true ->
  exists d', SetScale d k res = Ok d' /\ scale d' = k /\ wf (magnitude d')
    /\ value (magnitude d') = Z.quot (value (magnitude d)) (10 ^ (scale d - k))
    /\ (sign (magnitude d) = 1 -> sign (magnitude d') = 1).
Proof.
  intros Hw Hlt Hr Hp Hsafe. unfold SetScale. rewrite (proj2 (Z.eqb_neq _ _)) by lia.
  rewrite bool_decide_true by (unfold inS; simpl; lia).
  rewrite (proj2 (Z.ltb_lt _ _)) by lia. unfold power_of_ten_or_ub. rewrite Hp. cbn [obind].
  destruct (power_of_ten (scale d - k) ltac:(lia)) as (p' & Hp' & Hpc & Hpv).
  assert (p' = p) as -> by congruence.
  pose proof (power_of_ten_fits (scale d - k) p ltac:(lia) Hpc Hpv) as Hf.
  assert (0 < value p) as Hpos by (rewrite Hpv; apply ten_pow_pos; lia).
  assert (mag p <> []) as Hne by (intros E; apply value_zero in E; [lia|apply Hpc]).
  destruct (canonical_pos p Hpc ltac:(lia)) as [_ Hs].
  destruct (divide_spec _ p Hw (proj1 Hpc) Hf Hne Hsafe)
    as (q & r & -> & Hq & Hr' & Hvq & Hvr & Hdv & Hsg).
  cbn [obind]. eexists. split; [reflexivity|]. cbn [scale magnitude].
  split; [done|]. split; [done|]. split; [|intros; by apply Hsg].
  rewrite <- Hpv. by apply (signed_division _ p q r Hw (proj1 Hpc) Hne Hr').
Qed.

(** The divisions whose safety does not depend on the digits: a dividend of two
    limbs, or a divisor of two limbs. *)
Lemma safe_by_size b p n :
  wf b -> canonical p -> value p = 10 ^ n ->
  (length (mag b) <= 2)%nat \/ 10 <= n <= 19 -> Divide_safe b p = true.
Proof.
  intros Hb Hp Hv [Hlen|Hn].
  - unfold Divide_safe. rewrite (proj2 (Nat.leb_le _ _)) by done. done.
  - apply two_limb_safe; [done|apply Hp|].
    pose proof (canonical_pos p Hp ltac:(rewrite Hv; pose proof (ten_pow_pos n); lia)) as Hnn.
    rewrite nonneg_value in Hv by done.
    pose proof (mval_bounds _ (proj1 (proj2 (proj1 Hp)))) as [_ Hup].
    assert (10 ^ 10 <= 10 ^ n <= 10 ^ 19) as [Hlo Hhi] by (split; apply Z.pow_le_mono_r; lia).
    assert (mag p <> []) as Hne by (intros E; rewrite E in Hv; simpl in Hv; lia).
    pose proof (normal_lower _ (proj1 (proj2 (proj1 Hp))) (proj2 (proj2 (proj1 Hp))) Hne) as Hlow.
    rewrite Hv in *. destruct (mag p) as [|x [|y [|z t]]]; [done| |done|]; exfalso.
    + change (radix ^ Z.of_nat (length [x])) with 4294967296 in Hup. lia.
    + assert (radix ^ 2 <= radix ^ Z.of_nat (length (x :: y :: z :: t) - 1)) as Hr
        by (apply Z.pow_le_mono_r; [reflexivity|simpl; lia]).
      change (radix ^ 2) with 18446744073709551616 in Hr. lia.
Qed.

(** * Comparison *)

Lemma dec_compare_spec a b :
  dec_wf a -> dec_wf b -> Z.abs (scale a - scale b) < 2 ^ 31 ->
  dec_Compare a b
  = Ok (cmp_int 1 (at_scale (common_scale a b) a ?= at_scale (common_scale a b) b)).
Proof.
  intros [Ha Hsa] [Hb Hsb] Hd. unfold dec_Compare, dec_IsZero.
  destruct (IsZero (magnitude a) && IsZero (magnitude b)) eqn:Hz.
  - apply andb_true_iff in Hz as [Za Zb]. apply is_zero_spec in Za; [|apply Ha].
    apply is_zero_spec in Zb; [|apply Hb].
    unfold at_scale, value. rewrite Za, Zb, !Z.mul_0_r. done.
  - destruct (Z.eqb_spec (scale a) (scale b)) as [E|E].
    + rewrite compare_signed by done. unfold common_scale, at_scale.
      rewrite E, Z.max_id, Z.sub_diag. by rewrite !Z.mul_1_r.
    + unfold common_scale. destruct (Z.ltb_spec (scale b) (scale a)) as [Hlt|Hge].
      * destruct (raise_scale b (scale a) dec_zero Hb) as (b' & -> & _ & Hc & Hv); [lia|lia|].
        cbn [obind]. rewrite compare_signed, Hv, Z.max_l by (done || lia).
        unfold at_scale at 2. by rewrite Z.sub_diag, Z.mul_1_r.
      * destruct (raise_scale a (scale b) dec_zero Ha) as (a' & -> & _ & Hc & Hv); [lia|lia|].
        cbn [obind]. rewrite compare_signed, Hv, Z.max_r by (done || lia).
        unfold at_scale at 3. by rewrite Z.sub_diag, Z.mul_1_r.
Qed.

(** * Reading *)

(** The state of the reading loop after the digits of the number [acc]. *)
Definition reading (val : BigInteger) (part pd acc : Z) : Prop :=
  nonneg val /\ 0 <= part < 10 ^ 18 /\ 0 <= pd /\ (pd = 0 -> part = 0)
  /\ value val * 10 ^ pd + part = acc.

Definition scale_after (sc : Z) (n : nat) : Z := if 0 <=? sc then sc + Z.of_nat n else sc.

Lemma read_digit c t val part pd sc acc :
  isdigit c = true -> reading val part pd acc -> pd + 1 < 2 ^ 31 ->
  exists val' part' pd', read_number (c :: t) val part pd sc
      = read_number t val' part' pd' (scale_after sc 1)
    /\ reading val' part' pd' (acc * 10 + (code c - 48)) /\ pd' <= pd + 1.
Proof.
  intros Hc (Hval & Hpart & Hpd & Hz & Hacc) Hlen. pose proof (digit_code c Hc) as Hd.
  cbn [read_number]. rewrite Hc, wrapU_small by (unfold inU; lia).
  set (d := code c - 48) in *.
  assert (10 ^ (pd + 1) = 10 ^ pd * 10) as Hp10 by (rewrite Z.pow_add_r by lia; done).
  destruct (Z.leb_spec 1000000000000000000 (part * 10 + d)) as [Hbig|Hsmall].
  - destruct (flush_spec val (part * 10 + d) (pd + 1)) as (v & -> & Hv & Hvv);
      [done|unfold inU; lia|lia|].
    exists v, 0, 0. split; [done|]. split; [|lia]. unfold reading.
    split; [done|]. split; [lia|]. split; [lia|]. split; [done|].
    rewrite Hvv, Hp10, <- Hacc. change (10 ^ 0) with 1. ring.
  - exists val, (part * 10 + d), (pd + 1). split; [done|]. split; [|lia]. unfold reading.
    split; [done|]. split; [lia|]. split; [lia|]. split; [lia|].
    rewrite Hp10, <- Hacc. ring.
Qed.

Lemma read_number_digits ds rest val part pd sc acc :
  digits ds -> reading val part pd acc -> pd + Z.of_nat (length ds) < 2 ^ 31 ->
  exists val' part' pd', read_number (ds ++ rest) val part pd sc
      = read_number rest val' part' pd' (scale_after sc (length ds))
    /\ reading val' part' pd' (acc * 10 ^ Z.of_nat (length ds) + dval ds)
    /\ pd' <= pd + Z.of_nat (length ds).
Proof.
  intros Hds. revert val part pd sc acc.
  induction ds as [|c ds IH]; intros val part pd sc acc Hr Hlen.
  - exists val, part, pd. split; [unfold scale_after; simpl; case_match; f_equal; lia|].
    split; [|simpl; lia]. change (10 ^ Z.of_nat (length [])) with 1.
    change (dval []) with 0. by rewrite Z.mul_1_r, Z.add_0_r.
  - apply Forall_cons in Hds as [Hc Hds]. cbn [length] in *.
    destruct (read_digit c (ds ++ rest) val part pd sc acc Hc Hr ltac:(lia))
      as (v1 & p1 & pd1 & E1 & Hr1 & Hle1). cbn [app]. rewrite E1.
    destruct (IH Hds v1 p1 pd1 (scale_after sc 1) _ Hr1 ltac:(lia))
      as (v2 & p2 & pd2 & -> & Hr2 & Hle2).
    exists v2, p2, pd2. split; [|split; [|lia]].
    + f_equal. unfold scale_after. destruct (Z.leb_spec 0 sc); [|by rewrite (proj2 (Z.leb_gt _ _))].
      rewrite (proj2 (Z.leb_le _ _)) by lia. lia.
    + assert (dval (c :: ds) = (code c - 48) * 10 ^ Z.of_nat (length ds) + dval ds) as Hdv.
      { change (c :: ds) with ([c] ++ ds). by rewrite dval_app. }
      rewrite Hdv, Nat2Z.inj_succ, Z.pow_succ_r by lia.
      replace (acc * _ + _) with ((acc * 10 + (code c - 48)) * 10 ^ Z.of_nat (length ds) + dval ds)
        by ring. done.
Qed.

(** The fraction part of a number in text, and its digits. *)
Inductive text_fraction : list ascii -> list ascii -> Prop :=
| fraction_none : text_fraction [] []
| fraction_some fp : digits fp -> text_fraction ("."%char :: fp) fp.

(** What ends the digits: no digit, and no point if there was none before. *)
Definition ends_number (ft rest : list ascii) : Prop :=
  forall c t, rest = c :: t -> isdigit c = false /\ (ft = [] -> code c <> 46).

Lemma read_number_stop ft rest val part pd sc :
  ends_number ft rest -> (ft <> [] -> 0 <= sc) ->
  read_number rest val part pd sc = Some (val, part, pd, sc, rest).
Proof.
  intros Hend Hsc. destruct rest as [|c t]; [done|]. cbn [read_number].
  destruct (Hend c t eq_refl) as [-> Hdot].
  destruct (Z.eqb_spec (code c) 46) as [E|E]; [|done]. simpl.
  destruct (Z.ltb_spec sc 0) as [Hneg|]; [|done].
  destruct ft; [by destruct (Hdot eq_refl)|]. specialize (Hsc ltac:(done)). lia.
Qed.

Lemma reading_start : reading (AssignInt64 0) 0 0 0.
Proof.
  destruct (assign_i64 0) as [Hc Hv]; [split; reflexivity || lia|].
  split; [by apply canonical_pos; rewrite ?Hv|].
  split; [split; reflexivity || lia|]. split; [lia|]. split; [done|]. rewrite Hv. done.
Qed.

(** The whole number: integer digits, fraction, and what follows. *)
Lemma read_number_spec ip ft fp rest :
  digits ip -> text_fraction ft fp -> ends_number ft rest ->
  Z.of_nat (length ip) + Z.of_nat (length fp) < 2 ^ 31 ->
  exists val part pd, read_number (ip ++ ft ++ rest) (AssignInt64 0) 0 0 (-1)
      = Some (val, part, pd, match ft with [] => -1 | _ => 1 + Z.of_nat (length fp) end, rest)
    /\ reading val part pd (dval (ip ++ fp)) /\ pd < 2 ^ 31.
Proof.
  intros Hip Hft Hend Hlen.
  destruct (read_number_digits ip (ft ++ rest) _ 0 0 (-1) 0 Hip reading_start ltac:(lia))
    as (v & p & pd & -> & Hr & Hle).
  rewrite Z.mul_0_l, Z.add_0_l in Hr. change (scale_after (-1) (length ip)) with (-1).
  destruct Hft as [|fp Hfp]; cbn [app].
  - rewrite (read_number_stop []) by done. exists v, p, pd. rewrite app_nil_r.
    split; [done|]. split; [done|]. lia.
  - cbn [read_number]. change (isdigit "."%char) with false. cbv iota.
    change ((code "."%char =? 46) && (-1 <? 0)) with true. cbv iota.
    rewrite (proj2 (Z.leb_gt 1000000000000000000 p)) by (destruct Hr as (_ & H & _); lia).
    change (mbind _ (Some (v, p, pd))) with (read_number (fp ++ rest) v p pd 1).
    destruct (read_number_digits fp rest v p pd 1 _ Hfp Hr ltac:(lia))
      as (v2 & p2 & pd2 & -> & Hr2 & Hle2).
    rewrite (read_number_stop ("."%char :: fp)); [|done|intros _; unfold scale_after; simpl; lia].
    exists v2, p2, pd2. split; [done|]. split; [by rewrite dval_app|lia].
Qed.

Lemma span_digits_spec ds rest :
  digits ds -> (forall c t, rest = c :: t -> isdigit c = false) -> span_digits (ds ++ rest) = (ds, rest).
Proof.
  intros Hds Hrest. induction Hds as [|c ds Hc Hds IH]; simpl.
  - destruct rest as [|c t]; [done|]. simpl. by rewrite (Hrest c t).
  - by rewrite Hc, IH.
Qed.

Lemma read_int32_spec sg s ds rest :
  text_sign sg s -> digits ds -> ds <> [] -> (forall c t, rest = c :: t -> isdigit c = false) ->
  inS 32 (s * dval ds) -> read_int32 (sg ++ ds ++ rest) = (s * dval ds, rest).
Proof.
  intros Hsg Hds Hne Hrest Hin. destruct ds as [|d ds]; [done|].
  pose proof (Forall_inv Hds) as Hd. pose proof (digit_not_space d Hd) as Hsp.
  pose proof (digit_code d Hd). pose proof (span_digits_spec (d :: ds) rest Hds Hrest) as Hspan.
  unfold read_int32, inS in *. change (2 ^ (32 - 1)) with (2 ^ 31) in Hin.
  fold (dval (d :: ds)) in *.
  destruct Hsg; cbn [app] in *.
  - cbn [skip_ws]. rewrite Hsp, (proj2 (Z.eqb_neq _ _)), (proj2 (Z.eqb_neq _ _)) by lia.
    rewrite Hspan. fold (dval (d :: ds)). f_equal. lia.
  - change (skip_ws ("+"%char :: d :: ds ++ rest)) with ("+"%char :: d :: ds ++ rest).
    cbv iota beta. change (code "+" =? 45) with false. change (code "+" =? 43) with true.
    cbv iota beta. rewrite Hspan. fold (dval (d :: ds)). f_equal. lia.
  - change (skip_ws ("-"%char :: d :: ds ++ rest)) with ("-"%char :: d :: ds ++ rest).
    cbv iota beta. change (code "-" =? 45) with true.
    cbv iota beta. rewrite Hspan. fold (dval (d :: ds)). f_equal. lia.
Qed.

(** The exponent of a number in text. *)
Inductive text_exponent : list ascii -> Z -> Prop :=
| exponent_none : text_exponent [] 0
| exponent_some m sg s ds :
    m = "e"%char \/ m = "E"%char -> text_sign sg s -> digits ds -> ds <> [] ->
    inS 32 (s * dval ds) -> text_exponent (m :: sg ++ ds) (s * dval ds).

Definition ends_text (et rest : list ascii) : Prop :=
  forall c t, rest = c :: t ->
    match et with
    | [] => code c <> 101 /\ code c <> 69
    | _ => isdigit c = false
    end.

Lemma read_exponent_spec et e rest sc :
  text_exponent et e -> ends_text et rest -> inS 32 (sc - e) ->
  read_exponent (et ++ rest) sc = Some (sc - e, rest).
Proof.
  intros Het Hend Hin. destruct Het as [|m sg s ds Hm Hsg Hds Hne He].
  - cbn [app]. unfold read_exponent. destruct rest as [|c t]; [by rewrite Z.sub_0_r|].
    destruct (Hend c t eq_refl) as [H1 H2].
    rewrite (proj2 (Z.eqb_neq _ _) H1), (proj2 (Z.eqb_neq _ _) H2). simpl. by rewrite Z.sub_0_r.
  - cbn [app]. rewrite <- app_assoc. unfold read_exponent.
    assert ((code m =? 101) || (code m =? 69) = true) as -> by (by destruct Hm as [-> | ->]).
    rewrite (read_int32_spec sg s ds rest) by done.
    by rewrite bool_decide_true.
Qed.

Lemma number_starts ip ft fp rest :
  digits ip -> text_fraction ft fp -> ip ++ fp <> [] ->
  exists c t, ip ++ ft ++ rest = c :: t /\ isspace c = false
    /\ (code c =? 45) || (code c =? 43) = false.
Proof.
  intros Hip Hft Hne. destruct ip as [|c ip].
  - destruct Hft as [|fp Hfp]; [done|]. by eexists _, _.
  - pose proof (Forall_inv Hip) as Hc. eexists _, _. split; [done|].
    split; [by apply digit_not_space|by apply digit_not_sign].
Qed.

Lemma parse_decimal_spec ws sg s ip ft fp et e rest :
  Forall (fun c => isspace c = true) ws -> text_sign sg s -> digits ip -> text_fraction ft fp ->
  ip ++ fp <> [] -> text_exponent et e -> ends_number ft (et ++ rest) -> ends_text et rest ->
  Z.of_nat (length ip) + Z.of_nat (length fp) < 2 ^ 31 -> inS 32 (Z.of_nat (length fp) - e) ->
  exists d, parse_decimal (ws ++ sg ++ ip ++ ft ++ et ++ rest) = Some (d, rest)
    /\ canonical (magnitude d) /\ value (magnitude d) = s * dval (ip ++ fp)
    /\ scale d = Z.of_nat (length fp) - e.
Proof.
  intros Hws Hsg Hip Hft Hne Het Hend Hend2 Hlen Hsc.
  destruct (number_starts ip ft fp (et ++ rest) Hip Hft Hne) as (c & t & Hct & Hsp & Hns).
  destruct (read_number_spec ip ft fp (et ++ rest) Hip Hft Hend Hlen)
    as (v & p & pd & Hrn & (Hval & Hp & Hpd & Hz & Hacc) & Hpd2).
  assert (exists w, (if pd =? 0 then Some v else flush v p pd) = Some w /\ nonneg w
    /\ value w = dval (ip ++ fp)) as (w & Hw & Hnw & Hvw).
  { destruct (Z.eqb_spec pd 0) as [->|].
    - exists v. split; [done|]. split; [done|]. rewrite <- Hacc, Hz by done.
      change (10 ^ 0) with 1. lia.
    - destruct (flush_spec v p pd Hval) as (w & Hw & Hnw & Hvw); [unfold inU; lia|lia|].
      exists w. split; [done|]. split; [done|]. lia. }
  set (sc := match ft with [] => -1 | _ => _ end) in Hrn.
  assert ((if sc <? 0 then 0 else sc - 1) = Z.of_nat (length fp)) as Hsc2.
  { unfold sc. destruct Hft; [done|]. rewrite (proj2 (Z.ltb_ge _ _)) by lia. lia. }
  pose proof (read_exponent_spec et e rest _ Het Hend2 Hsc) as Hre.
  pose proof (nonneg_canonical w Hnw). destruct (negate_spec w Hnw) as [Hnc Hnv].
  unfold parse_decimal. rewrite skip_ws_app;
    [|done|intros c' u; destruct Hsg; cbn [app]; rewrite ?Hct; by intros [= <- _]].
  destruct Hsg; cbn [app].
  - rewrite Hct, Hns. rewrite <- Hct, Hrn. simpl mbind. rewrite Hw. simpl mbind.
    rewrite Hsc2, Hre. exists (Dec (Z.of_nat (length fp) - e) w).
    split; [done|]. split; [done|]. split; [|done]. cbn [magnitude]. lia.
  - change ((code "+" =? 45) || (code "+" =? 43)) with true.
    change (code "+" =? 45) with false. cbv iota beta. rewrite Hrn. simpl mbind. rewrite Hw.
    simpl mbind. rewrite Hsc2, Hre. exists (Dec (Z.of_nat (length fp) - e) w).
    split; [done|]. split; [done|]. split; [|done]. cbn [magnitude]. lia.
  - change ((code "-" =? 45) || (code "-" =? 43)) with true.
    change (code "-" =? 45) with true. cbv iota beta. rewrite Hrn. simpl mbind. rewrite Hw.
    simpl mbind. rewrite Hsc2, Hre. exists (Dec (Z.of_nat (length fp) - e) (Negate w)).
    split; [done|]. split; [done|]. split; [|done]. cbn [magnitude]. lia.
Qed.

(** * Writing *)

Abbreviation zeros k := (replicate k (digit_char 0)).

(** A numeral splits into its significant part and its trailing zeros. *)
Lemma strip_zeros s : exists t k, s = t ++ zeros k /\ last t <> Some (digit_char 0).
Proof.
  induction s as [|c s IH] using rev_ind; [by exists [], 0%nat|].
  destruct (decide (c = digit_char 0)) as [->|Hc].
  - destruct IH as (t & k & -> & Ht). exists t, (S k). split; [|done].
    by rewrite replicate_S_end, app_assoc.
  - exists (s ++ [c]), 0%nat. split; [by rewrite app_nil_r|]. rewrite last_snoc. congruence.
Qed.

Lemma last_non_zero_spec pre t k j :
  t <> [] -> last t <> Some (digit_char 0) -> (j <= k)%nat ->
  last_non_zero (pre ++ t ++ zeros k) (length pre) (length pre + length t + j)
  = (length pre + length t)%nat.
Proof.
  intros Hne Hlast. induction j as [|j IH]; intros Hj.
  - destruct t as [|c t _] using rev_ind; [done|]. rewrite last_snoc in Hlast.
    rewrite length_app, Nat.add_0_r. cbn [length]. rewrite Nat.add_1_r, Nat.add_succ_r.
    cbn [last_non_zero]. rewrite app_assoc, lookup_app_l by (rewrite !length_app; simpl; lia).
    rewrite app_assoc, lookup_app_r by (rewrite length_app; lia).
    rewrite length_app, Nat.sub_diag. cbn. rewrite bool_decide_false by congruence.
    by rewrite andb_false_r.
  - rewrite Nat.add_succ_r. cbn [last_non_zero].
    rewrite (proj2 (Nat.leb_le _ _)) by lia.
    rewrite bool_decide_true; [apply IH; lia|].
    rewrite app_assoc, lookup_app_r by (rewrite !length_app; lia).
    apply lookup_replicate. split; [done|]. rewrite length_app. lia.
Qed.

Lemma slice_after pre s n : slice (pre ++ s) (length pre) n = take (Z.to_nat n) s.
Proof. unfold slice. by rewrite drop_app_length. Qed.

Section fraction.
Context (neg : bool) (t : list ascii) (k : nat) (sc : Z).
Context (Ht : digits t) (Hne : t <> []) (Hlast : last t <> Some (digit_char 0)) (Hsc : 0 < sc).

Abbreviation sg := (if neg then ["-"%char] else []).
Abbreviation s := (t ++ zeros k).
Abbreviation dot := (Z.of_nat (length s) - sc).

Lemma print_fraction_eq :
  print_fraction (sg ++ s) sc
  = sg ++ if dot <=? 0
          then digit_char 0 :: "."%char :: zeros (Z.to_nat (- dot)) ++ t
          else take (Z.to_nat dot) s ++
               (if 0 <? Z.of_nat (length t) - dot then "."%char :: drop (Z.to_nat dot) t else []).
Proof.
  assert (bool_decide (head (sg ++ s) = Some "-"%char) = neg) as Hneg.
  { destruct neg; [by apply bool_decide_true|]. apply bool_decide_false.
    destruct t as [|c u]; [done|]. cbn. intros [= ->]. by apply Forall_inv in Ht. }
  unfold print_fraction. rewrite Hneg.
  assert ((if neg then 1 else 0)%nat = length sg) as -> by (by destruct neg).
  assert (length (sg ++ s) = (length sg + length t + k)%nat) as Hlen
    by (rewrite !length_app, length_replicate; lia).
  assert (last_non_zero (sg ++ s) (length sg) (length (sg ++ s)) = length sg + length t)%nat as ->
    by (rewrite Hlen; by apply last_non_zero_spec).
  rewrite (length_app sg s). rewrite !slice_after. f_equal.
  replace (Z.of_nat (length sg + length s) - Z.of_nat (length sg) - sc) with dot by lia.
  destruct (Z.leb_spec dot 0) as [Hd|Hd].
  - do 3 f_equal. replace (Z.to_nat _) with (length t) by lia. by rewrite take_app_length.
  - replace (Z.of_nat (length sg + length t) - dot - Z.of_nat (length sg))
      with (Z.of_nat (length t) - dot) by lia.
    f_equal. destruct (Z.ltb_spec 0 (Z.of_nat (length t) - dot)) as [Ha|Ha]; [|done]. f_equal.
    unfold slice. rewrite <- drop_drop, drop_app_length, drop_app_le by lia.
    rewrite take_app_le by (rewrite length_drop; lia). rewrite take_ge; [done|].
    rewrite length_drop. lia.
Qed.

Lemma digits_zeros j : digits (zeros j).
Proof. apply Forall_replicate. by apply digit_is_digit. Qed.

Lemma dval_app_zeros u j : dval (u ++ zeros j) = dval u * 10 ^ Z.of_nat j.
Proof. rewrite dval_app, dval_zeros, length_replicate. lia. Qed.

(** The text is a number with the value of the numeral divided by [10^sc]. *)
Lemma print_fraction_text :
  exists ip ft fp, print_fraction (sg ++ s) sc = sg ++ ip ++ ft
    /\ digits ip /\ ip <> [] /\ text_fraction ft fp /\ Z.of_nat (length fp) <= sc
    /\ Z.of_nat (length ip) <= Z.of_nat (length s) + 1
    /\ dval (ip ++ fp) * 10 ^ (sc - Z.of_nat (length fp)) = dval s.
Proof.
  rewrite print_fraction_eq. destruct (Z.leb_spec dot 0) as [Hd|Hd].
  - exists [digit_char 0], ("."%char :: zeros (Z.to_nat (- dot)) ++ t), (zeros (Z.to_nat (- dot)) ++ t).
    split; [done|]. split; [by apply Forall_singleton, digit_is_digit|]. split; [done|].
    split; [constructor; apply Forall_app; split; [apply digits_zeros|done]|].
    rewrite !length_app, !length_replicate in *. split; [lia|]. split; [simpl; lia|].
    rewrite app_assoc, !dval_app, !dval_zeros, !length_replicate. change (dval [digit_char 0]) with 0.
    rewrite !Z.mul_0_l, !Z.add_0_l, Z.add_0_r. do 2 f_equal. lia.
  - destruct (Z.ltb_spec 0 (Z.of_nat (length t) - dot)) as [Ha|Ha].
    + exists (take (Z.to_nat dot) t), ("."%char :: drop (Z.to_nat dot) t), (drop (Z.to_nat dot) t).
      rewrite take_app_le by lia. split; [done|]. split; [by apply Forall_take|].
      split; [intros E; apply (f_equal length) in E; rewrite length_take in E; simpl in E; lia|].
      split; [constructor; by apply Forall_drop|].
      rewrite length_drop, length_take, take_drop, dval_app_zeros.
      rewrite length_app, length_replicate in *.
      split; [lia|]. split; [lia|]. do 2 f_equal. lia.
    + exists (take (Z.to_nat dot) s), [], []. rewrite !app_nil_r. split; [done|].
      rewrite take_app_ge by lia.
      split; [apply Forall_app; split; [done|apply Forall_take, digits_zeros]|].
      split; [by destruct t|]. split; [constructor|].
      rewrite !length_app, length_replicate in *. rewrite length_take, length_replicate.
      split; [simpl; lia|]. split; [lia|].
      rewrite take_replicate, !dval_app_zeros. rewrite <- Z.mul_assoc, <- Z.pow_add_r by (simpl; lia).
      do 2 f_equal. simpl. lia.
Qed.

End fraction.

(** * Properties *)

(** [Compare] orders decimals as the numbers they stand for, whatever their
    scales, as long as the scales differ by less than 2^31: the result is -1, 0
    or 1 as the first number is below, equal to or above the second. *)
Theorem dec_Compare_correct a b :
  dec_wf a -> dec_wf b -> Z.abs (scale a - scale b) < 2 ^ 31 ->
  dec_Compare a b
  = Ok match at_scale (common_scale a b) a ?= at_scale (common_scale a b) b with
       | Lt => -1 | Eq => 0 | Gt => 1
       end
  /\ (dec_eq a b = Ok true <-> same_number a b).
Proof.
  intros Ha Hb Hd. unfold dec_eq, dec_test. rewrite (dec_compare_spec a b Ha Hb Hd).
  split; [done|]. cbn [obind]. unfold same_number. rewrite <- Z.compare_eq_iff.
  by destruct (_ ?= _).
Qed.

Lemma dec_Compare_correct_witness :
  dec_Compare (Dec (-3) (AssignInt64 12)) (Dec 2 (AssignInt64 1200000)) = Ok 0
  /\ (dec_eq (Dec (-3) (AssignInt64 12)) (Dec 2 (AssignInt64 1200000)) = Ok true
      <-> same_number (Dec (-3) (AssignInt64 12)) (Dec 2 (AssignInt64 1200000))).
Proof.
  apply (dec_Compare_correct (Dec (-3) (AssignInt64 12)) (Dec 2 (AssignInt64 1200000)));
    [apply (bool_decide_unpack _); vm_compute; exact I..|reflexivity].
Defined.

(** [ToInt64] of a non-negative decimal drops the fraction and keeps the low 64
    bits, when the unscaled value fits two limbs or the scale is between 10 and
    19, so that the division is by two limbs. *)
Theorem dec_ToInt64_correct d :
  dec_wf d -> 0 <= value (magnitude d) -> 0 <= scale d < 2 ^ 28 ->
  value (magnitude d) < 2 ^ 64 \/ 10 <= scale d <= 19 ->
  dec_ToInt64 d = Ok (i64 (value (magnitude d) / 10 ^ scale d)).
Proof.
  intros [Hc Hs] Hv Hsc Hsize. pose proof (canonical_pos _ Hc Hv) as [Hw Hsg].
  unfold dec_ToInt64. destruct (Z.eqb_spec (scale d) 0) as [->|Hnz].
  - rewrite to_int64_nonneg, Z.div_1_r by done. done.
  - destruct (power_of_ten (scale d) ltac:(lia)) as (p & Hp & Hpc & Hpv).
    destruct (lower_scale d 0 dec_zero p) as (d' & -> & _ & Hw' & Hv' & Hs');
      [done|lia|lia|by rewrite Z.sub_0_r| |].
    { apply (safe_by_size _ _ (scale d) Hw Hpc Hpv). destruct Hsize as [Hlt|]; [left|by right].
      apply Nat.nlt_ge. intros Hlen. destruct (decide (mag (magnitude d) = [])) as [E|E].
      { rewrite E in Hlen. simpl in Hlen. lia. }
      pose proof (normal_lower _ (proj1 (proj2 Hw)) (proj2 (proj2 Hw)) E) as Hlow.
      rewrite nonneg_value in Hlt by done.
      assert (radix ^ 2 <= radix ^ Z.of_nat (length (mag (magnitude d)) - 1)) as Hr
        by (apply Z.pow_le_mono_r; [reflexivity|lia]).
      change (radix ^ 2) with (2 ^ 64) in Hr. lia. }
    cbn [obind]. rewrite to_int64_nonneg by auto. rewrite Hv', Z.sub_0_r.
    rewrite Z.quot_div_nonneg by (done || apply ten_pow_pos; lia). done.
Qed.

Lemma dec_ToInt64_correct_witness :
  dec_ToInt64 (Dec 4 (AssignInt64 1239999)) = Ok (i64 (value (AssignInt64 1239999) / 10 ^ 4)).
Proof.
  apply (dec_ToInt64_correct (Dec 4 (AssignInt64 1239999)));
    [apply (bool_decide_unpack _); vm_compute; exact I|apply Z.leb_le; reflexivity
    |split; [apply Z.leb_le; reflexivity|reflexivity]|left; reflexivity].
Defined.

(** [SetScale] to a larger scale keeps the number, but when the new scale is
    the present one the result object is left as it was, so that the caller
    does not get the number. *)
Theorem SetScale_correct d k res :
  dec_wf d -> (scale d < k -> k - scale d < 2 ^ 31 ->
    exists d', SetScale d k res = Ok d' /\ scale d' = k /\ same_number d d')
  /\ (k = scale d -> SetScale d k res = Ok res).
Proof.
  intros [Hc _]. split.
  - intros Hlt Hd. destruct (raise_scale d k res Hc Hlt Hd) as (d' & Hset & Hk & _ & Hv).
    exists d'. split; [done|]. split; [done|]. apply (same_number_at k); [lia|lia|].
    unfold at_scale at 2. by rewrite Hk, Z.sub_diag, Z.mul_1_r.
  - intros ->. unfold SetScale. by rewrite Z.eqb_refl.
Qed.

Lemma SetScale_correct_witness :
  SetScale (Dec 2 (AssignInt64 1250)) 2 dec_zero = Ok dec_zero
  /\ exists d', SetScale (Dec 2 (AssignInt64 1250)) 7 dec_zero = Ok d' /\ scale d' = 7
       /\ same_number (Dec 2 (AssignInt64 1250)) d'.
Proof.
  split; [apply SetScale_correct|apply SetScale_correct];
    try (apply (bool_decide_unpack _); vm_compute; exact I); reflexivity.
Defined.

(** [operator>>] reads a decimal in text: white space, an optional sign, digits
    with an optional decimal point, an optional exponent; the result is the number
    the text denotes (canonical unscaled value, scale the number of fraction
    digits less the exponent), and reading stops at the first other character. *)
Theorem parse_decimal_correct ws sg s ip ft fp et e rest :
  Forall (fun c => isspace c = true) ws -> text_sign sg s -> digits ip -> text_fraction ft fp ->
  ip ++ fp <> [] -> text_exponent et e -> ends_number ft (et ++ rest) -> ends_text et rest ->
  Z.of_nat (length ip) + Z.of_nat (length fp) < 2 ^ 31 -> inS 32 (Z.of_nat (length fp) - e) ->
  exists d, parse_decimal (ws ++ sg ++ ip ++ ft ++ et ++ rest) = Some (d, rest)
    /\ canonical (magnitude d) /\ value (magnitude d) = s * dval (ip ++ fp)
    /\ scale d = Z.of_nat (length fp) - e.
Proof. apply parse_decimal_spec. Qed.

Abbreviation chars := String.list_ascii_of_string.

Lemma parse_decimal_correct_witness :
  exists d, parse_decimal (chars " -012.3450E-7;x") = Some (d, chars ";x")
    /\ canonical (magnitude d) /\ value (magnitude d) = -1 * dval (chars "0123450") /\ scale d = 11.
Proof.
  apply (parse_decimal_correct (chars " ") (chars "-") (-1) (chars "012") (chars ".3450") (chars "3450")
    (chars "E-7") (-7) (chars ";x")).
  - apply (bool_decide_unpack _); vm_compute; exact I.
  - constructor.
  - apply (bool_decide_unpack _); vm_compute; exact I.
  - constructor. apply (bool_decide_unpack _); vm_compute; exact I.
  - discriminate.
  - apply (exponent_some "E"%char (chars "-") (-1) (chars "7"));
      [by right|constructor|apply (bool_decide_unpack _); vm_compute; exact I|discriminate|].
    apply (bool_decide_unpack _); vm_compute; exact I.
  - intros c t [= <- _]. split; [reflexivity|discriminate].
  - intros c t [= <- _]. reflexivity.
  - reflexivity.
  - apply (bool_decide_unpack _); vm_compute; exact I.
Defined.

(** Reading a text without white space, exponent or following characters. *)
Lemma parse_plain sg s ip ft fp :
  text_sign sg s -> digits ip -> ip <> [] -> text_fraction ft fp ->
  Z.of_nat (length ip) + Z.of_nat (length fp) < 2 ^ 31 ->
  exists d, parse_decimal (sg ++ ip ++ ft) = Some (d, [])
    /\ value (magnitude d) = s * dval (ip ++ fp) /\ scale d = Z.of_nat (length fp).
Proof.
  intros Hsg Hip Hne Hft Hlen.
  destruct (parse_decimal_spec [] sg s ip ft fp [] 0 []) as (d & Hp & _ & Hv & Hsc);
    try done; [by destruct ip|constructor|unfold inS; simpl; lia|].
  rewrite !app_nil_r in Hp. exists d. split; [done|]. split; [done|]. lia.
Qed.

Lemma value_sign_mval d : value (magnitude d) = sign (magnitude d) * mval (mag (magnitude d)).
Proof. done. Qed.

(** A decimal without a fraction is printed as digits. *)
Lemma roundtrip_integral d s :
  let b := magnitude d in
  wf b -> numeral s (mval (mag b)) -> scale d <= 0 ->
  Z.of_nat (length s) - scale d < 2 ^ 31 ->
  exists d', parse_decimal (minus_of b ++ s ++ zeros (Z.to_nat (- scale d))) = Some (d', [])
    /\ same_number d d'.
Proof.
  intros b Hw (Hne & Hd & Hval & _) Hsc Hlen.
  assert (text_sign (minus_of b) (sign b)) as Hsg
    by (unfold minus_of; destruct (proj1 Hw) as [-> | ->]; constructor).
  destruct (parse_plain (minus_of b) (sign b) (s ++ zeros (Z.to_nat (- scale d))) [] [])
    as (d' & Hp & Hv & Hs).
  - done.
  - apply Forall_app; split; [done|apply digits_zeros].
  - by destruct s.
  - constructor.
  - rewrite length_app, length_replicate. simpl. lia.
  - rewrite app_nil_r in Hp. exists d'. split; [done|].
    simpl in Hs. apply (same_number_at 0); [lia|lia|]. unfold at_scale.
    rewrite Hv, Hs, app_nil_r, dval_app_zeros, Hval, value_sign_mval.
    change (10 ^ (0 - Z.of_nat 0)) with 1. rewrite Z2Nat.id, Z.sub_0_l by lia. unfold b. ring.
Qed.

Lemma roundtrip_fraction d s :
  let b := magnitude d in
  wf b -> mag b <> [] -> numeral s (mval (mag b)) -> 0 < scale d ->
  Z.of_nat (length s) + scale d + 1 < 2 ^ 31 ->
  exists d', parse_decimal (print_fraction (minus_of b ++ s) (scale d)) = Some (d', [])
    /\ same_number d d'.
Proof.
  intros b Hw Hnz (Hne & Hd & Hval & _) Hsc Hlen.
  destruct (strip_zeros s) as (t & k & -> & Hlast).
  assert (digits t) as Ht by (by apply Forall_app in Hd as [? _]).
  assert (t <> []) as Htne.
  { intros ->. rewrite app_nil_l, dval_zeros in Hval. symmetry in Hval.
    apply mval_zero in Hval; [done|apply Hw..]. }
  assert (text_sign (minus_of b) (sign b)) as Hsg
    by (unfold minus_of; destruct (proj1 Hw) as [-> | ->]; constructor).
  destruct (print_fraction_text (sign b <? 0) t k (scale d) Ht Htne Hlast Hsc)
    as (ip & ft & fp & Hpr & Hip & Hipne & Hft & Hfp & Hiplen & Hdv).
  fold (minus_of b) in Hpr. rewrite Hpr.
  destruct (parse_plain (minus_of b) (sign b) ip ft fp) as (d' & Hp & Hv & Hs); [done..|lia|].
  exists d'. split; [done|]. apply (same_number_at (scale d)); [lia|lia|]. unfold at_scale.
  rewrite Hv, Hs, Z.sub_diag, value_sign_mval. fold b.
  rewrite Hval in Hdv. rewrite <- Hdv. change (10 ^ 0) with 1. ring.
Qed.

(** Reading back a printed decimal gives the same number, for scales of
    magnitude below 2^30 and magnitudes of fewer than 2^26 limbs; the
    representation may change, since trailing zeros of the fraction are dropped
    and a negative scale is written out. *)
Theorem decimal_print_parse d :
  dec_wf d -> fits (magnitude d) -> Z.abs (scale d) < 2 ^ 30 ->
  exists s d', print_decimal d = Ok s /\ parse_decimal s = Some (d', []) /\ same_number d d'.
Proof.
  intros [[Hw Hz] _] Hf Hsc. unfold print_decimal. case_bool_decide as Hm.
  - eexists _, dec_zero. split; [done|]. split; [reflexivity|].
    unfold same_number, at_scale. rewrite (proj2 (value_zero _ Hw) Hm). done.
  - destruct (print_big_spec (magnitude d) Hw Hm) as (s & -> & Hs). cbn [obind].
    pose proof (numeral_limbs s _ (proj1 (proj2 Hw)) Hm Hs) as Hlen. unfold fits in Hf.
    rewrite (proj2 (Z.eqb_neq _ _)) by lia.
    destruct (Z.leb_spec (scale d) 0) as [Hle|Hgt].
    + destruct (roundtrip_integral d s Hw Hs Hle) as (d' & Hp & Hsame); [lia|].
      eexists _, d'. split; [done|]. by rewrite <- app_assoc.
    + destruct (roundtrip_fraction d s Hw Hm Hs Hgt) as (d' & Hp & Hsame); [lia|].
      by eexists _, d'.
Qed.

Lemma decimal_print_parse_witness :
  exists s d', print_decimal (Dec 5 (AssignInt64 (-1200))) = Ok s
    /\ parse_decimal s = Some (d', []) /\ same_number (Dec 5 (AssignInt64 (-1200))) d'.
Proof.
  apply decimal_print_parse; [apply (bool_decide_unpack _); vm_compute; exact I|reflexivity..].
Defined.
