(* ===== verification/BigBytes.v ===== *)
(** Big integers as byte arrays: the byte constructor and [MagnitudeToBytes] of
    [src/src/odbc/src/common/big_integer.cpp], and the decimal wire format of
    [ReadDecimal] and [WriteDecimal] in [src/src/odbc/src/utility.cpp].

    A byte is an [int8_t], a [Z] between -128 and 127. *)
From Stdlib Require Import Btauto.
From S2P Require Import Prelude Bits BigInteger BigDivide BigText Decimal.

(** * The constructor from bytes *)

(** [val[i] & 0xFF]. *)
Definition byte_at (val : list Z) (i : nat) : Z := Z.land (nth i val 0) 255.

(** Four bytes from index [b] on, lowest first. *)
Definition le_word (val : list Z) (b : nat) : Z :=
  Z.lor (Z.lor (Z.lor (byte_at val b) (byte_at val (b + 1) ≪ 8)) (byte_at val (b + 2) ≪ 16))
        (byte_at val (b + 3) ≪ 24).

(** Four bytes down from index [b], lowest first. *)
Definition be_word (val : list Z) (b : nat) : Z :=
  Z.lor (Z.lor (Z.lor (byte_at val b) (byte_at val (b - 1) ≪ 8)) (byte_at val (b - 2) ≪ 16))
        (byte_at val (b - 3) ≪ 24).

(** The switch with fall-through over the remaining bytes of the highest word. *)
Definition top_word (byte : nat -> Z) (bytesRemaining : nat) : Z :=
  let m := 0 in
  let m := if bool_decide (bytesRemaining = 4)%nat then Z.lor m (byte 3%nat ≪ 24) else m in
  let m := if bool_decide (3 <= bytesRemaining <= 4)%nat then Z.lor m (byte 2%nat ≪ 16) else m in
  let m := if bool_decide (2 <= bytesRemaining <= 4)%nat then Z.lor m (byte 1%nat ≪ 8) else m in
  if bool_decide (1 <= bytesRemaining <= 4)%nat then Z.lor m (byte 0%nat) else m.

(** The first non-zero byte; the length when there is none. *)
Fixpoint first_non_zero (val : list Z) : nat :=
  match val with
  | v :: t => if v =? 0 then S (first_non_zero t) else 0
  | [] => 0
  end.

Definition of_bytes_be (val : list Z) (sgn : Z) : BigInteger :=
  let len := length val in
  let firstNonZero := first_non_zero val in
  if (firstNonZero =? len)%nat then AssignInt64 0 else
  let intLength := Nat.div (len - firstNonZero + 3) 4 in
  let '(m, b) :=
    for_up (intLength - 1) (fun i '(m, b) => (<[i := be_word val b]> m, (b - 4)%nat))
      (replicate intLength 0, (len - 1)%nat) in
  let bytesRemaining := (b + 1 - firstNonZero)%nat in
  BigInt sgn (<[(intLength - 1)%nat := top_word (fun k => byte_at val (b - k)) bytesRemaining]> m).

(** One more than the index of the last non-zero byte; 0 when there is none. *)
Fixpoint last_non_zero_byte (val : list Z) (n : nat) : nat :=
  match n with
  | O => 0
  | S k => if nth k val 0 =? 0 then last_non_zero_byte val k else n
  end.

Definition of_bytes_le (val : list Z) (sgn : Z) : BigInteger :=
  let stop := last_non_zero_byte val (length val) in
  if (stop =? 0)%nat then AssignInt64 0 else
  let intLength := Nat.div (stop + 3) 4 in
  let '(m, b) :=
    for_up (intLength - 1) (fun i '(m, b) => (<[i := le_word val b]> m, (b + 4)%nat))
      (replicate intLength 0, 0%nat) in
  let bytesRemaining := (stop - b)%nat in
  BigInt sgn (<[(intLength - 1)%nat := top_word (fun k => byte_at val (b + k)) bytesRemaining]> m).

Definition of_bytes (val : list Z) (sgn : Z) (bigEndian : bool) : BigInteger :=
  if bigEndian then of_bytes_be val sgn else of_bytes_le val sgn.

(** * MagnitudeToBytes *)

(** The bytes of limb [i], stored down from index [bytesNum - 1 - 4 * i]. *)
Definition store_limb (m : list Z) (bytesNum i : nat) (buffer : list Z) : list Z :=
  let j := (bytesNum - 1 - 4 * i)%nat in
  let x := m !!! i in
  <[(j - 3)%nat := i8 (x ≫ 24)]> (<[(j - 2)%nat := i8 (x ≫ 16)]>
    (<[(j - 1)%nat := i8 (x ≫ 8)]> (<[j := i8 x]> buffer))).

(** The switch with fall-through that stores the bytes of the highest limb in front. *)
Fixpoint store_top (x : Z) (bytesRemaining i : nat) (buffer : list Z) : list Z :=
  match bytesRemaining with
  | O => buffer
  | S k =>
      store_top x k (S i)
        (<[i := i8 (Z.lor (buffer !!! i) (i8 (x ≫ (8 * Z.of_nat k))))]> buffer)
  end.

Definition MagnitudeToBytes (b : BigInteger) : list Z :=
  let bytesNum := Z.to_nat ((GetBitLength b + 7) / 8) in
  if (bytesNum =? 0)%nat then [0] else
  let n := length (mag b) in
  let buffer := for_up (n - 1) (store_limb (mag b) bytesNum) (replicate bytesNum 0) in
  store_top (mag b !!! (n - 1)%nat) (bytesNum - 4 * (n - 1)) 0 buffer.

(** [Decimal(mag, len, scale, sign, bigEndian)]. *)
Definition dec_of_bytes (val : list Z) (sc sgn : Z) (bigEndian : bool) : Decimal :=
  Dec (Z.land sc 0x7FFFFFFF) (of_bytes val sgn bigEndian).

(** * The wire format of decimals *)

(** What [WriteDecimal] writes after the type byte: the scale, the number of
    bytes and the bytes, the sign in the highest bit of the first. *)
Definition WriteDecimal (d : Decimal) : Z * Z * list Z :=
  let magnitude := MagnitudeToBytes (magnitude d) in
  let addBit := if sign (Decimal.magnitude d) =? -1 then -0x80 else 0 in
  if magnitude !!! 0%nat <? 0
  then (scale d, Z.of_nat (length magnitude) + 1, addBit :: magnitude)
  else (scale d, Z.of_nat (length magnitude),
        <[0%nat := i8 (Z.lor (magnitude !!! 0%nat) addBit)]> magnitude).

Definition ReadDecimal (w : Z * Z * list Z) : Decimal :=
  let '(sc, len, bytes) := w in
  let m := take (Z.to_nat len) bytes in
  if m !!! 0%nat <? 0
  then dec_of_bytes (<[0%nat := Z.land (m !!! 0%nat) 0x7F]> m) sc (-1) true
  else dec_of_bytes m sc 1 true.

Definition int8s (l : list Z) : Prop := Forall (inS 8) l.

#[export] Instance int8s_dec l : Decision (int8s l).
Proof. unfold int8s. apply _. Defined.

(** The value of bytes, lowest first. *)
Fixpoint bytes_val (l : list Z) : Z :=
  match l with
  | [] => 0
  | b :: t => Z.land b 255 + 256 * bytes_val t
  end.

(** * Bytes and words *)

Lemma low_byte x : Z.land x 255 = x mod 256.
Proof. by apply (Z.land_ones x 8). Qed.

Lemma byte_range val i : 0 <= byte_at val i < 256.
Proof. unfold byte_at. rewrite low_byte. apply Z.mod_pos_bound. lia. Qed.

Lemma low_byte_i8 x : Z.land (i8 x) 255 = x mod 256.
Proof. rewrite low_byte. apply (wrapU_wrapS 8). lia. Qed.

Lemma low_byte_zero x : inS 8 x -> Z.land x 255 = 0 -> x = 0.
Proof.
  rewrite low_byte. unfold inS. change (2 ^ (8 - 1)) with 128. intros Hx H0.
  pose proof (Z.div_mod x 256). lia.
Qed.

Lemma lor_shl a x n : 0 <= n -> 0 <= a < 2 ^ n -> Z.lor a (x ≪ n) = a + x * 2 ^ n.
Proof.
  intros Hn Ha. rewrite <- Z.shiftl_mul_pow2 by done. symmetry. apply Z.add_nocarry_lor.
  apply Z.bits_inj'. intros k Hk. rewrite Z.land_spec, Z.bits_0.
  destruct (Z.lt_ge_cases k n).
  - rewrite Z.shiftl_spec_low by done. apply andb_false_r.
  - destruct (decide (a = 0)) as [->|]; [by rewrite Z.bits_0|].
    rewrite (Z.bits_above_log2 a); [done|lia|].
    assert (Z.log2 a < n) by (apply Z.log2_lt_pow2; lia). lia.
Qed.

(** Joining four bytes is base-256 notation. *)
Lemma join_bytes b0 b1 b2 b3 :
  0 <= b0 < 256 -> 0 <= b1 < 256 -> 0 <= b2 < 256 ->
  Z.lor (Z.lor (Z.lor b0 (b1 ≪ 8)) (b2 ≪ 16)) (b3 ≪ 24)
  = b0 + 256 * (b1 + 256 * (b2 + 256 * b3)).
Proof.
  intros. rewrite (lor_shl b0 b1 8), (lor_shl _ b2 16), (lor_shl _ b3 24) by lia. lia.
Qed.

Lemma le_word_sum val b :
  le_word val b
  = byte_at val b + 256 * (byte_at val (b + 1) + 256 * (byte_at val (b + 2) + 256 * byte_at val (b + 3))).
Proof. unfold le_word. by rewrite join_bytes by apply byte_range. Qed.

Lemma le_word_range val b : 0 <= le_word val b < radix.
Proof.
  rewrite le_word_sum. pose proof (byte_range val b). pose proof (byte_range val (b + 1)).
  pose proof (byte_range val (b + 2)). pose proof (byte_range val (b + 3)). unfold radix. lia.
Qed.

Lemma byte_drop val n i : byte_at (drop n val) i = byte_at val (n + i).
Proof. unfold byte_at. by rewrite nth_skipn. Qed.

Lemma bytes_val_word l : bytes_val l = le_word l 0 + radix * bytes_val (drop 4 l).
Proof.
  rewrite le_word_sum. unfold byte_at, radix.
  destruct l as [|a [|b [|c [|d l]]]]; cbn -[Z.mul Z.land]; rewrite ?drop_0, ?Z.land_0_l; lia.
Qed.

(** The first [n] words of a byte array. *)
Definition le_words (val : list Z) (n : nat) : list Z :=
  map (fun i => le_word val (4 * i)) (seq 0 n).

Lemma le_words_S val n : le_words val (S n) = le_words val n ++ [le_word val (4 * n)].
Proof. unfold le_words. by rewrite seq_S, map_app. Qed.

Lemma le_words_length val n : length (le_words val n) = n.
Proof. unfold le_words. by rewrite length_map, length_seq. Qed.

Lemma le_words_limbs val n : limbs (le_words val n).
Proof.
  unfold le_words, limbs. apply Forall_forall. intros x Hx.
  apply list_elem_of_fmap in Hx as (i & -> & _). apply le_word_range.
Qed.

Lemma mval_le_words val n :
  mval (le_words val n) + radix ^ Z.of_nat n * bytes_val (drop (4 * n) val) = bytes_val val.
Proof.
  induction n as [|n IH]; [rewrite drop_0; simpl (mval _); change (radix ^ Z.of_nat 0) with 1; lia|].
  rewrite le_words_S, mval_app, le_words_length. cbn [mval].
  rewrite <- IH, radix_pow_S. rewrite (bytes_val_word (drop (4 * n) val)), drop_drop.
  replace (4 * n + 4)%nat with (4 * S n)%nat by lia.
  assert (le_word (drop (4 * n) val) 0 = le_word val (4 * n)) as ->; [|ring].
  rewrite !le_word_sum, !byte_drop. do 8 f_equal; lia.
Qed.

Lemma bytes_val_zeros l : (forall i, (i < length l)%nat -> nth i l 0 = 0) -> bytes_val l = 0.
Proof.
  induction l as [|x l IH]; intros Hz; [done|]. cbn [bytes_val].
  assert (x = 0) as -> by (apply (Hz 0%nat); simpl; lia). rewrite IH; [done|].
  intros i Hi. apply (Hz (S i)). simpl. lia.
Qed.

(** ** The highest word *)

Lemma top_word_ext f g n : (forall k, (k < n)%nat -> f k = g k) -> top_word f n = top_word g n.
Proof.
  intros H. unfold top_word.
  destruct n as [|[|[|[|[|n]]]]]; repeat (case_bool_decide; [|try lia]); try lia;
    rewrite ?(H 0%nat), ?(H 1%nat), ?(H 2%nat), ?(H 3%nat) by lia; done.
Qed.

Lemma top_word_full byte n :
  (1 <= n <= 4)%nat -> (forall k, (n <= k < 4)%nat -> byte k = 0) ->
  top_word byte n
  = Z.lor (Z.lor (Z.lor (byte 0%nat) (byte 1%nat ≪ 8)) (byte 2%nat ≪ 16)) (byte 3%nat ≪ 24).
Proof.
  intros Hn Hz. assert (n = 1 \/ n = 2 \/ n = 3 \/ n = 4)%nat as Hc by lia. unfold top_word.
  destruct Hc as [-> |[-> |[-> | ->]]]; cbv beta;
    repeat (case_bool_decide; [|try lia]); try lia; rewrite ?(Hz 1%nat), ?(Hz 2%nat), ?(Hz 3%nat) by lia;
    rewrite ?Z.shiftl_0_l, ?Z.lor_0_r, ?Z.lor_0_l; try done;
    apply Z.bits_inj'; intros k _; rewrite !Z.lor_spec; btauto.
Qed.

(** * The constructor *)

Lemma last_byte_spec val n :
  (last_non_zero_byte val n <= n)%nat
  /\ (forall k, (last_non_zero_byte val n <= k < n)%nat -> nth k val 0 = 0)
  /\ (last_non_zero_byte val n <> 0%nat -> nth (last_non_zero_byte val n - 1) val 0 <> 0).
Proof.
  induction n as [|n (IH1 & IH2 & IH3)]; cbn [last_non_zero_byte].
  - split; [lia|]. split; [lia|done].
  - destruct (Z.eqb_spec (nth n val 0) 0) as [E|E].
    + split; [lia|]. split; [|done]. intros k Hk. destruct (decide (k = n)) as [->|]; [done|].
      apply IH2. lia.
    + split; [lia|]. split; [lia|]. intros _. by replace (S n - 1)%nat with n by lia.
Qed.

(** What both loops fill in. *)
Lemma fill_words (word : nat -> Z) (step : nat -> nat) n k b0 :
  (k <= n)%nat ->
  for_up k (fun i '(m, b) => (<[i := word b]> m, step b)) (replicate n 0, b0)
  = (map (fun i => word (Nat.iter i step b0)) (seq 0 k) ++ replicate (n - k) 0, Nat.iter k step b0).
Proof.
  intros Hk. induction k as [|k IH]; [by rewrite Nat.sub_0_r|]. cbn [for_up].
  rewrite IH by lia. rewrite seq_S, map_app. cbn [map Nat.add]. rewrite <- app_assoc.
  f_equal. rewrite insert_app_r_alt by (rewrite length_map, length_seq; lia).
  rewrite length_map, length_seq, Nat.sub_diag.
  replace (n - k)%nat with (S (n - S k)) by lia. done.
Qed.

Lemma iter_add4 k b : Nat.iter k (fun b => b + 4)%nat b = (b + 4 * k)%nat.
Proof. induction k as [|k IH]; [simpl; lia|]. rewrite Nat.iter_succ, IH. lia. Qed.

Lemma iter_sub4 k b : Nat.iter k (fun b => b - 4)%nat b = (b - 4 * k)%nat.
Proof. induction k as [|k IH]; [simpl; lia|]. rewrite Nat.iter_succ, IH. lia. Qed.

Lemma words_of_stop stop : (0 < stop)%nat ->
  let n := Nat.div (stop + 3) 4 in (1 <= n)%nat /\ (4 * (n - 1) < stop <= 4 * n)%nat.
Proof.
  intros Hs n. pose proof (Nat.div_mod (stop + 3) 4). pose proof (Nat.mod_upper_bound (stop + 3) 4).
  fold n in H. lia.
Qed.

Lemma set_top (ws : list Z) n x :
  length ws = (n - 1)%nat -> (1 <= n)%nat -> <[(n - 1)%nat := x]> (ws ++ replicate (n - (n - 1)) 0) = ws ++ [x].
Proof.
  intros Hl Hn. rewrite insert_app_r_alt by lia. rewrite Hl, Nat.sub_diag.
  by replace (n - (n - 1))%nat with 1%nat by lia.
Qed.

Lemma of_bytes_le_eq val sgn :
  let stop := last_non_zero_byte val (length val) in
  stop <> 0%nat -> of_bytes_le val sgn = BigInt sgn (le_words val (Nat.div (stop + 3) 4)).
Proof.
  intros stop Hs. unfold of_bytes_le. fold stop. rewrite (proj2 (Nat.eqb_neq _ _) Hs).
  destruct (words_of_stop stop ltac:(lia)) as [Hn Hb]. set (n := Nat.div (stop + 3) 4) in *.
  rewrite fill_words by lia. cbv beta iota. f_equal.
  rewrite set_top by (rewrite ?length_map, ?length_seq; lia).
  rewrite iter_add4, Nat.add_0_l.
  destruct (last_byte_spec val (length val)) as (Hle & Hz & _). fold stop in Hle, Hz.
  transitivity (le_words val (S (n - 1))); [|f_equal; lia]. rewrite le_words_S. f_equal.
  - unfold le_words. apply map_ext. intros i. by rewrite iter_add4.
  - f_equal. rewrite top_word_full; [|lia|].
    + unfold le_word. by rewrite Nat.add_0_r.
    + intros k Hk. unfold byte_at. destruct (decide (4 * (n - 1) + k < length val)%nat) as [Hin|Hout].
      * rewrite Hz by lia. done.
      * rewrite nth_overflow by lia. done.
Qed.

Lemma last_byte_prefix l x n :
  (n <= length l)%nat -> last_non_zero_byte (l ++ [x]) n = last_non_zero_byte l n.
Proof.
  induction n as [|n IH]; intros Hn; [done|]. cbn [last_non_zero_byte].
  rewrite app_nth1 by lia. rewrite IH by lia. done.
Qed.

Lemma first_last_byte val :
  (first_non_zero val + last_non_zero_byte (rev val) (length val) = length val)%nat.
Proof.
  induction val as [|v val IH]; [done|]. cbn [first_non_zero rev length last_non_zero_byte].
  rewrite app_nth2 by (rewrite length_rev; lia). rewrite length_rev, Nat.sub_diag. cbn [nth].
  destruct (v =? 0); [|done]. rewrite last_byte_prefix by (rewrite length_rev; lia). lia.
Qed.

Lemma byte_rev val j : (j < length val)%nat -> byte_at val (length val - 1 - j) = byte_at (rev val) j.
Proof.
  intros Hj. unfold byte_at. rewrite rev_nth by done. do 2 f_equal. lia.
Qed.

Lemma be_word_rev val j :
  (j + 3 < length val)%nat -> be_word val (length val - 1 - j) = le_word (rev val) j.
Proof.
  intros Hj. unfold be_word, le_word. rewrite <- !byte_rev by lia.
  by rewrite !Nat.sub_add_distr.
Qed.

(** Reading from the other end is reading the reversed array. *)
Lemma of_bytes_be_rev val sgn : of_bytes_be val sgn = of_bytes_le (rev val) sgn.
Proof.
  pose proof (first_last_byte val) as Hfl. pose proof (length_rev val) as Hlen.
  set (stop := last_non_zero_byte (rev val) (length val)) in *.
  destruct (decide (stop = 0%nat)) as [E|E].
  - unfold of_bytes_be, of_bytes_le. rewrite Hlen. fold stop. rewrite E.
    by rewrite (proj2 (Nat.eqb_eq _ _)) by lia.
  - rewrite of_bytes_le_eq by (rewrite Hlen; done). rewrite Hlen. fold stop.
    unfold of_bytes_be. rewrite (proj2 (Nat.eqb_neq _ _)) by lia.
    replace (length val - first_non_zero val)%nat with stop by lia.
    destruct (words_of_stop stop ltac:(lia)) as [Hn Hb]. set (n := Nat.div (stop + 3) 4) in *.
    rewrite fill_words by lia. cbv beta iota. f_equal.
    rewrite set_top by (rewrite ?length_map, ?length_seq; lia). rewrite iter_sub4.
    destruct (last_byte_spec (rev val) (length val)) as (Hle & Hz & _). fold stop in Hle, Hz.
    transitivity (le_words (rev val) (S (n - 1))); [|f_equal; lia]. rewrite le_words_S. f_equal.
    + unfold le_words. apply map_ext_in. intros i Hi. apply in_seq in Hi. rewrite iter_sub4.
      apply be_word_rev. lia.
    + f_equal. rewrite (top_word_ext _ (fun k => byte_at (rev val) (4 * (n - 1) + k))).
      * replace (length val - 1 - 4 * (n - 1) + 1 - first_non_zero val)%nat
          with (stop - 4 * (n - 1))%nat by lia.
        rewrite top_word_full; [unfold le_word; by rewrite Nat.add_0_r|lia|].
        intros k Hk. unfold byte_at.
        destruct (decide (4 * (n - 1) + k < length val)%nat) as [Hin|Hout].
        -- rewrite Hz by lia. done.
        -- rewrite nth_overflow by lia. done.
      * intros k Hk. rewrite <- byte_rev by lia. f_equal. lia.
Qed.

Lemma nth_int8 l i : int8s l -> inS 8 (nth i l 0).
Proof.
  intros Hl. destruct (decide (i < length l)%nat).
  - apply (proj1 (List.Forall_forall _ _) Hl). by apply nth_In.
  - rewrite nth_overflow by lia. split; [vm_compute; discriminate|reflexivity].
Qed.

Lemma of_bytes_le_spec val sgn :
  int8s val -> (sgn = 1 \/ sgn = -1) ->
  canonical (of_bytes_le val sgn) /\ value (of_bytes_le val sgn) = sgn * bytes_val val.
Proof.
  intros Hval Hsgn. destruct (last_byte_spec val (length val)) as (Hle & Hz & Hnz).
  set (stop := last_non_zero_byte val (length val)) in *.
  destruct (decide (stop = 0%nat)) as [E|E].
  - unfold of_bytes_le. fold stop. rewrite E. cbn [Nat.eqb].
    split; [apply (assign_i64 0); split; reflexivity || lia|].
    rewrite bytes_val_zeros; [change (value (AssignInt64 0)) with 0; lia|]. intros i Hi. apply Hz. lia.
  - rewrite of_bytes_le_eq by done. fold stop.
    destruct (words_of_stop stop ltac:(lia)) as [Hn Hb]. set (n := Nat.div (stop + 3) 4) in *.
    assert (mval (le_words val n) = bytes_val val) as Hv.
    { rewrite <- (mval_le_words val n), (bytes_val_zeros (drop (4 * n) val)); [lia|].
      intros i Hi. rewrite length_drop in Hi. rewrite nth_skipn. apply Hz. lia. }
    unfold value. cbn [sign mag]. rewrite Hv. split; [|done].
    assert (normal (le_words val n)) as Hnorm.
    { unfold normal. replace n with (S (n - 1)) by lia. rewrite le_words_S, last_snoc.
      intros H0. apply (inj Some) in H0. rewrite le_word_sum in H0. apply (Hnz E).
      pose proof (byte_range val (4 * (n - 1))). pose proof (byte_range val (4 * (n - 1) + 1)).
      pose proof (byte_range val (4 * (n - 1) + 2)). pose proof (byte_range val (4 * (n - 1) + 3)).
      apply low_byte_zero; [by apply nth_int8|]. change (byte_at val (stop - 1) = 0).
      assert (stop - 1 = 4 * (n - 1) \/ stop - 1 = 4 * (n - 1) + 1 \/ stop - 1 = 4 * (n - 1) + 2
        \/ stop - 1 = 4 * (n - 1) + 3)%nat as [-> |[-> |[-> | ->]]] by lia; lia. }
    split; [split; [done|]; split; [apply le_words_limbs|done]|].
    cbn [mag sign]. intros Hnil. apply (f_equal length) in Hnil.
    rewrite le_words_length in Hnil. simpl in Hnil. lia.
Qed.

Lemma int8s_rev l : int8s l -> int8s (rev l).
Proof. apply List.Forall_rev. Qed.

(** * MagnitudeToBytes *)

Lemma nth_insert (l : list Z) i x p :
  (i < length l)%nat -> nth p (<[i := x]> l) 0 = if decide (p = i) then x else nth p l 0.
Proof.
  intros Hi. rewrite !nth_lookup. case_decide as E; [subst p; by rewrite list_lookup_insert_eq|].
  by rewrite list_lookup_insert_ne.
Qed.

(** Byte [q] of a magnitude, lowest first. *)
Definition limb_byte (m : list Z) (q : nat) : Z := m !!! (q / 4)%nat ≫ (8 * Z.of_nat (q mod 4)).

Lemma limb_byte_at m i k : (k < 4)%nat -> limb_byte m (4 * i + k) = m !!! i ≫ (8 * Z.of_nat k).
Proof.
  intros Hk. unfold limb_byte.
  pose proof (Nat.div_unique (4 * i + k) 4 i k Hk eq_refl) as <-.
  by pose proof (Nat.mod_unique (4 * i + k) 4 i k Hk eq_refl) as <-.
Qed.

(** The buffer holds the lowest [n] bytes, from the end, and zeros in front. *)
Definition holds_bytes (m : list Z) (B n : nat) (buffer : list Z) : Prop :=
  length buffer = B /\ forall q, (q < B)%nat ->
    nth (B - 1 - q) buffer 0 = if decide (q < n)%nat then i8 (limb_byte m q) else 0.

Lemma store_limb_spec m B i buffer :
  holds_bytes m B (4 * i) buffer -> (4 * i + 4 <= B)%nat ->
  holds_bytes m B (4 * S i) (store_limb m B i buffer).
Proof.
  intros [Hlen Hq] HB. unfold holds_bytes, store_limb. rewrite !length_insert. split; [done|].
  intros q HqB. rewrite !nth_insert by (rewrite ?length_insert; lia).
  assert (i8 (m !!! i) = i8 (limb_byte m (4 * i))) as E0.
  { rewrite <- (Nat.add_0_r (4 * i)), limb_byte_at by lia. by rewrite Z.shiftr_0_r. }
  assert (forall k, (k < 4)%nat -> limb_byte m (4 * i + k) = m !!! i ≫ (8 * Z.of_nat k)) as Ek
    by (intros; by apply limb_byte_at).
  repeat case_decide; try lia.
  - replace q with (4 * i + 3)%nat by lia. by rewrite Ek by lia.
  - replace q with (4 * i + 2)%nat by lia. by rewrite Ek by lia.
  - replace q with (4 * i + 1)%nat by lia. by rewrite Ek by lia.
  - by replace q with (4 * i)%nat by lia.
  - rewrite Hq by lia. by rewrite decide_True by lia.
  - rewrite Hq by lia. by rewrite decide_False by lia.
Qed.

Lemma store_top_spec x k i buffer :
  (i + k <= length buffer)%nat ->
  length (store_top x k i buffer) = length buffer
  /\ forall p, nth p (store_top x k i buffer) 0
       = if decide (i <= p < i + k)%nat
         then i8 (Z.lor (nth p buffer 0) (i8 (x ≫ (8 * Z.of_nat (k - 1 - (p - i))))))
         else nth p buffer 0.
Proof.
  revert i buffer. induction k as [|k IH]; intros i buffer Hl; cbn [store_top].
  - split; [done|]. intros p. by rewrite decide_False by lia.
  - destruct (IH (S i) (<[i := i8 (Z.lor (buffer !!! i) (i8 (x ≫ (8 * Z.of_nat k))))]> buffer))
      as [Hlen Hp]; [rewrite length_insert; lia|]. rewrite length_insert in Hlen. split; [done|].
    intros p. rewrite Hp, nth_insert by lia. repeat case_decide; try lia; try done.
    + do 5 f_equal. lia.
    + subst p. rewrite Nat.sub_diag, Nat.sub_0_r. replace (S k - 1)%nat with k by lia.
      rewrite nth_lookup. rewrite list_lookup_total_alt.
      destruct (lookup_lt_is_Some_2 buffer i ltac:(lia)) as [y ->]. done.
Qed.

Section bytes.
Context (b : BigInteger) (Hb : wf b) (Hf : fits b) (Hne : mag b <> []).

Abbreviation m := (mag b).
Abbreviation n := (length (mag b)).
Abbreviation B := (Z.to_nat ((GetBitLength b + 7) / 8)).
Abbreviation top := (mag b !!! (length (mag b) - 1)%nat).

Lemma mval_bits : 2 ^ (GetBitLength b - 1) <= mval m < 2 ^ GetBitLength b /\ 1 <= GetBitLength b.
Proof.
  rewrite bit_length_spec by done.
  pose proof (normal_lower m (proj1 (proj2 Hb)) (proj2 (proj2 Hb)) Hne).
  pose proof (radix_pow_pos (n - 1)). pose proof (Z.log2_spec (mval m) ltac:(lia)).
  pose proof (Z.log2_nonneg (mval m)).
  replace (Z.log2 (mval m) + 1 - 1) with (Z.log2 (mval m)) by lia.
  replace (Z.log2 (mval m) + 1) with (Z.succ (Z.log2 (mval m))) by lia. lia.
Qed.

Lemma bytes_num : (4 * (n - 1) < B <= 4 * n)%nat /\ 0 <= top < 2 ^ (8 * Z.of_nat (B - 4 * (n - 1))).
Proof.
  destruct mval_bits as [[Hlo Hhi] HL]. pose proof (proj1 (proj2 Hb)) as Hl.
  assert (0 < n)%nat by (destruct m; [done|simpl; lia]).
  pose proof (normal_lower m Hl (proj2 (proj2 Hb)) Hne) as Hlow.
  pose proof (mval_bounds m Hl) as [_ Hup]. unfold radix in Hlow, Hup.
  rewrite <- !Z.pow_mul_r in Hlow, Hup by lia.
  pose proof (Z.div_mod (GetBitLength b + 7) 8 ltac:(lia)).
  pose proof (Z.mod_pos_bound (GetBitLength b + 7) 8 ltac:(lia)).
  set (q := (GetBitLength b + 7) / 8) in *.
  assert (32 * Z.of_nat (n - 1) < GetBitLength b) as HB1.
  { apply (Z.pow_lt_mono_r_iff 2); [lia|lia|]. lia. }
  assert (GetBitLength b - 1 < 32 * Z.of_nat n) as HB2.
  { apply (Z.pow_lt_mono_r_iff 2); [lia|lia|]. lia. }
  split; [lia|]. pose proof (limb_at m (n - 1) Hl ltac:(lia)) as [Ht _]. split; [done|].
  assert (mval m < 2 ^ (8 * q)) as Hq.
  { apply Z.lt_le_trans with (1 := Hhi). apply Z.pow_le_mono_r; lia. }
  pose proof (mval_take_S m (n - 1) ltac:(lia)) as Hs.
  replace (S (n - 1)) with n in Hs by lia. rewrite firstn_all in Hs.
  pose proof (mval_bounds (take (n - 1) m) (limbs_take _ _ Hl)) as [Hnn _].
  apply Z.nle_gt. intros Hge.
  assert (2 ^ (8 * q) <= 2 ^ (32 * Z.of_nat (n - 1)) * top); [|].
  { replace (8 * q) with (32 * Z.of_nat (n - 1) + 8 * Z.of_nat (Z.to_nat q - 4 * (n - 1))) by lia.
    rewrite Z.pow_add_r by lia. apply Z.mul_le_mono_nonneg_l; [apply Z.pow_nonneg; lia|done]. }
  unfold radix in Hs. rewrite <- Z.pow_mul_r in Hs by lia. lia.
Qed.

Lemma magnitude_bytes :
  length (MagnitudeToBytes b) = B
  /\ forall q, (q < B)%nat -> byte_at (rev (MagnitudeToBytes b)) q = limb_byte m q mod 256.
Proof.
  destruct bytes_num as [HB Ht]. unfold MagnitudeToBytes.
  rewrite (proj2 (Nat.eqb_neq _ _)) by lia.
  assert (holds_bytes m B (4 * (n - 1)) (for_up (n - 1) (store_limb m B) (replicate B 0))) as [Hlen Hq].
  { apply (for_up_ind _ (fun i => holds_bytes m B (4 * i))).
    - split; [apply length_replicate|]. intros q Hq. rewrite decide_False by lia.
      rewrite nth_lookup, lookup_replicate_2 by lia. done.
    - intros i t Hi Hh. apply store_limb_spec; [done|lia]. }
  set (buf := for_up _ _ _) in *.
  destruct (store_top_spec top (B - 4 * (n - 1)) 0 buf ltac:(lia)) as [Hl2 Hp].
  set (res := store_top _ _ _ _) in *. split; [lia|]. intros q HqB.
  rewrite <- byte_rev by lia. rewrite Hl2, Hlen. unfold byte_at. rewrite Hp, Hq by done.
  destruct (decide (q < 4 * (n - 1))%nat) as [Hlow|Hhigh].
  - rewrite decide_False by lia. apply low_byte_i8.
  - rewrite decide_True by lia. rewrite Z.lor_0_l, low_byte_i8.
    rewrite <- (low_byte (i8 _)), low_byte_i8. do 2 f_equal.
    replace q with (4 * (n - 1) + (q - 4 * (n - 1)))%nat at 2 by lia.
    rewrite limb_byte_at by lia. do 2 f_equal. lia.
Qed.

Lemma word_bytes x :
  0 <= x < radix ->
  (x ≫ 0) mod 256 + 256 * ((x ≫ 8) mod 256 + 256 * ((x ≫ 16) mod 256 + 256 * ((x ≫ 24) mod 256))) = x.
Proof.
  unfold radix. intros Hx. rewrite !Z.shiftr_div_pow2 by lia.
  change (2 ^ 0) with 1. change (2 ^ 8) with 256. change (2 ^ 16) with (256 * 256).
  change (2 ^ 24) with (256 * 256 * 256). rewrite Z.div_1_r.
  rewrite <- !Z.div_div by lia.
  pose proof (Z.div_mod x 256). pose proof (Z.div_mod (x / 256) 256).
  pose proof (Z.div_mod (x / 256 / 256) 256).
  rewrite (Z.mod_small (x / 256 / 256 / 256)); [lia|].
  split; [repeat apply Z.div_pos; lia|]. repeat (apply Z.div_lt_upper_bound; [lia|]). lia.
Qed.

Lemma magnitude_bytes_val : bytes_val (rev (MagnitudeToBytes b)) = mval m.
Proof.
  destruct bytes_num as [HB Ht]. destruct magnitude_bytes as [Hlen Hq].
  set (val := rev (MagnitudeToBytes b)) in *.
  assert (length val = B) as HlenV by (unfold val; by rewrite length_rev).
  assert (forall i k, (i < n)%nat -> (k < 4)%nat ->
    byte_at val (4 * i + k) = (m !!! i ≫ (8 * Z.of_nat k)) mod 256) as Hik.
  { intros i k Hi Hk. destruct (decide (4 * i + k < B)%nat) as [Hin|Hout].
    - rewrite Hq by done. by rewrite limb_byte_at.
    - unfold byte_at. rewrite nth_overflow by lia. assert (i = n - 1)%nat as -> by lia.
      assert (top ≫ (8 * Z.of_nat k) = 0) as ->; [|done].
      rewrite Z.shiftr_div_pow2 by lia. apply Z.div_small. split; [lia|].
      apply Z.lt_le_trans with (1 := proj2 Ht). apply Z.pow_le_mono_r; lia. }
  assert (le_words val n = m) as E.
  { apply list_eq_same_length with n; [done|by rewrite le_words_length|].
    intros i x y Hi Hx Hy. unfold le_words in Hx.
    apply list_lookup_fmap_Some in Hx as (j & -> & Hj). apply lookup_seq in Hj as [-> _].
    cbn [Nat.add]. rewrite le_word_sum, <- (Nat.add_0_r (4 * i)) at 1.
    rewrite !Hik by lia. rewrite (list_lookup_total_correct _ _ _ Hy).
    apply word_bytes. exact (Forall_lookup_1 (inU 32) m i y (proj1 (proj2 Hb)) Hy). }
  rewrite <- (mval_le_words val n), E. rewrite drop_ge by lia. cbn [bytes_val]. lia.
Qed.

End bytes.

Lemma magnitude_bytes_any b :
  wf b -> fits b -> bytes_val (rev (MagnitudeToBytes b)) = mval (mag b) /\ MagnitudeToBytes b <> [].
Proof.
  intros Hb Hf. destruct (decide (mag b = [])) as [E|E].
  - unfold MagnitudeToBytes. rewrite bit_length_zero, E by done. done.
  - split; [by apply magnitude_bytes_val|]. intros Hn. apply (f_equal length) in Hn.
    destruct (magnitude_bytes b Hb Hf E) as [Hl _]. destruct (bytes_num b Hb Hf E). simpl in Hn. lia.
Qed.

(** Stored bytes are [int8_t]s. *)
Lemma int8_i8 x : inS 8 (i8 x).
Proof. apply wrapS_range. lia. Qed.

Lemma int8s_insert l i x : int8s l -> inS 8 x -> int8s (<[i := x]> l).
Proof. apply Forall_insert. Qed.

Lemma int8s_zeros k : int8s (replicate k 0).
Proof. apply Forall_replicate. split; [vm_compute; discriminate|reflexivity]. Qed.

Lemma store_top_int8s x k i l : int8s l -> int8s (store_top x k i l).
Proof.
  revert i l. induction k as [|k IH]; intros i l Hl; [done|]. cbn [store_top].
  apply IH, int8s_insert; [done|apply int8_i8].
Qed.

Lemma magnitude_int8s b : int8s (MagnitudeToBytes b).
Proof.
  unfold MagnitudeToBytes. case_match; [apply (int8s_zeros 1)|]. apply store_top_int8s.
  apply (for_up_ind _ (fun _ => int8s)); [apply int8s_zeros|]. intros i t _ Ht.
  unfold store_limb. repeat apply int8s_insert; try apply int8_i8. done.
Qed.

Lemma of_bytes_spec val sgn bigEndian :
  int8s val -> (sgn = 1 \/ sgn = -1) ->
  canonical (of_bytes val sgn bigEndian)
  /\ value (of_bytes val sgn bigEndian) = sgn * bytes_val (if bigEndian then rev val else val).
Proof.
  intros Hval Hsgn. destruct bigEndian; cbn [of_bytes].
  - rewrite of_bytes_be_rev. by apply of_bytes_le_spec; [apply int8s_rev|].
  - by apply of_bytes_le_spec.
Qed.

Lemma bytes_val_snoc0 l : bytes_val (l ++ [0]) = bytes_val l.
Proof. induction l as [|x l IH]; [done|]. cbn [app bytes_val]. by rewrite IH. Qed.

(** Any byte array with the bytes of a magnitude, zeros in front allowed, gives it back. *)
Lemma of_magnitude_bytes b pre :
  canonical b -> fits b -> pre = [] \/ pre = [0] ->
  of_bytes (pre ++ MagnitudeToBytes b) (sign b) true = b.
Proof.
  intros Hc Hf Hpre. destruct (magnitude_bytes_any b (proj1 Hc) Hf) as [Hv _].
  destruct (of_bytes_spec (pre ++ MagnitudeToBytes b) (sign b) true) as [Hcan Hval].
  - apply Forall_app. split; [|apply magnitude_int8s].
    destruct Hpre as [-> | ->]; [constructor|apply (int8s_zeros 1)].
  - apply Hc.
  - apply canonical_inj; [done|done|]. rewrite Hval. unfold value. f_equal.
    destruct Hpre as [-> | ->]; cbn [app rev]; rewrite ?bytes_val_snoc0; done.
Qed.

(** The sign bit in a byte without it, checked on all 128 bytes. *)
Lemma sign_bit_set x : 0 <= x < 128 -> i8 (Z.lor x (-0x80)) = x - 128 /\ Z.land (x - 128) 0x7F = x.
Proof.
  intros Hx. assert (x ∈ seqZ 0 128) as Hin by (apply elem_of_seqZ; lia). clear Hx. revert x Hin.
  apply Forall_forall. apply (bool_decide_unpack _). vm_compute. exact I.
Qed.

Lemma write_decimal_bytes d :
  canonical (magnitude d) -> fits (magnitude d) ->
  ReadDecimal (WriteDecimal d) = Dec (Z.land (scale d) 0x7FFFFFFF) (magnitude d).
Proof.
  intros Hc Hf. unfold WriteDecimal. set (b := magnitude d) in *.
  pose proof (of_magnitude_bytes b [] Hc Hf (or_introl eq_refl)) as H0.
  pose proof (of_magnitude_bytes b [0] Hc Hf (or_intror eq_refl)) as H1.
  pose proof (magnitude_int8s b) as Hi8. destruct (magnitude_bytes_any b (proj1 Hc) Hf) as [_ Hne].
  destruct (MagnitudeToBytes b) as [|x t]; [done|]. cbn [app] in *.
  pose proof (Forall_inv Hi8) as Hx. unfold inS in Hx. change (2 ^ (8 - 1)) with 128 in Hx.
  change ((x :: t) !!! 0%nat) with x. destruct (Z.ltb_spec x 0) as [Hneg|Hpos].
  - unfold ReadDecimal. rewrite take_ge by (simpl; lia).
    destruct (proj1 (proj1 Hc)) as [E|E]; rewrite E in *.
    + change (1 =? -1) with false. cbv iota. change ((0 :: x :: t) !!! 0%nat) with 0.
      change (0 <? 0) with false. unfold dec_of_bytes. by rewrite H1.
    + change (-1 =? -1) with true. cbv iota. change ((-128 :: x :: t) !!! 0%nat) with (-128).
      change (-128 <? 0) with true. cbv iota.
      change (<[0%nat := Z.land (-128) 127]> (-128 :: x :: t)) with (0 :: x :: t).
      unfold dec_of_bytes. by rewrite H1.
  - unfold ReadDecimal. rewrite take_ge by (rewrite length_insert; simpl; lia).
    destruct (proj1 (proj1 Hc)) as [E|E]; rewrite E in *.
    + change (1 =? -1) with false. cbv iota. rewrite Z.lor_0_r.
      rewrite wrapS_small by (unfold inS; simpl; lia). change (<[0%nat := x]> (x :: t)) with (x :: t).
      change ((x :: t) !!! 0%nat) with x. rewrite (proj2 (Z.ltb_ge x 0)) by done. unfold dec_of_bytes. by rewrite H0.
    + change (-1 =? -1) with true. cbv iota. destruct (sign_bit_set x ltac:(lia)) as [-> Hland].
      change (<[0%nat := x - 128]> (x :: t)) with (x - 128 :: t).
      change ((x - 128 :: t) !!! 0%nat) with (x - 128).
      rewrite (proj2 (Z.ltb_lt (x - 128) 0)) by lia. rewrite Hland.
      change (<[0%nat := x]> (x - 128 :: t)) with (x :: t).
      unfold dec_of_bytes. by rewrite H0.
Qed.

(** * Properties *)

(** The constructor from bytes reads the array as an unsigned number in the
    given byte order, whatever its length and leading zeros, and gives it the
    given sign; the result is in canonical form. *)
Theorem of_bytes_correct val sgn bigEndian :
  int8s val -> sgn = 1 \/ sgn = -1 ->
  canonical (of_bytes val sgn bigEndian)
  /\ value (of_bytes val sgn bigEndian) = sgn * bytes_val (if bigEndian then rev val else val).
Proof. apply of_bytes_spec. Qed.

Lemma of_bytes_correct_witness :
  canonical (of_bytes [0; 1; -1; 3; 4; 5] (-1) true)
  /\ value (of_bytes [0; 1; -1; 3; 4; 5] (-1) true) = -1 * bytes_val [5; 4; 3; -1; 1; 0].
Proof.
  apply (of_bytes_correct [0; 1; -1; 3; 4; 5] (-1) true);
    [apply (bool_decide_unpack _); vm_compute; exact I|right; reflexivity].
Defined.

(** [MagnitudeToBytes] followed by the constructor gives back the same big integer. *)
Theorem magnitude_bytes_roundtrip b :
  canonical b -> fits b -> of_bytes (MagnitudeToBytes b) (sign b) true = b.
Proof. intros Hc Hf. apply (of_magnitude_bytes b []); auto. Qed.

Lemma magnitude_bytes_roundtrip_witness :
  of_bytes (MagnitudeToBytes (BigInt (-1) [0xff030405; 0; 0x80])) (-1) true
  = BigInt (-1) [0xff030405; 0; 0x80].
Proof.
  apply (magnitude_bytes_roundtrip (BigInt (-1) [0xff030405; 0; 0x80]));
    [apply (bool_decide_unpack _); vm_compute; exact I|reflexivity].
Defined.

(** A decimal with a non-negative scale survives the wire format: [ReadDecimal]
    of what [WriteDecimal] wrote is the same object.  A negative scale does not:
    the reader clears its sign bit, so that 10^2 * 5 comes back as 5 divided by
    ten to the 2147483646. *)
Theorem decimal_wire_roundtrip :
  (forall d, dec_wf d -> fits (magnitude d) -> 0 <= scale d -> ReadDecimal (WriteDecimal d) = d)
  /\ ReadDecimal (WriteDecimal (Dec (-2) (AssignInt64 5))) = Dec 2147483646 (AssignInt64 5).
Proof.
  split; [|vm_compute; reflexivity].
  intros [sc b] [Hc Hs] Hf H0. rewrite write_decimal_bytes by done. cbn [scale magnitude] in *.
  change 0x7FFFFFFF with (Z.ones 31). rewrite Z.land_ones by lia.
  rewrite Z.mod_small; [done|]. unfold inS in Hs. change (2 ^ (32 - 1)) with (2 ^ 31) in Hs. lia.
Qed.

Lemma decimal_wire_roundtrip_witness :
  ReadDecimal (WriteDecimal (Dec 3 (BigInt (-1) [0xff030405]))) = Dec 3 (BigInt (-1) [0xff030405]).
Proof.
  apply (proj1 decimal_wire_roundtrip);
    [apply (bool_decide_unpack _); vm_compute; exact I|reflexivity|apply Z.leb_le; reflexivity].
Defined.
