(* ===== verification/TypeTraits.v ===== *)
(** SQL type traits: [src/src/odbc/src/type_traits.cpp], with the JDBC type codes of
    [src/src/odbc/include/documentdb/odbc/impl/binary/binary_common.h].

    The functions are switches over a type code; [switch] models the C++
    statement, so that a definition lists the same labels in the same order.
    The [SQL_*] codes are the constants of the ODBC standard (sql.h, sqlext.h). *)
From S2P Require Import Prelude Bits BigText.

(** [switch (t) { case l: ... return v; ... default: return d; }] *)
Fixpoint switch {A} (t : Z) (cases : list (list Z * A)) (d : A) : A :=
  match cases with
  | [] => d
  | (labels, v) :: rest => if bool_decide (t ∈ labels) then v else switch t rest d
  end.

(** * Codes *)

(** ODBC SQL types. *)
Definition SQL_CHAR : Z := 1.
Definition SQL_NUMERIC : Z := 2.
Definition SQL_DECIMAL : Z := 3.
Definition SQL_INTEGER : Z := 4.
Definition SQL_SMALLINT : Z := 5.
Definition SQL_FLOAT : Z := 6.
Definition SQL_REAL : Z := 7.
Definition SQL_DOUBLE : Z := 8.
Definition SQL_VARCHAR : Z := 12.
Definition SQL_TYPE_DATE : Z := 91.
Definition SQL_TYPE_TIME : Z := 92.
Definition SQL_TYPE_TIMESTAMP : Z := 93.
Definition SQL_LONGVARCHAR : Z := -1.
Definition SQL_BINARY : Z := -2.
Definition SQL_VARBINARY : Z := -3.
Definition SQL_LONGVARBINARY : Z := -4.
Definition SQL_BIGINT : Z := -5.
Definition SQL_TINYINT : Z := -6.
Definition SQL_BIT : Z := -7.
Definition SQL_WCHAR : Z := -8.
Definition SQL_WVARCHAR : Z := -9.
Definition SQL_WLONGVARCHAR : Z := -10.
Definition SQL_GUID : Z := -11.
Definition SQL_TYPE_NULL : Z := 0.
Definition SQL_INTERVAL_YEAR : Z := 101.
Definition SQL_INTERVAL_MONTH : Z := 102.
Definition SQL_INTERVAL_DAY : Z := 103.
Definition SQL_INTERVAL_HOUR : Z := 104.
Definition SQL_INTERVAL_MINUTE : Z := 105.
Definition SQL_INTERVAL_SECOND : Z := 106.
Definition SQL_INTERVAL_YEAR_TO_MONTH : Z := 107.
Definition SQL_INTERVAL_DAY_TO_HOUR : Z := 108.
Definition SQL_INTERVAL_DAY_TO_MINUTE : Z := 109.
Definition SQL_INTERVAL_DAY_TO_SECOND : Z := 110.
Definition SQL_INTERVAL_HOUR_TO_MINUTE : Z := 111.
Definition SQL_INTERVAL_HOUR_TO_SECOND : Z := 112.
Definition SQL_INTERVAL_MINUTE_TO_SECOND : Z := 113.

(** ODBC application (C) types. *)
Definition SQL_C_CHAR : Z := 1.
Definition SQL_C_WCHAR : Z := -8.
Definition SQL_C_SSHORT : Z := -15.
Definition SQL_C_SHORT : Z := 5.
Definition SQL_C_USHORT : Z := -17.
Definition SQL_C_SLONG : Z := -16.
Definition SQL_C_LONG : Z := 4.
Definition SQL_C_ULONG : Z := -18.
Definition SQL_C_FLOAT : Z := 7.
Definition SQL_C_DOUBLE : Z := 8.
Definition SQL_C_BIT : Z := -7.
Definition SQL_C_STINYINT : Z := -26.
Definition SQL_C_TINYINT : Z := -6.
Definition SQL_C_UTINYINT : Z := -28.
Definition SQL_C_SBIGINT : Z := -25.
Definition SQL_C_UBIGINT : Z := -27.
Definition SQL_C_BINARY : Z := -2.
Definition SQL_C_DATE : Z := 9.
Definition SQL_C_TIME : Z := 10.
Definition SQL_C_TIMESTAMP : Z := 11.
Definition SQL_C_TYPE_DATE : Z := 91.
Definition SQL_C_TYPE_TIME : Z := 92.
Definition SQL_C_TYPE_TIMESTAMP : Z := 93.
Definition SQL_C_NUMERIC : Z := 2.
Definition SQL_C_GUID : Z := -11.
Definition SQL_C_DEFAULT : Z := 99.

(** Nullability. *)
Definition SQL_NO_NULLS : Z := 0.
Definition SQL_NULLABLE : Z := 1.
Definition SQL_NULLABLE_UNKNOWN : Z := 2.

(** JDBC types. *)
Definition JDBC_TYPE_BIT : Z := -7.
Definition JDBC_TYPE_TINYINT : Z := -6.
Definition JDBC_TYPE_SMALLINT : Z := 5.
Definition JDBC_TYPE_INTEGER : Z := 4.
Definition JDBC_TYPE_BIGINT : Z := -5.
Definition JDBC_TYPE_FLOAT : Z := 6.
Definition JDBC_TYPE_REAL : Z := 7.
Definition JDBC_TYPE_DOUBLE : Z := 8.
Definition JDBC_TYPE_NUMERIC : Z := 2.
Definition JDBC_TYPE_DECIMAL : Z := 3.
Definition JDBC_TYPE_CHAR : Z := 1.
Definition JDBC_TYPE_VARCHAR : Z := 12.
Definition JDBC_TYPE_LONGVARCHAR : Z := -1.
Definition JDBC_TYPE_DATE : Z := 91.
Definition JDBC_TYPE_TIME : Z := 92.
Definition JDBC_TYPE_TIMESTAMP : Z := 93.
Definition JDBC_TYPE_BINARY : Z := -2.
Definition JDBC_TYPE_VARBINARY : Z := -3.
Definition JDBC_TYPE_LONGVARBINARY : Z := -4.
Definition JDBC_TYPE_BLOB : Z := 2004.
Definition JDBC_TYPE_CLOB : Z := 2005.
Definition JDBC_TYPE_BOOLEAN : Z := 16.
Definition JDBC_TYPE_ARRAY : Z := 2003.
Definition JDBC_TYPE_STRUCT : Z := 2002.
Definition JDBC_TYPE_JAVA_OBJECT : Z := 2000.
Definition JDBC_TYPE_ROWID : Z := -8.
Definition JDBC_TYPE_NCHAR : Z := -15.
Definition JDBC_TYPE_NVARCHAR : Z := -9.
Definition JDBC_TYPE_LONGNVARCHAR : Z := -16.
Definition JDBC_TYPE_NCLOB : Z := 2011.
Definition JDBC_TYPE_SQLXML : Z := 2009.
Definition JDBC_TYPE_REF_CURSOR : Z := 2012.
Definition JDBC_TYPE_NULL : Z := 0.

Definition DOCUMENTDB_SQL_MAX_LENGTH : Z := 65532.

(** [OdbcNativeType::Type]. *)
Inductive OdbcNativeType : Type :=
| AI_CHAR | AI_WCHAR | AI_SIGNED_SHORT | AI_UNSIGNED_SHORT | AI_SIGNED_LONG | AI_UNSIGNED_LONG
| AI_FLOAT | AI_DOUBLE | AI_BIT | AI_SIGNED_TINYINT | AI_UNSIGNED_TINYINT | AI_SIGNED_BIGINT
| AI_UNSIGNED_BIGINT | AI_BINARY | AI_TDATE | AI_TTIME | AI_TTIMESTAMP | AI_NUMERIC | AI_GUID
| AI_DEFAULT | AI_UNSUPPORTED.

#[export] Instance OdbcNativeType_eq_dec : EqDecision OdbcNativeType.
Proof. solve_decision. Defined.

(** [SqlTypeName]. *)
Definition SqlTypeName_SMALLINT : string := "SMALLINT".
Definition SqlTypeName_INTEGER : string := "INTEGER".
Definition SqlTypeName_DECIMAL : string := "DECIMAL".
Definition SqlTypeName_FLOAT : string := "FLOAT".
Definition SqlTypeName_REAL : string := "REAL".
Definition SqlTypeName_DOUBLE : string := "DOUBLE".
Definition SqlTypeName_NUMERIC : string := "NUMERIC".
Definition SqlTypeName_BIT : string := "BIT".
Definition SqlTypeName_TINYINT : string := "TINYINT".
Definition SqlTypeName_BIGINT : string := "BIGINT".
Definition SqlTypeName_CHAR : string := "CHAR".
Definition SqlTypeName_VARCHAR : string := "VARCHAR".
Definition SqlTypeName_LONGVARCHAR : string := "LONGVARCHAR".
Definition SqlTypeName_NCHAR : string := "NCHAR".
Definition SqlTypeName_NVARCHAR : string := "NVARCHAR".
Definition SqlTypeName_LONGNVARCHAR : string := "LONGNVARCHAR".
Definition SqlTypeName_BINARY : string := "BINARY".
Definition SqlTypeName_VARBINARY : string := "VARBINARY".
Definition SqlTypeName_LONGVARBINARY : string := "LONGVARBINARY".
Definition SqlTypeName_DATE : string := "DATE".
Definition SqlTypeName_TIMESTAMP : string := "TIMESTAMP".
Definition SqlTypeName_TIME : string := "TIME".
Definition SqlTypeName_GUID : string := "GUID".
Definition SqlTypeName_SQL_NULL : string := "NULL".

(** * Operations *)

Definition BinaryTypeToSqlTypeName (binaryType : option Z) : option string :=
  match binaryType with
  | None => None
  | Some t =>
      switch t
        [ ([JDBC_TYPE_BIT; JDBC_TYPE_BOOLEAN], Some SqlTypeName_BIT)
        ; ([JDBC_TYPE_SMALLINT], Some SqlTypeName_SMALLINT)
        ; ([JDBC_TYPE_TINYINT], Some SqlTypeName_TINYINT)
        ; ([JDBC_TYPE_INTEGER], Some SqlTypeName_INTEGER)
        ; ([JDBC_TYPE_BIGINT], Some SqlTypeName_BIGINT)
        ; ([JDBC_TYPE_FLOAT], Some SqlTypeName_FLOAT)
        ; ([JDBC_TYPE_REAL], Some SqlTypeName_REAL)
        ; ([JDBC_TYPE_DOUBLE], Some SqlTypeName_DOUBLE)
        ; ([JDBC_TYPE_NUMERIC], Some SqlTypeName_NUMERIC)
        ; ([JDBC_TYPE_DECIMAL], Some SqlTypeName_DECIMAL)
        ; ([JDBC_TYPE_CHAR], Some SqlTypeName_CHAR)
        ; ([JDBC_TYPE_NCHAR], Some SqlTypeName_NCHAR)
        ; ([JDBC_TYPE_VARCHAR], Some SqlTypeName_VARCHAR)
        ; ([JDBC_TYPE_NVARCHAR], Some SqlTypeName_NVARCHAR)
        ; ([JDBC_TYPE_LONGVARCHAR], Some SqlTypeName_LONGVARCHAR)
        ; ([JDBC_TYPE_LONGNVARCHAR], Some SqlTypeName_LONGNVARCHAR)
        ; ([JDBC_TYPE_DATE], Some SqlTypeName_DATE)
        ; ([JDBC_TYPE_TIME], Some SqlTypeName_TIME)
        ; ([JDBC_TYPE_TIMESTAMP], Some SqlTypeName_TIMESTAMP)
        ; ([JDBC_TYPE_LONGVARBINARY], Some SqlTypeName_LONGVARBINARY)
        ; ([JDBC_TYPE_NULL], Some SqlTypeName_SQL_NULL)
        ; ([JDBC_TYPE_VARBINARY], Some SqlTypeName_VARBINARY) ]
        (Some SqlTypeName_BINARY)
  end.

Definition ToDriverType (t : Z) : OdbcNativeType :=
  switch t
    [ ([SQL_C_CHAR], AI_CHAR)
    ; ([SQL_C_WCHAR], AI_WCHAR)
    ; ([SQL_C_SSHORT; SQL_C_SHORT], AI_SIGNED_SHORT)
    ; ([SQL_C_USHORT], AI_UNSIGNED_SHORT)
    ; ([SQL_C_SLONG; SQL_C_LONG], AI_SIGNED_LONG)
    ; ([SQL_C_ULONG], AI_UNSIGNED_LONG)
    ; ([SQL_C_FLOAT], AI_FLOAT)
    ; ([SQL_C_DOUBLE], AI_DOUBLE)
    ; ([SQL_C_BIT], AI_BIT)
    ; ([SQL_C_STINYINT; SQL_C_TINYINT], AI_SIGNED_TINYINT)
    ; ([SQL_C_UTINYINT], AI_UNSIGNED_TINYINT)
    ; ([SQL_C_SBIGINT], AI_SIGNED_BIGINT)
    ; ([SQL_C_UBIGINT], AI_UNSIGNED_BIGINT)
    ; ([SQL_C_BINARY], AI_BINARY)
    ; ([SQL_C_DATE; SQL_C_TYPE_DATE], AI_TDATE)
    ; ([SQL_C_TIME; SQL_C_TYPE_TIME], AI_TTIME)
    ; ([SQL_C_TIMESTAMP; SQL_C_TYPE_TIMESTAMP], AI_TTIMESTAMP)
    ; ([SQL_C_NUMERIC], AI_NUMERIC)
    ; ([SQL_C_GUID], AI_GUID)
    ; ([SQL_C_DEFAULT], AI_DEFAULT) ]
    AI_UNSUPPORTED.

Definition IsApplicationTypeSupported (type : option Z) : bool :=
  match type with
  | Some t => negb (bool_decide (ToDriverType t = AI_UNSUPPORTED))
  | None => false
  end.

Definition IsSqlTypeSupported (type : option Z) : bool :=
  match type with
  | None => false
  | Some t =>
      switch t
        [ ([SQL_BIT; SQL_TINYINT; SQL_SMALLINT; SQL_BIGINT; SQL_INTEGER; SQL_FLOAT; SQL_REAL;
             SQL_DOUBLE; SQL_NUMERIC; SQL_DECIMAL; SQL_CHAR; SQL_VARCHAR; SQL_LONGVARCHAR; SQL_WCHAR;
             SQL_WVARCHAR; SQL_WLONGVARCHAR; SQL_TYPE_DATE; SQL_TYPE_TIMESTAMP; SQL_TYPE_TIME;
             SQL_BINARY; SQL_VARBINARY; SQL_LONGVARBINARY; SQL_TYPE_NULL], true) ]
        false
  end.

Definition SqlTypeToBinary (sqlType : option Z) : option Z :=
  match sqlType with
  | None => None
  | Some t =>
      switch t
        [ ([SQL_BIT], Some JDBC_TYPE_BOOLEAN)
        ; ([SQL_TINYINT], Some JDBC_TYPE_TINYINT)
        ; ([SQL_SMALLINT], Some JDBC_TYPE_SMALLINT)
        ; ([SQL_INTEGER], Some JDBC_TYPE_INTEGER)
        ; ([SQL_BIGINT], Some JDBC_TYPE_BIGINT)
        ; ([SQL_FLOAT], Some JDBC_TYPE_FLOAT)
        ; ([SQL_REAL], Some JDBC_TYPE_REAL)
        ; ([SQL_DOUBLE], Some JDBC_TYPE_DOUBLE)
        ; ([SQL_NUMERIC], Some JDBC_TYPE_NUMERIC)
        ; ([SQL_DECIMAL], Some JDBC_TYPE_DECIMAL)
        ; ([SQL_CHAR; SQL_WCHAR], Some JDBC_TYPE_CHAR)
        ; ([SQL_VARCHAR; SQL_WVARCHAR], Some JDBC_TYPE_VARCHAR)
        ; ([SQL_LONGVARCHAR; SQL_WLONGVARCHAR], Some JDBC_TYPE_LONGVARCHAR)
        ; ([SQL_TYPE_DATE], Some JDBC_TYPE_DATE)
        ; ([SQL_TYPE_TIME], Some JDBC_TYPE_TIME)
        ; ([SQL_TYPE_TIMESTAMP], Some JDBC_TYPE_TIMESTAMP)
        ; ([SQL_BINARY], Some JDBC_TYPE_BINARY)
        ; ([SQL_VARBINARY], Some JDBC_TYPE_VARBINARY)
        ; ([SQL_LONGVARBINARY], Some JDBC_TYPE_LONGVARBINARY)
        ; ([SQL_TYPE_NULL], Some JDBC_TYPE_NULL) ]
        (Some JDBC_TYPE_BINARY)
  end.

Definition BinaryToSqlType (binaryType : option Z) : option Z :=
  match binaryType with
  | None => None
  | Some t =>
      switch t
        [ ([JDBC_TYPE_BIT; JDBC_TYPE_BOOLEAN], Some SQL_BIT)
        ; ([JDBC_TYPE_TINYINT], Some SQL_TINYINT)
        ; ([JDBC_TYPE_SMALLINT], Some SQL_SMALLINT)
        ; ([JDBC_TYPE_INTEGER], Some SQL_INTEGER)
        ; ([JDBC_TYPE_BIGINT], Some SQL_BIGINT)
        ; ([JDBC_TYPE_FLOAT], Some SQL_FLOAT)
        ; ([JDBC_TYPE_REAL], Some SQL_REAL)
        ; ([JDBC_TYPE_DOUBLE], Some SQL_DOUBLE)
        ; ([JDBC_TYPE_NUMERIC], Some SQL_NUMERIC)
        ; ([JDBC_TYPE_DECIMAL], Some SQL_DECIMAL)
        ; ([JDBC_TYPE_CHAR], Some SQL_CHAR)
        ; ([JDBC_TYPE_NCHAR], Some SQL_WCHAR)
        ; ([JDBC_TYPE_VARCHAR], Some SQL_VARCHAR)
        ; ([JDBC_TYPE_NVARCHAR], Some SQL_WVARCHAR)
        ; ([JDBC_TYPE_LONGVARCHAR], Some SQL_LONGVARCHAR)
        ; ([JDBC_TYPE_LONGNVARCHAR], Some SQL_WLONGVARCHAR)
        ; ([JDBC_TYPE_DATE], Some SQL_TYPE_DATE)
        ; ([JDBC_TYPE_TIME], Some SQL_TYPE_TIME)
        ; ([JDBC_TYPE_TIMESTAMP], Some SQL_TYPE_TIMESTAMP)
        ; ([JDBC_TYPE_LONGVARBINARY], Some SQL_LONGVARBINARY)
        ; ([JDBC_TYPE_NULL], Some SQL_TYPE_NULL)
        ; ([JDBC_TYPE_VARBINARY], Some SQL_VARBINARY) ]
        (Some SQL_BINARY)
  end.

Definition BinaryTypeNullability (_ : Z) : Z := SQL_NULLABLE.

Definition NullabilityToIsNullable (nullability : option Z) : option string :=
  match nullability with
  | None => None
  | Some t =>
      switch t
        [ ([SQL_NO_NULLS], Some "NO")
        ; ([SQL_NULLABLE], Some "YES") ]
        None
  end.

Definition SqlTypeDisplaySize (type : option Z) : option Z :=
  match type with
  | None => None
  | Some t =>
      switch t
        [ ([SQL_VARCHAR; SQL_WVARCHAR; SQL_CHAR; SQL_WCHAR; SQL_LONGVARCHAR; SQL_WLONGVARCHAR;
             SQL_LONGVARBINARY; SQL_BINARY; SQL_VARBINARY; SQL_DECIMAL;
             SQL_NUMERIC], Some DOCUMENTDB_SQL_MAX_LENGTH)
        ; ([SQL_BIT; SQL_TYPE_NULL], Some 1)
        ; ([SQL_TINYINT], Some 4)
        ; ([SQL_SMALLINT], Some 6)
        ; ([SQL_INTEGER], Some 11)
        ; ([SQL_BIGINT], Some 20)
        ; ([SQL_REAL], Some 14)
        ; ([SQL_FLOAT; SQL_DOUBLE], Some 24)
        ; ([SQL_TYPE_DATE], Some 10)
        ; ([SQL_TYPE_TIME], Some 8)
        ; ([SQL_TYPE_TIMESTAMP], Some 19)
        ; ([SQL_GUID], Some 36) ]
        (Some 0)
  end.

Definition BinaryTypeDisplaySize (type : option Z) : option Z :=
  SqlTypeDisplaySize (BinaryToSqlType type).

Definition SqlTypeColumnSize (type : option Z) : option Z :=
  match type with
  | None => None
  | Some t =>
      switch t
        [ ([SQL_VARCHAR; SQL_WVARCHAR; SQL_CHAR; SQL_WCHAR; SQL_LONGVARCHAR; SQL_WLONGVARCHAR;
             SQL_LONGVARBINARY; SQL_BINARY; SQL_VARBINARY; SQL_DECIMAL;
             SQL_NUMERIC], Some DOCUMENTDB_SQL_MAX_LENGTH)
        ; ([SQL_BIT; SQL_TYPE_NULL], Some 1)
        ; ([SQL_TINYINT], Some 3)
        ; ([SQL_SMALLINT], Some 5)
        ; ([SQL_INTEGER], Some 10)
        ; ([SQL_BIGINT], Some 19)
        ; ([SQL_REAL], Some 7)
        ; ([SQL_FLOAT; SQL_DOUBLE], Some 15)
        ; ([SQL_TYPE_DATE], Some 10)
        ; ([SQL_TYPE_TIME], Some 8)
        ; ([SQL_TYPE_TIMESTAMP], Some 19)
        ; ([SQL_GUID], Some 36) ]
        (Some 0)
  end.

Definition BinaryTypeColumnSize (type : option Z) : option Z :=
  SqlTypeColumnSize (BinaryToSqlType type).

Definition SqlTypeTransferLength (type : option Z) : option Z :=
  match type with
  | None => None
  | Some t =>
      switch t
        [ ([SQL_VARCHAR; SQL_WVARCHAR; SQL_CHAR; SQL_WCHAR; SQL_LONGVARCHAR; SQL_WLONGVARCHAR;
             SQL_LONGVARBINARY; SQL_BINARY; SQL_VARBINARY; SQL_DECIMAL;
             SQL_NUMERIC], Some DOCUMENTDB_SQL_MAX_LENGTH)
        ; ([SQL_BIT; SQL_TINYINT; SQL_TYPE_NULL], Some 1)
        ; ([SQL_SMALLINT], Some 2)
        ; ([SQL_INTEGER], Some 4)
        ; ([SQL_BIGINT], Some 8)
        ; ([SQL_FLOAT; SQL_REAL], Some 4)
        ; ([SQL_DOUBLE], Some 8)
        ; ([SQL_TYPE_DATE; SQL_TYPE_TIME], Some 6)
        ; ([SQL_TYPE_TIMESTAMP], Some 16)
        ; ([SQL_GUID], Some 16) ]
        (Some 0)
  end.

Definition BinaryTypeTransferLength (type : option Z) : option Z :=
  SqlTypeTransferLength (BinaryToSqlType type).

Definition SqlTypeNumPrecRadix (type : option Z) : option Z :=
  match type with
  | None => None
  | Some t =>
      switch t
        [ ([SQL_REAL; SQL_FLOAT; SQL_DOUBLE], Some 2)
        ; ([SQL_BIT; SQL_TINYINT; SQL_SMALLINT; SQL_INTEGER; SQL_BIGINT], Some 10) ]
        (Some 0)
  end.

Definition BinaryTypeNumPrecRadix (type : option Z) : option Z :=
  SqlTypeNumPrecRadix (BinaryToSqlType type).

Definition SqlTypeDecimalDigits (type : option Z) : option Z :=
  match type with
  | None => None
  | Some t =>
      switch t
        [ ([SQL_TINYINT; SQL_SMALLINT; SQL_INTEGER; SQL_BIGINT], Some 0) ]
        (Some (-1))
  end.

Definition BinaryTypeDecimalDigits (type : option Z) : option Z :=
  SqlTypeDecimalDigits (BinaryToSqlType type).

Definition SqlTypeCharOctetLength (sizeof_SQLWCHAR : Z) (type : option Z) : option Z :=
  match type with
  | None => None
  | Some t =>
      switch t
        [ ([SQL_CHAR; SQL_VARCHAR; SQL_LONGVARCHAR; SQL_BINARY;
             SQL_LONGVARBINARY], Some DOCUMENTDB_SQL_MAX_LENGTH)
        ; ([SQL_WCHAR; SQL_WVARCHAR;
             SQL_WLONGVARCHAR], Some (sizeof_SQLWCHAR * DOCUMENTDB_SQL_MAX_LENGTH)) ]
        (Some 0)
  end.

Definition BinaryTypeCharOctetLength (sizeof_SQLWCHAR : Z) (type : option Z) : option Z :=
  SqlTypeCharOctetLength sizeof_SQLWCHAR (BinaryToSqlType type).

Definition SqlTypeUnsigned (type : option Z) : bool :=
  match type with
  | None => false
  | Some t =>
      switch t
        [ ([SQL_BIT; SQL_TINYINT; SQL_SMALLINT; SQL_INTEGER; SQL_BIGINT; SQL_REAL; SQL_FLOAT;
             SQL_DOUBLE; SQL_DECIMAL; SQL_NUMERIC], false) ]
        true
  end.

Definition BinaryTypeUnsigned (type : option Z) : bool :=
  SqlTypeUnsigned (BinaryToSqlType type).

(** [os << v] for a signed integer. *)
Definition print_int (v : Z) : list ascii :=
  (if v <? 0 then ["-"%char] else []) ++ print_u64 (Z.abs v).

(** * Switches *)

Lemma switch_default {A} t (cases : list (list Z * A)) d :
  t ∉ concat (map fst cases) -> switch t cases d = d.
Proof.
  induction cases as [|[ls v] cases IH]; [done|]. cbn [map concat fst switch]. intros Hn.
  apply not_elem_of_app in Hn as [Hl Hn]. rewrite bool_decide_false by done. by apply IH.
Qed.

(** Membership in one list of codes that implies membership in another. *)
Lemma codes_incl (l m : list Z) t : bool_decide (Forall (fun x => x ∈ m) l) = true -> t ∈ l -> t ∈ m.
Proof. rewrite bool_decide_eq_true, Forall_forall. auto. Qed.

(** The JDBC codes that some switch names. *)
Definition jdbc_types : list Z :=
  [JDBC_TYPE_BIT; JDBC_TYPE_BOOLEAN; JDBC_TYPE_TINYINT; JDBC_TYPE_SMALLINT; JDBC_TYPE_INTEGER;
   JDBC_TYPE_BIGINT; JDBC_TYPE_FLOAT; JDBC_TYPE_REAL; JDBC_TYPE_DOUBLE; JDBC_TYPE_NUMERIC;
   JDBC_TYPE_DECIMAL; JDBC_TYPE_CHAR; JDBC_TYPE_NCHAR; JDBC_TYPE_VARCHAR; JDBC_TYPE_NVARCHAR;
   JDBC_TYPE_LONGVARCHAR; JDBC_TYPE_LONGNVARCHAR; JDBC_TYPE_DATE; JDBC_TYPE_TIME;
   JDBC_TYPE_TIMESTAMP; JDBC_TYPE_LONGVARBINARY; JDBC_TYPE_NULL; JDBC_TYPE_VARBINARY;
   JDBC_TYPE_BINARY].

(** The SQL types the driver supports. *)
Definition supported_sql_types : list Z :=
  [SQL_BIT; SQL_TINYINT; SQL_SMALLINT; SQL_BIGINT; SQL_INTEGER; SQL_FLOAT; SQL_REAL; SQL_DOUBLE;
   SQL_NUMERIC; SQL_DECIMAL; SQL_CHAR; SQL_VARCHAR; SQL_LONGVARCHAR; SQL_WCHAR; SQL_WVARCHAR;
   SQL_WLONGVARCHAR; SQL_TYPE_DATE; SQL_TYPE_TIMESTAMP; SQL_TYPE_TIME; SQL_BINARY; SQL_VARBINARY;
   SQL_LONGVARBINARY; SQL_TYPE_NULL].

Lemma supported_iff t : IsSqlTypeSupported (Some t) = true <-> t ∈ supported_sql_types.
Proof.
  unfold IsSqlTypeSupported. cbn [switch]. fold supported_sql_types. case_bool_decide; done.
Qed.

(** Any other JDBC code is treated as [BINARY]. *)
Lemma unknown_jdbc t :
  t ∉ jdbc_types ->
  BinaryToSqlType (Some t) = BinaryToSqlType (Some JDBC_TYPE_BINARY)
  /\ BinaryTypeToSqlTypeName (Some t) = BinaryTypeToSqlTypeName (Some JDBC_TYPE_BINARY).
Proof.
  intros Hn. split; [transitivity (Some SQL_BINARY)|transitivity (Some SqlTypeName_BINARY)];
    try reflexivity; apply switch_default; intros Hin; apply Hn; revert Hin;
    apply codes_incl; vm_compute; reflexivity.
Qed.

(** A statement on all JDBC codes follows from the codes the switches name. *)
Lemma jdbc_ind (P : option Z -> option string -> Prop) :
  Forall (fun t => P (BinaryToSqlType (Some t)) (BinaryTypeToSqlTypeName (Some t))) jdbc_types ->
  forall t, P (BinaryToSqlType (Some t)) (BinaryTypeToSqlTypeName (Some t)).
Proof.
  rewrite Forall_forall. intros H t. destruct (decide (t ∈ jdbc_types)) as [Hin|Hn]; [by apply H|].
  destruct (unknown_jdbc t Hn) as [-> ->]. apply H.
  apply (bool_decide_unpack _). vm_compute. exact I.
Qed.

(** The SQL type the driver reports back for a wide character type is the narrow one. *)
Definition narrow_type (t : Z) : Z :=
  switch t [ ([SQL_WCHAR], SQL_CHAR); ([SQL_WVARCHAR], SQL_VARCHAR)
           ; ([SQL_WLONGVARCHAR], SQL_LONGVARCHAR) ] t.

(** ** Printed integers *)

Lemma print_u64_length n k :
  0 <= n < 10 ^ Z.of_nat k -> (1 <= k <= 20)%nat -> (length (print_u64 n) <= k)%nat.
Proof.
  intros Hn Hk. assert (10 ^ Z.of_nat k <= 10 ^ 20) by (apply Z.pow_le_mono_r; lia).
  apply (numeral_length _ n); [|lia|lia]. apply print_u64_spec. lia.
Qed.

(** The integer types with their widths, column sizes and display sizes. *)
Definition integer_types : list (Z * Z) :=
  [(SQL_TINYINT, 8); (SQL_SMALLINT, 16); (SQL_INTEGER, 32); (SQL_BIGINT, 64)].

Lemma print_int_length v w k :
  inS w v -> 2 ^ (w - 1) < 10 ^ Z.of_nat k -> (1 <= k <= 20)%nat ->
  (length (print_int v) <= S k)%nat.
Proof.
  intros Hv Hw Hk. unfold inS in Hv. pose proof (print_u64_length (Z.abs v) k).
  unfold print_int. rewrite length_app. destruct (v <? 0); simpl; lia.
Qed.

(** * Properties *)

(** The type codes are consistent.  Every JDBC code, known or not, maps to a
    supported SQL type; a supported SQL type survives the way to the JDBC code
    and back, a wide character type as its narrow one; and two JDBC codes have the same
    SQL type name exactly when they have the same SQL type. *)
Theorem type_codes_consistent :
  (forall b, IsSqlTypeSupported (BinaryToSqlType (Some b)) = true)
  /\ (forall t, IsSqlTypeSupported (Some t) = true ->
        BinaryToSqlType (SqlTypeToBinary (Some t)) = Some (narrow_type t))
  /\ (forall a b, BinaryToSqlType (Some a) = BinaryToSqlType (Some b)
        <-> BinaryTypeToSqlTypeName (Some a) = BinaryTypeToSqlTypeName (Some b)).
Proof.
  split; [|split].
  - apply (jdbc_ind (fun s _ => IsSqlTypeSupported s = true)).
    apply (bool_decide_unpack _). vm_compute. exact I.
  - intros t Ht. apply supported_iff in Ht. revert t Ht. apply Forall_forall.
    apply (bool_decide_unpack _). vm_compute. exact I.
  - intros a. apply (jdbc_ind (fun s n => forall b, s = BinaryToSqlType (Some b)
      <-> n = BinaryTypeToSqlTypeName (Some b))).
    assert (forall b, Forall (fun t => BinaryToSqlType (Some t) = BinaryToSqlType (Some b)
      <-> BinaryTypeToSqlTypeName (Some t) = BinaryTypeToSqlTypeName (Some b)) jdbc_types) as H.
    { apply (jdbc_ind (fun s n => Forall (fun t => BinaryToSqlType (Some t) = s
        <-> BinaryTypeToSqlTypeName (Some t) = n) jdbc_types)).
      apply (bool_decide_unpack _). vm_compute. exact I. }
    apply Forall_forall. intros t Ht b. specialize (H b). rewrite Forall_forall in H. by apply H.
Qed.

(** The sizes reported for a column are usable: for every JDBC code the column
    size, the display size and the transfer length are positive, and the display
    size is at least the column size. *)
Theorem column_sizes_positive b :
  exists d c l, BinaryTypeDisplaySize (Some b) = Some d /\ BinaryTypeColumnSize (Some b) = Some c
    /\ BinaryTypeTransferLength (Some b) = Some l /\ 0 < c <= d /\ 0 < l.
Proof.
  unfold BinaryTypeDisplaySize, BinaryTypeColumnSize, BinaryTypeTransferLength.
  apply (jdbc_ind (fun s _ => exists d c l, SqlTypeDisplaySize s = Some d
    /\ SqlTypeColumnSize s = Some c /\ SqlTypeTransferLength s = Some l /\ 0 < c <= d /\ 0 < l)).
  repeat (apply Forall_cons; split; [do 3 eexists; repeat split; vm_compute; congruence|]).
  constructor.
Qed.

(** The sizes of the integer types are exact: the decimal text of every value of
    the type has at most as many characters as the display size and at most as
    many digits as the column size, and some value needs them all; the transfer
    length is the width in bytes. *)
Theorem integer_sizes_exact t w :
  (t, w) ∈ integer_types ->
  exists d c, SqlTypeDisplaySize (Some t) = Some d /\ SqlTypeColumnSize (Some t) = Some c
    /\ SqlTypeTransferLength (Some t) = Some (w / 8)
    /\ (forall v, inS w v -> Z.of_nat (length (print_int v)) <= d
                  /\ Z.of_nat (length (print_u64 (Z.abs v))) <= c)
    /\ Z.of_nat (length (print_int (- 2 ^ (w - 1)))) = d
    /\ Z.of_nat (length (print_int (2 ^ (w - 1) - 1))) = c.
Proof.
  intros Hin.
  assert (exists k : nat, (1 <= k <= 20)%nat /\ 2 ^ (w - 1) < 10 ^ Z.of_nat k
    /\ SqlTypeDisplaySize (Some t) = Some (Z.of_nat (S k))
    /\ SqlTypeColumnSize (Some t) = Some (Z.of_nat k)
    /\ SqlTypeTransferLength (Some t) = Some (w / 8)
    /\ Z.of_nat (length (print_int (- 2 ^ (w - 1)))) = Z.of_nat (S k)
    /\ Z.of_nat (length (print_int (2 ^ (w - 1) - 1))) = Z.of_nat k) as (k & Hk & Hw & -> & -> & Hrest).
  { unfold integer_types in Hin. repeat (apply elem_of_cons in Hin as [[= -> ->]|Hin]);
      [exists 3%nat|exists 5%nat|exists 10%nat|exists 19%nat|by apply elem_of_nil in Hin];
      (split; [lia|]); repeat split; vm_compute; reflexivity. }
  exists (Z.of_nat (S k)), (Z.of_nat k). destruct Hrest as (Ht & Hlo & Hhi).
  split; [done|]. split; [done|]. split; [done|]. split; [|done].
  intros v Hv. pose proof (print_int_length v w k Hv Hw Hk).
  pose proof (print_u64_length (Z.abs v) k). unfold inS in Hv. lia.
Qed.

Lemma integer_sizes_exact_witness :
  exists d c, SqlTypeDisplaySize (Some SQL_BIGINT) = Some d /\ SqlTypeColumnSize (Some SQL_BIGINT) = Some c
    /\ SqlTypeTransferLength (Some SQL_BIGINT) = Some (64 / 8)
    /\ (forall v, inS 64 v -> Z.of_nat (length (print_int v)) <= d
                  /\ Z.of_nat (length (print_u64 (Z.abs v))) <= c)
    /\ Z.of_nat (length (print_int (- 2 ^ (64 - 1)))) = d
    /\ Z.of_nat (length (print_int (2 ^ (64 - 1) - 1))) = c.
Proof. apply (integer_sizes_exact SQL_BIGINT 64). apply (bool_decide_unpack _). vm_compute. exact I. Defined.
