(* ===== verification/Chrono.v ===== *)
(** Dates, times, timestamps and GUIDs: [date.cpp], [time.cpp], [timestamp.cpp],
    [guid.cpp] of [src/src/odbc/src/] and the calendar conversions of
    [common/utils.h] and [common/utils.cpp].

    The calendar itself comes from Boost ([platform_utils.cpp] calls
    [boost::posix_time]); the class [Calendar] names the two conversions the
    driver uses and [CalendarLaws] what it relies on.  [Gregorian] is a concrete
    calendar that satisfies the laws. *)
From S2P Require Import Prelude.

(** [struct tm], the fields the driver uses. *)
Record Tm : Type := MkTm {
  tm_year : Z;   (* since 1900 *)
  tm_mon : Z;    (* from 0 *)
  tm_mday : Z;
  tm_hour : Z;
  tm_min : Z;
  tm_sec : Z
}.

#[export] Instance Tm_eq_dec : EqDecision Tm.
Proof. solve_decision. Defined.

Definition tm_zero : Tm := MkTm 0 0 0 0 0 0.

Definition clock (tm : Tm) : Z := tm_hour tm * 3600 + tm_min tm * 60 + tm_sec tm.

(** The same day at another time. *)
Definition at_clock (tm : Tm) (h mi s : Z) : Tm :=
  MkTm (tm_year tm) (tm_mon tm) (tm_mday tm) h mi s.

Definition clock_valid (h mi s : Z) : Prop := 0 <= h < 24 /\ 0 <= mi < 60 /\ 0 <= s < 60.

(** The field ranges of [struct tm] for the years 1400 to 9999 that Boost supports. *)
Definition tm_ranges (tm : Tm) : Prop :=
  -500 <= tm_year tm <= 8099 /\ 0 <= tm_mon tm <= 11 /\ 1 <= tm_mday tm <= 31
  /\ clock_valid (tm_hour tm) (tm_min tm) (tm_sec tm).

(** The conversions of [common/platform_utils.h]; [ToTimeGm] throws on a date that
    does not exist. *)
Class Calendar : Type := {
  ToGmTime : Z -> Tm;
  ToTimeGm : Tm -> option Z
}.

(** 1400-01-01 and 10000-01-01 in seconds since 1970. *)
Definition calendar_start : Z := -17987443200.
Definition calendar_stop : Z := 253402300800.
Definition in_calendar (t : Z) : Prop := calendar_start <= t < calendar_stop.

Class CalendarLaws `{Calendar} : Prop := {
  gm_ranges t : in_calendar t -> tm_ranges (ToGmTime t);
  gm_roundtrip t : in_calendar t -> ToTimeGm (ToGmTime t) = Some t;
  gm_clock t h mi s : in_calendar t -> clock_valid h mi s ->
    ToTimeGm (at_clock (ToGmTime t) h mi s) = Some (t - t mod 86400 + (h * 3600 + mi * 60 + s));
  gm_time_of_day t : in_calendar t -> clock (ToGmTime t) = t mod 86400;
  gm_epoch_day t : 0 <= t < 86400 ->
    tm_year (ToGmTime t) = 70 /\ tm_mon (ToGmTime t) = 0 /\ tm_mday (ToGmTime t) = 1
}.

(** * Date, Time and Timestamp *)

(** [Date] and [Time] hold milliseconds. *)
Record Date : Type := MkDate { date_ms : Z }.
Record Time : Type := MkTime { time_ms : Z }.
Record Timestamp : Type := MkTimestamp { seconds : Z; fractionNs : Z }.

#[export] Instance Date_eq_dec : EqDecision Date.
Proof. solve_decision. Defined.
#[export] Instance Time_eq_dec : EqDecision Time.
Proof. solve_decision. Defined.
#[export] Instance Timestamp_eq_dec : EqDecision Timestamp.
Proof. solve_decision. Defined.

Definition date_GetSeconds (d : Date) : Z := Z.quot (date_ms d) 1000.
Definition time_GetSeconds (t : Time) : Z := Z.quot (time_ms t) 1000.

Definition date_eq (a b : Date) : bool := date_ms a =? date_ms b.
Definition date_ne (a b : Date) : bool := negb (date_ms a =? date_ms b).
Definition date_lt (a b : Date) : bool := date_ms a <? date_ms b.
Definition date_le (a b : Date) : bool := date_ms a <=? date_ms b.
Definition date_gt (a b : Date) : bool := date_ms b <? date_ms a.
Definition date_ge (a b : Date) : bool := date_ms b <=? date_ms a.

Definition time_eq (a b : Time) : bool := time_ms a =? time_ms b.
Definition time_ne (a b : Time) : bool := negb (time_ms a =? time_ms b).
Definition time_lt (a b : Time) : bool := time_ms a <? time_ms b.
Definition time_le (a b : Time) : bool := time_ms a <=? time_ms b.
Definition time_gt (a b : Time) : bool := time_ms b <? time_ms a.
Definition time_ge (a b : Time) : bool := time_ms b <=? time_ms a.

(** [Timestamp(int64_t ms)]: C++ division truncates. *)
Definition timestamp_of_ms (ms : Z) : Timestamp :=
  MkTimestamp (Z.quot ms 1000) (i32 (Z.rem ms 1000 * 1000000)).

Definition GetMilliseconds (t : Timestamp) : outcome Z Z :=
  let* s := checked 64 (seconds t * 1000) in
  checked 64 (s + Z.quot (fractionNs t) 1000000).

Definition timestamp_GetDate (t : Timestamp) : outcome Z Date :=
  let* ms := GetMilliseconds t in Ok (MkDate ms).

Definition ts_eq (a b : Timestamp) : bool :=
  (seconds a =? seconds b) && (fractionNs a =? fractionNs b).
Definition ts_ne (a b : Timestamp) : bool :=
  negb (seconds a =? seconds b) || negb (fractionNs a =? fractionNs b).
Definition ts_lt (a b : Timestamp) : bool :=
  (seconds a <? seconds b) || ((seconds a =? seconds b) && (fractionNs a <? fractionNs b)).
Definition ts_le (a b : Timestamp) : bool :=
  (seconds a <? seconds b) || ((seconds a =? seconds b) && (fractionNs a <=? fractionNs b)).
Definition ts_gt (a b : Timestamp) : bool :=
  (seconds b <? seconds a) || ((seconds a =? seconds b) && (fractionNs b <? fractionNs a)).
Definition ts_ge (a b : Timestamp) : bool :=
  (seconds b <? seconds a) || ((seconds a =? seconds b) && (fractionNs b <=? fractionNs a)).

(** * Conversions of common/utils.h *)

Definition DateToCTime (d : Date) : Z := date_GetSeconds d.
Definition TimestampToCTime (t : Timestamp) : Z := seconds t.
Definition TimeToCTime (t : Time) : Z := time_GetSeconds t.

(** What an exception of the calendar turns into. *)
Definition bad_calendar_day : Z := -1.

Definition CTimeToDate (t : Z) : outcome Z Date := let* ms := checked 64 (t * 1000) in Ok (MkDate ms).
Definition CTimeToTime (t : Z) : outcome Z Time := let* ms := checked 64 (t * 1000) in Ok (MkTime ms).
Definition CTimeToTimestamp (t ns : Z) : Timestamp := MkTimestamp t ns.

Section conversions.
Context `{Calendar}.

Definition to_time_gm (tm : Tm) : outcome Z Z :=
  match ToTimeGm tm with
  | Some t => Ok t
  | None => Throw bad_calendar_day
  end.

Definition DateToCTm (d : Date) : Tm := ToGmTime (DateToCTime d).
Definition TimestampToCTm (t : Timestamp) : Tm := ToGmTime (TimestampToCTime t).
Definition TimeToCTm (t : Time) : Tm := ToGmTime (TimeToCTime t).

Definition CTmToDate (tm : Tm) : outcome Z Date := let* t := to_time_gm tm in CTimeToDate t.
Definition CTmToTime (tm : Tm) : outcome Z Time := let* t := to_time_gm tm in CTimeToTime t.
Definition CTmToTimestamp (tm : Tm) (ns : Z) : outcome Z Timestamp :=
  let* t := to_time_gm tm in Ok (CTimeToTimestamp t ns).

Definition MakeDateGmt (year month day hour min sec : Z) : outcome Z Date :=
  CTmToDate (MkTm (year - 1900) (month - 1) day hour min sec).

Definition MakeTimeGmt (hour min sec : Z) : outcome Z Time :=
  CTmToTime (MkTm 70 0 1 hour min sec).

Definition MakeTimestampGmt (year month day hour min sec ns : Z) : outcome Z Timestamp :=
  CTmToTimestamp (MkTm (year - 1900) (month - 1) day hour min sec) (i32 ns).

End conversions.

(** * GUIDs *)

Record Guid : Type := MkGuid { most : Z; least : Z }.

#[export] Instance Guid_eq_dec : EqDecision Guid.
Proof. solve_decision. Defined.

Definition GetVersion (g : Guid) : Z := i32 (Z.land (most g ≫ 12) 0x0f).

(** The shift count is between 61 and 64; a shift by the full width is undefined. *)
Definition GetVariant (g : Guid) : outcome Z Z :=
  let least0 := u64 (least g) in
  let n := 64 - (least0 ≫ 62) in
  if n <? 64 then Ok (i32 (Z.land (least0 ≫ n) (u64 (least g ≫ 63)))) else UB.

Definition GetHashCode (g : Guid) : Z :=
  let hilo := Z.lxor (most g) (least g) in
  Z.lxor (i32 (hilo ≫ 32)) (i32 hilo).

Definition guid_Compare (g other : Guid) : outcome Z Z :=
  if most g =? most other then checked 64 (least g - least other)
  else checked 64 (most g - most other).

Definition guid_test (p : Z -> bool) (a b : Guid) : outcome Z bool :=
  let* c := guid_Compare a b in Ok (p c).
Definition guid_eq := guid_test (fun c => c =? 0).
Definition guid_ne := guid_test (fun c => negb (c =? 0)).
Definition guid_lt := guid_test (fun c => c <? 0).
Definition guid_le := guid_test (fun c => c <=? 0).
Definition guid_gt := guid_test (fun c => 0 <? c).
Definition guid_ge := guid_test (fun c => 0 <=? c).

(** * A concrete calendar *)

(** The unit (a year, a month) that day [r] falls into, counting from unit [i]. *)
Fixpoint locate (len : nat -> Z) (fuel i : nat) (r : Z) : nat * Z :=
  match fuel with
  | O => (i, r)
  | S k => if r <? len i then (i, r) else locate len k (S i) (r - len i)
  end.

(** The days before unit [i]. *)
Fixpoint before (len : nat -> Z) (i : nat) : Z :=
  match i with
  | O => 0
  | S k => before len k + len k
  end.

Definition leap (y : Z) : bool := (y mod 4 =? 0) && (negb (y mod 100 =? 0) || (y mod 400 =? 0)).

Definition month_len (y : Z) (m : nat) : Z :=
  match m with
  | 1%nat => if leap y then 29 else 28
  | 3%nat | 5%nat | 8%nat | 10%nat => 30
  | _ => 31
  end.

(** Years count from 1400. *)
Definition year_len (i : nat) : Z := if leap (1400 + Z.of_nat i) then 366 else 365.

(** Up to and including 9999. *)
Definition years : nat := Z.to_nat 8600.

(** 1970-01-01 is day 208188 from 1400-01-01. *)
Definition epoch_day : Z := 208188.

Definition gregorian_fields (t : Z) : Tm :=
  let '(y, yday) := locate year_len years 0 (t / 86400 + epoch_day) in
  let '(m, mday) := locate (month_len (1400 + Z.of_nat y)) 12 0 yday in
  let s := t mod 86400 in
  MkTm (Z.of_nat y - 500) (Z.of_nat m) (mday + 1) (s / 3600) (s / 60 mod 60) (s mod 60).

Definition gregorian_time (tm : Tm) : option Z :=
  let y := Z.to_nat (tm_year tm + 500) in
  let m := Z.to_nat (tm_mon tm) in
  if bool_decide (-500 <= tm_year tm <= 8099 /\ 0 <= tm_mon tm <= 11
      /\ 1 <= tm_mday tm <= month_len (1400 + Z.of_nat y) m)
  then Some ((before year_len y + before (month_len (1400 + Z.of_nat y)) m + tm_mday tm - 1 - epoch_day)
             * 86400 + clock tm)
  else None.

#[export] Instance Gregorian : Calendar :=
  {| ToGmTime := gregorian_fields; ToTimeGm := gregorian_time |}.

Section locate.
Context (len : nat -> Z) (Hpos : forall i, 0 < len i).

Lemma before_mono i j : (i <= j)%nat -> before len i <= before len j.
Proof. induction 1 as [|j Hj IH]; [done|]. cbn [before]. specialize (Hpos j). lia. Qed.

Lemma locate_spec fuel i r :
  0 <= r -> before len i + r < before len (i + fuel) ->
  let '(j, s) := locate len fuel i r in
  before len j + s = before len i + r /\ 0 <= s < len j /\ (i <= j < i + fuel)%nat.
Proof.
  revert i r. induction fuel as [|k IH]; intros i r Hr Hlt; cbn [locate].
  - rewrite Nat.add_0_r in Hlt. lia.
  - destruct (Z.ltb_spec r (len i)) as [Hin|Hout]; [lia|].
    specialize (IH (S i) (r - len i) ltac:(lia)). cbn [before] in IH.
    replace (S i + k)%nat with (i + S k)%nat in IH by lia. specialize (IH ltac:(lia)).
    destruct (locate len k (S i) (r - len i)). lia.
Qed.

End locate.

Lemma month_len_pos y m : 0 < month_len y m.
Proof. unfold month_len. repeat case_match; lia. Qed.

Lemma month_len_max y m : month_len y m <= 31.
Proof. unfold month_len. repeat case_match; lia. Qed.

Lemma year_len_pos i : 0 < year_len i.
Proof. unfold year_len. case_match; lia. Qed.

Lemma year_of_months i : before (month_len (1400 + Z.of_nat i)) 12 = year_len i.
Proof. cbn [before month_len]. unfold year_len. destruct (leap _); lia. Qed.

Lemma all_days : before year_len years = 3141085.
Proof. vm_compute. reflexivity. Qed.

Lemma gregorian_located t :
  in_calendar t ->
  exists y m yday d, locate year_len years 0 (t / 86400 + epoch_day) = (y, yday)
    /\ locate (month_len (1400 + Z.of_nat y)) 12 0 yday = (m, d)
    /\ before year_len y + before (month_len (1400 + Z.of_nat y)) m + d = t / 86400 + epoch_day
    /\ 0 <= d < month_len (1400 + Z.of_nat y) m /\ Z.of_nat y <= 8599 /\ Z.of_nat m <= 11.
Proof.
  unfold in_calendar, calendar_start, calendar_stop. intros Ht.
  pose proof (locate_spec year_len years 0 (t / 86400 + epoch_day)) as Hy.
  pose proof (Z.div_mod t 86400 ltac:(lia)). pose proof (Z.mod_pos_bound t 86400 ltac:(lia)).
  cbn [before Nat.add] in Hy. rewrite all_days in Hy. unfold epoch_day in *.
  specialize (Hy ltac:(lia) ltac:(lia)).
  destruct (locate year_len years 0 (t / 86400 + 208188)) as [y yday].
  destruct Hy as (Hday & Hr & Hyr). unfold years in Hyr.
  pose proof (locate_spec (month_len (1400 + Z.of_nat y)) 12 0 yday) as Hm.
  cbn [Nat.add] in Hm. rewrite year_of_months in Hm. cbn [before] in Hm.
  specialize (Hm ltac:(lia) ltac:(lia)).
  destruct (locate (month_len (1400 + Z.of_nat y)) 12 0 yday) as [m d] eqn:Em.
  destruct Hm as (Hday2 & Hd & Hmr). exists y, m, yday, d. repeat split; try lia; done.
Qed.

Lemma clock_split s : 0 <= s < 86400 ->
  s / 3600 * 3600 + s / 60 mod 60 * 60 + s mod 60 = s /\ clock_valid (s / 3600) (s / 60 mod 60) (s mod 60).
Proof.
  intros Hs. unfold clock_valid.
  pose proof (Z.div_mod s 60 ltac:(lia)). pose proof (Z.mod_pos_bound s 60 ltac:(lia)).
  pose proof (Z.div_mod (s / 60) 60 ltac:(lia)). pose proof (Z.mod_pos_bound (s / 60) 60 ltac:(lia)).
  replace (s / 3600) with (s / 60 / 60) by (rewrite Z.div_div by lia; done). lia.
Qed.

Lemma gregorian_at_clock t h mi s :
  in_calendar t ->
  gregorian_time (at_clock (gregorian_fields t) h mi s)
  = Some (t - t mod 86400 + (h * 3600 + mi * 60 + s)).
Proof.
  intros Ht. destruct (gregorian_located t Ht) as (y & m & yday & d & Hy & Hm & Hday & Hd & Hyr & Hmr).
  unfold gregorian_fields. rewrite Hy, Hm. unfold gregorian_time, at_clock, clock.
  cbn [tm_year tm_mon tm_mday tm_hour tm_min tm_sec].
  replace (Z.to_nat (Z.of_nat y - 500 + 500)) with y by lia. rewrite Nat2Z.id.
  rewrite bool_decide_true by lia. f_equal.
  pose proof (Z.div_mod t 86400 ltac:(lia)). lia.
Qed.

Lemma gregorian_clock t : in_calendar t -> clock (gregorian_fields t) = t mod 86400.
Proof.
  intros Ht. destruct (gregorian_located t Ht) as (y & m & yday & d & Hy & Hm & _).
  unfold gregorian_fields. rewrite Hy, Hm. unfold clock. cbn [tm_hour tm_min tm_sec].
  apply clock_split. apply Z.mod_pos_bound. lia.
Qed.

#[export] Instance Gregorian_laws : CalendarLaws.
Proof.
  split; cbn [ToGmTime ToTimeGm Gregorian].
  - intros t Ht. destruct (gregorian_located t Ht) as (y & m & yday & d & Hy & Hm & _ & Hd & Hyr & Hmr).
    unfold gregorian_fields. rewrite Hy, Hm. unfold tm_ranges.
    cbn [tm_year tm_mon tm_mday tm_hour tm_min tm_sec]. pose proof (month_len_max (1400 + Z.of_nat y) m).
    destruct (clock_split (t mod 86400)) as [_ Hcv]; [apply Z.mod_pos_bound; lia|].
    split; [lia|]. split; [lia|]. split; [lia|done].
  - intros t Ht. pose proof (gregorian_clock t Ht) as Hc.
    pose proof (gregorian_at_clock t (tm_hour (gregorian_fields t)) (tm_min (gregorian_fields t))
      (tm_sec (gregorian_fields t)) Ht) as E. unfold clock in Hc. rewrite Hc in E.
    destruct (gregorian_fields t). unfold at_clock in E. cbn [tm_year tm_mon tm_mday tm_hour tm_min tm_sec] in E.
    rewrite E. f_equal. lia.
  - intros t h mi s Ht _. by apply gregorian_at_clock.
  - apply gregorian_clock.
  - intros t Ht. unfold gregorian_fields. rewrite Z.div_small by done.
    assert (locate year_len years 0 (0 + epoch_day) = (570%nat, 0)) as -> by (vm_compute; reflexivity).
    cbn. done.
Qed.

(** * Properties *)

Section laws.
Context `{CalendarLaws}.

Lemma roundtrip_gm t : in_calendar t -> to_time_gm (ToGmTime t) = Ok t.
Proof. intros Ht. unfold to_time_gm. by rewrite gm_roundtrip. Qed.

End laws.

(** Milliseconds survive the way through a [Timestamp], for every [int64_t];
    but the fraction of a time before 1970 comes out negative, as the division
    truncates, so that -1 ms is second 0 and -1000000 ns. *)
Theorem timestamp_ms_roundtrip :
  (forall ms, inS 64 ms -> GetMilliseconds (timestamp_of_ms ms) = Ok ms)
  /\ timestamp_of_ms (-1) = MkTimestamp 0 (-1000000).
Proof.
  split; [|reflexivity]. intros ms Hms. unfold inS in Hms. change (2 ^ (64 - 1)) with (2 ^ 63) in Hms.
  pose proof (Z.quot_rem' ms 1000) as Hqr.
  assert (-1000 < Z.rem ms 1000 < 1000) as Hrem
    by (pose proof (Z.rem_bound_abs ms 1000 ltac:(lia)); lia).
  unfold GetMilliseconds, timestamp_of_ms. cbn [seconds fractionNs].
  rewrite wrapS_small by (unfold inS; simpl (2 ^ _); lia).
  assert (- 2 ^ 63 <= Z.quot ms 1000 * 1000 < 2 ^ 63).
  { destruct (Z.le_gt_cases 0 ms).
    - pose proof (Z.rem_nonneg ms 1000 ltac:(lia) ltac:(lia)). pose proof (Z.quot_pos ms 1000). lia.
    - pose proof (Z.rem_nonpos ms 1000 ltac:(lia) ltac:(lia)). lia. }
  rewrite checked_ok by (unfold inS; simpl (64 - 1); lia). cbn [obind].
  rewrite Z.quot_mul by lia. rewrite checked_ok; [f_equal; lia|].
  unfold inS. simpl (64 - 1). lia.
Qed.

Lemma timestamp_ms_roundtrip_witness :
  GetMilliseconds (timestamp_of_ms (-62135596800001)) = Ok (-62135596800001).
Proof.
  apply (proj1 timestamp_ms_roundtrip). apply (bool_decide_unpack _). vm_compute. exact I.
Defined.

(** [Guid::Compare] orders by the most, then the least significant half as
    signed numbers, when the halves it subtracts differ by less than 2^63;
    otherwise the subtraction overflows, which is undefined. *)
Theorem guid_Compare_correct g h :
  inS 64 (most g) -> inS 64 (most h) -> inS 64 (least g) -> inS 64 (least h) ->
  let d := if most g =? most h then least g - least h else most g - most h in
  (inS 64 d -> exists c, guid_Compare g h = Ok c
     /\ (c < 0 <-> most g < most h \/ (most g = most h /\ least g < least h))
     /\ (c = 0 <-> g = h))
  /\ (~ inS 64 d -> guid_Compare g h = UB).
Proof.
  intros _ _ _ _ d. unfold guid_Compare, checked.
  assert ((if most g =? most h then if bool_decide (inS 64 (least g - least h))
      then Ok (least g - least h) else UB
    else if bool_decide (inS 64 (most g - most h)) then Ok (most g - most h) else UB)
    = if bool_decide (inS 64 d) then @Ok Z Z d else UB) as ->
    by (unfold d; destruct (most g =? most h); done).
  split; intros Hd; [rewrite bool_decide_true by done|by rewrite bool_decide_false].
  exists d. split; [done|]. destruct g as [a b], h as [a' b']. cbn [most least] in *. unfold d.
  destruct (Z.eqb_spec a a') as [->|Hne]; (split; [lia|]).
  - split; [intros; f_equal; lia|intros [= ->]; lia].
  - split; [lia|intros [= -> ->]; lia].
Qed.

Lemma guid_Compare_correct_witness :
  guid_Compare (MkGuid (2 ^ 62) 0) (MkGuid (- 2 ^ 62 - 1) 0) = UB
  /\ exists c, guid_Compare (MkGuid 5 1) (MkGuid 5 2) = Ok c
     /\ (c < 0 <-> 5 < 5 \/ (5 = 5 /\ 1 < 2)) /\ (c = 0 <-> MkGuid 5 1 = MkGuid 5 2).
Proof.
  split.
  - apply (guid_Compare_correct (MkGuid (2 ^ 62) 0) (MkGuid (- 2 ^ 62 - 1) 0));
      apply (bool_decide_unpack _); vm_compute; exact I.
  - apply (guid_Compare_correct (MkGuid 5 1) (MkGuid 5 2));
      apply (bool_decide_unpack _); vm_compute; exact I.
Defined.
