(* ===== verification/Memory.v ===== *)
(** Byte-addressed memory, as the application's buffers see it.

    A memory maps the addresses of allocated bytes to their contents (0 to 255);
    an access to any other address is undefined.  Integers are stored lowest
    byte first. *)
From S2P Require Import Prelude.

Abbreviation mem := (gmap Z Z).

(** [memcpy(a, bs, size)]; [None] when a byte is not allocated. *)
Fixpoint store (a : Z) (bs : list Z) (m : mem) : option mem :=
  match bs with
  | [] => Some m
  | b :: t =>
      match m !! a with
      | Some _ => store (a + 1) t (<[a := b]> m)
      | None => None
      end
  end.

Fixpoint load (a : Z) (n : nat) (m : mem) : option (list Z) :=
  match n with
  | O => Some []
  | S k => b ← m !! a; bs ← load (a + 1) k m; Some (b :: bs)
  end.

(** The bytes from [a] on that are allocated. *)
Definition mapped (a n : Z) (m : mem) : Prop := forall x, a <= x < a + n -> is_Some (m !! x).

(** The low [n] bytes of a number, lowest first. *)
Fixpoint le_bytes (n : nat) (z : Z) : list Z :=
  match n with
  | O => []
  | S k => z mod 256 :: le_bytes k (z / 256)
  end.

Fixpoint le_val (bs : list Z) : Z :=
  match bs with
  | [] => 0
  | b :: t => b + 256 * le_val t
  end.

(** A zeroed block. *)
Fixpoint alloc (a : Z) (n : nat) (m : mem) : mem :=
  match n with
  | O => m
  | S k => <[a := 0]> (alloc (a + 1) k m)
  end.

(** * Lemmas *)

Lemma le_bytes_length n z : length (le_bytes n z) = n.
Proof. revert z. induction n as [|n IH]; intros z; simpl; [done|]. by rewrite IH. Qed.

Lemma le_val_bytes n z : le_val (le_bytes n z) = z mod 2 ^ (8 * Z.of_nat n).
Proof.
  revert z. induction n as [|n IH]; intros z; cbn [le_bytes le_val]; [by rewrite Z.mod_1_r|].
  rewrite IH. replace (8 * Z.of_nat (S n)) with (8 + 8 * Z.of_nat n) by lia.
  rewrite Z.pow_add_r by lia. change (2 ^ 8) with 256.
  rewrite Z.rem_mul_r by (try apply Z.pow_pos_nonneg; lia). done.
Qed.

Lemma store_spec a bs m :
  mapped a (Z.of_nat (length bs)) m ->
  exists m', store a bs m = Some m' /\ forall x, m' !! x
    = if decide (a <= x < a + Z.of_nat (length bs)) then bs !! Z.to_nat (x - a) else m !! x.
Proof.
  revert a m. induction bs as [|b bs IH]; intros a m Hm; cbn [store].
  - exists m. split; [done|]. intros x. by rewrite decide_False by (simpl; lia).
  - cbn [length] in *. destruct (Hm a ltac:(lia)) as [y ->].
    destruct (IH (a + 1) (<[a := b]> m)) as (m' & -> & Hm').
    { intros x Hx. rewrite lookup_insert_ne by lia. apply Hm. lia. }
    exists m'. split; [done|]. intros x. rewrite Hm'.
    destruct (decide (x = a)) as [->|Hne].
    + rewrite decide_False, decide_True by lia. rewrite lookup_insert_eq, Z.sub_diag. done.
    + rewrite lookup_insert_ne by done. repeat case_decide; try lia; [|done].
      replace (Z.to_nat (x - a)) with (S (Z.to_nat (x - (a + 1)))) by lia. done.
Qed.

Lemma store_fails a bs m x :
  a <= x < a + Z.of_nat (length bs) -> m !! x = None -> store a bs m = None.
Proof.
  revert a m. induction bs as [|b bs IH]; intros a m Hx Hn; cbn [length store] in *; [lia|].
  destruct (decide (x = a)) as [->|Hne]; [by rewrite Hn|].
  destruct (m !! a); [|done]. apply IH; [lia|]. by rewrite lookup_insert_ne.
Qed.

Lemma load_pointwise a n m bs :
  length bs = n -> (forall i b, bs !! i = Some b -> m !! (a + Z.of_nat i) = Some b) ->
  load a n m = Some bs.
Proof.
  revert a bs. induction n as [|n IH]; intros a [|b bs] Hlen Hb; try done; cbn [load].
  rewrite <- (Z.add_0_r a), (Hb 0%nat b eq_refl : m !! (a + 0) = _). cbn.
  rewrite (IH (a + 0 + 1) bs); [done|by injection Hlen|]. intros i c Hi.
  replace (a + 0 + 1 + Z.of_nat i) with (a + Z.of_nat (S i)) by lia. by apply Hb.
Qed.

Lemma load_ext a n m m' :
  (forall x, a <= x < a + Z.of_nat n -> m' !! x = m !! x) -> load a n m' = load a n m.
Proof.
  revert a. induction n as [|n IH]; intros a H; [done|]. cbn [load].
  rewrite H by lia. destruct (m !! a); [|done]. cbn. rewrite IH; [done|].
  intros x Hx. apply H. lia.
Qed.

(** Only [a .. a + n) differs. *)
Definition only_changes (a n : Z) (m m' : mem) : Prop :=
  forall x, ~ (a <= x < a + n) -> m' !! x = m !! x.

(** Storing into an allocated block succeeds, reads back and touches nothing else;
    what was allocated stays so. *)
Lemma store_block a bs m :
  mapped a (Z.of_nat (length bs)) m ->
  exists m', store a bs m = Some m' /\ load a (length bs) m' = Some bs
    /\ only_changes a (Z.of_nat (length bs)) m m'
    /\ (forall b n, mapped b n m -> mapped b n m').
Proof.
  intros Hm. destruct (store_spec a bs m Hm) as (m' & Hs & Hl). exists m'. split; [done|].
  split; [|split].
  - apply load_pointwise; [done|]. intros i b Hi. rewrite Hl. pose proof (lookup_lt_Some _ _ _ Hi).
    rewrite decide_True by lia. by replace (Z.to_nat (a + Z.of_nat i - a)) with i by lia.
  - intros x Hx. rewrite Hl. by rewrite decide_False.
  - intros b n Hb x Hx. rewrite Hl. case_decide; [|by apply Hb]. apply lookup_lt_is_Some_2. lia.
Qed.

(** [mapped] by evaluation. *)
Lemma mapped_seq a n m : Forall (fun x => is_Some (m !! x)) (seqZ a n) -> mapped a n m.
Proof. intros Hf x Hx. rewrite Forall_forall in Hf. apply Hf, elem_of_seqZ. lia. Qed.

Lemma mapped_less a n k m : mapped a n m -> k <= n -> mapped a k m.
Proof. intros H Hk x Hx. apply H. lia. Qed.

Lemma alloc_lookup a n m x :
  alloc a n m !! x = if decide (a <= x < a + Z.of_nat n) then Some 0 else m !! x.
Proof.
  revert a. induction n as [|n IH]; intros a; cbn [alloc]; [by rewrite decide_False by lia|].
  destruct (decide (x = a)) as [->|Hne].
  - rewrite lookup_insert_eq, decide_True by lia. done.
  - rewrite lookup_insert_ne, IH by done. repeat case_decide; try lia; done.
Qed.

Lemma alloc_mapped a n m : mapped a (Z.of_nat n) (alloc a n m).
Proof. intros x Hx. rewrite alloc_lookup, decide_True by lia. eauto. Qed.

Lemma load_split a n k m l :
  load a (n + k) m = Some l ->
  load a n m = Some (take n l) /\ load (a + Z.of_nat n) k m = Some (drop n l).
Proof.
  revert a l. induction n as [|n IH]; intros a l Hl.
  - rewrite Z.add_0_r. by rewrite drop_0.
  - cbn [Nat.add load] in *. destruct (m !! a) as [b|]; [|done]. cbn in *.
    destruct (load (a + 1) (n + k) m) as [bs|] eqn:E; [|done]. cbn in Hl. injection Hl as <-.
    destruct (IH (a + 1) bs E) as [E1 E2]. rewrite E1. split; [done|].
    replace (a + Z.of_nat (S n)) with (a + 1 + Z.of_nat n) by lia. done.
Qed.

(** A block is no larger than the memory. *)
Lemma mapped_size a n m : mapped a (Z.of_nat n) m -> (n <= size m)%nat.
Proof.
  revert a m. induction n as [|n IH]; intros a m Hm; [lia|].
  destruct (Hm a ltac:(lia)) as [y Hy].
  assert (mapped (a + 1) (Z.of_nat n) (delete a m)) as Hd.
  { intros x Hx. rewrite lookup_delete_ne by lia. apply Hm. lia. }
  pose proof (IH _ _ Hd) as Hle. rewrite map_size_delete_Some in Hle by eauto.
  assert (size m <> 0)%nat; [|lia]. intros H0. apply map_size_empty_inv in H0. subst m. done.
Qed.

Lemma load_app a n k m l l' :
  load a n m = Some l -> load (a + Z.of_nat n) k m = Some l' -> load a (n + k) m = Some (l ++ l').
Proof.
  revert a l. induction n as [|n IH]; intros a l Hl Hl'.
  - injection Hl as <-. by rewrite Z.add_0_r in Hl'.
  - cbn [Nat.add load] in *. destruct (m !! a) as [b|]; [|done]. cbn in *.
    destruct (load (a + 1) n m) as [bs|] eqn:E; [|done]. cbn in Hl. injection Hl as <-.
    rewrite (IH (a + 1) bs E); [done|].
    by replace (a + 1 + Z.of_nat n) with (a + Z.of_nat (S n)) by lia.
Qed.

Lemma load_fails a n m x : a <= x < a + Z.of_nat n -> m !! x = None -> load a n m = None.
Proof.
  revert a. induction n as [|n IH]; intros a Hx Hn; [lia|]. cbn [load].
  destruct (decide (x = a)) as [->|Hne]; [by rewrite Hn|].
  destruct (m !! a); [|done]. cbn. by rewrite IH by (done || lia).
Qed.

Lemma load_length a n m bs : load a n m = Some bs -> length bs = n.
Proof.
  revert a bs. induction n as [|n IH]; intros a bs Hl; cbn [load] in Hl; [by injection Hl as <-|].
  destruct (m !! a); [|done]. cbn in Hl. destruct (load (a + 1) n m) eqn:E; [|done].
  cbn in Hl. injection Hl as <-. simpl. f_equal. by apply (IH (a + 1)).
Qed.
