(* ===== verification/Utf8.v ===== *)
(** Text conversion between the driver's UTF-8 strings and the application's
    character buffers: [src/src/odbc/src/utility.cpp].

    A string is the list of its bytes, 0 to 255.  [Platform] collects what
    differs between the builds (the sizes of [SQLWCHAR] and [long]) and what the
    C library decides from its environment (the locale's narrowing). *)
From S2P Require Import Prelude Memory.

Class Platform : Type := {
  wsz : Z;                             (* sizeof(SQLWCHAR) *)
  sizeof_long : Z;
  narrow : Z -> Z;                     (* std::ctype::narrow(c, '?') of the locale *)
  strftime_partial : list Z -> Z -> list Z; (* what strftime leaves of a text that does not fit *)
  parse_double : list Z -> Z;          (* the bits of the double that operator>> reads *)
  double_to_float : Z -> Z;            (* the bits of a double converted to float *)
  float_to_double : Z -> Z;            (* the bits of a float converted to double *)
  print_float : Z -> list Z;           (* operator<< of a float, from its bits *)
  print_double : Z -> list Z           (* operator<< of a double, from its bits *)
}.

Class PlatformLaws `{Platform} : Prop := {
  wsz_cases : wsz = 2 \/ wsz = 4;
  long_cases : sizeof_long = 4 \/ sizeof_long = 8;
  narrow_ascii c : 0 <= c < 128 -> narrow c = c;
  narrow_byte c : 0 <= narrow c < 256;
  partial_fits s max : 0 <= max -> Z.of_nat (length (strftime_partial s max)) <= max
}.

(** A 64-bit Linux with unixODBC in the C locale. *)
#[export] Instance LinuxPlatform : Platform := {|
  wsz := 2; sizeof_long := 8;
  narrow c := if bool_decide (0 <= c < 128) then c else 63;
  strftime_partial s max := take (Z.to_nat max) s;
  parse_double _ := 0; double_to_float _ := 0; float_to_double _ := 0;
  print_float _ := []; print_double _ := []
|}.

#[export] Instance Linux_laws : PlatformLaws.
Proof.
  split; simpl.
  - by left.
  - by right.
  - intros c Hc. by rewrite bool_decide_true.
  - intros c. case_bool_decide; lia.
  - intros s max Hmax. rewrite length_take. lia.
Qed.

(** * UTF-8 *)

Definition is_cont (b : Z) : bool := (0x80 <=? b) && (b <=? 0xBF).

(** The next code point of a UTF-8 string, at most [maxcode]; [None] where the
    string is not well formed. *)
Definition utf8_next (maxcode : Z) (bs : list Z) : option (Z * list Z) :=
  let limit (c : Z) (rest : list Z) := if c <=? maxcode then Some (c, rest) else None in
  match bs with
  | [] => None
  | b1 :: t1 =>
      if b1 <? 0x80 then limit b1 t1 else
      if b1 <? 0xC2 then None else
      if b1 <? 0xE0 then
        match t1 with
        | b2 :: t2 => if is_cont b2 then limit ((b1 - 0xC0) * 64 + (b2 - 0x80)) t2 else None
        | _ => None
        end
      else if b1 <? 0xF0 then
        match t1 with
        | b2 :: b3 :: t3 =>
            let c := (b1 - 0xE0) * 4096 + (b2 - 0x80) * 64 + (b3 - 0x80) in
            if is_cont b2 && is_cont b3 && (0x800 <=? c) && negb ((0xD800 <=? c) && (c <=? 0xDFFF))
            then limit c t3 else None
        | _ => None
        end
      else if b1 <? 0xF5 then
        match t1 with
        | b2 :: b3 :: b4 :: t4 =>
            let c := (b1 - 0xF0) * 262144 + (b2 - 0x80) * 4096 + (b3 - 0x80) * 64 + (b4 - 0x80) in
            if is_cont b2 && is_cont b3 && is_cont b4 && (0x10000 <=? c) && (c <=? 0x10FFFF)
            then limit c t4 else None
        | _ => None
        end
      else None
  end.

Definition utf8_encode (c : Z) : list Z :=
  if c <? 0x80 then [c] else
  if c <? 0x800 then [0xC0 + c / 64; 0x80 + c mod 64] else
  if c <? 0x10000 then [0xE0 + c / 4096; 0x80 + c / 64 mod 64; 0x80 + c mod 64] else
  [0xF0 + c / 262144; 0x80 + c / 4096 mod 64; 0x80 + c / 64 mod 64; 0x80 + c mod 64].

(** [codecvt::in] with room for [room] characters: the characters and the input left. *)
Fixpoint utf8_in (maxcode : Z) (room : nat) (bs : list Z) : list Z * list Z :=
  match bs, room with
  | [], _ => ([], [])
  | _, O => ([], bs)
  | _, S k =>
      match utf8_next maxcode bs with
      | Some (c, rest) => let '(cs, r) := utf8_in maxcode k rest in (c :: cs, r)
      | None => ([], bs)
      end
  end.

(** [c_str()]: the bytes before the first NUL. *)
Fixpoint c_str (bs : list Z) : list Z :=
  match bs with
  | b :: t => if b =? 0 then [] else b :: c_str t
  | [] => []
  end.

(** [wstring_convert::from_bytes]; throws on a malformed string. *)
Definition range_error : Z := -2.

Definition from_bytes (bs : list Z) : outcome Z (list Z) :=
  let '(cs, rest) := utf8_in 0x10FFFF (length bs) bs in
  if bool_decide (rest = []) then Ok cs else Throw range_error.

(** [wstring_convert::to_bytes]; throws on a code that is not a character. *)
Definition is_scalar (c : Z) : bool :=
  (0 <=? c) && (c <=? 0x10FFFF) && negb ((0xD800 <=? c) && (c <=? 0xDFFF)).

Definition to_bytes (cs : list Z) : outcome Z (list Z) :=
  if forallb is_scalar cs then Ok (concat (map utf8_encode cs)) else Throw range_error.

(** Stores, as outcomes. *)
Definition st (a : Z) (bs : list Z) (m : mem) : outcome Z mem :=
  match store a bs m with
  | Some m' => Ok m'
  | None => UB
  end.

Definition ld (a : Z) (n : nat) (m : mem) : outcome Z (list Z) :=
  match load a n m with
  | Some bs => Ok bs
  | None => UB
  end.

Section copying.
Context `{Platform}.

(** Result: the length written or required, whether it was cut, and the memory. *)
Definition CopyUtf8StringToSqlCharString (inBuffer : list Z) (outBuffer outBufferLenBytes : Z) (m : mem)
    : outcome Z (Z * bool * mem) :=
  if negb (outBuffer =? 0) && (outBufferLenBytes =? 0) then Ok (0, false, m) else
  let* inString := from_bytes (c_str inBuffer) in
  let inBufferLenChars := Z.of_nat (length inString) in
  if outBuffer =? 0 then Ok (inBufferLenChars, false, m) else
  let outBufferLenActual := Z.min inBufferLenChars (outBufferLenBytes - 1) in
  let* m := st outBuffer (map narrow (take (Z.to_nat outBufferLenActual) inString)) m in
  let* m := st (outBuffer + outBufferLenActual) [0] m in
  Ok (outBufferLenActual, outBufferLenActual <? inBufferLenChars, m).

(** The largest code the wide character type holds. *)
Definition wide_max : Z := if wsz =? 2 then 0xFFFF else 0x10FFFF.

(** [CopyUtf8StringToWcharString]; without an output buffer the room is that of
    the proxy, one character for each byte. *)
Definition CopyUtf8StringToSqlWcharString (inBuffer : list Z) (outBuffer outBufferLenBytes : Z) (m : mem)
    : outcome Z (Z * bool * mem) :=
  if negb (outBuffer =? 0) && (outBufferLenBytes =? 0) then Ok (0, false, m) else
  let s := c_str inBuffer in
  let room := if outBuffer =? 0 then Z.of_nat (length s) else u64 (outBufferLenBytes / wsz - 1) in
  let '(cs, rest) := utf8_in wide_max (Z.to_nat (Z.min room (Z.of_nat (length s)))) s in
  let lenConverted := Z.of_nat (length cs) in
  let* m :=
    if outBuffer =? 0 then Ok m
    else st outBuffer (concat (map (le_bytes (Z.to_nat wsz)) (cs ++ [0]))) m in
  Ok (lenConverted * wsz, negb (bool_decide (rest = [])), m).

Definition CopyStringToBuffer (str : list Z) (buf buflen : Z) (isLenInBytes : bool) (m : mem)
    : outcome Z (Z * bool * mem) :=
  let bufLenInBytes := if isLenInBytes then buflen else u64 (buflen * wsz) in
  let* (written, isTruncated, m) := CopyUtf8StringToSqlWcharString str buf bufLenInBytes m in
  Ok (if isLenInBytes then written else written / wsz, isTruncated, m).

(** [SQL_NTS]: the string is null-terminated. *)
Definition SQL_NTS : Z := -3.

(** The characters before the first zero, at most [fuel] of them, each of [n]
    bytes; undefined when there is no zero in allocated memory. *)
Fixpoint read_chars (n fuel : nat) (a : Z) (m : mem) : outcome Z (list Z) :=
  match fuel with
  | O => Ok []
  | S k =>
      let* bs := ld a n m in
      if le_val bs =? 0 then Ok [] else
      let* cs := read_chars n k (a + Z.of_nat n) m in
      Ok (le_val bs :: cs)
  end.

(** A null-terminated string fits the allocated memory or runs out of it. *)
Definition read_terminated (n : nat) (a : Z) (m : mem) : outcome Z (list Z) :=
  read_chars n (S (size m)) a m.

Definition SqlWcharToString (sqlStr sqlStrLen : Z) (isLenInBytes : bool) (m : mem)
    : outcome Z (list Z) :=
  if sqlStr =? 0 then Ok [] else
  let n := Z.to_nat wsz in
  let* cs :=
    if sqlStrLen =? SQL_NTS then read_terminated n sqlStr m
    else if 0 <? sqlStrLen then
      read_chars n (Z.to_nat (if isLenInBytes then sqlStrLen / wsz else sqlStrLen)) sqlStr m
    else Ok [] in
  to_bytes cs.

Definition SqlWcharToOptString (sqlStr sqlStrLen : Z) (isLenInBytes : bool) (m : mem)
    : outcome Z (option (list Z)) :=
  if sqlStr =? 0 then Ok None else
  let* s := SqlWcharToString sqlStr sqlStrLen isLenInBytes m in Ok (Some s).

Definition SqlCharToString (sqlStr sqlStrLen : Z) (m : mem) : outcome Z (list Z) :=
  if (sqlStr =? 0) || (sqlStrLen =? 0) then Ok [] else
  if sqlStrLen =? SQL_NTS then read_terminated 1 sqlStr m else
  if 0 <? sqlStrLen then ld sqlStr (Z.to_nat sqlStrLen) m else Ok [].

End copying.

(** [ToUtf8] and [FromUtf8]. *)
Definition ToUtf8 (value : list Z) : outcome Z (list Z) := to_bytes (c_str value).
Definition FromUtf8 (value : list Z) : outcome Z (list Z) := from_bytes (c_str value).

(** * Encoding and decoding *)

Definition encode (cs : list Z) : list Z := concat (map utf8_encode cs).

Definition scalars (cs : list Z) : Prop := Forall (fun c => is_scalar c = true) cs.

#[export] Instance scalars_dec cs : Decision (scalars cs).
Proof. unfold scalars. apply _. Defined.

Lemma is_scalar_spec c :
  is_scalar c = true <-> 0 <= c <= 0x10FFFF /\ ~ (0xD800 <= c <= 0xDFFF).
Proof.
  unfold is_scalar. rewrite !andb_true_iff, negb_true_iff, andb_false_iff, !Z.leb_le, !Z.leb_gt. lia.
Qed.

Lemma is_cont_low x : is_cont (0x80 + x mod 64) = true.
Proof.
  unfold is_cont. pose proof (Z.mod_pos_bound x 64 ltac:(lia)).
  rewrite andb_true_iff, !Z.leb_le. lia.
Qed.

(** Base-64 digits. *)
Lemma split64 c : c = c / 64 * 64 + c mod 64 /\ c / 64 = c / 4096 * 64 + c / 64 mod 64
  /\ c / 4096 = c / 262144 * 64 + c / 4096 mod 64.
Proof.
  pose proof (Z.div_mod c 64 ltac:(lia)). pose proof (Z.div_mod (c / 64) 64 ltac:(lia)).
  pose proof (Z.div_mod (c / 4096) 64 ltac:(lia)).
  rewrite Z.div_div in H0 by lia. rewrite Z.div_div in H1 by lia. change (64 * 64) with 4096 in *.
  change (4096 * 64) with 262144 in *. lia.
Qed.

(** Rewrites a comparison that arithmetic decides. *)
Ltac decide_cmp :=
  repeat match goal with
  | |- context [?a <? ?b] =>
      first [rewrite (proj2 (Z.ltb_lt a b)) by lia | rewrite (proj2 (Z.ltb_ge a b)) by lia]
  | |- context [?a <=? ?b] =>
      first [rewrite (proj2 (Z.leb_le a b)) by lia | rewrite (proj2 (Z.leb_gt a b)) by lia]
  end.

Lemma utf8_next_encode maxcode c rest :
  is_scalar c = true -> c <= maxcode -> utf8_next maxcode (utf8_encode c ++ rest) = Some (c, rest).
Proof.
  rewrite is_scalar_spec. intros [Hc Hs] Hmax. destruct (split64 c) as (E1 & E2 & E3).
  pose proof (Z.mod_pos_bound c 64 ltac:(lia)). pose proof (Z.mod_pos_bound (c / 64) 64 ltac:(lia)).
  pose proof (Z.mod_pos_bound (c / 4096) 64 ltac:(lia)).
  unfold utf8_encode.
  destruct (Z.ltb_spec c 0x80); [|destruct (Z.ltb_spec c 0x800); [|destruct (Z.ltb_spec c 0x10000)]];
    cbn [app]; unfold utf8_next.
  - decide_cmp. done.
  - decide_cmp. rewrite is_cont_low.
    replace ((192 + c / 64 - 192) * 64 + (128 + c mod 64 - 128)) with c by lia. decide_cmp. done.
  - decide_cmp. rewrite !is_cont_low.
    replace ((224 + c / 4096 - 224) * 4096 + (128 + c / 64 mod 64 - 128) * 64 + (128 + c mod 64 - 128))
      with c by lia.
    cbn [andb]. destruct (Z.leb_spec 0xD800 c); cbn [andb negb]; decide_cmp; done.
  - decide_cmp. rewrite !is_cont_low.
    replace ((240 + c / 262144 - 240) * 262144 + (128 + c / 4096 mod 64 - 128) * 4096
      + (128 + c / 64 mod 64 - 128) * 64 + (128 + c mod 64 - 128)) with c by lia.
    cbn [andb]. decide_cmp. done.
Qed.

Lemma utf8_encode_cons c : exists b t, utf8_encode c = b :: t.
Proof. unfold utf8_encode. repeat case_match; eauto. Qed.

Lemma encode_nil cs : encode cs = [] <-> cs = [].
Proof.
  destruct cs as [|c cs]; [done|]. change (encode (c :: cs)) with (utf8_encode c ++ encode cs).
  destruct (utf8_encode_cons c) as (b & t & ->). done.
Qed.

Lemma utf8_in_encode maxcode room cs :
  scalars cs -> Forall (fun c => c <= maxcode) cs ->
  utf8_in maxcode room (encode cs) = (take room cs, encode (drop room cs)).
Proof.
  intros Hs Hm. revert room. induction cs as [|c cs IH]; intros room.
  { rewrite take_nil, drop_nil. destruct room; done. }
  apply Forall_cons in Hs as [Hc Hs], Hm as [Hcm Hm]. specialize (IH Hs Hm).
  change (encode (c :: cs)) with (utf8_encode c ++ encode cs).
  pose proof (utf8_next_encode maxcode c (encode cs) Hc Hcm) as Hn.
  destruct (utf8_encode_cons c) as (b & t & Eb).
  destruct room as [|k].
  - rewrite Eb. cbn. unfold encode. cbn. by rewrite Eb.
  - rewrite Eb in *. cbn [app utf8_in] in *. rewrite Hn, IH. done.
Qed.

Lemma encode_length cs : (length cs <= length (encode cs))%nat.
Proof.
  induction cs as [|c cs IH]; [done|]. change (encode (c :: cs)) with (utf8_encode c ++ encode cs).
  destruct (utf8_encode_cons c) as (b & t & ->). rewrite length_app. simpl. lia.
Qed.

Lemma scalars_max cs : scalars cs -> Forall (fun c => c <= 0x10FFFF) cs.
Proof.
  intros Hs. eapply Forall_impl; [exact Hs|]. intros c Hc. apply is_scalar_spec in Hc. lia.
Qed.

Lemma from_bytes_encode cs : scalars cs -> from_bytes (encode cs) = Ok cs.
Proof.
  intros Hs. unfold from_bytes. rewrite utf8_in_encode by (done || by apply scalars_max).
  pose proof (encode_length cs). rewrite take_ge, drop_ge by lia. done.
Qed.

Lemma to_bytes_encode cs : scalars cs -> to_bytes cs = Ok (encode cs).
Proof.
  intros Hs. unfold to_bytes. assert (forallb is_scalar cs = true) as ->; [|done].
  apply forallb_forall. intros c Hc. by apply (proj1 (List.Forall_forall _ _) Hs).
Qed.

(** ** Null bytes *)

Lemma c_str_id bs : Forall (fun b => b <> 0) bs -> c_str bs = bs.
Proof.
  induction 1 as [|b bs Hb _ IH]; [done|]. cbn [c_str]. rewrite (proj2 (Z.eqb_neq _ _) Hb). by rewrite IH.
Qed.

Definition nonzero (cs : list Z) : Prop := Forall (fun c => c <> 0) cs.

#[export] Instance nonzero_dec cs : Decision (nonzero cs).
Proof. unfold nonzero. apply _. Defined.

Lemma encode_bytes cs : scalars cs -> nonzero cs -> Forall (fun b => 0 < b < 256) (encode cs).
Proof.
  induction cs as [|c cs IH]; intros Hs Hz; [constructor|].
  apply Forall_cons in Hs as [Hc Hs], Hz as [Hcz Hz].
  change (encode (c :: cs)) with (utf8_encode c ++ encode cs). apply Forall_app. split; [|auto].
  apply is_scalar_spec in Hc as [Hc _]. destruct (split64 c) as (E1 & E2 & E3).
  pose proof (Z.mod_pos_bound c 64 ltac:(lia)). pose proof (Z.mod_pos_bound (c / 64) 64 ltac:(lia)).
  pose proof (Z.mod_pos_bound (c / 4096) 64 ltac:(lia)).
  unfold utf8_encode. repeat case_match; repeat (apply Forall_cons; split; [lia|]); constructor.
Qed.

Lemma c_str_encode cs : scalars cs -> nonzero cs -> c_str (encode cs) = encode cs.
Proof.
  intros Hs Hz. apply c_str_id. eapply Forall_impl; [by apply encode_bytes|]. simpl. lia.
Qed.

(** * Copying *)

Lemma st_ok a bs m :
  mapped a (Z.of_nat (length bs)) m ->
  exists m', st a bs m = Ok m' /\ load a (length bs) m' = Some bs
    /\ only_changes a (Z.of_nat (length bs)) m m'
    /\ (forall b n, mapped b n m -> mapped b n m').
Proof.
  intros Hm. destruct (store_block a bs m Hm) as (m' & Hs & Hrest). exists m'. unfold st. rewrite Hs. done.
Qed.

(** The bytes of characters of [n] bytes each. *)
Definition char_bytes (n : nat) (cs : list Z) : list Z := concat (map (le_bytes n) cs).

Lemma char_bytes_length n cs : length (char_bytes n cs) = (n * length cs)%nat.
Proof.
  induction cs as [|c cs IH]; [simpl; lia|].
  change (char_bytes n (c :: cs)) with (le_bytes n c ++ char_bytes n cs).
  rewrite length_app, le_bytes_length, IH. simpl. lia.
Qed.

(** Terminated characters in memory read back. *)
Lemma read_chars_stored n fuel a m cs :
  Forall (fun c => 0 < c < 2 ^ (8 * Z.of_nat n)) cs -> (length cs < fuel)%nat ->
  load a (n * S (length cs)) m = Some (char_bytes n (cs ++ [0])) ->
  read_chars n fuel a m = Ok cs.
Proof.
  intros Hcs. revert fuel a. induction Hcs as [|c cs Hc Hcs IH]; intros fuel a Hf Hl;
    (destruct fuel as [|k]; [lia|]); cbn [read_chars length] in *.
  - rewrite Nat.mul_1_r in Hl. unfold ld. rewrite Hl. cbn [obind app].
    unfold char_bytes. cbn [map concat]. rewrite app_nil_r, le_val_bytes, Z.mod_0_l; [done|].
    apply Z.pow_nonzero; lia.
  - change (char_bytes n ((c :: cs) ++ [0])) with (le_bytes n c ++ char_bytes n (cs ++ [0])) in Hl.
    replace (n * S (S (length cs)))%nat with (n + n * S (length cs))%nat in Hl by lia.
    apply load_split in Hl as [Hl Hr].
    rewrite take_app_le, take_ge in Hl by (rewrite le_bytes_length; lia).
    rewrite drop_app_le, drop_ge in Hr by (rewrite le_bytes_length; lia).
    unfold ld. rewrite Hl. cbn [obind]. rewrite le_val_bytes, Z.mod_small by lia.
    rewrite (proj2 (Z.eqb_neq _ _)) by lia. rewrite (IH k _ ltac:(lia) Hr). done.
Qed.

Lemma read_terminated_stored n a m cs :
  (0 < n)%nat -> Forall (fun c => 0 < c < 2 ^ (8 * Z.of_nat n)) cs ->
  mapped a (Z.of_nat (n * S (length cs))) m ->
  load a (n * S (length cs)) m = Some (char_bytes n (cs ++ [0])) ->
  read_terminated n a m = Ok cs.
Proof.
  intros Hn Hcs Hm Hl. apply read_chars_stored; [done| |done].
  pose proof (mapped_size _ _ _ Hm). nia.
Qed.

Section copies.
Context `{PlatformLaws}.

(** A null-terminated text in wide characters stands at [buf]. *)
Definition holds_wide (buf : Z) (cs : list Z) (m : mem) : Prop :=
  load buf (Z.to_nat wsz * S (length cs)) m = Some (char_bytes (Z.to_nat wsz) (cs ++ [0])).

Definition wide_text (cs : list Z) : Prop :=
  scalars cs /\ nonzero cs /\ Forall (fun c => c <= wide_max) cs.

Lemma wide_text_take k cs : wide_text cs -> wide_text (take k cs).
Proof. intros (?&?&?). split; [|split]; by apply Forall_take. Qed.

Lemma holds_wide_mapped buf cs m :
  holds_wide buf cs m -> mapped buf (Z.of_nat (Z.to_nat wsz * S (length cs))) m.
Proof.
  intros Hl x Hx. destruct (m !! x) eqn:E; [eauto|]. unfold holds_wide in Hl.
  by rewrite (load_fails _ _ _ x) in Hl.
Qed.

Lemma holds_wide_read buf cs m :
  wide_text cs -> buf <> 0 -> holds_wide buf cs m -> SqlWcharToString buf SQL_NTS false m = Ok (encode cs).
Proof.
  intros (Hs & Hz & Hmax) Hbuf Hl. pose proof wsz_cases as Hw. unfold SqlWcharToString.
  rewrite (proj2 (Z.eqb_neq _ _) Hbuf). rewrite Z.eqb_refl.
  rewrite (read_terminated_stored _ buf m cs); [|lia| |by apply holds_wide_mapped|exact Hl].
  - cbn [obind]. by apply to_bytes_encode.
  - apply Forall_forall. intros c Hc.
    unfold scalars, nonzero in Hs, Hz. rewrite Forall_forall in Hs, Hz, Hmax.
    pose proof (proj1 (is_scalar_spec c) (Hs c Hc)) as [Hr _]. specialize (Hz c Hc). specialize (Hmax c Hc).
    rewrite Z2Nat.id by lia. unfold wide_max in Hmax.
    destruct Hw as [E|E]; rewrite E in *; simpl (_ =? _) in Hmax; cbv iota in Hmax; simpl (2 ^ _); lia.
Qed.

Lemma holds_wide_ext buf cs m m' :
  (forall x, buf <= x < buf + wsz * Z.of_nat (S (length cs)) -> m' !! x = m !! x) ->
  holds_wide buf cs m -> holds_wide buf cs m'.
Proof.
  intros He Hl. unfold holds_wide in *. rewrite <- Hl. apply load_ext. intros x Hx. apply He.
  pose proof wsz_cases. lia.
Qed.

Lemma wide_copy_stored cs buf N m :
  wide_text cs -> buf <> 0 -> wsz <= N < 2 ^ 63 -> mapped buf N m ->
  let kept := take (Z.to_nat (N / wsz - 1)) cs in
  exists m', CopyUtf8StringToSqlWcharString (encode cs) buf N m
      = Ok (Z.of_nat (length kept) * wsz, bool_decide (length kept < length cs)%nat, m')
    /\ only_changes buf N m m' /\ (forall b n, mapped b n m -> mapped b n m')
    /\ holds_wide buf kept m'.
Proof.
  intros (Hs & Hz & Hmax) Hbuf HN Hm kept. pose proof wsz_cases as Hw.
  unfold CopyUtf8StringToSqlWcharString. rewrite (proj2 (Z.eqb_neq _ _) Hbuf).
  rewrite (proj2 (Z.eqb_neq N 0)) by lia. cbn [negb andb]. rewrite c_str_encode by done.
  assert (wsz * (N / wsz) <= N /\ 1 <= N / wsz < 2 ^ 63) as [Hq1 Hq2].
  { assert (0 < wsz) as Hw0 by lia. pose proof (Z.div_mod N wsz). pose proof (Z.mod_pos_bound N wsz Hw0).
    assert (1 <= N / wsz) by (apply Z.div_le_lower_bound; lia). nia. }
  rewrite wrapU_small by (unfold inU; lia). rewrite utf8_in_encode by done.
  assert (take (Z.to_nat (Z.min (N / wsz - 1) (Z.of_nat (length (encode cs))))) cs = kept
    /\ (drop (Z.to_nat (Z.min (N / wsz - 1) (Z.of_nat (length (encode cs))))) cs = []
        <-> (length cs <= length kept)%nat)) as [-> Hrest].
  { pose proof (encode_length cs). unfold kept. rewrite <- !length_zero_iff_nil, length_drop, length_take.
    destruct (Z.le_gt_cases (N / wsz - 1) (Z.of_nat (length (encode cs)))).
    - rewrite Z.min_l by lia. split; [done|]. lia.
    - rewrite Z.min_r by lia. rewrite !take_ge by lia. split; [done|]. lia. }
  set (n := Z.to_nat wsz). fold (char_bytes n (kept ++ [0])).
  assert (Z.of_nat (length (char_bytes n (kept ++ [0]))) <= N) as Hlen.
  { rewrite char_bytes_length, length_app. unfold kept, n. rewrite length_take. cbn [length]. nia. }
  destruct (st_ok buf (char_bytes n (kept ++ [0])) m) as (m' & -> & Hl & Hch & Hmap);
    [by eapply mapped_less|].
  cbn [obind]. exists m'. split; [|split; [|split; [done|]]].
  - assert (negb (bool_decide (encode (drop
        (Z.to_nat (Z.min (N / wsz - 1) (Z.of_nat (length (encode cs))))) cs) = []))
      = bool_decide (length kept < length cs)%nat) as ->; [|done].
    rewrite <- bool_decide_not. apply bool_decide_ext. rewrite encode_nil, Hrest. lia.
  - intros x Hx. apply Hch. lia.
  - unfold holds_wide. rewrite char_bytes_length, length_app, Nat.add_1_r in Hl. exact Hl.
Qed.

Lemma wide_copy_spec cs buf N m :
  scalars cs -> nonzero cs -> Forall (fun c => c <= wide_max) cs ->
  buf <> 0 -> wsz <= N < 2 ^ 63 -> mapped buf N m ->
  let kept := take (Z.to_nat (N / wsz - 1)) cs in
  exists m', CopyUtf8StringToSqlWcharString (encode cs) buf N m
      = Ok (Z.of_nat (length kept) * wsz, bool_decide (length kept < length cs)%nat, m')
    /\ only_changes buf N m m' /\ (forall b n, mapped b n m -> mapped b n m')
    /\ SqlWcharToString buf SQL_NTS false m' = Ok (encode kept).
Proof.
  intros Hs Hz Hmax Hbuf HN Hm kept.
  destruct (wide_copy_stored cs buf N m) as (m' & E & Hch & Hmap & Hl); try done.
  exists m'. split; [exact E|]. split; [done|]. split; [done|]. apply holds_wide_read; [|done|done].
  by apply wide_text_take.
Qed.

(** Without a buffer the copy reports the length that is needed. *)
Lemma wide_copy_null cs N m :
  wide_text cs ->
  CopyUtf8StringToSqlWcharString (encode cs) 0 N m = Ok (Z.of_nat (length cs) * wsz, false, m).
Proof.
  intros (Hs & Hz & Hmax). unfold CopyUtf8StringToSqlWcharString. cbn [Z.eqb negb andb].
  rewrite c_str_encode by done. rewrite Z.min_id, Nat2Z.id, utf8_in_encode by done.
  pose proof (encode_length cs). rewrite take_ge, drop_ge by lia. done.
Qed.

Lemma map_narrow_ascii s : Forall (fun c => 0 <= c < 128) s -> map narrow s = s.
Proof.
  induction 1 as [|c s Hc _ IH]; [done|]. cbn [map]. by rewrite narrow_ascii, IH.
Qed.

Lemma le_bytes_1 s : Forall (fun c => 0 <= c < 256) s -> char_bytes 1 s = s.
Proof.
  induction 1 as [|c s Hc _ IH]; [done|].
  change (char_bytes 1 (c :: s)) with ([c mod 256] ++ char_bytes 1 s). rewrite IH, Z.mod_small by done. done.
Qed.

Lemma narrow_bytes cs : Forall (fun c => 0 <= c < 256) (map narrow cs).
Proof. induction cs; constructor; [apply narrow_byte|done]. Qed.

(** A null-terminated copy of bytes: two stores, one after the other. *)
Lemma st_terminated a s m N :
  Z.of_nat (length s) + 1 <= N -> mapped a N m ->
  exists m', (let* m := st a s m in st (a + Z.of_nat (length s)) [0] m) = Ok m'
    /\ load a (S (length s)) m' = Some (s ++ [0])
    /\ only_changes a N m m' /\ (forall b n, mapped b n m -> mapped b n m').
Proof.
  intros HN Hm. destruct (st_ok a s m) as (m1 & -> & Hl1 & Hch1 & Hmap1); [eapply mapped_less; [done|lia]|].
  cbn [obind]. destruct (st_ok (a + Z.of_nat (length s)) [0] m1) as (m2 & -> & Hl2 & Hch2 & Hmap2).
  { apply Hmap1 in Hm. intros x Hx. apply Hm. simpl in Hx. lia. }
  exists m2. split; [done|]. split; [|split].
  - replace (S (length s)) with (length s + 1)%nat by lia.
    assert (load a (length s) m2 = Some s) as Hl.
    { rewrite <- Hl1. apply load_ext. intros x Hx. apply Hch2. simpl. lia. }
    by apply load_app.
  - intros x Hx. rewrite Hch2, Hch1 by (simpl; lia). done.
  - auto.
Qed.

Lemma char_copy_spec cs buf N m :
  scalars cs -> nonzero cs -> buf <> 0 -> 0 < N -> mapped buf N m ->
  let kept := take (Z.to_nat (N - 1)) cs in
  exists m', CopyUtf8StringToSqlCharString (encode cs) buf N m
      = Ok (Z.of_nat (length kept), bool_decide (length kept < length cs)%nat, m')
    /\ only_changes buf N m m' /\ (forall b n, mapped b n m -> mapped b n m')
    /\ load buf (S (length kept)) m' = Some (map narrow kept ++ [0]).
Proof.
  intros Hs Hz Hbuf HN Hm kept. unfold CopyUtf8StringToSqlCharString.
  rewrite (proj2 (Z.eqb_neq _ _) Hbuf), (proj2 (Z.eqb_neq N 0)) by lia. cbn [negb andb].
  rewrite c_str_encode, from_bytes_encode by done. cbn [obind].
  assert (Z.min (Z.of_nat (length cs)) (N - 1) = Z.of_nat (length kept)) as ->
    by (unfold kept; rewrite length_take; lia).
  assert (take (Z.to_nat (Z.of_nat (length kept))) cs = kept) as ->.
  { rewrite Nat2Z.id. unfold kept. rewrite length_take. destruct (decide (Z.to_nat (N - 1) <= length cs)%nat).
    - by rewrite Nat.min_l by done.
    - rewrite Nat.min_r, !take_ge by lia. done. }
  destruct (st_terminated buf (map narrow kept) m N) as (m' & Hst & Hl & Hch & Hmap).
  - rewrite length_map. unfold kept. rewrite length_take. lia.
  - done.
  - rewrite length_map in *. destruct (st buf (map narrow kept) m) as [m1| |]; [|done|done].
    cbn [obind] in *. rewrite Hst. cbn [obind]. exists m'.
    split; [|done].
    assert ((Z.of_nat (length kept) <? Z.of_nat (length cs))
      = bool_decide (length kept < length cs)%nat) as ->; [|done].
    destruct (Z.ltb_spec (Z.of_nat (length kept)) (Z.of_nat (length cs))).
    + by rewrite bool_decide_true by lia.
    + by rewrite bool_decide_false by lia.
Qed.

End copies.

(** * Properties *)

(** UTF-8 conversion is lossless: decoding the encoding of any text without
    null characters gives it back, and so does encoding the decoding. *)
Theorem utf8_roundtrip cs :
  scalars cs -> nonzero cs ->
  exists bs, ToUtf8 cs = Ok bs /\ FromUtf8 bs = Ok cs.
Proof.
  intros Hs Hz. exists (encode cs). unfold ToUtf8, FromUtf8.
  rewrite (c_str_id cs) by done. rewrite c_str_encode, to_bytes_encode, from_bytes_encode by done. done.
Qed.

Lemma utf8_roundtrip_witness :
  exists bs, ToUtf8 [0x41; 0xE9; 0x20AC; 0x1F600] = Ok bs
    /\ FromUtf8 bs = Ok [0x41; 0xE9; 0x20AC; 0x1F600].
Proof. apply utf8_roundtrip; apply (bool_decide_unpack _); vm_compute; exact I. Defined.


