(* ===== verification/AppBuffer.v ===== *)
(** Application buffers, writing: [src/src/odbc/src/app/application_data_buffer.cpp].

    A buffer describes memory of the application: where a value goes, how large
    the place is, where its length is reported, and an offset for row-wise
    binding.  The [Put] operations convert a value to the type the application
    asked for and write it; each is a function on memory whose result is the
    conversion result, undefined behaviour when it leaves the allocated bytes,
    or an exception.

    Sizes are those of a 64-bit build ([SQLLEN] of eight bytes). *)
From Stdlib Require Import SpecFloat.
From S2P Require Import Prelude Bits Memory Utf8 Chrono BigInteger BigText Decimal BigBytes TypeTraits.

(** [ConversionResult::Type]. *)
Inductive ConversionResult : Type :=
| AI_SUCCESS | AI_FRACTIONAL_TRUNCATED | AI_VARLEN_DATA_TRUNCATED | AI_UNSUPPORTED_CONVERSION
| AI_INDICATOR_NEEDED | AI_NO_DATA | AI_FAILURE.

#[export] Instance ConversionResult_eq_dec : EqDecision ConversionResult.
Proof. solve_decision. Defined.

(** Pointers are addresses, 0 the null pointer. *)
Record ApplicationDataBuffer : Type := ADB {
  adb_type : OdbcNativeType;
  adb_buffer : Z;
  adb_buflen : Z;
  adb_reslen : Z;
  adb_byteOffset : Z;
  adb_elementOffset : Z
}.

Definition SQL_NULL_DATA : Z := -1.
Definition SQL_MAX_NUMERIC_LEN : Z := 16.

Definition sizeof_SqlLen : Z := 8.
Definition sizeof_DATE_STRUCT : Z := 6.
Definition sizeof_TIME_STRUCT : Z := 6.
Definition sizeof_TIMESTAMP_STRUCT : Z := 16.
Definition sizeof_NUMERIC_STRUCT : Z := 19.
Definition sizeof_GUID : Z := 16.

(** * Addresses *)

Definition GetElementSize (b : ApplicationDataBuffer) : Z :=
  match adb_type b with
  | AI_WCHAR | AI_CHAR | AI_BINARY => adb_buflen b
  | AI_SIGNED_SHORT => 2
  | AI_UNSIGNED_SHORT => 2
  | AI_SIGNED_LONG => 4
  | AI_UNSIGNED_LONG => 4
  | AI_FLOAT => 4
  | AI_DOUBLE => 8
  | AI_SIGNED_TINYINT => 1
  | AI_BIT | AI_UNSIGNED_TINYINT => 1
  | AI_SIGNED_BIGINT => 8
  | AI_UNSIGNED_BIGINT => 8
  | AI_TDATE => sizeof_DATE_STRUCT
  | AI_TTIME => sizeof_TIME_STRUCT
  | AI_TTIMESTAMP => sizeof_TIMESTAMP_STRUCT
  | AI_NUMERIC => sizeof_NUMERIC_STRUCT
  | AI_GUID => sizeof_GUID
  | AI_DEFAULT | AI_UNSUPPORTED => 0
  end.

Definition ApplyOffset (b : ApplicationDataBuffer) (ptr elemSize : Z) : Z :=
  if ptr =? 0 then ptr else u64 (ptr + u64 (adb_byteOffset b + elemSize * adb_elementOffset b)).

Definition GetData (b : ApplicationDataBuffer) : Z := ApplyOffset b (adb_buffer b) (GetElementSize b).
Definition GetResLen (b : ApplicationDataBuffer) : Z := ApplyOffset b (adb_reslen b) sizeof_SqlLen.
Definition GetSize (b : ApplicationDataBuffer) : Z := adb_buflen b.

(** [if (resLenPtr) *resLenPtr = v]. *)
Definition put_len (b : ApplicationDataBuffer) (v : Z) (m : mem) : outcome Z mem :=
  if GetResLen b =? 0 then Ok m else st (GetResLen b) (le_bytes 8 v) m.

(** [if (dataPtr) memcpy(dataPtr, bs, ...)]. *)
Definition put_data (b : ApplicationDataBuffer) (bs : list Z) (m : mem) : outcome Z mem :=
  if GetData b =? 0 then Ok m else st (GetData b) bs m.

Abbreviation put_result := (outcome Z (ConversionResult * mem)).

(** * Numbers *)

(** The bits of a finite binary floating-point number: the significand has
    [prec] bits with the hidden one, [emax] is the largest exponent. *)
Definition float_bits (prec emax : Z) (f : spec_float) : Z :=
  let emin := 3 - emax - prec in
  let pack (s : bool) (biased frac : Z) :=
    (if s then 2 ^ (prec - 1) * (2 * emax) else 0) + biased * 2 ^ (prec - 1) + frac in
  match f with
  | S754_zero s => pack s 0 0
  | S754_infinity s => pack s (2 * emax - 1) 0
  | S754_nan => pack false (2 * emax - 1) (2 ^ (prec - 2))
  | S754_finite s m e =>
      if 2 ^ (prec - 1) <=? Zpos m then pack s (e - emin + 1) (Zpos m - 2 ^ (prec - 1))
      else pack s 0 (Zpos m)
  end.

(** [static_cast<float>(n)] and [static_cast<double>(n)] of an integer, to nearest even. *)
Definition int_to_float (n : Z) : Z := float_bits 24 128 (binary_normalize 24 128 n 0 false).
Definition int_to_double (n : Z) : Z := float_bits 53 1024 (binary_normalize 53 1024 n 0 false).

(** [PutNumToNumBuffer<Tbuf>], for a target of [size] bytes. *)
Definition PutNumToNumBuffer (b : ApplicationDataBuffer) (size : Z) (value : Z) (m : mem) : put_result :=
  let* m := put_data b (le_bytes (Z.to_nat size) value) m in
  let* m := put_len b size m in
  Ok (AI_SUCCESS, m).

(** * Text *)

Definition text (s : list ascii) : list Z := map code s.

(** [PutStrToStrBuffer<char>] and [PutStrToStrBuffer<SQLWCHAR>]: the result with
    the number written. *)
Definition PutStrToStrBuffer `{Platform} (b : ApplicationDataBuffer) (wide : bool) (value : list Z) (m : mem)
    : outcome Z (ConversionResult * Z * mem) :=
  let outCharSize := if wide then wsz else 1 in
  if GetData b =? 0 then Ok (AI_SUCCESS, 0, m) else
  if adb_buflen b <? outCharSize then Ok (AI_VARLEN_DATA_TRUNCATED, 0, m) else
  let* (lenWrittenOrRequired, isTruncated, m) :=
    if wide then CopyUtf8StringToSqlWcharString value (GetData b) (adb_buflen b) m
    else CopyUtf8StringToSqlCharString value (GetData b) (adb_buflen b) m in
  let written := i32 lenWrittenOrRequired in
  let* m := put_len b written m in
  Ok (if isTruncated then AI_VARLEN_DATA_TRUNCATED else AI_SUCCESS, written, m).

Definition drop_written (r : outcome Z (ConversionResult * Z * mem)) : put_result :=
  let* (c, _, m) := r in Ok (c, m).

(** [PutValToStrBuffer] of an integer. *)
Definition PutValToStrBuffer `{Platform} (b : ApplicationDataBuffer) (wide : bool) (value : Z) (m : mem)
    : put_result :=
  drop_written (PutStrToStrBuffer b wide (text (print_int value)) m).

Definition PutRawDataToBuffer (b : ApplicationDataBuffer) (data : list Z) (m : mem)
    : outcome Z (ConversionResult * Z * mem) :=
  let iLen := Z.of_nat (length data) in
  let* m := put_len b iLen m in
  let toCopy := Z.min (adb_buflen b) iLen in
  let* m := if negb (GetData b =? 0) && (0 <? toCopy)
            then st (GetData b) (take (Z.to_nat toCopy) data) m else Ok m in
  Ok (if toCopy <? iLen then AI_VARLEN_DATA_TRUNCATED else AI_SUCCESS, i32 toCopy, m).

Definition PutNull (b : ApplicationDataBuffer) (m : mem) : put_result :=
  if GetResLen b =? 0 then Ok (AI_INDICATOR_NEEDED, m) else
  let* m := put_len b SQL_NULL_DATA m in Ok (AI_SUCCESS, m).

(** * Dates *)

(** [%Y], [%m] and the other two-digit fields. *)
Definition two_digits (n : Z) : list Z := text (pad 2 (print_u64 n)).
Definition date_text (tm : Tm) : list Z :=
  text (print_int (tm_year tm + 1900)) ++ [45] ++ two_digits (tm_mon tm + 1) ++ [45] ++ two_digits (tm_mday tm).
Definition time_text (tm : Tm) : list Z :=
  two_digits (tm_hour tm) ++ [58] ++ two_digits (tm_min tm) ++ [58] ++ two_digits (tm_sec tm).
Definition timestamp_text (tm : Tm) : list Z := date_text tm ++ [32] ++ time_text tm.

Section dates.
Context `{Platform}.

(** A string of negative size cannot be made. *)
Definition length_error : Z := -3.

(** [strftime(a, max, ...)] of a text: with its terminator when it fits. *)
Definition strftime (a max : Z) (s : list Z) (m : mem) : outcome Z mem :=
  if Z.of_nat (length s) + 1 <=? u64 max then st a (s ++ [0]) m else st a (strftime_partial s (u64 max)) m.

(** The branch for a character buffer: a text of [valLen] characters. *)
Definition put_char_text (b : ApplicationDataBuffer) (valLen : Z) (s : list Z) (m : mem) : put_result :=
  let* m := put_len b valLen m in
  let* m := if GetData b =? 0 then Ok m else strftime (GetData b) (GetSize b) s m in
  Ok (if GetSize b <? valLen + 1 then AI_VARLEN_DATA_TRUNCATED else AI_SUCCESS, m).

(** The branch for a wide buffer: the text goes through a string of [tmpSize]
    bytes, and the size of the buffer in bytes is passed on as a size in characters. *)
Definition put_wide_text (b : ApplicationDataBuffer) (valLen tmpSize : Z) (s : list Z) (m : mem) : put_result :=
  let* m := put_len b valLen m in
  let* m :=
    if GetData b =? 0 then Ok m else
    if tmpSize <? 0 then Throw length_error else
    let tmp := if Z.of_nat (length s) + 1 <=? u64 tmpSize then s else strftime_partial s (u64 tmpSize) in
    let* (_, _, m) := CopyStringToBuffer tmp (GetData b) (u64 (GetSize b)) false m in Ok m in
  Ok (if GetSize b <? valLen + 1 then AI_VARLEN_DATA_TRUNCATED else AI_SUCCESS, m).

(** Stores of structures go through the data pointer without a test. *)
Definition put_struct (b : ApplicationDataBuffer) (size : Z) (bs : list Z) (m : mem) : outcome Z mem :=
  let* m := st (GetData b) bs m in put_len b size m.

(** The fields of [SQL_DATE_STRUCT], [SQL_TIME_STRUCT] and [SQL_TIMESTAMP_STRUCT]. *)
Definition date_struct (tm : Tm) : list Z :=
  le_bytes 2 (tm_year tm + 1900) ++ le_bytes 2 (tm_mon tm + 1) ++ le_bytes 2 (tm_mday tm).
Definition time_struct (tm : Tm) : list Z :=
  le_bytes 2 (tm_hour tm) ++ le_bytes 2 (tm_min tm) ++ le_bytes 2 (tm_sec tm).
Definition timestamp_struct (tm : Tm) (fraction : Z) : list Z :=
  date_struct tm ++ time_struct tm ++ le_bytes 4 fraction.

Context `{Calendar}.

Definition PutDate (b : ApplicationDataBuffer) (value : Date) (m : mem) : put_result :=
  let tmTime := DateToCTm value in
  match adb_type b with
  | AI_CHAR => put_char_text b 10 (date_text tmTime) m
  | AI_WCHAR => put_wide_text b 10 11 (date_text tmTime) m
  | AI_TDATE => let* m := put_struct b sizeof_DATE_STRUCT (date_struct tmTime) m in Ok (AI_SUCCESS, m)
  | AI_TTIME => let* m := put_struct b sizeof_TIME_STRUCT (time_struct tmTime) m in Ok (AI_SUCCESS, m)
  | AI_TTIMESTAMP =>
      let* m := put_struct b sizeof_TIMESTAMP_STRUCT (timestamp_struct tmTime 0) m in Ok (AI_SUCCESS, m)
  | _ => Ok (AI_UNSUPPORTED_CONVERSION, m)
  end.

Definition PutTimestamp (b : ApplicationDataBuffer) (value : Timestamp) (m : mem) : put_result :=
  let tmTime := TimestampToCTm value in
  match adb_type b with
  | AI_CHAR => put_char_text b 19 (timestamp_text tmTime) m
  | AI_WCHAR => put_wide_text b 19 (GetSize b) (timestamp_text tmTime) m
  | AI_TDATE =>
      let* m := put_struct b sizeof_DATE_STRUCT (date_struct tmTime) m in Ok (AI_FRACTIONAL_TRUNCATED, m)
  | AI_TTIME =>
      let* m := put_struct b sizeof_TIME_STRUCT (time_struct tmTime) m in Ok (AI_FRACTIONAL_TRUNCATED, m)
  | AI_TTIMESTAMP =>
      let* m := put_struct b sizeof_TIMESTAMP_STRUCT (timestamp_struct tmTime (fractionNs value)) m in
      Ok (AI_SUCCESS, m)
  | _ => Ok (AI_UNSUPPORTED_CONVERSION, m)
  end.

Definition PutTime (b : ApplicationDataBuffer) (value : Time) (m : mem) : put_result :=
  let tmTime := TimeToCTm value in
  match adb_type b with
  | AI_CHAR => put_char_text b 8 (time_text tmTime) m
  | AI_WCHAR => put_wide_text b 8 (GetSize b) (time_text tmTime) m
  | AI_TTIME => let* m := put_struct b sizeof_TIME_STRUCT (time_struct tmTime) m in Ok (AI_SUCCESS, m)
  | AI_TTIMESTAMP =>
      let* m := put_struct b sizeof_TIMESTAMP_STRUCT (timestamp_struct tmTime 0) m in Ok (AI_SUCCESS, m)
  | _ => Ok (AI_UNSUPPORTED_CONVERSION, m)
  end.

(** * PutNum and its callers *)

(** The bytes of [SQL_NUMERIC_STRUCT]. *)
Definition numeric_struct (precision sc sgn : Z) (val : list Z) : list Z :=
  [precision mod 256; sc mod 256; sgn] ++ val.

(** [PutNum<T>] for the signed integer type of [tsize] bytes. *)
Definition PutNum (b : ApplicationDataBuffer) (tsize value : Z) (m : mem) : put_result :=
  match adb_type b with
  | AI_SIGNED_TINYINT => PutNumToNumBuffer b 1 value m
  | AI_BIT | AI_UNSIGNED_TINYINT => PutNumToNumBuffer b 1 value m
  | AI_SIGNED_SHORT => PutNumToNumBuffer b 2 value m
  | AI_UNSIGNED_SHORT => PutNumToNumBuffer b 2 value m
  | AI_SIGNED_LONG => PutNumToNumBuffer b 4 value m
  | AI_UNSIGNED_LONG => PutNumToNumBuffer b 4 value m
  | AI_SIGNED_BIGINT => PutNumToNumBuffer b 8 value m
  | AI_UNSIGNED_BIGINT => PutNumToNumBuffer b 8 value m
  | AI_FLOAT => PutNumToNumBuffer b 4 (int_to_float value) m
  | AI_DOUBLE => PutNumToNumBuffer b 8 (int_to_double value) m
  | AI_CHAR => PutValToStrBuffer b false value m
  | AI_WCHAR => PutValToStrBuffer b true value m
  | AI_NUMERIC =>
      let* m :=
        if GetData b =? 0 then Ok m else
        let* magn := checked (8 * Z.max tsize 4) (if value <? 0 then - value else value) in
        let uval := u64 magn in
        st (GetData b)
          (numeric_struct (DigitLength uval) 0 (if value <? 0 then 0 else 1)
             (le_bytes 8 uval ++ replicate 8 0)) m in
      let* m := put_len b sizeof_NUMERIC_STRUCT m in
      Ok (AI_SUCCESS, m)
  | AI_BINARY | AI_DEFAULT =>
      let* m := put_data b (take (Z.to_nat (Z.min tsize (u64 (adb_buflen b)))) (le_bytes (Z.to_nat tsize) value)) m in
      let* m := put_len b tsize m in
      Ok (if u64 (adb_buflen b) <? tsize then AI_VARLEN_DATA_TRUNCATED else AI_SUCCESS, m)
  | AI_TDATE => PutDate b (MkDate value) m
  | AI_TTIMESTAMP => PutTimestamp b (timestamp_of_ms value) m
  | AI_TTIME => PutTime b (MkTime value) m
  | AI_GUID | AI_UNSUPPORTED => Ok (AI_UNSUPPORTED_CONVERSION, m)
  end.

Definition PutInt8 (b : ApplicationDataBuffer) (value : Z) := PutNum b 1 value.
Definition PutInt16 (b : ApplicationDataBuffer) (value : Z) := PutNum b 2 value.
Definition PutInt32 (b : ApplicationDataBuffer) (value : Z) := PutNum b 4 value.
Definition PutInt64 (b : ApplicationDataBuffer) (value : Z) := PutNum b 8 value.

(** The overloads that take an optional value. *)
Definition put_optional {A} (b : ApplicationDataBuffer) (put : A -> mem -> put_result)
    (value : option A) (m : mem) : put_result :=
  match value with
  | Some v => put v m
  | None => PutNull b m
  end.

Definition PutInt8Opt (b : ApplicationDataBuffer) := put_optional b (PutInt8 b).
Definition PutInt16Opt (b : ApplicationDataBuffer) := put_optional b (PutInt16 b).
Definition PutInt32Opt (b : ApplicationDataBuffer) := put_optional b (PutInt32 b).
Definition PutInt64Opt (b : ApplicationDataBuffer) := put_optional b (PutInt64 b).
Definition PutDateOpt (b : ApplicationDataBuffer) := put_optional b (PutDate b).
Definition PutTimestampOpt (b : ApplicationDataBuffer) := put_optional b (PutTimestamp b).
Definition PutTimeOpt (b : ApplicationDataBuffer) := put_optional b (PutTime b).

(** [PutNum<double>], the branches that [PutString] reaches. *)
Definition PutNumDouble (b : ApplicationDataBuffer) (bits : Z) (m : mem) : put_result :=
  match adb_type b with
  | AI_FLOAT => PutNumToNumBuffer b 4 (double_to_float bits) m
  | _ => PutNumToNumBuffer b 8 bits m
  end.

(** [int64_t numValue; converter >> numValue]: nothing is stored in the variable when
    there is no character to read. *)
Definition read_int64 (value : list Z) : outcome Z Z :=
  let cs := skip_ws (map (fun c => ascii_of_N (Z.to_N c)) value) in
  match cs with
  | [] => UB
  | c :: t =>
      let '(sgn, cs) := if code c =? 45 then (-1, t) else if code c =? 43 then (1, t) else (1, cs) in
      let '(ds, _) := span_digits cs in
      let v := sgn * foldl (fun a c => a * 10 + (code c - 48)) 0 ds in
      Ok (Z.max (- 2 ^ 63) (Z.min v (2 ^ 63 - 1)))
  end.

(** [PutString(value, written)]. *)
Definition PutStringWritten (b : ApplicationDataBuffer) (value : list Z) (m : mem)
    : outcome Z (ConversionResult * Z * mem) :=
  match adb_type b with
  | AI_SIGNED_TINYINT | AI_BIT | AI_UNSIGNED_TINYINT | AI_SIGNED_SHORT | AI_UNSIGNED_SHORT
  | AI_SIGNED_LONG | AI_UNSIGNED_LONG | AI_SIGNED_BIGINT | AI_UNSIGNED_BIGINT | AI_NUMERIC =>
      let* numValue := read_int64 value in
      let* (r, m) := PutNum b 8 numValue m in
      Ok (r, i32 (Z.of_nat (length value)), m)
  | AI_FLOAT | AI_DOUBLE =>
      let* (r, m) := PutNumDouble b (parse_double value) m in
      Ok (r, i32 (Z.of_nat (length value)), m)
  | AI_CHAR | AI_BINARY | AI_DEFAULT => PutStrToStrBuffer b false value m
  | AI_WCHAR => PutStrToStrBuffer b true value m
  | _ => Ok (AI_UNSUPPORTED_CONVERSION, 0, m)
  end.

Definition PutString (b : ApplicationDataBuffer) (value : list Z) (m : mem) : put_result :=
  drop_written (PutStringWritten b value m).
Definition PutStringOpt (b : ApplicationDataBuffer) := put_optional b (PutString b).

(** [std::hex << std::setfill('0') << std::setw(2)] of a byte. *)
Definition hex_digit (d : Z) : Z := if d <? 10 then 48 + d else 87 + d.
Definition hex_text (data : list Z) : list Z :=
  concat (map (fun x => [hex_digit (x / 16); hex_digit (x mod 16)]) data).

Definition PutBinaryData (b : ApplicationDataBuffer) (data : list Z) (m : mem)
    : outcome Z (ConversionResult * Z * mem) :=
  match adb_type b with
  | AI_BINARY | AI_DEFAULT => PutRawDataToBuffer b data m
  | AI_CHAR => PutStrToStrBuffer b false (hex_text data) m
  | AI_WCHAR => PutStrToStrBuffer b true (hex_text data) m
  | _ => Ok (AI_UNSUPPORTED_CONVERSION, 0, m)
  end.

(** [operator<<] of a GUID. *)
Fixpoint hex_of (n : nat) (z : Z) : list Z :=
  match n with
  | O => []
  | S k => hex_of k (z / 16) ++ [hex_digit (z mod 16)]
  end.

Definition guid_text (g : Guid) : list Z :=
  hex_of 8 (u32 (most g ≫ 32)) ++ [45] ++ hex_of 4 (u16 (most g ≫ 16)) ++ [45] ++ hex_of 4 (u16 (most g))
  ++ [45] ++ hex_of 4 (u16 (least g ≫ 48)) ++ [45] ++ hex_of 12 (Z.land (least g) 0x0000FFFFFFFFFFFF).

(** The fields of [SQLGUID]. *)
Definition guid_struct (g : Guid) : list Z :=
  let lsb := u64 (least g) in
  le_bytes 4 (most g ≫ 32) ++ le_bytes 2 (most g ≫ 16) ++ le_bytes 2 (most g)
  ++ map (fun i => Z.land (lsb ≫ ((8 - Z.of_nat i - 1) * 8)) 0xFF) (seq 0 8).

Definition PutGuid (b : ApplicationDataBuffer) (value : Guid) (m : mem) : put_result :=
  match adb_type b with
  | AI_CHAR | AI_BINARY | AI_DEFAULT => drop_written (PutStrToStrBuffer b false (guid_text value) m)
  | AI_WCHAR => drop_written (PutStrToStrBuffer b true (guid_text value) m)
  | AI_GUID => let* m := put_struct b sizeof_GUID (guid_struct value) m in Ok (AI_SUCCESS, m)
  | _ => Ok (AI_UNSUPPORTED_CONVERSION, m)
  end.

(** The [val] bytes of a numeric, lowest first, from bytes with the highest first. *)
Definition numeric_bytes (bytes : list Z) : list Z :=
  map (fun i => if (i <? length bytes)%nat then u8 (nth (length bytes - 1 - i) bytes 0) else 0) (seq 0 16).

(** The double conversion goes through text and is the caller's. *)
Definition PutDecimal (b : ApplicationDataBuffer) (value : Decimal) (toDouble : Decimal -> Z) (m : mem)
    : put_result :=
  match adb_type b with
  | AI_SIGNED_TINYINT | AI_BIT | AI_UNSIGNED_TINYINT | AI_SIGNED_SHORT | AI_UNSIGNED_SHORT
  | AI_SIGNED_LONG | AI_UNSIGNED_LONG | AI_SIGNED_BIGINT | AI_UNSIGNED_BIGINT =>
      let* v := dec_ToInt64 value in
      let* (_, m) := PutNum b 8 v m in
      Ok (AI_FRACTIONAL_TRUNCATED, m)
  | AI_FLOAT | AI_DOUBLE =>
      let* (_, m) := PutNumDouble b (toDouble value) m in
      Ok (AI_FRACTIONAL_TRUNCATED, m)
  | AI_CHAR | AI_WCHAR =>
      let* s := print_decimal value in
      PutString b (text s) m
  | AI_NUMERIC =>
      let* zeroScaled := SetScale value 0 dec_zero in
      let unscaled := magnitude zeroScaled in
      let bytesBuffer := MagnitudeToBytes unscaled in
      match GetPrecision unscaled with
      | None => UB
      | Some precision =>
          let* m := st (GetData b)
            (numeric_struct precision 0 (if sign unscaled <? 0 then 0 else 1) (numeric_bytes bytesBuffer)) m in
          let* m := put_len b sizeof_NUMERIC_STRUCT m in
          Ok (if SQL_MAX_NUMERIC_LEN <? Z.of_nat (length bytesBuffer)
              then AI_FRACTIONAL_TRUNCATED else AI_SUCCESS, m)
      end
  | _ => Ok (AI_UNSUPPORTED_CONVERSION, m)
  end.

Definition PutDecimalOpt (b : ApplicationDataBuffer) (value : option Decimal) (toDouble : Decimal -> Z)
    : mem -> put_result := put_optional b (fun v => PutDecimal b v toDouble) value.

End dates.

(** * Reading text back *)

Lemma text_inverse s : map (fun c => ascii_of_N (Z.to_N c)) (text s) = s.
Proof.
  unfold text. rewrite map_map. induction s as [|c s IH]; [done|]. cbn [map]. rewrite IH. f_equal.
  unfold code. by rewrite N2Z.id, ascii_N_embedding.
Qed.

Lemma read_int64_numeral n : 0 <= n < 2 ^ 63 -> read_int64 (text (print_u64 n)) = Ok n.
Proof.
  intros Hn. destruct (print_u64_spec n ltac:(lia)) as (Hne & Hd & Hv & _). unfold read_int64.
  rewrite text_inverse. destruct (print_u64 n) as [|c t]; [done|]. pose proof (Forall_inv Hd) as Hc.
  cbn [skip_ws]. rewrite digit_not_space by done.
  pose proof (digit_not_sign c Hc) as Hs. apply orb_false_iff in Hs as [-> ->].
  pose proof (span_digits_spec (c :: t) [] Hd ltac:(done)) as E. rewrite app_nil_r in E. rewrite E.
  f_equal. change (foldl _ 0 (c :: t)) with (dval (c :: t)). lia.
Qed.
