(* ===== verification/AppRead.v ===== *)
(** Application buffers, reading: the [Get] operations of
    [src/src/odbc/src/app/application_data_buffer.cpp], which convert what the
    application put into a parameter buffer. *)
From S2P Require Import Prelude Bits Memory Utf8 Chrono BigInteger BigText Decimal BigBytes TypeTraits AppBuffer.

Definition SQL_DATA_AT_EXEC : Z := -2.
Definition SQL_LEN_DATA_AT_EXEC_OFFSET : Z := -100.

(** The value of the length indicator, when there is one. *)
Definition read_len (b : ApplicationDataBuffer) (m : mem) : outcome Z (option Z) :=
  if GetResLen b =? 0 then Ok None else
  let* bs := ld (GetResLen b) 8 m in Ok (Some (i64 (le_val bs))).

Definition IsDataAtExec (b : ApplicationDataBuffer) (m : mem) : outcome Z bool :=
  let* len := read_len b m in
  match len with
  | None => Ok false
  | Some v => let ilen := i32 v in
              Ok ((ilen <=? SQL_LEN_DATA_AT_EXEC_OFFSET) || (ilen =? SQL_DATA_AT_EXEC))
  end.

Section reading.
Context `{Platform}.

Definition GetDataAtExecSize (b : ApplicationDataBuffer) (m : mem) : outcome Z Z :=
  match adb_type b with
  | AI_WCHAR | AI_CHAR | AI_BINARY =>
      let* len := read_len b m in
      match len with
      | None => Ok 0
      | Some v =>
          let ilen := i32 v in
          let ilen := if ilen <=? SQL_LEN_DATA_AT_EXEC_OFFSET
                      then i32 (- ilen + SQL_LEN_DATA_AT_EXEC_OFFSET) else 0 in
          Ok (if bool_decide (adb_type b = AI_WCHAR) then i32 (ilen * 2) else ilen)
      end
  | AI_SIGNED_SHORT | AI_UNSIGNED_SHORT => Ok 2
  | AI_SIGNED_LONG | AI_UNSIGNED_LONG => Ok sizeof_long
  | AI_FLOAT => Ok 4
  | AI_DOUBLE => Ok 8
  | AI_BIT | AI_SIGNED_TINYINT | AI_UNSIGNED_TINYINT => Ok 1
  | AI_SIGNED_BIGINT | AI_UNSIGNED_BIGINT => Ok 8
  | AI_TDATE => Ok sizeof_DATE_STRUCT
  | AI_TTIME => Ok sizeof_TIME_STRUCT
  | AI_TTIMESTAMP => Ok sizeof_TIMESTAMP_STRUCT
  | AI_NUMERIC => Ok sizeof_NUMERIC_STRUCT
  | AI_GUID => Ok sizeof_GUID
  | AI_DEFAULT | AI_UNSUPPORTED => Ok 0
  end.

Definition GetInputSize (b : ApplicationDataBuffer) (m : mem) : outcome Z Z :=
  let* atExec := IsDataAtExec b m in
  if atExec : bool then GetDataAtExecSize b m else
  let* len := read_len b m in
  Ok (default SQL_NTS len).

(** The text of a character or wide character parameter; [None] when its size is 0. *)
Definition input_text (b : ApplicationDataBuffer) (m : mem) : outcome Z (option (list Z)) :=
  let* paramLen := GetInputSize b m in
  if paramLen =? 0 then Ok None else
  let* s := if bool_decide (adb_type b = AI_WCHAR)
            then SqlWcharToString (GetData b) (i32 paramLen) true m
            else SqlCharToString (GetData b) (i32 paramLen) m in
  Ok (Some s).

(** The first branches of [GetString]: the text, cut to [maxLen] bytes. *)
Definition get_text (b : ApplicationDataBuffer) (maxLen : Z) (m : mem) : outcome Z (list Z) :=
  let* s := input_text b m in
  Ok match s with
     | None => []
     | Some res => take (Z.to_nat (Z.min maxLen (Z.of_nat (length res)))) res
     end.

(** * Numbers *)

(** The integer part of the floating-point number with the given bits. *)
Definition trunc_float (prec emax bits : Z) : option Z :=
  let frac := bits mod 2 ^ (prec - 1) in
  let biased := bits / 2 ^ (prec - 1) mod (2 * emax) in
  let neg := 2 ^ (prec - 1) * (2 * emax) <=? bits in
  if biased =? 2 * emax - 1 then None else
  let m := if biased =? 0 then frac else frac + 2 ^ (prec - 1) in
  let e := 3 - emax - prec + (if biased =? 0 then 0 else biased - 1) in
  let v := if 0 <=? e then m * 2 ^ e else m / 2 ^ (- e) in
  Some (if neg then - v else v).

(** An integer type: its size in bytes and whether it is signed. *)
Definition in_type (tsize : Z) (sgd : bool) (v : Z) : bool :=
  if sgd then bool_decide (inS (8 * tsize) v) else bool_decide (inU (8 * tsize) v).
Definition cast (tsize : Z) (sgd : bool) (v : Z) : Z :=
  if sgd then wrapS (8 * tsize) v else wrapU (8 * tsize) v.

(** A conversion of a floating-point number out of the range is undefined. *)
Definition cast_float (tsize : Z) (sgd : bool) (v : option Z) : outcome Z Z :=
  match v with
  | Some v => if in_type tsize sgd v then Ok v else UB
  | None => UB
  end.

(** [converter >> res] for a signed integer of [w] bits that holds [old]. *)
Definition read_number_text (w old : Z) (value : list Z) : Z :=
  match read_int64 value with
  | Ok v => Z.max (- 2 ^ (w - 1)) (Z.min v (2 ^ (w - 1) - 1))
  | _ => old
  end.

Definition get_fixed (b : ApplicationDataBuffer) (size : Z) (sgd : bool) (m : mem) : outcome Z Z :=
  let* bs := ld (GetData b) (Z.to_nat size) m in Ok (cast size sgd (le_val bs)).

(** [SQL_NUMERIC_STRUCT] as a decimal. *)
Definition get_numeric (b : ApplicationDataBuffer) (m : mem) : outcome Z Decimal :=
  let* bs := ld (GetData b) 19 m in
  Ok (dec_of_bytes (map i8 (drop 3 bs)) (i8 (nth 1 bs 0)) (if nth 2 bs 0 =? 0 then -1 else 1) false).

(** [GetNum<T>] for an integer type; the text branches are for signed types. *)
Definition GetNum (b : ApplicationDataBuffer) (tsize : Z) (sgd : bool) (m : mem) : outcome Z Z :=
  match adb_type b with
  | AI_CHAR | AI_WCHAR =>
      let* paramLen := GetInputSize b m in
      if paramLen =? 0 then Ok 0 else
      let* str := get_text b (u64 paramLen) m in
      if tsize =? 1
      then match read_int64 str with
           | Ok _ => Ok (cast 1 sgd (read_number_text 16 0 str))
           | _ => UB
           end
      else Ok (read_number_text (8 * tsize) 0 str)
  | AI_SIGNED_TINYINT => let* v := get_fixed b 1 true m in Ok (cast tsize sgd v)
  | AI_BIT | AI_UNSIGNED_TINYINT => let* v := get_fixed b 1 false m in Ok (cast tsize sgd v)
  | AI_SIGNED_SHORT => let* v := get_fixed b 2 true m in Ok (cast tsize sgd v)
  | AI_UNSIGNED_SHORT => let* v := get_fixed b 2 false m in Ok (cast tsize sgd v)
  | AI_SIGNED_LONG => let* v := get_fixed b sizeof_long true m in Ok (cast tsize sgd v)
  | AI_UNSIGNED_LONG => let* v := get_fixed b sizeof_long false m in Ok (cast tsize sgd v)
  | AI_SIGNED_BIGINT => let* v := get_fixed b 8 true m in Ok (cast tsize sgd v)
  | AI_UNSIGNED_BIGINT => let* v := get_fixed b 8 false m in Ok (cast tsize sgd v)
  | AI_FLOAT => let* v := get_fixed b 4 false m in cast_float tsize sgd (trunc_float 24 128 v)
  | AI_DOUBLE => let* v := get_fixed b 8 false m in cast_float tsize sgd (trunc_float 53 1024 v)
  | AI_NUMERIC =>
      let* dec := get_numeric b m in
      let* v := dec_ToInt64 dec in
      Ok (cast tsize sgd v)
  | _ => Ok 0
  end.

Definition GetInt8 (b : ApplicationDataBuffer) := GetNum b 1 true.
Definition GetInt16 (b : ApplicationDataBuffer) := GetNum b 2 true.
Definition GetInt32 (b : ApplicationDataBuffer) := GetNum b 4 true.
Definition GetInt64 (b : ApplicationDataBuffer) := GetNum b 8 true.

Definition GetString (b : ApplicationDataBuffer) (maxLen : Z) (m : mem) : outcome Z (list Z) :=
  match adb_type b with
  | AI_CHAR | AI_WCHAR => get_text b maxLen m
  | AI_SIGNED_TINYINT | AI_SIGNED_SHORT | AI_SIGNED_LONG | AI_SIGNED_BIGINT =>
      let* v := GetNum b 8 true m in Ok (text (print_int v))
  | AI_BIT | AI_UNSIGNED_TINYINT | AI_UNSIGNED_SHORT | AI_UNSIGNED_LONG | AI_UNSIGNED_BIGINT =>
      let* v := GetNum b 8 false m in Ok (text (print_u64 v))
  | AI_FLOAT => let* v := get_fixed b 4 false m in Ok (print_float v)
  | AI_DOUBLE => let* v := get_fixed b 8 false m in Ok (print_double v)
  | AI_NUMERIC =>
      let* dec := get_numeric b m in
      let* v := dec_ToInt64 dec in
      Ok (print_double (int_to_double v))
  | _ => Ok []
  end.

Definition GetDecimal (b : ApplicationDataBuffer) (val : Decimal) (ofDouble : Z -> Decimal) (m : mem)
    : outcome Z Decimal :=
  match adb_type b with
  | AI_CHAR | AI_WCHAR =>
      let* paramLen := GetInputSize b m in
      if paramLen =? 0 then Ok val else
      let* str := GetString b (u64 paramLen) m in
      match parse_decimal (map (fun c => ascii_of_N (Z.to_N c)) str) with
      | Some (d, _) => Ok d
      | None => UB
      end
  | AI_SIGNED_TINYINT | AI_BIT | AI_SIGNED_SHORT | AI_SIGNED_LONG | AI_SIGNED_BIGINT =>
      let* v := GetNum b 8 true m in Ok (dec_AssignInt64 v)
  | AI_UNSIGNED_TINYINT | AI_UNSIGNED_SHORT | AI_UNSIGNED_LONG | AI_UNSIGNED_BIGINT =>
      let* v := GetNum b 8 false m in Ok (dec_AssignUint64 v)
  | AI_FLOAT => let* v := get_fixed b 4 false m in Ok (ofDouble (float_to_double v))
  | AI_DOUBLE => let* v := get_fixed b 8 false m in Ok (ofDouble v)
  | AI_NUMERIC => get_numeric b m
  | _ => Ok (dec_AssignInt64 0)
  end.

(** * GUIDs *)

(** [static_cast<uint64_t>(guid->Data4[i] << n)]: the byte is shifted as an [int]. *)
Definition shift_int (x n : Z) : outcome Z Z :=
  if n <? 32 then (let* v := checked 32 (x ≪ n) in Ok (u64 v)) else UB.

Fixpoint guid_lsb (data4 : list Z) (lsb : Z) : outcome Z Z :=
  match data4 with
  | [] => Ok lsb
  | x :: t =>
      let* v := shift_int x (Z.of_nat (length t) * 8) in
      guid_lsb t v
  end.

Definition guid_of_struct (bs : list Z) : outcome Z Guid :=
  let msb := Z.lor (Z.lor (le_val (take 4 bs) ≪ 32) (le_val (take 2 (drop 4 bs)) ≪ 16))
                   (le_val (take 2 (drop 6 bs))) in
  let* lsb := guid_lsb (take 8 (drop 8 bs)) 0 in
  Ok (MkGuid (i64 msb) (i64 lsb)).

(** The text branches read with [parseGuid], the stream operator. *)
Definition GetGuid (b : ApplicationDataBuffer) (parseGuid : list Z -> Guid) (m : mem) : outcome Z Guid :=
  match adb_type b with
  | AI_CHAR | AI_WCHAR =>
      let* s := input_text b m in
      Ok match s with
         | None => MkGuid 0 0
         | Some str => parseGuid str
         end
  | AI_GUID => let* bs := ld (GetData b) 16 m in guid_of_struct bs
  | _ => Ok (MkGuid 0 0)
  end.

(** * Dates *)

(** [sscanf] with a format of [%d] directives between single separators: the
    numbers assigned before the first mismatch.  White space before a number is
    skipped, and a space in the format matches any white space. *)
Fixpoint scan_ints (seps : list Z) (cs : list ascii) : list Z :=
  let '(sgn, ds_in) :=
    match skip_ws cs with
    | c :: t => if code c =? 45 then (-1, t) else if code c =? 43 then (1, t) else (1, skip_ws cs)
    | [] => (1, [])
    end in
  let '(ds, rest) := span_digits ds_in in
  match ds with
  | [] => []
  | _ =>
      let v := i32 (sgn * foldl (fun a c => a * 10 + (code c - 48)) 0 ds) in
      match seps with
      | [] => [v]
      | sep :: more =>
          if sep =? 32 then v :: scan_ints more rest else
          match rest with
          | c :: t => if code c =? sep then v :: scan_ints more t else [v]
          | [] => [v]
          end
      end
  end.

Definition scan_text (seps : list Z) (s : list Z) : list Z :=
  scan_ints seps (map (fun c => ascii_of_N (Z.to_N c)) s).

(** ["%d-%d-%d %d:%d:%d"] into the fields of a zeroed [struct tm], and the adjustment. *)
Definition tm_of_text (s : list Z) : Tm :=
  let v := scan_text [45; 45; 32; 58; 58] s in
  MkTm (nth 0 v 0 - 1900) (nth 1 v 0 - 1) (nth 2 v 0) (nth 3 v 0) (nth 4 v 0) (nth 5 v 0).

Definition i16_at (bs : list Z) (i : nat) : Z := i16 (le_val (take 2 (drop i bs))).
Definition u16_at (bs : list Z) (i : nat) : Z := le_val (take 2 (drop i bs)).

Definition tm_of_date (bs : list Z) : Tm :=
  MkTm (i16_at bs 0 - 1900) (u16_at bs 2 - 1) (u16_at bs 4) 0 0 0.
Definition tm_of_time (bs : list Z) : Tm := MkTm 70 0 1 (u16_at bs 0) (u16_at bs 2) (u16_at bs 4).
Definition tm_of_timestamp (bs : list Z) : Tm :=
  MkTm (i16_at bs 0 - 1900) (u16_at bs 2 - 1) (u16_at bs 4) (u16_at bs 6) (u16_at bs 8) (u16_at bs 10).

Context `{Calendar}.

Definition GetDate (b : ApplicationDataBuffer) (m : mem) : outcome Z Date :=
  let* tmTime :=
    match adb_type b with
    | AI_TDATE => let* bs := ld (GetData b) 6 m in Ok (tm_of_date bs)
    | AI_TTIME => let* bs := ld (GetData b) 6 m in Ok (tm_of_time bs)
    | AI_TTIMESTAMP => let* bs := ld (GetData b) 16 m in Ok (tm_of_timestamp bs)
    | AI_CHAR | AI_WCHAR =>
        let* s := input_text b m in
        Ok match s with
           | None => tm_zero
           | Some str => tm_of_text str
           end
    | _ => Ok tm_zero
    end in
  CTmToDate tmTime.

Definition GetTimestamp (b : ApplicationDataBuffer) (m : mem) : outcome Z Timestamp :=
  let* (tmTime, nanos) :=
    match adb_type b with
    | AI_TDATE => let* bs := ld (GetData b) 6 m in Ok (tm_of_date bs, 0)
    | AI_TTIME => let* bs := ld (GetData b) 6 m in Ok (tm_of_time bs, 0)
    | AI_TTIMESTAMP =>
        let* bs := ld (GetData b) 16 m in Ok (tm_of_timestamp bs, i32 (le_val (drop 12 bs)))
    | AI_CHAR | AI_WCHAR =>
        let* s := input_text b m in
        Ok match s with
           | None => (tm_zero, 0)
           | Some str => (tm_of_text str, 0)
           end
    | _ => Ok (tm_zero, 0)
    end in
  CTmToTimestamp tmTime nanos.

(** ["%d:%d:%d"]; fields that are not read keep midnight. *)
Definition GetTime (b : ApplicationDataBuffer) (m : mem) : outcome Z Time :=
  let* tmTime :=
    match adb_type b with
    | AI_TTIME => let* bs := ld (GetData b) 6 m in Ok (tm_of_time bs)
    | AI_TTIMESTAMP =>
        let* bs := ld (GetData b) 16 m in
        Ok (MkTm 70 0 1 (u16_at bs 6) (u16_at bs 8) (u16_at bs 10))
    | AI_CHAR | AI_WCHAR =>
        let* s := input_text b m in
        Ok match s with
           | None => MkTm 70 0 1 0 0 0
           | Some str =>
               let v := scan_text [58; 58] str in MkTm 70 0 1 (nth 0 v 0) (nth 1 v 0) (nth 2 v 0)
           end
    | _ => Ok (MkTm 70 0 1 0 0 0)
    end in
  CTmToTime tmTime.

End reading.
