(* ===== verification/AppProps.v ===== *)
(** Properties of the application buffers: what the [Put] operations write and
    where, and what the [Get] operations read back. *)
From S2P Require Import Prelude Bits Memory Utf8 Chrono BigInteger BigText Decimal BigBytes TypeTraits.
From S2P Require Import AppBuffer AppRead.

(** The place a value of [size] bytes goes to is allocated, and so is the length
    indicator, if there is one, apart from it. *)
Definition bound (b : ApplicationDataBuffer) (size : Z) (m : mem) : Prop :=
  GetData b <> 0 /\ mapped (GetData b) size m
  /\ (GetResLen b = 0 \/
      mapped (GetResLen b) 8 m
      /\ (GetResLen b + 8 <= GetData b \/ GetData b + size <= GetResLen b)).

(** Only the value and the indicator change. *)
Definition writes (b : ApplicationDataBuffer) (size : Z) (m m' : mem) : Prop :=
  forall x, ~ (GetData b <= x < GetData b + size) ->
    (GetResLen b = 0 \/ ~ (GetResLen b <= x < GetResLen b + 8)) -> m' !! x = m !! x.

(** The indicator says [v]. *)
Definition reports (b : ApplicationDataBuffer) (v : Z) (m : mem) : Prop :=
  GetResLen b <> 0 -> load (GetResLen b) 8 m = Some (le_bytes 8 v).

Lemma put_len_spec b size v m :
  bound b size m ->
  exists m', put_len b v m = Ok m' /\ reports b v m'
    /\ (forall x, (GetResLen b = 0 \/ ~ (GetResLen b <= x < GetResLen b + 8)) -> m' !! x = m !! x)
    /\ (forall x, GetData b <= x < GetData b + size -> m' !! x = m !! x)
    /\ bound b size m'.
Proof.
  intros (Hd & Hm & Hr). unfold put_len. destruct (Z.eqb_spec (GetResLen b) 0) as [E|E].
  - exists m. split; [done|]. split; [by intros ?|]. split; [done|]. split; [done|].
    split; [done|]. auto.
  - destruct Hr as [?|[Hmr Hdis]]; [done|].
    destruct (st_ok (GetResLen b) (le_bytes 8 v) m) as (m' & -> & Hl & Hch & Hmap);
      rewrite le_bytes_length in *; [done|].
    exists m'. split; [done|]. split; [by intros _|].
    split; [intros x [?|Hx]; [done|]; apply Hch; simpl; lia|].
    split; [intros x Hx; apply Hch; simpl; lia|]. split; [done|]. split; [by apply Hmap|].
    right. split; [by apply Hmap|lia].
Qed.

(** Storing the value and reporting its length, in this order. *)
Lemma store_report b size bs v m :
  bound b size m -> Z.of_nat (length bs) <= size ->
  exists m', (let* m := st (GetData b) bs m in put_len b v m) = Ok m'
    /\ load (GetData b) (length bs) m' = Some bs /\ reports b v m' /\ writes b size m m'
    /\ bound b size m'.
Proof.
  intros Hb Hlen. pose proof Hb as (Hd & Hm & Hr).
  destruct (st_ok (GetData b) bs m) as (m1 & -> & Hl & Hch & Hmap); [by eapply mapped_less|].
  cbn [obind]. destruct (put_len_spec b size v m1) as (m2 & -> & Hrep & Hx & Hdata & Hb2).
  { split; [done|]. split; [by apply Hmap|]. destruct Hr as [?|[Hmr Hdis]]; [by left|].
    right. split; [by apply Hmap|done]. }
  exists m2. split; [done|]. split; [|split; [done|split; [|done]]].
  - rewrite <- Hl. apply load_ext. intros x Hx'. apply Hdata. lia.
  - intros x Hx1 Hx2. rewrite Hx by done. apply Hch. lia.
Qed.

Lemma reports_value b v m : reports b v m -> inS 64 v -> GetResLen b <> 0 -> read_len b m = Ok (Some v).
Proof.
  intros Hr Hv Hn. unfold read_len. rewrite (proj2 (Z.eqb_neq _ _) Hn). unfold ld. rewrite (Hr Hn).
  cbn [obind]. do 2 f_equal. rewrite le_val_bytes.
  change (2 ^ (8 * Z.of_nat 8)) with (2 ^ 64). fold (wrapU 64 v).
  rewrite <- (wrapS_small 64 v) at 2 by (done || lia).
  rewrite !wrapS_cases by lia. rewrite (wrapU_small 64 (wrapU 64 v)); [done|]. apply wrapU_range. lia.
Qed.

(** * Numbers *)

(** The integer targets with the sizes [PutNum] writes and the signs. *)
Definition integer_targets : list (OdbcNativeType * Z * bool) :=
  [(AI_SIGNED_TINYINT, 1, true); (AI_BIT, 1, false); (AI_UNSIGNED_TINYINT, 1, false);
   (AI_SIGNED_SHORT, 2, true); (AI_UNSIGNED_SHORT, 2, false); (AI_SIGNED_LONG, 4, true);
   (AI_UNSIGNED_LONG, 4, false); (AI_SIGNED_BIGINT, 8, true); (AI_UNSIGNED_BIGINT, 8, false)].

Definition is_long (t : OdbcNativeType) : bool :=
  bool_decide (t = AI_SIGNED_LONG \/ t = AI_UNSIGNED_LONG).

Section numbers.
Context `{PlatformLaws} `{Calendar}.

Lemma put_integer b size sgd tsize value m :
  (adb_type b, size, sgd) ∈ integer_targets ->
  PutNum b tsize value m = PutNumToNumBuffer b size value m.
Proof.
  intros Hin. unfold PutNum, integer_targets in *.
  repeat (apply elem_of_cons in Hin as [[= E -> ->]|Hin]; [by rewrite E|]). by apply elem_of_nil in Hin.
Qed.

Lemma get_integer b size sgd tsize s' m :
  (adb_type b, size, sgd) ∈ integer_targets ->
  GetNum b tsize s' m
  = let* v := get_fixed b (if is_long (adb_type b) then sizeof_long else size) sgd m in
    Ok (cast tsize s' v).
Proof.
  intros Hin. unfold GetNum, integer_targets in *.
  repeat (apply elem_of_cons in Hin as [[= E -> ->]|Hin]; [by rewrite E|]). by apply elem_of_nil in Hin.
Qed.

Lemma integer_size b size sgd :
  (adb_type b, size, sgd) ∈ integer_targets -> size = 1 \/ size = 2 \/ size = 4 \/ size = 8.
Proof.
  intros Hin. unfold integer_targets in Hin.
  repeat (apply elem_of_cons in Hin as [[= _ -> _]|Hin]; [lia|]). by apply elem_of_nil in Hin.
Qed.

Lemma long_size b size sgd :
  (adb_type b, size, sgd) ∈ integer_targets -> is_long (adb_type b) = true -> size = 4.
Proof.
  intros Hin. unfold integer_targets in Hin.
  repeat (apply elem_of_cons in Hin as [[= -> -> _]|Hin]; [done|]). by apply elem_of_nil in Hin.
Qed.

Lemma cast_residue size sgd v :
  (size = 1 \/ size = 2 \/ size = 4 \/ size = 8) ->
  cast size sgd (v mod 2 ^ (8 * size)) = cast size sgd v.
Proof.
  intros Hs. unfold cast. change (v mod 2 ^ (8 * size)) with (wrapU (8 * size) v).
  destruct sgd.
  - rewrite !wrapS_cases by lia. rewrite (wrapU_small (8 * size) (wrapU (8 * size) v)); [done|].
    apply wrapU_range. lia.
  - apply wrapU_small. apply wrapU_range. lia.
Qed.

Lemma put_number_spec b size sgd tsize value m :
  (adb_type b, size, sgd) ∈ integer_targets -> bound b size m ->
  exists m', PutNum b tsize value m = Ok (AI_SUCCESS, m')
    /\ load (GetData b) (Z.to_nat size) m' = Some (le_bytes (Z.to_nat size) value)
    /\ reports b size m' /\ writes b size m m' /\ bound b size m'.
Proof.
  intros Hin Hb. pose proof (integer_size b size sgd Hin) as Hsz. pose proof Hb as (Hd & _).
  rewrite (put_integer b size sgd) by done. unfold PutNumToNumBuffer, put_data.
  rewrite (proj2 (Z.eqb_neq _ _) Hd).
  destruct (store_report b size (le_bytes (Z.to_nat size) value) size m Hb) as (m' & E & Hl & Hr & Hw & Hb');
    [rewrite le_bytes_length; lia|]. rewrite le_bytes_length in Hl. exists m'. split; [|done].
  destruct (st (GetData b) (le_bytes (Z.to_nat size) value) m) as [m1| |]; [|done|done].
  cbn [obind] in *. by rewrite E.
Qed.

End numbers.

(** * Text *)

Section texts.
Context `{PlatformLaws} `{Calendar}.

Lemma put_text_spec b cs m :
  adb_type b = AI_CHAR -> scalars cs -> nonzero cs -> Z.of_nat (length cs) < 2 ^ 31 ->
  0 < adb_buflen b -> bound b (adb_buflen b) m ->
  let kept := take (Z.to_nat (adb_buflen b - 1)) cs in
  exists m', PutString b (encode cs) m
      = Ok (if bool_decide (length kept < length cs)%nat then AI_VARLEN_DATA_TRUNCATED else AI_SUCCESS, m')
    /\ load (GetData b) (S (length kept)) m' = Some (map narrow kept ++ [0])
    /\ reports b (Z.of_nat (length kept)) m' /\ writes b (adb_buflen b) m m'.
Proof.
  intros Ht Hs Hz Hlen Hbl Hb kept. pose proof Hb as (Hd & Hm & Hr).
  unfold PutString, PutStringWritten. rewrite Ht. unfold PutStrToStrBuffer.
  rewrite (proj2 (Z.eqb_neq _ _) Hd). rewrite (proj2 (Z.ltb_ge _ _)) by lia.
  destruct (char_copy_spec cs (GetData b) (adb_buflen b) m Hs Hz Hd Hbl Hm)
    as (m1 & -> & Hch & Hmap & Hl). fold kept in Hl |- *. cbn [obind].
  assert (i32 (Z.of_nat (length kept)) = Z.of_nat (length kept)) as ->.
  { apply wrapS_small; [lia|]. unfold inS. change (2 ^ (32 - 1)) with (2 ^ 31).
    unfold kept. rewrite length_take. lia. }
  destruct (put_len_spec b (adb_buflen b) (Z.of_nat (length kept)) m1) as (m2 & -> & Hrep & Hx & Hdata & _).
  { split; [done|]. split; [by apply Hmap|]. destruct Hr as [?|[Hmr Hdis]]; [by left|].
    right. split; [by apply Hmap|done]. }
  cbn [obind drop_written]. exists m2. split; [done|]. split; [|split; [done|]].
  - rewrite <- Hl. apply load_ext. intros x Hx'. apply Hdata.
    assert (Z.of_nat (S (length kept)) <= adb_buflen b) by (unfold kept; rewrite length_take; lia). lia.
  - intros x Hx1 Hx2. rewrite Hx by done. by apply Hch.
Qed.

(** ** Dates as text *)

Lemma print_u64_digits n : 0 <= n < 10 ^ 20 -> Forall (fun c => 48 <= c < 58) (text (print_u64 n)).
Proof.
  intros Hn. destruct (print_u64_spec n Hn) as (_ & Hd & _). unfold text. apply Forall_forall.
  intros c Hc. apply list_elem_of_fmap in Hc as (a & -> & Ha). unfold digits in Hd.
  rewrite Forall_forall in Hd. specialize (Hd a Ha). apply digit_code in Hd. lia.
Qed.

Lemma two_digits_spec n : 0 <= n < 100 ->
  length (two_digits n) = 2%nat /\ Forall (fun c => 48 <= c < 58) (two_digits n).
Proof.
  intros Hn. assert (n ∈ seqZ 0 100) as Hin by (apply elem_of_seqZ; lia). clear Hn. revert n Hin.
  apply Forall_forall. apply (bool_decide_unpack _). vm_compute. exact I.
Qed.

Lemma year_text y : 1000 <= y <= 9999 ->
  length (text (print_int y)) = 4%nat /\ Forall (fun c => 48 <= c < 58) (text (print_int y)).
Proof.
  intros Hy. unfold print_int. rewrite (proj2 (Z.ltb_ge _ _)), Z.abs_eq by lia. cbn [app].
  split; [|apply print_u64_digits; lia]. unfold text. rewrite length_map.
  pose proof (print_u64_spec y ltac:(lia)) as Hn.
  pose proof (numeral_length _ _ 4 Hn ltac:(lia) ltac:(lia)).
  pose proof (numeral_lower _ _ Hn ltac:(lia)) as Hlow.
  assert (dval (print_u64 y) = y) as Hv by apply Hn.
  pose proof (dval_bounds (print_u64 y) (proj1 (proj2 Hn))) as [_ Hup]. rewrite Hv in Hup.
  destruct (length (print_u64 y)) as [|[|[|[|k]]]] eqn:E; simpl in Hup; try lia.
Qed.

Lemma date_text_spec tm : tm_ranges tm ->
  length (date_text tm) = 10%nat /\ scalars (date_text tm) /\ nonzero (date_text tm)
  /\ Forall (fun c => 0 < c < 128) (date_text tm).
Proof.
  intros (Hy & Hmo & Hd & _).
  destruct (year_text (tm_year tm + 1900) ltac:(lia)) as [Ly Fy].
  destruct (two_digits_spec (tm_mon tm + 1) ltac:(lia)) as [Lm Fm].
  destruct (two_digits_spec (tm_mday tm) ltac:(lia)) as [Ld Fd].
  assert (Forall (fun c => 0 < c < 128) (date_text tm)) as Hall.
  { unfold date_text. repeat (apply Forall_app; split);
      try (eapply Forall_impl; [eassumption|simpl; lia]); by constructor. }
  split; [unfold date_text; rewrite !length_app, Ly, Lm, Ld; done|].
  split; [|split; [|done]].
  - eapply Forall_impl; [exact Hall|]. intros c Hc. apply is_scalar_spec. simpl in Hc. lia.
  - eapply Forall_impl; [exact Hall|]. simpl. lia.
Qed.

Lemma encode_ascii cs : Forall (fun c => 0 < c < 128) cs -> encode cs = cs.
Proof.
  induction 1 as [|c cs Hc _ IH]; [done|]. change (encode (c :: cs)) with (utf8_encode c ++ encode cs).
  rewrite IH. unfold utf8_encode. rewrite (proj2 (Z.ltb_lt _ _)) by lia. done.
Qed.

End texts.

(** * Structures *)

Section structs.
Context `{PlatformLaws} `{CalendarLaws}.

Lemma le_val_2 a : a mod 256 + 256 * (a / 256 mod 256 + 256 * 0) = a mod 65536.
Proof. exact (le_val_bytes 2 a). Qed.

Lemma u16_small a : 0 <= a < 65536 -> a mod 256 + 256 * (a / 256 mod 256 + 256 * 0) = a.
Proof. intros Ha. rewrite le_val_2. by apply Z.mod_small. Qed.

Lemma i16_small a : 0 <= a < 32768 -> i16 (a mod 256 + 256 * (a / 256 mod 256 + 256 * 0)) = a.
Proof.
  intros Ha. rewrite u16_small by lia. apply wrapS_small; [lia|].
  unfold inS. change (2 ^ (16 - 1)) with 32768. lia.
Qed.

Lemma timestamp_struct_read tm fraction :
  tm_ranges tm -> tm_of_timestamp (timestamp_struct tm fraction) = tm.
Proof.
  intros (Hy & Hmo & Hd & Hh & Hmi & Hs). unfold tm_of_timestamp, i16_at, u16_at.
  cbn [timestamp_struct date_struct time_struct le_bytes app drop take le_val].
  rewrite i16_small, !u16_small by lia. destruct tm as [y mo d h mi s]. cbn [tm_year tm_mon tm_mday tm_hour tm_min tm_sec].
  f_equal; lia.
Qed.

Lemma date_struct_read tm : tm_ranges tm -> tm_of_date (date_struct tm) = at_clock tm 0 0 0.
Proof.
  intros (Hy & Hmo & Hd & Hh & Hmi & Hs). unfold tm_of_date, i16_at, u16_at, at_clock.
  cbn [date_struct le_bytes app drop take le_val].
  rewrite i16_small, !u16_small by lia. f_equal; lia.
Qed.

Lemma fraction_read tm fraction :
  0 <= fraction < 2 ^ 31 -> i32 (le_val (drop 12 (timestamp_struct tm fraction))) = fraction.
Proof.
  intros Hf. change (drop 12 (timestamp_struct tm fraction)) with (le_bytes 4 fraction).
  rewrite le_val_bytes. change (2 ^ (8 * Z.of_nat 4)) with (2 ^ 32). rewrite Z.mod_small by lia.
  apply wrapS_small; [lia|]. unfold inS. change (2 ^ (32 - 1)) with (2 ^ 31). lia.
Qed.

Lemma put_struct_spec b bs m :
  bound b (Z.of_nat (length bs)) m ->
  exists m', put_struct b (Z.of_nat (length bs)) bs m = Ok m'
    /\ load (GetData b) (length bs) m' = Some bs /\ reports b (Z.of_nat (length bs)) m'
    /\ writes b (Z.of_nat (length bs)) m m'.
Proof.
  intros Hb. destruct (store_report b (Z.of_nat (length bs)) bs (Z.of_nat (length bs)) m Hb ltac:(lia))
    as (m' & E & Hl & Hr & Hw & _). by exists m'.
Qed.

End structs.

(** * Properties *)



(** On a build where [long] has eight bytes, a 32-bit target is read out of
    bounds: after [PutInt32] into a four-byte buffer, [GetInt32] reads eight bytes. *)
Theorem long_buffer_overread `{PlatformLaws} `{Calendar} b value m :
  sizeof_long = 8 -> is_long (adb_type b) = true -> bound b 4 m -> m !! (GetData b + 4) = None ->
  exists m', PutInt32 b value m = Ok (AI_SUCCESS, m') /\ GetInt32 b m' = UB.
Proof.
  intros Hlong Ht Hb Hn.
  assert (exists sgd, (adb_type b, 4, sgd) ∈ integer_targets) as [sgd Hin].
  { unfold is_long in Ht. apply bool_decide_eq_true in Ht.
    destruct Ht as [-> | ->]; [exists true|exists false]; apply (bool_decide_unpack _); vm_compute; exact I. }
  destruct (put_number_spec b 4 sgd 4 value m Hin Hb) as (m' & Hput & _ & _ & Hw & _).
  exists m'. split; [done|]. unfold GetInt32. rewrite (get_integer b 4 sgd) by done. rewrite Ht, Hlong.
  unfold get_fixed, ld. rewrite (load_fails _ _ _ (GetData b + 4)); [done|lia|].
  rewrite Hw; [done|lia|]. destruct Hb as (_ & _ & [?|[Hmr _]]); [by left|]. right. intros Hx.
  destruct (Hmr _ Hx). congruence.
Qed.

Lemma long_buffer_overread_witness :
  exists m', PutInt32 (ADB AI_SIGNED_LONG 100 4 0 0 0) 7 (alloc 100 4 ∅) = Ok (AI_SUCCESS, m')
    /\ GetInt32 (ADB AI_SIGNED_LONG 100 4 0 0 0) m' = UB.
Proof.
  apply long_buffer_overread; [reflexivity|reflexivity| |].
  - split; [discriminate|]. split; [apply (alloc_mapped 100 4)|]. left. reflexivity.
  - reflexivity.
Defined.

(** C6: [PutString] into a character buffer is safe and says what it did: nothing
    outside the buffer and the length indicator changes; the buffer holds the
    longest prefix that fits with its terminator, narrowed to the locale; the
    result is truncation exactly when characters are missing, and the indicator
    gives the number of characters written. *)
Theorem PutString_char_correct `{PlatformLaws} `{Calendar} b cs m :
  adb_type b = AI_CHAR -> scalars cs -> nonzero cs -> Z.of_nat (length cs) < 2 ^ 31 ->
  0 < adb_buflen b -> bound b (adb_buflen b) m ->
  let kept := take (Z.to_nat (adb_buflen b - 1)) cs in
  exists m', PutString b (encode cs) m
      = Ok (if bool_decide (length kept < length cs)%nat then AI_VARLEN_DATA_TRUNCATED else AI_SUCCESS, m')
    /\ load (GetData b) (S (length kept)) m' = Some (map narrow kept ++ [0])
    /\ reports b (Z.of_nat (length kept)) m' /\ writes b (adb_buflen b) m m'.
Proof. apply put_text_spec. Qed.

Lemma PutString_char_correct_witness :
  let b := ADB AI_CHAR 100 3 0 0 0 in
  let kept := take (Z.to_nat (3 - 1)) [104; 233; 121] in
  exists m', PutString b (encode [104; 233; 121]) (alloc 100 3 ∅)
      = Ok (if bool_decide (length kept < 3)%nat then AI_VARLEN_DATA_TRUNCATED else AI_SUCCESS, m')
    /\ load (GetData b) (S (length kept)) m' = Some (map narrow kept ++ [0])
    /\ reports b (Z.of_nat (length kept)) m' /\ writes b 3 (alloc 100 3 ∅) m'.
Proof.
  apply (PutString_char_correct (ADB AI_CHAR 100 3 0 0 0) [104; 233; 121] (alloc 100 3 ∅)).
  - reflexivity.
  - apply (bool_decide_unpack _); vm_compute; exact I.
  - apply (bool_decide_unpack _); vm_compute; exact I.
  - reflexivity.
  - reflexivity.
  - split; [discriminate|]. split; [apply (alloc_mapped 100 3)|]. left. reflexivity.
Defined.

(** A timestamp survives an application buffer of the timestamp type, for every
    second of the calendar and every fraction from 0 to 2^31 - 1 nanoseconds. *)
Theorem timestamp_buffer_roundtrip `{PlatformLaws} `{CalendarLaws} b t m :
  adb_type b = AI_TTIMESTAMP -> bound b 16 m -> in_calendar (seconds t) -> 0 <= fractionNs t < 2 ^ 31 ->
  exists m', PutTimestamp b t m = Ok (AI_SUCCESS, m') /\ reports b 16 m' /\ writes b 16 m m'
    /\ GetTimestamp b m' = Ok t.
Proof.
  intros Ht Hb Hc Hf. unfold PutTimestamp. rewrite Ht.
  pose proof (gm_ranges (seconds t) Hc) as Hr.
  destruct (put_struct_spec b (timestamp_struct (TimestampToCTm t) (fractionNs t)) m Hb)
    as (m' & Hput & Hl & Hrep & Hw).
  change (Z.of_nat (length (timestamp_struct (TimestampToCTm t) (fractionNs t)))) with 16 in *.
  change (length (timestamp_struct (TimestampToCTm t) (fractionNs t))) with 16%nat in Hl.
  change sizeof_TIMESTAMP_STRUCT with 16. rewrite Hput. cbn [obind]. exists m'.
  split; [done|]. split; [done|]. split; [done|].
  unfold GetTimestamp. rewrite Ht. unfold ld. rewrite Hl. cbn [obind].
  rewrite timestamp_struct_read, fraction_read by done. unfold CTmToTimestamp.
  change (TimestampToCTm t) with (ToGmTime (seconds t)). rewrite roundtrip_gm by done. cbn [obind].
  by destruct t.
Qed.

Lemma timestamp_buffer_roundtrip_witness :
  let b := ADB AI_TTIMESTAMP 100 16 0 0 0 in
  exists m', PutTimestamp b (MkTimestamp (-12219292801) 999999999) (alloc 100 16 ∅) = Ok (AI_SUCCESS, m')
    /\ reports b 16 m' /\ writes b 16 (alloc 100 16 ∅) m'
    /\ GetTimestamp b m' = Ok (MkTimestamp (-12219292801) 999999999).
Proof.
  apply timestamp_buffer_roundtrip.
  - reflexivity.
  - split; [discriminate|]. split; [apply (alloc_mapped 100 16)|]. left. reflexivity.
  - split; [vm_compute; discriminate|reflexivity].
  - split; [vm_compute; discriminate|reflexivity].
Defined.

(** A date goes through a date buffer as its day: [GetDate] returns midnight of
    the day, in milliseconds. *)
Theorem date_buffer_roundtrip `{PlatformLaws} `{CalendarLaws} b d m :
  adb_type b = AI_TDATE -> bound b 6 m -> in_calendar (DateToCTime d) ->
  exists m', PutDate b d m = Ok (AI_SUCCESS, m') /\ writes b 6 m m'
    /\ GetDate b m' = Ok (MkDate ((DateToCTime d - DateToCTime d mod 86400) * 1000)).
Proof.
  intros Ht Hb Hc. unfold PutDate. rewrite Ht. pose proof (gm_ranges (DateToCTime d) Hc) as Hr.
  destruct (put_struct_spec b (date_struct (DateToCTm d)) m Hb) as (m' & Hput & Hl & _ & Hw).
  change (Z.of_nat (length (date_struct (DateToCTm d)))) with 6 in *.
  change (length (date_struct (DateToCTm d))) with 6%nat in Hl.
  change sizeof_DATE_STRUCT with 6. rewrite Hput. cbn [obind]. exists m'.
  split; [done|]. split; [done|].
  unfold GetDate. rewrite Ht. unfold ld. rewrite Hl. cbn [obind]. rewrite date_struct_read by done.
  unfold CTmToDate, to_time_gm. change (DateToCTm d) with (ToGmTime (DateToCTime d)).
  rewrite gm_clock by (done || by unfold clock_valid). cbn [obind]. unfold CTimeToDate.
  pose proof (Z.mod_pos_bound (DateToCTime d) 86400 ltac:(lia)).
  unfold in_calendar, calendar_start, calendar_stop in Hc.
  rewrite checked_ok by (unfold inS; simpl (64 - 1); lia). cbn [obind]. do 2 f_equal. lia.
Qed.

Lemma date_buffer_roundtrip_witness :
  let b := ADB AI_TDATE 100 6 0 0 0 in
  exists m', PutDate b (MkDate 951782400123) (alloc 100 6 ∅) = Ok (AI_SUCCESS, m')
    /\ writes b 6 (alloc 100 6 ∅) m'
    /\ GetDate b m'
       = Ok (MkDate ((DateToCTime (MkDate 951782400123) - DateToCTime (MkDate 951782400123) mod 86400) * 1000)).
Proof.
  apply date_buffer_roundtrip.
  - reflexivity.
  - split; [discriminate|]. split; [apply (alloc_mapped 100 6)|]. left. reflexivity.
  - split; [vm_compute; discriminate|reflexivity].
Defined.

(** A date put into a wide character buffer overruns it: the size in bytes is
    taken as a size in characters, so that a buffer of at least eleven bytes, but
    with room for fewer than eleven characters, is written beyond its end. *)
Theorem wide_date_overrun `{PlatformLaws} `{CalendarLaws} b d m :
  adb_type b = AI_WCHAR -> bound b (adb_buflen b) m -> in_calendar (DateToCTime d) ->
  11 <= adb_buflen b < 11 * wsz -> m !! (GetData b + adb_buflen b) = None ->
  PutDate b d m = UB.
Proof.
  intros Ht Hb Hc Hlen Hn. pose proof Hb as (Hd & Hm & Hr). pose proof wsz_cases as Hw.
  assert (0 < adb_buflen b * wsz < 2 ^ 64 /\ 0 < wsz <= 4) as [Hbytes Hw4]
    by (destruct Hw as [E|E]; rewrite E in *; lia).
  destruct (date_text_spec (DateToCTm d) (gm_ranges _ Hc)) as (Htl & Hs & Hz & Hascii).
  unfold PutDate. rewrite Ht. unfold put_wide_text.
  destruct (put_len_spec b (adb_buflen b) 10 m Hb) as (m1 & -> & _ & Hx & _). cbn [obind].
  rewrite (proj2 (Z.eqb_neq _ _) Hd). change (11 <? 0) with false. cbv iota.
  rewrite Htl. change (Z.of_nat 10 + 1 <=? u64 11) with true. cbv iota. unfold CopyStringToBuffer, GetSize.
  rewrite (wrapU_small 64 (adb_buflen b)) by (unfold inU; lia).
  rewrite wrapU_small by (unfold inU; lia).
  unfold CopyUtf8StringToSqlWcharString. rewrite (proj2 (Z.eqb_neq _ _) Hd).
  rewrite (proj2 (Z.eqb_neq (adb_buflen b * wsz) 0)) by lia. cbn [negb andb].
  set (s := date_text (DateToCTm d)) in *. rewrite <- (encode_ascii s Hascii), c_str_encode by done.
  rewrite Z.div_mul by lia. rewrite wrapU_small by (unfold inU; lia).
  rewrite encode_ascii, Htl by done. rewrite Z.min_r by lia. rewrite Nat2Z.id.
  rewrite <- (encode_ascii s Hascii) at 1.
  rewrite utf8_in_encode; [|done|eapply Forall_impl; [exact Hascii|];
    intros c Hc'; simpl in Hc'; unfold wide_max; case_match; lia].
  rewrite take_ge by lia. unfold st.
  rewrite (store_fails _ _ _ (GetData b + adb_buflen b)); [done| |].
  - fold (char_bytes (Z.to_nat wsz) (s ++ [0])).
    rewrite char_bytes_length, length_app, Htl. rewrite Nat2Z.inj_mul, Z2Nat.id by lia.
    change (Z.of_nat (10 + length [0%Z])) with 11. lia.
  - rewrite Hx; [done|]. destruct Hr as [?|[Hmr _]]; [by left|]. right. intros Hin.
    destruct (Hmr _ Hin). congruence.
Qed.

Lemma wide_date_overrun_witness :
  PutDate (ADB AI_WCHAR 100 16 0 0 0) (MkDate 1600000000000) (alloc 100 16 ∅) = UB.
Proof.
  apply wide_date_overrun.
  - reflexivity.
  - split; [discriminate|]. split; [apply (alloc_mapped 100 16)|]. left. reflexivity.
  - split; [vm_compute; discriminate|reflexivity].
  - split; [vm_compute; discriminate|reflexivity].
  - reflexivity.
Defined.

(** A decimal of scale 0 put into a numeric buffer is lost: [SetScale] leaves its
    result untouched when the scale is already 0, so that the buffer gets zero,
    and [GetDecimal] reads zero back, whatever the number was. *)
Theorem integral_decimal_lost `{PlatformLaws} `{CalendarLaws} b d toDouble ofDouble m :
  adb_type b = AI_NUMERIC -> scale d = 0 -> bound b 19 m ->
  exists m', PutDecimal b d toDouble m = Ok (AI_SUCCESS, m')
    /\ GetDecimal b d ofDouble m' = Ok dec_zero.
Proof.
  intros Ht Hs Hb. unfold PutDecimal. rewrite Ht. unfold SetScale. rewrite Hs. cbn [Z.eqb obind].
  assert (GetPrecision (magnitude dec_zero) = Some 1) as -> by reflexivity.
  destruct (store_report b 19 (numeric_struct 1 0 (if sign (magnitude dec_zero) <? 0 then 0 else 1)
    (numeric_bytes (MagnitudeToBytes (magnitude dec_zero)))) 19 m Hb) as (m' & E & Hl & _).
  { vm_compute. discriminate. }
  change sizeof_NUMERIC_STRUCT with 19.
  destruct (st (GetData b) _ m) as [m1| |]; [|done|done]. cbn [obind] in *. rewrite E. cbn [obind].
  exists m'. split; [done|]. unfold GetDecimal. rewrite Ht. unfold get_numeric, ld.
  change (length _) with 19%nat in Hl. rewrite Hl. vm_compute. reflexivity.
Qed.

Lemma integral_decimal_lost_witness :
  exists m', PutDecimal (ADB AI_NUMERIC 100 19 0 0 0) (Dec 0 (AssignInt64 42)) (fun _ => 0) (alloc 100 19 ∅)
      = Ok (AI_SUCCESS, m')
    /\ GetDecimal (ADB AI_NUMERIC 100 19 0 0 0) (Dec 0 (AssignInt64 42)) (fun _ => dec_zero) m' = Ok dec_zero.
Proof.
  apply integral_decimal_lost; [reflexivity|reflexivity|].
  split; [discriminate|]. split; [apply (alloc_mapped 100 19)|]. left. reflexivity.
Defined.

(** Reading a GUID from a GUID buffer is undefined, whatever the buffer holds: the
    first of the eight low bytes is shifted by 56 as a 32-bit [int]. *)
Theorem GetGuid_undefined `{PlatformLaws} b parseGuid m :
  adb_type b = AI_GUID -> GetGuid b parseGuid m = UB.
Proof.
  intros Ht. unfold GetGuid. rewrite Ht. unfold ld.
  destruct (load (GetData b) 16 m) as [bs|] eqn:E; [|done]. cbn [obind].
  apply load_length in E. unfold guid_of_struct.
  destruct (take 8 (drop 8 bs)) as [|x t] eqn:Et.
  { apply (f_equal length) in Et. rewrite length_take, length_drop, E in Et. done. }
  assert (length t = 7)%nat as Hlt.
  { apply (f_equal length) in Et. rewrite length_take, length_drop, E in Et. simpl in Et. lia. }
  cbn [guid_lsb]. rewrite Hlt. reflexivity.
Qed.

Lemma GetGuid_undefined_witness :
  GetGuid (ADB AI_GUID 100 16 0 0 0) (fun _ => MkGuid 0 0) (alloc 100 16 ∅) = UB.
Proof. apply GetGuid_undefined. reflexivity. Defined.

(** [PutString] of a string without any character but white space into an integer
    buffer reads a variable that was never given a value. *)
Theorem PutString_blank_undefined `{PlatformLaws} `{Calendar} b size sgd ws m :
  (adb_type b, size, sgd) ∈ integer_targets -> Forall (fun c => isspace c = true) ws ->
  PutString b (text ws) m = UB.
Proof.
  intros Hin Hws.
  assert (read_int64 (text ws) = UB) as Hr.
  { unfold read_int64. rewrite text_inverse.
    pose proof (skip_ws_app ws [] Hws ltac:(done)) as Hskip. rewrite app_nil_r in Hskip. by rewrite Hskip. }
  unfold PutString, PutStringWritten, integer_targets in *.
  repeat (apply elem_of_cons in Hin as [[= E -> ->]|Hin]; [rewrite E, Hr; done|]).
  by apply elem_of_nil in Hin.
Qed.

Lemma PutString_blank_undefined_witness :
  PutString (ADB AI_SIGNED_BIGINT 100 8 0 0 0) (text []) (alloc 100 8 ∅) = UB.
Proof.
  apply (PutString_blank_undefined _ 8 true []); [apply (bool_decide_unpack _); vm_compute; exact I|constructor].
Defined.
