(* ===== verification/Diag.v ===== *)
(** Diagnostics: the error records a handle keeps and the functions that hand
    them to the application.
    [src/src/odbc/src/common_types.cpp], [diagnostic/diagnostic_record.cpp],
    [diagnostic/diagnostic_record_storage.cpp], [diagnostic/diagnosable_adapter.cpp]
    and [SQLGetDiagField], [SQLGetDiagRec] and [SQLError] of [odbc.cpp].

    Strings are lists of bytes; the application's buffers are addresses in a
    memory (Memory.v). *)
From S2P Require Import Prelude Memory Utf8 Chrono BigText TypeTraits AppBuffer AppRead.

(** A string literal. *)
Definition str (s : string) : list Z := text (String.list_ascii_of_string s).

Module SR.

(** [SqlResult::Type]. *)
Inductive SqlResult : Type :=
| AI_SUCCESS
| AI_SUCCESS_WITH_INFO
| AI_ERROR
| AI_NO_DATA
| AI_NEED_DATA.

End SR.

Module SS.

(** [SqlState::Type]. *)
Inductive SqlState : Type :=
| UNKNOWN
| S01004_DATA_TRUNCATED
| S01S00_INVALID_CONNECTION_STRING_ATTRIBUTE
| S01S01_ERROR_IN_ROW
| S01S02_OPTION_VALUE_CHANGED
| S01S07_FRACTIONAL_TRUNCATION
| S07006_RESTRICTION_VIOLATION
| S22002_INDICATOR_NEEDED
| S22026_DATA_LENGTH_MISMATCH
| S23000_INTEGRITY_CONSTRAINT_VIOLATION
| S24000_INVALID_CURSOR_STATE
| S25000_INVALID_TRANSACTION_STATE
| S3F000_INVALID_SCHEMA_NAME
| S40001_SERIALIZATION_FAILURE
| S42000_SYNTAX_ERROR_OR_ACCESS_VIOLATION
| S42S01_TABLE_OR_VIEW_ALREADY_EXISTS
| S42S02_TABLE_OR_VIEW_NOT_FOUND
| S42S11_INDEX_ALREADY_EXISTS
| S42S12_INDEX_NOT_FOUND
| S42S21_COLUMN_ALREADY_EXISTS
| S42S22_COLUMN_NOT_FOUND
| S07009_INVALID_DESCRIPTOR_INDEX
| S08001_CANNOT_CONNECT
| S08002_ALREADY_CONNECTED
| S08003_NOT_CONNECTED
| S08004_CONNECTION_REJECTED
| S08S01_LINK_FAILURE
| SHY000_GENERAL_ERROR
| SHY001_MEMORY_ALLOCATION
| SHY003_INVALID_APPLICATION_BUFFER_TYPE
| SHY004_INVALID_SQL_DATA_TYPE
| SHY008_OPERATION_CANCELED
| SHY009_INVALID_USE_OF_NULL_POINTER
| SHY010_SEQUENCE_ERROR
| SHY024_INVALID_ATTRIBUTE_VALUE
| SHY090_INVALID_STRING_OR_BUFFER_LENGTH
| SHY092_OPTION_TYPE_OUT_OF_RANGE
| SHY097_COLUMN_TYPE_OUT_OF_RANGE
| SHY105_INVALID_PARAMETER_TYPE
| SHY106_FETCH_TYPE_OUT_OF_RANGE
| SHYC00_OPTIONAL_FEATURE_NOT_IMPLEMENTED
| SHYT00_TIMEOUT_EXPIRED
| SHYT01_CONNECTION_TIMEOUT
| SIM001_FUNCTION_NOT_SUPPORTED.

End SS.

Module DF.

(** [DiagnosticField::Type]. *)
Inductive DiagnosticField : Type :=
| UNKNOWN
| HEADER_CURSOR_ROW_COUNT
| HEADER_DYNAMIC_FUNCTION
| HEADER_DYNAMIC_FUNCTION_CODE
| HEADER_NUMBER
| HEADER_RETURNCODE
| HEADER_ROW_COUNT
| STATUS_CLASS_ORIGIN
| STATUS_COLUMN_NUMBER
| STATUS_CONNECTION_NAME
| STATUS_MESSAGE_TEXT
| STATUS_NATIVE
| STATUS_ROW_NUMBER
| STATUS_SERVER_NAME
| STATUS_SQLSTATE
| STATUS_SUBCLASS_ORIGIN.

End DF.

(** The codes of [sqlext.h]. *)
Definition SQL_DIAG_CURSOR_ROW_COUNT : Z := -1249.
Definition SQL_DIAG_ROW_NUMBER : Z := -1248.
Definition SQL_DIAG_COLUMN_NUMBER : Z := -1247.
Definition SQL_DIAG_RETURNCODE : Z := 1.
Definition SQL_DIAG_NUMBER : Z := 2.
Definition SQL_DIAG_ROW_COUNT : Z := 3.
Definition SQL_DIAG_SQLSTATE : Z := 4.
Definition SQL_DIAG_NATIVE : Z := 5.
Definition SQL_DIAG_MESSAGE_TEXT : Z := 6.
Definition SQL_DIAG_DYNAMIC_FUNCTION : Z := 7.
Definition SQL_DIAG_CLASS_ORIGIN : Z := 8.
Definition SQL_DIAG_SUBCLASS_ORIGIN : Z := 9.
Definition SQL_DIAG_CONNECTION_NAME : Z := 10.
Definition SQL_DIAG_SERVER_NAME : Z := 11.
Definition SQL_DIAG_DYNAMIC_FUNCTION_CODE : Z := 12.

Definition DiagnosticFieldToInternal (field : Z) : DF.DiagnosticField :=
  if field =? SQL_DIAG_CURSOR_ROW_COUNT then DF.HEADER_CURSOR_ROW_COUNT else
  if field =? SQL_DIAG_DYNAMIC_FUNCTION then DF.HEADER_DYNAMIC_FUNCTION else
  if field =? SQL_DIAG_DYNAMIC_FUNCTION_CODE then DF.HEADER_DYNAMIC_FUNCTION_CODE else
  if field =? SQL_DIAG_NUMBER then DF.HEADER_NUMBER else
  if field =? SQL_DIAG_RETURNCODE then DF.HEADER_RETURNCODE else
  if field =? SQL_DIAG_ROW_COUNT then DF.HEADER_ROW_COUNT else
  if field =? SQL_DIAG_CLASS_ORIGIN then DF.STATUS_CLASS_ORIGIN else
  if field =? SQL_DIAG_COLUMN_NUMBER then DF.STATUS_COLUMN_NUMBER else
  if field =? SQL_DIAG_CONNECTION_NAME then DF.STATUS_CONNECTION_NAME else
  if field =? SQL_DIAG_MESSAGE_TEXT then DF.STATUS_MESSAGE_TEXT else
  if field =? SQL_DIAG_NATIVE then DF.STATUS_NATIVE else
  if field =? SQL_DIAG_ROW_NUMBER then DF.STATUS_ROW_NUMBER else
  if field =? SQL_DIAG_SERVER_NAME then DF.STATUS_SERVER_NAME else
  if field =? SQL_DIAG_SQLSTATE then DF.STATUS_SQLSTATE else
  if field =? SQL_DIAG_SUBCLASS_ORIGIN then DF.STATUS_SUBCLASS_ORIGIN else
  DF.UNKNOWN.

(** [ResponseStatus::Type]. *)
Module RS.

Definition SUCCESS : Z := 0.
Definition UNKNOWN_ERROR : Z := 1.
Definition PARSING_FAILURE : Z := 1001.
Definition UNSUPPORTED_OPERATION : Z := 1002.
Definition UNEXPECTED_OPERATION : Z := 2001.
Definition UNEXPECTED_ELEMENT_TYPE : Z := 2002.
Definition KEY_UPDATE : Z := 2003.
Definition TABLE_NOT_FOUND : Z := 3001.
Definition NULL_TABLE_DESCRIPTOR : Z := 3002.
Definition STMT_TYPE_MISMATCH : Z := 3003.
Definition TABLE_DROP_FAILED : Z := 3004.
Definition INDEX_ALREADY_EXISTS : Z := 3005.
Definition INDEX_NOT_FOUND : Z := 3006.
Definition TABLE_ALREADY_EXISTS : Z := 3007.
Definition COLUMN_NOT_FOUND : Z := 3008.
Definition COLUMN_ALREADY_EXISTS : Z := 3009.
Definition CONVERSION_FAILED : Z := 3013.
Definition DUPLICATE_KEY : Z := 4001.
Definition CONCURRENT_UPDATE : Z := 4002.
Definition NULL_KEY : Z := 4003.
Definition NULL_VALUE : Z := 4004.
Definition ENTRY_PROCESSING : Z := 4005.
Definition CACHE_NOT_FOUND : Z := 4006.
Definition TRANSACTION_COMPLETED : Z := 5004.
Definition TRANSACTION_SERIALIZATION_ERROR : Z := 5005.

End RS.

Definition ResponseStatusToSqlState (status : Z) : SS.SqlState :=
  if (status =? RS.PARSING_FAILURE) || (status =? RS.KEY_UPDATE) || (status =? RS.UNEXPECTED_OPERATION) then SS.S42000_SYNTAX_ERROR_OR_ACCESS_VIOLATION else
  if status =? RS.UNSUPPORTED_OPERATION then SS.SHYC00_OPTIONAL_FEATURE_NOT_IMPLEMENTED else
  if status =? RS.UNEXPECTED_ELEMENT_TYPE then SS.SHY004_INVALID_SQL_DATA_TYPE else
  if (status =? RS.DUPLICATE_KEY) || (status =? RS.NULL_KEY) || (status =? RS.NULL_VALUE) then SS.S23000_INTEGRITY_CONSTRAINT_VIOLATION else
  if status =? RS.TABLE_NOT_FOUND then SS.S42S02_TABLE_OR_VIEW_NOT_FOUND else
  if status =? RS.INDEX_ALREADY_EXISTS then SS.S42S11_INDEX_ALREADY_EXISTS else
  if status =? RS.INDEX_NOT_FOUND then SS.S42S12_INDEX_NOT_FOUND else
  if status =? RS.TABLE_ALREADY_EXISTS then SS.S42S01_TABLE_OR_VIEW_ALREADY_EXISTS else
  if status =? RS.COLUMN_NOT_FOUND then SS.S42S22_COLUMN_NOT_FOUND else
  if status =? RS.COLUMN_ALREADY_EXISTS then SS.S42S21_COLUMN_ALREADY_EXISTS else
  if status =? RS.TRANSACTION_COMPLETED then SS.S25000_INVALID_TRANSACTION_STATE else
  if status =? RS.TRANSACTION_SERIALIZATION_ERROR then SS.S40001_SERIALIZATION_FAILURE else
  SS.SHY000_GENERAL_ERROR.

Definition odbcSubclasses : list (list Z) :=
  map str
    ["01S00"; "01S01"; "01S02"; "01S06"; "01S07"; "07S01"; "08S01"; "21S01"; "21S02"; "25S01";
     "25S02"; "25S03"; "42S01"; "42S02"; "42S11"; "42S12"; "42S21"; "42S22"; "HY095"; "HY097";
     "HY098"; "HY099"; "HY100"; "HY101"; "HY105"; "HY107"; "HY109"; "HY110"; "HY111"; "HYT00";
     "HYT01"; "IM001"; "IM002"; "IM003"; "IM004"; "IM005"; "IM006"; "IM007"; "IM008"; "IM010";
     "IM011"; "IM012"].

Definition state_text (s : SS.SqlState) : list Z :=
  match s with
  | SS.S01004_DATA_TRUNCATED => str "01004"
  | SS.S01S00_INVALID_CONNECTION_STRING_ATTRIBUTE => str "01S00"
  | SS.S01S01_ERROR_IN_ROW => str "01S01"
  | SS.S01S02_OPTION_VALUE_CHANGED => str "01S02"
  | SS.S01S07_FRACTIONAL_TRUNCATION => str "01S07"
  | SS.S07006_RESTRICTION_VIOLATION => str "07006"
  | SS.S22002_INDICATOR_NEEDED => str "22002"
  | SS.S22026_DATA_LENGTH_MISMATCH => str "22026"
  | SS.S23000_INTEGRITY_CONSTRAINT_VIOLATION => str "23000"
  | SS.S24000_INVALID_CURSOR_STATE => str "24000"
  | SS.S25000_INVALID_TRANSACTION_STATE => str "25000"
  | SS.S3F000_INVALID_SCHEMA_NAME => str "3F000"
  | SS.S40001_SERIALIZATION_FAILURE => str "40001"
  | SS.S42000_SYNTAX_ERROR_OR_ACCESS_VIOLATION => str "42000"
  | SS.S42S01_TABLE_OR_VIEW_ALREADY_EXISTS => str "42S01"
  | SS.S42S02_TABLE_OR_VIEW_NOT_FOUND => str "42S02"
  | SS.S42S11_INDEX_ALREADY_EXISTS => str "42S11"
  | SS.S42S12_INDEX_NOT_FOUND => str "42S12"
  | SS.S42S21_COLUMN_ALREADY_EXISTS => str "42S21"
  | SS.S42S22_COLUMN_NOT_FOUND => str "42S22"
  | SS.S07009_INVALID_DESCRIPTOR_INDEX => str "07009"
  | SS.S08001_CANNOT_CONNECT => str "08001"
  | SS.S08002_ALREADY_CONNECTED => str "08002"
  | SS.S08003_NOT_CONNECTED => str "08003"
  | SS.S08004_CONNECTION_REJECTED => str "08004"
  | SS.S08S01_LINK_FAILURE => str "08S01"
  | SS.SHY000_GENERAL_ERROR => str "HY000"
  | SS.SHY001_MEMORY_ALLOCATION => str "HY001"
  | SS.SHY003_INVALID_APPLICATION_BUFFER_TYPE => str "HY003"
  | SS.SHY009_INVALID_USE_OF_NULL_POINTER => str "HY009"
  | SS.SHY010_SEQUENCE_ERROR => str "HY010"
  | SS.SHY024_INVALID_ATTRIBUTE_VALUE => str "HY024"
  | SS.SHY090_INVALID_STRING_OR_BUFFER_LENGTH => str "HY090"
  | SS.SHY092_OPTION_TYPE_OUT_OF_RANGE => str "HY092"
  | SS.SHY097_COLUMN_TYPE_OUT_OF_RANGE => str "HY097"
  | SS.SHY105_INVALID_PARAMETER_TYPE => str "HY105"
  | SS.SHY106_FETCH_TYPE_OUT_OF_RANGE => str "HY106"
  | SS.SHYC00_OPTIONAL_FEATURE_NOT_IMPLEMENTED => str "HYC00"
  | SS.SHYT00_TIMEOUT_EXPIRED => str "HYT00"
  | SS.SHYT01_CONNECTION_TIMEOUT => str "HYT01"
  | SS.SIM001_FUNCTION_NOT_SUPPORTED => str "IM001"
  | _ => str ""
  end.

#[export] Instance SqlResult_eq_dec : EqDecision SR.SqlResult.
Proof. solve_decision. Defined.
#[export] Instance SqlState_eq_dec : EqDecision SS.SqlState.
Proof. solve_decision. Defined.
#[export] Instance DiagnosticField_eq_dec : EqDecision DF.DiagnosticField.
Proof. solve_decision. Defined.

(** Return codes of the ODBC functions. *)
Definition SQL_SUCCESS : Z := 0.
Definition SQL_SUCCESS_WITH_INFO : Z := 1.
Definition SQL_NO_DATA : Z := 100.
Definition SQL_NEED_DATA : Z := 99.
Definition SQL_ERROR : Z := -1.
Definition SQL_INVALID_HANDLE : Z := -2.

Definition SqlResultToReturnCode (result : SR.SqlResult) : Z :=
  match result with
  | SR.AI_SUCCESS => SQL_SUCCESS
  | SR.AI_SUCCESS_WITH_INFO => SQL_SUCCESS_WITH_INFO
  | SR.AI_NO_DATA => SQL_NO_DATA
  | SR.AI_NEED_DATA => SQL_NEED_DATA
  | SR.AI_ERROR => SQL_ERROR
  end.

(** * Records *)

Record DiagnosticRecord : Type := MkRecord {
  sqlState : SS.SqlState;
  message : list Z;
  connectionName : list Z;
  serverName : list Z;
  rowNum : Z;
  columnNum : Z;
  retrieved : bool
}.

(** The constructor. *)
Definition new_record (st : SS.SqlState) (msg conn serv : list Z) (row column : Z) : DiagnosticRecord :=
  MkRecord st msg conn serv row column false.

Definition MarkRetrieved (r : DiagnosticRecord) : DiagnosticRecord :=
  MkRecord (sqlState r) (message r) (connectionName r) (serverName r) (rowNum r) (columnNum r) true.

Definition GetSqlState (r : DiagnosticRecord) : list Z := state_text (sqlState r).

Definition ORIGIN_ISO_9075 : list Z := str "ISO 9075".
Definition ORIGIN_ODBC_3_0 : list Z := str "ODBC 3.0".

Definition GetClassOrigin (r : DiagnosticRecord) : list Z :=
  match GetSqlState r with
  | c0 :: c1 :: _ => if (c0 =? 73) && (c1 =? 77) then ORIGIN_ODBC_3_0 else ORIGIN_ISO_9075
  | _ => ORIGIN_ISO_9075
  end.

Definition GetSubclassOrigin (r : DiagnosticRecord) : list Z :=
  if bool_decide (GetSqlState r ∈ odbcSubclasses) then ORIGIN_ODBC_3_0 else ORIGIN_ISO_9075.

(** * Storage *)

Record DiagnosticRecordStorage : Type := MkStorage {
  rowCount : Z;
  dynamicFunction : list Z;
  dynamicFunctionCode : Z;
  result : SR.SqlResult;
  rowsAffected : Z;
  statusRecords : list DiagnosticRecord
}.

Definition new_storage : DiagnosticRecordStorage := MkStorage 0 [] 0 SR.AI_SUCCESS 0 [].

Definition SetHeaderRecord (res : SR.SqlResult) (d : DiagnosticRecordStorage) : DiagnosticRecordStorage :=
  MkStorage 0 [] 0 res 0 (statusRecords d).

Definition AddRecord (r : DiagnosticRecord) (d : DiagnosticRecordStorage) : DiagnosticRecordStorage :=
  MkStorage (rowCount d) (dynamicFunction d) (dynamicFunctionCode d) (result d) (rowsAffected d)
    (statusRecords d ++ [r]).

Definition storage_Reset (d : DiagnosticRecordStorage) : DiagnosticRecordStorage :=
  let d := SetHeaderRecord SR.AI_ERROR d in
  MkStorage (rowCount d) (dynamicFunction d) (dynamicFunctionCode d) (result d) (rowsAffected d) [].

Definition GetReturnCode (d : DiagnosticRecordStorage) : Z := SqlResultToReturnCode (result d).
Definition GetStatusRecordsNumber (d : DiagnosticRecordStorage) : Z :=
  i32 (Z.of_nat (length (statusRecords d))).

(** [statusRecords[idx - 1]]: the index is only logged when it is out of range. *)
Definition GetStatusRecord (d : DiagnosticRecordStorage) (idx : Z) : outcome Z DiagnosticRecord :=
  if idx <? 1 then UB else
  match statusRecords d !! Z.to_nat (idx - 1) with
  | Some r => Ok r
  | None => UB
  end.

(** The index from 1 of the first record not retrieved, 0 without one. *)
Fixpoint first_fresh (i : Z) (rs : list DiagnosticRecord) : Z :=
  match rs with
  | [] => 0
  | r :: t => if retrieved r then first_fresh (i + 1) t else i32 (i + 1)
  end.

Definition GetLastNonRetrieved (d : DiagnosticRecordStorage) : Z := first_fresh 0 (statusRecords d).

Definition IsSuccessful (d : DiagnosticRecordStorage) : bool :=
  bool_decide (result d = SR.AI_SUCCESS) || bool_decide (result d = SR.AI_SUCCESS_WITH_INFO).

(** [DiagnosableAdapter::AddStatusRecord]; [Connection::CreateStatusRecord] makes
    the same record as the adapter does without a connection. *)
Definition CreateStatusRecord (st : SS.SqlState) (msg : list Z) (row column : Z) : DiagnosticRecord :=
  new_record st msg [] [] row column.

Definition AddStatusRecordAt (connection : bool) (st : SS.SqlState) (msg : list Z) (row column : Z)
    (d : DiagnosticRecordStorage) : DiagnosticRecordStorage :=
  if connection then AddRecord (CreateStatusRecord st msg row column) d
  else AddRecord (new_record st msg [] [] row column) d.

Definition AddStatusRecord (connection : bool) (st : SS.SqlState) (msg : list Z)
    : DiagnosticRecordStorage -> DiagnosticRecordStorage := AddStatusRecordAt connection st msg 0 0.

(** [DOCUMENTDB_ODBC_API_CALL]: the records of the previous call go, the call adds
    its own, and its result becomes the header. *)
Definition api_call {S} (call : S -> outcome Z (SR.SqlResult * S))
    (diag : S -> DiagnosticRecordStorage) (set_diag : DiagnosticRecordStorage -> S -> S)
    (s : S) : outcome Z S :=
  let s := set_diag (storage_Reset (diag s)) s in
  let* (res, s) := call s in
  Ok (set_diag (SetHeaderRecord res (diag s)) s).

(** * Handing records to the application *)

Section handing.
Context `{Platform} `{Calendar}.

Definition GetField (d : DiagnosticRecordStorage) (recNum : Z) (field : DF.DiagnosticField)
    (buffer : ApplicationDataBuffer) (m : mem) : outcome Z (SR.SqlResult * mem) :=
  let ok (r : put_result) := let* (_, m) := r in Ok (SR.AI_SUCCESS, m) in
  match field with
  | DF.HEADER_CURSOR_ROW_COUNT => ok (PutInt64 buffer (rowCount d) m)
  | DF.HEADER_DYNAMIC_FUNCTION => ok (PutString buffer (dynamicFunction d) m)
  | DF.HEADER_DYNAMIC_FUNCTION_CODE => ok (PutInt32 buffer (dynamicFunctionCode d) m)
  | DF.HEADER_NUMBER => ok (PutInt32 buffer (GetStatusRecordsNumber d) m)
  | DF.HEADER_RETURNCODE => ok (PutInt32 buffer (GetReturnCode d) m)
  | DF.HEADER_ROW_COUNT => ok (PutInt64 buffer (rowsAffected d) m)
  | _ =>
      if (recNum <? 1) || (Z.of_nat (length (statusRecords d)) <? recNum) then Ok (SR.AI_NO_DATA, m) else
      let* record := GetStatusRecord d recNum in
      match field with
      | DF.STATUS_CLASS_ORIGIN => ok (PutString buffer (GetClassOrigin record) m)
      | DF.STATUS_COLUMN_NUMBER => ok (PutInt32 buffer (columnNum record) m)
      | DF.STATUS_CONNECTION_NAME => ok (PutString buffer (connectionName record) m)
      | DF.STATUS_MESSAGE_TEXT => ok (PutString buffer (message record) m)
      | DF.STATUS_NATIVE => ok (PutInt32 buffer 0 m)
      | DF.STATUS_ROW_NUMBER => ok (PutInt64 buffer (rowNum record) m)
      | DF.STATUS_SERVER_NAME => ok (PutString buffer (serverName record) m)
      | DF.STATUS_SQLSTATE => ok (PutString buffer (GetSqlState record) m)
      | DF.STATUS_SUBCLASS_ORIGIN => ok (PutString buffer (GetSubclassOrigin record) m)
      | _ => Ok (SR.AI_ERROR, m)
      end
  end.

Definition SQL_HANDLE_ENV : Z := 1.
Definition SQL_HANDLE_DBC : Z := 2.
Definition SQL_HANDLE_STMT : Z := 3.

Definition has_diagnostics (handleType : Z) : bool :=
  (handleType =? SQL_HANDLE_ENV) || (handleType =? SQL_HANDLE_DBC) || (handleType =? SQL_HANDLE_STMT).

(** [if (p) *p = v], for a target of [n] bytes. *)
Definition put_if (p : Z) (n : nat) (v : Z) (m : mem) : outcome Z mem :=
  if p =? 0 then Ok m else st p (le_bytes n v) m.

(** A handle is the diagnostics of the object behind it, [None] for a null one.
    [outResLen] is the address of the local variable that receives the length; it
    is not initialised, so that it holds what the stack held before. *)
Definition SQLGetDiagField (handleType : Z) (handle : option DiagnosticRecordStorage)
    (recNum diagId buffer bufferLen resLen outResLen : Z) (m : mem) : outcome Z (Z * mem) :=
  let outBuffer := ADB AI_DEFAULT buffer bufferLen outResLen 0 0 in
  let field := DiagnosticFieldToInternal diagId in
  let* (res, m) :=
    if has_diagnostics handleType then
      match handle with
      | Some diag => GetField diag recNum field outBuffer m
      | None => UB
      end
    else Ok (SR.AI_NO_DATA, m) in
  let* m :=
    if negb (resLen =? 0) && bool_decide (res = SR.AI_SUCCESS) then
      let* bs := ld outResLen 8 m in st resLen (le_bytes 2 (le_val bs)) m
    else Ok m in
  Ok (SqlResultToReturnCode res, m).

Definition SQLGetDiagRec (handleType : Z) (handle : option DiagnosticRecordStorage)
    (recNum sqlStateBuf nativeError msgBuffer msgBufferLen msgLen : Z) (m : mem) : outcome Z (Z * mem) :=
  if negb (has_diagnostics handleType) then Ok (SQL_INVALID_HANDLE, m) else
  match handle with
  | None => Ok (SQL_INVALID_HANDLE, m)
  | Some records =>
      if (recNum <? 1) || (msgBufferLen <? 0) then Ok (SQL_ERROR, m) else
      if GetStatusRecordsNumber records <? recNum then Ok (SQL_NO_DATA, m) else
      let* record := GetStatusRecord records recNum in
      let* m := if sqlStateBuf =? 0 then Ok m else
                let* (_, _, m) := CopyStringToBuffer (GetSqlState record) sqlStateBuf 6 false m in Ok m in
      let* m := put_if nativeError 4 0 m in
      let errMsg := message record in
      if (msgBuffer =? 0) || (msgBufferLen <? i16 (Z.of_nat (length errMsg) + 1)) then
        if msgLen =? 0 then Ok (SQL_ERROR, m) else
        let* (len, _, m) := CopyStringToBuffer errMsg msgBuffer msgBufferLen false m in
        let* m := st msgLen (le_bytes 2 len) m in
        Ok (SQL_SUCCESS_WITH_INFO, m)
      else
        let* (len, _, m) := CopyStringToBuffer errMsg msgBuffer msgBufferLen false m in
        let* m := put_if msgLen 2 len m in
        Ok (SQL_SUCCESS, m)
  end.

(** The handle of the environment, the connection or the statement, whichever is
    not null first; the result has the storage with the record marked. *)
Definition SQLError (env conn stmt : option DiagnosticRecordStorage)
    (state error msgBuf msgBufLen msgResLen : Z) (m : mem)
    : outcome Z (Z * option DiagnosticRecordStorage * mem) :=
  let handle := match env, conn with
                | Some e, _ => Some e
                | None, Some c => Some c
                | None, None => stmt
                end in
  match handle with
  | None => Ok (SQL_INVALID_HANDLE, None, m)
  | Some records =>
      let recNum := GetLastNonRetrieved records in
      if (recNum <? 1) || (GetStatusRecordsNumber records <? recNum)
      then Ok (SQL_NO_DATA, Some records, m) else
      let* record := GetStatusRecord records recNum in
      let record := MarkRetrieved record in
      let records := MkStorage (rowCount records) (dynamicFunction records) (dynamicFunctionCode records)
        (result records) (rowsAffected records)
        (<[Z.to_nat (recNum - 1) := record]> (statusRecords records)) in
      let* m := if state =? 0 then Ok m else
                let* (_, _, m) := CopyStringToBuffer (GetSqlState record) state 6 false m in Ok m in
      let* m := put_if error 4 0 m in
      let* (outResLen, _, m) := CopyStringToBuffer (message record) msgBuf (u64 msgBufLen) false m in
      let* m := put_if msgResLen 2 outResLen m in
      Ok (SQL_SUCCESS, Some records, m)
  end.

End handing.
