(* ===== verification/DiagProps.v ===== *)
(** Properties of the diagnostics: the SQLSTATE table, and what the application
    reads in its buffers after [SQLGetDiagRec] and [SQLError]. *)
From S2P Require Import Prelude Memory Utf8 Chrono TypeTraits AppBuffer AppRead AppProps Diag.

(** * Separate regions of memory *)

(** [(a, n)] stands for the [n] bytes from [a]. *)
Definition disjoint_regions (r s : Z * Z) : Prop := r.1 + r.2 <= s.1 \/ s.1 + s.2 <= r.1.

Fixpoint apart_from (r : Z * Z) (rs : list (Z * Z)) : Prop :=
  match rs with
  | [] => True
  | s :: t => disjoint_regions r s /\ apart_from r t
  end.

Fixpoint apart (rs : list (Z * Z)) : Prop :=
  match rs with
  | [] => True
  | r :: t => apart_from r t /\ apart t
  end.

(** All regions are allocated, none at the null address, and they do not overlap. *)
Definition valid_regions (rs : list (Z * Z)) (m : mem) : Prop :=
  Forall (fun r => r.1 <> 0 /\ mapped r.1 r.2 m) rs /\ apart rs.

Definition changes_within (rs : list (Z * Z)) (m m' : mem) : Prop :=
  forall x, Forall (fun r => ~ (r.1 <= x < r.1 + r.2)) rs -> m' !! x = m !! x.

Lemma valid_regions_kept rs m m' :
  (forall b n, mapped b n m -> mapped b n m') -> valid_regions rs m -> valid_regions rs m'.
Proof.
  intros Hk [Hv Ha]. split; [|done]. eapply Forall_impl; [exact Hv|]. intros r [? ?]. auto.
Qed.

(** [regions] opens hypotheses on regions. *)
Ltac regions :=
  unfold valid_regions, changes_within in *; cbn [apart apart_from] in *;
  unfold disjoint_regions in *; cbn [fst snd] in *;
  rewrite ?Forall_cons in *; cbn [fst snd] in *; destruct_and?.

(** * The SQLSTATE table *)

Definition coded (s : SS.SqlState) : bool :=
  negb (bool_decide (s ∈ [SS.UNKNOWN; SS.SHY004_INVALID_SQL_DATA_TYPE; SS.SHY008_OPERATION_CANCELED])).

Lemma state_text_plain s :
  Forall (fun c => 0 < c < 128) (state_text s) /\ (length (state_text s) <= 5)%nat.
Proof. apply (bool_decide_unpack _). destruct s; vm_compute; exact I. Qed.

Lemma encode_plain cs : Forall (fun c => 0 < c < 128) cs -> encode cs = cs.
Proof.
  induction 1 as [|c cs Hc _ IH]; [done|]. change (encode (c :: cs)) with (utf8_encode c ++ encode cs).
  unfold utf8_encode. rewrite (proj2 (Z.ltb_lt c 128)) by lia. by rewrite IH.
Qed.

Definition all_states : list SS.SqlState :=
  [SS.UNKNOWN; SS.S01004_DATA_TRUNCATED; SS.S01S00_INVALID_CONNECTION_STRING_ATTRIBUTE;
   SS.S01S01_ERROR_IN_ROW; SS.S01S02_OPTION_VALUE_CHANGED; SS.S01S07_FRACTIONAL_TRUNCATION;
   SS.S07006_RESTRICTION_VIOLATION; SS.S22002_INDICATOR_NEEDED; SS.S22026_DATA_LENGTH_MISMATCH;
   SS.S23000_INTEGRITY_CONSTRAINT_VIOLATION; SS.S24000_INVALID_CURSOR_STATE;
   SS.S25000_INVALID_TRANSACTION_STATE; SS.S3F000_INVALID_SCHEMA_NAME; SS.S40001_SERIALIZATION_FAILURE;
   SS.S42000_SYNTAX_ERROR_OR_ACCESS_VIOLATION; SS.S42S01_TABLE_OR_VIEW_ALREADY_EXISTS;
   SS.S42S02_TABLE_OR_VIEW_NOT_FOUND; SS.S42S11_INDEX_ALREADY_EXISTS; SS.S42S12_INDEX_NOT_FOUND;
   SS.S42S21_COLUMN_ALREADY_EXISTS; SS.S42S22_COLUMN_NOT_FOUND; SS.S07009_INVALID_DESCRIPTOR_INDEX;
   SS.S08001_CANNOT_CONNECT; SS.S08002_ALREADY_CONNECTED; SS.S08003_NOT_CONNECTED;
   SS.S08004_CONNECTION_REJECTED; SS.S08S01_LINK_FAILURE; SS.SHY000_GENERAL_ERROR;
   SS.SHY001_MEMORY_ALLOCATION; SS.SHY003_INVALID_APPLICATION_BUFFER_TYPE; SS.SHY004_INVALID_SQL_DATA_TYPE;
   SS.SHY008_OPERATION_CANCELED; SS.SHY009_INVALID_USE_OF_NULL_POINTER; SS.SHY010_SEQUENCE_ERROR;
   SS.SHY024_INVALID_ATTRIBUTE_VALUE; SS.SHY090_INVALID_STRING_OR_BUFFER_LENGTH;
   SS.SHY092_OPTION_TYPE_OUT_OF_RANGE; SS.SHY097_COLUMN_TYPE_OUT_OF_RANGE; SS.SHY105_INVALID_PARAMETER_TYPE;
   SS.SHY106_FETCH_TYPE_OUT_OF_RANGE; SS.SHYC00_OPTIONAL_FEATURE_NOT_IMPLEMENTED; SS.SHYT00_TIMEOUT_EXPIRED;
   SS.SHYT01_CONNECTION_TIMEOUT; SS.SIM001_FUNCTION_NOT_SUPPORTED].

Lemma all_states_complete s : s ∈ all_states.
Proof. apply (bool_decide_unpack _). destruct s; vm_compute; exact I. Qed.

(** The SQLSTATE table is sound but for two states: every state except the
    internal one, HY004 and HY008 has a five-character SQLSTATE, no two of them the
    same; those have none, so that HY004, which a response of the server can ask
    for, reaches the application as an empty SQLSTATE.  The class origin is ODBC
    exactly for the class IM, and its members also have the subclass origin ODBC. *)
Theorem sqlstates_sound :
  (forall s, if coded s then length (state_text s) = 5%nat else state_text s = [])
  /\ (forall s t, coded s = true -> state_text s = state_text t -> s = t)
  /\ state_text (ResponseStatusToSqlState RS.UNEXPECTED_ELEMENT_TYPE) = []
  /\ (forall r, GetClassOrigin r = ORIGIN_ODBC_3_0 <-> take 2 (GetSqlState r) = str "IM")
  /\ (forall r, GetClassOrigin r = ORIGIN_ODBC_3_0 -> GetSubclassOrigin r = ORIGIN_ODBC_3_0).
Proof.
  split; [intros s; destruct s; reflexivity|]. split.
  { assert (Forall (fun s => Forall (fun t => coded s = true -> state_text s = state_text t -> s = t)
      all_states) all_states) as Ht by (apply (bool_decide_unpack _); vm_compute; exact I).
    intros s t. rewrite Forall_forall in Ht. specialize (Ht s (all_states_complete s)).
    rewrite Forall_forall in Ht. apply Ht, all_states_complete. }
  split; [reflexivity|].
  split; intros r; unfold GetClassOrigin, GetSubclassOrigin, GetSqlState; destruct (sqlState r);
    apply (bool_decide_unpack _); vm_compute; exact I.
Qed.

(** * Copies *)

Section handing.
Context `{PlatformLaws}.

Lemma state_text_wide s : wide_text (state_text s).
Proof.
  destruct (state_text_plain s) as [Hp _]. unfold wide_text, scalars, nonzero.
  split; [|split]; (eapply Forall_impl; [exact Hp|]); cbn beta; intros c Hc.
  - apply is_scalar_spec. lia.
  - lia.
  - unfold wide_max. case_match; lia.
Qed.

(** [CopyStringToBuffer] with the length in characters. *)
Lemma copy_chars_spec cs buf k m :
  wide_text cs -> buf <> 0 -> 0 < k < 2 ^ 32 -> mapped buf (k * wsz) m ->
  let kept := take (Z.to_nat (k - 1)) cs in
  exists m', CopyStringToBuffer (encode cs) buf k false m
      = Ok (Z.of_nat (length kept), bool_decide (length kept < length cs)%nat, m')
    /\ only_changes buf (k * wsz) m m' /\ (forall b n, mapped b n m -> mapped b n m')
    /\ holds_wide buf kept m'.
Proof.
  intros Hcs Hbuf Hk Hm kept. pose proof wsz_cases as Hw. unfold CopyStringToBuffer.
  rewrite wrapU_small by (unfold inU; nia).
  destruct (wide_copy_stored cs buf (k * wsz) m) as (m' & E & Hch & Hmap & Hl); [done|done|nia|done|].
  rewrite Z.div_mul in E, Hl by lia. fold kept in E, Hl.
  rewrite E. cbn [obind]. rewrite Z.div_mul by lia. eauto.
Qed.

Lemma copy_state_spec s buf m :
  buf <> 0 -> mapped buf (6 * wsz) m ->
  exists n b m', CopyStringToBuffer (state_text s) buf 6 false m = Ok (n, b, m')
    /\ only_changes buf (6 * wsz) m m' /\ (forall b n, mapped b n m -> mapped b n m')
    /\ holds_wide buf (state_text s) m'.
Proof.
  intros Hbuf Hm. destruct (state_text_plain s) as [Hp Hlen].
  destruct (copy_chars_spec (state_text s) buf 6 m) as (m' & E & Hch & Hmap & Hl);
    [apply state_text_wide|done|lia|done|].
  rewrite encode_plain in E by done. rewrite take_ge in Hl by (simpl; lia). eauto 10.
Qed.

Lemma put_if_spec p n v m :
  p <> 0 -> mapped p (Z.of_nat n) m ->
  exists m', put_if p n v m = Ok m' /\ st p (le_bytes n v) m = Ok m'
    /\ load p n m' = Some (le_bytes n v) /\ only_changes p (Z.of_nat n) m m'
    /\ (forall b k, mapped b k m -> mapped b k m').
Proof.
  intros Hp Hm. unfold put_if. rewrite (proj2 (Z.eqb_neq _ _) Hp).
  destruct (st_ok p (le_bytes n v) m) as (m' & E & Hl & Hch & Hmap); rewrite le_bytes_length in *; [done|].
  exists m'. rewrite E. done.
Qed.

(** The buffers for a record: state, native error, message of [k] characters, length. *)
Definition record_regions (state error msgBuf k msgLen : Z) : list (Z * Z) :=
  [(state, 6 * wsz); (error, 4); (msgBuf, k * wsz); (msgLen, 2)].

(** What the application reads in them. *)
Definition shows_record (s : SS.SqlState) (kept : list Z) (state error msgBuf msgLen : Z) (m : mem) : Prop :=
  SqlWcharToString state SQL_NTS false m = Ok (state_text s)
  /\ load error 4 m = Some [0; 0; 0; 0]
  /\ SqlWcharToString msgBuf SQL_NTS false m = Ok (encode kept)
  /\ load msgLen 2 m = Some (le_bytes 2 (Z.of_nat (length kept))).

Lemma report_spec s cs state error msgBuf k msgLen m :
  wide_text cs -> 0 < k < 2 ^ 32 -> valid_regions (record_regions state error msgBuf k msgLen) m ->
  let kept := take (Z.to_nat (k - 1)) cs in
  exists n b m1 m2 m3 m4,
    CopyStringToBuffer (state_text s) state 6 false m = Ok (n, b, m1)
    /\ put_if error 4 0 m1 = Ok m2
    /\ CopyStringToBuffer (encode cs) msgBuf k false m2
       = Ok (Z.of_nat (length kept), bool_decide (length kept < length cs)%nat, m3)
    /\ put_if msgLen 2 (Z.of_nat (length kept)) m3 = Ok m4
    /\ st msgLen (le_bytes 2 (Z.of_nat (length kept))) m3 = Ok m4
    /\ shows_record s kept state error msgBuf msgLen m4
    /\ changes_within (record_regions state error msgBuf k msgLen) m m4
    /\ (forall b n, mapped b n m -> mapped b n m4).
Proof.
  intros Hcs Hk Hreg kept. pose proof wsz_cases as Hw. unfold record_regions in *. regions.
  destruct (copy_state_spec s state m) as (n & b & m1 & E1 & C1 & M1 & L1); [done..|].
  destruct (put_if_spec error 4 0 m1) as (m2 & E2 & _ & L2 & C2 & M2); [done|by apply M1|].
  destruct (copy_chars_spec cs msgBuf k m2) as (m3 & E3 & C3 & M3 & L3); [done|done|lia|by apply M2, M1|].
  fold kept in E3, L3.
  destruct (put_if_spec msgLen 2 (Z.of_nat (length kept)) m3) as (m4 & E4 & E4' & L4 & C4 & M4);
    [done|by apply M3, M2, M1|].
  exists n, b, m1, m2, m3, m4. do 5 (split; [done|]).
  destruct (state_text_plain s) as [Hp Hlen].
  assert (Z.of_nat (S (length kept)) <= k) by (unfold kept; rewrite length_take; lia).
  split; [|split; [|by auto 7]].
  - split; [|split; [|split; [|exact L4]]].
    + rewrite <- (encode_plain (state_text s)) at 1 by done.
      apply holds_wide_read; [apply state_text_wide|done|].
      eapply holds_wide_ext, L1. assert (wsz * Z.of_nat (S (length (state_text s))) <= 6 * wsz) by nia.
      intros x Hx. rewrite C4, C3, C2 by (simpl; lia). done.
    + rewrite (load_ext error 4 m3 m4), (load_ext error 4 m2 m3); [exact L2| |];
        intros x Hx; [apply C3|apply C4]; simpl in *; lia.
    + apply holds_wide_read; [by apply wide_text_take|done|].
      eapply holds_wide_ext, L3. assert (wsz * Z.of_nat (S (length kept)) <= k * wsz) by nia.
      intros x Hx. rewrite C4 by (simpl; lia). done.
  - intros x Hx. rewrite !Forall_cons in Hx. cbn [fst snd] in Hx. destruct_and!.
    rewrite C4, C3, C2, C1; [done|done|simpl; lia|done|simpl; lia].
Qed.

Lemma get_status_record d i r :
  statusRecords d !! i = Some r -> GetStatusRecord d (Z.of_nat i + 1) = Ok r.
Proof.
  intros Hr. unfold GetStatusRecord. rewrite (proj2 (Z.ltb_ge _ _)) by lia.
  replace (Z.to_nat (Z.of_nat i + 1 - 1)) with i by lia. by rewrite Hr.
Qed.

Lemma records_number d :
  Z.of_nat (length (statusRecords d)) < 2 ^ 31 ->
  GetStatusRecordsNumber d = Z.of_nat (length (statusRecords d)).
Proof. intros Hl. apply wrapS_small; [lia|]. unfold inS. change (2 ^ (32 - 1)) with (2 ^ 31). lia. Qed.

(** * SQLError *)

Lemma first_fresh_marked i gone r rest :
  retrieved r = false -> i + Z.of_nat (length gone) + 1 < 2 ^ 31 -> 0 <= i ->
  first_fresh i (map MarkRetrieved gone ++ r :: rest) = i + Z.of_nat (length gone) + 1.
Proof.
  revert i. induction gone as [|g gone IH]; intros i Hr Hi Hi0; cbn [map app first_fresh].
  - rewrite Hr. cbn [length] in *. rewrite wrapS_small; [lia..|].
    unfold inS. change (2 ^ (32 - 1)) with (2 ^ 31). lia.
  - cbn [MarkRetrieved retrieved length] in *. rewrite IH by (done || lia). lia.
Qed.

Lemma first_fresh_none i gone : first_fresh i (map MarkRetrieved gone) = 0.
Proof. revert i. induction gone as [|g gone IH]; intros i; [done|]. cbn. apply IH. Qed.

Definition with_records (d : DiagnosticRecordStorage) (rs : list DiagnosticRecord) : DiagnosticRecordStorage :=
  MkStorage (rowCount d) (dynamicFunction d) (dynamicFunctionCode d) (result d) (rowsAffected d) rs.

(** The application's loop: [SQLError] on a statement until it reports no data; the
    texts read from the buffers, and the last return code. *)
Fixpoint drain (fuel : nat) (d : DiagnosticRecordStorage) (state error msgBuf k msgLen : Z) (m : mem)
    : outcome Z (list (list Z * list Z) * option Z) :=
  match fuel with
  | O => Ok ([], None)
  | S f =>
      let* (rc, d', m) := SQLError None None (Some d) state error msgBuf k msgLen m in
      match d' with
      | Some d' =>
          if rc =? SQL_SUCCESS then
            let* s := SqlWcharToString state SQL_NTS false m in
            let* t := SqlWcharToString msgBuf SQL_NTS false m in
            let* (rest, last) := drain f d' state error msgBuf k msgLen m in
            Ok ((s, t) :: rest, last)
          else Ok ([], Some rc)
      | None => Ok ([], Some rc)
      end
  end.

Lemma error_step d gone r rest cs state error msgBuf k msgLen m :
  statusRecords d = map MarkRetrieved gone ++ r :: rest -> retrieved r = false ->
  Z.of_nat (length (statusRecords d)) < 2 ^ 31 -> message r = encode cs -> wide_text cs ->
  0 < k < 2 ^ 15 -> valid_regions (record_regions state error msgBuf k msgLen) m ->
  exists m', SQLError None None (Some d) state error msgBuf k msgLen m
      = Ok (SQL_SUCCESS, Some (with_records d (map MarkRetrieved (gone ++ [r]) ++ rest)), m')
    /\ shows_record (sqlState r) (take (Z.to_nat (k - 1)) cs) state error msgBuf msgLen m'
    /\ (forall b n, mapped b n m -> mapped b n m').
Proof.
  intros Hrs Hfresh Hlen Hmsg Hcs Hk Hreg.
  destruct (report_spec (sqlState r) cs state error msgBuf k msgLen m)
    as (n & b & m1 & m2 & m3 & m4 & E1 & E2 & E3 & E4 & _ & Hshow & _ & Hmap); [done|lia|done|].
  exists m4. split; [|done]. unfold SQLError, GetLastNonRetrieved.
  rewrite records_number, Hrs by done. rewrite Hrs, length_app, length_map in Hlen. cbn [length] in Hlen.
  rewrite first_fresh_marked by (done || lia). rewrite length_app, length_map. cbn [length].
  rewrite (proj2 (Z.ltb_ge _ 1)) by lia. rewrite (proj2 (Z.ltb_ge _ _)) by lia. cbn [orb].
  replace (0 + Z.of_nat (length gone) + 1) with (Z.of_nat (length gone) + 1) by lia.
  rewrite (get_status_record d (length gone) r)
    by (rewrite Hrs, lookup_app_r, length_map, Nat.sub_diag by (rewrite length_map; lia); done).
  cbn [obind]. unfold record_regions in Hreg. regions.
  rewrite (proj2 (Z.eqb_neq state 0)) by done.
  change (GetSqlState (MarkRetrieved r)) with (state_text (sqlState r)). rewrite E1. cbn [obind].
  rewrite E2. cbn [obind]. change (message (MarkRetrieved r)) with (message r).
  rewrite Hmsg, wrapU_small by (unfold inU; lia). rewrite E3. cbn [obind]. rewrite E4. cbn [obind].
  do 4 f_equal. unfold with_records. f_equal.
  replace (Z.to_nat (Z.of_nat (length gone) + 1 - 1)) with (length (map MarkRetrieved gone) + 0)%nat
    by (rewrite length_map; lia).
  rewrite insert_app_r, map_app, <- app_assoc. done.
Qed.

Lemma error_end d gone state error msgBuf k msgLen m :
  statusRecords d = map MarkRetrieved gone ->
  SQLError None None (Some d) state error msgBuf k msgLen m = Ok (SQL_NO_DATA, Some d, m).
Proof. intros Hd. unfold SQLError, GetLastNonRetrieved. by rewrite Hd, first_fresh_none. Qed.

Lemma drain_from gone fresh css d state error msgBuf k msgLen m :
  statusRecords d = map MarkRetrieved gone ++ fresh -> Forall (fun r => retrieved r = false) fresh ->
  Z.of_nat (length (statusRecords d)) < 2 ^ 31 ->
  Forall2 (fun r cs => message r = encode cs /\ wide_text cs) fresh css ->
  0 < k < 2 ^ 15 -> valid_regions (record_regions state error msgBuf k msgLen) m ->
  drain (S (length fresh)) d state error msgBuf k msgLen m
  = Ok (zip_with (fun r cs => (GetSqlState r, encode (take (Z.to_nat (k - 1)) cs))) fresh css,
        Some SQL_NO_DATA).
Proof.
  intros Hd Hfresh Hlen Hmsg Hk Hreg. revert gone d m Hd Hfresh Hlen Hreg.
  induction Hmsg as [|r cs fresh css [Hr Hcs] Hmsg IH]; intros gone d m Hd Hfresh Hlen Hreg.
  - rewrite app_nil_r in Hd. cbn [drain length]. by rewrite (error_end d gone).
  - apply Forall_cons in Hfresh as [Hf Hfresh].
    destruct (error_step d gone r fresh cs state error msgBuf k msgLen m)
      as (m' & E & (Hs & _ & Ht & _) & Hmap); try done.
    change (length (r :: fresh)) with (S (length fresh)).
    remember (S (length fresh)) as f. cbn [drain]. rewrite E. cbn [obind]. rewrite Z.eqb_refl, Hs. cbn [obind].
    rewrite Ht. cbn [obind].
    rewrite (IH (gone ++ [r])); [done|done|done| |by eapply valid_regions_kept].
    cbn [with_records statusRecords]. rewrite Hd in Hlen.
    rewrite !length_app, !length_map, length_app in *. cbn [length] in *. lia.
Qed.

End handing.

(** * Theorems *)

(** C25: [SQLError] hands out every record exactly once, in the order the records
    were added: an application that calls it until there is no data reads the
    SQLSTATE and the message, cut to its buffer, of each record, and then
    [SQL_NO_DATA]. *)
Theorem SQLError_drains `{PlatformLaws} d css state error msgBuf k msgLen m :
  Forall (fun r => retrieved r = false) (statusRecords d) ->
  Z.of_nat (length (statusRecords d)) < 2 ^ 31 ->
  Forall2 (fun r cs => message r = encode cs /\ wide_text cs) (statusRecords d) css ->
  0 < k < 2 ^ 15 -> valid_regions (record_regions state error msgBuf k msgLen) m ->
  drain (S (length (statusRecords d))) d state error msgBuf k msgLen m
  = Ok (zip_with (fun r cs => (GetSqlState r, encode (take (Z.to_nat (k - 1)) cs))) (statusRecords d) css,
        Some SQL_NO_DATA).
Proof. intros. by apply (drain_from []). Qed.

(** Buffers for a record in an otherwise empty memory. *)
Definition sample_memory : mem := alloc 100 12 (alloc 200 4 (alloc 300 10 (alloc 400 2 ∅))).

Definition sample_storage : DiagnosticRecordStorage :=
  AddStatusRecord true SS.SHY010_SEQUENCE_ERROR (str "Query is not prepared.")
    (AddStatusRecord false SS.S01004_DATA_TRUNCATED (str "cut") new_storage).

Ltac decide_now := apply (bool_decide_unpack _); vm_compute; exact I.

Lemma sample_regions : valid_regions (record_regions 100 200 300 5 400) sample_memory.
Proof.
  split; [|unfold record_regions; cbn [apart apart_from]; unfold disjoint_regions; cbn; lia].
  unfold record_regions. repeat apply Forall_cons_2; try done;
    (split; [done|cbn [fst snd]; apply mapped_seq; decide_now]).
Qed.

Lemma SQLError_drains_witness :
  drain 3 sample_storage 100 200 300 5 400 sample_memory
  = Ok ([(str "01004", str "cut"); (str "HY010", str "Quer")], Some SQL_NO_DATA).
Proof.
  apply (SQLError_drains sample_storage [str "cut"; str "Query is not prepared."]);
    [decide_now|decide_now| |lia|apply sample_regions].
  repeat constructor; try reflexivity; apply (bool_decide_unpack _); vm_compute; exact I.
Defined.

(** [SQLGetDiagRec] for an existing record: the application reads the SQLSTATE,
    native error 0, the message cut to its buffer and its length in characters, and
    no other memory changes.  The return code is success exactly when the buffer
    has a character for each byte of the message and the terminator, as long as the
    message is shorter than 32767 bytes; from there to 65534 bytes the required
    length wraps around and the code is success even when the message was cut. *)
Theorem SQLGetDiagRec_correct `{PlatformLaws} ht d i r cs state error msgBuf k msgLen m :
  has_diagnostics ht = true -> Z.of_nat (length (statusRecords d)) < 2 ^ 31 ->
  statusRecords d !! i = Some r -> message r = encode cs -> wide_text cs ->
  0 < k < 2 ^ 15 -> valid_regions (record_regions state error msgBuf k msgLen) m ->
  let size := Z.of_nat (length (encode cs)) in
  exists rc m', SQLGetDiagRec ht (Some d) (Z.of_nat i + 1) state error msgBuf k msgLen m = Ok (rc, m')
    /\ shows_record (sqlState r) (take (Z.to_nat (k - 1)) cs) state error msgBuf msgLen m'
    /\ changes_within (record_regions state error msgBuf k msgLen) m m'
    /\ (size + 1 < 2 ^ 15 -> rc = if size + 1 <=? k then SQL_SUCCESS else SQL_SUCCESS_WITH_INFO)
    /\ (2 ^ 15 <= size + 1 < 2 ^ 16 -> rc = SQL_SUCCESS).
Proof.
  intros Hht Hlen Hr Hmsg Hcs Hk Hreg size.
  destruct (report_spec (sqlState r) cs state error msgBuf k msgLen m)
    as (n & b & m1 & m2 & m3 & m4 & E1 & E2 & E3 & E4 & E4' & Hshow & Hch & _); [done|lia|done|].
  pose proof (lookup_lt_Some _ _ _ Hr) as Hi. unfold record_regions in Hreg. regions.
  exists (if k <? i16 (size + 1) then SQL_SUCCESS_WITH_INFO else SQL_SUCCESS), m4. split.
  { unfold SQLGetDiagRec. rewrite Hht, records_number by done. cbn [negb].
    rewrite (proj2 (Z.ltb_ge _ 1)) by lia. rewrite (proj2 (Z.ltb_ge k 0)) by lia. cbn [orb].
    rewrite (proj2 (Z.ltb_ge _ _)) by lia. rewrite (get_status_record d i r) by done. cbn [obind].
    rewrite (proj2 (Z.eqb_neq state 0)), (proj2 (Z.eqb_neq msgLen 0)), (proj2 (Z.eqb_neq msgBuf 0)) by done.
    unfold GetSqlState. rewrite E1. cbn [obind]. rewrite E2. cbn [obind orb]. rewrite Hmsg. fold size.
    destruct (k <? i16 (size + 1)); rewrite E3; cbn [obind]; [rewrite E4'|rewrite E4]; done. }
  split; [done|]. split; [done|]. assert (0 <= size) by lia. split.
  - intros Hsz. rewrite wrapS_small by (unfold inS; simpl; lia).
    destruct (Z.leb_spec (size + 1) k), (Z.ltb_spec k (size + 1)); lia.
  - intros Hsz. rewrite wrapS_cases, wrapU_small by (unfold inU; lia). change (2 ^ (16 - 1)) with (2 ^ 15).
    rewrite (proj2 (Z.ltb_ge (size + 1) (2 ^ 15))) by lia. by rewrite (proj2 (Z.ltb_ge k _)) by lia.
Qed.

Lemma SQLGetDiagRec_correct_witness :
  let cs := str "Query is not prepared." in
  let size := Z.of_nat (length (encode cs)) in
  exists rc m', SQLGetDiagRec SQL_HANDLE_STMT (Some sample_storage) (Z.of_nat 1 + 1) 100 200 300 5 400 sample_memory
      = Ok (rc, m')
    /\ shows_record SS.SHY010_SEQUENCE_ERROR (take (Z.to_nat (5 - 1)) cs) 100 200 300 400 m'
    /\ changes_within (record_regions 100 200 300 5 400) sample_memory m'
    /\ (size + 1 < 2 ^ 15 -> rc = if size + 1 <=? 5 then SQL_SUCCESS else SQL_SUCCESS_WITH_INFO)
    /\ (2 ^ 15 <= size + 1 < 2 ^ 16 -> rc = SQL_SUCCESS).
Proof.
  apply (SQLGetDiagRec_correct SQL_HANDLE_STMT sample_storage 1
    (new_record SS.SHY010_SEQUENCE_ERROR (str "Query is not prepared.") [] [] 0 0));
    [reflexivity|decide_now|reflexivity|reflexivity| |lia|apply sample_regions].
  split; [|split]; decide_now.
Defined.

(** Asking [SQLGetDiagField] for the length of a message, with a null buffer,
    succeeds with a length that was never computed: the string conversion returns
    before it stores the length, so that the application gets whatever the
    driver's local variable held. *)
Theorem SQLGetDiagField_null_stale `{PlatformLaws} `{Calendar} ht d i r bufferLen resLen outResLen garbage m :
  has_diagnostics ht = true -> statusRecords d !! i = Some r ->
  valid_regions [(resLen, 2); (outResLen, 8)] m -> load outResLen 8 m = Some garbage ->
  exists m', SQLGetDiagField ht (Some d) (Z.of_nat i + 1) SQL_DIAG_MESSAGE_TEXT 0 bufferLen resLen outResLen m
      = Ok (SQL_SUCCESS, m')
    /\ load resLen 2 m' = Some (le_bytes 2 (le_val garbage)).
Proof.
  intros Hht Hr Hreg Hg. pose proof (lookup_lt_Some _ _ _ Hr) as Hi. regions.
  destruct (put_if_spec resLen 2 (le_val garbage) m) as (m' & _ & E & Hl & _ & _); [done|done|].
  exists m'. split; [|done]. unfold SQLGetDiagField. rewrite Hht.
  change (DiagnosticFieldToInternal SQL_DIAG_MESSAGE_TEXT) with DF.STATUS_MESSAGE_TEXT. unfold GetField.
  rewrite (proj2 (Z.ltb_ge _ 1)) by lia. rewrite (proj2 (Z.ltb_ge _ _)) by lia. cbn [orb].
  rewrite (get_status_record d i r) by done. cbn [obind].
  unfold PutString, PutStringWritten, PutStrToStrBuffer, GetData, ApplyOffset. cbn -[ld st le_bytes le_val].
  rewrite (proj2 (Z.eqb_neq resLen 0)) by done. cbn -[ld st le_bytes le_val]. unfold ld.
  rewrite Hg. cbn -[st le_bytes le_val]. rewrite E. done.
Qed.

Lemma SQLGetDiagField_null_stale_witness :
  let m := <[800 := 7]> (alloc 700 2 (alloc 800 8 ∅)) in
  exists m', SQLGetDiagField SQL_HANDLE_STMT (Some sample_storage) (Z.of_nat 0 + 1) SQL_DIAG_MESSAGE_TEXT 0 0 700 800 m
      = Ok (SQL_SUCCESS, m')
    /\ load 700 2 m' = Some (le_bytes 2 (le_val [7; 0; 0; 0; 0; 0; 0; 0])).
Proof.
  apply (SQLGetDiagField_null_stale SQL_HANDLE_STMT sample_storage 0
    (new_record SS.S01004_DATA_TRUNCATED (str "cut") [] [] 0 0)); [reflexivity|reflexivity| |reflexivity].
  split; [|cbn [apart apart_from]; unfold disjoint_regions; cbn; lia].
  repeat apply Forall_cons_2; try done; (split; [done|cbn [fst snd]; apply mapped_seq; decide_now]).
Defined.
