(* ===== verification/SqlLex.v ===== *)
(** The driver's internal commands: [src/src/odbc/src/sql/sql_lexer.cpp],
    [sql_utils.cpp], [sql_parser.cpp] and [sql_set_streaming_command.cpp].

    A text is a list of bytes.  A lexer holds the text from its position on and the
    current token.  [Shift] returns an [OdbcExpected]: an error in it is an outcome
    [Throw], which dereferencing it raises.  Bytes from 128 on are neither letters,
    digits, spaces nor control characters (the C locale). *)
From S2P Require Import Prelude BigText AppBuffer Diag.

(** [OdbcError]: the state and the message. *)
Abbreviation OdbcError := (SS.SqlState * list Z)%type.

Inductive TokenType : Type :=
| MINUS | QUOTED | STRING | DOT | COMMA | PARENTHESIS_LEFT | PARENTHESIS_RIGHT | SEMICOLON | WORD | EOD.

#[export] Instance TokenType_eq_dec : EqDecision TokenType.
Proof. solve_decision. Defined.

Record SqlToken : Type := Token { tok_text : list Z; tok_type : TokenType }.
Record SqlLexer : Type := Lexer { lx_rest : list Z; lx_token : SqlToken }.

Definition new_lexer (sql : list Z) : SqlLexer := Lexer sql (Token [] EOD).

(** * Characters *)

Definition is_alnum (c : Z) : bool :=
  ((48 <=? c) && (c <=? 57)) || ((65 <=? c) && (c <=? 90)) || ((97 <=? c) && (c <=? 122)).
Definition is_blank (c : Z) : bool := ((0 <=? c) && (c <=? 32)) || (c =? 127).
Definition tolower (c : Z) : Z := if (65 <=? c) && (c <=? 90) then c + 32 else c.
Definition ToLower (s : list Z) : list Z := map tolower s.
Definition IsDelimiter (c : Z) : bool := negb (is_alnum c) && negb (c =? 95).

Definition AllDigits (s : list Z) : bool := forallb (fun c => (48 <=? c) && (c <=? 57)) s.

(** * Lexer *)

(** The rest of a full-line comment. *)
Fixpoint skip_line (s : list Z) : list Z :=
  match s with
  | c :: t => if (c =? 10) || (c =? 13) then s else skip_line t
  | [] => []
  end.

Fixpoint skip_blank (s : list Z) : list Z :=
  match s with
  | c :: t => if is_blank c then skip_blank t else s
  | [] => []
  end.

Fixpoint span_word (s : list Z) : list Z * list Z :=
  match s with
  | c :: t => if IsDelimiter c then ([], s) else let '(w, r) := span_word t in (c :: w, r)
  | [] => ([], [])
  end.

(** After an opening quote [q]: the text to the closing quote, and what follows; a
    doubled quote does not close unless the text ends with it ([HaveData(2)]). *)
Fixpoint close_quote (q : Z) (s : list Z) : option (list Z * list Z) :=
  match s with
  | [] => None
  | c :: t =>
      if c =? q then
        match t with
        | c1 :: (_ :: _) as t' =>
            if c1 =? q then '(w, r) ← close_quote q t'; Some (c :: c1 :: w, r) else Some ([c], t)
        | _ => Some ([c], t)
        end
      else '(w, r) ← close_quote q t; Some (c :: w, r)
  end.

(** One pass of the loop of [Shift]: skip, or find a token. *)
Definition shift_pass (s : list Z) : pass (list Z) (outcome OdbcError (option (SqlToken * list Z))) :=
  match s with
  | [] => Break (Ok None)
  | c :: t =>
      let found typ := Break (Ok (Some (Token [c] typ, t))) in
      if c =? 45 then
        match t with
        | c1 :: t1 => if c1 =? 45 then Continue (skip_line t1) else found MINUS
        | [] => found MINUS
        end
      else if c =? 34 then
        match close_quote 34 t with
        | Some (w, r) => Break (Ok (Some (Token (c :: w) QUOTED, r)))
        | None => Break (Throw (SS.SHY000_GENERAL_ERROR, str "Unclosed quoted identifier."))
        end
      else if c =? 39 then
        match close_quote 39 t with
        | Some (w, r) => Break (Ok (Some (Token (c :: w) STRING, r)))
        | None => Break (Throw (SS.SHY000_GENERAL_ERROR, str "Unclosed string literal."))
        end
      else if c =? 46 then found DOT
      else if c =? 44 then found COMMA
      else if c =? 59 then found SEMICOLON
      else if c =? 40 then found PARENTHESIS_LEFT
      else if c =? 41 then found PARENTHESIS_RIGHT
      else if is_blank c then Continue (skip_blank t)
      else let '(w, r) := span_word s in Break (Ok (Some (Token w WORD, r)))
  end.

(** Every pass that goes round again shortens the text: its length bounds the passes. *)
Definition shift_loop (s : list Z) : option (outcome OdbcError (option (SqlToken * list Z))) :=
  while (S (length s)) shift_pass s.

(** [None] when the passes did not suffice, which [Shift_total] excludes. *)
Definition Shift (lx : SqlLexer) : option (outcome OdbcError (bool * SqlLexer)) :=
  r ← shift_loop (lx_rest lx);
  Some (let* found := r in
        match found with
        | Some (tok, rest) => Ok (true, Lexer rest tok)
        | None => Ok (false, Lexer [] (Token [] EOD))
        end).

Definition ExpectNextToken (typ : TokenType) (expected : list Z) (lx : SqlLexer) : option bool :=
  r ← Shift lx;
  Some match r with
       | Ok (true, lx) => bool_decide (tok_type (lx_token lx) = typ)
                          && bool_decide (ToLower (tok_text (lx_token lx)) = expected)
       | _ => false
       end.

(** * Internal commands *)

Definition internal_pass (lx : SqlLexer) : pass SqlLexer (option bool) :=
  match Shift lx with
  | None => Break None
  | Some (Ok (true, lx)) =>
      let token := lx_token lx in
      if bool_decide (tok_type token = SEMICOLON) then Continue lx else
      if bool_decide (tok_type token = WORD) && bool_decide (ToLower (tok_text token) = str "set")
      then Break (ExpectNextToken WORD (str "streaming") lx)
      else Break (Some false)
  | Some _ => Break (Some false)
  end.

Definition IsInternalCommand (sql : list Z) : option bool :=
  mjoin (while (S (length sql)) internal_pass (new_lexer sql)).

Record SqlSetStreamingCommand : Type := Streaming {
  enabled : bool;
  allowOverwrite : bool;
  batchSize : Z;
  parallelOpsPerNode : Z;
  bufferSizePerNode : Z;
  flushFrequency : Z;
  ordered : bool
}.

Definition DEFAULT_STREAM_BATCH_SIZE : Z := 2048.

Definition new_streaming : SqlSetStreamingCommand :=
  Streaming false false DEFAULT_STREAM_BATCH_SIZE 0 0 0 false.

(** The parser is a computation that may run out of passes, throw, or return. *)
Abbreviation parser A := (option (outcome OdbcError A)).

Definition pbind {A B} (p : parser A) (k : A -> parser B) : parser B :=
  match p with
  | None => None
  | Some (Ok a) => k a
  | Some (Throw e) => Some (Throw e)
  | Some UB => Some UB
  end.

Notation "'parse*' x := m 'in' k" := (pbind m (fun x => k)) (at level 10, x pattern, k at level 200).

Definition pthrow {A} (msg : list Z) : parser A :=
  Some (Throw (SS.S42000_SYNTAX_ERROR_OR_ACCESS_VIOLATION, msg)).

Definition ThrowUnexpectedTokenError {A} (token : SqlToken) (expected : list Z) : parser A :=
  pthrow (str "Unexpected token: '" ++ tok_text token ++ str "', " ++ expected ++ str " expected.").

Definition ThrowUnexpectedEndOfStatement {A} (expected : list Z) : parser A :=
  pthrow (str "Unexpected end of statement: " ++ expected ++ str " expected.").

(** [LexicalCast<int64_t>]: nothing is stored when there is nothing to read. *)
Definition LexicalCast (s : list Z) : parser Z :=
  match read_int64 s with
  | Ok v => Some (Ok v)
  | _ => Some UB
  end.

Definition ExpectInt (lx : SqlLexer) : parser (Z * SqlLexer) :=
  parse* (more, lx) := Shift lx in
  if negb more then ThrowUnexpectedEndOfStatement (str "integer number") else
  parse* (sgn, lx) :=
    if bool_decide (tok_type (lx_token lx) = MINUS) then
      parse* (more, lx) := Shift lx in
      if negb more then ThrowUnexpectedEndOfStatement (str "integer number") else Some (Ok (-1, lx))
    else Some (Ok (1, lx)) in
  let token := lx_token lx in
  if bool_decide (tok_type token = WORD) && AllDigits (tok_text token) then
    parse* val := LexicalCast (tok_text token) in
    let val := sgn * val in
    if (- 2 ^ 31 <=? val) && (val <=? 2 ^ 31 - 1) then Some (Ok (val, lx))
    else ThrowUnexpectedTokenError token (str "integer number")
  else ThrowUnexpectedTokenError token (str "integer number").

Definition ExpectPositiveInteger (description : list Z) (lx : SqlLexer) : parser (Z * SqlLexer) :=
  parse* (val, lx) := ExpectInt lx in
  if val <=? 0
  then pthrow (str "Invalid " ++ description ++ str " - positive integer number is expected.")
  else Some (Ok (val, lx)).

Definition TokenToBoolean (token : SqlToken) : parser bool :=
  let lower := ToLower (tok_text token) in
  if bool_decide (lower = str "1") || bool_decide (lower = str "on") then Some (Ok true) else
  if bool_decide (lower = str "0") || bool_decide (lower = str "off") then Some (Ok false) else
  pthrow (str "Unexpected token: '" ++ tok_text token ++ str "', ON, OFF, 1 or 0 expected.").

Definition ExpectBool (lx : SqlLexer) : parser (bool * SqlLexer) :=
  parse* (more, lx) := Shift lx in
  if negb more then ThrowUnexpectedTokenError (lx_token lx) (str "ON or OFF") else
  parse* b := TokenToBoolean (lx_token lx) in Some (Ok (b, lx)).

(** [CheckEnabled(token)], then the rest. *)
Definition CheckEnabled {A} (cmd : SqlSetStreamingCommand) (token : SqlToken) (k : parser A) : parser A :=
  if enabled cmd then k
  else ThrowUnexpectedTokenError token (str "no parameters with STREAMING OFF command").

(** One parameter of the command, the current token being its name. *)
Definition parse_parameter (cmd : SqlSetStreamingCommand) (lx : SqlLexer)
    : parser (SqlSetStreamingCommand * SqlLexer) :=
  let token := lx_token lx in
  let name := ToLower (tok_text token) in
  let '(Streaming en ow bs po bu ff od) := cmd in
  if bool_decide (name = str "batch_size") then
    CheckEnabled cmd token
      (parse* (v, lx) := ExpectPositiveInteger (str "batch size") lx in
       Some (Ok (Streaming en ow v po bu ff od, lx)))
  else if bool_decide (name = str "per_node_buffer_size") then
    CheckEnabled cmd token
      (parse* (v, lx) := ExpectPositiveInteger (str "per node buffer size") lx in
       Some (Ok (Streaming en ow bs po v ff od, lx)))
  else if bool_decide (name = str "per_node_parallel_operations") then
    CheckEnabled cmd token
      (parse* (v, lx) := ExpectPositiveInteger (str "per node parallel operations number") lx in
       Some (Ok (Streaming en ow bs v bu ff od, lx)))
  else if bool_decide (name = str "allow_overwrite") then
    CheckEnabled cmd token
      (parse* (v, lx) := ExpectBool lx in Some (Ok (Streaming en v bs po bu ff od, lx)))
  else if bool_decide (name = str "flush_frequency") then
    CheckEnabled cmd token
      (parse* (v, lx) := ExpectPositiveInteger (str "flush frequency") lx in
       Some (Ok (Streaming en ow bs po bu v od, lx)))
  else if bool_decide (name = str "ordered") then
    CheckEnabled cmd token (Some (Ok (Streaming en ow bs po bu ff true, lx)))
  else ThrowUnexpectedTokenError token (str "additional parameter of SET STREAMING command or semicolon").

Definition parse_pass (st : SqlSetStreamingCommand * SqlLexer)
    : pass (SqlSetStreamingCommand * SqlLexer) (parser (SqlSetStreamingCommand * SqlLexer)) :=
  let '(cmd, lx) := st in
  match Shift lx with
  | None => Break None
  | Some (Throw e) => Break (Some (Throw e))
  | Some UB => Break (Some UB)
  | Some (Ok (more, lx)) =>
      if negb more || bool_decide (tok_type (lx_token lx) = SEMICOLON) then Break (Some (Ok (cmd, lx))) else
      match parse_parameter cmd lx with
      | Some (Ok st) => Continue st
      | r => Break r
      end
  end.

Definition Parse (lx : SqlLexer) : parser (SqlSetStreamingCommand * SqlLexer) :=
  let '(Streaming _ ow bs po bu ff od) := new_streaming in
  parse* (en, lx) := ExpectBool lx in
  mjoin (while (S (length (lx_rest lx))) parse_pass (Streaming en ow bs po bu ff od, lx)).

Definition unexpected_token {A} (token : SqlToken) : parser A :=
  pthrow (str "Unexpected token: '" ++ tok_text token ++ str "'").

Definition ProcessCommand (lx : SqlLexer) : parser (SqlSetStreamingCommand * SqlLexer) :=
  if bool_decide (ToLower (tok_text (lx_token lx)) = str "set") then
    parse* (more, lx) := Shift lx in
    if more && bool_decide (tok_type (lx_token lx) = WORD)
       && bool_decide (ToLower (tok_text (lx_token lx)) = str "streaming")
    then Parse lx
    else unexpected_token (lx_token lx)
  else unexpected_token (lx_token lx).

Definition command_pass (lx : SqlLexer) : pass SqlLexer (parser (option SqlSetStreamingCommand)) :=
  match Shift lx with
  | None => Break None
  | Some (Throw e) => Break (Some (Throw e))
  | Some UB => Break (Some UB)
  | Some (Ok (false, _)) => Break (Some (Ok None))
  | Some (Ok (true, lx)) =>
      match tok_type (lx_token lx) with
      | SEMICOLON => Continue lx
      | WORD => Break (parse* (cmd, _) := ProcessCommand lx in Some (Ok (Some cmd)))
      | _ => Break (unexpected_token (lx_token lx))
      end
  end.

(** A command, or the null pointer when the text has none. *)
Definition GetNextCommand (sql : list Z) : parser (option SqlSetStreamingCommand) :=
  mjoin (while (S (length sql)) command_pass (new_lexer sql)).
