(* ===== verification/SqlProps.v ===== *)
(** Properties of the lexer and of the parser of internal commands. *)
From S2P Require Import Prelude BigText AppBuffer Diag SqlLex.

(** * Shift *)

Lemma skip_line_spec s : exists l, s = l ++ skip_line s.
Proof.
  induction s as [|c s [l IH]]; [by exists []|]. cbn [skip_line]. case_match; [by exists []|].
  exists (c :: l). simpl. by rewrite <- IH.
Qed.

Lemma skip_blank_spec s : exists l, s = l ++ skip_blank s /\ Forall (fun c => is_blank c = true) l.
Proof.
  induction s as [|c s (l & IH & Hl)]; [by exists []|]. cbn [skip_blank]. case_match; [|by exists []].
  exists (c :: l). simpl. rewrite <- IH. by repeat constructor.
Qed.

Lemma span_word_spec s : exists w r, span_word s = (w, r) /\ s = w ++ r
  /\ Forall (fun c => IsDelimiter c = false) w /\ (forall c t, r = c :: t -> IsDelimiter c = true).
Proof.
  induction s as [|c s (w & r & E & Hs & Hw & Hr)]; cbn [span_word].
  { exists [], []. by repeat split. }
  rewrite E. destruct (IsDelimiter c) eqn:Hc.
  - exists [], (c :: s). split; [done|]. split; [done|]. split; [done|]. intros c' t [= <- <-]. done.
  - exists (c :: w), r. split; [done|]. split; [by rewrite Hs|]. split; [by constructor|done].
Qed.

Lemma close_quote_spec q s w r : close_quote q s = Some (w, r) -> s = w ++ r /\ w <> [].
Proof.
  revert w r. induction s as [s IH] using (induction_ltof1 _ (@length Z)). unfold ltof in IH.
  intros w r Hc. destruct s as [|c t]; [done|]. cbn [close_quote] in Hc.
  destruct (c =? q).
  - destruct t as [|c1 t']; [by injection Hc as <- <-|]. destruct t' as [|d t2]; [by injection Hc as <- <-|].
    destruct (c1 =? q); [|by injection Hc as <- <-].
    destruct (close_quote q (d :: t2)) as [[w' r']|] eqn:E; [|done]. injection Hc as <- <-.
    apply IH in E as [E _]; [|simpl; lia]. rewrite E. done.
  - destruct (close_quote q t) as [[w' r']|] eqn:E; [|done]. injection Hc as <- <-.
    apply IH in E as [E _]; [|simpl; lia]. by rewrite E.
Qed.

(** What [Shift] passes over: blanks and comments. *)
Inductive gap : list Z -> Prop :=
| gap_nil : gap []
| gap_blank g l : gap g -> Forall (fun c => is_blank c = true) l -> gap (g ++ l)
| gap_comment g l : gap g -> gap (g ++ 45 :: 45 :: l).

(** A character that is no part of any token. *)
Definition stray (c : Z) : bool :=
  IsDelimiter c && negb (is_blank c) && negb (bool_decide (c ∈ [45; 34; 39; 46; 44; 59; 40; 41])).

(** A token found in [s], [r] being what follows it. *)
Definition token_at (s : list Z) (tok : SqlToken) (r : list Z) : Prop :=
  s = tok_text tok ++ r /\ tok_type tok <> EOD
  /\ (tok_text tok = [] -> tok_type tok = WORD /\ exists c t, r = c :: t /\ stray c = true).

Lemma token_one c t typ : typ <> EOD -> token_at (c :: t) (Token [c] typ) t.
Proof. by repeat split. Qed.

Lemma shift_pass_spec s :
  match shift_pass s with
  | Continue s' => exists l, s = l ++ s' /\ l <> []
      /\ (Forall (fun c => is_blank c = true) l \/ exists l', l = 45 :: 45 :: l')
  | Break (Ok None) => s = []
  | Break (Ok (Some (tok, r))) => token_at s tok r
  | Break (Throw e) => e.1 = SS.SHY000_GENERAL_ERROR
  | Break UB => False
  end.
Proof.
  destruct s as [|c t]; [done|]. unfold shift_pass.
  destruct (Z.eqb_spec c 45) as [->|H1].
  { destruct t as [|c1 t1]; [by apply token_one|]. destruct (Z.eqb_spec c1 45) as [->|]; [|by apply token_one].
    destruct (skip_line_spec t1) as [l Hl]. exists (45 :: 45 :: l). simpl. rewrite <- Hl. eauto. }
  destruct (Z.eqb_spec c 34) as [->|H2].
  { destruct (close_quote 34 t) as [[w r]|] eqn:E; [|done]. apply close_quote_spec in E as [-> _]. done. }
  destruct (Z.eqb_spec c 39) as [->|H3].
  { destruct (close_quote 39 t) as [[w r]|] eqn:E; [|done]. apply close_quote_spec in E as [-> _]. done. }
  do 5 match goal with |- context [?c =? ?k] => destruct (Z.eqb_spec c k) as [->|]; [by apply token_one|] end.
  destruct (is_blank c) eqn:Hb.
  { destruct (skip_blank_spec t) as (l & Hl & Hbl). exists (c :: l). simpl. rewrite <- Hl.
    split; [done|]. split; [done|]. left. by constructor. }
  destruct (span_word_spec (c :: t)) as (w & r & -> & Hs & Hw & Hr). split; [done|]. split; [done|].
  cbn [tok_text tok_type]. intros ->. split; [done|]. simpl in Hs. subst r. exists c, t. split; [done|].
  unfold stray. rewrite Hb, (Hr c t eq_refl). cbn [negb andb]. rewrite bool_decide_eq_false_2; [done|].
  rewrite !elem_of_cons, elem_of_nil. tauto.
Qed.

Lemma shift_pass_shrinks s s' : shift_pass s = Continue s' -> (length s' < length s)%nat.
Proof.
  intros E. pose proof (shift_pass_spec s) as Hs. rewrite E in Hs. destruct Hs as (l & -> & Hl & _).
  rewrite length_app. destruct l; [done|]. simpl. lia.
Qed.

Lemma shift_loop_total s : exists r, shift_loop s = Some r.
Proof.
  destruct (while_total shift_pass (fun _ => True) (fun _ => True) length (S (length s)) s)
    as (r & Hr & _); [done|lia| |by exists r].
  intros t _. destruct (shift_pass t) as [t'|r] eqn:E; [|done]. split; [done|]. by apply shift_pass_shrinks.
Qed.

Lemma shift_loop_spec s r :
  shift_loop s = Some r ->
  match r with
  | Ok None => gap s
  | Ok (Some (tok, rest)) => exists g, gap g /\ token_at (drop (length g) s) tok rest /\ s = g ++ drop (length g) s
  | Throw e => e.1 = SS.SHY000_GENERAL_ERROR
  | UB => False
  end.
Proof.
  intros Hw. pattern r. eapply (while_rule shift_pass (fun t => exists g, gap g /\ s = g ++ t)); [| |exact Hw].
  - exists []. split; [constructor|done].
  - intros t (g & Hg & Hs). pose proof (shift_pass_spec t) as Ht. destruct (shift_pass t) as [t'|[[[tok rest]|]|e|]].
    + destruct Ht as (l & -> & _ & Hl). exists (g ++ l). rewrite <- app_assoc. split; [|done].
      destruct Hl as [Hl|[l' ->]]; by constructor.
    + exists g. rewrite Hs, drop_app_length. done.
    + subst t. rewrite app_nil_r in Hs. by subst g.
    + done.
    + done.
Qed.

Lemma shift_progress lx lx' :
  Shift lx = Some (Ok (true, lx')) ->
  (length (lx_rest lx') <= length (lx_rest lx))%nat
  /\ (tok_text (lx_token lx') <> [] -> (length (lx_rest lx') < length (lx_rest lx))%nat).
Proof.
  unfold Shift. intros E. destruct (shift_loop_total (lx_rest lx)) as [r Hr]. rewrite Hr in E. simpl in E.
  apply shift_loop_spec in Hr. destruct r as [[[tok rest]|]| |]; try done. simpl in E. injection E as <-.
  cbn [lx_rest lx_token]. destruct Hr as (g & _ & (Ht & _ & _) & Hs).
  apply (f_equal length) in Ht. rewrite length_drop, length_app in Ht. split; [lia|].
  intros Hn. destruct (tok_text tok); [done|]. simpl in Ht. lia.
Qed.

Lemma shift_total lx : exists r, Shift lx = Some r /\ r <> UB.
Proof.
  unfold Shift. destruct (shift_loop_total (lx_rest lx)) as [r Hr]. rewrite Hr. apply shift_loop_spec in Hr.
  destruct r as [[[tok rest]|]| |]; simpl; eauto; done.
Qed.

(** C24: The lexer is total and exact.  [Shift] always ends, within as many passes
    as there are characters; it either finds that only blanks and comments are
    left, reports an unclosed quote, or splits the text into blanks and comments, a
    token and the rest.  The token is empty only in front of a character that
    belongs to no token, such as an operator; there the lexer does not move on. *)
Theorem Shift_correct lx :
  exists r, Shift lx = Some r /\
  match r with
  | Ok (true, lx') => exists g, gap g
      /\ lx_rest lx = g ++ tok_text (lx_token lx') ++ lx_rest lx' /\ tok_type (lx_token lx') <> EOD
      /\ (tok_text (lx_token lx') = [] -> tok_type (lx_token lx') = WORD
          /\ exists c t, lx_rest lx' = c :: t /\ stray c = true /\ Shift lx' = Some (Ok (true, lx')))
  | Ok (false, lx') => gap (lx_rest lx) /\ lx' = Lexer [] (Token [] EOD)
  | Throw e => e.1 = SS.SHY000_GENERAL_ERROR
  | UB => False
  end.
Proof.
  unfold Shift at 1. destruct (shift_loop_total (lx_rest lx)) as [r Hr]. rewrite Hr. simpl.
  apply shift_loop_spec in Hr. destruct r as [[[tok rest]|]|e|]; simpl; eexists; (split; [done|]); try done.
  destruct Hr as (g & Hg & (Ht & Hty & He) & Hs). exists g. cbn [lx_rest lx_token]. rewrite <- Ht.
  split; [done|]. split; [done|]. split; [done|]. intros H0. destruct (He H0) as (Hw & c & t & Hrest & Hst).
  split; [done|]. exists c, t. split; [done|]. split; [done|].
  destruct tok as [txt typ]. cbn [tok_text tok_type] in *. subst txt typ rest.
  unfold stray in Hst. rewrite !andb_true_iff, !negb_true_iff, bool_decide_eq_false in Hst.
  destruct Hst as [[Hd Hb] Hn]. rewrite !not_elem_of_cons in Hn. destruct_and!.
  unfold Shift, shift_loop. cbn [lx_rest while length]. unfold shift_pass.
  rewrite !(proj2 (Z.eqb_neq c _)) by done. rewrite Hb. cbn [span_word]. rewrite Hd. done.
Qed.

(** * The command parser *)

(** [Shift] in a parser. *)
Lemma shift_cases lx :
  (exists lx', Shift lx = Some (Ok (true, lx')) /\ (length (lx_rest lx') <= length (lx_rest lx))%nat
     /\ (tok_text (lx_token lx') <> [] -> (length (lx_rest lx') < length (lx_rest lx))%nat))
  \/ Shift lx = Some (Ok (false, Lexer [] (Token [] EOD)))
  \/ (exists e, Shift lx = Some (Throw e)).
Proof.
  destruct (Shift lx) as [r|] eqn:E; [|destruct (shift_total lx) as (r & Hr & _); congruence].
  pose proof E as E'. unfold Shift in E'. destruct (shift_loop_total (lx_rest lx)) as [q Hq]. rewrite Hq in E'.
  apply shift_loop_spec in Hq. destruct q as [[[tok rest]|]|e|]; try done; cbn in E'; injection E' as <-.
  - left. eexists. split; [done|]. by apply (shift_progress lx).
  - by right; left.
  - right; right. eauto.
Qed.

(** A parser that ends, leaving no more text than it was given. *)
Definition ends_within {A} (lx : SqlLexer) (p : parser (A * SqlLexer)) : Prop :=
  match p with
  | None => False
  | Some (Ok (_, lx')) => (length (lx_rest lx') <= length (lx_rest lx))%nat
  | _ => True
  end.

Ltac shift_case lx := destruct (shift_cases lx) as [(?lx' & -> & ? & ?)|[->|[? ->]]]; cbn [pbind negb]; try done.

Lemma expect_int_ends lx : ends_within lx (ExpectInt lx).
Proof.
  unfold ExpectInt. shift_case lx. case_bool_decide; cbn [pbind].
  - shift_case lx'. case_match; [|done]. unfold LexicalCast. case_match; cbn [pbind]; try done.
    case_match; [|done]. cbn. lia.
  - case_match; [|done]. unfold LexicalCast. case_match; cbn [pbind]; try done. by case_match.
Qed.

Lemma expect_positive_ends d lx : ends_within lx (ExpectPositiveInteger d lx).
Proof.
  unfold ExpectPositiveInteger. pose proof (expect_int_ends lx) as He.
  destruct (ExpectInt lx) as [[[v lx']| |]|]; cbn [pbind]; try done. by case_match.
Qed.

Lemma expect_bool_ends lx : ends_within lx (ExpectBool lx).
Proof. unfold ExpectBool. shift_case lx. unfold TokenToBoolean. do 2 (case_match; [done|]). done. Qed.

Lemma parameter_ends cmd lx :
  match parse_parameter cmd lx with
  | None => False
  | Some (Ok (_, lx')) => (length (lx_rest lx') <= length (lx_rest lx))%nat /\ tok_text (lx_token lx) <> []
  | _ => True
  end.
Proof.
  unfold parse_parameter. destruct cmd as [en ow bs po bu ff od]. unfold CheckEnabled. cbn [enabled].
  assert (forall s, ToLower (tok_text (lx_token lx)) = str s -> str s <> [] -> tok_text (lx_token lx) <> []) as Hne.
  { intros s Hs Hn H0. rewrite H0 in Hs. by destruct (str s). }
  repeat (case_bool_decide as Hw;
    [destruct en; [|done]; try (by split; [done|]; eapply Hne; [exact Hw|]);
     (match goal with |- context [pbind ?p _] =>
        assert (ends_within lx p) as He by (apply expect_positive_ends || apply expect_bool_ends);
        destruct p as [[[v lx']| |]|]; cbn [pbind]; try done;
        split; [exact He|]; eapply Hne; [exact Hw|done] end) | clear Hw]).
  done.
Qed.

Lemma parse_total lx : exists r, Parse lx = Some r.
Proof.
  unfold Parse. cbn [new_streaming]. pose proof (expect_bool_ends lx) as He.
  destruct (ExpectBool lx) as [[[en lx']| |]|]; cbn [pbind]; try done; eauto. clear He.
  set (cmd := Streaming _ _ _ _ _ _ _).
  destruct (while_total parse_pass (fun _ => True) (fun r => exists q, r = Some q)
    (fun st => length (lx_rest st.2)) (S (length (lx_rest lx'))) (cmd, lx')) as (r & -> & q & ->);
    [done|simpl; lia| |simpl; eauto].
  intros [c lx1] _. unfold parse_pass.
  destruct (shift_cases lx1) as [(lx2 & -> & Hle & Hlt)|[->|[e ->]]]; [|simpl; eauto|eauto].
  cbn [negb orb]. case_bool_decide; [eauto|]. pose proof (parameter_ends c lx2) as Hp.
  destruct (parse_parameter c lx2) as [[[c3 lx3]| |]|]; [|eauto..|done].
  destruct Hp as [Hp Hn]. specialize (Hlt Hn). simpl. split; [done|lia].
Qed.

(** Both loops pass over the same semicolons. *)
Lemma internal_command_parses n lx :
  while n internal_pass lx = Some (Some true) ->
  exists r, while n command_pass lx = Some (Some r) /\ r <> Ok None.
Proof.
  revert lx. induction n as [|n IH]; intros lx Hw; [done|]. cbn [while] in *.
  unfold internal_pass in Hw. unfold command_pass.
  destruct (shift_cases lx) as [(lx1 & E & _)|[E|[e E]]]; rewrite E in *; [|done..].
  case_bool_decide as Hsemi; [rewrite Hsemi; by apply IH|].
  case_bool_decide as Hword; [|done]. rewrite Hword. case_bool_decide as Hset; [|done]. cbn [andb] in Hw.
  injection Hw as Hw. unfold ExpectNextToken in Hw. unfold ProcessCommand. rewrite bool_decide_eq_true_2 by done.
  destruct (shift_cases lx1) as [(lx2 & E2 & _)|[E2|[e E2]]]; rewrite E2 in *; [|done..]. simpl in Hw.
  injection Hw as Hw. apply andb_true_iff in Hw as [Hw1 Hw2]. cbn [pbind andb]. rewrite Hw1, Hw2.
  destruct (parse_total lx2) as [r Hr]. cbn [andb]. rewrite Hr.
  destruct r as [[cmd lx3]| |]; cbn [pbind]; eexists; (split; [done|]); done.
Qed.

Lemma shift_nonword lx lx' :
  Shift lx = Some (Ok (true, lx')) -> tok_type (lx_token lx') <> WORD -> tok_text (lx_token lx') <> [].
Proof.
  unfold Shift. intros E. destruct (shift_loop_total (lx_rest lx)) as [r Hr]. rewrite Hr in E. simpl in E.
  apply shift_loop_spec in Hr. destruct r as [[[tok rest]|]| |]; try done. simpl in E. injection E as <-.
  destruct Hr as (g & _ & (_ & _ & He) & _). cbn [lx_token]. tauto.
Qed.

Lemma internal_command_total sql : exists b, IsInternalCommand sql = Some b.
Proof.
  unfold IsInternalCommand.
  destruct (while_total internal_pass (fun _ => True) (fun r => exists b, r = Some b)
    (fun lx => length (lx_rest lx)) (S (length sql)) (new_lexer sql)) as (r & -> & b & ->);
    [done|simpl; lia| |by exists b].
  intros lx _. unfold internal_pass.
  destruct (shift_cases lx) as [(lx1 & E & _ & Hlt)|[E|[e E]]]; rewrite E; [|eauto..].
  case_bool_decide as Hs.
  { split; [done|]. apply Hlt. apply (shift_nonword lx); [done|by rewrite Hs]. }
  destruct (bool_decide _ && bool_decide _); [|eauto]. unfold ExpectNextToken.
  destruct (shift_cases lx1) as [(lx2 & -> & _)|[->|[e ->]]]; simpl; eauto.
Qed.

(** [IsInternalCommand] always answers, and what it recognises the parser takes
    over: for such a text [GetNextCommand] ends with a command or an error, and
    never without a command, as [ProcessInternalCommand] asserts. *)
Theorem internal_command_not_null sql :
  (exists b, IsInternalCommand sql = Some b)
  /\ (IsInternalCommand sql = Some true -> exists r, GetNextCommand sql = Some r /\ r <> Ok None).
Proof.
  split; [apply internal_command_total|]. unfold IsInternalCommand, GetNextCommand. intros Hi.
  destruct (while (S (length sql)) internal_pass (new_lexer sql)) as [[b|]|] eqn:E; try done.
  injection Hi as ->. apply internal_command_parses in E as (r & -> & Hr). simpl. eauto.
Qed.

Lemma internal_command_not_null_witness :
  exists r, GetNextCommand (str "; SET -- off
 Streaming 1") = Some r /\ r <> Ok None.
Proof. apply internal_command_not_null. vm_compute. reflexivity. Defined.

(** * Commands in text *)

Inductive setting : Type :=
| BatchSize (n : Z) | BufferSize (n : Z) | ParallelOps (n : Z) | FlushFrequency (n : Z)
| AllowOverwrite (b : bool) | Ordered.

Definition apply_setting (cmd : SqlSetStreamingCommand) (s : setting) : SqlSetStreamingCommand :=
  let '(Streaming en ow bs po bu ff od) := cmd in
  match s with
  | BatchSize n => Streaming en ow n po bu ff od
  | BufferSize n => Streaming en ow bs po n ff od
  | ParallelOps n => Streaming en ow bs n bu ff od
  | FlushFrequency n => Streaming en ow bs po bu n od
  | AllowOverwrite b => Streaming en b bs po bu ff od
  | Ordered => Streaming en ow bs po bu ff true
  end.

Definition int_word (n : Z) : list Z := text (print_u64 n).
Definition bool_word (b : bool) : list Z := str (if b then "ON" else "OFF").

Definition setting_words (s : setting) : list (list Z) :=
  match s with
  | BatchSize n => [str "BATCH_SIZE"; int_word n]
  | BufferSize n => [str "PER_NODE_BUFFER_SIZE"; int_word n]
  | ParallelOps n => [str "PER_NODE_PARALLEL_OPERATIONS"; int_word n]
  | FlushFrequency n => [str "FLUSH_FREQUENCY"; int_word n]
  | AllowOverwrite b => [str "ALLOW_OVERWRITE"; bool_word b]
  | Ordered => [str "ORDERED"]
  end.

Definition setting_ok (s : setting) : Prop :=
  match s with
  | BatchSize n | BufferSize n | ParallelOps n | FlushFrequency n => 0 < n < 2 ^ 31
  | _ => True
  end.

(** Each word behind a space. *)
Definition spaced (ws : list (list Z)) : list Z := concat (map (cons 32) ws).

Definition streaming_text (on : bool) (ss : list setting) : list Z :=
  spaced ([str "SET"; str "STREAMING"; bool_word on] ++ concat (map setting_words ss)).

Definition is_word (w : list Z) : Prop := w <> [] /\ Forall (fun c => IsDelimiter c = false) w.

Lemma word_char c : IsDelimiter c = false ->
  is_blank c = false /\ c <> 45 /\ c <> 34 /\ c <> 39 /\ c <> 46 /\ c <> 44 /\ c <> 59 /\ c <> 40 /\ c <> 41.
Proof.
  unfold IsDelimiter, is_alnum, is_blank.
  rewrite andb_false_iff, !negb_false_iff, !orb_true_iff, !andb_true_iff, !Z.leb_le, Z.eqb_eq,
    orb_false_iff, andb_false_iff, !Z.leb_gt, Z.eqb_neq. lia.
Qed.

Lemma span_word_app w rest :
  Forall (fun c => IsDelimiter c = false) w -> (forall c t, rest = c :: t -> IsDelimiter c = true) ->
  span_word (w ++ rest) = (w, rest).
Proof.
  intros Hw Hr. induction Hw as [|c w Hc Hw IH]; cbn [app span_word].
  - destruct rest as [|c t]; [done|]. cbn [span_word]. by rewrite (Hr c t).
  - by rewrite Hc, IH.
Qed.

Lemma shift_word w rest tok :
  is_word w -> (forall c t, rest = c :: t -> IsDelimiter c = true) ->
  Shift (Lexer (32 :: w ++ rest) tok) = Some (Ok (true, Lexer rest (Token w WORD))).
Proof.
  intros [Hne Hw] Hr. destruct w as [|c w]; [done|]. pose proof (Forall_inv Hw) as Hc.
  destruct (word_char c Hc) as (Hb & Hn). destruct_and!.
  unfold Shift, shift_loop. cbn [lx_rest length while]. unfold shift_pass at 1.
  change (is_blank 32) with true. cbn [Z.eqb Pos.eqb app]. cbn [skip_blank]. rewrite Hb.
  cbn [while app]. unfold shift_pass. rewrite !(proj2 (Z.eqb_neq c _)) by done. rewrite Hb.
  change (c :: w ++ rest) with ((c :: w) ++ rest). rewrite span_word_app by done. done.
Qed.

Lemma spaced_delim ws c t : spaced ws = c :: t -> IsDelimiter c = true.
Proof. destruct ws as [|w ws]; [done|]. cbn. by intros [= <- _]. Qed.

Lemma shift_spaced w ws tok :
  is_word w -> Shift (Lexer (spaced (w :: ws)) tok) = Some (Ok (true, Lexer (spaced ws) (Token w WORD))).
Proof. intros Hw. apply shift_word; [done|]. intros c t. apply spaced_delim. Qed.

Lemma int_word_ok n :
  0 < n < 2 ^ 31 -> is_word (int_word n) /\ AllDigits (int_word n) = true /\ LexicalCast (int_word n) = Some (Ok n).
Proof.
  intros Hn. destruct (print_u64_spec n ltac:(lia)) as (Hne & Hd & _).
  assert (Forall (fun c => 48 <= c <= 57) (int_word n)) as Hc.
  { unfold int_word, text. apply Forall_map. eapply Forall_impl; [exact Hd|]. cbn beta. intros c Hc.
    apply digit_code in Hc. lia. }
  split; [|split].
  - split; [unfold int_word, text; by destruct (print_u64 n)|]. eapply Forall_impl; [exact Hc|].
    cbn beta. intros c Hc'. unfold IsDelimiter, is_alnum.
    rewrite (proj2 (Z.leb_le 48 c)), (proj2 (Z.leb_le c 57)) by lia. done.
  - apply forallb_forall. intros c Hin. apply list_elem_of_In in Hin.
    rewrite Forall_forall in Hc. specialize (Hc c Hin). rewrite andb_true_iff, !Z.leb_le. lia.
  - unfold LexicalCast, int_word. by rewrite read_int64_numeral by lia.
Qed.

Lemma expect_positive_spaced d n ws tok :
  0 < n < 2 ^ 31 ->
  ExpectPositiveInteger d (Lexer (spaced (int_word n :: ws)) tok)
  = Some (Ok (n, Lexer (spaced ws) (Token (int_word n) WORD))).
Proof.
  intros Hn. destruct (int_word_ok n Hn) as (Hw & Hd & Hc). unfold ExpectPositiveInteger, ExpectInt.
  rewrite shift_spaced by done. cbn [pbind negb lx_token tok_type tok_text].
  rewrite bool_decide_eq_false_2 by done. cbn [pbind lx_token tok_type tok_text].
  rewrite bool_decide_eq_true_2, Hd by done. cbn [pbind andb]. rewrite Hc. cbn [pbind].
  rewrite Z.mul_1_l, (proj2 (Z.leb_le _ n)), (proj2 (Z.leb_le n _)) by lia. cbn [andb pbind].
  by rewrite (proj2 (Z.leb_gt n 0)) by lia.
Qed.

Ltac decide_word := split; [done|]; apply (bool_decide_unpack _); vm_compute; exact I.

Lemma expect_bool_spaced b ws tok :
  ExpectBool (Lexer (spaced (bool_word b :: ws)) tok)
  = Some (Ok (b, Lexer (spaced ws) (Token (bool_word b) WORD))).
Proof. unfold ExpectBool. rewrite shift_spaced; [by destruct b|]. destruct b; decide_word. Qed.

Lemma parameter_spaced s cmd ws tok :
  setting_ok s -> enabled cmd = true ->
  exists w ws', setting_words s = w :: ws' /\ is_word w
    /\ exists tok', parse_parameter cmd (Lexer (spaced (ws' ++ ws)) (Token w tok))
       = Some (Ok (apply_setting cmd s, Lexer (spaced ws) tok')).
Proof.
  intros Hs Hen. destruct cmd as [en ow bs po bu ff od]. cbn [enabled] in Hen. subst en.
  destruct s; cbn [setting_words setting_ok] in *; eexists _, _; (split; [done|]); (split; [decide_word|]);
    eexists; cbn [app]; unfold parse_parameter; cbn [lx_token tok_text];
    repeat (rewrite bool_decide_eq_false_2 by done); rewrite bool_decide_eq_true_2 by done;
    unfold CheckEnabled; cbn [enabled];
    rewrite ?expect_positive_spaced, ?expect_bool_spaced by done; reflexivity.
Qed.

Lemma parse_settings ss cmd tok fuel :
  Forall setting_ok ss -> enabled cmd = true -> (length ss < fuel)%nat ->
  exists lx, while fuel parse_pass (cmd, Lexer (spaced (concat (map setting_words ss))) tok)
    = Some (Some (Ok (foldl apply_setting cmd ss, lx))).
Proof.
  intros Hss. revert cmd tok fuel. induction Hss as [|s ss Hs Hss IH]; intros cmd tok fuel Hen Hf;
    (destruct fuel as [|k]; [simpl in Hf; lia|]); cbn [while length] in *.
  - eexists. done.
  - destruct (parameter_spaced s cmd (concat (map setting_words ss)) WORD Hs Hen)
      as (w & ws' & Hw & Hok & tok' & E).
    cbn [map concat]. rewrite Hw. unfold parse_pass at 1. cbn [app]. rewrite shift_spaced by done.
    cbn [negb orb lx_token tok_type]. rewrite bool_decide_eq_false_2 by done. rewrite E.
    apply IH; [|lia]. destruct cmd, s; done.
Qed.

Lemma parse_off_settings s ss cmd tok :
  setting_ok s -> enabled cmd = false ->
  exists msg, forall k,
    while (S k) parse_pass (cmd, Lexer (spaced (concat (map setting_words (s :: ss)))) tok)
    = Some (pthrow msg).
Proof.
  intros Hs Hen. destruct cmd as [en ow bs po bu ff od]. cbn [enabled] in Hen. subst en.
  assert (exists w ws', setting_words s = w :: ws' /\ is_word w
    /\ forall lx, exists msg, parse_parameter (Streaming false ow bs po bu ff od) (Lexer lx (Token w WORD)) = pthrow msg)
    as (w & ws' & Hw & Hok & Hp).
  { destruct s; eexists _, _; (split; [done|]); (split; [decide_word|]); intros lx; eexists;
      unfold parse_parameter; cbn [lx_token tok_text];
      repeat (rewrite bool_decide_eq_false_2 by done); rewrite bool_decide_eq_true_2 by done; done. }
  destruct (Hp (spaced (ws' ++ concat (map setting_words ss)))) as [msg Hm].
  exists msg. intros k. cbn [while map concat].
  rewrite Hw. unfold parse_pass at 1. cbn [app]. rewrite shift_spaced by done.
  cbn [negb orb lx_token tok_type]. rewrite bool_decide_eq_false_2 by done. rewrite Hm. done.
Qed.

(** The command before its parameters. *)
Definition streaming_base (on : bool) : SqlSetStreamingCommand :=
  Streaming on false DEFAULT_STREAM_BATCH_SIZE 0 0 0 false.

Lemma spaced_length ws : (length ws <= length (spaced ws))%nat.
Proof.
  induction ws as [|w ws IH]; [done|]. change (spaced (w :: ws)) with (32 :: w ++ spaced ws).
  cbn [length]. rewrite length_app. lia.
Qed.

Lemma settings_length ss : (length ss <= length (concat (map setting_words ss)))%nat.
Proof.
  induction ss as [|s ss IH]; [done|]. cbn [map concat length]. rewrite length_app.
  assert (1 <= length (setting_words s))%nat by (destruct s; simpl; lia). lia.
Qed.

(** The words SET STREAMING ON lead the parser to the parameters. *)
Lemma command_text_start on ss :
  IsInternalCommand (streaming_text on ss) = Some true
  /\ GetNextCommand (streaming_text on ss)
     = parse* (cmd, _) := mjoin (while (S (length (spaced (concat (map setting_words ss))))) parse_pass
         (streaming_base on, Lexer (spaced (concat (map setting_words ss))) (Token (bool_word on) WORD))) in
       Some (Ok (Some cmd)).
Proof.
  assert (is_word (str "SET")) by decide_word. assert (is_word (str "STREAMING")) by decide_word.
  unfold IsInternalCommand, GetNextCommand, streaming_text, new_lexer. cbn [app while].
  unfold internal_pass, command_pass, ExpectNextToken, ProcessCommand, Parse.
  rewrite !shift_spaced by done. cbn [lx_token tok_type tok_text].
  rewrite !bool_decide_eq_false_2 by done. rewrite !bool_decide_eq_true_2 by done. cbn [andb].
  split; [done|]. cbn [mjoin option_join pbind andb lx_token tok_type tok_text new_streaming].
  rewrite !bool_decide_eq_true_2 by done. cbn [andb]. rewrite expect_bool_spaced. done.
Qed.

(** SET STREAMING commands in text are recognised and read back: ON with any
    list of valid parameters gives the command with those parameters, a later one
    overriding an earlier one, OFF without parameters gives the command that turns
    streaming off, and OFF with parameters is a syntax error. *)
Theorem streaming_text_parses on ss :
  Forall setting_ok ss ->
  IsInternalCommand (streaming_text on ss) = Some true
  /\ (on = true \/ ss = [] ->
      GetNextCommand (streaming_text on ss) = Some (Ok (Some (foldl apply_setting (streaming_base on) ss))))
  /\ (on = false -> ss <> [] -> exists msg,
      GetNextCommand (streaming_text on ss) = Some (Throw (SS.S42000_SYNTAX_ERROR_OR_ACCESS_VIOLATION, msg))).
Proof.
  intros Hss. destruct (command_text_start on ss) as [Hi ->]. split; [done|]. split.
  - intros Hon. destruct ss as [|s ss]; [done|]. destruct Hon as [->|]; [|done].
    destruct (parse_settings (s :: ss) (streaming_base true) (Token (bool_word true) WORD)
      (S (length (spaced (concat (map setting_words (s :: ss))))))) as [lx ->]; [done|done| |done].
    pose proof (spaced_length (concat (map setting_words (s :: ss)))).
    pose proof (settings_length (s :: ss)). lia.
  - intros -> Hne. destruct ss as [|s ss]; [done|]. apply Forall_cons in Hss as [Hs _].
    destruct (parse_off_settings s ss (streaming_base false) (Token (bool_word false) WORD) Hs eq_refl)
      as (msg & E).
    exists msg. by rewrite E.
Qed.

Lemma streaming_text_parses_witness :
  let ss := [BatchSize 100; Ordered; AllowOverwrite true; BatchSize 7] in
  IsInternalCommand (streaming_text true ss) = Some true
  /\ (true = true \/ ss = [] ->
      GetNextCommand (streaming_text true ss) = Some (Ok (Some (foldl apply_setting (streaming_base true) ss))))
  /\ (true = false -> ss <> [] -> exists msg,
      GetNextCommand (streaming_text true ss) = Some (Throw (SS.S42000_SYNTAX_ERROR_OR_ACCESS_VIOLATION, msg))).
Proof. apply streaming_text_parses. repeat constructor; lia. Defined.
