(* ===== verification/OrdMap.v ===== *)
(** Ordered maps: [std::map<uint16_t, T>], iterated in the order of the keys, as
    association lists with increasing keys. *)
From stdpp Require Import sorting.
From S2P Require Import Prelude.

Abbreviation omap T := (list (Z * T)).

Fixpoint om_lookup {T} (k : Z) (l : omap T) : option T :=
  match l with
  | [] => None
  | (k', v) :: t => if k =? k' then Some v else om_lookup k t
  end.

(** [map[k] = v]. *)
Fixpoint om_insert {T} (k : Z) (v : T) (l : omap T) : omap T :=
  match l with
  | [] => [(k, v)]
  | (k', v') :: t =>
      if k <? k' then (k, v) :: l else
      if k =? k' then (k, v) :: t else (k', v') :: om_insert k v t
  end.

Definition om_erase {T} (k : Z) (l : omap T) : omap T := filter (fun p => p.1 <> k) l.

(** The values, in order, changed by [f]. *)
Definition om_map {T U} (f : T -> U) (l : omap T) : omap U := map (fun p => (p.1, f p.2)) l.

Definition om_sorted {T} (l : omap T) : Prop := StronglySorted Z.lt (map fst l).

Section lemmas.
Context {T : Type}.
Implicit Types (l : omap T) (k : Z) (v : T).

Lemma om_sorted_cons p l : om_sorted (p :: l) <-> om_sorted l /\ Forall (fun q => p.1 < q.1) l.
Proof.
  unfold om_sorted. cbn [map]. rewrite StronglySorted_cons, Forall_map. tauto.
Qed.

Lemma om_insert_keys k v l : forall q, q ∈ om_insert k v l -> q = (k, v) \/ q ∈ l.
Proof.
  induction l as [|[k' v'] l IH]; intros q; cbn [om_insert].
  - rewrite elem_of_cons, elem_of_nil. tauto.
  - repeat case_match; rewrite !elem_of_cons; [tauto|tauto|]. intros [->|Hq]; [tauto|]. destruct (IH q Hq); tauto.
Qed.

Lemma om_insert_sorted k v l : om_sorted l -> om_sorted (om_insert k v l).
Proof.
  induction l as [|[k' v'] l IH]; intros Hs; cbn [om_insert]; [by repeat constructor|].
  pose proof Hs as Hs'. apply om_sorted_cons in Hs' as [Hl Hk]. cbn [fst] in Hk.
  destruct (Z.ltb_spec k k').
  { apply om_sorted_cons. split; [done|]. constructor; [done|]. eapply Forall_impl; [exact Hk|]. cbn. lia. }
  destruct (Z.eqb_spec k k') as [->|Hne].
  { apply om_sorted_cons. done. }
  apply om_sorted_cons. split; [by apply IH|]. apply Forall_forall. intros q Hq.
  apply om_insert_keys in Hq as [->|Hq]; cbn [fst]; [lia|]. rewrite Forall_forall in Hk. by apply Hk.
Qed.

Lemma om_erase_sorted k l : om_sorted l -> om_sorted (om_erase k l).
Proof.
  induction l as [|p l IH]; intros Hs; [done|]. apply om_sorted_cons in Hs as [Hl Hk].
  unfold om_erase in *. rewrite filter_cons. case_decide; [|by apply IH].
  apply om_sorted_cons. split; [by apply IH|]. apply Forall_forall. intros q Hq.
  apply list_elem_of_filter in Hq as [_ Hq]. rewrite Forall_forall in Hk. by apply Hk.
Qed.

Lemma om_lookup_insert k v l : om_lookup k (om_insert k v l) = Some v.
Proof.
  induction l as [|[k' v'] l IH]; cbn [om_insert om_lookup]; [by rewrite Z.eqb_refl|].
  destruct (Z.ltb_spec k k'); cbn [om_lookup]; [by rewrite Z.eqb_refl|].
  destruct (Z.eqb_spec k k') as [->|Hne]; cbn [om_lookup]; [by rewrite Z.eqb_refl|].
  by rewrite (proj2 (Z.eqb_neq _ _) Hne).
Qed.

Lemma om_lookup_insert_ne k j v l : j <> k -> om_lookup j (om_insert k v l) = om_lookup j l.
Proof.
  intros Hne. induction l as [|[k' v'] l IH]; cbn [om_insert om_lookup]; [by rewrite (proj2 (Z.eqb_neq _ _) Hne)|].
  destruct (Z.ltb_spec k k'); cbn [om_lookup]; [by rewrite (proj2 (Z.eqb_neq _ _) Hne)|].
  destruct (Z.eqb_spec k k') as [->|Hk]; cbn [om_lookup]; [by rewrite !(proj2 (Z.eqb_neq _ _) Hne)|].
  by rewrite IH.
Qed.

Lemma om_lookup_erase k j l : om_lookup j (om_erase k l) = if j =? k then None else om_lookup j l.
Proof.
  unfold om_erase. induction l as [|[k' v'] l IH]; [by case_match|].
  rewrite filter_cons. case_decide as Hd; cbn [fst om_lookup] in *.
  - rewrite IH. destruct (Z.eqb_spec j k'), (Z.eqb_spec j k); try done; congruence.
  - rewrite IH. destruct (Z.eqb_spec j k), (Z.eqb_spec j k'); try done; congruence.
Qed.

Lemma om_lookup_elem k v l : om_lookup k l = Some v -> (k, v) ∈ l.
Proof.
  induction l as [|[k' v'] l IH]; [done|]. cbn [om_lookup]. destruct (Z.eqb_spec k k') as [->|].
  - intros [= ->]. by left.
  - intros Hl. right. by apply IH.
Qed.

(** Replacing a value at a key that is present keeps the other entries in place. *)
Lemma om_insert_middle k v v' l1 l2 :
  om_sorted (l1 ++ (k, v') :: l2) -> om_insert k v (l1 ++ (k, v') :: l2) = l1 ++ (k, v) :: l2.
Proof.
  induction l1 as [|[k1 v1] l1 IH]; intros Hs; cbn [app om_insert].
  - by rewrite Z.ltb_irrefl, Z.eqb_refl.
  - apply om_sorted_cons in Hs as [Hs Hk]. rewrite Forall_app, Forall_cons in Hk. cbn [fst] in Hk.
    destruct Hk as (_ & Hk & _). rewrite (proj2 (Z.ltb_ge k k1)), (proj2 (Z.eqb_neq k k1)) by lia.
    by rewrite IH.
Qed.

Lemma om_lookup_middle k v l1 l2 : om_sorted (l1 ++ (k, v) :: l2) -> om_lookup k (l1 ++ (k, v) :: l2) = Some v.
Proof.
  induction l1 as [|[k1 v1] l1 IH]; intros Hs; cbn [app om_lookup]; [by rewrite Z.eqb_refl|].
  apply om_sorted_cons in Hs as [Hs Hk]. rewrite Forall_app, Forall_cons in Hk. cbn [fst] in Hk.
  destruct Hk as (_ & Hk & _). rewrite (proj2 (Z.eqb_neq k k1)) by lia. by apply IH.
Qed.

Lemma om_sorted_replace k v v' l1 l2 : om_sorted (l1 ++ (k, v') :: l2) -> om_sorted (l1 ++ (k, v) :: l2).
Proof. unfold om_sorted. by rewrite !map_app. Qed.

End lemmas.

Lemma om_map_sorted {T U} (f : T -> U) l : om_sorted l -> om_sorted (om_map f l).
Proof.
  unfold om_sorted, om_map. rewrite map_map. cbn [fst]. done.
Qed.
