(* ===== verification/Params.v ===== *)
(** Bound parameters and data at execution:
    [src/src/odbc/src/app/parameter.cpp] and [parameter_set.cpp].

    Writing parameters to the wire is in ParamWire.v. *)
From S2P Require Import Prelude OrdMap Memory Utf8 TypeTraits AppBuffer AppRead.

(** [app::Parameter]. *)
Record BoundParameter : Type := MkParam {
  p_buffer : ApplicationDataBuffer;
  p_sqlType : Z;
  p_columnSize : Z;
  p_decDigits : Z;
  p_nullData : bool;
  p_storedData : list Z
}.

Definition new_param (b : ApplicationDataBuffer) (sqlType columnSize decDigits : Z) : BoundParameter :=
  MkParam b sqlType columnSize decDigits false [].

Definition default_param : BoundParameter := new_param (ADB AI_UNSUPPORTED 0 0 0 0 0) 0 0 0.

(** [operator=] copies the binding, but not the data. *)
Definition param_assign (this other : BoundParameter) : BoundParameter :=
  MkParam (p_buffer other) (p_sqlType other) (p_columnSize other) (p_decDigits other)
    (p_nullData this) (p_storedData this).

Definition with_data (p : BoundParameter) (data : list Z) : BoundParameter :=
  MkParam (p_buffer p) (p_sqlType p) (p_columnSize p) (p_decDigits p) (p_nullData p) data.

Definition with_null (p : BoundParameter) : BoundParameter :=
  MkParam (p_buffer p) (p_sqlType p) (p_columnSize p) (p_decDigits p) true (p_storedData p).

Definition SQL_DEFAULT_PARAM : Z := -5.

Section parameter.
Context `{Platform}.

Definition ResetStoredData (p : BoundParameter) (m : mem) : outcome Z BoundParameter :=
  let* atExec := IsDataAtExec (p_buffer p) m in
  if atExec : bool then
    let* size := GetDataAtExecSize (p_buffer p) m in
    if size <? 0 then Throw length_error else Ok (with_data p [])
  else Ok (with_data p []).

Definition IsDataReady (p : BoundParameter) (m : mem) : outcome Z bool :=
  let* atExec := IsDataAtExec (p_buffer p) m in
  if negb atExec then Ok true else
  let* size := GetDataAtExecSize (p_buffer p) m in
  Ok (Z.of_nat (length (p_storedData p)) =? size).

(** The data pointer is an address of the application. *)
Definition PutData (p : BoundParameter) (data len : Z) (m : mem) : outcome Z BoundParameter :=
  if len =? SQL_DEFAULT_PARAM then Ok p else
  if len =? SQL_NULL_DATA then Ok (with_null p) else
  match adb_type (p_buffer p) with
  | AI_CHAR | AI_BINARY =>
      let* slen :=
        if bool_decide (adb_type (p_buffer p) = AI_CHAR) && (len =? SQL_NTS)
        then let* s := read_terminated 1 data m in Ok (Z.of_nat (length s)) else Ok len in
      if slen <=? 0 then Ok p else
      let* bs := ld data (Z.to_nat slen) m in
      Ok (with_data p (p_storedData p ++ bs))
  | _ =>
      let* dataSize := GetDataAtExecSize (p_buffer p) m in
      if dataSize <? 0 then Throw length_error else
      if dataSize =? 0 then UB else
      let* bs := ld data (Z.to_nat dataSize) m in
      Ok (with_data p bs)
  end.

End parameter.

(** * Parameter sets *)

Record ParameterSet : Type := MkSet {
  ps_parameters : omap BoundParameter;
  ps_paramTypes : list Z;
  ps_paramBindOffset : Z;
  ps_processedParamRows : Z;
  ps_paramsStatus : Z;
  ps_paramSetSize : Z;
  ps_paramSetPos : Z;
  ps_currentParamIdx : Z;
  ps_typesSet : bool
}.

Definition new_set : ParameterSet := MkSet [] [] 0 0 0 1 0 0 false.

Definition set_parameters (l : omap BoundParameter) (ps : ParameterSet) : ParameterSet :=
  MkSet l (ps_paramTypes ps) (ps_paramBindOffset ps) (ps_processedParamRows ps) (ps_paramsStatus ps)
    (ps_paramSetSize ps) (ps_paramSetPos ps) (ps_currentParamIdx ps) (ps_typesSet ps).

Definition set_current (idx : Z) (ps : ParameterSet) : ParameterSet :=
  MkSet (ps_parameters ps) (ps_paramTypes ps) (ps_paramBindOffset ps) (ps_processedParamRows ps)
    (ps_paramsStatus ps) (ps_paramSetSize ps) (ps_paramSetPos ps) idx (ps_typesSet ps).

Definition SetParamSetSize (size : Z) (ps : ParameterSet) : ParameterSet :=
  MkSet (ps_parameters ps) (ps_paramTypes ps) (ps_paramBindOffset ps) (ps_processedParamRows ps)
    (ps_paramsStatus ps) size (ps_paramSetPos ps) (ps_currentParamIdx ps) (ps_typesSet ps).

Definition SetParamBindOffsetPtr (ptr : Z) (ps : ParameterSet) : ParameterSet :=
  MkSet (ps_parameters ps) (ps_paramTypes ps) ptr (ps_processedParamRows ps)
    (ps_paramsStatus ps) (ps_paramSetSize ps) (ps_paramSetPos ps) (ps_currentParamIdx ps) (ps_typesSet ps).

Definition SetParamsProcessedPtr (ptr : Z) (ps : ParameterSet) : ParameterSet :=
  MkSet (ps_parameters ps) (ps_paramTypes ps) (ps_paramBindOffset ps) ptr
    (ps_paramsStatus ps) (ps_paramSetSize ps) (ps_paramSetPos ps) (ps_currentParamIdx ps) (ps_typesSet ps).

Definition SetParamsStatusPtr (ptr : Z) (ps : ParameterSet) : ParameterSet :=
  MkSet (ps_parameters ps) (ps_paramTypes ps) (ps_paramBindOffset ps) (ps_processedParamRows ps)
    ptr (ps_paramSetSize ps) (ps_paramSetPos ps) (ps_currentParamIdx ps) (ps_typesSet ps).

Definition UpdateParamsTypes (meta : list Z) (ps : ParameterSet) : ParameterSet :=
  MkSet (ps_parameters ps) meta (ps_paramBindOffset ps) (ps_processedParamRows ps)
    (ps_paramsStatus ps) (ps_paramSetSize ps) (ps_paramSetPos ps) (ps_currentParamIdx ps) true.

(** [parameters[paramIdx] = param]. *)
Definition BindParameter (idx : Z) (param : BoundParameter) (ps : ParameterSet) : ParameterSet :=
  let old := default default_param (om_lookup idx (ps_parameters ps)) in
  set_parameters (om_insert idx (param_assign old param) (ps_parameters ps)) ps.

Definition UnbindParameter (idx : Z) (ps : ParameterSet) : ParameterSet :=
  set_parameters (om_erase idx (ps_parameters ps)) ps.

Definition UnbindAll (ps : ParameterSet) : ParameterSet := set_parameters [] ps.

Definition GetParametersNumber (ps : ParameterSet) : Z := u16 (Z.of_nat (length (ps_parameters ps))).
Definition GetParamSetSize (ps : ParameterSet) : Z := i32 (ps_paramSetSize ps).
Definition GetExpectedParamNum (ps : ParameterSet) : Z := u16 (Z.of_nat (length (ps_paramTypes ps))).
Definition IsParameterSelected (ps : ParameterSet) : bool := negb (ps_currentParamIdx ps =? 0).
Definition GetParameter (idx : Z) (ps : ParameterSet) : option BoundParameter := om_lookup idx (ps_parameters ps).
Definition GetSelectedParameter (ps : ParameterSet) : option BoundParameter :=
  GetParameter (ps_currentParamIdx ps) ps.

Definition GetParamType (idx dflt : Z) (ps : ParameterSet) : Z :=
  if (0 <? idx) && (idx <=? Z.of_nat (length (ps_paramTypes ps)))
  then nth (Z.to_nat (idx - 1)) (ps_paramTypes ps) dflt else dflt.

(** The position is compared with the signed set size. *)
Definition SetParamStatus (idx status : Z) (ps : ParameterSet) (m : mem) : outcome Z mem :=
  if (idx <? 0) || (ps_paramsStatus ps =? 0) || (i64 (ps_paramSetSize ps) <=? idx) then Ok m
  else st (ps_paramsStatus ps + 2 * idx) (le_bytes 2 status) m.

Definition SetParamsProcessed (processed : Z) (ps : ParameterSet) (m : mem) : outcome Z mem :=
  if ps_processedParamRows ps =? 0 then Ok m else st (ps_processedParamRows ps) (le_bytes 8 processed) m.

Definition CalculateRowLen (ps : ParameterSet) : Z :=
  match last (ps_parameters ps) with
  | Some (k, _) => k
  | None => 0
  end.

Section sets.
Context `{Platform}.

Fixpoint reset_all (l : omap BoundParameter) (m : mem) : outcome Z (omap BoundParameter) :=
  match l with
  | [] => Ok []
  | (k, p) :: t => let* p := ResetStoredData p m in let* t := reset_all t m in Ok ((k, p) :: t)
  end.

Definition Prepare (ps : ParameterSet) (m : mem) : outcome Z ParameterSet :=
  let* l := reset_all (ps_parameters ps) m in
  Ok (MkSet l [] (ps_paramBindOffset ps) (ps_processedParamRows ps)
        (ps_paramsStatus ps) (ps_paramSetSize ps) 0 (ps_currentParamIdx ps) false).

(** The first parameter in order that lacks data. *)
Fixpoint first_pending (l : omap BoundParameter) (m : mem) : outcome Z (option (Z * BoundParameter)) :=
  match l with
  | [] => Ok None
  | (k, p) :: t =>
      let* ready := IsDataReady p m in
      if negb ready then Ok (Some (k, p)) else first_pending t m
  end.

Definition IsDataAtExecNeeded (ps : ParameterSet) (m : mem) : outcome Z bool :=
  let* first := first_pending (ps_parameters ps) m in Ok (bool_decide (is_Some first)).

Definition SelectNextParameter (ps : ParameterSet) (m : mem) : outcome Z (option BoundParameter * ParameterSet) :=
  let* first := first_pending (ps_parameters ps) m in
  match first with
  | Some (k, p) => Ok (Some p, set_current k ps)
  | None => Ok (None, ps)
  end.

End sets.
