(* ===== verification/Statement.v ===== *)
(** The statement handle: [src/src/odbc/src/statement.cpp].

    A statement keeps the application's column bindings, its parameters, the
    attributes and the current query.  What a query promises to the statement is the
    class [QueryOps]: the virtual functions of [query::Query] and the constructors of
    its subclasses.  The server is behind the class [Server]: the answer to a request
    for the types of a query's parameters (the driver's own is [DriverServer] of Batch).

    An operation takes the statement and the memory, adds records to the statement's
    diagnostics, and returns a result; [api] is the macro around each of them. *)
From S2P Require Import Prelude OrdMap Memory Utf8 BigText TypeTraits AppBuffer AppRead Diag SqlLex Params.

Module QT.

(** [QueryType::Type]. *)
Inductive QueryType : Type :=
| COLUMN_METADATA | DATA | BATCH | STREAMING | FOREIGN_KEYS | PRIMARY_KEYS | SPECIAL_COLUMNS
| TABLE_METADATA | TYPE_INFO | INTERNAL.

End QT.

#[export] Instance QueryType_eq_dec : EqDecision QT.QueryType.
Proof. solve_decision. Defined.

(** The two [GetAttribute] functions of a column's metadata. *)
Record ColumnAttributes : Type := MkAttributes {
  attr_number : Z -> option Z;
  attr_text : Z -> option (list Z)
}.

Abbreviation diags := DiagnosticRecordStorage.
Abbreviation bindings := (omap ApplicationDataBuffer).
Abbreviation text_opt := (option (list Z)).

Class QueryOps (Q : Type) : Type := {
  q_type : Q -> QT.QueryType;
  q_sql : Q -> list Z;
  q_execute : Q -> ParameterSet -> Z -> diags -> mem -> outcome Z (SR.SqlResult * Q * diags * mem);
  q_fetch : Q -> bindings -> diags -> mem -> outcome Z (SR.SqlResult * Q * diags * mem);
  q_column : Q -> Z -> ApplicationDataBuffer -> diags -> mem -> outcome Z (SR.SqlResult * Q * diags * mem);
  q_close : Q -> diags -> outcome Z (SR.SqlResult * Q * diags);
  q_meta : Q -> diags -> outcome Z (option (list ColumnAttributes) * Q * diags);
  q_available : Q -> bool;
  q_affected : Q -> Z;
  q_next : Q -> diags -> outcome Z (SR.SqlResult * Q * diags);
  new_data : list Z -> Q;
  new_batch : list Z -> Q;
  new_internal : list Z -> SqlSetStreamingCommand -> Q;
  new_column_metadata : text_opt -> text_opt -> list Z -> list Z -> Q;
  new_table_metadata : text_opt -> text_opt -> list Z -> text_opt -> Q;
  new_foreign_keys : text_opt -> text_opt -> list Z -> Q;
  new_primary_keys : text_opt -> text_opt -> text_opt -> Q;
  new_special_columns : Z -> list Z -> list Z -> list Z -> Z -> Z -> Q;
  new_type_info : Z -> Q
}.

(** The answer to [QueryGetParamsMetaRequest]. *)
Inductive meta_response : Type :=
| SyncOdbcError (e : OdbcError)
| SyncDocumentDbError (msg : list Z)
| SyncResponse (status : Z) (error : list Z) (typeIds : list Z).

Class Server : Type := { params_meta : list Z -> meta_response }.

Record Statement (Q : Type) : Type := MkStatement {
  st_this : Z;                        (* the address of the object *)
  st_bindings : bindings;
  st_query : option Q;
  st_rowsFetched : Z;
  st_rowStatuses : Z;
  st_bindOffset : Z;
  st_rowArraySize : Z;
  st_params : ParameterSet;
  st_timeout : Z;
  st_diag : diags
}.
Arguments MkStatement {Q}.
Arguments st_this {Q}.
Arguments st_bindings {Q}.
Arguments st_query {Q}.
Arguments st_rowsFetched {Q}.
Arguments st_rowStatuses {Q}.
Arguments st_bindOffset {Q}.
Arguments st_rowArraySize {Q}.
Arguments st_params {Q}.
Arguments st_timeout {Q}.
Arguments st_diag {Q}.

Definition new_statement {Q} (this : Z) : Statement Q :=
  MkStatement this [] None 0 0 0 1 new_set 0 new_storage.

Definition SQL_ATTR_QUERY_TIMEOUT : Z := 0.
Definition SQL_ATTR_ROW_BIND_TYPE : Z := 5.
Definition SQL_ATTR_PARAM_BIND_OFFSET_PTR : Z := 17.
Definition SQL_ATTR_PARAM_BIND_TYPE : Z := 18.
Definition SQL_ATTR_PARAM_STATUS_PTR : Z := 20.
Definition SQL_ATTR_PARAMS_PROCESSED_PTR : Z := 21.
Definition SQL_ATTR_PARAMSET_SIZE : Z := 22.
Definition SQL_ATTR_ROW_BIND_OFFSET_PTR : Z := 23.
Definition SQL_ATTR_ROW_STATUS_PTR : Z := 25.
Definition SQL_ATTR_ROWS_FETCHED_PTR : Z := 26.
Definition SQL_ATTR_ROW_ARRAY_SIZE : Z := 27.
Definition SQL_ATTR_APP_ROW_DESC : Z := 10010.
Definition SQL_ATTR_APP_PARAM_DESC : Z := 10011.
Definition SQL_ATTR_IMP_ROW_DESC : Z := 10012.
Definition SQL_ATTR_IMP_PARAM_DESC : Z := 10013.
Definition SQL_IS_POINTER : Z := -4.
Definition SQL_IS_UINTEGER : Z := -5.
Definition SQL_IS_INTEGER : Z := -6.
Definition SQL_BIND_BY_COLUMN : Z := 0.
Definition SQL_PARAM_INPUT : Z := 1.
Definition SQL_BEST_ROWID : Z := 1.
Definition SQL_ROWVER : Z := 2.
Definition SQL_ALL_TYPES : Z := 0.
Definition SQL_CLOSE : Z := 0.
Definition SQL_DROP : Z := 1.
Definition SQL_UNBIND : Z := 2.
Definition SQL_RESET_PARAMS : Z := 3.
Definition SQL_FETCH_NEXT : Z := 1.
Definition SQL_ROW_SUCCESS : Z := 0.
Definition SQL_ROW_NOROW : Z := 3.
Definition SQL_ROW_ERROR : Z := 5.
Definition SQL_ROW_SUCCESS_WITH_INFO : Z := 6.
Definition INT32_MAX : Z := 2 ^ 31 - 1.

Section statement.
Context {Q : Type} `{QueryOps Q} `{Platform} `{Server}.

Abbreviation stmt := (Statement Q).
Abbreviation result_of := (outcome Z (SR.SqlResult * stmt * mem)).

Definition with_diag (d : diags) (s : stmt) : stmt :=
  MkStatement (st_this s) (st_bindings s) (st_query s) (st_rowsFetched s) (st_rowStatuses s)
    (st_bindOffset s) (st_rowArraySize s) (st_params s) (st_timeout s) d.
Definition with_query (q : option Q) (s : stmt) : stmt :=
  MkStatement (st_this s) (st_bindings s) q (st_rowsFetched s) (st_rowStatuses s)
    (st_bindOffset s) (st_rowArraySize s) (st_params s) (st_timeout s) (st_diag s).
Definition with_bindings (b : bindings) (s : stmt) : stmt :=
  MkStatement (st_this s) b (st_query s) (st_rowsFetched s) (st_rowStatuses s)
    (st_bindOffset s) (st_rowArraySize s) (st_params s) (st_timeout s) (st_diag s).
Definition with_params (ps : ParameterSet) (s : stmt) : stmt :=
  MkStatement (st_this s) (st_bindings s) (st_query s) (st_rowsFetched s) (st_rowStatuses s)
    (st_bindOffset s) (st_rowArraySize s) ps (st_timeout s) (st_diag s).
Definition with_pointers (fetched statuses offset : Z) (s : stmt) : stmt :=
  MkStatement (st_this s) (st_bindings s) (st_query s) fetched statuses
    offset (st_rowArraySize s) (st_params s) (st_timeout s) (st_diag s).
Definition with_sizes (rowArraySize timeout : Z) (s : stmt) : stmt :=
  MkStatement (st_this s) (st_bindings s) (st_query s) (st_rowsFetched s) (st_rowStatuses s)
    (st_bindOffset s) rowArraySize (st_params s) timeout (st_diag s).

(** A statement's records carry no connection. *)
Definition add_record (st : SS.SqlState) (msg : list Z) (s : stmt) : stmt :=
  with_diag (AddStatusRecord false st msg (st_diag s)) s.

(** [AddStatusRecord(...); return SqlResult::AI_ERROR;]. *)
Definition reject (st : SS.SqlState) (msg : list Z) (s : stmt) (m : mem) : result_of :=
  Ok (SR.AI_ERROR, add_record st msg s, m).

(** [DOCUMENTDB_ODBC_API_CALL(call)]. *)
Definition api (call : stmt -> mem -> result_of) (s : stmt) (m : mem) : outcome Z (stmt * mem) :=
  api_call (fun sm => let* (r, s, m) := call sm.1 sm.2 in Ok (r, (s, m)))
    (fun sm => st_diag sm.1) (fun d sm => (with_diag d sm.1, sm.2)) (s, m).

(** * Columns *)

Definition InternalBindColumn (columnIdx targetType targetValue bufferLength indicator : Z)
    (s : stmt) (m : mem) : result_of :=
  let driverType := ToDriverType targetType in
  if bool_decide (driverType = AI_UNSUPPORTED) then
    reject SS.SHY003_INVALID_APPLICATION_BUFFER_TYPE (str "The argument TargetType was not a valid data type.") s m
  else if bufferLength <? 0 then
    reject SS.SHY090_INVALID_STRING_OR_BUFFER_LENGTH
      (str "The value specified for the argument BufferLength was less than 0.") s m
  else
    let b :=
      if negb (targetValue =? 0) || negb (indicator =? 0)
      then om_insert columnIdx (ADB driverType targetValue bufferLength indicator 0 0) (st_bindings s)
      else om_erase columnIdx (st_bindings s) in
    Ok (SR.AI_SUCCESS, with_bindings b s, m).

(** [GetMeta]; the query may add records. *)
Definition GetMeta (s : stmt) : outcome Z (option (list ColumnAttributes) * stmt) :=
  match st_query s with
  | None => Ok (None, add_record SS.SHY010_SEQUENCE_ERROR (str "Query is not executed.") s)
  | Some q =>
      let* (meta, q, d) := q_meta q (st_diag s) in
      Ok (meta, with_diag d (with_query (Some q) s))
  end.

(** With the number, when there is one. *)
Definition InternalGetColumnNumber (s : stmt) (m : mem) : outcome Z (option Z * SR.SqlResult * stmt * mem) :=
  let* (meta, s) := GetMeta s in
  Ok match meta with
     | None => (None, SR.AI_ERROR, s, m)
     | Some cols => (Some (i32 (Z.of_nat (length cols))), SR.AI_SUCCESS, s, m)
     end.

Definition InternalGetColumnData (columnIdx : Z) (buffer : ApplicationDataBuffer) (s : stmt) (m : mem) : result_of :=
  match st_query s with
  | None => reject SS.S24000_INVALID_CURSOR_STATE (str "Cursor is not in the open state.") s m
  | Some q =>
      let* (r, q, d, m) := q_column q columnIdx buffer (st_diag s) m in
      Ok (r, with_diag d (with_query (Some q) s), m)
  end.

Definition InternalGetColumnAttribute (colIdx attrId strbuf buflen reslen numbuf : Z) (s : stmt) (m : mem)
    : result_of :=
  let* (meta, s) := GetMeta s in
  match meta with
  | None => Ok (SR.AI_ERROR, s, m)
  | Some cols =>
      if (Z.of_nat (length cols) <? colIdx) || (colIdx <? 1) then
        Ok (SR.AI_ERROR, with_diag (AddStatusRecordAt false SS.SHY000_GENERAL_ERROR
              (str "Column index is out of range.") 0 colIdx (st_diag s)) s, m)
      else
        match cols !! Z.to_nat (colIdx - 1) with
        | None => UB
        | Some col =>
            match (if numbuf =? 0 then None else attr_number col attrId) with
            | Some v => let* m := st numbuf (le_bytes 8 v) m in Ok (SR.AI_SUCCESS, s, m)
            | None =>
                match attr_text col attrId with
                | Some out =>
                    let* (outSize, isTruncated, m) :=
                      if strbuf =? 0 then Ok (Z.of_nat (length out), false, m)
                      else CopyStringToBuffer out strbuf (u64 buflen) true m in
                    let* m := put_if reslen 2 outSize m in
                    Ok (if isTruncated : bool then SR.AI_SUCCESS_WITH_INFO else SR.AI_SUCCESS, s, m)
                | None => reject SS.SHYC00_OPTIONAL_FEATURE_NOT_IMPLEMENTED (str "Unknown attribute.") s m
                end
            end
        end
  end.

(** * Parameters *)

Definition InternalBindParameter (paramIdx ioType bufferType paramSqlType columnSize decDigits buffer bufferLen resLen : Z)
    (s : stmt) (m : mem) : result_of :=
  if paramIdx =? 0 then
    reject SS.S24000_INVALID_CURSOR_STATE
      (str "The value specified for the argument ParameterNumber was less than 1. [ParameterNumber="
       ++ text (print_int paramIdx) ++ str "]") s m
  else if negb (ioType =? SQL_PARAM_INPUT) then
    reject SS.SHY105_INVALID_PARAMETER_TYPE
      (str "The value specified for the argument InputOutputType was not SQL_PARAM_INPUT. [ioType="
       ++ text (print_int ioType) ++ str "]") s m
  else if negb (IsSqlTypeSupported (Some paramSqlType)) then
    reject SS.SHYC00_OPTIONAL_FEATURE_NOT_IMPLEMENTED
      (str "Data type is not supported. [typeId=" ++ text (print_int paramSqlType) ++ str "]") s m
  else
    let driverType := ToDriverType bufferType in
    if bool_decide (driverType = AI_UNSUPPORTED) then
      reject SS.SHY003_INVALID_APPLICATION_BUFFER_TYPE
        (str "The argument TargetType was not a valid data type. [TargetType="
         ++ text (print_int bufferType) ++ str "]") s m
    else if (buffer =? 0) && (resLen =? 0) then
      reject SS.SHY009_INVALID_USE_OF_NULL_POINTER
        (str "ParameterValuePtr and StrLen_or_IndPtr are both null pointers") s m
    else
      let dataBuffer := ADB driverType buffer bufferLen resLen 0 0 in
      Ok (SR.AI_SUCCESS,
          with_params (BindParameter paramIdx (new_param dataBuffer paramSqlType columnSize decDigits) (st_params s)) s, m).

(** [UpdateParamsMeta], the query being a data query. *)
Definition UpdateParamsMeta (q : Q) (s : stmt) (m : mem) : result_of :=
  match params_meta (q_sql q) with
  | SyncOdbcError e => reject e.1 e.2 s m
  | SyncDocumentDbError msg => reject SS.SHY000_GENERAL_ERROR msg s m
  | SyncResponse status error typeIds =>
      if negb (status =? RS.SUCCESS) then reject (ResponseStatusToSqlState status) error s m
      else Ok (SR.AI_SUCCESS, with_params (UpdateParamsTypes typeIds (st_params s)) s, m)
  end.

(** With the number, when it is set. *)
Definition InternalGetParametersNumber (s : stmt) (m : mem) : outcome Z (option Z * SR.SqlResult * stmt * mem) :=
  match st_query s with
  | None => let* (r, s, m) := reject SS.SHY010_SEQUENCE_ERROR (str "Query is not prepared.") s m in Ok (None, r, s, m)
  | Some q =>
      if negb (bool_decide (q_type q = QT.DATA)) then Ok (Some 0, SR.AI_SUCCESS, s, m) else
      let* (r, s, m) := if ps_typesSet (st_params s) then Ok (SR.AI_SUCCESS, s, m) else UpdateParamsMeta q s m in
      Ok (if bool_decide (r = SR.AI_SUCCESS)
          then (Some (GetExpectedParamNum (st_params s)), SR.AI_SUCCESS, s, m) else (None, r, s, m))
  end.

(** The answers for a parameter of a type; [None] leaves the target unset. *)
Definition InternalDescribeParam (paramNum dataType paramSize decimalDigits nullable : Z) (s : stmt) (m : mem)
    : result_of :=
  match st_query s with
  | None => reject SS.SHY010_SEQUENCE_ERROR (str "Query is not prepared.") s m
  | Some q =>
      if negb (bool_decide (q_type q = QT.DATA)) then
        reject SS.SHY010_SEQUENCE_ERROR (str "Query is not SQL data query.") s m
      else
        let type := GetParamType paramNum 0 (st_params s) in
        let* (r, s, m) := if type =? 0 then UpdateParamsMeta q s m else Ok (SR.AI_SUCCESS, s, m) in
        if negb (bool_decide (r = SR.AI_SUCCESS)) then Ok (r, s, m) else
        let type := if type =? 0 then GetParamType paramNum 101 (st_params s) else type in
        let put p n v m := match v with Some v => put_if p n v m | None => Ok m end in
        let* m := put dataType 2%nat (BinaryToSqlType (Some type)) m in
        let* m := put paramSize 8%nat (BinaryTypeColumnSize (Some type)) m in
        let* m := put decimalDigits 2%nat (BinaryTypeDecimalDigits (Some type)) m in
        let* m := put nullable 2%nat (Some (BinaryTypeNullability type)) m in
        Ok (SR.AI_SUCCESS, s, m)
  end.

(** * Attributes *)

(** The value is the pointer argument itself. *)
Definition InternalSetAttribute (attr value : Z) (s : stmt) (m : mem) : result_of :=
  let ok s := Ok (SR.AI_SUCCESS, s, m) in
  let by_column :=
    if negb (value =? SQL_BIND_BY_COLUMN)
    then reject SS.SHYC00_OPTIONAL_FEATURE_NOT_IMPLEMENTED (str "Only binding by column is currently supported") s m
    else ok s in
  if attr =? SQL_ATTR_ROW_ARRAY_SIZE then
    if value <? 1
    then reject SS.SHY024_INVALID_ATTRIBUTE_VALUE (str "Array size value must be a positive integer value.") s m
    else ok (with_sizes value (st_timeout s) s)
  else if attr =? SQL_ATTR_ROW_BIND_TYPE then by_column
  else if attr =? SQL_ATTR_ROWS_FETCHED_PTR then ok (with_pointers value (st_rowStatuses s) (st_bindOffset s) s)
  else if attr =? SQL_ATTR_ROW_STATUS_PTR then ok (with_pointers (st_rowsFetched s) value (st_bindOffset s) s)
  else if attr =? SQL_ATTR_PARAM_BIND_TYPE then by_column
  else if attr =? SQL_ATTR_PARAM_BIND_OFFSET_PTR then
    (* [SetParamBindOffsetPtr] is an API call of its own. *)
    let s := with_diag (SetHeaderRecord SR.AI_SUCCESS (storage_Reset (st_diag s))) s in
    ok (with_params (SetParamBindOffsetPtr value (st_params s)) s)
  else if attr =? SQL_ATTR_ROW_BIND_OFFSET_PTR then ok (with_pointers (st_rowsFetched s) (st_rowStatuses s) value s)
  else if attr =? SQL_ATTR_PARAMSET_SIZE then ok (with_params (SetParamSetSize value (st_params s)) s)
  else if attr =? SQL_ATTR_PARAMS_PROCESSED_PTR then ok (with_params (SetParamsProcessedPtr value (st_params s)) s)
  else if attr =? SQL_ATTR_PARAM_STATUS_PTR then ok (with_params (SetParamsStatusPtr value (st_params s)) s)
  else if attr =? SQL_ATTR_QUERY_TIMEOUT then
    if INT32_MAX <? value then
      let* (_, s, m) := reject SS.S01S02_OPTION_VALUE_CHANGED
        (str "Value is too big: " ++ text (print_int value) ++ str ", changing to "
         ++ text (print_int INT32_MAX) ++ str ".") (with_sizes (st_rowArraySize s) INT32_MAX s) m in
      Ok (SR.AI_SUCCESS_WITH_INFO, s, m)
    else ok (with_sizes (st_rowArraySize s) value s)
  else reject SS.SHYC00_OPTIONAL_FEATURE_NOT_IMPLEMENTED (str "Specified attribute is not supported.") s m.

Definition InternalGetAttribute (attr buf valueLen : Z) (s : stmt) (m : mem) : result_of :=
  let answer (size : nat) (v : Z) (len : option Z) :=
    let* m := st buf (le_bytes size v) m in
    let* m := match len with Some l => put_if valueLen 4 l m | None => Ok m end in
    Ok (SR.AI_SUCCESS, s, m) in
  if buf =? 0 then reject SS.SHY000_GENERAL_ERROR (str "Data buffer is NULL.") s m
  else if (attr =? SQL_ATTR_APP_ROW_DESC) || (attr =? SQL_ATTR_APP_PARAM_DESC)
       || (attr =? SQL_ATTR_IMP_ROW_DESC) || (attr =? SQL_ATTR_IMP_PARAM_DESC)
  then answer 8%nat (st_this s) (Some SQL_IS_POINTER)
  else if attr =? SQL_ATTR_ROW_BIND_TYPE then answer 8%nat SQL_BIND_BY_COLUMN None
  else if attr =? SQL_ATTR_ROW_ARRAY_SIZE then answer 4%nat (st_rowArraySize s) (Some SQL_IS_INTEGER)
  else if attr =? SQL_ATTR_ROWS_FETCHED_PTR then answer 8%nat (st_rowsFetched s) (Some SQL_IS_POINTER)
  else if attr =? SQL_ATTR_ROW_STATUS_PTR then answer 8%nat (st_rowStatuses s) (Some SQL_IS_POINTER)
  else if attr =? SQL_ATTR_PARAM_BIND_TYPE then answer 8%nat SQL_BIND_BY_COLUMN None
  else if attr =? SQL_ATTR_PARAM_BIND_OFFSET_PTR then
    answer 8%nat (ps_paramBindOffset (st_params s)) (Some SQL_IS_POINTER)
  else if attr =? SQL_ATTR_ROW_BIND_OFFSET_PTR then answer 8%nat (st_bindOffset s) (Some SQL_IS_POINTER)
  else if attr =? SQL_ATTR_PARAMSET_SIZE then answer 8%nat (GetParamSetSize (st_params s)) (Some SQL_IS_UINTEGER)
  else if attr =? SQL_ATTR_PARAMS_PROCESSED_PTR then
    answer 8%nat (ps_processedParamRows (st_params s)) (Some SQL_IS_POINTER)
  else if attr =? SQL_ATTR_PARAM_STATUS_PTR then
    answer 8%nat (ps_paramsStatus (st_params s)) (Some SQL_IS_POINTER)
  else if attr =? SQL_ATTR_QUERY_TIMEOUT then answer 8%nat (st_timeout s) None
  else reject SS.SHYC00_OPTIONAL_FEATURE_NOT_IMPLEMENTED (str "Specified attribute is not supported.") s m.

(** * Queries *)

(** [if (currentQuery.get()) currentQuery->Close();], the result being dropped. *)
Definition close_current (s : stmt) : outcome Z stmt :=
  match st_query s with
  | None => Ok s
  | Some q => let* (_, q, d) := q_close q (st_diag s) in Ok (with_diag d (with_query (Some q) s))
  end.

Definition ProcessInternalCommand (query : list Z) (s : stmt) (m : mem) : result_of :=
  match GetNextCommand query with
  | Some (Ok (Some cmd)) =>
      let* ps := Prepare (st_params s) m in
      Ok (SR.AI_SUCCESS, with_query (Some (new_internal query cmd)) (with_params ps s), m)
  | Some (Throw e) => reject e.1 e.2 s m
  | _ => UB
  end.

Definition InternalPrepareSqlQuery (query : list Z) (s : stmt) (m : mem) : result_of :=
  match IsInternalCommand query with
  | None => UB
  | Some true => ProcessInternalCommand query s m
  | Some false =>
      let* ps := Prepare (st_params s) m in
      let* s := close_current (with_params ps s) in
      Ok (SR.AI_SUCCESS, with_query (Some (new_data query)) s, m)
  end.

(** [return currentQuery->Execute()]. *)
Definition execute_query (q : Q) (s : stmt) (m : mem) : result_of :=
  let* (r, q, d, m) := q_execute q (st_params s) (st_timeout s) (st_diag s) m in
  Ok (r, with_diag d (with_query (Some q) s), m).

(** The query to run: a batch for several sets of parameters, else single. *)
Definition select_query (q : Q) (s : stmt) : Q :=
  let n := GetParamSetSize (st_params s) in
  if (1 <? n) && bool_decide (q_type q = QT.DATA) then new_batch (q_sql q)
  else if (n =? 1) && bool_decide (q_type q = QT.BATCH) then new_data (q_sql q)
  else q.

Definition InternalExecutePrepared (s : stmt) (m : mem) : result_of :=
  match st_query s with
  | None => reject SS.SHY010_SEQUENCE_ERROR (str "Query is not prepared.") s m
  | Some q =>
      let q := select_query q s in
      let s := with_query (Some q) s in
      if (1 <? GetParamSetSize (st_params s)) && bool_decide (q_type q = QT.STREAMING) then
        reject SS.SHYC00_OPTIONAL_FEATURE_NOT_IMPLEMENTED (str "Batching is not supported in streaming mode.") s m
      else
        let* needed := IsDataAtExecNeeded (st_params s) m in
        if needed : bool then
          if bool_decide (q_type q = QT.BATCH) || bool_decide (q_type q = QT.STREAMING) then
            reject SS.SHYC00_OPTIONAL_FEATURE_NOT_IMPLEMENTED
              (str "Data-at-execution is not supported with batching.") s m
          else
            reject SS.SHYC00_OPTIONAL_FEATURE_NOT_IMPLEMENTED
              (str "Usage the value " ++ [34; 63; 34] ++ str " as query parameters are not supported.See ODBC limitations at https://github.com/aws/amazon-documentdb-odbc-driver/blob/develop/src/markdown/support/odbc-limitations.md") s m
        else execute_query q s m
  end.

Definition InternalExecuteSqlQuery (query : list Z) (s : stmt) (m : mem) : result_of :=
  let* (r, s, m) := InternalPrepareSqlQuery query s m in
  if bool_decide (r = SR.AI_SUCCESS) then InternalExecutePrepared s m else Ok (r, s, m).

(** A metadata query replaces the current one and runs. *)
Definition run_new (q : Q) (s : stmt) (m : mem) : result_of :=
  let* s := close_current s in execute_query q (with_query (Some q) s) m.

Definition InternalExecuteGetColumnsMetaQuery (catalog schema : text_opt) (table column : list Z) :=
  run_new (new_column_metadata catalog schema table column).
Definition InternalExecuteGetTablesMetaQuery (catalog schema : text_opt) (table : list Z) (tableType : text_opt) :=
  run_new (new_table_metadata catalog schema table tableType).
Definition InternalExecuteGetForeignKeysQuery (foreignCatalog foreignSchema : text_opt) (foreignTable : list Z) :=
  run_new (new_foreign_keys foreignCatalog foreignSchema foreignTable).
Definition InternalExecuteGetPrimaryKeysQuery (catalog schema table : text_opt) :=
  run_new (new_primary_keys catalog schema table).

Definition InternalExecuteSpecialColumnsQuery (type : Z) (catalog schema table : list Z) (scope nullable : Z)
    (s : stmt) (m : mem) : result_of :=
  if negb (type =? SQL_BEST_ROWID) && negb (type =? SQL_ROWVER) then
    reject SS.SHY097_COLUMN_TYPE_OUT_OF_RANGE (str "An invalid IdentifierType value was specified.") s m
  else run_new (new_special_columns type catalog schema table scope nullable) s m.

Definition InternalExecuteGetTypeInfoQuery (sqlType : Z) (s : stmt) (m : mem) : result_of :=
  if negb (sqlType =? SQL_ALL_TYPES) && negb (IsSqlTypeSupported (Some sqlType)) then
    reject SS.SHYC00_OPTIONAL_FEATURE_NOT_IMPLEMENTED
      (str "Data type is not supported. [typeId=" ++ text (print_int sqlType) ++ str "]") s m
  else run_new (new_type_info sqlType) s m.

Definition InternalClose (s : stmt) (m : mem) : result_of :=
  match st_query s with
  | None => Ok (SR.AI_SUCCESS, s, m)
  | Some q => let* (r, q, d) := q_close q (st_diag s) in Ok (r, with_diag d (with_query (Some q) s), m)
  end.

Definition InternalFreeResources (option : Z) (s : stmt) (m : mem) : result_of :=
  if option =? SQL_DROP then
    reject SS.SHY000_GENERAL_ERROR (str "Deprecated, call SQLFreeHandle instead") s m
  else if option =? SQL_CLOSE then InternalClose s m
  else if option =? SQL_UNBIND then Ok (SR.AI_SUCCESS, with_bindings [] s, m)
  else if option =? SQL_RESET_PARAMS then Ok (SR.AI_SUCCESS, with_params (UnbindAll (st_params s)) s, m)
  else reject SS.SHY092_OPTION_TYPE_OUT_OF_RANGE (str "The value specified for the argument Option was invalid") s m.

(** * Fetching *)

Definition SqlResultToRowResult (value : SR.SqlResult) : Z :=
  match value with
  | SR.AI_NO_DATA => SQL_ROW_NOROW
  | SR.AI_SUCCESS => SQL_ROW_SUCCESS
  | SR.AI_SUCCESS_WITH_INFO => SQL_ROW_SUCCESS_WITH_INFO
  | _ => SQL_ROW_ERROR
  end.

Definition SetByteOffset (offset : Z) (b : ApplicationDataBuffer) : ApplicationDataBuffer :=
  ADB (adb_type b) (adb_buffer b) (adb_buflen b) (adb_reslen b) offset (adb_elementOffset b).
Definition SetElementOffset (idx : Z) (b : ApplicationDataBuffer) : ApplicationDataBuffer :=
  ADB (adb_type b) (adb_buffer b) (adb_buflen b) (adb_reslen b) (adb_byteOffset b) idx.

(** The rows from [i] on: the counts of rows fetched and of errors. *)
Fixpoint fetch_rows (n : nat) (i : Z) (q : Q) (fetched errors : Z) (s : stmt) (m : mem)
    : outcome Z (Z * Z * stmt * mem) :=
  match n with
  | O => Ok (fetched, errors, s, m)
  | S k =>
      let s := with_bindings (om_map (SetElementOffset i) (st_bindings s)) s in
      let* (res, q, d, m) := q_fetch q (st_bindings s) (st_diag s) m in
      let s := with_diag d (with_query (Some q) s) in
      let* fetched := match res with
                      | SR.AI_SUCCESS | SR.AI_SUCCESS_WITH_INFO => checked 32 (fetched + 1)
                      | _ => Ok fetched
                      end in
      let* errors := match res with
                     | SR.AI_SUCCESS | SR.AI_SUCCESS_WITH_INFO | SR.AI_NO_DATA => Ok errors
                     | _ => checked 32 (errors + 1)
                     end in
      let* m := if st_rowStatuses s =? 0 then Ok m
                else st (st_rowStatuses s + 2 * i) (le_bytes 2 (SqlResultToRowResult res)) m in
      fetch_rows k (i + 1) q fetched errors s m
  end.

Definition InternalFetchRow (s : stmt) (m : mem) : result_of :=
  let* m := put_if (st_rowsFetched s) 4 0 m in
  match st_query s with
  | None => reject SS.S24000_INVALID_CURSOR_STATE (str "Cursor is not in the open state") s m
  | Some q =>
      let* s :=
        if st_bindOffset s =? 0 then Ok s else
        match st_bindings s with
        | [] => Ok s
        | _ => let* bs := ld (st_bindOffset s) 4 m in
               Ok (with_bindings (om_map (SetByteOffset (i32 (le_val bs))) (st_bindings s)) s)
        end in
      let* (fetched, errors, s, m) := fetch_rows (Z.to_nat (st_rowArraySize s)) 0 q 0 0 s m in
      let* m := put_if (st_rowsFetched s) 4 (if fetched <? 0 then i32 (st_rowArraySize s) else fetched) m in
      Ok (if 0 <? fetched then (if errors =? 0 then SR.AI_SUCCESS else SR.AI_SUCCESS_WITH_INFO)
          else (if errors =? 0 then SR.AI_NO_DATA else SR.AI_ERROR), s, m)
  end.

Definition InternalFetchScroll (orientation : Z) (s : stmt) (m : mem) : result_of :=
  if negb (orientation =? SQL_FETCH_NEXT) then
    reject SS.SHYC00_OPTIONAL_FEATURE_NOT_IMPLEMENTED
      (str "Only SQL_FETCH_NEXT FetchOrientation type is supported") s m
  else InternalFetchRow s m.

Definition DataAvailable (s : stmt) : bool :=
  match st_query s with
  | Some q => q_available q
  | None => false
  end.

Definition InternalMoreResults (s : stmt) (m : mem) : result_of :=
  match st_query s with
  | None => reject SS.SHY010_SEQUENCE_ERROR (str "Query is not executed.") s m
  | Some q => let* (r, q, d) := q_next q (st_diag s) in Ok (r, with_diag d (with_query (Some q) s), m)
  end.

(** With the count, when it is set. *)
Definition InternalAffectedRows (s : stmt) (m : mem) : outcome Z (option Z * SR.SqlResult * stmt * mem) :=
  match st_query s with
  | None => let* (r, s, m) := reject SS.SHY010_SEQUENCE_ERROR (str "Query is not executed.") s m in Ok (None, r, s, m)
  | Some q => Ok (Some (q_affected q), SR.AI_SUCCESS, s, m)
  end.

(** * Data at execution *)

Definition InternalSelectParam (paramPtr : Z) (s : stmt) (m : mem) : result_of :=
  if paramPtr =? 0 then
    reject SS.SHY000_GENERAL_ERROR (str "Invalid parameter: ValuePtrPtr is null.") s m
  else
  match st_query s with
  | None => reject SS.SHY010_SEQUENCE_ERROR (str "Query is not prepared.") s m
  | Some q =>
      let* ready := match GetSelectedParameter (st_params s) with
                    | Some p => IsDataReady p m
                    | None => Ok true
                    end in
      if negb ready then
        reject SS.S22026_DATA_LENGTH_MISMATCH
          (str "Less data was sent for a parameter than was specified with the StrLen_or_IndPtr argument in SQLBindParameter.") s m
      else
        let* (selected, ps) := SelectNextParameter (st_params s) m in
        let s := with_params ps s in
        match selected with
        | Some p =>
            let* m := st paramPtr (le_bytes 8 (GetData (p_buffer p))) m in
            Ok (SR.AI_NEED_DATA, s, m)
        | None =>
            let* (r, s, m) := execute_query q s m in
            Ok (if bool_decide (r = SR.AI_SUCCESS) then r else SR.AI_SUCCESS_WITH_INFO, s, m)
        end
  end.

Definition InternalPutData (data len : Z) (s : stmt) (m : mem) : result_of :=
  if (data =? 0) && negb (len =? 0) && negb (len =? SQL_DEFAULT_PARAM) && negb (len =? SQL_NULL_DATA) then
    reject SS.SHY009_INVALID_USE_OF_NULL_POINTER
      (str "Invalid parameter: DataPtr is null StrLen_or_Ind is not 0, SQL_DEFAULT_PARAM, or SQL_NULL_DATA.") s m
  else if negb (IsParameterSelected (st_params s)) then
    reject SS.SHY010_SEQUENCE_ERROR (str "Parameter is not selected with the SQLParamData.") s m
  else
  match GetSelectedParameter (st_params s) with
  | None => reject SS.SHY000_GENERAL_ERROR (str "Selected parameter has been unbound.") s m
  | Some p =>
      let* p := PutData p data len m in
      let ps := st_params s in
      Ok (SR.AI_SUCCESS, with_params (set_parameters (om_insert (ps_currentParamIdx ps) p (ps_parameters ps)) ps) s, m)
  end.

End statement.
