(* ===== verification/StmtProps.v ===== *)
(** Properties of parameters and statements. *)
From S2P Require Import Prelude OrdMap Memory Utf8 BigText TypeTraits AppBuffer AppRead AppProps.
From S2P Require Import Diag DiagProps SqlLex Params Statement.

(** * Parameters *)

Section parameters.
Context `{Platform}.

(** The application's chunks of data, as addresses and lengths. *)
Fixpoint chunk_bytes (chunks : list (Z * Z)) (m : mem) : option (list Z) :=
  match chunks with
  | [] => Some []
  | (a, n) :: t => bs ← load a (Z.to_nat n) m; rest ← chunk_bytes t m; Some (bs ++ rest)
  end.

(** Putting chunks, one after the other, into the selected parameter. *)
Fixpoint put_chunks (p : BoundParameter) (chunks : list (Z * Z)) (m : mem) : outcome Z BoundParameter :=
  match chunks with
  | [] => Ok p
  | (a, n) :: t => let* p := PutData p a n m in put_chunks p t m
  end.

Definition takes_chunks (t : OdbcNativeType) : Prop := t = AI_CHAR \/ t = AI_BINARY.

Lemma put_chunks_spec p chunks bs m :
  takes_chunks (adb_type (p_buffer p)) -> Forall (fun c => c.1 <> 0 /\ 0 < c.2) chunks ->
  chunk_bytes chunks m = Some bs ->
  put_chunks p chunks m = Ok (with_data p (p_storedData p ++ bs)).
Proof.
  intros Ht Hc. revert p bs Ht. induction Hc as [|[a n] chunks Hn Hc IH]; intros p bs Ht Hb; cbn [chunk_bytes put_chunks] in *.
  - injection Hb as <-. rewrite app_nil_r. by destruct p.
  - cbn [fst snd] in Hn. destruct Hn as [_ Hn]. destruct (load a (Z.to_nat n) m) as [b1|] eqn:E1; [|done]. cbn in Hb.
    destruct (chunk_bytes chunks m) as [b2|]; [|done]. cbn in Hb. injection Hb as <-.
    assert (PutData p a n m = Ok (with_data p (p_storedData p ++ b1))) as ->.
    { unfold PutData. rewrite (proj2 (Z.eqb_neq n SQL_DEFAULT_PARAM)) by (unfold SQL_DEFAULT_PARAM; lia).
      rewrite (proj2 (Z.eqb_neq n SQL_NULL_DATA)) by (unfold SQL_NULL_DATA; lia).
      rewrite (proj2 (Z.eqb_neq n SQL_NTS)) by (unfold SQL_NTS; lia). rewrite andb_false_r.
      destruct Ht as [-> | ->]; cbn [obind]; rewrite (proj2 (Z.leb_gt n 0)) by lia;
        unfold ld; rewrite E1; done. }
    cbn [obind]. rewrite (IH (with_data p (p_storedData p ++ b1)) b2) by done.
    cbn [p_storedData with_data]. unfold with_data. cbn. by rewrite app_assoc.
Qed.

Definition pending (m : mem) (kp : Z * BoundParameter) : bool :=
  match IsDataReady kp.2 m with
  | Ok b => negb b
  | _ => false
  end.

Definition answers (m : mem) (kp : Z * BoundParameter) : Prop := exists b, IsDataReady kp.2 m = Ok b.

(** The chunks are what the parameter asked for. *)
Definition satisfies (m : mem) (kp : Z * BoundParameter) (chunks : list (Z * Z)) : Prop :=
  takes_chunks (adb_type (p_buffer kp.2)) /\ Forall (fun c => c.1 <> 0 /\ 0 < c.2) chunks
  /\ exists bs, chunk_bytes chunks m = Some bs
     /\ GetDataAtExecSize (p_buffer kp.2) m = Ok (Z.of_nat (length (p_storedData kp.2 ++ bs))).

Lemma first_pending_skip gone l m :
  Forall (fun kp => IsDataReady kp.2 m = Ok true) gone -> first_pending (gone ++ l) m = first_pending l m.
Proof.
  induction 1 as [|[k p] gone Hr Hg IH]; [done|]. cbn [app first_pending]. cbn [snd] in Hr. by rewrite Hr.
Qed.

Lemma ready_with_data p m bs :
  IsDataReady p m = Ok false -> GetDataAtExecSize (p_buffer p) m = Ok (Z.of_nat (length bs)) ->
  IsDataReady (with_data p bs) m = Ok true.
Proof.
  unfold IsDataReady. cbn [with_data p_buffer p_storedData].
  destruct (IsDataAtExec (p_buffer p) m) as [[]| |]; try done. cbn [obind negb]. intros _ ->.
  cbn [obind]. by rewrite Z.eqb_refl.
Qed.

End parameters.

(** * Data at execution *)

(** Memory that the driver's answer at [paramPtr] does not overlap. *)
Definition off_pointer (paramPtr a n : Z) : Prop := disjoint_regions (paramPtr, 8) (a, n).

Definition indicator_off (paramPtr : Z) (b : ApplicationDataBuffer) : Prop :=
  GetResLen b = 0 \/ off_pointer paramPtr (GetResLen b) 8.

Section frame.
Context `{Platform} (paramPtr : Z) (m m' : mem).
Hypothesis Hch : only_changes paramPtr 8 m m'.

Lemma load_off a n : off_pointer paramPtr a (Z.of_nat n) -> load a n m' = load a n m.
Proof. intros Ho. apply load_ext. intros x Hx. apply Hch. unfold off_pointer, disjoint_regions in Ho. cbn in Ho. lia. Qed.

Lemma read_len_off b : indicator_off paramPtr b -> read_len b m' = read_len b m.
Proof.
  intros [E|Ho]; unfold read_len; [by rewrite E|]. case_match; [done|]. unfold ld. by rewrite load_off.
Qed.

Lemma size_off b : indicator_off paramPtr b -> GetDataAtExecSize b m' = GetDataAtExecSize b m.
Proof. intros Ho. unfold GetDataAtExecSize. by rewrite read_len_off. Qed.

Lemma ready_off p : indicator_off paramPtr (p_buffer p) -> IsDataReady p m' = IsDataReady p m.
Proof. intros Ho. unfold IsDataReady, IsDataAtExec. by rewrite read_len_off, size_off. Qed.

Lemma chunks_off chunks :
  Forall (fun c => c.1 <> 0 /\ 0 < c.2) chunks -> Forall (fun c => off_pointer paramPtr c.1 c.2) chunks ->
  chunk_bytes chunks m' = chunk_bytes chunks m.
Proof.
  intros Hc Ho. induction Ho as [|[a n] chunks Ha Ho IH]; [done|]. apply Forall_cons in Hc as [[_ Hn] Hc].
  cbn [chunk_bytes fst snd] in *. rewrite IH by done. rewrite load_off by (rewrite Z2Nat.id by lia; done). done.
Qed.

End frame.

Section at_exec.
Context {Q : Type} `{QueryOps Q} `{Platform}.

(** The application's side: [SQLPutData] for every chunk of a parameter. *)
Fixpoint put_all (chunks : list (Z * Z)) (s : Statement Q) (m : mem) : outcome Z (Statement Q * mem) :=
  match chunks with
  | [] => Ok (s, m)
  | (a, n) :: t => let* (s, m) := api (InternalPutData a n) s m in put_all t s m
  end.

(** [SQLParamData], then the data of the parameter it asks for, until it asks no
    more: the pointers it answered, and the state with the last result in its header. *)
Fixpoint supply (todo : list (list (Z * Z))) (paramPtr : Z) (s : Statement Q) (m : mem)
    : outcome Z (list Z * Statement Q * mem) :=
  let* (s, m) := api (InternalSelectParam paramPtr) s m in
  match result (st_diag s), todo with
  | SR.AI_NEED_DATA, chunks :: rest =>
      let* bs := ld paramPtr 8 m in
      let* (s, m) := put_all chunks s m in
      let* (ptrs, s, m) := supply rest paramPtr s m in
      Ok (le_val bs :: ptrs, s, m)
  | _, _ => Ok ([], s, m)
  end.

Definition replace_params (l : omap BoundParameter) (s : Statement Q) : Statement Q :=
  with_params (set_parameters l (st_params s)) s.

Lemma put_all_spec chunks gone k p rest (s : Statement Q) m p' :
  ps_parameters (st_params s) = gone ++ (k, p) :: rest -> om_sorted (gone ++ (k, p) :: rest) ->
  ps_currentParamIdx (st_params s) = k -> k <> 0 -> Forall (fun c => c.1 <> 0 /\ 0 < c.2) chunks ->
  put_chunks p chunks m = Ok p' ->
  exists d, put_all chunks s m = Ok (with_diag d (replace_params (gone ++ (k, p') :: rest) s), m).
Proof.
  intros Hps Hsort Hcur Hk Hc. revert s p Hps Hsort Hcur.
  induction Hc as [|[a n] chunks [Ha Hn] Hc IH]; intros s p Hps Hsort Hcur Hput; cbn [put_chunks put_all] in *.
  - injection Hput as ->. exists (st_diag s). unfold replace_params, with_diag, with_params, set_parameters.
    rewrite <- Hps. destruct s as [????????? ?]. cbn. by destruct st_params.
  - cbn [fst snd] in *. destruct (PutData p a n m) as [p1| |] eqn:E; try done. cbn [obind] in Hput.
    assert (exists d, api (InternalPutData a n) s m
      = Ok (with_diag d (replace_params (gone ++ (k, p1) :: rest) s), m)) as (d & ->).
    { eexists. unfold api, api_call, InternalPutData, IsParameterSelected, GetSelectedParameter, GetParameter.
      cbn [st_params with_diag fst snd]. rewrite Hcur, Hps, (proj2 (Z.eqb_neq a 0)), (proj2 (Z.eqb_neq k 0)) by done.
      cbn [andb negb]. rewrite om_lookup_middle by done. rewrite E. cbn [obind].
      rewrite om_insert_middle by done. reflexivity. }
    cbn [obind]. destruct (IH (with_diag d (replace_params (gone ++ (k, p1) :: rest) s)) p1) as (d' & ->);
      [done|by eapply om_sorted_replace|done|done|]. exists d'. reflexivity.
Qed.

(** The parameters when every pending one, in order, has got its chunks. *)
Fixpoint fill (m : mem) (l : omap BoundParameter) (todo : list (list (Z * Z))) : omap BoundParameter :=
  match l with
  | [] => []
  | kp :: t =>
      if pending m kp then
        match todo with
        | chunks :: rest =>
            (kp.1, with_data kp.2 (p_storedData kp.2 ++ default [] (chunk_bytes chunks m))) :: fill m t rest
        | [] => kp :: t
        end
      else kp :: fill m t todo
  end.

Lemma GetData_range b : 0 <= GetData b < 2 ^ 64.
Proof.
  unfold GetData, ApplyOffset. case_match eqn:E; [apply Z.eqb_eq in E; rewrite E; lia|]. by apply wrapU_range.
Qed.

(** No parameter is selected, or the selected one has its data. *)
Definition selection_ready (ps : ParameterSet) (m : mem) : Prop :=
  forall p, GetSelectedParameter ps = Some p -> IsDataReady p m = Ok true.

Lemma selection_check ps m :
  selection_ready ps m ->
  match GetSelectedParameter ps with Some p => IsDataReady p m | None => Ok true end = Ok true.
Proof. intros Hs. destruct (GetSelectedParameter ps) eqn:E; [by apply Hs|done]. Qed.

Lemma select_pending q gone k p rest (s : Statement Q) paramPtr m :
  st_query s = Some q -> ps_parameters (st_params s) = gone ++ (k, p) :: rest ->
  Forall (fun kp => IsDataReady kp.2 m = Ok true) gone -> IsDataReady p m = Ok false ->
  selection_ready (st_params s) m -> paramPtr <> 0 -> mapped paramPtr 8 m ->
  exists d m', api (InternalSelectParam paramPtr) s m
      = Ok (with_diag d (with_params (set_current k (st_params s)) s), m')
    /\ result d = SR.AI_NEED_DATA /\ load paramPtr 8 m' = Some (le_bytes 8 (GetData (p_buffer p)))
    /\ only_changes paramPtr 8 m m' /\ mapped paramPtr 8 m'.
Proof.
  intros Hq Hps Hgone Hp Hsel Hptr Hm.
  destruct (st_ok paramPtr (le_bytes 8 (GetData (p_buffer p))) m) as (m' & E & Hl & Hch & Hmap);
    rewrite le_bytes_length in *; [done|].
  eexists _, m'. split; [|split; [|split; [exact Hl|split; [exact Hch|by apply Hmap]]]].
  - unfold api, api_call, InternalSelectParam. cbn [fst snd st_query st_params with_diag].
    rewrite (proj2 (Z.eqb_neq paramPtr 0)) by done. rewrite Hq, selection_check by done. cbn [obind negb].
    unfold SelectNextParameter. rewrite Hps, first_pending_skip by done. cbn [first_pending].
    rewrite Hp. cbn [obind negb]. rewrite E. cbn [obind]. reflexivity.
  - reflexivity.
Qed.

Lemma select_done q (s : Statement Q) paramPtr m :
  st_query s = Some q -> Forall (fun kp => IsDataReady kp.2 m = Ok true) (ps_parameters (st_params s)) ->
  selection_ready (st_params s) m -> paramPtr <> 0 ->
  api (InternalSelectParam paramPtr) s m
  = let* (r, q', d, m') := q_execute q (st_params s) (st_timeout s) (storage_Reset (st_diag s)) m in
    Ok (with_diag (SetHeaderRecord (if bool_decide (r = SR.AI_SUCCESS) then r else SR.AI_SUCCESS_WITH_INFO) d)
          (with_query (Some q') s), m').
Proof.
  intros Hq Hall Hsel Hptr. unfold api, api_call, InternalSelectParam. cbn [fst snd st_query st_params with_diag].
  rewrite (proj2 (Z.eqb_neq paramPtr 0)) by done. rewrite Hq, selection_check by done. cbn [obind negb].
  unfold SelectNextParameter. rewrite <- (app_nil_r (ps_parameters (st_params s))), first_pending_skip by done.
  cbn [first_pending obind]. unfold execute_query. cbn [st_params st_timeout st_diag with_diag with_params].
  destruct (q_execute q _ _ _ m) as [[[[r q'] d] m']| |]; done.
Qed.

Lemma ready_not_pending m kp : answers m kp -> pending m kp = false -> IsDataReady kp.2 m = Ok true.
Proof. intros [b Hb]. unfold pending. rewrite Hb. by destruct b. Qed.

Lemma pending_not_ready m kp : pending m kp = true -> IsDataReady kp.2 m = Ok false.
Proof. unfold pending. destruct (IsDataReady kp.2 m) as [[]| |]; done. Qed.

(** A memory that differs only where the driver answers. *)
Definition off_all (paramPtr : Z) (l : omap BoundParameter) : Prop :=
  Forall (fun kp => indicator_off paramPtr (p_buffer kp.2)) l.

Lemma all_ready_off paramPtr l m0 m :
  off_all paramPtr l -> only_changes paramPtr 8 m0 m ->
  Forall (fun kp => IsDataReady kp.2 m0 = Ok true) l -> Forall (fun kp => IsDataReady kp.2 m = Ok true) l.
Proof.
  intros Hoff Hch Hr. unfold off_all in Hoff. rewrite Forall_forall in *. intros kp Hin.
  rewrite (ready_off paramPtr m0 m) by auto. auto.
Qed.

Lemma selection_ready_off paramPtr ps m0 m :
  off_all paramPtr (ps_parameters ps) -> only_changes paramPtr 8 m0 m ->
  selection_ready ps m0 -> selection_ready ps m.
Proof.
  intros Hoff Hch Hsel p Hp. rewrite (ready_off paramPtr m0 m); [by apply Hsel|done|].
  apply om_lookup_elem in Hp. unfold off_all in Hoff. rewrite Forall_forall in Hoff. exact (Hoff _ Hp).
Qed.

(** What [supply] amounts to: running the query on the completed parameters. *)
Definition run_completed (q : Q) (ps : ParameterSet) (ptrs : list Z) (s : Statement Q) (d : diags) (m : mem)
    : outcome Z (list Z * Statement Q * mem) :=
  let* (r, q', d', m') := q_execute q ps (st_timeout s) d m in
  Ok (ptrs, with_diag (SetHeaderRecord (if bool_decide (r = SR.AI_SUCCESS) then r else SR.AI_SUCCESS_WITH_INFO) d')
        (with_query (Some q') (with_params ps s)), m').

Lemma supply_done q (s : Statement Q) paramPtr m :
  st_query s = Some q -> Forall (fun kp => IsDataReady kp.2 m = Ok true) (ps_parameters (st_params s)) ->
  selection_ready (st_params s) m -> paramPtr <> 0 ->
  supply [] paramPtr s m = run_completed q (st_params s) [] s (storage_Reset (st_diag s)) m.
Proof.
  intros Hq Hall Hsel Hptr. cbn [supply]. rewrite (select_done q) by done. unfold run_completed.
  destruct (q_execute q _ _ _ m) as [[[[r q'] d] m']| |]; [|done..]. cbn [obind].
  cbn [st_diag with_diag SetHeaderRecord result]. case_bool_decide as Hr; [rewrite Hr|]; by destruct s.
Qed.

(** One round: the parameter is selected, its pointer answered, its data taken. *)
Lemma supply_round q gone k p rest chunks todo (s : Statement Q) paramPtr m bs :
  st_query s = Some q -> ps_parameters (st_params s) = gone ++ (k, p) :: rest ->
  om_sorted (gone ++ (k, p) :: rest) -> 0 < k ->
  Forall (fun kp => IsDataReady kp.2 m = Ok true) gone -> IsDataReady p m = Ok false ->
  selection_ready (st_params s) m -> paramPtr <> 0 -> mapped paramPtr 8 m ->
  takes_chunks (adb_type (p_buffer p)) -> Forall (fun c => c.1 <> 0 /\ 0 < c.2) chunks ->
  Forall (fun c => off_pointer paramPtr c.1 c.2) chunks -> chunk_bytes chunks m = Some bs ->
  exists s' m', st_query s' = Some q /\ st_timeout s' = st_timeout s
    /\ (forall ps d q', with_diag d (with_query q' (with_params ps s')) = with_diag d (with_query q' (with_params ps s)))
    /\ ps_parameters (st_params s') = gone ++ (k, with_data p (p_storedData p ++ bs)) :: rest
    /\ ps_currentParamIdx (st_params s') = k
    /\ only_changes paramPtr 8 m m' /\ mapped paramPtr 8 m'
    /\ supply (chunks :: todo) paramPtr s m
       = let* (ptrs, s, m) := supply todo paramPtr s' m' in Ok (GetData (p_buffer p) :: ptrs, s, m).
Proof.
  intros Hq Hps Hsort Hk Hgone Hp Hsel Hptr Hmap Ht Hc Hco Hb.
  destruct (select_pending q gone k p rest s paramPtr m) as (d & m' & E & Hd & Hl & Hch & Hmap'); try done.
  set (s1 := with_diag d (with_params (set_current k (st_params s)) s)) in *.
  destruct (put_all_spec chunks gone k p rest s1 m' (with_data p (p_storedData p ++ bs))) as (d' & E');
    [done|done|done|lia|done| |].
  { apply put_chunks_spec; [done|done|]. by rewrite (chunks_off paramPtr m m'). }
  exists (with_diag d' (replace_params (gone ++ (k, with_data p (p_storedData p ++ bs)) :: rest) s1)), m'.
  do 7 (split; [done|]). cbn [supply]. rewrite E. cbn [obind]. unfold s1 at 1. cbn [st_diag with_diag].
  rewrite Hd. unfold ld. rewrite Hl. cbn [obind]. rewrite E'. cbn [obind].
  rewrite le_val_bytes, Z.mod_small by apply GetData_range. done.
Qed.

Lemma supply_from q gone rest todo (s : Statement Q) paramPtr m0 m :
  st_query s = Some q -> ps_parameters (st_params s) = gone ++ rest -> om_sorted (gone ++ rest) ->
  Forall (fun kp => 0 < kp.1) rest -> Forall (fun kp => IsDataReady kp.2 m0 = Ok true) gone ->
  Forall (answers m0) rest -> Forall2 (satisfies m0) (List.filter (pending m0) rest) todo ->
  selection_ready (st_params s) m0 -> off_all paramPtr (gone ++ rest) ->
  Forall (Forall (fun c => off_pointer paramPtr c.1 c.2)) todo ->
  paramPtr <> 0 -> mapped paramPtr 8 m -> only_changes paramPtr 8 m0 m ->
  exists ps d m',
    ps_parameters ps = gone ++ fill m0 rest todo
    /\ Forall (fun kp => IsDataReady kp.2 m' = Ok true) (ps_parameters ps)
    /\ only_changes paramPtr 8 m0 m'
    /\ supply todo paramPtr s m
       = run_completed q ps (map (fun kp => GetData (p_buffer kp.2)) (List.filter (pending m0) rest)) s d m'.
Proof.
  intros Hq Hps Hsort Hkeys Hgone Hans Hsat Hsel Hoff Hcoff Hptr Hmap Hch.
  revert gone todo s m Hq Hps Hsort Hgone Hsat Hsel Hoff Hcoff Hmap Hch.
  induction rest as [|[k p] rest IH]; intros gone todo s m Hq Hps Hsort Hgone Hsat Hsel Hoff Hcoff Hmap Hch.
  { apply Forall2_nil_inv_l in Hsat as ->. cbn [fill List.filter map]. rewrite app_nil_r in *.
    pose proof (all_ready_off paramPtr gone m0 m Hoff Hch Hgone).
    exists (st_params s), (storage_Reset (st_diag s)), m. rewrite Hps. do 3 (split; [done|]).
    apply supply_done; [done|by rewrite Hps| |done]. apply (selection_ready_off paramPtr _ m0); [by rewrite Hps|done|done]. }
  apply Forall_cons in Hkeys as [Hk Hkeys], Hans as [Ha Hans]. cbn [fst] in Hk.
  cbn [fill List.filter] in *. destruct (pending m0 (k, p)) eqn:Hpend.
  - pose proof (pending_not_ready _ _ Hpend) as Hnr. cbn [snd fst] in *.
    apply Forall2_cons_inv_l in Hsat as (chunks & todo' & (Ht & Hc & bs & Hbs & Hsize) & Hsat & ->).
    cbn [snd] in *. apply Forall_cons in Hcoff as [Hco Hcoff]. rewrite Hbs. cbn [default id].
    pose proof Hoff as Hoff'. unfold off_all in Hoff'. rewrite Forall_app, Forall_cons in Hoff'. cbn [snd] in Hoff'.
    destruct Hoff' as (Hog & Hop & Hor).
    set (p' := with_data p (p_storedData p ++ bs)).
    assert (IsDataReady p' m0 = Ok true) as Hr' by (by apply ready_with_data).
    destruct (supply_round q gone k p rest chunks todo' s paramPtr m bs)
      as (s' & m' & Hq' & Hto & Hw & Hps' & Hcur & Hch' & Hmap' & E); try done.
    { by eapply all_ready_off. }
    { by rewrite (ready_off paramPtr m0 m). }
    { apply (selection_ready_off paramPtr _ m0); [by rewrite Hps|done|done]. }
    { by rewrite (chunks_off paramPtr m0 m). }
    fold p' in Hps'. assert (om_sorted ((gone ++ [(k, p')]) ++ rest)) as Hsort'.
    { rewrite <- app_assoc. by eapply om_sorted_replace. }
    destruct (IH Hkeys Hans (gone ++ [(k, p')]) todo' s' m') as (ps & d & m2 & Hfin & Hall & Hch2 & E2); try done.
    + by rewrite <- app_assoc.
    + apply Forall_app. split; [done|]. by apply Forall_singleton.
    + intros p2 Hp2. unfold GetSelectedParameter, GetParameter in Hp2. rewrite Hcur, Hps' in Hp2.
      rewrite om_lookup_middle in Hp2 by (by eapply om_sorted_replace). by injection Hp2 as <-.
    + unfold off_all. rewrite <- app_assoc, !Forall_app. split; [done|]. split; [|done]. by apply Forall_singleton.
    + intros x Hx. rewrite Hch' by done. by apply Hch.
    + exists ps, d, m2. rewrite <- app_assoc in Hfin. split; [done|]. split; [done|]. split; [done|].
      rewrite E, E2. unfold run_completed. rewrite Hto.
      destruct (q_execute q ps _ d m2) as [[[[r q'] d'] m3]| |]; [|done..]. cbn [obind map snd]. by rewrite Hw.
  - pose proof (ready_not_pending _ _ Ha Hpend) as Hr. cbn [snd] in Hr.
    destruct (IH Hkeys Hans (gone ++ [(k, p)]) todo s m) as (ps & d & m2 & Hfin & Hall & Hch2 & E2); try done;
      rewrite <- ?app_assoc; try done.
    + apply Forall_app. split; [done|]. by apply Forall_singleton.
    + exists ps, d, m2. rewrite <- app_assoc in Hfin. done.
Qed.

End at_exec.

(** * Queries for examples *)

(** A query that answers each fetch with the next result of a script, and each
    execution with success. *)
Record ScriptedQuery : Type := Scripted { sq_type : QT.QueryType; sq_sql : list Z; sq_rows : list SR.SqlResult }.

#[export] Instance ScriptedOps : QueryOps ScriptedQuery := {|
  q_type := sq_type;
  q_sql := sq_sql;
  q_execute q _ _ d m := Ok (SR.AI_SUCCESS, q, d, m);
  q_fetch q _ d m :=
    match sq_rows q with
    | [] => Ok (SR.AI_NO_DATA, q, d, m)
    | r :: t => Ok (r, Scripted (sq_type q) (sq_sql q) t, d, m)
    end;
  q_column q _ _ d m := Ok (SR.AI_SUCCESS, q, d, m);
  q_close q d := Ok (SR.AI_SUCCESS, q, d);
  q_meta q d := Ok (Some [], q, d);
  q_available q := match sq_rows q with [] => false | _ => true end;
  q_affected q := 0;
  q_next q d := Ok (SR.AI_NO_DATA, q, d);
  new_data sql := Scripted QT.DATA sql [];
  new_batch sql := Scripted QT.BATCH sql [];
  new_internal sql _ := Scripted QT.INTERNAL sql [];
  new_column_metadata _ _ _ _ := Scripted QT.COLUMN_METADATA [] [];
  new_table_metadata _ _ _ _ := Scripted QT.TABLE_METADATA [] [];
  new_foreign_keys _ _ _ := Scripted QT.FOREIGN_KEYS [] [];
  new_primary_keys _ _ _ := Scripted QT.PRIMARY_KEYS [] [];
  new_special_columns _ _ _ _ _ _ := Scripted QT.SPECIAL_COLUMNS [] [];
  new_type_info _ := Scripted QT.TYPE_INFO [] []
|}.

(** * The protocol of data at execution *)

Lemma nothing_selected ps m `{Platform} :
  ps_currentParamIdx ps = 0 -> Forall (fun kp => 0 < kp.1) (ps_parameters ps) -> selection_ready ps m.
Proof.
  intros Hc Hk p Hp. unfold GetSelectedParameter, GetParameter in Hp. rewrite Hc in Hp.
  apply om_lookup_elem in Hp. rewrite Forall_forall in Hk. specialize (Hk _ Hp). cbn in Hk. lia.
Qed.

(** C21: The protocol of [SQLParamData] and [SQLPutData].  With no parameter selected
    yet, an application that calls [SQLParamData] and puts the data of the parameter
    it is asked for, in chunks of any sizes that add up to the announced length, is
    asked for every parameter that lacks data, exactly once and in order of the
    parameter numbers, each time by the data pointer of that parameter; the last call
    runs the query, with the concatenated chunks stored in every such parameter and
    all other parameters as they were. *)
Theorem at_exec_protocol {Q} `{QueryOps Q} `{Platform} q (s : Statement Q) todo paramPtr m :
  let params := ps_parameters (st_params s) in
  st_query s = Some q -> om_sorted params -> Forall (fun kp => 0 < kp.1) params ->
  ps_currentParamIdx (st_params s) = 0 -> Forall (answers m) params ->
  Forall2 (satisfies m) (List.filter (pending m) params) todo ->
  off_all paramPtr params -> Forall (Forall (fun c => off_pointer paramPtr c.1 c.2)) todo ->
  paramPtr <> 0 -> mapped paramPtr 8 m ->
  exists ps d m',
    ps_parameters ps = fill m params todo
    /\ Forall (fun kp => IsDataReady kp.2 m' = Ok true) (ps_parameters ps)
    /\ only_changes paramPtr 8 m m'
    /\ supply todo paramPtr s m
       = run_completed q ps (map (fun kp => GetData (p_buffer kp.2)) (List.filter (pending m) params)) s d m'.
Proof.
  intros params Hq Hsort Hk Hcur Hans Hsat Hoff Hcoff Hptr Hmap.
  apply (supply_from q [] params todo s paramPtr m m); try done. by apply nothing_selected.
Qed.

(** Parameter 1 is at hand, parameter 2 wants three bytes at execution. *)
Definition at_exec_memory : mem :=
  list_to_map (zip (seqZ 100 8) (le_bytes 8 (-103)) ++ zip (seqZ 200 3) [7; 8; 9]
               ++ zip (seqZ 300 8) (replicate 8 0)).

Definition at_exec_statement : Statement ScriptedQuery :=
  MkStatement 1 [] (Some (Scripted QT.DATA [] [])) 0 0 0 1
    (MkSet [(1, new_param (ADB AI_SIGNED_LONG 400 4 0 0 0) 4 0 0);
            (2, new_param (ADB AI_BINARY 77 0 100 0 0) (-3) 0 0)] [] 0 0 0 1 0 0 false) 0 new_storage.

Lemma at_exec_protocol_witness :
  exists ps d m',
    ps_parameters ps = [(1, new_param (ADB AI_SIGNED_LONG 400 4 0 0 0) 4 0 0);
                        (2, with_data (new_param (ADB AI_BINARY 77 0 100 0 0) (-3) 0 0) [7; 8; 9])]
    /\ Forall (fun kp => IsDataReady kp.2 m' = Ok true) (ps_parameters ps)
    /\ only_changes 300 8 at_exec_memory m'
    /\ supply [[(200, 1); (201, 2)]] 300 at_exec_statement at_exec_memory
       = run_completed (Scripted QT.DATA [] []) ps [77] at_exec_statement d m'.
Proof.
  apply (at_exec_protocol (Scripted QT.DATA [] []) at_exec_statement [[(200, 1); (201, 2)]] 300 at_exec_memory).
  - reflexivity.
  - decide_now.
  - decide_now.
  - reflexivity.
  - repeat apply Forall_cons_2; [exists true; vm_compute; reflexivity|exists false; vm_compute; reflexivity|constructor].
  - apply Forall2_cons. split; [|constructor].
    split; [by right|]. split; [decide_now|]. exists [7; 8; 9]. split; vm_compute; reflexivity.
  - repeat apply Forall_cons_2; [by left|right; right; vm_compute; done|constructor].
  - repeat apply Forall_cons_2; [right; vm_compute; done..|constructor|constructor].
  - done.
  - apply mapped_seq. decide_now.
Defined.

(** * Where the protocol breaks *)

Section stuck.
Context {Q : Type} `{QueryOps Q} `{Platform}.

Definition less_data : list Z :=
  str "Less data was sent for a parameter than was specified with the StrLen_or_IndPtr argument in SQLBindParameter.".

(** [SQLParamData] refuses to go on while the selected parameter lacks data. *)
Lemma select_stuck q p (s : Statement Q) paramPtr m :
  st_query s = Some q -> GetSelectedParameter (st_params s) = Some p -> IsDataReady p m = Ok false ->
  paramPtr <> 0 ->
  api (InternalSelectParam paramPtr) s m
  = Ok (with_diag (SetHeaderRecord SR.AI_ERROR
          (AddStatusRecord false SS.S22026_DATA_LENGTH_MISMATCH less_data (storage_Reset (st_diag s)))) s, m).
Proof.
  intros Hq Hsel Hr Hptr. unfold api, api_call, InternalSelectParam. cbn [fst snd st_query st_params with_diag].
  rewrite (proj2 (Z.eqb_neq paramPtr 0)) by done. rewrite Hq, Hsel, Hr. reflexivity.
Qed.

Lemma reset_all_lookup l m l' k p :
  reset_all l m = Ok l' -> om_lookup k l = Some p -> om_lookup k l' = Some (with_data p []).
Proof.
  revert l'. induction l as [|[j x] l IH]; intros l' Hr Hl; [done|]. cbn [reset_all om_lookup fst snd] in *.
  destruct (ResetStoredData x m) as [x'| |] eqn:Ex; [|done..]. cbn [obind] in Hr.
  destruct (reset_all l m) as [t| |]; [|done..]. cbn [obind] in Hr. injection Hr as <-. cbn [om_lookup fst snd].
  destruct (k =? j); [|by apply IH]. injection Hl as ->. revert Ex. unfold ResetStoredData.
  destruct (IsDataAtExec (p_buffer p) m) as [[]| |]; [|by intros [= <-]|done..].
  cbn [obind]. destruct (GetDataAtExecSize (p_buffer p) m) as [n| |]; [|done..]. cbn [obind].
  destruct (n <? 0); [done|]. by intros [= <-].
Qed.

(** What a successful prepare leaves of the parameters. *)
Lemma prepare_params sql (s : Statement Q) m r s' m' :
  InternalPrepareSqlQuery sql s m = Ok (r, s', m') -> r = SR.AI_SUCCESS ->
  m' = m /\ Prepare (st_params s) m = Ok (st_params s') /\ is_Some (st_query s').
Proof.
  unfold InternalPrepareSqlQuery, ProcessInternalCommand. intros E ->. revert E.
  destruct (IsInternalCommand sql) as [[]|]; [| |done].
  - destruct (GetNextCommand sql) as [[[cmd|]|e|]|]; try done.
    destruct (Prepare (st_params s) m) as [ps| |]; [|done..]. cbn. intros [= <- <-]. done.
  - destruct (Prepare (st_params s) m) as [ps| |]; [|done..]. cbn [obind]. unfold close_current.
    cbn [st_query with_params]. destruct (st_query s) as [q|].
    + destruct (q_close q _) as [[[r q'] d]| |]; [|done..]. cbn. intros [= <- <-]. done.
    + cbn. intros [= <- <-]. done.
Qed.

End stuck.

(** The selection outlives the execution it belongs to.  Nothing resets the index
    of the selected parameter, so that after a statement is prepared again the first
    [SQLParamData] fails with 22026 when the parameter selected last wants data,
    although the application has not been asked for any yet. *)
Theorem prepare_keeps_selection {Q} `{QueryOps Q} `{Platform} sql (s s1 : Statement Q) paramPtr p n m m1 :
  api (InternalPrepareSqlQuery sql) s m = Ok (s1, m1) -> result (st_diag s1) = SR.AI_SUCCESS ->
  GetSelectedParameter (st_params s) = Some p ->
  IsDataAtExec (p_buffer p) m = Ok true -> GetDataAtExecSize (p_buffer p) m = Ok n -> n <> 0 -> paramPtr <> 0 ->
  exists d, api (InternalSelectParam paramPtr) s1 m1 = Ok (with_diag d s1, m1)
    /\ result d = SR.AI_ERROR
    /\ map sqlState (statusRecords d) = [SS.S22026_DATA_LENGTH_MISMATCH].
Proof.
  intros E Hr Hsel Hat Hn Hne Hptr. unfold api, api_call in E. cbn [fst snd] in E.
  destruct (InternalPrepareSqlQuery sql _ m) as [[[r s'] m']| |] eqn:E1; [|done..]. cbn [obind fst snd] in E.
  injection E as <- <-. cbn [st_diag with_diag SetHeaderRecord result] in Hr. subst r.
  apply prepare_params in E1 as (-> & Hp & q & Hq); [|done]. cbn [st_params with_diag] in Hp.
  unfold Prepare in Hp. destruct (reset_all (ps_parameters (st_params s)) m) as [l| |] eqn:El; [|done..].
  cbn [obind] in Hp. injection Hp as Hp.
  eexists. split; [apply (select_stuck q (with_data p [])); [done| | |done]|split; reflexivity].
  - cbn [st_params with_diag]. rewrite <- Hp. unfold GetSelectedParameter, GetParameter.
    cbn [ps_currentParamIdx ps_parameters]. by eapply reset_all_lookup.
  - unfold IsDataReady. cbn [p_buffer with_data p_storedData length]. rewrite Hat. cbn [obind negb].
    rewrite Hn. cbn [obind]. f_equal. apply Z.eqb_neq. lia.
Qed.

Lemma prepare_keeps_selection_witness :
  exists s1 d,
    api (InternalPrepareSqlQuery (str "SELECT a FROM t")) (with_params (set_current 2 (st_params at_exec_statement)) at_exec_statement)
      at_exec_memory = Ok (s1, at_exec_memory)
    /\ api (InternalSelectParam 300) s1 at_exec_memory = Ok (with_diag d s1, at_exec_memory)
    /\ result d = SR.AI_ERROR
    /\ map sqlState (statusRecords d) = [SS.S22026_DATA_LENGTH_MISMATCH].
Proof.
  eexists. match goal with |- exists d, ?A /\ _ => assert A as E by (vm_compute; reflexivity) end.
  edestruct (prepare_keeps_selection (str "SELECT a FROM t")
    (with_params (set_current 2 (st_params at_exec_statement)) at_exec_statement) _ 300
    (new_param (ADB AI_BINARY 77 0 100 0 0) (-3) 0 0) 3 at_exec_memory at_exec_memory E) as (d & Hd);
    [vm_compute; reflexivity..|done|done|]. exists d. split; [exact E|exact Hd].
Defined.

(** A null cannot be sent at execution: [SQLPutData] with SQL_NULL_DATA succeeds,
    but the parameter stays without data (its flag is never read), so that the next
    [SQLParamData] fails with 22026. *)
Theorem put_null_stuck {Q} `{QueryOps Q} `{Platform} q (s : Statement Q) paramPtr data p m :
  st_query s = Some q -> 0 < ps_currentParamIdx (st_params s) -> GetSelectedParameter (st_params s) = Some p ->
  IsDataReady p m = Ok false -> paramPtr <> 0 ->
  exists s1 d, api (InternalPutData data SQL_NULL_DATA) s m = Ok (s1, m) /\ result (st_diag s1) = SR.AI_SUCCESS
    /\ api (InternalSelectParam paramPtr) s1 m = Ok (with_diag d s1, m) /\ result d = SR.AI_ERROR
    /\ map sqlState (statusRecords d) = [SS.S22026_DATA_LENGTH_MISMATCH].
Proof.
  intros Hq Hc Hsel Hr Hptr. eexists _, _. split; [|split; [|split; [apply (select_stuck q (with_null p))|split]]].
  - unfold api, api_call, InternalPutData. cbn [fst snd st_params with_diag].
    rewrite andb_false_r. unfold IsParameterSelected. rewrite (proj2 (Z.eqb_neq _ 0)) by lia.
    rewrite Hsel. reflexivity.
  - reflexivity.
  - exact Hq.
  - cbn [st_params with_diag with_params]. unfold GetSelectedParameter, GetParameter.
    cbn [ps_currentParamIdx ps_parameters set_parameters]. apply om_lookup_insert.
  - exact Hr.
  - exact Hptr.
  - reflexivity.
  - reflexivity.
Qed.

Lemma put_null_stuck_witness :
  exists s1 d,
    api (InternalPutData 0 SQL_NULL_DATA) (with_params (set_current 2 (st_params at_exec_statement)) at_exec_statement)
      at_exec_memory = Ok (s1, at_exec_memory) /\ result (st_diag s1) = SR.AI_SUCCESS
    /\ api (InternalSelectParam 300) s1 at_exec_memory = Ok (with_diag d s1, at_exec_memory) /\ result d = SR.AI_ERROR
    /\ map sqlState (statusRecords d) = [SS.S22026_DATA_LENGTH_MISMATCH].
Proof.
  apply (put_null_stuck (Scripted QT.DATA [] []) _ _ _ (new_param (ADB AI_BINARY 77 0 100 0 0) (-3) 0 0));
    [reflexivity..|vm_compute; reflexivity|done].
Defined.
