(* ===== verification/FetchProps.v ===== *)
(** Properties of the statement: what [SQLFetch] reports of a rowset, the invariant of
    the handle under every call, and the attributes. *)
From S2P Require Import Prelude OrdMap Memory Utf8 BigText TypeTraits AppBuffer AppRead AppProps.
From S2P Require Import Diag DiagProps SqlLex Params Statement StmtProps.

(** * Rowsets *)

Definition inside (rs : list (Z * Z)) (x : Z) : Prop := Exists (fun r => r.1 <= x < r.1 + r.2) rs.

Lemma not_inside rs x : ~ inside rs x -> Forall (fun r => ~ (r.1 <= x < r.1 + r.2)) rs.
Proof. intros Hn. apply Forall_forall. intros r Hr Hx. apply Hn, Exists_exists. eauto. Qed.

(** Fetching a row neither fails nor touches the regions [out]; [ready] is what it
    needs of the query and of the rest of the memory. *)
Class FetchLaws (Q : Type) `{QueryOps Q} (out : list (Z * Z)) (ready : Q -> mem -> Prop) : Prop := {
  fetch_total q b d m : ready q m ->
    exists r q' d' m', q_fetch q b d m = Ok (r, q', d', m') /\ ready q' m'
      /\ forall x, inside out x -> m' !! x = m !! x;
  fetch_frame q m m' : ready q m -> changes_within out m m' -> ready q m'
}.

(** The results of fetching rows [i], [i + 1], ... into the columns bound at [b]. *)
Inductive fetch_chain {Q} `{QueryOps Q} (b : bindings) : Z -> Q -> list SR.SqlResult -> Q -> Prop :=
| chain_nil i q : fetch_chain b i q [] q
| chain_cons i q r q1 rs q2 d d' m m' :
    q_fetch q (om_map (SetElementOffset i) b) d m = Ok (r, q1, d', m') ->
    fetch_chain b (i + 1) q1 rs q2 -> fetch_chain b i q (r :: rs) q2.

Definition row_ok (r : SR.SqlResult) : bool :=
  match r with SR.AI_SUCCESS | SR.AI_SUCCESS_WITH_INFO => true | _ => false end.
Definition row_failed (r : SR.SqlResult) : bool :=
  match r with SR.AI_SUCCESS | SR.AI_SUCCESS_WITH_INFO | SR.AI_NO_DATA => false | _ => true end.

Definition count (f : SR.SqlResult -> bool) (rs : list SR.SqlResult) : Z := Z.of_nat (length (List.filter f rs)).

Definition status_bytes (rs : list SR.SqlResult) : list Z :=
  flat_map (fun r => le_bytes 2 (SqlResultToRowResult r)) rs.

Lemma count_cons f r rs : count f (r :: rs) = (if f r then 1 else 0) + count f rs.
Proof. unfold count. cbn [List.filter]. case_match; cbn [length]; lia. Qed.

Lemma count_bounds f rs : 0 <= count f rs <= Z.of_nat (length rs).
Proof. induction rs as [|r rs IH]; [done|]. rewrite count_cons. cbn [length]. case_match; lia. Qed.

Lemma SetElementOffset_twice i j b :
  om_map (SetElementOffset i) (om_map (SetElementOffset j) b) = om_map (SetElementOffset i) b.
Proof. unfold om_map. rewrite map_map. by apply map_ext. Qed.

Section rows.
Context {Q : Type} `{QueryOps Q} (out : list (Z * Z)) (ready : Q -> mem -> Prop) `{!FetchLaws Q out ready}.

Lemma chain_offsets b j i q rs q' : fetch_chain (om_map (SetElementOffset j) b) i q rs q' -> fetch_chain b i q rs q'.
Proof.
  intros Hc. induction Hc as [|i q r q1 rs q2 d d' m m' Hf Hc IH]; [constructor|].
  rewrite SetElementOffset_twice in Hf. by eapply chain_cons.
Qed.

Lemma counters r fetched errors :
  inS 32 (fetched + 1) -> inS 32 (errors + 1) ->
  (match r with SR.AI_SUCCESS | SR.AI_SUCCESS_WITH_INFO => checked 32 (fetched + 1)
   | _ => Ok fetched end : outcome Z Z) = Ok (fetched + if row_ok r then 1 else 0)
  /\ (match r with SR.AI_SUCCESS | SR.AI_SUCCESS_WITH_INFO | SR.AI_NO_DATA => Ok errors
     | _ => checked 32 (errors + 1) end : outcome Z Z) = Ok (errors + if row_failed r then 1 else 0).
Proof. intros Hf He. destruct r; cbn [row_ok row_failed]; rewrite ?Z.add_0_r; split; try done; by apply checked_ok. Qed.

(** Row [i]'s status is stored when the application wants it. *)
Lemma store_status a i r m :
  (a <> 0 -> mapped (a + 2 * i) 2 m) ->
  exists m', (if a =? 0 then Ok m else st (a + 2 * i) (le_bytes 2 (SqlResultToRowResult r)) m) = Ok m'
    /\ (a <> 0 -> load (a + 2 * i) 2 m' = Some (le_bytes 2 (SqlResultToRowResult r)))
    /\ (forall x, a = 0 \/ ~ (a + 2 * i <= x < a + 2 * i + 2) -> m' !! x = m !! x)
    /\ (forall b n, mapped b n m -> mapped b n m').
Proof.
  intros Hm. destruct (Z.eqb_spec a 0) as [Ea|Ea]; [exists m; naive_solver|].
  destruct (st_ok (a + 2 * i) (le_bytes 2 (SqlResultToRowResult r)) m) as (m' & E & Hl & Hch & Hmp);
    rewrite le_bytes_length in *; [by apply Hm|].
  exists m'. split; [done|]. split; [done|]. split; [|done]. intros x [?|Hx]; [done|by apply Hch].
Qed.

Definition statuses_in (a i n : Z) : Prop :=
  a = 0 \/ (forall x, a + 2 * i <= x < a + 2 * i + 2 * n -> inside out x).

Lemma fetch_rows_spec n : forall i q fetched errors (s : Statement Q) m,
  let a := st_rowStatuses s in
  ready q m -> 0 <= fetched -> 0 <= errors ->
  fetched + Z.of_nat n < 2 ^ 31 -> errors + Z.of_nat n < 2 ^ 31 ->
  statuses_in a i (Z.of_nat n) -> (a <> 0 -> mapped (a + 2 * i) (2 * Z.of_nat n) m) ->
  exists rs q' b d m',
    fetch_rows n i q fetched errors s m
    = Ok (fetched + count row_ok rs, errors + count row_failed rs,
          with_diag d (with_bindings b (if n is O then s else with_query (Some q') s)), m')
    /\ length rs = n /\ fetch_chain (st_bindings s) i q rs q'
    /\ (a <> 0 -> load (a + 2 * i) (2 * n) m' = Some (status_bytes rs))
    /\ (forall x, inside out x -> a = 0 \/ ~ (a + 2 * i <= x < a + 2 * i + 2 * Z.of_nat n) -> m' !! x = m !! x).
Proof.
  induction n as [|n IH]; intros i q fetched errors s m a Hr Hf He Hfn Hen Hin Hmap.
  { exists [], q, (st_bindings s), (st_diag s), m. cbn. rewrite !Z.add_0_r.
    split; [by destruct s|]. split; [done|]. split; [constructor|]. done. }
  cbn [fetch_rows]. cbn [st_bindings st_diag with_bindings].
  destruct (fetch_total q (om_map (SetElementOffset i) (st_bindings s)) (st_diag s) m Hr)
    as (r & q1 & d1 & m1 & E & Hr1 & Hkeep). rewrite E. cbn [obind].
  destruct (counters r fetched errors) as [-> ->]; [split; lia..|].
  set (f1 := fetched + (if row_ok r then 1 else 0)). set (e1 := errors + (if row_failed r then 1 else 0)).
  cbn [obind]. cbn [st_rowStatuses with_diag with_query with_bindings]. fold a.
  set (s1 := with_diag d1 (with_query (Some q1) (with_bindings (om_map (SetElementOffset i) (st_bindings s)) s))).
  assert (0 <= f1 /\ 0 <= e1 /\ f1 + Z.of_nat n < 2 ^ 31 /\ e1 + Z.of_nat n < 2 ^ 31) as (?&?&?&?).
  { unfold f1, e1. destruct (row_ok r), (row_failed r); lia. }
  assert (forall x, a <> 0 -> a + 2 * i <= x < a + 2 * i + 2 * Z.of_nat (S n) -> inside out x /\ is_Some (m1 !! x)) as Hm1.
  { intros x Ha Hx. destruct Hin as [?|Hin]; [done|]. split; [by apply Hin|]. rewrite Hkeep by (by apply Hin). by apply Hmap; [|lia]. }
  destruct (store_status a i r m1) as (m2 & E2 & Hl2 & Hch2 & Hmp2).
  { intros Ha x Hx. apply Hm1; [done|lia]. }
  rewrite E2. cbn [obind].
  assert (ready q1 m2) as Hr2.
  { apply (fetch_frame q1 m1 m2 Hr1). intros x Hx. apply Hch2.
    destruct (Z.eq_dec a 0) as [|Ha]; [by left|right]. intros Hc. destruct (Hm1 x Ha) as [Hi _]; [lia|].
    unfold inside in Hi. rewrite Exists_exists in Hi. rewrite Forall_forall in Hx.
    destruct Hi as (reg & Hreg & Hxr). by apply (Hx reg). }
  destruct (IH (i + 1) q1 f1 e1 s1 m2) as (rs & q' & b & d & m' & E3 & Hlen & Hc & Hl & Hk); try done;
    change (st_rowStatuses s1) with a.
  { destruct Hin as [?|Hin]; [by left|right]. intros x Hx. apply Hin. lia. }
  { intros Ha. apply Hmp2. intros x Hx. apply Hm1; [done|lia]. }
  change (st_rowStatuses s1) with a in *. change (st_bindings s1) with (om_map (SetElementOffset i) (st_bindings s)) in Hc.
  exists (r :: rs), q', b, d, m'. rewrite !count_cons, !Z.add_assoc. fold f1 e1. split; [|split; [|split; [|split]]].
  - rewrite E3. do 2 f_equal. destruct n; [|done]. assert (rs = []) as -> by (by destruct rs).
    inversion Hc; subst. done.
  - cbn [length]. lia.
  - eapply chain_cons; [exact E|]. by eapply chain_offsets.
  - intros Ha. replace (2 * S n)%nat with (2 + 2 * n)%nat by lia. cbn [status_bytes flat_map].
    apply load_app.
    + rewrite <- Hl2 by done. apply load_ext. intros x Hx. apply Hk; [apply Hm1; [done|lia]|lia].
    + replace (a + 2 * i + Z.of_nat 2) with (a + 2 * (i + 1)) by lia. by apply Hl.
  - intros x Hx Hout. rewrite Hk by (done || lia). rewrite Hch2 by lia. by apply Hkeep.
Qed.

End rows.

(** What the application gave for the report. *)
Definition given (r : Z * Z) : list (Z * Z) := if r.1 =? 0 then [] else [r].
Definition report_regions {Q} (s : Statement Q) : list (Z * Z) :=
  given (st_rowStatuses s, 2 * st_rowArraySize s) ++ given (st_rowsFetched s, 4).

(** The columns as they are bound, the application's offset applied. *)
Definition columns_at {Q} (s : Statement Q) (m : mem) : bindings :=
  if st_bindOffset s =? 0 then st_bindings s
  else match load (st_bindOffset s) 4 m with
       | Some bs => om_map (SetByteOffset (i32 (le_val bs))) (st_bindings s)
       | None => st_bindings s
       end.

Definition rowset_result (rs : list SR.SqlResult) : SR.SqlResult :=
  if existsb row_ok rs then if existsb row_failed rs then SR.AI_SUCCESS_WITH_INFO else SR.AI_SUCCESS
  else if existsb row_failed rs then SR.AI_ERROR else SR.AI_NO_DATA.

Lemma count_existsb f rs : (0 <? count f rs) = existsb f rs /\ (count f rs =? 0) = negb (existsb f rs).
Proof.
  induction rs as [|r rs [IH1 IH2]]; [done|]. rewrite count_cons. cbn [existsb].
  pose proof (count_bounds f rs). destruct (f r); cbn [orb negb]; [lia|]. by rewrite Z.add_0_l.
Qed.

Lemma given_inside a n x : a <> 0 -> a <= x < a + n -> inside (given (a, n)) x.
Proof.
  intros Ha Hx. unfold inside, given. cbn [fst]. rewrite (proj2 (Z.eqb_neq a 0)) by done.
  apply Exists_cons_hd. cbn. lia.
Qed.

Lemma inside_app rs rs' x : inside (rs ++ rs') x <-> inside rs x \/ inside rs' x.
Proof. unfold inside. by rewrite Exists_app. Qed.

Lemma put_if_within p n v m :
  (p <> 0 -> mapped p (Z.of_nat n) m) ->
  exists m', put_if p n v m = Ok m' /\ (p <> 0 -> load p n m' = Some (le_bytes n v))
    /\ changes_within (given (p, Z.of_nat n)) m m' /\ (forall b k, mapped b k m -> mapped b k m').
Proof.
  intros Hm. unfold put_if, given. cbn [fst]. destruct (Z.eqb_spec p 0) as [|Hp]; [by exists m|].
  destruct (st_ok p (le_bytes n v) m) as (m' & E & Hl & Hch & Hmp); rewrite le_bytes_length in *; [by apply Hm|].
  exists m'. split; [done|]. split; [done|]. split; [|done]. intros x Hx. apply Hch. exact (proj1 (Forall_singleton _ _) Hx).
Qed.

Lemma load_ok a n m : mapped a (Z.of_nat n) m -> exists bs, load a n m = Some bs.
Proof.
  revert a. induction n as [|n IH]; intros a Hm; [by exists []|]. destruct (Hm a) as [b Hb]; [lia|].
  destruct (IH (a + 1)) as [bs Hbs]; [intros x Hx; apply Hm; lia|]. exists (b :: bs). cbn [load]. by rewrite Hb, Hbs.
Qed.

Lemma columns_bound {Q} `{QueryOps Q} (s : Statement Q) m m1 :
  (st_bindOffset s = 0 \/ mapped (st_bindOffset s) 4 m
     /\ Forall (disjoint_regions (st_bindOffset s, 4)) (report_regions s)) ->
  changes_within (report_regions s) m m1 ->
  (if st_bindOffset s =? 0 then Ok s else
   match st_bindings s with
   | [] => Ok s
   | _ => let* bs := ld (st_bindOffset s) 4 m1 in
          Ok (with_bindings (om_map (SetByteOffset (i32 (le_val bs))) (st_bindings s)) s)
   end) = Ok (with_bindings (columns_at s m) s).
Proof.
  intros Hb Hch. unfold columns_at. destruct (Z.eqb_spec (st_bindOffset s) 0) as [|Hz]; [by destruct s|].
  destruct Hb as [?|[Hm Hd]]; [done|].
  assert (load (st_bindOffset s) 4 m1 = load (st_bindOffset s) 4 m) as Hl.
  { apply load_ext. intros x Hx. apply Hch. eapply Forall_impl; [exact Hd|]. unfold disjoint_regions. cbn. lia. }
  destruct (load_ok (st_bindOffset s) 4 m Hm) as (bs & Hbs). rewrite Hbs in *.
  destruct (st_bindings s) eqn:E; [destruct s; cbn in *; by subst|]. unfold ld. rewrite Hl. done.
Qed.

(** What [SQLFetch] reports is consistent: status array, row count and result all
    describe the same results of the rows. *)
Definition rowset_report {Q} (s : Statement Q) (rs : list SR.SqlResult) (m : mem) : Prop :=
  (st_rowStatuses s <> 0 -> load (st_rowStatuses s) (2 * length rs) m = Some (status_bytes rs))
  /\ (st_rowsFetched s <> 0 -> load (st_rowsFetched s) 4 m = Some (le_bytes 4 (count row_ok rs))).


(** Three rows: one with information, one that failed, and the end. *)
Definition rowset_memory : mem := alloc 100 6 (alloc 200 4 ∅).
Definition rowset_statement : Statement ScriptedQuery :=
  MkStatement 1 [] (Some (Scripted QT.DATA [] [SR.AI_SUCCESS_WITH_INFO; SR.AI_ERROR])) 200 100 0 3 new_set 0 new_storage.

#[export] Instance scripted_fetch out : FetchLaws ScriptedQuery out (fun _ _ => True).
Proof.
  split; [|done]. intros [t sql [|r rows]] b d m _; cbn; eauto 10.
Qed.

