(* ===== verification/StmtInv.v ===== *)
(** The invariant of the statement handle under every call of the API. *)
From S2P Require Import Prelude OrdMap Memory Utf8 BigText TypeTraits AppBuffer AppRead AppProps.
From S2P Require Import Diag DiagProps SqlLex Params Statement StmtProps FetchProps.

(** * The invariant of the handle *)

(** A column binding is one [SQLBindCol] accepts, a parameter one [SQLBindParameter]
    accepts. *)
Definition column_ok (b : ApplicationDataBuffer) : Prop :=
  adb_type b <> AI_UNSUPPORTED /\ 0 <= adb_buflen b /\ (adb_buffer b <> 0 \/ adb_reslen b <> 0).

Definition param_ok (kp : Z * BoundParameter) : Prop :=
  0 < kp.1 < 2 ^ 16 /\ IsSqlTypeSupported (Some (p_sqlType kp.2)) = true
  /\ adb_type (p_buffer kp.2) <> AI_UNSUPPORTED
  /\ (adb_buffer (p_buffer kp.2) <> 0 \/ adb_reslen (p_buffer kp.2) <> 0).

Definition params_ok (ps : ParameterSet) : Prop :=
  om_sorted (ps_parameters ps) /\ Forall param_ok (ps_parameters ps) /\ 0 <= ps_currentParamIdx ps < 2 ^ 16.

Definition statement_ok {Q} (s : Statement Q) : Prop :=
  om_sorted (st_bindings s) /\ Forall (fun kb => column_ok kb.2) (st_bindings s)
  /\ params_ok (st_params s) /\ 1 <= st_rowArraySize s < 2 ^ 64 /\ 0 <= st_timeout s <= INT32_MAX.

Section handle.
Context {Q : Type} `{QueryOps Q} `{Platform} `{Server}.

Abbreviation stmt := (Statement Q).
Abbreviation call := (stmt -> mem -> outcome Z (SR.SqlResult * stmt * mem)).

(** A call whose value the caller takes from a variable. *)
Definition valueless {T} (f : stmt -> mem -> outcome Z (T * SR.SqlResult * stmt * mem)) : call :=
  fun s m => let* (_, r, s, m) := f s m in Ok (r, s, m).

(** The calls on a statement, with arguments of the widths of their types. *)
Inductive handle_call : call -> Prop :=
| call_bind_column c t v l i : handle_call (InternalBindColumn c t v l i)
| call_column_number : handle_call (valueless InternalGetColumnNumber)
| call_column_data c b : handle_call (InternalGetColumnData c b)
| call_column_attribute c a b l r n : handle_call (InternalGetColumnAttribute c a b l r n)
| call_bind_parameter i io bt st cs dd b bl rl :
    0 <= i < 2 ^ 16 -> handle_call (InternalBindParameter i io bt st cs dd b bl rl)
| call_parameters_number : handle_call (valueless InternalGetParametersNumber)
| call_describe_param n t p d k : handle_call (InternalDescribeParam n t p d k)
| call_set_attribute a v : 0 <= v < 2 ^ 64 -> handle_call (InternalSetAttribute a v)
| call_get_attribute a b l : handle_call (InternalGetAttribute a b l)
| call_prepare sql : handle_call (InternalPrepareSqlQuery sql)
| call_execute sql : handle_call (InternalExecuteSqlQuery sql)
| call_execute_prepared : handle_call InternalExecutePrepared
| call_columns c s t k : handle_call (InternalExecuteGetColumnsMetaQuery c s t k)
| call_tables c s t k : handle_call (InternalExecuteGetTablesMetaQuery c s t k)
| call_foreign_keys c s t : handle_call (InternalExecuteGetForeignKeysQuery c s t)
| call_primary_keys c s t : handle_call (InternalExecuteGetPrimaryKeysQuery c s t)
| call_special_columns k c s t sc n : handle_call (InternalExecuteSpecialColumnsQuery k c s t sc n)
| call_type_info t : handle_call (InternalExecuteGetTypeInfoQuery t)
| call_close : handle_call InternalClose
| call_free_resources o : handle_call (InternalFreeResources o)
| call_fetch : handle_call InternalFetchRow
| call_fetch_scroll o : handle_call (InternalFetchScroll o)
| call_more_results : handle_call InternalMoreResults
| call_affected_rows : handle_call (valueless InternalAffectedRows)
| call_select_param p : handle_call (InternalSelectParam p)
| call_put_data d l : handle_call (InternalPutData d l).

Inductive handle_step : stmt * mem -> stmt * mem -> Prop :=
| step_call f s m s' m' : handle_call f -> api f s m = Ok (s', m') -> handle_step (s, m) (s', m')
| step_application s m m' : handle_step (s, m) (s, m').

(** What the invariant is about. *)
Definition core (s : stmt) := (st_bindings s, st_params s, st_rowArraySize s, st_timeout s).

Lemma core_ok (s s' : stmt) : core s' = core s -> statement_ok s -> statement_ok s'.
Proof. unfold core, statement_ok. by intros [= -> -> -> ->]. Qed.

Lemma params_ok_core (s s' : stmt) :
  st_bindings s' = st_bindings s -> st_rowArraySize s' = st_rowArraySize s -> st_timeout s' = st_timeout s ->
  params_ok (st_params s') -> statement_ok s -> statement_ok s'.
Proof. unfold statement_ok. intros -> -> -> ? (? & ? & _ & ? & ?). auto. Qed.

(** [open] takes the successful runs among the hypotheses apart. *)
Ltac open :=
  repeat (cbn [obind] in *;
    match goal with
    | E : Ok _ = Ok _ |- _ => injection E; clear E; intros; subst
    | E : UB = Ok _ |- _ => discriminate E
    | E : Throw _ = Ok _ |- _ => discriminate E
    | E : (if ?c then _ else _) = Ok _ |- _ => destruct c eqn:?
    | E : (let (_, _) := ?x in _) = Ok _ |- _ => destruct x eqn:?
    | E : obind ?e _ = Ok _ |- _ => destruct e eqn:?; [cbn [obind] in E|discriminate E..]
    | E : match ?x with _ => _ end = Ok _ |- _ => destruct x eqn:?
    | E : match ?x with _ => _ end = (_, _) |- _ => destruct x eqn:?
    | E : (_, _) = (_, _) |- _ => injection E; clear E; intros; subst
    end).

Definition keeps_core (f : call) : Prop := forall s m r s' m', f s m = Ok (r, s', m') -> core s' = core s.

Lemma keeps_column_data c b : keeps_core (InternalGetColumnData c b).
Proof. intros s m r s' m' E. unfold InternalGetColumnData, reject in E. open; done. Qed.

Lemma keeps_column_number : keeps_core (valueless InternalGetColumnNumber).
Proof. intros s m r s' m' E. unfold valueless, InternalGetColumnNumber, GetMeta in E. open; done. Qed.

Lemma keeps_column_attribute c a b l r n : keeps_core (InternalGetColumnAttribute c a b l r n).
Proof. intros s m r0 s' m' E. unfold InternalGetColumnAttribute, GetMeta, reject in E. open; done. Qed.

Lemma keeps_get_attribute a b l : keeps_core (InternalGetAttribute a b l).
Proof. intros s m r0 s' m' E. unfold InternalGetAttribute, reject in E. open; done. Qed.

Lemma keeps_close : keeps_core InternalClose.
Proof. intros s m r0 s' m' E. unfold InternalClose in E. open; done. Qed.

Lemma keeps_more_results : keeps_core InternalMoreResults.
Proof. intros s m r0 s' m' E. unfold InternalMoreResults, reject in E. open; done. Qed.

Lemma keeps_affected_rows : keeps_core (valueless InternalAffectedRows).
Proof. intros s m r0 s' m' E. unfold valueless, InternalAffectedRows, reject in E. open; done. Qed.

Lemma keeps_execute_query q : keeps_core (execute_query q).
Proof. intros s m r0 s' m' E. unfold execute_query in E. open; done. Qed.

Lemma keeps_run_new q : keeps_core (run_new q).
Proof. intros s m r0 s' m' E. unfold run_new, close_current, execute_query in E. open; done. Qed.

Lemma keeps_execute_prepared : keeps_core InternalExecutePrepared.
Proof. intros s m r0 s' m' E. unfold InternalExecutePrepared, execute_query, reject in E. open; done. Qed.

Definition keeps_ok (f : call) : Prop :=
  forall s m r s' m', statement_ok s -> f s m = Ok (r, s', m') -> statement_ok s'.

Lemma core_keeps_ok f : keeps_core f -> keeps_ok f.
Proof. intros Hf s m r s' m' Hs E. exact (core_ok s s' (Hf _ _ _ _ _ E) Hs). Qed.

Lemma ok_bind_column c t v l i : keeps_ok (InternalBindColumn c t v l i).
Proof.
  intros s m r s' m' Hs E. unfold InternalBindColumn, reject in E.
  case_bool_decide as Ht; [open; done|]. destruct (l <? 0) eqn:El; open; [done|].
  destruct Hs as (Hb & Hc & Hp & Hr & Htm). unfold statement_ok. cbn.
  destruct (negb (v =? 0) || negb (i =? 0)) eqn:Ev; (split; [|split; [|done]]).
  - by apply om_insert_sorted.
  - apply Forall_forall. intros kb Hkb. apply om_insert_keys in Hkb as [->|Hkb].
    + cbn. split; [done|]. cbn. lia.
    + rewrite Forall_forall in Hc. by apply Hc.
  - by apply om_erase_sorted.
  - rewrite Forall_forall in *. intros kb Hkb. apply Hc. unfold om_erase in Hkb.
    by apply list_elem_of_filter in Hkb as [_ ?].
Qed.

Lemma insert_param_ok k p ps : params_ok ps -> param_ok (k, p) ->
  params_ok (set_parameters (om_insert k p (ps_parameters ps)) ps).
Proof.
  intros (Hs & Hp & Hc) Hk. split; [by apply om_insert_sorted|split; [|done]]. cbn. apply Forall_forall.
  intros kp Hin. apply om_insert_keys in Hin as [->|Hin]; [done|]. rewrite Forall_forall in Hp. by apply Hp.
Qed.

Lemma statement_params_ok (s : stmt) : statement_ok s -> params_ok (st_params s).
Proof. by intros (_ & _ & ? & _). Qed.

Lemma ok_bind_parameter i io bt st cs dd b bl rl :
  0 <= i < 2 ^ 16 -> keeps_ok (InternalBindParameter i io bt st cs dd b bl rl).
Proof.
  intros Hi s m r s' m' Hs E. unfold InternalBindParameter, reject in E.
  destruct (i =? 0) eqn:Ei; [open; done|]. destruct (io =? SQL_PARAM_INPUT); cbn [negb] in E; [|open; done].
  destruct (IsSqlTypeSupported (Some st)) eqn:Est; cbn [negb] in E; [|open; done].
  case_bool_decide as Ht; [open; done|]. destruct ((b =? 0) && (rl =? 0)) eqn:Eb; open; [done|].
  apply (params_ok_core s); try done. cbn [st_params with_params]. apply insert_param_ok; [by apply statement_params_ok|].
  split; [cbn; lia|]. split; [done|]. split; [done|]. cbn. lia.
Qed.

Lemma ok_update_meta q : keeps_ok (UpdateParamsMeta q).
Proof.
  intros s m r s' m' Hs E. unfold UpdateParamsMeta, reject in E. open; try done;
    (apply (params_ok_core s); try done; exact (statement_params_ok s Hs)).
Qed.

Lemma ok_parameters_number : keeps_ok (valueless InternalGetParametersNumber).
Proof.
  intros s m r s' m' Hs E. unfold valueless, InternalGetParametersNumber, reject in E.
  open; try done; by eapply ok_update_meta.
Qed.

Lemma ok_describe_param n t p d k : keeps_ok (InternalDescribeParam n t p d k).
Proof.
  intros s m r s' m' Hs E. unfold InternalDescribeParam, reject in E.
  destruct (st_query s) as [q|]; [|open; done]. destruct (negb _); [open; done|].
  destruct (GetParamType n 0 (st_params s) =? 0).
  - destruct (UpdateParamsMeta q s m) as [[[r1 s1] m1]| |] eqn:E1; cbn [obind] in E; [|done..].
    apply ok_update_meta in E1; [|done]. destruct (negb _); open; done.
  - cbn [obind] in E. destruct (negb _); open; done.
Qed.

Lemma ok_set_attribute a v : 0 <= v < 2 ^ 64 -> keeps_ok (InternalSetAttribute a v).
Proof.
  intros Hv s m r s' m' Hs E. unfold InternalSetAttribute, reject in E.
  open; try done; unfold statement_ok, params_ok, INT32_MAX in *; cbn; destruct_and?;
    repeat split; first [done|lia].
Qed.

Lemma reset_all_ok l m l' : reset_all l m = Ok l' -> om_sorted l -> Forall param_ok l -> om_sorted l' /\ Forall param_ok l'.
Proof.
  intros E. assert (map fst l' = map fst l /\ (Forall param_ok l -> Forall param_ok l')) as [Hk Hp].
  { revert l' E. induction l as [|[k p] l IH]; intros l' E; cbn [reset_all] in E; [open; done|].
    destruct (ResetStoredData p m) as [p'| |] eqn:Ep; [|done..]. cbn [obind] in E.
    destruct (reset_all l m) as [t| |]; [|done..]. cbn [obind] in E. injection E as <-.
    destruct (IH t eq_refl) as [Ek Hf]. cbn [map fst]. rewrite Ek. split; [done|].
    intros [Hk Hl]%Forall_cons. apply Forall_cons. split; [|by apply Hf].
    unfold ResetStoredData in Ep. open; done. }
  unfold om_sorted. rewrite Hk. auto.
Qed.

Lemma Prepare_ok ps m ps' : Prepare ps m = Ok ps' -> params_ok ps -> params_ok ps'.
Proof.
  intros E (Hs & Hp & Hc). unfold Prepare in E. destruct (reset_all _ m) as [l| |] eqn:El; [|done..].
  cbn [obind] in E. injection E as <-. destruct (reset_all_ok _ _ _ El Hs Hp) as [? ?]. done.
Qed.

Lemma ok_prepare sql : keeps_ok (InternalPrepareSqlQuery sql).
Proof.
  intros s m r s' m' Hs E. unfold InternalPrepareSqlQuery, ProcessInternalCommand, reject in E.
  assert (forall ps, Prepare (st_params s) m = Ok ps -> statement_ok (with_params ps s)) as Hprep.
  { intros ps Hps. apply (params_ok_core s); try done. eapply Prepare_ok; [exact Hps|by apply statement_params_ok]. }
  destruct (IsInternalCommand sql) as [[]|]; [| |done].
  - destruct (GetNextCommand sql) as [[[cmd|]|e|]|]; open; try done. by apply Hprep.
  - unfold close_current in E. open; by apply Hprep.
Qed.

Lemma ok_execute sql : keeps_ok (InternalExecuteSqlQuery sql).
Proof.
  intros s m r s' m' Hs E. unfold InternalExecuteSqlQuery in E.
  destruct (InternalPrepareSqlQuery sql s m) as [[[r1 s1] m1]| |] eqn:E1; [|done..]. cbn [obind] in E.
  apply ok_prepare in E1; [|done]. case_bool_decide; [|open; done].
  exact (core_keeps_ok _ keeps_execute_prepared _ _ _ _ _ E1 E).
Qed.

Lemma ok_free_resources o : keeps_ok (InternalFreeResources o).
Proof.
  intros s m r s' m' Hs E. unfold InternalFreeResources, reject in E.
  destruct (o =? SQL_DROP); [open; done|]. destruct (o =? SQL_CLOSE).
  { exact (core_keeps_ok _ keeps_close _ _ _ _ _ Hs E). }
  destruct Hs as (Hb & Hc & (Hps & Hpp & Hi) & Hr & Ht).
  unfold statement_ok, params_ok.
  destruct (o =? SQL_UNBIND); [open; cbn; repeat split; first [done|lia|apply Sorted.SSorted_nil|constructor]|].
  destruct (o =? SQL_RESET_PARAMS); open; cbn; repeat split; first [done|lia|apply Sorted.SSorted_nil|constructor].
Qed.

Lemma om_map_Forall {T U} (f : T -> U) (P : T -> Prop) (R : U -> Prop) (l : omap T) :
  (forall x, P x -> R (f x)) -> Forall (fun kx => P kx.2) l -> Forall (fun kx => R kx.2) (om_map f l).
Proof. intros Hf Hl. induction Hl; constructor; cbn; auto. Qed.

(** Moving the offsets of the columns. *)
Lemma ok_columns f (s : stmt) :
  (forall b, column_ok b -> column_ok (f b)) -> statement_ok s -> statement_ok (with_bindings (om_map f (st_bindings s)) s).
Proof.
  intros Hf (Hb & Hc & Hrest). split; [by apply om_map_sorted|]. split; [|exact Hrest].
  by apply (om_map_Forall f column_ok).
Qed.

Lemma ok_fetch_rows n : forall i q fetched errors s m r,
  statement_ok s -> fetch_rows n i q fetched errors s m = Ok r -> statement_ok r.1.2.
Proof.
  induction n as [|n IH]; intros i q fetched errors s m r Hs E; cbn [fetch_rows] in E; [by injection E as <-|].
  pose proof (ok_columns (SetElementOffset i) s ltac:(done) Hs) as Hs'.
  destruct (q_fetch q _ _ m) as [[[[res q'] d] m1]| |]; [|done..]. cbn [obind] in E.
  destruct (match res with SR.AI_SUCCESS | SR.AI_SUCCESS_WITH_INFO => _ | _ => _ end) as [f| |]; [|done..]. cbn [obind] in E.
  destruct (match res with SR.AI_SUCCESS | SR.AI_SUCCESS_WITH_INFO => _ | _ => _ end) as [e| |]; [|done..]. cbn [obind] in E.
  destruct (if _ =? 0 then _ else _) as [m2| |] in E; [|done..]. cbn [obind] in E.
  eapply IH; [|exact E]. exact Hs'.
Qed.

Lemma ok_fetch : keeps_ok InternalFetchRow.
Proof.
  intros s m r s' m' Hs E. unfold InternalFetchRow in E.
  destruct (put_if (st_rowsFetched s) 4 0 m) as [m1| |]; [|done..]. cbn [obind] in E.
  destruct (st_query s) as [q|]; [|by unfold reject in E; open].
  match type of E with obind ?e _ = _ => destruct e as [s1| |] eqn:E1; [|done..] end. cbn [obind] in E.
  assert (statement_ok s1) as Hs1.
  { destruct (st_bindOffset s =? 0); [by injection E1 as <-|].
    destruct (st_bindings s) eqn:Eb; [by injection E1 as <-|]. rewrite <- Eb in E1.
    destruct (ld _ 4 m1) as [bs| |]; [|done..]. injection E1 as <-. by apply ok_columns. }
  destruct (fetch_rows _ 0 q 0 0 s1 m1) as [[[[f e] s2] m2]| |] eqn:E2; [|done..].
  apply ok_fetch_rows in E2; [|done]. cbn [obind fst snd] in *.
  destruct (put_if _ 4 _ m2) as [m3| |]; [|done..]. by injection E as _ <- _.
Qed.

Lemma first_pending_elem l m k p : first_pending l m = Ok (Some (k, p)) -> (k, p) ∈ l.
Proof.
  induction l as [|[j x] l IH]; cbn [first_pending]; [done|]. destruct (IsDataReady x m) as [[]| |]; try done; cbn.
  - intros E. apply elem_of_cons. right. by apply IH.
  - intros [= -> ->]. apply elem_of_cons. by left.
Qed.

Lemma ok_select_param p : keeps_ok (InternalSelectParam p).
Proof.
  intros s m r s' m' Hs E. unfold InternalSelectParam, reject in E.
  destruct (p =? 0); [open; done|]. destruct (st_query s) as [q|]; [|open; done].
  destruct (match GetSelectedParameter _ with Some _ => _ | None => _ end) as [b| |]; [|done..]. cbn [obind] in E.
  destruct (negb b); [open; done|]. unfold SelectNextParameter in E.
  destruct (first_pending _ m) as [[[k x]|]| |] eqn:E1; [| |done..]; cbn [obind] in E.
  - destruct (st p _ m) as [m1| |]; [|done..]. injection E as _ <- _.
    apply (params_ok_core s); try done. destruct (statement_params_ok s Hs) as (Hk & Hp & Hc).
    split; [done|split; [done|]]. cbn. apply first_pending_elem in E1. rewrite Forall_forall in Hp.
    destruct (Hp _ E1) as [Hr _]. cbn in Hr. lia.
  - unfold execute_query in E. open; done.
Qed.

Lemma ok_put_data d l : keeps_ok (InternalPutData d l).
Proof.
  intros s m r s' m' Hs E. unfold InternalPutData, reject in E.
  destruct (_ && _ && _ && _); [open; done|]. destruct (negb _); [open; done|].
  destruct (GetSelectedParameter (st_params s)) as [p|] eqn:Ep; [|open; done].
  destruct (PutData p d l m) as [p'| |] eqn:E1; [|done..]. injection E as _ <- _.
  pose proof (statement_params_ok s Hs) as Hps. apply (params_ok_core s); try done. apply insert_param_ok; [done|].
  apply om_lookup_elem in Ep. destruct Hps as (_ & Hp & _). rewrite Forall_forall in Hp.
  specialize (Hp _ Ep). unfold PutData in E1. open; exact Hp.
Qed.

Lemma calls_keep_ok f : handle_call f -> keeps_ok f.
Proof.
  destruct 1; try (by apply core_keeps_ok; first
    [apply keeps_column_number|apply keeps_column_data|apply keeps_column_attribute|apply keeps_get_attribute
    |apply keeps_execute_prepared|apply keeps_run_new|apply keeps_close|apply keeps_more_results|apply keeps_affected_rows]).
  - apply ok_bind_column.
  - by apply ok_bind_parameter.
  - apply ok_parameters_number.
  - apply ok_describe_param.
  - by apply ok_set_attribute.
  - apply ok_prepare.
  - apply ok_execute.
  - intros st m r st' m' Hs E. unfold InternalExecuteSpecialColumnsQuery, reject in E.
    destruct (_ && _); [open; done|]. exact (core_keeps_ok _ (keeps_run_new _) _ _ _ _ _ Hs E).
  - intros st m r st' m' Hs E. unfold InternalExecuteGetTypeInfoQuery, reject in E.
    destruct (_ && _); [open; done|]. exact (core_keeps_ok _ (keeps_run_new _) _ _ _ _ _ Hs E).
  - apply ok_free_resources.
  - apply ok_fetch.
  - intros st m r st' m' Hs E. unfold InternalFetchScroll, reject in E.
    destruct (negb _); [open; done|]. by eapply ok_fetch.
  - apply ok_select_param.
  - apply ok_put_data.
Qed.

Lemma step_keeps_ok sm sm' : handle_step sm sm' -> statement_ok sm.1 -> statement_ok sm'.1.
Proof.
  destruct 1 as [f s m s' m' Hf E|]; [|done]. cbn [fst]. intros Hs. unfold api, api_call in E. cbn [fst snd] in E.
  destruct (f _ m) as [[[r s1] m1]| |] eqn:E1; [|done..]. cbn in E. injection E as <- <-.
  apply (calls_keep_ok f Hf) in E1; [|exact Hs]. exact E1.
Qed.

Lemma steps_keep_ok sm sm' : rtc handle_step sm sm' -> statement_ok sm.1 -> statement_ok sm'.1.
Proof. induction 1 as [|x y z Hxy _ IH]; [done|]. intros Hx. by apply IH, (step_keeps_ok x). Qed.

Lemma new_statement_ok this : statement_ok (new_statement this : stmt).
Proof. unfold statement_ok, params_ok. cbn. repeat split; first [done|lia|apply Sorted.SSorted_nil|constructor]. Qed.

End handle.

(** C3: The handle's invariant.  Whatever sequence of calls an application makes on a
    new statement, in whatever states of its memory, and whatever the queries and the
    server answer: the column bindings and the parameters stay ordered maps, every
    bound column has a supported type, a non-negative length and a buffer or an
    indicator, every parameter a number from 1 to 65535, a supported SQL type and
    buffer type and a buffer or an indicator; the rowset has at least one row, and
    the timeout fits a 32-bit integer. *)
Theorem statement_invariant {Q} `{QueryOps Q} `{Platform} `{Server} this m (s : Statement Q) m' :
  rtc handle_step (new_statement this, m) (s, m') -> statement_ok s.
Proof.
  intros Hr. exact (steps_keep_ok _ _ Hr (new_statement_ok this)).
Qed.

#[export] Instance SilentServer : Server := {| params_meta _ := SyncResponse RS.SUCCESS [] [] |}.

(** Binding a parameter, preparing, binding a column and fetching. *)
Lemma statement_invariant_witness :
  exists s : Statement ScriptedQuery, ps_parameters (st_params s) <> [] /\ st_bindings s <> [] /\ statement_ok s.
Proof.
  eexists. split; [|split].
  3: {
    apply (statement_invariant 1 ∅ _ ∅).
    eapply rtc_l; [apply (step_call (InternalBindParameter 1 SQL_PARAM_INPUT (-2) 12 0 0 100 8 0));
      [by constructor|vm_compute; reflexivity]|].
    eapply rtc_l; [apply (step_call (InternalPrepareSqlQuery (str "SELECT a FROM t")));
      [by constructor|vm_compute; reflexivity]|].
    eapply rtc_l; [apply (step_call (InternalBindColumn 1 1 100 8 200)); [by constructor|vm_compute; reflexivity]|].
    eapply rtc_l; [apply (step_call InternalFetchRow); [by constructor|vm_compute; reflexivity]|].
    apply rtc_refl. }
  - done.
  - done.
Defined.
