(* ===== verification/Config.v ===== *)
(** The connection's configuration: [src/src/odbc/src/config/configuration.cpp] with
    [configuration.h] and [settable_value.h], the enumerations [log_level.cpp],
    [read_preference.cpp] and [scan_method.cpp], and the text helpers of
    [common/utils.h] they use.

    A text is a list of bytes.  Character classes are those of the C locale.  The
    process-wide logger is threaded through as a record of its level and path; its
    file is not modelled. *)
From S2P Require Import Prelude BigText TypeTraits AppBuffer Diag SqlLex.

Abbreviation text := (list Z).

(** * Text *)

Definition is_space (c : Z) : bool := ((9 <=? c) && (c <=? 13)) || (c =? 32).

(** [StripSurroundingWhitespaces]. *)
Fixpoint drop_spaces (s : text) : text :=
  match s with
  | c :: t => if is_space c then drop_spaces t else s
  | [] => []
  end.

Definition StripSurroundingWhitespaces (s : text) : text := rev (drop_spaces (rev (drop_spaces s))).

Definition SpaceToUnderscore (s : text) : text := map (fun c => if c =? 32 then 95 else c) s.

(** An upper-case hexadecimal digit, and a byte as [operator<<] prints it with
    [std::hex]: without leading zeros. *)
Definition hex_digit (d : Z) : Z := if d <? 10 then 48 + d else 55 + d.
Definition hex_byte (c : Z) : text := if c <? 16 then [hex_digit c] else [hex_digit (c / 16); hex_digit (c mod 16)].

Definition uri_plain (c : Z) : bool :=
  is_alnum c || bool_decide (c ∈ [45; 95; 126; 46; 42; 33; 40; 41]).

Definition EncodeURIComponent (s : text) : text :=
  flat_map (fun c => if uri_plain c then [c] else 37 :: hex_byte c) s.

(** [LexicalCast<std::string>] of an integer. *)
Definition show_int (z : Z) : text := AppBuffer.text (print_int z).
Definition show_text (s : text) : text := s.
Definition show_bool (b : bool) : text := if b then str "true" else str "false".

(** * Enumerations *)

Module LL.

Inductive LogLevel : Type := DEBUG_LEVEL | INFO_LEVEL | ERROR_LEVEL | OFF | UNKNOWN.

Definition FromString (val : text) (dflt : LogLevel) : LogLevel :=
  let lowerVal := StripSurroundingWhitespaces (ToLower val) in
  if bool_decide (lowerVal = str "debug") then DEBUG_LEVEL
  else if bool_decide (lowerVal = str "info") then INFO_LEVEL
  else if bool_decide (lowerVal = str "error") then ERROR_LEVEL
  else if bool_decide (lowerVal = str "off") then OFF
  else dflt.

Definition ToString (val : LogLevel) : text :=
  str match val with
      | DEBUG_LEVEL => "debug"
      | INFO_LEVEL => "info"
      | ERROR_LEVEL => "error"
      | OFF => "off"
      | UNKNOWN => "unknown"
      end.

End LL.

Module RP.

Inductive ReadPreference : Type :=
| PRIMARY | PRIMARY_PREFERRED | SECONDARY | SECONDARY_PREFERRED | NEAREST | UNKNOWN.

Definition FromString (val : text) (dflt : ReadPreference) : ReadPreference :=
  let lowerVal := SpaceToUnderscore (StripSurroundingWhitespaces (ToLower val)) in
  if bool_decide (lowerVal = str "primary") then PRIMARY
  else if bool_decide (lowerVal = str "primary_preferred") then PRIMARY_PREFERRED
  else if bool_decide (lowerVal = str "secondary") then SECONDARY
  else if bool_decide (lowerVal = str "secondary_preferred") then SECONDARY_PREFERRED
  else if bool_decide (lowerVal = str "nearest") then NEAREST
  else dflt.

Definition ToString (val : ReadPreference) : text :=
  str match val with
      | PRIMARY => "primary"
      | PRIMARY_PREFERRED => "primary_preferred"
      | SECONDARY => "secondary"
      | SECONDARY_PREFERRED => "secondary_preferred"
      | NEAREST => "nearest"
      | UNKNOWN => "unknown"
      end.

Definition ToJdbcString (val : ReadPreference) : text :=
  str match val with
      | PRIMARY_PREFERRED => "primaryPreferred"
      | SECONDARY => "secondary"
      | SECONDARY_PREFERRED => "secondaryPreferred"
      | NEAREST => "nearest"
      | _ => "primary"
      end.

End RP.

Module SM.

Inductive ScanMethod : Type := RANDOM | ID_FORWARD | ID_REVERSE | ALL | UNKNOWN.

Definition FromString (val : text) (dflt : ScanMethod) : ScanMethod :=
  let lowerVal := SpaceToUnderscore (StripSurroundingWhitespaces (ToLower val)) in
  if bool_decide (lowerVal = str "random") then RANDOM
  else if bool_decide (lowerVal = str "id_forward") then ID_FORWARD
  else if bool_decide (lowerVal = str "id_reverse") then ID_REVERSE
  else if bool_decide (lowerVal = str "all") then ALL
  else dflt.

Definition ToString (val : ScanMethod) : text :=
  str match val with
      | ID_FORWARD => "id_forward"
      | ID_REVERSE => "id_reverse"
      | ALL => "all"
      | RANDOM => "random"
      | UNKNOWN => "unknown"
      end.

Definition ToJdbcString (val : ScanMethod) : text :=
  str match val with
      | ID_FORWARD => "idForward"
      | ID_REVERSE => "idReverse"
      | ALL => "all"
      | _ => "random"
      end.

End SM.

#[export] Instance LogLevel_eq_dec : EqDecision LL.LogLevel.
Proof. solve_decision. Defined.
#[export] Instance ReadPreference_eq_dec : EqDecision RP.ReadPreference.
Proof. solve_decision. Defined.
#[export] Instance ScanMethod_eq_dec : EqDecision SM.ScanMethod.
Proof. solve_decision. Defined.

(** * Values that know whether they were set *)

Record SettableValue (T : Type) : Type := MkValue { sv_val : T; sv_set : bool }.
Arguments MkValue {T}.
Arguments sv_val {T}.
Arguments sv_set {T}.

Definition unset {T} (dflt : T) : SettableValue T := MkValue dflt false.
Definition SetValue {T} (v : T) (s : SettableValue T) : SettableValue T := MkValue v true.

(** * The machine the driver runs on *)

(** The home directory (the default log path), which paths are directories, and the
    size of a [std::string] object. *)
Class Host : Type := {
  DEFAULT_LOG_PATH : text;
  IsValidDirectory : text -> bool;
  sizeof_string : Z
}.

Record Logger : Type := MkLogger { lg_level : LL.LogLevel; lg_path : text }.

(** * Configurations *)

Record Configuration : Type := MkConfig {
  c_dsn : SettableValue text;
  c_driver : SettableValue text;
  c_database : SettableValue text;
  c_hostname : SettableValue text;
  c_port : SettableValue Z;
  c_user : SettableValue text;
  c_password : SettableValue text;
  c_appName : SettableValue text;
  c_loginTimeoutSec : SettableValue Z;
  c_readPreference : SettableValue RP.ReadPreference;
  c_replicaSet : SettableValue text;
  c_retryReads : SettableValue bool;
  c_tls : SettableValue bool;
  c_tlsAllowInvalidHostnames : SettableValue bool;
  c_tlsCaFile : SettableValue text;
  c_sshEnable : SettableValue bool;
  c_sshUser : SettableValue text;
  c_sshHost : SettableValue text;
  c_sshPrivateKeyFile : SettableValue text;
  c_sshPrivateKeyPassphrase : SettableValue text;
  c_sshStrictHostKeyChecking : SettableValue bool;
  c_sshKnownHostsFile : SettableValue text;
  c_logLevel : SettableValue LL.LogLevel;
  c_logPath : SettableValue text;
  c_scanMethod : SettableValue SM.ScanMethod;
  c_scanLimit : SettableValue Z;
  c_schemaName : SettableValue text;
  c_refreshSchema : SettableValue bool;
  c_defaultFetchSize : SettableValue Z
}.

(** The attribute of each field. *)
Inductive Key : Type :=
  | K_dsn | K_driver | K_database | K_hostname | K_port | K_user | K_password | K_appName
  | K_loginTimeoutSec | K_readPreference | K_replicaSet | K_retryReads | K_tls
  | K_tlsAllowInvalidHostnames | K_tlsCaFile | K_sshEnable | K_sshUser | K_sshHost | K_sshPrivateKeyFile
  | K_sshPrivateKeyPassphrase | K_sshStrictHostKeyChecking | K_sshKnownHostsFile | K_logLevel | K_logPath
  | K_scanMethod | K_scanLimit | K_schemaName | K_refreshSchema | K_defaultFetchSize.

Definition key_text (k : Key) : text :=
  str match k with
      | K_dsn => "dsn"
      | K_driver => "driver"
      | K_database => "database"
      | K_hostname => "hostname"
      | K_port => "port"
      | K_user => "user"
      | K_password => "password"
      | K_appName => "app_name"
      | K_loginTimeoutSec => "login_timeout_sec"
      | K_readPreference => "read_preference"
      | K_replicaSet => "replica_set"
      | K_retryReads => "retry_reads"
      | K_tls => "tls"
      | K_tlsAllowInvalidHostnames => "tls_allow_invalid_hostnames"
      | K_tlsCaFile => "tls_ca_file"
      | K_sshEnable => "ssh_enable"
      | K_sshUser => "ssh_user"
      | K_sshHost => "ssh_host"
      | K_sshPrivateKeyFile => "ssh_private_key_file"
      | K_sshPrivateKeyPassphrase => "ssh_private_key_passphrase"
      | K_sshStrictHostKeyChecking => "ssh_strict_host_key_checking"
      | K_sshKnownHostsFile => "ssh_known_hosts_file"
      | K_logLevel => "log_level"
      | K_logPath => "log_path"
      | K_scanMethod => "scan_method"
      | K_scanLimit => "scan_limit"
      | K_schemaName => "schema_name"
      | K_refreshSchema => "refresh_schema"
      | K_defaultFetchSize => "default_fetch_size"
      end.

(** In the order of the sources. *)
Definition all_keys : list Key :=
  [ K_dsn; K_driver; K_database; K_hostname; K_port; K_user;
    K_password; K_appName; K_loginTimeoutSec; K_readPreference; K_replicaSet; K_retryReads; K_tls;
    K_tlsAllowInvalidHostnames; K_tlsCaFile; K_sshEnable; K_sshUser; K_sshHost; K_sshPrivateKeyFile;
    K_sshPrivateKeyPassphrase; K_sshStrictHostKeyChecking; K_sshKnownHostsFile; K_logLevel; K_logPath;
    K_scanMethod; K_scanLimit; K_schemaName; K_refreshSchema; K_defaultFetchSize].

#[export] Instance Key_eq_dec : EqDecision Key.
Proof. solve_decision. Defined.

Section configuration.
Context `{Host}.

(** The constructor: every value is its default. *)
Definition new_configuration : Configuration :=
  MkConfig (unset (str "DocumentDB DSN"))
    (unset (str "Amazon DocumentDB")) (unset []) (unset []) (unset 27017) (unset []) (unset [])
    (unset (str "Amazon DocumentDB ODBC Driver")) (unset 0) (unset RP.PRIMARY) (unset []) (unset true)
    (unset true) (unset false) (unset []) (unset false) (unset []) (unset []) (unset []) (unset [])
    (unset true) (unset []) (unset LL.ERROR_LEVEL) (unset DEFAULT_LOG_PATH) (unset SM.RANDOM)
    (unset 1000) (unset (str "_default")) (unset false) (unset 2000).

(** * Setters *)

Definition SetDsn (v : text) (c : Configuration) : Configuration :=
  MkConfig (SetValue v (c_dsn c))
    (c_driver c) (c_database c) (c_hostname c) (c_port c) (c_user c) (c_password c) (c_appName c)
    (c_loginTimeoutSec c) (c_readPreference c) (c_replicaSet c) (c_retryReads c) (c_tls c)
    (c_tlsAllowInvalidHostnames c) (c_tlsCaFile c) (c_sshEnable c) (c_sshUser c) (c_sshHost c)
    (c_sshPrivateKeyFile c) (c_sshPrivateKeyPassphrase c) (c_sshStrictHostKeyChecking c)
    (c_sshKnownHostsFile c) (c_logLevel c) (c_logPath c) (c_scanMethod c) (c_scanLimit c)
    (c_schemaName c) (c_refreshSchema c) (c_defaultFetchSize c).
Definition SetDriver (v : text) (c : Configuration) : Configuration :=
  MkConfig (c_dsn c)
    (SetValue v (c_driver c)) (c_database c) (c_hostname c) (c_port c) (c_user c) (c_password c)
    (c_appName c) (c_loginTimeoutSec c) (c_readPreference c) (c_replicaSet c) (c_retryReads c) (c_tls c)
    (c_tlsAllowInvalidHostnames c) (c_tlsCaFile c) (c_sshEnable c) (c_sshUser c) (c_sshHost c)
    (c_sshPrivateKeyFile c) (c_sshPrivateKeyPassphrase c) (c_sshStrictHostKeyChecking c)
    (c_sshKnownHostsFile c) (c_logLevel c) (c_logPath c) (c_scanMethod c) (c_scanLimit c)
    (c_schemaName c) (c_refreshSchema c) (c_defaultFetchSize c).
Definition SetDatabase (v : text) (c : Configuration) : Configuration :=
  MkConfig (c_dsn c)
    (c_driver c) (SetValue v (c_database c)) (c_hostname c) (c_port c) (c_user c) (c_password c)
    (c_appName c) (c_loginTimeoutSec c) (c_readPreference c) (c_replicaSet c) (c_retryReads c) (c_tls c)
    (c_tlsAllowInvalidHostnames c) (c_tlsCaFile c) (c_sshEnable c) (c_sshUser c) (c_sshHost c)
    (c_sshPrivateKeyFile c) (c_sshPrivateKeyPassphrase c) (c_sshStrictHostKeyChecking c)
    (c_sshKnownHostsFile c) (c_logLevel c) (c_logPath c) (c_scanMethod c) (c_scanLimit c)
    (c_schemaName c) (c_refreshSchema c) (c_defaultFetchSize c).
Definition SetHostname (v : text) (c : Configuration) : Configuration :=
  MkConfig (c_dsn c)
    (c_driver c) (c_database c) (SetValue v (c_hostname c)) (c_port c) (c_user c) (c_password c)
    (c_appName c) (c_loginTimeoutSec c) (c_readPreference c) (c_replicaSet c) (c_retryReads c) (c_tls c)
    (c_tlsAllowInvalidHostnames c) (c_tlsCaFile c) (c_sshEnable c) (c_sshUser c) (c_sshHost c)
    (c_sshPrivateKeyFile c) (c_sshPrivateKeyPassphrase c) (c_sshStrictHostKeyChecking c)
    (c_sshKnownHostsFile c) (c_logLevel c) (c_logPath c) (c_scanMethod c) (c_scanLimit c)
    (c_schemaName c) (c_refreshSchema c) (c_defaultFetchSize c).
Definition SetPort (v : Z) (c : Configuration) : Configuration :=
  MkConfig (c_dsn c) (c_driver c)
    (c_database c) (c_hostname c) (SetValue v (c_port c)) (c_user c) (c_password c) (c_appName c)
    (c_loginTimeoutSec c) (c_readPreference c) (c_replicaSet c) (c_retryReads c) (c_tls c)
    (c_tlsAllowInvalidHostnames c) (c_tlsCaFile c) (c_sshEnable c) (c_sshUser c) (c_sshHost c)
    (c_sshPrivateKeyFile c) (c_sshPrivateKeyPassphrase c) (c_sshStrictHostKeyChecking c)
    (c_sshKnownHostsFile c) (c_logLevel c) (c_logPath c) (c_scanMethod c) (c_scanLimit c)
    (c_schemaName c) (c_refreshSchema c) (c_defaultFetchSize c).
Definition SetUser (v : text) (c : Configuration) : Configuration :=
  MkConfig (c_dsn c) (c_driver c)
    (c_database c) (c_hostname c) (c_port c) (SetValue v (c_user c)) (c_password c) (c_appName c)
    (c_loginTimeoutSec c) (c_readPreference c) (c_replicaSet c) (c_retryReads c) (c_tls c)
    (c_tlsAllowInvalidHostnames c) (c_tlsCaFile c) (c_sshEnable c) (c_sshUser c) (c_sshHost c)
    (c_sshPrivateKeyFile c) (c_sshPrivateKeyPassphrase c) (c_sshStrictHostKeyChecking c)
    (c_sshKnownHostsFile c) (c_logLevel c) (c_logPath c) (c_scanMethod c) (c_scanLimit c)
    (c_schemaName c) (c_refreshSchema c) (c_defaultFetchSize c).
Definition SetPassword (v : text) (c : Configuration) : Configuration :=
  MkConfig (c_dsn c)
    (c_driver c) (c_database c) (c_hostname c) (c_port c) (c_user c) (SetValue v (c_password c))
    (c_appName c) (c_loginTimeoutSec c) (c_readPreference c) (c_replicaSet c) (c_retryReads c) (c_tls c)
    (c_tlsAllowInvalidHostnames c) (c_tlsCaFile c) (c_sshEnable c) (c_sshUser c) (c_sshHost c)
    (c_sshPrivateKeyFile c) (c_sshPrivateKeyPassphrase c) (c_sshStrictHostKeyChecking c)
    (c_sshKnownHostsFile c) (c_logLevel c) (c_logPath c) (c_scanMethod c) (c_scanLimit c)
    (c_schemaName c) (c_refreshSchema c) (c_defaultFetchSize c).
Definition SetApplicationName (v : text) (c : Configuration) : Configuration :=
  MkConfig (c_dsn c)
    (c_driver c) (c_database c) (c_hostname c) (c_port c) (c_user c) (c_password c)
    (SetValue v (c_appName c)) (c_loginTimeoutSec c) (c_readPreference c) (c_replicaSet c)
    (c_retryReads c) (c_tls c) (c_tlsAllowInvalidHostnames c) (c_tlsCaFile c) (c_sshEnable c)
    (c_sshUser c) (c_sshHost c) (c_sshPrivateKeyFile c) (c_sshPrivateKeyPassphrase c)
    (c_sshStrictHostKeyChecking c) (c_sshKnownHostsFile c) (c_logLevel c) (c_logPath c) (c_scanMethod c)
    (c_scanLimit c) (c_schemaName c) (c_refreshSchema c) (c_defaultFetchSize c).
Definition SetLoginTimeoutSeconds (v : Z) (c : Configuration) : Configuration :=
  MkConfig (c_dsn c)
    (c_driver c) (c_database c) (c_hostname c) (c_port c) (c_user c) (c_password c) (c_appName c)
    (SetValue v (c_loginTimeoutSec c)) (c_readPreference c) (c_replicaSet c) (c_retryReads c) (c_tls c)
    (c_tlsAllowInvalidHostnames c) (c_tlsCaFile c) (c_sshEnable c) (c_sshUser c) (c_sshHost c)
    (c_sshPrivateKeyFile c) (c_sshPrivateKeyPassphrase c) (c_sshStrictHostKeyChecking c)
    (c_sshKnownHostsFile c) (c_logLevel c) (c_logPath c) (c_scanMethod c) (c_scanLimit c)
    (c_schemaName c) (c_refreshSchema c) (c_defaultFetchSize c).
Definition SetReadPreference (v : RP.ReadPreference) (c : Configuration) : Configuration :=
  MkConfig
    (c_dsn c) (c_driver c) (c_database c) (c_hostname c) (c_port c) (c_user c) (c_password c)
    (c_appName c) (c_loginTimeoutSec c) (SetValue v (c_readPreference c)) (c_replicaSet c)
    (c_retryReads c) (c_tls c) (c_tlsAllowInvalidHostnames c) (c_tlsCaFile c) (c_sshEnable c)
    (c_sshUser c) (c_sshHost c) (c_sshPrivateKeyFile c) (c_sshPrivateKeyPassphrase c)
    (c_sshStrictHostKeyChecking c) (c_sshKnownHostsFile c) (c_logLevel c) (c_logPath c) (c_scanMethod c)
    (c_scanLimit c) (c_schemaName c) (c_refreshSchema c) (c_defaultFetchSize c).
Definition SetReplicaSet (v : text) (c : Configuration) : Configuration :=
  MkConfig (c_dsn c)
    (c_driver c) (c_database c) (c_hostname c) (c_port c) (c_user c) (c_password c) (c_appName c)
    (c_loginTimeoutSec c) (c_readPreference c) (SetValue v (c_replicaSet c)) (c_retryReads c) (c_tls c)
    (c_tlsAllowInvalidHostnames c) (c_tlsCaFile c) (c_sshEnable c) (c_sshUser c) (c_sshHost c)
    (c_sshPrivateKeyFile c) (c_sshPrivateKeyPassphrase c) (c_sshStrictHostKeyChecking c)
    (c_sshKnownHostsFile c) (c_logLevel c) (c_logPath c) (c_scanMethod c) (c_scanLimit c)
    (c_schemaName c) (c_refreshSchema c) (c_defaultFetchSize c).
Definition SetRetryReads (v : bool) (c : Configuration) : Configuration :=
  MkConfig (c_dsn c)
    (c_driver c) (c_database c) (c_hostname c) (c_port c) (c_user c) (c_password c) (c_appName c)
    (c_loginTimeoutSec c) (c_readPreference c) (c_replicaSet c) (SetValue v (c_retryReads c)) (c_tls c)
    (c_tlsAllowInvalidHostnames c) (c_tlsCaFile c) (c_sshEnable c) (c_sshUser c) (c_sshHost c)
    (c_sshPrivateKeyFile c) (c_sshPrivateKeyPassphrase c) (c_sshStrictHostKeyChecking c)
    (c_sshKnownHostsFile c) (c_logLevel c) (c_logPath c) (c_scanMethod c) (c_scanLimit c)
    (c_schemaName c) (c_refreshSchema c) (c_defaultFetchSize c).
Definition SetTls (v : bool) (c : Configuration) : Configuration :=
  MkConfig (c_dsn c) (c_driver c)
    (c_database c) (c_hostname c) (c_port c) (c_user c) (c_password c) (c_appName c)
    (c_loginTimeoutSec c) (c_readPreference c) (c_replicaSet c) (c_retryReads c) (SetValue v (c_tls c))
    (c_tlsAllowInvalidHostnames c) (c_tlsCaFile c) (c_sshEnable c) (c_sshUser c) (c_sshHost c)
    (c_sshPrivateKeyFile c) (c_sshPrivateKeyPassphrase c) (c_sshStrictHostKeyChecking c)
    (c_sshKnownHostsFile c) (c_logLevel c) (c_logPath c) (c_scanMethod c) (c_scanLimit c)
    (c_schemaName c) (c_refreshSchema c) (c_defaultFetchSize c).
Definition SetTlsAllowInvalidHostnames (v : bool) (c : Configuration) : Configuration :=
  MkConfig
    (c_dsn c) (c_driver c) (c_database c) (c_hostname c) (c_port c) (c_user c) (c_password c)
    (c_appName c) (c_loginTimeoutSec c) (c_readPreference c) (c_replicaSet c) (c_retryReads c) (c_tls c)
    (SetValue v (c_tlsAllowInvalidHostnames c)) (c_tlsCaFile c) (c_sshEnable c) (c_sshUser c)
    (c_sshHost c) (c_sshPrivateKeyFile c) (c_sshPrivateKeyPassphrase c) (c_sshStrictHostKeyChecking c)
    (c_sshKnownHostsFile c) (c_logLevel c) (c_logPath c) (c_scanMethod c) (c_scanLimit c)
    (c_schemaName c) (c_refreshSchema c) (c_defaultFetchSize c).
Definition SetTlsCaFile (v : text) (c : Configuration) : Configuration :=
  MkConfig (c_dsn c)
    (c_driver c) (c_database c) (c_hostname c) (c_port c) (c_user c) (c_password c) (c_appName c)
    (c_loginTimeoutSec c) (c_readPreference c) (c_replicaSet c) (c_retryReads c) (c_tls c)
    (c_tlsAllowInvalidHostnames c) (SetValue v (c_tlsCaFile c)) (c_sshEnable c) (c_sshUser c)
    (c_sshHost c) (c_sshPrivateKeyFile c) (c_sshPrivateKeyPassphrase c) (c_sshStrictHostKeyChecking c)
    (c_sshKnownHostsFile c) (c_logLevel c) (c_logPath c) (c_scanMethod c) (c_scanLimit c)
    (c_schemaName c) (c_refreshSchema c) (c_defaultFetchSize c).
Definition SetSshEnable (v : bool) (c : Configuration) : Configuration :=
  MkConfig (c_dsn c)
    (c_driver c) (c_database c) (c_hostname c) (c_port c) (c_user c) (c_password c) (c_appName c)
    (c_loginTimeoutSec c) (c_readPreference c) (c_replicaSet c) (c_retryReads c) (c_tls c)
    (c_tlsAllowInvalidHostnames c) (c_tlsCaFile c) (SetValue v (c_sshEnable c)) (c_sshUser c)
    (c_sshHost c) (c_sshPrivateKeyFile c) (c_sshPrivateKeyPassphrase c) (c_sshStrictHostKeyChecking c)
    (c_sshKnownHostsFile c) (c_logLevel c) (c_logPath c) (c_scanMethod c) (c_scanLimit c)
    (c_schemaName c) (c_refreshSchema c) (c_defaultFetchSize c).
Definition SetSshUser (v : text) (c : Configuration) : Configuration :=
  MkConfig (c_dsn c) (c_driver c)
    (c_database c) (c_hostname c) (c_port c) (c_user c) (c_password c) (c_appName c)
    (c_loginTimeoutSec c) (c_readPreference c) (c_replicaSet c) (c_retryReads c) (c_tls c)
    (c_tlsAllowInvalidHostnames c) (c_tlsCaFile c) (c_sshEnable c) (SetValue v (c_sshUser c))
    (c_sshHost c) (c_sshPrivateKeyFile c) (c_sshPrivateKeyPassphrase c) (c_sshStrictHostKeyChecking c)
    (c_sshKnownHostsFile c) (c_logLevel c) (c_logPath c) (c_scanMethod c) (c_scanLimit c)
    (c_schemaName c) (c_refreshSchema c) (c_defaultFetchSize c).
Definition SetSshHost (v : text) (c : Configuration) : Configuration :=
  MkConfig (c_dsn c) (c_driver c)
    (c_database c) (c_hostname c) (c_port c) (c_user c) (c_password c) (c_appName c)
    (c_loginTimeoutSec c) (c_readPreference c) (c_replicaSet c) (c_retryReads c) (c_tls c)
    (c_tlsAllowInvalidHostnames c) (c_tlsCaFile c) (c_sshEnable c) (c_sshUser c)
    (SetValue v (c_sshHost c)) (c_sshPrivateKeyFile c) (c_sshPrivateKeyPassphrase c)
    (c_sshStrictHostKeyChecking c) (c_sshKnownHostsFile c) (c_logLevel c) (c_logPath c) (c_scanMethod c)
    (c_scanLimit c) (c_schemaName c) (c_refreshSchema c) (c_defaultFetchSize c).
Definition SetSshPrivateKeyFile (v : text) (c : Configuration) : Configuration :=
  MkConfig (c_dsn c)
    (c_driver c) (c_database c) (c_hostname c) (c_port c) (c_user c) (c_password c) (c_appName c)
    (c_loginTimeoutSec c) (c_readPreference c) (c_replicaSet c) (c_retryReads c) (c_tls c)
    (c_tlsAllowInvalidHostnames c) (c_tlsCaFile c) (c_sshEnable c) (c_sshUser c) (c_sshHost c)
    (SetValue v (c_sshPrivateKeyFile c)) (c_sshPrivateKeyPassphrase c) (c_sshStrictHostKeyChecking c)
    (c_sshKnownHostsFile c) (c_logLevel c) (c_logPath c) (c_scanMethod c) (c_scanLimit c)
    (c_schemaName c) (c_refreshSchema c) (c_defaultFetchSize c).
Definition SetSshPrivateKeyPassphrase (v : text) (c : Configuration) : Configuration :=
  MkConfig
    (c_dsn c) (c_driver c) (c_database c) (c_hostname c) (c_port c) (c_user c) (c_password c)
    (c_appName c) (c_loginTimeoutSec c) (c_readPreference c) (c_replicaSet c) (c_retryReads c) (c_tls c)
    (c_tlsAllowInvalidHostnames c) (c_tlsCaFile c) (c_sshEnable c) (c_sshUser c) (c_sshHost c)
    (c_sshPrivateKeyFile c) (SetValue v (c_sshPrivateKeyPassphrase c)) (c_sshStrictHostKeyChecking c)
    (c_sshKnownHostsFile c) (c_logLevel c) (c_logPath c) (c_scanMethod c) (c_scanLimit c)
    (c_schemaName c) (c_refreshSchema c) (c_defaultFetchSize c).
Definition SetSshStrictHostKeyChecking (v : bool) (c : Configuration) : Configuration :=
  MkConfig
    (c_dsn c) (c_driver c) (c_database c) (c_hostname c) (c_port c) (c_user c) (c_password c)
    (c_appName c) (c_loginTimeoutSec c) (c_readPreference c) (c_replicaSet c) (c_retryReads c) (c_tls c)
    (c_tlsAllowInvalidHostnames c) (c_tlsCaFile c) (c_sshEnable c) (c_sshUser c) (c_sshHost c)
    (c_sshPrivateKeyFile c) (c_sshPrivateKeyPassphrase c) (SetValue v (c_sshStrictHostKeyChecking c))
    (c_sshKnownHostsFile c) (c_logLevel c) (c_logPath c) (c_scanMethod c) (c_scanLimit c)
    (c_schemaName c) (c_refreshSchema c) (c_defaultFetchSize c).
Definition SetSshKnownHostsFile (v : text) (c : Configuration) : Configuration :=
  MkConfig (c_dsn c)
    (c_driver c) (c_database c) (c_hostname c) (c_port c) (c_user c) (c_password c) (c_appName c)
    (c_loginTimeoutSec c) (c_readPreference c) (c_replicaSet c) (c_retryReads c) (c_tls c)
    (c_tlsAllowInvalidHostnames c) (c_tlsCaFile c) (c_sshEnable c) (c_sshUser c) (c_sshHost c)
    (c_sshPrivateKeyFile c) (c_sshPrivateKeyPassphrase c) (c_sshStrictHostKeyChecking c)
    (SetValue v (c_sshKnownHostsFile c)) (c_logLevel c) (c_logPath c) (c_scanMethod c) (c_scanLimit c)
    (c_schemaName c) (c_refreshSchema c) (c_defaultFetchSize c).
Definition SetLogLevelValue (v : LL.LogLevel) (c : Configuration) : Configuration :=
  MkConfig (c_dsn c)
    (c_driver c) (c_database c) (c_hostname c) (c_port c) (c_user c) (c_password c) (c_appName c)
    (c_loginTimeoutSec c) (c_readPreference c) (c_replicaSet c) (c_retryReads c) (c_tls c)
    (c_tlsAllowInvalidHostnames c) (c_tlsCaFile c) (c_sshEnable c) (c_sshUser c) (c_sshHost c)
    (c_sshPrivateKeyFile c) (c_sshPrivateKeyPassphrase c) (c_sshStrictHostKeyChecking c)
    (c_sshKnownHostsFile c) (SetValue v (c_logLevel c)) (c_logPath c) (c_scanMethod c) (c_scanLimit c)
    (c_schemaName c) (c_refreshSchema c) (c_defaultFetchSize c).
Definition SetLogPathValue (v : text) (c : Configuration) : Configuration :=
  MkConfig (c_dsn c)
    (c_driver c) (c_database c) (c_hostname c) (c_port c) (c_user c) (c_password c) (c_appName c)
    (c_loginTimeoutSec c) (c_readPreference c) (c_replicaSet c) (c_retryReads c) (c_tls c)
    (c_tlsAllowInvalidHostnames c) (c_tlsCaFile c) (c_sshEnable c) (c_sshUser c) (c_sshHost c)
    (c_sshPrivateKeyFile c) (c_sshPrivateKeyPassphrase c) (c_sshStrictHostKeyChecking c)
    (c_sshKnownHostsFile c) (c_logLevel c) (SetValue v (c_logPath c)) (c_scanMethod c) (c_scanLimit c)
    (c_schemaName c) (c_refreshSchema c) (c_defaultFetchSize c).
Definition SetScanMethod (v : SM.ScanMethod) (c : Configuration) : Configuration :=
  MkConfig (c_dsn c)
    (c_driver c) (c_database c) (c_hostname c) (c_port c) (c_user c) (c_password c) (c_appName c)
    (c_loginTimeoutSec c) (c_readPreference c) (c_replicaSet c) (c_retryReads c) (c_tls c)
    (c_tlsAllowInvalidHostnames c) (c_tlsCaFile c) (c_sshEnable c) (c_sshUser c) (c_sshHost c)
    (c_sshPrivateKeyFile c) (c_sshPrivateKeyPassphrase c) (c_sshStrictHostKeyChecking c)
    (c_sshKnownHostsFile c) (c_logLevel c) (c_logPath c) (SetValue v (c_scanMethod c)) (c_scanLimit c)
    (c_schemaName c) (c_refreshSchema c) (c_defaultFetchSize c).
Definition SetScanLimit (v : Z) (c : Configuration) : Configuration :=
  MkConfig (c_dsn c) (c_driver c)
    (c_database c) (c_hostname c) (c_port c) (c_user c) (c_password c) (c_appName c)
    (c_loginTimeoutSec c) (c_readPreference c) (c_replicaSet c) (c_retryReads c) (c_tls c)
    (c_tlsAllowInvalidHostnames c) (c_tlsCaFile c) (c_sshEnable c) (c_sshUser c) (c_sshHost c)
    (c_sshPrivateKeyFile c) (c_sshPrivateKeyPassphrase c) (c_sshStrictHostKeyChecking c)
    (c_sshKnownHostsFile c) (c_logLevel c) (c_logPath c) (c_scanMethod c) (SetValue v (c_scanLimit c))
    (c_schemaName c) (c_refreshSchema c) (c_defaultFetchSize c).
Definition SetSchemaName (v : text) (c : Configuration) : Configuration :=
  MkConfig (c_dsn c)
    (c_driver c) (c_database c) (c_hostname c) (c_port c) (c_user c) (c_password c) (c_appName c)
    (c_loginTimeoutSec c) (c_readPreference c) (c_replicaSet c) (c_retryReads c) (c_tls c)
    (c_tlsAllowInvalidHostnames c) (c_tlsCaFile c) (c_sshEnable c) (c_sshUser c) (c_sshHost c)
    (c_sshPrivateKeyFile c) (c_sshPrivateKeyPassphrase c) (c_sshStrictHostKeyChecking c)
    (c_sshKnownHostsFile c) (c_logLevel c) (c_logPath c) (c_scanMethod c) (c_scanLimit c)
    (SetValue v (c_schemaName c)) (c_refreshSchema c) (c_defaultFetchSize c).
Definition SetRefreshSchema (v : bool) (c : Configuration) : Configuration :=
  MkConfig (c_dsn c)
    (c_driver c) (c_database c) (c_hostname c) (c_port c) (c_user c) (c_password c) (c_appName c)
    (c_loginTimeoutSec c) (c_readPreference c) (c_replicaSet c) (c_retryReads c) (c_tls c)
    (c_tlsAllowInvalidHostnames c) (c_tlsCaFile c) (c_sshEnable c) (c_sshUser c) (c_sshHost c)
    (c_sshPrivateKeyFile c) (c_sshPrivateKeyPassphrase c) (c_sshStrictHostKeyChecking c)
    (c_sshKnownHostsFile c) (c_logLevel c) (c_logPath c) (c_scanMethod c) (c_scanLimit c)
    (c_schemaName c) (SetValue v (c_refreshSchema c)) (c_defaultFetchSize c).
Definition SetDefaultFetchSize (v : Z) (c : Configuration) : Configuration :=
  MkConfig (c_dsn c)
    (c_driver c) (c_database c) (c_hostname c) (c_port c) (c_user c) (c_password c) (c_appName c)
    (c_loginTimeoutSec c) (c_readPreference c) (c_replicaSet c) (c_retryReads c) (c_tls c)
    (c_tlsAllowInvalidHostnames c) (c_tlsCaFile c) (c_sshEnable c) (c_sshUser c) (c_sshHost c)
    (c_sshPrivateKeyFile c) (c_sshPrivateKeyPassphrase c) (c_sshStrictHostKeyChecking c)
    (c_sshKnownHostsFile c) (c_logLevel c) (c_logPath c) (c_scanMethod c) (c_scanLimit c)
    (c_schemaName c) (c_refreshSchema c) (SetValue v (c_defaultFetchSize c)).

(** [Logger::SetLogPath], as far as it sets the path. *)
Definition logger_SetLogPath (path : text) (l : Logger) : Logger :=
  if bool_decide (lg_path l = path) then l
  else if negb (IsValidDirectory path) then l
  else MkLogger (lg_level l) path.

Definition logger_SetLogLevel (level : LL.LogLevel) (l : Logger) : Logger := MkLogger level (lg_path l).

Definition SetLogLevel (level : LL.LogLevel) (cl : Configuration * Logger) : Configuration * Logger :=
  if negb (bool_decide (level = LL.UNKNOWN))
  then (SetLogLevelValue level cl.1, logger_SetLogLevel level cl.2) else cl.

Definition SetLogPath (path : text) (cl : Configuration * Logger) : Configuration * Logger :=
  if IsValidDirectory path then (SetLogPathValue path cl.1, logger_SetLogPath path cl.2) else cl.

(** [GetDsn(dflt)]. *)
Definition GetDsn (dflt : text) (c : Configuration) : text :=
  if negb (sv_set (c_dsn c)) then dflt else sv_val (c_dsn c).

(** * Maps of arguments *)

(** [std::map<std::string, std::string>]: sorted by key. *)
Definition ArgumentMap : Type := list (text * text).

Fixpoint text_lt (a b : text) : bool :=
  match a, b with
  | [], [] => false
  | [], _ :: _ => true
  | _ :: _, [] => false
  | x :: s, y :: t => (x <? y) || (x =? y) && text_lt s t
  end.

(** [map[key] = value]. *)
Fixpoint map_set (k v : text) (m : ArgumentMap) : ArgumentMap :=
  match m with
  | [] => [(k, v)]
  | (k', v') :: t =>
      if text_lt k k' then (k, v) :: m
      else if text_lt k' k then (k', v') :: map_set k v t
      else (k, v) :: t
  end.

Definition AddToMap {T} (key : text) (print : T -> text) (value : SettableValue T) (m : ArgumentMap) : ArgumentMap :=
  if sv_set value then map_set key (print (sv_val value)) m else m.

Definition ToMap (c : Configuration) : ArgumentMap :=
  let m := [] in
  let m := AddToMap (key_text K_dsn) show_text (c_dsn c) m in
  let m := AddToMap (key_text K_driver) show_text (c_driver c) m in
  let m := AddToMap (key_text K_database) show_text (c_database c) m in
  let m := AddToMap (key_text K_hostname) show_text (c_hostname c) m in
  let m := AddToMap (key_text K_port) show_int (c_port c) m in
  let m := AddToMap (key_text K_user) show_text (c_user c) m in
  let m := AddToMap (key_text K_password) show_text (c_password c) m in
  let m := AddToMap (key_text K_appName) show_text (c_appName c) m in
  let m := AddToMap (key_text K_loginTimeoutSec) show_int (c_loginTimeoutSec c) m in
  let m := AddToMap (key_text K_readPreference) RP.ToString (c_readPreference c) m in
  let m := AddToMap (key_text K_replicaSet) show_text (c_replicaSet c) m in
  let m := AddToMap (key_text K_retryReads) show_bool (c_retryReads c) m in
  let m := AddToMap (key_text K_tls) show_bool (c_tls c) m in
  let m := AddToMap (key_text K_tlsAllowInvalidHostnames) show_bool (c_tlsAllowInvalidHostnames c) m in
  let m := AddToMap (key_text K_tlsCaFile) show_text (c_tlsCaFile c) m in
  let m := AddToMap (key_text K_sshEnable) show_bool (c_sshEnable c) m in
  let m := AddToMap (key_text K_sshUser) show_text (c_sshUser c) m in
  let m := AddToMap (key_text K_sshHost) show_text (c_sshHost c) m in
  let m := AddToMap (key_text K_sshPrivateKeyFile) show_text (c_sshPrivateKeyFile c) m in
  let m := AddToMap (key_text K_sshPrivateKeyPassphrase) show_text (c_sshPrivateKeyPassphrase c) m in
  let m := AddToMap (key_text K_sshStrictHostKeyChecking) show_bool (c_sshStrictHostKeyChecking c) m in
  let m := AddToMap (key_text K_sshKnownHostsFile) show_text (c_sshKnownHostsFile c) m in
  let m := AddToMap (key_text K_logLevel) LL.ToString (c_logLevel c) m in
  let m := AddToMap (key_text K_logPath) show_text (c_logPath c) m in
  let m := AddToMap (key_text K_scanMethod) SM.ToString (c_scanMethod c) m in
  let m := AddToMap (key_text K_scanLimit) show_int (c_scanLimit c) m in
  let m := AddToMap (key_text K_schemaName) show_text (c_schemaName c) m in
  let m := AddToMap (key_text K_refreshSchema) show_bool (c_refreshSchema c) m in
  let m := AddToMap (key_text K_defaultFetchSize) show_int (c_defaultFetchSize c) m in
  m.

(** [ToConnectString]: values with a space are put in braces, empty ones left out. *)
Definition connect_pair (kv : text * text) : text :=
  match kv.2 with
  | [] => []
  | _ => if bool_decide (32 ∈ kv.2) then kv.1 ++ str "={" ++ kv.2 ++ str "};"
         else kv.1 ++ str "=" ++ kv.2 ++ str ";"
  end.

Definition ToConnectString (c : Configuration) : text := flat_map connect_pair (ToMap c).

(** * Connection strings of the JDBC and MongoDB drivers *)

Definition ToMongoCommonOptionsMap (c : Configuration) (m : ArgumentMap) : ArgumentMap :=
  let m := AddToMap (str "readPreference") RP.ToJdbcString (c_readPreference c) m in
  let m := AddToMap (str "replicaSet") show_text (c_replicaSet c) m in
  let m := AddToMap (str "retryReads") show_bool (c_retryReads c) m in
  let m := AddToMap (str "tls") show_bool (c_tls c) m in
  let m := AddToMap (str "tlsAllowInvalidHostnames") show_bool (c_tlsAllowInvalidHostnames c) m in
  AddToMap (str "tlsCAFile") show_text (c_tlsCaFile c) m.

Definition ToJdbcOptionsMap (c : Configuration) (m : ArgumentMap) : ArgumentMap :=
  let m := ToMongoCommonOptionsMap c m in
  let m := AddToMap (str "loginTimeoutSec") show_int (c_loginTimeoutSec c) m in
  let m := AddToMap (str "sshUser") show_text (c_sshUser c) m in
  let m := AddToMap (str "sshHost") show_text (c_sshHost c) m in
  let m := AddToMap (str "sshPrivateKeyFile") show_text (c_sshPrivateKeyFile c) m in
  let m := AddToMap (str "sshPrivateKeyPassphrase") show_text (c_sshPrivateKeyPassphrase c) m in
  let m := AddToMap (str "sshStrictHostKeyChecking") show_bool (c_sshStrictHostKeyChecking c) m in
  let m := AddToMap (str "sshKnownHostsFile") show_text (c_sshKnownHostsFile c) m in
  let m := AddToMap (str "logLevel") LL.ToString (c_logLevel c) m in
  let m := AddToMap (str "logPath") show_text (c_logPath c) m in
  let m := AddToMap (str "scanMethod") SM.ToJdbcString (c_scanMethod c) m in
  let m := AddToMap (str "scanLimit") show_int (c_scanLimit c) m in
  let m := AddToMap (str "schemaName") show_text (c_schemaName c) m in
  let m := AddToMap (str "refreshSchema") show_bool (c_refreshSchema c) m in
  AddToMap (str "defaultFetchSize") show_int (c_defaultFetchSize c) m.

(** ["&key=value"], the value encoded. *)
Definition uri_option (kv : text * text) : text :=
  match kv.2 with
  | [] => []
  | _ => str "&" ++ kv.1 ++ str "=" ++ EncodeURIComponent kv.2
  end.

Definition ToJdbcConnectionString (c : Configuration) : text :=
  str "jdbc:documentdb:" ++ str "//" ++ EncodeURIComponent (sv_val (c_user c))
  ++ str ":" ++ EncodeURIComponent (sv_val (c_password c))
  ++ str "@" ++ sv_val (c_hostname c)
  ++ str ":" ++ show_int (sv_val (c_port c))
  ++ str "/" ++ EncodeURIComponent (sv_val (c_database c))
  ++ str "?appName=" ++ EncodeURIComponent (sv_val (c_appName c))
  ++ flat_map (fun kv => if bool_decide (kv.1 = str "logLevel") || bool_decide (kv.1 = str "logPath")
                         then [] else uri_option kv) (ToJdbcOptionsMap c []).

Definition ToMongoDbConnectionString (localSSHTunnelPort : Z) (c : Configuration) : text :=
  let direct := localSSHTunnelPort =? 0 in
  let host := if direct then sv_val (c_hostname c) else str "localhost" in
  let port := if direct then show_int (sv_val (c_port c)) else show_int localSSHTunnelPort in
  let timeout := sv_val (c_loginTimeoutSec c) in
  str "mongodb:" ++ str "//" ++ EncodeURIComponent (sv_val (c_user c))
  ++ str ":" ++ EncodeURIComponent (sv_val (c_password c))
  ++ str "@" ++ host ++ str ":" ++ port ++ str "/admin"
  ++ str "?" ++ str "appName" ++ str "=" ++ EncodeURIComponent (sv_val (c_appName c))
  ++ str "&" ++ str "authMechanism" ++ str "=SCRAM-SHA-1"
  ++ (if timeout =? 0 then []
      else str "&" ++ str "connectTimeoutMS" ++ str "=" ++ EncodeURIComponent (show_int (1000 * timeout)))
  ++ flat_map uri_option (ToMongoCommonOptionsMap c []).

(** * Validation *)

Definition Validate (c : Configuration) : outcome OdbcError unit :=
  if negb (sv_set (c_hostname c)) || negb (sv_set (c_user c)) || negb (sv_set (c_password c))
     || negb (sv_set (c_database c))
  then Throw (SS.S01S00_INVALID_CONNECTION_STRING_ATTRIBUTE,
              str "Hostname, username, password, and database are required to connect.")
  else
    let sshTunnel := sv_val (c_sshEnable c) || sv_set (c_sshHost c) || sv_set (c_sshUser c)
                     || sv_set (c_sshPrivateKeyFile c) in
    if sshTunnel && (negb (sv_set (c_sshHost c)) || negb (sv_set (c_sshUser c))
                     || negb (sv_set (c_sshPrivateKeyFile c)))
    then Throw (SS.S01S00_INVALID_CONNECTION_STRING_ATTRIBUTE,
                str "If using an internal SSH tunnel, all of ssh_host, ssh_user, ssh_private_key_file are required to connect.")
    else Ok tt.

End configuration.
