(* ===== verification/ConfigParse.v ===== *)
(** Reading configurations: [src/src/odbc/src/config/config_tools.cpp],
    [connection_string_parser.cpp] and the reading half of [dsn_config.cpp].

    Diagnostics are optional: the sources take a pointer that may be null. *)
From S2P Require Import Prelude BigText AppBuffer Diag SqlLex Config.

Abbreviation diag_ptr := (option DiagnosticRecordStorage).

(** [if (diag) diag->AddStatusRecord(S01S02_OPTION_VALUE_CHANGED, msg)]. *)
Definition warn (msg : text) (d : diag_ptr) : diag_ptr :=
  AddRecord (new_record SS.S01S02_OPTION_VALUE_CHANGED msg [] [] 0 0) <$> d.

(** * Searching texts *)

Fixpoint find_char (c : Z) (s : text) : option nat :=
  match s with
  | [] => None
  | x :: t => if x =? c then Some O else S <$> find_char c t
  end.

Fixpoint rfind (c : Z) (s : text) : option nat :=
  match s with
  | [] => None
  | x :: t => match rfind c t with
              | Some i => Some (S i)
              | None => if x =? c then Some O else None
              end
  end.

Definition count_char (c : Z) (s : text) : nat := length (List.filter (Z.eqb c) s).

(** [stream >> num] on a text of digits, [num] being zero before: a number that is
    too large becomes the largest one. *)
Definition digits_value (s : text) : Z := foldl (fun a c => a * 10 + (c - 48)) 0 s.
Definition stream_digits (max : Z) (s : text) : Z := Z.min max (digits_value s).

(** * Addresses *)

Record EndPoint : Type := MkEndPoint { ep_host : text; ep_port : Z; ep_range : Z }.

Definition new_end_point : EndPoint := MkEndPoint [] 0 0.

Definition ParsePort (value : text) (d : diag_ptr) : Z * diag_ptr :=
  let port := StripSurroundingWhitespaces value in
  if negb (AllDigits port) then
    (0, warn (str "Unexpected port characters: '" ++ port ++ str "'. Ignoring address.") d)
  else if 6 <=? Z.of_nat (length port) then
    (0, warn (str "Port value is too large: '" ++ port ++ str "'. Ignoring address.") d)
  else
    let intPort := stream_digits (2 ^ 31 - 1) port in
    if (intPort <=? 0) || (65535 <? intPort) then
      (0, warn (str "Port value is out of range: '" ++ port ++ str "'. Ignoring address.") d)
    else (u16 intPort, d).

(** Success, with the port and the range as they are then. *)
Definition ParsePortRange (value : text) (port range : Z) (d : diag_ptr) : bool * Z * Z * diag_ptr :=
  match find_char 46 value with
  | None =>
      let '(port, d) := ParsePort value d in
      (negb (port =? 0), port, 0, d)
  | Some sepPos =>
      if (length value <? sepPos + 2)%nat || negb (bool_decide (value !! S sepPos = Some 46)) then
        (false, port, range,
         warn (str "Unexpected number of '.' characters in the following address: '" ++ value
               ++ str "'. Ignoring address.") d)
      else
        let '(rangeBegin, d) := ParsePort (take sepPos value) d in
        if rangeBegin =? 0 then (false, port, range, d) else
        let '(rangeEnd, d) := ParsePort (drop (sepPos + 2) value) d in
        if rangeEnd =? 0 then (false, port, range, d) else
        if rangeEnd <? rangeBegin then
          (false, port, range,
           warn (str "Port range end is less than port range begin in the following address: '" ++ value
                 ++ str "'. Ignoring address.") d)
        else (true, rangeBegin, u16 (rangeEnd - rangeBegin), d)
  end.

Definition ParseSingleAddress (value : text) (endPoint : EndPoint) (d : diag_ptr) : bool * EndPoint * diag_ptr :=
  let colonNum := count_char 58 value in
  if (colonNum =? 0)%nat then (true, MkEndPoint value 27017 (ep_range endPoint), d)
  else if negb (colonNum =? 1)%nat then
    (false, endPoint,
     warn (str "Unexpected number of ':' characters in the following address: '" ++ value
           ++ str "'. Ignoring address.") d)
  else
    let colonPos := default O (find_char 58 value) in
    let endPoint := MkEndPoint (take colonPos value) (ep_port endPoint) (ep_range endPoint) in
    if (S colonPos =? length value)%nat then
      (false, endPoint,
       warn (str "Port is missing in the following address: '" ++ value ++ str "'. Ignoring address.") d)
    else
      let '(ok, port, range, d) := ParsePortRange (drop (S colonPos) value) (ep_port endPoint) (ep_range endPoint) d in
      (ok, MkEndPoint (ep_host endPoint) port range, d).

(** The last item of a list of addresses, then the rest. *)
Definition address_pass (st : text * list EndPoint * diag_ptr)
    : pass (text * list EndPoint * diag_ptr) (list EndPoint * diag_ptr) :=
  let '(parsedAddr, endPoints, d) := st in
  match parsedAddr with
  | [] => Break (endPoints, d)
  | _ =>
      let addrBeginPos := match rfind 44 parsedAddr with Some p => S p | None => O end in
      let addr := StripSurroundingWhitespaces (drop addrBeginPos parsedAddr) in
      let '(endPoints, d) :=
        match addr with
        | [] => (endPoints, d)
        | _ => let '(success, endPoint, d) := ParseSingleAddress addr new_end_point d in
               (if success then endPoints ++ [endPoint] else endPoints, d)
        end in
      match addrBeginPos with
      | O => Break (endPoints, d)
      | S p => Continue (take p parsedAddr, endPoints, d)
      end
  end.

Definition ParseAddress (value : text) (endPoints : list EndPoint) (d : diag_ptr)
    : option (list EndPoint * diag_ptr) :=
  while (S (length value)) address_pass (value, endPoints, d).

Definition show_address (e : EndPoint) : text := ep_host e ++ str ":" ++ show_int (ep_port e).

Definition AddressesToString (addresses : list EndPoint) : text :=
  match addresses with
  | [] => []
  | e :: t => show_address e ++ flat_map (fun e => str "," ++ show_address e) t
  end.

(** * Attributes *)

Inductive BoolParseResult : Type := AI_FALSE | AI_TRUE | AI_UNRECOGNIZED.

Definition StringToBool (value : text) : BoolParseResult :=
  let lower := ToLower value in
  if bool_decide (lower = str "true") then AI_TRUE
  else if bool_decide (lower = str "false") then AI_FALSE
  else AI_UNRECOGNIZED.

Definition MakeErrorMessage (msg key value : text) : text :=
  msg ++ str " [key='" ++ key ++ str "', value='" ++ value ++ str "']".

(** The attribute a lower-case name stands for: [uid] and [pwd] are synonyms. *)
Definition attribute_of (lKey : text) : option Key :=
  if bool_decide (lKey = str "uid") then Some K_user
  else if bool_decide (lKey = str "pwd") then Some K_password
  else find (fun k => bool_decide (lKey = key_text k)) all_keys.

(** The parser writes to a configuration, the logger and the diagnostics. *)
Record ParseState : Type := MkParse { pr_cfg : Configuration; pr_log : Logger; pr_diag : diag_ptr }.

Definition on_cfg (f : Configuration -> Configuration) (s : ParseState) : ParseState :=
  MkParse (f (pr_cfg s)) (pr_log s) (pr_diag s).
Definition on_diag (f : diag_ptr -> diag_ptr) (s : ParseState) : ParseState :=
  MkParse (pr_cfg s) (pr_log s) (f (pr_diag s)).
Definition on_cfg_log (f : Configuration * Logger -> Configuration * Logger) (s : ParseState) : ParseState :=
  let '(c, l) := f (pr_cfg s, pr_log s) in MkParse c l (pr_diag s).

Definition complain (msg key value : text) : ParseState -> ParseState :=
  on_diag (warn (MakeErrorMessage msg key value)).

Definition set_bool (set : bool -> Configuration -> Configuration) (key value : text) : ParseState -> ParseState :=
  match StringToBool value with
  | AI_UNRECOGNIZED => complain (str "Unrecognized bool value. Using default value.") key value
  | res => on_cfg (set (match res with AI_TRUE => true | _ => false end))
  end.

Section parser.
Context `{Host}.

(** The numeric attributes of 32 bits: the three messages, and the least value. *)
Definition set_number (set : Z -> Configuration -> Configuration) (unexpected large range : text) (least : Z)
    (key value : text) : ParseState -> ParseState :=
  if negb (AllDigits value) then complain unexpected key value
  else if sizeof_string <=? Z.of_nat (length value) then complain large key value
  else
    let numValue := stream_digits (2 ^ 63 - 1) value in
    if (numValue <? least) || (2 ^ 32 - 1 <? numValue) then complain range key value
    else on_cfg (set (i32 numValue)).

Definition set_port (key value : text) : ParseState -> ParseState :=
  match value with
  | [] => complain (str "Port attribute value is empty. Using default value.") key value
  | _ =>
      if negb (AllDigits value) then
        complain (str "Port attribute value contains unexpected characters. Using default value.") key value
      else if sizeof_string <=? Z.of_nat (length value) then
        complain (str "Port attribute value is too large. Using default value.") key value
      else
        let numValue := stream_digits (2 ^ 31 - 1) value in
        if (numValue <=? 0) || (65535 <? numValue) then
          complain (str "Port attribute value is out of range. Using default value.") key value
        else on_cfg (SetPort (u16 numValue))
  end.

(** The result of parsing the address is not looked at. *)
Definition set_hostname (value : text) (s : ParseState) : ParseState :=
  let '(_, endpoint, d) := ParseSingleAddress value new_end_point (pr_diag s) in
  let cfg := SetHostname (ep_host endpoint) (pr_cfg s) in
  let cfg := if negb (sv_set (c_port cfg)) then SetPort (ep_port endpoint) cfg else cfg in
  MkParse cfg (pr_log s) d.

Definition set_credential (old : SettableValue text) (set : text -> Configuration -> Configuration)
    (msg value : text) (s : ParseState) : ParseState :=
  let s := match sv_val old with [] => s | _ => on_diag (warn msg) s end in
  on_cfg (set value) s.

Definition handle (k : Key) (key value : text) (s : ParseState) : ParseState :=
  match k with
  | K_dsn => on_cfg (SetDsn value) s
  | K_database => on_cfg (SetDatabase value) s
  | K_hostname => set_hostname value s
  | K_port => set_port key value s
  | K_appName => on_cfg (SetApplicationName value) s
  | K_loginTimeoutSec =>
      set_number SetLoginTimeoutSeconds
        (str "Login timeout seconds attribute value contains unexpected characters. Using default value.")
        (str "Login timeout seconds attribute value is too large. Using default value.")
        (str "Login timeout seconds attribute value is out of range. Using default value.") 0 key value s
  | K_readPreference =>
      match RP.FromString value RP.UNKNOWN with
      | RP.UNKNOWN => on_diag (warn (str "Specified read preference is not supported. Default value used ('primary').")) s
      | preference => on_cfg (SetReadPreference preference) s
      end
  | K_replicaSet => on_cfg (SetReplicaSet value) s
  | K_retryReads => set_bool SetRetryReads key value s
  | K_tls => set_bool SetTls key value s
  | K_tlsAllowInvalidHostnames => set_bool SetTlsAllowInvalidHostnames key value s
  | K_tlsCaFile => on_cfg (SetTlsCaFile value) s
  | K_sshEnable => set_bool SetSshEnable key value s
  | K_sshUser => on_cfg (SetSshUser value) s
  | K_sshHost => on_cfg (SetSshHost value) s
  | K_sshPrivateKeyFile => on_cfg (SetSshPrivateKeyFile value) s
  | K_sshPrivateKeyPassphrase => on_cfg (SetSshPrivateKeyPassphrase value) s
  | K_sshStrictHostKeyChecking => set_bool SetSshStrictHostKeyChecking key value s
  | K_sshKnownHostsFile => on_cfg (SetSshKnownHostsFile value) s
  | K_logLevel =>
      match LL.FromString value LL.UNKNOWN with
      | LL.UNKNOWN => on_diag (warn (str "Specified log level is not supported. Default value used ('error').")) s
      | level => on_cfg_log (SetLogLevel level) s
      end
  | K_logPath => on_cfg_log (SetLogPath value) s
  | K_scanMethod =>
      match SM.FromString value SM.UNKNOWN with
      | SM.UNKNOWN => on_diag (warn (str "Specified scan method is not supported. Default value used ('random').")) s
      | method => on_cfg (SetScanMethod method) s
      end
  | K_scanLimit =>
      set_number SetScanLimit (str "Scan limit attribute value contains unexpected characters. Using default value.")
        (str "Scan limit size attribute value is too large. Using default value.")
        (str "Scan limit attribute value is out of range. Using default value.") 1 key value s
  | K_schemaName => on_cfg (SetSchemaName value) s
  | K_refreshSchema => set_bool SetRefreshSchema key value s
  | K_defaultFetchSize =>
      set_number SetDefaultFetchSize
        (str "Default fetch size attribute value contains unexpected characters. Using default value.")
        (str "Default fetch size attribute value is too large. Using default value.")
        (str "Default fetch size attribute value is out of range. Using default value.") 1 key value s
  | K_driver => on_cfg (SetDriver value) s
  | K_user =>
      set_credential (c_user (pr_cfg s)) SetUser
        (str "Re-writing USER (have you specified it several times?") value s
  | K_password =>
      set_credential (c_password (pr_cfg s)) SetPassword
        (str "Re-writing PASSWORD (have you specified it several times?") value s
  end.

Definition HandleAttributePair (key value : text) (s : ParseState) : ParseState :=
  match attribute_of (ToLower key) with
  | Some k => handle k key value s
  | None => on_diag (warn (str "Unknown attribute: '" ++ key ++ str "'. Ignoring.")) s
  end.

(** * Connection strings *)

Definition unbrace (value : text) : text :=
  match value with
  | 123 :: t => match rev t with
                | 125 :: r => rev r
                | _ => value
                end
  | _ => value
  end.

(** The last attribute of the text is taken, then the rest. *)
Definition connect_pass (delimiter : Z) (st : text * ParseState) : pass (text * ParseState) ParseState :=
  let '(connect_str, s) := st in
  match connect_str with
  | [] => Break s
  | _ =>
      let attr_begin := match rfind delimiter connect_str with Some p => S p | None => O end in
      let attr_eq_pos := default O (rfind 61 connect_str) in
      let s :=
        if (attr_begin <? attr_eq_pos)%nat then
          let key := StripSurroundingWhitespaces (drop attr_begin (take attr_eq_pos connect_str)) in
          let value := StripSurroundingWhitespaces (drop (S attr_eq_pos) connect_str) in
          HandleAttributePair key (unbrace value) s
        else s in
      match attr_begin with
      | O => Break s
      | S p => Continue (take p connect_str, s)
      end
  end.

(** The zeros at the end are dropped. *)
Fixpoint drop_zeros (s : text) : text :=
  match s with
  | 0 :: t => drop_zeros t
  | _ => s
  end.

Definition ParseDelimited (s : text) (delimiter : Z) (st : ParseState) : option ParseState :=
  let connect_str := rev (drop_zeros (rev s)) in
  while (S (length connect_str)) (connect_pass delimiter) (connect_str, st).

Definition ParseConnectionString (s : text) (st : ParseState) : option ParseState := ParseDelimited s 59 st.

(** The attributes up to two zeros in a row; reading beyond the text is undefined. *)
Fixpoint attributes_length (s : text) : outcome Z nat :=
  match s with
  | a :: t =>
      match t with
      | b :: _ => if (a =? 0) && (b =? 0) then Ok O else let* n := attributes_length t in Ok (S n)
      | [] => UB
      end
  | [] => UB
  end.

Definition ParseConfigAttributes (s : text) (st : ParseState) : outcome Z (option ParseState) :=
  let* len := attributes_length s in
  Ok (ParseDelimited (take (S len) s) 0 st).

(** * Data sources *)

(** What [SQLGetPrivateProfileString] has for the keys of a data source. *)
Definition profile : Type := text -> option text.

(** [LexicalCast<int>]: nothing is stored when there is nothing to read. *)
Definition cast_int (s : text) : outcome Z Z :=
  let* v := read_int64 s in Ok (Z.max (- 2 ^ 31) (Z.min v (2 ^ 31 - 1))).

Definition dsn_text (p : profile) (k : Key) (set : text -> Configuration -> Configuration)
    (old : Configuration -> bool) (c : Configuration) : Configuration :=
  match p (key_text k) with
  | Some v => if negb (old c) then set v c else c
  | None => c
  end.

Definition dsn_bool (p : profile) (k : Key) (set : bool -> Configuration -> Configuration)
    (old : Configuration -> bool) (c : Configuration) : Configuration :=
  dsn_text p k (fun v => set (bool_decide (v = str "true"))) old c.

(** The value is read even when it is not needed; [ok] says whether it is taken. *)
Definition dsn_int (p : profile) (k : Key) (ok : Z -> bool) (set : Z -> Configuration -> Configuration)
    (old : Configuration -> bool) (c : Configuration) : outcome Z Configuration :=
  match p (key_text k) with
  | Some v => let* n := cast_int v in Ok (if negb (old c) && ok n then set n c else c)
  | None => Ok c
  end.

Definition dsn_login (p : profile) (c : Configuration) : Configuration :=
  let c := dsn_text p K_database SetDatabase (fun c => sv_set (c_database c)) c in
  let c := dsn_text p K_user SetUser (fun c => sv_set (c_user c)) c in
  let c := dsn_text p K_password SetPassword (fun c => sv_set (c_password c)) c in
  dsn_text p K_appName SetApplicationName (fun c => sv_set (c_appName c)) c.

Definition dsn_options (p : profile) (c : Configuration) : Configuration :=
  let c := dsn_text p K_readPreference (fun v => SetReadPreference (RP.FromString v RP.PRIMARY))
             (fun c => sv_set (c_readPreference c)) c in
  let c := dsn_text p K_replicaSet SetReplicaSet (fun c => sv_set (c_replicaSet c)) c in
  let c := dsn_bool p K_retryReads SetRetryReads (fun c => sv_set (c_retryReads c)) c in
  let c := dsn_bool p K_tls SetTls (fun c => sv_set (c_tls c)) c in
  let c := dsn_bool p K_tlsAllowInvalidHostnames SetTlsAllowInvalidHostnames
             (fun c => sv_set (c_tlsAllowInvalidHostnames c)) c in
  let c := dsn_text p K_tlsCaFile SetTlsCaFile (fun c => sv_set (c_tlsCaFile c)) c in
  let c := dsn_bool p K_sshEnable SetSshEnable (fun c => sv_set (c_sshEnable c)) c in
  let c := dsn_text p K_sshUser SetSshUser (fun c => sv_set (c_sshUser c)) c in
  let c := dsn_text p K_sshHost SetSshHost (fun c => sv_set (c_sshHost c)) c in
  let c := dsn_text p K_sshPrivateKeyFile SetSshPrivateKeyFile (fun c => sv_set (c_sshPrivateKeyFile c)) c in
  let c := dsn_text p K_sshPrivateKeyPassphrase SetSshPrivateKeyPassphrase
             (fun c => sv_set (c_sshPrivateKeyPassphrase c)) c in
  let c := dsn_bool p K_sshStrictHostKeyChecking SetSshStrictHostKeyChecking
             (fun c => sv_set (c_sshStrictHostKeyChecking c)) c in
  dsn_text p K_sshKnownHostsFile SetSshKnownHostsFile (fun c => sv_set (c_sshKnownHostsFile c)) c.

Definition dsn_log (p : profile) (cl : Configuration * Logger) : Configuration * Logger :=
  let cl :=
    match p (key_text K_logLevel) with
    | Some v => if negb (sv_set (c_logLevel cl.1)) then SetLogLevel (LL.FromString v LL.ERROR_LEVEL) cl else cl
    | None => cl
    end in
  match p (key_text K_logPath) with
  | Some v => if negb (sv_set (c_logPath cl.1)) then SetLogPath v cl else cl
  | None => cl
  end.

Definition dsn_schema (p : profile) (c : Configuration) : Configuration :=
  let c := dsn_text p K_schemaName SetSchemaName (fun c => sv_set (c_schemaName c)) c in
  dsn_bool p K_refreshSchema SetRefreshSchema (fun c => sv_set (c_refreshSchema c)) c.

Definition ReadDsnConfiguration (p : profile) (c : Configuration) (l : Logger) : outcome Z (Configuration * Logger) :=
  let c := dsn_text p K_hostname SetHostname (fun c => sv_set (c_hostname c)) c in
  let* c := dsn_int p K_port (fun _ => true) (fun n => SetPort (u16 n)) (fun c => sv_set (c_port c)) c in
  let* c := dsn_int p K_loginTimeoutSec (fun _ => true) SetLoginTimeoutSeconds
              (fun c => sv_set (c_loginTimeoutSec c)) (dsn_login p c) in
  let '(c, l) := dsn_log p (dsn_options p c, l) in
  let c := dsn_text p K_scanMethod (fun v => SetScanMethod (SM.FromString v SM.RANDOM))
             (fun c => sv_set (c_scanMethod c)) c in
  let* c := dsn_int p K_scanLimit (fun n => 0 <? n) SetScanLimit (fun c => sv_set (c_scanLimit c)) c in
  let* c := dsn_int p K_defaultFetchSize (fun n => 0 <? n) SetDefaultFetchSize
              (fun c => sv_set (c_defaultFetchSize c)) (dsn_schema p c) in
  Ok (c, l).

(** * Writing a data source *)

(** What [RegisterDsn] writes for each key: [None] removes it. *)
Definition dsn_entries (c : Configuration) : list (text * option text) :=
  let kept := List.filter (fun kv => negb (bool_decide (kv.1 = key_text K_dsn))
                                     && negb (bool_decide (kv.1 = key_text K_driver))) (ToMap c) in
  map (fun kv =>
         (kv.1, if bool_decide (kv.1 ∈ [key_text K_password; str "pwd"; key_text K_user; str "uid";
                                        key_text K_sshPrivateKeyPassphrase])
                then None else Some kv.2)) kept.

End parser.
