(* ===== verification/ConfigProps.v ===== *)
(** Properties of configurations: URI encoding, the parser of connection strings, and
    the round trip of a configuration through its connection string. *)
From S2P Require Import Prelude BigText TypeTraits AppBuffer Diag SqlLex Config ConfigParse.

(** * URI encoding *)

(** What the receiving driver does with an encoded text. *)
Definition hex_value (c : Z) : option Z :=
  if (48 <=? c) && (c <=? 57) then Some (c - 48)
  else if (65 <=? c) && (c <=? 70) then Some (c - 55)
  else None.

Fixpoint percent_decode (s : text) : option text :=
  match s with
  | [] => Some []
  | 37 :: a :: b :: t =>
      x ← hex_value a; y ← hex_value b; r ← percent_decode t; Some (16 * x + y :: r)
  | 37 :: _ => None
  | c :: t => r ← percent_decode t; Some (c :: r)
  end.

Lemma hex_value_digit d : 0 <= d < 16 -> hex_value (hex_digit d) = Some d.
Proof.
  intros Hd. unfold hex_value, hex_digit. destruct (Z.ltb_spec d 10).
  - rewrite (proj2 (Z.leb_le 48 (48 + d))), (proj2 (Z.leb_le (48 + d) 57)) by lia. cbn [andb]. f_equal. lia.
  - rewrite (proj2 (Z.leb_gt (55 + d) 57)), andb_false_r by lia.
    rewrite (proj2 (Z.leb_le 65 (55 + d))), (proj2 (Z.leb_le (55 + d) 70)) by lia. cbn [andb]. f_equal. lia.
Qed.

Lemma decode_plain c t : c <> 37 -> percent_decode (c :: t) = r ← percent_decode t; Some (c :: r).
Proof.
  intros Hc. cbn [percent_decode]. destruct c as [|p|p]; try done.
  do 6 (destruct p as [p|p|]; try done).
Qed.

Lemma decode_percent a b t :
  percent_decode (37 :: a :: b :: t)
  = x ← hex_value a; y ← hex_value b; r ← percent_decode t; Some (16 * x + y :: r).
Proof. reflexivity. Qed.

Lemma uri_plain_37 : uri_plain 37 = false.
Proof. reflexivity. Qed.

(** Encoding for URIs.  Everything the encoding puts out is an unreserved
    character or a percent sign, so that no user name, password, database or option
    can break the structure of a connection string; percent decoding gives the text
    back when it has no control character below 16.  Such a character is written with
    a single hexadecimal digit: it runs together with what follows, and different
    texts get the same encoding. *)
Theorem uri_encoding :
  (forall s, Forall (fun c => 0 <= c < 256) s ->
     Forall (fun c => uri_plain c = true \/ c = 37) (EncodeURIComponent s))
  /\ (forall s, Forall (fun c => 16 <= c < 256) s -> percent_decode (EncodeURIComponent s) = Some s)
  /\ EncodeURIComponent [10; 66] = EncodeURIComponent [171].
Proof.
  split; [|split; [|reflexivity]]; intros s Hs; induction Hs as [|c s Hc Hs IH]; try done;
    unfold EncodeURIComponent in *; cbn [flat_map]; destruct (uri_plain c) eqn:E.
  - apply Forall_cons_2; [by left|done].
  - cbn [app]. apply Forall_cons_2; [by right|]. apply Forall_app. split; [|done].
    assert (forall d, 0 <= d < 16 -> uri_plain (hex_digit d) = true) as Hhex.
    { intros d Hd. unfold uri_plain, is_alnum, hex_digit. destruct (Z.ltb_spec d 10).
      - rewrite (proj2 (Z.leb_le 48 (48 + d))), (proj2 (Z.leb_le (48 + d) 57)) by lia. done.
      - rewrite (proj2 (Z.leb_le 65 (55 + d))), (proj2 (Z.leb_le (55 + d) 90)) by lia.
        by rewrite andb_true_l, orb_true_r. }
    unfold hex_byte. destruct (Z.ltb_spec c 16); [apply Forall_singleton; left; apply Hhex; lia|].
    apply Forall_cons_2; [|apply Forall_singleton]; left; apply Hhex.
    + split; [apply Z.div_pos; lia|apply Z.div_lt_upper_bound; lia].
    + apply Z.mod_pos_bound. lia.
  - cbn [app]. rewrite decode_plain; [by rewrite IH|]. intros ->. by rewrite uri_plain_37 in E.
  - unfold hex_byte at 1. rewrite (proj2 (Z.ltb_ge c 16)) by lia. cbn [app].
    rewrite decode_percent, IH, (hex_value_digit (c / 16)), (hex_value_digit (c mod 16)).
    + cbn. by rewrite <- Z.div_mod by lia.
    + apply Z.mod_pos_bound. lia.
    + split; [apply Z.div_pos; lia|apply Z.div_lt_upper_bound; lia].
Qed.

(** * Searching texts *)

Lemma rfind_app c s t :
  rfind c (s ++ t) = match rfind c t with Some i => Some (length s + i)%nat | None => rfind c s end.
Proof.
  induction s as [|x s IH]; cbn [app rfind length]; [by destruct (rfind c t)|]. rewrite IH. by destruct (rfind c t).
Qed.

Lemma rfind_none c s : c ∉ s -> rfind c s = None.
Proof.
  induction s as [|x s IH]; [done|]. intros [Hx Hs]%not_elem_of_cons. cbn [rfind]. rewrite IH by done.
  by rewrite (proj2 (Z.eqb_neq x c)) by done.
Qed.

Lemma rfind_last c s t : c ∉ t -> rfind c (s ++ c :: t) = Some (length s).
Proof.
  intros Ht. rewrite rfind_app. cbn [rfind]. rewrite rfind_none by done. rewrite Z.eqb_refl. f_equal. lia.
Qed.

(** * Connection strings *)

(** Texts without spaces around them. *)
Definition stripped (s : text) : Prop := StripSurroundingWhitespaces s = s.

Definition key_ok (k : text) : Prop := k <> [] /\ (59 ∉ k) /\ (61 ∉ k) /\ stripped k.

(** A value that survives: the parser cannot see a semicolon or an equals sign in it,
    and strips spaces and braces around values that were not put in braces. *)
Definition value_ok (v : text) : Prop :=
  v <> [] /\ (59 ∉ v) /\ (61 ∉ v) /\ (32 ∈ v \/ stripped v /\ unbrace v = v).

(** The value as it is written. *)
Definition written (v : text) : text := if bool_decide (32 ∈ v) then 123 :: v ++ [125] else v.

Lemma connect_pair_written kv : kv.2 <> [] -> connect_pair kv = kv.1 ++ 61 :: written kv.2 ++ [59].
Proof.
  intros Hv. unfold connect_pair, written. destruct kv as [k v]. cbn [fst snd] in *.
  destruct v as [|c v]; [done|]. case_bool_decide; cbn; by rewrite <- ?app_assoc.
Qed.

Lemma drop_spaces_braced v c : is_space c = false -> drop_spaces (c :: v) = c :: v.
Proof. intros Hc. cbn. by rewrite Hc. Qed.

Lemma unbrace_written v : value_ok v -> unbrace (StripSurroundingWhitespaces (written v)) = v.
Proof.
  intros (Hne & _ & _ & Hv). unfold written. case_bool_decide as Hs.
  - unfold StripSurroundingWhitespaces. rewrite drop_spaces_braced by done.
    change (123 :: v ++ [125]) with ((123 :: v) ++ [125]). rewrite rev_app_distr. cbn [rev app].
    rewrite drop_spaces_braced by done. cbn [rev app]. rewrite rev_app_distr, rev_involutive. cbn [rev app unbrace].
    rewrite rev_app_distr. cbn [rev app]. apply rev_involutive.
  - destruct Hv as [Hv|[Hst Hb]]; [done|]. by rewrite Hst.
Qed.

Lemma written_clean v c : value_ok v -> c = 59 \/ c = 61 -> c ∉ written v.
Proof.
  intros (_ & H59 & H61 & _) Hc. unfold written. case_bool_decide.
  - rewrite not_elem_of_cons, not_elem_of_app, list_elem_of_singleton. destruct Hc as [-> | ->]; done.
  - by destruct Hc as [-> | ->].
Qed.

Section parse.
Context `{Host}.

(** One attribute at the end of a text. *)
Lemma connect_pass_last pre k v s :
  key_ok k -> value_ok v -> (pre = [] \/ exists p, pre = p ++ [59]) ->
  connect_pass 59 (pre ++ k ++ 61 :: written v, s)
  = let s := HandleAttributePair k v s in
    match pre with [] => Break s | _ => Continue (take (length pre - 1) pre, s) end.
Proof.
  intros (Hk & Hk59 & Hk61 & Hks) Hv Hpre. unfold connect_pass.
  destruct (pre ++ k ++ 61 :: written v) as [|c t] eqn:E; [by destruct pre, k|]. rewrite <- E. clear c t E.
  assert (rfind 61 (pre ++ k ++ 61 :: written v) = Some (length pre + length k)%nat) as ->.
  { rewrite app_assoc, rfind_last by (apply written_clean; auto). by rewrite length_app. }
  assert (59 ∉ k ++ 61 :: written v) as Hclean.
  { rewrite not_elem_of_app, not_elem_of_cons. split; [done|]. split; [done|]. apply written_clean; auto. }
  assert (match rfind 59 (pre ++ k ++ 61 :: written v) with Some p => S p | None => O end = length pre) as ->.
  { destruct Hpre as [->|[p ->]]; [by cbn [app]; rewrite rfind_none|].
    rewrite <- app_assoc. cbn [app]. rewrite rfind_last by done. rewrite length_app. cbn. lia. }
  cbn [default id]. assert (0 < length k)%nat by (destruct k; [done|cbn; lia]).
  rewrite (proj2 (Nat.ltb_lt _ _)) by lia.
  rewrite app_assoc, take_app_length', drop_app_length' by (rewrite ?length_app; lia).
  replace (S (length pre + length k)) with (length ((pre ++ k) ++ [61])) by (rewrite !length_app; cbn; lia).
  change (61 :: written v) with ([61] ++ written v). rewrite (app_assoc (pre ++ k)), drop_app_length.
  rewrite Hks, unbrace_written by done. destruct pre as [|c pre]; [done|].
  cbn [length]. replace (S (length pre) - 1)%nat with (length pre) by lia. do 2 f_equal.
  rewrite <- !app_assoc. apply take_app_le. cbn. lia.
Qed.

(** The semicolon after the last attribute. *)
Lemma connect_pass_semicolon pre s : connect_pass 59 (pre ++ [59], s) = Continue (pre, s).
Proof.
  unfold connect_pass. destruct (pre ++ [59]) as [|c t] eqn:E; [by destruct pre|]. rewrite <- E. clear c t E.
  rewrite rfind_last by apply not_elem_of_nil.
  rewrite (proj2 (Nat.ltb_ge _ _)); [by rewrite take_app_length|].
  rewrite rfind_app. cbn [rfind]. change (59 =? 61) with false. cbv iota.
  destruct (rfind 61 pre) as [i|] eqn:E; cbn [default id]; [|lia].
  assert (forall x u j, rfind x u = Some j -> (j < length u)%nat) as Hlt.
  { clear. intros x u. induction u as [|y u IH]; intros j; cbn [rfind]; [done|].
    destruct (rfind x u) as [i|]; [intros [= <-]; specialize (IH i eq_refl); cbn; lia|].
    destruct (y =? x); [intros [= <-]; cbn; lia|done]. }
  apply Hlt in E. lia.
Qed.

Definition rendered (l : ArgumentMap) : text := flat_map connect_pair l.

Lemma rendered_end l : Forall (fun kv => value_ok kv.2) l -> rendered l = [] \/ exists p, rendered l = p ++ [59].
Proof.
  destruct l as [|kv l _] using rev_ind; [by left|]. intros [_ Hkv]%Forall_app. rewrite Forall_singleton in Hkv.
  right. unfold rendered. rewrite flat_map_app. cbn [flat_map]. rewrite app_nil_r, connect_pair_written by apply Hkv.
  exists (flat_map connect_pair l ++ kv.1 ++ 61 :: written kv.2). by rewrite <- !app_assoc.
Qed.

Definition handle_all (l : ArgumentMap) (s : ParseState) : ParseState :=
  foldr (fun kv s => HandleAttributePair kv.1 kv.2 s) s l.

(** Taking the attributes off a text, from the last to the first. *)
Lemma connect_loop l : forall s fuel,
  Forall (fun kv => key_ok kv.1 /\ value_ok kv.2) l -> (length (rendered l) < fuel)%nat ->
  while fuel (connect_pass 59) (rendered l, s) = Some (handle_all l s).
Proof.
  induction l as [|[k v] l IH] using rev_ind; intros s fuel Hl Hf.
  { destruct fuel; [cbn in Hf; lia|]. reflexivity. }
  apply Forall_app in Hl as [Hl Hkv]. rewrite Forall_singleton in Hkv. destruct Hkv as [Hk Hv]. cbn [fst snd] in *.
  assert (rendered (l ++ [(k, v)]) = (rendered l ++ k ++ 61 :: written v) ++ [59]) as E.
  { unfold rendered. rewrite flat_map_app. cbn [flat_map]. rewrite app_nil_r, connect_pair_written by apply Hv.
    cbn [fst snd]. by rewrite <- !app_assoc. }
  rewrite E in *. rewrite !length_app in Hf. cbn [length] in Hf. destruct fuel as [|fuel]; [lia|].
  cbn [while]. rewrite connect_pass_semicolon. destruct fuel as [|fuel]; [lia|]. cbn [while].
  pose proof (rendered_end l) as Hend. rewrite connect_pass_last; [|done..|].
  2: { apply Hend. eapply Forall_impl; [exact Hl|]. by intros ? []. }
  unfold handle_all. rewrite foldr_app. cbn [foldr fst snd]. fold (handle_all l (HandleAttributePair k v s)).
  rewrite <- (IH _ (S fuel)) by (done || lia).
  destruct (rendered l) as [|c t] eqn:El; [reflexivity|].
  destruct Hend as [?|[p Hp]]; [eapply Forall_impl; [exact Hl|]; by intros ? []|done|].
  cbn [while]. rewrite Hp, connect_pass_semicolon, length_app. cbn [length].
  replace (length p + 1 - 1)%nat with (length p) by lia. by rewrite take_app_length.
Qed.

Lemma drop_zeros_59 p : rev (drop_zeros (rev (p ++ [59]))) = p ++ [59].
Proof. rewrite rev_app_distr. cbn [rev app drop_zeros]. rewrite <- (rev_involutive (p ++ [59])), rev_app_distr. done. Qed.

Lemma ParseConnectionString_rendered l s :
  Forall (fun kv => key_ok kv.1 /\ value_ok kv.2) l -> ParseConnectionString (rendered l) s = Some (handle_all l s).
Proof.
  intros Hl. unfold ParseConnectionString, ParseDelimited.
  assert (rev (drop_zeros (rev (rendered l))) = rendered l) as ->.
  { destruct (rendered_end l) as [E|[p E]]; [eapply Forall_impl; [exact Hl|]; by intros ? []| |].
    - by rewrite E.
    - by rewrite E, drop_zeros_59. }
  apply connect_loop; [done|lia].
Qed.

End parse.
