(* ===== verification/ConfigRound.v ===== *)
(** The round trip of a configuration through its connection string. *)
From S2P Require Import Prelude BigText TypeTraits AppBuffer Diag SqlLex Config ConfigParse ConfigProps.

(** [decide_now] evaluates a decidable statement. *)
Ltac decide_now := apply (bool_decide_unpack _); vm_compute; exact I.

(** * Maps sorted by text *)

Lemma text_lt_irrefl a : text_lt a a = false.
Proof. induction a as [|x a IH]; [done|]. cbn. rewrite Z.ltb_irrefl, Z.eqb_refl. by rewrite IH. Qed.

Lemma text_lt_trans a b c : text_lt a b = true -> text_lt b c = true -> text_lt a c = true.
Proof.
  revert b c. induction a as [|x a IH]; intros [|y b] [|z c]; cbn; try done.
  rewrite !orb_true_iff, !andb_true_iff, !Z.ltb_lt, !Z.eqb_eq.
  intros [?|[-> Hab]] [?|[-> Hbc]]; [left; lia..|right]. split; [done|]. by eapply IH.
Qed.

Lemma text_lt_total a b : text_lt a b = false -> text_lt b a = false -> a = b.
Proof.
  revert b. induction a as [|x a IH]; intros [|y b]; cbn; try done.
  rewrite !orb_false_iff, !andb_false_iff, !Z.ltb_ge, !Z.eqb_neq. intros [? Ha] [? Hb].
  assert (x = y) as -> by lia. f_equal. apply IH; [destruct Ha|destruct Hb]; done.
Qed.

Lemma text_lt_asym a b : text_lt a b = true -> text_lt b a = false.
Proof.
  intros Hab. destruct (text_lt b a) eqn:Hba; [|done]. pose proof (text_lt_trans a b a Hab Hba) as Haa.
  by rewrite text_lt_irrefl in Haa.
Qed.

(** Inserting different keys in either order. *)
Lemma map_set_comm k1 v1 k2 v2 m :
  k1 <> k2 -> map_set k1 v1 (map_set k2 v2 m) = map_set k2 v2 (map_set k1 v1 m).
Proof.
  intros Hne. assert (text_lt k1 k2 = true \/ text_lt k2 k1 = true) as Hor.
  { destruct (text_lt k1 k2) eqn:E1; [by left|]. destruct (text_lt k2 k1) eqn:E2; [by right|].
    by apply text_lt_total in E1. }
  assert (forall k1 v1 k2 v2, text_lt k1 k2 = true ->
            map_set k1 v1 (map_set k2 v2 m) = map_set k2 v2 (map_set k1 v1 m)) as Hlt.
  { clear. intros k1 v1 k2 v2 H12. pose proof (text_lt_asym _ _ H12) as H21.
    induction m as [|[k v] m IH]; cbn [map_set]; [by rewrite H12, H21|].
    destruct (text_lt k2 k) eqn:E2k.
    - rewrite (text_lt_trans _ _ _ H12 E2k). cbn [map_set]. by rewrite H12, H21, E2k.
    - destruct (text_lt k k2) eqn:Ek2; cbn [map_set].
      + destruct (text_lt k1 k) eqn:E1k; cbn [map_set]; [by rewrite H21, H12, E2k, Ek2|].
        destruct (text_lt k k1) eqn:Ek1; cbn [map_set]; [by rewrite E2k, Ek2, IH|by rewrite H21, H12].
      + pose proof (text_lt_total _ _ E2k Ek2) as <-. rewrite H12. cbn [map_set]. by rewrite H12, H21, E2k. }
  destruct Hor; [by apply Hlt|symmetry; by apply Hlt].
Qed.

(** The optional entries of a map, added one after the other. *)
Definition add_entry (m : ArgumentMap) (e : text * option text) : ArgumentMap :=
  match e.2 with Some v => map_set e.1 v m | None => m end.
Definition build (l : list (text * option text)) : ArgumentMap := foldl add_entry [] l.

Lemma build_perm l l' : Permutation l l' -> NoDup l.*1 -> build l = build l'.
Proof.
  unfold build. intros Hp. generalize (@nil (text * text)) as m.
  induction Hp as [|x l l' Hp IH|x y l|l l' l'' Hp IH Hp' IH']; intros m Hnd; cbn [foldl].
  - done.
  - apply IH. by apply NoDup_cons in Hnd as [_ ?].
  - f_equal. cbn in Hnd. apply NoDup_cons in Hnd as [Hy _]. apply not_elem_of_cons in Hy as [Hne _].
    unfold add_entry. destruct x as [k1 [v1|]], y as [k2 [v2|]]; cbn [fst snd] in *; try done. by apply map_set_comm.
  - rewrite IH by done. apply IH'. by rewrite <- Hp.
Qed.

Definition present (l : list (text * option text)) : ArgumentMap :=
  omap (fun e => v ← e.2; Some (e.1, v)) l.

Fixpoint keys_below (k : text) (l : ArgumentMap) : Prop :=
  match l with [] => True | (k', _) :: t => text_lt k' k = true /\ keys_below k t end.

Lemma map_set_last k v m : keys_below k m -> map_set k v m = m ++ [(k, v)].
Proof.
  induction m as [|[k' v'] m IH]; [done|]. intros [Hk Hm]. cbn [map_set app].
  rewrite (text_lt_asym _ _ Hk), Hk. by rewrite IH.
Qed.

Fixpoint ascending (l : list text) : bool :=
  match l with
  | a :: t => forallb (text_lt a) t && ascending t
  | [] => true
  end.

Lemma keys_below_app k l l' : keys_below k (l ++ l') <-> keys_below k l /\ keys_below k l'.
Proof. induction l as [|[? ?] l IH]; cbn; tauto. Qed.

Lemma build_ascending l : ascending l.*1 = true -> build l = present l.
Proof.
  unfold build. intros Ha.
  assert (forall m, Forall (fun e => keys_below e.1 m) l -> foldl add_entry m l = m ++ present l) as Hgen.
  { induction l as [|[k o] l IH]; intros m Hm; [by rewrite app_nil_r|]. cbn in Ha. apply andb_prop in Ha as [Hk Ha].
    apply Forall_cons in Hm as [Hkm Hm]. cbn [foldl]. unfold add_entry at 2, present. cbn [fst snd omap list_omap] in *.
    destruct o as [v|]; cbn; [|by apply IH]. rewrite map_set_last, IH by first [done|
      (apply Forall_forall; intros e He; rewrite Forall_forall in Hm; apply keys_below_app; split; [by apply Hm|];
       rewrite forallb_forall in Hk; split; [|done]; apply Hk, list_elem_of_In, list_elem_of_fmap; by exists e)].
    by rewrite <- app_assoc. }
  rewrite Hgen; [done|]. apply Forall_forall. by intros.
Qed.

(** * Fields by key *)

Definition field_type (k : Key) : Type :=
  match k with
  | K_dsn => text
  | K_driver => text
  | K_database => text
  | K_hostname => text
  | K_port => Z
  | K_user => text
  | K_password => text
  | K_appName => text
  | K_loginTimeoutSec => Z
  | K_readPreference => RP.ReadPreference
  | K_replicaSet => text
  | K_retryReads => bool
  | K_tls => bool
  | K_tlsAllowInvalidHostnames => bool
  | K_tlsCaFile => text
  | K_sshEnable => bool
  | K_sshUser => text
  | K_sshHost => text
  | K_sshPrivateKeyFile => text
  | K_sshPrivateKeyPassphrase => text
  | K_sshStrictHostKeyChecking => bool
  | K_sshKnownHostsFile => text
  | K_logLevel => LL.LogLevel
  | K_logPath => text
  | K_scanMethod => SM.ScanMethod
  | K_scanLimit => Z
  | K_schemaName => text
  | K_refreshSchema => bool
  | K_defaultFetchSize => Z
  end.

Definition get (k : Key) (c : Configuration) : SettableValue (field_type k) :=
  match k with
  | K_dsn => c_dsn c
  | K_driver => c_driver c
  | K_database => c_database c
  | K_hostname => c_hostname c
  | K_port => c_port c
  | K_user => c_user c
  | K_password => c_password c
  | K_appName => c_appName c
  | K_loginTimeoutSec => c_loginTimeoutSec c
  | K_readPreference => c_readPreference c
  | K_replicaSet => c_replicaSet c
  | K_retryReads => c_retryReads c
  | K_tls => c_tls c
  | K_tlsAllowInvalidHostnames => c_tlsAllowInvalidHostnames c
  | K_tlsCaFile => c_tlsCaFile c
  | K_sshEnable => c_sshEnable c
  | K_sshUser => c_sshUser c
  | K_sshHost => c_sshHost c
  | K_sshPrivateKeyFile => c_sshPrivateKeyFile c
  | K_sshPrivateKeyPassphrase => c_sshPrivateKeyPassphrase c
  | K_sshStrictHostKeyChecking => c_sshStrictHostKeyChecking c
  | K_sshKnownHostsFile => c_sshKnownHostsFile c
  | K_logLevel => c_logLevel c
  | K_logPath => c_logPath c
  | K_scanMethod => c_scanMethod c
  | K_scanLimit => c_scanLimit c
  | K_schemaName => c_schemaName c
  | K_refreshSchema => c_refreshSchema c
  | K_defaultFetchSize => c_defaultFetchSize c
  end.

Definition put (k : Key) : field_type k -> Configuration -> Configuration :=
  match k with
  | K_dsn => SetDsn
  | K_driver => SetDriver
  | K_database => SetDatabase
  | K_hostname => SetHostname
  | K_port => SetPort
  | K_user => SetUser
  | K_password => SetPassword
  | K_appName => SetApplicationName
  | K_loginTimeoutSec => SetLoginTimeoutSeconds
  | K_readPreference => SetReadPreference
  | K_replicaSet => SetReplicaSet
  | K_retryReads => SetRetryReads
  | K_tls => SetTls
  | K_tlsAllowInvalidHostnames => SetTlsAllowInvalidHostnames
  | K_tlsCaFile => SetTlsCaFile
  | K_sshEnable => SetSshEnable
  | K_sshUser => SetSshUser
  | K_sshHost => SetSshHost
  | K_sshPrivateKeyFile => SetSshPrivateKeyFile
  | K_sshPrivateKeyPassphrase => SetSshPrivateKeyPassphrase
  | K_sshStrictHostKeyChecking => SetSshStrictHostKeyChecking
  | K_sshKnownHostsFile => SetSshKnownHostsFile
  | K_logLevel => SetLogLevelValue
  | K_logPath => SetLogPathValue
  | K_scanMethod => SetScanMethod
  | K_scanLimit => SetScanLimit
  | K_schemaName => SetSchemaName
  | K_refreshSchema => SetRefreshSchema
  | K_defaultFetchSize => SetDefaultFetchSize
  end.

Definition show (k : Key) : field_type k -> text :=
  match k with
  | K_dsn => show_text
  | K_driver => show_text
  | K_database => show_text
  | K_hostname => show_text
  | K_port => show_int
  | K_user => show_text
  | K_password => show_text
  | K_appName => show_text
  | K_loginTimeoutSec => show_int
  | K_readPreference => RP.ToString
  | K_replicaSet => show_text
  | K_retryReads => show_bool
  | K_tls => show_bool
  | K_tlsAllowInvalidHostnames => show_bool
  | K_tlsCaFile => show_text
  | K_sshEnable => show_bool
  | K_sshUser => show_text
  | K_sshHost => show_text
  | K_sshPrivateKeyFile => show_text
  | K_sshPrivateKeyPassphrase => show_text
  | K_sshStrictHostKeyChecking => show_bool
  | K_sshKnownHostsFile => show_text
  | K_logLevel => LL.ToString
  | K_logPath => show_text
  | K_scanMethod => SM.ToString
  | K_scanLimit => show_int
  | K_schemaName => show_text
  | K_refreshSchema => show_bool
  | K_defaultFetchSize => show_int
  end.

Definition sorted_keys : list Key :=
  [ K_appName; K_database; K_defaultFetchSize; K_driver; K_dsn;
    K_hostname; K_logLevel; K_logPath; K_loginTimeoutSec; K_password; K_port; K_readPreference;
    K_refreshSchema; K_replicaSet; K_retryReads; K_scanLimit; K_scanMethod; K_schemaName; K_sshEnable;
    K_sshHost; K_sshKnownHostsFile; K_sshPrivateKeyFile; K_sshPrivateKeyPassphrase;
    K_sshStrictHostKeyChecking; K_sshUser; K_tls; K_tlsAllowInvalidHostnames; K_tlsCaFile; K_user].

Section fields.
Context `{Host}.

Definition entry (c : Configuration) (k : Key) : text * option text :=
  (key_text k, if sv_set (get k c) then Some (show k (sv_val (get k c))) else None).

Lemma ToMap_build c : ToMap c = build (map (entry c) all_keys).
Proof.
  change (ToMap c) with (foldl (fun m k => AddToMap (key_text k) (show k) (get k c) m) [] all_keys).
  unfold build. generalize (@nil (text * text)) as m. induction all_keys as [|k l IH]; intros m; [done|].
  cbn [map foldl]. rewrite IH. f_equal. unfold AddToMap, add_entry, entry. cbn [fst snd]. by destruct (sv_set (get k c)).
Qed.

Lemma sorted_perm : Permutation all_keys sorted_keys.
Proof.
  apply NoDup_Permutation; [decide_now..|].
  intros k. split; intros _; destruct k; decide_now.
Qed.

(** The map lists what is set, in the order of the attribute names. *)
Lemma ToMap_present c : ToMap c = present (map (entry c) sorted_keys).
Proof.
  rewrite ToMap_build, (build_perm _ (map (entry c) sorted_keys)).
  - apply build_ascending. unfold fmap. rewrite map_map. reflexivity.
  - by rewrite sorted_perm.
  - unfold fmap. rewrite map_map. decide_now.
Qed.

Lemma config_ext a b : (forall k, get k a = get k b) -> a = b.
Proof.
  intros Hk. destruct a, b. f_equal;
    first [exact (Hk K_dsn)
      |exact (Hk K_driver)
      |exact (Hk K_database)
      |exact (Hk K_hostname)
      |exact (Hk K_port)
      |exact (Hk K_user)
      |exact (Hk K_password)
      |exact (Hk K_appName)
      |exact (Hk K_loginTimeoutSec)
      |exact (Hk K_readPreference)
      |exact (Hk K_replicaSet)
      |exact (Hk K_retryReads)
      |exact (Hk K_tls)
      |exact (Hk K_tlsAllowInvalidHostnames)
      |exact (Hk K_tlsCaFile)
      |exact (Hk K_sshEnable)
      |exact (Hk K_sshUser)
      |exact (Hk K_sshHost)
      |exact (Hk K_sshPrivateKeyFile)
      |exact (Hk K_sshPrivateKeyPassphrase)
      |exact (Hk K_sshStrictHostKeyChecking)
      |exact (Hk K_sshKnownHostsFile)
      |exact (Hk K_logLevel)
      |exact (Hk K_logPath)
      |exact (Hk K_scanMethod)
      |exact (Hk K_scanLimit)
      |exact (Hk K_schemaName)
      |exact (Hk K_refreshSchema)
      |exact (Hk K_defaultFetchSize)].
Qed.

Lemma get_put_same k v c : get k (put k v c) = MkValue v true.
Proof. by destruct k. Qed.

Lemma get_put_other k j v c : j <> k -> get j (put k v c) = get j c.
Proof. intros Hne. destruct k, j; first [done|by destruct Hne]. Qed.

(** * Values that survive *)

Definition valid_value (k : Key) : field_type k -> Prop :=
  match k with
  | K_dsn => value_ok
  | K_driver => value_ok
  | K_database => value_ok
  | K_hostname => fun v => value_ok v /\ (58 ∉ v)
  | K_port => fun v => 1 <= v < 2 ^ 16
  | K_user => value_ok
  | K_password => value_ok
  | K_appName => value_ok
  | K_loginTimeoutSec => fun v => 0 <= v < 2 ^ 31
  | K_readPreference => fun v => v <> RP.UNKNOWN
  | K_replicaSet => value_ok
  | K_retryReads => fun _ => True
  | K_tls => fun _ => True
  | K_tlsAllowInvalidHostnames => fun _ => True
  | K_tlsCaFile => value_ok
  | K_sshEnable => fun _ => True
  | K_sshUser => value_ok
  | K_sshHost => value_ok
  | K_sshPrivateKeyFile => value_ok
  | K_sshPrivateKeyPassphrase => value_ok
  | K_sshStrictHostKeyChecking => fun _ => True
  | K_sshKnownHostsFile => value_ok
  | K_logLevel => fun v => v <> LL.UNKNOWN
  | K_logPath => fun v => value_ok v /\ IsValidDirectory v = true
  | K_scanMethod => fun v => v <> SM.UNKNOWN
  | K_scanLimit => fun v => 1 <= v < 2 ^ 31
  | K_schemaName => value_ok
  | K_refreshSchema => fun _ => True
  | K_defaultFetchSize => fun v => 1 <= v < 2 ^ 31
  end.

(** The text of a number. *)
Record number_text (s : text) (v : Z) : Prop := {
  number_value : digits_value s = v;
  number_digits : Forall (fun c => 48 <= c <= 57) s;
  number_length : (0 < length s <= 10)%nat
}.

Lemma show_int_number v : 0 <= v < 2 ^ 31 -> number_text (show_int v) v.
Proof.
  intros Hv. unfold show_int, print_int. rewrite (proj2 (Z.ltb_ge v 0)), Z.abs_eq by lia. cbn [app].
  pose proof (print_u64_spec v ltac:(lia)) as Hn. pose proof (numeral_length _ _ 10 Hn ltac:(lia) ltac:(lia)) as Hl.
  destruct Hn as (Hne & Hd & Hval & _). unfold AppBuffer.text. split.
  - transitivity (dval (print_u64 v)); [|done]. unfold digits_value, dval. generalize 0 as a. clear.
    induction (print_u64 v) as [|c l IH]; intros a; [done|]. cbn [map foldl]. apply IH.
  - apply Forall_forall. intros z Hz. apply list_elem_of_fmap in Hz as (c & -> & Hc).
    unfold digits in Hd. rewrite Forall_forall in Hd. pose proof (digit_code c (Hd c Hc)). lia.
  - rewrite length_map. destruct (print_u64 v); [done|]. cbn [length] in *. lia.
Qed.

Lemma number_all_digits s v : number_text s v -> AllDigits s = true.
Proof.
  intros [_ Hd _]. unfold AllDigits. apply forallb_forall. intros c Hc. rewrite Forall_forall in Hd.
  apply list_elem_of_In, Hd in Hc. apply andb_true_iff. lia.
Qed.

Lemma number_free s v c : number_text s v -> ~ (48 <= c <= 57) -> c ∉ s.
Proof. intros [_ Hd _] Hc Hin. rewrite Forall_forall in Hd. by apply Hc, Hd. Qed.

Lemma stripped_no_spaces s : Forall (fun c => is_space c = false) s -> stripped s.
Proof.
  intros Hs. unfold stripped, StripSurroundingWhitespaces.
  assert (forall l, Forall (fun c => is_space c = false) l -> drop_spaces l = l) as Hd.
  { intros [|c l] Hl; [done|]. apply Forall_cons in Hl as [Hc _]. by apply drop_spaces_braced. }
  rewrite (Hd s Hs), Hd, rev_involutive; [done|]. by apply Forall_rev.
Qed.

Lemma unbrace_other c s : c <> 123 -> unbrace (c :: s) = c :: s.
Proof. intros Hc. unfold unbrace. destruct c as [|p|p]; try done. do 7 (destruct p as [p|p|]; try done). Qed.

Lemma number_ok s v : number_text s v -> value_ok s.
Proof.
  intros Hn. split; [intros ->; destruct Hn; cbn in *; lia|].
  split; [eapply number_free; [done|lia]|]. split; [eapply number_free; [done|lia]|]. right. split.
  - apply stripped_no_spaces. eapply Forall_impl; [apply Hn|]. intros c Hc. cbn beta in Hc. unfold is_space. lia.
  - destruct s as [|c s]; [reflexivity|]. destruct Hn as [_ Hd _]. apply Forall_cons in Hd as [Hc _].
    apply unbrace_other. lia.
Qed.

#[local] Instance value_ok_dec v : Decision (value_ok v).
Proof. unfold value_ok, stripped. apply _. Defined.

Lemma show_ok k v : valid_value k v -> value_ok (show k v).
Proof.
  destruct k; cbn [valid_value show]; unfold show_text; intros Hv;
    first [exact Hv|exact (proj1 Hv)|eapply number_ok, show_int_number; lia|destruct v; try done; decide_now].
Qed.

(** * Reading a value back *)

#[local] Instance key_ok_dec k : Decision (key_ok k).
Proof. unfold key_ok, stripped. apply _. Defined.

Lemma key_text_ok k : key_ok (key_text k).
Proof. destruct k; decide_now. Qed.

Lemma attribute_of_key k : attribute_of (ToLower (key_text k)) = Some k.
Proof. destruct k; vm_compute; reflexivity. Qed.

Lemma stream_number s v max : number_text s v -> v <= max -> stream_digits max s = v.
Proof. intros [Hv _ _] Hm. unfold stream_digits. rewrite Hv. lia. Qed.

Lemma set_number_ok set unexpected large range least key v s :
  10 < sizeof_string -> 0 <= least <= v -> v < 2 ^ 31 ->
  set_number set unexpected large range least key (show_int v) s = on_cfg (set v) s.
Proof.
  intros Hsz Hl Hv. pose proof (show_int_number v ltac:(lia)) as Hn. unfold set_number.
  rewrite (number_all_digits _ _ Hn). cbn [negb]. pose proof (number_length _ _ Hn).
  rewrite (proj2 (Z.leb_gt sizeof_string _)) by lia. rewrite (stream_number _ v) by (done || lia).
  rewrite (proj2 (Z.ltb_ge v least)), (proj2 (Z.ltb_ge (2 ^ 32 - 1) v)) by lia. cbn [orb].
  rewrite wrapS_small; [done|lia|split; lia].
Qed.

Lemma set_port_ok key v s :
  10 < sizeof_string -> 1 <= v < 2 ^ 16 -> set_port key (show_int v) s = on_cfg (SetPort v) s.
Proof.
  intros Hsz Hv. pose proof (show_int_number v ltac:(lia)) as Hn. pose proof (number_length _ _ Hn).
  unfold set_port. destruct (show_int v) as [|c t] eqn:E; [cbn in *; lia|]. rewrite <- E in *. clear c t E.
  rewrite (number_all_digits _ _ Hn). cbn [negb].
  rewrite (proj2 (Z.leb_gt sizeof_string _)) by lia. rewrite (stream_number _ v) by (done || lia).
  rewrite (proj2 (Z.leb_gt v 0)), (proj2 (Z.ltb_ge 65535 v)) by lia. cbn [orb].
  rewrite wrapU_small; [done|split; lia].
Qed.

(** Every attribute but the host name: the field is set, and nobody complains. *)
Lemma handle_valid k v s :
  10 < sizeof_string -> k <> K_hostname -> valid_value k v ->
  (k = K_user -> sv_val (c_user (pr_cfg s)) = []) -> (k = K_password -> sv_val (c_password (pr_cfg s)) = []) ->
  exists l, HandleAttributePair (key_text k) (show k v) s = MkParse (put k v (pr_cfg s)) l (pr_diag s).
Proof.
  intros Hsz Hk Hv Hu Hp. unfold HandleAttributePair. rewrite attribute_of_key.
  destruct k; cbn [handle show put valid_value] in *; unfold show_text;
    first [done|eexists; reflexivity|destruct v; try done; eexists; reflexivity
      |eexists; rewrite set_number_ok by (done || lia); reflexivity
      |eexists; rewrite set_port_ok by (done || lia); reflexivity|idtac].
  - unfold set_credential. rewrite Hu by done. eexists; reflexivity.
  - unfold set_credential. rewrite Hp by done. eexists; reflexivity.
  - unfold on_cfg_log, SetLogPath. rewrite (proj2 Hv). eexists; reflexivity.
Qed.

Lemma count_char_none c s : c ∉ s -> count_char c s = O.
Proof.
  intros Hc. unfold count_char. induction s as [|x s IH]; [done|]. apply not_elem_of_cons in Hc as [Hx Hs].
  cbn [List.filter]. rewrite (proj2 (Z.eqb_neq c x)) by done. auto.
Qed.

Lemma handle_hostname v s :
  58 ∉ v ->
  HandleAttributePair (key_text K_hostname) v s
  = MkParse (let c := SetHostname v (pr_cfg s) in if sv_set (c_port c) then c else SetPort 27017 c)
      (pr_log s) (pr_diag s).
Proof.
  intros Hv. unfold HandleAttributePair. rewrite attribute_of_key. cbn [handle]. unfold set_hostname, ParseSingleAddress.
  rewrite count_char_none by done. cbn. by destruct (sv_set (c_port (pr_cfg s))).
Qed.

(** * The whole string *)

(** Reading the attributes [ks] of [c], as they are written. *)
Definition run (ks : list Key) (c : Configuration) (s : ParseState) : ParseState :=
  handle_all (present (map (entry c) ks)) s.

Lemma run_cons k ks c s :
  run (k :: ks) c s
  = if sv_set (get k c) then HandleAttributePair (key_text k) (show k (sv_val (get k c))) (run ks c s)
    else run ks c s.
Proof. unfold run, present, entry. cbn. by destruct (sv_set (get k c)). Qed.

Lemma run_app ks ks' c s : run (ks ++ ks') c s = run ks c (run ks' c s).
Proof. unfold run, present, handle_all. rewrite map_app, omap_app. apply foldr_app. Qed.

Definition all_valid (c : Configuration) : Prop := forall k, sv_set (get k c) = true -> valid_value k (sv_val (get k c)).

Lemma set_value k (c : Configuration) : sv_set (get k c) = true -> get k c = MkValue (sv_val (get k c)) true.
Proof. intros Hs. destruct (get k c) as [v b]. cbn in *. by subst. Qed.

Lemma elem_skip (j k : Key) ks : j <> k -> j ∈ k :: ks <-> j ∈ ks.
Proof. intros Hne. rewrite elem_of_cons. tauto. Qed.

Lemma run_plain ks c s :
  10 < sizeof_string -> all_valid c -> K_hostname ∉ ks -> NoDup ks ->
  (K_user ∈ ks -> sv_val (c_user (pr_cfg s)) = []) -> (K_password ∈ ks -> sv_val (c_password (pr_cfg s)) = []) ->
  pr_diag (run ks c s) = pr_diag s
  /\ forall k, get k (pr_cfg (run ks c s))
               = if bool_decide (k ∈ ks) && sv_set (get k c) then get k c else get k (pr_cfg s).
Proof.
  intros Hsz Hval. induction ks as [|k ks IH]; intros Hh Hnd Hu Hp; [done|].
  apply not_elem_of_cons in Hh as [Hk Hh]. apply NoDup_cons in Hnd as [Hnin Hnd].
  destruct IH as [Hd Hg]; [done|done|intros; apply Hu; set_solver|intros; apply Hp; set_solver|].
  rewrite run_cons. destruct (sv_set (get k c)) eqn:Es.
  - destruct (handle_valid k (sv_val (get k c)) (run ks c s)) as (l & ->); [done|done|by apply Hval| | |].
    + intros ->. change (c_user (pr_cfg (run ks c s))) with (get K_user (pr_cfg (run ks c s))).
      rewrite Hg, bool_decide_false by done. apply Hu. set_solver.
    + intros ->. change (c_password (pr_cfg (run ks c s))) with (get K_password (pr_cfg (run ks c s))).
      rewrite Hg, bool_decide_false by done. apply Hp. set_solver.
    + split; [done|]. cbn [pr_cfg]. intros j. destruct (decide (j = k)) as [->|Hj].
      * rewrite get_put_same, bool_decide_true, Es by set_solver. cbn [andb]. symmetry. by apply set_value.
      * rewrite get_put_other, Hg by done. by rewrite (bool_decide_ext _ _ (elem_skip j k ks Hj)).
  - split; [done|]. intros j. rewrite Hg. destruct (decide (j = k)) as [->|Hj].
    + by rewrite Es, !andb_false_r.
    + by rewrite (bool_decide_ext _ _ (elem_skip j k ks Hj)).
Qed.

(** Unset values are the defaults. *)
Definition unset_default (c : Configuration) : Prop :=
  forall k, sv_set (get k c) = false -> get k c = get k new_configuration.

(** A host name brings a port along. *)
Definition restored (c : Configuration) : Configuration :=
  if sv_set (c_hostname c) && negb (sv_set (c_port c)) then SetPort 27017 c else c.

Lemma rendered_valid ks c :
  all_valid c -> Forall (fun kv => key_ok kv.1 /\ value_ok kv.2) (present (map (entry c) ks)).
Proof.
  intros Hval. apply Forall_forall. intros kv Hkv. unfold present in Hkv.
  apply list_elem_of_omap in Hkv as (e & He & Hx). apply list_elem_of_fmap in He as (k & -> & _).
  unfold entry in Hx. cbn in Hx. destruct (sv_set (get k c)) eqn:Es; [|done]. injection Hx as <-. cbn.
  split; [apply key_text_ok|by apply show_ok, Hval].
Qed.

Lemma parse_run c s :
  all_valid c -> ParseConnectionString (ToConnectString c) s = Some (run sorted_keys c s).
Proof.
  intros Hval. unfold run. rewrite <- ParseConnectionString_rendered by (by apply rendered_valid).
  apply (f_equal (fun m => ParseConnectionString (rendered m) s)), ToMap_present.
Qed.

Definition before_host : list Key := take 5 sorted_keys.
Definition after_host : list Key := drop 6 sorted_keys.

Lemma sorted_split : sorted_keys = before_host ++ K_hostname :: after_host.
Proof. reflexivity. Qed.

Lemma unset_get k (c : Configuration) :
  unset_default c -> (if sv_set (get k c) then get k c else get k new_configuration) = get k c.
Proof. intros Hun. destruct (sv_set (get k c)) eqn:Es; [done|]. symmetry. by apply Hun. Qed.

Lemma restored_other k c : k <> K_port -> get k (restored c) = get k c.
Proof. intros Hk. unfold restored. destruct (_ && _); [|done]. by apply (get_put_other K_port). Qed.

(** Every key but the host name is on one side of it. *)
Lemma split_get k c :
  unset_default c -> k <> K_hostname ->
  (if bool_decide (k ∈ before_host) && sv_set (get k c) then get k c
   else if bool_decide (k ∈ after_host) && sv_set (get k c) then get k c else get k new_configuration) = get k c.
Proof.
  intros Hun Hk. assert (k ∈ before_host \/ k ∈ after_host) as Hor.
  { revert Hk. destruct k; intros Hk; first [left; decide_now|right; decide_now|by destruct Hk]. }
  destruct (sv_set (get k c)) eqn:Es; [|rewrite !andb_false_r; symmetry; by apply Hun].
  destruct Hor as [Hb|Ha]; rewrite !andb_true_r; [by rewrite (bool_decide_true _ Hb)|].
  rewrite (bool_decide_true (k ∈ after_host)) by done. by case_match.
Qed.

(** The host name, once the port has been read. *)
Lemma run_hostname c s :
  all_valid c -> unset_default c ->
  get K_hostname (pr_cfg s) = get K_hostname new_configuration ->
  get K_port (pr_cfg s) = get K_port c ->
  pr_diag (run [K_hostname] c s) = pr_diag s
  /\ get K_hostname (pr_cfg (run [K_hostname] c s)) = get K_hostname c
  /\ get K_port (pr_cfg (run [K_hostname] c s)) = get K_port (restored c)
  /\ forall k, k <> K_hostname -> k <> K_port ->
       get k (pr_cfg (run [K_hostname] c s)) = get k (pr_cfg s).
Proof.
  intros Hval Hun Hh Hp. rewrite run_cons. change (run [] c s) with s.
  destruct (sv_set (get K_hostname c)) eqn:Eh.
  - rewrite handle_hostname by exact (proj2 (Hval K_hostname Eh)). cbn [pr_diag pr_cfg].
    pose proof (set_value K_hostname c Eh) as Hv. cbn [show]. unfold show_text.
    set (v := sv_val (get K_hostname c)) in *.
    assert (sv_set (c_port (SetHostname v (pr_cfg s))) = sv_set (c_port c)) as ->.
    { exact (f_equal sv_set Hp). }
    split; [done|]. unfold restored. cbn [get field_type] in Eh. rewrite Eh. rewrite Hv.
    destruct (sv_set (c_port c)); cbn [andb negb];
      (split; [reflexivity|split; [first [exact Hp|reflexivity]|]]; intros k Hkh Hkp;
       rewrite ?(get_put_other K_port) by done; by rewrite (get_put_other K_hostname)).
  - rewrite (Hun K_hostname Eh). unfold restored. cbn [get field_type] in Eh. rewrite Eh. done.
Qed.

End fields.

Lemma parse_restores `{Host} c l d :
  10 < sizeof_string -> all_valid c -> unset_default c ->
  exists l', ParseConnectionString (ToConnectString c) (MkParse new_configuration l d)
             = Some (MkParse (restored c) l' d).
Proof.
  intros Hsz Hval Hun. set (s0 := MkParse new_configuration l d).
  rewrite parse_run by done. rewrite sorted_split, run_app.
  change (K_hostname :: after_host) with ([K_hostname] ++ after_host). rewrite run_app.
  destruct (run_plain after_host c s0) as [Hd1 Hg1]; [done|done|decide_now|decide_now|done|done|].
  set (s1 := run after_host c s0) in *.
  destruct (run_hostname c s1) as (Hd2 & Hh2 & Hp2 & Hg2); [done|done|by rewrite Hg1| |].
  { rewrite Hg1, bool_decide_true by decide_now. by apply unset_get. }
  set (s2 := run [K_hostname] c s1) in *.
  destruct (run_plain before_host c s2) as [Hd3 Hg3]; [done|done|decide_now|decide_now|decide_now|decide_now|].
  set (s3 := run before_host c s2) in *. exists (pr_log s3).
  assert (pr_cfg s3 = restored c) as Hcfg.
  { apply config_ext. intros k. rewrite Hg3. destruct (decide (k = K_port)) as [->|Hkp]; [by rewrite Hp2|].
    rewrite restored_other by done. destruct (decide (k = K_hostname)) as [->|Hkh]; [by rewrite Hh2|].
    rewrite Hg2, Hg1 by done. apply split_get; done. }
  rewrite <- Hcfg. f_equal. transitivity (MkParse (pr_cfg s3) (pr_log s3) (pr_diag s3)); [by destruct s3|].
  f_equal. by rewrite Hd3, Hd2, Hd1.
Qed.

(** C7: A configuration survives its connection string: whatever is set in it, with
    values that have neither a semicolon nor an equals sign, nor outer white space or
    braces unless they have a space, a host name without a colon and a log path that
    is a directory, is what the parser sets on a new configuration, without a
    diagnostic.  The one difference: a host name sets the port as well, to 27017 when
    it was not set. *)
Theorem connect_string_roundtrip `{Host} c l d :
  10 < sizeof_string -> all_valid c -> unset_default c ->
  exists l', ParseConnectionString (ToConnectString c) (MkParse new_configuration l d)
             = Some (MkParse (restored c) l' d).
Proof. apply parse_restores. Qed.

(** A Linux machine. *)
#[export] Instance LinuxHost : Host := {|
  DEFAULT_LOG_PATH := str "/home/user";
  IsValidDirectory p := bool_decide (p = str "/tmp");
  sizeof_string := 32
|}.

Definition sample_configuration : Configuration :=
  SetHostname (str "docdb.example.com") (SetUser (str "me") (SetApplicationName (str "My App")
    (SetTls false (SetScanLimit 50 (SetScanMethod SM.ID_REVERSE (SetLogPathValue (str "/tmp") new_configuration)))))).

Lemma connect_string_roundtrip_witness :
  exists l', ParseConnectionString (ToConnectString sample_configuration)
               (MkParse new_configuration (MkLogger LL.OFF []) None)
             = Some (MkParse (SetPort 27017 sample_configuration) l' None).
Proof.
  apply (connect_string_roundtrip sample_configuration (MkLogger LL.OFF []) None).
  - reflexivity.
  - intros k. destruct k; cbn [get sample_configuration sv_set]; intros Hs;
      first [discriminate Hs|exact (conj I I)|cbn [valid_value]; cbn; unfold value_ok, stripped; decide_now].
  - intros k. destruct k; cbn [get sample_configuration sv_set]; intros Hs; first [discriminate Hs|reflexivity].
Defined.
