(* ===== verification/DsnProps.v ===== *)
(** Data sources and what connection strings cannot say. *)
From S2P Require Import Prelude BigText TypeTraits AppBuffer Diag SqlLex Config ConfigParse ConfigProps ConfigRound.

(** * Precedence *)

(** What is set stays, and what the profile does not mention stays. *)
Definition keeps (p : profile) (c c' : Configuration) : Prop :=
  forall k, sv_set (get k c) = true \/ p (key_text k) = None -> get k c' = get k c.

#[export] Instance keeps_refl p : Reflexive (keeps p).
Proof. by intros c k. Qed.

#[export] Instance keeps_trans p : Transitive (keeps p).
Proof.
  intros a b c Hab Hbc k Hk. rewrite <- (Hab k Hk). apply Hbc. destruct Hk as [Hk|Hk]; [left|by right].
  rewrite (Hab k); auto.
Qed.

Section steps.
Context `{Host} (p : profile).

(** Setting the field of a key that was not set and that the profile has. *)
Lemma keeps_put k v c : sv_set (get k c) = false -> p (key_text k) <> None -> keeps p c (put k v c).
Proof.
  intros Hs Hp j Hj. destruct (decide (j = k)) as [->|Hne]; [|by apply get_put_other].
  destruct Hj as [Hj|Hj]; congruence.
Qed.

Lemma keeps_text k (f : text -> field_type k) (old : Configuration -> bool) c :
  (forall c, old c = sv_set (get k c)) -> keeps p c (dsn_text p k (fun v => put k (f v)) old c).
Proof.
  intros Hold. unfold dsn_text. destruct (p (key_text k)) eqn:E; [|done].
  destruct (old c) eqn:Eo; [done|]. apply keeps_put; [by rewrite <- Hold|by rewrite E].
Qed.

Lemma keeps_int k (f : Z -> field_type k) ok (old : Configuration -> bool) c c' :
  (forall c, old c = sv_set (get k c)) -> dsn_int p k ok (fun v => put k (f v)) old c = Ok c' -> keeps p c c'.
Proof.
  intros Hold. unfold dsn_int. destruct (p (key_text k)) eqn:E; [|by intros [= <-]].
  destruct (cast_int l) as [n| |]; [|done..]. cbn [obind]. destruct (old c) eqn:Eo; cbn [negb andb]; [by intros [= <-]|].
  destruct (ok n); intros [= <-]; [|done]. apply keeps_put; [by rewrite <- Hold|by rewrite E].
Qed.

Lemma keeps_log c l : keeps p c (dsn_log p (c, l)).1.
Proof.
  unfold dsn_log, SetLogLevel, SetLogPath.
  assert (forall cl : Configuration * Logger, keeps p c cl.1 ->
    keeps p c (match p (key_text K_logPath) with
      | Some v => if negb (sv_set (c_logPath cl.1)) then
                    if IsValidDirectory v then (SetLogPathValue v cl.1, logger_SetLogPath v cl.2) else cl
                  else cl
      | None => cl end).1) as Hpath.
  { intros cl Hc. destruct (p (key_text K_logPath)) eqn:E; [|done]. destruct (sv_set (c_logPath cl.1)) eqn:Es; [done|].
    cbn [negb]. destruct (IsValidDirectory l0); [|done]. etransitivity; [exact Hc|].
    apply (keeps_put K_logPath); [done|by rewrite E]. }
  apply Hpath. destruct (p (key_text K_logLevel)) eqn:E; [|done]. cbn [fst].
  destruct (sv_set (c_logLevel c)) eqn:Es; [done|]. cbn [negb]. destruct (negb _); [|done].
  apply (keeps_put K_logLevel); [done|by rewrite E].
Qed.

Definition readable (k : Key) : Prop := forall v, p (key_text k) = Some v -> exists n, cast_int v = Ok n.

Lemma reads_int k (f : Z -> field_type k) ok (old : Configuration -> bool) c :
  (forall c, old c = sv_set (get k c)) -> readable k ->
  exists c', dsn_int p k ok (fun v => put k (f v)) old c = Ok c' /\ keeps p c c'.
Proof.
  intros Hold Hn. assert (exists c1, dsn_int p k ok (fun v => put k (f v)) old c = Ok c1) as (c1 & E).
  { unfold dsn_int. destruct (p (key_text k)) eqn:E; [|eauto]. destruct (Hn _ E) as (n & ->). cbn. eauto. }
  exists c1. split; [done|]. by eapply keeps_int.
Qed.

(** [keeps_texts] passes a chain of texts. *)
Ltac keeps_texts :=
  repeat match goal with
  | |- keeps _ ?c ?c => reflexivity
  | |- keeps _ _ (dsn_text _ ?k _ _ _) =>
      etransitivity; [|apply (keeps_text k (fun v => _)); done]
  end.

Lemma keeps_login c : keeps p c (dsn_login p c).
Proof. unfold dsn_login. keeps_texts. Qed.

Lemma keeps_options c : keeps p c (dsn_options p c).
Proof. unfold dsn_options, dsn_bool. keeps_texts. Qed.

Lemma keeps_schema c : keeps p c (dsn_schema p c).
Proof. unfold dsn_schema, dsn_bool. keeps_texts. Qed.

End steps.

(** C28: A data source never overrides the connection string.  Reading one ends,
    as long as each of its four numbers is one, and leaves every value that was set
    before, and every value it does not mention, as it was. *)
Theorem dsn_precedence `{Host} (p : profile) c l :
  Forall (readable p) [K_port; K_loginTimeoutSec; K_scanLimit; K_defaultFetchSize] ->
  exists c' l', ReadDsnConfiguration p c l = Ok (c', l') /\ keeps p c c'.
Proof.
  rewrite !Forall_cons. intros (Hport & Htime & Hscan & Hfetch & _). unfold ReadDsnConfiguration.
  set (c0 := dsn_text p K_hostname _ _ c).
  assert (keeps p c c0) as H0 by (apply (keeps_text p K_hostname (fun v => v)); done).
  destruct (reads_int p K_port u16 (fun _ => true) (fun c => sv_set (c_port c)) c0) as (c1 & E1 & H1); [done..|].
  cbn [put] in E1. rewrite E1. cbn [obind].
  destruct (reads_int p K_loginTimeoutSec (fun v => v) (fun _ => true) (fun c => sv_set (c_loginTimeoutSec c))
    (dsn_login p c1)) as (c2 & E2 & H2); [done..|]. rewrite (E2 : dsn_int p K_loginTimeoutSec _ SetLoginTimeoutSeconds _ _ = _). cbn [obind].
  pose proof (keeps_log p (dsn_options p c2) l) as H3. destruct (dsn_log p (dsn_options p c2, l)) as [c3 l'].
  cbn [fst] in H3. set (c4 := dsn_text p K_scanMethod _ _ c3).
  assert (keeps p c3 c4) as H4 by (apply (keeps_text p K_scanMethod (fun v => SM.FromString v SM.RANDOM)); done).
  destruct (reads_int p K_scanLimit (fun v => v) (fun n => 0 <? n) (fun c => sv_set (c_scanLimit c)) c4)
    as (c5 & E5 & H5); [done..|]. rewrite (E5 : dsn_int p K_scanLimit _ SetScanLimit _ _ = _). cbn [obind].
  destruct (reads_int p K_defaultFetchSize (fun v => v) (fun n => 0 <? n) (fun c => sv_set (c_defaultFetchSize c))
    (dsn_schema p c5)) as (c6 & E6 & H6); [done..|]. rewrite (E6 : dsn_int p K_defaultFetchSize _ SetDefaultFetchSize _ _ = _). cbn [obind].
  exists c6, l'. split; [done|].
  transitivity c1; [by transitivity c0|]. transitivity c2; [by transitivity (dsn_login p c1); [apply keeps_login|]|].
  transitivity c3; [by transitivity (dsn_options p c2); [apply keeps_options|]|]. transitivity c5; [by transitivity c4|].
  by transitivity (dsn_schema p c5); [apply keeps_schema|].
Qed.

Lemma dsn_precedence_witness :
  exists c' l', ReadDsnConfiguration (fun k => if bool_decide (k = str "port") then Some (str "70000")
      else if bool_decide (k = str "hostname") then Some (str "other") else None)
      sample_configuration (MkLogger LL.OFF []) = Ok (c', l')
    /\ keeps (fun k => if bool_decide (k = str "port") then Some (str "70000")
      else if bool_decide (k = str "hostname") then Some (str "other") else None) sample_configuration c'.
Proof.
  apply (dsn_precedence _ sample_configuration (MkLogger LL.OFF [])).
  repeat apply Forall_cons_2; [..|apply Forall_nil_2]; intros v Hv; vm_compute in Hv; try discriminate Hv.
  injection Hv as <-. exists 70000. vm_compute. reflexivity.
Defined.

(** * What connection strings cannot say *)

Lemma attribute_no_equals k : 61 ∈ k -> attribute_of k = None.
Proof.
  intros Hk. unfold attribute_of.
  assert (forall s, 61 ∉ s -> bool_decide (k = s) = false) as Hne.
  { intros s Hs. apply bool_decide_false. by intros ->. }
  rewrite !Hne by decide_now. induction all_keys as [|x l IH]; [done|]. cbn [find].
  rewrite Hne by (destruct x; decide_now). exact IH.
Qed.

Lemma drop_spaces_keeps c s : c ∈ s -> is_space c = false -> c ∈ drop_spaces s.
Proof.
  intros Hc Hs. induction s as [|x s IH]; [done|]. cbn [drop_spaces]. destruct (is_space x) eqn:E; [|done].
  apply IH. apply elem_of_cons in Hc as [->|Hc]; [congruence|done].
Qed.

Lemma strip_keeps c s : c ∈ s -> is_space c = false -> c ∈ StripSurroundingWhitespaces s.
Proof.
  intros Hc Hs. unfold StripSurroundingWhitespaces. apply list_elem_of_In, in_rev. rewrite rev_involutive.
  apply list_elem_of_In, drop_spaces_keeps; [|done]. apply list_elem_of_In, in_rev. rewrite rev_involutive.
  by apply list_elem_of_In, drop_spaces_keeps.
Qed.

Lemma drop_zeros_last s c : c <> 0 -> rev (drop_zeros (rev (s ++ [c]))) = s ++ [c].
Proof.
  intros Hc. rewrite rev_app_distr. cbn [rev app].
  assert (drop_zeros (c :: rev s) = c :: rev s) as -> by (by destruct c).
  cbn [rev]. by rewrite rev_involutive.
Qed.

(** A value cannot hold an equals sign: the parser looks for the last one, so that
    an attribute with such a value, braced or not, is reported as unknown and
    dropped.  A password with an equals sign, for one, cannot be given. *)
Theorem equals_in_value `{Host} k a b c st :
  59 ∉ a -> 59 ∉ b ++ [c] -> 61 ∉ b ++ [c] -> c <> 0 ->
  exists name, 61 ∈ name
    /\ ParseConnectionString (key_text k ++ str "=" ++ a ++ str "=" ++ b ++ [c]) st
       = Some (on_diag (warn (str "Unknown attribute: '" ++ name ++ str "'. Ignoring.")) st).
Proof.
  intros Ha Hb Hb1 Hc. change (str "=") with [61]. set (key := key_text k ++ [61] ++ a).
  exists (StripSurroundingWhitespaces key).
  assert (61 ∈ StripSurroundingWhitespaces key) as H61.
  { apply strip_keeps; [|done]. unfold key. rewrite !elem_of_app, list_elem_of_singleton. tauto. }
  split; [done|].
  replace (key_text k ++ [61] ++ a ++ [61] ++ b ++ [c]) with (key ++ 61 :: b ++ [c])
    by (unfold key; by rewrite <- !app_assoc).
  unfold ParseConnectionString, ParseDelimited.
  replace (key ++ 61 :: b ++ [c]) with ((key ++ 61 :: b) ++ [c]) by (by rewrite <- app_assoc).
  rewrite drop_zeros_last by done.
  replace ((key ++ 61 :: b) ++ [c]) with (key ++ 61 :: b ++ [c]) by (by rewrite <- app_assoc).
  cbn [while]. unfold connect_pass.
  destruct (key ++ 61 :: b ++ [c]) as [|x t] eqn:E; [by destruct key|]. rewrite <- E. clear x t E.
  assert (59 ∉ key_text k) as Hk by (destruct k; decide_now).
  rewrite (rfind_none 59).
  2: { unfold key. rewrite !not_elem_of_app, !not_elem_of_cons. repeat split; try done; by apply not_elem_of_nil. }
  rewrite rfind_last by done. cbn [default id].
  rewrite (proj2 (Nat.ltb_lt _ _)) by (unfold key; rewrite !length_app; cbn; lia).
  rewrite drop_0, take_app_length. unfold HandleAttributePair. rewrite attribute_no_equals; [done|].
  unfold ToLower. apply list_elem_of_fmap. by exists 61.
Qed.

Lemma equals_in_value_witness :
  exists name, 61 ∈ name
    /\ ParseConnectionString (str "password=abc=def") (MkParse new_configuration (MkLogger LL.OFF []) (Some new_storage))
       = Some (on_diag (warn (str "Unknown attribute: '" ++ name ++ str "'. Ignoring."))
                 (MkParse new_configuration (MkLogger LL.OFF []) (Some new_storage))).
Proof. apply (equals_in_value K_password (str "abc") (str "de") 102); decide_now. Defined.

(** A host name with a bad port is not ignored, whatever the message says: the
    configuration gets an empty or shortened host name as set, and port 0 unless a port was
    given, so that it passes validation. *)
Theorem bad_address_taken `{Host} value st ok e d :
  ParseSingleAddress value new_end_point (pr_diag st) = (ok, e, d) -> ok = false ->
  sv_set (c_port (pr_cfg st)) = false ->
  exists st', HandleAttributePair (str "hostname") value st = st' /\ pr_diag st' = d
    /\ c_hostname (pr_cfg st') = MkValue (ep_host e) true
    /\ c_port (pr_cfg st') = MkValue 0 true.
Proof.
  intros E Hok Hp. eexists. split; [reflexivity|]. unfold HandleAttributePair.
  change (attribute_of (ToLower (str "hostname"))) with (Some K_hostname). cbn [handle]. unfold set_hostname.
  rewrite E. cbn [pr_diag pr_cfg c_port SetHostname]. rewrite Hp. cbn [negb]. split; [done|]. split; [done|].
  assert (ep_port e = 0) as <-; [|done]. revert E. subst ok. unfold ParseSingleAddress, ParsePortRange, new_end_point.
  cbn [ep_host ep_port ep_range].
  destruct (count_char 58 value =? 0)%nat; [done|]. destruct (negb _); [by intros [= <- _]|].
  destruct (_ =? length value)%nat; [by intros [= <- _]|].
  destruct (find_char 46 _).
  - destruct (_ || _); [by intros [= <- _]|]. destruct (ParsePort _ (pr_diag st)) as [p1 d1].
    destruct (p1 =? 0); [by intros [= <- _]|]. destruct (ParsePort _ d1) as [p2 d2].
    destruct (p2 =? 0); [by intros [= <- _]|]. destruct (p2 <? p1); [by intros [= <- _]|done].
  - destruct (ParsePort _ (pr_diag st)) as [p1 d1]. intros [= Hz <- _]. cbn. apply negb_false_iff in Hz. lia.
Qed.

Lemma bad_address_taken_witness :
  exists st', HandleAttributePair (str "hostname") (str "a:b:c") (MkParse new_configuration (MkLogger LL.OFF []) None) = st'
    /\ pr_diag st' = None
    /\ c_hostname (pr_cfg st') = MkValue [] true
    /\ c_port (pr_cfg st') = MkValue 0 true.
Proof.
  apply (bad_address_taken (str "a:b:c") (MkParse new_configuration (MkLogger LL.OFF []) None) false new_end_point None);
    reflexivity.
Defined.
