(* ===== verification/Meta.v ===== *)
(** Metadata of results: [src/src/odbc/src/meta/] ([column_meta.cpp], [table_meta.cpp],
    [primary_key_meta.cpp], [foreign_key_meta.cpp]).

    The JDBC driver answers with a result set: rows whose fields are read by name, a
    field that is null or cannot be read is missing. *)
From S2P Require Import Prelude TypeTraits AppBuffer Diag Config Statement.

(** * Result sets *)

Record ResultRow : Type := MkRow { rs_string : text -> option text; rs_int : text -> option Z }.

(** The rows, and the message of the error that ends them, if one does. *)
Record ResultSet : Type := MkResultSet { rs_rows : list ResultRow; rs_error : option text }.

(** [GetSmallInt]. *)
Definition rs_small (r : ResultRow) (name : text) : option Z := i16 <$> rs_int r name.

(** * Columns *)

Definition SQL_FALSE : Z := 0.
Definition SQL_TRUE : Z := 1.
Definition SQL_NO_TOTAL : Z := -4.
Definition SQL_PRED_BASIC : Z := 2.
Definition SQL_NAMED : Z := 0.
Definition SQL_UNNAMED : Z := 1.
Definition SQL_ATTR_READWRITE_UNKNOWN : Z := 2.
Definition SQL_DESC_CONCISE_TYPE : Z := 2.
Definition SQL_COLUMN_LENGTH : Z := 3.
Definition SQL_COLUMN_PRECISION : Z := 4.
Definition SQL_COLUMN_SCALE : Z := 5.
Definition SQL_DESC_DISPLAY_SIZE : Z := 6.
Definition SQL_DESC_UNSIGNED : Z := 8.
Definition SQL_DESC_FIXED_PREC_SCALE : Z := 9.
Definition SQL_DESC_UPDATABLE : Z := 10.
Definition SQL_DESC_AUTO_UNIQUE_VALUE : Z := 11.
Definition SQL_DESC_CASE_SENSITIVE : Z := 12.
Definition SQL_DESC_SEARCHABLE : Z := 13.
Definition SQL_DESC_TYPE_NAME : Z := 14.
Definition SQL_DESC_TABLE_NAME : Z := 15.
Definition SQL_DESC_SCHEMA_NAME : Z := 16.
Definition SQL_DESC_CATALOG_NAME : Z := 17.
Definition SQL_DESC_LABEL : Z := 18.
Definition SQL_DESC_BASE_COLUMN_NAME : Z := 22.
Definition SQL_DESC_BASE_TABLE_NAME : Z := 23.
Definition SQL_DESC_LITERAL_PREFIX : Z := 27.
Definition SQL_DESC_LITERAL_SUFFIX : Z := 28.
Definition SQL_DESC_LOCAL_TYPE_NAME : Z := 29.
Definition SQL_DESC_NUM_PREC_RADIX : Z := 32.
Definition SQL_DESC_TYPE : Z := 1002.
Definition SQL_DESC_LENGTH : Z := 1003.
Definition SQL_DESC_PRECISION : Z := 1005.
Definition SQL_DESC_SCALE : Z := 1006.
Definition SQL_DESC_NULLABLE : Z := 1008.
Definition SQL_DESC_NAME : Z := 1011.
Definition SQL_DESC_UNNAMED : Z := 1012.
Definition SQL_DESC_OCTET_LENGTH : Z := 1013.

(** [Nullability::Type]. *)
Definition NO_NULL : Z := 0.
Definition NULLABLE : Z := 1.
Definition NULLABILITY_UNKNOWN : Z := 2.

(** [Nullability::ToSql], assertions off. *)
Definition Nullability_ToSql (nullability : option Z) : Z :=
  match nullability with
  | None => SQL_NULLABLE_UNKNOWN
  | Some n =>
      if n =? NO_NULL then SQL_NO_NULLS
      else if n =? NULLABLE then SQL_NULLABLE
      else SQL_NULLABLE_UNKNOWN
  end.

Record ColumnMeta : Type := MkColumnMeta {
  cm_catalogName : option text;
  cm_schemaName : option text;
  cm_tableName : option text;
  cm_columnName : option text;
  cm_remarks : option text;
  cm_columnDef : option text;
  cm_isAutoIncrement : option text;
  cm_dataType : option Z;
  cm_precision : option Z;
  cm_decimalDigits : option Z;
  cm_scale : option Z;
  cm_nullability : option Z;
  cm_ordinalPosition : option Z
}.

(** The constructor of columns that the driver describes itself. *)
Definition own_column (schema table column : text) (dataType nullability : Z) : ColumnMeta :=
  MkColumnMeta None (Some schema) (Some table) (Some column) None None None (Some dataType)
    (Some (-1)) (Some (-1)) (Some (-1)) (Some nullability) (Some (-1)).

(** The ordinal, or the next one: the position, and the new previous position. *)
Definition next_position (ordinal : option Z) (prevPosition : Z) : outcome Z Z :=
  match ordinal with
  | Some p => Ok p
  | None => checked 32 (prevPosition + 1)
  end.

(** [ColumnMeta::Read], into a new [ColumnMeta]. *)
Definition ColumnMeta_Read (r : ResultRow) (prevPosition : Z) : outcome Z (ColumnMeta * Z) :=
  let get (name : string) := rs_string r (str name) in
  let* position := next_position (rs_int r (str "ORDINAL_POSITION")) prevPosition in
  Ok (MkColumnMeta (get "TABLE_CAT"%string) (get "TABLE_SCHEM"%string) (get "TABLE_NAME"%string)
        (get "COLUMN_NAME"%string) (get "REMARKS"%string) (get "COLUMN_DEF"%string) (get "IS_AUTOINCREMENT"%string)
        (rs_small r (str "DATA_TYPE")) None (rs_int r (str "DECIMAL_DIGITS")) None (rs_int r (str "NULLABLE"))
        (Some position), position).

Fixpoint read_columns (rows : list ResultRow) (prevPosition : Z) : outcome Z (list ColumnMeta) :=
  match rows with
  | [] => Ok []
  | r :: t =>
      let* (c, p) := ColumnMeta_Read r prevPosition in
      let* cs := read_columns t p in
      Ok (c :: cs)
  end.

(** The error that ends the rows is not looked at. *)
Definition ReadColumnMetaVector (rs : ResultSet) : outcome Z (list ColumnMeta) := read_columns (rs_rows rs) 0.

(** [JdbcColumnMetadata], the fields the driver reads. *)
Record JdbcColumnMetadata : Type := MkJdbcColumn {
  jc_catalogName : option text;
  jc_schemaName : option text;
  jc_tableName : option text;
  jc_columnName : option text;
  jc_columnType : Z;
  jc_nullable : Z;
  jc_ordinal : Z;
  jc_autoIncrement : bool
}.

(** [ColumnMeta::ReadJdbcMetadata]: the ordinal is always there. *)
Definition ReadJdbcMetadata (j : JdbcColumnMetadata) : ColumnMeta :=
  MkColumnMeta (jc_catalogName j) (jc_schemaName j) (jc_tableName j) (jc_columnName j) None None
    (Some (if jc_autoIncrement j then str "YES" else str "NO"))
    (Some (i16 (jc_columnType j))) None None None (Some (jc_nullable j)) (Some (jc_ordinal j)).

Definition isCharType (t : Z) : bool :=
  existsb (Z.eqb t) [JDBC_TYPE_VARCHAR; JDBC_TYPE_CHAR; JDBC_TYPE_NCHAR; JDBC_TYPE_NVARCHAR; JDBC_TYPE_LONGVARCHAR;
                     JDBC_TYPE_LONGNVARCHAR].

Definition type_is (p : Z -> bool) (c : ColumnMeta) : bool :=
  match cm_dataType c with Some t => p t | None => false end.

(** A precision or scale of -1 is not available. *)
Definition available (v : option Z) : option Z :=
  match v with Some n => if n =? -1 then None else Some n | None => None end.

(** [GetAttribute(fieldId, std::string&)]. *)
Definition GetTextAttribute (c : ColumnMeta) (fieldId : Z) : option text :=
  switch fieldId
    [([SQL_DESC_LABEL; SQL_DESC_BASE_COLUMN_NAME; SQL_DESC_NAME], Some (default [] (cm_columnName c)));
     ([SQL_DESC_TABLE_NAME; SQL_DESC_BASE_TABLE_NAME], Some (default [] (cm_tableName c)));
     ([SQL_DESC_SCHEMA_NAME], Some (default [] (cm_schemaName c)));
     ([SQL_DESC_CATALOG_NAME], Some []);
     ([SQL_DESC_LITERAL_PREFIX],
      Some (if type_is isCharType c then str "'"
            else if type_is (fun t => existsb (Z.eqb t) [JDBC_TYPE_BINARY; JDBC_TYPE_VARBINARY; JDBC_TYPE_LONGVARBINARY]) c
            then str "0x" else []));
     ([SQL_DESC_LITERAL_SUFFIX], Some (if type_is isCharType c then str "'" else []));
     ([SQL_DESC_TYPE_NAME; SQL_DESC_LOCAL_TYPE_NAME],
      Some (match BinaryTypeToSqlTypeName (cm_dataType c) with Some s => str s | None => [] end));
     ([SQL_DESC_PRECISION; SQL_COLUMN_LENGTH; SQL_COLUMN_PRECISION], show_int <$> available (cm_precision c));
     ([SQL_DESC_SCALE; SQL_COLUMN_SCALE], show_int <$> available (cm_scale c))]
    None.

Definition bool_attribute (b : bool) : Z := if b then SQL_TRUE else SQL_FALSE.

(** [value] stays -1 when there is nothing to say. *)
Definition or_unknown (v : option Z) : Z := default (-1) v.

(** The precision of dates and times, and the scale of decimals, are the decimal
    digits when these are known. *)
Definition digits_of (types : list Z) (c : ColumnMeta) : option Z :=
  match available (cm_decimalDigits c) with
  | Some d => if type_is (fun t => existsb (Z.eqb t) types) c then Some d else None
  | None => None
  end.

(** [dataType && (!p || *p == -1)] gives the type's value, else the column's own. *)
Definition own_or_type (own : option Z) (of_type : option Z -> option Z) (c : ColumnMeta) : Z :=
  match cm_dataType c, available own with
  | Some _, None => or_unknown (of_type (cm_dataType c))
  | _, _ => or_unknown own
  end.

(** [GetAttribute(fieldId, SqlLen&)]. *)
Definition GetNumberAttribute (c : ColumnMeta) (fieldId : Z) : option Z :=
  let t := cm_dataType c in
  switch fieldId
    [([SQL_DESC_FIXED_PREC_SCALE],
      Some (match available (cm_precision c), available (cm_scale c) with
            | Some _, Some s => if s =? 0 then SQL_FALSE else SQL_TRUE
            | _, _ => SQL_FALSE
            end));
     ([SQL_DESC_AUTO_UNIQUE_VALUE],
      Some (bool_attribute (bool_decide (cm_isAutoIncrement c = Some (str "YES")))));
     ([SQL_DESC_CASE_SENSITIVE], Some (bool_attribute (type_is isCharType c)));
     ([SQL_DESC_CONCISE_TYPE; SQL_DESC_TYPE], Some (or_unknown (BinaryToSqlType t)));
     ([SQL_DESC_DISPLAY_SIZE], Some (or_unknown (BinaryTypeDisplaySize t)));
     ([SQL_DESC_LENGTH; SQL_COLUMN_LENGTH; SQL_DESC_OCTET_LENGTH],
      Some (match t with Some _ => or_unknown (BinaryTypeTransferLength t) | None => -1 end));
     ([SQL_DESC_NULLABLE], Some (Nullability_ToSql (cm_nullability c)));
     ([SQL_DESC_NUM_PREC_RADIX], Some (or_unknown (BinaryTypeNumPrecRadix t)));
     ([SQL_DESC_PRECISION; SQL_COLUMN_PRECISION],
      Some (match digits_of [JDBC_TYPE_TIME; JDBC_TYPE_DATE; JDBC_TYPE_TIMESTAMP] c with
            | Some d => d
            | None => own_or_type (cm_precision c) BinaryTypeColumnSize c
            end));
     ([SQL_DESC_SCALE; SQL_COLUMN_SCALE],
      Some (match digits_of [JDBC_TYPE_DECIMAL; JDBC_TYPE_NUMERIC] c with
            | Some d => d
            | None => own_or_type (cm_scale c) BinaryTypeDecimalDigits c
            end));
     ([SQL_DESC_SEARCHABLE], Some SQL_PRED_BASIC);
     ([SQL_DESC_UNNAMED],
      Some (if bool_decide (default [] (cm_columnName c) = []) then SQL_UNNAMED else SQL_NAMED));
     ([SQL_DESC_UNSIGNED], Some (bool_attribute (BinaryTypeUnsigned t)));
     ([SQL_DESC_UPDATABLE], Some SQL_ATTR_READWRITE_UNKNOWN)]
    None.

(** What the statement sees of a column. *)
Definition column_attributes (c : ColumnMeta) : ColumnAttributes :=
  MkAttributes (GetNumberAttribute c) (GetTextAttribute c).

(** * Tables and keys *)

Record TableMeta : Type := MkTableMeta {
  tm_catalogName : option text;
  tm_schemaName : option text;
  tm_tableName : option text;
  tm_tableType : option text;
  tm_remarks : option text
}.

Definition TableMeta_Read (r : ResultRow) : TableMeta :=
  MkTableMeta (rs_string r (str "TABLE_CAT")) (rs_string r (str "TABLE_SCHEM")) (rs_string r (str "TABLE_NAME"))
    (rs_string r (str "TABLE_TYPE")) (rs_string r (str "REMARKS")).

Definition ReadTableMetaVector (rs : ResultSet) : list TableMeta := map TableMeta_Read (rs_rows rs).

Record PrimaryKeyMeta : Type := MkPrimaryKeyMeta {
  pk_catalog : option text;
  pk_schema : option text;
  pk_table : option text;
  pk_column : option text;
  pk_keySeq : option Z;
  pk_keyName : option text
}.

Definition PrimaryKeyMeta_Read (r : ResultRow) : PrimaryKeyMeta :=
  MkPrimaryKeyMeta (rs_string r (str "TABLE_CAT")) (rs_string r (str "TABLE_SCHEM")) (rs_string r (str "TABLE_NAME"))
    (rs_string r (str "COLUMN_NAME")) (rs_small r (str "KEY_SEQ")) (rs_string r (str "PK_NAME")).

Definition ReadPrimaryKeysColumnMetaVector (rs : ResultSet) : list PrimaryKeyMeta :=
  map PrimaryKeyMeta_Read (rs_rows rs).

Record ForeignKeyMeta : Type := MkForeignKeyMeta {
  PKCatalogName : option text;
  PKSchemaName : option text;
  PKTableName : option text;
  PKColumnName : option text;
  FKCatalogName : option text;
  FKSchemaName : option text;
  FKTableName : option text;
  FKColumnName : option text;
  fk_keySeq : option Z;
  fk_updateRule : option Z;
  fk_deleteRule : option Z;
  FKName : option text;
  PKName : option text;
  fk_deferrability : option Z
}.

Definition ForeignKeyMeta_Read (r : ResultRow) : ForeignKeyMeta :=
  MkForeignKeyMeta (rs_string r (str "PKTABLE_CAT")) (rs_string r (str "PKTABLE_SCHEM"))
    (rs_string r (str "PKTABLE_NAME")) (rs_string r (str "PKCOLUMN_NAME")) (rs_string r (str "FKTABLE_CAT"))
    (rs_string r (str "FKTABLE_SCHEM")) (rs_string r (str "FKTABLE_NAME")) (rs_string r (str "FKCOLUMN_NAME"))
    (rs_small r (str "KEY_SEQ")) (rs_small r (str "UPDATE_RULE")) (rs_small r (str "DELETE_RULE"))
    (rs_string r (str "FK_NAME")) (rs_string r (str "PK_NAME")) (rs_small r (str "DEFERRABILITY")).

Definition ReadForeignKeysColumnMetaVector (rs : ResultSet) : list ForeignKeyMeta :=
  map ForeignKeyMeta_Read (rs_rows rs).
