(* ===== verification/Connection.v ===== *)
(** Environments and connections: [src/src/odbc/src/environment.cpp], [connection.cpp],
    [jni/documentdb_connection.cpp], and the two operations of
    [config/connection_info.cpp].

    The Java virtual machine with the JDBC driver, and the MongoDB driver, answer the
    connection; what they answer during a call is its argument [Answers].  The data
    sources of the machine are the argument [profiles]. *)
From S2P Require Import Prelude OrdMap Memory Utf8 BigText TypeTraits Chrono AppBuffer AppRead Diag SqlLex Params Statement.
From S2P Require Import Config ConfigParse Meta.

(** * Information about the connection *)

(** The three tables of [ConnectionInfo]. *)
Record ConnectionInfo : Type := MkInfo {
  strParams : omap (list Z);
  intParams : omap Z;
  shortParams : omap Z
}.

Section info.
Context `{Platform}.

Definition GetInfo (type buf buflen reslen : Z) (i : ConnectionInfo) (m : mem) : outcome Z (SR.SqlResult * mem) :=
  match om_lookup type (strParams i) with
  | Some s =>
      if negb (buf =? 0) && (buflen =? 0) then Ok (SR.AI_ERROR, m) else
      let* (len, _, m) := CopyStringToBuffer s buf (u64 buflen) true m in
      let* m := put_if reslen 2 (u16 (i16 len)) m in
      Ok (SR.AI_SUCCESS, m)
  | None =>
      if buf =? 0 then Ok (SR.AI_ERROR, m) else
      match om_lookup type (intParams i) with
      | Some v => let* m := st buf (le_bytes 4 v) m in Ok (SR.AI_SUCCESS, m)
      | None =>
          match om_lookup type (shortParams i) with
          | Some v => let* m := st buf (le_bytes 2 v) m in Ok (SR.AI_SUCCESS, m)
          | None => Ok (SR.AI_ERROR, m)
          end
      end
  end.

End info.

Definition SetInfo (type : Z) (value : list Z) (i : ConnectionInfo) : SR.SqlResult * ConnectionInfo :=
  match om_lookup type (strParams i) with
  | Some _ => (SR.AI_SUCCESS, MkInfo (om_insert type value (strParams i)) (intParams i) (shortParams i))
  | None => (SR.AI_ERROR, i)
  end.

Definition SQL_DATA_SOURCE_NAME : Z := 2.
Definition SQL_DATABASE_NAME : Z := 16.
Definition SQL_DBMS_VER : Z := 18.
Definition SQL_USER_NAME : Z := 47.

Definition SQL_ATTR_LOGIN_TIMEOUT : Z := 103.
Definition SQL_ATTR_CONNECTION_DEAD : Z := 1209.
Definition SQL_CD_FALSE : Z := 0.
Definition SQL_CD_TRUE : Z := 1.

(** * What the other side answers *)

(** [DocumentDbError]: the code, and the message when there is one. *)
Record DocumentDbError : Type := MkError { err_code : Z; err_msg : option text }.

Definition DOCUMENTDB_SUCCESS : Z := 0.
Definition DOCUMENTDB_ERR_JVM_INIT : Z := 1.
Definition DOCUMENTDB_ERR_JNI_GET_DATABASE_METADATA : Z := 101.
Definition DOCUMENTDB_ERR_JNI_GET_DOCUMENTDB_DATABASE_METADATA : Z := 102.
Definition DOCUMENTDB_ERR_JNI_GET_DOCUMENTDB_CONNECTION_PROPERTIES : Z := 103.
Definition DOCUMENTDB_ERR_ILLEGAL_STATE : Z := 2002.
Definition DOCUMENTDB_ERR_NETWORK_FAILURE : Z := 2025.
Definition DOCUMENTDB_ERR_SECURE_CONNECTION_FAILURE : Z := 2026.

Definition no_error : DocumentDbError := MkError DOCUMENTDB_SUCCESS None.

(** [DocumentDbError(code, msg.c_str())]. *)
Definition error_of (code : Z) (msg : text) : DocumentDbError := MkError code (Some (c_str msg)).

Definition GetText (e : DocumentDbError) : text :=
  if err_code e =? DOCUMENTDB_SUCCESS then str "Operation completed successfully." else
  match err_msg e with
  | Some msg => msg
  | None => str "No additional information available."
  end.

(** An element of [versionArray]. *)
Inductive version_element : Type :=
| v_int32 (v : Z) | v_int64 (v : Z) | v_utf8 (v : text) | v_other.

(** [mongocxx::exception]: code, the text of the code, [what()]. *)
Record mongo_exception : Type := MkException { mx_code : Z; mx_message : text; mx_what : text }.

(** The answers during one call:  the class path that is found, the JVM (the class and
    the message of what keeps it from starting), the JDBC driver manager ([inr None]:
    a null connection without an exception), the SSH tunnel (whether it is active, its
    port), the client's [ping] ([ok == 1] or not) and [buildInfo] ([versionArray], when
    [ok == 1] and the array is there), and the metadata objects. *)
Record Answers : Type := MkAnswers {
  an_classpath : text;
  an_jvm : option (text * text);
  an_connection : text -> text + option Z;
  an_ssh_active : text + bool;
  an_ssh_port : text + Z;
  an_ping : text -> bool -> text -> mongo_exception + bool;
  an_build : text -> bool -> text -> mongo_exception + option (list version_element);
  an_metadata : text + Z;
  an_database_metadata : text + Z;
  an_properties : text + Z
}.

(** * The JDBC connection *)

(** [DocumentDbConnection]: whether it has a JVM, and the Java object. *)
Record JdbcConnection : Type := MkJdbc { jd_context : bool; jd_connection : option Z }.

(** The message of the error, if there is one. *)
Definition jdbc_Open (a : Answers) (c : Configuration) (j : JdbcConnection) : option text * JdbcConnection :=
  if negb (jd_context j) then (Some (str "Unable to get initialized JVM."), j) else
  match jd_connection j with
  | Some _ => (None, j)
  | None =>
      match an_connection a (c_str (ToJdbcConnectionString c)) with
      | inl msg => (Some msg, MkJdbc (jd_context j) None)
      | inr result => (None, MkJdbc (jd_context j) result)
      end
  end.

(** Closing the Java object may fail; the error is logged, and the object dropped. *)
Definition jdbc_Close (j : JdbcConnection) : JdbcConnection := MkJdbc (jd_context j) None.

Definition IsOpen (j : JdbcConnection) : bool := bool_decide (is_Some (jd_connection j)).

(** The getters of Java objects: the error's message, or the object. *)
Definition jdbc_get (unset : text) (answer : text + Z) (j : JdbcConnection) : text + Z :=
  match jd_connection j with None => inl unset | Some _ => answer end.

(** * Connections *)

Record Connection : Type := MkConnection {
  cn_config : Configuration;
  cn_logger : Logger;               (* the one logger of the process *)
  cn_context : bool;                (* [jniContext_] is valid *)
  cn_connection : option JdbcConnection;
  cn_info : ConnectionInfo;
  cn_timeout : Z;
  cn_diag : DiagnosticRecordStorage
}.

Section connection.
Context `{Host} `{Platform}.

Definition new_connection (info : ConnectionInfo) (l : Logger) : Connection :=
  MkConnection new_configuration l false None info 0 new_storage.

Definition set_config (cfg : Configuration) (l : Logger) (c : Connection) : Connection :=
  MkConnection cfg l (cn_context c) (cn_connection c) (cn_info c) (cn_timeout c) (cn_diag c).
Definition set_context (b : bool) (c : Connection) : Connection :=
  MkConnection (cn_config c) (cn_logger c) b (cn_connection c) (cn_info c) (cn_timeout c) (cn_diag c).
Definition set_jdbc (j : option JdbcConnection) (c : Connection) : Connection :=
  MkConnection (cn_config c) (cn_logger c) (cn_context c) j (cn_info c) (cn_timeout c) (cn_diag c).
Definition set_info (i : ConnectionInfo) (c : Connection) : Connection :=
  MkConnection (cn_config c) (cn_logger c) (cn_context c) (cn_connection c) i (cn_timeout c) (cn_diag c).
Definition set_diag (d : DiagnosticRecordStorage) (c : Connection) : Connection :=
  MkConnection (cn_config c) (cn_logger c) (cn_context c) (cn_connection c) (cn_info c) (cn_timeout c) d.

Definition record (st : SS.SqlState) (msg : text) (c : Connection) : Connection :=
  set_diag (AddStatusRecord false st msg (cn_diag c)) c.

Abbreviation answer := (outcome Z (SR.SqlResult * Connection * mem)).

(** [DOCUMENTDB_ODBC_API_CALL(call)]. *)
Definition conn_api (call : Connection -> mem -> answer) (c : Connection) (m : mem) : outcome Z (Connection * mem) :=
  api_call (fun cm => let* (r, c, m) := call cm.1 cm.2 in Ok (r, (c, m)))
    (fun cm => cn_diag cm.1) (fun d cm => (set_diag d cm.1, cm.2)) (c, m).

Definition InternalGetInfo (type buf buflen reslen : Z) (c : Connection) (m : mem) : answer :=
  let* (res, m) := GetInfo type buf buflen reslen (cn_info c) m in
  let c :=
    if bool_decide (res = SR.AI_SUCCESS) then c
    else record SS.SHYC00_OPTIONAL_FEATURE_NOT_IMPLEMENTED (str "Not implemented.") c in
  Ok (res, c, m).

(** ** Connecting *)

(** The context, [None] when it could not be made; and the error's class and message. *)
Definition GetJniContext (a : Answers) (c : Connection) : bool * option (text * text) * Connection :=
  if cn_context c then (true, None, c) else
  match an_classpath a with
  | [] => (false, None, c)
  | _ =>
      match an_jvm a with
      | Some err => (false, Some err, set_context false c)
      | None => (true, None, set_context true c)
      end
  end.

(** The port, 0 when there is no tunnel. *)
Definition GetInternalSSHTunnelPort (a : Answers) : DocumentDbError + Z :=
  match an_ssh_active a with
  | inl msg => inl (error_of DOCUMENTDB_ERR_JVM_INIT msg)
  | inr true =>
      match an_ssh_port a with
      | inl msg => inl (error_of DOCUMENTDB_ERR_JVM_INIT msg)
      | inr port => inr port
      end
  | inr false => inr 0
  end.

(** [std::setw(n) << std::setfill('0')]. *)
Definition zero_pad (n : nat) (s : text) : text := replicate (n - length s) 48 ++ s.

(** The case of texts falls through to the default. *)
Definition version_number (e : version_element) : Z :=
  match e with v_int32 v => v | v_int64 v => v | v_utf8 _ => 0 | v_other => 0 end.

(** The first three elements. *)
Definition version_text (es : list version_element) : text :=
  match map (fun e => show_int (version_number e)) es with
  | [] => []
  | [v0] => zero_pad 2 v0
  | [v0; v1] => zero_pad 2 v0 ++ str "." ++ zero_pad 2 v1
  | v0 :: v1 :: v2 :: _ => zero_pad 2 v0 ++ str "." ++ zero_pad 2 v1 ++ str "." ++ zero_pad 4 v2
  end.

Definition UpdateSqlDbmsVerInfo (build : option (list version_element)) (i : ConnectionInfo) : ConnectionInfo :=
  match build with
  | Some es => (SetInfo SQL_DBMS_VER (version_text es) i).2
  | None => i
  end.

Definition mongo_failure (x : mongo_exception) : DocumentDbError :=
  error_of DOCUMENTDB_ERR_SECURE_CONNECTION_FAILURE
    (str "Unable to establish connection with DocumentDB." ++ str " code: " ++ show_int (mx_code x)
     ++ str " messagge: " ++ mx_message x ++ str " cause: " ++ mx_what x).

Definition ConnectCPPDocumentDB (a : Answers) (localSSHTunnelPort : Z) (c : Connection)
    : option DocumentDbError * Connection :=
  let uri := ToMongoDbConnectionString localSSHTunnelPort (cn_config c) in
  let tls := sv_val (c_tls (cn_config c)) in
  let database := sv_val (c_database (cn_config c)) in
  match an_ping a uri tls database with
  | inl x => (Some (mongo_failure x), c)
  | inr false => (Some (error_of DOCUMENTDB_ERR_NETWORK_FAILURE (str "Unable to ping DocumentDB.")), c)
  | inr true =>
      match an_build a uri tls database with
      | inl x => (Some (mongo_failure x), c)
      | inr build => (None, set_info (UpdateSqlDbmsVerInfo build (cn_info c)) c)
      end
  end.

Definition UpdateConnectionRuntimeInfo (cfg : Configuration) (i : ConnectionInfo) : ConnectionInfo :=
  let i := (SetInfo SQL_USER_NAME (sv_val (c_user cfg)) i).2 in
  let i := (SetInfo SQL_DATABASE_NAME (sv_val (c_database cfg)) i).2 in
  (SetInfo SQL_DATA_SOURCE_NAME (GetDsn [] cfg) i).2.

(** Whether there is a connection, and the error when there is not. *)
Definition TryRestoreConnection (a : Answers) (err : DocumentDbError) (c : Connection)
    : bool * DocumentDbError * Connection :=
  match cn_connection c with
  | Some _ => (true, err, c)
  | None =>
      let '(ctx, failure, c) := GetJniContext a c in
      match failure with
      | Some (cls, msg) => (false, error_of DOCUMENTDB_ERR_JVM_INIT (cls ++ str ": " ++ msg), c)
      | None =>
          let '(open_err, conn) := jdbc_Open a (cn_config c) (MkJdbc ctx None) in
          let err :=
            match open_err with
            | Some msg => error_of DOCUMENTDB_ERR_SECURE_CONNECTION_FAILURE msg
            | None => err
            end in
          let c := set_jdbc (Some conn) c in
          if negb (IsOpen conn && bool_decide (open_err = None)) then (false, err, c) else
          match GetInternalSSHTunnelPort a with
          | inl e => (false, e, c)
          | inr port =>
              let '(failure, c) := ConnectCPPDocumentDB a port c in
              let c := set_info (UpdateConnectionRuntimeInfo (cn_config c) (cn_info c)) c in
              match failure with
              | Some e => (false, e, c)
              | None => (true, err, c)
              end
          end
      end
  end.

(** [InternalEstablish(cfg)]. *)
Definition InternalEstablish (a : Answers) (cfg : Configuration) (c : Connection) (m : mem) : answer :=
  let c := set_config cfg (cn_logger c) c in
  match cn_connection c with
  | Some _ => Ok (SR.AI_ERROR, record SS.S08002_ALREADY_CONNECTED (str "Already connected.") c, m)
  | None =>
      match Validate (cn_config c) with
      | Throw e => Ok (SR.AI_ERROR, record e.1 e.2 c, m)
      | UB => UB
      | Ok _ =>
          let '(connected, err, c) := TryRestoreConnection a no_error c in
          if negb connected then
            Ok (SR.AI_ERROR,
                record SS.S08001_CANNOT_CONNECT
                  (str "Failed to establish connection with the host." ++ [10] ++ GetText err) c, m)
          else
            Ok (if 0 <? GetStatusRecordsNumber (cn_diag c) then SR.AI_SUCCESS_WITH_INFO else SR.AI_SUCCESS, c, m)
      end
  end.

(** [InternalEstablish(connectStr, parentWindow)], without a parent window: the text
    is read into the configuration the connection already has. *)
Definition InternalEstablishText (profiles : text -> profile) (a : Answers) (connectStr : text)
    (c : Connection) (m : mem) : answer :=
  match ParseConnectionString connectStr (MkParse (cn_config c) (cn_logger c) (Some (cn_diag c))) with
  | Some (MkParse cfg l (Some d)) =>
      let* (cfg, l) :=
        if sv_set (c_dsn cfg) then ReadDsnConfiguration (profiles (c_str (GetDsn [] cfg))) cfg l else Ok (cfg, l) in
      let c := set_diag d (set_config cfg l c) in
      InternalEstablish a (cn_config c) c m
  | _ => UB
  end.

(** ** Disconnecting *)

Definition Close (c : Connection) : Connection :=
  if cn_context c then
    match cn_connection c with
    | Some _ => set_jdbc None c
    | None => c
    end
  else c.

Definition InternalRelease (c : Connection) (m : mem) : answer :=
  match cn_connection c with
  | None => Ok (SR.AI_SUCCESS_WITH_INFO, record SS.S08003_NOT_CONNECTED (str "Connection is not open.") c, m)
  | Some _ => Ok (SR.AI_SUCCESS, Close c, m)
  end.

(** ** The rest *)

(** [Connection::GetMetaData], [GetDatabaseMetadata] and [GetConnectionProperties]
    differ in the code, and in the message of a connection that is not open. *)
Definition get_object (code : Z) (unset : text) (answer : text + Z) (c : Connection) : DocumentDbError + Z :=
  match cn_connection c with
  | None => inl (error_of DOCUMENTDB_ERR_ILLEGAL_STATE (str "Must be connected."))
  | Some j =>
      match jdbc_get unset answer j with
      | inl msg => inl (error_of code msg)
      | inr o => inr o
      end
  end.

Definition GetMetaData (a : Answers) : Connection -> DocumentDbError + Z :=
  get_object DOCUMENTDB_ERR_JNI_GET_DATABASE_METADATA [] (an_metadata a).
Definition GetDatabaseMetadata (a : Answers) : Connection -> DocumentDbError + Z :=
  get_object DOCUMENTDB_ERR_JNI_GET_DOCUMENTDB_DATABASE_METADATA (str "Connection must be set.")
    (an_database_metadata a).
Definition GetConnectionProperties (a : Answers) : Connection -> DocumentDbError + Z :=
  get_object DOCUMENTDB_ERR_JNI_GET_DOCUMENTDB_CONNECTION_PROPERTIES (str "Connection must be set.")
    (an_properties a).

(** [EnsureConnected]: the exception, if any. *)
Definition EnsureConnected (a : Answers) (c : Connection) : option OdbcError * Connection :=
  match cn_connection c with
  | Some _ => (None, c)
  | None =>
      let '(success, err, c) := TryRestoreConnection a no_error c in
      if success then (None, c) else
      let msg := str "Failed to establish connection with any provided hosts" ++ [10] ++ GetText err in
      (Some (SS.S08001_CANNOT_CONNECT, msg), record SS.S08001_CANNOT_CONNECT msg c)
  end.

Definition InternalGetAttribute (attr buf valueLen : Z) (c : Connection) (m : mem) : answer :=
  if buf =? 0 then
    Ok (SR.AI_ERROR, record SS.SHY009_INVALID_USE_OF_NULL_POINTER (str "Data buffer is null.") c, m)
  else if attr =? SQL_ATTR_CONNECTION_DEAD then
    let* m := st buf (le_bytes 4 (match cn_connection c with Some _ => SQL_CD_FALSE | None => SQL_CD_TRUE end)) m in
    let* m := put_if valueLen 4 SQL_IS_INTEGER m in
    Ok (SR.AI_SUCCESS, c, m)
  else if attr =? SQL_ATTR_LOGIN_TIMEOUT then
    let* m := st buf (le_bytes 4 (u32 (sv_val (c_loginTimeoutSec (cn_config c))))) m in
    let* m := put_if valueLen 4 SQL_IS_INTEGER m in
    Ok (SR.AI_SUCCESS, c, m)
  else
    Ok (SR.AI_ERROR, record SS.SHYC00_OPTIONAL_FEATURE_NOT_IMPLEMENTED
                       (str "Specified attribute is not supported.") c, m).

(** The message names [timeout_], which nothing sets. *)
Definition RetrieveTimeout (value : Z) (c : Connection) : Z * Connection :=
  let uTimeout := u32 value in
  if INT32_MAX <? uTimeout then
    (INT32_MAX,
     record SS.S01S02_OPTION_VALUE_CHANGED
       (str "Value is too big: " ++ show_int uTimeout ++ str ", changing to " ++ show_int (cn_timeout c) ++ str ".") c)
  else (i32 uTimeout, c).

Definition InternalSetAttribute (attr value : Z) (c : Connection) (m : mem) : answer :=
  if attr =? SQL_ATTR_CONNECTION_DEAD then
    Ok (SR.AI_ERROR, record SS.SHY092_OPTION_TYPE_OUT_OF_RANGE (str "Attribute is read only.") c, m)
  else if attr =? SQL_ATTR_LOGIN_TIMEOUT then
    let '(timeout, c) := RetrieveTimeout value c in
    let c := set_config (SetLoginTimeoutSeconds timeout (cn_config c)) (cn_logger c) c in
    Ok (if negb (GetStatusRecordsNumber (cn_diag c) =? 0) then SR.AI_SUCCESS_WITH_INFO else SR.AI_SUCCESS, c, m)
  else
    Ok (SR.AI_ERROR, record SS.SHYC00_OPTIONAL_FEATURE_NOT_IMPLEMENTED
                       (str "Specified attribute is not supported.") c, m).

(** A new statement of the connection, at the address [this]. *)
Definition InternalCreateStatement {Q} (this : Z) : SR.SqlResult * Statement Q :=
  (SR.AI_SUCCESS, new_statement this).

(** The public operations. *)
Inductive connection_call : Type :=
| cc_get_info (type buf buflen reslen : Z)
| cc_establish_text (a : Answers) (connectStr : text)
| cc_establish (a : Answers) (cfg : Configuration)
| cc_release
| cc_get_attribute (attr buf valueLen : Z)
| cc_set_attribute (attr value : Z).

Definition connection_call_of (profiles : text -> profile) (k : connection_call) : Connection -> mem -> answer :=
  match k with
  | cc_get_info type buf buflen reslen => InternalGetInfo type buf buflen reslen
  | cc_establish_text a s => InternalEstablishText profiles a s
  | cc_establish a cfg => InternalEstablish a cfg
  | cc_release => InternalRelease
  | cc_get_attribute attr buf valueLen => InternalGetAttribute attr buf valueLen
  | cc_set_attribute attr value => InternalSetAttribute attr value
  end.

Definition connection_step (profiles : text -> profile) (k : connection_call) (c : Connection) (m : mem)
    : outcome Z (Connection * mem) := conn_api (connection_call_of profiles k) c m.

End connection.

(** * Environments *)

Definition SQL_ATTR_ODBC_VERSION : Z := 200.
Definition SQL_ATTR_OUTPUT_NTS : Z := 10001.
Definition SQL_OV_ODBC3 : Z := 3.

Module EA.

(** [EnvironmentAttribute::Type]. *)
Inductive EnvironmentAttribute : Type := ODBC_VERSION | OUTPUT_NTS | UNKNOWN.

End EA.

Definition EnvironmentAttributeToInternal (attr : Z) : EA.EnvironmentAttribute :=
  if attr =? SQL_ATTR_ODBC_VERSION then EA.ODBC_VERSION
  else if attr =? SQL_ATTR_OUTPUT_NTS then EA.OUTPUT_NTS
  else EA.UNKNOWN.

(** The connections are a set of pointers. *)
Record Environment : Type := MkEnvironment {
  connections : gset Z;
  odbcVersion : Z;
  odbcNts : Z;
  env_diag : DiagnosticRecordStorage
}.

Definition new_environment : Environment := MkEnvironment ∅ SQL_OV_ODBC3 SQL_TRUE new_storage.

Definition env_record (st : SS.SqlState) (msg : text) (e : Environment) : Environment :=
  MkEnvironment (connections e) (odbcVersion e) (odbcNts e) (AddStatusRecord false st msg (env_diag e)).

Definition env_InternalCreateConnection (this : Z) (e : Environment) : SR.SqlResult * Environment :=
  (SR.AI_SUCCESS, MkEnvironment ({[ this ]} ∪ connections e) (odbcVersion e) (odbcNts e) (env_diag e)).

Definition DeregisterConnection (this : Z) (e : Environment) : Environment :=
  MkEnvironment (connections e ∖ {[ this ]}) (odbcVersion e) (odbcNts e) (env_diag e).

Definition env_InternalSetAttribute (attr value : Z) (e : Environment) : SR.SqlResult * Environment :=
  match EnvironmentAttributeToInternal attr with
  | EA.ODBC_VERSION =>
      if negb (i32 value =? odbcVersion e)
      then (SR.AI_SUCCESS_WITH_INFO,
            env_record SS.S01S02_OPTION_VALUE_CHANGED (str "ODBC version is not supported.") e)
      else (SR.AI_SUCCESS, e)
  | EA.OUTPUT_NTS =>
      if negb (i32 value =? odbcNts e)
      then (SR.AI_SUCCESS_WITH_INFO,
            env_record SS.S01S02_OPTION_VALUE_CHANGED
              (str "Only null-termination of strings is supported.") e)
      else (SR.AI_SUCCESS, e)
  | EA.UNKNOWN =>
      (SR.AI_ERROR, env_record SS.SHYC00_OPTIONAL_FEATURE_NOT_IMPLEMENTED (str "Attribute is not supported.") e)
  end.

Definition env_InternalGetAttribute `{Platform} `{Calendar} (attr : Z) (buffer : ApplicationDataBuffer) (e : Environment) (m : mem)
    : outcome Z (SR.SqlResult * Environment * mem) :=
  match EnvironmentAttributeToInternal attr with
  | EA.ODBC_VERSION => let* (_, m) := PutInt32 buffer (odbcVersion e) m in Ok (SR.AI_SUCCESS, e, m)
  | EA.OUTPUT_NTS => let* (_, m) := PutInt32 buffer (odbcNts e) m in Ok (SR.AI_SUCCESS, e, m)
  | EA.UNKNOWN =>
      Ok (SR.AI_ERROR,
          env_record SS.SHYC00_OPTIONAL_FEATURE_NOT_IMPLEMENTED (str "Attribute is not supported.") e, m)
  end.
