(* ===== verification/ConnProps.v ===== *)
(** Properties of connections: the parser of connection strings returns on every text
    and keeps the types of the configuration; the states a connection goes through,
    and the one it never leaves; connecting with the text of a configuration. *)
From S2P Require Import Prelude OrdMap Memory Utf8 BigText TypeTraits Chrono AppBuffer AppRead Diag SqlLex Params.
From S2P Require Import Statement Config ConfigParse ConfigProps ConfigRound Connection.

(** * The parser on arbitrary texts *)

(** Warnings are added, nothing is taken away. *)
Inductive warned (d : diag_ptr) : diag_ptr -> Prop :=
| warned_none : warned d d
| warned_more d' msg : warned d d' -> warned d (warn msg d').

Create HintDb conn.
#[export] Hint Constructors warned : conn.

#[export] Instance warned_preorder : PreOrder warned.
Proof.
  split; [constructor|]. intros a b c Hab Hbc. induction Hbc; [done|by constructor].
Qed.

Lemma warned_one d msg : warned d (warn msg d).
Proof. auto with conn. Qed.
#[export] Hint Resolve warned_one : conn.

(** The fields have the values of their types; [UNKNOWN] is none of them. *)
Definition typed (c : Configuration) : Prop :=
  inU 16 (sv_val (c_port c)) /\ inS 32 (sv_val (c_loginTimeoutSec c)) /\ inS 32 (sv_val (c_scanLimit c))
  /\ inS 32 (sv_val (c_defaultFetchSize c)) /\ sv_val (c_readPreference c) <> RP.UNKNOWN
  /\ sv_val (c_logLevel c) <> LL.UNKNOWN /\ sv_val (c_scanMethod c) <> SM.UNKNOWN.

Definition step_ok (s s' : ParseState) : Prop :=
  warned (pr_diag s) (pr_diag s') /\ (typed (pr_cfg s) -> typed (pr_cfg s')).

#[export] Instance step_ok_preorder : PreOrder step_ok.
Proof.
  split; [by split|]. intros a b c [H1 H2] [H3 H4]. split; [by transitivity (pr_diag b)|auto].
Qed.

Lemma inU_u16 z : inU 16 (u16 z).
Proof. unfold u16, inU, wrapU. apply Z.mod_pos_bound. reflexivity. Qed.

Lemma inS_i32 z : inS 32 (i32 z).
Proof. unfold i32. apply wrapS_range. lia. Qed.
#[export] Hint Resolve inU_u16 inS_i32 : conn.

Ltac typed_fields := intros (? & ? & ? & ? & ? & ? & ?); unfold typed; cbn; split_and!; done.

Section parser.
Context `{Host}.

Lemma step_cfg f s : (typed (pr_cfg s) -> typed (f (pr_cfg s))) -> step_ok s (on_cfg f s).
Proof. intros Hf. by split. Qed.

Lemma step_warn msg s : step_ok s (on_diag (warn msg) s).
Proof. split; [apply warned_one|done]. Qed.

Lemma step_bool set key value s :
  (forall b, typed (pr_cfg s) -> typed (set b (pr_cfg s))) -> step_ok s (set_bool set key value s).
Proof. intros Hs. unfold set_bool. destruct (StringToBool value); [apply step_cfg; auto..|apply step_warn]. Qed.

Lemma step_number set unexpected large range least key value s :
  (forall n, inS 32 n -> typed (pr_cfg s) -> typed (set n (pr_cfg s))) ->
  step_ok s (set_number set unexpected large range least key value s).
Proof.
  intros Hs. unfold set_number. repeat case_match; try apply step_warn. apply step_cfg. apply Hs, inS_i32.
Qed.

Lemma ParsePort_typed v d p d' : ParsePort v d = (p, d') -> inU 16 p /\ warned d d'.
Proof.
  unfold ParsePort. intros Hp. repeat case_match; simplify_eq; split; auto with conn; by widths.
Qed.

Lemma ParsePortRange_typed v p r d ok p' r' d' :
  ParsePortRange v p r d = (ok, p', r', d') -> inU 16 p -> inU 16 p' /\ warned d d'.
Proof.
  unfold ParsePortRange. intros Hp Hin.
  repeat case_match; simplify_eq; repeat match goal with E : ParsePort _ _ = _ |- _ => apply ParsePort_typed in E as [? ?] end;
    (split; [done|]); try done; try apply warned_one; try apply warned_more; etransitivity; eassumption.
Qed.

Lemma ParseSingleAddress_typed v e d ok e' d' :
  ParseSingleAddress v e d = (ok, e', d') -> inU 16 (ep_port e) -> inU 16 (ep_port e') /\ warned d d'.
Proof.
  unfold ParseSingleAddress. intros Hp Hin. repeat case_match; simplify_eq; cbn [ep_port];
    try (split; [done|auto with conn; fail]).
  match goal with E : ParsePortRange _ _ _ _ = _ |- _ => by apply ParsePortRange_typed in E end.
Qed.

Lemma step_hostname v s : step_ok s (set_hostname v s).
Proof.
  unfold set_hostname. destruct (ParseSingleAddress v new_end_point (pr_diag s)) as [[ok e] d] eqn:E.
  apply ParseSingleAddress_typed in E as [Hp Hd]; [|by widths]. split; [done|].
  cbn [pr_cfg]. case_match; typed_fields.
Qed.

Lemma step_port key value s : step_ok s (set_port key value s).
Proof.
  unfold set_port. destruct value; [apply step_warn|].
  repeat case_match; first [apply step_warn|apply step_cfg]. pose proof inU_u16. typed_fields.
Qed.

Lemma step_credential old set msg value s :
  (typed (pr_cfg s) -> typed (set value (pr_cfg s))) -> step_ok s (set_credential old set msg value s).
Proof.
  intros Hs. unfold set_credential. destruct (sv_val old); [by apply step_cfg|].
  transitivity (on_diag (warn msg) s); [apply step_warn|by apply step_cfg].
Qed.

Lemma step_log f s : (typed (pr_cfg s) -> typed (f (pr_cfg s, pr_log s)).1) -> step_ok s (on_cfg_log f s).
Proof. intros Hf. unfold on_cfg_log. destruct (f _) as [c l] eqn:E. by split. Qed.

Lemma handle_ok k key value s : step_ok s (handle k key value s).
Proof.
  destruct k; cbn [handle];
    first [apply step_hostname
          |apply step_port
          |apply step_cfg; typed_fields
          |apply step_bool; intros b; typed_fields
          |apply step_number; intros n Hn; typed_fields
          |apply step_credential; typed_fields
          |case_match; first [apply step_warn|apply step_cfg; typed_fields|apply step_log; typed_fields]
          |apply step_log; unfold SetLogPath; case_match; typed_fields].
Qed.

Lemma HandleAttributePair_ok key value s : step_ok s (HandleAttributePair key value s).
Proof. unfold HandleAttributePair. case_match; [apply handle_ok|apply step_warn]. Qed.

Lemma rfind_bound c s p : rfind c s = Some p -> (p < length s)%nat.
Proof.
  revert p. induction s as [|a s IH]; intros p Hp; cbn in *; [done|].
  repeat case_match; simplify_eq; try lia. specialize (IH _ eq_refl). lia.
Qed.

Lemma parse_ok text delimiter s :
  exists s', ParseDelimited text delimiter s = Some s' /\ step_ok s s'.
Proof.
  unfold ParseDelimited. set (t := rev (drop_zeros (rev text))).
  apply (while_total (connect_pass delimiter) (fun ts => step_ok s ts.2) (step_ok s) (fun ts => length ts.1));
    [done|cbn; lia|].
  intros [t' s'] Hs. cbn [fst snd] in *. unfold connect_pass. destruct t' as [|a t'']; [done|].
  set (u := a :: t'') in *. set (s'' := if Nat.ltb _ _ then _ else s').
  assert (step_ok s s'') as Hs'' by (subst s''; case_match; [etransitivity; [exact Hs|apply HandleAttributePair_ok]|done]).
  destruct (rfind delimiter u) as [p|] eqn:E; [|done]. apply rfind_bound in E.
  split; [done|]. cbn [fst]. rewrite length_take. lia.
Qed.

End parser.

(** C39: The parser of connection strings is total: on every text and with every
    delimiter it returns, within as many passes as the text has characters; it only
    adds warnings to the diagnostics, and every field of the configuration keeps a
    value of its type: the port is 16 bits wide, numbers are 32-bit, and the read
    preference, log level and scan method are never the one called unknown. *)
Theorem parser_total `{Host} text delimiter c l d :
  exists c' l' d', ParseDelimited text delimiter (MkParse c l d) = Some (MkParse c' l' d')
    /\ warned d d' /\ (typed c -> typed c').
Proof. destruct (parse_ok text delimiter (MkParse c l d)) as ([c' l' d'] & E & Hd & Ht). eauto 10. Qed.

Lemma parser_total_witness :
  exists c' l' d', ParseDelimited (str "PORT=99999;=;scan_limit=4294967295") 59
      (MkParse new_configuration (MkLogger LL.OFF []) (Some new_storage)) = Some (MkParse c' l' d')
    /\ warned (Some new_storage) d' /\ typed c'.
Proof.
  destruct (parser_total (str "PORT=99999;=;scan_limit=4294967295") 59 new_configuration (MkLogger LL.OFF [])
              (Some new_storage)) as (c' & l' & d' & E & Hd & Ht).
  exists c', l', d'. split; [exact E|split; [exact Hd|]]. apply Ht. split_and!; done.
Defined.

(** * The states of a connection *)

(** Neither JVM nor connection; a JVM but no connection; a Java connection; a
    connection object whose Java connection was not made; one without a JVM. *)
Inductive phase : Type := ph_new | ph_closed | ph_open | ph_half | ph_lost.

#[export] Instance phase_eq_dec : EqDecision phase.
Proof. solve_decision. Defined.

Definition phase_of (c : Connection) : phase :=
  match cn_connection c, cn_context c with
  | None, false => ph_new
  | None, true => ph_closed
  | Some _, false => ph_lost
  | Some j, true => if IsOpen j then ph_open else ph_half
  end.

(** The connection object is there. *)
Definition linked (p : phase) : bool := match p with ph_new | ph_closed => false | _ => true end.

Definition establishes (k : connection_call) : bool :=
  match k with cc_establish_text _ _ | cc_establish _ _ => true | _ => false end.
Definition releases (k : connection_call) : bool := match k with cc_release => true | _ => false end.

(** What a call may do, with the result it reports. *)
Inductive phase_step : connection_call -> phase -> SR.SqlResult -> phase -> Prop :=
| step_attribute k p r : establishes k = false -> releases k = false -> phase_step k p r p
| step_refused k p : establishes k = true -> phase_step k p SR.AI_ERROR p
| step_no_jvm k : establishes k = true -> phase_step k ph_new SR.AI_ERROR ph_lost
| step_no_java k p : establishes k = true -> linked p = false -> phase_step k p SR.AI_ERROR ph_half
| step_no_server k p : establishes k = true -> linked p = false -> phase_step k p SR.AI_ERROR ph_open
| step_connected k p r :
    establishes k = true -> linked p = false -> r = SR.AI_SUCCESS \/ r = SR.AI_SUCCESS_WITH_INFO ->
    phase_step k p r ph_open
| step_release_none p : linked p = false -> phase_step cc_release p SR.AI_SUCCESS_WITH_INFO p
| step_release p : p = ph_open \/ p = ph_half -> phase_step cc_release p SR.AI_SUCCESS ph_closed
| step_release_lost : phase_step cc_release ph_lost SR.AI_SUCCESS ph_lost.

(** A connection object has the JVM the handle has; without it there is no Java
    connection. *)
Definition connection_ok (c : Connection) : Prop :=
  match cn_connection c with
  | Some j => jd_context j = cn_context c /\ (jd_context j = false -> jd_connection j = None)
  | None => True
  end.

Section phases.
Context `{Host} `{Platform}.

(** Records and configurations do not matter to the state. *)
Definition same_link (c c' : Connection) : Prop :=
  cn_connection c' = cn_connection c /\ cn_context c' = cn_context c.

Lemma same_link_phase c c' : same_link c c' -> phase_of c' = phase_of c /\ (connection_ok c -> connection_ok c').
Proof. intros [E1 E2]. unfold phase_of, connection_ok. by rewrite E1, E2. Qed.

Lemma context_facts a c ctx failure c' :
  GetJniContext a c = (ctx, failure, c') ->
  cn_connection c' = cn_connection c /\ cn_diag c' = cn_diag c /\ cn_config c' = cn_config c
  /\ match failure with
     | Some _ => cn_context c' = cn_context c
     | None => cn_context c' = ctx /\ (ctx = false -> cn_context c = false)
     end.
Proof.
  unfold GetJniContext. destruct (cn_context c) eqn:Ec; [|destruct (an_classpath a); [|destruct (an_jvm a)]];
    intros E; simplify_eq; cbn; rewrite ?Ec; split_and!; done.
Qed.

Lemma open_facts a cfg ctx e j :
  jdbc_Open a cfg (MkJdbc ctx None) = (e, j) ->
  jd_context j = ctx /\ (e <> None -> jd_connection j = None) /\ (ctx = false -> jd_connection j = None).
Proof. unfold jdbc_Open. cbn. destruct ctx; [destruct (an_connection _ _)|]; intros E; simplify_eq; cbn; naive_solver. Qed.

Lemma connect_cpp_facts a port c e c' :
  ConnectCPPDocumentDB a port c = (e, c') -> same_link c c' /\ cn_diag c' = cn_diag c.
Proof. unfold ConnectCPPDocumentDB. repeat case_match; intros E; by simplify_eq. Qed.

Lemma linked_facts c j :
  cn_connection c = Some j -> jd_context j = cn_context c -> (jd_context j = false -> jd_connection j = None) ->
  connection_ok c /\ phase_of c = (if cn_context c then if IsOpen j then ph_open else ph_half else ph_lost).
Proof. intros E1 E2 E3. unfold connection_ok, phase_of. rewrite E1. split; [done|]. by destruct (cn_context c). Qed.

Lemma try_restore_phase a err c b err' c' :
  cn_connection c = None -> TryRestoreConnection a err c = (b, err', c') ->
  connection_ok c'
  /\ (if b then phase_of c' = ph_open
      else same_link c c' \/ phase_of c' = ph_half \/ phase_of c' = ph_open
           \/ (phase_of c = ph_new /\ phase_of c' = ph_lost))
  /\ cn_diag c' = cn_diag c.
Proof.
  intros Hc. unfold TryRestoreConnection. rewrite Hc.
  destruct (GetJniContext a c) as [[ctx failure] c1] eqn:Ectx. apply context_facts in Ectx as (Hj & Hd & _ & Hf).
  destruct failure as [[cls msg]|].
  { intros E. simplify_eq. unfold connection_ok. rewrite Hj, Hc. split_and!; [done|left; split; congruence|done]. }
  destruct Hf as [Hctx Hnew]. destruct (jdbc_Open a (cn_config c1) (MkJdbc ctx None)) as [oerr j] eqn:Eo.
  apply open_facts in Eo as (Hjc & Hoe & Hjn).
  destruct (linked_facts (set_jdbc (Some j) c1) j) as [Hok Hph]; [done|cbn; congruence|intros ?; apply Hjn; congruence|].
  cbn [cn_context set_jdbc] in Hph. rewrite Hctx in Hph.
  assert (cn_diag (set_jdbc (Some j) c1) = cn_diag c) as Hd2 by done.
  set (c2 := set_jdbc (Some j) c1) in *.
  destruct (IsOpen j && bool_decide (oerr = None)) eqn:Eopen; cbn [negb].
  - apply andb_prop in Eopen as [Ej _]. rewrite Ej in Hph. assert (ctx = true) as ->.
    { destruct ctx; [done|]. unfold IsOpen in Ej. by rewrite Hjn in Ej. }
    destruct (GetInternalSSHTunnelPort a) as [e|port].
    { intros E. simplify_eq. tauto. }
    destruct (ConnectCPPDocumentDB a port c2) as [e c3] eqn:Em. apply connect_cpp_facts in Em as [Hs Hd3].
    destruct (same_link_phase c2 (set_info (UpdateConnectionRuntimeInfo (cn_config c3) (cn_info c3)) c3)) as [Hp3 Hok3];
      [by destruct Hs|].
    intros E. destruct e; simplify_eq; (split; [auto|split; [rewrite Hp3; auto|cbn; congruence]]).
  - intros E. injection E as <- _ <-. split; [done|split; [|done]]. rewrite Hph. destruct ctx.
    + destruct (IsOpen j); tauto.
    + right. right. right. split; [|done]. unfold phase_of. by rewrite Hc, Hnew.
Qed.

(** Within a call that connects, [old] is the handle before it. *)
Lemma establish_phase a cfg old c m r c' m' :
  same_link old c -> connection_ok old -> InternalEstablish a cfg c m = Ok (r, c', m') ->
  connection_ok c'
  /\ ((r = SR.AI_ERROR /\ (phase_of c' = phase_of old
                           \/ linked (phase_of old) = false
                              /\ (phase_of c' = ph_half \/ phase_of c' = ph_open
                                  \/ (phase_of old = ph_new /\ phase_of c' = ph_lost))))
      \/ ((r = SR.AI_SUCCESS \/ r = SR.AI_SUCCESS_WITH_INFO)
          /\ linked (phase_of old) = false /\ phase_of c' = ph_open)).
Proof.
  intros Hs Hok. unfold InternalEstablish. set (c1 := set_config cfg (cn_logger c) c).
  assert (same_link old c1) as Hs1 by done. destruct (same_link_phase _ _ Hs1) as [Hp1 Hok1].
  destruct (cn_connection c1) as [j|] eqn:Ej.
  { intros E. simplify_eq. destruct (same_link_phase old (record SS.S08002_ALREADY_CONNECTED (str "Already connected.") c1)); auto. }
  destruct (Validate (cn_config c1)) as [v|e|]; [|intros E; simplify_eq..].
  2:{ destruct (same_link_phase old (record e.1 e.2 c1)); auto. }
  assert (linked (phase_of old) = false) as Hl.
  { rewrite <- Hp1. unfold phase_of. rewrite Ej. by destruct (cn_context c1). }
  destruct (TryRestoreConnection a no_error c1) as [[b err] c2] eqn:Et.
  apply try_restore_phase in Et as (Hok2 & Hph & _); [|done]. destruct b; cbn [negb].
  - intros E. simplify_eq. split; [done|]. right. split; [case_match; auto|done].
  - intros E. injection E as <- <- _. set (c3 := record _ _ c2).
    destruct (same_link_phase c2 c3) as [-> Hok3]; [done|].
    split; [auto|]. left. split; [done|]. rewrite <- Hp1 in *.
    destruct Hph as [Hsame|Hph]; [left; by apply same_link_phase|auto].
Qed.

Lemma warned_some d d' : warned (Some d) d' -> exists d2, d' = Some d2.
Proof. induction 1 as [|d' msg _ [d2 ->]]; cbn; eauto. Qed.

Lemma establish_text_cases profiles a s c m r c' m' :
  InternalEstablishText profiles a s c m = Ok (r, c', m') ->
  exists cfg c1, same_link c c1 /\ InternalEstablish a cfg c1 m = Ok (r, c', m').
Proof.
  unfold InternalEstablishText. destruct (ParseConnectionString _ _) as [[cfg l [d|]]|]; try done. intros E.
  match type of E with (obind ?x _) = _ => destruct x as [[cfg2 l2]|e|] eqn:Er; cbn [obind] in E; try done end.
  eexists _, _. split; [|exact E]. done.
Qed.

(** Calls that neither connect nor release. *)
Lemma attribute_link profiles k c m r c' m' :
  establishes k = false -> releases k = false -> connection_call_of profiles k c m = Ok (r, c', m') -> same_link c c'.
Proof.
  destruct k as [type buf buflen reslen|a s|a cfg| |attr buf len|attr v]; try done; intros _ _; cbn [connection_call_of].
  - unfold InternalGetInfo. destruct (GetInfo _ _ _ _ _ _) as [[res m1]|e|]; cbn [obind]; try done.
    intros E. simplify_eq. by case_match.
  - unfold InternalGetAttribute. repeat case_match; try (intros E; by simplify_eq);
      destruct (st _ _ _) as [m1|e|]; cbn [obind]; try done; destruct (put_if _ _ _ _); cbn [obind]; try done;
      intros E; by simplify_eq.
  - unfold InternalSetAttribute, RetrieveTimeout. repeat case_match; intros E; simplify_eq; by repeat case_match.
Qed.

Lemma release_phase c m r c' m' :
  connection_ok c -> InternalRelease c m = Ok (r, c', m') ->
  connection_ok c' /\ phase_step cc_release (phase_of c) r (phase_of c').
Proof.
  intros Hok. unfold InternalRelease, Close. destruct (cn_connection c) as [j|] eqn:Ej.
  - intros E. simplify_eq. destruct (cn_context c) eqn:Ec.
    + split; [done|]. unfold phase_of. cbn. rewrite Ej, Ec. destruct (IsOpen j); apply step_release; auto.
    + split; [done|]. unfold phase_of. rewrite Ej, Ec. apply step_release_lost.
  - intros E. simplify_eq. split; [done|]. unfold phase_of. cbn. rewrite Ej.
    destruct (cn_context c); by apply step_release_none.
Qed.

Lemma call_phase profiles k c m r c' m' :
  connection_ok c -> connection_call_of profiles k c m = Ok (r, c', m') ->
  connection_ok c' /\ phase_step k (phase_of c) r (phase_of c').
Proof.
  intros Hok Hcall. destruct (releases k) eqn:Er.
  { destruct k; try done. by apply (release_phase c m r c' m'). }
  destruct (establishes k) eqn:Ee.
  - assert (exists a cfg c1, same_link c c1 /\ InternalEstablish a cfg c1 m = Ok (r, c', m')) as (a & cfg & c1 & Hs & E).
    { destruct k; try done; cbn [connection_call_of] in Hcall;
        [apply establish_text_cases in Hcall as (? & ? & ? & ?); eauto|]. by eexists _, _, c. }
    destruct (establish_phase a cfg c c1 m r c' m') as [Hok' Hph]; [done..|]. split; [done|].
    destruct Hph as [[-> [->|[Hl [->|[->|[-> ->]]]]]]|[Hr [Hl ->]]]; by constructor.
  - destruct (same_link_phase c c') as [-> Hok']; [by eapply attribute_link|]. split; [auto|by constructor].
Qed.

Lemma step_phase profiles k c m c' m' :
  connection_ok c -> connection_step profiles k c m = Ok (c', m') ->
  connection_ok c' /\ phase_step k (phase_of c) (result (cn_diag c')) (phase_of c').
Proof.
  intros Hok. unfold connection_step, conn_api, api_call. cbn [fst snd]. set (c0 := set_diag _ c).
  assert (same_link c c0) as Hs by done. destruct (same_link_phase _ _ Hs) as [<- Hok0].
  destruct (connection_call_of profiles k c0 m) as [[[r c1] m1]|e|] eqn:E; cbn [obind]; try done.
  intros E'. cbn in E'. simplify_eq. apply call_phase in E as [Hok1 Hst]; [|auto]. done.
Qed.

End phases.

(** C8: A connection goes through its states as the machine [phase_step] says, whatever
    the application calls and whatever the other side answers: each call that returns
    is a step of the machine with the result it reports, and keeps the connection
    object's JVM equal to the handle's. *)
Theorem connection_phases `{Host} `{Platform} profiles k c m c' m' :
  connection_ok c -> connection_step profiles k c m = Ok (c', m') ->
  connection_ok c' /\ phase_step k (phase_of c) (result (cn_diag c')) (phase_of c').
Proof. apply step_phase. Qed.

(** A platform and answers for the witnesses: everything works, or there is no class
    path. *)
Definition good_answers : Answers :=
  MkAnswers (str "/opt/documentdb.jar") None (fun _ => inr (Some 1)) (inr false) (inr 0) (fun _ _ _ => inr true)
    (fun _ _ _ => inr (Some [v_int32 4; v_int32 0; v_int32 0])) (inr 2) (inr 3) (inr 4).
Definition no_classpath (a : Answers) : Answers :=
  MkAnswers [] (an_jvm a) (an_connection a) (an_ssh_active a) (an_ssh_port a) (an_ping a) (an_build a)
    (an_metadata a) (an_database_metadata a) (an_properties a).
Definition sample_info : ConnectionInfo :=
  MkInfo [(SQL_DATA_SOURCE_NAME, []); (SQL_DATABASE_NAME, []); (SQL_DBMS_VER, []); (SQL_USER_NAME, [])] [] [].
Definition sample_login : Configuration :=
  SetPassword (str "secret") (SetDatabase (str "db") sample_configuration).
Definition no_profile : text -> profile := fun _ _ => None.
Definition sample_connection : Connection := new_connection sample_info (MkLogger LL.OFF []).

(** The handle after a call. *)
Definition after (k : connection_call) (c : Connection) : Connection :=
  match connection_step no_profile k c ∅ with Ok (c', _) => c' | _ => c end.

Lemma connection_phases_witness :
  let k := cc_establish good_answers sample_login in
  phase_step k (phase_of sample_connection) (result (cn_diag (after k sample_connection)))
    (phase_of (after k sample_connection))
  /\ phase_of (after k sample_connection) = ph_open.
Proof.
  intros k. split; [|vm_compute; reflexivity].
  apply (connection_phases no_profile k sample_connection ∅ (after k sample_connection) ∅ I).
  vm_compute. reflexivity.
Defined.

(** * A handle that cannot be used again *)

Section runs.
Context `{Host} `{Platform}.

(** The calls of an application, one after the other. *)
Fixpoint run_calls (profiles : text -> profile) (ks : list connection_call) (c : Connection) (m : mem)
    : outcome Z (Connection * mem) :=
  match ks with
  | [] => Ok (c, m)
  | k :: ks => let* (c, m) := connection_step profiles k c m in run_calls profiles ks c m
  end.

(** Once linked, only a release unlinks; and not from [ph_lost]. *)
Lemma phase_kept k p r p' :
  phase_step k p r p' -> linked p = true -> releases k = false \/ p = ph_lost -> p' = p.
Proof.
  destruct 1; intros Hl Hr; try done; try congruence.
  destruct Hr as [Hr| ->]; [done|]. by match goal with Hp : _ \/ _ |- _ => destruct Hp end.
Qed.

Lemma run_kept profiles ks c m c' m' :
  connection_ok c -> linked (phase_of c) = true ->
  Forall (fun k => releases k = false) ks \/ phase_of c = ph_lost ->
  run_calls profiles ks c m = Ok (c', m') -> connection_ok c' /\ phase_of c' = phase_of c.
Proof.
  revert c m. induction ks as [|k ks IH]; intros c m Hok Hl Hks E; cbn in E; [by simplify_eq|].
  destruct (connection_step profiles k c m) as [[c1 m1]|e|] eqn:Es; cbn [obind] in E; try done.
  apply step_phase in Es as [Hok1 Hst]; [|done].
  assert (phase_of c1 = phase_of c) as Hp.
  { apply (phase_kept _ _ _ _ Hst Hl). destruct Hks as [Hf|]; [left; by inversion Hf|by right]. }
  rewrite <- Hp. apply (IH c1 m1); rewrite ?Hp; try done. destruct Hks as [Hf|]; [left; by inversion Hf|by right].
Qed.

Definition refusal : DiagnosticRecord := new_record SS.S08002_ALREADY_CONNECTED (str "Already connected.") [] [] 0 0.

Definition failure (msg : text) : DiagnosticRecord :=
  new_record SS.S08001_CANNOT_CONNECT
    (str "Failed to establish connection with the host." ++ [10] ++ c_str msg) [] [] 0 0.

(** A linked handle answers a request to connect with [08002]. *)
Lemma linked_refuses profiles a cfg c m :
  linked (phase_of c) = true ->
  exists c', connection_step profiles (cc_establish a cfg) c m = Ok (c', m)
    /\ result (cn_diag c') = SR.AI_ERROR /\ statusRecords (cn_diag c') = [refusal]
    /\ cn_connection c' = cn_connection c.
Proof.
  intros Hl. assert (exists j, cn_connection c = Some j) as [j Ej].
  { unfold phase_of in Hl. destruct (cn_connection c); [eauto|]. by destruct (cn_context c). }
  unfold connection_step, conn_api, api_call. cbn [fst snd connection_call_of].
  unfold InternalEstablish. cbn [cn_connection set_config set_diag]. rewrite Ej. cbn [obind].
  eexists. by split_and!.
Qed.

(** What an attempt that fails before the server is asked leaves behind. *)
Lemma open_fails profiles a cfg c m ctx c1 msg :
  cn_connection c = None -> Validate cfg = Ok tt ->
  GetJniContext a (set_config cfg (cn_logger c) (set_diag (storage_Reset (cn_diag c)) c)) = (ctx, None, c1) ->
  jdbc_Open a cfg (MkJdbc ctx None) = (Some msg, MkJdbc ctx None) ->
  exists c', connection_step profiles (cc_establish a cfg) c m = Ok (c', m)
    /\ result (cn_diag c') = SR.AI_ERROR /\ statusRecords (cn_diag c') = [failure msg]
    /\ cn_connection c' = Some (MkJdbc ctx None) /\ cn_context c' = ctx.
Proof.
  intros Hc Hv Hctx Ho. pose proof (context_facts _ _ _ _ _ Hctx) as (_ & Hd & Hcfg & Hcc & _).
  unfold connection_step, conn_api, api_call. cbn [fst snd connection_call_of]. unfold InternalEstablish.
  set (c0 := set_config _ _ _) in *. assert (cn_connection c0 = None) as Hc0 by done.
  assert (cn_config c0 = cfg) as Hcfg0 by done. unfold TryRestoreConnection.
  rewrite Hc0, Hcfg0, Hv, Hctx. rewrite Hcfg0 in Hcfg. rewrite Hcfg, Ho. cbn.
  eexists. split_and!; [reflexivity|done| |done|done]. cbn. rewrite Hd. done.
Qed.

Lemma linked_some c j : cn_connection c = Some j -> linked (phase_of c) = true.
Proof. intros E. unfold phase_of. rewrite E. destruct (cn_context c); [|done]. by destruct (IsOpen _). Qed.

End runs.

(** An attempt to connect that the JDBC driver refuses is reported with the driver's
    message, and leaves its connection object in the handle.  From then on, until the
    application disconnects, every further attempt is refused as already connected,
    whatever was called in between, and the handle reports that the connection is
    alive. *)
Theorem failed_connect_sticks `{Host} `{Platform} profiles a cfg c m msg buf :
  cn_connection c = None -> cn_context c = true \/ (an_classpath a <> [] /\ an_jvm a = None) ->
  Validate cfg = Ok tt -> an_connection a (c_str (ToJdbcConnectionString cfg)) = inl msg -> buf <> 0 ->
  exists c1, connection_step profiles (cc_establish a cfg) c m = Ok (c1, m)
    /\ result (cn_diag c1) = SR.AI_ERROR /\ statusRecords (cn_diag c1) = [failure msg]
    /\ forall ks m1 c2 m2, Forall (fun k => releases k = false) ks -> run_calls profiles ks c1 m1 = Ok (c2, m2) ->
       (forall a' cfg' m', exists c3, connection_step profiles (cc_establish a' cfg') c2 m' = Ok (c3, m')
          /\ result (cn_diag c3) = SR.AI_ERROR /\ statusRecords (cn_diag c3) = [refusal])
       /\ InternalGetAttribute SQL_ATTR_CONNECTION_DEAD buf 0 c2 m2
          = (let* m' := st buf (le_bytes 4 SQL_CD_FALSE) m2 in Ok (SR.AI_SUCCESS, c2, m')).
Proof.
  intros Hnone Hctx Hv Ha Hbuf.
  destruct (GetJniContext a (set_config cfg (cn_logger c) (set_diag (storage_Reset (cn_diag c)) c)))
    as [[ctx f] c0] eqn:Ectx.
  assert (ctx = true /\ f = None) as [-> ->].
  { revert Ectx. unfold GetJniContext. cbn. destruct Hctx as [->|[Hcp ->]]; [by intros [= <- <- _]|].
    destruct (cn_context c); [by intros [= <- <- _]|]. destruct (an_classpath a); [done|]. by intros [= <- <- _]. }
  destruct (open_fails profiles a cfg c m true c0 msg) as (c1 & Hs & Hr & Hrec & Hc1 & Hx1); try done.
  { unfold jdbc_Open. cbn [jd_context jd_connection negb]. by rewrite Ha. }
  exists c1. split_and!; [done..|]. intros ks m1 c2 m2 Hks Hrun. pose proof (linked_some _ _ Hc1) as Hl.
  apply run_kept in Hrun as [_ Hp]; [|by unfold connection_ok; rewrite Hc1|done|by left]. rewrite <- Hp in Hl. split.
  - intros a' cfg' m'. destruct (linked_refuses profiles a' cfg' c2 m' Hl) as (c3 & ? & ? & ? & _). eauto.
  - unfold InternalGetAttribute. rewrite (proj2 (Z.eqb_neq _ _) Hbuf), Z.eqb_refl.
    unfold phase_of in Hl. destruct (cn_connection c2); [|by destruct (cn_context c2)]. by destruct (st _ _ _).
Qed.

(** Without a class path for the JVM, the first attempt to connect makes the handle
    useless for good: whatever the application calls afterwards, disconnecting (which
    reports success) included, and even when the class path is there again, every
    further attempt is refused as already connected. *)
Theorem no_class_path_no_connection `{Host} `{Platform} profiles a cfg c m :
  cn_connection c = None -> cn_context c = false -> Validate cfg = Ok tt -> an_classpath a = [] ->
  exists c1, connection_step profiles (cc_establish a cfg) c m = Ok (c1, m)
    /\ result (cn_diag c1) = SR.AI_ERROR
    /\ statusRecords (cn_diag c1) = [failure (str "Unable to get initialized JVM.")]
    /\ forall ks m1 c2 m2, run_calls profiles ks c1 m1 = Ok (c2, m2) ->
       (forall a' cfg' m', exists c3, connection_step profiles (cc_establish a' cfg') c2 m' = Ok (c3, m')
          /\ result (cn_diag c3) = SR.AI_ERROR /\ statusRecords (cn_diag c3) = [refusal])
       /\ (forall m', exists c3, connection_step profiles cc_release c2 m' = Ok (c3, m')
            /\ result (cn_diag c3) = SR.AI_SUCCESS /\ cn_connection c3 = cn_connection c2).
Proof.
  intros Hnone Hctx Hv Ha.
  destruct (open_fails profiles a cfg c m false (set_config cfg (cn_logger c) (set_diag (storage_Reset (cn_diag c)) c))
              (str "Unable to get initialized JVM.")) as (c1 & Hs & Hr & Hrec & Hc1 & Hx1); try done.
  { unfold GetJniContext. cbn. by rewrite Hctx, Ha. }
  exists c1. split_and!; [done..|]. intros ks m1 c2 m2 Hrun. pose proof (linked_some _ _ Hc1) as Hl.
  assert (phase_of c1 = ph_lost) as Hlost by (unfold phase_of; by rewrite Hc1, Hx1).
  apply run_kept in Hrun as [_ Hp]; [|by unfold connection_ok; rewrite Hc1|done|by right].
  rewrite <- Hp in Hl. rewrite Hlost in Hp. split.
  - intros a' cfg' m'. destruct (linked_refuses profiles a' cfg' c2 m' Hl) as (c3 & ? & ? & ? & _). eauto.
  - intros m'. unfold connection_step, conn_api, api_call, connection_call_of, InternalRelease, Close.
    unfold phase_of in Hp. cbn. destruct (cn_connection c2) as [j|] eqn:Ej; [|by destruct (cn_context c2)].
    destruct (cn_context c2) eqn:Ec; [by destruct (IsOpen j)|]. cbn. eexists. by split_and!.
Qed.

Definition refused_answers : Answers :=
  MkAnswers (str "/opt/documentdb.jar") None (fun _ => inl (str "Authorization failed")) (inr false) (inr 0)
    (fun _ _ _ => inr true) (fun _ _ _ => inr None) (inr 2) (inr 3) (inr 4).

Lemma failed_connect_sticks_witness :
  exists c1, connection_step no_profile (cc_establish refused_answers sample_login) sample_connection ∅ = Ok (c1, ∅)
    /\ statusRecords (cn_diag c1) = [failure (str "Authorization failed")]
    /\ exists c3, connection_step no_profile (cc_establish good_answers sample_login) c1 ∅ = Ok (c3, ∅)
         /\ statusRecords (cn_diag c3) = [refusal].
Proof.
  destruct (failed_connect_sticks no_profile refused_answers sample_login sample_connection ∅
              (str "Authorization failed") 8) as (c1 & Hs & _ & Hrec & Hafter);
    [reflexivity|right; split; done|vm_compute; reflexivity|reflexivity|done|].
  exists c1. split; [exact Hs|split; [exact Hrec|]].
  destruct (Hafter [] ∅ c1 ∅ (Forall_nil_2 _) eq_refl) as [Hrefuse _].
  destruct (Hrefuse good_answers sample_login ∅) as (c3 & H3 & _ & Hr3). exists c3. exact (conj H3 Hr3).
Defined.

Lemma no_class_path_no_connection_witness :
  exists c1, connection_step no_profile (cc_establish (no_classpath good_answers) sample_login) sample_connection ∅
             = Ok (c1, ∅)
    /\ exists c2, connection_step no_profile cc_release c1 ∅ = Ok (c2, ∅) /\ result (cn_diag c2) = SR.AI_SUCCESS
    /\ cn_connection c2 = cn_connection c1.
Proof.
  destruct (no_class_path_no_connection no_profile (no_classpath good_answers) sample_login sample_connection ∅)
    as (c1 & Hs & _ & _ & Hafter); [reflexivity|reflexivity|vm_compute; reflexivity|reflexivity|].
  exists c1. split; [exact Hs|]. destruct (Hafter [] ∅ c1 ∅ eq_refl) as [_ Hrel].
  destruct (Hrel ∅) as (c2 & H2 & Hr & Hc). exists c2. exact (conj H2 (conj Hr Hc)).
Defined.

(** * Connecting with the text of a configuration *)

(** The other side is there: a JVM, a Java connection, no tunnel, and a server that
    answers. *)
Record reachable_server `{Host} (a : Answers) (cfg : Configuration) (j : Z)
    (build : option (list version_element)) : Prop := {
  rs_classpath : an_classpath a <> [];
  rs_jvm : an_jvm a = None;
  rs_connection : an_connection a (c_str (ToJdbcConnectionString cfg)) = inr (Some j);
  rs_ssh : an_ssh_active a = inr false;
  rs_ping : an_ping a (ToMongoDbConnectionString 0 cfg) (sv_val (c_tls cfg)) (sv_val (c_database cfg)) = inr true;
  rs_build : an_build a (ToMongoDbConnectionString 0 cfg) (sv_val (c_tls cfg)) (sv_val (c_database cfg)) = inr build
}.

Section connecting.
Context `{Host} `{Platform}.

Lemma Validate_restored c : Validate (restored c) = Validate c.
Proof. unfold restored. by case_match. Qed.

Lemma establish_reachable a cfg c m j build :
  reachable_server a cfg j build -> Validate cfg = Ok tt -> cn_connection c = None ->
  statusRecords (cn_diag c) = [] ->
  InternalEstablish a cfg c m
  = Ok (SR.AI_SUCCESS,
        MkConnection cfg (cn_logger c) true (Some (MkJdbc true (Some j)))
          (UpdateConnectionRuntimeInfo cfg (UpdateSqlDbmsVerInfo build (cn_info c))) (cn_timeout c) (cn_diag c), m).
Proof.
  intros [Hcp Hjvm Hj Hssh Hping Hbuild] Hv Hc Hd. unfold InternalEstablish.
  set (c0 := set_config cfg (cn_logger c) c). assert (cn_connection c0 = None) as Hc0 by done.
  assert (exists c1, GetJniContext a c0 = (true, None, c1) /\ c1 = set_context true c0) as (c1 & Hctx & Ec1).
  { unfold GetJniContext. destruct (cn_context c0) eqn:Ex.
    - exists c0. split; [done|]. unfold set_context. rewrite <- Ex. by destruct c0.
    - destruct (an_classpath a); [done|]. rewrite Hjvm. eauto. }
  change (cn_config c0) with cfg. rewrite Hc0, Hv. unfold TryRestoreConnection. rewrite Hc0, Hctx. subst c1.
  change (cn_config (set_context true c0)) with cfg. unfold jdbc_Open. cbn [jd_context jd_connection negb].
  rewrite Hj. cbn [IsOpen jd_connection]. unfold GetInternalSSHTunnelPort. rewrite Hssh.
  unfold ConnectCPPDocumentDB. cbn [cn_config set_jdbc set_context c0 set_config]. rewrite Hping, Hbuild.
  unfold GetStatusRecordsNumber. cbn. by rewrite Hd.
Qed.

(** Facts the driver learns after connecting are kept where the table has an entry. *)
Lemma SetInfo_same t v i :
  is_Some (om_lookup t (strParams i)) -> om_lookup t (strParams (SetInfo t v i).2) = Some v.
Proof. intros [old E]. unfold SetInfo. rewrite E. apply om_lookup_insert. Qed.

Lemma SetInfo_other t t' v i :
  t' <> t -> om_lookup t' (strParams (SetInfo t v i).2) = om_lookup t' (strParams i).
Proof. intros Hne. unfold SetInfo. case_match; [|done]. by apply om_lookup_insert_ne. Qed.

Lemma version_other t build i :
  t <> SQL_DBMS_VER -> om_lookup t (strParams (UpdateSqlDbmsVerInfo build i)) = om_lookup t (strParams i).
Proof. intros Hne. destruct build; [by apply SetInfo_other|done]. Qed.

Lemma runtime_database cfg i :
  is_Some (om_lookup SQL_DATABASE_NAME (strParams i)) ->
  om_lookup SQL_DATABASE_NAME (strParams (UpdateConnectionRuntimeInfo cfg i)) = Some (sv_val (c_database cfg)).
Proof.
  intros Hi. unfold UpdateConnectionRuntimeInfo. rewrite SetInfo_other by done. apply SetInfo_same.
  by rewrite SetInfo_other.
Qed.

Lemma runtime_version cfg es i :
  is_Some (om_lookup SQL_DBMS_VER (strParams i)) ->
  om_lookup SQL_DBMS_VER (strParams (UpdateConnectionRuntimeInfo cfg (UpdateSqlDbmsVerInfo (Some es) i)))
  = Some (version_text es).
Proof. intros Hi. unfold UpdateConnectionRuntimeInfo. rewrite !SetInfo_other by done. by apply SetInfo_same. Qed.

End connecting.

(** C32: An application that connects a new handle with the connection string of a
    configuration, to a server that is there, succeeds without a diagnostic; the
    handle then has that configuration (with the default port where none was set), an
    open Java connection, and reports the database and the server's version. *)
Theorem connect_with_text `{Host} `{Platform} profiles a c i l m j es :
  10 < sizeof_string -> all_valid c -> unset_default c -> sv_set (c_dsn c) = false -> Validate c = Ok tt ->
  reachable_server a (restored c) j (Some es) ->
  is_Some (om_lookup SQL_DATABASE_NAME (strParams i)) -> is_Some (om_lookup SQL_DBMS_VER (strParams i)) ->
  exists cn, connection_step profiles (cc_establish_text a (ToConnectString c)) (new_connection i l) m = Ok (cn, m)
    /\ result (cn_diag cn) = SR.AI_SUCCESS /\ statusRecords (cn_diag cn) = []
    /\ cn_config cn = restored c /\ phase_of cn = ph_open
    /\ om_lookup SQL_DATABASE_NAME (strParams (cn_info cn)) = Some (sv_val (c_database c))
    /\ om_lookup SQL_DBMS_VER (strParams (cn_info cn)) = Some (version_text es).
Proof.
  intros Hsz Hval Hun Hdsn Hv Hr Hidb Hiver.
  destruct (parse_restores c l (Some (storage_Reset new_storage))) as [l' Hparse]; [done..|].
  unfold connection_step, conn_api, api_call. cbn [fst snd connection_call_of]. unfold InternalEstablishText.
  set (c0 := set_diag _ (new_connection i l)).
  change (MkParse (cn_config c0) (cn_logger c0) (Some (cn_diag c0)))
    with (MkParse new_configuration l (Some (storage_Reset new_storage))). rewrite Hparse.
  assert (sv_set (c_dsn (restored c)) = false) as -> by (unfold restored; by case_match). cbn [obind].
  set (c1 := set_diag _ _). change (cn_config c1) with (restored c).
  rewrite (establish_reachable a (restored c) c1 m j (Some es)) by (rewrite ?Validate_restored; done).
  cbn [obind fst snd]. eexists. split_and!; [reflexivity|done..| |].
  - cbn [cn_info set_diag]. rewrite runtime_database by (by rewrite version_other).
    unfold restored. by case_match.
  - cbn [cn_info set_diag]. by rewrite runtime_version.
Qed.

Lemma connect_with_text_witness :
  exists cn, connection_step no_profile (cc_establish_text good_answers (ToConnectString sample_login))
               sample_connection ∅ = Ok (cn, ∅)
    /\ cn_config cn = SetPort 27017 sample_login
    /\ om_lookup SQL_DBMS_VER (strParams (cn_info cn)) = Some (str "04.00.0000").
Proof.
  destruct (connect_with_text no_profile good_answers sample_login sample_info (MkLogger LL.OFF []) ∅ 1
              [v_int32 4; v_int32 0; v_int32 0]) as (cn & Hs & _ & _ & Hcfg & _ & _ & Hver).
  - reflexivity.
  - intros k. destruct k; cbn [get sample_login sv_set]; intros Hs;
      first [discriminate Hs|exact (conj I I)|cbn [valid_value]; cbn; unfold value_ok, stripped; decide_now].
  - intros k. destruct k; cbn [get sample_login sv_set]; intros Hs; first [discriminate Hs|reflexivity].
  - reflexivity.
  - vm_compute. reflexivity.
  - split; try reflexivity. discriminate.
  - eexists. reflexivity.
  - eexists. reflexivity.
  - exists cn. split; [exact Hs|split; [exact Hcfg|exact Hver]].
Defined.
