(* ===== verification/InfoTables.v ===== *)
(** What [SQLGetInfo] can tell: the tables that the constructor of [ConnectionInfo] fills
    and [InfoTypeToString] ([src/src/odbc/src/config/connection_info.cpp]), and the proof
    that [GetInfo] answers by them, before and after connecting.

    The numbers of the information types and flags come from the headers of ODBC, which
    are a parameter: a function from the name of a macro to its number, [None] when the
    macro is not defined, which is what [#ifdef] asks.  The tables are written down with
    the names; a block of the source

      #ifdef T / intParams[T] = A | B; / #endif

    is one entry of a list, and the constructor goes through the list. *)
From S2P Require Import Prelude OrdMap Memory Utf8 BigText TypeTraits Chrono AppBuffer AppRead Diag SqlLex Params Statement.
From S2P Require Import Config ConfigParse ConfigRound Meta Connection.

(** * Entries *)

(** A macro, or a literal. *)
Inductive term : Type := Macro (name : string) | Lit (z : Z).

(** The flags of a number are or-ed. *)
Inductive param : Type :=
| StrParam (type : string) (value : text)
| IntParam (type : string) (flags : list term)
| ShortParam (type : string) (flags : list term).
Definition param_type (p : param) : string :=
  match p with StrParam t _ | IntParam t _ | ShortParam t _ => t end.

(** The version of the driver: three numbers that the build sets. *)
Definition GetFormatedDriverVersion (version : Z * Z * Z) : text :=
  (zero_pad 2 (show_int version.1.1) ++ str "." ++ zero_pad 2 (show_int version.1.2) ++ str "."
   ++ zero_pad 4 (show_int version.2))%list.

(** * The tables *)

Definition string_params_1 (version : Z * Z * Z) : list param :=
  [StrParam "SQL_DRIVER_NAME" (str "Amazon DocumentDB");
   StrParam "SQL_DBMS_NAME" (str "Amazon DocumentDB");
   StrParam "SQL_DRIVER_ODBC_VER" (str "03.00");
   StrParam "SQL_DRIVER_VER" (GetFormatedDriverVersion version);
   StrParam "SQL_DBMS_VER" [];
   StrParam "SQL_COLUMN_ALIAS" (str "Y");
   StrParam "SQL_IDENTIFIER_QUOTE_CHAR" [34];
   StrParam "SQL_CATALOG_NAME_SEPARATOR" (str ".");
   StrParam "SQL_SPECIAL_CHARACTERS" [];
   StrParam "SQL_CATALOG_TERM" [];
   StrParam "SQL_QUALIFIER_TERM" [];
   StrParam "SQL_TABLE_TERM" (str "table");
   StrParam "SQL_SCHEMA_TERM" (str "schema");
   StrParam "SQL_NEED_LONG_DATA_LEN" (str "Y");
   StrParam "SQL_ACCESSIBLE_PROCEDURES" (str "Y");
   StrParam "SQL_ACCESSIBLE_TABLES" (str "Y");
   StrParam "SQL_CATALOG_NAME" (str "N");
   StrParam "SQL_COLLATION_SEQ" (str "UTF-8");
   StrParam "SQL_DATA_SOURCE_NAME" [];
   StrParam "SQL_DATA_SOURCE_READ_ONLY" (str "Y");
   StrParam "SQL_DATABASE_NAME" []].

Definition string_params_2 : list param :=
  [StrParam "SQL_DESCRIBE_PARAMETER" (str "N");
   StrParam "SQL_EXPRESSIONS_IN_ORDERBY" (str "N");
   StrParam "SQL_INTEGRITY" (str "N");
   StrParam "SQL_KEYWORDS" (
      str "ABS,ALLOW,ARRAY,ARRAY_MAX_CARDINALITY,ASYMMETRIC,ATOMIC,BEGIN_FRAME,"
      ++ str "BEGIN_PARTITION,BIGINT,BINARY,BLOB,BOOLEAN,CALL,CALLED,CARDINALITY,CEIL,"
      ++ str "CEILING,CHAR_LENGTH,CLASSIFIER,CLOB,COLLECT,CONDITION,CORR,COVAR_POP,"
      ++ str "COVAR_SAMP,CUBE,CUME_DIST,CURRENT_CATALOG,CURRENT_DEFAULT_TRANSFORM_"
      ++ str "GROUP,CURRENT_PATH,CURRENT_ROLE,CURRENT_ROW,CURRENT_SCHEMA,CURRENT_"
      ++ str "TRANSFORM_GROUP_FOR_TYPE,CYCLE,DENSE_RANK,DEREF,DETERMINISTIC,DISALLOW,"
      ++ str "DYNAMIC,EACH,ELEMENT,EMPTY,END_FRAME,END_PARTITION,EQUALS,EVERY,EXP,"
      ++ str "EXPLAIN,EXTEND,FILTER,FIRST_VALUE,FLOOR,FRAME_ROW,FREE,FUNCTION,FUSION,"
      ++ str "GROUPING,GROUPS,HOLD,IMPORT,INITIAL,INOUT,INTERSECTION,JSON_ARRAY,JSON_"
      ++ str "ARRAYAGG,JSON_EXISTS,JSON_OBJECT,JSON_OBJECTAGG,JSON_QUERY,JSON_VALUE,"
      ++ str "LAG,LARGE,LAST_VALUE,LATERAL,LEAD,LIKE_REGEX,LIMIT,LN,LOCALTIME,"
      ++ str "LOCALTIMESTAMP,MATCHES,MATCH_NUMBER,MATCH_RECOGNIZE,MEASURES,MEMBER,"
      ++ str "MERGE,METHOD,MINUS,MOD,MODIFIES,MULTISET,NCLOB,NEW,NORMALIZE,NTH_VALUE,"
      ++ str "NTILE,OCCURRENCES_REGEX,OFFSET,OLD,OMIT,ONE,OUT,OVER,OVERLAY,PARAMETER,"
      ++ str "PARTITION,PATTERN,PER,PERCENT,PERCENTILE_CONT,PERCENTILE_DISC,PERCENT_"
      ++ str "RANK,PERIOD,PERMUTE,PORTION,POSITION_REGEX,POWER,PRECEDES,PREV,RANGE,"
      ++ str "RANK,READS,RECURSIVE,REF,REFERENCING,REGR_AVGX,REGR_AVGY,REGR_COUNT,"
      ++ str "REGR_INTERCEPT,REGR_R2,REGR_SLOPE,REGR_SXX,REGR_SXY,REGR_SYY,RELEASE,"
      ++ str "RESET,RESULT,RETURN,RETURNS,ROLLUP,ROW,ROW_NUMBER,RUNNING,SAVEPOINT,"
      ++ str "SCOPE,SEARCH,SEEK,SENSITIVE,SHOW,SIMILAR,SKIP,SPECIFIC,SPECIFICTYPE,"
      ++ str "SQLEXCEPTION,SQRT,START,STATIC,STDDEV_POP,STDDEV_SAMP,STREAM,"
      ++ str "SUBMULTISET,SUBSET,SUBSTRING_REGEX,SUCCEEDS,SYMMETRIC,SYSTEM,SYSTEM_"
      ++ str "TIME,TABLESAMPLE,TINYINT,TRANSLATE_REGEX,TREAT,TRIGGER,TRIM_ARRAY,"
      ++ str "TRUNCATE,UESCAPE,UNNEST,UPSERT,VALUE_OF,VARBINARY,VAR_POP,VAR_SAMP,"
      ++ str "VERSIONING,WIDTH_BUCKET,WINDOW,WITHIN,WITHOUT")%list;
   StrParam "SQL_LIKE_ESCAPE_CLAUSE" (str "Y");
   StrParam "SQL_MAX_ROW_SIZE_INCLUDES_LONG" (str "Y");
   StrParam "SQL_MULT_RESULT_SETS" (str "N");
   StrParam "SQL_MULTIPLE_ACTIVE_TXN" (str "N");
   StrParam "SQL_ORDER_BY_COLUMNS_IN_SELECT" (str "Y");
   StrParam "SQL_PROCEDURE_TERM" (str "stored procedure");
   StrParam "SQL_PROCEDURES" (str "N");
   StrParam "SQL_ROW_UPDATES" (str "N");
   StrParam "SQL_SEARCH_PATTERN_ESCAPE" (str "\");
   StrParam "SQL_SERVER_NAME" (str "Amazon DocumentDB");
   StrParam "SQL_USER_NAME" []].

Definition integer_params_1 : list param :=
  [IntParam "SQL_ASYNC_DBC_FUNCTIONS" [Macro "SQL_ASYNC_DBC_NOT_CAPABLE"];
   IntParam "SQL_ASYNC_MODE" [Macro "SQL_AM_NONE"];
   IntParam "SQL_ASYNC_NOTIFICATION" [Macro "SQL_ASYNC_NOTIFICATION_NOT_CAPABLE"];
   IntParam "SQL_BATCH_ROW_COUNT" [Macro "SQL_BRC_ROLLED_UP"; Macro "SQL_BRC_EXPLICIT"];
   IntParam "SQL_BATCH_SUPPORT" [Lit 0];
   IntParam "SQL_BOOKMARK_PERSISTENCE" [Lit 0];
   IntParam "SQL_CATALOG_LOCATION" [Lit 0];
   IntParam "SQL_QUALIFIER_LOCATION" [Lit 0];
   IntParam "SQL_GETDATA_EXTENSIONS"
     [Macro "SQL_GD_ANY_COLUMN"; Macro "SQL_GD_ANY_ORDER"; Macro "SQL_GD_BOUND"];
   IntParam "SQL_ODBC_INTERFACE_CONFORMANCE" [Macro "SQL_OIC_LEVEL1"];
   IntParam "SQL_SQL_CONFORMANCE" [Macro "SQL_SC_SQL92_FULL"]].

Definition integer_params_2 : list param :=
  [IntParam "SQL_CATALOG_USAGE" [Lit 0];
   IntParam "SQL_QUALIFIER_USAGE" [Lit 0];
   IntParam "SQL_SCHEMA_USAGE"
     [Macro "SQL_SU_DML_STATEMENTS"; Macro "SQL_SU_TABLE_DEFINITION";
      Macro "SQL_SU_PRIVILEGE_DEFINITION"; Macro "SQL_SU_INDEX_DEFINITION"];
   IntParam "SQL_AGGREGATE_FUNCTIONS"
     [Macro "SQL_AF_AVG"; Macro "SQL_AF_COUNT"; Macro "SQL_AF_MAX"; Macro "SQL_AF_MIN";
      Macro "SQL_AF_SUM"; Macro "SQL_AF_DISTINCT"; Macro "SQL_AF_ALL"];
   IntParam "SQL_NUMERIC_FUNCTIONS" [Macro "SQL_FN_NUM_MOD"];
   IntParam "SQL_STRING_FUNCTIONS"
     [Macro "SQL_FN_STR_CHAR_LENGTH"; Macro "SQL_FN_STR_CONCAT"; Macro "SQL_FN_STR_LEFT";
      Macro "SQL_FN_STR_CHARACTER_LENGTH"; Macro "SQL_FN_STR_POSITION"; Macro "SQL_FN_STR_RIGHT";
      Macro "SQL_FN_STR_SUBSTRING"; Macro "SQL_FN_STR_LCASE"; Macro "SQL_FN_STR_UCASE"];
   IntParam "SQL_TIMEDATE_FUNCTIONS"
     [Macro "SQL_FN_TD_CURRENT_TIME"; Macro "SQL_FN_TD_CURRENT_DATE";
      Macro "SQL_FN_TD_CURRENT_TIMESTAMP"; Macro "SQL_FN_TD_EXTRACT"; Macro "SQL_FN_TD_YEAR";
      Macro "SQL_FN_TD_QUARTER"; Macro "SQL_FN_TD_MONTH"; Macro "SQL_FN_TD_WEEK";
      Macro "SQL_FN_TD_DAYOFYEAR"; Macro "SQL_FN_TD_DAYOFMONTH"; Macro "SQL_FN_TD_DAYOFWEEK";
      Macro "SQL_FN_TD_HOUR"; Macro "SQL_FN_TD_MINUTE"; Macro "SQL_FN_TD_SECOND";
      Macro "SQL_FN_TD_DAYNAME"; Macro "SQL_FN_TD_MONTHNAME"];
   IntParam "SQL_TIMEDATE_ADD_INTERVALS"
     [Macro "SQL_FN_TSI_FRAC_SECOND"; Macro "SQL_FN_TSI_SECOND"; Macro "SQL_FN_TSI_MINUTE";
      Macro "SQL_FN_TSI_HOUR"; Macro "SQL_FN_TSI_DAY"; Macro "SQL_FN_TSI_WEEK";
      Macro "SQL_FN_TSI_MONTH"; Macro "SQL_FN_TSI_QUARTER"; Macro "SQL_FN_TSI_YEAR"];
   IntParam "SQL_TIMEDATE_DIFF_INTERVALS"
     [Macro "SQL_FN_TSI_FRAC_SECOND"; Macro "SQL_FN_TSI_SECOND"; Macro "SQL_FN_TSI_MINUTE";
      Macro "SQL_FN_TSI_HOUR"; Macro "SQL_FN_TSI_DAY"; Macro "SQL_FN_TSI_WEEK";
      Macro "SQL_FN_TSI_MONTH"; Macro "SQL_FN_TSI_QUARTER"; Macro "SQL_FN_TSI_YEAR"];
   IntParam "SQL_DATETIME_LITERALS"
     [Macro "SQL_DL_SQL92_DATE"; Macro "SQL_DL_SQL92_TIME"; Macro "SQL_DL_SQL92_TIMESTAMP"];
   IntParam "SQL_SYSTEM_FUNCTIONS"
     [Macro "SQL_FN_SYS_USERNAME"; Macro "SQL_FN_SYS_DBNAME"; Macro "SQL_FN_SYS_IFNULL"];
   IntParam "SQL_CONVERT_FUNCTIONS" [Macro "SQL_FN_CVT_CAST"];
   IntParam "SQL_OJ_CAPABILITIES"
     [Macro "SQL_OJ_LEFT"; Macro "SQL_OJ_NOT_ORDERED"; Macro "SQL_OJ_ALL_COMPARISON_OPS"];
   IntParam "SQL_POS_OPERATIONS" [Lit 0];
   IntParam "SQL_SQL92_NUMERIC_VALUE_FUNCTIONS"
     [Macro "SQL_SNVF_CHARACTER_LENGTH"; Macro "SQL_SNVF_EXTRACT"; Macro "SQL_SNVF_POSITION"]].

Definition integer_params_3 : list param :=
  [IntParam "SQL_SQL92_STRING_FUNCTIONS"
     [Macro "SQL_SSF_LOWER"; Macro "SQL_SSF_UPPER"; Macro "SQL_SSF_SUBSTRING"];
   IntParam "SQL_SQL92_DATETIME_FUNCTIONS"
     [Macro "SQL_SDF_CURRENT_DATE"; Macro "SQL_SDF_CURRENT_TIMESTAMP"];
   IntParam "SQL_SQL92_VALUE_EXPRESSIONS"
     [Macro "SQL_SVE_CASE"; Macro "SQL_SVE_CAST"; Macro "SQL_SVE_COALESCE"; Macro "SQL_SVE_NULLIF"];
   IntParam "SQL_SQL92_PREDICATES"
     [Macro "SQL_SP_BETWEEN"; Macro "SQL_SP_COMPARISON"; Macro "SQL_SP_EXISTS"; Macro "SQL_SP_IN";
      Macro "SQL_SP_ISNOTNULL"; Macro "SQL_SP_ISNULL"; Macro "SQL_SP_LIKE"; Macro "SQL_SP_MATCH_FULL";
      Macro "SQL_SP_MATCH_PARTIAL"; Macro "SQL_SP_MATCH_UNIQUE_FULL";
      Macro "SQL_SP_MATCH_UNIQUE_PARTIAL"; Macro "SQL_SP_OVERLAPS"; Macro "SQL_SP_UNIQUE";
      Macro "SQL_SP_QUANTIFIED_COMPARISON"];
   IntParam "SQL_SQL92_RELATIONAL_JOIN_OPERATORS"
     [Macro "SQL_SRJO_CORRESPONDING_CLAUSE"; Macro "SQL_SRJO_CROSS_JOIN";
      Macro "SQL_SRJO_EXCEPT_JOIN"; Macro "SQL_SRJO_INNER_JOIN"; Macro "SQL_SRJO_LEFT_OUTER_JOIN";
      Macro "SQL_SRJO_RIGHT_OUTER_JOIN"; Macro "SQL_SRJO_NATURAL_JOIN";
      Macro "SQL_SRJO_INTERSECT_JOIN"; Macro "SQL_SRJO_UNION_JOIN"];
   IntParam "SQL_STATIC_CURSOR_ATTRIBUTES1" [Macro "SQL_CA1_NEXT"];
   IntParam "SQL_STATIC_CURSOR_ATTRIBUTES2" [Lit 0];
   IntParam "SQL_CONVERT_BIGINT"
     [Macro "SQL_CVT_CHAR"; Macro "SQL_CVT_VARCHAR"; Macro "SQL_CVT_LONGVARCHAR";
      Macro "SQL_CVT_WCHAR"; Macro "SQL_CVT_WLONGVARCHAR"; Macro "SQL_CVT_WVARCHAR";
      Macro "SQL_CVT_NUMERIC"; Macro "SQL_CVT_TIMESTAMP"; Macro "SQL_CVT_TINYINT";
      Macro "SQL_CVT_SMALLINT"; Macro "SQL_CVT_INTEGER"; Macro "SQL_CVT_BIGINT"; Macro "SQL_CVT_BIT"];
   IntParam "SQL_CONVERT_BINARY"
     [Macro "SQL_CVT_CHAR"; Macro "SQL_CVT_VARCHAR"; Macro "SQL_CVT_LONGVARCHAR"; Macro "SQL_CVT_BIT";
      Macro "SQL_CVT_WCHAR"; Macro "SQL_CVT_WLONGVARCHAR"; Macro "SQL_CVT_WVARCHAR";
      Macro "SQL_CVT_NUMERIC"; Macro "SQL_CVT_LONGVARBINARY"; Macro "SQL_CVT_FLOAT";
      Macro "SQL_CVT_SMALLINT"; Macro "SQL_CVT_INTEGER"; Macro "SQL_CVT_BIGINT"; Macro "SQL_CVT_REAL";
      Macro "SQL_CVT_DATE"; Macro "SQL_CVT_TINYINT"; Macro "SQL_CVT_DOUBLE"; Macro "SQL_CVT_BINARY";
      Macro "SQL_CVT_DECIMAL"; Macro "SQL_CVT_TIME"; Macro "SQL_CVT_GUID"; Macro "SQL_CVT_TIMESTAMP";
      Macro "SQL_CVT_VARBINARY"];
   IntParam "SQL_CONVERT_BIT"
     [Macro "SQL_CVT_BIGINT"; Macro "SQL_CVT_VARCHAR"; Macro "SQL_CVT_LONGVARCHAR";
      Macro "SQL_CVT_WVARCHAR"; Macro "SQL_CVT_NUMERIC"; Macro "SQL_CVT_BIT"; Macro "SQL_CVT_CHAR";
      Macro "SQL_CVT_SMALLINT"; Macro "SQL_CVT_INTEGER"; Macro "SQL_CVT_TINYINT"];
   IntParam "SQL_CONVERT_CHAR"
     [Macro "SQL_CVT_CHAR"; Macro "SQL_CVT_VARCHAR"; Macro "SQL_CVT_LONGVARCHAR";
      Macro "SQL_CVT_VARBINARY"; Macro "SQL_CVT_WCHAR"; Macro "SQL_CVT_WLONGVARCHAR";
      Macro "SQL_CVT_WVARCHAR"; Macro "SQL_CVT_NUMERIC"; Macro "SQL_CVT_DECIMAL"; Macro "SQL_CVT_BIT";
      Macro "SQL_CVT_TINYINT"; Macro "SQL_CVT_SMALLINT"; Macro "SQL_CVT_INTEGER";
      Macro "SQL_CVT_BIGINT"; Macro "SQL_CVT_REAL"; Macro "SQL_CVT_FLOAT"; Macro "SQL_CVT_DOUBLE";
      Macro "SQL_CVT_BINARY"; Macro "SQL_CVT_TIMESTAMP"; Macro "SQL_CVT_DATE"; Macro "SQL_CVT_TIME";
      Macro "SQL_CVT_LONGVARBINARY"; Macro "SQL_CVT_GUID"];
   IntParam "SQL_CONVERT_VARCHAR"
     [Macro "SQL_CVT_CHAR"; Macro "SQL_CVT_VARCHAR"; Macro "SQL_CVT_LONGVARCHAR";
      Macro "SQL_CVT_WCHAR"; Macro "SQL_CVT_WLONGVARCHAR"; Macro "SQL_CVT_WVARCHAR";
      Macro "SQL_CVT_NUMERIC"; Macro "SQL_CVT_DECIMAL"; Macro "SQL_CVT_TINYINT";
      Macro "SQL_CVT_SMALLINT"; Macro "SQL_CVT_INTEGER"; Macro "SQL_CVT_BIGINT"; Macro "SQL_CVT_REAL";
      Macro "SQL_CVT_FLOAT"; Macro "SQL_CVT_BIT"; Macro "SQL_CVT_DOUBLE"; Macro "SQL_CVT_BINARY";
      Macro "SQL_CVT_VARBINARY"; Macro "SQL_CVT_GUID"; Macro "SQL_CVT_DATE"; Macro "SQL_CVT_TIME";
      Macro "SQL_CVT_LONGVARBINARY"; Macro "SQL_CVT_TIMESTAMP"];
   IntParam "SQL_CONVERT_LONGVARCHAR"
     [Macro "SQL_CVT_CHAR"; Macro "SQL_CVT_VARCHAR"; Macro "SQL_CVT_DATE"; Macro "SQL_CVT_TIME";
      Macro "SQL_CVT_LONGVARCHAR"; Macro "SQL_CVT_WCHAR"; Macro "SQL_CVT_WLONGVARCHAR";
      Macro "SQL_CVT_WVARCHAR"; Macro "SQL_CVT_NUMERIC"; Macro "SQL_CVT_DECIMAL"; Macro "SQL_CVT_BIT";
      Macro "SQL_CVT_REAL"; Macro "SQL_CVT_SMALLINT"; Macro "SQL_CVT_INTEGER"; Macro "SQL_CVT_GUID";
      Macro "SQL_CVT_BIGINT"; Macro "SQL_CVT_LONGVARBINARY"; Macro "SQL_CVT_DOUBLE";
      Macro "SQL_CVT_BINARY"; Macro "SQL_CVT_VARBINARY"; Macro "SQL_CVT_TINYINT";
      Macro "SQL_CVT_FLOAT"; Macro "SQL_CVT_TIMESTAMP"];
   IntParam "SQL_CONVERT_WCHAR"
     [Macro "SQL_CVT_CHAR"; Macro "SQL_CVT_VARCHAR"; Macro "SQL_CVT_LONGVARCHAR";
      Macro "SQL_CVT_WCHAR"; Macro "SQL_CVT_WLONGVARCHAR"; Macro "SQL_CVT_WVARCHAR";
      Macro "SQL_CVT_NUMERIC"; Macro "SQL_CVT_DECIMAL"; Macro "SQL_CVT_VARBINARY";
      Macro "SQL_CVT_BIT"; Macro "SQL_CVT_TINYINT"; Macro "SQL_CVT_SMALLINT"; Macro "SQL_CVT_INTEGER";
      Macro "SQL_CVT_BIGINT"; Macro "SQL_CVT_REAL"; Macro "SQL_CVT_FLOAT"; Macro "SQL_CVT_DOUBLE";
      Macro "SQL_CVT_BINARY"; Macro "SQL_CVT_LONGVARBINARY"; Macro "SQL_CVT_TIMESTAMP";
      Macro "SQL_CVT_DATE"; Macro "SQL_CVT_TIME"; Macro "SQL_CVT_GUID"];
   IntParam "SQL_CONVERT_WVARCHAR"
     [Macro "SQL_CVT_CHAR"; Macro "SQL_CVT_VARCHAR"; Macro "SQL_CVT_LONGVARCHAR";
      Macro "SQL_CVT_REAL"; Macro "SQL_CVT_WCHAR"; Macro "SQL_CVT_WLONGVARCHAR";
      Macro "SQL_CVT_WVARCHAR"; Macro "SQL_CVT_NUMERIC"; Macro "SQL_CVT_LONGVARBINARY";
      Macro "SQL_CVT_DECIMAL"; Macro "SQL_CVT_BIT"; Macro "SQL_CVT_TINYINT"; Macro "SQL_CVT_SMALLINT";
      Macro "SQL_CVT_DATE"; Macro "SQL_CVT_TIME"; Macro "SQL_CVT_INTEGER"; Macro "SQL_CVT_BIGINT";
      Macro "SQL_CVT_FLOAT"; Macro "SQL_CVT_DOUBLE"; Macro "SQL_CVT_BINARY"; Macro "SQL_CVT_GUID";
      Macro "SQL_CVT_VARBINARY"; Macro "SQL_CVT_TIMESTAMP"]].

Definition integer_params_4 : list param :=
  [IntParam "SQL_CONVERT_WLONGVARCHAR"
     [Macro "SQL_CVT_CHAR"; Macro "SQL_CVT_VARCHAR"; Macro "SQL_CVT_BIGINT"; Macro "SQL_CVT_REAL";
      Macro "SQL_CVT_LONGVARCHAR"; Macro "SQL_CVT_WCHAR"; Macro "SQL_CVT_WLONGVARCHAR";
      Macro "SQL_CVT_WVARCHAR"; Macro "SQL_CVT_VARBINARY"; Macro "SQL_CVT_NUMERIC";
      Macro "SQL_CVT_DECIMAL"; Macro "SQL_CVT_BIT"; Macro "SQL_CVT_TINYINT"; Macro "SQL_CVT_DATE";
      Macro "SQL_CVT_FLOAT"; Macro "SQL_CVT_INTEGER"; Macro "SQL_CVT_SMALLINT";
      Macro "SQL_CVT_DOUBLE"; Macro "SQL_CVT_BINARY"; Macro "SQL_CVT_LONGVARBINARY";
      Macro "SQL_CVT_TIME"; Macro "SQL_CVT_TIMESTAMP"; Macro "SQL_CVT_GUID"];
   IntParam "SQL_CONVERT_GUID"
     [Macro "SQL_CVT_CHAR"; Macro "SQL_CVT_VARCHAR"; Macro "SQL_CVT_LONGVARCHAR";
      Macro "SQL_CVT_WVARCHAR"; Macro "SQL_CVT_WCHAR"; Macro "SQL_CVT_WLONGVARCHAR";
      Macro "SQL_CVT_BINARY"; Macro "SQL_CVT_VARBINARY"; Macro "SQL_CVT_LONGVARBINARY";
      Macro "SQL_CVT_GUID"];
   IntParam "SQL_CONVERT_DATE"
     [Macro "SQL_CVT_CHAR"; Macro "SQL_CVT_VARCHAR"; Macro "SQL_CVT_LONGVARCHAR";
      Macro "SQL_CVT_WCHAR"; Macro "SQL_CVT_WLONGVARCHAR"; Macro "SQL_CVT_WVARCHAR";
      Macro "SQL_CVT_NUMERIC"; Macro "SQL_CVT_INTEGER"; Macro "SQL_CVT_BIGINT";
      Macro "SQL_CVT_BINARY"; Macro "SQL_CVT_VARBINARY"; Macro "SQL_CVT_LONGVARBINARY";
      Macro "SQL_CVT_DATE"; Macro "SQL_CVT_TIMESTAMP"];
   IntParam "SQL_CONVERT_DECIMAL"
     [Macro "SQL_CVT_CHAR"; Macro "SQL_CVT_VARCHAR"; Macro "SQL_CVT_LONGVARCHAR";
      Macro "SQL_CVT_WCHAR"; Macro "SQL_CVT_WLONGVARCHAR"; Macro "SQL_CVT_WVARCHAR";
      Macro "SQL_CVT_NUMERIC"; Macro "SQL_CVT_DECIMAL"; Macro "SQL_CVT_TIMESTAMP";
      Macro "SQL_CVT_BIT"; Macro "SQL_CVT_TINYINT"; Macro "SQL_CVT_SMALLINT"; Macro "SQL_CVT_INTEGER";
      Macro "SQL_CVT_BIGINT"; Macro "SQL_CVT_REAL"; Macro "SQL_CVT_FLOAT"; Macro "SQL_CVT_DOUBLE";
      Macro "SQL_CVT_BINARY"; Macro "SQL_CVT_VARBINARY"; Macro "SQL_CVT_LONGVARBINARY"];
   IntParam "SQL_CONVERT_DOUBLE"
     [Macro "SQL_CVT_CHAR"; Macro "SQL_CVT_VARCHAR"; Macro "SQL_CVT_LONGVARCHAR";
      Macro "SQL_CVT_WCHAR"; Macro "SQL_CVT_WLONGVARCHAR"; Macro "SQL_CVT_WVARCHAR";
      Macro "SQL_CVT_NUMERIC"; Macro "SQL_CVT_DECIMAL"; Macro "SQL_CVT_TIMESTAMP";
      Macro "SQL_CVT_TINYINT"; Macro "SQL_CVT_BIGINT"; Macro "SQL_CVT_INTEGER"; Macro "SQL_CVT_FLOAT";
      Macro "SQL_CVT_REAL"; Macro "SQL_CVT_DOUBLE"; Macro "SQL_CVT_BINARY"; Macro "SQL_CVT_VARBINARY";
      Macro "SQL_CVT_SMALLINT"; Macro "SQL_CVT_LONGVARBINARY"];
   IntParam "SQL_CONVERT_FLOAT"
     [Macro "SQL_CVT_CHAR"; Macro "SQL_CVT_VARCHAR"; Macro "SQL_CVT_LONGVARCHAR";
      Macro "SQL_CVT_WVARCHAR"; Macro "SQL_CVT_WLONGVARCHAR"; Macro "SQL_CVT_NUMERIC";
      Macro "SQL_CVT_DECIMAL"; Macro "SQL_CVT_TINYINT"; Macro "SQL_CVT_SMALLINT";
      Macro "SQL_CVT_INTEGER"; Macro "SQL_CVT_BIGINT"; Macro "SQL_CVT_REAL"; Macro "SQL_CVT_FLOAT";
      Macro "SQL_CVT_DOUBLE"; Macro "SQL_CVT_BINARY"; Macro "SQL_CVT_VARBINARY";
      Macro "SQL_CVT_WCHAR"; Macro "SQL_CVT_LONGVARBINARY"; Macro "SQL_CVT_TIMESTAMP";
      Macro "SQL_CVT_BIT"];
   IntParam "SQL_CONVERT_REAL"
     [Macro "SQL_CVT_CHAR"; Macro "SQL_CVT_VARCHAR"; Macro "SQL_CVT_LONGVARCHAR";
      Macro "SQL_CVT_WVARCHAR"; Macro "SQL_CVT_NUMERIC"; Macro "SQL_CVT_DECIMAL"; Macro "SQL_CVT_BIT";
      Macro "SQL_CVT_FLOAT"; Macro "SQL_CVT_SMALLINT"; Macro "SQL_CVT_REAL"; Macro "SQL_CVT_INTEGER";
      Macro "SQL_CVT_BIGINT"; Macro "SQL_CVT_DOUBLE"; Macro "SQL_CVT_TINYINT";
      Macro "SQL_CVT_WLONGVARCHAR"; Macro "SQL_CVT_BINARY"; Macro "SQL_CVT_VARBINARY";
      Macro "SQL_CVT_LONGVARBINARY"; Macro "SQL_CVT_TIMESTAMP"; Macro "SQL_CVT_WCHAR"];
   IntParam "SQL_CONVERT_INTEGER"
     [Macro "SQL_CVT_CHAR"; Macro "SQL_CVT_VARCHAR"; Macro "SQL_CVT_LONGVARCHAR";
      Macro "SQL_CVT_WCHAR"; Macro "SQL_CVT_WLONGVARCHAR"; Macro "SQL_CVT_WVARCHAR";
      Macro "SQL_CVT_NUMERIC"; Macro "SQL_CVT_DECIMAL"; Macro "SQL_CVT_TINYINT";
      Macro "SQL_CVT_SMALLINT"; Macro "SQL_CVT_BIT"; Macro "SQL_CVT_INTEGER"; Macro "SQL_CVT_BIGINT";
      Macro "SQL_CVT_REAL"; Macro "SQL_CVT_FLOAT"; Macro "SQL_CVT_DOUBLE"; Macro "SQL_CVT_BINARY";
      Macro "SQL_CVT_VARBINARY"; Macro "SQL_CVT_LONGVARBINARY"; Macro "SQL_CVT_TIMESTAMP"];
   IntParam "SQL_CONVERT_NUMERIC"
     [Macro "SQL_CVT_CHAR"; Macro "SQL_CVT_VARCHAR"; Macro "SQL_CVT_LONGVARCHAR";
      Macro "SQL_CVT_WCHAR"; Macro "SQL_CVT_WLONGVARCHAR"; Macro "SQL_CVT_WVARCHAR";
      Macro "SQL_CVT_NUMERIC"; Macro "SQL_CVT_DECIMAL"; Macro "SQL_CVT_SMALLINT";
      Macro "SQL_CVT_INTEGER"; Macro "SQL_CVT_BIGINT"; Macro "SQL_CVT_REAL"; Macro "SQL_CVT_BIT";
      Macro "SQL_CVT_TINYINT"; Macro "SQL_CVT_FLOAT"; Macro "SQL_CVT_DOUBLE"; Macro "SQL_CVT_BINARY";
      Macro "SQL_CVT_VARBINARY"; Macro "SQL_CVT_LONGVARBINARY"; Macro "SQL_CVT_TIMESTAMP"];
   IntParam "SQL_CONVERT_SMALLINT"
     [Macro "SQL_CVT_CHAR"; Macro "SQL_CVT_VARCHAR"; Macro "SQL_CVT_LONGVARCHAR";
      Macro "SQL_CVT_WCHAR"; Macro "SQL_CVT_WLONGVARCHAR"; Macro "SQL_CVT_WVARCHAR";
      Macro "SQL_CVT_NUMERIC"; Macro "SQL_CVT_DECIMAL"; Macro "SQL_CVT_VARBINARY";
      Macro "SQL_CVT_BIT"; Macro "SQL_CVT_TINYINT"; Macro "SQL_CVT_SMALLINT"; Macro "SQL_CVT_INTEGER";
      Macro "SQL_CVT_BIGINT"; Macro "SQL_CVT_REAL"; Macro "SQL_CVT_FLOAT"; Macro "SQL_CVT_DOUBLE";
      Macro "SQL_CVT_BINARY"; Macro "SQL_CVT_LONGVARBINARY"; Macro "SQL_CVT_TIMESTAMP"];
   IntParam "SQL_CONVERT_TINYINT"
     [Macro "SQL_CVT_CHAR"; Macro "SQL_CVT_VARCHAR"; Macro "SQL_CVT_LONGVARCHAR";
      Macro "SQL_CVT_WCHAR"; Macro "SQL_CVT_WLONGVARCHAR"; Macro "SQL_CVT_WVARCHAR";
      Macro "SQL_CVT_NUMERIC"; Macro "SQL_CVT_DECIMAL"; Macro "SQL_CVT_TINYINT";
      Macro "SQL_CVT_SMALLINT"; Macro "SQL_CVT_BIT"; Macro "SQL_CVT_INTEGER"; Macro "SQL_CVT_BIGINT";
      Macro "SQL_CVT_REAL"; Macro "SQL_CVT_FLOAT"; Macro "SQL_CVT_DOUBLE"; Macro "SQL_CVT_BINARY";
      Macro "SQL_CVT_VARBINARY"; Macro "SQL_CVT_LONGVARBINARY"; Macro "SQL_CVT_TIMESTAMP"];
   IntParam "SQL_CONVERT_TIME"
     [Macro "SQL_CVT_CHAR"; Macro "SQL_CVT_VARCHAR"; Macro "SQL_CVT_LONGVARCHAR";
      Macro "SQL_CVT_WVARCHAR"; Macro "SQL_CVT_WCHAR"; Macro "SQL_CVT_WLONGVARCHAR";
      Macro "SQL_CVT_BINARY"; Macro "SQL_CVT_VARBINARY"; Macro "SQL_CVT_LONGVARBINARY";
      Macro "SQL_CVT_TIME"; Macro "SQL_CVT_TIMESTAMP"];
   IntParam "SQL_CONVERT_TIMESTAMP"
     [Macro "SQL_CVT_CHAR"; Macro "SQL_CVT_VARCHAR"; Macro "SQL_CVT_LONGVARCHAR";
      Macro "SQL_CVT_DATE"; Macro "SQL_CVT_WCHAR"; Macro "SQL_CVT_WLONGVARCHAR";
      Macro "SQL_CVT_WVARCHAR"; Macro "SQL_CVT_NUMERIC"; Macro "SQL_CVT_LONGVARBINARY";
      Macro "SQL_CVT_DECIMAL"; Macro "SQL_CVT_INTEGER"; Macro "SQL_CVT_BINARY";
      Macro "SQL_CVT_VARBINARY"; Macro "SQL_CVT_TIMESTAMP"; Macro "SQL_CVT_BIGINT";
      Macro "SQL_CVT_TIME"]].

Definition integer_params_5 : list param :=
  [IntParam "SQL_CONVERT_VARBINARY"
     [Macro "SQL_CVT_CHAR"; Macro "SQL_CVT_VARCHAR"; Macro "SQL_CVT_LONGVARCHAR"; Macro "SQL_CVT_BIT";
      Macro "SQL_CVT_WCHAR"; Macro "SQL_CVT_WLONGVARCHAR"; Macro "SQL_CVT_WVARCHAR";
      Macro "SQL_CVT_NUMERIC"; Macro "SQL_CVT_DECIMAL"; Macro "SQL_CVT_TINYINT";
      Macro "SQL_CVT_SMALLINT"; Macro "SQL_CVT_DATE"; Macro "SQL_CVT_BIGINT"; Macro "SQL_CVT_REAL";
      Macro "SQL_CVT_FLOAT"; Macro "SQL_CVT_DOUBLE"; Macro "SQL_CVT_INTEGER"; Macro "SQL_CVT_BINARY";
      Macro "SQL_CVT_VARBINARY"; Macro "SQL_CVT_LONGVARBINARY"; Macro "SQL_CVT_TIME";
      Macro "SQL_CVT_TIMESTAMP"; Macro "SQL_CVT_GUID"];
   IntParam "SQL_CONVERT_LONGVARBINARY"
     [Macro "SQL_CVT_CHAR"; Macro "SQL_CVT_VARCHAR"; Macro "SQL_CVT_BIT"; Macro "SQL_CVT_TINYINT";
      Macro "SQL_CVT_WCHAR"; Macro "SQL_CVT_WLONGVARCHAR"; Macro "SQL_CVT_WVARCHAR";
      Macro "SQL_CVT_LONGVARCHAR"; Macro "SQL_CVT_NUMERIC"; Macro "SQL_CVT_DECIMAL";
      Macro "SQL_CVT_FLOAT"; Macro "SQL_CVT_INTEGER"; Macro "SQL_CVT_BIGINT"; Macro "SQL_CVT_REAL";
      Macro "SQL_CVT_DATE"; Macro "SQL_CVT_DOUBLE"; Macro "SQL_CVT_BINARY"; Macro "SQL_CVT_VARBINARY";
      Macro "SQL_CVT_LONGVARBINARY"; Macro "SQL_CVT_TIMESTAMP"; Macro "SQL_CVT_SMALLINT";
      Macro "SQL_CVT_TIME"; Macro "SQL_CVT_GUID"];
   IntParam "SQL_PARAM_ARRAY_ROW_COUNTS" [Macro "SQL_PARC_NO_BATCH"];
   IntParam "SQL_PARAM_ARRAY_SELECTS" [Macro "SQL_PAS_NO_SELECT"];
   IntParam "SQL_SCROLL_OPTIONS" [Macro "SQL_SO_FORWARD_ONLY"; Macro "SQL_SO_STATIC"];
   IntParam "SQL_ALTER_DOMAIN" [Lit 0]].

Definition integer_params_6 : list param :=
  [IntParam "SQL_ALTER_TABLE" [Lit 0];
   IntParam "SQL_CREATE_ASSERTION" [Lit 0];
   IntParam "SQL_CREATE_CHARACTER_SET" [Lit 0];
   IntParam "SQL_CREATE_COLLATION" [Lit 0];
   IntParam "SQL_CREATE_DOMAIN" [Lit 0];
   IntParam "SQL_CREATE_SCHEMA" [Lit 0]].

Definition integer_params_7 : list param :=
  [IntParam "SQL_CREATE_TABLE" [Macro "SQL_CT_CREATE_TABLE"; Macro "SQL_CT_COLUMN_CONSTRAINT"];
   IntParam "SQL_CREATE_TRANSLATION" [Lit 0];
   IntParam "SQL_CREATE_VIEW" [Lit 0];
   IntParam "SQL_CURSOR_SENSITIVITY" [Macro "SQL_INSENSITIVE"];
   IntParam "SQL_DDL_INDEX" [Lit 0];
   IntParam "SQL_DEFAULT_TXN_ISOLATION" [Macro "SQL_TXN_REPEATABLE_READ"];
   IntParam "SQL_DROP_ASSERTION" [Lit 0];
   IntParam "SQL_DROP_CHARACTER_SET" [Lit 0];
   IntParam "SQL_DROP_COLLATION" [Lit 0]].

Definition integer_params_8 : list param :=
  [IntParam "SQL_DROP_DOMAIN" [Lit 0];
   IntParam "SQL_DROP_SCHEMA" [Lit 0];
   IntParam "SQL_DROP_TABLE" [Lit 0];
   IntParam "SQL_DROP_TRANSLATION" [Lit 0];
   IntParam "SQL_DROP_VIEW" [Lit 0];
   IntParam "SQL_DYNAMIC_CURSOR_ATTRIBUTES1" [Macro "SQL_CA1_NEXT"]].

Definition integer_params_9 : list param :=
  [IntParam "SQL_DYNAMIC_CURSOR_ATTRIBUTES2" [Macro "SQL_CA2_READ_ONLY_CONCURRENCY"];
   IntParam "SQL_FORWARD_ONLY_CURSOR_ATTRIBUTES1" [Macro "SQL_CA1_NEXT"];
   IntParam "SQL_FORWARD_ONLY_CURSOR_ATTRIBUTES2" [Macro "SQL_CA2_READ_ONLY_CONCURRENCY"]].

Definition integer_params_10 : list param :=
  [IntParam "SQL_INDEX_KEYWORDS" [Macro "SQL_IK_NONE"];
   IntParam "SQL_INFO_SCHEMA_VIEWS" [Lit 0];
   IntParam "SQL_INSERT_STATEMENT" [Lit 0];
   IntParam "SQL_KEYSET_CURSOR_ATTRIBUTES1" [Macro "SQL_CA1_NEXT"]].

Definition integer_params_11 : list param :=
  [IntParam "SQL_KEYSET_CURSOR_ATTRIBUTES2" [Lit 0];
   IntParam "SQL_MAX_ASYNC_CONCURRENT_STATEMENTS" [Lit 1];
   IntParam "SQL_MAX_BINARY_LITERAL_LEN" [Lit 0];
   IntParam "SQL_MAX_CATALOG_NAME_LEN" [Lit 0];
   IntParam "SQL_MAX_CHAR_LITERAL_LEN" [Lit 0];
   IntParam "SQL_MAX_INDEX_SIZE" [Lit 0];
   IntParam "SQL_MAX_ROW_SIZE" [Lit 0];
   IntParam "SQL_MAX_STATEMENT_LEN" [Lit 0];
   IntParam "SQL_SQL92_FOREIGN_KEY_DELETE_RULE" [Lit 0];
   IntParam "SQL_SQL92_FOREIGN_KEY_UPDATE_RULE" [Lit 0];
   IntParam "SQL_SQL92_GRANT" [Lit 0]].

Definition integer_params_12 : list param :=
  [IntParam "SQL_SQL92_REVOKE" [Lit 0];
   IntParam "SQL_SQL92_ROW_VALUE_CONSTRUCTOR"
     [Macro "SQL_SRVC_VALUE_EXPRESSION"; Macro "SQL_SRVC_DEFAULT"; Macro "SQL_SRVC_NULL";
      Macro "SQL_SRVC_ROW_SUBQUERY"];
   IntParam "SQL_STANDARD_CLI_CONFORMANCE" [Macro "SQL_SCC_ISO92_CLI"];
   IntParam "SQL_SUBQUERIES"
     [Macro "SQL_SQ_CORRELATED_SUBQUERIES"; Macro "SQL_SQ_COMPARISON"; Macro "SQL_SQ_EXISTS";
      Macro "SQL_SQ_IN"; Macro "SQL_SQ_QUANTIFIED"];
   IntParam "SQL_TXN_ISOLATION_OPTION" [Macro "SQL_TXN_REPEATABLE_READ"];
   IntParam "SQL_UNION" [Lit 0];
   IntParam "SQL_FETCH_DIRECTION" [Macro "SQL_FD_FETCH_NEXT"];
   IntParam "SQL_LOCK_TYPES" [Macro "SQL_LCK_NO_CHANGE"];
   IntParam "SQL_ODBC_API_CONFORMANCE" [Macro "SQL_OAC_LEVEL1"];
   IntParam "SQL_ODBC_SQL_CONFORMANCE" [Macro "SQL_OSC_EXTENDED"];
   IntParam "SQL_POSITIONED_STATEMENTS" [Lit 0]].

Definition integer_params_13 : list param :=
  [IntParam "SQL_SCROLL_CONCURRENCY" [Macro "SQL_SCCO_READ_ONLY"];
   IntParam "SQL_STATIC_SENSITIVITY" [Lit 0]].

Definition short_params_1 : list param :=
  [ShortParam "SQL_MAX_CONCURRENT_ACTIVITIES" [Lit 1];
   ShortParam "SQL_TXN_CAPABLE" [Macro "SQL_TC_NONE"];
   ShortParam "SQL_QUOTED_IDENTIFIER_CASE" [Macro "SQL_IC_SENSITIVE"];
   ShortParam "SQL_ACTIVE_ENVIRONMENTS" [Lit 0];
   ShortParam "SQL_CONCAT_NULL_BEHAVIOR" [Macro "SQL_CB_NON_NULL"];
   ShortParam "SQL_CORRELATION_NAME" [Macro "SQL_CN_ANY"];
   ShortParam "SQL_FILE_USAGE" [Macro "SQL_FILE_NOT_SUPPORTED"];
   ShortParam "SQL_GROUP_BY" [Macro "SQL_GB_GROUP_BY_CONTAINS_SELECT"];
   ShortParam "SQL_IDENTIFIER_CASE" [Macro "SQL_IC_SENSITIVE"];
   ShortParam "SQL_MAX_COLUMN_NAME_LEN" [Lit 0];
   ShortParam "SQL_MAX_COLUMNS_IN_GROUP_BY" [Lit 0];
   ShortParam "SQL_MAX_COLUMNS_IN_INDEX" [Lit 0]].

Definition short_params_2 : list param :=
  [ShortParam "SQL_MAX_COLUMNS_IN_ORDER_BY" [Lit 0];
   ShortParam "SQL_MAX_COLUMNS_IN_SELECT" [Lit 0];
   ShortParam "SQL_MAX_COLUMNS_IN_TABLE" [Lit 0];
   ShortParam "SQL_MAX_CURSOR_NAME_LEN" [Lit 0];
   ShortParam "SQL_MAX_DRIVER_CONNECTIONS" [Lit 0];
   ShortParam "SQL_MAX_IDENTIFIER_LEN" [Lit 0];
   ShortParam "SQL_MAX_PROCEDURE_NAME_LEN" [Lit 0];
   ShortParam "SQL_MAX_SCHEMA_NAME_LEN" [Lit 0];
   ShortParam "SQL_MAX_TABLE_NAME_LEN" [Lit 0];
   ShortParam "SQL_MAX_TABLES_IN_SELECT" [Lit 0];
   ShortParam "SQL_MAX_USER_NAME_LEN" [Lit 0];
   ShortParam "SQL_NON_NULLABLE_COLUMNS" [Macro "SQL_NNC_NON_NULL"];
   ShortParam "SQL_NULL_COLLATION" [Macro "SQL_NC_LOW"]].

Definition info_params (version : Z * Z * Z) : list param :=
  (string_params_1 version ++ string_params_2 ++ integer_params_1 ++ integer_params_2 ++
   integer_params_3 ++ integer_params_4 ++ integer_params_5 ++ integer_params_6 ++ integer_params_7 ++
   integer_params_8 ++ integer_params_9 ++ integer_params_10 ++ integer_params_11 ++ integer_params_12
   ++ integer_params_13 ++ short_params_1 ++ short_params_2)%list.

(** * The names *)

Definition type_names_1 : list string :=
  ["SQL_ACCESSIBLE_PROCEDURES"; "SQL_ACCESSIBLE_TABLES"; "SQL_ACTIVE_ENVIRONMENTS"; "SQL_DRIVER_NAME";
   "SQL_DBMS_NAME"; "SQL_DRIVER_ODBC_VER"; "SQL_DBMS_VER"; "SQL_DRIVER_VER"; "SQL_COLUMN_ALIAS";
   "SQL_IDENTIFIER_QUOTE_CHAR"; "SQL_CATALOG_NAME_SEPARATOR"; "SQL_SPECIAL_CHARACTERS"; "SQL_CATALOG_TERM";
   "SQL_TABLE_TERM"; "SQL_SCHEMA_TERM"; "SQL_NEED_LONG_DATA_LEN"; "SQL_ASYNC_DBC_FUNCTIONS";
   "SQL_ASYNC_NOTIFICATION"; "SQL_GETDATA_EXTENSIONS"; "SQL_ODBC_INTERFACE_CONFORMANCE";
   "SQL_SQL_CONFORMANCE"; "SQL_CATALOG_USAGE"; "SQL_SCHEMA_USAGE"; "SQL_MAX_IDENTIFIER_LEN";
   "SQL_AGGREGATE_FUNCTIONS"; "SQL_NUMERIC_FUNCTIONS"; "SQL_STRING_FUNCTIONS"; "SQL_TIMEDATE_FUNCTIONS";
   "SQL_TIMEDATE_ADD_INTERVALS"; "SQL_TIMEDATE_DIFF_INTERVALS"; "SQL_DATETIME_LITERALS";
   "SQL_SYSTEM_FUNCTIONS"; "SQL_CONVERT_FUNCTIONS"; "SQL_OJ_CAPABILITIES"; "SQL_POS_OPERATIONS";
   "SQL_MAX_CONCURRENT_ACTIVITIES"; "SQL_TXN_CAPABLE"; "SQL_QUOTED_IDENTIFIER_CASE";
   "SQL_SQL92_NUMERIC_VALUE_FUNCTIONS"; "SQL_SQL92_STRING_FUNCTIONS"; "SQL_SQL92_DATETIME_FUNCTIONS";
   "SQL_SQL92_PREDICATES"; "SQL_SQL92_RELATIONAL_JOIN_OPERATORS"; "SQL_SQL92_VALUE_EXPRESSIONS";
   "SQL_STATIC_CURSOR_ATTRIBUTES1"; "SQL_STATIC_CURSOR_ATTRIBUTES2"; "SQL_CONVERT_BIGINT";
   "SQL_CONVERT_BINARY"; "SQL_CONVERT_BIT"; "SQL_CONVERT_CHAR"].

Definition type_names_2 : list string :=
  ["SQL_CONVERT_DATE"; "SQL_CONVERT_DECIMAL"; "SQL_CONVERT_DOUBLE"; "SQL_CONVERT_FLOAT";
   "SQL_CONVERT_INTEGER"; "SQL_CONVERT_LONGVARCHAR"; "SQL_CONVERT_NUMERIC"; "SQL_CONVERT_REAL";
   "SQL_CONVERT_SMALLINT"; "SQL_CONVERT_TIME"; "SQL_CONVERT_TIMESTAMP"; "SQL_CONVERT_TINYINT";
   "SQL_CONVERT_VARBINARY"; "SQL_CONVERT_VARCHAR"; "SQL_CONVERT_LONGVARBINARY"; "SQL_CONVERT_WCHAR";
   "SQL_CONVERT_INTERVAL_DAY_TIME"; "SQL_CONVERT_INTERVAL_YEAR_MONTH"; "SQL_CONVERT_WLONGVARCHAR";
   "SQL_CONVERT_WVARCHAR"; "SQL_CONVERT_GUID"; "SQL_SCROLL_OPTIONS"; "SQL_PARAM_ARRAY_ROW_COUNTS";
   "SQL_PARAM_ARRAY_SELECTS"; "SQL_ALTER_DOMAIN"; "SQL_ASYNC_MODE"; "SQL_BATCH_ROW_COUNT";
   "SQL_BATCH_SUPPORT"; "SQL_BOOKMARK_PERSISTENCE"; "SQL_CATALOG_LOCATION"; "SQL_CATALOG_NAME";
   "SQL_COLLATION_SEQ"; "SQL_CONCAT_NULL_BEHAVIOR"; "SQL_CORRELATION_NAME"; "SQL_CREATE_ASSERTION";
   "SQL_CREATE_CHARACTER_SET"; "SQL_CREATE_COLLATION"; "SQL_CREATE_DOMAIN"; "SQL_CREATE_SCHEMA";
   "SQL_CREATE_TABLE"; "SQL_CREATE_TRANSLATION"; "SQL_CREATE_VIEW"; "SQL_CURSOR_SENSITIVITY";
   "SQL_DATA_SOURCE_NAME"; "SQL_DATA_SOURCE_READ_ONLY"; "SQL_DATABASE_NAME"; "SQL_DDL_INDEX";
   "SQL_DEFAULT_TXN_ISOLATION"; "SQL_DESCRIBE_PARAMETER"; "SQL_DROP_ASSERTION"].

Definition type_names_3 : list string :=
  ["SQL_DROP_CHARACTER_SET"; "SQL_DROP_COLLATION"; "SQL_DROP_DOMAIN"; "SQL_DROP_SCHEMA"; "SQL_DROP_TABLE";
   "SQL_DROP_TRANSLATION"; "SQL_DROP_VIEW"; "SQL_DYNAMIC_CURSOR_ATTRIBUTES1";
   "SQL_DYNAMIC_CURSOR_ATTRIBUTES2"; "SQL_EXPRESSIONS_IN_ORDERBY"; "SQL_FILE_USAGE";
   "SQL_FORWARD_ONLY_CURSOR_ATTRIBUTES1"; "SQL_FORWARD_ONLY_CURSOR_ATTRIBUTES2"; "SQL_GROUP_BY";
   "SQL_IDENTIFIER_CASE"; "SQL_INDEX_KEYWORDS"; "SQL_INFO_SCHEMA_VIEWS"; "SQL_INSERT_STATEMENT";
   "SQL_INTEGRITY"; "SQL_KEYSET_CURSOR_ATTRIBUTES1"; "SQL_KEYSET_CURSOR_ATTRIBUTES2"; "SQL_KEYWORDS";
   "SQL_LIKE_ESCAPE_CLAUSE"; "SQL_MAX_ASYNC_CONCURRENT_STATEMENTS"; "SQL_MAX_BINARY_LITERAL_LEN";
   "SQL_MAX_CATALOG_NAME_LEN"; "SQL_MAX_CHAR_LITERAL_LEN"; "SQL_MAX_COLUMN_NAME_LEN";
   "SQL_MAX_COLUMNS_IN_GROUP_BY"; "SQL_MAX_COLUMNS_IN_INDEX"; "SQL_MAX_COLUMNS_IN_ORDER_BY";
   "SQL_MAX_COLUMNS_IN_SELECT"; "SQL_MAX_COLUMNS_IN_TABLE"; "SQL_MAX_CURSOR_NAME_LEN";
   "SQL_MAX_DRIVER_CONNECTIONS"; "SQL_MAX_INDEX_SIZE"; "SQL_MAX_PROCEDURE_NAME_LEN"; "SQL_MAX_ROW_SIZE";
   "SQL_MAX_ROW_SIZE_INCLUDES_LONG"; "SQL_MAX_SCHEMA_NAME_LEN"; "SQL_MAX_STATEMENT_LEN";
   "SQL_MAX_TABLE_NAME_LEN"; "SQL_MAX_TABLES_IN_SELECT"; "SQL_MAX_USER_NAME_LEN"; "SQL_MULT_RESULT_SETS";
   "SQL_MULTIPLE_ACTIVE_TXN"; "SQL_NON_NULLABLE_COLUMNS"; "SQL_NULL_COLLATION";
   "SQL_ORDER_BY_COLUMNS_IN_SELECT"; "SQL_PROCEDURE_TERM"].

Definition type_names_4 : list string :=
  ["SQL_PROCEDURES"; "SQL_ROW_UPDATES"; "SQL_SEARCH_PATTERN_ESCAPE"; "SQL_SERVER_NAME";
   "SQL_SQL92_FOREIGN_KEY_DELETE_RULE"; "SQL_SQL92_FOREIGN_KEY_UPDATE_RULE"; "SQL_SQL92_GRANT";
   "SQL_SQL92_REVOKE"; "SQL_SQL92_ROW_VALUE_CONSTRUCTOR"; "SQL_STANDARD_CLI_CONFORMANCE"; "SQL_SUBQUERIES";
   "SQL_TXN_ISOLATION_OPTION"; "SQL_UNION"; "SQL_USER_NAME"; "SQL_ALTER_TABLE"; "SQL_FETCH_DIRECTION";
   "SQL_LOCK_TYPES"; "SQL_ODBC_API_CONFORMANCE"; "SQL_ODBC_SQL_CONFORMANCE"; "SQL_POSITIONED_STATEMENTS";
   "SQL_SCROLL_CONCURRENCY"; "SQL_STATIC_SENSITIVITY"].

Definition type_names : list string := (type_names_1 ++ type_names_2 ++ type_names_3 ++ type_names_4)%list.

Section headers.

(** The headers of ODBC. *)
Context (headers : string -> option Z) (version : Z * Z * Z).

(** * Building the tables *)

(** The macros that the source defines when the headers do not; [ODBCVER] is set to 3.8. *)
Definition workarounds : list (string * Z) :=
  [("SQL_ASYNC_NOTIFICATION", 10025); ("SQL_ASYNC_NOTIFICATION_NOT_CAPABLE", 0);
   ("SQL_ASYNC_NOTIFICATION_CAPABLE", 1); ("SQL_CVT_GUID", 0x01000000)].
Fixpoint assoc (n : string) (l : list (string * Z)) : option Z :=
  match l with [] => None | (k, z) :: t => if String.eqb n k then Some z else assoc n t end.
Definition macro (n : string) : option Z :=
  match headers n with Some z => Some z | None => assoc n workarounds end.

Definition term_value (t : term) : option Z := match t with Macro n => macro n | Lit z => Some z end.
Fixpoint flags_value (acc : Z) (l : list term) : option Z :=
  match l with
  | [] => Some acc
  | t :: l => match term_value t with Some z => flags_value (Z.lor acc z) l | None => None end
  end.

(** One block; [None] when a flag is not defined: then the source does not compile. *)
Definition assign (p : param) (i : ConnectionInfo) : option ConnectionInfo :=
  match macro (param_type p) with
  | None => Some i
  | Some t =>
      match p with
      | StrParam _ v => Some (Connection.MkInfo (om_insert (u16 t) v (strParams i)) (intParams i) (shortParams i))
      | IntParam _ fs =>
          v ← flags_value 0 fs;
          Some (Connection.MkInfo (strParams i) (om_insert (u16 t) (u32 v) (intParams i)) (shortParams i))
      | ShortParam _ fs =>
          v ← flags_value 0 fs;
          Some (Connection.MkInfo (strParams i) (intParams i) (om_insert (u16 t) (u16 v) (shortParams i)))
      end
  end.
Fixpoint assign_all (l : list param) (i : ConnectionInfo) : option ConnectionInfo :=
  match l with
  | [] => Some i
  | p :: l => match assign p i with Some i => assign_all l i | None => None end
  end.

(** The constructor. *)
Definition new_info : option ConnectionInfo := assign_all (info_params version) (Connection.MkInfo [] [] []).

(** The [switch], whose labels are different where it compiles. *)
Definition UNKNOWN_TYPE : string := "<< UNKNOWN TYPE >>".
Fixpoint type_name (l : list string) (type : Z) : string :=
  match l with
  | [] => UNKNOWN_TYPE
  | n :: l => if bool_decide (macro n = Some type) then n else type_name l type
  end.
Definition InfoTypeToString : Z -> string := type_name type_names.

(** * What is asked of the headers *)

Inductive info_value : Type := InText (t : text) | InInt (z : Z) | InShort (z : Z).
Definition value_of (p : param) : option info_value :=
  match p with
  | StrParam _ v => Some (InText v)
  | IntParam _ fs => v ← flags_value 0 fs; Some (InInt (u32 v))
  | ShortParam _ fs => v ← flags_value 0 fs; Some (InShort (u16 v))
  end.
Definition kind (p : param) : Z := match p with StrParam _ _ => 0 | IntParam _ _ => 1 | ShortParam _ _ => 2 end.

(** Types have sixteen bits, and no two entries of different tables have the same. *)
Definition typed : list (Z * Z) := 
  flat_map (fun p => match macro (param_type p) with Some t => [(t, kind p)] | None => [] end) (info_params version).
Definition same_kinds (l : list (Z * Z)) : bool :=
  forallb (fun x => (0 <=? x.1) && (x.1 <? 65536) && forallb (fun y => negb (x.1 =? y.1) || (x.2 =? y.2)) l) l.
Definition coherent : bool := same_kinds typed.

(** The names of ODBC 2 that the source assigns too are other names of the same types. *)
Definition aliased : Prop :=
  macro "SQL_QUALIFIER_TERM" = macro "SQL_CATALOG_TERM"
  /\ macro "SQL_QUALIFIER_LOCATION" = macro "SQL_CATALOG_LOCATION"
  /\ macro "SQL_QUALIFIER_USAGE" = macro "SQL_CATALOG_USAGE".

(** The types that the connection updates are those of the headers. *)
Definition runtime_types : Prop :=
  macro "SQL_DATA_SOURCE_NAME" = Some SQL_DATA_SOURCE_NAME /\ macro "SQL_DATABASE_NAME" = Some SQL_DATABASE_NAME
  /\ macro "SQL_DBMS_VER" = Some SQL_DBMS_VER /\ macro "SQL_USER_NAME" = Some SQL_USER_NAME.

(** * The answers, from the list *)

(** The entry for the type; the last, should there be several. *)
Fixpoint entry_of (l : list param) (t : Z) (acc : option info_value) : option info_value :=
  match l with
  | [] => acc
  | p :: l => entry_of l t (if bool_decide (macro (param_type p) = Some t) then value_of p else acc)
  end.
Definition table_answer (t : Z) : option info_value := entry_of (info_params version) t None.

(** The same after connecting. *)
Definition connected_answer (cfg : Configuration) (build : option (list version_element)) (t : Z) : option info_value :=
  if t =? SQL_DATA_SOURCE_NAME then Some (InText (GetDsn [] cfg))
  else if t =? SQL_DATABASE_NAME then Some (InText (sv_val (c_database cfg)))
  else if t =? SQL_USER_NAME then Some (InText (sv_val (c_user cfg)))
  else match build with
       | Some es => if t =? SQL_DBMS_VER then Some (InText (version_text es)) else table_answer t
       | None => table_answer t
       end.

(** A text as [SQLGetInfo] hands texts out, a number in four or two bytes, and a refusal
    for a type without an answer and for a number without a buffer. *)
Definition reply `{Platform} (a : option info_value) (buf buflen reslen : Z) (m : mem) : outcome Z (SR.SqlResult * mem) :=
  match a with
  | Some (InText s) =>
      if negb (buf =? 0) && (buflen =? 0) then Ok (SR.AI_ERROR, m) else
      let* (len, _, m) := CopyStringToBuffer s buf (u64 buflen) true m in
      let* m := put_if reslen 2 (u16 (i16 len)) m in
      Ok (SR.AI_SUCCESS, m)
  | Some (InInt z) => if buf =? 0 then Ok (SR.AI_ERROR, m) else let* m := st buf (le_bytes 4 z) m in Ok (SR.AI_SUCCESS, m)
  | Some (InShort z) => if buf =? 0 then Ok (SR.AI_ERROR, m) else let* m := st buf (le_bytes 2 z) m in Ok (SR.AI_SUCCESS, m)
  | None => Ok (SR.AI_ERROR, m)
  end.

(** * Proofs *)

(** What the three tables hold for a type. *)
Definition holds (i : ConnectionInfo) (t : Z) (a : option info_value) : Prop :=
  om_lookup t (strParams i) = match a with Some (InText v) => Some v | _ => None end
  /\ om_lookup t (intParams i) = match a with Some (InInt v) => Some v | _ => None end
  /\ om_lookup t (shortParams i) = match a with Some (InShort v) => Some v | _ => None end.

Lemma GetInfo_holds `{Platform} i t a buf buflen reslen m :
  holds i t a -> GetInfo t buf buflen reslen i m = reply a buf buflen reslen m.
Proof.
  intros (Hs & Hi & Hh). unfold GetInfo. rewrite Hs, Hi, Hh. unfold reply.
  destruct a as [[]|]; [done..|]. by case_match.
Qed.

(** Two entries of the same type are of the same table, and types have sixteen bits. *)
Definition same_tables (l : list param) : Prop :=
  forall p q t, p ∈ l -> q ∈ l -> macro (param_type p) = Some t -> macro (param_type q) = Some t ->
    kind p = kind q /\ 0 <= t < 65536.

Lemma coherent_tables : coherent = true -> same_tables (info_params version).
Proof.
  intros Hc p q t Hp Hq Hpt Hqt.
  assert (Hin : forall r, r ∈ info_params version -> macro (param_type r) = Some t -> In (t, kind r) typed).
  { intros r Hr Ht. apply in_flat_map. exists r. split; [by apply list_elem_of_In|]. rewrite Ht. by left. }
  unfold coherent, same_kinds in Hc. rewrite forallb_forall in Hc. specialize (Hc _ (Hin p Hp Hpt)).
  apply andb_true_iff in Hc as [Hr Hk]. rewrite forallb_forall in Hk. specialize (Hk _ (Hin q Hq Hqt)).
  cbn [fst snd] in Hk, Hr. rewrite Z.eqb_refl in Hk. cbn in Hk. lia.
Qed.

(** The kind of an answer. *)
Definition value_kind (a : info_value) : Z := match a with InText _ => 0 | InInt _ => 1 | InShort _ => 2 end.

Lemma value_of_kind p a : value_of p = Some a -> value_kind a = kind p.
Proof. destruct p; cbn; intros Hv; simplify_option_eq; done. Qed.

(** One block changes the answer for its own type. *)
Lemma assign_holds p i i' t a :
  assign p i = Some i' -> holds i t a ->
  (forall k, macro (param_type p) = Some k -> 0 <= k < 65536) ->
  (forall b, macro (param_type p) = Some t -> a = Some b -> value_kind b = kind p) ->
  holds i' t (if bool_decide (macro (param_type p) = Some t) then value_of p else a).
Proof.
  unfold assign. intros Ha Hh Hr Hk. destruct (macro (param_type p)) as [k|] eqn:Hm.
  2: { rewrite bool_decide_eq_false_2 by done. by simplify_eq. }
  assert (Hu : u16 k = k) by (specialize (Hr k eq_refl); unfold u16, wrapU; apply Z.mod_small; lia).
  rewrite Hu in Ha. destruct (decide (k = t)) as [->|Hne].
  - rewrite bool_decide_eq_true_2 by done.
    destruct Hh as (Hs & Hi & Hh), p; cbn in Ha |- *; simplify_option_eq;
      (split_and!; cbn [strParams intParams shortParams]; rewrite ?om_lookup_insert; [try done..]);
      rewrite ?Hs, ?Hi, ?Hh; (destruct a as [b|]; [|done]); specialize (Hk b eq_refl eq_refl); by destruct b.
  - rewrite bool_decide_eq_false_2 by congruence.
    destruct Hh as (Hs & Hi & Hh), p; cbn in Ha; simplify_option_eq;
      split_and!; cbn [strParams intParams shortParams]; rewrite ?om_lookup_insert_ne by done; done.
Qed.

Lemma assign_all_holds l : forall i i' t a,
  assign_all l i = Some i' -> holds i t a -> same_tables l ->
  (forall p b, p ∈ l -> macro (param_type p) = Some t -> a = Some b -> value_kind b = kind p) ->
  holds i' t (entry_of l t a).
Proof.
  induction l as [|p l IH]; cbn [assign_all entry_of]; intros i i' t a Ha Hh Hs Hk; [by simplify_eq|].
  destruct (assign p i) as [i1|] eqn:H1; [|done]. apply (IH i1); [done| | |].
  - apply (assign_holds p i); [done|done| |].
    + intros k Hm. by destruct (Hs p p k ltac:(set_solver) ltac:(set_solver) Hm Hm).
    + intros b Hm. by apply Hk; [set_solver|].
  - intros q r k Hq Hr. apply Hs; set_solver.
  - intros q b Hq Hm Hb. case_bool_decide as Hp.
    + rewrite (value_of_kind p b Hb). by destruct (Hs p q t ltac:(set_solver) ltac:(set_solver) Hp Hm).
    + apply (Hk q b); [set_solver|done|done].
Qed.

Lemma new_info_holds i t : new_info = Some i -> coherent = true -> holds i t (table_answer t).
Proof.
  intros Hn Hc. apply (assign_all_holds _ (Connection.MkInfo [] [] [])); [done| |by apply coherent_tables|done].
  by split_and!.
Qed.

(** The updates at connecting, of types whose answer is a text. *)
Lemma set_holds i t v t' a w :
  holds i t' a -> holds i t (Some (InText w)) -> holds (SetInfo t v i).2 t' (if t' =? t then Some (InText v) else a).
Proof.
  intros (Hs & Hi & Hh) (Hs' & Hi' & Hh'). unfold SetInfo. rewrite Hs'. cbn [snd].
  destruct (Z.eqb_spec t' t) as [->|Hne]; split_and!; cbn [strParams intParams shortParams];
    by rewrite ?om_lookup_insert, ?om_lookup_insert_ne.
Qed.

Definition texts_at (i : ConnectionInfo) : Prop :=
  forall t, In t [SQL_USER_NAME; SQL_DATABASE_NAME; SQL_DATA_SOURCE_NAME; SQL_DBMS_VER] ->
    exists w, holds i t (Some (InText w)).

Lemma set_texts i t v :
  texts_at i -> In t [SQL_USER_NAME; SQL_DATABASE_NAME; SQL_DATA_SOURCE_NAME; SQL_DBMS_VER] -> texts_at (SetInfo t v i).2.
Proof.
  intros Hi Ht t' Ht'. destruct (Hi t' Ht') as [w' Hw'], (Hi t Ht) as [w Hw].
  pose proof (set_holds i t v t' _ w Hw' Hw) as Hs. case_match; eauto.
Qed.

Lemma connected_holds cfg build i t :
  texts_at i -> holds i t (table_answer t) ->
  holds (UpdateConnectionRuntimeInfo cfg (UpdateSqlDbmsVerInfo build i)) t (connected_answer cfg build t).
Proof.
  intros Hx Hi. unfold UpdateConnectionRuntimeInfo.
  assert (Hv : texts_at (UpdateSqlDbmsVerInfo build i)
      /\ holds (UpdateSqlDbmsVerInfo build i) t (match build with
           | Some es => if t =? SQL_DBMS_VER then Some (InText (version_text es)) else table_answer t
           | None => table_answer t end)).
  { destruct build as [es|]; [|done]. split; [apply set_texts; [done|cbn; tauto]|].
    destruct (Hx SQL_DBMS_VER ltac:(cbn; tauto)) as [w Hw]. by apply (set_holds _ _ _ _ _ w). }
  destruct Hv as [Hxv Hv]. revert Hxv Hv. generalize (UpdateSqlDbmsVerInfo build i). clear i Hx Hi. intros i Hx Hi.
  pose proof (set_texts i SQL_USER_NAME (sv_val (c_user cfg)) Hx ltac:(cbn; tauto)) as Hx1.
  pose proof (set_texts _ SQL_DATABASE_NAME (sv_val (c_database cfg)) Hx1 ltac:(cbn; tauto)) as Hx2.
  destruct (Hx SQL_USER_NAME ltac:(cbn; tauto)) as [w1 Hw1], (Hx1 SQL_DATABASE_NAME ltac:(cbn; tauto)) as [w2 Hw2],
    (Hx2 SQL_DATA_SOURCE_NAME ltac:(cbn; tauto)) as [w3 Hw3].
  exact (set_holds _ _ (GetDsn [] cfg) t _ w3 (set_holds _ _ (sv_val (c_database cfg)) t _ w2
    (set_holds _ _ (sv_val (c_user cfg)) t _ w1 Hi Hw1) Hw2) Hw3).
Qed.

(** The four types are in the table of the texts. *)
Lemma entry_text l t : forall a,
  same_tables l ->
  (exists n v, macro n = Some t /\ StrParam n v ∈ l) \/ (exists w, a = Some (InText w)) ->
  (forall p, p ∈ l -> macro (param_type p) = Some t -> kind p = 0) ->
  exists w, entry_of l t a = Some (InText w).
Proof.
  induction l as [|p l IH]; intros a Hs Ht Hk; cbn [entry_of].
  { destruct Ht as [(n & v & _ & []%elem_of_nil)|Ht]; done. }
  apply IH; [intros q r k Hq Hr; apply Hs; by apply elem_of_cons; right| |intros q Hq; apply Hk; by apply elem_of_cons; right].
  case_bool_decide as Hp.
  - right. specialize (Hk p (proj2 (elem_of_cons _ _ _) (or_introl eq_refl)) Hp). destruct p; [|done..]. by eexists.
  - destruct Ht as [(n & v & Hn & [<-|Hv]%elem_of_cons)|Ht]; [done| |by right].
    left. by exists n, v.
Qed.

Definition is_text_entry (n : string) (p : param) : bool := match p with StrParam k _ => String.eqb n k | _ => false end.
Lemma table_text n t :
  coherent = true -> macro n = Some t -> existsb (is_text_entry n) (info_params version) = true ->
  exists w, table_answer t = Some (InText w).
Proof.
  intros Hc Hn He. apply existsb_exists in He as (p & Hp%list_elem_of_In & He). pose proof (coherent_tables Hc) as Hs.
  destruct p as [k v| |]; [|done..]. apply String.eqb_eq in He as <-.
  apply entry_text; [done|left; by exists n, v|].
  intros q Hq Hqt. by destruct (Hs q (StrParam n v) t Hq Hp Hqt Hn).
Qed.

Lemma new_texts i : new_info = Some i -> coherent = true -> runtime_types -> texts_at i.
Proof.
  intros Hn Hc (H1 & H2 & H3 & H4) t Ht.
  assert (exists n, macro n = Some t /\ existsb (is_text_entry n) (info_params version) = true) as (n & Hm & He).
  { destruct Ht as [<-|[<-|[<-|[<-|[]]]]]; eexists; (split; [eassumption|reflexivity]). }
  destruct (table_text n t Hc Hm He) as [w Hw]. exists w. rewrite <- Hw. by apply new_info_holds.
Qed.

(** ** Names *)

Lemma type_name_spec l t n : n ∈ l -> macro n = Some t -> macro (type_name l t) = Some t.
Proof.
  induction l as [|k l IH]; intros Hin Hm; [by apply elem_of_nil in Hin|]. cbn [type_name].
  case_bool_decide as Hk; [done|]. apply elem_of_cons in Hin as [->|Hin]; [done|auto].
Qed.

Definition new_name (n : string) : string :=
  if String.eqb n "SQL_QUALIFIER_TERM" then "SQL_CATALOG_TERM"
  else if String.eqb n "SQL_QUALIFIER_LOCATION" then "SQL_CATALOG_LOCATION"
  else if String.eqb n "SQL_QUALIFIER_USAGE" then "SQL_CATALOG_USAGE" else n.

Lemma new_name_macro n : aliased -> macro (new_name n) = macro n.
Proof.
  intros (H1 & H2 & H3). unfold new_name. destruct (String.eqb_spec n "SQL_QUALIFIER_TERM") as [->|_]; [by symmetry|].
  destruct (String.eqb_spec n "SQL_QUALIFIER_LOCATION") as [->|_]; [by symmetry|].
  by destruct (String.eqb_spec n "SQL_QUALIFIER_USAGE") as [->|_]; [symmetry|].
Qed.

Lemma entries_named : forallb (fun p => existsb (String.eqb (new_name (param_type p))) type_names) (info_params version) = true.
Proof. reflexivity. Qed.

Lemma entry_in l t : forall a, is_Some (entry_of l t a) -> is_Some a \/ exists p, p ∈ l /\ macro (param_type p) = Some t.
Proof.
  induction l as [|p l IH]; cbn [entry_of]; intros a Ha; [by left|].
  destruct (IH _ Ha) as [Hp|(q & Hq & Hm)].
  - case_bool_decide; [right; exists p; split; [apply elem_of_cons; by left|done]|by left].
  - right. exists q. split; [apply elem_of_cons; by right|done].
Qed.

Lemma answered_named t : aliased -> is_Some (table_answer t) -> macro (InfoTypeToString t) = Some t.
Proof.
  intros Hal Ht. destruct (entry_in _ _ _ Ht) as [[]%is_Some_None|(p & Hp & Hm)].
  pose proof entries_named as Hn. rewrite forallb_forall in Hn. specialize (Hn p (proj1 (list_elem_of_In _ _) Hp)).
  apply existsb_exists in Hn as (n & Hin & <-%String.eqb_eq).
  apply (type_name_spec _ _ _ (proj2 (list_elem_of_In _ _) Hin)). by rewrite new_name_macro.
Qed.

End headers.

(** * The property *)

(** C29: [SQLGetInfo] answers what the tables of the source say: on a new connection, and on
    one that was opened, every information type is answered with the text or the number
    of its entry, in the width of its table, but for the data source, the database, the
    user and the version of the server, which are those of the connection; every other
    type is refused and nothing is written.  Every type that is answered has its name in
    the log. *)
Theorem info_answers `{Platform} (headers : string -> option Z) (version : Z * Z * Z) (i : ConnectionInfo)
    (Hnew : new_info headers version = Some i) (Hc : coherent headers version = true) (Ha : aliased headers)
    (Hr : runtime_types headers) (cfg : Configuration) (build : option (list version_element)) (t buf buflen reslen : Z) (m : mem) :
  GetInfo t buf buflen reslen i m = reply (table_answer headers version t) buf buflen reslen m
  /\ GetInfo t buf buflen reslen (UpdateConnectionRuntimeInfo cfg (UpdateSqlDbmsVerInfo build i)) m
     = reply (connected_answer headers version cfg build t) buf buflen reslen m
  /\ (is_Some (table_answer headers version t) -> macro headers (InfoTypeToString headers t) = Some t).
Proof.
  pose proof (new_info_holds headers version i t Hnew Hc) as Hh. split_and!.
  - by apply GetInfo_holds.
  - apply GetInfo_holds, connected_holds; [|done]. by apply (new_texts headers version).
  - by apply answered_named.
Qed.

(** Headers that number the types in the order of their names. *)
Fixpoint index_of (n : string) (l : list string) (k : Z) : option Z :=
  match l with [] => None | x :: l => if String.eqb n x then Some k else index_of n l (k + 1) end.
Definition sample_headers (n : string) : option Z :=
  match assoc n [("SQL_DATA_SOURCE_NAME", SQL_DATA_SOURCE_NAME); ("SQL_DATABASE_NAME", SQL_DATABASE_NAME);
                 ("SQL_DBMS_VER", SQL_DBMS_VER); ("SQL_USER_NAME", SQL_USER_NAME)] with
  | Some z => Some z
  | None => match index_of (new_name n) type_names 1000 with Some z => Some z | None => Some 1 end
  end.
Definition sample_tables : ConnectionInfo :=
  match new_info sample_headers (1, 0, 2) with Some i => i | None => Connection.MkInfo [] [] [] end.

Lemma info_answers_witness :
  sample_headers "SQL_DRIVER_VER" = Some 1007
  /\ GetInfo 1007 16 64 0 sample_tables ∅ = reply (Some (InText (str "01.00.0002"))) 16 64 0 ∅
  /\ macro sample_headers (InfoTypeToString sample_headers 1007) = Some 1007.
Proof.
  assert (Ht : table_answer sample_headers (1, 0, 2) 1007 = Some (InText (str "01.00.0002"))) by (by vm_compute).
  split; [reflexivity|]. rewrite <- Ht.
  destruct (info_answers sample_headers (1, 0, 2) sample_tables) with (cfg := new_configuration)
    (build := @None (list version_element)) (t := 1007) (buf := 16) (buflen := 64) (reslen := 0) (m := ∅ : mem)
    as (Hi & _ & Hn).
  - by vm_compute.
  - by vm_compute.
  - by split_and!.
  - by split_and!.
  - split; [exact Hi|]. apply Hn. rewrite Ht. by eexists.
Defined.
