(* ===== verification/JavaHome.v ===== *)
(** Where the driver finds Java and its own libraries: [src/src/odbc/src/jni/os/linux/utils.cpp],
    with [FileExists], [IsValidDirectory] and [GetEnv] of [os/linux/src/common/platform_utils.cpp].

    The file system and the environment are a parameter, the record [FileSystem]: what
    [glob], [stat], [opendir] and [readdir], [getenv] and [getcwd] answer.  Proved: going
    up the directories ends and gives the nearest one that has the libraries, and the class
    path is the list of the libraries in it. *)
From S2P Require Import Prelude OrdMap Memory Utf8 BigText TypeTraits Chrono AppBuffer AppRead Diag SqlLex Params Statement.
From S2P Require Import Config ConfigParse ConfigRound Meta Connection.

Record FileSystem : Type := MkFileSystem {
  fs_glob : text -> bool;                  (* the pattern matches something *)
  fs_directory : text -> bool;             (* [stat] succeeds, and it is a directory *)
  fs_entries : text -> option (list text); (* the names that [readdir] gives, in its order *)
  fs_env : text -> option text;
  fs_cwd : option text
}.

(** * Texts *)

(** [s.find(p) != npos]. *)
Fixpoint is_prefix (p s : text) : bool :=
  match p, s with
  | [], _ => true
  | a :: p, b :: s => (a =? b) && is_prefix p s
  | _, [] => false
  end.
Fixpoint occurs (p s : text) : bool := is_prefix p s || match s with [] => false | _ :: s => occurs p s end.

(** [strrchr]. *)
Fixpoint strrchr (c : Z) (s : text) : option text :=
  match s with
  | [] => None
  | x :: t => match strrchr c t with Some r => Some r | None => if x =? c then Some (x :: t) else None end
  end.

(** Up to the last character that is not one of [cs]: [s.substr(0, s.find_last_not_of(cs) + 1)]. *)
Fixpoint trim_end (cs : list Z) (s : text) : text :=
  match s with
  | [] => []
  | x :: t => match trim_end cs t with [] => if bool_decide (x ∈ cs) then [] else [x] | r => x :: r end
  end.

(** Before the last [c]: [s.substr(0, s.find_last_of(c))], [None] when there is none. *)
Fixpoint before_last (c : Z) (s : text) : option text :=
  match s with
  | [] => None
  | x :: t => match before_last c t with Some r => Some (x :: r) | None => if x =? c then Some [] else None end
  end.

Definition SLASH : Z := 47.
Definition COLON : Z := 58.

Section home.
Context (fs : FileSystem).

(** * The platform *)

Definition FileExists (path : text) : bool := fs_glob fs (c_str path).
Definition IsValidDirectory (path : text) : bool := match path with [] => false | _ => fs_directory fs (c_str path) end.
Definition GetEnv (name dflt : text) : text := match fs_env fs name with Some v => v | None => dflt end.

(** * The home directory *)

Definition LooksLikeBinaryReleaseHome (path : text) : bool := FileExists (path ++ str "/libs/documentdb-jdbc*.jar").

(** [None] when [fuel] directories are not enough. *)
Fixpoint ResolveDocumentDbHome0 (fuel : nat) (path : text) : option text :=
  match fuel with
  | O => None
  | S k =>
      if negb (IsValidDirectory path) then Some []
      else
        match trim_end [SLASH; 32] path with
        | [] => Some []
        | path0 =>
            if LooksLikeBinaryReleaseHome path0 then Some path0
            else match before_last SLASH path0 with
                 | None => Some []
                 | Some parent => ResolveDocumentDbHome0 k parent
                 end
        end
  end.

Definition ResolveDocumentDbHome (fuel : nat) (path : text) : option text :=
  if IsValidDirectory path then Some path
  else
    let home := GetEnv (str "DOCUMENTDB_HOME") [] in
    if IsValidDirectory home then Some home
    else match fs_cwd fs with None => Some [] | Some cwd => ResolveDocumentDbHome0 fuel (c_str cwd) end.

(** * The class path *)

Definition is_jar (name : text) : bool := bool_decide (strrchr 46 name = Some (str ".jar")).

Definition ClasspathJars (path : text) : text :=
  match fs_entries fs (c_str path) with
  | None => []
  | Some names => concat (map (fun n => if is_jar n then path ++ [SLASH] ++ n ++ [COLON] else []) names)
  end.

Definition TEST_EXCLUDED_MODULES : list text := [str "rest-http"].
Definition IsExcludedModule (path : text) : bool := existsb (fun m => occurs m (ToLower path)) TEST_EXCLUDED_MODULES.

(** The directories in [path] with a name not in [skip]; each of them is given to [f]. *)
Definition subdirectories (skip : list text) (f : text -> text) (path : text) : text :=
  match fs_entries fs (c_str path) with
  | None => []
  | Some names =>
      concat (map (fun n => if bool_decide (n ∈ skip) then []
                            else let full := path ++ [SLASH] ++ n in
                                 if fs_directory fs (c_str full) then f full else []) names)
  end.

(** [ClasspathExploded(path, down)]: the calls for the directories inside are with [false]. *)
Definition exploded (inner : text -> text) (path : text) : text :=
  if FileExists path && negb (IsExcludedModule path) then
    let classesPath := path ++ str "/target/classes" in
    let testClassesPath := path ++ str "/target/test-classes" in
    let libsPath := path ++ str "/target/libs" in
    (if FileExists classesPath then classesPath ++ [COLON] else [])
    ++ (if FileExists testClassesPath then testClassesPath ++ [COLON] else [])
    ++ (if FileExists libsPath then ClasspathJars libsPath else [])
    ++ inner path
  else [].
Definition ClasspathExploded (path : text) (down : bool) : text :=
  exploded (if down then subdirectories [str "."; str ".."] (exploded (fun _ => [])) else fun _ => []) path.

(** The directory of the libraries; it may be missing. *)
Definition jar_libs (home : text) : text :=
  let libsPath := home ++ str "/libs" in
  let appPath := home ++ str "/app" in
  if FileExists libsPath then libsPath else if FileExists appPath then appPath else [].

Definition CreateDocumentDbHomeClasspath (home : text) (forceTest : bool) : text :=
  (if forceTest then
     ClasspathExploded (home ++ str "/examples") true ++ ClasspathExploded (home ++ str "/modules") true
   else [])
  ++ (let jarLibsPath := jar_libs home in
      match jarLibsPath with
      | [] => []
      | _ =>
          if FileExists jarLibsPath then
            ClasspathJars jarLibsPath
            ++ subdirectories [str "."; str ".."; str "optional"] ClasspathJars jarLibsPath
          else []
      end).

Definition NormalizeClasspath (usrCp : text) : text :=
  match last usrCp with None => usrCp | Some c => if c =? 59 then usrCp else usrCp ++ str ";" end.

Definition CreateDocumentDbClasspath (usrCp home : text) : text :=
  NormalizeClasspath usrCp
  ++ match home with
     | [] => []
     | _ =>
         let forceTest := bool_decide (ToLower (GetEnv (str "DOCUMENTDB_NATIVE_TEST_CLASSPATH") (str "false")) = str "true") in
         CreateDocumentDbHomeClasspath home forceTest
     end.

(** [CreateDocumentDbClasspath(usrCp, home, forceTest)], with a pointer to the home. *)
Definition CreateDocumentDbClasspath_test (usrCp : text) (home : option text) (forceTest : bool) : text :=
  NormalizeClasspath usrCp ++ match home with Some home => CreateDocumentDbHomeClasspath home forceTest | None => [] end.

(** * The machine *)

Definition FindJvmLibrary (path : text) : text :=
  if match path with [] => false | _ => FileExists path end then path
  else
    match GetEnv (str "JAVA_HOME") [] with
    | [] => []
    | javaEnv =>
        let javaDll := javaEnv ++ str "/jre/lib/amd64/server/libjvm.so" in
        if FileExists javaDll then javaDll
        else
          let javaDll := javaEnv ++ str "/lib/server/libjvm.so" in
          if FileExists javaDll then javaDll else []
    end.

(** * What they promise *)

(** The directories above a path, nearest first, each as the code writes it. *)
Fixpoint ancestors (fuel : nat) (path : text) : list text :=
  match fuel with
  | O => []
  | S k => path :: match before_last SLASH (trim_end [SLASH; 32] path) with Some p => ancestors k p | None => [] end
  end.

(** The nearest that has the libraries, among those up to the first that is no directory. *)
Fixpoint nearest (l : list text) : text :=
  match l with
  | [] => []
  | p :: l =>
      let p0 := trim_end [SLASH; 32] p in
      if negb (IsValidDirectory p) || bool_decide (p0 = []) then []
      else if LooksLikeBinaryReleaseHome p0 then p0 else nearest l
  end.

Lemma before_last_short c s r : before_last c s = Some r -> (length r < length s)%nat.
Proof.
  revert r. induction s as [|x s IH]; intros r; [done|]. cbn [before_last length].
  destruct (before_last c s) as [q|].
  - intros [= <-]. specialize (IH q eq_refl). cbn [length]. lia.
  - case_match; [|done]. intros [= <-]. cbn. lia.
Qed.
Lemma trim_end_short cs s : (length (trim_end cs s) <= length s)%nat.
Proof.
  induction s as [|x s IH]; [done|]. cbn [trim_end]. destruct (trim_end cs s) eqn:E; cbn [length] in *; [|lia].
  case_bool_decide; cbn; lia.
Qed.

Lemma resolve_nearest : forall fuel path, (length path < fuel)%nat ->
  ResolveDocumentDbHome0 fuel path = Some (nearest (ancestors fuel path)).
Proof.
  induction fuel as [|k IH]; intros path Hk; [lia|]. cbn [ResolveDocumentDbHome0 ancestors nearest].
  destruct (IsValidDirectory path); [|done]. cbn [negb orb].
  pose proof (trim_end_short [SLASH; 32] path) as Hs. destruct (trim_end [SLASH; 32] path) as [|x q] eqn:E; [done|].
  rewrite bool_decide_eq_false_2 by done. destruct (LooksLikeBinaryReleaseHome (x :: q)); [done|].
  destruct (before_last SLASH (x :: q)) as [p|] eqn:Ep; [|done]. apply before_last_short in Ep.
  apply IH. lia.
Qed.

(** ** Libraries *)

Lemma strrchr_suffix c s r : strrchr c s = Some r -> exists b, s = b ++ r.
Proof.
  induction s as [|x s IH]; [done|]. cbn [strrchr]. destruct (strrchr c s) as [q|].
  - intros [= ->]. destruct (IH eq_refl) as [b ->]. by exists (x :: b).
  - case_match; [|done]. intros [= <-]. by exists [].
Qed.
Lemma is_jar_spec n : is_jar n = true <-> exists b, n = b ++ str ".jar".
Proof.
  unfold is_jar. rewrite bool_decide_eq_true. split; [by intros [b ->]%strrchr_suffix; exists b|].
  intros [b ->]. induction b as [|x b IH]; [reflexivity|]. cbn [app strrchr]. by rewrite IH.
Qed.

(** The libraries in a directory, with their paths. *)
Definition jars_in (path : text) : list text :=
  match fs_entries fs (c_str path) with
  | None => []
  | Some names => map (fun n => path ++ [SLASH] ++ n) (filter (fun n => is_jar n = true) names)
  end.
Definition inner_directories (path : text) : list text :=
  match fs_entries fs (c_str path) with
  | None => []
  | Some names =>
      filter (fun p => fs_directory fs (c_str p) = true)
        (map (fun n => path ++ [SLASH] ++ n) (filter (fun n => n ∉ [str "."; str ".."; str "optional"]) names))
  end.
(** Those of the driver: in the directory of the libraries and in the directories in it. *)
Definition driver_jars (home : text) : list text :=
  let lib := jar_libs home in
  if bool_decide (lib = []) || negb (FileExists lib) then []
  else jars_in lib ++ concat (map jars_in (inner_directories lib)).

(** A class path of its entries. *)
Definition class_path (l : list text) : text := concat (map (fun p => p ++ [COLON]) l).
(** The entries of a class path, as Java reads it. *)
Fixpoint entries_of (cp acc : text) : list text :=
  match cp with
  | [] => match acc with [] => [] | _ => [acc] end
  | x :: cp => if x =? COLON then acc :: entries_of cp [] else entries_of cp (acc ++ [x])
  end.

Lemma class_path_app l k : class_path (l ++ k) = class_path l ++ class_path k.
Proof. unfold class_path. by rewrite map_app, concat_app. Qed.
Lemma class_path_nil l : class_path l = [] -> l = [].
Proof. destruct l as [|p l]; [done|]. unfold class_path. cbn. destruct p; done. Qed.

Lemma ClasspathJars_spec path : ClasspathJars path = class_path (jars_in path).
Proof.
  unfold ClasspathJars, jars_in. destruct (fs_entries fs (c_str path)) as [names|]; [|done].
  induction names as [|n names IH]; [done|]. cbn [map concat]. rewrite IH, filter_cons. destruct (is_jar n).
  - rewrite decide_True by done. cbn [map]. unfold class_path. cbn [map concat]. by rewrite <- !app_assoc.
  - by rewrite decide_False by done.
Qed.

Lemma inner_jars_spec path :
  subdirectories [str "."; str ".."; str "optional"] ClasspathJars path
  = class_path (concat (map jars_in (inner_directories path))).
Proof.
  unfold subdirectories, inner_directories. destruct (fs_entries fs (c_str path)) as [names|]; [|done].
  induction names as [|n names IH]; [done|]. cbn [map concat]. rewrite IH, filter_cons.
  case_bool_decide as Hn; [by rewrite decide_False by tauto|]. rewrite decide_True by done. cbn [map].
  rewrite filter_cons. destruct (fs_directory fs _).
  - rewrite decide_True by done. cbn [map concat]. by rewrite class_path_app, ClasspathJars_spec.
  - by rewrite decide_False by done.
Qed.

Lemma home_classpath_spec home : CreateDocumentDbHomeClasspath home false = class_path (driver_jars home).
Proof.
  unfold CreateDocumentDbHomeClasspath, driver_jars. cbn [app].
  destruct (jar_libs home) as [|x p] eqn:E; [done|]. rewrite bool_decide_eq_false_2 by done. cbn [orb].
  destruct (FileExists (x :: p)); cbn [negb]; [|done]. by rewrite class_path_app, ClasspathJars_spec, inner_jars_spec.
Qed.

Lemma entries_of_path p cp acc : COLON ∉ p -> entries_of (p ++ COLON :: cp) acc = (acc ++ p) :: entries_of cp [].
Proof.
  revert acc. induction p as [|x p IH]; intros acc Hp.
  - cbn. by rewrite app_nil_r.
  - apply not_elem_of_cons in Hp as [Hx Hp]. cbn [app entries_of]. destruct (Z.eqb_spec x COLON) as [->|]; [done|].
    rewrite (IH (acc ++ [x]) Hp), <- app_assoc. done.
Qed.
Lemma entries_of_class_path l : Forall (fun p => COLON ∉ p) l -> entries_of (class_path l) [] = l.
Proof.
  induction 1 as [|p l Hp _ IH]; [done|]. unfold class_path in *. cbn [map concat]. rewrite <- app_assoc.
  etrans; [apply (entries_of_path p _ [] Hp)|]. by rewrite IH.
Qed.

End home.

(** * The property *)

(** C31: Connecting finds Java's libraries.  Without [DOCUMENTDB_HOME] the home is the
    nearest directory, from the working directory upwards, that has the driver's library
    in its [libs]: the search ends.  And the class path for a home lists exactly the [.jar]
    files of its directory of libraries and of the directories in it but [optional]; with
    none, the connection is refused for want of a class path. *)
Theorem java_found `{Host} (fs : FileSystem) (cwd home : text) (a : Answers) (c : Connection)
    (Hcwd : fs_cwd fs = Some cwd) (Henv : IsValidDirectory fs (GetEnv fs (str "DOCUMENTDB_HOME") []) = false)
    (Hhome : nearest fs (ancestors (S (length (c_str cwd))) (c_str cwd)) = home)
    (Htest : ToLower (GetEnv fs (str "DOCUMENTDB_NATIVE_TEST_CLASSPATH") (str "false")) <> str "true")
    (Hcolon : Forall (fun p => COLON ∉ p) (driver_jars fs home))
    (Hcp : an_classpath a = CreateDocumentDbClasspath fs [] home) (Hc : cn_context c = false) :
  ResolveDocumentDbHome fs (S (length (c_str cwd))) [] = Some home
  /\ entries_of (an_classpath a) [] = (match home with [] => [] | _ => driver_jars fs home end)
  /\ (an_classpath a = [] -> GetJniContext a c = (false, None, c)).
Proof.
  split_and!.
  - unfold ResolveDocumentDbHome. cbn [IsValidDirectory]. rewrite Henv, Hcwd. rewrite resolve_nearest by lia. by rewrite Hhome.
  - rewrite Hcp. unfold CreateDocumentDbClasspath. rewrite bool_decide_eq_false_2 by done. cbn [NormalizeClasspath last app].
    destruct home; [done|]. rewrite home_classpath_spec. by apply entries_of_class_path.
  - intros Hn. unfold GetJniContext. by rewrite Hc, Hn.
Qed.

(** A file system with one home, two libraries and a subdirectory. *)
Definition sample_files : FileSystem := {|
  fs_glob p := existsb (fun q => bool_decide (p = str q)) ["/opt/ddb/libs/documentdb-jdbc*.jar"; "/opt/ddb/libs"];
  fs_directory p := existsb (fun q => bool_decide (p = str q)) ["/opt/ddb/bin/x/"; "/opt/ddb/bin"; "/opt/ddb"; "/opt/ddb/libs/more"];
  fs_entries p :=
    if bool_decide (p = str "/opt/ddb/libs") then Some (map str ["."; ".."; "documentdb-jdbc-1.jar"; "readme.txt"; "more"])
    else if bool_decide (p = str "/opt/ddb/libs/more") then Some (map str ["."; ".."; "b.jar"]) else None;
  fs_env n := None;
  fs_cwd := Some (str "/opt/ddb/bin/x/")
|}.

Lemma no_colon l : forallb (forallb (fun x => negb (x =? COLON))) l = true -> Forall (fun p => COLON ∉ p) l.
Proof.
  intros Hl. apply Forall_forall. intros p Hp Hin. rewrite forallb_forall in Hl.
  specialize (Hl p (proj1 (list_elem_of_In _ _) Hp)). rewrite forallb_forall in Hl.
  by specialize (Hl COLON (proj1 (list_elem_of_In _ _) Hin)).
Qed.

Lemma java_found_witness :
  let home := str "/opt/ddb" in
  ResolveDocumentDbHome sample_files (S (length (str "/opt/ddb/bin/x/"))) [] = Some home
  /\ entries_of (CreateDocumentDbClasspath sample_files [] home) []
     = [str "/opt/ddb/libs/documentdb-jdbc-1.jar"; str "/opt/ddb/libs/more/b.jar"].
Proof.
  pose (a := MkAnswers (CreateDocumentDbClasspath sample_files [] (str "/opt/ddb")) None (fun _ => inl []) (inl [])
    (inl []) (fun _ _ _ => inr false) (fun _ _ _ => inr None) (inl []) (inl []) (inl [])).
  destruct (java_found sample_files (str "/opt/ddb/bin/x/") (str "/opt/ddb") a
    (new_connection (MkInfo [] [] []) (MkLogger LL.OFF []))) as (H1 & H2 & _).
  - reflexivity.
  - reflexivity.
  - by vm_compute.
  - discriminate.
  - apply no_colon. by vm_compute.
  - reflexivity.
  - reflexivity.
  - split; [exact H1|]. exact H2.
Defined.
