(* ===== verification/HandleRegistry.v ===== *)
(** The registry of handles: [src/src/odbc/src/impl/handle_registry.cpp], for any number of
    threads.

    An operation is a program of steps on the shared state ([prog]): what C++ does at once
    (an atomic operation, a method of a segment under its lock, an assignment of a pointer)
    is a step, and the steps of the threads interleave in any order.  Memory is sequentially
    consistent; the pointers of the fast path are assigned without a lock, and that two
    threads at one of them are a data race is not looked at. *)
From S2P Require Import Prelude OrdMap Memory Utf8 TypeTraits AppBuffer AppRead Diag.

(** Pointers are numbers, 0 is null. *)
Record Registry : Type := MkRegistry {
  hr_fastCtr : Z;
  hr_fast : list Z;
  hr_slowCtr : Z;
  hr_slow : list (gmap Z Z);
  hr_closed : Z
}.

(** A step gives a number and the new state, [None] is undefined. *)
Inductive prog : Type :=
| Done (r : Z)
| Step (f : Registry -> option (Z * Registry)) (k : Z -> prog).

Fixpoint run (p : prog) (s : Registry) : option (Z * Registry) :=
  match p with
  | Done r => Some (r, s)
  | Step f k => match f s with Some (b, s) => run (k b) s | None => None end
  end.

(** * The steps *)

Definition get_closed (s : Registry) : option (Z * Registry) := Some (hr_closed s, s).
Definition get_fastCtr (s : Registry) : option (Z * Registry) := Some (hr_fastCtr s, s).

(** [IncrementAndGet32] and [IncrementAndGet64]. *)
Definition next_fast (s : Registry) : option (Z * Registry) :=
  let c := i32 (hr_fastCtr s + 1) in Some (c, MkRegistry c (hr_fast s) (hr_slowCtr s) (hr_slow s) (hr_closed s)).
Definition next_slow (s : Registry) : option (Z * Registry) :=
  let c := i64 (hr_slowCtr s + 1) in Some (c, MkRegistry (hr_fastCtr s) (hr_fast s) c (hr_slow s) (hr_closed s)).

(** [CompareAndSet32(&closed, 0, 1)]. *)
Definition cas_closed (s : Registry) : option (Z * Registry) :=
  if hr_closed s =? 0 then Some (1, MkRegistry (hr_fastCtr s) (hr_fast s) (hr_slowCtr s) (hr_slow s) 1) else Some (0, s).

Definition set_fast (i p : Z) (s : Registry) : option (Z * Registry) :=
  if (0 <=? i) && (i <? Z.of_nat (length (hr_fast s))) then
    Some (0, MkRegistry (hr_fastCtr s) (<[Z.to_nat i := p]> (hr_fast s)) (hr_slowCtr s) (hr_slow s) (hr_closed s))
  else None.
Definition get_fast (i : Z) (s : Registry) : option (Z * Registry) :=
  if 0 <=? i then match hr_fast s !! Z.to_nat i with Some p => Some (p, s) | None => None end else None.

(** A method of the segment [slow[k]], and of [slow[hnd % slowSegmentCnt]]. *)
Definition at_segment (k : nat) (f : gmap Z Z -> Z * gmap Z Z) (s : Registry) : option (Z * Registry) :=
  match hr_slow s !! k with
  | Some m => let (r, m) := f m in
              Some (r, MkRegistry (hr_fastCtr s) (hr_fast s) (hr_slowCtr s) (<[k := m]> (hr_slow s)) (hr_closed s))
  | None => None
  end.
Definition on_segment (hnd : Z) (f : gmap Z Z -> Z * gmap Z Z) (s : Registry) : option (Z * Registry) :=
  let cnt := Z.of_nat (length (hr_slow s)) in
  if (cnt =? 0) || (hnd <? 0) then None else at_segment (Z.to_nat (hnd mod cnt)) f s.
Definition segment_Get (hnd : Z) (m : gmap Z Z) : Z * gmap Z Z := (default 0 (m !! hnd), m).
Definition segment_Put (hnd p : Z) (m : gmap Z Z) : Z * gmap Z Z := (0, <[hnd := p]> m).
Definition segment_Remove (hnd : Z) (m : gmap Z Z) : Z * gmap Z Z := (0, delete hnd m).
Definition segment_Clear (m : gmap Z Z) : Z * gmap Z Z := (0, ∅).

(** * The operations *)

Section registry.
Context (fastCap slowSegmentCnt : nat).
Abbreviation cap := (Z.of_nat fastCap).

Definition new_registry : Registry :=
  MkRegistry 0 (replicate fastCap 0) cap (replicate slowSegmentCnt ∅) 0.

(** The second half of [Allocate0], from where the entry is in its place. *)
Definition finish (safe : bool) (idx : Z) (undo : Registry -> option (Z * Registry)) : prog :=
  if safe then Step get_closed (fun closed => if closed =? 1 then Step undo (fun _ => Done (-1)) else Done idx)
  else Done idx.

Definition put_slow (target : Z) (safe : bool) (slowIdx : Z) : prog :=
  Step (on_segment slowIdx (segment_Put slowIdx target))
    (fun _ => finish safe slowIdx (on_segment slowIdx (segment_Remove slowIdx))).
Definition allocate_slow (target : Z) (safe : bool) : prog :=
  Step next_slow (fun c => put_slow target safe (c - 1)).

Definition put_fast (target : Z) (safe : bool) (fastIdx : Z) : prog :=
  Step (set_fast fastIdx target) (fun _ => finish safe fastIdx (set_fast fastIdx 0)).
Definition allocate_fast (target : Z) (safe : bool) : prog :=
  Step next_fast (fun c => let fastIdx := c - 1 in
    if fastIdx <? cap then put_fast target safe fastIdx else allocate_slow target safe).

Definition allocate_open (target : Z) (critical safe : bool) : prog :=
  if critical then Step get_fastCtr (fun c => if c <? cap then allocate_fast target safe else allocate_slow target safe)
  else allocate_slow target safe.
Definition Allocate0 (target : Z) (critical safe : bool) : prog :=
  Step get_closed (fun closed => if closed =? 1 then Done (-1) else allocate_open target critical safe).

Definition Allocate (target : Z) : prog := Allocate0 target false false.
Definition AllocateCritical (target : Z) : prog := Allocate0 target true false.
Definition AllocateSafe (target : Z) : prog := Allocate0 target false true.
Definition AllocateCriticalSafe (target : Z) : prog := Allocate0 target true true.

Definition registry_Release (hnd : Z) : prog :=
  if hnd <? 0 then Done 0
  else if hnd <? cap then Step (set_fast hnd 0) Done
  else Step (on_segment hnd (segment_Remove hnd)) Done.

Definition Get (hnd : Z) : prog :=
  if hnd <? cap then Step (get_fast hnd) Done else Step (on_segment hnd (segment_Get hnd)) Done.

(** The loops of [Close]: [n] places from [i] on. *)
Fixpoint clear_slow (n i : nat) : prog :=
  match n with
  | O => Done 0
  | S n => Step (at_segment i segment_Clear) (fun _ => clear_slow n (S i))
  end.
Fixpoint clear_fast (n i : nat) : prog :=
  match n with
  | O => clear_slow slowSegmentCnt 0
  | S n => Step (set_fast (Z.of_nat i) 0) (fun _ => clear_fast n (S i))
  end.
Definition registry_Close : prog := Step cas_closed (fun won => if won =? 1 then clear_fast fastCap 0 else Done 0).

(** * Threads *)

Inductive call : Type :=
| CAllocate (target : Z) (critical safe : bool)
| CRelease (hnd : Z)
| CGet (hnd : Z)
| CClose.
Definition prog_of (c : call) : prog :=
  match c with
  | CAllocate x critical safe => Allocate0 x critical safe
  | CRelease h => registry_Release h
  | CGet h => Get h
  | CClose => registry_Close
  end.

(** The calls so far, each with what is left of it.  One may begin at any time, and any of
    them may make its next step. *)
Abbreviation config := (Registry * list (call * prog))%type.
Inductive step : config -> config -> Prop :=
| step_call s ts c : step (s, ts) (s, ts ++ [(c, prog_of c)])
| step_thread s ts i c f k b s' :
    ts !! i = Some (c, Step f k) -> f s = Some (b, s') -> step (s, ts) (s', <[i := (c, k b)]> ts).

(** * Where the calls are

    Each of them is at one of these points, with what is left of it. *)
Inductive pc : Type :=
| AStart | ACheck | AFast | ASlow
| APut (h : Z)       (* before storing the pointer *)
| AAgain (h : Z)     (* before looking once more whether the registry is closed *)
| AUndo (h : Z)
| ADone (r : Z).
Inductive thread : Type :=
| TAlloc (x : Z) (critical safe : bool) (p : pc)
| TRelease (h : Z) (finished : bool)
| TGet (h : Z) (result : option Z)
| TClose
| TClear (k : nat)   (* closing, with [k] places cleared *)
| TLost.             (* it was closed already *)

Definition write (h x : Z) : Registry -> option (Z * Registry) :=
  if h <? cap then set_fast h x else on_segment h (segment_Put h x).
Definition erase (h : Z) : Registry -> option (Z * Registry) :=
  if h <? cap then set_fast h 0 else on_segment h (segment_Remove h).

Definition pc_code (x : Z) (critical safe : bool) (p : pc) : prog :=
  match p with
  | AStart => Allocate0 x critical safe
  | ACheck => allocate_open x true safe
  | AFast => allocate_fast x safe
  | ASlow => allocate_slow x safe
  | APut h => Step (write h x) (fun _ => finish safe h (erase h))
  | AAgain h => finish true h (erase h)
  | AUndo h => Step (erase h) (fun _ => Done (-1))
  | ADone r => Done r
  end.
Definition thread_code (t : thread) : prog :=
  match t with
  | TAlloc x critical safe p => pc_code x critical safe p
  | TRelease h true => Done 0
  | TRelease h false => registry_Release h
  | TLost => Done 0
  | TGet h (Some r) => Done r
  | TGet h None => Get h
  | TClose => registry_Close
  | TClear k => if (k <? fastCap)%nat then clear_fast (fastCap - k) k else clear_slow (slowSegmentCnt - (k - fastCap)) (k - fastCap)
  end.
Definition thread_call (t : thread) : call :=
  match t with
  | TAlloc x critical safe _ => CAllocate x critical safe
  | TRelease h _ => CRelease h
  | TGet h _ => CGet h
  | TClose | TClear _ | TLost => CClose
  end.

(** * The places *)

Definition slot (s : Registry) (h : Z) : Z :=
  if h <? cap then default 0 (hr_fast s !! Z.to_nat h)
  else default 0 (hr_slow s !! Z.to_nat (h mod Z.of_nat slowSegmentCnt) ≫= fun m => m !! h).

Record shape (s : Registry) : Prop := {
  sh_fast : length (hr_fast s) = fastCap;
  sh_slow : length (hr_slow s) = slowSegmentCnt
}.
(** Only places change. *)
Record same (s s' : Registry) : Prop := {
  sa_shape : shape s';
  sa_fast : hr_fastCtr s' = hr_fastCtr s;
  sa_slow : hr_slowCtr s' = hr_slowCtr s;
  sa_closed : hr_closed s' = hr_closed s
}.

Hypothesis segments : (0 < slowSegmentCnt)%nat.

Lemma segment_of h : 0 <= h -> (Z.to_nat (h mod Z.of_nat slowSegmentCnt) < slowSegmentCnt)%nat.
Proof. intros Hh. pose proof (Z.mod_pos_bound h (Z.of_nat slowSegmentCnt) ltac:(lia)). lia. Qed.

Lemma set_fast_rule s h x : shape s -> 0 <= h < cap ->
  exists s', set_fast h x s = Some (0, s') /\ same s s' /\ forall j, 0 <= j -> slot s' j = if j =? h then x else slot s j.
Proof.
  intros [Hf Hs] Hh. unfold set_fast. rewrite Hf. destruct (Z.leb_spec 0 h); [|lia]. destruct (Z.ltb_spec h cap); [|lia].
  cbn [andb]. eexists. split; [reflexivity|]. split.
  - split; [|done..]. split; [|done]. cbn [hr_fast]. by rewrite length_insert.
  - intros j Hj. unfold slot. cbn [hr_fast hr_slow]. destruct (Z.eqb_spec j h) as [->|Hne].
    + destruct (Z.ltb_spec h cap); [|lia]. rewrite list_lookup_insert_eq by lia. done.
    + destruct (j <? cap) eqn:E; [|done]. rewrite list_lookup_insert_ne by lia. done.
Qed.

Lemma at_segment_rule s k f : shape s -> (k < slowSegmentCnt)%nat ->
  exists m s', hr_slow s !! k = Some m /\ at_segment k f s = Some ((f m).1, s') /\ same s s'
    /\ forall j, 0 <= j ->
       slot s' j = if (cap <=? j) && (j mod Z.of_nat slowSegmentCnt =? Z.of_nat k) then default 0 ((f m).2 !! j) else slot s j.
Proof.
  intros [Hf Hs] Hk. unfold at_segment. destruct (lookup_lt_is_Some_2 (hr_slow s) k) as [m Hm]; [lia|]. rewrite Hm.
  destruct (f m) as [r m'] eqn:E. exists m. rewrite E. eexists. split; [done|]. split; [reflexivity|]. split.
  - split; [|done..]. split; [done|]. cbn [hr_slow]. by rewrite length_insert.
  - intros j Hj. unfold slot. cbn [hr_fast hr_slow snd]. destruct (Z.leb_spec cap j); cbn [andb];
      [|by destruct (Z.ltb_spec j cap); [|lia]].
    destruct (Z.ltb_spec j cap); [lia|]. pose proof (segment_of j Hj) as Hb.
    pose proof (Z.mod_pos_bound j (Z.of_nat slowSegmentCnt) ltac:(lia)).
    destruct (Z.eqb_spec (j mod Z.of_nat slowSegmentCnt) (Z.of_nat k)) as [He|Hne].
    + rewrite He, Nat2Z.id, list_lookup_insert_eq by lia. done.
    + rewrite list_lookup_insert_ne by lia. done.
Qed.

Lemma on_segment_rule s h f : shape s -> cap <= h ->
  exists m s', hr_slow s !! Z.to_nat (h mod Z.of_nat slowSegmentCnt) = Some m /\ on_segment h f s = Some ((f m).1, s') /\ same s s'
    /\ forall j, 0 <= j ->
       slot s' j = if (cap <=? j) && (j mod Z.of_nat slowSegmentCnt =? h mod Z.of_nat slowSegmentCnt)
                   then default 0 ((f m).2 !! j) else slot s j.
Proof.
  intros Hsh Hh. pose proof (segment_of h ltac:(lia)) as Hb. unfold on_segment. rewrite (sh_slow s Hsh).
  destruct (Z.eqb_spec (Z.of_nat slowSegmentCnt) 0); [lia|]. destruct (Z.ltb_spec h 0); [lia|]. cbn [orb].
  destruct (at_segment_rule s _ f Hsh Hb) as (m & s' & Hm & He & Hsame & Hslot). exists m, s'. split_and!; [done..|].
  pose proof (Z.mod_pos_bound h (Z.of_nat slowSegmentCnt) ltac:(lia)). rewrite Z2Nat.id in Hslot by lia. exact Hslot.
Qed.

(** One place of the slow path. *)
Lemma slow_place s h f x : shape s -> cap <= h ->
  (forall m, (f m).1 = 0 /\ default 0 ((f m).2 !! h) = x /\ forall j, j <> h -> (f m).2 !! j = m !! j) ->
  exists s', on_segment h f s = Some (0, s') /\ same s s' /\ forall j, 0 <= j -> slot s' j = if j =? h then x else slot s j.
Proof.
  intros Hsh Hh Hf. destruct (on_segment_rule s h f Hsh Hh) as (m & s' & Hm & He & Hsame & Hslot).
  destruct (Hf m) as (H1 & H2 & H3). exists s'. rewrite H1 in He. split_and!; [done..|]. intros j Hj. rewrite Hslot by done.
  destruct (Z.eqb_spec j h) as [->|Hne].
  - destruct (Z.leb_spec cap h); [|lia]. by rewrite Z.eqb_refl.
  - rewrite H3 by done. destruct (Z.leb_spec cap j); [|done]. cbn [andb].
    destruct (Z.eqb_spec (j mod Z.of_nat slowSegmentCnt) (h mod Z.of_nat slowSegmentCnt)) as [Heq|]; [|done].
    unfold slot. destruct (Z.ltb_spec j cap); [lia|]. by rewrite Heq, Hm.
Qed.

Lemma write_rule s h x : shape s -> 0 <= h ->
  exists s', write h x s = Some (0, s') /\ same s s' /\ forall j, 0 <= j -> slot s' j = if j =? h then x else slot s j.
Proof.
  intros Hsh Hh. unfold write. destruct (Z.ltb_spec h cap); [by apply set_fast_rule|].
  apply slow_place; [done|lia|]. intros m. unfold segment_Put. cbn [fst snd]. split; [done|].
  split; [by rewrite lookup_insert_eq|]. intros j Hj. by rewrite lookup_insert_ne.
Qed.
Lemma erase_rule s h : shape s -> 0 <= h ->
  exists s', erase h s = Some (0, s') /\ same s s' /\ forall j, 0 <= j -> slot s' j = if j =? h then 0 else slot s j.
Proof.
  intros Hsh Hh. unfold erase. destruct (Z.ltb_spec h cap); [by apply set_fast_rule|].
  apply slow_place; [done|lia|]. intros m. unfold segment_Remove. cbn [fst snd]. split; [done|].
  split; [by rewrite lookup_delete_eq|]. intros j Hj. by rewrite lookup_delete_ne.
Qed.
Lemma read_rule s h : shape s -> 0 <= h -> run (Get h) s = Some (slot s h, s).
Proof.
  intros Hsh Hh. unfold Get, slot. destruct (Z.ltb_spec h cap); cbn [run].
  - unfold get_fast. destruct (Z.leb_spec 0 h); [|lia].
    destruct (lookup_lt_is_Some_2 (hr_fast s) (Z.to_nat h)) as [p Hp]; [rewrite (sh_fast s Hsh); lia|]. by rewrite Hp.
  - pose proof (segment_of h Hh) as Hb. unfold on_segment, at_segment. rewrite (sh_slow s Hsh).
    destruct (Z.eqb_spec (Z.of_nat slowSegmentCnt) 0); [lia|]. destruct (Z.ltb_spec h 0); [lia|]. cbn [orb].
    destruct (lookup_lt_is_Some_2 (hr_slow s) (Z.to_nat (h mod Z.of_nat slowSegmentCnt))) as [m Hm]; [rewrite (sh_slow s Hsh); lia|].
    rewrite Hm. cbn [segment_Get mbind option_bind]. rewrite list_insert_id by done. by destruct s.
Qed.

(** * The invariant *)

(** The handle that an allocation has taken. *)
Definition claim (t : thread) : option Z :=
  match t with
  | TAlloc _ _ _ (APut h) | TAlloc _ _ _ (AAgain h) | TAlloc _ _ _ (AUndo h) => Some h
  | TAlloc _ _ _ (ADone r) => if 0 <=? r then Some r else None
  | _ => None
  end.
(** Whether it may still take one. *)
Definition wants_fast (t : thread) : Z :=
  match t with TAlloc _ _ _ AStart | TAlloc _ _ _ ACheck | TAlloc _ _ _ AFast => 1 | _ => 0 end.
Definition wants_slow (t : thread) : Z :=
  match t with TAlloc _ _ _ AStart | TAlloc _ _ _ ACheck | TAlloc _ _ _ AFast | TAlloc _ _ _ ASlow => 1 | _ => 0 end.
Fixpoint total (f : thread -> Z) (l : list thread) : Z := match l with [] => 0 | t :: l => f t + total f l end.

Lemma total_app f l k : total f (l ++ k) = total f l + total f k.
Proof. induction l as [|t l IH]; cbn [total app]; lia. Qed.
Lemma total_insert f l i t t' : l !! i = Some t -> total f (<[i := t']> l) = total f l - f t + f t'.
Proof.
  revert i. induction l as [|x l IH]; intros [|i] Hi; cbn in Hi; [done..| |].
  - injection Hi as ->. cbn. lia.
  - change (<[S i:=t']> (x :: l)) with (x :: <[i:=t']> l). cbn [total]. rewrite (IH i Hi). lia.
Qed.
Lemma total_nonneg f l : (forall t, 0 <= f t) -> 0 <= total f l.
Proof. intros Hf. induction l as [|t l IH]; cbn [total]; [lia|]. specialize (Hf t). lia. Qed.

Lemma lookup_update (l : list thread) i t t' j u : l !! i = Some t ->
  <[i := t']> l !! j = Some u <-> (j = i /\ u = t') \/ (j <> i /\ l !! j = Some u).
Proof.
  intros Hi. pose proof (lookup_lt_Some _ _ _ Hi). destruct (decide (j = i)) as [->|Hne].
  - rewrite list_lookup_insert_eq by done. split; [intros [= <-]; by left|]. by intros [[_ ->]|[]].
  - rewrite list_lookup_insert_ne by done. split; [by right|]. by intros [[]|[]].
Qed.

Definition well_formed (t : thread) : Prop :=
  match t with
  | TAlloc _ _ safe (AAgain _) | TAlloc _ _ safe (AUndo _) => safe = true
  | TClear k => (k <= fastCap + slowSegmentCnt)%nat
  | _ => True
  end.

(** Handles are taken once, by counting. *)
Record counted (s : Registry) (l : list thread) : Prop := {
  c_fast : 0 <= hr_fastCtr s /\ hr_fastCtr s + total wants_fast l <= Z.of_nat (length l);
  c_slow : cap <= hr_slowCtr s /\ hr_slowCtr s + total wants_slow l <= cap + Z.of_nat (length l);
  c_formed : forall i t, l !! i = Some t -> well_formed t;
  c_claim : forall i t h, l !! i = Some t -> claim t = Some h ->
    0 <= h /\ (h < cap -> h < hr_fastCtr s) /\ (cap <= h -> h < hr_slowCtr s);
  c_once : forall i j t u h, l !! i = Some t -> l !! j = Some u -> claim t = Some h -> claim u = Some h -> i = j
}.

Lemma counted_update s s' l i t t' :
  counted s l -> l !! i = Some t -> well_formed t' ->
  hr_fastCtr s <= hr_fastCtr s' -> hr_fastCtr s' + wants_fast t' <= hr_fastCtr s + wants_fast t ->
  hr_slowCtr s <= hr_slowCtr s' -> hr_slowCtr s' + wants_slow t' <= hr_slowCtr s + wants_slow t ->
  (forall h, claim t' = Some h -> claim t = Some h
     \/ (0 <= h /\ (h < cap -> hr_fastCtr s <= h < hr_fastCtr s') /\ (cap <= h -> hr_slowCtr s <= h < hr_slowCtr s'))) ->
  counted s' (<[i := t']> l).
Proof.
  intros [Hf Hs Hw Hc Ho] Hi Hw' Hf1 Hf2 Hs1 Hs2 Hcl. split.
  - rewrite (total_insert _ _ _ _ _ Hi), length_insert. lia.
  - rewrite (total_insert _ _ _ _ _ Hi), length_insert. lia.
  - intros j u [[-> ->]|[_ Hj]]%(lookup_update _ _ _ _ _ _ Hi); eauto.
  - intros j u h [[-> ->]|[_ Hj]]%(lookup_update _ _ _ _ _ _ Hi) Hh.
    + destruct (Hcl h Hh) as [Hh'|(? & ? & ?)]; [|lia]. pose proof (Hc i t h Hi Hh'). lia.
    + pose proof (Hc j u h Hj Hh). lia.
  - intros j k u v h [[-> ->]|[Hji Hj]]%(lookup_update _ _ _ _ _ _ Hi) [[-> ->]|[Hki Hk]]%(lookup_update _ _ _ _ _ _ Hi) Hu Hv; [done|..|eauto].
    + destruct (Hcl h Hu) as [Hh'|(H1 & H2 & H3)]; [eauto|]. pose proof (Hc k v h Hk Hv). lia.
    + destruct (Hcl h Hv) as [Hh'|(H1 & H2 & H3)]; [eauto|]. pose proof (Hc j u h Hj Hu). lia.
Qed.

Lemma wants_ordered t : 0 <= wants_fast t <= wants_slow t /\ wants_slow t <= 1.
Proof. destruct t as [x c sf []| | | | |]; cbn; lia. Qed.

(** A call that begins. *)
Definition starts (c : call) : thread :=
  match c with
  | CAllocate x critical safe => TAlloc x critical safe AStart
  | CRelease h => TRelease h (h <? 0)
  | CGet h => TGet h None
  | CClose => TClose
  end.
Lemma starts_code c : thread_code (starts c) = prog_of c /\ thread_call (starts c) = c /\ claim (starts c) = None
  /\ well_formed (starts c).
Proof.
  destruct c; cbn; split_and!; try done. unfold registry_Release. by destruct (hnd <? 0).
Qed.

Lemma lookup_snoc (l : list thread) t j u : (l ++ [t]) !! j = Some u <-> l !! j = Some u \/ (j = length l /\ u = t).
Proof.
  rewrite lookup_app_Some. split; [intros [?|[Hj Hu]]; [by left|]|intros [?|[-> ->]]; [by left|]].
  - right. destruct (j - length l)%nat as [|k] eqn:E; [|done]. cbn in Hu. injection Hu as <-. split; [lia|done].
  - right. split; [lia|]. by rewrite Nat.sub_diag.
Qed.

Lemma counted_start s l c : counted s l -> counted s (l ++ [starts c]).
Proof.
  intros [Hf Hs Hw Hc Ho]. destruct (starts_code c) as (_ & _ & Hn & Hw'). pose proof (wants_ordered (starts c)). split.
  - rewrite total_app, length_app. cbn [total length]. lia.
  - rewrite total_app, length_app. cbn [total length]. lia.
  - intros j u [Hj|[_ ->]]%lookup_snoc; eauto.
  - intros j u h [Hj|[_ ->]]%lookup_snoc; [eauto|congruence].
  - intros j k u v h [Hj|[-> ->]]%lookup_snoc [Hk|[-> ->]]%lookup_snoc; [eauto|congruence..].
Qed.

(** The thread has stored [x] at [h], and has not taken it back. *)
Definition stored (t : thread) (h x : Z) : Prop :=
  match t with
  | TAlloc y _ _ (AAgain k) | TAlloc y _ _ (AUndo k) | TAlloc y _ _ (ADone k) => k = h /\ y = x
  | _ => False
  end.
Definition undoing (t : thread) : Prop := match t with TAlloc _ _ _ (AUndo _) => True | _ => False end.
(** What may be left in a place that [Close] has passed. *)
Definition may_stay (t : thread) : Prop := match t with TAlloc _ _ safe (ADone _) => safe = false | _ => True end.
Definition cleared (k : nat) (h : Z) : Prop :=
  if h <? cap then h < Z.of_nat k else cap + h mod Z.of_nat slowSegmentCnt < Z.of_nat k.
Definition closing (t : thread) : Prop := match t with TLost | TClear _ => True | _ => False end.

(** What is in the places. *)
Record placed (s : Registry) (l : list thread) : Prop := {
  p_owner : forall h, 0 <= h -> slot s h <> 0 -> exists i t, l !! i = Some t /\ stored t h (slot s h);
  p_closed : hr_closed s = 0 \/ (hr_closed s = 1 /\ exists i k, l !! i = Some (TClear k)
    /\ forall h j t, 0 <= h -> cleared k h -> slot s h <> 0 -> l !! j = Some t -> stored t h (slot s h) -> may_stay t);
  p_open : forall i t, l !! i = Some t -> closing t -> hr_closed s = 1;
  p_present : forall i t h x, l !! i = Some t -> stored t h x -> 0 <= h -> ~ undoing t ->
    slot s h = x \/ hr_closed s = 1 \/ exists j, l !! j = Some (TRelease h true)
}.

Lemma stored_claim t h x : stored t h x -> 0 <= h -> claim t = Some h.
Proof.
  destruct t as [y c sf []| | | | |]; cbn; try done; intros [-> _] Hh; [done..|]. by destruct (Z.leb_spec 0 h); [|lia].
Qed.

(** A step that leaves the places as they are. *)
Lemma placed_quiet s s' l i t t' :
  placed s l -> l !! i = Some t -> (forall h, 0 <= h -> slot s' h = slot s h) -> hr_closed s' = hr_closed s ->
  (forall h x, 0 <= h -> stored t h x <-> stored t' h x) -> (closing t' -> hr_closed s = 1) ->
  (forall h x, 0 <= h -> stored t' h x -> hr_closed s = 1 -> may_stay t -> may_stay t') -> (undoing t -> undoing t') ->
  (forall k, t <> TClear k) -> (forall h, t <> TRelease h true) ->
  placed s' (<[i := t']> l).
Proof.
  intros [Ho Hc Hp Hx] Hi Hsl Hcl Hst Hop Hms Hun Hnc Hnr. split.
  - intros h Hh Hn. rewrite Hsl in Hn |- * by done. destruct (Ho h Hh Hn) as (j & u & Hj & Hu).
    destruct (decide (j = i)) as [->|Hne].
    + exists i, t'. split; [by apply (lookup_update _ _ _ _ _ _ Hi); left|]. simplify_eq. by apply Hst.
    + exists j, u. split; [by apply (lookup_update _ _ _ _ _ _ Hi); right|done].
  - rewrite Hcl. destruct Hc as [?|[Hc1 (j & k & Hj & Hk)]]; [by left|]. right. split; [done|]. exists j, k. split.
    + apply (lookup_update _ _ _ _ _ _ Hi). right. split; [|done]. intros ->. simplify_eq. by eapply Hnc.
    + intros h j' u Hh Hd Hn Hj' Hu. rewrite Hsl in Hn, Hu by done.
      apply (lookup_update _ _ _ _ _ _ Hi) in Hj' as [[-> ->]|[_ Hj']]; [|eauto].
      apply (Hms h _ Hh Hu Hc1). eapply (Hk h i t); eauto. by apply Hst.
  - rewrite Hcl. intros j u [[-> ->]|[_ Hj]]%(lookup_update _ _ _ _ _ _ Hi); eauto.
  - rewrite Hcl. intros j u h x Hj Hu Hh Hnu. rewrite Hsl by done.
    assert (slot s h = x \/ hr_closed s = 1 \/ exists j, l !! j = Some (TRelease h true)) as [?|[?|(q & Hq)]]; [|by left|by right; left|].
    + apply (lookup_update _ _ _ _ _ _ Hi) in Hj as [[-> ->]|[_ Hj]]; [|eauto]. eapply (Hx i t); [done|by apply Hst|done|tauto].
    + right. right. exists q. apply (lookup_update _ _ _ _ _ _ Hi). right. split; [|done]. intros ->. simplify_eq. by eapply Hnr.
Qed.

(** Storing the pointer. *)
Lemma placed_write s s' l i t t' h x :
  counted s l -> placed s l -> l !! i = Some t -> claim t = Some h -> (forall h x, ~ stored t h x) ->
  (forall j, 0 <= j -> slot s' j = if j =? h then x else slot s j) -> hr_closed s' = hr_closed s ->
  (forall k y, stored t' k y <-> k = h /\ y = x) -> may_stay t' -> ~ closing t' -> ~ closing t -> (forall h, t <> TRelease h true) ->
  placed s' (<[i := t']> l).
Proof.
  intros Hco [Ho Hc Hp Hx] Hi Hclaim Hnone Hsl Hcl Hst Hms Hop Hnc Hnr. destruct (c_claim _ _ Hco i t h Hi Hclaim) as [Hh0 _].
  assert (Hother : forall j u k y, j <> i -> l !! j = Some u -> stored u k y -> 0 <= k -> k <> h).
  { intros j u k y Hne Hj Hu Hk ->. apply Hne. eapply (c_once _ _ Hco j i u t h); eauto. by eapply stored_claim. }
  split.
  - intros k Hk Hn. rewrite Hsl in Hn |- * by done. destruct (Z.eqb_spec k h) as [->|Hne].
    + exists i, t'. split; [by apply (lookup_update _ _ _ _ _ _ Hi); left|by apply Hst].
    + destruct (Ho k Hk Hn) as (j & u & Hj & Hu). exists j, u. split; [|done].
      apply (lookup_update _ _ _ _ _ _ Hi). right. split; [|done]. intros ->. simplify_eq. by eapply Hnone.
  - rewrite Hcl. destruct Hc as [?|[Hc1 (j & k & Hj & Hk)]]; [by left|]. right. split; [done|]. exists j, k. split.
    + apply (lookup_update _ _ _ _ _ _ Hi). right. split; [|done]. intros ->. by simplify_eq.
    + intros q j' u Hq Hd Hn Hj' Hu. apply (lookup_update _ _ _ _ _ _ Hi) in Hj' as [[-> ->]|[Hne Hj']]; [done|].
      pose proof (Hother j' u q _ Hne Hj' Hu Hq) as Hqh. rewrite Hsl in Hn, Hu by done.
      destruct (Z.eqb_spec q h); [done|]. eauto.
  - rewrite Hcl. intros j u [[-> ->]|[_ Hj]]%(lookup_update _ _ _ _ _ _ Hi) Hu; [done|eauto].
  - rewrite Hcl. intros j u k y [[-> ->]|[Hne Hj]]%(lookup_update _ _ _ _ _ _ Hi) Hu Hk Hnu; rewrite Hsl by done.
    + apply Hst in Hu as [-> ->]. left. by rewrite Z.eqb_refl.
    + pose proof (Hother j u k y Hne Hj Hu Hk) as Hkh. destruct (Z.eqb_spec k h); [done|].
      destruct (Hx j u k y Hj Hu Hk Hnu) as [?|[?|(q & Hq)]]; [by left|by right; left|]. right. right. exists q.
      apply (lookup_update _ _ _ _ _ _ Hi). right. split; [|done]. intros ->. by simplify_eq.
Qed.

(** Taking pointers away: of one handle, or of the places that [Close] clears. *)
Lemma placed_erase s s' l i t t' (gone : Z -> Prop) :
  placed s l -> l !! i = Some t ->
  (forall j, 0 <= j -> (slot s' j = slot s j /\ ~ gone j) \/ (slot s' j = 0 /\ gone j)) -> hr_closed s' = hr_closed s ->
  (forall k y, stored t k y -> 0 <= k -> gone k) -> (forall k y, 0 <= k -> ~ stored t' k y) ->
  (closing t' -> hr_closed s = 1) ->
  (forall k, t = TClear k -> exists k', t' = TClear k' /\ forall h, 0 <= h -> cleared k' h -> cleared k h \/ gone h) ->
  (forall h, t <> TRelease h true) ->
  (forall j u h x, j <> i -> l !! j = Some u -> stored u h x -> 0 <= h -> gone h -> hr_closed s = 1 \/ t' = TRelease h true) ->
  placed s' (<[i := t']> l).
Proof.
  intros [Ho Hc Hp Hx] Hi Hsl Hcl Hst Hst' Hop Hclr Hnr Hgone. split.
  - intros h Hh Hn. destruct (Hsl h Hh) as [[He Hng]|[He _]]; [|lia]. rewrite He in Hn |- *.
    destruct (Ho h Hh Hn) as (j & u & Hj & Hu). exists j, u. split; [|done]. apply (lookup_update _ _ _ _ _ _ Hi). right.
    split; [|done]. intros ->. simplify_eq. eauto.
  - rewrite Hcl. destruct Hc as [?|[Hc1 (j & k & Hj & Hk)]]; [by left|]. right. split; [done|].
    assert (exists j k', <[i := t']> l !! j = Some (TClear k') /\ forall h, 0 <= h -> cleared k' h -> cleared k h \/ gone h) as (j1 & k1 & Hj1 & Hk1).
    { destruct (decide (j = i)) as [->|Hne].
      - assert (t = TClear k) as -> by congruence. destruct (Hclr k eq_refl) as (k' & -> & Hk'). exists i, k'. split; [|done].
        by apply (lookup_update _ _ _ _ _ _ Hi); left.
      - exists j, k. split; [by apply (lookup_update _ _ _ _ _ _ Hi); right|]. by left. }
    exists j1, k1. split; [done|]. intros h j' u Hh Hd Hn Hj' Hu. destruct (Hsl h Hh) as [[He Hng]|[He _]]; [|lia].
    rewrite He in Hn, Hu. destruct (Hk1 h Hh Hd) as [Hd'|]; [|done].
    apply (lookup_update _ _ _ _ _ _ Hi) in Hj' as [[-> ->]|[_ Hj']]; [by eapply Hst' in Hu|eauto].
  - rewrite Hcl. intros j u [[-> ->]|[_ Hj]]%(lookup_update _ _ _ _ _ _ Hi) Hu; eauto.
  - rewrite Hcl. intros j u h x [[-> ->]|[Hne Hj]]%(lookup_update _ _ _ _ _ _ Hi) Hu Hh Hnu; [by eapply Hst' in Hu|].
    destruct (Hsl h Hh) as [[He Hng]|[He Hg]].
    + rewrite He. destruct (Hx j u h x Hj Hu Hh Hnu) as [?|[?|(q & Hq)]]; [by left|by right; left|]. right. right. exists q.
      apply (lookup_update _ _ _ _ _ _ Hi). right. split; [|done]. intros ->. simplify_eq. by eapply Hnr.
    + destruct (Hgone j u h x Hne Hj Hu Hh Hg) as [?| ->]; [by right; left|]. right. right. exists i.
      by apply (lookup_update _ _ _ _ _ _ Hi); left.
Qed.

(** Closing begins. *)
Lemma placed_close s s' l i :
  placed s l -> l !! i = Some TClose -> (forall h, 0 <= h -> slot s' h = slot s h) -> hr_closed s' = 1 ->
  placed s' (<[i := TClear 0]> l).
Proof.
  intros [Ho Hc Hp Hx] Hi Hsl Hcl. split.
  - intros h Hh Hn. rewrite Hsl in Hn |- * by done. destruct (Ho h Hh Hn) as (j & u & Hj & Hu). exists j, u. split; [|done].
    apply (lookup_update _ _ _ _ _ _ Hi). right. split; [|done]. intros ->. by simplify_eq.
  - right. split; [done|]. exists i, 0%nat. split; [by apply (lookup_update _ _ _ _ _ _ Hi); left|].
    intros h j t Hh Hd. exfalso. unfold cleared in Hd. pose proof (Z.mod_pos_bound h (Z.of_nat slowSegmentCnt) ltac:(lia)).
    destruct (Z.ltb_spec h cap); lia.
  - done.
  - intros. by right; left.
Qed.

Lemma placed_start s l c : placed s l -> placed s (l ++ [starts c]).
Proof.
  assert (Hn : forall h x, ~ stored (starts c) h x) by (intros h x; destruct c; cbn; tauto).
  assert (Hcl : ~ closing (starts c)) by (destruct c; cbn; tauto).
  intros [Ho Hc Hp Hx]. split.
  - intros h Hh Hs. destruct (Ho h Hh Hs) as (j & u & Hj & Hu). exists j, u. split; [apply lookup_snoc; by left|done].
  - destruct Hc as [?|[Hc1 (j & k & Hj & Hk)]]; [by left|]. right. split; [done|]. exists j, k.
    split; [apply lookup_snoc; by left|]. intros h j' u Hh Hd Hs [Hj'|[_ ->]]%lookup_snoc Hu; [eauto|by eapply Hn in Hu].
  - intros j u [Hj|[_ ->]]%lookup_snoc Hu; [eauto|done].
  - intros j u h x [Hj|[_ ->]]%lookup_snoc Hu Hh Hnu; [|by eapply Hn in Hu].
    destruct (Hx j u h x Hj Hu Hh Hnu) as [?|[?|(q & Hq)]]; [by left|by right; left|]. right. right. exists q.
    apply lookup_snoc. by left.
Qed.

Record inv (s : Registry) (l : list thread) : Prop := { v_shape : shape s; v_counted : counted s l; v_placed : placed s l }.

(** The calls are few enough for the counters. *)
Definition small (n : nat) : Prop := Z.of_nat n + cap < 2 ^ 31.

(** The thread at [i] can make its step, and the invariant is kept. *)
Definition moves (s : Registry) (l : list thread) (i : nat) (t : thread) (f : Registry -> option (Z * Registry)) (k : Z -> prog) : Prop :=
  exists b s' t', f s = Some (b, s') /\ k b = thread_code t' /\ thread_call t' = thread_call t /\ inv s' (<[i := t']> l).

(** Steps that only look, or count. *)
Lemma quiet_move s s' l i t t' :
  inv s l -> l !! i = Some t -> shape s' -> counted s' (<[i := t']> l) ->
  (forall h, 0 <= h -> slot s' h = slot s h) -> hr_closed s' = hr_closed s ->
  (forall h x, 0 <= h -> stored t h x <-> stored t' h x) -> ~ closing t -> (closing t' -> hr_closed s = 1) ->
  (forall h x, 0 <= h -> stored t' h x -> hr_closed s = 1 -> may_stay t -> may_stay t') -> (undoing t -> undoing t') ->
  (forall h, t <> TRelease h true) ->
  inv s' (<[i := t']> l).
Proof.
  intros [_ _ Hp] Hi Hsh Hco Hsl Hcl Hst Hnc Hop Hms Hun Hnr. split; [done..|].
  apply (placed_quiet s s' l i t t'); try done. intros k ->. by apply Hnc.
Qed.

Lemma stay_counted s l i t t' :
  counted s l -> l !! i = Some t -> well_formed t' -> wants_fast t' <= wants_fast t -> wants_slow t' <= wants_slow t ->
  (forall h, claim t' = Some h -> claim t = Some h) -> counted s (<[i := t']> l).
Proof. intros Hc Hi Hw Hf Hs Hcl. eapply (counted_update s s); eauto; lia. Qed.

Lemma alloc_looks s l i x critical safe p f k :
  inv s l -> l !! i = Some (TAlloc x critical safe p) -> p = AStart \/ p = ACheck -> pc_code x critical safe p = Step f k ->
  moves s l i (TAlloc x critical safe p) f k.
Proof.
  intros Hv Hi Hp Hcode. pose proof (v_counted _ _ Hv) as Hc.
  assert (Hgo : forall p', (p' = ADone (-1) \/ p' = ACheck \/ p' = AFast \/ p' = ASlow) ->
      wants_fast (TAlloc x critical safe p') <= wants_fast (TAlloc x critical safe p) ->
      wants_slow (TAlloc x critical safe p') <= wants_slow (TAlloc x critical safe p) ->
      inv s (<[i := TAlloc x critical safe p']> l)).
  { intros p' Hp' Hf Hs. apply (quiet_move s s l i (TAlloc x critical safe p)); try done.
    - apply Hv.
    - apply (stay_counted s l i (TAlloc x critical safe p)); try done; destruct Hp' as [->|[->|[->| ->]]]; done.
    - intros h y Hh. destruct Hp as [->| ->], Hp' as [->|[->|[->| ->]]]; cbn; split; intros Hq; try done; destruct Hq as [<- _]; lia.
    - cbn. tauto.
    - intros h y Hh Hst. by destruct Hp' as [->|[->|[->| ->]]]; cbn in Hst |- *; [lia|..].
    - by destruct Hp as [->| ->]. }
  destruct Hp as [->| ->]; cbn in Hcode; injection Hcode as <- <-.
  - exists (hr_closed s), s. destruct (Z.eqb_spec (hr_closed s) 1) as [He|He].
    + exists (TAlloc x critical safe (ADone (-1))). split_and!; [done|by rewrite ?He|done|]. apply Hgo; cbn; [tauto|lia..].
    + destruct critical.
      * exists (TAlloc x true safe ACheck). split_and!; [done|by destruct (Z.eqb_spec (hr_closed s) 1)|done|]. apply Hgo; cbn; [tauto|lia..].
      * exists (TAlloc x false safe ASlow). split_and!; [done|by destruct (Z.eqb_spec (hr_closed s) 1)|done|]. apply Hgo; cbn; [tauto|lia..].
  - exists (hr_fastCtr s), s. destruct (hr_fastCtr s <? cap) eqn:E.
    + exists (TAlloc x critical safe AFast). split_and!; [done|by rewrite ?E|done|]. apply Hgo; cbn; [tauto|lia..].
    + exists (TAlloc x critical safe ASlow). split_and!; [done|by rewrite ?E|done|]. apply Hgo; cbn; [tauto|lia..].
Qed.

Lemma i32_small z : 0 <= z < 2 ^ 31 -> i32 z = z.
Proof. intros Hz. apply wrapS_small; [lia|]. unfold inS. change (2 ^ (32 - 1)) with (2 ^ 31). lia. Qed.
Lemma i64_small z : 0 <= z < 2 ^ 32 -> i64 z = z.
Proof.
  intros Hz. apply wrapS_small; [lia|]. unfold inS. change (2 ^ (64 - 1)) with 9223372036854775808.
  change (2 ^ 32) with 4294967296 in Hz. lia.
Qed.

Lemma total_member f l i t : (forall t, 0 <= f t) -> l !! i = Some t -> f t <= total f l.
Proof.
  intros Hf. revert i. induction l as [|u l IH]; intros [|i] Hi; cbn in Hi; [done..| |]; cbn [total].
  - injection Hi as ->. pose proof (total_nonneg f l Hf). lia.
  - specialize (IH i Hi). specialize (Hf u). lia.
Qed.

(** Steps that take a handle. *)
Lemma alloc_counts s l i x critical safe p f k :
  inv s l -> small (length l) -> l !! i = Some (TAlloc x critical safe p) -> p = AFast \/ p = ASlow ->
  pc_code x critical safe p = Step f k -> moves s l i (TAlloc x critical safe p) f k.
Proof.
  intros Hv Hsm Hi Hp Hcode. pose proof (v_counted _ _ Hv) as Hc. destruct (c_fast _ _ Hc) as [Hf0 Hf], (c_slow _ _ Hc) as [Hs0 Hs].
  unfold small in Hsm. pose proof (total_member wants_fast l i _ (fun t => proj1 (proj1 (wants_ordered t))) Hi) as Hwf.
  pose proof (total_member wants_slow l i _ ltac:(intros t; pose proof (wants_ordered t); lia) Hi) as Hws.
  assert (Hgo : forall s' p', (p' = ASlow \/ exists h, p' = APut h) -> shape s' -> (forall h, 0 <= h -> slot s' h = slot s h) ->
      hr_closed s' = hr_closed s -> counted s' (<[i := TAlloc x critical safe p']> l) -> inv s' (<[i := TAlloc x critical safe p']> l)).
  { intros s' p' Hp' Hsh Hsl Hcl Hco. apply (quiet_move s s' l i (TAlloc x critical safe p)); try done.
    - intros h y Hh. by destruct Hp as [->| ->], Hp' as [->|[h' ->]].
    - cbn. tauto.
    - intros h y Hh Hst. by destruct Hp' as [->|[h' ->]].
    - by destruct Hp as [->| ->]. }
  destruct Hp as [->| ->]; cbn in Hcode; injection Hcode as <- <-; cbn in Hwf, Hws.
  - unfold moves, next_fast. rewrite i32_small by lia. eexists _, _.
    destruct (hr_fastCtr s + 1 - 1 <? cap) eqn:E.
    + exists (TAlloc x critical safe (APut (hr_fastCtr s + 1 - 1))). split_and!; [reflexivity| |done|].
      * rewrite E. cbn [thread_code pc_code]. unfold put_fast, write, erase. by rewrite E.
      * apply Hgo; [right; by eexists|by destruct (v_shape _ _ Hv); split|done|done|].
        apply (counted_update s _ l i (TAlloc x critical safe AFast)); cbn; try done; try lia.
        intros h [= <-]. right. lia.
    + exists (TAlloc x critical safe ASlow). split_and!; [reflexivity|by rewrite E|done|].
      apply Hgo; [by left|by destruct (v_shape _ _ Hv); split|done|done|].
      apply (counted_update s _ l i (TAlloc x critical safe AFast)); cbn; try done; lia.
  - unfold moves, next_slow. rewrite i64_small by lia. eexists _, _.
    exists (TAlloc x critical safe (APut (hr_slowCtr s + 1 - 1))). split_and!; [reflexivity| |done|].
    + cbn [thread_code pc_code]. unfold put_slow, write, erase. by destruct (Z.ltb_spec (hr_slowCtr s + 1 - 1) cap); [lia|].
    + apply Hgo; [right; by eexists|by destruct (v_shape _ _ Hv); split|done|done|].
      apply (counted_update s _ l i (TAlloc x critical safe ASlow)); cbn; try done; try lia.
      intros h [= <-]. right. lia.
Qed.

Lemma same_counted s s' l i t t' :
  same s s' -> counted s l -> l !! i = Some t -> well_formed t' -> wants_fast t' <= wants_fast t -> wants_slow t' <= wants_slow t ->
  (forall h, claim t' = Some h -> claim t = Some h) -> counted s' (<[i := t']> l).
Proof. intros [_ Hf Hs _] Hc Hi Hw H1 H2 Hcl. eapply (counted_update s s'); eauto; lia. Qed.

Lemma claim_done h : 0 <= h -> claim (TAlloc 0 true true (ADone h)) = Some h.
Proof. intros Hh. cbn. by destruct (Z.leb_spec 0 h); [|lia]. Qed.

(** Storing, and looking once more. *)
Lemma alloc_puts s l i x critical safe h f k :
  inv s l -> l !! i = Some (TAlloc x critical safe (APut h)) -> pc_code x critical safe (APut h) = Step f k ->
  moves s l i (TAlloc x critical safe (APut h)) f k.
Proof.
  intros [Hsh Hc Hp] Hi [= <- <-]. destruct (c_claim _ _ Hc i _ h Hi eq_refl) as [Hh _].
  destruct (write_rule s h x Hsh Hh) as (s' & Hw & Hsame & Hsl).
  exists 0, s', (TAlloc x critical safe (if safe then AAgain h else ADone h)). split_and!; [done|by destruct safe|done|].
  assert (Hcl : claim (TAlloc x critical safe (if safe then AAgain h else ADone h)) = Some h).
  { destruct safe; [done|]. exact (claim_done h Hh). }
  split; [apply Hsame| |].
  - apply (same_counted s s' l i (TAlloc x critical safe (APut h))); try done; [by destruct safe..|]. intros q Hq. by rewrite Hcl in Hq.
  - apply (placed_write s s' l i (TAlloc x critical safe (APut h)) _ h x); try done; [by intros ? ? ?|apply Hsame|..].
    + intros q y. destruct safe; cbn; split; intros [? ?]; by subst.
    + by destruct safe.
    + by intros ?.
    + by intros ?.
Qed.

Lemma alloc_again s l i x critical safe h f k :
  inv s l -> l !! i = Some (TAlloc x critical safe (AAgain h)) -> pc_code x critical safe (AAgain h) = Step f k ->
  moves s l i (TAlloc x critical safe (AAgain h)) f k.
Proof.
  intros Hv Hi [= <- <-]. pose proof (v_counted _ _ Hv) as Hc. destruct (c_claim _ _ Hc i _ h Hi eq_refl) as [Hh _].
  pose proof (c_formed _ _ Hc i _ Hi) as Hw. cbn in Hw. subst safe. exists (hr_closed s), s.
  exists (TAlloc x critical true (if hr_closed s =? 1 then AUndo h else ADone h)).
  split_and!; [done|by destruct (hr_closed s =? 1)|done|].
  apply (quiet_move s s l i (TAlloc x critical true (AAgain h))); try done.
  - apply Hv.
  - apply (stay_counted s l i (TAlloc x critical true (AAgain h))); try done; destruct (hr_closed s =? 1); try done.
    intros q Hq. cbn in Hq. by destruct (Z.leb_spec 0 h); [|lia].
  - intros q y _. by destruct (hr_closed s =? 1).
  - cbn. tauto.
  - intros q y _ _ He. by rewrite He.
Qed.

Lemma alloc_undoes s l i x critical safe h f k :
  inv s l -> l !! i = Some (TAlloc x critical safe (AUndo h)) -> pc_code x critical safe (AUndo h) = Step f k ->
  moves s l i (TAlloc x critical safe (AUndo h)) f k.
Proof.
  intros [Hsh Hc Hp] Hi [= <- <-]. destruct (c_claim _ _ Hc i _ h Hi eq_refl) as [Hh _].
  destruct (erase_rule s h Hsh Hh) as (s' & He & Hsame & Hsl). exists 0, s', (TAlloc x critical safe (ADone (-1))).
  split_and!; [done..|]. split; [apply Hsame| |].
  - by apply (same_counted s s' l i (TAlloc x critical safe (AUndo h))).
  - apply (placed_erase s s' l i (TAlloc x critical safe (AUndo h)) _ (fun j => j = h)); try done.
    + intros j Hj. rewrite Hsl by done. destruct (Z.eqb_spec j h); [by right|by left].
    + apply Hsame.
    + by intros q y [-> _].
    + intros q y Hq [<- _]. lia.
    + intros j u q y Hne Hj Hu Hq ->. exfalso. apply Hne.
      eapply (c_once _ _ Hc j i u _ h); eauto. by eapply stored_claim.
Qed.

(** ** The other operations *)

Lemma release_moves s l i h f k :
  inv s l -> l !! i = Some (TRelease h false) -> registry_Release h = Step f k -> moves s l i (TRelease h false) f k.
Proof.
  intros [Hsh Hc Hp] Hi Hcode. unfold registry_Release in Hcode. destruct (Z.ltb_spec h 0) as [|Hh]; [done|].
  destruct (erase_rule s h Hsh Hh) as (s' & He & Hsame & Hsl).
  assert (f = erase h /\ k = Done) as [-> ->] by (unfold erase; destruct (h <? cap); by injection Hcode).
  exists 0, s', (TRelease h true). split_and!; [done..|]. split; [apply Hsame| |].
  - by apply (same_counted s s' l i (TRelease h false)).
  - apply (placed_erase s s' l i (TRelease h false) _ (fun j => j = h)); try done.
    + intros j Hj. rewrite Hsl by done. destruct (Z.eqb_spec j h); [by right|by left].
    + apply Hsame.
    + intros q y _ Hq. by apply Hq.
    + intros j u q y _ _ _ _ ->. by right.
Qed.

Lemma get_moves s l i h f k :
  inv s l -> 0 <= h -> l !! i = Some (TGet h None) -> Get h = Step f k -> moves s l i (TGet h None) f k.
Proof.
  intros Hv Hh Hi Hcode. pose proof (read_rule s h (v_shape _ _ Hv) Hh) as Hr. rewrite Hcode in Hr.
  assert (k = Done) as -> by (unfold Get in Hcode; destruct (h <? cap); by injection Hcode).
  cbn [run] in Hr. destruct (f s) as [[b s']|] eqn:E; [|done]. injection Hr as -> ->.
  exists (slot s h), s, (TGet h (Some (slot s h))). split_and!; [done..|].
  apply (quiet_move s s l i (TGet h None)); try done; [apply Hv|..|cbn; tauto].
  apply (stay_counted s l i (TGet h None)); try done. apply Hv.
Qed.

Lemma close_moves s l i f k : inv s l -> l !! i = Some TClose -> registry_Close = Step f k -> moves s l i TClose f k.
Proof.
  intros [Hsh Hc Hp] Hi [= <- <-]. unfold moves, cas_closed. destruct (Z.eqb_spec (hr_closed s) 0) as [He|He].
  - eexists _, _, (TClear 0). split_and!; [reflexivity| |done|].
    + cbn [thread_code]. rewrite !Nat.sub_0_r. cbn. by destruct fastCap.
    + split; [by destruct Hsh; split|..].
      * apply (counted_update s _ l i TClose); cbn; try done; lia.
      * by apply (placed_close s).
  - assert (hr_closed s = 1) as H1 by (destruct (p_closed _ _ Hp) as [|[? _]]; done).
    exists 0, s, TLost. split_and!; [done..|]. apply (quiet_move s s l i TClose); try done.
    + by apply (stay_counted s l i TClose).
    + cbn. tauto.
Qed.

Lemma clear_moves s l i n f k :
  inv s l -> l !! i = Some (TClear n) -> thread_code (TClear n) = Step f k -> moves s l i (TClear n) f k.
Proof.
  intros [Hsh Hc Hp] Hi Hcode. pose proof (p_open _ _ Hp i _ Hi I) as Hcl. pose proof (c_formed _ _ Hc i _ Hi) as Hn. cbn in Hn.
  assert (Hgo : forall s' (gone : Z -> Prop), same s s' -> (n < fastCap + slowSegmentCnt)%nat ->
      (forall j, 0 <= j -> (slot s' j = slot s j /\ ~ gone j) \/ (slot s' j = 0 /\ gone j)) ->
      (forall h, 0 <= h -> cleared (S n) h -> cleared n h \/ gone h) -> inv s' (<[i := TClear (S n)]> l)).
  { intros s' gone Hsame Hlt Hsl Hgone. split; [apply Hsame| |].
    - by apply (same_counted s s' l i (TClear n)).
    - apply (placed_erase s s' l i (TClear n) _ gone); try done.
      + apply Hsame.
      + intros q y _ Hq. by apply Hq.
      + intros q [= <-]. by exists (S n).
      + intros. by left. }
  cbn [thread_code] in Hcode. destruct (Nat.ltb_spec n fastCap) as [Hlt|Hge].
  - destruct (fastCap - n)%nat as [|m] eqn:Em; [lia|]. cbn [clear_fast] in Hcode. injection Hcode as <- <-.
    destruct (set_fast_rule s (Z.of_nat n) 0 Hsh ltac:(lia)) as (s' & He & Hsame & Hsl).
    exists 0, s', (TClear (S n)). split_and!; [done| |done|].
    + cbn [thread_code]. destruct (Nat.ltb_spec (S n) fastCap).
      * by replace (fastCap - S n)%nat with m by lia.
      * assert (m = 0%nat) as -> by lia. by replace (S n - fastCap)%nat with 0%nat by lia; rewrite Nat.sub_0_r.
    + apply (Hgo s' (fun j => j = Z.of_nat n)); [done|lia|..].
      * intros j Hj. rewrite Hsl by done. destruct (Z.eqb_spec j (Z.of_nat n)); [by right|by left].
      * intros h Hh. unfold cleared. pose proof (Z.mod_pos_bound h (Z.of_nat slowSegmentCnt) ltac:(lia)). destruct (h <? cap); lia.
  - destruct (slowSegmentCnt - (n - fastCap))%nat as [|m] eqn:Em; [done|]. cbn [clear_slow] in Hcode. injection Hcode as <- <-.
    destruct (at_segment_rule s (n - fastCap) segment_Clear Hsh ltac:(lia)) as (m0 & s' & _ & He & Hsame & Hsl).
    exists 0, s', (TClear (S n)). split_and!; [done| |done|].
    + cbn [thread_code]. destruct (Nat.ltb_spec (S n) fastCap); [lia|].
      replace (slowSegmentCnt - (S n - fastCap))%nat with m by lia. by replace (S n - fastCap)%nat with (S (n - fastCap)) by lia.
    + apply (Hgo s' (fun j => cap <= j /\ j mod Z.of_nat slowSegmentCnt = Z.of_nat (n - fastCap))); [done|lia|..].
      * intros j Hj. rewrite Hsl by done. cbn [segment_Clear snd]. rewrite lookup_empty. cbn.
        destruct (Z.leb_spec cap j), (Z.eqb_spec (j mod Z.of_nat slowSegmentCnt) (Z.of_nat (n - fastCap))); cbn; (left; split; [done|lia]) || (right; split; [done|lia]).
      * intros h Hh. unfold cleared. destruct (Z.ltb_spec h cap); lia.
Qed.

Lemma thread_moves s l i t f k :
  inv s l -> small (length l) -> l !! i = Some t -> thread_code t = Step f k -> (forall h, t = TGet h None -> 0 <= h) ->
  moves s l i t f k.
Proof.
  intros Hv Hsm Hi Hcode Hget. destruct t as [x c sf p|h []|h []| |n|]; cbn in Hcode; try done.
  - destruct p.
    + apply alloc_looks; auto.
    + apply alloc_looks; auto.
    + apply alloc_counts; auto.
    + apply alloc_counts; auto.
    + by apply alloc_puts.
    + by apply alloc_again.
    + by apply alloc_undoes.
    + done.
  - by apply release_moves.
  - apply get_moves; auto.
  - by apply close_moves.
  - by apply clear_moves.
Qed.

Lemma get_negative h s f k : h < 0 -> Get h = Step f k -> f s = None.
Proof.
  intros Hh Hc. unfold Get in Hc. destruct (Z.ltb_spec h cap); [|lia]. injection Hc as <- <-. unfold get_fast.
  by destruct (Z.leb_spec 0 h); [lia|].
Qed.

(** The calls of the threads. *)
Definition calls_of (l : list thread) : list (call * prog) := (fun t => (thread_call t, thread_code t)) <$> l.

Lemma step_inv s l s' ts' :
  inv s l -> small (length ts') -> step (s, calls_of l) (s', ts') -> exists l', ts' = calls_of l' /\ inv s' l'.
Proof.
  intros Hv Hsm Hstep. inversion Hstep as [s0 ts c|s0 ts i c f k b s1 Hi Hf]; subst.
  - exists (l ++ [starts c]). destruct (starts_code c) as (Hcode & Hcall & _). split.
    + unfold calls_of. rewrite fmap_app. cbn. by rewrite Hcode, Hcall.
    + destruct Hv. split; [done|by apply counted_start|by apply placed_start].
  - unfold calls_of in Hi. apply list_lookup_fmap_Some in Hi as (t & [= -> Hcode] & Ht).
    rewrite length_insert in Hsm. unfold calls_of in Hsm. rewrite length_fmap in Hsm.
    destruct (thread_moves s l i t f k Hv Hsm Ht (eq_sym Hcode)) as (b' & s2 & t' & Hf' & Hk & Hcall & Hv').
    { intros h ->. destruct (Z.ltb_spec h 0); [|done]. by rewrite (get_negative h s f k) in Hf. }
    rewrite Hf in Hf'. injection Hf' as <- <-. exists (<[i := t']> l). split; [|done].
    unfold calls_of. rewrite list_fmap_insert. by rewrite Hk, Hcall.
Qed.

Lemma inv_new : inv new_registry [].
Proof.
  assert (Hslot : forall h, slot new_registry h = 0).
  { intros h. unfold slot. cbn [hr_fast hr_slow new_registry]. destruct (h <? cap).
    - destruct (replicate fastCap 0 !! Z.to_nat h) eqn:E; [|done]. apply lookup_replicate in E as [-> _]. done.
    - destruct (replicate slowSegmentCnt ∅ !! _) as [m|] eqn:E; [|done]. apply lookup_replicate in E as [-> _]. cbn.
      by rewrite lookup_empty. }
  split.
  - split; cbn; by rewrite length_replicate.
  - split; cbn; try done; lia.
  - split; try done; [|by left]. intros h _ Hn. by rewrite Hslot in Hn.
Qed.

Lemma steps_inv s ts : rtc step (new_registry, []) (s, ts) -> small (length ts) -> exists l, ts = calls_of l /\ inv s l.
Proof.
  intros Hr. refine (rtc_ind_r (fun c : config => small (length c.2) -> exists l, c.2 = calls_of l /\ inv c.1 l)
    (new_registry, []) _ _ (s, ts) Hr); [intros _; exists []; split; [done|apply inv_new]|].
  intros [s1 ts1] [s2 ts2] _ Hst IH Hsm. cbn [fst snd] in *. destruct IH as (l & -> & Hv).
  { unfold small in *. inversion Hst; subst; rewrite ?length_app, ?length_insert in Hsm; lia. }
  by apply (step_inv s1 l).
Qed.

Lemma finished_alloc t x c sf r :
  thread_call t = CAllocate x c sf -> thread_code t = Done r -> t = TAlloc x c sf (ADone r).
Proof. destruct t as [y c' sf' []| | | | |]; cbn; intros Hc Hd; by simplify_eq. Qed.

Lemma finished_close t : thread_call t = CClose -> thread_code t = Done 0 -> closing t.
Proof. by destruct t as [| | | | |]. Qed.

Lemma finished_clear k r : thread_code (TClear k) = Done r -> (fastCap + slowSegmentCnt <= k)%nat.
Proof.
  cbn [thread_code]. destruct (Nat.ltb_spec k fastCap).
  - destruct (fastCap - k)%nat eqn:E; [lia|done].
  - destruct (slowSegmentCnt - (k - fastCap))%nat eqn:E; [lia|done].
Qed.

(** ** Running *)

(** Which call begins, or which thread makes a step. *)
Fixpoint schedule (plan : list (call + nat)) (c : config) : option config :=
  match plan with
  | [] => Some c
  | inl x :: plan => schedule plan (c.1, c.2 ++ [(x, prog_of x)])
  | inr i :: plan =>
      match c.2 !! i with
      | Some (x, Step f k) =>
          match f c.1 with Some (b, s) => schedule plan (s, <[i := (x, k b)]> c.2) | None => None end
      | _ => None
      end
  end.
Lemma schedule_steps plan : forall c c', schedule plan c = Some c' -> rtc step c c'.
Proof.
  induction plan as [|[x|i] plan IH]; intros [s ts] c'; cbn [schedule fst snd].
  - intros [= <-]. done.
  - intros Hs. eapply rtc_l; [apply step_call|by apply IH].
  - destruct (ts !! i) as [[x [|f k]]|] eqn:E; [done| |done]. destruct (f s) as [[b s']|] eqn:Ef; [|done].
    intros Hs. eapply rtc_l; [by eapply step_thread|by apply IH].
Qed.

End registry.

(** * The property *)


(** A safe and an unsafe allocation while the registry is closed: both stored their pointer
    after the place was cleared; the safe one takes it back. *)
Definition sample_plan : list (call + nat) :=
  [inl (CAllocate 7 true true); inr 0%nat; inr 0%nat; inl (CAllocate 8 false false); inr 1%nat; inr 1%nat; inr 0%nat;
   inl CClose; inr 2%nat; inr 2%nat; inr 2%nat; inr 1%nat; inr 0%nat; inr 0%nat; inr 0%nat].
Definition sample_threads : Registry * list (call * prog) :=
  match schedule 1 1 sample_plan (new_registry 1 1, []) with Some c => c | None => (new_registry 1 1, []) end.

