(* ===== verification/DocColumn.v ===== *)
(** Columns of a document: [src/src/odbc/src/documentdb_column.cpp], and the writing of
    floating-point numbers that they use: [PutNum<float>] and [PutNum<double>] of
    [src/src/odbc/src/app/application_data_buffer.cpp].

    A column of a row is an element of a BSON document, converted to the type that the
    JDBC metadata gives the column and put into the application's buffer.  Documents
    come from the MongoDB driver: a document maps paths to values, and a value is one
    of the BSON types.  A floating-point number is given by its bits; conversions to
    integers and comparisons with them are computed exactly, converting between the two
    formats and to text is the platform's. *)
From S2P Require Import Prelude Bits BigInteger BigText Decimal TypeTraits Chrono Memory Utf8 AppBuffer Diag Config.

(** * Floating-point numbers *)

(** A finite number is [m * 2 ^ e], negated when [neg]. *)
Inductive decoded : Type :=
| Fin (neg : bool) (m e : Z)
| Inf (neg : bool)
| NaN.

(** The inverse of [float_bits]. *)
Definition decode (prec emax bits : Z) : decoded :=
  let half := 2 ^ (prec - 1) in
  let neg := half * (2 * emax) <=? bits in
  let biased := (bits / half) mod (2 * emax) in
  let frac := bits mod half in
  let emin := 3 - emax - prec in
  if biased =? 2 * emax - 1 then if frac =? 0 then Inf neg else NaN
  else if biased =? 0 then Fin neg frac emin
  else Fin neg (frac + half) (biased - 1 + emin).

Definition decode_float : Z -> decoded := decode 24 128.
Definition decode_double : Z -> decoded := decode 53 1024.

Definition signed (neg : bool) (z : Z) : Z := if neg then - z else z.

(** [value > n] and [value < n], for an integer that the format represents. *)
Definition above (f : decoded) (n : Z) : bool :=
  match f with
  | Fin neg m e => if 0 <=? e then n <? signed neg (m * 2 ^ e) else n * 2 ^ (- e) <? signed neg m
  | Inf neg => negb neg
  | NaN => false
  end.
Definition below (f : decoded) (n : Z) : bool :=
  match f with
  | Fin neg m e => if 0 <=? e then signed neg (m * 2 ^ e) <? n else signed neg m <? n * 2 ^ (- e)
  | Inf neg => neg
  | NaN => false
  end.

(** The fraction is dropped; infinities and NaN have no integer. *)
Definition truncated (f : decoded) : option Z :=
  match f with
  | Fin neg m e => Some (signed neg (if 0 <=? e then m * 2 ^ e else m / 2 ^ (- e)))
  | _ => None
  end.

(** [static_cast] to an integer type with the values [lo] to [hi]: undefined when the
    truncated number is not one of them. *)
Definition cast_between (lo hi : Z) (f : decoded) : outcome Z Z :=
  match truncated f with
  | Some v => if (lo <=? v) && (v <=? hi) then Ok v else UB
  | None => UB
  end.
Definition cast_signed (w : Z) : decoded -> outcome Z Z := cast_between (- 2 ^ (w - 1)) (2 ^ (w - 1) - 1).
Definition cast_unsigned (w : Z) : decoded -> outcome Z Z := cast_between 0 (2 ^ w - 1).

(** The two formats. *)
Inductive float_format : Type := f_float | f_double.

Section put.
Context `{Platform} `{Calendar}.

Definition decode_as (k : float_format) : Z -> decoded :=
  match k with f_float => decode_float | f_double => decode_double end.
Definition format_size (k : float_format) : Z := match k with f_float => 4 | f_double => 8 end.
Definition print_as (k : float_format) : Z -> list Z :=
  match k with f_float => print_float | f_double => print_double end.

(** [PutNum<T>(value)]. *)
Definition PutNumF (k : float_format) (b : ApplicationDataBuffer) (bits : Z) (m : mem) : put_result :=
  let value := decode_as k bits in
  let put_int (size : Z) (cast : decoded -> outcome Z Z) :=
    let* v := if GetData b =? 0 then Ok 0 else cast value in PutNumToNumBuffer b size v m in
  let text := print_as k bits in
  let tsize := format_size k in
  match adb_type b with
  | AI_SIGNED_TINYINT => put_int 1 (cast_signed 8)
  | AI_BIT | AI_UNSIGNED_TINYINT => put_int 1 (cast_unsigned 8)
  | AI_SIGNED_SHORT => put_int 2 (cast_signed 16)
  | AI_UNSIGNED_SHORT => put_int 2 (cast_unsigned 16)
  | AI_SIGNED_LONG => put_int 4 (cast_signed 32)
  | AI_UNSIGNED_LONG => put_int 4 (cast_unsigned 32)
  | AI_SIGNED_BIGINT => put_int 8 (cast_signed 64)
  | AI_UNSIGNED_BIGINT => put_int 8 (cast_unsigned 64)
  | AI_FLOAT => PutNumToNumBuffer b 4 (match k with f_float => bits | f_double => double_to_float bits end) m
  | AI_DOUBLE => PutNumToNumBuffer b 8 (match k with f_float => float_to_double bits | f_double => bits end) m
  | AI_CHAR => drop_written (PutStrToStrBuffer b false text m)
  | AI_WCHAR => drop_written (PutStrToStrBuffer b true text m)
  | AI_NUMERIC =>
      let* m :=
        if GetData b =? 0 then Ok m else
        let negative := below value 0 in
        let* uval := cast_unsigned 64 (match value with Fin neg m e => Fin (neg && negb negative) m e | f => f end) in
        st (GetData b)
          (numeric_struct (DigitLength uval) 0 (if negative then 0 else 1) (le_bytes 8 uval ++ replicate 8 0)) m in
      let* m := put_len b sizeof_NUMERIC_STRUCT m in
      Ok (AI_SUCCESS, m)
  | AI_BINARY | AI_DEFAULT =>
      let* m := put_data b (take (Z.to_nat (Z.min tsize (u64 (adb_buflen b)))) (le_bytes (Z.to_nat tsize) bits)) m in
      let* m := put_len b tsize m in
      Ok (if u64 (adb_buflen b) <? tsize then AI_VARLEN_DATA_TRUNCATED else AI_SUCCESS, m)
  | AI_TDATE => let* v := cast_signed 64 value in PutDate b (MkDate v) m
  | AI_TTIMESTAMP => let* v := cast_signed 64 value in PutTimestamp b (timestamp_of_ms v) m
  | AI_TTIME => let* v := cast_signed 64 value in PutTime b (MkTime v) m
  | AI_GUID | AI_UNSUPPORTED => Ok (AI_UNSUPPORTED_CONVERSION, m)
  end.

Definition PutFloatOpt (b : ApplicationDataBuffer) := put_optional b (PutNumF f_float b).
Definition PutDoubleOpt (b : ApplicationDataBuffer) := put_optional b (PutNumF f_double b).

End put.

(** * The columns *)
(** [bsoncxx::type] with the value; a decimal is its text, a double its bits, dates
    are milliseconds and timestamps seconds, documents and arrays their JSON. *)
Inductive bson : Type :=
| k_int32 (v : Z) | k_int64 (v : Z) | k_double (bits : Z) | k_decimal128 (s : text) | k_utf8 (s : text)
| k_binary (bytes : list Z) | k_oid (bytes : list Z) | k_bool (v : bool) | k_date (ms : Z) | k_timestamp (secs : Z)
| k_null | k_maxkey | k_minkey | k_document (json : text) | k_array (json : text)
| k_other.

Definition Document : Type := text -> option bson.

(** What the C++ library makes of numbers and texts: [std::to_string(double)];
    [std::stof] and [std::stod], which throw when there is no number. *)
Class NumberTexts : Type := {
  to_string_double : Z -> text;
  stof : text -> option Z;
  stod : text -> option Z
}.

(** [std::invalid_argument] and its like, and Boost's exceptions. *)
Definition std_exception : Z := -2.

(** * Numbers in texts *)

Definition digit_value (c : Z) : option Z :=
  if (48 <=? c) && (c <=? 57) then Some (c - 48)
  else if (97 <=? c) && (c <=? 122) then Some (c - 87)
  else if (65 <=? c) && (c <=? 90) then Some (c - 55)
  else None.

(** The leading digits in a base. *)
Fixpoint leading_digits (base : Z) (s : text) : list Z :=
  match s with
  | c :: t =>
      match digit_value c with
      | Some d => if d <? base then d :: leading_digits base t else []
      | None => []
      end
  | [] => []
  end.

Definition base_value (base : Z) (ds : list Z) : Z := foldl (fun a d => a * base + d) 0 ds.

(** The digits of [strtoll] with base 0: [0x] is hexadecimal when a digit follows, a
    leading zero octal. *)
Definition stoll_digits (s : text) : Z * list Z :=
  match s with
  | 48 :: x :: t =>
      if ((x =? 120) || (x =? 88)) && negb (bool_decide (leading_digits 16 t = []))
      then (16, leading_digits 16 t) else (8, leading_digits 8 s)
  | 48 :: _ => (8, leading_digits 8 s)
  | _ => (10, leading_digits 10 s)
  end.

(** [std::stoll(s, nullptr, 0)]: [None] when it throws. *)
Definition stoll (s : text) : option Z :=
  let s := drop_spaces s in
  let '(sgn, s) :=
    match s with
    | 45 :: t => (-1, t)
    | 43 :: t => (1, t)
    | _ => (1, s)
    end in
  let '(base, ds) := stoll_digits s in
  match ds with
  | [] => None
  | _ => let v := sgn * base_value base ds in if bool_decide (inS 64 v) then Some v else None
  end.

(** [ToValidLong]: the nearest value in range, and whether that is a failure. *)
Definition ToValidLong (value max min : Z) : Z * ConversionResult :=
  if max <? value then (max, AI_FAILURE)
  else if value <? min then (min, AI_FAILURE)
  else (value, AI_SUCCESS).

Definition ToValidLongText (value : text) (max min : Z) : Z * ConversionResult :=
  match stoll (c_str value) with
  | Some v => ToValidLong v max min
  | None => (0, AI_FAILURE)
  end.

(** * Converting an element *)

(** What a [Put] function has when it comes to the buffer: the result so far, and the
    value, which may be missing. *)
Definition converted (A : Type) : Type := outcome Z (ConversionResult * option A).

Definition of_long (r : Z * ConversionResult) : converted Z := Ok (r.2, Some r.1).
Definition unsupported {A} : converted A := Ok (AI_UNSUPPORTED_CONVERSION, None).
Definition null_value {A} : converted A := Ok (AI_SUCCESS, None).
Definition the_value {A} (v : A) : converted A := Ok (AI_SUCCESS, Some v).

(** A double between the bounds is truncated, another one fails. *)
Definition of_double (w max min bits : Z) : converted Z :=
  let d := decode_double bits in
  if above d max || below d min then Ok (AI_FAILURE, None)
  else let* v := cast_signed w d in the_value v.

Definition bool_number (b : bool) : Z := if b then 1 else 0.

Definition int8_value (e : bson) : converted Z :=
  match e with
  | k_int32 v | k_int64 v => of_long (ToValidLong v (2 ^ 7 - 1) (- 2 ^ 7))
  | k_double bits =>
      let d := decode_double bits in
      if above d (2 ^ 7 - 1) || below d (- 2 ^ 7) then Ok (AI_FAILURE, None)
      else the_value (match d with Fin _ 0 _ => 0 | _ => 1 end)
  | k_decimal128 s | k_utf8 s => of_long (ToValidLongText s (2 ^ 7 - 1) (- 2 ^ 7))
  | k_bool b => the_value (bool_number b)
  | k_null => null_value
  | _ => unsupported
  end.

Definition int16_value (e : bson) : converted Z :=
  match e with
  | k_int32 v | k_int64 v => of_long (ToValidLong v (2 ^ 15 - 1) (- 2 ^ 15))
  | k_double bits => of_double 16 (2 ^ 15 - 1) (- 2 ^ 15) bits
  | k_decimal128 s | k_utf8 s => of_long (ToValidLongText s (2 ^ 15 - 1) (- 2 ^ 15))
  | k_bool b => the_value (bool_number b)
  | k_date ms => the_value (i16 ms)
  | k_timestamp secs => the_value (i16 secs)
  | k_null => null_value
  | _ => unsupported
  end.

Definition int32_value (e : bson) : converted Z :=
  match e with
  | k_int32 v => the_value v
  | k_int64 v => of_long (ToValidLong v (2 ^ 31 - 1) (- 2 ^ 31))
  | k_double bits => of_double 32 (2 ^ 31 - 1) (- 2 ^ 31) bits
  | k_decimal128 s | k_utf8 s => of_long (ToValidLongText s (2 ^ 31 - 1) (- 2 ^ 31))
  | k_bool b => the_value (bool_number b)
  | k_date ms => the_value (i32 ms)
  | k_timestamp secs => the_value (i32 secs)
  | k_null => null_value
  | _ => unsupported
  end.

(** [INT64_MAX] is [2 ^ 63] as a double. *)
Definition int64_value (e : bson) : converted Z :=
  match e with
  | k_int32 v | k_int64 v => the_value v
  | k_double bits => of_double 64 (2 ^ 63) (- 2 ^ 63) bits
  | k_decimal128 s | k_utf8 s => of_long (ToValidLongText s (2 ^ 63 - 1) (- 2 ^ 63))
  | k_bool b => the_value (bool_number b)
  | k_date ms => the_value ms
  | k_timestamp secs => the_value secs
  | k_null => null_value
  | _ => unsupported
  end.

Section column.
Context `{Platform} `{Calendar} `{NumberTexts}.

(** The exception of [stof] or [stod] leaves the driver. *)
Definition of_text (r : option Z) : converted Z :=
  match r with Some bits => the_value bits | None => Throw std_exception end.

Definition float_value (e : bson) : converted Z :=
  match e with
  | k_int32 v | k_int64 v => the_value (int_to_float v)
  | k_double bits => the_value (double_to_float bits)
  | k_decimal128 s | k_utf8 s => of_text (stof s)
  | k_bool b => the_value (int_to_float (bool_number b))
  | k_date ms => the_value (int_to_float ms)
  | k_timestamp secs => the_value (int_to_float secs)
  | k_null => null_value
  | _ => unsupported
  end.

Definition double_value (e : bson) : converted Z :=
  match e with
  | k_int32 v | k_int64 v => the_value (int_to_double v)
  | k_double bits => the_value bits
  | k_decimal128 s | k_utf8 s => of_text (stod s)
  | k_bool b => the_value (int_to_double (bool_number b))
  | k_date ms => the_value (int_to_double ms)
  | k_timestamp secs => the_value (int_to_double secs)
  | k_null => null_value
  | _ => unsupported
  end.

(** [ToString(ToPosixTime(...))], of seconds since the epoch; years outside 1400 to
    9999 throw. *)
Definition posix_text (secs : Z) : outcome Z text :=
  if (calendar_start <=? secs) && (secs <? calendar_stop) then Ok (timestamp_text (ToGmTime secs))
  else Throw std_exception.

Definition string_value (e : bson) : converted text :=
  match e with
  | k_int32 v | k_int64 v => the_value (show_int v)
  | k_double bits => the_value (to_string_double bits)
  | k_decimal128 s | k_utf8 s => the_value s
  | k_binary bytes => the_value (hex_text bytes)
  | k_oid bytes => the_value (hex_text bytes)
  | k_bool b => the_value (show_int (bool_number b))
  | k_date ms => let* s := posix_text (Z.quot ms 1000) in the_value s
  | k_timestamp secs => let* s := posix_text secs in the_value s
  | k_null => null_value
  | k_maxkey => the_value (str "MAXKEY")
  | k_minkey => the_value (str "MINKEY")
  | k_document json | k_array json => the_value json
  | k_other => unsupported
  end.

(** A text whose exponent overflows is undefined. *)
Definition decimal_of_text (s : text) : converted Decimal :=
  match dec_AssignString (map (fun c => ascii_of_N (Z.to_N c)) s) with
  | Some d => the_value d
  | None => UB
  end.

Definition decimal_value (e : bson) : converted Decimal :=
  match e with
  | k_int32 v | k_int64 v => the_value (dec_of_int64 v 0)
  | k_double bits => decimal_of_text (to_string_double bits)
  | k_decimal128 s | k_utf8 s => decimal_of_text s
  | k_bool b => the_value (dec_of_int64 (bool_number b) 0)
  | _ => unsupported
  end.

Definition time_value (e : bson) : converted Time :=
  match e with
  | k_int64 v => the_value (MkTime v)
  | k_date ms => the_value (MkTime ms)
  | k_timestamp secs => the_value (MkTime (secs * 1000))
  | _ => unsupported
  end.

(** The assignment for 64-bit integers comes after the [break]. *)
Definition date_value (e : bson) : converted Date :=
  match e with
  | k_int64 _ => null_value
  | k_date ms => the_value (MkDate ms)
  | k_timestamp secs => the_value (MkDate (secs * 1000))
  | _ => unsupported
  end.

Definition timestamp_value (e : bson) : converted Timestamp :=
  match e with
  | k_int64 v => the_value (timestamp_of_ms v)
  | k_date ms => the_value (timestamp_of_ms ms)
  | k_timestamp secs => the_value (MkTimestamp secs 0)
  | _ => unsupported
  end.

(** * Into the buffer *)

(** [if (convRes == AI_SUCCESS) dataBuf.Put...(value); return convRes;]: what the
    buffer answers is not looked at. *)
Definition put_converted {A} (put : option A -> mem -> put_result) (v : converted A) (m : mem) : put_result :=
  let* (convRes, value) := v in
  if bool_decide (convRes = AI_SUCCESS) then let* (_, m) := put value m in Ok (convRes, m)
  else Ok (convRes, m).

(** The pointer to the bytes of a text is that of a temporary string, gone when the
    buffer reads it. *)
Definition put_binary (b : ApplicationDataBuffer) (e : bson) (m : mem) : put_result :=
  match e with
  | k_utf8 [] => drop_written (PutBinaryData b [] m)
  | k_utf8 _ => UB
  | k_binary bytes | k_oid bytes => drop_written (PutBinaryData b bytes m)
  | k_null => PutNull b m
  | _ => Ok (AI_UNSUPPORTED_CONVERSION, m)
  end.

(** [DocumentDbColumn]: the JDBC type and the path.  The document it refers to is the
    row's. *)
Record DocumentDbColumn : Type := MkColumn { col_type : Z; col_path : text }.

Context (toDouble : Decimal -> Z).

Definition ReadToBuffer (c : DocumentDbColumn) (document : Document) (b : ApplicationDataBuffer) (m : mem)
    : put_result :=
  match document (col_path c) with
  | None => let* (_, m) := PutNull b m in Ok (AI_SUCCESS, m)
  | Some e =>
      switch (col_type c)
        [([JDBC_TYPE_BOOLEAN; JDBC_TYPE_SMALLINT], put_converted (PutInt8Opt b) (int8_value e) m);
         ([JDBC_TYPE_TINYINT], put_converted (PutInt16Opt b) (int16_value e) m);
         ([JDBC_TYPE_INTEGER], put_converted (PutInt32Opt b) (int32_value e) m);
         ([JDBC_TYPE_BIGINT], put_converted (PutInt64Opt b) (int64_value e) m);
         ([JDBC_TYPE_FLOAT], put_converted (PutFloatOpt b) (float_value e) m);
         ([JDBC_TYPE_DOUBLE], put_converted (PutDoubleOpt b) (double_value e) m);
         ([JDBC_TYPE_VARCHAR; JDBC_TYPE_CHAR; JDBC_TYPE_NCHAR; JDBC_TYPE_NVARCHAR; JDBC_TYPE_LONGVARCHAR;
           JDBC_TYPE_LONGNVARCHAR], put_converted (PutStringOpt b) (string_value e) m);
         ([JDBC_TYPE_NULL], PutNull b m);
         ([JDBC_TYPE_BINARY; JDBC_TYPE_VARBINARY], put_binary b e m);
         ([JDBC_TYPE_DECIMAL], put_converted (fun v => PutDecimalOpt b v toDouble) (decimal_value e) m);
         ([JDBC_TYPE_DATE], put_converted (PutDateOpt b) (date_value e) m);
         ([JDBC_TYPE_TIMESTAMP], put_converted (PutTimestampOpt b) (timestamp_value e) m);
         ([JDBC_TYPE_TIME], put_converted (PutTimeOpt b) (time_value e) m)]
        (Ok (AI_UNSUPPORTED_CONVERSION, m))
  end.

End column.
