(* ===== verification/MetaQueries.v ===== *)
(** The queries of the catalog functions: [src/src/odbc/src/query/]
    ([column_metadata_query.cpp], [table_metadata_query.cpp], [primary_keys_query.cpp],
    [foreign_keys_query.cpp], [special_columns_query.cpp], [type_info_query.cpp]).

    Four of them have the same shape: they ask the JDBC driver for a result set, keep
    its rows, and walk through them with an iterator.  [MetaKind] has what differs.  An
    iterator into the rows is an index; a vector that is cleared keeps its storage, so
    that the index stays what it was. *)
From S2P Require Import Prelude OrdMap Memory Utf8 BigText TypeTraits Chrono AppBuffer AppRead Diag SqlLex Params.
From S2P Require Import Statement Config Meta Connection.

(** * Rows and a cursor *)

Record MetaQuery (R : Type) : Type := MkMeta {
  mq_executed : bool;
  mq_fetched : bool;
  mq_rows : list R;
  mq_cursor : nat
}.
Arguments MkMeta {R}.
Arguments mq_executed {R}.
Arguments mq_fetched {R}.
Arguments mq_rows {R}.
Arguments mq_cursor {R}.

(** How a row fills a column ([None]: no such column), the answer to a column asked
    for after the last row, the answer to a column that does not exist, and whether
    closing also forgets that a row was fetched. *)
Record MetaKind (R : Type) : Type := MkKind {
  mk_put : R -> Z -> ApplicationDataBuffer -> option (mem -> put_result);
  mk_at_end : diags -> SR.SqlResult * diags;
  mk_no_column : diags -> SR.SqlResult * diags;
  mk_close_resets : bool
}.
Arguments MkKind {R}.
Arguments mk_put {R}.
Arguments mk_at_end {R}.
Arguments mk_no_column {R}.
Arguments mk_close_resets {R}.

Definition add (st : SS.SqlState) (msg : text) : diags -> diags := AddStatusRecord false st msg.
Definition fail_with (st : SS.SqlState) (msg : text) (d : diags) : SR.SqlResult * diags := (SR.AI_ERROR, add st msg d).

Definition not_executed : diags -> SR.SqlResult * diags :=
  fail_with SS.SHY010_SEQUENCE_ERROR (str "Query was not executed.").
Definition at_the_end : diags -> SR.SqlResult * diags :=
  fail_with SS.S24000_INVALID_CURSOR_STATE (str "Cursor has reached end of the result set.").

Definition new_meta {R} : MetaQuery R := MkMeta false false [] 0.

Section meta.
Context {R : Type} (K : MetaKind R).

Abbreviation answer := (outcome Z (SR.SqlResult * MetaQuery R * diags * mem)).

(** What the buffer answers is not looked at. *)
Definition meta_GetColumn (q : MetaQuery R) (columnIdx : Z) (b : ApplicationDataBuffer) (d : diags) (m : mem)
    : outcome Z (SR.SqlResult * diags * mem) :=
  if negb (mq_executed q) then let '(r, d) := not_executed d in Ok (r, d, m) else
  match mq_rows q !! mq_cursor q with
  | None => let '(r, d) := mk_at_end K d in Ok (r, d, m)
  | Some row =>
      match mk_put K row columnIdx b with
      | Some put => let* (_, m) := put m in Ok (SR.AI_SUCCESS, d, m)
      | None => let '(r, d) := mk_no_column K d in Ok (r, d, m)
      end
  end.

(** Every bound column, in order. *)
Fixpoint fill_columns (q : MetaQuery R) (bs : bindings) (d : diags) (m : mem) : outcome Z (diags * mem) :=
  match bs with
  | [] => Ok (d, m)
  | (i, b) :: bs =>
      let* (_, d, m) := meta_GetColumn q i b d m in
      fill_columns q bs d m
  end.

Definition meta_FetchNextRow (q : MetaQuery R) (bs : bindings) (d : diags) (m : mem) : answer :=
  if negb (mq_executed q) then let '(r, d) := not_executed d in Ok (r, q, d, m) else
  let cursor :=
    if mq_fetched q && negb (mq_cursor q =? length (mq_rows q))%nat then S (mq_cursor q) else mq_cursor q in
  let q := MkMeta true true (mq_rows q) cursor in
  if (cursor =? length (mq_rows q))%nat then Ok (SR.AI_NO_DATA, q, d, m) else
  let* (d, m) := fill_columns q bs d m in
  Ok (SR.AI_SUCCESS, q, d, m).

Definition meta_Close (q : MetaQuery R) : SR.SqlResult * MetaQuery R :=
  (SR.AI_SUCCESS, MkMeta false (if mk_close_resets K then false else mq_fetched q) [] (mq_cursor q)).

(** [request] is the rows, or the error that has been recorded. *)
Definition meta_Execute (request : diags -> outcome Z (option (list R) * diags)) (q : MetaQuery R) (d : diags)
    : outcome Z (SR.SqlResult * MetaQuery R * diags) :=
  let q := if mq_executed q then (meta_Close q).2 else q in
  let* (rows, d) := request d in
  match rows with
  | Some rows => Ok (SR.AI_SUCCESS, MkMeta true false rows 0, d)
  | None => Ok (SR.AI_ERROR, q, d)
  end.

Definition meta_DataAvailable (q : MetaQuery R) : bool := negb (mq_cursor q =? length (mq_rows q))%nat.

End meta.

(** * Asking the JDBC driver *)

(** The metadata object, then the result set; [read] reads its rows. *)
Definition make_request {R} (a : Answers) (c : Connection) (resultSet : text + ResultSet)
    (read : ResultSet -> outcome Z (list R)) (d : diags) : outcome Z (option (list R) * diags) :=
  match GetMetaData a c with
  | inl e => Ok (None, add SS.SHY000_GENERAL_ERROR (GetText e) d)
  | inr _ =>
      match resultSet with
      | inl msg => Ok (None, add SS.SHY000_GENERAL_ERROR msg d)
      | inr rs => let* rows := read rs in Ok (Some rows, d)
      end
  end.

Definition SQL_SEARCHABLE : Z := 3.

Section queries.
Context `{Platform} `{Calendar}.

(** ** Columns *)

Definition column_query_put (row : ColumnMeta) (columnIdx : Z) (b : ApplicationDataBuffer)
    : option (mem -> put_result) :=
  let columnType := cm_dataType row in
  switch columnIdx
    [([1], Some (PutStringOpt b (cm_catalogName row)));
     ([2], Some (PutStringOpt b (cm_schemaName row)));
     ([3], Some (PutStringOpt b (cm_tableName row)));
     ([4], Some (PutStringOpt b (cm_columnName row)));
     ([5], Some (PutInt16Opt b (BinaryToSqlType columnType)));
     ([6], Some (PutStringOpt b (str <$> BinaryTypeToSqlTypeName columnType)));
     ([7], Some (PutInt32Opt b (BinaryTypeColumnSize columnType)));
     ([8], Some (PutInt32Opt b (BinaryTypeTransferLength columnType)));
     ([9], Some (match BinaryTypeDecimalDigits columnType with
                 | Some n => if n <? 0 then PutNull b else PutInt16 b n
                 | None => PutNull b
                 end));
     ([10], Some (match BinaryTypeNumPrecRadix columnType with
                  | Some n => if n <? 0 then PutNull b else PutInt16 b (i16 n)
                  | None => PutNull b
                  end));
     ([11], Some (PutInt32Opt b (cm_nullability row)));
     ([12], Some (PutStringOpt b (cm_remarks row)));
     ([13], Some (PutStringOpt b (cm_columnDef row)));
     ([14], Some (PutInt16Opt b (BinaryToSqlType columnType)));
     ([15], Some (PutNull b));
     ([16], Some (PutInt32Opt b (BinaryTypeCharOctetLength wsz columnType)));
     ([17], Some (PutInt32Opt b (cm_ordinalPosition row)));
     ([18], Some (PutStringOpt b (str <$> NullabilityToIsNullable (cm_nullability row))))]
    None.

Definition ColumnMetadataQuery : MetaKind ColumnMeta :=
  MkKind column_query_put at_the_end (fail_with SS.S07009_INVALID_DESCRIPTOR_INDEX (str "Invalid index.")) false.

Definition MakeRequestGetColumnsMeta (a : Answers) (c : Connection) (resultSet : text + ResultSet) :=
  make_request a c resultSet ReadColumnMetaVector.

(** The other queries ignore a column that does not exist. *)
Definition ignored (d : diags) : SR.SqlResult * diags := (SR.AI_SUCCESS, d).

(** ** Tables *)

Definition table_query_put (row : TableMeta) (columnIdx : Z) (b : ApplicationDataBuffer)
    : option (mem -> put_result) :=
  switch columnIdx
    [([1], Some (PutStringOpt b (tm_catalogName row)));
     ([2], Some (PutStringOpt b (tm_schemaName row)));
     ([3], Some (PutStringOpt b (tm_tableName row)));
     ([4], Some (PutStringOpt b (tm_tableType row)));
     ([5], Some (PutStringOpt b (tm_remarks row)))]
    None.

Definition TableMetadataQuery : MetaKind TableMeta := MkKind table_query_put at_the_end ignored false.

(** [std::getline] with a comma, [cur] the piece so far, backwards: there is no empty
    piece at the end. *)
Fixpoint comma_pieces (cur s : text) : list text :=
  match s with
  | [] => match cur with [] => [] | _ => [rev cur] end
  | c :: t => if c =? 44 then rev cur :: comma_pieces [] t else comma_pieces (c :: cur) t
  end.

Definition dequote (s : text) : text :=
  match s, rev s with
  | q :: t, q' :: _ => if (2 <=? length s)%nat && (q =? q') && ((q =? 39) || (q =? 34)) then removelast t else s
  | _, _ => s
  end.

(** The table types that are asked for: [None] when the application names none. *)
Definition table_types (tableType : option text) : option (list text) :=
  match tableType with
  | None => None
  | Some [] => Some [str "TABLE"]
  | Some s => Some (map (fun p => dequote (StripSurroundingWhitespaces p)) (comma_pieces [] s))
  end.

Definition MakeRequestGetTablesMeta (a : Answers) (c : Connection) (tableType : option text)
    (resultSet : option (list text) -> text + ResultSet) :=
  make_request a c (resultSet (table_types tableType)) (fun rs => Ok (ReadTableMetaVector rs)).

(** ** Keys *)

Definition no_more (d : diags) : SR.SqlResult * diags := (SR.AI_NO_DATA, d).

Definition primary_keys_put (row : PrimaryKeyMeta) (columnIdx : Z) (b : ApplicationDataBuffer)
    : option (mem -> put_result) :=
  switch columnIdx
    [([1], Some (PutStringOpt b (pk_catalog row)));
     ([2], Some (PutStringOpt b (pk_schema row)));
     ([3], Some (PutStringOpt b (pk_table row)));
     ([4], Some (PutStringOpt b (pk_column row)));
     ([5], Some (PutInt16Opt b (pk_keySeq row)));
     ([6], Some (PutStringOpt b (pk_keyName row)))]
    None.

Definition PrimaryKeysQuery : MetaKind PrimaryKeyMeta := MkKind primary_keys_put no_more ignored true.

Definition MakeRequestGetPrimaryKeysMeta (a : Answers) (c : Connection) (resultSet : text + ResultSet) :=
  make_request a c resultSet (fun rs => Ok (ReadPrimaryKeysColumnMetaVector rs)).

Definition foreign_keys_put (row : ForeignKeyMeta) (columnIdx : Z) (b : ApplicationDataBuffer)
    : option (mem -> put_result) :=
  switch columnIdx
    [([1], Some (PutStringOpt b (PKCatalogName row)));
     ([2], Some (PutStringOpt b (PKSchemaName row)));
     ([3], Some (PutStringOpt b (PKTableName row)));
     ([4], Some (PutStringOpt b (PKColumnName row)));
     ([5], Some (PutStringOpt b (FKCatalogName row)));
     ([6], Some (PutStringOpt b (FKSchemaName row)));
     ([7], Some (PutStringOpt b (FKTableName row)));
     ([8], Some (PutStringOpt b (FKColumnName row)));
     ([9], Some (PutInt16Opt b (fk_keySeq row)));
     ([10], Some (PutInt16Opt b (fk_updateRule row)));
     ([11], Some (PutInt16Opt b (fk_deleteRule row)));
     ([12], Some (PutStringOpt b (FKName row)));
     ([13], Some (PutStringOpt b (PKName row)));
     ([14], Some (PutInt16Opt b (fk_deferrability row)))]
    None.

Definition ForeignKeysQuery : MetaKind ForeignKeyMeta := MkKind foreign_keys_put no_more ignored true.

Definition MakeRequestGetForeignKeysMeta (a : Answers) (c : Connection) (resultSet : text + ResultSet) :=
  make_request a c resultSet (fun rs => Ok (ReadForeignKeysColumnMetaVector rs)).

(** ** Types *)

(** [std::set<int16_t>::emplace]. *)
Fixpoint emplace (z : Z) (l : list Z) : list Z :=
  match l with
  | [] => [z]
  | y :: t => if z <? y then z :: l else if z =? y then l else y :: emplace z t
  end.

(** [TypeInfoQuery]; the cursor is an index into the set. *)
Record TypeInfoQuery : Type := MkTypeInfo {
  ti_requested : Z;
  ti_executed : bool;
  ti_fetched : bool;
  ti_binaryTypes : list Z;
  ti_sqlTypes : list Z;
  ti_cursor : nat
}.

Definition new_type_info_query (sqlType : Z) : TypeInfoQuery := MkTypeInfo sqlType false false [] [] 0.

Definition with_types (bin sql : list Z) (q : TypeInfoQuery) : TypeInfoQuery :=
  MkTypeInfo (ti_requested q) (ti_executed q) (ti_fetched q) bin sql (ti_cursor q).

(** The rows: the types that are new; all of them, or the first that is requested. *)
Fixpoint collect_types (rows : list ResultRow) (error : option text) (q : TypeInfoQuery) (d : diags)
    : outcome Z (SR.SqlResult * TypeInfoQuery * diags) :=
  match rows with
  | [] =>
      match error with
      | Some msg => Ok (SR.AI_ERROR, q, add SS.SHY000_GENERAL_ERROR msg d)
      | None => Ok (SR.AI_SUCCESS, q, d)
      end
  | r :: rows =>
      match rs_int r (str "DATA_TYPE") with
      | None => UB
      | Some t =>
          let currentBinaryType := i16 t in
          match BinaryToSqlType (Some currentBinaryType) with
          | None => UB
          | Some currentSqlType =>
              if existsb (Z.eqb currentSqlType) (ti_sqlTypes q) then collect_types rows error q d else
              let q' := with_types (emplace currentBinaryType (ti_binaryTypes q))
                          (emplace currentSqlType (ti_sqlTypes q)) q in
              if ti_requested q =? SQL_ALL_TYPES then collect_types rows error q' d
              else if ti_requested q =? currentSqlType then Ok (SR.AI_SUCCESS, q', d)
              else collect_types rows error q d
          end
      end
  end.

Definition MakeRequestGetTypeInfo (a : Answers) (c : Connection) (resultSet : text + ResultSet)
    (q : TypeInfoQuery) (d : diags) : outcome Z (SR.SqlResult * TypeInfoQuery * diags) :=
  match GetMetaData a c with
  | inl e => Ok (SR.AI_ERROR, q, add SS.SHY000_GENERAL_ERROR (GetText e) d)
  | inr _ =>
      match resultSet with
      | inl msg => Ok (SR.AI_ERROR, q, add SS.SHY000_GENERAL_ERROR msg d)
      | inr rs => collect_types (rs_rows rs) (rs_error rs) q d
      end
  end.

(** The result of the request is not looked at. *)
Definition type_info_Execute (a : Answers) (c : Connection) (resultSet : text + ResultSet)
    (q : TypeInfoQuery) (d : diags) : outcome Z (SR.SqlResult * TypeInfoQuery * diags) :=
  let* (q, d) :=
    if (length (ti_binaryTypes q) =? 0)%nat
    then let* (_, q, d) := MakeRequestGetTypeInfo a c resultSet q d in Ok (q, d) else Ok (q, d) in
  Ok (SR.AI_SUCCESS, MkTypeInfo (ti_requested q) true false (ti_binaryTypes q) (ti_sqlTypes q) 0, d).

Definition is_text_type (t : Z) : bool :=
  existsb (Z.eqb t) [JDBC_TYPE_CHAR; JDBC_TYPE_VARCHAR; JDBC_TYPE_LONGVARCHAR; JDBC_TYPE_NCHAR; JDBC_TYPE_NVARCHAR;
                     JDBC_TYPE_LONGNVARCHAR].

Definition DOCUMENTDB_TYPE_SHORT : Z := 2.
Definition DOCUMENTDB_TYPE_INT : Z := 3.
Definition DOCUMENTDB_TYPE_STRING : Z := 9.
Definition DOCUMENTDB_TYPE_BINARY : Z := 27.

(** [switch (columnIdx)] of [TypeInfoQuery::GetColumn]. *)
Definition type_info_put (currentType columnIdx : Z) (b : ApplicationDataBuffer) : option (mem -> put_result) :=
  let t := Some currentType in
  switch columnIdx
    [([1], Some (PutStringOpt b (str <$> BinaryTypeToSqlTypeName t)));
     ([2; 16], Some (PutInt16Opt b (BinaryToSqlType t)));
     ([3], Some (PutInt32Opt b (BinaryTypeColumnSize t)));
     ([4], Some (if is_text_type currentType then PutString b (str "'")
                 else if existsb (Z.eqb currentType) [JDBC_TYPE_BINARY; JDBC_TYPE_VARBINARY; JDBC_TYPE_LONGVARBINARY;
                                                      DOCUMENTDB_TYPE_BINARY]
                 then PutString b (str "0x") else PutNull b));
     ([5], Some (if is_text_type currentType then PutString b (str "'") else PutNull b));
     ([6; 13; 17; 19], Some (PutNull b));
     ([7], Some (PutInt32 b (BinaryTypeNullability currentType)));
     ([8], Some (PutInt16 b (if is_text_type currentType then SQL_TRUE else SQL_FALSE)));
     ([9], Some (PutInt16 b SQL_SEARCHABLE));
     ([10], Some (PutInt16 b (if BinaryTypeUnsigned t then 1 else 0)));
     ([11; 12], Some (PutInt16 b SQL_FALSE));
     ([14; 15], Some (PutInt16Opt b (BinaryTypeDecimalDigits t)));
     ([18], Some (PutInt32Opt b (BinaryTypeNumPrecRadix t)))]
    None.

Definition type_info_GetColumn (q : TypeInfoQuery) (columnIdx : Z) (b : ApplicationDataBuffer) (d : diags) (m : mem)
    : outcome Z (SR.SqlResult * diags * mem) :=
  if negb (ti_executed q) then let '(r, d) := not_executed d in Ok (r, d, m) else
  match ti_binaryTypes q !! ti_cursor q with
  | None => let '(r, d) := at_the_end d in Ok (r, d, m)
  | Some t =>
      match type_info_put (i8 t) columnIdx b with
      | Some put => let* (_, m) := put m in Ok (SR.AI_SUCCESS, d, m)
      | None => Ok (SR.AI_SUCCESS, d, m)
      end
  end.

Fixpoint type_info_fill (q : TypeInfoQuery) (bs : bindings) (d : diags) (m : mem) : outcome Z (diags * mem) :=
  match bs with
  | [] => Ok (d, m)
  | (i, b) :: bs => let* (_, d, m) := type_info_GetColumn q i b d m in type_info_fill q bs d m
  end.

Definition type_info_FetchNextRow (q : TypeInfoQuery) (bs : bindings) (d : diags) (m : mem)
    : outcome Z (SR.SqlResult * TypeInfoQuery * diags * mem) :=
  if negb (ti_executed q) then let '(r, d) := not_executed d in Ok (r, q, d, m) else
  let n := length (ti_binaryTypes q) in
  let cursor := if ti_fetched q && negb (ti_cursor q =? n)%nat then S (ti_cursor q) else ti_cursor q in
  let q := MkTypeInfo (ti_requested q) true true (ti_binaryTypes q) (ti_sqlTypes q) cursor in
  if (cursor =? n)%nat then Ok (SR.AI_NO_DATA, q, d, m) else
  let* (d, m) := type_info_fill q bs d m in
  Ok (SR.AI_SUCCESS, q, d, m).

Definition type_info_Close (q : TypeInfoQuery) : SR.SqlResult * TypeInfoQuery :=
  (SR.AI_SUCCESS, MkTypeInfo (ti_requested q) false (ti_fetched q) (ti_binaryTypes q) (ti_sqlTypes q)
                    (length (ti_binaryTypes q))).

Definition type_info_DataAvailable (q : TypeInfoQuery) : bool :=
  negb (ti_cursor q =? length (ti_binaryTypes q))%nat.

(** ** Special columns *)

(** [SpecialColumnsQuery]: there are none; what is asked for plays no part. *)
Record SpecialColumnsQuery : Type := MkSpecial { sp_executed : bool }.

Definition special_columns_meta : list ColumnMeta :=
  let column name t := own_column [] [] (str name) t NULLABILITY_UNKNOWN in
  [column "SCOPE"%string DOCUMENTDB_TYPE_SHORT; column "COLUMN_NAME"%string DOCUMENTDB_TYPE_STRING;
   column "DATA_TYPE"%string DOCUMENTDB_TYPE_SHORT; column "TYPE_NAME"%string DOCUMENTDB_TYPE_STRING;
   column "COLUMN_SIZE"%string DOCUMENTDB_TYPE_INT; column "BUFFER_LENGTH"%string DOCUMENTDB_TYPE_INT;
   column "DECIMAL_DIGITS"%string DOCUMENTDB_TYPE_SHORT; column "PSEUDO_COLUMN"%string DOCUMENTDB_TYPE_SHORT].

Definition special_Execute (q : SpecialColumnsQuery) : SR.SqlResult * SpecialColumnsQuery :=
  (SR.AI_SUCCESS, MkSpecial true).
Definition special_FetchNextRow (q : SpecialColumnsQuery) (d : diags) : SR.SqlResult * diags :=
  if negb (sp_executed q) then not_executed d else (SR.AI_NO_DATA, d).
Definition special_GetColumn (q : SpecialColumnsQuery) (d : diags) : SR.SqlResult * diags :=
  if negb (sp_executed q) then not_executed d else (SR.AI_NO_DATA, d).
Definition special_Close (q : SpecialColumnsQuery) : SR.SqlResult * SpecialColumnsQuery :=
  (SR.AI_SUCCESS, MkSpecial false).

End queries.

(** * The columns of the results *)

Definition described (cols : list (string * Z * Z)) : list ColumnMeta :=
  map (fun c => own_column [] [] (str c.1.1) c.1.2 c.2) cols.

Definition columns_meta : list ColumnMeta :=
  described
    [("TABLE_CAT"%string, JDBC_TYPE_VARCHAR, NULLABLE); ("TABLE_SCHEM"%string, JDBC_TYPE_VARCHAR, NULLABLE);
     ("TABLE_NAME"%string, JDBC_TYPE_VARCHAR, NO_NULL); ("COLUMN_NAME"%string, JDBC_TYPE_VARCHAR, NO_NULL);
     ("DATA_TYPE"%string, JDBC_TYPE_SMALLINT, NO_NULL); ("TYPE_NAME"%string, JDBC_TYPE_VARCHAR, NO_NULL);
     ("COLUMN_SIZE"%string, JDBC_TYPE_INTEGER, NULLABLE); ("BUFFER_LENGTH"%string, JDBC_TYPE_INTEGER, NULLABLE);
     ("DECIMAL_DIGITS"%string, JDBC_TYPE_SMALLINT, NULLABLE); ("NUM_PREC_RADIX"%string, JDBC_TYPE_SMALLINT, NULLABLE);
     ("NULLABLE"%string, JDBC_TYPE_SMALLINT, NO_NULL); ("REMARKS"%string, JDBC_TYPE_VARCHAR, NULLABLE);
     ("COLUMN_DEF"%string, JDBC_TYPE_VARCHAR, NULLABLE); ("SQL_DATA_TYPE"%string, JDBC_TYPE_SMALLINT, NO_NULL);
     ("SQL_DATETIME_SUB"%string, JDBC_TYPE_SMALLINT, NULLABLE); ("CHAR_OCTET_LENGTH"%string, JDBC_TYPE_INTEGER, NULLABLE);
     ("ORDINAL_POSITION"%string, JDBC_TYPE_INTEGER, NO_NULL); ("IS_NULLABLE"%string, JDBC_TYPE_VARCHAR, NULLABLE)].

Definition tables_meta : list ColumnMeta :=
  described
    [("TABLE_CAT"%string, JDBC_TYPE_VARCHAR, NULLABLE); ("TABLE_SCHEM"%string, JDBC_TYPE_VARCHAR, NULLABLE);
     ("TABLE_NAME"%string, JDBC_TYPE_VARCHAR, NO_NULL); ("TABLE_TYPE"%string, JDBC_TYPE_VARCHAR, NO_NULL);
     ("REMARKS"%string, JDBC_TYPE_VARCHAR, NULLABLE)].

Definition primary_keys_meta : list ColumnMeta :=
  described
    [("TABLE_CAT"%string, JDBC_TYPE_VARCHAR, NULLABLE); ("TABLE_SCHEM"%string, JDBC_TYPE_VARCHAR, NULLABLE);
     ("TABLE_NAME"%string, JDBC_TYPE_VARCHAR, NO_NULL); ("COLUMN_NAME"%string, JDBC_TYPE_VARCHAR, NO_NULL);
     ("KEY_SEQ"%string, JDBC_TYPE_SMALLINT, NO_NULL); ("PK_NAME"%string, JDBC_TYPE_VARCHAR, NULLABLE)].

Definition foreign_keys_meta : list ColumnMeta :=
  described
    [("PKTABLE_CAT"%string, JDBC_TYPE_VARCHAR, NULLABLE); ("PKTABLE_SCHEM"%string, JDBC_TYPE_VARCHAR, NULLABLE);
     ("PKTABLE_NAME"%string, JDBC_TYPE_VARCHAR, NO_NULL); ("PKCOLUMN_NAME"%string, JDBC_TYPE_VARCHAR, NO_NULL);
     ("FKTABLE_CAT"%string, JDBC_TYPE_VARCHAR, NULLABLE); ("FKTABLE_SCHEM"%string, JDBC_TYPE_VARCHAR, NULLABLE);
     ("FKTABLE_NAME"%string, JDBC_TYPE_VARCHAR, NO_NULL); ("FKCOLUMN_NAME"%string, JDBC_TYPE_VARCHAR, NO_NULL);
     ("KEY_SEQ"%string, JDBC_TYPE_SMALLINT, NO_NULL); ("UPDATE_RULE"%string, JDBC_TYPE_SMALLINT, NO_NULL);
     ("DELETE_RULE"%string, JDBC_TYPE_SMALLINT, NO_NULL); ("FK_NAME"%string, JDBC_TYPE_VARCHAR, NULLABLE);
     ("PK_NAME"%string, JDBC_TYPE_VARCHAR, NULLABLE); ("DEFERRABILITY"%string, JDBC_TYPE_SMALLINT, NO_NULL)].

Definition type_info_meta : list ColumnMeta :=
  described
    (map (fun c => (c.1, c.2, NULLABILITY_UNKNOWN))
       [("TYPE_NAME"%string, JDBC_TYPE_VARCHAR); ("DATA_TYPE"%string, JDBC_TYPE_SMALLINT);
        ("COLUMN_SIZE"%string, JDBC_TYPE_INTEGER); ("LITERAL_PREFIX"%string, JDBC_TYPE_VARCHAR);
        ("LITERAL_SUFFIX"%string, JDBC_TYPE_VARCHAR); ("CREATE_PARAMS"%string, JDBC_TYPE_VARCHAR);
        ("NULLABLE"%string, JDBC_TYPE_SMALLINT); ("CASE_SENSITIVE"%string, JDBC_TYPE_SMALLINT);
        ("SEARCHABLE"%string, JDBC_TYPE_SMALLINT); ("UNSIGNED_ATTRIBUTE"%string, JDBC_TYPE_SMALLINT);
        ("FIXED_PREC_SCALE"%string, JDBC_TYPE_SMALLINT); ("AUTO_UNIQUE_VALUE"%string, JDBC_TYPE_SMALLINT);
        ("LOCAL_TYPE_NAME"%string, JDBC_TYPE_VARCHAR); ("MINIMUM_SCALE"%string, JDBC_TYPE_SMALLINT);
        ("MAXIMUM_SCALE"%string, JDBC_TYPE_SMALLINT); ("SQL_DATA_TYPE"%string, JDBC_TYPE_SMALLINT);
        ("SQL_DATETIME_SUB"%string, JDBC_TYPE_SMALLINT); ("NUM_PREC_RADIX"%string, JDBC_TYPE_INTEGER);
        ("INTERVAL_PRECISION"%string, JDBC_TYPE_SMALLINT)]).
