(* ===== verification/DataQuery.v ===== *)
(** Queries on data: [src/src/odbc/src/query/data_query.cpp], [documentdb_cursor.cpp],
    [documentdb_row.cpp], and the errors of [documentdb_error.cpp].

    The query mapping service of the JDBC driver turns SQL into an aggregation pipeline
    with the types and the paths of the result's columns; the MongoDB driver runs it and
    hands out documents one after the other. *)
From S2P Require Import Prelude OrdMap Memory Utf8 BigText TypeTraits Chrono Decimal AppBuffer AppRead Diag SqlLex.
From S2P Require Import Params Statement Config Meta Connection DocColumn MetaQueries.

(** * Errors of the JVM *)

Inductive JniErrorCode : Type := JNI_ERR_GENERIC | JNI_ERR_JVM_INIT | JNI_ERR_JVM_ATTACH.

Record JniErrorInfo : Type := MkJniError { je_code : JniErrorCode; je_class : text; je_msg : text }.

Definition DOCUMENTDB_ERR_UNKNOWN : Z := -1.
Definition DOCUMENTDB_ERR_JVM_ATTACH : Z := 2.
Definition DOCUMENTDB_ERR_JVM_NO_CLASS_DEF_FOUND : Z := 6.
Definition DOCUMENTDB_ERR_JVM_NO_SUCH_METHOD : Z := 7.
Definition DOCUMENTDB_ERR_ILLEGAL_ARGUMENT : Z := 2001.
Definition DOCUMENTDB_ERR_UNSUPPORTED_OPERATION : Z := 2003.
Definition DOCUMENTDB_ERR_INTERRUPTED : Z := 2004.
Definition DOCUMENTDB_ERR_CACHE : Z := 2012.
Definition DOCUMENTDB_ERR_CACHE_LOADER : Z := 2013.
Definition DOCUMENTDB_ERR_CACHE_WRITER : Z := 2014.
Definition DOCUMENTDB_ERR_ENTRY_PROCESSOR : Z := 2015.
Definition DOCUMENTDB_ERR_SQL_EXCEPTION : Z := 2029.

(** The exceptions whose message is passed on as it is. *)
Definition java_errors : list (text * Z) :=
  [(str "java.lang.IllegalArgumentException", DOCUMENTDB_ERR_ILLEGAL_ARGUMENT);
   (str "java.lang.IllegalStateException", DOCUMENTDB_ERR_ILLEGAL_STATE);
   (str "java.lang.UnsupportedOperationException", DOCUMENTDB_ERR_UNSUPPORTED_OPERATION);
   (str "java.lang.InterruptedException", DOCUMENTDB_ERR_INTERRUPTED);
   (str "javax.cache.CacheException", DOCUMENTDB_ERR_CACHE);
   (str "javax.cache.integration.CacheLoaderException", DOCUMENTDB_ERR_CACHE_LOADER);
   (str "javax.cache.integration.CacheWriterException", DOCUMENTDB_ERR_CACHE_WRITER);
   (str "javax.cache.processor.EntryProcessorException", DOCUMENTDB_ERR_ENTRY_PROCESSOR)].

Definition java_exception (cls msg : text) : DocumentDbError :=
  let named (s : string) := bool_decide (cls = str s) in
  if named "java.lang.NoClassDefFoundError"%string then
    error_of DOCUMENTDB_ERR_JVM_NO_CLASS_DEF_FOUND
      (str "Java class is not found (did you set DOCUMENTDB_HOME environment variable?)" ++ str ": " ++ msg)
  else if named "java.lang.NoSuchMethodError"%string then
    error_of DOCUMENTDB_ERR_JVM_NO_SUCH_METHOD
      (str "Java method is not found (did you set DOCUMENTDB_HOME environment variable?)" ++ str ": " ++ msg)
  else
    match find (fun e => bool_decide (cls = e.1)) java_errors with
    | Some e => error_of e.2 msg
    | None =>
        if named "java.sql.SQLException"%string then
          error_of DOCUMENTDB_ERR_SQL_EXCEPTION
            (str "SQL exception occurred [cls=" ++ cls ++ str ", msg=" ++ msg ++ str "]")
        else
          error_of DOCUMENTDB_ERR_UNKNOWN
            (str "Java exception occurred [cls=" ++ cls ++ str ", msg=" ++ msg ++ str "]")
    end.

(** [DocumentDbError::SetError] of an error; class and message are never null. *)
Definition SetError (e : JniErrorInfo) : DocumentDbError :=
  let cls := c_str (je_class e) in
  let msg := c_str (je_msg e) in
  match je_code e with
  | JNI_ERR_GENERIC => java_exception cls msg
  | JNI_ERR_JVM_INIT =>
      error_of DOCUMENTDB_ERR_JVM_INIT
        (str "Failed to initialize JVM [errCls=" ++ cls ++ str ", errMsg=" ++ msg ++ str "]")
  | JNI_ERR_JVM_ATTACH => error_of DOCUMENTDB_ERR_JVM_ATTACH (str "Failed to attach to JVM.")
  end.

(** [Logger::RedactMessage]: messages are for debugging only. *)
Definition RedactMessage (l : Logger) (msg : text) : text :=
  if bool_decide (lg_level l = LL.DEBUG_LEVEL) then msg else str "****".

(** * Rows *)

(** The columns that have been read so far, with the current document. *)
Record DocumentDbRow : Type := MkDocRow { row_document : Document; row_columns : list DocumentDbColumn }.

(** The columns of the result: the metadata and the paths, kept by the cursor. *)
Record Layout : Type := MkLayout { ly_columns : list JdbcColumnMetadata; ly_paths : list text }.

Definition new_row (document : Document) : DocumentDbRow := MkDocRow document [].

(** The columns refer to the row's document, so that they change with it. *)
Definition row_Update (document : Document) (r : DocumentDbRow) : DocumentDbRow := MkDocRow document (row_columns r).

Definition row_GetSize (l : Layout) : Z := i32 (Z.of_nat (length (ly_columns l))).

(** The loop adds columns up to the index; [count] is the number of passes. *)
Fixpoint discover (l : Layout) (count : nat) (cols : list DocumentDbColumn) : outcome Z (list DocumentDbColumn) :=
  match count with
  | O => Ok cols
  | S k =>
      match ly_columns l !! length cols, ly_paths l !! length cols with
      | Some j, Some p => discover l k (cols ++ [MkColumn (jc_columnType j) p])
      | _, _ => UB
      end
  end.

Definition EnsureColumnDiscovered (l : Layout) (columnIdx : Z) (r : DocumentDbRow) : outcome Z DocumentDbRow :=
  let n := Z.of_nat (length (row_columns r)) in
  if n =? row_GetSize l then Ok r
  else let* cols := discover l (Z.to_nat (columnIdx - n)) (row_columns r) in Ok (MkDocRow (row_document r) cols).

Section data.
Context `{Platform} `{Calendar} `{NumberTexts} (toDouble : Decimal -> Z).

(** [columnIdx > GetSize()] compares as unsigned numbers. *)
Definition ReadColumnToBuffer (l : Layout) (columnIdx : Z) (b : ApplicationDataBuffer) (r : DocumentDbRow) (m : mem)
    : outcome Z (ConversionResult * DocumentDbRow * mem) :=
  if (u32 (row_GetSize l) <? columnIdx) || (columnIdx <? 1) then Ok (AI_FAILURE, r, m) else
  let* r := EnsureColumnDiscovered l columnIdx r in
  match row_columns r !! Z.to_nat (columnIdx - 1) with
  | None => UB
  | Some column =>
      let* (c, m) := ReadToBuffer toDouble column (row_document r) b m in
      Ok (c, r, m)
  end.

(** * The cursor *)

(** The documents from the iterator on, whether going beyond the last one throws, the
    layout, the current row, and whether the first row is still to come. *)
Record DocumentDbCursor : Type := MkCursor {
  cu_docs : list Document;
  cu_fails : bool;
  cu_layout : Layout;
  cu_row : option DocumentDbRow;
  cu_first : bool
}.

Definition new_cursor (docs : list Document) (fails : bool) (l : Layout) : DocumentDbCursor :=
  MkCursor docs fails l None true.

Definition HasData (c : DocumentDbCursor) : bool := match cu_docs c with [] => false | _ => true end.

(** [iterator_++] *)
Definition advance (docs : list Document) (fails : bool) : outcome Z (list Document) :=
  match docs with
  | [] => UB
  | [_] => if fails then Throw std_exception else Ok []
  | _ :: rest => Ok rest
  end.

Definition Increment (c : DocumentDbCursor) : outcome Z (bool * DocumentDbCursor) :=
  let* (docs, first) :=
    if HasData c then
      if negb (cu_first c) then let* docs := advance (cu_docs c) (cu_fails c) in Ok (docs, false)
      else Ok (cu_docs c, false)
    else Ok (cu_docs c, cu_first c) in
  match docs with
  | doc :: _ =>
      let row := match cu_row c with Some r => row_Update doc r | None => new_row doc end in
      Ok (true, MkCursor docs (cu_fails c) (cu_layout c) (Some row) first)
  | [] => Ok (false, MkCursor docs (cu_fails c) (cu_layout c) None first)
  end.

(** * The query *)

Record DataQuery : Type := MkDataQuery {
  dq_sql : text;
  dq_timeout : Z;
  dq_cursor : option DocumentDbCursor;
  dq_meta : list ColumnMeta;
  dq_metaAvailable : bool
}.

Definition new_data_query (sql : text) (timeout : Z) : DataQuery := MkDataQuery sql timeout None [] false.

Definition set_cursor (c : option DocumentDbCursor) (q : DataQuery) : DataQuery :=
  MkDataQuery (dq_sql q) (dq_timeout q) c (dq_meta q) (dq_metaAvailable q).

Definition add_at (st : SS.SqlState) (msg : text) (column : Z) : diags -> diags :=
  AddStatusRecordAt false st msg 0 column.

(** [rowIdx] is 0 in every call. *)
Definition ProcessConversionResult (convRes : ConversionResult) (columnIdx : Z) (d : diags) : SR.SqlResult * diags :=
  match convRes with
  | AI_SUCCESS => (SR.AI_SUCCESS, d)
  | AI_NO_DATA => (SR.AI_NO_DATA, d)
  | AI_VARLEN_DATA_TRUNCATED =>
      (SR.AI_SUCCESS_WITH_INFO,
       add_at SS.S01004_DATA_TRUNCATED
         (str "Buffer is too small for the column data. Truncated from the right.") columnIdx d)
  | AI_FRACTIONAL_TRUNCATED =>
      (SR.AI_SUCCESS_WITH_INFO,
       add_at SS.S01S07_FRACTIONAL_TRUNCATION
         (str "Buffer is too small for the column data. Fraction truncated.") columnIdx d)
  | AI_INDICATOR_NEEDED =>
      (SR.AI_SUCCESS_WITH_INFO,
       add_at SS.S22002_INDICATOR_NEEDED
         (str "Indicator is needed but not suplied for the column buffer.") columnIdx d)
  | AI_UNSUPPORTED_CONVERSION =>
      (SR.AI_SUCCESS_WITH_INFO,
       add_at SS.SHYC00_OPTIONAL_FEATURE_NOT_IMPLEMENTED (str "Data conversion is not supported.") columnIdx d)
  | AI_FAILURE =>
      (SR.AI_ERROR, add_at SS.S01S01_ERROR_IN_ROW (str "Can not retrieve row column.") columnIdx d)
  end.

(** The loop over the columns from [i], [n] of them, and whether one failed. *)
Fixpoint read_columns_from (l : Layout) (n : nat) (i : Z) (bs : bindings) (r : DocumentDbRow) (d : diags) (m : mem)
    : outcome Z (bool * DocumentDbRow * diags * mem) :=
  match n with
  | O => Ok (true, r, d, m)
  | S k =>
      match om_lookup (u16 i) bs with
      | None => read_columns_from l k (i + 1) bs r d m
      | Some b =>
          let* (convRes, r, m) := ReadColumnToBuffer l i b r m in
          let '(result, d) := ProcessConversionResult convRes i d in
          if bool_decide (result = SR.AI_ERROR) then Ok (false, r, d, m)
          else read_columns_from l k (i + 1) bs r d m
      end
  end.

Definition set_row (r : DocumentDbRow) (c : DocumentDbCursor) : DocumentDbCursor :=
  MkCursor (cu_docs c) (cu_fails c) (cu_layout c) (Some r) (cu_first c).

Definition data_FetchNextRow (q : DataQuery) (bs : bindings) (d : diags) (m : mem)
    : outcome Z (SR.SqlResult * DataQuery * diags * mem) :=
  match dq_cursor q with
  | None => let '(r, d) := not_executed d in Ok (r, q, d, m)
  | Some c =>
      if negb (HasData c) then Ok (SR.AI_NO_DATA, q, d, m) else
      let* (moved, c) := Increment c in
      let q := set_cursor (Some c) q in
      if negb moved then Ok (SR.AI_NO_DATA, q, d, m) else
      match cu_row c with
      | None => Ok (SR.AI_ERROR, q, add SS.SHY000_GENERAL_ERROR (str "Unknown error.") d, m)
      | Some row =>
          let l := cu_layout c in
          let* (ok, row, d, m) := read_columns_from l (Z.to_nat (row_GetSize l)) 1 bs row d m in
          Ok (if ok : bool then SR.AI_SUCCESS else SR.AI_ERROR, set_cursor (Some (set_row row c)) q, d, m)
      end
  end.

Definition data_GetColumn (q : DataQuery) (columnIdx : Z) (b : ApplicationDataBuffer) (d : diags) (m : mem)
    : outcome Z (SR.SqlResult * DataQuery * diags * mem) :=
  match dq_cursor q with
  | None => let '(r, d) := not_executed d in Ok (r, q, d, m)
  | Some c =>
      match cu_row c with
      | None => let '(r, d) := at_the_end d in Ok (r, q, d, m)
      | Some row =>
          let* (convRes, row, m) := ReadColumnToBuffer (cu_layout c) columnIdx b row m in
          let '(r, d) := ProcessConversionResult convRes columnIdx d in
          Ok (r, set_cursor (Some (set_row row c)) q, d, m)
      end
  end.

End data.

Definition data_Close (q : DataQuery) : SR.SqlResult * DataQuery := (SR.AI_SUCCESS, set_cursor None q).
Definition data_NextResultSet (q : DataQuery) : SR.SqlResult * DataQuery := (SR.AI_NO_DATA, (data_Close q).2).
Definition data_DataAvailable (q : DataQuery) : bool :=
  match dq_cursor q with Some c => HasData c | None => false end.

(** ** Executing *)

(** [DocumentDbMqlQueryContext]. *)
Record MqlQueryContext : Type := MkMql {
  mql_operations : list text;
  mql_layout : Layout;
  mql_collection : text
}.

(** The mapping service (an error, or the context, which is missing when its lists
    cannot be read), which stages are JSON, and the aggregation: database, collection,
    stages, batch size and time limit give the documents (and whether the last is
    followed by a failure). *)
Record DataAnswers : Type := MkDataAnswers {
  da_connection : Answers;
  da_service : option JniErrorInfo;
  da_context : text -> JniErrorInfo + option MqlQueryContext;
  da_json : text -> bool;
  da_aggregate : text -> text -> list text -> Z -> option Z -> mongo_exception + (list Document * bool)
}.

(** The context ([inr None]: none, though there was no error). *)
Definition GetMqlQueryContext (a : DataAnswers) (c : Connection) (sql : text) : DocumentDbError + option MqlQueryContext :=
  match GetConnectionProperties (da_connection a) c with
  | inl e => inl e
  | inr _ =>
      match GetDatabaseMetadata (da_connection a) c with
      | inl e => inl e
      | inr _ =>
          match da_service a with
          | Some e => inl (SetError e)
          | None =>
              match da_context a sql with
              | inl e => inl (SetError e)
              | inr ctx => inr ctx
              end
          end
      end
  end.

(** An empty list of columns leaves the metadata unavailable. *)
Definition ReadJdbcColumnMetadataVector (js : list JdbcColumnMetadata) (q : DataQuery) : DataQuery :=
  MkDataQuery (dq_sql q) (dq_timeout q) (dq_cursor q) (map ReadJdbcMetadata js)
    (match js with [] => dq_metaAvailable q | _ => true end).

(** The error is recorded twice. *)
Definition MakeRequestFetch (a : DataAnswers) (c : Connection) (q : DataQuery) (d : diags)
    : outcome Z (SR.SqlResult * DataQuery * diags) :=
  match GetMqlQueryContext a c (dq_sql q) with
  | inl e =>
      let msg := RedactMessage (cn_logger c) (GetText e) in
      let state := if err_code e =? DOCUMENTDB_ERR_SQL_EXCEPTION
                   then SS.SHYC00_OPTIONAL_FEATURE_NOT_IMPLEMENTED else SS.SHY000_GENERAL_ERROR in
      Ok (SR.AI_ERROR, q, add SS.SHY000_GENERAL_ERROR msg (add state msg d))
  | inr None => UB
  | inr (Some ctx) =>
      let q := if dq_metaAvailable q then q else ReadJdbcColumnMetadataVector (ly_columns (mql_layout ctx)) q in
      if negb (forallb (da_json a) (mql_operations ctx)) then Throw std_exception else
      match da_aggregate a (sv_val (c_database (cn_config c))) (mql_collection ctx) (mql_operations ctx)
              (sv_val (c_defaultFetchSize (cn_config c)))
              (if dq_timeout q =? 0 then None else Some (dq_timeout q * 1000)) with
      | inl x =>
          Ok (SR.AI_ERROR, q,
              add SS.SHY000_GENERAL_ERROR (RedactMessage (cn_logger c) (GetText (mongo_failure x))) d)
      | inr (docs, fails) => Ok (SR.AI_SUCCESS, set_cursor (Some (new_cursor docs fails (mql_layout ctx))) q, d)
      end
  end.

Definition data_Execute (a : DataAnswers) (c : Connection) (q : DataQuery) (d : diags)
    : outcome Z (SR.SqlResult * DataQuery * diags) :=
  MakeRequestFetch a c (set_cursor None q) d.

(** The metadata, when there is some. *)
Definition data_GetMeta (a : DataAnswers) (c : Connection) (q : DataQuery) (d : diags)
    : option (list ColumnMeta) * DataQuery * diags :=
  if dq_metaAvailable q then (Some (dq_meta q), q, d) else
  match GetMqlQueryContext a c (dq_sql q) with
  | inl e => (None, q, add SS.SHY000_GENERAL_ERROR (RedactMessage (cn_logger c) (GetText e)) d)
  | inr None => (None, q, add SS.SHY000_GENERAL_ERROR (RedactMessage (cn_logger c) (GetText no_error)) d)
  | inr (Some ctx) =>
      let q := ReadJdbcColumnMetadataVector (ly_columns (mql_layout ctx)) q in
      (if dq_metaAvailable q then Some (dq_meta q) else None, q, d)
  end.
