(* ===== verification/DataProps.v ===== *)
(** Properties of queries on data: fetching refines walking through the documents, what
    conversions report, integers in texts. *)
From S2P Require Import Prelude OrdMap Memory Utf8 BigText TypeTraits Chrono Decimal AppBuffer AppRead AppProps Diag.
From S2P Require Import SqlLex Params Statement Config ConfigRound Meta Connection DocColumn MetaQueries.
From S2P Require Import DataQuery.

(** * Fetching *)

(** The columns of the result, all of them. *)
Definition layout_columns (l : Layout) : list DocumentDbColumn :=
  zip_with (fun j p => MkColumn (jc_columnType j) p) (ly_columns l) (ly_paths l).

(** As many paths as columns, and not more than an [int32_t] counts. *)
Definition layout_ok (l : Layout) : Prop :=
  length (ly_paths l) = length (ly_columns l) /\ Z.of_nat (length (ly_columns l)) < 2 ^ 31.

(** The columns a row knows are the first ones of the result. *)
Definition row_ok (l : Layout) (r : DocumentDbRow) : Prop := row_columns r `prefix_of` layout_columns l.

Lemma layout_length l : layout_ok l -> length (layout_columns l) = length (ly_columns l).
Proof. intros [E _]. unfold layout_columns. rewrite length_zip_with. lia. Qed.

Lemma row_size l : layout_ok l -> row_GetSize l = Z.of_nat (length (layout_columns l)).
Proof.
  intros Hl. rewrite layout_length by done. destruct Hl as [_ Hl]. unfold row_GetSize.
  apply wrapS_small; [lia|]. widths. lia.
Qed.

Lemma layout_lookup l i col :
  layout_columns l !! i = Some col ->
  exists j p, ly_columns l !! i = Some j /\ ly_paths l !! i = Some p /\ col = MkColumn (jc_columnType j) p.
Proof.
  unfold layout_columns. intros E. apply lookup_zip_with_Some in E as (j & p & -> & Hj & Hp). eauto.
Qed.

Lemma discover_ok l n cols :
  cols `prefix_of` layout_columns l -> (length cols + n <= length (layout_columns l))%nat ->
  discover l n cols = Ok (take (length cols + n) (layout_columns l)).
Proof.
  revert cols. induction n as [|n IH]; intros cols [t Ht] Hn; cbn [discover].
  - rewrite Ht. rewrite Nat.add_0_r, take_app_length. done.
  - destruct t as [|col t]; [rewrite Ht, app_nil_r in Hn; lia|].
    assert (layout_columns l !! length cols = Some col) as Hc.
    { rewrite Ht, lookup_app_r, Nat.sub_diag by lia. done. }
    destruct (layout_lookup l _ _ Hc) as (j & p & -> & -> & ->).
    rewrite IH.
    + rewrite length_app. cbn [length]. do 2 f_equal. lia.
    + exists t. rewrite Ht, <- app_assoc. done.
    + rewrite length_app. cbn [length]. lia.
Qed.

Lemma ensure_ok l i r :
  layout_ok l -> row_ok l r -> 1 <= i <= Z.of_nat (length (layout_columns l)) ->
  exists r', EnsureColumnDiscovered l i r = Ok r' /\ row_ok l r' /\ row_document r' = row_document r
    /\ row_columns r' !! Z.to_nat (i - 1) = layout_columns l !! Z.to_nat (i - 1).
Proof.
  intros Hl Hr Hi. unfold EnsureColumnDiscovered. rewrite row_size by done.
  pose proof (prefix_length _ _ Hr) as Hlen. destruct Hr as [t Ht].
  destruct (Z.eqb_spec (Z.of_nat (length (row_columns r))) (Z.of_nat (length (layout_columns l)))) as [E|Hne].
  { assert (t = []) as ->. { apply length_zero_iff_nil. rewrite Ht, length_app in E. lia. }
    rewrite app_nil_r in Ht. exists r. split_and!; [done|by exists []; rewrite app_nil_r|done|by rewrite Ht]. }
  rewrite discover_ok; [|by exists t|lia]. cbn [obind]. eexists. split_and!; [reflexivity| |done|].
  - exists (drop (length (row_columns r) + Z.to_nat (i - Z.of_nat (length (row_columns r)))) (layout_columns l)).
    cbn [row_columns]. by rewrite take_drop.
  - cbn [row_columns]. apply lookup_take_lt. lia.
Qed.

Section fetching.
Context `{Platform} `{Calendar} `{NumberTexts} (toDouble : Decimal -> Z).

(** A column of a row is the element of the current document, whatever was read before. *)
Lemma read_column l i b r m col :
  layout_ok l -> row_ok l r -> 1 <= i -> layout_columns l !! Z.to_nat (i - 1) = Some col ->
  exists r', row_ok l r' /\ row_document r' = row_document r
    /\ ReadColumnToBuffer toDouble l i b r m
       = (let* (c, m) := ReadToBuffer toDouble col (row_document r) b m in Ok (c, r', m)).
Proof.
  intros Hl Hr Hi Hc. pose proof (lookup_lt_Some _ _ _ Hc) as Hlt.
  destruct (ensure_ok l i r Hl Hr) as (r' & He & Hr' & Hd & Hcol); [lia|].
  exists r'. split_and!; [done..|]. unfold ReadColumnToBuffer. rewrite row_size, wrapU_small, He by
    (try done; pose proof (layout_length l Hl); destruct Hl as [_ ?]; widths; lia).
  destruct (Z.ltb_spec (Z.of_nat (length (layout_columns l))) i); [lia|].
  destruct (Z.ltb_spec i 1); [lia|]. cbn [orb obind]. rewrite Hcol, Hc, Hd. by destruct (ReadToBuffer _ _ _ _ _) as [[]| |].
Qed.

(** The bound columns of a document, without a row in between. *)
Fixpoint direct_columns (cols : list DocumentDbColumn) (i : Z) (bs : bindings) (document : Document) (d : diags) (m : mem)
    : outcome Z (bool * diags * mem) :=
  match cols with
  | [] => Ok (true, d, m)
  | col :: cols =>
      match om_lookup (u16 i) bs with
      | None => direct_columns cols (i + 1) bs document d m
      | Some b =>
          let* (convRes, m) := ReadToBuffer toDouble col document b m in
          let '(result, d) := ProcessConversionResult convRes i d in
          if bool_decide (result = SR.AI_ERROR) then Ok (false, d, m)
          else direct_columns cols (i + 1) bs document d m
      end
  end.

(** Two computations with the same effects, up to the row. *)
Definition same_but_row (l : Layout) (document : Document) (x : outcome Z (bool * diags * mem))
    (y : outcome Z (bool * DocumentDbRow * diags * mem)) : Prop :=
  match x with
  | Ok (ok, d, m) => exists r, y = Ok (ok, r, d, m) /\ row_ok l r /\ row_document r = document
  | Throw e => y = Throw e
  | UB => y = UB
  end.

Lemma read_columns_direct l bs n i r d m :
  layout_ok l -> row_ok l r -> 1 <= i -> Z.of_nat n = Z.of_nat (length (layout_columns l)) - (i - 1) ->
  same_but_row l (row_document r) (direct_columns (drop (Z.to_nat (i - 1)) (layout_columns l)) i bs (row_document r) d m)
    (read_columns_from toDouble l n i bs r d m).
Proof.
  intros Hl. revert i r d m. induction n as [|n IH]; intros i r d m Hr Hi Hn; cbn [read_columns_from].
  { rewrite drop_ge by lia. by exists r. }
  destruct (lookup_lt_is_Some_2 (layout_columns l) (Z.to_nat (i - 1))) as [col Hc]; [lia|].
  rewrite (drop_S _ _ _ Hc). cbn [direct_columns].
  replace (S (Z.to_nat (i - 1))) with (Z.to_nat (i + 1 - 1)) by lia.
  destruct (om_lookup (u16 i) bs) as [b|]; [|apply IH; [done|lia|lia]].
  destruct (read_column l i b r m col Hl Hr Hi Hc) as (r' & Hr' & Hd & ->).
  destruct (ReadToBuffer toDouble col (row_document r) b m) as [[c m1]|e|]; cbn [obind]; [|done|done].
  destruct (ProcessConversionResult c i d) as [res d1]. case_bool_decide.
  { exists r'. done. }
  rewrite <- Hd. apply IH; [done|lia|lia].
Qed.

(** ** The cursor *)

(** The cursor after [pos] fetches from the documents [ds]. *)
Definition cursor_at (l : Layout) (ds : list Document) (pos : nat) (c : DocumentDbCursor) : Prop :=
  cu_layout c = l /\ cu_fails c = false
  /\ match pos with
     | O => cu_docs c = ds /\ cu_row c = None /\ cu_first c = true
     | S k =>
         cu_docs c = drop k ds
         /\ match ds !! k with
            | Some doc => cu_first c = false /\ exists r, cu_row c = Some r /\ row_ok l r /\ row_document r = doc
            | None => cu_row c = None
            end
     end.

Lemma new_cursor_at l ds : cursor_at l ds 0 (new_cursor ds false l).
Proof. done. Qed.

(** Moving on: there is a row exactly when there is a document left. *)
Lemma increment_at l ds pos c :
  cursor_at l ds pos c -> (pos <= length ds)%nat -> HasData c = true ->
  exists c', Increment c = Ok (bool_decide (pos < length ds)%nat, c') /\ cursor_at l ds (S pos) c'.
Proof.
  intros (Hly & Hf & Hc) Hpos Hdata. unfold Increment. rewrite Hdata. destruct pos as [|k].
  - destruct Hc as (Hd & Hrow & ->). rewrite Hrow, Hd. cbn [negb obind].
    unfold HasData in Hdata. rewrite Hd in Hdata. destruct ds as [|doc ds]; [done|].
    rewrite bool_decide_true by (cbn; lia). eexists. split; [reflexivity|]. split_and!; try done.
    cbn. split; [done|]. exists (new_row doc). split; [done|]. split; [apply prefix_nil|done].
  - destruct Hc as (Hd & Hrow). unfold HasData in Hdata. rewrite Hd in Hdata.
    destruct (ds !! k) as [doc|] eqn:Ek; [|by rewrite (drop_ge ds k) in Hdata by by apply lookup_ge_None_1].
    destruct Hrow as (-> & r & Hr & Hok & Hdoc). cbn [negb]. rewrite Hd, (drop_S _ _ _ Ek). unfold advance. rewrite Hf.
    assert (match drop (S k) ds with [] => Ok [] | _ :: _ => Ok (drop (S k) ds) end
            = @Ok Z _ (drop (S k) ds)) as Hadv by by destruct (drop (S k) ds).
    destruct (drop (S k) ds) as [|doc' rest] eqn:Edr; cbn [obind].
    + assert (length ds <= S k)%nat as Hlen.
      { pose proof (length_drop ds (S k)) as E. rewrite Edr in E. cbn in E. lia. }
      rewrite bool_decide_false by lia. eexists. split; [reflexivity|]. split; [done|split; [done|]].
      cbn. rewrite Edr. split; [done|]. by rewrite lookup_ge_None_2.
    + assert (ds !! S k = Some doc') as Hk.
      { rewrite <- (Nat.add_0_r (S k)), <- lookup_drop, Edr. done. }
      pose proof (lookup_lt_Some _ _ _ Hk). rewrite bool_decide_true by lia. rewrite Hr.
      eexists. split; [reflexivity|]. split; [done|split; [done|]]. cbn [cu_docs cu_row cu_first].
      rewrite Edr, Hk.
      split; [done|]. split; [done|]. eexists. split; [reflexivity|]. done.
Qed.

(** The query after [pos] fetches. *)
Definition fetched (l : Layout) (ds : list Document) (pos : nat) (q : DataQuery) : Prop :=
  exists c, dq_cursor q = Some c /\ cursor_at l ds pos c.

(** What a fetch is to do, in terms of the list of documents. *)
Definition fetch_spec (l : Layout) (ds : list Document) (pos : nat) (bs : bindings) (d : diags) (m : mem)
    : outcome Z (SR.SqlResult * diags * mem) :=
  match ds !! pos with
  | Some doc =>
      let* (ok, d, m) := direct_columns (layout_columns l) 1 bs doc d m in
      Ok (if ok : bool then SR.AI_SUCCESS else SR.AI_ERROR, d, m)
  | None => Ok (SR.AI_NO_DATA, d, m)
  end.

(** Beyond the last document the position stays. *)
Definition next_pos (ds : list Document) (pos : nat) : nat := Nat.min (S pos) (S (length ds)).

Lemma fetch_refines l ds pos q bs d m :
  layout_ok l -> fetched l ds pos q -> (pos <= S (length ds))%nat ->
  match fetch_spec l ds pos bs d m with
  | Ok (r, d', m') =>
      exists q', data_FetchNextRow toDouble q bs d m = Ok (r, q', d', m') /\ fetched l ds (next_pos ds pos) q'
  | Throw e => data_FetchNextRow toDouble q bs d m = Throw e
  | UB => data_FetchNextRow toDouble q bs d m = UB
  end.
Proof.
  intros Hl (c & Hq & Hc) Hpos. unfold data_FetchNextRow. rewrite Hq. pose proof Hc as (Hly & _).
  destruct (HasData c) eqn:Hdata; cbn [negb].
  - assert (pos <= length ds)%nat as Hle.
    { destruct pos as [|k]; [lia|]. destruct Hc as (_ & _ & Hd & _). unfold HasData in Hdata. rewrite Hd in Hdata.
      destruct (decide (k < length ds)%nat); [lia|]. by rewrite (drop_ge ds k) in Hdata by lia. }
    destruct (increment_at l ds pos c Hc Hle Hdata) as (c' & -> & Hc'). cbn [obind]. unfold fetch_spec.
    replace (next_pos ds pos) with (S pos) by (unfold next_pos; lia).
    destruct (ds !! pos) as [doc|] eqn:Edoc.
    + rewrite bool_decide_true by by eapply lookup_lt_Some. cbn [negb].
      destruct Hc' as (Hly' & Hf' & Hd' & Hrow). rewrite Edoc in Hrow. destruct Hrow as (Hfirst & r & Hr & Hok & Hdoc).
      rewrite Hr, Hly', row_size, Nat2Z.id by done.
      pose proof (read_columns_direct l bs (length (layout_columns l)) 1 r d m Hl Hok ltac:(lia) ltac:(lia)) as Hsame.
      rewrite drop_0, Hdoc in Hsame. unfold same_but_row in Hsame.
      destruct (direct_columns (layout_columns l) 1 bs doc d m) as [[[ok d1] m1]|e|]; cbn [obind];
        [|by rewrite Hsame..].
      destruct Hsame as (r' & -> & Hok' & Hdoc'). cbn [obind]. eexists. split; [reflexivity|].
      eexists. split; [reflexivity|]. split; [done|split; [done|]]. cbn. split; [done|]. rewrite Edoc. eauto 10.
    + rewrite bool_decide_false by (apply lookup_ge_None_1 in Edoc; lia). cbn [negb].
      eexists. split; [reflexivity|]. by exists c'.
  - assert (ds !! pos = None /\ cursor_at l ds (next_pos ds pos) c) as [E Hend].
    { unfold HasData in Hdata. unfold next_pos. destruct pos as [|k]; destruct Hc as (Hly2 & Hf & Hd & Hrow).
      - rewrite Hd in Hdata. destruct ds; [|done]. split; [done|]. cbn. split_and!; try done. by destruct Hrow.
      - rewrite Hd in Hdata. destruct (ds !! k) as [doc|] eqn:Ek; [by rewrite (drop_S _ _ _ Ek) in Hdata|].
        apply lookup_ge_None_1 in Ek. assert (k = length ds) as -> by lia. rewrite lookup_ge_None_2 by lia.
        split; [done|]. rewrite Nat.min_r by lia. split; [done|split; [done|]]. split; [done|].
        by rewrite lookup_ge_None_2 by lia. }
    unfold fetch_spec. rewrite E. exists q. split; [done|]. by exists c.
Qed.

End fetching.

(** C10: Fetching refines walking through the documents: with the cursor of an executed
    query after [pos] fetches, the next one puts the elements of document number [pos]
    into the bound columns, directly and in order, and adds the diagnostics these
    conversions call for; after the last document it answers that there is no data, for
    ever.  The row object, its cache of columns and the iterator never show. *)
Theorem data_fetch_refines `{Platform} `{Calendar} `{NumberTexts} toDouble l ds pos q bs d m :
  layout_ok l -> fetched l ds pos q -> (pos <= S (length ds))%nat ->
  match fetch_spec toDouble l ds pos bs d m with
  | Ok (r, d', m') =>
      exists q', data_FetchNextRow toDouble q bs d m = Ok (r, q', d', m') /\ fetched l ds (next_pos ds pos) q'
  | Throw e => data_FetchNextRow toDouble q bs d m = Throw e
  | UB => data_FetchNextRow toDouble q bs d m = UB
  end.
Proof. apply fetch_refines. Qed.

(** A C++ library whose numbers have no text, and text no number. *)
#[export] Instance NoNumberTexts : NumberTexts := {|
  to_string_double _ := str "0.000000"; stof _ := None; stod _ := None
|}.

Definition sample_layout : Layout :=
  MkLayout [MkJdbcColumn None None None (Some (str "n")) JDBC_TYPE_INTEGER 1 1 false;
            MkJdbcColumn None None None (Some (str "s")) JDBC_TYPE_VARCHAR 1 2 false] [str "n"; str "s"].

(** Documents with a number and a text. *)
Definition sample_document (n : Z) (s : string) : Document :=
  fun path => if bool_decide (path = str "n") then Some (k_int64 n)
              else if bool_decide (path = str "s") then Some (k_utf8 (str s)) else None.

Definition sample_documents : list Document := [sample_document 7 "one"; sample_document 8 "two"].

(** The number goes to 100, the text to 200. *)
Definition sample_bindings : bindings :=
  [(1, ADB AI_SIGNED_LONG 100 4 0 0 0); (2, ADB AI_CHAR 200 3 0 0 0)].
Definition sample_memory : mem := alloc 100 4 (alloc 200 3 ∅).

Definition sample_query : DataQuery :=
  MkDataQuery (str "SELECT n, s FROM t") 0 (Some (new_cursor sample_documents false sample_layout)) [] false.

Lemma data_fetch_refines_witness :
  exists q' d' m', data_FetchNextRow (fun _ => 0) sample_query sample_bindings new_storage sample_memory
                   = Ok (SR.AI_SUCCESS, q', d', m')
    /\ fetched sample_layout sample_documents 1 q'
    /\ load 100 4 m' = Some (le_bytes 4 7).
Proof.
  pose proof (data_fetch_refines (fun _ => 0) sample_layout sample_documents 0 sample_query sample_bindings
                new_storage sample_memory) as Hf.
  match type of Hf with _ -> _ -> _ -> match ?x with _ => _ end => remember x as r eqn:Er end.
  vm_compute in Er. subst r. destruct Hf as (q' & Hq & Hat).
  - split; reflexivity.
  - eexists. split; [reflexivity|]. split_and!; reflexivity.
  - cbn. lia.
  - eexists q', _, _. split; [exact Hq|]. split; [exact Hat|]. vm_compute. reflexivity.
Defined.
