(* ===== verification/ConvProps.v ===== *)
(** Properties of the conversions of document elements: which results a column can
    report, integers, texts and nulls. *)
From S2P Require Import Prelude OrdMap Memory Utf8 BigInteger BigText TypeTraits Chrono Decimal AppBuffer AppRead AppProps.
From S2P Require Import Diag SqlLex Params Statement Config ConfigRound Meta Connection DocColumn MetaQueries.
From S2P Require Import DataQuery DataProps.

(** * Results *)

(** The results that do not come from the buffer. *)
Definition plain (r : ConversionResult) : bool :=
  match r with AI_SUCCESS | AI_FAILURE | AI_UNSUPPORTED_CONVERSION => true | _ => false end.

Definition plain_value {A} (v : converted A) : Prop :=
  match v with Ok (r, _) => plain r = true | _ => True end.

Create HintDb plain.

Lemma plain_long v max min : plain_value (of_long (ToValidLong v max min)).
Proof. unfold of_long, ToValidLong. by repeat case_match. Qed.
Lemma plain_text v max min : plain_value (of_long (ToValidLongText v max min)).
Proof. unfold ToValidLongText. case_match; [apply plain_long|done]. Qed.
Lemma plain_cast w d : plain_value (let* v := cast_signed w d in the_value v).
Proof. unfold cast_signed, cast_between. by repeat case_match. Qed.
Lemma plain_double w max min bits : plain_value (of_double w max min bits).
Proof. unfold of_double. case_match; [done|apply plain_cast]. Qed.
Lemma plain_bind {A B} (x : outcome Z A) (f : A -> B) : plain_value (let* v := x in the_value (f v)).
Proof. by destruct x. Qed.
#[export] Hint Resolve plain_long plain_text plain_cast plain_double plain_bind : plain.

(** A property of a [switch], from its branches. *)
Lemma switch_cases {A} (P : A -> Prop) t cases d :
  Forall (fun c => t ∈ c.1 -> P c.2) cases -> P d -> P (switch t cases d).
Proof.
  intros Hf Hd. induction Hf as [|[ls v] cases Hc Hf IH]; [done|]. cbn [switch]. case_bool_decide; auto.
Qed.

Section results.
Context `{Platform} `{Calendar} `{NumberTexts} (toDouble : Decimal -> Z).

Lemma plain_of_text r : plain_value (of_text r).
Proof. by destruct r. Qed.
Lemma plain_decimal_text s : plain_value (decimal_of_text s).
Proof. unfold decimal_of_text. by case_match. Qed.
Hint Resolve plain_of_text plain_decimal_text : plain.

Lemma plain_int8 e : plain_value (int8_value e).
Proof. destruct e; unfold int8_value; auto with plain; try done. by case_match. Qed.
Lemma plain_int16 e : plain_value (int16_value e).
Proof. destruct e; unfold int16_value; auto with plain; done. Qed.
Lemma plain_int32 e : plain_value (int32_value e).
Proof. destruct e; unfold int32_value; auto with plain; done. Qed.
Lemma plain_int64 e : plain_value (int64_value e).
Proof. destruct e; unfold int64_value; auto with plain; done. Qed.
Lemma plain_float e : plain_value (float_value e).
Proof. destruct e; unfold float_value; auto with plain; done. Qed.
Lemma plain_doubles e : plain_value (double_value e).
Proof. destruct e; unfold double_value; auto with plain; done. Qed.
Lemma plain_string e : plain_value (string_value e).
Proof. destruct e; unfold string_value; auto with plain; try done; apply (plain_bind _ (fun s => s)). Qed.
Lemma plain_decimal e : plain_value (decimal_value e).
Proof. destruct e; unfold decimal_value; auto with plain; done. Qed.
Lemma plain_times e : plain_value (time_value e) /\ plain_value (date_value e) /\ plain_value (timestamp_value e).
Proof. by destruct e. Qed.

Lemma put_converted_plain {A} (put : option A -> mem -> put_result) v m r m' :
  plain_value v -> put_converted put v m = Ok (r, m') -> plain r = true /\ (r <> AI_SUCCESS -> m' = m).
Proof.
  intros Hv. unfold put_converted. destruct v as [[c x]|e|]; cbn [obind]; try done. case_bool_decide as Hc.
  - destruct (put x m) as [[c' m1]|e|]; cbn [obind]; try done. intros E. by simplify_eq.
  - intros E. by simplify_eq.
Qed.

(** The types whose columns pass on what the buffer answers. *)
Definition passes_on : list Z := [JDBC_TYPE_NULL; JDBC_TYPE_BINARY; JDBC_TYPE_VARBINARY].

Lemma read_plain c doc b m r m' :
  col_type c ∉ passes_on -> ReadToBuffer toDouble c doc b m = Ok (r, m') ->
  plain r = true /\ (r <> AI_SUCCESS -> m' = m).
Proof.
  intros Hc. unfold ReadToBuffer. destruct (doc (col_path c)) as [e|].
  2:{ destruct (PutNull b m) as [[c' m1]|e|]; cbn [obind]; try done. intros E. by simplify_eq. }
  destruct (plain_times e) as (Ht & Hd & Hts). revert r m'.
  apply (switch_cases (fun x => forall r m', x = Ok (r, m') -> plain r = true /\ (r <> AI_SUCCESS -> m' = m))).
  - rewrite !Forall_cons, Forall_nil. cbn [fst snd]. split_and!; [intros Hin r m'..|done];
      try (apply put_converted_plain; auto using plain_int8, plain_int16, plain_int32, plain_int64, plain_float,
             plain_doubles, plain_string, plain_decimal); exfalso; apply Hc.
    + rewrite list_elem_of_singleton in Hin. rewrite Hin. constructor.
    + by constructor.
  - intros r m' E. by simplify_eq.
Qed.

End results.

(** What a column of a document can report: except for the null and binary types, a
    conversion succeeds, fails or is not supported, and when it does not succeed it has
    written nothing.  In particular it never reports that data or a fraction was
    truncated, nor that an indicator is missing, whatever the buffer said. *)
Theorem conversion_results `{Platform} `{Calendar} `{NumberTexts} toDouble c doc b m r m' :
  col_type c ∉ passes_on -> ReadToBuffer toDouble c doc b m = Ok (r, m') ->
  (r = AI_SUCCESS \/ r = AI_FAILURE \/ r = AI_UNSUPPORTED_CONVERSION) /\ (r <> AI_SUCCESS -> m' = m).
Proof.
  intros Hc E. destruct (read_plain toDouble c doc b m r m' Hc E) as [Hp Hm]. split; [|done].
  destruct r; try discriminate Hp; auto.
Qed.

Lemma conversion_results_witness :
  ReadToBuffer (fun _ => 0) (MkColumn JDBC_TYPE_INTEGER (str "s")) (sample_document 7 "seven")
    (ADB AI_SIGNED_LONG 100 4 0 0 0) sample_memory = Ok (AI_FAILURE, sample_memory)
  /\ (AI_FAILURE <> AI_SUCCESS -> sample_memory = sample_memory).
Proof.
  assert (ReadToBuffer (fun _ => 0) (MkColumn JDBC_TYPE_INTEGER (str "s")) (sample_document 7 "seven")
            (ADB AI_SIGNED_LONG 100 4 0 0 0) sample_memory = Ok (AI_FAILURE, sample_memory)) as E
    by (vm_compute; reflexivity).
  split; [exact E|].
  refine (proj2 (conversion_results (fun _ => 0) (MkColumn JDBC_TYPE_INTEGER (str "s")) (sample_document 7 "seven")
            (ADB AI_SIGNED_LONG 100 4 0 0 0) sample_memory AI_FAILURE sample_memory _ E)).
  decide_now.
Defined.

(** * Integers *)

(** The integer types with the width that their columns hold. *)
Definition integer_columns : list (Z * Z) :=
  [(JDBC_TYPE_BOOLEAN, 8); (JDBC_TYPE_SMALLINT, 8); (JDBC_TYPE_TINYINT, 16); (JDBC_TYPE_INTEGER, 32);
   (JDBC_TYPE_BIGINT, 64)].

Lemma ToValidLong_range v w :
  0 < w -> ToValidLong v (2 ^ (w - 1) - 1) (- 2 ^ (w - 1))
  = if bool_decide (inS w v) then (v, AI_SUCCESS)
    else (if v <? 0 then - 2 ^ (w - 1) else 2 ^ (w - 1) - 1, AI_FAILURE).
Proof.
  intros Hw. unfold ToValidLong, inS. pose proof (Z.pow_pos_nonneg 2 (w - 1) ltac:(lia) ltac:(lia)).
  destruct (Z.ltb_spec (2 ^ (w - 1) - 1) v); [rewrite bool_decide_false by lia; by rewrite (proj2 (Z.ltb_ge v 0)) by lia|].
  destruct (Z.ltb_spec v (- 2 ^ (w - 1))); [rewrite bool_decide_false by lia; by rewrite (proj2 (Z.ltb_lt v 0)) by lia|].
  by rewrite bool_decide_true by lia.
Qed.

Section integers.
Context `{PlatformLaws} `{Calendar} `{NumberTexts} (toDouble : Decimal -> Z).

(** A 64-bit integer in a column of an integer type. *)
Lemma integer_read c w doc v b m :
  (col_type c, w) ∈ integer_columns -> doc (col_path c) = Some (k_int64 v) -> inS 64 v ->
  ReadToBuffer toDouble c doc b m
  = (if bool_decide (inS w v) then let* (_, m) := PutNum b (w / 8) v m in Ok (AI_SUCCESS, m) else Ok (AI_FAILURE, m)).
Proof.
  intros Hc Hdoc Hv. unfold ReadToBuffer. rewrite Hdoc. unfold integer_columns in Hc.
  repeat (apply elem_of_cons in Hc as [[= -> ->]|Hc]); [| | | | |by apply elem_of_nil in Hc].
  all: cbn [switch]; repeat (rewrite bool_decide_false by decide_now); rewrite bool_decide_true by decide_now.
  all: unfold int8_value, int16_value, int32_value, int64_value.
  1-2: pose proof (ToValidLong_range v 8 ltac:(lia)) as E; change (8 - 1) with 7 in E.
  3: pose proof (ToValidLong_range v 16 ltac:(lia)) as E; change (16 - 1) with 15 in E.
  4: pose proof (ToValidLong_range v 32 ltac:(lia)) as E; change (32 - 1) with 31 in E.
  1-4: rewrite E; by case_bool_decide.
  by rewrite (bool_decide_true (inS 64 v)).
Qed.

End integers.



(** * Integers in texts *)

Lemma digit_value_code c : isdigit c = true -> digit_value (code c) = Some (code c - 48).
Proof. intros Hc. unfold isdigit in Hc. unfold digit_value. by rewrite Hc. Qed.

Lemma leading_numeral s : digits s -> leading_digits 10 (AppBuffer.text s) = map (fun c => code c - 48) s.
Proof.
  intros Hs. unfold AppBuffer.text. induction Hs as [|c s Hc Hs IH]; [done|]. cbn [map leading_digits].
  rewrite digit_value_code by done. pose proof (digit_code c Hc). rewrite (proj2 (Z.ltb_lt _ _)) by lia. by rewrite IH.
Qed.

Lemma base_value_dval s : base_value 10 (map (fun c => code c - 48) s) = dval s.
Proof.
  unfold base_value, dval. generalize 0 as a. induction s as [|c s IH]; intros a; [done|]. apply IH.
Qed.

(** A numeral is read as such: only zero starts with a zero. *)
Lemma stoll_numeral s n :
  numeral s n -> exists base ds, stoll_digits (AppBuffer.text s) = (base, ds) /\ ds <> [] /\ base_value base ds = n.
Proof.
  intros (Hne & Hd & Hv & Hz). destruct (decide (head s = Some (digit_char 0))) as [E|Hnz].
  { rewrite (Hz E) in *. exists 8, [0]. split_and!; [reflexivity|done|]. rewrite <- Hv. reflexivity. }
  exists 10, (map (fun c => code c - 48) s). rewrite base_value_dval, Hv. split_and!; [|by destruct s|done].
  rewrite <- leading_numeral by done. destruct s as [|c s]; [done|]. unfold stoll_digits.
  assert (code c <> 48) as Hc.
  { intros E. apply Hnz. cbn. f_equal. apply code_inj. by rewrite code_digit. }
  unfold AppBuffer.text. cbn [map]. clear - Hc. destruct (code c) as [|p|p]; [done| |done].
  do 6 (destruct p as [p|p|]; try done).
Qed.

Lemma drop_spaces_text s : digits s -> s <> [] -> drop_spaces (AppBuffer.text s) = AppBuffer.text s.
Proof.
  intros Hd Hne. destruct s as [|c s]; [done|]. pose proof (digit_code c (Forall_inv Hd)). unfold AppBuffer.text.
  cbn [map drop_spaces]. unfold is_space. rewrite (proj2 (Z.leb_gt (code c) 13)) by lia.
  rewrite (proj2 (Z.eqb_neq (code c) 32)) by lia. by rewrite andb_false_r.
Qed.

Lemma c_str_show v : inS 64 v -> c_str (show_int v) = show_int v.
Proof.
  intros Hv. unfold show_int, print_int.
  assert (digits (print_u64 (Z.abs v))) as Hd by (apply print_u64_spec; widths; lia).
  assert (c_str (AppBuffer.text (print_u64 (Z.abs v))) = AppBuffer.text (print_u64 (Z.abs v))) as E.
  { unfold AppBuffer.text. induction Hd as [|c s Hc Hs IH]; [done|]. cbn [map c_str]. pose proof (digit_code c Hc).
    rewrite (proj2 (Z.eqb_neq _ _)) by lia. by rewrite IH. }
  case_match; [|done]. cbn. f_equal. done.
Qed.

Lemma first_digit s : digits s -> s <> [] -> exists a t, AppBuffer.text s = a :: t /\ a <> 45 /\ a <> 43.
Proof.
  intros Hd Hne. destruct s as [|c s]; [done|]. pose proof (digit_code c (Forall_inv Hd)).
  eexists _, _. split; [reflexivity|]. lia.
Qed.

Lemma stoll_show v : inS 64 v -> stoll (show_int v) = Some v.
Proof.
  intros Hv. assert (numeral (print_u64 (Z.abs v)) (Z.abs v)) as Hn by (apply print_u64_spec; widths; lia).
  destruct (stoll_numeral _ _ Hn) as (base & ds & Eds & Hne & Hval). destruct Hn as (Hsne & Hd & _).
  unfold stoll, show_int, print_int. destruct (Z.ltb_spec v 0).
  - change (AppBuffer.text (["-"%char] ++ print_u64 (Z.abs v))) with (45 :: AppBuffer.text (print_u64 (Z.abs v))).
    cbn [drop_spaces is_space]. change (is_space 45) with false. cbv iota.
    rewrite Eds. destruct ds; [done|]. rewrite Hval, bool_decide_true by (widths; lia). f_equal. lia.
  - cbn [app]. rewrite drop_spaces_text by done.
    destruct (first_digit _ Hd Hsne) as (a & t & Et & H45 & H43). rewrite Et in *.
    assert (match a :: t with 45 :: t => (-1, t) | 43 :: t => (1, t) | _ => (1, a :: t) end = (1, a :: t)) as ->.
    { clear - H45 H43. destruct a as [|p|p]; [done| |done]. do 6 (destruct p as [p|p|]; try done). }
    rewrite Eds. destruct ds; [done|]. rewrite Hval, bool_decide_true by (widths; lia). f_equal. lia.
Qed.

(** Integers in texts: the text that the driver itself writes for a 64-bit number is
    read back as that number, and clamped to the range that is asked for with a failure
    outside it.  But a text with a leading zero is taken for octal, and a decimal that
    the server writes with an exponent loses it. *)
Theorem text_integers v max min :
  inS 64 v ->
  ToValidLongText (show_int v) max min
  = (if max <? v then (max, AI_FAILURE) else if v <? min then (min, AI_FAILURE) else (v, AI_SUCCESS))
  /\ int32_value (k_utf8 (str "010")) = Ok (AI_SUCCESS, Some 8)
  /\ int32_value (k_decimal128 (str "1E+3")) = Ok (AI_SUCCESS, Some 1).
Proof.
  intros Hv. unfold ToValidLongText. rewrite c_str_show, stoll_show by done. split_and!; reflexivity.
Qed.

Lemma text_integers_witness :
  ToValidLongText (str "-129") 127 (-128) = (-128, AI_FAILURE).
Proof. exact (proj1 (text_integers (-129) 127 (-128) ltac:(decide_now))). Defined.

(** * Texts and nulls *)

Definition text_columns : list Z :=
  [JDBC_TYPE_VARCHAR; JDBC_TYPE_CHAR; JDBC_TYPE_NCHAR; JDBC_TYPE_NVARCHAR; JDBC_TYPE_LONGVARCHAR;
   JDBC_TYPE_LONGNVARCHAR].

(** Texts of a document arrive in the application, as far as they fit: reading a
    column of a text type into a character buffer writes the longest prefix that fits,
    terminated, and reports the number of characters written.  When the text does not
    fit, the call nevertheless reports success without a diagnostic. *)
Theorem text_column_truncated `{PlatformLaws} `{Calendar} `{NumberTexts} toDouble q cu r l i c cs b d m :
  dq_cursor q = Some cu -> cu_layout cu = l -> cu_row cu = Some r -> layout_ok l -> row_ok l r ->
  1 <= i -> layout_columns l !! Z.to_nat (i - 1) = Some c -> col_type c ∈ text_columns ->
  row_document r (col_path c) = Some (k_utf8 (encode cs)) ->
  adb_type b = AI_CHAR -> scalars cs -> nonzero cs -> Z.of_nat (length cs) < 2 ^ 31 ->
  0 < adb_buflen b -> bound b (adb_buflen b) m ->
  let kept := take (Z.to_nat (adb_buflen b - 1)) cs in
  exists q' m', data_GetColumn toDouble q i b d m = Ok (SR.AI_SUCCESS, q', d, m')
    /\ load (GetData b) (S (length kept)) m' = Some (map narrow kept ++ [0])
    /\ reports b (Z.of_nat (length kept)) m' /\ writes b (adb_buflen b) m m'.
Proof.
  intros Hq Hly Hrow Hl Hr Hi Hc Ht Hdoc Hb Hs Hz Hlen Hbl Hbd kept.
  destruct (put_text_spec b cs m Hb Hs Hz Hlen Hbl Hbd) as (m' & Hput & Hload & Hrep & Hw).
  assert (ReadToBuffer toDouble c (row_document r) b m = Ok (AI_SUCCESS, m')) as Hread.
  { unfold ReadToBuffer. rewrite Hdoc. unfold text_columns in Ht.
    repeat (apply elem_of_cons in Ht as [->|Ht]); [..|by apply elem_of_nil in Ht];
      cbn [switch]; repeat (rewrite bool_decide_false by decide_now); rewrite bool_decide_true by decide_now;
      unfold put_converted, string_value, the_value; cbn [obind]; rewrite bool_decide_true by done;
      unfold PutStringOpt, put_optional; by rewrite Hput. }
  unfold data_GetColumn. rewrite Hq, Hrow, Hly.
  destruct (read_column toDouble l i b r m c Hl Hr Hi Hc) as (r' & _ & _ & ->). rewrite Hread. cbn [obind].
  eexists _, m'. split_and!; [reflexivity|done..].
Qed.

Lemma text_column_truncated_witness :
  let q := MkDataQuery [] 0 (Some (MkCursor [sample_document 7 "seven"] false sample_layout
                                     (Some (new_row (sample_document 7 "seven"))) false)) [] false in
  exists q' m', data_GetColumn (fun _ => 0) q 2 (ADB AI_CHAR 200 3 0 0 0) new_storage (alloc 200 3 ∅)
                = Ok (SR.AI_SUCCESS, q', new_storage, m')
    /\ load 200 3 m' = Some (str "se" ++ [0]).
Proof.
  intros q.
  destruct (text_column_truncated (fun _ => 0) q
              (MkCursor [sample_document 7 "seven"] false sample_layout (Some (new_row (sample_document 7 "seven"))) false)
              (new_row (sample_document 7 "seven")) sample_layout 2 (MkColumn JDBC_TYPE_VARCHAR (str "s")) (str "seven")
              (ADB AI_CHAR 200 3 0 0 0) new_storage (alloc 200 3 ∅)) as (q' & m' & Hg & Hload & _).
  - reflexivity.
  - reflexivity.
  - reflexivity.
  - split; reflexivity.
  - apply prefix_nil.
  - lia.
  - reflexivity.
  - decide_now.
  - vm_compute. reflexivity.
  - reflexivity.
  - decide_now.
  - decide_now.
  - reflexivity.
  - reflexivity.
  - split; [discriminate|]. split; [apply (alloc_mapped 200 3)|]. left. reflexivity.
  - exists q', m'. split; [exact Hg|exact Hload].
Defined.

(** Columns that deliver a null as one, and columns that do not. *)
Definition null_columns : list Z :=
  [JDBC_TYPE_BOOLEAN; JDBC_TYPE_SMALLINT; JDBC_TYPE_TINYINT; JDBC_TYPE_INTEGER; JDBC_TYPE_BIGINT; JDBC_TYPE_FLOAT;
   JDBC_TYPE_DOUBLE] ++ text_columns.
Definition null_refusing_columns : list Z :=
  [JDBC_TYPE_DECIMAL; JDBC_TYPE_DATE; JDBC_TYPE_TIMESTAMP; JDBC_TYPE_TIME].

(** Nulls: a null element sets the indicator of the buffer in the columns of
    integer, floating-point and text types, like an element that is missing.  In the
    columns of decimals, dates, times and timestamps it is an unsupported conversion,
    and the application's buffer stays as it was. *)
Theorem null_elements `{Platform} `{Calendar} `{NumberTexts} toDouble c doc b m :
  doc (col_path c) = Some k_null ->
  (col_type c ∈ null_columns ->
   ReadToBuffer toDouble c doc b m = (let* (_, m) := PutNull b m in Ok (AI_SUCCESS, m)))
  /\ (col_type c ∈ null_refusing_columns -> ReadToBuffer toDouble c doc b m = Ok (AI_UNSUPPORTED_CONVERSION, m)).
Proof.
  intros Hdoc. unfold ReadToBuffer. rewrite Hdoc.
  split; intros Ht; [unfold null_columns, text_columns in Ht; cbn [app] in Ht|unfold null_refusing_columns in Ht];
    repeat (apply elem_of_cons in Ht as [->|Ht]); try (by apply elem_of_nil in Ht);
    cbn [switch]; repeat (rewrite bool_decide_false by decide_now); by rewrite bool_decide_true by decide_now.
Qed.

Lemma null_elements_witness :
  let doc : Document := fun _ => Some k_null in
  ReadToBuffer (fun _ => 0) (MkColumn JDBC_TYPE_DECIMAL (str "d")) doc (ADB AI_CHAR 200 3 0 0 0) ∅
  = Ok (AI_UNSUPPORTED_CONVERSION, ∅).
Proof.
  intros doc.
  refine (proj2 (null_elements (fun _ => 0) (MkColumn JDBC_TYPE_DECIMAL (str "d")) doc (ADB AI_CHAR 200 3 0 0 0) ∅ _) _).
  - reflexivity.
  - decide_now.
Defined.
