(* ===== verification/MetaProps.v ===== *)
(** Properties of the catalog queries: fetching refines walking through the rows, the
    types that [SQLGetTypeInfo] lists, the table types that are asked for. *)
From stdpp Require Import sorting.
From S2P Require Import Prelude OrdMap Memory Utf8 BigText TypeTraits Chrono AppBuffer AppRead Diag SqlLex Params.
From S2P Require Import Statement Config ConfigProps ConfigRound Meta Connection ConnProps MetaQueries.

(** * Fetching *)

Section fetching.
Context {R : Type} (K : MetaKind R).

(** An executed query after [pos] fetches. *)
Definition walked (rows : list R) (pos : nat) (q : MetaQuery R) : Prop :=
  mq_executed q = true /\ mq_rows q = rows
  /\ match pos with
     | O => mq_fetched q = false /\ mq_cursor q = 0%nat
     | S k => mq_fetched q = true /\ mq_cursor q = Nat.min k (length rows)
     end.

(** The bound columns of a row. *)
Fixpoint direct_fill (row : R) (bs : bindings) (d : diags) (m : mem) : outcome Z (diags * mem) :=
  match bs with
  | [] => Ok (d, m)
  | (i, b) :: bs =>
      match mk_put K row i b with
      | Some put => let* (_, m) := put m in direct_fill row bs d m
      | None => direct_fill row bs (mk_no_column K d).2 m
      end
  end.

Lemma fill_direct q row bs d m :
  mq_executed q = true -> mq_rows q !! mq_cursor q = Some row -> fill_columns K q bs d m = direct_fill row bs d m.
Proof.
  intros He Hrow. revert d m. induction bs as [|[i b] bs IH]; intros d m; [done|]. cbn [fill_columns direct_fill].
  unfold meta_GetColumn. rewrite He, Hrow. cbn [negb]. destruct (mk_put K row i b) as [put|].
  - destruct (put m) as [[c m1]|e|]; cbn [obind]; auto.
  - destruct (mk_no_column K d) as [r d1]. cbn [obind]. apply IH.
Qed.

(** The cursor that a fetch moves to. *)
Lemma cursor_moves rows pos q :
  walked rows pos q ->
  (if mq_fetched q && negb (mq_cursor q =? length (mq_rows q))%nat then S (mq_cursor q) else mq_cursor q)
  = Nat.min pos (length rows).
Proof.
  intros (_ & -> & Hp). destruct pos as [|k]; destruct Hp as [-> ->]; cbn [andb]; [done|].
  destruct (Nat.eqb_spec (Nat.min k (length rows)) (length rows)); cbn [negb]; lia.
Qed.

Lemma meta_fetch rows pos q bs d m :
  walked rows pos q ->
  let q' := MkMeta true true rows (Nat.min pos (length rows)) in
  walked rows (S pos) q'
  /\ meta_FetchNextRow K q bs d m
     = match rows !! pos with
       | Some row => let* (d, m) := direct_fill row bs d m in Ok (SR.AI_SUCCESS, q', d, m)
       | None => Ok (SR.AI_NO_DATA, q', d, m)
       end.
Proof.
  intros Hw q'. split; [done|]. unfold meta_FetchNextRow. rewrite (cursor_moves rows pos q Hw).
  destruct Hw as (-> & -> & _). cbn [negb mq_rows]. fold q'. destruct (rows !! pos) as [row|] eqn:E.
  - pose proof (lookup_lt_Some _ _ _ E). destruct (Nat.eqb_spec (Nat.min pos (length rows)) (length rows)); [lia|].
    rewrite (fill_direct q' row); [done|done|]. cbn [q' mq_rows mq_cursor]. by rewrite Nat.min_l by lia.
  - apply lookup_ge_None_1 in E. by rewrite (proj2 (Nat.eqb_eq _ _)) by lia.
Qed.

End fetching.

(** C17: The catalog queries (columns, tables, primary and foreign keys) refine walking
    through the rows that the JDBC driver answered: an executed query starts before the
    first row, the fetch number [pos] fills the bound columns from row number [pos], and
    after the last row every fetch answers that there is no data. *)
Theorem catalog_fetch_refines {R} (K : MetaKind R) request q d q1 d1 :
  meta_Execute K request q d = Ok (SR.AI_SUCCESS, q1, d1) ->
  exists rows, request d = Ok (Some rows, d1) /\ walked rows 0 q1
    /\ forall pos q bs d m, walked rows pos q ->
       exists q', walked rows (S pos) q'
         /\ meta_FetchNextRow K q bs d m
            = match rows !! pos with
              | Some row => let* (d, m) := direct_fill K row bs d m in Ok (SR.AI_SUCCESS, q', d, m)
              | None => Ok (SR.AI_NO_DATA, q', d, m)
              end.
Proof.
  unfold meta_Execute. destruct (request d) as [[[rows|] d2]|e|] eqn:Er; cbn [obind]; try done.
  intros E. simplify_eq. exists rows. split_and!; [done..|]. intros pos q2 bs d3 m Hw.
  eexists. by apply meta_fetch.
Qed.

(** Two tables. *)
Definition sample_table (name : string) : ResultRow :=
  MkRow (fun f => if bool_decide (f = str "TABLE_NAME") then Some (str name) else None) (fun _ => None).
Definition sample_tables : text + ResultSet := inr (MkResultSet [sample_table "t1"; sample_table "t2"] None).
Definition sample_connected : Connection := after (cc_establish good_answers sample_login) sample_connection.

Lemma catalog_fetch_refines_witness :
  let request := MakeRequestGetTablesMeta good_answers sample_connected None (fun _ => sample_tables) in
  exists q1 rows, meta_Execute TableMetadataQuery request new_meta new_storage = Ok (SR.AI_SUCCESS, q1, new_storage)
    /\ walked rows 0 q1
    /\ exists q', meta_FetchNextRow TableMetadataQuery q1 [] new_storage ∅ = Ok (SR.AI_SUCCESS, q', new_storage, ∅).
Proof.
  intros request.
  assert (meta_Execute TableMetadataQuery request new_meta new_storage
          = Ok (SR.AI_SUCCESS, MkMeta true false [TableMeta_Read (sample_table "t1"); TableMeta_Read (sample_table "t2")] 0,
                new_storage)) as E by (vm_compute; reflexivity).
  destruct (catalog_fetch_refines TableMetadataQuery request new_meta new_storage _ _ E) as (rows & Hr & Hw & Hf).
  eexists _, rows. split; [exact E|]. split; [exact Hw|].
  assert (rows = [TableMeta_Read (sample_table "t1"); TableMeta_Read (sample_table "t2")]) as -> by exact (eq_sym (proj1 (proj2 Hw))).
  destruct (Hf 0%nat _ [] new_storage ∅ Hw) as (q' & _ & Hq'). exists q'. exact Hq'.
Defined.

(** * The types of [SQLGetTypeInfo] *)

Definition sql_of (t : Z) : option Z := BinaryToSqlType (Some t).

(** A row of the result set that names the JDBC type [t]. *)
Definition names_type (r : ResultRow) (t : Z) : Prop :=
  i16 <$> rs_int r (str "DATA_TYPE") = Some t /\ is_Some (sql_of t).

Lemma emplace_elem z l x : x ∈ emplace z l <-> x = z \/ x ∈ l.
Proof.
  induction l as [|y t IH]; cbn [emplace]; [rewrite list_elem_of_singleton, elem_of_nil; tauto|].
  destruct (Z.ltb_spec z y); [by rewrite elem_of_cons|]. destruct (Z.eqb_spec z y) as [->|_]; rewrite !elem_of_cons; [|rewrite IH]; tauto.
Qed.

Lemma emplace_sorted z l : StronglySorted Z.lt l -> StronglySorted Z.lt (emplace z l).
Proof.
  induction 1 as [|y t Hs IH Hy]; cbn [emplace]; [repeat constructor|].
  destruct (Z.ltb_spec z y); [constructor; [by constructor|]; constructor; [done|]|].
  - eapply Forall_impl; [exact Hy|]. cbn. lia.
  - destruct (Z.eqb_spec z y); [by constructor|]. constructor; [done|]. apply Forall_forall. intros x Hx.
    apply emplace_elem in Hx as [->|Hx]; [lia|]. by apply (proj1 (Forall_forall _ _) Hy).
Qed.

(** The types after rows that named [codes]. *)
Definition listed (codes : list Z) (q : TypeInfoQuery) : Prop :=
  ti_requested q = SQL_ALL_TYPES
  /\ StronglySorted Z.lt (ti_binaryTypes q)
  /\ (forall t, t ∈ ti_binaryTypes q -> t ∈ codes)
  /\ (forall s, s ∈ ti_sqlTypes q <-> exists t, t ∈ codes /\ sql_of t = Some s)
  /\ (forall s, s ∈ ti_sqlTypes q <-> exists t, t ∈ ti_binaryTypes q /\ sql_of t = Some s)
  /\ (forall t1 t2, t1 ∈ ti_binaryTypes q -> t2 ∈ ti_binaryTypes q -> sql_of t1 = sql_of t2 -> t1 = t2).

Lemma existsb_eqb s l : existsb (Z.eqb s) l = bool_decide (s ∈ l).
Proof.
  apply eq_true_iff_eq. rewrite existsb_exists, bool_decide_eq_true. split.
  - intros (x & Hx & E). apply Z.eqb_eq in E as ->. by apply list_elem_of_In.
  - intros Hx. exists s. by rewrite <- list_elem_of_In, Z.eqb_refl.
Qed.

Lemma listed_old codes q t s : listed codes q -> sql_of t = Some s -> s ∈ ti_sqlTypes q -> listed (codes ++ [t]) q.
Proof.
  intros (Hr & Hs & Hin & Hsql & Hbin & Hinj) Ht Hold. split_and!; [done|done| |..|done|done].
  - intros t' Ht'. set_solver.
  - intros s'. rewrite Hsql. split; [intros (t' & ? & ?); exists t'; set_solver|].
    intros (t' & [Ht'|Ht']%elem_of_app & E); [by exists t'|]. apply list_elem_of_singleton in Ht' as ->.
    apply Hsql. congruence.
Qed.

Lemma listed_new codes q t s :
  listed codes q -> sql_of t = Some s -> s ∉ ti_sqlTypes q ->
  listed (codes ++ [t]) (with_types (emplace t (ti_binaryTypes q)) (emplace s (ti_sqlTypes q)) q).
Proof.
  intros (Hr & Hs & Hin & Hsql & Hbin & Hinj) Ht Hnew.
  assert (forall t', t' ∈ ti_binaryTypes q -> sql_of t' <> Some s) as Hfresh.
  { intros t' Ht' E. apply Hnew, Hbin. by exists t'. }
  unfold listed, with_types. cbn [ti_requested ti_binaryTypes ti_sqlTypes]. split_and!; [done|by apply emplace_sorted|..].
  - intros t'. rewrite emplace_elem, elem_of_app, list_elem_of_singleton. intros [->|Ht']; auto.
  - intros s'. rewrite emplace_elem, Hsql. setoid_rewrite elem_of_app. setoid_rewrite list_elem_of_singleton.
    split; [intros [->|(t' & ? & ?)]; eauto|]. intros (t' & [Ht'| ->] & E); [eauto|left; congruence].
  - intros s'. rewrite emplace_elem, Hbin. setoid_rewrite emplace_elem.
    split; [intros [->|(t' & ? & ?)]; eauto|]. intros (t' & [->|Ht'] & E); [left; congruence|eauto].
  - intros t1 t2 H1 H2 E. apply emplace_elem in H1 as [->|H1], H2 as [->|H2]; [done|..|by apply Hinj].
    + rewrite Ht in E. by destruct (Hfresh t2).
    + rewrite Ht in E. by destruct (Hfresh t1).
Qed.

Lemma collect_all rows codes seen q d :
  Forall2 names_type rows codes -> listed seen q ->
  exists q', collect_types rows None q d = Ok (SR.AI_SUCCESS, q', d) /\ listed (seen ++ codes) q'.
Proof.
  intros Hrows. revert seen q. induction Hrows as [|r t rows codes [Hr [s Hs]] Hrows IH]; intros seen q Hq.
  { rewrite app_nil_r. by exists q. }
  rewrite cons_middle, app_assoc. cbn [collect_types]. apply fmap_Some in Hr as (z & -> & ->).
  unfold sql_of in Hs. rewrite Hs, existsb_eqb. case_bool_decide as Hold.
  - by apply IH, (listed_old _ _ _ s).
  - destruct Hq as [Hr Hq]. rewrite Hr, Z.eqb_refl. by apply IH, listed_new.
Qed.

Lemma collect_requested rows codes s q d :
  Forall2 names_type rows codes -> ti_requested q = s -> s <> SQL_ALL_TYPES -> ti_sqlTypes q = [] ->
  ti_binaryTypes q = [] ->
  exists q', collect_types rows None q d = Ok (SR.AI_SUCCESS, q', d)
    /\ ti_binaryTypes q' = match List.find (fun t => bool_decide (sql_of t = Some s)) codes with Some t => [t] | None => [] end.
Proof.
  intros Hrows Hq Hs Hsql Hbin. induction Hrows as [|r t rows codes [Hr [s' Hs']] Hrows IH].
  { by exists q. }
  cbn [collect_types List.find]. apply fmap_Some in Hr as (z & -> & ->). unfold sql_of in *. rewrite Hs', Hsql, Hq.
  cbn [existsb]. destruct (Z.eqb_spec s SQL_ALL_TYPES); [done|]. rewrite Hbin.
  destruct (Z.eqb_spec s s') as [->|Hne]; [rewrite bool_decide_true by done|rewrite bool_decide_false by congruence].
  - by eexists.
  - apply IH.
Qed.

Lemma listed_fresh : listed [] (new_type_info_query SQL_ALL_TYPES).
Proof.
  split_and!; cbn; [done|constructor|done|..|by intros ?? []%elem_of_nil];
    intros s; (split; [by intros []%elem_of_nil|by intros (? & []%elem_of_nil & _)]).
Qed.

(** [SQLGetTypeInfo], when the JDBC driver lists types that have an SQL type: asked
    for all types, the query holds their codes in increasing order, only codes that
    were listed, and for every SQL type of the list exactly one code; asked for one SQL
    type, it holds the first code of the list that has it, or none. *)
Theorem type_info_lists (a : Answers) (c : Connection) rows codes d o :
  GetMetaData a c = inr o -> Forall2 names_type rows codes ->
  (exists q1, type_info_Execute a c (inr (MkResultSet rows None)) (new_type_info_query SQL_ALL_TYPES) d
              = Ok (SR.AI_SUCCESS, q1, d)
     /\ StronglySorted Z.lt (ti_binaryTypes q1)
     /\ (forall t, t ∈ ti_binaryTypes q1 -> t ∈ codes)
     /\ (forall s, (exists t, t ∈ codes /\ sql_of t = Some s)
                   <-> exists! t, t ∈ ti_binaryTypes q1 /\ sql_of t = Some s))
  /\ (forall s, s <> SQL_ALL_TYPES ->
      exists q1, type_info_Execute a c (inr (MkResultSet rows None)) (new_type_info_query s) d
                 = Ok (SR.AI_SUCCESS, q1, d)
        /\ ti_binaryTypes q1
           = match List.find (fun t => bool_decide (sql_of t = Some s)) codes with Some t => [t] | None => [] end).
Proof.
  intros Ho Hrows. unfold type_info_Execute, MakeRequestGetTypeInfo. rewrite Ho. cbn [new_type_info_query ti_binaryTypes length Nat.eqb rs_rows rs_error].
  split.
  - destruct (collect_all rows codes [] (new_type_info_query SQL_ALL_TYPES) d Hrows) as (q & -> & Hq).
    { exact listed_fresh. }
    destruct Hq as (_ & Hs & Hin & Hsql & Hbin & Hinj). eexists. split; [reflexivity|]. cbn [ti_binaryTypes].
    split_and!; [done|done|]. intros s. rewrite app_nil_l in Hsql. rewrite <- Hsql, Hbin. split.
    + intros (t & Ht & E). exists t. split; [done|]. intros t' (Ht' & E'). apply Hinj; congruence.
    + intros (t & Ht & _). by exists t.
  - intros s Hs. destruct (collect_requested rows codes s (new_type_info_query s) d Hrows) as (q & -> & Hq); [done..|].
    eexists. split; [reflexivity|]. exact Hq.
Qed.

Definition sample_type (t : Z) : ResultRow :=
  MkRow (fun _ => None) (fun f => if bool_decide (f = str "DATA_TYPE") then Some t else None).

Lemma type_info_lists_witness :
  let rows := map sample_type [JDBC_TYPE_VARCHAR; JDBC_TYPE_INTEGER; JDBC_TYPE_VARCHAR] in
  exists q1, type_info_Execute good_answers sample_connected (inr (MkResultSet rows None))
               (new_type_info_query SQL_ALL_TYPES) new_storage = Ok (SR.AI_SUCCESS, q1, new_storage)
    /\ StronglySorted Z.lt (ti_binaryTypes q1).
Proof.
  intros rows.
  assert (exists o, GetMetaData good_answers sample_connected = inr o) as [o Ho] by (eexists; vm_compute; reflexivity).
  destruct (type_info_lists good_answers sample_connected rows [JDBC_TYPE_VARCHAR; JDBC_TYPE_INTEGER; JDBC_TYPE_VARCHAR]
              new_storage o Ho) as [(q1 & E & Hs & _) _].
  { repeat constructor; vm_compute; eauto. }
  by exists q1.
Defined.

(** * The table types of [SQLTables] *)

(** A type as an application writes it: spaces, a quote, the name, the quote, spaces. *)
Record spelled : Type := MkSpelled { sl_before : text; sl_quote : Z; sl_name : text; sl_after : text }.

Definition spelling (w : spelled) : text :=
  sl_before w ++ (sl_quote w :: sl_name w ++ [sl_quote w]) ++ sl_after w.

Definition well_spelled (w : spelled) : Prop :=
  Forall (fun c => is_space c = true) (sl_before w) /\ Forall (fun c => is_space c = true) (sl_after w)
  /\ (sl_quote w = 39 \/ sl_quote w = 34) /\ 44 ∉ sl_name w.

#[global] Instance well_spelled_dec w : Decision (well_spelled w).
Proof. unfold well_spelled. apply _. Defined.

Fixpoint comma_list (l : list text) : text :=
  match l with
  | [] => []
  | [s] => s
  | s :: t => s ++ 44 :: comma_list t
  end.

Lemma drop_spaces_app s t : Forall (fun c => is_space c = true) s -> drop_spaces (s ++ t) = drop_spaces t.
Proof. induction 1 as [|c s Hc _ IH]; [done|]. cbn. by rewrite Hc. Qed.

Lemma strip_spelling w : well_spelled w -> StripSurroundingWhitespaces (spelling w) = sl_quote w :: sl_name w ++ [sl_quote w].
Proof.
  intros (Hb & Ha & Hq & _). unfold StripSurroundingWhitespaces, spelling.
  assert (is_space (sl_quote w) = false) as Hs by (destruct Hq as [-> | ->]; done).
  rewrite drop_spaces_app by done. cbn [app]. rewrite drop_spaces_braced, app_comm_cons, rev_app_distr by done.
  rewrite drop_spaces_app by by apply Forall_rev. rewrite app_comm_cons, rev_app_distr. cbn [rev app].
  rewrite drop_spaces_braced by done. cbn [rev app]. by rewrite rev_app_distr, rev_involutive.
Qed.

Lemma dequote_quoted q s : q = 39 \/ q = 34 -> dequote (q :: s ++ [q]) = s.
Proof.
  intros Hq. unfold dequote. rewrite app_comm_cons, rev_app_distr. cbn [rev app].
  rewrite Z.eqb_refl. assert ((q =? 39) || (q =? 34) = true) as -> by lia.
  assert ((2 <=? length (q :: s ++ [q]))%nat = true) as -> by (cbn [length]; rewrite length_app; cbn [length]; apply Nat.leb_le; lia).
  cbn [andb]. apply removelast_last.
Qed.

Lemma pieces_skip cur s t : 44 ∉ s -> comma_pieces cur (s ++ t) = comma_pieces (rev s ++ cur) t.
Proof.
  revert cur. induction s as [|c s IH]; intros cur Hs; [done|]. apply not_elem_of_cons in Hs as [Hc Hs].
  cbn. rewrite (proj2 (Z.eqb_neq c 44)) by done. rewrite IH by done. by rewrite <- app_assoc.
Qed.

Lemma pieces_comma_list l : Forall (fun s => (44 ∉ s) /\ s <> []) l -> comma_pieces [] (comma_list l) = l.
Proof.
  induction 1 as [|s l [Hs Hne] _ IH]; [done|]. destruct l as [|s' l]; cbn [comma_list].
  - rewrite <- (app_nil_r s) at 1. rewrite pieces_skip, app_nil_r by done. cbn.
    destruct (rev s) eqn:E; [|by rewrite <- E, rev_involutive].
    apply (f_equal (@length Z)) in E. rewrite length_rev in E. by destruct s.
  - rewrite pieces_skip by done. rewrite app_nil_r. cbn [comma_pieces Z.eqb]. rewrite rev_involutive.
    f_equal. exact IH.
Qed.

Lemma spelling_piece w : well_spelled w -> (44 ∉ spelling w) /\ spelling w <> [].
Proof.
  intros (Hb & Ha & Hq & Hn). unfold spelling. rewrite Forall_forall in Hb, Ha. split.
  - rewrite !not_elem_of_app, not_elem_of_cons, not_elem_of_app, list_elem_of_singleton.
    split_and!; [by intros H%Hb|destruct Hq as [-> | ->]; done|done|destruct Hq as [-> | ->]; done|by intros H%Ha].
  - intros E. apply app_eq_nil in E as [_ E]. done.
Qed.

(** The table types of [SQLTables] are read back: from a list of quoted names
    ('...' or "..." each, with spaces around them, separated by commas), whatever the
    names hold except a comma, the query asks the JDBC driver for exactly these names,
    in this order. *)
Theorem table_types_read_back (l : list spelled) :
  l <> [] -> Forall well_spelled l -> table_types (Some (comma_list (map spelling l))) = Some (map sl_name l).
Proof.
  intros Hne Hl. assert (comma_pieces [] (comma_list (map spelling l)) = map spelling l) as E.
  { apply pieces_comma_list, Forall_fmap. eapply Forall_impl; [exact Hl|apply spelling_piece]. }
  unfold table_types. destruct (comma_list (map spelling l)) as [|c s] eqn:Es.
  { cbn in E. by destruct l. }
  rewrite E, map_map. f_equal. clear -Hl. induction Hl as [|w l Hw _ IH]; [done|]. cbn. rewrite IH. f_equal.
  rewrite strip_spelling by done. apply dequote_quoted, Hw.
Qed.

Lemma table_types_read_back_witness :
  table_types (Some (str "'TABLE', 'VIEW'")) = Some [str "TABLE"; str "VIEW"].
Proof.
  exact (table_types_read_back [MkSpelled [] 39 (str "TABLE") []; MkSpelled [32] 39 (str "VIEW") []]
           ltac:(done) ltac:(decide_now)).
Defined.
