(* ===== verification/Driver.v ===== *)
(** The query for several sets of parameters ([src/src/odbc/src/query/batch_query.cpp]),
    the internal query ([include/documentdb/odbc/query/internal_query.h]), and the
    exchange of messages with the server ([SyncMessage] of
    [include/documentdb/odbc/connection.h]), which does nothing.

    [batch_Execute] is written for any exchange, the class [BatchServer]; the driver's
    own is [SyncMessage].

    Then the driver put together: the queries of the driver as one type with the
    operations that a statement calls (the subclasses of [query::Query] in
    [src/src/odbc/src/query/] behind the virtual functions of
    [include/documentdb/odbc/query/query.h]).  [World] is what is outside: the connection
    the statement belongs to, and what the JDBC driver and MongoDB answer. *)
From S2P Require Import Prelude Decimal TypeTraits Chrono Memory Utf8 AppBuffer AppRead Diag SqlLex OrdMap.
From S2P Require Import Params Statement Config Meta Connection DocColumn MetaQueries DataQuery.

Definition SQL_PARAM_SUCCESS : Z := 0.
Definition SQL_PARAM_ERROR : Z := 5.

(** [QueryExecuteBatchResponse] with what it inherits from [Response]. *)
Record BatchResponse : Type := MkBatchResponse {
  br_status : Z;
  br_error : text;
  br_affectedRows : list Z;
  br_errorMessage : text;
  br_errorCode : Z
}.

Definition new_batch_response : BatchResponse := MkBatchResponse RS.UNKNOWN_ERROR [] [] [] 1.

(** What comes of sending a page. *)
Inductive batch_answer : Type :=
| BatchTimeout
| BatchOdbcError (e : OdbcError)
| BatchDocumentDbError (msg : text)
| BatchAnswer (rsp : BatchResponse).

(** The query, the page's first and last set, whether it is the last page, and the
    response that is to be filled in. *)
Class BatchServer : Type := { execute_batch : text -> Z -> Z -> bool -> BatchResponse -> batch_answer }.

(** Nothing is sent, and the response stays what its constructor made of it. *)
Definition SyncMessage {A} (rsp : A) : bool * A := (true, rsp).

#[export] Instance DriverBatchServer : BatchServer :=
  {| execute_batch _ _ _ _ rsp := let '(success, rsp) := SyncMessage rsp in
       if success : bool then BatchAnswer rsp else BatchTimeout |}.

(** The same for the types of a query's parameters: a [QueryGetParamsMetaResponse]
    begins as an unknown error without text and without types. *)
#[export] Instance DriverServer : Server :=
  {| params_meta _ := let '(status, error, typeIds) := snd (SyncMessage (RS.UNKNOWN_ERROR, [], [])) in
       SyncResponse status error typeIds |}.

(** * The batch query *)

Record BatchQuery : Type := MkBatch {
  bq_sql : text;
  bq_rowsAffected : list Z;
  bq_rowsAffectedIdx : nat;
  bq_executed : bool
}.

Definition new_batch_query (sql : text) : BatchQuery := MkBatch sql [] 0 false.

Definition set_affected (rows : list Z) (q : BatchQuery) : BatchQuery :=
  MkBatch (bq_sql q) rows (bq_rowsAffectedIdx q) (bq_executed q).

Definition batch_Close (q : BatchQuery) : SR.SqlResult * BatchQuery := (SR.AI_SUCCESS, MkBatch (bq_sql q) [] 0 false).

(** The status of each set of a page, the first of them number [idx]. *)
Fixpoint set_statuses (rows : list Z) (idx : Z) (ps : ParameterSet) (m : mem) : outcome Z mem :=
  match rows with
  | [] => Ok m
  | n :: rows =>
      let* m := SetParamStatus idx (if n <? 0 then SQL_PARAM_ERROR else SQL_PARAM_SUCCESS) ps m in
      set_statuses rows (idx + 1) ps m
  end.

Abbreviation batch_state := (BatchQuery * diags * mem)%type.

Section batch.
Context `{BatchServer} (ps : ParameterSet).

Definition MakeRequestExecuteBatch (begin end_ : Z) (last : bool) (st : batch_state)
    : outcome Z (SR.SqlResult * batch_state) :=
  let '(q, d, m) := st in
  match execute_batch (bq_sql q) begin end_ last new_batch_response with
  | BatchTimeout => Ok (SR.AI_ERROR, (q, add SS.SHYT00_TIMEOUT_EXPIRED (str "Query timeout expired") d, m))
  | BatchOdbcError e => Ok (SR.AI_ERROR, (q, add e.1 e.2 d, m))
  | BatchDocumentDbError msg => Ok (SR.AI_ERROR, (q, add SS.SHY000_GENERAL_ERROR msg d, m))
  | BatchAnswer rsp =>
      if negb (br_status rsp =? RS.SUCCESS)
      then Ok (SR.AI_ERROR, (q, add (ResponseStatusToSqlState (br_status rsp)) (br_error rsp) d, m))
      else
        let* m := set_statuses (br_affectedRows rsp) (Z.of_nat (length (bq_rowsAffected q))) ps m in
        let q := set_affected (bq_rowsAffected q ++ br_affectedRows rsp) q in
        match br_errorMessage rsp with
        | [] => Ok (SR.AI_SUCCESS, (q, d, m))
        | msg =>
            Ok (SR.AI_SUCCESS_WITH_INFO,
                (q, AddStatusRecordAt false (ResponseStatusToSqlState (br_errorCode rsp)) msg
                      (i32 (Z.of_nat (length (bq_rowsAffected q)))) 0 d, m))
        end
  end.

Definition is_success (r : SR.SqlResult) : bool :=
  match r with SR.AI_SUCCESS | SR.AI_SUCCESS_WITH_INFO => true | _ => false end.

(** One pass of the loop over the pages; [int32_t] arithmetic that overflows is
    undefined. *)
Definition page_pass (maxPageSize rowNum : Z) (st : Z * batch_state)
    : pass (Z * batch_state) (outcome Z (SR.SqlResult * batch_state)) :=
  let '(processed, st) := st in
  match (let* left_ := checked 32 (rowNum - processed) in
         let currentPageSize := Z.min maxPageSize left_ in
         let* next := checked 32 (processed + currentPageSize) in
         let* (res, st) := MakeRequestExecuteBatch processed next (currentPageSize =? left_) st in
         Ok (next, res, st)) with
  | Ok (next, res, st) => if is_success res && (next <? rowNum) then Continue (next, st) else Break (Ok (res, st))
  | Throw e => Break (Throw e)
  | UB => Break UB
  end.

(** The loop, with a pass for each set of parameters.  They suffice when the page size
    is positive; the loop runs on or overflows when it is not. *)
Definition run_batch (maxPageSize rowNum : Z) (st : batch_state) : outcome Z (SR.SqlResult * batch_state) :=
  match while (S (Z.to_nat rowNum)) (page_pass maxPageSize rowNum) (0, st) with
  | Some r => r
  | None => UB
  end.

Definition batch_Execute (maxPageSize : Z) (q : BatchQuery) (d : diags) (m : mem)
    : outcome Z (SR.SqlResult * BatchQuery * diags * mem) :=
  let q := if bq_executed q then (batch_Close q).2 else q in
  let* (res, (q, d, m)) := run_batch maxPageSize (GetParamSetSize ps) (set_affected [] q, d, m) in
  let* m := SetParamsProcessed (Z.of_nat (length (bq_rowsAffected q))) ps m in
  Ok (res, q, d, m).

End batch.

Definition batch_FetchNextRow (q : BatchQuery) (d : diags) : SR.SqlResult * diags :=
  if negb (bq_executed q) then not_executed d else (SR.AI_NO_DATA, d).

Definition batch_GetColumn (q : BatchQuery) (d : diags) : SR.SqlResult * diags :=
  if negb (bq_executed q) then not_executed d else at_the_end d.

Definition batch_AffectedRows (q : BatchQuery) : Z :=
  let affected := default 0 (bq_rowsAffected q !! bq_rowsAffectedIdx q) in
  if affected <? 0 then 0 else affected.

Definition batch_NextResultSet (q : BatchQuery) : SR.SqlResult * BatchQuery :=
  if (length (bq_rowsAffected q) <=? S (bq_rowsAffectedIdx q))%nat
  then (SR.AI_NO_DATA, (batch_Close q).2)
  else (SR.AI_SUCCESS, MkBatch (bq_sql q) (bq_rowsAffected q) (S (bq_rowsAffectedIdx q)) (bq_executed q)).

(** * The internal query *)

(** [Execute]; everything else answers that there is nothing. *)
Definition internal_Execute (d : diags) : SR.SqlResult * diags :=
  fail_with SS.SHY000_GENERAL_ERROR (str "Internal error.") d.

Record World : Type := MkWorld {
  w_connection : Connection;
  w_data : DataAnswers;
  w_columns : text_opt -> text_opt -> text -> text -> text + ResultSet;
  w_tables : text_opt -> text_opt -> text -> option (list text) -> text + ResultSet;
  w_foreignKeys : text_opt -> text_opt -> text -> text + ResultSet;
  w_primaryKeys : text_opt -> text_opt -> text_opt -> text + ResultSet;
  w_types : text + ResultSet
}.

(** The subclasses, with the arguments of their constructors. *)
Inductive Query : Type :=
| QData (q : DataQuery)
| QBatch (q : BatchQuery)
| QInternal (sql : text) (cmd : SqlSetStreamingCommand)
| QColumns (catalog schema : text_opt) (table column : text) (q : MetaQuery ColumnMeta)
| QTables (catalog schema : text_opt) (table : text) (tableType : text_opt) (q : MetaQuery TableMeta)
| QForeignKeys (catalog schema : text_opt) (table : text) (q : MetaQuery ForeignKeyMeta)
| QPrimaryKeys (catalog schema table : text_opt) (q : MetaQuery PrimaryKeyMeta)
| QSpecialColumns (q : SpecialColumnsQuery)
| QTypeInfo (q : TypeInfoQuery).

Definition GetType (q : Query) : QT.QueryType :=
  match q with
  | QData _ => QT.DATA
  | QBatch _ => QT.BATCH
  | QInternal _ _ => QT.INTERNAL
  | QColumns _ _ _ _ _ => QT.COLUMN_METADATA
  | QTables _ _ _ _ _ => QT.TABLE_METADATA
  | QForeignKeys _ _ _ _ => QT.FOREIGN_KEYS
  | QPrimaryKeys _ _ _ _ => QT.PRIMARY_KEYS
  | QSpecialColumns _ => QT.SPECIAL_COLUMNS
  | QTypeInfo _ => QT.TYPE_INFO
  end.

(** [GetSql] of the two classes that have it. *)
Definition GetSql (q : Query) : text :=
  match q with
  | QData q => dq_sql q
  | QBatch q => bq_sql q
  | QInternal sql _ => sql
  | _ => []
  end.

(** The timeout is a reference to the statement's. *)
Definition with_timeout (t : Z) (q : DataQuery) : DataQuery :=
  MkDataQuery (dq_sql q) t (dq_cursor q) (dq_meta q) (dq_metaAvailable q).

Section driver.
Context `{Platform} `{Calendar} `{NumberTexts} `{BatchServer} (toDouble : Decimal -> Z) (w : World).

Let c := w_connection w.
Let a := da_connection (w_data w).

Abbreviation executed := (outcome Z (SR.SqlResult * Query * diags * mem)).

Definition wrap {A} (f : A -> Query) (m : mem) (r : outcome Z (SR.SqlResult * A * diags)) : executed :=
  let* (r, q, d) := r in Ok (r, f q, d, m).
Definition wrap_mem {A} (f : A -> Query) (r : outcome Z (SR.SqlResult * A * diags * mem)) : executed :=
  let* (r, q, d, m) := r in Ok (r, f q, d, m).
Definition keep (q : Query) (m : mem) (r : SR.SqlResult * diags) : executed := Ok (r.1, q, r.2, m).
Definition keep_mem (q : Query) (r : outcome Z (SR.SqlResult * diags * mem)) : executed :=
  let* (r, d, m) := r in Ok (r, q, d, m).

Definition Execute (q : Query) (ps : ParameterSet) (timeout : Z) (d : diags) (m : mem) : executed :=
  match q with
  | QData q => wrap QData m (data_Execute (w_data w) c (with_timeout timeout q) d)
  | QBatch q => wrap_mem QBatch (batch_Execute ps (sv_val (c_defaultFetchSize (cn_config c))) q d m)
  | QInternal _ _ => keep q m (internal_Execute d)
  | QColumns cat sch t col q =>
      wrap (QColumns cat sch t col) m
        (meta_Execute ColumnMetadataQuery (MakeRequestGetColumnsMeta a c (w_columns w cat sch t col)) q d)
  | QTables cat sch t typ q =>
      wrap (QTables cat sch t typ) m
        (meta_Execute TableMetadataQuery (MakeRequestGetTablesMeta a c typ (w_tables w cat sch t)) q d)
  | QForeignKeys cat sch t q =>
      wrap (QForeignKeys cat sch t) m
        (meta_Execute ForeignKeysQuery (MakeRequestGetForeignKeysMeta a c (w_foreignKeys w cat sch t)) q d)
  | QPrimaryKeys cat sch t q =>
      wrap (QPrimaryKeys cat sch t) m
        (meta_Execute PrimaryKeysQuery (MakeRequestGetPrimaryKeysMeta a c (w_primaryKeys w cat sch t)) q d)
  | QSpecialColumns q => let '(r, q) := special_Execute q in Ok (r, QSpecialColumns q, d, m)
  | QTypeInfo q => wrap QTypeInfo m (type_info_Execute a c (w_types w) q d)
  end.

Definition FetchNextRow (q : Query) (bs : bindings) (d : diags) (m : mem) : executed :=
  match q with
  | QData q => wrap_mem QData (data_FetchNextRow toDouble q bs d m)
  | QBatch b => keep q m (batch_FetchNextRow b d)
  | QInternal _ _ => Ok (SR.AI_NO_DATA, q, d, m)
  | QColumns cat sch t col q => wrap_mem (QColumns cat sch t col) (meta_FetchNextRow ColumnMetadataQuery q bs d m)
  | QTables cat sch t typ q => wrap_mem (QTables cat sch t typ) (meta_FetchNextRow TableMetadataQuery q bs d m)
  | QForeignKeys cat sch t q => wrap_mem (QForeignKeys cat sch t) (meta_FetchNextRow ForeignKeysQuery q bs d m)
  | QPrimaryKeys cat sch t q => wrap_mem (QPrimaryKeys cat sch t) (meta_FetchNextRow PrimaryKeysQuery q bs d m)
  | QSpecialColumns s => keep q m (special_FetchNextRow s d)
  | QTypeInfo q => wrap_mem QTypeInfo (type_info_FetchNextRow q bs d m)
  end.

Definition GetColumn (q : Query) (columnIdx : Z) (b : ApplicationDataBuffer) (d : diags) (m : mem) : executed :=
  match q with
  | QData q => wrap_mem QData (data_GetColumn toDouble q columnIdx b d m)
  | QBatch x => keep q m (batch_GetColumn x d)
  | QInternal _ _ => Ok (SR.AI_NO_DATA, q, d, m)
  | QColumns _ _ _ _ x => keep_mem q (meta_GetColumn ColumnMetadataQuery x columnIdx b d m)
  | QTables _ _ _ _ x => keep_mem q (meta_GetColumn TableMetadataQuery x columnIdx b d m)
  | QForeignKeys _ _ _ x => keep_mem q (meta_GetColumn ForeignKeysQuery x columnIdx b d m)
  | QPrimaryKeys _ _ _ x => keep_mem q (meta_GetColumn PrimaryKeysQuery x columnIdx b d m)
  | QSpecialColumns x => keep q m (special_GetColumn x d)
  | QTypeInfo x => keep_mem q (type_info_GetColumn x columnIdx b d m)
  end.

Definition CloseQuery (q : Query) : SR.SqlResult * Query :=
  match q with
  | QData q => prod_map id QData (data_Close q)
  | QBatch q => prod_map id QBatch (batch_Close q)
  | QInternal _ _ => (SR.AI_SUCCESS, q)
  | QColumns cat sch t col q => prod_map id (QColumns cat sch t col) (meta_Close ColumnMetadataQuery q)
  | QTables cat sch t typ q => prod_map id (QTables cat sch t typ) (meta_Close TableMetadataQuery q)
  | QForeignKeys cat sch t q => prod_map id (QForeignKeys cat sch t) (meta_Close ForeignKeysQuery q)
  | QPrimaryKeys cat sch t q => prod_map id (QPrimaryKeys cat sch t) (meta_Close PrimaryKeysQuery q)
  | QSpecialColumns q => prod_map id QSpecialColumns (special_Close q)
  | QTypeInfo q => prod_map id QTypeInfo (type_info_Close q)
  end.

(** [GetMeta]: the columns of the result, as the statement sees them. *)
Definition ResultMeta (q : Query) (d : diags) : option (list ColumnAttributes) * Query * diags :=
  let own cols := (Some (map column_attributes cols), q, d) in
  match q with
  | QData q =>
      let '(meta, q, d) := data_GetMeta (w_data w) c q d in (map column_attributes <$> meta, QData q, d)
  | QBatch _ => own []
  | QInternal _ _ => (None, q, d)
  | QColumns _ _ _ _ _ => own columns_meta
  | QTables _ _ _ _ _ => own tables_meta
  | QForeignKeys _ _ _ _ => own foreign_keys_meta
  | QPrimaryKeys _ _ _ _ => own primary_keys_meta
  | QSpecialColumns _ => own special_columns_meta
  | QTypeInfo _ => own type_info_meta
  end.

Definition QueryDataAvailable (q : Query) : bool :=
  match q with
  | QData q => data_DataAvailable q
  | QBatch _ | QInternal _ _ | QSpecialColumns _ => false
  | QColumns _ _ _ _ q => meta_DataAvailable q
  | QTables _ _ _ _ q => meta_DataAvailable q
  | QForeignKeys _ _ _ q => meta_DataAvailable q
  | QPrimaryKeys _ _ _ q => meta_DataAvailable q
  | QTypeInfo q => type_info_DataAvailable q
  end.

Definition AffectedRows (q : Query) : Z := match q with QBatch q => batch_AffectedRows q | _ => 0 end.

Definition NextResultSet (q : Query) : SR.SqlResult * Query :=
  match q with
  | QData q => prod_map id QData (data_NextResultSet q)
  | QBatch q => prod_map id QBatch (batch_NextResultSet q)
  | _ => (SR.AI_NO_DATA, q)
  end.

#[global] Instance DriverQueries : QueryOps Query := {|
  q_type := GetType;
  q_sql := GetSql;
  q_execute := Execute;
  q_fetch := FetchNextRow;
  q_column := GetColumn;
  q_close q d := let '(r, q) := CloseQuery q in Ok (r, q, d);
  q_meta q d := Ok (ResultMeta q d);
  q_available := QueryDataAvailable;
  q_affected := AffectedRows;
  q_next q d := let '(r, q) := NextResultSet q in Ok (r, q, d);
  new_data sql := QData (new_data_query sql 0);
  new_batch sql := QBatch (new_batch_query sql);
  new_internal := QInternal;
  new_column_metadata cat sch t col := QColumns cat sch t col new_meta;
  new_table_metadata cat sch t typ := QTables cat sch t typ new_meta;
  new_foreign_keys cat sch t := QForeignKeys cat sch t new_meta;
  new_primary_keys cat sch t := QPrimaryKeys cat sch t new_meta;
  new_special_columns _ _ _ _ _ _ := QSpecialColumns (MkSpecial false);
  new_type_info t := QTypeInfo (new_type_info_query t)
|}.

End driver.
