(* ===== verification/DriverProps.v ===== *)
(** Properties of the batch query: its loop runs the pages of a list that is written
    down at once, and with the driver's own exchange of messages no batch runs; and of the
    driver put together: a SELECT from its text to its rows, and what becomes of the calls
    that need the server. *)
From S2P Require Import Prelude Decimal TypeTraits Chrono Memory Utf8 AppBuffer AppRead Diag SqlLex SqlProps.
From S2P Require Import OrdMap Params Statement Config ConfigRound Meta Connection ConnProps DocColumn MetaQueries DataQuery DataProps Driver.

(** * The pages *)

(** Page number [k]: its first set, the set after its last, and whether it is the last page. *)
Definition page (size n k : Z) : Z * Z * bool := (k * size, Z.min ((k + 1) * size) n, bool_decide (n <= (k + 1) * size)).

(** All pages of [n] sets. *)
Definition pages (size n : Z) : list (Z * Z * bool) := map (page size n) (seqZ 0 ((n + size - 1) / size)).

Section pages.
Context `{BatchServer} (ps : ParameterSet).

(** The pages one after the other, up to the first that fails. *)
Fixpoint run_pages (l : list (Z * Z * bool)) (st : batch_state) : outcome Z (SR.SqlResult * batch_state) :=
  match l with
  | [] => Ok (SR.AI_SUCCESS, st)
  | (b, e, last) :: l =>
      let* (res, st) := MakeRequestExecuteBatch ps b e last st in
      match l with
      | [] => Ok (res, st)
      | _ => if is_success res then run_pages l st else Ok (res, st)
      end
  end.

Lemma pages_cover size n : 0 < size -> 0 < n ->
  (forall k, 0 <= k < (n + size - 1) / size -> k * size < n) /\ n <= (n + size - 1) / size * size.
Proof.
  intros Hs Hn. pose proof (Z.div_mod (n + size - 1) size). pose proof (Z.mod_pos_bound (n + size - 1) size).
  split; [intros k Hk|]; nia.
Qed.

(** The pass at page [k] sends that page. *)
Lemma page_pass_at size n k st :
  0 < size -> 0 < n < 2 ^ 31 -> 0 <= k -> k * size < n ->
  page_pass ps size n (k * size, st)
  = match MakeRequestExecuteBatch ps (page size n k).1.1 (page size n k).1.2 (page size n k).2 st with
    | Ok (res, st) => if is_success res && ((k + 1) * size <? n) then Continue ((k + 1) * size, st) else Break (Ok (res, st))
    | Throw e => Break (Throw e)
    | UB => Break UB
    end.
Proof.
  intros Hs Hn Hk Hlt. unfold page_pass. assert (0 <= k * size) by nia.
  rewrite (checked_ok 32 (n - k * size)) by (unfold inS; change (2 ^ (32 - 1)) with (2 ^ 31); lia). cbn [obind].
  rewrite (checked_ok 32) by (unfold inS; change (2 ^ (32 - 1)) with (2 ^ 31); lia). cbn [obind page fst snd].
  replace (k * size + Z.min size (n - k * size)) with (Z.min ((k + 1) * size) n) by lia.
  replace (Z.min size (n - k * size) =? n - k * size) with (bool_decide (n <= (k + 1) * size))
    by (case_bool_decide; symmetry; lia).
  destruct (MakeRequestExecuteBatch ps _ _ _ st) as [[res st']|e|]; cbn [obind]; [|done..].
  destruct (Z.ltb_spec ((k + 1) * size) n).
  - rewrite Z.min_l by lia. by rewrite (proj2 (Z.ltb_lt _ _)).
  - rewrite Z.min_r by lia. by rewrite Z.ltb_irrefl, !andb_false_r.
Qed.

Lemma seqZ_step k c : k < c -> seqZ k (c - k) = k :: seqZ (k + 1) (c - (k + 1)).
Proof. intros Hk. rewrite seqZ_cons by lia. by replace (Z.succ k) with (k + 1) by lia; replace (Z.pred (c - k)) with (c - (k + 1)) by lia. Qed.

Lemma loop_runs_pages size n fuel k st :
  0 < size -> 0 < n < 2 ^ 31 -> 0 <= k < (n + size - 1) / size ->
  ((n + size - 1) / size - k < Z.of_nat fuel) ->
  while fuel (page_pass ps size n) (k * size, st)
  = Some (run_pages (map (page size n) (seqZ k ((n + size - 1) / size - k))) st).
Proof.
  intros Hs Hn. destruct (pages_cover size n) as [Hin Hend]; [lia..|]. set (c := (n + size - 1) / size) in *.
  revert k st. induction fuel as [|fuel IH]; intros k st Hk Hf; [lia|].
  rewrite seqZ_step by lia. cbn [while map run_pages]. rewrite page_pass_at by (try apply Hin; lia).
  destruct (page size n k) as [[b e] l]. cbn [fst snd].
  destruct (MakeRequestExecuteBatch ps b e l st) as [[res st']|x|]; cbn [obind]; [|done..].
  destruct (Z.ltb_spec ((k + 1) * size) n) as [Hl|Hl].
  - assert (k + 1 < c) by nia. rewrite seqZ_step by lia. cbn [map].
    destruct (is_success res); cbn [andb]; [|done]. rewrite IH by lia. by rewrite seqZ_step by lia.
  - assert (c = k + 1) as -> by (pose proof (Hin (k + 1)); nia).
    rewrite (seqZ_nil (k + 1)) by lia. cbn [map]. by rewrite andb_false_r.
Qed.

(** The pages suffice for the fuel. *)
Lemma run_batch_pages size n st : 0 < size -> 0 < n < 2 ^ 31 -> run_batch ps size n st = run_pages (pages size n) st.
Proof.
  intros Hs Hn. unfold run_batch, pages. change 0 with (0 * size) at 1.
  destruct (pages_cover size n) as [Hin Hend]; [lia..|].
  assert (0 < (n + size - 1) / size) by nia. pose proof (Hin ((n + size - 1) / size - 1)).
  assert ((n + size - 1) / size <= n) by nia.
  rewrite loop_runs_pages by lia. by rewrite Z.sub_0_r.
Qed.

End pages.

(** What the page list is: the pages are not empty, follow each other from 0 to [n],
    are no longer than [size], and only the final one is marked as the last. *)
Lemma pages_are size n k p : 0 < size -> 0 < n -> pages size n !! k = Some p ->
  p.1.1 = Z.of_nat k * size /\ p.1.1 < p.1.2 <= n /\ p.1.2 - p.1.1 <= size
  /\ (p.2 = true <-> S k = length (pages size n)) /\ (p.2 = true <-> p.1.2 = n)
  /\ ((S k < length (pages size n))%nat -> p.1.2 = Z.of_nat (S k) * size).
Proof.
  intros Hs Hn E. destruct (pages_cover size n) as [Hin Hend]; [lia..|]. unfold pages in *. set (c := (n + size - 1) / size) in *.
  rewrite length_map, length_seqZ. apply list_lookup_fmap_Some in E as (z & -> & Ez).
  apply lookup_seqZ in Ez as [-> Hk]. rewrite Z.add_0_l. unfold page. cbn [fst snd].
  pose proof (Hin (Z.of_nat k) ltac:(lia)). rewrite bool_decide_eq_true.
  assert (S k = Z.to_nat c <-> n <= (Z.of_nat k + 1) * size) as Hlast.
  { split; [intros; nia|]. intros Hle. destruct (Z_lt_le_dec (Z.of_nat k + 1) c) as [Hlt|]; [|lia].
    pose proof (Hin (Z.of_nat k + 1) ltac:(lia)). lia. }
  split_and!; [done|nia|nia|nia|nia|lia|].
  intros Hlt. pose proof (Hin (Z.of_nat k + 1) ltac:(lia)). lia.
Qed.

Definition fresh_batch (q : BatchQuery) : BatchQuery :=
  if bq_executed q then new_batch_query (bq_sql q) else set_affected [] q.

Lemma sets_range ps : inS 32 (GetParamSetSize ps).
Proof. by apply wrapS_range. Qed.

(** C33: Executing a batch of parameter sets, whatever the server answers, is the same as
    sending the pages of a list that is known beforehand, one after the other up to the
    first that fails, and then reporting how many sets were processed.  The pages are
    not empty, follow each other from the first set to the last, none is longer than
    the fetch size, and exactly the final one is announced as the last.  So the loop
    ends for every positive fetch size. *)
Theorem batch_is_paged `{BatchServer} ps size q d m :
  0 < size -> 0 < GetParamSetSize ps ->
  let l := pages size (GetParamSetSize ps) in
  batch_Execute ps size q d m
  = (let* (res, (q, d, m)) := run_pages ps l (fresh_batch q, d, m) in
     let* m := SetParamsProcessed (Z.of_nat (length (bq_rowsAffected q))) ps m in
     Ok (res, q, d, m))
  /\ (forall k p, l !! k = Some p ->
      p.1.1 = Z.of_nat k * size /\ p.1.1 < p.1.2 <= GetParamSetSize ps /\ p.1.2 - p.1.1 <= size
      /\ (p.2 = true <-> S k = length l) /\ (p.2 = true <-> p.1.2 = GetParamSetSize ps)
      /\ ((S k < length l)%nat -> p.1.2 = Z.of_nat (S k) * size)).
Proof.
  intros Hs Hn l. split; [|intros k p E; exact (pages_are size (GetParamSetSize ps) k p Hs Hn E)].
  unfold batch_Execute, fresh_batch. pose proof (sets_range ps) as Hr. unfold inS in Hr.
  change (2 ^ (32 - 1)) with (2 ^ 31) in Hr. rewrite run_batch_pages by lia. by destruct (bq_executed q).
Qed.

(** A server that says yes to everything, with one affected row for each set. *)
Definition GoodServer : BatchServer :=
  {| execute_batch _ b e _ _ := BatchAnswer (MkBatchResponse RS.SUCCESS [] (replicate (Z.to_nat (e - b)) 1) [] 0) |}.

Lemma batch_is_paged_witness :
  let ps := SetParamSetSize 5 new_set in
  pages 2 (GetParamSetSize ps) = [(0, 2, false); (2, 4, false); (4, 5, true)]
  /\ exists q', @batch_Execute GoodServer ps 2 (new_batch_query (str "q")) new_storage ∅
                = Ok (SR.AI_SUCCESS, q', new_storage, ∅).
Proof.
  intros ps. assert (pages 2 (GetParamSetSize ps) = [(0, 2, false); (2, 4, false); (4, 5, true)]) as E
    by (vm_compute; reflexivity).
  split; [exact E|].
  destruct (@batch_is_paged GoodServer ps 2 (new_batch_query (str "q")) new_storage ∅ ltac:(lia) ltac:(vm_compute; reflexivity))
    as [Hr _].
  exists (set_affected (replicate 5 1) (new_batch_query (str "q"))). rewrite Hr. vm_compute. reflexivity.
Defined.

(** The driver's own exchange answers every page with an unknown error. *)
Lemma driver_batch ps b e last q d m :
  MakeRequestExecuteBatch ps b e last (q, d, m) = Ok (SR.AI_ERROR, (q, add SS.SHY000_GENERAL_ERROR [] d, m)).
Proof. reflexivity. Qed.

Lemma driver_batch_Execute ps size q d m :
  inS 32 size ->
  batch_Execute ps size q d m
  = (let* m := SetParamsProcessed 0 ps m in
     Ok (SR.AI_ERROR, fresh_batch q, add SS.SHY000_GENERAL_ERROR [] d, m)).
Proof.
  intros Hs. pose proof (sets_range ps) as Hr. unfold batch_Execute, run_batch, inS in *. cbn [while].
  unfold page_pass. rewrite (checked_ok 32) by (unfold inS; lia). cbn [obind].
  rewrite (checked_ok 32) by (unfold inS; lia). cbn [obind]. unfold fresh_batch. by destruct (bq_executed q).
Qed.

(** * A SELECT *)

(** The JDBC driver translates the query to stages on a collection, whose columns are
    [l], and MongoDB answers the documents [ds]. *)
Definition answers_select (w : World) (sql : text) (timeout : Z) (l : Layout) (ds : list Document) : Prop :=
  exists ctx,
    GetMqlQueryContext (w_data w) (w_connection w) sql = inr (Some ctx)
    /\ mql_layout ctx = l
    /\ forallb (da_json (w_data w)) (mql_operations ctx) = true
    /\ da_aggregate (w_data w) (sv_val (c_database (cn_config (w_connection w)))) (mql_collection ctx)
         (mql_operations ctx) (sv_val (c_defaultFetchSize (cn_config (w_connection w))))
         (if timeout =? 0 then None else Some (timeout * 1000)) = inr (ds, false).

(** One row at a time, into columns that are not moved, without reports. *)
Definition single_rows (s : Statement Query) : Prop :=
  st_rowArraySize s = 1 /\ st_rowsFetched s = 0 /\ st_rowStatuses s = 0 /\ st_bindOffset s = 0.

(** The statement after [pos] fetches. *)
Definition selected (l : Layout) (ds : list Document) (pos : nat) (s : Statement Query) : Prop :=
  exists q, st_query s = Some (QData q) /\ fetched l ds pos q.

Section select.
Context `{Platform} `{Calendar} `{NumberTexts} `{BatchServer} (toDouble : Decimal -> Z) (w : World).

#[local] Existing Instance DriverQueries.

Lemma execute_select sql l ds q d timeout :
  answers_select w sql timeout l ds -> dq_sql q = sql -> dq_timeout q = timeout ->
  exists q', data_Execute (w_data w) (w_connection w) q d = Ok (SR.AI_SUCCESS, q', d) /\ fetched l ds 0 q'.
Proof.
  intros (ctx & Hctx & Hl & Hjson & Hagg) Hsql Ht. unfold data_Execute, MakeRequestFetch.
  cbn [set_cursor dq_sql dq_timeout dq_metaAvailable]. rewrite Hsql, Hctx, Hjson. cbn [negb].
  set (q1 := if dq_metaAvailable q then _ else _).
  assert (dq_timeout q1 = timeout) as -> by (unfold q1; by destruct (dq_metaAvailable q)).
  rewrite Hagg. eexists. split; [reflexivity|]. eexists. split; [reflexivity|]. rewrite Hl. apply new_cursor_at.
Qed.

Lemma close_current_ok (s : Statement Query) : exists s', @close_current Query (DriverQueries toDouble w) s = Ok s'
  /\ st_params s' = st_params s /\ st_timeout s' = st_timeout s /\ st_diag s' = st_diag s
  /\ st_bindings s' = st_bindings s /\ (single_rows s -> single_rows s').
Proof.
  unfold close_current. destruct (st_query s) as [q|]; [|by exists s].
  cbn [q_close DriverQueries]. destruct (CloseQuery q) as [r q']. cbn [obind]. by eexists.
Qed.

(** One set of parameters needs no batch. *)
Lemma single_query q (s : Statement Query) :
  GetParamSetSize (st_params s) = 1 ->
  @select_query Query (DriverQueries toDouble w) (QData q) s = QData q.
Proof. intros Hn. unfold select_query. by rewrite Hn. Qed.

Lemma select_runs sql l ds (s : Statement Query) m :
  IsInternalCommand sql = Some false -> answers_select w sql (st_timeout s) l ds ->
  ps_parameters (st_params s) = [] -> GetParamSetSize (st_params s) = 1 -> single_rows s ->
  exists s1, @InternalExecuteSqlQuery Query (DriverQueries toDouble w) _ sql s m = Ok (SR.AI_SUCCESS, s1, m)
    /\ selected l ds 0 s1 /\ single_rows s1 /\ st_bindings s1 = st_bindings s /\ st_diag s1 = st_diag s.
Proof.
  intros Hint Hans Hps Hone Hrows. unfold InternalExecuteSqlQuery, InternalPrepareSqlQuery, Prepare. rewrite Hint, Hps.
  cbn [reset_all obind]. set (s0 := with_params _ s).
  destruct (close_current_ok s0) as (s1 & -> & Hp & Ht & Hd & Hb & Hr). cbn [obind].
  rewrite bool_decide_true by done. unfold InternalExecutePrepared. cbn [st_query with_query].
  assert (GetParamSetSize (st_params s1) = 1) as Hn by (rewrite Hp; exact Hone).
  cbn [new_data DriverQueries]. rewrite single_query by exact Hn. cbn [st_params with_query]. rewrite Hn. cbn [andb]. unfold IsDataAtExecNeeded. rewrite Hp. cbn [s0 st_params with_params ps_parameters first_pending obind].
  rewrite (bool_decide_false (is_Some None)) by (intros [? ?]; done).
  unfold execute_query. cbn [q_execute DriverQueries Execute st_timeout with_query].
  destruct (execute_select sql l ds (with_timeout (st_timeout s1) (new_data_query sql 0)) (st_diag s1) (st_timeout s))
    as (q' & E & Hq'); [done|done|by cbn; rewrite Ht|].
  cbn [st_diag with_query]. rewrite E. cbn [wrap obind]. eexists. split; [reflexivity|].
  split; [by exists q'|]. split; [by apply Hr|]. split; [done|]. exact Hd.
Qed.

Lemma select_fetches l ds pos (s : Statement Query) m :
  layout_ok l -> selected l ds pos s -> single_rows s -> (pos <= S (length ds))%nat ->
  match fetch_spec toDouble l ds pos (om_map (SetElementOffset 0) (st_bindings s)) (st_diag s) m with
  | Ok (r, d', m') =>
      exists s', @InternalFetchRow Query (DriverQueries toDouble w) s m = Ok (r, s', m')
        /\ selected l ds (next_pos ds pos) s' /\ single_rows s' /\ st_diag s' = d'
        /\ st_bindings s' = om_map (SetElementOffset 0) (st_bindings s)
  | Throw e => @InternalFetchRow Query (DriverQueries toDouble w) s m = Throw e
  | UB => @InternalFetchRow Query (DriverQueries toDouble w) s m = UB
  end.
Proof.
  intros Hl (q & Hq & Hf) (Hsize & Hrf & Hrs & Hbo) Hpos.
  pose proof (fetch_refines toDouble l ds pos q (om_map (SetElementOffset 0) (st_bindings s)) (st_diag s) m Hl Hf Hpos) as Href.
  unfold InternalFetchRow. rewrite Hrf, Hq, Hbo. cbn [put_if Z.eqb obind]. rewrite Hsize. change (Z.to_nat 1) with 1%nat.
  cbn [fetch_rows]. cbn [q_fetch DriverQueries FetchNextRow st_bindings with_bindings st_diag].
  destruct (fetch_spec toDouble l ds pos _ _ m) as [[[r d'] m']|e|] eqn:Espec; [|by rewrite Href..].
  destruct Href as (q' & -> & Hq'). cbn [wrap_mem obind]. cbn [st_rowStatuses with_diag with_query with_bindings]. rewrite Hrs.
  assert (r = SR.AI_SUCCESS \/ r = SR.AI_NO_DATA \/ r = SR.AI_ERROR) as Hr.
  { unfold fetch_spec in Espec. destruct (ds !! pos); [|by simplify_eq; auto].
    destruct (direct_columns _ _ _ _ _ _ _) as [[[[] ?] ?]|?|]; cbn [obind] in Espec; simplify_eq; auto. }
  exists (with_diag d' (with_query (Some (QData q')) (with_bindings (om_map (SetElementOffset 0) (st_bindings s)) s))).
  split; [|split; [by exists q'|done]].
  destruct Hr as [-> |[-> | ->]]; cbn [Z.add Z.ltb Z.eqb Z.compare]; rewrite ?checked_ok by (split; done); cbn [obind Z.add Z.ltb Z.eqb Z.compare];
    cbn [st_rowsFetched with_diag with_query with_bindings]; rewrite Hrf; reflexivity.
Qed.

End select.

(** The two documents of [DataProps], behind an open connection. *)
Definition sample_world : World :=
  MkWorld (after (cc_establish good_answers sample_login) sample_connection)
    (MkDataAnswers good_answers None
       (fun _ => inr (Some (MkMql [str "{}"] sample_layout (str "t")))) (fun _ => true)
       (fun _ _ _ _ _ => inr (sample_documents, false)))
    (fun _ _ _ _ => inl []) (fun _ _ _ _ => inl []) (fun _ _ _ => inl []) (fun _ _ _ => inl []) (inl []).

Definition sample_statement : Statement Query :=
  with_bindings sample_bindings (new_statement 1).

(** * Calls that need the server *)

Definition unknown_error {Q} (s : Statement Q) : Statement Q := add_record SS.SHY000_GENERAL_ERROR [] s.


