(* ===== verification/Odbc.v ===== *)
(** The functions an application calls: [src/src/odbc/src/odbc.cpp], and
    [InternalNativeSql] of [include/documentdb/odbc/connection.h].

    A handle is the address of an object.  [Handles] has the objects that are alive:
    environments, connections with the environment each was made from, statements with
    the connection each refers to; and the one logger of the process.  An address that
    is neither null nor the address of such an object is a dangling or wrong pointer,
    and using it is undefined.

    [this] is the address [new] returns.  [frame] is the address of the local variables
    of a call that hands out pointers to them; a variable without an initial value has
    what the memory of the frame held.  What the other side answers during a call is its
    argument [w] (the connection in it is not looked at). *)
From S2P Require Import Prelude OrdMap Memory Utf8 TypeTraits Chrono Decimal AppBuffer AppRead Diag SqlLex Params.
From S2P Require Import Statement Config ConfigParse Meta Connection DocColumn MetaQueries DataQuery Driver.

Record Handles : Type := MkHandles {
  h_envs : gmap Z Environment;
  h_conns : gmap Z (Z * Connection);
  h_stmts : gmap Z (Z * Statement Query);
  h_logger : Logger
}.

Definition no_handles (l : Logger) : Handles := MkHandles ∅ ∅ ∅ l.

Definition put_env (x : Z) (e : Environment) (h : Handles) : Handles :=
  MkHandles (<[x := e]> (h_envs h)) (h_conns h) (h_stmts h) (h_logger h).
(** A connection carries the logger; it is that of the process. *)
Definition put_conn (x env : Z) (c : Connection) (h : Handles) : Handles :=
  MkHandles (h_envs h) (<[x := (env, c)]> (h_conns h)) (h_stmts h) (cn_logger c).
Definition put_stmt (x conn : Z) (s : Statement Query) (h : Handles) : Handles :=
  MkHandles (h_envs h) (h_conns h) (<[x := (conn, s)]> (h_stmts h)) (h_logger h).
Definition set_logger (l : Logger) (h : Handles) : Handles :=
  MkHandles (h_envs h) (h_conns h) (h_stmts h) l.

Definition SQL_HANDLE_DESC : Z := 4.
Definition SQL_DESC_COUNT : Z := 1001.

Definition SQL_SUCCEEDED (rc : Z) : bool := (rc =? SQL_SUCCESS) || (rc =? SQL_SUCCESS_WITH_INFO).

(** * Native SQL *)

Section native.
Context `{Platform}.

(** [for (; !end; actualBufferLen++)], copying until the buffer is full: the number
    copied, and whether the text was cut.  The loop runs at most once for every place
    of the buffer. *)
Fixpoint copy_query (fuel : nat) (stop : Z -> mem -> outcome Z bool) (inQuery outQueryBuffer outQueryBufferLen i : Z)
    (m : mem) : outcome Z (Z * bool * mem) :=
  match fuel with
  | O => UB
  | S k =>
      let* finished := stop i m in
      if finished : bool then Ok (i, false, m)
      else if outQueryBufferLen <=? i + 1 then Ok (i, true, m)
      else
        let* c := ld (inQuery + wsz * i) (Z.to_nat wsz) m in
        let* m := st (outQueryBuffer + wsz * i) c m in
        copy_query k stop inQuery outQueryBuffer outQueryBufferLen (i + 1) m
  end.

Definition at_zero (inQuery i : Z) (m : mem) : outcome Z bool :=
  let* c := ld (inQuery + wsz * i) (Z.to_nat wsz) m in Ok (le_val c =? 0).

(** With the value of [*outQueryLen], when it is set. *)
Definition InternalNativeSql (inQuery inQueryLen outQueryBuffer outQueryBufferLen : Z) (c : Connection) (m : mem)
    : outcome Z (option Z * SR.SqlResult * Connection * mem) :=
  let fail state msg := Ok (None, SR.AI_ERROR, record state msg c, m) in
  if inQuery =? 0 then
    fail SS.SHY009_INVALID_USE_OF_NULL_POINTER (str "The InStatementText argument must not NULL")
  else if negb (outQueryBuffer =? 0) then
    if outQueryBufferLen <=? 0 then
      fail SS.SHY090_INVALID_STRING_OR_BUFFER_LENGTH (str "The BufferLength argument must be greater than zero")
    else if (inQueryLen <? 0) && negb (inQueryLen =? SQL_NTS) then
      fail SS.SHY090_INVALID_STRING_OR_BUFFER_LENGTH
        (str "The argument TextLength1 was less than 0, but not equal to SQL_NTS")
    else
      let stop := if inQueryLen =? SQL_NTS then at_zero inQuery else fun i _ => Ok (inQueryLen <=? i) in
      let* (actualBufferLen, isTruncated, m) :=
        copy_query (Z.to_nat outQueryBufferLen) stop inQuery outQueryBuffer outQueryBufferLen 0 m in
      let* m := st (outQueryBuffer + wsz * actualBufferLen) (le_bytes (Z.to_nat wsz) 0) m in
      Ok (if isTruncated : bool
          then (Some actualBufferLen, SR.AI_SUCCESS_WITH_INFO,
                record SS.S01004_DATA_TRUNCATED
                  (str "Buffer is too small for the data. Truncated from the right.") c, m)
          else (Some actualBufferLen, SR.AI_SUCCESS, c, m))
  else
    let* len :=
      if inQueryLen =? SQL_NTS then
        let* cs := read_terminated (Z.to_nat wsz) inQuery m in Ok (Z.of_nat (length cs))
      else Ok (if 0 <? inQueryLen then i32 inQueryLen else 0) in
    Ok (Some len, SR.AI_SUCCESS, c, m).

End native.

(** * The entry points *)

Section odbc.
Context `{Platform} `{Calendar} `{NumberTexts} `{Host}.
Context (toDouble : Decimal -> Z) (profiles : text -> profile) (info : ConnectionInfo).

Abbreviation returns := (outcome Z (Z * Handles * mem)).
Abbreviation stmt_call :=
  (QueryOps Query -> Statement Query -> mem -> outcome Z (SR.SqlResult * Statement Query * mem)).

Definition invalid (h : Handles) (m : mem) : returns := Ok (SQL_INVALID_HANDLE, h, m).

(** ** Calls on the objects *)

Definition env_api (call : Environment -> mem -> outcome Z (SR.SqlResult * Environment * mem)) (e : Environment)
    (m : mem) : outcome Z (Environment * mem) :=
  api_call (fun em => let* (r, e, m) := call em.1 em.2 in Ok (r, (e, m)))
    (fun em => env_diag em.1)
    (fun d em => (MkEnvironment (connections em.1) (odbcVersion em.1) (odbcNts em.1) d, em.2)) (e, m).

Definition environment_call (env : Z) (call : Environment -> mem -> outcome Z (SR.SqlResult * Environment * mem))
    (h : Handles) (m : mem) : returns :=
  match h_envs h !! env with
  | None => UB
  | Some e =>
      let* (e, m) := env_api call e m in
      Ok (GetReturnCode (env_diag e), put_env env e h, m)
  end.

Definition connection_call_on (conn : Z) (call : Connection -> mem -> outcome Z (SR.SqlResult * Connection * mem))
    (h : Handles) (m : mem) : returns :=
  match h_conns h !! conn with
  | None => UB
  | Some (env, c) =>
      let* (c, m) := conn_api call (set_config (cn_config c) (h_logger h) c) m in
      Ok (GetReturnCode (cn_diag c), put_conn conn env c h, m)
  end.

(** The connection of [w] is the statement's own. *)
Definition world_of (c : Connection) (w : World) : World :=
  MkWorld c (w_data w) (w_columns w) (w_tables w) (w_foreignKeys w) (w_primaryKeys w) (w_types w).

(** What a query does through its connection. *)
Definition executes_through (q : Query) : bool :=
  match q with QInternal _ _ | QSpecialColumns _ => false | _ => true end.
Definition describes_through (q : Query) : bool :=
  match q with QData q => negb (dq_metaAvailable q) | _ => false end.

(** The queries of a statement whose connection was deleted. *)
Definition orphaned (o : QueryOps Query) : QueryOps Query := {|
  q_type := q_type;
  q_sql := q_sql;
  q_execute q ps timeout d m := if executes_through q then UB else q_execute q ps timeout d m;
  q_fetch := q_fetch;
  q_column := q_column;
  q_close := q_close;
  q_meta q d := if describes_through q then UB else q_meta q d;
  q_available := q_available;
  q_affected := q_affected;
  q_next := q_next;
  new_data := new_data;
  new_batch := new_batch;
  new_internal := new_internal;
  new_column_metadata := new_column_metadata;
  new_table_metadata := new_table_metadata;
  new_foreign_keys := new_foreign_keys;
  new_primary_keys := new_primary_keys;
  new_special_columns := new_special_columns;
  new_type_info := new_type_info
|}.

Definition queries_of (conn : Z) (h : Handles) (w : World) : QueryOps Query :=
  match h_conns h !! conn with
  | Some (_, c) => DriverQueries toDouble (world_of (set_config (cn_config c) (h_logger h) c) w)
  | None => orphaned (DriverQueries toDouble w)
  end.

Definition statement_call (w : World) (stmt : Z) (call : stmt_call) (h : Handles) (m : mem) : returns :=
  match h_stmts h !! stmt with
  | None => UB
  | Some (conn, s) =>
      let* (s, m) := api (call (queries_of conn h w)) s m in
      Ok (GetReturnCode (st_diag s), put_stmt stmt conn s h, m)
  end.

(** The call sets a variable of the caller, or does not. *)
Definition statement_value (w : World) (stmt : Z)
    (call : QueryOps Query -> Statement Query -> mem -> outcome Z (option Z * SR.SqlResult * Statement Query * mem))
    (h : Handles) (m : mem) : outcome Z (option Z * Z * Handles * mem) :=
  match h_stmts h !! stmt with
  | None => UB
  | Some (conn, s) =>
      let s := with_diag (storage_Reset (st_diag s)) s in
      let* (v, r, s, m) := call (queries_of conn h w) s m in
      let s := with_diag (SetHeaderRecord r (st_diag s)) s in
      Ok (v, GetReturnCode (st_diag s), put_stmt stmt conn s h, m)
  end.

(** ** Making and freeing handles *)

Definition SQLAllocEnv (this env : Z) (h : Handles) (m : mem) : returns :=
  let* m := st env (le_bytes 8 this) m in
  Ok (SQL_SUCCESS, put_env this new_environment h, m).

Definition SQLAllocConnect (this env conn : Z) (h : Handles) (m : mem) : returns :=
  let* m := st conn (le_bytes 8 0) m in
  if env =? 0 then invalid h m else
  let* (_, h, m) :=
    environment_call env (fun e m => let '(r, e) := env_InternalCreateConnection this e in Ok (r, e, m)) h m in
  let h := put_conn this env (new_connection info (h_logger h)) h in
  let* m := st conn (le_bytes 8 this) m in
  Ok (SQL_SUCCESS, h, m).

Definition SQLAllocStmt (this conn stmt : Z) (h : Handles) (m : mem) : returns :=
  let* m := st stmt (le_bytes 8 0) m in
  if conn =? 0 then invalid h m else
  let '(r, s) := InternalCreateStatement this in
  let* (rc, h, m) := connection_call_on conn (fun c m => Ok (r, c, m)) h m in
  let* m := st stmt (le_bytes 8 this) m in
  Ok (rc, put_stmt this conn s h, m).

Definition SQLAllocHandle (this type parent result : Z) (h : Handles) (m : mem) : returns :=
  if type =? SQL_HANDLE_ENV then SQLAllocEnv this result h m
  else if type =? SQL_HANDLE_DBC then SQLAllocConnect this parent result h m
  else if type =? SQL_HANDLE_STMT then SQLAllocStmt this parent result h m
  else if type =? SQL_HANDLE_DESC then
    if parent =? 0 then invalid h m else
    let* m := put_if result 8 0 m in
    match h_conns h !! parent with
    | None => UB
    | Some (env, c) =>
        let c := set_diag (storage_Reset (cn_diag c)) (set_config (cn_config c) (h_logger h) c) in
        let c := record SS.SIM001_FUNCTION_NOT_SUPPORTED
                   (str "The HandleType argument was SQL_HANDLE_DESC, and "
                    ++ str "the driver does not support allocating a descriptor handle") c in
        Ok (SQL_ERROR, put_conn parent env c h, m)
    end
  else
    let* m := st result (le_bytes 8 0) m in
    Ok (SQL_ERROR, h, m).

(** [delete]. *)
Definition del_env (x : Z) (h : Handles) : Handles :=
  MkHandles (delete x (h_envs h)) (h_conns h) (h_stmts h) (h_logger h).
Definition del_conn (x : Z) (h : Handles) : Handles :=
  MkHandles (h_envs h) (delete x (h_conns h)) (h_stmts h) (h_logger h).
Definition del_stmt (x : Z) (h : Handles) : Handles :=
  MkHandles (h_envs h) (h_conns h) (delete x (h_stmts h)) (h_logger h).

Definition SQLFreeEnv (env : Z) (h : Handles) (m : mem) : returns :=
  if env =? 0 then invalid h m else
  match h_envs h !! env with
  | None => UB
  | Some _ => Ok (SQL_SUCCESS, del_env env h, m)
  end.

(** The connection takes itself out of its environment; its statements stay. *)
Definition SQLFreeConnect (conn : Z) (h : Handles) (m : mem) : returns :=
  if conn =? 0 then invalid h m else
  match h_conns h !! conn with
  | None => UB
  | Some (env, _) =>
      match h_envs h !! env with
      | None => UB
      | Some e => Ok (SQL_SUCCESS, del_conn conn (put_env env (DeregisterConnection conn e) h), m)
      end
  end.

Definition SQLFreeStmt (w : World) (stmt option : Z) (h : Handles) (m : mem) : returns :=
  if stmt =? 0 then invalid h m else
  if option =? SQL_DROP then
    match h_stmts h !! stmt with
    | None => UB
    | Some _ => Ok (SQL_SUCCESS, del_stmt stmt h, m)
    end
  else statement_call w stmt (fun ops => InternalFreeResources (i16 option)) h m.

Definition SQLFreeHandle (w : World) (type handle : Z) (h : Handles) (m : mem) : returns :=
  if type =? SQL_HANDLE_ENV then SQLFreeEnv handle h m
  else if type =? SQL_HANDLE_DBC then SQLFreeConnect handle h m
  else if type =? SQL_HANDLE_STMT then SQLFreeStmt w handle SQL_DROP h m
  else Ok (SQL_ERROR, h, m).

(** There is no test for a null handle. *)
Definition SQLCloseCursor (w : World) (stmt : Z) : Handles -> mem -> returns :=
  statement_call w stmt (fun ops => InternalClose).

(** ** Connections *)

Definition SQLGetInfo (conn infoType infoValue infoValueMax length : Z) (h : Handles) (m : mem) : returns :=
  if conn =? 0 then invalid h m else
  connection_call_on conn (Connection.InternalGetInfo infoType infoValue infoValueMax length) h m.

(** Without a parent window. *)
Definition SQLDriverConnect (w : World)
    (conn inConnectionString inConnectionStringLen outConnectionString outConnectionStringBufferLen
     outConnectionStringLen : Z) (h : Handles) (m : mem) : returns :=
  if conn =? 0 then invalid h m else
  let* connectStr := SqlWcharToString inConnectionString inConnectionStringLen false m in
  let* (rc, h, m) :=
    connection_call_on conn (InternalEstablishText profiles (da_connection (w_data w)) connectStr) h m in
  if negb (SQL_SUCCEEDED rc) then Ok (rc, h, m) else
  let* (reslen, _, m) :=
    CopyStringToBuffer connectStr outConnectionString (u64 outConnectionStringBufferLen) false m in
  let* m := put_if outConnectionStringLen 2 reslen m in
  Ok (rc, h, m).

Definition SQLConnect (w : World) (conn serverName serverNameLen userName userNameLen auth authLen : Z)
    (h : Handles) (m : mem) : returns :=
  if conn =? 0 then invalid h m else
  let* dsn := SqlWcharToString serverName serverNameLen false m in
  let* (config, l) := ReadDsnConfiguration (profiles (c_str dsn)) new_configuration (h_logger h) in
  let* config :=
    if userName =? 0 then Ok config
    else let* u := SqlWcharToString userName userNameLen false m in Ok (SetUser u config) in
  let* config :=
    if auth =? 0 then Ok config
    else let* p := SqlWcharToString auth authLen false m in Ok (SetPassword p config) in
  connection_call_on conn (InternalEstablish (da_connection (w_data w)) config) (set_logger l h) m.

Definition SQLDisconnect (conn : Z) (h : Handles) (m : mem) : returns :=
  if conn =? 0 then invalid h m else connection_call_on conn InternalRelease h m.

Definition SQLGetConnectAttr (conn attr valueBuf valueResLen : Z) (h : Handles) (m : mem) : returns :=
  if conn =? 0 then invalid h m else
  connection_call_on conn (Connection.InternalGetAttribute attr valueBuf valueResLen) h m.

Definition SQLSetConnectAttr (conn attr value : Z) (h : Handles) (m : mem) : returns :=
  if conn =? 0 then invalid h m else
  connection_call_on conn (Connection.InternalSetAttribute attr value) h m.

Definition SQLNativeSql (conn inQuery inQueryLen outQueryBuffer outQueryBufferLen outQueryLen : Z)
    (h : Handles) (m : mem) : returns :=
  if conn =? 0 then invalid h m else
  match h_conns h !! conn with
  | None => UB
  | Some (env, c) =>
      let c := set_diag (storage_Reset (cn_diag c)) (set_config (cn_config c) (h_logger h) c) in
      let* (len, r, c, m) := InternalNativeSql inQuery inQueryLen outQueryBuffer outQueryBufferLen c m in
      let c := set_diag (SetHeaderRecord r (cn_diag c)) c in
      let* m := put_if outQueryLen 4 (default 0 len) m in
      Ok (GetReturnCode (cn_diag c), put_conn conn env c h, m)
  end.

(** ** Environments *)

Definition SQLSetEnvAttr (env attr value : Z) (h : Handles) (m : mem) : returns :=
  if env =? 0 then invalid h m else
  environment_call env (fun e m => let '(r, e) := env_InternalSetAttribute attr value e in Ok (r, e, m)) h m.

Definition SQLGetEnvAttr (frame env attr valueBuf valueBufLen valueResLen : Z) (h : Handles) (m : mem) : returns :=
  if env =? 0 then invalid h m else
  let outBuffer := ADB AI_SIGNED_LONG valueBuf (i32 valueBufLen) frame 0 0 in
  let* (rc, h, m) := environment_call env (env_InternalGetAttribute attr outBuffer) h m in
  let* m :=
    if valueResLen =? 0 then Ok m
    else let* outResLen := ld frame 8 m in st valueResLen (le_bytes 4 (i16 (le_val outResLen))) m in
  Ok (rc, h, m).

(** ** Statements *)

Definition SQLPrepare (w : World) (stmt query queryLen : Z) (h : Handles) (m : mem) : returns :=
  if stmt =? 0 then invalid h m else
  let* sql := SqlWcharToString query queryLen false m in
  statement_call w stmt (fun ops => InternalPrepareSqlQuery sql) h m.

Definition SQLExecute (w : World) (stmt : Z) (h : Handles) (m : mem) : returns :=
  if stmt =? 0 then invalid h m else statement_call w stmt (fun ops => InternalExecutePrepared) h m.

Definition SQLExecDirect (w : World) (stmt query queryLen : Z) (h : Handles) (m : mem) : returns :=
  if stmt =? 0 then invalid h m else
  let* sql := SqlWcharToString query queryLen false m in
  statement_call w stmt (fun ops => InternalExecuteSqlQuery sql) h m.

Definition SQLBindCol (w : World) (stmt colNum targetType targetValue bufferLength strLengthOrIndicator : Z)
    (h : Handles) (m : mem) : returns :=
  if stmt =? 0 then invalid h m else
  statement_call w stmt
    (fun ops => InternalBindColumn colNum targetType targetValue bufferLength strLengthOrIndicator) h m.

Definition SQLFetch (w : World) (stmt : Z) (h : Handles) (m : mem) : returns :=
  if stmt =? 0 then invalid h m else statement_call w stmt (fun ops => InternalFetchRow) h m.

Definition SQLFetchScroll (w : World) (stmt orientation : Z) (h : Handles) (m : mem) : returns :=
  if stmt =? 0 then invalid h m else statement_call w stmt (fun ops => InternalFetchScroll orientation) h m.

Definition SQLExtendedFetch (w : World) (stmt orientation rowCount rowStatusArray : Z) (h : Handles) (m : mem)
    : returns :=
  let* (res, h, m) := SQLFetchScroll w stmt (i16 orientation) h m in
  let* m :=
    if res =? SQL_SUCCESS then
      let* m := put_if rowCount 8 1 m in put_if rowStatusArray 2 SQL_ROW_SUCCESS m
    else if res =? SQL_NO_DATA then put_if rowCount 8 0 m
    else Ok m in
  Ok (res, h, m).

(** [res] of [Statement::GetColumnNumber] is at [frame]. *)
Definition SQLNumResultCols (w : World) (frame stmt columnNum : Z) (h : Handles) (m : mem) : returns :=
  if stmt =? 0 then invalid h m else
  let* (number, rc, h, m) := statement_value w stmt (fun ops => InternalGetColumnNumber) h m in
  let* res := match number with
              | Some n => Ok n
              | None => let* bs := ld frame 4 m in Ok (le_val bs)
              end in
  let* m := put_if columnNum 2 res m in
  Ok (rc, h, m).

Definition SQLTables (w : World)
    (stmt catalogName catalogNameLen schemaName schemaNameLen tableName tableNameLen tableType tableTypeLen : Z)
    (h : Handles) (m : mem) : returns :=
  if stmt =? 0 then invalid h m else
  let* catalog := SqlWcharToOptString catalogName catalogNameLen false m in
  let* schema := SqlWcharToOptString schemaName schemaNameLen false m in
  let* table := SqlWcharToOptString tableName tableNameLen false m in
  let* tableTypeStr := SqlWcharToOptString tableType tableTypeLen false m in
  statement_call w stmt
    (fun ops => InternalExecuteGetTablesMetaQuery catalog schema (default (str "%") table) tableTypeStr) h m.

Definition SQLColumns (w : World)
    (stmt catalogName catalogNameLen schemaName schemaNameLen tableName tableNameLen columnName columnNameLen : Z)
    (h : Handles) (m : mem) : returns :=
  if stmt =? 0 then invalid h m else
  let* catalog := SqlWcharToOptString catalogName catalogNameLen false m in
  let* schema := SqlWcharToOptString schemaName schemaNameLen false m in
  let* table := SqlWcharToOptString tableName tableNameLen false m in
  let* column := SqlWcharToOptString columnName columnNameLen false m in
  statement_call w stmt
    (fun ops => InternalExecuteGetColumnsMetaQuery catalog schema (default (str "%") table) (default (str "%") column))
    h m.

Definition SQLMoreResults (w : World) (stmt : Z) (h : Handles) (m : mem) : returns :=
  if stmt =? 0 then invalid h m else statement_call w stmt (fun ops => InternalMoreResults) h m.

Definition SQLBindParameter (w : World)
    (stmt paramIdx ioType bufferType paramSqlType columnSize decDigits buffer bufferLen resLen : Z)
    (h : Handles) (m : mem) : returns :=
  if stmt =? 0 then invalid h m else
  statement_call w stmt
    (fun ops => InternalBindParameter paramIdx ioType bufferType paramSqlType columnSize decDigits buffer bufferLen resLen)
    h m.

(** [val] is at [frame], the variable of [GetColumnNumber] after it. *)
Definition SQLColAttribute (w : World) (frame stmt columnNum fieldId strAttr bufferLen strAttrLen numericAttr : Z)
    (h : Handles) (m : mem) : returns :=
  if stmt =? 0 then invalid h m else
  if fieldId =? SQL_DESC_COUNT then
    let* m := st frame (le_bytes 2 0) m in
    let* (res, h, m) := SQLNumResultCols w (frame + 8) stmt frame h m in
    let* m :=
      if negb (numericAttr =? 0) && (res =? SQL_SUCCESS)
      then let* val := ld frame 2 m in st numericAttr (le_bytes 8 (i16 (le_val val))) m
      else Ok m in
    Ok (res, h, m)
  else
    statement_call w stmt
      (fun ops => InternalGetColumnAttribute columnNum fieldId strAttr bufferLen strAttrLen numericAttr) h m.

(** The first code that is an error, else the first that is not a plain success. *)
Definition combined_code (returnCodes : list Z) : Z :=
  match List.find (fun rc => negb (SQL_SUCCEEDED rc)) returnCodes with
  | Some rc => rc
  | None => default SQL_SUCCESS (List.find (fun rc => negb (rc =? SQL_SUCCESS)) returnCodes)
  end.

(** In the frame are [columnNameLenInBytes], and after it [dataTypeRes],
    [columnSizeRes], [decimalDigitsRes] and [nullableRes], eight bytes each. *)
Definition SQLDescribeCol (w : World)
    (frame stmt columnNum columnNameBuf columnNameBufLen columnNameLen dataType columnSize decimalDigits nullable : Z)
    (h : Handles) (m : mem) : returns :=
  if stmt =? 0 then invalid h m else
  let attribute id strbuf buflen reslen numbuf :=
    statement_call w stmt (fun ops => InternalGetColumnAttribute columnNum id strbuf buflen reslen numbuf) in
  let* m := st frame (le_bytes 2 0) m in
  let* (rc1, h, m) := attribute SQL_DESC_NAME columnNameBuf (i16 (columnNameBufLen * wsz)) frame 0 h m in
  let* m :=
    if columnNameLen =? 0 then Ok m
    else let* len := ld frame 2 m in st columnNameLen (le_bytes 2 (u64 (i16 (le_val len)) / wsz)) m in
  let* (rc2, h, m) := attribute SQL_DESC_TYPE 0 0 0 (frame + 8) h m in
  let* (rc3, h, m) := attribute SQL_DESC_PRECISION 0 0 0 (frame + 16) h m in
  let* (rc4, h, m) := attribute SQL_DESC_SCALE 0 0 0 (frame + 24) h m in
  let* (rc5, h, m) := attribute SQL_DESC_NULLABLE 0 0 0 (frame + 32) h m in
  let result (target : Z) (n : nat) (local : Z) (m : mem) :=
    if target =? 0 then Ok m else let* v := ld local 8 m in st target (le_bytes n (le_val v)) m in
  let* m := result dataType 2%nat (frame + 8) m in
  let* m := result columnSize 8%nat (frame + 16) m in
  let* m := result decimalDigits 2%nat (frame + 24) m in
  let* m := result nullable 2%nat (frame + 32) m in
  Ok (combined_code [rc1; rc2; rc3; rc4; rc5], h, m).

Definition SQLRowCount (w : World) (stmt rowCnt : Z) (h : Handles) (m : mem) : returns :=
  if stmt =? 0 then invalid h m else
  let* (res, rc, h, m) := statement_value w stmt (fun ops => InternalAffectedRows) h m in
  let* m := put_if rowCnt 8 (default 0 res) m in
  Ok (rc, h, m).

(** The primary table's names are read, and dropped by the statement. *)
Definition SQLForeignKeys (w : World)
    (stmt primaryCatalogName primaryCatalogNameLen primarySchemaName primarySchemaNameLen primaryTableName
     primaryTableNameLen foreignCatalogName foreignCatalogNameLen foreignSchemaName foreignSchemaNameLen
     foreignTableName foreignTableNameLen : Z) (h : Handles) (m : mem) : returns :=
  if stmt =? 0 then invalid h m else
  let* _ := SqlWcharToString primaryCatalogName primaryCatalogNameLen false m in
  let* _ := SqlWcharToString primarySchemaName primarySchemaNameLen false m in
  let* _ := SqlWcharToString primaryTableName primaryTableNameLen false m in
  let* foreignCatalog := SqlWcharToOptString foreignCatalogName foreignCatalogNameLen false m in
  let* foreignSchema := SqlWcharToOptString foreignSchemaName foreignSchemaNameLen false m in
  let* foreignTable := SqlWcharToString foreignTableName foreignTableNameLen false m in
  statement_call w stmt (fun ops => InternalExecuteGetForeignKeysQuery foreignCatalog foreignSchema foreignTable) h m.

Definition SQLGetStmtAttr (w : World) (stmt attr valueBuf valueResLen : Z) (h : Handles) (m : mem) : returns :=
  if stmt =? 0 then invalid h m else
  statement_call w stmt (fun ops => Statement.InternalGetAttribute attr valueBuf valueResLen) h m.

Definition SQLSetStmtAttr (w : World) (stmt attr value : Z) (h : Handles) (m : mem) : returns :=
  if stmt =? 0 then invalid h m else
  statement_call w stmt (fun ops => Statement.InternalSetAttribute attr value) h m.

Definition SQLPrimaryKeys (w : World)
    (stmt catalogName catalogNameLen schemaName schemaNameLen tableName tableNameLen : Z)
    (h : Handles) (m : mem) : returns :=
  if stmt =? 0 then invalid h m else
  let* catalog := SqlWcharToOptString catalogName catalogNameLen false m in
  let* schema := SqlWcharToOptString schemaName schemaNameLen false m in
  let* table := SqlWcharToOptString tableName tableNameLen false m in
  statement_call w stmt (fun ops => InternalExecuteGetPrimaryKeysQuery catalog schema table) h m.

(** Without a target nothing is asked: the code is that of the call before. *)
Definition SQLNumParams (w : World) (stmt paramCnt : Z) (h : Handles) (m : mem) : returns :=
  if stmt =? 0 then invalid h m else
  if paramCnt =? 0 then
    match h_stmts h !! stmt with
    | None => UB
    | Some (_, s) => Ok (GetReturnCode (st_diag s), h, m)
    end
  else
    let* (paramNum, rc, h, m) := statement_value w stmt (fun ops => InternalGetParametersNumber) h m in
    let* m := st paramCnt (le_bytes 2 (default 0 paramNum)) m in
    Ok (rc, h, m).

Definition SQLGetTypeInfo (w : World) (stmt type : Z) (h : Handles) (m : mem) : returns :=
  if stmt =? 0 then invalid h m else
  statement_call w stmt (fun ops => InternalExecuteGetTypeInfoQuery type) h m.

Definition SQLGetData (w : World) (stmt colNum targetType targetValue bufferLength strLengthOrIndicator : Z)
    (h : Handles) (m : mem) : returns :=
  if stmt =? 0 then invalid h m else
  let dataBuffer := ADB (ToDriverType targetType) targetValue bufferLength strLengthOrIndicator 0 0 in
  statement_call w stmt (fun ops => InternalGetColumnData colNum dataBuffer) h m.

Definition SQLSpecialColumns (w : World)
    (stmt idType catalogName catalogNameLen schemaName schemaNameLen tableName tableNameLen scope nullable : Z)
    (h : Handles) (m : mem) : returns :=
  if stmt =? 0 then invalid h m else
  let* catalog := SqlWcharToString catalogName catalogNameLen false m in
  let* schema := SqlWcharToString schemaName schemaNameLen false m in
  let* table := SqlWcharToString tableName tableNameLen false m in
  statement_call w stmt
    (fun ops => InternalExecuteSpecialColumnsQuery idType catalog schema table scope nullable) h m.

Definition SQLParamData (w : World) (stmt value : Z) (h : Handles) (m : mem) : returns :=
  if stmt =? 0 then invalid h m else statement_call w stmt (fun ops => InternalSelectParam value) h m.

Definition SQLPutData (w : World) (stmt data strLengthOrIndicator : Z) (h : Handles) (m : mem) : returns :=
  if stmt =? 0 then invalid h m else
  statement_call w stmt (fun ops => InternalPutData data strLengthOrIndicator) h m.

Definition SQLDescribeParam (w : World) (stmt paramNum dataType paramSize decimalDigits nullable : Z)
    (h : Handles) (m : mem) : returns :=
  if stmt =? 0 then invalid h m else
  statement_call w stmt
    (fun ops => InternalDescribeParam (i16 paramNum) dataType paramSize decimalDigits nullable) h m.

(** ** Diagnostics of a handle *)

(** An object of any of the three kinds: the code does not look at the kind. *)
Definition diagnostics (x : Z) (h : Handles) : option DiagnosticRecordStorage :=
  match h_envs h !! x with
  | Some e => Some (env_diag e)
  | None =>
      match h_conns h !! x with
      | Some (_, c) => Some (cn_diag c)
      | None => match h_stmts h !! x with Some (_, s) => Some (st_diag s) | None => None end
      end
  end.

Definition put_diagnostics (x : Z) (d : DiagnosticRecordStorage) (h : Handles) : Handles :=
  match h_envs h !! x with
  | Some e => put_env x (MkEnvironment (connections e) (odbcVersion e) (odbcNts e) d) h
  | None =>
      match h_conns h !! x with
      | Some (env, c) => put_conn x env (set_diag d (set_config (cn_config c) (h_logger h) c)) h
      | None =>
          match h_stmts h !! x with
          | Some (conn, s) => put_stmt x conn (with_diag d s) h
          | None => h
          end
      end
  end.

(** The storage behind a handle; [None] for a null one. *)
Definition dereference (x : Z) (h : Handles) : outcome Z (option DiagnosticRecordStorage) :=
  if x =? 0 then Ok None else
  match diagnostics x h with
  | Some d => Ok (Some d)
  | None => UB
  end.

Definition GetDiagField (frame handleType handle recNum diagId buffer bufferLen resLen : Z) (h : Handles) (m : mem)
    : returns :=
  let* d := if has_diagnostics handleType then dereference handle h else Ok None in
  let* (rc, m) := SQLGetDiagField handleType d recNum diagId buffer bufferLen resLen frame m in
  Ok (rc, h, m).

Definition GetDiagRec (handleType handle recNum sqlState nativeError msgBuffer msgBufferLen msgLen : Z)
    (h : Handles) (m : mem) : returns :=
  let* d := if has_diagnostics handleType then dereference handle h else Ok None in
  let* (rc, m) := SQLGetDiagRec handleType d recNum sqlState nativeError msgBuffer msgBufferLen msgLen m in
  Ok (rc, h, m).

Definition Error (env conn stmt state error msgBuf msgBufLen msgResLen : Z) (h : Handles) (m : mem) : returns :=
  let handle := if negb (env =? 0) then env else if negb (conn =? 0) then conn else stmt in
  let* d := dereference handle h in
  let* (rc, d, m) := SQLError d None None state error msgBuf msgBufLen msgResLen m in
  Ok (rc, match d with Some d => put_diagnostics handle d h | None => h end, m).

End odbc.
