(* ===== verification/EntryPoints.v ===== *)
(** The functions that the library exports: [src/src/odbc/src/entry_points.cpp].  Most
    forward to the functions of [odbc.cpp] (Odbc.v); the others, of ODBC 2 and for what the
    driver cannot do, report success without doing anything.  A name here is that of the
    function with [entry_] in front. *)
From S2P Require Import Prelude OrdMap Memory Utf8 TypeTraits Chrono Decimal AppBuffer AppRead Diag SqlLex Params.
From S2P Require Import Statement Config ConfigParse Meta Connection DocColumn MetaQueries DataQuery Driver Odbc.

Section entry.
Context `{Platform} `{Calendar} `{NumberTexts} `{Host}.
Context (toDouble : Decimal -> Z) (profiles : text -> profile) (info : ConnectionInfo).

Abbreviation returns := (outcome Z (Z * Handles * mem)).

(** [return SQL_SUCCESS;]. *)
Definition succeed (h : Handles) (m : mem) : returns := Ok (SQL_SUCCESS, h, m).

(** ** Functions of the driver *)

Definition entry_SQLGetInfo (conn infoType infoValue infoValueMax length : Z) : Handles -> mem -> returns :=
  Odbc.SQLGetInfo conn infoType infoValue infoValueMax length.
Definition entry_SQLAllocHandle (this type parent result : Z) : Handles -> mem -> returns :=
  Odbc.SQLAllocHandle info this type parent result.
Definition entry_SQLAllocEnv (this env : Z) : Handles -> mem -> returns :=
  Odbc.SQLAllocEnv this env.
Definition entry_SQLAllocConnect (this env conn : Z) : Handles -> mem -> returns :=
  Odbc.SQLAllocConnect info this env conn.
Definition entry_SQLAllocStmt (this conn stmt : Z) : Handles -> mem -> returns :=
  Odbc.SQLAllocStmt this conn stmt.
Definition entry_SQLFreeHandle (w : World) (type handle : Z) : Handles -> mem -> returns :=
  Odbc.SQLFreeHandle toDouble w type handle.
Definition entry_SQLFreeEnv (env : Z) : Handles -> mem -> returns :=
  Odbc.SQLFreeEnv env.
Definition entry_SQLFreeConnect (conn : Z) : Handles -> mem -> returns :=
  Odbc.SQLFreeConnect conn.
Definition entry_SQLFreeStmt (w : World) (stmt option : Z) : Handles -> mem -> returns :=
  Odbc.SQLFreeStmt toDouble w stmt option.
Definition entry_SQLCloseCursor (w : World) (stmt : Z) : Handles -> mem -> returns :=
  Odbc.SQLCloseCursor toDouble w stmt.
Definition entry_SQLDriverConnect (w : World) (conn windowHandle inConnectionString inConnectionStringLen
    outConnectionString outConnectionStringBufferLen outConnectionStringLen driverCompletion : Z) : Handles ->
    mem -> returns :=
  Odbc.SQLDriverConnect profiles w conn inConnectionString inConnectionStringLen outConnectionString
    outConnectionStringBufferLen outConnectionStringLen.
Definition entry_SQLConnect (w : World) (conn serverName serverNameLen userName userNameLen auth authLen :
    Z) : Handles -> mem -> returns :=
  Odbc.SQLConnect profiles w conn serverName serverNameLen userName userNameLen auth authLen.
Definition entry_SQLDisconnect (conn : Z) : Handles -> mem -> returns :=
  Odbc.SQLDisconnect conn.
Definition entry_SQLPrepare (w : World) (stmt query queryLen : Z) : Handles -> mem -> returns :=
  Odbc.SQLPrepare toDouble w stmt query queryLen.
Definition entry_SQLExecute (w : World) (stmt : Z) : Handles -> mem -> returns :=
  Odbc.SQLExecute toDouble w stmt.
Definition entry_SQLExecDirect (w : World) (stmt query queryLen : Z) : Handles -> mem -> returns :=
  Odbc.SQLExecDirect toDouble w stmt query queryLen.
Definition entry_SQLBindCol (w : World) (stmt colNum targetType targetValue bufferLength
    strLengthOrIndicator : Z) : Handles -> mem -> returns :=
  Odbc.SQLBindCol toDouble w stmt colNum targetType targetValue bufferLength strLengthOrIndicator.
Definition entry_SQLFetch (w : World) (stmt : Z) : Handles -> mem -> returns :=
  Odbc.SQLFetch toDouble w stmt.
Definition entry_SQLFetchScroll (w : World) (stmt orientation offset : Z) : Handles -> mem -> returns :=
  Odbc.SQLFetchScroll toDouble w stmt orientation.
Definition entry_SQLExtendedFetch (w : World) (stmt orientation offset rowCount rowStatusArray : Z) :
    Handles -> mem -> returns :=
  Odbc.SQLExtendedFetch toDouble w stmt orientation rowCount rowStatusArray.
Definition entry_SQLNumResultCols (w : World) (frame stmt columnNum : Z) : Handles -> mem -> returns :=
  Odbc.SQLNumResultCols toDouble w frame stmt columnNum.
Definition entry_SQLTables (w : World) (stmt catalogName catalogNameLen schemaName schemaNameLen tableName
    tableNameLen tableType tableTypeLen : Z) : Handles -> mem -> returns :=
  Odbc.SQLTables toDouble w stmt catalogName catalogNameLen schemaName schemaNameLen tableName tableNameLen
    tableType tableTypeLen.
Definition entry_SQLColumns (w : World) (stmt catalogName catalogNameLen schemaName schemaNameLen tableName
    tableNameLen columnName columnNameLen : Z) : Handles -> mem -> returns :=
  Odbc.SQLColumns toDouble w stmt catalogName catalogNameLen schemaName schemaNameLen tableName tableNameLen
    columnName columnNameLen.
Definition entry_SQLMoreResults (w : World) (stmt : Z) : Handles -> mem -> returns :=
  Odbc.SQLMoreResults toDouble w stmt.
Definition entry_SQLBindParameter (w : World) (stmt paramIdx ioType bufferType paramSqlType columnSize
    decDigits buffer bufferLen resLen : Z) : Handles -> mem -> returns :=
  Odbc.SQLBindParameter toDouble w stmt paramIdx ioType bufferType paramSqlType columnSize decDigits buffer
    bufferLen resLen.
Definition entry_SQLNativeSql (conn inQuery inQueryLen outQueryBuffer outQueryBufferLen outQueryLen : Z) :
    Handles -> mem -> returns :=
  Odbc.SQLNativeSql conn inQuery inQueryLen outQueryBuffer outQueryBufferLen outQueryLen.
Definition entry_SQLColAttribute (w : World) (frame stmt columnNum fieldId strAttr bufferLen strAttrLen
    numericAttr : Z) : Handles -> mem -> returns :=
  Odbc.SQLColAttribute toDouble w frame stmt columnNum fieldId strAttr bufferLen strAttrLen numericAttr.
Definition entry_SQLDescribeCol (w : World) (frame stmt columnNum columnNameBuf columnNameBufLen
    columnNameLen dataType columnSize decimalDigits nullable : Z) : Handles -> mem -> returns :=
  Odbc.SQLDescribeCol toDouble w frame stmt columnNum columnNameBuf columnNameBufLen columnNameLen dataType
    columnSize decimalDigits nullable.
Definition entry_SQLRowCount (w : World) (stmt rowCnt : Z) : Handles -> mem -> returns :=
  Odbc.SQLRowCount toDouble w stmt rowCnt.
Definition entry_SQLForeignKeys (w : World) (stmt primaryCatalogName primaryCatalogNameLen primarySchemaName
    primarySchemaNameLen primaryTableName primaryTableNameLen foreignCatalogName foreignCatalogNameLen
    foreignSchemaName foreignSchemaNameLen foreignTableName foreignTableNameLen : Z) : Handles -> mem -> returns
    :=
  Odbc.SQLForeignKeys toDouble w stmt primaryCatalogName primaryCatalogNameLen primarySchemaName
    primarySchemaNameLen primaryTableName primaryTableNameLen foreignCatalogName foreignCatalogNameLen
    foreignSchemaName foreignSchemaNameLen foreignTableName foreignTableNameLen.
Definition entry_SQLGetStmtAttr (w : World) (stmt attr valueBuf valueBufLen valueResLen : Z) : Handles ->
    mem -> returns :=
  Odbc.SQLGetStmtAttr toDouble w stmt attr valueBuf valueResLen.
Definition entry_SQLSetStmtAttr (w : World) (stmt attr value valueLen : Z) : Handles -> mem -> returns :=
  Odbc.SQLSetStmtAttr toDouble w stmt attr value.
Definition entry_SQLPrimaryKeys (w : World) (stmt catalogName catalogNameLen schemaName schemaNameLen
    tableName tableNameLen : Z) : Handles -> mem -> returns :=
  Odbc.SQLPrimaryKeys toDouble w stmt catalogName catalogNameLen schemaName schemaNameLen tableName
    tableNameLen.
Definition entry_SQLNumParams (w : World) (stmt paramCnt : Z) : Handles -> mem -> returns :=
  Odbc.SQLNumParams toDouble w stmt paramCnt.
Definition entry_SQLGetDiagField (frame handleType handle recNum diagId buffer bufferLen resLen : Z) :
    Handles -> mem -> returns :=
  Odbc.GetDiagField frame handleType handle recNum diagId buffer bufferLen resLen.
Definition entry_SQLGetDiagRec (handleType handle recNum sqlState nativeError msgBuffer msgBufferLen msgLen
    : Z) : Handles -> mem -> returns :=
  Odbc.GetDiagRec handleType handle recNum sqlState nativeError msgBuffer msgBufferLen msgLen.
Definition entry_SQLGetTypeInfo (w : World) (stmt type : Z) : Handles -> mem -> returns :=
  Odbc.SQLGetTypeInfo toDouble w stmt type.
Definition entry_SQLGetData (w : World) (stmt colNum targetType targetValue bufferLength
    strLengthOrIndicator : Z) : Handles -> mem -> returns :=
  Odbc.SQLGetData toDouble w stmt colNum targetType targetValue bufferLength strLengthOrIndicator.
Definition entry_SQLSetEnvAttr (env attr value valueLen : Z) : Handles -> mem -> returns :=
  Odbc.SQLSetEnvAttr env attr value.
Definition entry_SQLGetEnvAttr (frame env attr valueBuf valueBufLen valueResLen : Z) : Handles -> mem ->
    returns :=
  Odbc.SQLGetEnvAttr frame env attr valueBuf valueBufLen valueResLen.
Definition entry_SQLSpecialColumns (w : World) (stmt idType catalogName catalogNameLen schemaName
    schemaNameLen tableName tableNameLen scope nullable : Z) : Handles -> mem -> returns :=
  Odbc.SQLSpecialColumns toDouble w stmt idType catalogName catalogNameLen schemaName schemaNameLen tableName
    tableNameLen scope nullable.
Definition entry_SQLParamData (w : World) (stmt value : Z) : Handles -> mem -> returns :=
  Odbc.SQLParamData toDouble w stmt value.
Definition entry_SQLPutData (w : World) (stmt data strLengthOrIndicator : Z) : Handles -> mem -> returns :=
  Odbc.SQLPutData toDouble w stmt data strLengthOrIndicator.
Definition entry_SQLDescribeParam (w : World) (stmt paramNum dataType paramSize decimalDigits nullable : Z)
    : Handles -> mem -> returns :=
  Odbc.SQLDescribeParam toDouble w stmt paramNum dataType paramSize decimalDigits nullable.
Definition entry_SQLError (env conn stmt state error msgBuf msgBufLen msgResLen : Z) : Handles -> mem ->
    returns :=
  Odbc.Error env conn stmt state error msgBuf msgBufLen msgResLen.
Definition entry_SQLGetConnectAttr (conn attr valueBuf valueBufLen valueResLen : Z) : Handles -> mem ->
    returns :=
  Odbc.SQLGetConnectAttr conn attr valueBuf valueResLen.
Definition entry_SQLSetConnectAttr (conn attr value valueLen : Z) : Handles -> mem -> returns :=
  Odbc.SQLSetConnectAttr conn attr value.

(** ** Functions without an implementation *)

Definition entry_SQLEndTran (handleType handle completionType : Z) : Handles -> mem -> returns := succeed.
Definition entry_SQLCancel (stmt : Z) : Handles -> mem -> returns := succeed.
(** The number is not stored: the parameter itself is set to null. *)
Definition entry_SQLColAttributes (stmt colNum fieldId strAttrBuf strAttrBufLen strAttrResLen numAttrBuf : Z)
    (h : Handles) (m : mem) : returns :=
  let* m := put_if strAttrResLen 2 0 m in
  succeed h m.
(** Nor is the length here. *)
Definition entry_SQLGetCursorName (stmt nameBuf nameBufLen nameResLen : Z) : Handles -> mem -> returns := succeed.
Definition entry_SQLSetCursorName (stmt name nameLen : Z) : Handles -> mem -> returns := succeed.
Definition entry_SQLGetConnectOption (conn option value : Z) : Handles -> mem -> returns := succeed.
Definition entry_SQLGetStmtOption (stmt option value : Z) : Handles -> mem -> returns := succeed.
Definition entry_SQLSetConnectOption (conn option value : Z) : Handles -> mem -> returns := succeed.
Definition entry_SQLSetStmtOption (stmt option value : Z) : Handles -> mem -> returns := succeed.
Definition entry_SQLStatistics (stmt catalogName catalogNameLen schemaName schemaNameLen tableName tableNameLen
    unique reserved : Z) : Handles -> mem -> returns := succeed.
(** Nor here. *)
Definition entry_SQLBrowseConnect (conn inConnectionStr inConnectionStrLen outConnectionStrBuf
    outConnectionStrBufLen outConnectionStrResLen : Z) : Handles -> mem -> returns := succeed.
Definition entry_SQLProcedureColumns (stmt catalogName catalogNameLen schemaName schemaNameLen procName
    procNameLen columnName columnNameLen : Z) : Handles -> mem -> returns := succeed.
Definition entry_SQLSetPos (stmt rowNum operation lockType : Z) : Handles -> mem -> returns := succeed.
Definition entry_SQLSetScrollOptions (stmt concurrency crowKeyset crowRowset : Z) : Handles -> mem -> returns :=
  succeed.
Definition entry_SQLBulkOperations (stmt operation : Z) : Handles -> mem -> returns := succeed.
Definition entry_SQLTablePrivileges (stmt catalogName catalogNameLen schemaName schemaNameLen tableName
    tableNameLen : Z) : Handles -> mem -> returns := succeed.
Definition entry_SQLCopyDesc (src dst : Z) : Handles -> mem -> returns := succeed.
Definition entry_SQLGetDescField (descr recNum fieldId buffer bufferLen resLen : Z) (h : Handles) (m : mem) : returns :=
  let* m := put_if buffer (if 0 <? bufferLen then Z.to_nat wsz else 8%nat) 0 m in
  let* m := put_if resLen 4 0 m in
  succeed h m.
Definition entry_SQLGetDescRec (DescriptorHandle RecNumber nameBuffer nameBufferLen strLen type subType len
    precision scale nullable : Z) (h : Handles) (m : mem) : returns :=
  let* m := put_if strLen 2 0 m in
  let* m := put_if type 2 0 m in
  let* m := put_if subType 2 0 m in
  let* m := put_if len 8 0 m in
  let* m := put_if precision 2 0 m in
  let* m := put_if scale 2 0 m in
  let* m := put_if nullable 2 0 m in
  succeed h m.
Definition entry_SQLSetDescField (descr recNum fieldId buffer bufferLen : Z) : Handles -> mem -> returns := succeed.
Definition entry_SQLSetDescRec (descr recNum type subType len precision scale buffer resLen id : Z)
  : Handles -> mem -> returns := succeed.
Definition entry_SQLColumnPrivileges (stmt catalogName catalogNameLen schemaName schemaNameLen tableName
    tableNameLen columnName columnNameLen : Z) : Handles -> mem -> returns := succeed.
Definition entry_SQLParamOptions (stmt paramSetSize paramsProcessed : Z) : Handles -> mem -> returns := succeed.
Definition entry_SQLProcedures (stmt catalogName catalogNameLen schemaName schemaNameLen tableName
    tableNameLen : Z) : Handles -> mem -> returns := succeed.

(** * What they do *)

(** The functions without an implementation, with the variables of the caller that they
    set. *)
Inductive unimplemented : (Handles -> mem -> returns) -> list (Z * nat) -> Prop :=
| u_end_tran k x t : unimplemented (entry_SQLEndTran k x t) []
| u_cancel x : unimplemented (entry_SQLCancel x) []
| u_col_attributes x c f b l r n : unimplemented (entry_SQLColAttributes x c f b l r n) [(r, 2%nat)]
| u_get_cursor_name x b l r : unimplemented (entry_SQLGetCursorName x b l r) []
| u_set_cursor_name x b l : unimplemented (entry_SQLSetCursorName x b l) []
| u_get_connect_option x o v : unimplemented (entry_SQLGetConnectOption x o v) []
| u_get_stmt_option x o v : unimplemented (entry_SQLGetStmtOption x o v) []
| u_set_connect_option x o v : unimplemented (entry_SQLSetConnectOption x o v) []
| u_set_stmt_option x o v : unimplemented (entry_SQLSetStmtOption x o v) []
| u_statistics x a al b bl c cl u r : unimplemented (entry_SQLStatistics x a al b bl c cl u r) []
| u_browse_connect x i il o ol r : unimplemented (entry_SQLBrowseConnect x i il o ol r) []
| u_procedure_columns x a al b bl c cl d dl : unimplemented (entry_SQLProcedureColumns x a al b bl c cl d dl) []
| u_set_pos x r o k : unimplemented (entry_SQLSetPos x r o k) []
| u_set_scroll_options x c k r : unimplemented (entry_SQLSetScrollOptions x c k r) []
| u_bulk_operations x o : unimplemented (entry_SQLBulkOperations x o) []
| u_table_privileges x a al b bl c cl : unimplemented (entry_SQLTablePrivileges x a al b bl c cl) []
| u_copy_desc s d : unimplemented (entry_SQLCopyDesc s d) []
| u_get_desc_field x n f b l r :
    unimplemented (entry_SQLGetDescField x n f b l r) [(b, if 0 <? l then Z.to_nat wsz else 8%nat); (r, 4%nat)]
| u_get_desc_rec x n b bl sl t st l p sc k :
    unimplemented (entry_SQLGetDescRec x n b bl sl t st l p sc k)
      [(sl, 2%nat); (t, 2%nat); (st, 2%nat); (l, 8%nat); (p, 2%nat); (sc, 2%nat); (k, 2%nat)]
| u_set_desc_field x n f b l : unimplemented (entry_SQLSetDescField x n f b l) []
| u_set_desc_rec x n t st l p sc b r i : unimplemented (entry_SQLSetDescRec x n t st l p sc b r i) []
| u_column_privileges x a al b bl c cl d dl : unimplemented (entry_SQLColumnPrivileges x a al b bl c cl d dl) []
| u_param_options x s p : unimplemented (entry_SQLParamOptions x s p) []
| u_procedures x a al b bl c cl : unimplemented (entry_SQLProcedures x a al b bl c cl) [].

(** Setting the variables that are there to zero. *)
Fixpoint clear (l : list (Z * nat)) (m : mem) : outcome Z mem :=
  match l with [] => Ok m | (p, n) :: l => let* m := put_if p n 0 m in clear l m end.

Definition within (x : Z) (pn : Z * nat) : bool := negb (pn.1 =? 0) && (pn.1 <=? x) && (x <? pn.1 + Z.of_nat pn.2).

Lemma zero_bytes n i : (i < n)%nat -> le_bytes n 0 !! i = Some 0.
Proof. revert i. induction n as [|n IH]; intros [|i] Hi; [lia..|done|]. apply (IH i). lia. Qed.

Lemma put_zero p n m :
  (p <> 0 -> mapped p (Z.of_nat n) m) ->
  exists m', put_if p n 0 m = Ok m' /\ forall x, m' !! x = if within x (p, n) then Some 0 else m !! x.
Proof.
  intros Hm. unfold put_if, within. cbn [fst snd]. destruct (Z.eqb_spec p 0) as [->|Hp]; [by exists m|].
  destruct (store_spec p (le_bytes n 0) m) as (m' & Hs & Hl); [rewrite le_bytes_length; by apply Hm|].
  unfold st. rewrite Hs. exists m'. split; [done|]. intros x. rewrite Hl, le_bytes_length. cbn [negb andb].
  case_decide as Hd; destruct (Z.leb_spec p x), (Z.ltb_spec x (p + Z.of_nat n)); try lia; [|done..].
  apply zero_bytes. lia.
Qed.

Lemma clear_spec l : forall m,
  (forall p n, (p, n) ∈ l -> p <> 0 -> mapped p (Z.of_nat n) m) ->
  exists m', clear l m = Ok m' /\ forall x, m' !! x = if existsb (within x) l then Some 0 else m !! x.
Proof.
  induction l as [|[p n] l IH]; intros m Hm; cbn [clear existsb]; [by exists m|].
  destruct (put_zero p n m) as (m1 & -> & Hz); [apply Hm, elem_of_cons; by left|]. cbn [obind].
  destruct (IH m1) as (m' & -> & Hl).
  { intros q k Hq Hq0 x Hx. rewrite Hz. case_match; [by eexists|].
    apply (Hm q k); [apply elem_of_cons; by right|done|done]. }
  exists m'. split; [done|]. intros x. rewrite Hl, Hz. by destruct (within x (p, n)), (existsb (within x) l).
Qed.

(** The exported functions without an implementation all report success: whatever the
    handles are, valid or not, they change none, and they set the variables listed above
    to zero and nothing else. *)
Theorem unimplemented_succeed f outs h m :
  unimplemented f outs -> (forall p n, (p, n) ∈ outs -> p <> 0 -> mapped p (Z.of_nat n) m) ->
  exists m', f h m = Ok (SQL_SUCCESS, h, m') /\ forall x, m' !! x = if existsb (within x) outs then Some 0 else m !! x.
Proof.
  intros Hf Hm. destruct (clear_spec outs m Hm) as (m' & Hc & Hl). exists m'. split; [|done].
  assert (f h m = (let* m := clear outs m in succeed h m)) as ->; [|by rewrite Hc].
  destruct Hf; try reflexivity; cbv beta delta [entry_SQLColAttributes entry_SQLGetDescField entry_SQLGetDescRec];
    cbn [clear]; repeat (destruct (put_if _ _ _ _); [cbn [obind]|reflexivity..]); reflexivity.
Qed.

(** A length that was 0x0707; the handle is null. *)
End entry.

Lemma unimplemented_succeed_witness :
  exists m', entry_SQLGetDescRec 0 1 0 0 100 0 0 0 0 0 0 (no_handles (MkLogger LL.OFF [])) (<[100 := 7]> (<[101 := 7]> ∅))
      = Ok (SQL_SUCCESS, no_handles (MkLogger LL.OFF []), m') /\ m' !! 100 = Some 0.
Proof.
  destruct (unimplemented_succeed _ _ (no_handles (MkLogger LL.OFF [])) (<[100 := 7]> (<[101 := 7]> ∅))
    (u_get_desc_rec 0 1 0 0 100 0 0 0 0 0 0)) as (m' & Hf & Hl).
  - intros p n Hp Hp0. repeat (apply elem_of_cons in Hp as [Hp|Hp]; [injection Hp as -> ->; try done|]);
      [|by apply elem_of_nil in Hp]. apply mapped_seq. repeat constructor; by eexists.
  - exists m'. split; [exact Hf|]. by rewrite Hl.
Defined.
