(* ===== verification/OdbcInv.v ===== *)
(** The invariant of the handles under every function of [odbc.cpp]: which objects there
    are, how they refer to each other, what each of them keeps; and which object a call
    may change. *)
From S2P Require Import Prelude OrdMap Memory Utf8 TypeTraits Chrono Decimal AppBuffer AppRead Diag SqlLex Params.
From S2P Require Import Statement StmtInv Config ConfigParse ConfigRound Meta Connection ConnProps DocColumn.
From S2P Require Import MetaQueries DataQuery DataProps Driver DriverProps Odbc.

(** An environment knows exactly the connections made from it; a connection's
    environment is alive, a statement's connection is; every connection and every
    statement keeps its own invariant; a handle is not null, and of one kind. *)
Record handles_ok (h : Handles) : Prop := MkOk {
  ok_env : forall x e c, h_envs h !! x = Some e ->
    c ∈ connections e <-> exists conn, h_conns h !! c = Some (x, conn);
  ok_conn : forall x env c, h_conns h !! x = Some (env, c) -> is_Some (h_envs h !! env) /\ connection_ok c;
  ok_stmt : forall x conn s, h_stmts h !! x = Some (conn, s) -> is_Some (h_conns h !! conn) /\ statement_ok s;
  ok_null : h_envs h !! 0 = None /\ h_conns h !! 0 = None /\ h_stmts h !! 0 = None;
  ok_kinds : forall x, (is_Some (h_envs h !! x) -> h_conns h !! x = None /\ h_stmts h !! x = None)
                       /\ (is_Some (h_conns h !! x) -> h_stmts h !! x = None)
}.

(** An address [new] may return. *)
Definition fresh (this : Z) (h : Handles) : Prop :=
  this <> 0 /\ h_envs h !! this = None /\ h_conns h !! this = None /\ h_stmts h !! this = None.

(** What a call on handle [x] that makes or frees nothing may do. *)
Record touches (x : Z) (h h' : Handles) : Prop := MkTouches {
  to_envs : forall y, connections <$> h_envs h' !! y = connections <$> h_envs h !! y;
  to_conns : forall y, fst <$> h_conns h' !! y = fst <$> h_conns h !! y;
  to_stmts : forall y, fst <$> h_stmts h' !! y = fst <$> h_stmts h !! y;
  to_conn_ok : (forall y ec, h_conns h !! y = Some ec -> connection_ok ec.2) ->
    forall y ec, h_conns h' !! y = Some ec -> connection_ok ec.2;
  to_stmt_ok : (forall y cs, h_stmts h !! y = Some cs -> statement_ok cs.2) ->
    forall y cs, h_stmts h' !! y = Some cs -> statement_ok cs.2;
  to_others : forall y, y <> x ->
    h_envs h' !! y = h_envs h !! y /\ h_conns h' !! y = h_conns h !! y /\ h_stmts h' !! y = h_stmts h !! y
}.

#[export] Instance touches_preorder x : PreOrder (touches x).
Proof.
  split; [by split|]. intros a b c [E1 C1 S1 K1 L1 O1] [E2 C2 S2 K2 L2 O2]. split; try (intros y; congruence).
  - intros Ha. exact (K2 (K1 Ha)).
  - intros Ha. exact (L2 (L1 Ha)).
  - intros y Hy. destruct (O1 y Hy) as (? & ? & ?), (O2 y Hy) as (? & ? & ?). split_and!; congruence.
Qed.

Lemma is_Some_fmap_eq {A B} (f : A -> B) (a b : option A) : f <$> a = f <$> b -> is_Some a <-> is_Some b.
Proof. destruct a, b; cbn; intros [=]; split; intros [? ?]; eauto; done. Qed.

Lemma fmap_eq_Some {A B} (f : A -> B) (a b : option A) z : f <$> a = f <$> b -> a = Some z -> exists z', b = Some z' /\ f z' = f z.
Proof. intros E ->. destruct b; [|done]. injection E as ->. eauto. Qed.

Lemma fmap_eq_None {A B} (f : A -> B) (a b : option A) : f <$> a = f <$> b -> b = None -> a = None.
Proof. intros E ->. by destruct a. Qed.

Lemma same_parent {A B} (a b : option (A * B)) p v : fst <$> a = fst <$> b -> a = Some (p, v) -> exists v', b = Some (p, v').
Proof. intros E ->. destruct b as [[q v']|]; [|done]. injection E as ->. eauto. Qed.

Lemma touches_ok x h h' : touches x h h' -> handles_ok h -> handles_ok h'.
Proof.
  intros [E C S K L _] [Oe Oc Os (N1 & N2 & N3) Ok]. split.
  - intros y e c He. destruct (fmap_eq_Some _ _ _ _ (E y) He) as (e0 & He0 & <-). rewrite (Oe _ _ _ He0).
    split; intros [conn Hc].
    + exact (same_parent _ _ _ _ (eq_sym (C c)) Hc).
    + exact (same_parent _ _ _ _ (C c) Hc).
  - intros y env c Hc. split; [|by apply (K ltac:(intros ? [] ?; by eapply Oc) _ _ Hc)].
    apply (is_Some_fmap_eq _ _ _ (E env)). destruct (same_parent _ _ _ _ (C y) Hc).
    by eapply Oc.
  - intros y conn s Hs. split; [|by apply (L ltac:(intros ? [] ?; by eapply Os) _ _ Hs)].
    apply (is_Some_fmap_eq _ _ _ (C conn)). destruct (same_parent _ _ _ _ (S y) Hs).
    by eapply Os.
  - split_and!; [exact (fmap_eq_None _ _ _ (E 0) N1)|exact (fmap_eq_None _ _ _ (C 0) N2)|exact (fmap_eq_None _ _ _ (S 0) N3)].
  - intros y. destruct (Ok y) as [H1 H2]. split.
    + intros Hy. apply (is_Some_fmap_eq _ _ _ (E y)) in Hy. destruct (H1 Hy) as [Hc Hs]. split; [exact (fmap_eq_None _ _ _ (C y) Hc)|exact (fmap_eq_None _ _ _ (S y) Hs)].
    + intros Hy. apply (is_Some_fmap_eq _ _ _ (C y)) in Hy. exact (fmap_eq_None _ _ _ (S y) (H2 Hy)).
Qed.

Lemma touches_env x e e' h :
  h_envs h !! x = Some e -> connections e' = connections e -> touches x h (put_env x e' h).
Proof.
  intros He Hc. split; try done.
  - intros y. cbn. destruct (decide (y = x)) as [->|]; [by rewrite lookup_insert_eq, He; cbn; rewrite Hc|by rewrite lookup_insert_ne].
  - intros y Hy. cbn. by rewrite lookup_insert_ne.
Qed.

Lemma touches_conn x env c c' h :
  h_conns h !! x = Some (env, c) -> (connection_ok c -> connection_ok c') -> touches x h (put_conn x env c' h).
Proof.
  intros Hx Hc. split; try done.
  - intros y. cbn. destruct (decide (y = x)) as [->|]; [by rewrite lookup_insert_eq, Hx|by rewrite lookup_insert_ne].
  - intros Hall y ec. cbn. destruct (decide (y = x)) as [->|]; [rewrite lookup_insert_eq; intros [= <-]|rewrite lookup_insert_ne by done; apply Hall].
    apply Hc. apply (Hall _ _ Hx).
  - intros y Hy. cbn. by rewrite lookup_insert_ne.
Qed.

Lemma touches_stmt x conn s s' h :
  h_stmts h !! x = Some (conn, s) -> (statement_ok s -> statement_ok s') -> touches x h (put_stmt x conn s' h).
Proof.
  intros Hx Hs. split; try done.
  - intros y. cbn. destruct (decide (y = x)) as [->|]; [by rewrite lookup_insert_eq, Hx|by rewrite lookup_insert_ne].
  - intros Hall y cs. cbn. destruct (decide (y = x)) as [->|]; [rewrite lookup_insert_eq; intros [= <-]|rewrite lookup_insert_ne by done; apply Hall].
    apply Hs. apply (Hall _ _ Hx).
  - intros y Hy. cbn. by rewrite lookup_insert_ne.
Qed.

Lemma touches_logger x l h : touches x h (set_logger l h).
Proof. by split. Qed.

(** [returned] takes apart a run that returns; how the memory came about does not matter. *)
Ltac returned :=
  repeat (cbn [obind] in *;
    match goal with
    | E : Ok _ = Ok _ |- _ => injection E; clear E; intros; subst
    | E : UB = Ok _ |- _ => discriminate E
    | E : Throw _ = Ok _ |- _ => discriminate E
    | E : (if ?c then _ else _) = Ok _ |- _ => destruct c eqn:?
    | E : (let (_, _) := ?x in _) = Ok _ |- _ => destruct x eqn:?
    | E : obind ?e _ = Ok _ |- _ =>
        lazymatch type of e with
        | outcome _ mem => destruct e; [cbn [obind] in E|discriminate E..]
        | _ => destruct e eqn:?; [cbn [obind] in E|discriminate E..]
        end
    | E : match ?x with _ => _ end = Ok _ |- _ => destruct x eqn:?
    end).

Section calls.
Context `{Platform} `{Calendar} `{NumberTexts} `{Host}.
Context (toDouble : Decimal -> Z) (profiles : text -> profile) (info : ConnectionInfo).

Abbreviation returns := (outcome Z (Z * Handles * mem)).

(** ** The calls on one object *)

Lemma statement_touches w x f h m rc h' m' :
  (forall ops, @handle_call Query ops _ _ (f ops)) ->
  statement_call toDouble w x f h m = Ok (rc, h', m') -> touches x h h'.
Proof.
  intros Hf. unfold statement_call. destruct (h_stmts h !! x) as [[conn s]|] eqn:Ex; [|done].
  destruct (api _ s m) as [[s' m1]|?|] eqn:E; cbn [obind]; try done. intros [= _ <- _].
  apply (touches_stmt x conn s); [done|]. intros Hs.
  exact (step_keeps_ok _ _ (step_call _ _ _ _ _ (Hf _) E) Hs).
Qed.

Lemma value_touches w x f h m v rc h' m' :
  (forall ops, @handle_call Query ops _ _ (valueless (f ops))) ->
  statement_value toDouble w x f h m = Ok (v, rc, h', m') -> touches x h h'.
Proof.
  intros Hf. unfold statement_value. destruct (h_stmts h !! x) as [[conn s]|] eqn:Ex; [|done].
  destruct (f _ (with_diag _ s) m) as [[[[v1 r1] s1] m1]|?|] eqn:E; cbn [obind]; try done. intros [= _ _ <- _].
  apply (touches_stmt x conn s); [done|]. intros Hs.
  eapply (step_keeps_ok _ (_, m1) (step_call _ _ m _ _ (Hf (queries_of toDouble conn h w)) _) Hs).
  Unshelve. unfold api, api_call, valueless. cbn [fst snd]. by rewrite E.
Qed.

Definition keeps_link (f : Connection -> mem -> outcome Z (SR.SqlResult * Connection * mem)) : Prop :=
  forall c m r c' m', connection_ok c -> f c m = Ok (r, c', m') -> connection_ok c'.

Lemma connection_touches x f h m rc h' m' :
  keeps_link f -> connection_call_on x f h m = Ok (rc, h', m') -> touches x h h'.
Proof.
  intros Hf. unfold connection_call_on. destruct (h_conns h !! x) as [[env c]|] eqn:Ex; [|done].
  unfold conn_api, api_call. cbn [fst snd].
  destruct (f _ m) as [[[r c1] m1]|?|] eqn:E; cbn [obind fst snd]; try done. intros [= _ <- _].
  apply (touches_conn x env c); [done|]. intros Hc. by eapply Hf in E.
Qed.

Lemma call_keeps_link k : keeps_link (connection_call_of profiles k).
Proof. intros c m r c' m' Hc E. by apply (call_phase profiles k c m r c' m'). Qed.

Lemma environment_touches x f h m rc h' m' :
  (forall e m r e' m', f e m = Ok (r, e', m') -> connections e' = connections e) ->
  environment_call x f h m = Ok (rc, h', m') -> touches x h h'.
Proof.
  intros Hf. unfold environment_call. destruct (h_envs h !! x) as [e|] eqn:Ex; [|done].
  unfold env_api, api_call. cbn [fst snd].
  destruct (f _ m) as [[[r e1] m1]|?|] eqn:E; cbn [obind fst snd]; try done. intros [= _ <- _].
  apply (touches_env x e); [done|]. exact (Hf _ _ _ _ _ E).
Qed.

(** ** The entry points that neither make nor free an object *)

(** With the handle each is called on; arguments have the widths of their types. *)
Inductive entry_call : Z -> (Handles -> mem -> returns) -> Prop :=
| e_get_info x t v k l : entry_call x (SQLGetInfo x t v k l)
| e_driver_connect x w i il o ol l : entry_call x (SQLDriverConnect profiles w x i il o ol l)
| e_connect x w s sl u ul a al : entry_call x (SQLConnect profiles w x s sl u ul a al)
| e_disconnect x : entry_call x (SQLDisconnect x)
| e_get_connect_attr x a v l : entry_call x (SQLGetConnectAttr x a v l)
| e_set_connect_attr x a v : entry_call x (SQLSetConnectAttr x a v)
| e_native_sql x i il o ol l : entry_call x (SQLNativeSql x i il o ol l)
| e_set_env_attr x a v : entry_call x (SQLSetEnvAttr x a v)
| e_get_env_attr x f a v k l : entry_call x (SQLGetEnvAttr f x a v k l)
| e_prepare x w q l : entry_call x (SQLPrepare toDouble w x q l)
| e_execute x w : entry_call x (SQLExecute toDouble w x)
| e_exec_direct x w q l : entry_call x (SQLExecDirect toDouble w x q l)
| e_bind_col x w c t v k i : entry_call x (SQLBindCol toDouble w x c t v k i)
| e_fetch x w : entry_call x (SQLFetch toDouble w x)
| e_fetch_scroll x w o : entry_call x (SQLFetchScroll toDouble w x o)
| e_extended_fetch x w o c a : entry_call x (SQLExtendedFetch toDouble w x o c a)
| e_num_result_cols x w f n : entry_call x (SQLNumResultCols toDouble w f x n)
| e_tables x w c cl s sl t tl k kl : entry_call x (SQLTables toDouble w x c cl s sl t tl k kl)
| e_columns x w c cl s sl t tl k kl : entry_call x (SQLColumns toDouble w x c cl s sl t tl k kl)
| e_more_results x w : entry_call x (SQLMoreResults toDouble w x)
| e_bind_parameter x w i io bt t cs d b bl l :
    0 <= i < 2 ^ 16 -> entry_call x (SQLBindParameter toDouble w x i io bt t cs d b bl l)
| e_col_attribute x w f c i a k l n : entry_call x (SQLColAttribute toDouble w f x c i a k l n)
| e_describe_col x w f c b k l t s d n : entry_call x (SQLDescribeCol toDouble w f x c b k l t s d n)
| e_row_count x w c : entry_call x (SQLRowCount toDouble w x c)
| e_foreign_keys x w a al b bl c cl d dl e el f fl :
    entry_call x (SQLForeignKeys toDouble w x a al b bl c cl d dl e el f fl)
| e_get_stmt_attr x w a v l : entry_call x (SQLGetStmtAttr toDouble w x a v l)
| e_set_stmt_attr x w a v : 0 <= v < 2 ^ 64 -> entry_call x (SQLSetStmtAttr toDouble w x a v)
| e_primary_keys x w c cl s sl t tl : entry_call x (SQLPrimaryKeys toDouble w x c cl s sl t tl)
| e_num_params x w c : entry_call x (SQLNumParams toDouble w x c)
| e_type_info x w t : entry_call x (SQLGetTypeInfo toDouble w x t)
| e_get_data x w c t v k i : entry_call x (SQLGetData toDouble w x c t v k i)
| e_special_columns x w i c cl s sl t tl k n :
    entry_call x (SQLSpecialColumns toDouble w x i c cl s sl t tl k n)
| e_param_data x w v : entry_call x (SQLParamData toDouble w x v)
| e_put_data x w d l : entry_call x (SQLPutData toDouble w x d l)
| e_describe_param x w n t s d k : entry_call x (SQLDescribeParam toDouble w x n t s d k)
| e_close_cursor x w : entry_call x (SQLCloseCursor toDouble w x)
| e_get_diag_field x f k n i b l r : entry_call x (GetDiagField f k x n i b l r)
| e_get_diag_rec x k n s e b l r : entry_call x (GetDiagRec k x n s e b l r)
| e_error env conn stmt s e b l r :
    entry_call (if negb (env =? 0) then env else if negb (conn =? 0) then conn else stmt) (Error env conn stmt s e b l r).

Lemma put_diagnostics_touches x d h : touches x h (put_diagnostics x d h).
Proof.
  unfold put_diagnostics. destruct (h_envs h !! x) as [e|] eqn:He; [by apply (touches_env x e)|].
  destruct (h_conns h !! x) as [[env c]|] eqn:Hc; [by apply (touches_conn x env c)|].
  destruct (h_stmts h !! x) as [[conn s]|] eqn:Hs; [by apply (touches_stmt x conn s)|reflexivity].
Qed.

Ltac entry E := unfold
  Error, GetDiagField, GetDiagRec, SQLBindCol, SQLBindParameter, SQLCloseCursor,
  SQLColAttribute, SQLColumns, SQLConnect, SQLDescribeCol, SQLDescribeParam, SQLDisconnect,
  SQLDriverConnect, SQLExecDirect, SQLExecute, SQLExtendedFetch, SQLFetch, SQLFetchScroll,
  SQLForeignKeys, SQLGetConnectAttr, SQLGetData, SQLGetEnvAttr, SQLGetInfo, SQLGetStmtAttr,
  SQLGetTypeInfo, SQLMoreResults, SQLNativeSql, SQLNumParams, SQLNumResultCols, SQLParamData,
  SQLPrepare, SQLPrimaryKeys, SQLPutData, SQLRowCount, SQLSetConnectAttr, SQLSetEnvAttr,
  SQLSetStmtAttr, SQLSpecialColumns, SQLTables
  in E; unfold invalid in E; returned; try reflexivity.

(** What the calls of the run touch. *)
Ltac touching :=
  repeat match goal with
  | E : statement_call _ _ _ _ _ _ = Ok _ |- _ =>
      apply statement_touches in E; [|intros ops; cbv beta; by constructor]
  | E : statement_value _ _ _ _ _ _ = Ok _ |- _ =>
      apply value_touches in E; [|intros ops; cbv beta; by constructor]
  | E : connection_call_on _ _ _ _ = Ok _ |- _ =>
      apply connection_touches in E; [|first
        [apply (call_keeps_link (cc_get_info _ _ _ _))
        |apply (call_keeps_link (cc_establish_text _ _))
        |apply (call_keeps_link (cc_establish _ _))
        |apply (call_keeps_link cc_release)
        |apply (call_keeps_link (cc_get_attribute _ _ _))
        |apply (call_keeps_link (cc_set_attribute _ _))]]
  end;
  first [eassumption|etransitivity; [apply touches_logger|eassumption]|do 4 (etransitivity; [eassumption|]); eassumption].

Lemma native_link i il o ol c m v r c' m' :
  InternalNativeSql i il o ol c m = Ok (v, r, c', m') -> same_link c c'.
Proof. unfold InternalNativeSql. intros E. returned; try by split. repeat case_match; by simplify_eq. Qed.

Lemma env_get_connections a b e m r e' m' :
  env_InternalGetAttribute a b e m = Ok (r, e', m') -> connections e' = connections e.
Proof. unfold env_InternalGetAttribute. intros E. returned; done. Qed.

Lemma env_set_connections a v e r e' : env_InternalSetAttribute a v e = (r, e') -> connections e' = connections e.
Proof. unfold env_InternalSetAttribute. intros E. repeat case_match; by simplify_eq. Qed.

Lemma calls_touch x f : entry_call x f -> forall h m rc h' m', f h m = Ok (rc, h', m') -> touches x h h'.
Proof.
  destruct 1; intros h m rc h' m' E; entry E.
  all: try (touching; fail).
  - eapply touches_conn; [eassumption|]. intros Hc.
    match goal with E : InternalNativeSql _ _ _ _ _ _ = _ |- _ => apply native_link in E as [E1 E2] end.
    by apply (same_link_phase c c0).
  - eapply environment_touches; [|eassumption]. intros e ? ? ? ? E'. cbv beta in E'.
    destruct (env_InternalSetAttribute a v e) eqn:Ee. simplify_eq. by eapply env_set_connections.
  - eapply environment_touches; [|eassumption]. intros ? ? ? ? ? E'. by eapply env_get_connections.
  - destruct o; [apply put_diagnostics_touches|reflexivity].
Qed.

(** ** Making and freeing objects *)

Ltac kinds Hok :=
  destruct Hok as [Oe Oc Os (N1 & N2 & N3) Ok]; split; cbn [h_envs h_conns h_stmts put_env put_conn put_stmt del_env del_conn del_stmt].

(** An object added under a fresh address. *)
Lemma add_env_ok this h : fresh this h -> handles_ok h -> handles_ok (put_env this new_environment h).
Proof.
  intros (Hn & He & Hc & Hs) Hok. kinds Hok.
  - intros x e c. destruct (decide (x = this)) as [->|]; [rewrite lookup_insert_eq|rewrite lookup_insert_ne by done; apply Oe].
    intros [= <-]. split; [cbn; set_solver|]. intros [conn Hx]. destruct (Oc _ _ _ Hx) as [[? ?] _]. congruence.
  - intros x env c Hx. destruct (Oc _ _ _ Hx) as [? ?]. split; [|done]. rewrite lookup_insert_is_Some'. tauto.
  - exact Os.
  - rewrite lookup_insert_ne by done. done.
  - intros x. destruct (decide (x = this)) as [->|]; [split; [done|congruence||by rewrite Hc; intros [? ?]]|].
    rewrite lookup_insert_ne by done. apply Ok.
Qed.

Lemma add_stmt_ok this conn (s : Statement Query) h :
  fresh this h -> is_Some (h_conns h !! conn) -> statement_ok s -> handles_ok h -> handles_ok (put_stmt this conn s h).
Proof.
  intros (Hn & He & Hc & Hs) Hconn Hst Hok. kinds Hok; try done.
  - intros x c' s'. destruct (decide (x = this)) as [->|]; [rewrite lookup_insert_eq; by intros [= <- <-]|rewrite lookup_insert_ne by done; apply Os].
  - rewrite lookup_insert_ne by done. done.
  - intros x. destruct (decide (x = this)) as [->|]; [rewrite He, Hc; by split; intros [? ?]|].
    rewrite lookup_insert_ne by done. apply Ok.
Qed.
Lemma add_conn_ok this env e e' c h :
  fresh this h -> h_envs h !! env = Some e -> connections e' = {[ this ]} ∪ connections e -> connection_ok c ->
  handles_ok h -> handles_ok (put_conn this env c (put_env env e' h)).
Proof.
  intros (Hn & He & Hc & Hs) Henv He' Hok Hh. assert (env <> this) as Hne by congruence. kinds Hh.
  - intros x y k Hx. destruct (decide (k = this)) as [->|Hk].
    + rewrite lookup_insert_eq. destruct (decide (x = env)) as [->|Hxe].
      * rewrite lookup_insert_eq in Hx. injection Hx as <-. rewrite He'. split; [eauto|].
        intros _. by apply elem_of_union_l, elem_of_singleton.
      * rewrite lookup_insert_ne in Hx by done. rewrite (Oe _ _ _ Hx). rewrite Hc.
        split; [by intros [? ?]|intros [? [= ? ?]]; congruence].
    + rewrite (lookup_insert_ne (h_conns h)) by done. destruct (decide (x = env)) as [->|Hxe].
      * rewrite lookup_insert_eq in Hx. injection Hx as <-. rewrite He', <- (Oe _ _ _ Henv), elem_of_union, elem_of_singleton. tauto.
      * rewrite lookup_insert_ne in Hx by done. by apply Oe.
  - intros x y k. destruct (decide (x = this)) as [->|Hx].
    + rewrite lookup_insert_eq. intros [= <- <-]. split; [|done]. rewrite lookup_insert_eq. eauto.
    + rewrite (lookup_insert_ne (h_conns h)) by done. intros Hxc. destruct (Oc _ _ _ Hxc).
      split; [|done]. rewrite lookup_insert_is_Some'. tauto.
  - intros x y k Hx. destruct (Os _ _ _ Hx). split; [|done]. rewrite lookup_insert_is_Some'. tauto.
  - rewrite !lookup_insert_ne by congruence. done.
  - intros x. destruct (decide (x = this)) as [->|Hx].
    + rewrite Hs, (lookup_insert_ne (h_envs h)), He by done. split; [by intros [? ?]|done].
    + rewrite (lookup_insert_ne (h_conns h)) by done. destruct (Ok x) as [K1 K2]. split; [|done].
      intros Hsome. apply K1. destruct (decide (x = env)) as [->|]; [by rewrite Henv; eauto|].
      by rewrite lookup_insert_ne in Hsome.
Qed.

Lemma del_env_ok x h : (forall c conn, h_conns h !! c <> Some (x, conn)) -> handles_ok h -> handles_ok (del_env x h).
Proof.
  intros Hno Hok. kinds Hok; try done.
  - intros y e c Hy. apply lookup_delete_Some in Hy as [? Hy]. by apply Oe.
  - intros y env c Hy. destruct (Oc _ _ _ Hy). split; [|done]. rewrite lookup_delete_ne; [done|].
    intros <-. by apply (Hno y c).
  - rewrite lookup_delete_None. auto.
  - intros y. destruct (Ok y) as [K1 K2]. split; [|done]. intros [e Hy]. apply lookup_delete_Some in Hy as [? Hy].
    apply K1. eauto.
Qed.

Lemma del_conn_ok x env c e h :
  h_conns h !! x = Some (env, c) -> h_envs h !! env = Some e ->
  (forall s st, h_stmts h !! s <> Some (x, st)) -> handles_ok h ->
  handles_ok (del_conn x (put_env env (DeregisterConnection x e) h)).
Proof.
  intros Hx Henv Hno Hok. kinds Hok.
  - intros y e' k Hy. destruct (decide (k = x)) as [->|Hk].
    + rewrite lookup_delete_eq. destruct (decide (y = env)) as [->|Hye].
      * rewrite lookup_insert_eq in Hy. injection Hy as <-. cbn. split; [|by intros [? ?]].
        intros [_ []]%elem_of_difference. by apply elem_of_singleton.
      * rewrite lookup_insert_ne in Hy by done. rewrite (Oe _ _ _ Hy), Hx.
        split; [intros [? [= ? ?]]; congruence|by intros [? ?]].
    + rewrite lookup_delete_ne by done. destruct (decide (y = env)) as [->|Hye].
      * rewrite lookup_insert_eq in Hy. injection Hy as <-. rewrite <- (Oe _ _ _ Henv). cbn.
        rewrite elem_of_difference, elem_of_singleton. tauto.
      * rewrite lookup_insert_ne in Hy by done. by apply Oe.
  - intros y p k Hy. apply lookup_delete_Some in Hy as [? Hy]. destruct (Oc _ _ _ Hy). split; [|done].
    rewrite lookup_insert_is_Some'. tauto.
  - intros y p k Hy. destruct (Os _ _ _ Hy). split; [|done]. rewrite lookup_delete_ne; [done|].
    intros <-. by apply (Hno y k).
  - rewrite lookup_insert_ne by congruence. rewrite lookup_delete_None. auto.
  - intros y. destruct (Ok y) as [K1 K2]. rewrite lookup_delete_None. split.
    + intros Hsome. assert (is_Some (h_envs h !! y)) as Hy.
      { destruct (decide (y = env)) as [->|]; [by eauto|by rewrite lookup_insert_ne in Hsome]. }
      destruct (K1 Hy). auto.
    + intros [? Hy]. apply lookup_delete_Some in Hy as [? Hy]. eauto.
Qed.

Lemma del_stmt_ok x h : handles_ok h -> handles_ok (del_stmt x h).
Proof.
  intros Hok. kinds Hok; try done.
  - intros y p k Hy. apply lookup_delete_Some in Hy as [? Hy]. by eapply Os.
  - rewrite lookup_delete_None. auto.
  - intros y. destruct (Ok y) as [K1 K2]. rewrite lookup_delete_None. split; [intros Hy; destruct (K1 Hy); auto|auto].
Qed.

(** ** Runs of an application *)

(** What the Driver Manager sees to: an environment is freed when it has no connections,
    a connection when it has no statements. *)
Definition env_unused (x : Z) (h : Handles) : Prop := forall c conn, h_conns h !! c <> Some (x, conn).
Definition conn_unused (x : Z) (h : Handles) : Prop := forall c s, h_stmts h !! c <> Some (x, s).

Inductive making : (Handles -> mem -> returns) -> Z -> Prop :=
| make_handle this k p r : making (SQLAllocHandle info this k p r) this
| make_env this r : making (SQLAllocEnv this r) this
| make_connect this p r : making (SQLAllocConnect info this p r) this
| make_stmt this p r : making (SQLAllocStmt this p r) this.

Inductive odbc_step : Handles * mem -> Handles * mem -> Prop :=
| step_memory h m m' : odbc_step (h, m) (h, m')
| step_entry x f h m rc h' m' : entry_call x f -> f h m = Ok (rc, h', m') -> odbc_step (h, m) (h', m')
| step_make f this h m rc h' m' :
    making f this -> fresh this h -> f h m = Ok (rc, h', m') -> odbc_step (h, m) (h', m')
| step_free_env x h m rc h' m' :
    env_unused x h -> SQLFreeEnv x h m = Ok (rc, h', m') -> odbc_step (h, m) (h', m')
| step_free_connect x h m rc h' m' :
    conn_unused x h -> SQLFreeConnect x h m = Ok (rc, h', m') -> odbc_step (h, m) (h', m')
| step_free_stmt w x o h m rc h' m' :
    SQLFreeStmt toDouble w x o h m = Ok (rc, h', m') -> odbc_step (h, m) (h', m')
| step_free_handle w k x h m rc h' m' :
    (k = SQL_HANDLE_ENV -> env_unused x h) -> (k = SQL_HANDLE_DBC -> conn_unused x h) ->
    SQLFreeHandle toDouble w k x h m = Ok (rc, h', m') -> odbc_step (h, m) (h', m').

Lemma alloc_env_ok this r h m rc h' m' :
  fresh this h -> SQLAllocEnv this r h m = Ok (rc, h', m') -> handles_ok h -> handles_ok h'.
Proof. unfold SQLAllocEnv. intros Hf E. returned. by apply add_env_ok. Qed.

Lemma alloc_connect_ok this p r h m rc h' m' :
  fresh this h -> SQLAllocConnect info this p r h m = Ok (rc, h', m') -> handles_ok h -> handles_ok h'.
Proof.
  unfold SQLAllocConnect, invalid, environment_call, env_api, api_call. intros Hf E.
  destruct (st r _ m); cbn [obind] in E; try done. destruct (p =? 0); [by simplify_eq|].
  destruct (h_envs h !! p) as [e|] eqn:He; cbn [obind fst snd env_InternalCreateConnection] in E; [|done].
  destruct (st r _ _); cbn [obind] in E; [|done..]. injection E as _ <- _. by eapply add_conn_ok.
Qed.

Lemma create_keeps_link r : keeps_link (fun c m => Ok (r, c, m)).
Proof. intros c m r' c' m' Hc E. by simplify_eq. Qed.

Lemma fresh_touched x this h h' : touches x h h' -> fresh this h -> fresh this h'.
Proof.
  intros [E C S _ _ _] (? & He & Hc & Hs). split_and!; [done|..].
  - exact (fmap_eq_None _ _ _ (E this) He).
  - exact (fmap_eq_None _ _ _ (C this) Hc).
  - exact (fmap_eq_None _ _ _ (S this) Hs).
Qed.

Lemma alloc_stmt_ok this p r h m rc h' m' :
  fresh this h -> SQLAllocStmt this p r h m = Ok (rc, h', m') -> handles_ok h -> handles_ok h'.
Proof.
  unfold SQLAllocStmt, invalid, InternalCreateStatement. intros Hf E Hok.
  destruct (st r _ m) as [m1|?|]; cbn [obind] in E; try done. destruct (p =? 0); [by simplify_eq|].
  destruct (connection_call_on p _ h m1) as [[[rc1 h1] m2]|?|] eqn:Ec; cbn [obind] in E; try done.
  destruct (st r _ m2); cbn [obind] in E; [|done..]. injection E as _ <- _.
  pose proof (connection_touches _ _ _ _ _ _ _ (create_keeps_link _) Ec) as Ht.
  apply add_stmt_ok; [by eapply fresh_touched| |apply new_statement_ok|by eapply touches_ok].
  unfold connection_call_on in Ec. destruct (h_conns h !! p) as [[env c]|] eqn:Ep; [|done].
  apply (is_Some_fmap_eq _ _ _ (to_conns _ _ _ Ht p)). by rewrite Ep.
Qed.

Lemma making_ok f this h m rc h' m' :
  making f this -> fresh this h -> f h m = Ok (rc, h', m') -> handles_ok h -> handles_ok h'.
Proof.
  destruct 1 as [this k p r|this r|this p r|this p r]; [|by apply alloc_env_ok|by apply alloc_connect_ok|by apply alloc_stmt_ok].
  unfold SQLAllocHandle, invalid. intros Hf E Hok.
  destruct (k =? SQL_HANDLE_ENV); [by eapply alloc_env_ok|]. destruct (k =? SQL_HANDLE_DBC); [by eapply alloc_connect_ok|].
  destruct (k =? SQL_HANDLE_STMT); [by eapply alloc_stmt_ok|]. returned; try done.
  eapply touches_ok; [|exact Hok]. by eapply touches_conn.
Qed.

Lemma free_env_ok x h m rc h' m' :
  env_unused x h -> SQLFreeEnv x h m = Ok (rc, h', m') -> handles_ok h -> handles_ok h'.
Proof. unfold SQLFreeEnv, invalid. intros Hu E Hok. returned; [done|]. by apply del_env_ok. Qed.

Lemma free_connect_ok x h m rc h' m' :
  conn_unused x h -> SQLFreeConnect x h m = Ok (rc, h', m') -> handles_ok h -> handles_ok h'.
Proof. unfold SQLFreeConnect, invalid. intros Hu E Hok. returned; [done|]. by eapply del_conn_ok. Qed.

Lemma free_stmt_ok w x o h m rc h' m' :
  SQLFreeStmt toDouble w x o h m = Ok (rc, h', m') -> handles_ok h -> handles_ok h'.
Proof.
  unfold SQLFreeStmt, invalid. intros E Hok. destruct (x =? 0); [by simplify_eq|]. destruct (o =? SQL_DROP).
  - returned. by apply del_stmt_ok.
  - apply statement_touches in E; [by eapply touches_ok|]. intros ops. constructor.
Qed.

Lemma step_ok hm hm' : odbc_step hm hm' -> handles_ok hm.1 -> handles_ok hm'.1.
Proof.
  destruct 1 as [|x f h m rc h' m' Hf E|f this h m rc h' m' Hf Hn E|x h m rc h' m' Hu E|x h m rc h' m' Hu E
                |w x o h m rc h' m' E|w k x h m rc h' m' He Hc E]; cbn [fst]; intros Hok.
  - done.
  - eapply touches_ok; [by eapply calls_touch|done].
  - by eapply making_ok.
  - by eapply free_env_ok.
  - by eapply free_connect_ok.
  - by eapply free_stmt_ok.
  - unfold SQLFreeHandle in E. destruct (k =? SQL_HANDLE_ENV) eqn:E1; [eapply free_env_ok; [|done..]; apply He; lia|].
    destruct (k =? SQL_HANDLE_DBC) eqn:E2; [eapply free_connect_ok; [|done..]; apply Hc; lia|].
    destruct (k =? SQL_HANDLE_STMT); [by eapply free_stmt_ok|]. by simplify_eq.
Qed.

Lemma steps_ok hm hm' : rtc odbc_step hm hm' -> handles_ok hm.1 -> handles_ok hm'.1.
Proof. induction 1 as [|x y z Hxy _ IH]; [done|]. intros Hx. by apply IH, (step_ok x). Qed.

End calls.

(** * Properties *)

Lemma no_handles_ok l : handles_ok (no_handles l).
Proof. split; cbn; intros; split_and?; try done; intros [? ?]; done. Qed.

(** C2: The invariant of the handles.  Whatever sequence of the functions of the driver an
    application calls, starting without any handle, in whatever states of its memory and
    whatever the other side answers, as long as it frees environments without
    connections and connections without statements: each environment lists exactly the
    connections made from it, the environment of each connection and the connection of
    each statement are alive, handles are not null and of one kind, and each connection
    and statement keeps its own invariant.  So freeing a connection never fails. *)
Theorem odbc_invariant `{Platform} `{Calendar} `{NumberTexts} `{Host} toDouble profiles info l m h m' :
  rtc (odbc_step toDouble profiles info) (no_handles l, m) (h, m') ->
  handles_ok h
  /\ forall x, is_Some (h_conns h !! x) -> exists h2, SQLFreeConnect x h m' = Ok (SQL_SUCCESS, h2, m').
Proof.
  intros Hr. assert (handles_ok h) as Hok by exact (steps_ok _ _ _ _ _ Hr (no_handles_ok l)). split; [done|].
  destruct Hok as [_ Oc _ (_ & N & _) _]. intros x [[env c] Hx]. unfold SQLFreeConnect.
  destruct (x =? 0) eqn:E; [apply Z.eqb_eq in E; congruence|]. rewrite Hx.
  destruct (Oc _ _ _ Hx) as [[e ->] _]. eauto.
Qed.

(** An environment, a connection and a statement are made. *)
Lemma odbc_invariant_witness :
  exists h, h_stmts h !! 3000 <> None /\ handles_ok h
    /\ exists h2, SQLFreeConnect 2000 h (alloc 100 8 ∅) = Ok (SQL_SUCCESS, h2, alloc 100 8 ∅).
Proof.
  eassert (rtc (odbc_step (fun _ => 0) no_profile sample_info)
             (no_handles (MkLogger LL.OFF []), alloc 100 8 ∅) (?[h], alloc 100 8 ∅)) as Hr.
  { eapply rtc_l; [eapply (step_make _ _ _ (SQLAllocHandle sample_info 1000 SQL_HANDLE_ENV 0 100));
      [constructor|split_and!; done|vm_compute; reflexivity]|].
    eapply rtc_l; [eapply (step_make _ _ _ (SQLAllocHandle sample_info 2000 SQL_HANDLE_DBC 1000 100));
      [constructor|split_and!; done|vm_compute; reflexivity]|].
    eapply rtc_l; [eapply (step_make _ _ _ (SQLAllocHandle sample_info 3000 SQL_HANDLE_STMT 2000 100));
      [constructor|split_and!; done|vm_compute; reflexivity]|].
    eapply rtc_l; [apply step_memory|apply rtc_refl]. }
  destruct (odbc_invariant _ _ _ _ _ _ _ Hr) as [Hok Hfree].
  eexists. split; [|split; [exact Hok|apply Hfree; vm_compute; eauto]]. vm_compute. discriminate.
Defined.

(** C27: A call works on its own handle.  A function that neither makes nor frees an
    object leaves every other handle as it is, and the same handles alive.  With a null
    handle it changes nothing and returns [SQL_INVALID_HANDLE]; but [SQLCloseCursor] and
    [SQLGetDiagField] have no test for one. *)
Theorem calls_isolated `{Platform} `{Calendar} `{NumberTexts} `{Host} toDouble profiles x f h m :
  entry_call toDouble profiles x f ->
  (forall rc h' m', f h m = Ok (rc, h', m') ->
     (forall y, y <> x -> h_envs h' !! y = h_envs h !! y /\ h_conns h' !! y = h_conns h !! y /\ h_stmts h' !! y = h_stmts h !! y)
     /\ (is_Some (h_envs h' !! x) <-> is_Some (h_envs h !! x))
     /\ (is_Some (h_conns h' !! x) <-> is_Some (h_conns h !! x))
     /\ (is_Some (h_stmts h' !! x) <-> is_Some (h_stmts h !! x)))
  /\ (x = 0 ->
      ~ (exists w, f = SQLCloseCursor toDouble w 0) ->
      ~ (exists frame k n i b l r, f = GetDiagField frame k 0 n i b l r) ->
      f h m = Ok (SQL_INVALID_HANDLE, h, m)).
Proof.
  intros Hf. split.
  - intros rc h' m' E. destruct (calls_touch _ _ _ _ Hf _ _ _ _ _ E) as [Te Tc Ts _ _ Ho]. split; [exact Ho|].
    split_and!; by eapply is_Some_fmap_eq.
  - destruct Hf; intros Hx Hclose Hfield; try (subst x; reflexivity).
    + destruct Hclose. subst x. eauto.
    + destruct Hfield. subst x. eauto 10.
    + subst x. unfold GetDiagRec, dereference. destruct (has_diagnostics k) eqn:Ek; cbn [obind Z.eqb];
        unfold SQLGetDiagRec; by rewrite Ek.
    + unfold Error, dereference. rewrite Hx. done.
Qed.

Lemma calls_isolated_witness :
  let f := SQLFetch (fun _ => 0) sample_world 0 in
  f (no_handles (MkLogger LL.OFF [])) ∅ = Ok (SQL_INVALID_HANDLE, no_handles (MkLogger LL.OFF []), ∅).
Proof.
  intros f.
  apply (calls_isolated (fun _ => 0) no_profile 0 f (no_handles (MkLogger LL.OFF [])) ∅);
    [constructor|done|intros [w E]|intros (frame & k & n & i & b & l & r & E)].
  - apply (f_equal (fun g => g (no_handles (MkLogger LL.OFF [])) ∅)) in E. discriminate E.
  - apply (f_equal (fun g => g (MkHandles {[0 := new_environment]} ∅ ∅ (MkLogger LL.OFF [])) ∅)) in E.
    unfold GetDiagField in E. cbn [Z.eqb f SQLFetch] in E. unfold dereference in E.
    destruct (has_diagnostics k) eqn:Ek; cbn [obind Z.eqb] in E; unfold SQLGetDiagField in E; rewrite Ek in E; [done|].
    cbn [obind bool_decide decide_rel] in E. rewrite andb_false_r in E. discriminate E.
Defined.
