(* ===== verification/OdbcProps.v ===== *)
(** What an application gets from the functions of [odbc.cpp]: a SELECT with its rows,
    the description of a column, the native text of a query. *)
From S2P Require Import Prelude OrdMap Memory Utf8 TypeTraits Chrono Decimal AppBuffer AppRead AppProps Diag DiagProps.
From S2P Require Import SqlLex SqlProps Params Statement Config ConfigParse ConfigRound Meta Connection ConnProps DocColumn.
From S2P Require Import DocColumn MetaQueries DataQuery DataProps Driver DriverProps Odbc.

(** * A SELECT *)

Section select.
Context `{PlatformLaws} `{Calendar} `{NumberTexts} (toDouble : Decimal -> Z).

(** The statement [x] of a live connection. *)
Definition opened (h : Handles) (x conn env : Z) (c : Connection) (s : Statement Query) : Prop :=
  x <> 0 /\ h_stmts h !! x = Some (conn, s) /\ h_conns h !! conn = Some (env, c).

Lemma opened_queries h x conn env c s w : opened h x conn env c s ->
  queries_of toDouble conn h w = DriverQueries toDouble (world_of (set_config (cn_config c) (h_logger h) c) w).
Proof. intros (_ & _ & E). unfold queries_of. by rewrite E. Qed.

Lemma exec_direct_select w x conn env c s h q cs l ds m :
  opened h x conn env c s -> q <> 0 -> wide_text cs -> holds_wide q cs m -> IsInternalCommand (encode cs) = Some false ->
  answers_select (world_of (set_config (cn_config c) (h_logger h) c) w) (encode cs) (st_timeout s) l ds ->
  ps_parameters (st_params s) = [] -> GetParamSetSize (st_params s) = 1 -> single_rows s ->
  exists s1, SQLExecDirect toDouble w x q SQL_NTS h m = Ok (SQL_SUCCESS, put_stmt x conn s1 h, m)
    /\ selected l ds 0 s1 /\ single_rows s1 /\ st_bindings s1 = st_bindings s /\ st_diag s1 = new_storage.
Proof.
  intros Ho Hq Hcs Hm Hint Hans Hps Hone Hrows. pose proof Ho as (Hx & Hst & _). unfold SQLExecDirect.
  rewrite (proj2 (Z.eqb_neq _ _) Hx), (holds_wide_read q cs m) by done. cbn [obind]. unfold statement_call.
  rewrite Hst, (opened_queries _ _ _ _ _ _ _ Ho). unfold api, api_call. cbn [fst snd].
  set (s0 := with_diag (storage_Reset (st_diag s)) s).
  destruct (select_runs toDouble (world_of (set_config (cn_config c) (h_logger h) c) w) (encode cs) l ds s0 m)
    as (s1 & E & Hs1 & Hr1 & Hb1 & Hd1); [done..|]. rewrite E. cbn [obind fst snd].
  eexists. split; [reflexivity|]. split; [exact Hs1|]. split; [exact Hr1|]. split; [exact Hb1|].
  cbn [st_diag with_diag]. rewrite Hd1. reflexivity.
Qed.

Lemma fetch_select w x conn env c s h l ds pos m :
  opened h x conn env c s -> layout_ok l -> selected l ds pos s -> single_rows s -> (pos <= S (length ds))%nat ->
  match fetch_spec toDouble l ds pos (om_map (SetElementOffset 0) (st_bindings s)) (storage_Reset (st_diag s)) m with
  | Ok (r, d', m') =>
      exists s', SQLFetch toDouble w x h m = Ok (SqlResultToReturnCode r, put_stmt x conn s' h, m')
        /\ selected l ds (next_pos ds pos) s' /\ single_rows s' /\ st_diag s' = SetHeaderRecord r d'
        /\ st_bindings s' = om_map (SetElementOffset 0) (st_bindings s)
  | Throw e => SQLFetch toDouble w x h m = Throw e
  | UB => SQLFetch toDouble w x h m = UB
  end.
Proof.
  intros Ho Hl Hs Hr Hpos. pose proof Ho as (Hx & Hst & _). unfold SQLFetch, statement_call.
  rewrite (proj2 (Z.eqb_neq _ _) Hx), Hst, (opened_queries _ _ _ _ _ _ _ Ho). unfold api, api_call. cbn [fst snd].
  set (s0 := with_diag (storage_Reset (st_diag s)) s).
  pose proof (select_fetches toDouble (world_of (set_config (cn_config c) (h_logger h) c) w) l ds pos s0 m
                Hl Hs Hr Hpos) as Hf.
  change (st_bindings s0) with (st_bindings s) in Hf. change (st_diag s0) with (storage_Reset (st_diag s)) in Hf.
  destruct (fetch_spec toDouble l ds pos _ _ m) as [[[r d'] m']|e|].
  - destruct Hf as (s' & E & Hsel & Hrow & Hd & Hb). rewrite E. cbn [obind fst snd]. eexists.
    split; [reflexivity|]. split; [exact Hsel|]. split; [exact Hrow|]. split; [|exact Hb].
    cbn [st_diag with_diag]. by rewrite Hd.
  - by rewrite Hf.
  - by rewrite Hf.
Qed.

End select.

(** C1: A SELECT, end to end, as the application sees it.  On a live statement without
    parameters, when the JDBC driver translates the query and MongoDB answers the
    documents [ds]: [SQLExecDirect] with the text of the query in the application's
    memory returns [SQL_SUCCESS] and changes neither memory nor bindings, nor any other
    handle; after that, call number [pos] of [SQLFetch] puts the elements of document
    number [pos] into the bound columns and returns [SQL_SUCCESS], or [SQL_ERROR] when a
    conversion fails, and the statement's records are those of these conversions; after
    the last document every call returns [SQL_NO_DATA]. *)
Theorem odbc_select `{PlatformLaws} `{Calendar} `{NumberTexts} toDouble x conn env l ds :
  layout_ok l ->
  (forall w c s h q cs m,
     opened h x conn env c s -> q <> 0 -> wide_text cs -> holds_wide q cs m -> IsInternalCommand (encode cs) = Some false ->
     answers_select (world_of (set_config (cn_config c) (h_logger h) c) w) (encode cs) (st_timeout s) l ds ->
     ps_parameters (st_params s) = [] -> GetParamSetSize (st_params s) = 1 -> single_rows s ->
     exists s1, SQLExecDirect toDouble w x q SQL_NTS h m = Ok (SQL_SUCCESS, put_stmt x conn s1 h, m)
       /\ selected l ds 0 s1 /\ single_rows s1 /\ st_bindings s1 = st_bindings s /\ st_diag s1 = new_storage)
  /\ (forall pos w c s h m,
     opened h x conn env c s -> selected l ds pos s -> single_rows s -> (pos <= S (length ds))%nat ->
     match fetch_spec toDouble l ds pos (om_map (SetElementOffset 0) (st_bindings s)) (storage_Reset (st_diag s)) m with
     | Ok (r, d', m') =>
         exists s', SQLFetch toDouble w x h m = Ok (SqlResultToReturnCode r, put_stmt x conn s' h, m')
           /\ selected l ds (next_pos ds pos) s' /\ single_rows s' /\ st_diag s' = SetHeaderRecord r d'
           /\ st_bindings s' = om_map (SetElementOffset 0) (st_bindings s)
     | Throw e => SQLFetch toDouble w x h m = Throw e
     | UB => SQLFetch toDouble w x h m = UB
     end).
Proof.
  intros Hl. split.
  - intros w c s h q cs m. apply exec_direct_select.
  - intros pos w c s h m Ho. by apply fetch_select with (c := c) (env := env).
Qed.

(** An environment, the connection of [sample_world] and a statement. *)
Definition sample_handles : Handles :=
  MkHandles {[1000 := new_environment]} {[2000 := (1000, w_connection sample_world)]}
    {[3000 := (2000, sample_statement)]} (MkLogger LL.OFF []).

(** The memory, with the text of a query. *)
Definition query_memory : mem :=
  default ∅ (store 5000 (char_bytes (Z.to_nat wsz) (str "SELECT n" ++ [0])) (alloc 5000 36 sample_memory)).

Lemma first_sample_row :
  exists d' m2, fetch_spec (fun _ => 0) sample_layout sample_documents 0 (om_map (SetElementOffset 0) sample_bindings)
      (storage_Reset new_storage) query_memory = Ok (SR.AI_SUCCESS, d', m2) /\ load 100 4 m2 = Some (le_bytes 4 7).
Proof. vm_compute. eexists _, _. split; reflexivity. Qed.

Lemma odbc_select_witness :
  exists h1 h2 m2,
    SQLExecDirect (fun _ => 0) sample_world 3000 5000 SQL_NTS sample_handles query_memory
    = Ok (SQL_SUCCESS, h1, query_memory)
    /\ SQLFetch (fun _ => 0) sample_world 3000 h1 query_memory = Ok (SQL_SUCCESS, h2, m2)
    /\ load 100 4 m2 = Some (le_bytes 4 7).
Proof.
  destruct (odbc_select (fun _ => 0) 3000 2000 1000 sample_layout sample_documents) as [He Hf].
  { split; reflexivity. }
  destruct (He sample_world (w_connection sample_world) sample_statement sample_handles 5000
              (str "SELECT n") query_memory) as (s1 & E1 & Hs1 & Hr1 & Hb1 & Hd1).
  - split_and!; done.
  - done.
  - apply (bool_decide_unpack _). vm_compute. exact I.
  - vm_compute. reflexivity.
  - vm_compute. reflexivity.
  - eexists. split_and!; reflexivity.
  - reflexivity.
  - reflexivity.
  - split_and!; reflexivity.
  - specialize (Hf 0%nat sample_world (w_connection sample_world) s1 (put_stmt 3000 2000 s1 sample_handles) query_memory
                  ltac:(split_and!; [done|apply lookup_insert_eq|reflexivity]) Hs1 Hr1 ltac:(lia)).
    rewrite Hb1, Hd1 in Hf.
    destruct first_sample_row as (d' & m2 & Er & Hm2). change (st_bindings sample_statement) with sample_bindings in Hf. rewrite Er in Hf.
    destruct Hf as (s2 & E2 & _). eexists _, _, m2. split; [exact E1|]. split; [exact E2|exact Hm2].
Defined.

(** * Native SQL *)

Lemma load_other b k a n m m' :
  only_changes a n m m' -> disjoint_regions (b, Z.of_nat k) (a, n) -> load b k m' = load b k m.
Proof. intros Hc Hd. apply load_ext. intros x Hx. apply Hc. unfold disjoint_regions in Hd. cbn in Hd. lia. Qed.

Section native.
Context `{PlatformLaws}.

Lemma holds_wide_other buf cs a n m m' :
  only_changes a n m m' -> disjoint_regions (buf, wsz * Z.of_nat (S (length cs))) (a, n) ->
  holds_wide buf cs m -> holds_wide buf cs m'.
Proof.
  intros Hc Hd Hl. unfold holds_wide in *. rewrite <- Hl. pose proof wsz_cases. eapply load_other; [exact Hc|].
  rewrite Nat2Z.inj_mul, Z2Nat.id by lia. done.
Qed.

Lemma holds_wide_char buf c cs m :
  holds_wide buf (c :: cs) m -> ld buf (Z.to_nat wsz) m = Ok (le_bytes (Z.to_nat wsz) c) /\ holds_wide (buf + wsz) cs m.
Proof.
  unfold holds_wide. set (n := Z.to_nat wsz). cbn [length]. replace (n * S (S (length cs)))%nat with (n + n * S (length cs))%nat by lia.
  change (char_bytes n ((c :: cs) ++ [0])) with (le_bytes n c ++ char_bytes n (cs ++ [0])).
  intros [Hl Hr]%load_split. rewrite take_app_le, take_ge in Hl by (rewrite le_bytes_length; lia).
  rewrite drop_app_le, drop_ge in Hr by (rewrite le_bytes_length; lia).
  unfold ld. rewrite Hl. split; [done|]. pose proof wsz_cases. by replace wsz with (Z.of_nat n) by lia.
Qed.

Lemma at_zero_end inQuery i m : holds_wide (inQuery + wsz * i) [] m -> at_zero inQuery i m = Ok true.
Proof.
  unfold holds_wide, at_zero. intros Hl. rewrite Nat.mul_1_r in Hl. unfold ld. rewrite Hl. cbn [obind app].
  unfold char_bytes. cbn [map concat]. rewrite app_nil_r, le_val_bytes, Z.mod_0_l; [done|]. apply Z.pow_nonzero; lia.
Qed.

Lemma wide_chars_bound cs :
  wide_text cs -> Forall (fun c => 0 < c < 2 ^ (8 * Z.of_nat (Z.to_nat wsz))) cs.
Proof.
  intros (Hs & Hz & Hmax). pose proof wsz_cases as Hw. apply Forall_forall. intros c Hc.
  unfold scalars, nonzero in Hs, Hz. rewrite Forall_forall in Hs, Hz, Hmax.
  pose proof (proj1 (is_scalar_spec c) (Hs c Hc)) as [Hr _]. specialize (Hz c Hc). specialize (Hmax c Hc).
  rewrite Z2Nat.id by lia. unfold wide_max in Hmax.
  destruct Hw as [E|E]; rewrite E in *; simpl (_ =? _) in Hmax; cbv iota in Hmax; simpl (2 ^ _); lia.
Qed.

Lemma at_zero_more inQuery i c cs m :
  wide_text (c :: cs) -> holds_wide (inQuery + wsz * i) (c :: cs) m -> at_zero inQuery i m = Ok false.
Proof.
  intros Hcs Hl. destruct (holds_wide_char _ _ _ _ Hl) as [E _]. unfold at_zero. rewrite E. cbn [obind].
  apply wide_chars_bound, Forall_cons in Hcs as [Hc _]. rewrite le_val_bytes, Z.mod_small by lia.
  by rewrite (proj2 (Z.eqb_neq _ _)) by lia.
Qed.

(** The loop from character [i], with [rest] to copy. *)
Lemma copy_query_stored inQuery out k rest : forall fuel i m,
  wide_text rest -> 0 <= i < k -> k - i <= Z.of_nat fuel ->
  holds_wide (inQuery + wsz * i) rest m -> mapped (out + wsz * i) (wsz * (k - i)) m ->
  disjoint_regions (inQuery + wsz * i, wsz * Z.of_nat (S (length rest))) (out + wsz * i, wsz * (k - i)) ->
  let kept := take (Z.to_nat (k - 1 - i)) rest in
  exists m', copy_query fuel (at_zero inQuery) inQuery out k i m
      = Ok (i + Z.of_nat (length kept), bool_decide (length kept < length rest)%nat, m')
    /\ load (out + wsz * i) (Z.to_nat wsz * length kept) m' = Some (char_bytes (Z.to_nat wsz) kept)
    /\ only_changes (out + wsz * i) (wsz * (k - i)) m m' /\ (forall b n, mapped b n m -> mapped b n m').
Proof.
  pose proof wsz_cases as Hw. set (n := Z.to_nat wsz). assert (Z.of_nat n = wsz) as Hn by lia.
  induction rest as [|c rest IH]; intros fuel i m Hcs Hi Hf Hin Hout Hd kept; (destruct fuel as [|fuel]; [lia|]);
    cbn [copy_query].
  - rewrite at_zero_end by done. cbn [obind]. subst kept. rewrite take_nil. cbn [length]. exists m.
    rewrite Z.add_0_r, Nat.mul_0_r, bool_decide_false by lia. done.
  - rewrite (at_zero_more _ _ c rest) by done. cbn [obind]. destruct (Z.leb_spec k (i + 1)).
    + assert (kept = []) as -> by (subst kept; by replace (k - 1 - i) with 0 by lia). exists m.
      cbn [length]. rewrite Z.add_0_r, Nat.mul_0_r, bool_decide_true by lia. done.
    + destruct (holds_wide_char _ _ _ _ Hin) as [Ec Hrest]. fold n in Ec. fold n. rewrite Ec. cbn [obind].
      destruct (st_ok (out + wsz * i) (le_bytes n c) m) as (m1 & E1 & L1 & C1 & M1).
      { rewrite le_bytes_length. eapply mapped_less; [exact Hout|nia]. }
      rewrite le_bytes_length in L1, C1. rewrite E1. cbn [obind]. unfold disjoint_regions in Hd. cbn [fst snd length] in Hd.
      destruct (IH fuel (i + 1) m1) as (m2 & E2 & L2 & C2 & M2); [..|].
      * destruct Hcs as (Hs & Hz & Hx). apply Forall_cons in Hs as [_ ?], Hz as [_ ?], Hx as [_ ?]. done.
      * lia.
      * lia.
      * replace (inQuery + wsz * (i + 1)) with (inQuery + wsz * i + wsz) by lia.
        eapply holds_wide_other; [exact C1| |exact Hrest]. unfold disjoint_regions. cbn [fst snd]. nia.
      * intros y Hy. apply (M1 _ _ Hout). nia.
      * unfold disjoint_regions. cbn [fst snd]. nia.
      * set (kept' := take (Z.to_nat (k - 1 - (i + 1))) rest) in *.
        assert (kept = c :: kept') as ->.
        { subst kept kept'. replace (Z.to_nat (k - 1 - i)) with (S (Z.to_nat (k - 1 - (i + 1)))) by lia. done. }
        exists m2. rewrite E2. cbn [length]. split; [|split; [|split]].
        -- replace (i + 1 + Z.of_nat (length kept')) with (i + Z.of_nat (S (length kept'))) by lia.
           by rewrite (bool_decide_ext (length kept' < length rest)%nat (S (length kept') < S (length rest))%nat) by lia.
        -- replace (n * S (length kept'))%nat with (n + n * length kept')%nat by lia.
           change (char_bytes n (c :: kept')) with (le_bytes n c ++ char_bytes n kept'). apply load_app.
           ++ rewrite (load_other _ _ _ _ _ _ C2); [done|]. unfold disjoint_regions. cbn [fst snd]. nia.
           ++ replace (out + wsz * i + Z.of_nat n) with (out + wsz * (i + 1)) by lia. done.
        -- intros y Hy. rewrite C2, C1 by nia. done.
        -- auto.
Qed.

(** The copy with its terminator. *)
Lemma native_copy inQuery out k cs m :
  wide_text cs -> 0 < k -> holds_wide inQuery cs m -> mapped out (wsz * k) m ->
  disjoint_regions (inQuery, wsz * Z.of_nat (S (length cs))) (out, wsz * k) ->
  let kept := take (Z.to_nat (k - 1)) cs in
  exists m1 m2, copy_query (Z.to_nat k) (at_zero inQuery) inQuery out k 0 m
      = Ok (Z.of_nat (length kept), bool_decide (length kept < length cs)%nat, m1)
    /\ st (out + wsz * Z.of_nat (length kept)) (le_bytes (Z.to_nat wsz) 0) m1 = Ok m2
    /\ holds_wide out kept m2 /\ only_changes out (wsz * k) m m2 /\ (forall b n, mapped b n m -> mapped b n m2).
Proof.
  intros Hcs Hk Hin Hout Hd kept. pose proof wsz_cases as Hw. set (n := Z.to_nat wsz). assert (Z.of_nat n = wsz) as Hn by lia.
  destruct (copy_query_stored inQuery out k cs (Z.to_nat k) 0 m) as (m1 & E1 & L1 & C1 & M1);
    rewrite ?Z.mul_0_r, ?Z.add_0_r, ?Z.sub_0_r in *; [done|lia|lia|done..|].
  fold kept n in E1, L1. assert (Z.of_nat (length kept) <= k - 1) by (unfold kept; rewrite length_take; lia).
  destruct (st_ok (out + wsz * Z.of_nat (length kept)) (le_bytes n 0) m1) as (m2 & E2 & L2 & C2 & M2).
  { rewrite le_bytes_length. intros y Hy. apply (M1 _ _ Hout). nia. }
  rewrite le_bytes_length in L2, C2. exists m1, m2. split; [done|]. split; [done|]. split; [|split; [|by auto]].
  - unfold holds_wide. fold n. replace (n * S (length kept))%nat with (n * length kept + n)%nat by lia.
    unfold char_bytes. rewrite map_app, concat_app. cbn [map concat]. rewrite app_nil_r. apply load_app.
    + rewrite (load_other _ _ _ _ _ _ C2); [exact L1|]. unfold disjoint_regions. cbn [fst snd]. nia.
    + replace (out + Z.of_nat (n * length kept)) with (out + wsz * Z.of_nat (length kept)) by lia. done.
  - intros y Hy. rewrite C2, C1 by nia. done.
Qed.

End native.

Definition native_regions `{Platform} (out k lenp : Z) : list (Z * Z) := [(out, wsz * k); (lenp, 4)].

(** [SQLNativeSql] hands the text of the query back as it is: of a null-terminated
    text it copies as many characters as the buffer has places, less one, and
    terminates them; no other memory changes; the code is success, or success with a
    record 01004 exactly when the text was cut; the length reported is that of what was
    copied.  Asked without a buffer it reports the length of the whole text: so an
    application whose buffer was too small is told the wrong length. *)
Theorem native_sql_copied `{PlatformLaws} x env c h inQuery out k lenp cs m :
  x <> 0 -> h_conns h !! x = Some (env, c) -> wide_text cs -> Z.of_nat (length cs) < 2 ^ 31 -> 0 < k ->
  holds_wide inQuery cs m ->
  valid_regions ((inQuery, wsz * Z.of_nat (S (length cs))) :: native_regions out k lenp) m ->
  let kept := take (Z.to_nat (k - 1)) cs in
  let cut := bool_decide (length kept < length cs)%nat in
  (exists c' m', SQLNativeSql x inQuery SQL_NTS out k lenp h m
       = Ok (if cut then SQL_SUCCESS_WITH_INFO else SQL_SUCCESS, put_conn x env c' h, m')
     /\ SqlWcharToString out SQL_NTS false m' = Ok (encode kept)
     /\ load lenp 4 m' = Some (le_bytes 4 (Z.of_nat (length kept)))
     /\ changes_within (native_regions out k lenp) m m'
     /\ map sqlState (statusRecords (cn_diag c')) = if cut then [SS.S01004_DATA_TRUNCATED] else [])
  /\ (exists c' m', SQLNativeSql x inQuery SQL_NTS 0 k lenp h m = Ok (SQL_SUCCESS, put_conn x env c' h, m')
     /\ load lenp 4 m' = Some (le_bytes 4 (Z.of_nat (length cs)))).
Proof.
  intros Hx Hc Hcs Hlen Hk Hin Hreg kept cut. unfold native_regions in *. regions. unfold SQLNativeSql.
  rewrite (proj2 (Z.eqb_neq x 0)), Hc by done. unfold InternalNativeSql. rewrite (proj2 (Z.eqb_neq inQuery 0)) by done.
  split.
  - rewrite (proj2 (Z.eqb_neq out 0)) by done. rewrite (proj2 (Z.leb_gt k 0)) by done. rewrite !Z.eqb_refl. cbn [negb]. rewrite andb_false_r.
    destruct (native_copy inQuery out k cs m) as (m1 & m2 & E1 & E2 & L2 & C2 & M2);
      [assumption..|exact H2|].
    fold kept cut in E1, E2, L2. rewrite E1. cbn [obind]. rewrite E2. cbn [obind].
    destruct (put_if_spec lenp 4 (Z.of_nat (length kept)) m2) as (m3 & E3 & _ & L3 & C3 & M3); [done|by apply M2|].
    assert (Z.of_nat (length kept) <= k - 1) by (unfold kept; rewrite length_take; lia). pose proof wsz_cases.
    destruct cut eqn:Ecut; cbn [obind from_option id]; rewrite E3; eexists _, m3; (split; [reflexivity|]); (split; [|split; [done|split; [|done]]]);
      try (intros y Hy; rewrite !Forall_cons in Hy; cbn [fst snd] in Hy; destruct_and!; rewrite C3, C2 by (simpl; lia); done);
      (apply holds_wide_read; [by apply wide_text_take|done|]; eapply holds_wide_other; [exact C3| |exact L2];
       unfold disjoint_regions; cbn [fst snd]; fold kept; nia).
  - rewrite !Z.eqb_refl. cbn [negb]. rewrite (read_terminated_stored _ _ _ cs);
      [|pose proof wsz_cases; lia|by apply wide_chars_bound|by apply holds_wide_mapped|done]. cbn [obind].
    destruct (put_if_spec lenp 4 (Z.of_nat (length cs)) m) as (m3 & E3 & _ & L3 & _); [done..|].
    cbn [from_option id]. rewrite E3. eexists _, m3. split; [reflexivity|done].
Qed.

Lemma native_sql_copied_witness :
  exists c' m', SQLNativeSql 2000 5000 SQL_NTS 300 7 400 sample_handles (alloc 300 28 (alloc 400 4 query_memory))
      = Ok (SQL_SUCCESS_WITH_INFO, put_conn 2000 1000 c' sample_handles, m')
    /\ SqlWcharToString 300 SQL_NTS false m' = Ok (str "SELECT").
Proof.
  destruct (native_sql_copied 2000 1000 (w_connection sample_world) sample_handles 5000 300 7 400
              (str "SELECT n") (alloc 300 28 (alloc 400 4 query_memory))) as [(c' & m' & E & T & _) _].
  - done.
  - reflexivity.
  - apply (bool_decide_unpack _). vm_compute. exact I.
  - reflexivity.
  - done.
  - vm_compute. reflexivity.
  - split; [|vm_compute; intuition discriminate].
    repeat apply Forall_cons_2; [..|apply Forall_nil_2]; (split; [done|apply mapped_seq; apply (bool_decide_unpack _); vm_compute; exact I]).
  - exists c', m'. split; [exact E|exact T].
Defined.

(** * The description of a column *)

Section describe.
Context `{PlatformLaws} `{Calendar} `{NumberTexts} (toDouble : Decimal -> Z).

(** The query of the statement knows its columns. *)
Definition shows_columns (w : World) (h : Handles) (conn : Z) (q : Query) (cols : list ColumnMeta) : Prop :=
  forall d, @q_meta Query (queries_of toDouble conn h w) q d = Ok (Some (map column_attributes cols), q, d).

(** The statement after a call without records. *)
Definition settled (q : Query) (s : Statement Query) : Statement Query := with_diag new_storage (with_query (Some q) s).

Lemma put_stmt_again x conn s1 s2 h : put_stmt x conn s2 (put_stmt x conn s1 h) = put_stmt x conn s2 h.
Proof. unfold put_stmt. cbn. by rewrite insert_insert_eq. Qed.

(** The column a call looks at. *)
Record column_at (w : World) (h : Handles) (x conn : Z) (s : Statement Query) (q : Query) (cols : list ColumnMeta)
    (n : nat) (c : ColumnMeta) : Prop := {
  ca_stmt : h_stmts h !! x = Some (conn, s);
  ca_query : st_query s = Some q;
  ca_shows : shows_columns w h conn q cols;
  ca_col : cols !! n = Some c
}.

Lemma column_at_put w h x conn s q cols n c s' :
  column_at w h x conn s q cols n c -> st_query s' = Some q -> column_at w (put_stmt x conn s' h) x conn s' q cols n c.
Proof. intros [H1' H2' H3' H4'] Hq. split; [cbn; apply lookup_insert_eq|done|exact H3'|done]. Qed.

Lemma column_index w h x conn s q cols n c :
  column_at w h x conn s q cols n c ->
  (Z.of_nat (length (map column_attributes cols)) <? Z.of_nat n + 1) || (Z.of_nat n + 1 <? 1) = false
  /\ map column_attributes cols !! Z.to_nat (Z.of_nat n + 1 - 1) = Some (column_attributes c).
Proof.
  intros [_ _ _ Hc]. pose proof (lookup_lt_Some _ _ _ Hc) as Hn. rewrite length_map. split; [lia|].
  replace (Z.to_nat (Z.of_nat n + 1 - 1)) with n by lia.
  change (map column_attributes cols) with (column_attributes <$> cols). by rewrite list_lookup_fmap, Hc.
Qed.

Lemma number_attribute w h x conn s q cols n c id v p m :
  column_at w h x conn s q cols n c -> GetNumberAttribute c id = Some v -> p <> 0 -> mapped p 8 m ->
  exists m', statement_call toDouble w x (fun ops => InternalGetColumnAttribute (Z.of_nat n + 1) id 0 0 0 p) h m
      = Ok (SQL_SUCCESS, put_stmt x conn (settled q s) h, m')
    /\ load p 8 m' = Some (le_bytes 8 v) /\ only_changes p 8 m m' /\ (forall b k, mapped b k m -> mapped b k m').
Proof.
  intros Hc Hv Hp Hm. destruct (column_index _ _ _ _ _ _ _ _ _ Hc) as [E1 E2]. destruct Hc as [Hst Hq Hs _].
  destruct (st_ok p (le_bytes 8 v) m) as (m' & E & L & C & M); [by rewrite le_bytes_length|].
  rewrite le_bytes_length in L, C. exists m'. split; [|done].
  unfold statement_call. rewrite Hst. unfold api, api_call. cbn [fst snd]. unfold InternalGetColumnAttribute, GetMeta.
  cbn [st_query with_diag]. rewrite Hq, Hs. cbn [obind]. rewrite E1, E2. rewrite (proj2 (Z.eqb_neq p 0)) by done.
  cbn [column_attributes attr_number]. rewrite Hv, E. reflexivity.
Qed.

Lemma name_attribute w h x conn s q cols n c cs b k p m :
  column_at w h x conn s q cols n c -> default [] (cm_columnName c) = encode cs -> wide_text cs ->
  b <> 0 -> 0 < k -> k * wsz < 2 ^ 15 -> p <> 0 -> valid_regions [(b, k * wsz); (p, 2)] m ->
  let kept := take (Z.to_nat (k - 1)) cs in
  exists s1 m', statement_call toDouble w x
      (fun ops => InternalGetColumnAttribute (Z.of_nat n + 1) SQL_DESC_NAME b (i16 (k * wsz)) p 0) h m
      = Ok (if bool_decide (length kept < length cs)%nat then SQL_SUCCESS_WITH_INFO else SQL_SUCCESS,
            put_stmt x conn s1 h, m')
    /\ st_query s1 = Some q /\ settled q s1 = settled q s
    /\ holds_wide b kept m' /\ load p 2 m' = Some (le_bytes 2 (Z.of_nat (length kept) * wsz))
    /\ changes_within [(b, k * wsz); (p, 2)] m m' /\ (forall b k, mapped b k m -> mapped b k m').
Proof.
  intros Hc Hname Hcs Hb Hk Hk2 Hp Hreg kept. destruct (column_index _ _ _ _ _ _ _ _ _ Hc) as [E1 E2]. destruct Hc as [Hst Hq Hs _].
  pose proof wsz_cases as Hw. regions. assert (kept = take (Z.to_nat (k * wsz / wsz - 1)) cs) as Hkept by (by rewrite Z.div_mul by lia).
  destruct (wide_copy_stored cs b (k * wsz) m) as (m1 & E & C & M & L); [done|done|nia|done|]. rewrite <- Hkept in E, L.
  destruct (put_if_spec p 2 (Z.of_nat (length kept) * wsz) m1) as (m2 & E' & _ & L2 & C2 & M2); [done|by apply M|].
  assert (Z.of_nat (S (length kept)) <= k) by (unfold kept; rewrite length_take; lia).
  exists (with_diag (SetHeaderRecord (if bool_decide (length kept < length cs)%nat then SR.AI_SUCCESS_WITH_INFO else SR.AI_SUCCESS)
                       (storage_Reset (st_diag s))) (with_query (Some q) s)), m2. split.
  - unfold statement_call. rewrite Hst. unfold api, api_call. cbn [fst snd]. unfold InternalGetColumnAttribute, GetMeta.
    cbn [st_query with_diag]. rewrite Hq, Hs. cbn [obind]. rewrite E1, E2. cbn [Z.eqb column_attributes attr_text].
    change (GetTextAttribute c SQL_DESC_NAME) with (Some (default [] (cm_columnName c))). rewrite Hname.
    rewrite (proj2 (Z.eqb_neq b 0)) by done. rewrite (wrapS_small 16 (k * wsz)) by (unfold inS; simpl; nia).
    rewrite wrapU_small by (unfold inU; nia). unfold CopyStringToBuffer. rewrite E. cbn [obind]. rewrite E'. cbn [obind].
    destruct (bool_decide _); reflexivity.
  - split; [done|]. split; [done|]. split; [|split; [done|split; [|by auto]]].
    + eapply holds_wide_other; [exact C2| |exact L]. unfold disjoint_regions. cbn [fst snd]. nia.
    + intros y Hy. rewrite !Forall_cons in Hy. cbn [fst snd] in Hy. destruct_and!. rewrite C2, C by (simpl; lia). done.
Qed.

(** [le_bytes n] looks at the low [n] bytes. *)
Lemma le_bytes_low n k v : (n <= k)%nat -> le_bytes n (le_val (le_bytes k v)) = le_bytes n v.
Proof.
  revert k v. induction n as [|n IH]; intros [|k] v Hn; cbn [le_bytes le_val]; [done..|lia|].
  pose proof (Z.mod_pos_bound v 256). f_equal; [rewrite Z.mul_comm, Z.mod_add, Z.mod_mod by lia; done|].
  rewrite Z.mul_comm, Z.div_add, Z.div_small, Z.add_0_l by lia. apply IH. lia.
Qed.

(** A local variable handed to the application. *)
Lemma hand_out p n local v m :
  load local 8 m = Some (le_bytes 8 v) -> (n <= 8)%nat -> p <> 0 -> mapped p (Z.of_nat n) m ->
  exists m', (if p =? 0 then Ok m else let* v := ld local 8 m in st p (le_bytes n (le_val v)) m) = Ok m' :> outcome Z mem
    /\ load p n m' = Some (le_bytes n v) /\ only_changes p (Z.of_nat n) m m' /\ (forall b k, mapped b k m -> mapped b k m').
Proof.
  intros Hl Hn Hp Hm. rewrite (proj2 (Z.eqb_neq p 0)) by done. unfold ld. rewrite Hl. cbn [obind].
  rewrite le_bytes_low by done. destruct (st_ok p (le_bytes n v) m) as (m' & E & L & C & M); rewrite le_bytes_length in *; eauto.
Qed.

Lemma length_in_chars L :
  0 <= L -> L * wsz < 2 ^ 15 -> u64 (i16 (le_val (le_bytes 2 (L * wsz)))) / wsz = L.
Proof.
  intros H1' H2'. pose proof wsz_cases. rewrite le_val_bytes. change (2 ^ (8 * Z.of_nat 2)) with (2 ^ 16).
  rewrite Z.mod_small by lia. rewrite (wrapS_small 16) by (unfold inS; simpl; lia).
  rewrite wrapU_small by (unfold inU; lia). apply Z.div_mul. lia.
Qed.

(** The four numbers, in the frame. *)
Lemma four_numbers w h x conn s q cols n c t p sc nl frame m :
  column_at w h x conn s q cols n c -> 0 < frame -> mapped frame 40 m ->
  GetNumberAttribute c SQL_DESC_TYPE = Some t -> GetNumberAttribute c SQL_DESC_PRECISION = Some p ->
  GetNumberAttribute c SQL_DESC_SCALE = Some sc -> GetNumberAttribute c SQL_DESC_NULLABLE = Some nl ->
  let call id at_ := statement_call toDouble w x (fun ops => InternalGetColumnAttribute (Z.of_nat n + 1) id 0 0 0 at_) in
  let h' := put_stmt x conn (settled q s) h in
  exists m1 m2 m3 m4, call SQL_DESC_TYPE (frame + 8) h m = Ok (SQL_SUCCESS, h', m1)
    /\ call SQL_DESC_PRECISION (frame + 16) h' m1 = Ok (SQL_SUCCESS, h', m2)
    /\ call SQL_DESC_SCALE (frame + 24) h' m2 = Ok (SQL_SUCCESS, h', m3)
    /\ call SQL_DESC_NULLABLE (frame + 32) h' m3 = Ok (SQL_SUCCESS, h', m4)
    /\ load (frame + 8) 8 m4 = Some (le_bytes 8 t) /\ load (frame + 16) 8 m4 = Some (le_bytes 8 p)
    /\ load (frame + 24) 8 m4 = Some (le_bytes 8 sc) /\ load (frame + 32) 8 m4 = Some (le_bytes 8 nl)
    /\ only_changes (frame + 8) 32 m m4 /\ (forall b k, mapped b k m -> mapped b k m4).
Proof.
  intros Hc Hf Hm Ht Hp Hsc Hnl call h'.
  assert (column_at w h' x conn (settled q s) q cols n c) as Hc' by (by eapply column_at_put).
  assert (forall a m', 8 <= a <= 32 -> mapped frame 40 m' -> mapped (frame + a) 8 m') as Hin
    by (intros a m' Ha Hm' y Hy; apply Hm'; lia).
  destruct (number_attribute w h x conn s q cols n c _ _ (frame + 8) m Hc Ht) as (m1 & E1 & L1 & C1 & M1); [lia|by apply Hin|].
  destruct (number_attribute w h' x conn _ q cols n c _ _ (frame + 16) m1 Hc' Hp) as (m2 & E2 & L2 & C2 & M2); [lia|apply Hin; [lia|auto]|].
  destruct (number_attribute w h' x conn _ q cols n c _ _ (frame + 24) m2 Hc' Hsc) as (m3 & E3 & L3 & C3 & M3); [lia|apply Hin; [lia|auto]|].
  destruct (number_attribute w h' x conn _ q cols n c _ _ (frame + 32) m3 Hc' Hnl) as (m4 & E4 & L4 & C4 & M4); [lia|apply Hin; [lia|auto]|].
  change (settled q (settled q s)) with (settled q s) in E2, E3, E4. unfold h' in E2, E3, E4. rewrite put_stmt_again in E2, E3, E4.
  assert (forall b a m m', only_changes a 8 m m' -> b + 8 <= a \/ a + 8 <= b -> load b 8 m' = load b 8 m) as Ho
    by (intros b a m0 m' Hch Hd; eapply load_other; [exact Hch|exact Hd]).
  exists m1, m2, m3, m4. do 4 (split; [done|]).
  rewrite (Ho (frame + 8) _ _ _ C4), (Ho (frame + 8) _ _ _ C3), (Ho (frame + 8) _ _ _ C2), (Ho (frame + 16) _ _ _ C4),
    (Ho (frame + 16) _ _ _ C3), (Ho (frame + 24) _ _ _ C4) by lia.
  do 4 (split; [done|]). split; [|by auto]. intros y Hy. rewrite C4, C3, C2, C1 by lia. done.
Qed.

End describe.

(** ** Regions that stay folded *)

Lemma disjoint_sym r s : disjoint_regions r s -> disjoint_regions s r.
Proof. unfold disjoint_regions. tauto. Qed.

Lemma disjoint_inner r a n b k :
  disjoint_regions r (a, n) -> a <= b -> b + k <= a + n -> disjoint_regions r (b, k).
Proof. unfold disjoint_regions. cbn. lia. Qed.

(** [apart_regions] opens a hypothesis on regions. *)
Ltac apart_regions H :=
  unfold valid_regions in H; cbn [apart apart_from] in H; rewrite ?Forall_cons in H; cbn [fst snd] in H; destruct_and? H.

(** [separate frame] shows that regions do not overlap; parts of the frame count as the frame. *)
Ltac separate frame :=
  first
    [assumption
    |apply disjoint_sym; assumption
    |apply (disjoint_inner _ frame 40); [first [assumption|apply disjoint_sym; assumption]|lia|lia]
    |apply disjoint_sym, (disjoint_inner _ frame 40); [first [assumption|apply disjoint_sym; assumption]|lia|lia]].

(** Bytes apart from what changes stay. *)
Lemma apart_outside b k rs y : apart_from (b, k) rs -> b <= y < b + k -> Forall (fun r => ~ (r.1 <= y < r.1 + r.2)) rs.
Proof.
  induction rs as [|r rs IH]; intros Ha Hy; [constructor|]. destruct Ha as [Hr Ha].
  constructor; [unfold disjoint_regions in Hr; cbn in Hr; lia|by apply IH].
Qed.

Lemma load_apart b k rs m m' :
  changes_within rs m m' -> apart_from (b, Z.of_nat k) rs -> load b k m' = load b k m.
Proof. intros Hc Ha. apply load_ext. intros y Hy. apply Hc. by eapply apart_outside. Qed.

(** The four variables of the frame, handed to the application. *)
Lemma four_results typ size digits nul frame t p sc nl m :
  load (frame + 8) 8 m = Some (le_bytes 8 t) -> load (frame + 16) 8 m = Some (le_bytes 8 p) ->
  load (frame + 24) 8 m = Some (le_bytes 8 sc) -> load (frame + 32) 8 m = Some (le_bytes 8 nl) ->
  valid_regions [(typ, 2); (size, 8); (digits, 2); (nul, 2); (frame, 40)] m ->
  let result target n local m : outcome Z mem :=
    if target =? 0 then Ok m else let* v := ld local 8 m in st target (le_bytes n (le_val v)) m in
  exists m7 m8 m9 m10, result typ 2%nat (frame + 8) m = Ok m7 /\ result size 8%nat (frame + 16) m7 = Ok m8
    /\ result digits 2%nat (frame + 24) m8 = Ok m9 /\ result nul 2%nat (frame + 32) m9 = Ok m10
    /\ load typ 2 m10 = Some (le_bytes 2 t) /\ load size 8 m10 = Some (le_bytes 8 p)
    /\ load digits 2 m10 = Some (le_bytes 2 sc) /\ load nul 2 m10 = Some (le_bytes 2 nl)
    /\ changes_within [(typ, 2); (size, 8); (digits, 2); (nul, 2)] m m10.
Proof.
  intros Lt Lp Ls Ln Hreg result. apart_regions Hreg.
  destruct (hand_out typ 2 (frame + 8) _ m Lt) as (m7 & E7 & L7 & C7 & M7); [lia|done|done|].
  destruct (hand_out size 8 (frame + 16) p m7) as (m8 & E8 & L8 & C8 & M8);
    [rewrite (load_other _ _ _ _ _ _ C7); [done|separate frame]|lia|done|by apply M7|].
  destruct (hand_out digits 2 (frame + 24) sc m8) as (m9 & E9 & L9 & C9 & M9);
    [rewrite (load_other _ _ _ _ _ _ C8), (load_other _ _ _ _ _ _ C7); [done|separate frame..]|lia|done|by apply M8, M7|].
  destruct (hand_out nul 2 (frame + 32) nl m9) as (m10 & E10 & L10 & C10 & M10);
    [rewrite (load_other _ _ _ _ _ _ C9), (load_other _ _ _ _ _ _ C8), (load_other _ _ _ _ _ _ C7); [done|separate frame..]|lia|done
    |by apply M9, M8, M7|].
  exists m7, m8, m9, m10. do 4 (split; [done|]).
  rewrite (load_other typ _ _ _ _ _ C10), (load_other typ _ _ _ _ _ C9), (load_other typ _ _ _ _ _ C8) by separate frame.
  rewrite (load_other size _ _ _ _ _ C10), (load_other size _ _ _ _ _ C9) by separate frame.
  rewrite (load_other digits _ _ _ _ _ C10) by separate frame. do 4 (split; [done|]).
  intros y Hy. rewrite !Forall_cons in Hy. cbn [fst snd] in Hy. destruct_and!. by rewrite C10, C9, C8, C7 by (cbn; lia).
Qed.

Definition column_regions `{Platform} (b k lenp typ size digits nul frame : Z) : list (Z * Z) :=
  [(b, k * wsz); (lenp, 2); (typ, 2); (size, 8); (digits, 2); (nul, 2); (frame, 40)].

(** C26: [SQLDescribeCol] describes the column it is asked for.  For every column of a
    query that knows its columns, and buffers that do not overlap, the application reads
    the name, cut to the places of its buffer, the number of characters of it, and the
    type, size, decimal digits and nullability that the column has; no other memory but the
    function's frame changes.  The code is success with information exactly when the name
    was cut; but no record says so, and the statement's own code is success. *)
Theorem describe_col_correct `{PlatformLaws} `{Calendar} `{NumberTexts} toDouble w h x conn s q cols n c cs
    b k lenp typ size digits nul frame m :
  x <> 0 -> column_at toDouble w h x conn s q cols n c -> default [] (cm_columnName c) = encode cs -> wide_text cs ->
  0 < k -> k * wsz < 2 ^ 15 -> 0 < frame -> valid_regions (column_regions b k lenp typ size digits nul frame) m ->
  let kept := take (Z.to_nat (k - 1)) cs in
  let number id := or_unknown (GetNumberAttribute c id) in
  exists m', SQLDescribeCol toDouble w frame x (Z.of_nat n + 1) b k lenp typ size digits nul h m
      = Ok (if bool_decide (length kept < length cs)%nat then SQL_SUCCESS_WITH_INFO else SQL_SUCCESS,
            put_stmt x conn (settled q s) h, m')
    /\ SqlWcharToString b SQL_NTS false m' = Ok (encode kept)
    /\ load lenp 2 m' = Some (le_bytes 2 (Z.of_nat (length kept)))
    /\ load typ 2 m' = Some (le_bytes 2 (or_unknown (BinaryToSqlType (cm_dataType c))))
    /\ load size 8 m' = Some (le_bytes 8 (number SQL_DESC_PRECISION))
    /\ load digits 2 m' = Some (le_bytes 2 (number SQL_DESC_SCALE))
    /\ load nul 2 m' = Some (le_bytes 2 (Nullability_ToSql (cm_nullability c)))
    /\ changes_within (column_regions b k lenp typ size digits nul frame) m m'.
Proof.
  intros Hx Hc Hname Hcs Hk Hk2 Hf Hreg kept number. pose proof wsz_cases as Hw. unfold column_regions in Hreg. apart_regions Hreg.
  unfold SQLDescribeCol. rewrite (proj2 (Z.eqb_neq x 0)) by done.
  assert (mapped frame 40 m) as Hfr by assumption.
  destruct (st_ok frame (le_bytes 2 0) m) as (m0 & E0 & L0 & C0 & M0);
    [rewrite le_bytes_length; eapply mapped_less; [exact Hfr|lia]|].
  rewrite le_bytes_length in L0, C0. rewrite E0. cbn [obind].
  destruct (name_attribute toDouble w h x conn s q cols n c cs b k frame m0) as (s1 & m1 & E1 & Hq1 & Hs1 & L1 & F1 & C1 & M1);
    [assumption..|lia| |].
  { split; [|cbn [apart apart_from]; split_and!; try done; separate frame].
    apply Forall_cons_2; [split; [assumption|apply M0; assumption]|].
    apply Forall_cons_2; [split; [cbn; lia|apply M0; eapply mapped_less; [exact Hfr|cbn; lia]]|apply Forall_nil_2]. }
  fold kept in E1, L1, F1. rewrite E1. cbn [obind]. rewrite (proj2 (Z.eqb_neq lenp 0)) by done.
  assert (Z.of_nat (length kept) <= k - 1) by (unfold kept; rewrite length_take; lia).
  unfold ld at 1. rewrite F1. cbn [obind]. rewrite length_in_chars by nia.
  destruct (st_ok lenp (le_bytes 2 (Z.of_nat (length kept))) m1) as (m2 & E2 & L2 & C2 & M2);
    [rewrite le_bytes_length; by apply M1, M0|]. rewrite le_bytes_length in L2, C2. rewrite E2. cbn [obind].
  pose proof (column_at_put _ _ _ _ _ _ _ _ _ _ s1 Hc Hq1) as Hc1.
  destruct (four_numbers toDouble w _ x conn s1 q cols n c _ _ _ _ frame m2 Hc1 Hf (M2 _ _ (M1 _ _ (M0 _ _ Hfr)))
              eq_refl eq_refl eq_refl eq_refl) as (m3 & m4 & m5 & m6 & E3 & E4 & E5 & E6 & L3 & L4 & L5 & L6 & C6 & M6).
  rewrite put_stmt_again, Hs1 in E3, E4, E5, E6.
  rewrite E3. cbn [obind]. rewrite E4. cbn [obind]. rewrite E5. cbn [obind]. rewrite E6. cbn [obind].
  assert (forall p j, mapped p j m -> mapped p j m6) as Mall by auto 6.
  destruct (four_results typ size digits nul frame _ _ _ _ m6 L3 L4 L5 L6) as (m7 & m8 & m9 & m10 & E7 & E8 & E9 & E10 & L7 & L8 & L9 & L10 & C10).
  { split; [|cbn [apart apart_from]; split_and!; done]. repeat apply Forall_cons_2; [..|apply Forall_nil_2]; (split; [done|by apply Mall]). }
  rewrite E7. cbn [obind]. rewrite E8. cbn [obind]. rewrite E9. cbn [obind]. rewrite E10. cbn [obind].
  exists m10. split; [by destruct (bool_decide _)|].
  assert (forall p j, disjoint_regions (b, k * wsz) (p, j) ->
            disjoint_regions (b, wsz * Z.of_nat (S (length kept))) (p, j)) as Hname'
    by (intros p j Hd; apply disjoint_sym, (disjoint_inner _ b (k * wsz)); [by apply disjoint_sym|lia|nia]).
  split; [apply holds_wide_read; [by apply wide_text_take|done|]|].
  { unfold holds_wide. rewrite (load_apart _ _ _ _ _ C10);
      [|rewrite Nat2Z.inj_mul, Z2Nat.id by lia; cbn [apart_from]; split_and!; try done; by apply Hname'].
    eapply holds_wide_other; [exact C6|apply Hname'; separate frame|].
    eapply holds_wide_other; [exact C2|apply Hname'; separate frame|exact L1]. }
  rewrite (load_apart lenp _ _ _ _ C10) by (cbn [apart_from]; split_and!; done).
  rewrite (load_other lenp _ _ _ _ _ C6) by separate frame.
  do 5 (split; [done|]). intros y Hy. unfold column_regions in Hy. rewrite !Forall_cons in Hy. cbn [fst snd] in Hy. destruct_and!.
  rewrite C10, C6, C2, C1, C0; [done|..]; cbn; try lia; [|repeat apply Forall_cons_2; try apply Forall_nil_2; cbn; lia].
  apply Forall_cons_2; [cbn; lia|apply Forall_cons_2; [cbn; lia|apply Forall_nil_2]].
Qed.

(** A statement after [SQLSpecialColumns], and its first column. *)
Definition describing : Handles :=
  put_stmt 3000 2000 (with_query (Some (QSpecialColumns (MkSpecial false))) sample_statement) sample_handles.
Definition describe_memory : mem :=
  alloc 100 16 (alloc 200 2 (alloc 300 2 (alloc 400 8 (alloc 500 2 (alloc 600 2 (alloc 700 40 ∅)))))).

Lemma describe_col_correct_witness :
  exists m', SQLDescribeCol (fun _ => 0) sample_world 700 3000 1 100 4 200 300 400 500 600 describing describe_memory
      = Ok (SQL_SUCCESS_WITH_INFO,
            put_stmt 3000 2000 (settled (QSpecialColumns (MkSpecial false)) sample_statement) describing, m')
    /\ SqlWcharToString 100 SQL_NTS false m' = Ok (str "SCO")
    /\ load 300 2 m' = Some (le_bytes 2 2).
Proof.
  destruct (describe_col_correct (fun _ => 0) sample_world describing 3000 2000
    (with_query (Some (QSpecialColumns (MkSpecial false))) sample_statement) (QSpecialColumns (MkSpecial false))
    special_columns_meta 0 (own_column [] [] (str "SCOPE") DOCUMENTDB_TYPE_SHORT NULLABILITY_UNKNOWN) (str "SCOPE")
    100 4 200 300 400 500 600 700 describe_memory) as (m' & E & T & _ & L & _).
  - done.
  - split; [apply lookup_insert_eq|reflexivity|intros d; reflexivity|reflexivity].
  - vm_compute. reflexivity.
  - apply (bool_decide_unpack _). vm_compute. exact I.
  - lia.
  - reflexivity.
  - lia.
  - split; [|vm_compute; intuition discriminate].
    repeat apply Forall_cons_2; try apply Forall_nil_2; (split; [done|apply mapped_seq; apply (bool_decide_unpack _); vm_compute; exact I]).
  - exists m'. split; [exact E|]. split; [exact T|exact L].
Defined.
