(* ===== verification/Interop.v ===== *)
(** The memory and the streams of the binary protocol:
    [impl/interop/interop_memory.{h,cpp}], [interop_output_stream.cpp],
    [interop_input_stream.cpp] and [interop_stream_position_guard.h].

    A chunk of memory is a list of cells; a cell that [malloc] or [realloc] returned
    and nobody has written is [None], and reading it is undefined, as is any access
    outside the chunk.  Positions and lengths are [int32_t]: the sums and shifts that
    the code computes without a check are [checked].  A [float] or [double] is given by
    its bits. *)
From S2P Require Import Prelude Memory.

(** * Stateful operations *)

(** An operation on a state: it returns, throws a code of [DocumentDbError], or is
    undefined. *)
Definition op (S A : Type) : Type := S -> outcome Z (A * S).

Definition ret {S A} (a : A) : op S A := fun s => Ok (a, s).
Definition bind {S A B} (m : op S A) (k : A -> op S B) : op S B :=
  fun s => let* (a, s') := m s in k a s'.
Definition throw {S A} (e : Z) : op S A := fun _ => Throw e.
Definition undefined {S A} : op S A := fun _ => UB.
Definition gets {S A} (f : S -> A) : op S A := fun s => Ok (f s, s).
Definition modify {S} (f : S -> S) : op S unit := fun s => Ok (tt, f s).
Definition from {S A} (m : outcome Z A) : op S A := fun s => let* a := m in Ok (a, s).

Notation "'let!' x := m 'in' k" := (bind m (fun x => k))
  (at level 10, x pattern, k at level 200).
Notation "m ;;; k" := (bind m (fun _ => k)) (at level 100, right associativity).

(** Integer arithmetic of the stream code. *)
Definition int32 {S} (z : Z) : op S Z := from (checked 32 z).

(** [for (i = 0; i < n; i++)] with results, and over the elements of an array. *)
Fixpoint repeat_op {S A} (n : nat) (m : op S A) : op S (list A) :=
  match n with
  | O => ret []
  | Datatypes.S k => let! a := m in let! l := repeat_op k m in ret (a :: l)
  end.
Fixpoint for_each {S A} (f : A -> op S unit) (l : list A) : op S unit :=
  match l with
  | [] => ret tt
  | a :: t => f a ;;; for_each f t
  end.

Definition DOCUMENTDB_ERR_MEMORY : Z := 1001.
Definition DOCUMENTDB_ERR_BINARY : Z := 1002.

(** * Cells *)

Abbreviation cell := (option Z).

Definition cell_at (d : list cell) (x : Z) : cell :=
  if 0 <=? x then mjoin (d !! Z.to_nat x) else None.

(** Reading [n] bytes at [d + p]. *)
Definition fetch (d : list cell) (p n : Z) : outcome Z (list Z) :=
  if n <? 0 then UB
  else match mapM (cell_at d) (seqZ p n) with
       | Some bs => Ok bs
       | None => UB
       end.

(** Writing bytes at [d + p]. *)
Definition put_at (d : list cell) (p : Z) (bs : list Z) : outcome Z (list cell) :=
  if (0 <=? p) && (p + Z.of_nat (length bs) <=? Z.of_nat (length d)) then
    Ok (take (Z.to_nat p) d ++ map Some bs ++ drop (Z.to_nat p + length bs) d)
  else match bs with [] => Ok d | _ => UB end.

(** [malloc(n)] and [realloc]: a negative [int32_t] becomes a [size_t] that no
    allocator serves, and the result is null. *)
Definition malloc (n : Z) : list cell := replicate (Z.to_nat n) None.
Definition realloc (d : list cell) (n : Z) : list cell :=
  take (Z.to_nat n) d ++ replicate (Z.to_nat n - length d) None.

(** * InteropMemory *)

Definition DOCUMENTDB_MEM_FLAG_EXT : Z := 0x1.
Definition DOCUMENTDB_MEM_FLAG_POOLED : Z := 0x2.
Definition DOCUMENTDB_MEM_FLAG_ACQUIRED : Z := 0x4.

(** The header block (data pointer, capacity, length, flags) and whether the object
    owns it. *)
Record InteropMemory : Type := MkMem {
  mm_data : list cell;
  mm_cap : Z;
  mm_len : Z;
  mm_flags : Z;
  mm_owning : bool
}.

Definition IsExternal (flags : Z) : bool :=
  negb (Z.land flags DOCUMENTDB_MEM_FLAG_EXT =? DOCUMENTDB_MEM_FLAG_EXT).
Definition IsPooled (flags : Z) : bool := negb (Z.land flags DOCUMENTDB_MEM_FLAG_POOLED =? 0).
Definition IsAcquired (flags : Z) : bool := negb (Z.land flags DOCUMENTDB_MEM_FLAG_ACQUIRED =? 0).

Definition mem_set_data (d : list cell) (m : InteropMemory) : InteropMemory :=
  MkMem d (mm_cap m) (mm_len m) (mm_flags m) (mm_owning m).
Definition mem_Capacity (v : Z) (m : InteropMemory) : InteropMemory :=
  MkMem (mm_data m) v (mm_len m) (mm_flags m) (mm_owning m).
Definition mem_Length (v : Z) (m : InteropMemory) : InteropMemory :=
  MkMem (mm_data m) (mm_cap m) v (mm_flags m) (mm_owning m).

(** [InteropUnpooledMemory(int32_t cap)]. *)
Definition new_memory (cap : Z) : InteropMemory :=
  MkMem (malloc cap) cap 0 DOCUMENTDB_MEM_FLAG_EXT true.

(** [Capacity() << 1]: shifting a negative number, or out of the type, is undefined. *)
Definition twice (cap : Z) : outcome Z Z := if cap <? 0 then UB else checked 32 (2 * cap).

Definition Reallocate (cap : Z) (m : InteropMemory) : outcome Z InteropMemory :=
  let* doubledCap := twice (mm_cap m) in
  let cap := if cap <? doubledCap then doubledCap else cap in
  Ok (mem_Capacity cap (mem_set_data (realloc (mm_data m) cap) m)).

(** * InteropOutputStream *)

(** The stream's own copy of the data pointer always equals the memory's. *)
Record OutStream : Type := MkOut {
  os_mem : InteropMemory;
  os_cap : Z;
  os_pos : Z
}.
Abbreviation out := (op OutStream).

Definition new_out (m : InteropMemory) : OutStream := MkOut m (mm_cap m) 0.

Module Out.

Definition Shift (cnt : Z) : out unit :=
  fun s => let* p := checked 32 (os_pos s + cnt) in Ok (tt, MkOut (os_mem s) (os_cap s) p).

Definition EnsureCapacity (reqCap : Z) : out unit := fun s =>
  if os_cap s <? reqCap then
    let* newCap := twice (os_cap s) in
    let newCap := if newCap <? reqCap then reqCap else newCap in
    let* m := Reallocate newCap (os_mem s) in
    Ok (tt, MkOut m newCap (os_pos s))
  else Ok (tt, s).

(** [memcpy(data + pos, ...)], or a store through a cast pointer. *)
Definition poke (p : Z) (bs : list Z) : out unit := fun s =>
  let* d := put_at (mm_data (os_mem s)) p bs in
  Ok (tt, MkOut (mem_set_data d (os_mem s)) (os_cap s) (os_pos s)).

Definition Position : out Z := gets os_pos.

(** [DOCUMENTDB_INTEROP_OUT_WRITE]: a value of [len] bytes. *)
Definition write (len : nat) (val : Z) : out unit :=
  let! pos := Position in
  let! req := int32 (pos + Z.of_nat len) in
  EnsureCapacity req ;;;
  poke pos (le_bytes len val) ;;;
  Shift (Z.of_nat len).

(** Writing at a position of the caller's choice leaves the stream's alone. *)
Definition write_to (len : nat) (pos val : Z) : out unit :=
  let! req := int32 (pos + Z.of_nat len) in
  EnsureCapacity req ;;;
  poke pos (le_bytes len val).

(** [memcpy(data + pos, src + off, len)]: [src] is the bytes of the caller's array, and
    reading past its end is undefined. *)
Definition CopyAndShift (src : list Z) (off len : Z) : out unit :=
  let! pos := Position in
  let! req := int32 (pos + len) in
  EnsureCapacity req ;;;
  let! bs := from (fetch (map Some src) off len) in
  poke pos bs ;;;
  Shift len.

Definition WriteInt8 (val : Z) : out unit := write 1 val.
Definition WriteInt8_to (val pos : Z) : out unit := write_to 1 pos val.
Definition WriteInt8Array (val : list Z) (len : Z) : out unit :=
  CopyAndShift (map u8 val) 0 len.

Definition WriteBool (val : bool) : out unit := WriteInt8 (if val then 1 else 0).

(** [*(val + i)] for [i < len]: past the end of the array it is undefined. *)
Definition elements {A} (val : list A) (len : Z) : out (list A) :=
  if Z.of_nat (length val) <? len then undefined else ret (take (Z.to_nat len) val).

Definition WriteBoolArray (val : list bool) (len : Z) : out unit :=
  let! l := elements val len in for_each WriteBool l.

Definition WriteInt16 (val : Z) : out unit := write 2 val.
Definition WriteInt16_to (pos val : Z) : out unit := write_to 2 pos val.

(** The bytes of an array, and [len << shift]. *)
Definition array_bytes (w : nat) (val : list Z) : list Z := concat (map (le_bytes w) val).
Definition write_array (w : nat) (val : list Z) (len : Z) : out unit :=
  let! n := (if len <? 0 then undefined else int32 (len * Z.of_nat w)) in
  CopyAndShift (array_bytes w val) 0 n.

Definition WriteInt16Array : list Z -> Z -> out unit := write_array 2.
Definition WriteUInt16 (val : Z) : out unit := write 2 val.
Definition WriteUInt16Array : list Z -> Z -> out unit := write_array 2.
Definition WriteInt32 (val : Z) : out unit := write 4 val.
Definition WriteInt32_to (pos val : Z) : out unit := write_to 4 pos val.
Definition WriteInt32Array : list Z -> Z -> out unit := write_array 4.
Definition WriteInt64 (val : Z) : out unit := write 8 val.
Definition WriteInt64_to (pos val : Z) : out unit := write_to 8 pos val.
Definition WriteInt64Array : list Z -> Z -> out unit := write_array 8.

(** The unions [BinaryFloatInt32] and [BinaryDoubleInt64] reinterpret the bits. *)
Definition WriteFloat (bits : Z) : out unit := WriteInt32 (i32 bits).
Definition WriteFloatArray (val : list Z) (len : Z) : out unit :=
  let! l := elements val len in for_each WriteFloat l.
Definition WriteDouble (bits : Z) : out unit := WriteInt64 (i64 bits).
Definition WriteDoubleArray (val : list Z) (len : Z) : out unit :=
  let! l := elements val len in for_each WriteDouble l.

Definition set_Position (val : Z) : out unit :=
  EnsureCapacity val ;;; modify (fun s => MkOut (os_mem s) (os_cap s) val).

Definition Reserve (num : Z) : out Z :=
  let! pos := Position in
  let! req := int32 (pos + num) in
  EnsureCapacity req ;;;
  Shift num ;;;
  ret pos.

Definition Synchronize : out unit :=
  modify (fun s => MkOut (mem_Length (os_pos s) (os_mem s)) (os_cap s) (os_pos s)).

Definition GetMemory : out InteropMemory := gets os_mem.

End Out.

(** * InteropInputStream *)

(** The data pointer and the length are copies, taken when the stream is made or
    synchronized. *)
Record InStream : Type := MkIn {
  is_mem : InteropMemory;
  is_data : list cell;
  is_len : Z;
  is_pos : Z
}.
Abbreviation inp := (op InStream).

Definition new_in (m : InteropMemory) : InStream := MkIn m (mm_data m) (mm_len m) 0.

Definition in_at (p : Z) (s : InStream) : InStream := MkIn (is_mem s) (is_data s) (is_len s) p.

Module In.

Definition Shift (cnt : Z) : inp unit :=
  fun s => let* p := checked 32 (is_pos s + cnt) in Ok (tt, in_at p s).

Definition Position : inp Z := gets is_pos.

Definition EnsureEnoughData (cnt : Z) : inp unit := fun s =>
  let* rest := checked 32 (is_len s - is_pos s) in
  if cnt <=? rest then Ok (tt, s) else Throw DOCUMENTDB_ERR_MEMORY.

Definition peek (p n : Z) : inp (list Z) := fun s => let* bs := fetch (is_data s) p n in Ok (bs, s).

(** [DOCUMENTDB_INTEROP_IN_READ]: the [len] bytes of a value. *)
Definition read (len : nat) : inp Z :=
  EnsureEnoughData (Z.of_nat len) ;;;
  let! pos := Position in
  let! bs := peek pos (Z.of_nat len) in
  Shift (Z.of_nat len) ;;;
  ret (le_val bs).

(** Reading at a position of the caller's choice. *)
Definition read_from (len : nat) (pos : Z) : inp Z :=
  let! here := Position in
  let! e := int32 (pos + Z.of_nat len) in
  let! delta := int32 (e - here) in
  (if 0 <? delta then EnsureEnoughData delta else ret tt) ;;;
  let! bs := peek pos (Z.of_nat len) in
  ret (le_val bs).

(** [memcpy(dest + off, data + pos, cnt)]: the bytes go to the caller. *)
Definition CopyAndShift (cnt : Z) : inp (list Z) :=
  EnsureEnoughData cnt ;;;
  let! pos := Position in
  let! bs := peek pos cnt in
  Shift cnt ;;;
  ret bs.

Definition ReadInt8 : inp Z := let! v := read 1 in ret (i8 v).
Definition ReadInt8_from (pos : Z) : inp Z := let! v := read_from 1 pos in ret (i8 v).
Definition ReadInt8Array (len : Z) : inp (list Z) := let! bs := CopyAndShift len in ret (map i8 bs).

Definition ReadBool : inp bool := let! v := ReadInt8 in ret (v =? 1).
Definition ReadBoolArray (len : Z) : inp (list bool) := repeat_op (Z.to_nat len) ReadBool.

Definition ReadInt16 : inp Z := let! v := read 2 in ret (i16 v).
Definition ReadInt16_from (pos : Z) : inp Z := let! v := read_from 2 pos in ret (i16 v).

(** The values in an array of [w]-byte numbers. *)
Fixpoint split_every (w n : nat) (bs : list Z) : list (list Z) :=
  match n with
  | O => []
  | Datatypes.S k => take w bs :: split_every w k (drop w bs)
  end.
Definition read_array (w : nat) (len : Z) : inp (list Z) :=
  let! n := (if len <? 0 then undefined else int32 (len * Z.of_nat w)) in
  let! bs := CopyAndShift n in
  ret (map le_val (split_every w (Z.to_nat len) bs)).

Definition ReadInt16Array (len : Z) : inp (list Z) := let! l := read_array 2 len in ret (map i16 l).
Definition ReadUInt16 : inp Z := read 2.
Definition ReadUInt16Array (len : Z) : inp (list Z) := read_array 2 len.
Definition ReadInt32 : inp Z := let! v := read 4 in ret (i32 v).
Definition ReadInt32_from (pos : Z) : inp Z := let! v := read_from 4 pos in ret (i32 v).
Definition ReadInt32Array (len : Z) : inp (list Z) := let! l := read_array 4 len in ret (map i32 l).
Definition ReadInt64 : inp Z := let! v := read 8 in ret (i64 v).
Definition ReadInt64Array (len : Z) : inp (list Z) := let! l := read_array 8 len in ret (map i64 l).

Definition ReadFloat : inp Z := let! v := ReadInt32 in ret (u32 v).
Definition ReadFloatArray (len : Z) : inp (list Z) := read_array 4 len.
Definition ReadDouble : inp Z := let! v := ReadInt64 in ret (u64 v).
Definition ReadDoubleArray (len : Z) : inp (list Z) := read_array 8 len.

Definition Remaining : inp Z := let! len := gets is_len in let! pos := Position in int32 (len - pos).

Definition set_Position (pos : Z) : inp unit := fun s =>
  if pos <=? is_len s then Ok (tt, in_at pos s) else Throw DOCUMENTDB_ERR_MEMORY.

Definition Ignore (cnt : Z) : inp unit := Shift cnt.

Definition Synchronize : inp unit :=
  modify (fun s => MkIn (is_mem s) (mm_data (is_mem s)) (mm_len (is_mem s)) (is_pos s)).

(** [InteropStreamPositionGuard]: the destructor goes back to the saved position; when
    the block is left by an exception, the exception goes on. *)
Definition guarded {A} (body : inp A) : inp A :=
  let! pos := Position in
  let! a := body in
  set_Position pos ;;;
  ret a.

End In.
