(* ===== verification/InteropProps.v ===== *)
(** What the streams of the binary protocol do: an output stream appends bytes to its
    memory, growing it as needed ([emits]); an input stream consumes them ([parses]);
    and what one wrote the other reads. *)
From S2P Require Import Prelude Memory Interop.

(** * Cells *)

Definition holds (d : list cell) (p : Z) (bs : list Z) : Prop :=
  forall i b, bs !! i = Some b -> cell_at d (p + Z.of_nat i) = Some b.

Lemma cell_at_in d x b : cell_at d x = Some b -> 0 <= x < Z.of_nat (length d).
Proof.
  unfold cell_at. destruct (Z.leb_spec 0 x); [|done]. intros H'.
  destruct (d !! Z.to_nat x) eqn:E; [|done]. apply lookup_lt_Some in E. lia.
Qed.

Lemma holds_nil d p : holds d p [].
Proof. by intros i b H. Qed.

Lemma holds_app d p a b :
  holds d p (a ++ b) <-> holds d p a /\ holds d (p + Z.of_nat (length a)) b.
Proof.
  unfold holds. split.
  - intros H. split; intros i c Hi.
    + apply H. rewrite lookup_app_l; [done|]. by apply lookup_lt_Some in Hi.
    + replace (p + Z.of_nat (length a) + Z.of_nat i) with (p + Z.of_nat (length a + i)) by lia.
      apply H. rewrite lookup_app_r by lia. by replace (length a + i - length a)%nat with i by lia.
  - intros [Ha Hb] i c Hi. apply lookup_app_Some in Hi as [Hi|[Hle Hi]]; [by apply Ha|].
    specialize (Hb _ _ Hi). by replace (p + Z.of_nat i)
      with (p + Z.of_nat (length a) + Z.of_nat (i - length a)) by lia.
Qed.

Lemma holds_agree d d' p bs :
  holds d p bs ->
  (forall x, p <= x < p + Z.of_nat (length bs) -> cell_at d' x = cell_at d x) -> holds d' p bs.
Proof.
  intros H Heq i b Hi. rewrite Heq; [by apply H|]. apply lookup_lt_Some in Hi. lia.
Qed.

Lemma mapM_cells d p bs :
  holds d p bs -> mapM (cell_at d) (seqZ p (Z.of_nat (length bs))) = Some bs.
Proof.
  revert p. induction bs as [|b bs IH]; intros p H; [done|]. cbn [length].
  rewrite seqZ_cons by lia. cbn [mapM].
  pose proof (H 0%nat b eq_refl) as Hb. rewrite Z.add_0_r in Hb. rewrite Hb. cbn.
  replace (Z.pred (Z.of_nat (S (length bs)))) with (Z.of_nat (length bs)) by lia.
  rewrite IH; [done|]. intros i c Hi. replace (Z.succ p + Z.of_nat i) with (p + Z.of_nat (S i)) by lia.
  by apply H.
Qed.

Lemma fetch_holds d p bs : holds d p bs -> fetch d p (Z.of_nat (length bs)) = Ok bs.
Proof.
  intros H. unfold fetch. destruct (Z.ltb_spec (Z.of_nat (length bs)) 0); [lia|].
  by rewrite mapM_cells.
Qed.

Lemma holds_src src : holds (map Some src) 0 src.
Proof.
  intros i b Hi. unfold cell_at. rewrite Z.add_0_l. destruct (Z.leb_spec 0 (Z.of_nat i)); [|lia].
  rewrite Nat2Z.id, list_lookup_fmap, Hi. done.
Qed.

Lemma fetch_prefix src n :
  (n <= length src)%nat -> fetch (map Some src) 0 (Z.of_nat n) = Ok (take n src).
Proof.
  intros Hn. rewrite <- (length_take_le src n Hn) at 1. apply fetch_holds.
  pose proof (holds_src src) as H. rewrite <- (take_drop n src) in H. apply holds_app in H as [H _].
  by rewrite take_drop in H.
Qed.

Lemma put_at_spec d p bs :
  0 <= p -> p + Z.of_nat (length bs) <= Z.of_nat (length d) ->
  exists d', put_at d p bs = Ok d' /\ length d' = length d /\ holds d' p bs
    /\ forall x, ~ (p <= x < p + Z.of_nat (length bs)) -> cell_at d' x = cell_at d x.
Proof.
  intros Hp Hl. unfold put_at.
  destruct (Z.leb_spec 0 p), (Z.leb_spec (p + Z.of_nat (length bs)) (Z.of_nat (length d))); try lia.
  eexists. split; [done|]. split; [|split].
  - rewrite !length_app, length_take, length_map, length_drop. lia.
  - intros i b Hi. unfold cell_at. destruct (Z.leb_spec 0 (p + Z.of_nat i)); [|lia].
    pose proof (lookup_lt_Some _ _ _ Hi).
    rewrite lookup_app_r by (rewrite length_take; lia). rewrite length_take.
    replace (Z.to_nat (p + Z.of_nat i) - Z.to_nat p `min` length d)%nat with i by lia.
    rewrite lookup_app_l by (rewrite length_map; lia). by rewrite list_lookup_fmap, Hi.
  - intros x Hx. unfold cell_at. destruct (Z.leb_spec 0 x); [|done]. f_equal.
    destruct (decide (x < p)).
    + rewrite lookup_app_l by (rewrite length_take; lia). apply lookup_take_lt. lia.
    + rewrite lookup_app_r by (rewrite length_take; lia). rewrite length_take.
      rewrite lookup_app_r by (rewrite length_map; lia). rewrite length_map, lookup_drop. f_equal. lia.
Qed.

Lemma realloc_cells d n x :
  Z.of_nat (length d) <= n -> length (realloc d n) = Z.to_nat n /\ cell_at (realloc d n) x = cell_at d x.
Proof.
  intros Hn. unfold realloc. split.
  - rewrite length_app, length_take, length_replicate. lia.
  - unfold cell_at. destruct (Z.leb_spec 0 x); [|done]. rewrite take_ge by lia.
    destruct (decide (Z.to_nat x < length d)%nat).
    + by rewrite lookup_app_l.
    + rewrite lookup_app_r by lia. rewrite (lookup_ge_None_2 d) by lia.
      destruct (_ !! _) as [c|] eqn:E; [|done]. by apply lookup_replicate in E as [-> _].
Qed.

(** * Writing *)

(** The largest size to which doubling the capacity is always possible. *)
Definition max_size : Z := 2 ^ 30.

Definition out_ok (s : OutStream) : Prop :=
  0 <= os_pos s /\ os_pos s <= os_cap s /\ os_cap s = mm_cap (os_mem s)
  /\ mm_cap (os_mem s) = Z.of_nat (length (mm_data (os_mem s))) /\ os_cap s < 2 ^ 31.

Definition cells (s : OutStream) : list cell := mm_data (os_mem s).

Lemma new_out_ok cap : 0 <= cap < 2 ^ 31 -> out_ok (new_out (new_memory cap)).
Proof.
  intros H. unfold out_ok, new_out, new_memory, malloc. cbn.
  rewrite length_replicate. repeat split; lia.
Qed.

(** Everything but the bytes from [p] to [q] stays. *)
Definition keeps (p q : Z) (s s' : OutStream) : Prop :=
  forall x, ~ (p <= x < q) -> cell_at (cells s') x = cell_at (cells s) x.

Lemma ensure_capacity n s :
  out_ok s -> n <= max_size ->
  exists s', Out.EnsureCapacity n s = Ok (tt, s') /\ out_ok s' /\ os_pos s' = os_pos s
    /\ n <= os_cap s' /\ keeps 0 0 s s' /\ mm_len (os_mem s') = mm_len (os_mem s).
Proof.
  intros (H0 & Hp & Hc & Hd & Hmax) Hn. unfold max_size in *. change (2 ^ 30) with 1073741824 in *.
  change (2 ^ 31) with 2147483648 in *. unfold Out.EnsureCapacity.
  destruct (Z.ltb_spec (os_cap s) n) as [Hlt|Hge].
  2:{ exists s. unfold out_ok, keeps. change (2 ^ 31) with 2147483648. repeat split; auto; lia. }
  assert (Htw : forall c, 0 <= c < n -> twice c = Ok (2 * c)).
  { intros c Hcn. unfold twice. destruct (Z.ltb_spec c 0); [lia|]. apply checked_ok. widths. lia. }
  rewrite Htw by lia. cbn [obind]. set (newCap := if 2 * os_cap s <? n then n else 2 * os_cap s).
  assert (Hnc : n <= newCap /\ 2 * os_cap s <= newCap /\ newCap < 2147483648).
  { unfold newCap. destruct (Z.ltb_spec (2 * os_cap s) n); lia. }
  unfold Reallocate. rewrite <- Hc, Htw by lia. cbn [obind].
  destruct (Z.ltb_spec newCap (2 * os_cap s)); [lia|].
  destruct (realloc_cells (mm_data (os_mem s)) newCap 0 ltac:(lia)) as [Hl _].
  eexists. split; [done|]. unfold out_ok, keeps, cells. cbn. rewrite Hl.
  change (2 ^ 31) with 2147483648. repeat split; try lia.
  intros x _. apply realloc_cells. lia.
Qed.

Lemma int32_small {S} (s : S) z : - 2 ^ 31 <= z < 2 ^ 31 -> int32 z s = Ok (z, s).
Proof. intros H. unfold int32, from. by rewrite checked_ok. Qed.

(** After writing [bs] at [p] with room for it. *)
Lemma poke_spec p bs s :
  out_ok s -> 0 <= p -> p + Z.of_nat (length bs) <= os_cap s ->
  exists s', Out.poke p bs s = Ok (tt, s') /\ out_ok s' /\ os_pos s' = os_pos s
    /\ os_cap s' = os_cap s
    /\ holds (cells s') p bs /\ keeps p (p + Z.of_nat (length bs)) s s'
    /\ mm_len (os_mem s') = mm_len (os_mem s).
Proof.
  intros (H0 & Hpos & Hc & Hd & Hmax) Hp Hl. unfold Out.poke.
  destruct (put_at_spec (mm_data (os_mem s)) p bs) as (d' & -> & Hlen & Hh & Hk); [lia..|].
  cbn [obind]. eexists. split; [done|]. unfold out_ok, cells, keeps. cbn. rewrite Hlen.
  repeat split; auto.
Qed.

(** [f] appends [bs] and returns [a]. *)
Definition wrote (s : OutStream) (bs : list Z) (s' : OutStream) : Prop :=
  out_ok s' /\ os_pos s' = os_pos s + Z.of_nat (length bs) /\ holds (cells s') (os_pos s) bs
  /\ keeps (os_pos s) (os_pos s') s s'.

Definition emits {A} (f : out A) (a : A) (bs : list Z) : Prop :=
  forall s, out_ok s -> os_pos s + Z.of_nat (length bs) <= max_size ->
  exists s', f s = Ok (a, s') /\ wrote s bs s'.

Lemma emits_ret {A} (a : A) : emits (ret a) a [].
Proof.
  intros s Hs _. exists s. split; [done|]. unfold wrote, keeps. cbn. rewrite Z.add_0_r.
  split; [done|]. split; [done|]. split; [apply holds_nil|]. done.
Qed.

Lemma wrote_trans s a s1 b s2 : out_ok s -> wrote s a s1 -> wrote s1 b s2 -> wrote s (a ++ b) s2.
Proof.
  intros (H0 & _) (Ho1 & Hp1 & Hh1 & Hk1) (Ho2 & Hp2 & Hh2 & Hk2).
  unfold wrote. rewrite length_app. split; [done|]. split; [lia|]. split.
  - apply holds_app. split.
    + apply (holds_agree (cells s1)); [done|]. intros x Hx. apply Hk2. lia.
    + by rewrite <- Hp1.
  - intros x Hx. rewrite Hk2, Hk1; [done|lia|lia].
Qed.

Lemma emits_bind {A B} (f : out A) (k : A -> out B) a b bs1 bs2 :
  emits f a bs1 -> emits (k a) b bs2 -> emits (bind f k) b (bs1 ++ bs2).
Proof.
  intros Hf Hk s Hs Hfit. rewrite length_app in Hfit.
  destruct (Hf s Hs ltac:(lia)) as (s1 & E1 & W1). pose proof W1 as (Ho1 & Hp1 & _).
  destruct (Hk s1 Ho1 ltac:(lia)) as (s2 & E2 & W2).
  exists s2. unfold bind. rewrite E1. cbn [obind]. rewrite E2. split; [done|].
  by apply (wrote_trans _ _ s1).
Qed.

Lemma emits_ret_bind {A B} (f : out A) (k : A -> out B) a b bs :
  emits f a [] -> emits (k a) b bs -> emits (bind f k) b bs.
Proof. apply (emits_bind _ _ _ _ []). Qed.

Lemma emits_for_each {A} (f : A -> out unit) (enc : A -> list Z) l :
  (forall a, a ∈ l -> emits (f a) tt (enc a)) -> emits (for_each f l) tt (concat (map enc l)).
Proof.
  induction l as [|a l IH]; intros H; cbn [for_each map concat]; [apply emits_ret|].
  apply (emits_bind _ _ tt); [apply H; left|]. apply IH. intros b Hb. apply H. by right.
Qed.

(** ** The writing primitives *)

Lemma emit_bytes bs (n : Z) :
  n = Z.of_nat (length bs) ->
  emits (let! pos := Out.Position in let! req := int32 (pos + n) in Out.EnsureCapacity req ;;;
         Out.poke pos bs ;;; Out.Shift n) tt bs.
Proof.
  intros -> s Hs Hfit. pose proof Hs as (H0 & Hp & Hc & _ & _). unfold max_size in *.
  unfold bind at 1, Out.Position, gets. cbn [obind]. unfold bind at 1.
  rewrite int32_small by (change (2 ^ 30) with 1073741824 in *; lia). cbn [obind].
  destruct (ensure_capacity (os_pos s + Z.of_nat (length bs)) s Hs Hfit)
    as (s1 & E1 & Hs1 & Hp1 & Hc1 & Hk1 & Hl1).
  unfold bind at 1. rewrite E1. cbn [obind].
  destruct (poke_spec (os_pos s) bs s1 Hs1 H0 Hc1) as (s2 & E2 & Hs2 & Hp2 & Hc2 & Hh2 & Hk2 & Hl2).
  unfold bind. rewrite E2. cbn [obind]. unfold Out.Shift. rewrite Hp2, Hp1.
  rewrite checked_ok by (widths; change (2 ^ 30) with 1073741824 in *; lia). cbn [obind].
  eexists. split; [done|]. destruct Hs2 as (Ha & Hb & Hcc & Hd & He).
  unfold wrote, out_ok, cells, keeps. cbn. repeat split; try done; try lia; try congruence.
  intros x Hx. rewrite Hk2 by lia. apply Hk1. lia.
Qed.

Lemma emit_write n v : emits (Out.write n v) tt (le_bytes n v).
Proof. apply emit_bytes. by rewrite le_bytes_length. Qed.

Lemma emit_copy src n :
  0 <= n <= Z.of_nat (length src) -> emits (Out.CopyAndShift src 0 n) tt (take (Z.to_nat n) src).
Proof.
  intros Hn s Hs Hfit. rewrite length_take in Hfit.
  destruct (emit_bytes (take (Z.to_nat n) src) n ltac:(rewrite length_take; lia) s Hs)
    as (s' & E & W); [rewrite length_take; lia|].
  exists s'. split; [|done]. rewrite <- E. unfold Out.CopyAndShift, bind, from, Out.Position, gets.
  cbn [obind]. destruct (int32 _ s) as [[req s1]| |]; cbn [obind]; try done.
  destruct (Out.EnsureCapacity req s1) as [[u s2]| |]; cbn [obind]; try done.
  replace n with (Z.of_nat (Z.to_nat n)) at 1 by lia. rewrite fetch_prefix by lia. done.
Qed.

(** Writing at an earlier position changes the bytes there and nothing else. *)
Lemma write_to_spec n p v s :
  out_ok s -> 0 <= p -> p + Z.of_nat n <= os_pos s -> os_pos s <= max_size ->
  exists s', Out.write_to n p v s = Ok (tt, s') /\ out_ok s' /\ os_pos s' = os_pos s
    /\ holds (cells s') p (le_bytes n v) /\ keeps p (p + Z.of_nat n) s s'
    /\ mm_len (os_mem s') = mm_len (os_mem s).
Proof.
  intros Hs Hp Hl Hfit. pose proof Hs as (H0 & Hpos & _ & _ & _). unfold Out.write_to. unfold max_size in *.
  unfold bind at 1. rewrite int32_small by (change (2 ^ 30) with 1073741824 in *; lia). cbn [obind].
  destruct (ensure_capacity (p + Z.of_nat n) s Hs) as (s1 & E1 & Hs1 & Hp1 & Hc1 & Hk1 & Hl1);
    [unfold max_size; lia|].
  unfold bind. rewrite E1. cbn [obind].
  destruct (poke_spec p (le_bytes n v) s1 Hs1 Hp) as (s2 & E2 & Hs2 & Hp2 & Hc2 & Hh2 & Hk2 & Hl2);
    [rewrite le_bytes_length; lia|].
  exists s2. rewrite le_bytes_length in Hk2. split; [done|]. split; [done|]. split; [lia|].
  split; [done|]. split; [|congruence]. intros x Hx. rewrite Hk2 by done. apply Hk1. lia.
Qed.

(** [Reserve(n)] leaves a gap. *)
Lemma reserve_spec n s :
  out_ok s -> 0 <= n -> os_pos s + n <= max_size ->
  exists s', Out.Reserve n s = Ok (os_pos s, s') /\ out_ok s' /\ os_pos s' = os_pos s + n
    /\ keeps 0 0 s s' /\ mm_len (os_mem s') = mm_len (os_mem s).
Proof.
  intros Hs Hn Hfit. pose proof Hs as (H0 & Hpos & _ & _ & _). unfold Out.Reserve, max_size in *.
  unfold bind at 1, Out.Position, gets. cbn [obind]. unfold bind at 1.
  rewrite int32_small by (change (2 ^ 30) with 1073741824 in *; lia). cbn [obind].
  destruct (ensure_capacity (os_pos s + n) s Hs Hfit) as (s1 & E1 & Hs1 & Hp1 & Hc1 & Hk1 & Hl1).
  unfold bind. rewrite E1. cbn [obind]. unfold Out.Shift. rewrite Hp1.
  rewrite checked_ok by (widths; change (2 ^ 30) with 1073741824 in *; lia). cbn [obind].
  eexists. split; [done|]. destruct Hs1 as (Ha & Hb & Hcc & Hd & He).
  unfold out_ok, cells, keeps. cbn. repeat split; try done; lia.
Qed.

Lemma out_position_spec p s :
  out_ok s -> 0 <= p <= max_size ->
  exists s', Out.set_Position p s = Ok (tt, s') /\ out_ok s' /\ os_pos s' = p
    /\ keeps 0 0 s s' /\ mm_len (os_mem s') = mm_len (os_mem s).
Proof.
  intros Hs Hp. destruct (ensure_capacity p s Hs ltac:(lia)) as (s1 & E1 & Hs1 & Hp1 & Hc1 & Hk1 & Hl1).
  unfold Out.set_Position, bind. rewrite E1. cbn [obind]. eexists. split; [done|].
  destruct Hs1 as (Ha & Hb & Hcc & Hd & He). unfold out_ok, cells, keeps. cbn.
  repeat split; try done; lia.
Qed.

(** * Reading *)

Definition in_ok (s : InStream) : Prop := 0 <= is_pos s /\ 0 <= is_len s < 2 ^ 31.

(** [f] finds [bs] at the stream's position, consumes it and returns [a]. *)
Definition parses {A} (f : inp A) (bs : list Z) (a : A) : Prop :=
  forall s, in_ok s -> holds (is_data s) (is_pos s) bs ->
  is_pos s + Z.of_nat (length bs) <= is_len s ->
  f s = Ok (a, in_at (is_pos s + Z.of_nat (length bs)) s).

Lemma parses_ret {A} (a : A) : parses (ret a) [] a.
Proof. intros [m d l p] _ _ _. unfold ret, in_at. cbn. by rewrite Z.add_0_r. Qed.

Lemma parses_bind {A B} (f : inp A) (k : A -> inp B) a b bs1 bs2 :
  parses f bs1 a -> parses (k a) bs2 b -> parses (bind f k) (bs1 ++ bs2) b.
Proof.
  intros Hf Hk s Hs Hh Hl. rewrite length_app in *. apply holds_app in Hh as [H1 H2].
  unfold bind. rewrite (Hf s Hs H1 ltac:(lia)). cbn [obind].
  rewrite Hk; [|unfold in_ok in *; cbn; lia|done|cbn; lia].
  unfold in_at. cbn. do 3 f_equal. lia.
Qed.

Lemma parses_bind_ret {A B} (f : inp A) (k : A -> inp B) a b bs :
  parses f bs a -> parses (k a) [] b -> parses (bind f k) bs b.
Proof. intros H1 H2. rewrite <- (app_nil_r bs). by apply (parses_bind f k a). Qed.

Lemma parses_map {A B} (f : inp A) (g : A -> B) bs a :
  parses f bs a -> parses (let! v := f in ret (g v)) bs (g a).
Proof. intros H. apply (parses_bind_ret _ _ a); [done|]. apply parses_ret. Qed.

Lemma parses_repeat {A} (f : inp A) (enc : A -> list Z) l :
  (forall a, a ∈ l -> parses f (enc a) a) -> parses (repeat_op (length l) f) (concat (map enc l)) l.
Proof.
  induction l as [|a l IH]; intros H; cbn [repeat_op length map concat]; [apply parses_ret|].
  apply (parses_bind _ _ a); [apply H; left|].
  apply (parses_bind_ret _ _ l); [apply IH; intros b Hb; apply H; by right|]. apply parses_ret.
Qed.

Lemma enough_data n s :
  in_ok s -> is_pos s <= is_len s ->
  In.EnsureEnoughData n s = if n <=? is_len s - is_pos s then Ok (tt, s) else Throw DOCUMENTDB_ERR_MEMORY.
Proof.
  intros [H0 H1] Hle. unfold In.EnsureEnoughData. rewrite checked_ok; [done|]. widths. lia.
Qed.

Lemma parse_copy bs : parses (In.CopyAndShift (Z.of_nat (length bs))) bs bs.
Proof.
  intros s Hs Hh Hl. pose proof Hs as [H0 H1]. unfold In.CopyAndShift, bind.
  rewrite enough_data by (done || lia). destruct (Z.leb_spec (Z.of_nat (length bs)) (is_len s - is_pos s)); [|lia].
  cbn [obind]. unfold In.Position, gets, In.peek. cbn [obind]. rewrite fetch_holds by done. cbn [obind].
  unfold In.Shift. rewrite checked_ok by (widths; lia). done.
Qed.

Lemma parse_read n bs : length bs = n -> parses (In.read n) bs (le_val bs).
Proof.
  intros <- s Hs Hh Hl. pose proof (parse_copy bs s Hs Hh Hl) as E.
  unfold In.CopyAndShift, In.read, bind in *.
  destruct (In.EnsureEnoughData (Z.of_nat (length bs)) s) as [[u s1]| |]; cbn [obind] in *; try done.
  unfold In.Position, gets in *. cbn [obind] in *.
  destruct (In.peek (is_pos s1) (Z.of_nat (length bs)) s1) as [[l s2]| |]; cbn [obind] in *; try done.
  destruct (In.Shift (Z.of_nat (length bs)) s2) as [[u2 s3]| |]; cbn [obind] in *; try done.
  unfold ret in *. by simplify_eq.
Qed.

(** Looking at bytes that are there, wherever they are. *)
Lemma read_from_spec n p bs s :
  in_ok s -> is_pos s <= is_len s -> length bs = n -> 0 <= p -> p + Z.of_nat n <= is_len s ->
  holds (is_data s) p bs -> In.read_from n p s = Ok (le_val bs, s).
Proof.
  intros Hs Hle <- Hp Hl Hh. pose proof Hs as [H0 H1]. unfold In.read_from, bind, In.Position, gets. cbn [obind].
  rewrite int32_small by lia. cbn [obind]. rewrite int32_small by lia. cbn [obind].
  assert (E : (if 0 <? p + Z.of_nat (length bs) - is_pos s
               then In.EnsureEnoughData (p + Z.of_nat (length bs) - is_pos s) else ret tt) s = Ok (tt, s)).
  { destruct (Z.ltb_spec 0 (p + Z.of_nat (length bs) - is_pos s)); [|done]. rewrite enough_data by done.
    destruct (Z.leb_spec (p + Z.of_nat (length bs) - is_pos s) (is_len s - is_pos s)); [done|lia]. }
  rewrite E. cbn [obind]. unfold In.peek. by rewrite fetch_holds.
Qed.

Lemma in_position_spec p s : p <= is_len s -> In.set_Position p s = Ok (tt, in_at p s).
Proof. intros H. unfold In.set_Position. by destruct (Z.leb_spec p (is_len s)); [|lia]. Qed.
