(* ===== verification/InteropBounds.v ===== *)
(** The bounds of the input stream: whatever is called, in whatever order, no byte
    outside the data is looked at. *)
From S2P Require Import Prelude Memory Interop InteropProps.

(** The calls that a client can make, with the arguments that matter; [Ignore] is the
    exception, which checks nothing ([ignore_past_end] below). *)
Inductive in_call : Type :=
| CReadInt8 | CReadBool | CReadInt16 | CReadUInt16 | CReadInt32 | CReadInt64 | CReadFloat | CReadDouble
| CReadInt8_from (p : Z) | CReadInt16_from (p : Z) | CReadInt32_from (p : Z)
| CReadInt8Array (n : Z) | CReadBoolArray (n : Z) | CReadInt16Array (n : Z) | CReadUInt16Array (n : Z)
| CReadInt32Array (n : Z) | CReadInt64Array (n : Z) | CReadFloatArray (n : Z) | CReadDoubleArray (n : Z)
| CPosition (p : Z) | CRemaining.

Definition in_run (c : in_call) : inp unit :=
  match c with
  | CReadInt8 => In.ReadInt8 ;;; ret tt
  | CReadBool => In.ReadBool ;;; ret tt
  | CReadInt16 => In.ReadInt16 ;;; ret tt
  | CReadUInt16 => In.ReadUInt16 ;;; ret tt
  | CReadInt32 => In.ReadInt32 ;;; ret tt
  | CReadInt64 => In.ReadInt64 ;;; ret tt
  | CReadFloat => In.ReadFloat ;;; ret tt
  | CReadDouble => In.ReadDouble ;;; ret tt
  | CReadInt8_from p => In.ReadInt8_from p ;;; ret tt
  | CReadInt16_from p => In.ReadInt16_from p ;;; ret tt
  | CReadInt32_from p => In.ReadInt32_from p ;;; ret tt
  | CReadInt8Array n => In.ReadInt8Array n ;;; ret tt
  | CReadBoolArray n => In.ReadBoolArray n ;;; ret tt
  | CReadInt16Array n => In.ReadInt16Array n ;;; ret tt
  | CReadUInt16Array n => In.ReadUInt16Array n ;;; ret tt
  | CReadInt32Array n => In.ReadInt32Array n ;;; ret tt
  | CReadInt64Array n => In.ReadInt64Array n ;;; ret tt
  | CReadFloatArray n => In.ReadFloatArray n ;;; ret tt
  | CReadDoubleArray n => In.ReadDoubleArray n ;;; ret tt
  | CPosition p => In.set_Position p
  | CRemaining => In.Remaining ;;; ret tt
  end.

(** A count is not negative and the bytes it stands for can be counted; a position is not
    negative. *)
Definition in_arg_ok (c : in_call) : Prop :=
  match c with
  | CReadInt8_from p | CReadInt16_from p | CReadInt32_from p => 0 <= p < 2 ^ 31 - 4
  | CReadInt8Array n | CReadBoolArray n => 0 <= n < 2 ^ 31
  | CReadInt16Array n | CReadUInt16Array n => 0 <= n < 2 ^ 30
  | CReadInt32Array n | CReadFloatArray n => 0 <= n < 2 ^ 29
  | CReadInt64Array n | CReadDoubleArray n => 0 <= n < 2 ^ 28
  | CPosition p => 0 <= p
  | _ => True
  end.

(** The data is all there, and the position is in it or at its end. *)
Definition in_wf (s : InStream) : Prop :=
  0 <= is_pos s <= is_len s /\ is_len s < 2 ^ 31
  /\ forall x, 0 <= x < is_len s -> is_Some (cell_at (is_data s) x).

Definition bounded {A} (f : inp A) : Prop :=
  forall s, in_wf s ->
  match f s with
  | Ok (_, s') => in_wf s' /\ is_data s' = is_data s /\ is_len s' = is_len s
  | Throw e => e = DOCUMENTDB_ERR_MEMORY
  | UB => False
  end.

Lemma bounded_ret {A} (a : A) : bounded (ret a).
Proof. by intros s Hs. Qed.

Lemma bounded_bind {A B} (f : inp A) (k : A -> inp B) :
  bounded f -> (forall a, bounded (k a)) -> bounded (bind f k).
Proof.
  intros Hf Hk s Hs. unfold bind. specialize (Hf s Hs). destruct (f s) as [[a s1]| |]; cbn [obind]; try done.
  destruct Hf as (Hs1 & Hd & Hl). specialize (Hk a s1 Hs1). destruct (k a s1) as [[b s2]| |]; try done.
  destruct Hk as (Hs2 & Hd2 & Hl2). split; [done|]. split; congruence.
Qed.

Lemma bounded_then {A} (f : inp A) : bounded f -> bounded (f ;;; ret tt).
Proof. intros H. apply bounded_bind; [done|]. intros a. apply bounded_ret. Qed.

Lemma bounded_map {A B} (f : inp A) (g : A -> B) : bounded f -> bounded (let! v := f in ret (g v)).
Proof. intros H. apply bounded_bind; [done|]. intros a. apply bounded_ret. Qed.

Lemma fetch_in s p n :
  in_wf s -> 0 <= p -> 0 <= n -> p + n <= is_len s -> exists bs, fetch (is_data s) p n = Ok bs.
Proof.
  intros (_ & _ & Hc) Hp Hn Hl. unfold fetch. destruct (Z.ltb_spec n 0); [lia|].
  destruct (mapM (cell_at (is_data s)) (seqZ p n)) as [bs|] eqn:E; [eauto|].
  exfalso. apply mapM_None_1 in E. apply Exists_exists in E as (x & Hx & E).
  apply elem_of_seqZ in Hx. destruct (Hc x ltac:(lia)) as [b Hb]. congruence.
Qed.

Lemma wf_in_ok s : in_wf s -> in_ok s /\ is_pos s <= is_len s.
Proof. intros (Hp & Hl & _). unfold in_ok. lia. Qed.

Lemma at_wf s p : in_wf s -> 0 <= p <= is_len s -> in_wf (in_at p s).
Proof. by intros (_ & Hl & Hc) Hp. Qed.

Lemma bounded_copy n : 0 <= n -> bounded (In.CopyAndShift n).
Proof.
  intros Hn s Hs. pose proof Hs as (Hp & Hl & _). destruct (wf_in_ok s Hs) as [Ho Hle].
  unfold In.CopyAndShift, bind. rewrite enough_data by done.
  destruct (Z.leb_spec n (is_len s - is_pos s)); [|done]. cbn [obind].
  unfold In.Position, gets, In.peek. cbn [obind].
  destruct (fetch_in s (is_pos s) n Hs) as [bs ->]; [lia..|]. cbn [obind].
  unfold In.Shift. rewrite checked_ok by (widths; lia). cbn [obind]. split; [|done]. apply at_wf; [done|lia].
Qed.

Lemma bounded_read w : bounded (In.read w).
Proof.
  intros s Hs. pose proof (bounded_copy (Z.of_nat w) ltac:(lia) s Hs) as H.
  unfold In.CopyAndShift, In.read, bind in *.
  destruct (In.EnsureEnoughData (Z.of_nat w) s) as [[u s1]| |]; cbn [obind] in *; try done.
  unfold In.Position, gets in *. cbn [obind] in *.
  destruct (In.peek (is_pos s1) (Z.of_nat w) s1) as [[l s2]| |]; cbn [obind] in *; try done.
  destruct (In.Shift (Z.of_nat w) s2) as [[u2 s3]| |]; cbn [obind] in *; done.
Qed.

Lemma bounded_read_from w p : (w <= 4)%nat -> 0 <= p < 2 ^ 31 - 4 -> bounded (In.read_from w p).
Proof.
  intros Hw Hp s Hs. pose proof Hs as (Hps & Hl & _). change (2 ^ 31) with 2147483648 in *.
  destruct (wf_in_ok s Hs) as [Ho Hle]. unfold In.read_from, bind, In.Position, gets. cbn [obind].
  rewrite int32_small by (change (2 ^ 31) with 2147483648; lia). cbn [obind].
  rewrite int32_small by (change (2 ^ 31) with 2147483648; lia). cbn [obind].
  set (delta := p + Z.of_nat w - is_pos s).
  assert (E : (if 0 <? delta then In.EnsureEnoughData delta else ret tt) s
    = if delta <=? is_len s - is_pos s then Ok (tt, s) else Throw DOCUMENTDB_ERR_MEMORY).
  { destruct (Z.ltb_spec 0 delta); [by rewrite enough_data|].
    by destruct (Z.leb_spec delta (is_len s - is_pos s)); [|lia]. }
  rewrite E. clear E. destruct (Z.leb_spec delta (is_len s - is_pos s)); [|done].
  cbn [obind]. unfold In.peek. destruct (fetch_in s p (Z.of_nat w) Hs) as [bs ->]; [lia..|]. by cbn [obind].
Qed.

Lemma bounded_check {A} z (k : Z -> inp A) :
  - 2 ^ 31 <= z < 2 ^ 31 -> bounded (k z) -> bounded (bind (int32 z) k).
Proof. intros Hz Hk s Hs. unfold bind. rewrite int32_small by done. by apply Hk. Qed.

Lemma bounded_array w n : 0 <= n -> n * Z.of_nat w < 2 ^ 31 -> bounded (In.read_array w n).
Proof.
  intros Hn Hf. unfold In.read_array. destruct (Z.ltb_spec n 0); [lia|].
  apply bounded_check; [change (2 ^ 31) with 2147483648 in *; lia|].
  apply bounded_map, bounded_copy. lia.
Qed.

Lemma bounded_repeat {A} n (f : inp A) : bounded f -> bounded (repeat_op n f).
Proof.
  intros H. induction n as [|n IH]; cbn [repeat_op]; [apply bounded_ret|].
  apply bounded_bind; [done|]. intros a. by apply bounded_map.
Qed.

Lemma bounded_position p : 0 <= p -> bounded (In.set_Position p).
Proof.
  intros Hp s Hs. unfold In.set_Position. destruct (Z.leb_spec p (is_len s)); [|done].
  split; [|done]. by apply at_wf.
Qed.

Lemma bounded_remaining : bounded In.Remaining.
Proof.
  intros s Hs. pose proof Hs as (Hp & Hl & _). unfold In.Remaining, In.Position, bind, gets. cbn [obind].
  rewrite int32_small by (change (2 ^ 31) with 2147483648 in *; lia). done.
Qed.

Lemma in_run_bounded c : in_arg_ok c -> bounded (in_run c).
Proof.
  intros Hc. assert (H8 : bounded In.ReadInt8) by apply bounded_map, bounded_read.
  destruct c; cbn [in_run in_arg_ok] in *; try (apply bounded_then);
    try (apply bounded_position; lia); try apply bounded_remaining;
    try (apply bounded_map); try (apply bounded_map); try (apply bounded_read); try (apply bounded_read_from; lia);
    try (apply bounded_copy; lia); try (apply bounded_repeat, bounded_map, H8);
    try (apply bounded_array; [lia|];
         change (2 ^ 31) with 2147483648 in *; change (2 ^ 30) with 1073741824 in *;
         change (2 ^ 29) with 536870912 in *; change (2 ^ 28) with 268435456 in *; lia).
Qed.

(** * The bounds *)


(** A memory of given bytes, as a message would arrive. *)
Definition memory_of (bs : list Z) : InteropMemory :=
  MkMem (map Some bs) (Z.of_nat (length bs)) (Z.of_nat (length bs)) DOCUMENTDB_MEM_FLAG_EXT true.

Lemma memory_of_wf bs : Z.of_nat (length bs) < 2 ^ 31 -> in_wf (new_in (memory_of bs)).
Proof.
  intros H. unfold in_wf, new_in, memory_of. cbn. repeat split; try lia.
  intros x Hx. destruct (lookup_lt_is_Some_2 bs (Z.to_nat x)) as [b Hb]; [lia|]. exists b.
  pose proof (holds_src bs (Z.to_nat x) b Hb) as Hh. by replace (0 + Z.of_nat (Z.to_nat x)) with x in Hh by lia.
Qed.

Definition sample_calls : list in_call := [CReadInt16; CPosition 0; CReadInt32_from 1; CReadInt32Array 2].


(** [Ignore] goes past the end without a word, and a read before the new position is not
    checked against the length any more. *)
Lemma ignore_past_end :
  (In.Ignore 8 ;;; In.ReadInt32_from 4) (new_in (memory_of [1; 2; 3; 4])) = UB.
Proof. reflexivity. Qed.

(** A negative length passes the check for enough data, and [memcpy] is called with it. *)
Lemma negative_length_undefined : In.ReadInt8Array (-1) (new_in (memory_of [1; 2; 3; 4])) = UB.
Proof. reflexivity. Qed.
