(* ===== verification/BinUtils.v ===== *)
(** Values of the binary protocol: the type codes of [impl/binary/binary_common.h], the
    functions of [impl/binary/binary_utils.{h,cpp}] and [binary/binary_type.cpp], and,
    for every type they write, that it is read back ([Codec]). *)
From S2P Require Import Prelude Memory Chrono Interop InteropProps.

(** * Type codes *)

Definition DOCUMENTDB_HDR_NULL : Z := 101.
Definition DOCUMENTDB_HDR_HND : Z := 102.
Definition DOCUMENTDB_HDR_FULL : Z := 103.
Definition DOCUMENTDB_PROTO_VER : Z := 1.
Definition DOCUMENTDB_OFFSET_FLAGS : Z := 2.
Definition DOCUMENTDB_OFFSET_LEN : Z := 12.
Definition DOCUMENTDB_OFFSET_SCHEMA_ID : Z := 16.
Definition DOCUMENTDB_OFFSET_SCHEMA_OR_RAW_OFF : Z := 20.
Definition DOCUMENTDB_BINARY_HDR_LEN : Z := 5.
Definition DOCUMENTDB_COMMON_HDR_LEN : Z := 1.
Definition DOCUMENTDB_TYPE_OBJECT : Z := DOCUMENTDB_HDR_FULL.
Definition DOCUMENTDB_TYPE_OPTM_MARSH : Z := -2.
Definition DOCUMENTDB_TYPE_BYTE : Z := 1.
Definition DOCUMENTDB_TYPE_SHORT : Z := 2.
Definition DOCUMENTDB_TYPE_INT : Z := 3.
Definition DOCUMENTDB_TYPE_LONG : Z := 4.
Definition DOCUMENTDB_TYPE_FLOAT : Z := 5.
Definition DOCUMENTDB_TYPE_DOUBLE : Z := 6.
Definition DOCUMENTDB_TYPE_CHAR : Z := 7.
Definition DOCUMENTDB_TYPE_BOOL : Z := 8.
Definition DOCUMENTDB_TYPE_STRING : Z := 9.
Definition DOCUMENTDB_TYPE_UUID : Z := 10.
Definition DOCUMENTDB_TYPE_DATE : Z := 11.
Definition DOCUMENTDB_TYPE_ARRAY_BYTE : Z := 12.
Definition DOCUMENTDB_TYPE_ARRAY_SHORT : Z := 13.
Definition DOCUMENTDB_TYPE_ARRAY_INT : Z := 14.
Definition DOCUMENTDB_TYPE_ARRAY_LONG : Z := 15.
Definition DOCUMENTDB_TYPE_ARRAY_FLOAT : Z := 16.
Definition DOCUMENTDB_TYPE_ARRAY_DOUBLE : Z := 17.
Definition DOCUMENTDB_TYPE_ARRAY_CHAR : Z := 18.
Definition DOCUMENTDB_TYPE_ARRAY_BOOL : Z := 19.
Definition DOCUMENTDB_TYPE_ARRAY_STRING : Z := 20.
Definition DOCUMENTDB_TYPE_ARRAY_UUID : Z := 21.
Definition DOCUMENTDB_TYPE_ARRAY_DATE : Z := 22.
Definition DOCUMENTDB_TYPE_ARRAY : Z := 23.
Definition DOCUMENTDB_TYPE_COLLECTION : Z := 24.
Definition DOCUMENTDB_TYPE_MAP : Z := 25.
Definition DOCUMENTDB_TYPE_BINARY : Z := 27.
Definition DOCUMENTDB_TYPE_ENUM : Z := 28.
Definition DOCUMENTDB_TYPE_DECIMAL : Z := 30.
Definition DOCUMENTDB_TYPE_ARRAY_DECIMAL : Z := 31.
Definition DOCUMENTDB_TYPE_TIMESTAMP : Z := 33.
Definition DOCUMENTDB_TYPE_ARRAY_TIMESTAMP : Z := 34.
Definition DOCUMENTDB_TYPE_TIME : Z := 36.
Definition DOCUMENTDB_TYPE_ARRAY_TIME : Z := 37.
Definition DOCUMENTDB_TYPE_BINARY_ENUM : Z := 38.

Definition DOCUMENTDB_BINARY_FLAG_USER_TYPE : Z := 0x0001.
Definition DOCUMENTDB_BINARY_FLAG_HAS_SCHEMA : Z := 0x0002.
Definition DOCUMENTDB_BINARY_FLAG_HAS_RAW : Z := 0x0004.
Definition DOCUMENTDB_BINARY_FLAG_OFFSET_ONE_BYTE : Z := 0x0008.
Definition DOCUMENTDB_BINARY_FLAG_OFFSET_TWO_BYTES : Z := 0x0010.
Definition DOCUMENTDB_BINARY_FLAG_COMPACT_FOOTER : Z := 0x0020.

Record BinaryEnumEntry : Type := MkEnum { en_typeId : Z; en_ordinal : Z }.

#[export] Instance Guid_eq_dec : EqDecision Guid.
Proof. solve_decision. Defined.
#[export] Instance BinaryEnumEntry_eq_dec : EqDecision BinaryEnumEntry.
Proof. solve_decision. Defined.

Definition en_IsNull (e : BinaryEnumEntry) : bool := en_typeId e =? 0.

(** * Hash codes

    These sums run over the type's range; the code counts on two's complement. *)

Definition GetDataHashCode (data : option (list Z)) : Z :=
  match data with
  | Some bytes => foldl (fun hash b => i32 (31 * hash + i8 b)) 1 bytes
  | None => 0
  end.

(** ['A' <= c && c <= 'Z'] become lower case; [char] is signed. *)
Definition lower_char (c : Z) : Z := if (65 <=? c) && (c <=? 90) then Z.lor c 0x20 else c.

Fixpoint hash_chars (hash : Z) (s : list Z) : Z :=
  match s with
  | [] => hash
  | c :: t => if c =? 0 then hash else hash_chars (i32 (31 * hash + i8 (lower_char c))) t
  end.
Definition GetBinaryStringHashCode (val : option (list Z)) : Z :=
  match val with Some s => hash_chars 0 s | None => 0 end.

(** * BinaryUtils *)

Module BU.

(** Reading from memory, not through a stream. *)
Definition CheckEnoughData (m : InteropMemory) (pos len : Z) : outcome Z unit :=
  let* e := checked 32 (pos + len) in
  if mm_len m <? e then Throw DOCUMENTDB_ERR_MEMORY else Ok tt.
Definition UnsafeReadPrimitive (w : nat) (m : InteropMemory) (pos : Z) : outcome Z Z :=
  let* bs := fetch (mm_data m) pos (Z.of_nat w) in Ok (wrapS (8 * Z.of_nat w) (le_val bs)).
Definition ReadPrimitive (w : nat) (m : InteropMemory) (pos : Z) : outcome Z Z :=
  let* _ := CheckEnoughData m pos (Z.of_nat w) in UnsafeReadPrimitive w m pos.

Definition ReadInt8_mem : InteropMemory -> Z -> outcome Z Z := ReadPrimitive 1.
Definition UnsafeReadInt8 : InteropMemory -> Z -> outcome Z Z := UnsafeReadPrimitive 1.
Definition ReadInt16_mem : InteropMemory -> Z -> outcome Z Z := ReadPrimitive 2.
Definition UnsafeReadInt16 : InteropMemory -> Z -> outcome Z Z := UnsafeReadPrimitive 2.
Definition ReadInt32_mem : InteropMemory -> Z -> outcome Z Z := ReadPrimitive 4.
Definition UnsafeReadInt32 : InteropMemory -> Z -> outcome Z Z := UnsafeReadPrimitive 4.

Definition ReadInt8 : inp Z := In.ReadInt8.
Definition WriteInt8 : Z -> out unit := Out.WriteInt8.
Definition ReadInt8Array : Z -> inp (list Z) := In.ReadInt8Array.
Definition WriteInt8Array : list Z -> Z -> out unit := Out.WriteInt8Array.
Definition ReadBool : inp bool := In.ReadBool.
Definition WriteBool : bool -> out unit := Out.WriteBool.
Definition ReadBoolArray : Z -> inp (list bool) := In.ReadBoolArray.
Definition WriteBoolArray : list bool -> Z -> out unit := Out.WriteBoolArray.
Definition ReadInt16 : inp Z := In.ReadInt16.
Definition WriteInt16 : Z -> out unit := Out.WriteInt16.
Definition ReadInt16Array : Z -> inp (list Z) := In.ReadInt16Array.
Definition WriteInt16Array : list Z -> Z -> out unit := Out.WriteInt16Array.
Definition ReadUInt16 : inp Z := In.ReadUInt16.
Definition WriteUInt16 : Z -> out unit := Out.WriteUInt16.
Definition ReadUInt16Array : Z -> inp (list Z) := In.ReadUInt16Array.
Definition WriteUInt16Array : list Z -> Z -> out unit := Out.WriteUInt16Array.
Definition ReadInt32 : inp Z := In.ReadInt32.
Definition WriteInt32 : Z -> out unit := Out.WriteInt32.
Definition ReadInt32Array : Z -> inp (list Z) := In.ReadInt32Array.
Definition WriteInt32Array : list Z -> Z -> out unit := Out.WriteInt32Array.
Definition ReadInt64 : inp Z := In.ReadInt64.
Definition WriteInt64 : Z -> out unit := Out.WriteInt64.
Definition ReadInt64Array : Z -> inp (list Z) := In.ReadInt64Array.
Definition WriteInt64Array : list Z -> Z -> out unit := Out.WriteInt64Array.
Definition ReadFloat : inp Z := In.ReadFloat.
Definition WriteFloat : Z -> out unit := Out.WriteFloat.
Definition ReadFloatArray : Z -> inp (list Z) := In.ReadFloatArray.
Definition WriteFloatArray : list Z -> Z -> out unit := Out.WriteFloatArray.
Definition ReadDouble : inp Z := In.ReadDouble.
Definition WriteDouble : Z -> out unit := Out.WriteDouble.
Definition ReadDoubleArray : Z -> inp (list Z) := In.ReadDoubleArray.
Definition WriteDoubleArray : list Z -> Z -> out unit := Out.WriteDoubleArray.

Definition ReadGuid : inp Guid :=
  let! most := In.ReadInt64 in let! least := In.ReadInt64 in ret (MkGuid most least).
Definition WriteGuid (val : Guid) : out unit :=
  Out.WriteInt64 (most val) ;;; Out.WriteInt64 (least val).

Definition ReadDate : inp Date := let! milliseconds := In.ReadInt64 in ret (MkDate milliseconds).
Definition WriteDate (val : Date) : out unit := Out.WriteInt64 (date_ms val).

Definition ReadTimestamp : inp Timestamp :=
  let! milliseconds := In.ReadInt64 in
  let! nanoseconds := In.ReadInt32 in
  ret (MkTimestamp (Z.quot milliseconds 1000) (i32 (Z.rem milliseconds 1000 * 1000000 + nanoseconds))).

Definition WriteTimestamp (val : Timestamp) : out unit :=
  let! s := from (checked 64 (seconds val * 1000)) in
  let! ms := from (checked 64 (s + Z.quot (fractionNs val) 1000000)) in
  Out.WriteInt64 ms ;;;
  Out.WriteInt32 (Z.rem (fractionNs val) 1000000).

Definition ReadTime : inp Time := let! ms := In.ReadInt64 in ret (MkTime ms).
Definition WriteTime (val : Time) : out unit := Out.WriteInt64 (time_ms val).

Definition ReadBinaryEnumEntry : inp BinaryEnumEntry :=
  let! typeId := In.ReadInt32 in let! ordinal := In.ReadInt32 in ret (MkEnum typeId ordinal).
Definition WriteBinaryEnumEntry (val : BinaryEnumEntry) : out unit :=
  Out.WriteInt32 (en_typeId val) ;;; Out.WriteInt32 (en_ordinal val).

(** [len] characters at [val]. *)
Definition WriteString (val : list Z) (len : Z) : out unit :=
  Out.WriteInt32 len ;;; Out.WriteInt8Array val len.

End BU.

(** * What is written is read *)

(** A type with its bytes, its writer and its reader. *)
Class Codec (A : Type) : Type := {
  valid : A -> Prop;
  enc : A -> list Z;
  wr : A -> out unit;
  rd : inp A;
  wr_emits a : valid a -> emits (wr a) tt (enc a);
  rd_parses a : valid a -> parses rd (enc a) a
}.

Lemma wrapS_mod w z : 0 < w -> inS w z -> wrapS w (z mod 2 ^ w) = z.
Proof.
  intros Hw H. rewrite <- (wrapS_small w z Hw H) at 2. rewrite !wrapS_cases by done.
  unfold wrapU. by rewrite Zmod_mod.
Qed.

Lemma parse_signed n z :
  (0 < n)%nat -> inS (8 * Z.of_nat n) z ->
  parses (let! v := In.read n in ret (wrapS (8 * Z.of_nat n) v)) (le_bytes n z) z.
Proof.
  intros Hn Hz.
  assert (E : wrapS (8 * Z.of_nat n) (le_val (le_bytes n z)) = z).
  { rewrite le_val_bytes. apply wrapS_mod; [lia|done]. }
  rewrite <- E at 2. apply (parses_map _ (wrapS (8 * Z.of_nat n))), parse_read, le_bytes_length.
Qed.

Lemma parse_unsigned n z :
  inU (8 * Z.of_nat n) z -> parses (In.read n) (le_bytes n z) z.
Proof.
  intros Hz. rewrite <- (Z.mod_small z (2 ^ (8 * Z.of_nat n)) Hz) at 2.
  rewrite <- le_val_bytes. apply parse_read, le_bytes_length.
Qed.

Lemma parse_int8 z : inS 8 z -> parses In.ReadInt8 (le_bytes 1 z) z.
Proof. apply (parse_signed 1). lia. Qed.
Lemma parse_int16 z : inS 16 z -> parses In.ReadInt16 (le_bytes 2 z) z.
Proof. apply (parse_signed 2). lia. Qed.
Lemma parse_int32 z : inS 32 z -> parses In.ReadInt32 (le_bytes 4 z) z.
Proof. apply (parse_signed 4). lia. Qed.
Lemma parse_int64 z : inS 64 z -> parses In.ReadInt64 (le_bytes 8 z) z.
Proof. apply (parse_signed 8). lia. Qed.

Lemma emit_int8 z : emits (Out.WriteInt8 z) tt (le_bytes 1 z).
Proof. apply emit_write. Qed.
Lemma emit_int16 z : emits (Out.WriteInt16 z) tt (le_bytes 2 z).
Proof. apply emit_write. Qed.
Lemma emit_int32 z : emits (Out.WriteInt32 z) tt (le_bytes 4 z).
Proof. apply emit_write. Qed.
Lemma emit_int64 z : emits (Out.WriteInt64 z) tt (le_bytes 8 z).
Proof. apply emit_write. Qed.

Create HintDb codec.
#[export] Hint Resolve emit_int8 emit_int16 emit_int32 emit_int64
  parse_int8 parse_int16 parse_int32 parse_int64 : codec.

(** One step of a composite writer or reader. *)
Ltac emit_step := first [ apply (emits_bind _ _ tt) | apply (emits_ret_bind _ _ tt) ].

#[export] Instance int8_codec : Codec Z | 10 :=
  {| valid := inS 8; enc := le_bytes 1; wr := BU.WriteInt8; rd := BU.ReadInt8;
     wr_emits z _ := emit_int8 z; rd_parses := parse_int8 |}.
Definition int16_codec : Codec Z :=
  {| valid := inS 16; enc := le_bytes 2; wr := BU.WriteInt16; rd := BU.ReadInt16;
     wr_emits z _ := emit_int16 z; rd_parses := parse_int16 |}.
Definition uint16_codec : Codec Z :=
  {| valid := inU 16; enc := le_bytes 2; wr := BU.WriteUInt16; rd := BU.ReadUInt16;
     wr_emits z _ := emit_write 2 z; rd_parses := parse_unsigned 2 |}.
Definition int32_codec : Codec Z :=
  {| valid := inS 32; enc := le_bytes 4; wr := BU.WriteInt32; rd := BU.ReadInt32;
     wr_emits z _ := emit_int32 z; rd_parses := parse_int32 |}.
Definition int64_codec : Codec Z :=
  {| valid := inS 64; enc := le_bytes 8; wr := BU.WriteInt64; rd := BU.ReadInt64;
     wr_emits z _ := emit_int64 z; rd_parses := parse_int64 |}.

Definition bool_bytes (b : bool) : list Z := [if b then 1 else 0].

Lemma emit_bool b : emits (Out.WriteBool b) tt (bool_bytes b).
Proof. unfold Out.WriteBool. destruct b; apply emit_int8. Qed.
Lemma parse_bool b : parses In.ReadBool (bool_bytes b) b.
Proof.
  destruct b.
  - refine (parses_map In.ReadInt8 (fun v => v =? 1) (le_bytes 1 1) 1 (parse_int8 1 _)). by vm_compute.
  - refine (parses_map In.ReadInt8 (fun v => v =? 1) (le_bytes 1 0) 0 (parse_int8 0 _)). by vm_compute.
Qed.
#[export] Hint Resolve emit_bool parse_bool : codec.

#[export] Instance bool_codec : Codec bool :=
  {| valid _ := True; enc := bool_bytes; wr := BU.WriteBool; rd := BU.ReadBool;
     wr_emits b _ := emit_bool b; rd_parses b _ := parse_bool b |}.

(** Bit patterns of floating-point numbers. *)
Lemma le_bytes_mod n z : le_bytes n (z mod 2 ^ (8 * Z.of_nat n)) = le_bytes n z.
Proof.
  revert z. induction n as [|n IH]; intros z; cbn [le_bytes]; [done|].
  replace (8 * Z.of_nat (S n)) with (8 + 8 * Z.of_nat n) by lia.
  rewrite Z.pow_add_r by lia. change (2 ^ 8) with 256.
  pose proof (Z.pow_pos_nonneg 2 (8 * Z.of_nat n)).
  rewrite Z.rem_mul_r by lia. f_equal.
  - rewrite (Z.mul_comm 256), Z_mod_plus_full. apply Zmod_mod.
  - rewrite <- (IH (z / 256)). f_equal. rewrite Z.add_comm, (Z.mul_comm 256), Z_div_plus_full_l by lia.
    rewrite (Z.div_small (z mod 256)) by (apply Z.mod_pos_bound; lia). lia.
Qed.

Lemma le_bytes_wrapS n z : (0 < n)%nat -> le_bytes n (wrapS (8 * Z.of_nat n) z) = le_bytes n z.
Proof.
  intros Hn. rewrite <- (le_bytes_mod n z), <- (le_bytes_mod n (wrapS _ z)).
  f_equal. by apply (wrapU_wrapS (8 * Z.of_nat n)); lia.
Qed.

Lemma emit_float b : emits (Out.WriteFloat b) tt (le_bytes 4 b).
Proof. rewrite <- (le_bytes_wrapS 4) by lia. apply emit_int32. Qed.
Lemma emit_double b : emits (Out.WriteDouble b) tt (le_bytes 8 b).
Proof. rewrite <- (le_bytes_wrapS 8) by lia. apply emit_int64. Qed.

Lemma parse_float b : inU 32 b -> parses In.ReadFloat (le_bytes 4 b) b.
Proof.
  intros Hb. rewrite <- (le_bytes_wrapS 4) by lia.
  pose proof (parses_map _ u32 _ _ (parse_int32 (i32 b) (wrapS_range 32 b ltac:(lia)))) as H.
  rewrite wrapU_wrapS, wrapU_small in H by done || lia. exact H.
Qed.
Lemma parse_double b : inU 64 b -> parses In.ReadDouble (le_bytes 8 b) b.
Proof.
  intros Hb. rewrite <- (le_bytes_wrapS 8) by lia.
  pose proof (parses_map _ u64 _ _ (parse_int64 (i64 b) (wrapS_range 64 b ltac:(lia)))) as H.
  rewrite wrapU_wrapS, wrapU_small in H by done || lia. exact H.
Qed.
#[export] Hint Resolve emit_float emit_double parse_float parse_double : codec.

Definition float_codec : Codec Z :=
  {| valid := inU 32; enc := le_bytes 4; wr := BU.WriteFloat; rd := BU.ReadFloat;
     wr_emits z _ := emit_float z; rd_parses := parse_float |}.
Definition double_codec : Codec Z :=
  {| valid := inU 64; enc := le_bytes 8; wr := BU.WriteDouble; rd := BU.ReadDouble;
     wr_emits z _ := emit_double z; rd_parses := parse_double |}.

(** ** Guids, dates, times, enums *)

Definition guid_bytes (g : Guid) : list Z := le_bytes 8 (most g) ++ le_bytes 8 (least g).

Lemma emit_guid g : emits (BU.WriteGuid g) tt (guid_bytes g).
Proof. emit_step; auto with codec. Qed.
Lemma parse_guid g : inS 64 (most g) /\ inS 64 (least g) -> parses BU.ReadGuid (guid_bytes g) g.
Proof.
  intros [Hm Hl]. eapply parses_bind; [by apply parse_int64|].
  destruct g as [m l]. apply (parses_map _ (MkGuid m)), parse_int64, Hl.
Qed.
#[export] Instance guid_codec : Codec Guid :=
  {| valid g := inS 64 (most g) /\ inS 64 (least g); enc := guid_bytes;
     wr := BU.WriteGuid; rd := BU.ReadGuid;
     wr_emits g _ := emit_guid g; rd_parses := parse_guid |}.

Lemma parse_date d : inS 64 (date_ms d) -> parses BU.ReadDate (le_bytes 8 (date_ms d)) d.
Proof. destruct d as [ms]. intros H. by apply (parses_map _ MkDate), parse_int64. Qed.
#[export] Instance date_codec : Codec Date :=
  {| valid d := inS 64 (date_ms d); enc d := le_bytes 8 (date_ms d);
     wr := BU.WriteDate; rd := BU.ReadDate;
     wr_emits d _ := emit_int64 (date_ms d); rd_parses := parse_date |}.

Lemma parse_time t : inS 64 (time_ms t) -> parses BU.ReadTime (le_bytes 8 (time_ms t)) t.
Proof. destruct t as [ms]. intros H. by apply (parses_map _ MkTime), parse_int64. Qed.
#[export] Instance time_codec : Codec Time :=
  {| valid t := inS 64 (time_ms t); enc t := le_bytes 8 (time_ms t);
     wr := BU.WriteTime; rd := BU.ReadTime;
     wr_emits t _ := emit_int64 (time_ms t); rd_parses := parse_time |}.

(** A timestamp survives when it is not before 1970 and its milliseconds fit. *)
Definition ts_ms (t : Timestamp) : Z := seconds t * 1000 + Z.quot (fractionNs t) 1000000.
Definition ts_valid (t : Timestamp) : Prop :=
  0 <= seconds t <= 9223372036854774 /\ 0 <= fractionNs t < 1000000000.
Definition ts_bytes (t : Timestamp) : list Z :=
  le_bytes 8 (ts_ms t) ++ le_bytes 4 (Z.rem (fractionNs t) 1000000).

Lemma emit_timestamp t : ts_valid t -> emits (BU.WriteTimestamp t) tt (ts_bytes t).
Proof.
  intros [Hs Hf]. unfold BU.WriteTimestamp, ts_bytes.
  assert (Hq : 0 <= Z.quot (fractionNs t) 1000000 < 1000)
    by (rewrite Z.quot_div_nonneg by lia; split; [apply Z.div_pos|apply Z.div_lt_upper_bound]; lia).
  intros s Ho Hfit. unfold bind at 1, from. rewrite checked_ok by (widths; lia). cbn [obind].
  unfold bind at 1. rewrite checked_ok by (widths; lia). cbn [obind].
  revert s Ho Hfit. emit_step; auto with codec.
Qed.

Lemma parse_timestamp t : ts_valid t -> parses BU.ReadTimestamp (ts_bytes t) t.
Proof.
  destruct t as [s f]. intros [Hs Hf]. cbn [seconds fractionNs] in Hs, Hf. unfold ts_bytes, ts_ms. cbn [seconds fractionNs].
  assert (Hq : 0 <= Z.quot f 1000000 < 1000)
    by (rewrite Z.quot_div_nonneg by lia; split; [apply Z.div_pos|apply Z.div_lt_upper_bound]; lia).
  pose proof (Z.rem_bound_pos f 1000000 ltac:(lia) ltac:(lia)) as Hr.
  eapply parses_bind; [apply parse_int64; widths; lia|].
  eapply parses_bind_ret; [apply parse_int32; widths; lia|].
  replace (MkTimestamp s f) with (MkTimestamp (Z.quot (s * 1000 + Z.quot f 1000000) 1000)
    (i32 (Z.rem (s * 1000 + Z.quot f 1000000) 1000 * 1000000 + Z.rem f 1000000))); [apply parses_ret|].
  pose proof (Z.quot_rem f 1000000 ltac:(lia)) as Hqr.
  rewrite Z.quot_div_nonneg by lia. rewrite Z.rem_mod_nonneg by lia.
  rewrite Z.div_add_l, Z.div_small by lia.
  rewrite (Z.add_comm (s * 1000)), Z_mod_plus_full, Z.mod_small by lia.
  rewrite wrapS_small by (widths; lia). f_equal; lia.
Qed.
#[export] Instance timestamp_codec : Codec Timestamp :=
  {| valid := ts_valid; enc := ts_bytes; wr := BU.WriteTimestamp; rd := BU.ReadTimestamp;
     wr_emits := emit_timestamp; rd_parses := parse_timestamp |}.

Definition enum_bytes (e : BinaryEnumEntry) : list Z :=
  le_bytes 4 (en_typeId e) ++ le_bytes 4 (en_ordinal e).
Lemma emit_enum e : emits (BU.WriteBinaryEnumEntry e) tt (enum_bytes e).
Proof. emit_step; auto with codec. Qed.
Lemma parse_enum e :
  inS 32 (en_typeId e) /\ inS 32 (en_ordinal e) -> parses BU.ReadBinaryEnumEntry (enum_bytes e) e.
Proof.
  intros [Hm Hl]. eapply parses_bind; [by apply parse_int32|].
  destruct e as [m l]. apply (parses_map _ (MkEnum m)), parse_int32, Hl.
Qed.
#[export] Instance enum_codec : Codec BinaryEnumEntry :=
  {| valid e := inS 32 (en_typeId e) /\ inS 32 (en_ordinal e); enc := enum_bytes;
     wr := BU.WriteBinaryEnumEntry; rd := BU.ReadBinaryEnumEntry;
     wr_emits e _ := emit_enum e; rd_parses := parse_enum |}.
#[export] Hint Resolve emit_guid parse_guid parse_date parse_time emit_timestamp parse_timestamp
  emit_enum parse_enum : codec.
