(* ===== verification/BinSchema.v ===== *)
(** Field schemas and type metadata of the binary protocol:
    [impl/binary/binary_schema.{h,cpp}], [binary_type_snapshot.{h,cpp}],
    [binary_type_handler.cpp], [binary_type_manager.cpp] and [binary_id_resolver.h]. *)
From S2P Require Import Prelude Memory Interop InteropProps BinUtils.

Abbreviation name := (list Z).

(** * BinarySchema *)

Inductive BinaryOffsetType : Type := ONE_BYTE | TWO_BYTES | FOUR_BYTES.

#[export] Instance BinaryOffsetType_eq_dec : EqDecision BinaryOffsetType.
Proof. solve_decision. Defined.

Record BinarySchemaFieldInfo : Type := MkField { fi_id : Z; fi_offset : Z }.
Record BinarySchema : Type := MkSchema { sc_id : Z; fieldsInfo : list BinarySchemaFieldInfo }.

Definition FNV1_OFFSET_BASIS : Z := 0x811C9DC5.
Definition FNV1_PRIME : Z := 0x01000193.

Definition new_schema : BinarySchema := MkSchema 0 [].

(** The products run over the type's range, on two's complement. *)
Definition AddField (fieldId offset : Z) (sc : BinarySchema) : BinarySchema :=
  let id := if sc_id sc =? 0 then i32 FNV1_OFFSET_BASIS else sc_id sc in
  let acc := Z.lxor id (Z.land fieldId 0xFF) in
  let acc := i32 (acc * FNV1_PRIME) in
  let acc := Z.lxor acc (Z.land (fieldId ≫ 8) 0xFF) in
  let acc := i32 (acc * FNV1_PRIME) in
  let acc := Z.lxor acc (Z.land (fieldId ≫ 16) 0xFF) in
  let acc := i32 (acc * FNV1_PRIME) in
  let acc := Z.lxor acc (Z.land (fieldId ≫ 24) 0xFF) in
  let acc := i32 (acc * FNV1_PRIME) in
  MkSchema acc (fieldsInfo sc ++ [MkField fieldId offset]).

Definition schema_Empty (sc : BinarySchema) : bool :=
  match fieldsInfo sc with [] => true | _ => false end.

Definition schema_Clear (sc : BinarySchema) : BinarySchema := MkSchema 0 [].

(** The last field's offset is taken for the largest; without a field it is undefined. *)
Definition schema_GetType (sc : BinarySchema) : outcome Z BinaryOffsetType :=
  match last (fieldsInfo sc) with
  | None => UB
  | Some f =>
      if fi_offset f <? 0x100 then Ok ONE_BYTE
      else if fi_offset f <? 0x10000 then Ok TWO_BYTES
      else Ok FOUR_BYTES
  end.

Definition write_field (t : BinaryOffsetType) (f : BinarySchemaFieldInfo) : out unit :=
  Out.WriteInt32 (fi_id f) ;;;
  match t with
  | ONE_BYTE => Out.WriteInt8 (i8 (fi_offset f))
  | TWO_BYTES => Out.WriteInt16 (i16 (fi_offset f))
  | FOUR_BYTES => Out.WriteInt32 (fi_offset f)
  end.

Definition schema_Write (sc : BinarySchema) : out unit :=
  let! t := from (schema_GetType sc) in for_each (write_field t) (fieldsInfo sc).

(** * Type snapshots, handlers and the manager

    The pointers to snapshots are shared; an object that somebody else can see is never
    changed, but for [CopyFieldsFrom], whose object is the manager's own by then. *)

Record BinaryFieldMeta : Type := MkMeta { fm_typeId : Z; fm_fieldId : Z }.

Record Snap : Type := MkSnap {
  sn_typeName : name;
  sn_affFieldName : name;
  sn_typeId : Z;
  fieldIds : gset Z;
  fields : gmap name BinaryFieldMeta
}.

Definition new_snap (typeName affFieldName : name) (typeId : Z) : Snap :=
  MkSnap typeName affFieldName typeId ∅ ∅.

Definition ContainsFieldId (fieldId : Z) (s : Snap) : bool := bool_decide (fieldId ∈ fieldIds s).
Definition HasFields (s : Snap) : bool := negb (bool_decide (fieldIds s = ∅)).

Definition snap_AddField (fieldId : Z) (fieldName : name) (fieldTypeId : Z) (s : Snap) : Snap :=
  MkSnap (sn_typeName s) (sn_affFieldName s) (sn_typeId s) ({[fieldId]} ∪ fieldIds s)
    (<[fieldName := MkMeta fieldTypeId fieldId]> (fields s)).

(** [std::map::insert] keeps what is there. *)
Definition CopyFieldsFrom (another : option Snap) (s : Snap) : Snap :=
  match another with
  | Some a =>
      if HasFields a then
        MkSnap (sn_typeName s) (sn_affFieldName s) (sn_typeId s)
          (fieldIds s ∪ fieldIds a) (fields s ∪ fields a)
      else s
  | None => s
  end.

Definition snap_GetFieldId (fieldName : name) (s : Snap) : Z :=
  match fields s !! fieldName with Some m => fm_fieldId m | None => 0 end.

Record BinaryTypeHandler : Type := MkHandler { origin : option Snap; updated : option Snap }.

Definition new_handler (snap : option Snap) : BinaryTypeHandler := MkHandler snap None.

(** Without an origin, a field is added to a copy of nothing: undefined. *)
Definition OnFieldWritten (fieldId : Z) (fieldName : name) (fieldTypeId : Z) (h : BinaryTypeHandler)
  : outcome Z BinaryTypeHandler :=
  if match origin h with Some o => negb (ContainsFieldId fieldId o) | None => true end then
    match updated h, origin h with
    | Some u, o => Ok (MkHandler o (Some (snap_AddField fieldId fieldName fieldTypeId u)))
    | None, Some o => Ok (MkHandler (Some o) (Some (snap_AddField fieldId fieldName fieldTypeId o)))
    | None, None => UB
    end
  else Ok h.

Definition HasUpdate (h : BinaryTypeHandler) : bool :=
  match updated h with Some _ => true | None => false end.

(** The manager; a pointer in [snapshots] or [pending] can be null. *)
Record BinaryTypeManager : Type := MkManager {
  snapshots : gmap Z (option Snap);
  pending : list (option Snap);
  pendingVer : Z;
  ver : Z
}.

Definition new_manager : BinaryTypeManager := MkManager ∅ [] 0 0.

(** The loops over [pending] dereference every pointer they meet. *)
Fixpoint find_pending (typeId : Z) (l : list (option Snap)) : outcome Z (option Snap) :=
  match l with
  | [] => Ok None
  | None :: _ => UB
  | Some s :: t => if sn_typeId s =? typeId then Ok (Some s) else find_pending typeId t
  end.

Definition GetHandler (typeName affFieldName : name) (typeId : Z) (m : BinaryTypeManager)
  : outcome Z BinaryTypeHandler :=
  match snapshots m !! typeId with
  | Some s => Ok (new_handler s)
  | None =>
      let* found := find_pending typeId (pending m) in
      match found with
      | Some s => Ok (new_handler (Some s))
      | None => Ok (new_handler (Some (new_snap typeName affFieldName typeId)))
      end
  end.

Definition SubmitHandler (h : BinaryTypeHandler) (m : BinaryTypeManager) : outcome Z BinaryTypeManager :=
  if HasUpdate h then
    let* v := checked 32 (pendingVer m + 1) in
    Ok (MkManager (snapshots m) (pending m ++ [updated h]) v (ver m))
  else Ok m.

Definition IsUpdatedSince (oldVer : Z) (m : BinaryTypeManager) : bool := oldVer <? pendingVer m.

(** The updater is another component: whether it takes a snapshot, and what it knows of
    a type (an error code, or a pointer). *)
Class Updater : Type := {
  update : Snap -> bool;
  get_meta : Z -> Z + option Snap
}.

(** A snapshot of a known type takes over the fields of what is known and replaces it;
    [it] is null afterwards. *)
Definition merge_pending (p : Snap) (snaps : gmap Z (option Snap)) : option Snap * gmap Z (option Snap) :=
  match snaps !! sn_typeId p with
  | None => (Some p, <[sn_typeId p := Some p]> snaps)
  | Some known => (None, <[sn_typeId p := Some (CopyFieldsFrom known p)]> snaps)
  end.

(** Whether the loop came to the end, the snapshots, and what is left in the vector. *)
Fixpoint process_pending (u : Updater) (todo : list (option Snap)) (snaps : gmap Z (option Snap))
  : bool * gmap Z (option Snap) * list (option Snap) :=
  match todo with
  | [] => (true, snaps, [])
  | None :: t => let '(ok, snaps, rest) := process_pending u t snaps in (ok, snaps, None :: rest)
  | Some p :: t =>
      if update p then
        let '(it, snaps) := merge_pending p snaps in
        let '(ok, snaps, rest) := process_pending u t snaps in (ok, snaps, it :: rest)
      else (false, snaps, todo)
  end.

(** [None] is no updater; both failures set the error [DOCUMENTDB_ERR_GENERIC]. *)
Definition ProcessPendingUpdates (u : option Updater) (m : BinaryTypeManager) : bool * BinaryTypeManager :=
  match u with
  | None => (false, m)
  | Some u =>
      match process_pending u (pending m) (snapshots m) with
      | (true, snaps, _) => (true, MkManager snaps [] (pendingVer m) (pendingVer m))
      | (false, snaps, rest) => (false, MkManager snaps rest (pendingVer m) (ver m))
      end
  end.

Definition GetMeta (u : option Updater) (typeId : Z) (m : BinaryTypeManager)
  : outcome Z (option Snap * BinaryTypeManager) :=
  match mjoin (snapshots m !! typeId) with
  | Some s => Ok (Some s, m)
  | None =>
      let* found := find_pending typeId (pending m) in
      match found, u with
      | Some s, _ => Ok (Some s, m)
      | None, None => Throw DOCUMENTDB_ERR_BINARY
      | None, Some u =>
          match get_meta typeId with
          | inl code => Throw code
          | inr s =>
              let snaps := match snapshots m !! typeId with
                           | Some _ => snapshots m       (* insert keeps the null *)
                           | None => <[typeId := s]> (snapshots m)
                           end in
              Ok (s, MkManager snaps (pending m) (pendingVer m) (ver m))
          end
      end
  end.

(** * Id resolvers *)

(** [TemplatedBinaryIdResolver]: the names of a type's fields; [fieldName] may be null. *)
Definition templated_field_id (get : name -> Z) (fieldName : option name) : outcome Z Z :=
  match fieldName with Some n => Ok (get n) | None => Throw DOCUMENTDB_ERR_BINARY end.

(** [MetadataBinaryIdResolver]. *)
Definition metadata_field_id (meta : Snap) (fieldName : option name) : outcome Z Z :=
  match fieldName with
  | None => Throw DOCUMENTDB_ERR_BINARY
  | Some n =>
      let res := snap_GetFieldId n meta in
      let res := if res =? 0 then GetBinaryStringHashCode (Some n) else res in
      if res =? 0 then Throw DOCUMENTDB_ERR_BINARY else Ok res
  end.
