(* ===== verification/BinObject.v ===== *)
(** Objects in memory: [impl/binary/binary_object_header.{h,cpp}] and
    [binary_object_impl.{h,cpp}].

    The header of an object is 24 packed bytes at its start; the schema, if there is one,
    is a table of field ids and offsets behind the fields. *)
From S2P Require Import Prelude Memory Interop InteropProps BinUtils BinSchema.

(** A walk through the table of fields from [p] to [stop]: the offset of the field
    [fieldId], if it is there.  With [fuel] the number of bytes left, the walk ends. *)
Fixpoint scan {S} (fuel : nat) (step : Z) (read_id read_off : Z -> op S Z) (fieldId stop p : Z)
  : op S (option Z) :=
  match fuel with
  | O => undefined
  | Datatypes.S k =>
      if p <? stop then
        let! currentFieldId := read_id p in
        if fieldId =? currentFieldId then
          let! q := int32 (p + 4) in let! off := read_off q in ret (Some off)
        else
          let! p' := int32 (p + step) in scan k step read_id read_off fieldId stop p'
      else ret None
  end.

Definition entry_size (t : BinaryOffsetType) : Z :=
  match t with ONE_BYTE => 5 | TWO_BYTES => 6 | FOUR_BYTES => 8 end.

Definition scan_fuel (start stop : Z) : nat := Datatypes.S (Z.to_nat (stop - start)).

(** * BinaryObjectHeader *)

Module Hdr.

Definition SIZE : Z := 24.

(** The fields of [BinaryObjectHeaderLayout] at [p]. *)
Definition GetType (m : InteropMemory) (p : Z) : outcome Z Z := BU.UnsafeReadPrimitive 1 m p.
Definition GetVersion (m : InteropMemory) (p : Z) : outcome Z Z := BU.UnsafeReadPrimitive 1 m (p + 1).
Definition GetFlags (m : InteropMemory) (p : Z) : outcome Z Z := BU.UnsafeReadPrimitive 2 m (p + 2).
Definition GetTypeId (m : InteropMemory) (p : Z) : outcome Z Z := BU.UnsafeReadPrimitive 4 m (p + 4).
Definition GetHashCode (m : InteropMemory) (p : Z) : outcome Z Z := BU.UnsafeReadPrimitive 4 m (p + 8).
Definition GetLength (m : InteropMemory) (p : Z) : outcome Z Z := BU.UnsafeReadPrimitive 4 m (p + 12).
Definition GetSchemaId (m : InteropMemory) (p : Z) : outcome Z Z := BU.UnsafeReadPrimitive 4 m (p + 16).
Definition GetSchemaOffset (m : InteropMemory) (p : Z) : outcome Z Z := BU.UnsafeReadPrimitive 4 m (p + 20).

Definition HasSchema (m : InteropMemory) (p : Z) : outcome Z bool :=
  let* f := GetFlags m p in Ok (negb (Z.land f DOCUMENTDB_BINARY_FLAG_HAS_SCHEMA =? 0)).
Definition IsUserType (m : InteropMemory) (p : Z) : outcome Z bool :=
  let* f := GetFlags m p in Ok (negb (Z.land f DOCUMENTDB_BINARY_FLAG_USER_TYPE =? 0)).

Definition GetFooterOffset (m : InteropMemory) (p : Z) : outcome Z Z :=
  let* has := HasSchema m p in if has : bool then GetSchemaOffset m p else GetLength m p.
Definition GetFooterLength (m : InteropMemory) (p : Z) : outcome Z Z :=
  let* has := HasSchema m p in
  if has : bool then
    let* len := GetLength m p in let* off := GetSchemaOffset m p in checked 32 (len - off)
  else Ok 0.
Definition GetDataLength (m : InteropMemory) (p : Z) : outcome Z Z :=
  let* off := GetFooterOffset m p in checked 32 (off - SIZE).

(** [FromMemory]: where the header is.  Each wrapper of type [DOCUMENTDB_TYPE_BINARY]
    leads to another place; [depth] bounds how often, as the stack does. *)
Fixpoint FromMemory (depth : nat) (m : InteropMemory) (offset : Z) : outcome Z Z :=
  match depth with
  | O => UB
  | Datatypes.S d =>
      let* rest := checked 32 (mm_len m - offset) in
      if rest <? SIZE then Throw DOCUMENTDB_ERR_MEMORY
      else
        let* type := BU.UnsafeReadInt8 m offset in
        if type =? DOCUMENTDB_TYPE_BINARY then
          let* p := checked 32 (offset + DOCUMENTDB_COMMON_HDR_LEN) in
          let* binLen := BU.UnsafeReadInt32 m p in
          let* p := checked 32 (offset + DOCUMENTDB_BINARY_HDR_LEN + binLen) in
          let* binOff := BU.ReadInt32_mem m p in
          let* p := checked 32 (offset + DOCUMENTDB_BINARY_HDR_LEN + binOff) in
          FromMemory d m p
        else if negb (type =? DOCUMENTDB_TYPE_OBJECT) then Throw DOCUMENTDB_ERR_MEMORY
        else Ok offset
  end.

End Hdr.

(** * BinaryObjectImpl *)

Record BinaryObjectImpl : Type := MkObject {
  bo_mem : InteropMemory;
  bo_start : Z;
  bo_idRslvr : option (option name -> outcome Z Z);
  bo_binary : bool
}.

Definition new_object (m : InteropMemory) (start : Z) (idRslvr : option (option name -> outcome Z Z))
  : outcome Z BinaryObjectImpl :=
  let* hdr := BU.ReadInt8_mem m start in
  if hdr =? DOCUMENTDB_TYPE_BINARY then
    let* p := checked 32 (start + 1) in
    let* portLen := BU.ReadInt32_mem m p in
    let* p := checked 32 (start + 5 + portLen) in
    let* portOff := BU.ReadInt32_mem m p in
    let* off := checked 32 (portOff + 5) in
    let* start := checked 32 (start + off) in
    Ok (MkObject m start idRslvr true)
  else if negb (hdr =? DOCUMENTDB_TYPE_OBJECT) then Throw DOCUMENTDB_ERR_BINARY
  else Ok (MkObject m start idRslvr false).

Definition object_FromMemory (depth : nat) (m : InteropMemory) (offset : Z) : outcome Z BinaryObjectImpl :=
  let* adjustedStart := Hdr.FromMemory depth m offset in new_object m adjustedStart None.

Definition object_GetLength (o : BinaryObjectImpl) : outcome Z Z := Hdr.GetDataLength (bo_mem o) (bo_start o).
Definition object_GetTypeId (o : BinaryObjectImpl) : outcome Z Z := Hdr.GetTypeId (bo_mem o) (bo_start o).
Definition object_GetHashCode (o : BinaryObjectImpl) : outcome Z Z := Hdr.GetHashCode (bo_mem o) (bo_start o).

(** The [len] bytes at [GetData()]. *)
Definition object_GetData (o : BinaryObjectImpl) (len : Z) : outcome Z (list Z) :=
  fetch (mm_data (bo_mem o)) (bo_start o + Hdr.SIZE) len.

(** [GetField(int32_t idx)]: the elements follow each other. *)
Fixpoint skip_fields (n : nat) (depth : nat) (m : InteropMemory) (offset : Z) : outcome Z Z :=
  match n with
  | O => Ok offset
  | Datatypes.S k =>
      let* h := Hdr.FromMemory depth m offset in
      let* len := Hdr.GetLength m h in
      let* offset := checked 32 (offset + len) in
      skip_fields k depth m offset
  end.
Definition GetField_at (depth : nat) (idx : Z) (o : BinaryObjectImpl) : outcome Z BinaryObjectImpl :=
  let* offset := checked 32 (bo_start o + Hdr.SIZE) in
  let* offset := skip_fields (Z.to_nat idx) depth (bo_mem o) offset in
  object_FromMemory depth (bo_mem o) offset.

(** Reads of the table, straight from memory. *)
Definition mem_id (p : Z) : op InteropMemory Z := fun m => let* v := BU.UnsafeReadInt32 m p in Ok (v, m).
Definition mem_off (t : BinaryOffsetType) (p : Z) : op InteropMemory Z := fun m =>
  match t with
  | ONE_BYTE => let* v := BU.UnsafeReadInt8 m p in Ok (Z.land v 0xFF, m)
  | TWO_BYTES => let* v := BU.UnsafeReadInt16 m p in Ok (Z.land v 0xFFFF, m)
  | FOUR_BYTES => let* v := BU.UnsafeReadInt32 m p in Ok (v, m)
  end.

Definition offset_type (flags : Z) : BinaryOffsetType :=
  if negb (Z.land flags DOCUMENTDB_BINARY_FLAG_OFFSET_ONE_BYTE =? 0) then ONE_BYTE
  else if negb (Z.land flags DOCUMENTDB_BINARY_FLAG_OFFSET_TWO_BYTES =? 0) then TWO_BYTES
  else FOUR_BYTES.

Definition object_FindField (fieldId : Z) (o : BinaryObjectImpl) : outcome Z Z :=
  let m := bo_mem o in
  let start := bo_start o in
  let* flags := Hdr.GetFlags m start in
  let* off := Hdr.GetFooterOffset m start in
  let* footerBegin := checked 32 (off + start) in
  let* flen := Hdr.GetFooterLength m start in
  let* footerEnd := checked 32 (footerBegin + flen) in
  let* rest := checked 32 (mm_len m - start) in
  if rest <? footerEnd then Throw DOCUMENTDB_ERR_BINARY
  else
    let t := offset_type flags in
    let* (found, _) := scan (scan_fuel footerBegin footerEnd) (entry_size t) mem_id (mem_off t)
                         fieldId footerEnd footerBegin m in
    match found with
    | Some off => checked 32 (off + start)
    | None => Ok (-1)
    end.

(** [CheckIdResolver]: the names of the fields may have to come from the manager. *)
Definition CheckIdResolver (u : option Updater) (mgr : option BinaryTypeManager) (o : BinaryObjectImpl)
  : outcome Z (BinaryObjectImpl * option BinaryTypeManager) :=
  match bo_idRslvr o with
  | Some _ => Ok (o, mgr)
  | None =>
      match mgr with
      | None => UB
      | Some mg =>
          let* typeId := object_GetTypeId o in
          let* (meta, mg) := GetMeta u typeId mg in
          let rslvr := match meta with
                       | Some s => metadata_field_id s
                       | None => fun n => match n with Some _ => UB | None => Throw DOCUMENTDB_ERR_BINARY end
                       end in
          Ok (MkObject (bo_mem o) (bo_start o) (Some rslvr) (bo_binary o), Some mg)
      end
  end.

Definition field_position (u : option Updater) (mgr : option BinaryTypeManager) (fieldName : option name)
    (o : BinaryObjectImpl) : outcome Z (Z * (BinaryObjectImpl * option BinaryTypeManager)) :=
  let* (o, mgr) := CheckIdResolver u mgr o in
  match bo_idRslvr o with
  | None => UB
  | Some rslvr =>
      let* _ := object_GetTypeId o in
      let* fieldId := rslvr fieldName in
      let* pos := object_FindField fieldId o in
      Ok (pos, (o, mgr))
  end.

Definition HasField (u : option Updater) (mgr : option BinaryTypeManager) (fieldName : option name)
    (o : BinaryObjectImpl) : outcome Z (bool * (BinaryObjectImpl * option BinaryTypeManager)) :=
  let* (pos, st) := field_position u mgr fieldName o in Ok (0 <=? pos, st).

(** [GetField<BinaryObjectImpl>]. *)
Definition GetField_object (depth : nat) (u : option Updater) (mgr : option BinaryTypeManager)
    (fieldName : option name) (o : BinaryObjectImpl)
  : outcome Z (BinaryObjectImpl * (BinaryObjectImpl * option BinaryTypeManager)) :=
  let* (pos, st) := field_position u mgr fieldName o in
  let* f := object_FromMemory depth (bo_mem o) pos in Ok (f, st).

(** The copy constructor clones the resolver and leaves [binary] unset; nothing reads
    it.  [GetEnumValue] always throws. *)
Definition GetEnumValue (o : BinaryObjectImpl) : outcome Z Z := Throw DOCUMENTDB_ERR_BINARY.
