(* ===== verification/BinWriter.v ===== *)
(** [BinaryWriterImpl] of [impl/binary/binary_writer_impl.{h,cpp}]: values, arrays,
    containers and objects, with or without field names.

    A pointer to an array or a string that can be null is an [option].  A type that the
    application registers is an instance of [BinaryType]; writing one of its objects
    starts a writer of its own on the same stream. *)
From S2P Require Import Prelude Memory Chrono Interop InteropProps BinUtils BinSchema BinObject.

(** * The state *)

Record BinaryWriterImpl : Type := MkWriter {
  w_stream : OutStream;
  w_idRslvr : option (option name -> outcome Z Z);
  w_metaMgr : option BinaryTypeManager;
  w_metaHnd : option BinaryTypeHandler;
  w_elemIdGen : Z;
  w_elemId : Z;
  w_elemCnt : Z;
  w_elemPos : Z;
  w_rawPos : Z;
  w_schema : BinarySchema;
  w_start : Z
}.
Abbreviation writer := (op BinaryWriterImpl).

(** The constructor for an object that starts at [start], and the one for a stream that
    is written raw. *)
Definition object_writer (stream : OutStream) (idRslvr : option name -> outcome Z Z)
    (metaMgr : option BinaryTypeManager) (metaHnd : option BinaryTypeHandler) (start : Z) : BinaryWriterImpl :=
  MkWriter stream (Some idRslvr) metaMgr metaHnd 0 0 0 (-1) (-1) new_schema start.
Definition raw_writer (stream : OutStream) (metaMgr : option BinaryTypeManager) : BinaryWriterImpl :=
  MkWriter stream None metaMgr None 0 0 0 (-1) 0 new_schema (os_pos stream).

Definition w_set_stream (s : OutStream) (w : BinaryWriterImpl) : BinaryWriterImpl :=
  MkWriter s (w_idRslvr w) (w_metaMgr w) (w_metaHnd w) (w_elemIdGen w) (w_elemId w) (w_elemCnt w)
    (w_elemPos w) (w_rawPos w) (w_schema w) (w_start w).
Definition w_set_mgr (m : option BinaryTypeManager) (w : BinaryWriterImpl) : BinaryWriterImpl :=
  MkWriter (w_stream w) (w_idRslvr w) m (w_metaHnd w) (w_elemIdGen w) (w_elemId w) (w_elemCnt w)
    (w_elemPos w) (w_rawPos w) (w_schema w) (w_start w).
Definition w_set_session (gen id cnt pos : Z) (w : BinaryWriterImpl) : BinaryWriterImpl :=
  MkWriter (w_stream w) (w_idRslvr w) (w_metaMgr w) (w_metaHnd w) gen id cnt pos (w_rawPos w)
    (w_schema w) (w_start w).
Definition w_set_raw (p : Z) (w : BinaryWriterImpl) : BinaryWriterImpl :=
  MkWriter (w_stream w) (w_idRslvr w) (w_metaMgr w) (w_metaHnd w) (w_elemIdGen w) (w_elemId w)
    (w_elemCnt w) (w_elemPos w) p (w_schema w) (w_start w).
Definition w_set_schema (sc : BinarySchema) (h : option BinaryTypeHandler) (w : BinaryWriterImpl)
  : BinaryWriterImpl :=
  MkWriter (w_stream w) (w_idRslvr w) (w_metaMgr w) h (w_elemIdGen w) (w_elemId w) (w_elemCnt w)
    (w_elemPos w) (w_rawPos w) sc (w_start w).

(** An operation of the stream. *)
Definition on_stream {A} (f : out A) : writer A := fun w =>
  let* (a, s) := f (w_stream w) in Ok (a, w_set_stream s w).

(** [HasSchema] is false until the first field. *)
Definition HasSchema (w : BinaryWriterImpl) : bool := negb (schema_Empty (w_schema w)).

(** * Checks *)

Module W.

Definition CheckRawMode (expected : bool) : writer unit := fun w =>
  let rawMode := negb (w_rawPos w =? -1) in
  if expected && negb rawMode then Throw DOCUMENTDB_ERR_BINARY
  else if negb expected && rawMode then Throw DOCUMENTDB_ERR_BINARY
  else Ok (tt, w).

Definition CheckSingleMode (expected : bool) : writer unit := fun w =>
  if expected && negb (w_elemId w =? 0) then Throw DOCUMENTDB_ERR_BINARY
  else if negb expected && (w_elemId w =? 0) then Throw DOCUMENTDB_ERR_BINARY
  else Ok (tt, w).

Definition StartContainerSession (expRawMode : bool) : writer unit :=
  CheckRawMode expRawMode ;;;
  CheckSingleMode true ;;;
  fun w => let* gen := checked 32 (w_elemIdGen w + 1) in
           Ok (tt, w_set_session gen gen (w_elemCnt w) (os_pos (w_stream w)) w).

Definition CheckSession (expSes : Z) : writer unit := fun w =>
  if w_elemId w =? expSes then Ok (tt, w) else Throw DOCUMENTDB_ERR_BINARY.

(** [elemCnt++]. *)
Definition count_element : writer unit := fun w =>
  let* n := checked 32 (w_elemCnt w + 1) in
  Ok (tt, w_set_session (w_elemIdGen w) (w_elemId w) n (w_elemPos w) w).

Definition WriteFieldId (fieldName : option name) (fieldTypeId : Z) : writer unit := fun w =>
  match w_idRslvr w with
  | None => UB
  | Some rslvr =>
      let* fieldId := rslvr fieldName in
      let* fieldOff := checked 32 (os_pos (w_stream w) - w_start w) in
      let* h := match w_metaHnd w with
                | Some h => let* h := OnFieldWritten fieldId (default [] fieldName) fieldTypeId h in
                            Ok (Some h)
                | None => Ok None
                end in
      Ok (tt, w_set_schema (AddField fieldId fieldOff (w_schema w)) h w)
  end.

(** * Primitive values *)

Section primitives.
Context {T : Type}.

Definition WritePrimitiveRaw (val : T) (func : T -> out unit) : writer unit :=
  CheckRawMode true ;;; CheckSingleMode true ;;; on_stream (func val).

Definition write_array_body (val : option (list T)) (len : Z) (func : list T -> Z -> out unit) (hdr : Z)
  : out unit :=
  match val with
  | Some l => Out.WriteInt8 hdr ;;; Out.WriteInt32 len ;;; func l len
  | None => Out.WriteInt8 DOCUMENTDB_HDR_NULL
  end.

Definition WritePrimitiveArrayRaw (val : option (list T)) (len : Z) (func : list T -> Z -> out unit)
    (hdr : Z) : writer unit :=
  CheckRawMode true ;;; CheckSingleMode true ;;; on_stream (write_array_body val len func hdr).

Definition WritePrimitive (fieldName : option name) (val : T) (func : T -> out unit) (typ : Z)
  : writer unit :=
  CheckRawMode false ;;; CheckSingleMode true ;;;
  WriteFieldId fieldName typ ;;;
  on_stream (Out.WriteInt8 typ ;;; func val).

Definition WritePrimitiveArray (fieldName : option name) (val : option (list T)) (len : Z)
    (func : list T -> Z -> out unit) (hdr : Z) : writer unit :=
  CheckRawMode false ;;; CheckSingleMode true ;;;
  WriteFieldId fieldName hdr ;;;
  on_stream (write_array_body val len func hdr).

(** A value that carries its type code also when it is written raw (GUIDs, dates and
    times), and an array of them. *)
Definition write_tagged (hdr : Z) (func : T -> out unit) (val : T) : out unit :=
  Out.WriteInt8 hdr ;;; func val.
Definition WriteTaggedRaw (val : T) (func : T -> out unit) (hdr : Z) : writer unit :=
  CheckRawMode true ;;; CheckSingleMode true ;;; on_stream (write_tagged hdr func val).
Definition WriteTagged (fieldName : option name) (val : T) (func : T -> out unit) (hdr : Z) : writer unit :=
  CheckRawMode false ;;; CheckSingleMode true ;;;
  WriteFieldId fieldName hdr ;;;
  on_stream (write_tagged hdr func val).

Definition tagged_array (hdr : Z) (func : T -> out unit) (l : list T) (len : Z) : out unit :=
  let! l := Out.elements l len in for_each (write_tagged hdr func) l.
Definition WriteTaggedArrayRaw (val : option (list T)) (len : Z) (func : T -> out unit) (arr hdr : Z)
  : writer unit := WritePrimitiveArrayRaw val len (tagged_array hdr func) arr.
Definition WriteTaggedArray (fieldName : option name) (val : option (list T)) (len : Z)
    (func : T -> out unit) (arr hdr : Z) : writer unit :=
  WritePrimitiveArray fieldName val len (tagged_array hdr func) arr.

End primitives.

Definition WriteInt8 (val : Z) := WritePrimitiveRaw val BU.WriteInt8.
Definition WriteInt8Array (val : option (list Z)) (len : Z) :=
  WritePrimitiveArrayRaw val len BU.WriteInt8Array DOCUMENTDB_TYPE_ARRAY_BYTE.
Definition WriteInt8_f (f : option name) (val : Z) :=
  WritePrimitive f val BU.WriteInt8 DOCUMENTDB_TYPE_BYTE.
Definition WriteInt8Array_f (f : option name) (val : option (list Z)) (len : Z) :=
  WritePrimitiveArray f val len BU.WriteInt8Array DOCUMENTDB_TYPE_ARRAY_BYTE.

Definition WriteBool (val : bool) := WritePrimitiveRaw val BU.WriteBool.
Definition WriteBoolArray (val : option (list bool)) (len : Z) :=
  WritePrimitiveArrayRaw val len BU.WriteBoolArray DOCUMENTDB_TYPE_ARRAY_BOOL.
Definition WriteBool_f (f : option name) (val : bool) :=
  WritePrimitive f val BU.WriteBool DOCUMENTDB_TYPE_BOOL.
Definition WriteBoolArray_f (f : option name) (val : option (list bool)) (len : Z) :=
  WritePrimitiveArray f val len BU.WriteBoolArray DOCUMENTDB_TYPE_ARRAY_BOOL.

Definition WriteInt16 (val : Z) := WritePrimitiveRaw val BU.WriteInt16.
Definition WriteInt16Array (val : option (list Z)) (len : Z) :=
  WritePrimitiveArrayRaw val len BU.WriteInt16Array DOCUMENTDB_TYPE_ARRAY_SHORT.
Definition WriteInt16_f (f : option name) (val : Z) :=
  WritePrimitive f val BU.WriteInt16 DOCUMENTDB_TYPE_SHORT.
Definition WriteInt16Array_f (f : option name) (val : option (list Z)) (len : Z) :=
  WritePrimitiveArray f val len BU.WriteInt16Array DOCUMENTDB_TYPE_ARRAY_SHORT.

Definition WriteUInt16 (val : Z) := WritePrimitiveRaw val BU.WriteUInt16.
Definition WriteUInt16Array (val : option (list Z)) (len : Z) :=
  WritePrimitiveArrayRaw val len BU.WriteUInt16Array DOCUMENTDB_TYPE_ARRAY_CHAR.
Definition WriteUInt16_f (f : option name) (val : Z) :=
  WritePrimitive f val BU.WriteUInt16 DOCUMENTDB_TYPE_CHAR.
Definition WriteUInt16Array_f (f : option name) (val : option (list Z)) (len : Z) :=
  WritePrimitiveArray f val len BU.WriteUInt16Array DOCUMENTDB_TYPE_ARRAY_CHAR.

Definition WriteInt32 (val : Z) := WritePrimitiveRaw val BU.WriteInt32.
Definition WriteInt32Array (val : option (list Z)) (len : Z) :=
  WritePrimitiveArrayRaw val len BU.WriteInt32Array DOCUMENTDB_TYPE_ARRAY_INT.
Definition WriteInt32_f (f : option name) (val : Z) :=
  WritePrimitive f val BU.WriteInt32 DOCUMENTDB_TYPE_INT.
Definition WriteInt32Array_f (f : option name) (val : option (list Z)) (len : Z) :=
  WritePrimitiveArray f val len BU.WriteInt32Array DOCUMENTDB_TYPE_ARRAY_INT.

Definition WriteInt64 (val : Z) := WritePrimitiveRaw val BU.WriteInt64.
Definition WriteInt64Array (val : option (list Z)) (len : Z) :=
  WritePrimitiveArrayRaw val len BU.WriteInt64Array DOCUMENTDB_TYPE_ARRAY_LONG.
Definition WriteInt64_f (f : option name) (val : Z) :=
  WritePrimitive f val BU.WriteInt64 DOCUMENTDB_TYPE_LONG.
Definition WriteInt64Array_f (f : option name) (val : option (list Z)) (len : Z) :=
  WritePrimitiveArray f val len BU.WriteInt64Array DOCUMENTDB_TYPE_ARRAY_LONG.

Definition WriteFloat (val : Z) := WritePrimitiveRaw val BU.WriteFloat.
Definition WriteFloatArray (val : option (list Z)) (len : Z) :=
  WritePrimitiveArrayRaw val len BU.WriteFloatArray DOCUMENTDB_TYPE_ARRAY_FLOAT.
Definition WriteFloat_f (f : option name) (val : Z) :=
  WritePrimitive f val BU.WriteFloat DOCUMENTDB_TYPE_FLOAT.
Definition WriteFloatArray_f (f : option name) (val : option (list Z)) (len : Z) :=
  WritePrimitiveArray f val len BU.WriteFloatArray DOCUMENTDB_TYPE_ARRAY_FLOAT.

Definition WriteDouble (val : Z) := WritePrimitiveRaw val BU.WriteDouble.
Definition WriteDoubleArray (val : option (list Z)) (len : Z) :=
  WritePrimitiveArrayRaw val len BU.WriteDoubleArray DOCUMENTDB_TYPE_ARRAY_DOUBLE.
Definition WriteDouble_f (f : option name) (val : Z) :=
  WritePrimitive f val BU.WriteDouble DOCUMENTDB_TYPE_DOUBLE.
Definition WriteDoubleArray_f (f : option name) (val : option (list Z)) (len : Z) :=
  WritePrimitiveArray f val len BU.WriteDoubleArray DOCUMENTDB_TYPE_ARRAY_DOUBLE.

Definition WriteGuid (val : Guid) := WriteTaggedRaw val BU.WriteGuid DOCUMENTDB_TYPE_UUID.
Definition WriteGuidArray (val : option (list Guid)) (len : Z) :=
  WriteTaggedArrayRaw val len BU.WriteGuid DOCUMENTDB_TYPE_ARRAY_UUID DOCUMENTDB_TYPE_UUID.
Definition WriteGuid_f (f : option name) (val : Guid) :=
  WriteTagged f val BU.WriteGuid DOCUMENTDB_TYPE_UUID.
Definition WriteGuidArray_f (f : option name) (val : option (list Guid)) (len : Z) :=
  WriteTaggedArray f val len BU.WriteGuid DOCUMENTDB_TYPE_ARRAY_UUID DOCUMENTDB_TYPE_UUID.

Definition WriteDate (val : Date) := WriteTaggedRaw val BU.WriteDate DOCUMENTDB_TYPE_DATE.
Definition WriteDateArray (val : option (list Date)) (len : Z) :=
  WriteTaggedArrayRaw val len BU.WriteDate DOCUMENTDB_TYPE_ARRAY_DATE DOCUMENTDB_TYPE_DATE.
Definition WriteDate_f (f : option name) (val : Date) :=
  WriteTagged f val BU.WriteDate DOCUMENTDB_TYPE_DATE.
Definition WriteDateArray_f (f : option name) (val : option (list Date)) (len : Z) :=
  WriteTaggedArray f val len BU.WriteDate DOCUMENTDB_TYPE_ARRAY_DATE DOCUMENTDB_TYPE_DATE.

Definition WriteTimestamp (val : Timestamp) :=
  WriteTaggedRaw val BU.WriteTimestamp DOCUMENTDB_TYPE_TIMESTAMP.
Definition WriteTimestampArray (val : option (list Timestamp)) (len : Z) :=
  WriteTaggedArrayRaw val len BU.WriteTimestamp DOCUMENTDB_TYPE_ARRAY_TIMESTAMP DOCUMENTDB_TYPE_TIMESTAMP.
Definition WriteTimestamp_f (f : option name) (val : Timestamp) :=
  WriteTagged f val BU.WriteTimestamp DOCUMENTDB_TYPE_TIMESTAMP.
Definition WriteTimestampArray_f (f : option name) (val : option (list Timestamp)) (len : Z) :=
  WriteTaggedArray f val len BU.WriteTimestamp DOCUMENTDB_TYPE_ARRAY_TIMESTAMP DOCUMENTDB_TYPE_TIMESTAMP.

Definition WriteTime (val : Time) := WriteTaggedRaw val BU.WriteTime DOCUMENTDB_TYPE_TIME.
Definition WriteTimeArray (val : option (list Time)) (len : Z) :=
  WriteTaggedArrayRaw val len BU.WriteTime DOCUMENTDB_TYPE_ARRAY_TIME DOCUMENTDB_TYPE_TIME.
Definition WriteTime_f (f : option name) (val : Time) :=
  WriteTagged f val BU.WriteTime DOCUMENTDB_TYPE_TIME.
Definition WriteTimeArray_f (f : option name) (val : option (list Time)) (len : Z) :=
  WriteTaggedArray f val len BU.WriteTime DOCUMENTDB_TYPE_ARRAY_TIME DOCUMENTDB_TYPE_TIME.

(** * Strings, enums and nulls *)

Definition write_string (val : option (list Z)) (len : Z) : out unit :=
  match val with
  | Some s => Out.WriteInt8 DOCUMENTDB_TYPE_STRING ;;; BU.WriteString s len
  | None => Out.WriteInt8 DOCUMENTDB_HDR_NULL
  end.

Definition WriteString (val : option (list Z)) (len : Z) : writer unit :=
  CheckRawMode true ;;; CheckSingleMode true ;;; on_stream (write_string val len).

Definition WriteString_f (f : option name) (val : option (list Z)) (len : Z) : writer unit :=
  CheckRawMode false ;;; CheckSingleMode true ;;;
  WriteFieldId f DOCUMENTDB_TYPE_STRING ;;;
  on_stream (write_string val len).

(** The overloads for [std::string]; the size becomes an [int32_t]. *)
Definition WriteString_std (val : list Z) : writer unit :=
  WriteString (Some val) (i32 (Z.of_nat (length val))).
Definition WriteString_std_f (f : option name) (val : list Z) : writer unit :=
  WriteString_f f (Some val) (i32 (Z.of_nat (length val))).

Definition WriteBinaryEnum (entry : BinaryEnumEntry) : writer unit :=
  WriteTaggedRaw entry BU.WriteBinaryEnumEntry DOCUMENTDB_TYPE_ENUM.
Definition WriteBinaryEnum_f (f : option name) (entry : BinaryEnumEntry) : writer unit :=
  WriteTagged f entry BU.WriteBinaryEnumEntry DOCUMENTDB_TYPE_ENUM.

Definition WriteNull0 : writer unit := on_stream (Out.WriteInt8 DOCUMENTDB_HDR_NULL).
Definition WriteNull : writer unit := CheckRawMode true ;;; CheckSingleMode true ;;; WriteNull0.
Definition WriteNull_f (f : option name) : writer unit :=
  CheckRawMode false ;;; CheckSingleMode true ;;; WriteFieldId f DOCUMENTDB_TYPE_OBJECT ;;; WriteNull0.

(** * Containers

    A container starts with its code and a gap for the number of elements, which
    [CommitContainer] fills in. *)

Definition skip_count : out unit :=
  let! pos := Out.Position in let! p := int32 (pos + 4) in Out.set_Position p.

Definition session_id : writer Z := gets w_elemId.

Definition open_container (hdr : Z) (typ : option Z) : writer Z :=
  on_stream (Out.WriteInt8 hdr ;;; skip_count ;;;
             match typ with Some t => Out.WriteInt8 (i8 t) | None => ret tt end) ;;;
  session_id.

Definition start_raw (hdr : Z) (typ : option Z) : writer Z :=
  StartContainerSession true ;;; open_container hdr typ.
Definition start_field (f : option name) (hdr : Z) (typ : option Z) : writer Z :=
  StartContainerSession false ;;; WriteFieldId f hdr ;;; open_container hdr typ.

Definition WriteStringArray : writer Z := start_raw DOCUMENTDB_TYPE_ARRAY_STRING None.
Definition WriteStringArray_f (f : option name) : writer Z := start_field f DOCUMENTDB_TYPE_ARRAY_STRING None.
Definition WriteArray : writer Z := start_raw DOCUMENTDB_TYPE_ARRAY None.
Definition WriteArray_f (f : option name) : writer Z := start_field f DOCUMENTDB_TYPE_ARRAY None.
Definition WriteCollection (typ : Z) : writer Z := start_raw DOCUMENTDB_TYPE_COLLECTION (Some typ).
Definition WriteCollection_f (f : option name) (typ : Z) : writer Z :=
  start_field f DOCUMENTDB_TYPE_COLLECTION (Some typ).
Definition WriteMap (typ : Z) : writer Z := start_raw DOCUMENTDB_TYPE_MAP (Some typ).
Definition WriteMap_f (f : option name) (typ : Z) : writer Z := start_field f DOCUMENTDB_TYPE_MAP (Some typ).

Definition WriteStringElement (id : Z) (val : option (list Z)) (len : Z) : writer unit :=
  CheckSession id ;;; on_stream (write_string val len) ;;; count_element.

Definition CommitContainer (id : Z) : writer unit :=
  CheckSession id ;;;
  (fun w => let* p := checked 32 (w_elemPos w + 1) in
            let* (_, s) := Out.WriteInt32_to p (w_elemCnt w) (w_stream w) in
            Ok (tt, w_set_stream s w)) ;;;
  modify (fun w => w_set_session (w_elemIdGen w) 0 0 (-1) w).

Definition SetRawMode : writer unit :=
  CheckRawMode false ;;; CheckSingleMode true ;;;
  modify (fun w => w_set_raw (os_pos (w_stream w)) w).

Definition GetRawPosition (w : BinaryWriterImpl) : Z :=
  if w_rawPos w =? -1 then os_pos (w_stream w) else w_rawPos w.

Definition WriteAndClearSchema : writer unit := fun w =>
  let* (_, s) := schema_Write (w_schema w) (w_stream w) in
  Ok (tt, w_set_schema (schema_Clear (w_schema w)) (w_metaHnd w) (w_set_stream s w)).

(** The header's fields, once the object is written. *)
Definition patch_header (start flags len schemaId off : Z) : out unit :=
  let! p := int32 (start + DOCUMENTDB_OFFSET_FLAGS) in
  Out.WriteInt16_to p (i16 flags) ;;;
  let! p := int32 (start + DOCUMENTDB_OFFSET_LEN) in
  Out.WriteInt32_to p len ;;;
  let! p := int32 (start + DOCUMENTDB_OFFSET_SCHEMA_ID) in
  Out.WriteInt32_to p schemaId ;;;
  let! p := int32 (start + DOCUMENTDB_OFFSET_SCHEMA_OR_RAW_OFF) in
  Out.WriteInt32_to p off.

Definition offset_flag (t : BinaryOffsetType) : Z :=
  match t with
  | ONE_BYTE => DOCUMENTDB_BINARY_FLAG_OFFSET_ONE_BYTE
  | TWO_BYTES => DOCUMENTDB_BINARY_FLAG_OFFSET_TWO_BYTES
  | FOUR_BYTES => 0
  end.

Definition PostWrite : writer unit := fun w =>
  let start := w_start w in
  let* lenWithoutSchema := checked 32 (os_pos (w_stream w) - start) in
  let flags := Z.lor DOCUMENTDB_BINARY_FLAG_USER_TYPE
                 (if 0 <? w_rawPos w then DOCUMENTDB_BINARY_FLAG_HAS_RAW else 0) in
  if negb (HasSchema w) then
    let* off := checked 32 (GetRawPosition w - start) in
    on_stream (patch_header start flags lenWithoutSchema 0 off) w
  else
    let schemaId := sc_id (w_schema w) in
    let* schemaType := schema_GetType (w_schema w) in
    let* (_, w) := WriteAndClearSchema w in
    let* (_, w) := (if 0 <? w_rawPos w
                    then let! off := int32 (w_rawPos w - start) in on_stream (Out.WriteInt32 off)
                    else ret tt) w in
    let* length := checked 32 (os_pos (w_stream w) - start) in
    let flags := Z.lor (Z.lor flags DOCUMENTDB_BINARY_FLAG_HAS_SCHEMA) (offset_flag schemaType) in
    on_stream (patch_header start flags length schemaId lenWithoutSchema) w.

End W.

(** * Top-level objects *)

(** [BinaryType<T>]: names and identifiers, and how the fields are written. *)
Class BinaryType (T : Type) : Type := {
  GetTypeId : Z;
  GetTypeName : name;
  GetAffinityFieldName : name;
  GetFieldId : name -> Z;
  IsNull : T -> bool;
  GetNull : T
}.
Arguments GetTypeId T {_}.
Arguments GetTypeName T {_}.
Arguments GetAffinityFieldName T {_}.
Arguments GetFieldId T {_} n.
Arguments GetNull T {_}.

Class ObjectWrite (T : Type) : Type := Write : T -> writer unit.

(** The header: the hash and the 12 bytes behind it are filled in later.  The result is
    the position of the hash. *)
Definition write_header (typeId : Z) : out Z :=
  Out.WriteInt8 DOCUMENTDB_HDR_FULL ;;;
  Out.WriteInt8 DOCUMENTDB_PROTO_VER ;;;
  Out.WriteInt16 DOCUMENTDB_BINARY_FLAG_USER_TYPE ;;;
  Out.WriteInt32 typeId ;;;
  let! hashPos := Out.Reserve 4 in
  Out.Reserve 12 ;;;
  ret hashPos.

Definition get_handler (T : Type) `{BinaryType T} (mgr : option BinaryTypeManager)
  : outcome Z (option BinaryTypeHandler) :=
  match mgr with
  | Some m =>
      let* h := GetHandler (GetTypeName T) (GetAffinityFieldName T) (GetTypeId T) m in Ok (Some h)
  | None => Ok None
  end.
Definition submit_handler (h : option BinaryTypeHandler) (mgr : option BinaryTypeManager)
  : outcome Z (option BinaryTypeManager) :=
  match mgr, h with
  | Some m, Some h => let* m := SubmitHandler h m in Ok (Some m)
  | Some m, None => UB
  | None, _ => Ok None
  end.

(** The hash code of the object at [pos], fields only. *)
Definition object_hash (m : InteropMemory) (pos : Z) : outcome Z Z :=
  let* o := new_object m pos None in
  let* len := object_GetLength o in
  let* bytes := object_GetData o len in
  Ok (GetDataHashCode (Some bytes)).

Definition WriteTopObject0 {T} `{BinaryType T} `{ObjectWrite T} (obj : T) : writer unit := fun w =>
  if IsNull obj then on_stream (Out.WriteInt8 DOCUMENTDB_HDR_NULL) w
  else
    let* metaHnd := get_handler T (w_metaMgr w) in
    let pos := os_pos (w_stream w) in
    let* (hashPos, s) := write_header (GetTypeId T) (w_stream w) in
    let impl := object_writer s (templated_field_id (GetFieldId T)) (w_metaMgr w) metaHnd pos in
    let* (_, impl) := Write obj impl in
    let* (_, impl) := W.PostWrite impl in
    let* (_, s) := Out.Synchronize (w_stream impl) in
    let* mgr := submit_handler (w_metaHnd impl) (w_metaMgr impl) in
    let* hash := object_hash (os_mem s) pos in
    let* (_, s) := Out.WriteInt32_to hashPos hash s in
    Ok (tt, w_set_mgr mgr (w_set_stream s w)).

(** [WriteHelper<T>]: what [WriteTopObject] does with a value of a type. *)
Class TopWrite (T : Type) : Type := WriteTopObject : T -> writer unit.

(** The specialisations for the types of the protocol itself. *)
Definition top_write {T} (hdr : Z) (func : T -> out unit) : TopWrite T :=
  fun obj => on_stream (W.write_tagged hdr func obj).
Definition top_int8 : TopWrite Z := top_write DOCUMENTDB_TYPE_BYTE BU.WriteInt8.
Definition top_int16 : TopWrite Z := top_write DOCUMENTDB_TYPE_SHORT BU.WriteInt16.
Definition top_uint16 : TopWrite Z := top_write DOCUMENTDB_TYPE_CHAR BU.WriteUInt16.
Definition top_int32 : TopWrite Z := top_write DOCUMENTDB_TYPE_INT BU.WriteInt32.
Definition top_int64 : TopWrite Z := top_write DOCUMENTDB_TYPE_LONG BU.WriteInt64.
Definition top_float : TopWrite Z := top_write DOCUMENTDB_TYPE_FLOAT BU.WriteFloat.
Definition top_double : TopWrite Z := top_write DOCUMENTDB_TYPE_DOUBLE BU.WriteDouble.
#[export] Instance top_bool : TopWrite bool := top_write DOCUMENTDB_TYPE_BOOL BU.WriteBool.
#[export] Instance top_guid : TopWrite Guid := top_write DOCUMENTDB_TYPE_UUID BU.WriteGuid.
#[export] Instance top_date : TopWrite Date := top_write DOCUMENTDB_TYPE_DATE BU.WriteDate.
#[export] Instance top_timestamp : TopWrite Timestamp :=
  top_write DOCUMENTDB_TYPE_TIMESTAMP BU.WriteTimestamp.
#[export] Instance top_time : TopWrite Time := top_write DOCUMENTDB_TYPE_TIME BU.WriteTime.
#[export] Instance top_string : TopWrite (list Z) := fun obj =>
  on_stream (W.write_string (Some obj) (i32 (Z.of_nat (length obj)))).

(** Objects, and [WriteHelper<T*>]: a null pointer. *)
Definition top_object {T} `{BinaryType T} `{ObjectWrite T} : TopWrite T := WriteTopObject0.
#[export] Instance top_pointer {T} `{TopWrite T} : TopWrite (option T) := fun obj =>
  match obj with Some t => WriteTopObject t | None => W.WriteNull0 end.

Definition WriteObject {T} `{TopWrite T} (val : T) : writer unit :=
  W.CheckRawMode true ;;; WriteTopObject val.
Definition WriteObject_f {T} `{TopWrite T} (f : option name) (val : T) : writer unit :=
  W.CheckRawMode false ;;; W.WriteFieldId f DOCUMENTDB_TYPE_OBJECT ;;; WriteTopObject val.

Definition WriteElement {T} `{TopWrite T} (id : Z) (val : T) : writer unit :=
  W.CheckSession id ;;; WriteTopObject val ;;; W.count_element.
Definition WriteElement_map {K V} `{TopWrite K} `{TopWrite V} (id : Z) (key : K) (val : V) : writer unit :=
  W.CheckSession id ;;; WriteTopObject key ;;; WriteTopObject val ;;; W.count_element.

(** [WriteCollection(first, last, typ)]. *)
Definition WriteCollectionWithinSession {T} `{TopWrite T} (l : list T) (typ : Z) : writer unit :=
  W.open_container DOCUMENTDB_TYPE_COLLECTION (Some typ) ;;;
  for_each (fun t => let! id := W.session_id in WriteElement id t) l ;;;
  let! id := W.session_id in W.CommitContainer id.
Definition WriteCollection_range {T} `{TopWrite T} (l : list T) (typ : Z) : writer unit :=
  W.StartContainerSession true ;;; WriteCollectionWithinSession l typ.
Definition WriteCollection_range_f {T} `{TopWrite T} (f : option name) (l : list T) (typ : Z) : writer unit :=
  W.StartContainerSession false ;;; W.WriteFieldId f DOCUMENTDB_TYPE_COLLECTION ;;;
  WriteCollectionWithinSession l typ.

(** [BinaryEnum<T>]. *)
Class BinaryEnum (T : Type) : Type := {
  enum_IsNull : T -> bool;
  enum_GetNull : T;
  enum_GetTypeId : Z;
  enum_GetOrdinal : T -> Z;
  enum_FromOrdinal : Z -> T
}.
Arguments enum_GetNull T {_}.
Arguments enum_GetTypeId T {_}.

Definition WriteEnum {T} `{BinaryEnum T} (val : T) : writer unit :=
  if enum_IsNull val then W.WriteNull
  else W.WriteBinaryEnum (MkEnum (enum_GetTypeId T) (enum_GetOrdinal val)).
Definition WriteEnum_f {T} `{BinaryEnum T} (f : option name) (val : T) : writer unit :=
  if enum_IsNull val then W.WriteNull_f f
  else W.WriteBinaryEnum_f f (MkEnum (enum_GetTypeId T) (enum_GetOrdinal val)).
