(* ===== verification/BinReader.v ===== *)
(** [BinaryReaderImpl] of [impl/binary/binary_reader_impl.{h,cpp}].

    An array or a string is read into the caller's buffer: the arguments are whether
    there is one (a null pointer only asks for the length) and its capacity, and the
    result holds the elements that were stored. *)
From S2P Require Import Prelude Memory Chrono Interop InteropProps BinUtils BinSchema BinObject BinWriter.

(** * The state *)

Record BinaryReaderImpl : Type := MkReader {
  r_stream : InStream;
  r_idRslvr : option (option name -> outcome Z Z);
  r_pos : Z;
  r_rawOff : Z;
  r_rawMode : bool;
  r_elemIdGen : Z;
  r_elemId : Z;
  r_elemCnt : Z;
  r_elemRead : Z;
  r_footerBegin : Z;
  r_footerEnd : Z;
  r_schemaType : BinaryOffsetType
}.
Abbreviation reader := (op BinaryReaderImpl).

(** The type id, the hash code, the length and the user-type flag are stored by the
    constructor and not read again. *)
Definition object_reader (stream : InStream) (idRslvr : option name -> outcome Z Z)
    (pos rawOff footerBegin footerEnd : Z) (schemaType : BinaryOffsetType) : BinaryReaderImpl :=
  MkReader stream (Some idRslvr) pos rawOff false 0 0 (-1) 0 footerBegin footerEnd schemaType.
Definition raw_reader (stream : InStream) : BinaryReaderImpl :=
  MkReader stream None 0 0 true 0 0 (-1) 0 (-1) (-1) FOUR_BYTES.

Definition r_set_stream (s : InStream) (r : BinaryReaderImpl) : BinaryReaderImpl :=
  MkReader s (r_idRslvr r) (r_pos r) (r_rawOff r) (r_rawMode r) (r_elemIdGen r) (r_elemId r)
    (r_elemCnt r) (r_elemRead r) (r_footerBegin r) (r_footerEnd r) (r_schemaType r).
Definition r_set_session (gen id cnt rd : Z) (r : BinaryReaderImpl) : BinaryReaderImpl :=
  MkReader (r_stream r) (r_idRslvr r) (r_pos r) (r_rawOff r) (r_rawMode r) gen id cnt rd
    (r_footerBegin r) (r_footerEnd r) (r_schemaType r).
Definition r_set_raw (r : BinaryReaderImpl) : BinaryReaderImpl :=
  MkReader (r_stream r) (r_idRslvr r) (r_pos r) (r_rawOff r) true (r_elemIdGen r) (r_elemId r)
    (r_elemCnt r) (r_elemRead r) (r_footerBegin r) (r_footerEnd r) (r_schemaType r).

Definition of_stream {A} (f : inp A) : reader A := fun r =>
  let* (a, s) := f (r_stream r) in Ok (a, r_set_stream s r).

(** * Headers, arrays and strings on the stream *)

Definition invalid_header {S A} : op S A := throw DOCUMENTDB_ERR_BINARY.

(** A code for the exception [std::length_error], which is not a [DocumentDbError]. *)
Definition length_error : Z := -2.

Definition ReadNullable {T} (func : inp T) (dflt : T) (expHdr : Z) : inp T :=
  let! hdr := In.ReadInt8 in
  if hdr =? expHdr then func
  else if hdr =? DOCUMENTDB_HDR_NULL then ret dflt
  else invalid_header.

(** The length and, when they were stored, the elements.  The caller's buffer is [res]
    ([false] is a null pointer) with room for [len] elements; storing past it is
    undefined. *)
Definition ReadArrayInternal {T} (res : bool) (len : Z) (func : Z -> inp (list T)) (expHdr : Z)
  : inp (Z * option (list T)) :=
  let! hdr := In.ReadInt8 in
  if hdr =? expHdr then
    let! realLen := In.ReadInt32 in
    if (realLen =? 0) || (res && (realLen <=? len)) then
      let! l := func realLen in ret (realLen, Some l)
    else
      let! pos := In.Position in
      let! p := int32 (pos - 5) in
      In.set_Position p ;;;
      ret (realLen, None)
  else if negb (hdr =? DOCUMENTDB_HDR_NULL) then invalid_header
  else ret (-1, None).

Definition ReadStringInternal (res : bool) (len : Z) : inp (Z * option (list Z)) :=
  let! hdr := In.ReadInt8 in
  if hdr =? DOCUMENTDB_TYPE_STRING then
    let! realLen := In.ReadInt32 in
    if res && (realLen <=? len) then
      let! s := In.ReadInt8Array realLen in
      ret (realLen, Some (s ++ (if realLen <? len then [0] else [])))
    else
      let! pos := In.Position in
      let! p := int32 (pos - 4 - 1) in
      In.set_Position p ;;;
      ret (realLen, None)
  else if negb (hdr =? DOCUMENTDB_HDR_NULL) then invalid_header
  else ret (-1, None).

Definition ReadBinaryEnumInternal : inp BinaryEnumEntry :=
  let! hdr := In.ReadInt8 in
  if (hdr =? DOCUMENTDB_TYPE_ENUM) || (hdr =? DOCUMENTDB_TYPE_BINARY_ENUM) then BU.ReadBinaryEnumEntry
  else if negb (hdr =? DOCUMENTDB_HDR_NULL) then invalid_header
  else ret (MkEnum 0 0).

Definition ReadCollectionSizeUnprotected : inp Z :=
  let! hdr := In.ReadInt8 in
  if negb (hdr =? DOCUMENTDB_TYPE_COLLECTION) then
    if negb (hdr =? DOCUMENTDB_HDR_NULL) then invalid_header else ret (-1)
  else In.ReadInt32.

(** [CollectionType::UNDEFINED] is 0. *)
Definition ReadCollectionTypeUnprotected : inp Z :=
  let! size := ReadCollectionSizeUnprotected in
  if size =? -1 then ret 0 else In.ReadInt8.

(** ** Skip

    [depth] bounds the recursion, as the stack does. *)

Definition skip_array (width : Z) : inp unit :=
  let! realLen := In.ReadInt32 in
  if 0 <? realLen then let! n := int32 (realLen * width) in In.Ignore n else ret tt.

Definition skip_width (hdr : Z) : option Z :=
  if bool_decide (hdr ∈ [DOCUMENTDB_TYPE_BYTE; DOCUMENTDB_TYPE_BOOL]) then Some 1
  else if bool_decide (hdr ∈ [DOCUMENTDB_TYPE_SHORT; DOCUMENTDB_TYPE_CHAR]) then Some 2
  else if bool_decide (hdr ∈ [DOCUMENTDB_TYPE_INT; DOCUMENTDB_TYPE_FLOAT]) then Some 4
  else if bool_decide (hdr ∈ [DOCUMENTDB_TYPE_LONG; DOCUMENTDB_TYPE_DOUBLE; DOCUMENTDB_TYPE_DATE;
                              DOCUMENTDB_TYPE_TIME; DOCUMENTDB_TYPE_ENUM; DOCUMENTDB_TYPE_BINARY_ENUM])
  then Some 8
  else if hdr =? DOCUMENTDB_TYPE_UUID then Some 16
  else if hdr =? DOCUMENTDB_TYPE_TIMESTAMP then Some 12
  else None.

Definition skip_array_width (hdr : Z) : option Z :=
  if bool_decide (hdr ∈ [DOCUMENTDB_TYPE_STRING; DOCUMENTDB_TYPE_ARRAY_BYTE; DOCUMENTDB_TYPE_ARRAY_BOOL])
  then Some 1
  else if bool_decide (hdr ∈ [DOCUMENTDB_TYPE_ARRAY_SHORT; DOCUMENTDB_TYPE_ARRAY_CHAR]) then Some 2
  else if bool_decide (hdr ∈ [DOCUMENTDB_TYPE_ARRAY_INT; DOCUMENTDB_TYPE_ARRAY_FLOAT]) then Some 4
  else if bool_decide (hdr ∈ [DOCUMENTDB_TYPE_ARRAY_LONG; DOCUMENTDB_TYPE_ARRAY_DOUBLE]) then Some 8
  else None.

Definition skips_elements (hdr : Z) : bool :=
  bool_decide (hdr ∈ [DOCUMENTDB_TYPE_ARRAY_STRING; DOCUMENTDB_TYPE_ARRAY_UUID; DOCUMENTDB_TYPE_ARRAY_DATE;
    DOCUMENTDB_TYPE_ARRAY_TIMESTAMP; DOCUMENTDB_TYPE_ARRAY_TIME; DOCUMENTDB_TYPE_ARRAY_DECIMAL;
    DOCUMENTDB_TYPE_ARRAY]).

(** What follows the header; [again] skips one value. *)
Definition skip_body (again : inp unit) (hdr : Z) : inp unit :=
  match skip_width hdr, skip_array_width hdr with
  | Some n, _ => In.Ignore n
  | None, Some n => skip_array n
  | None, None =>
      if hdr =? DOCUMENTDB_TYPE_BINARY then
        let! portLen := In.ReadInt32 in let! n := int32 (portLen + 4) in In.Ignore n
      else if hdr =? DOCUMENTDB_TYPE_DECIMAL then
        In.Ignore 4 ;;; let! magLen := In.ReadInt32 in In.Ignore magLen
      else if hdr =? DOCUMENTDB_TYPE_OPTM_MARSH then
        let! realLen := In.ReadInt32 in In.Ignore realLen
      else if skips_elements hdr then
        let! cnt := In.ReadInt32 in for_each (fun _ => again) (seqZ 0 cnt)
      else if hdr =? DOCUMENTDB_TYPE_COLLECTION then
        let! cnt := In.ReadInt32 in In.Ignore 1 ;;; for_each (fun _ => again) (seqZ 0 cnt)
      else if hdr =? DOCUMENTDB_TYPE_MAP then
        let! cnt := In.ReadInt32 in In.Ignore 1 ;;; for_each (fun _ => again ;;; again) (seqZ 0 cnt)
      else if hdr =? DOCUMENTDB_HDR_FULL then
        let! pos := In.Position in
        let! objectBegin := int32 (pos - 1) in
        let! p := int32 (objectBegin + DOCUMENTDB_OFFSET_LEN) in
        let! objectLen := In.ReadInt32_from p in
        let! q := int32 (objectBegin + objectLen) in
        In.set_Position q
      else if hdr =? DOCUMENTDB_HDR_NULL then ret tt
      else invalid_header
  end.

Fixpoint Skip (depth : nat) : inp unit :=
  match depth with
  | O => undefined
  | Datatypes.S d => let! hdr := In.ReadInt8 in skip_body (Skip d) hdr
  end.

(** [SkipIfNull]: the guard is released when the null was there. *)
Definition SkipIfNull : inp bool :=
  let! pos := In.Position in
  let! hdr := In.ReadInt8 in
  if negb (hdr =? DOCUMENTDB_HDR_NULL) then In.set_Position pos ;;; ret false else ret true.

(** * The reader's checks *)

Module R.

Definition CheckRawMode (expected : bool) : reader unit := fun r =>
  if expected && negb (r_rawMode r) then Throw DOCUMENTDB_ERR_BINARY
  else if negb expected && r_rawMode r then Throw DOCUMENTDB_ERR_BINARY
  else Ok (tt, r).

Definition CheckSingleMode (expected : bool) : reader unit := fun r =>
  if expected && negb (r_elemId r =? 0) then Throw DOCUMENTDB_ERR_BINARY
  else if negb expected && (r_elemId r =? 0) then Throw DOCUMENTDB_ERR_BINARY
  else Ok (tt, r).

Definition CheckSession (expSes : Z) : reader unit := fun r =>
  if r_elemId r =? expSes then Ok (tt, r) else Throw DOCUMENTDB_ERR_BINARY.

(** [++elemIdGen], without a session. *)
Definition next_id : reader Z := fun r =>
  let* gen := checked 32 (r_elemIdGen r + 1) in
  Ok (gen, r_set_session gen (r_elemId r) (r_elemCnt r) (r_elemRead r) r).

(** The session's id and [*size]. *)
Definition StartContainerSession (expRawMode : bool) (expHdr : Z) : reader (Z * Z) :=
  CheckRawMode expRawMode ;;;
  CheckSingleMode true ;;;
  let! hdr := of_stream In.ReadInt8 in
  if hdr =? expHdr then
    let! cnt := of_stream In.ReadInt32 in
    let! id := next_id in
    if negb (cnt =? 0) then
      modify (fun r => r_set_session (r_elemIdGen r) id cnt 0 r) ;;; ret (id, cnt)
    else ret (id, 0)
  else if negb (hdr =? DOCUMENTDB_HDR_NULL) then invalid_header
  else let! id := next_id in ret (id, -1).

(** [if (++elemRead == elemCnt)]: the session ends with its last element. *)
Definition element_read : reader unit := fun r =>
  let* n := checked 32 (r_elemRead r + 1) in
  Ok (tt, if n =? r_elemCnt r then r_set_session (r_elemIdGen r) 0 (-1) 0 r
          else r_set_session (r_elemIdGen r) (r_elemId r) (r_elemCnt r) n r).

Definition HasNextElement (id : Z) (r : BinaryReaderImpl) : bool :=
  (r_elemId r =? id) && (r_elemRead r <? r_elemCnt r).

(** ** Fields *)

Definition stream_off (t : BinaryOffsetType) (p : Z) : inp Z :=
  match t with
  | ONE_BYTE => let! v := In.ReadInt8_from p in ret (u8 v)
  | TWO_BYTES => let! v := In.ReadInt16_from p in ret (u16 v)
  | FOUR_BYTES => In.ReadInt32_from p
  end.

Definition FindField (fieldId : Z) : reader Z := fun r =>
  let t := r_schemaType r in
  of_stream (In.guarded (
    In.set_Position (r_footerBegin r) ;;;
    let! found := scan (scan_fuel (r_footerBegin r) (r_footerEnd r)) (entry_size t)
                    In.ReadInt32_from (stream_off t) fieldId (r_footerEnd r) (r_footerBegin r) in
    match found with
    | Some off => int32 (off + r_pos r)
    | None => ret (-1)
    end)) r.

(** The position of a field, or nothing. *)
Definition field_pos (fieldName : option name) : reader (option Z) := fun r =>
  match r_idRslvr r with
  | None => UB
  | Some rslvr =>
      let* fieldId := rslvr fieldName in
      let* (fieldPos, r) := FindField fieldId r in
      Ok (if fieldPos <=? 0 then None else Some fieldPos, r)
  end.

(** The frame of the operations on fields: [dflt] when it is missing, else [body] at its
    position. *)
Definition at_field {A} (fieldName : option name) (dflt : A) (body : inp A) : reader A :=
  CheckRawMode false ;;; CheckSingleMode true ;;;
  let! p := field_pos fieldName in
  match p with
  | None => ret dflt
  | Some p => of_stream (In.set_Position p ;;; body)
  end.

Definition raw {A} (body : inp A) : reader A :=
  CheckRawMode true ;;; CheckSingleMode true ;;; of_stream body.

(** ** Primitive values *)

Definition ReadRaw {T} (func : inp T) : reader T := raw func.

Definition Read {T} (fieldName : option name) (func : inp T) (expHdr : Z) (dflt : T) : reader T :=
  at_field fieldName dflt (
    let! typeId := In.ReadInt8 in
    if typeId =? DOCUMENTDB_HDR_NULL then ret dflt
    else if negb (typeId =? expHdr) then invalid_header
    else func).

Definition ReadRawArray {T} (res : bool) (len : Z) (func : Z -> inp (list T)) (expHdr : Z)
  : reader (Z * option (list T)) := raw (ReadArrayInternal res len func expHdr).
Definition ReadArray_f {T} (fieldName : option name) (res : bool) (len : Z) (func : Z -> inp (list T))
    (expHdr : Z) : reader (Z * option (list T)) :=
  at_field fieldName (-1, None) (ReadArrayInternal res len func expHdr).

Definition ReadInt8 : reader Z := ReadRaw BU.ReadInt8.
Definition ReadInt8Array (res : bool) (len : Z) :=
  ReadRawArray res len BU.ReadInt8Array DOCUMENTDB_TYPE_ARRAY_BYTE.
Definition ReadInt8_f (f : option name) : reader Z := Read f BU.ReadInt8 DOCUMENTDB_TYPE_BYTE 0.
Definition ReadInt8Array_f (f : option name) (res : bool) (len : Z) :=
  ReadArray_f f res len BU.ReadInt8Array DOCUMENTDB_TYPE_ARRAY_BYTE.
Definition ReadBool : reader bool := ReadRaw BU.ReadBool.
Definition ReadBoolArray (res : bool) (len : Z) :=
  ReadRawArray res len BU.ReadBoolArray DOCUMENTDB_TYPE_ARRAY_BOOL.
Definition ReadBool_f (f : option name) : reader bool := Read f BU.ReadBool DOCUMENTDB_TYPE_BOOL false.
Definition ReadBoolArray_f (f : option name) (res : bool) (len : Z) :=
  ReadArray_f f res len BU.ReadBoolArray DOCUMENTDB_TYPE_ARRAY_BOOL.
Definition ReadInt16 : reader Z := ReadRaw BU.ReadInt16.
Definition ReadInt16Array (res : bool) (len : Z) :=
  ReadRawArray res len BU.ReadInt16Array DOCUMENTDB_TYPE_ARRAY_SHORT.
Definition ReadInt16_f (f : option name) : reader Z := Read f BU.ReadInt16 DOCUMENTDB_TYPE_SHORT 0.
Definition ReadInt16Array_f (f : option name) (res : bool) (len : Z) :=
  ReadArray_f f res len BU.ReadInt16Array DOCUMENTDB_TYPE_ARRAY_SHORT.
Definition ReadUInt16 : reader Z := ReadRaw BU.ReadUInt16.
Definition ReadUInt16Array (res : bool) (len : Z) :=
  ReadRawArray res len BU.ReadUInt16Array DOCUMENTDB_TYPE_ARRAY_CHAR.
Definition ReadUInt16_f (f : option name) : reader Z := Read f BU.ReadUInt16 DOCUMENTDB_TYPE_CHAR 0.
Definition ReadUInt16Array_f (f : option name) (res : bool) (len : Z) :=
  ReadArray_f f res len BU.ReadUInt16Array DOCUMENTDB_TYPE_ARRAY_CHAR.
Definition ReadInt32 : reader Z := ReadRaw BU.ReadInt32.
Definition ReadInt32Array (res : bool) (len : Z) :=
  ReadRawArray res len BU.ReadInt32Array DOCUMENTDB_TYPE_ARRAY_INT.
Definition ReadInt32_f (f : option name) : reader Z := Read f BU.ReadInt32 DOCUMENTDB_TYPE_INT 0.
Definition ReadInt32Array_f (f : option name) (res : bool) (len : Z) :=
  ReadArray_f f res len BU.ReadInt32Array DOCUMENTDB_TYPE_ARRAY_INT.
Definition ReadInt64 : reader Z := ReadRaw BU.ReadInt64.
Definition ReadInt64Array (res : bool) (len : Z) :=
  ReadRawArray res len BU.ReadInt64Array DOCUMENTDB_TYPE_ARRAY_LONG.
Definition ReadInt64_f (f : option name) : reader Z := Read f BU.ReadInt64 DOCUMENTDB_TYPE_LONG 0.
Definition ReadInt64Array_f (f : option name) (res : bool) (len : Z) :=
  ReadArray_f f res len BU.ReadInt64Array DOCUMENTDB_TYPE_ARRAY_LONG.
Definition ReadFloat : reader Z := ReadRaw BU.ReadFloat.
Definition ReadFloatArray (res : bool) (len : Z) :=
  ReadRawArray res len BU.ReadFloatArray DOCUMENTDB_TYPE_ARRAY_FLOAT.
Definition ReadFloat_f (f : option name) : reader Z := Read f BU.ReadFloat DOCUMENTDB_TYPE_FLOAT 0.
Definition ReadFloatArray_f (f : option name) (res : bool) (len : Z) :=
  ReadArray_f f res len BU.ReadFloatArray DOCUMENTDB_TYPE_ARRAY_FLOAT.
Definition ReadDouble : reader Z := ReadRaw BU.ReadDouble.
Definition ReadDoubleArray (res : bool) (len : Z) :=
  ReadRawArray res len BU.ReadDoubleArray DOCUMENTDB_TYPE_ARRAY_DOUBLE.
Definition ReadDouble_f (f : option name) : reader Z := Read f BU.ReadDouble DOCUMENTDB_TYPE_DOUBLE 0.
Definition ReadDoubleArray_f (f : option name) (res : bool) (len : Z) :=
  ReadArray_f f res len BU.ReadDoubleArray DOCUMENTDB_TYPE_ARRAY_DOUBLE.

(** ** GUIDs, dates and times *)

Definition read_guid : inp Guid := ReadNullable BU.ReadGuid (MkGuid 0 0) DOCUMENTDB_TYPE_UUID.
Definition read_date : inp Date := ReadNullable BU.ReadDate (MkDate 0) DOCUMENTDB_TYPE_DATE.
Definition read_timestamp : inp Timestamp :=
  ReadNullable BU.ReadTimestamp (MkTimestamp 0 0) DOCUMENTDB_TYPE_TIMESTAMP.
Definition read_time : inp Time := ReadNullable BU.ReadTime (MkTime 0) DOCUMENTDB_TYPE_TIME.

Definition ReadGuidArrayInternal (len : Z) : inp (list Guid) := repeat_op (Z.to_nat len) read_guid.
Definition ReadDateArrayInternal (len : Z) : inp (list Date) := repeat_op (Z.to_nat len) read_date.
Definition ReadTimestampArrayInternal (len : Z) : inp (list Timestamp) :=
  repeat_op (Z.to_nat len) read_timestamp.
Definition ReadTimeArrayInternal (len : Z) : inp (list Time) := repeat_op (Z.to_nat len) read_time.

Definition ReadGuid : reader Guid := raw read_guid.
Definition ReadGuid_f (f : option name) : reader Guid := at_field f (MkGuid 0 0) read_guid.
Definition ReadGuidArray (res : bool) (len : Z) :=
  raw (ReadArrayInternal res len ReadGuidArrayInternal DOCUMENTDB_TYPE_ARRAY_UUID).
Definition ReadGuidArray_f (f : option name) (res : bool) (len : Z) :=
  at_field f (-1, None) (ReadArrayInternal res len ReadGuidArrayInternal DOCUMENTDB_TYPE_ARRAY_UUID).
Definition ReadDate : reader Date := raw read_date.
Definition ReadDate_f (f : option name) : reader Date := at_field f (MkDate 0) read_date.
Definition ReadDateArray (res : bool) (len : Z) :=
  raw (ReadArrayInternal res len ReadDateArrayInternal DOCUMENTDB_TYPE_ARRAY_DATE).
Definition ReadDateArray_f (f : option name) (res : bool) (len : Z) :=
  at_field f (-1, None) (ReadArrayInternal res len ReadDateArrayInternal DOCUMENTDB_TYPE_ARRAY_DATE).
Definition ReadTimestamp : reader Timestamp := raw read_timestamp.
Definition ReadTimestamp_f (f : option name) : reader Timestamp := at_field f (MkTimestamp 0 0) read_timestamp.
Definition ReadTimestampArray (res : bool) (len : Z) :=
  raw (ReadArrayInternal res len ReadTimestampArrayInternal DOCUMENTDB_TYPE_ARRAY_TIMESTAMP).
Definition ReadTimestampArray_f (f : option name) (res : bool) (len : Z) :=
  at_field f (-1, None) (ReadArrayInternal res len ReadTimestampArrayInternal DOCUMENTDB_TYPE_ARRAY_TIMESTAMP).
Definition ReadTime : reader Time := raw read_time.
Definition ReadTime_f (f : option name) : reader Time := at_field f (MkTime 0) read_time.
Definition ReadTimeArray (res : bool) (len : Z) :=
  raw (ReadArrayInternal res len ReadTimeArrayInternal DOCUMENTDB_TYPE_ARRAY_TIME).
Definition ReadTimeArray_f (f : option name) (res : bool) (len : Z) :=
  at_field f (-1, None) (ReadArrayInternal res len ReadTimeArrayInternal DOCUMENTDB_TYPE_ARRAY_TIME).

(** ** Enums and strings *)

Definition ReadBinaryEnum : reader BinaryEnumEntry := raw ReadBinaryEnumInternal.
Definition ReadBinaryEnum_f (f : option name) : reader BinaryEnumEntry :=
  at_field f (MkEnum 0 0) ReadBinaryEnumInternal.

Definition ReadString (res : bool) (len : Z) : reader (Z * option (list Z)) :=
  raw (ReadStringInternal res len).
Definition ReadString_f (f : option name) (res : bool) (len : Z) : reader (Z * option (list Z)) :=
  at_field f (-1, None) (ReadStringInternal res len).

(** [ReadString(std::string&)]: [resize] throws for a negative length, and [&res[0]]
    of an empty string is the terminator. *)
Definition ReadString_std : reader (list Z) := raw (
  let! hdr := In.ReadInt8 in
  if hdr =? DOCUMENTDB_HDR_NULL then ret []
  else if negb (hdr =? DOCUMENTDB_TYPE_STRING) then invalid_header
  else
    let! realLen := In.ReadInt32 in
    if realLen <? 0 then throw length_error else In.ReadInt8Array realLen).

(** ** Containers *)

Definition no_container {A} (a : A) : reader (Z * A) := let! id := next_id in ret (id, a).

Definition start_at_field (f : option name) (expHdr : Z) : reader (Z * Z) :=
  CheckRawMode false ;;; CheckSingleMode true ;;;
  let! p := field_pos f in
  match p with
  | None => no_container (-1)
  | Some p => of_stream (In.set_Position p) ;;; StartContainerSession false expHdr
  end.

(** Collections and maps carry a kind behind the size; 0 is [UNDEFINED]. *)
Definition with_kind (start : reader (Z * Z)) : reader (Z * Z * Z) :=
  let! (id, size) := start in
  if size =? -1 then ret (id, size, 0)
  else let! typ := of_stream In.ReadInt8 in ret (id, size, typ).

Definition ReadStringArray : reader (Z * Z) := StartContainerSession true DOCUMENTDB_TYPE_ARRAY_STRING.
Definition ReadStringArray_f (f : option name) : reader (Z * Z) := start_at_field f DOCUMENTDB_TYPE_ARRAY_STRING.
Definition ReadArray : reader (Z * Z) := StartContainerSession true DOCUMENTDB_TYPE_ARRAY.
Definition ReadArray_start_f (f : option name) : reader (Z * Z) := start_at_field f DOCUMENTDB_TYPE_ARRAY.
Definition ReadCollection : reader (Z * Z * Z) := with_kind (StartContainerSession true DOCUMENTDB_TYPE_COLLECTION).
Definition ReadCollection_f (f : option name) : reader (Z * Z * Z) :=
  with_kind (start_at_field f DOCUMENTDB_TYPE_COLLECTION).
Definition ReadMap : reader (Z * Z * Z) := with_kind (StartContainerSession true DOCUMENTDB_TYPE_MAP).
Definition ReadMap_f (f : option name) : reader (Z * Z * Z) := with_kind (start_at_field f DOCUMENTDB_TYPE_MAP).

(** An element whose string did not fit is not counted: the stream stays before it. *)
Definition ReadStringElement (id : Z) (res : bool) (len : Z) : reader (Z * option (list Z)) :=
  CheckSession id ;;;
  let! posBefore := of_stream In.Position in
  let! r := of_stream (ReadStringInternal res len) in
  let! posAfter := of_stream In.Position in
  (if posBefore <? posAfter then element_read else ret tt) ;;;
  ret r.

Definition ReadCollectionType : reader Z := of_stream (In.guarded ReadCollectionTypeUnprotected).
Definition ReadCollectionSize : reader Z := of_stream (In.guarded ReadCollectionSizeUnprotected).

(** Here the guard is made before the field is looked for. *)
Definition guarded_field (f : option name) (dflt : Z) (body : inp Z) : reader Z :=
  CheckRawMode false ;;; CheckSingleMode true ;;;
  let! pos := of_stream In.Position in
  let! p := field_pos f in
  let! v := match p with
            | None => ret dflt
            | Some p => of_stream (In.set_Position p ;;; body)
            end in
  of_stream (In.set_Position pos) ;;;
  ret v.
Definition ReadCollectionType_f (f : option name) : reader Z :=
  guarded_field f 0 ReadCollectionTypeUnprotected.
Definition ReadCollectionSize_f (f : option name) : reader Z :=
  guarded_field f (-1) ReadCollectionSizeUnprotected.

Definition SetRawMode : reader unit :=
  CheckRawMode false ;;; CheckSingleMode true ;;;
  (fun r => let* p := checked 32 (r_pos r + r_rawOff r) in
            let* (_, s) := In.set_Position p (r_stream r) in
            Ok (tt, r_set_raw (r_set_stream s r))).

End R.

(** * Top-level objects *)

(** How the fields of an object are read; [dst] is the object before. *)
Class ObjectRead (T : Type) : Type := ReadFields : T -> reader T.

(** Where the parts of an object are, from its header. *)
Definition header_parts (pos flags len schemaOrRawOff : Z) : inp (Z * Z * Z * Z * BinaryOffsetType) :=
  let has f := negb (Z.land flags f =? 0) in
  let! footerBegin := int32 (pos + (if has DOCUMENTDB_BINARY_FLAG_HAS_SCHEMA then schemaOrRawOff else len)) in
  let! stop := int32 (pos + len) in
  if has DOCUMENTDB_BINARY_FLAG_HAS_RAW && has DOCUMENTDB_BINARY_FLAG_HAS_SCHEMA then
    let! footerEnd := int32 (stop - 4) in
    let! rawOff := In.ReadInt32_from footerEnd in
    ret (len, rawOff, footerBegin, footerEnd, offset_type flags)
  else ret (len, schemaOrRawOff, footerBegin, stop, offset_type flags).

(** The stream is behind the header's first byte. *)
Definition read_header (pos : Z) : inp (Z * Z * Z * Z * BinaryOffsetType) :=
  let! protoVer := In.ReadInt8 in
  if negb (protoVer =? DOCUMENTDB_PROTO_VER) then invalid_header
  else
    let! flags := In.ReadInt16 in
    if negb (Z.land flags DOCUMENTDB_BINARY_FLAG_COMPACT_FOOTER =? 0) then invalid_header
    else
      let! typeId := In.ReadInt32 in
      let! hashCode := In.ReadInt32 in
      let! len := In.ReadInt32 in
      let! schemaId := In.ReadInt32 in
      let! schemaOrRawOff := In.ReadInt32 in
      header_parts pos flags len schemaOrRawOff.

(** Reading the fields with a reader of the object's own. *)
Definition read_fields {T} `{BinaryType T} `{ObjectRead T} (pos : Z) (res : T)
    (h : Z * Z * Z * Z * BinaryOffsetType) : inp T := fun s =>
  let '(len, rawOff, footerBegin, footerEnd, schemaType) := h in
  let* (v, r) := ReadFields res
    (object_reader s (templated_field_id (GetFieldId T)) pos rawOff footerBegin footerEnd schemaType) in
  let* e := checked 32 (pos + len) in
  let* (_, s) := In.set_Position e (r_stream r) in
  Ok (v, s).

(** A wrapper of type [DOCUMENTDB_TYPE_BINARY] leads to another place; [depth] bounds how
    often, as the stack does. *)
Fixpoint ReadTopObject0 {T} `{BinaryType T} `{ObjectRead T} (depth : nat) (res : T) : inp T :=
  match depth with
  | O => undefined
  | Datatypes.S d =>
      let! pos := In.Position in
      let! hdr := In.ReadInt8 in
      if hdr =? DOCUMENTDB_HDR_NULL then ret (GetNull T)
      else if hdr =? DOCUMENTDB_HDR_HND then invalid_header
      else if hdr =? DOCUMENTDB_TYPE_BINARY then
        let! portLen := In.ReadInt32 in
        let! curPos := In.Position in
        let! p := int32 (curPos + portLen) in
        let! portOff := In.ReadInt32_from p in
        let! q := int32 (curPos + portOff) in
        In.set_Position q ;;;
        let! v := ReadTopObject0 d res in
        let! e := int32 (p + 4) in
        In.set_Position e ;;;
        ret v
      else if hdr =? DOCUMENTDB_HDR_FULL then
        let! h := read_header pos in read_fields pos res h
      else invalid_header
  end.

(** [ReadHelper<T>]: reading a value of a type; [top_init] is the variable that
    [ReadTopObject()] declares for the result. *)
Class TopRead (T : Type) : Type := { top_init : T; ReadTop : T -> inp T }.

Definition ReadTopObject {T} `{TopRead T} : inp T := ReadTop top_init.

Definition top_prim {T} (expHdr : Z) (func : inp T) (dflt : T) : inp T :=
  let! typeId := In.ReadInt8 in
  if typeId =? expHdr then func
  else if typeId =? DOCUMENTDB_HDR_NULL then ret dflt
  else invalid_header.
Definition prim_read {T} (expHdr : Z) (func : inp T) (dflt : T) : TopRead T :=
  {| top_init := dflt; ReadTop _ := top_prim expHdr func dflt |}.

Definition read_int8 : TopRead Z := prim_read DOCUMENTDB_TYPE_BYTE BU.ReadInt8 0.
Definition read_int16 : TopRead Z := prim_read DOCUMENTDB_TYPE_SHORT BU.ReadInt16 0.
Definition read_uint16 : TopRead Z := prim_read DOCUMENTDB_TYPE_CHAR BU.ReadUInt16 0.
Definition read_int32 : TopRead Z := prim_read DOCUMENTDB_TYPE_INT BU.ReadInt32 0.
Definition read_int64 : TopRead Z := prim_read DOCUMENTDB_TYPE_LONG BU.ReadInt64 0.
Definition read_float : TopRead Z := prim_read DOCUMENTDB_TYPE_FLOAT BU.ReadFloat 0.
Definition read_double : TopRead Z := prim_read DOCUMENTDB_TYPE_DOUBLE BU.ReadDouble 0.
#[export] Instance read_bool : TopRead bool := prim_read DOCUMENTDB_TYPE_BOOL BU.ReadBool false.
#[export] Instance read_top_guid : TopRead Guid := prim_read DOCUMENTDB_TYPE_UUID BU.ReadGuid (MkGuid 0 0).
#[export] Instance read_top_timestamp : TopRead Timestamp :=
  prim_read DOCUMENTDB_TYPE_TIMESTAMP BU.ReadTimestamp (MkTimestamp 0 0).
#[export] Instance read_top_time : TopRead Time := prim_read DOCUMENTDB_TYPE_TIME BU.ReadTime (MkTime 0).

(** A date is also made from a timestamp. *)
#[export] Instance read_top_date : TopRead Date :=
  {| top_init := MkDate 0;
     ReadTop _ :=
       let! typeId := In.ReadInt8 in
       if typeId =? DOCUMENTDB_TYPE_DATE then BU.ReadDate
       else if typeId =? DOCUMENTDB_TYPE_TIMESTAMP then
         let! t := BU.ReadTimestamp in let! ms := from (GetMilliseconds t) in ret (MkDate ms)
       else if typeId =? DOCUMENTDB_HDR_NULL then ret (MkDate 0)
       else invalid_header |}.

(** An empty string or vector leaves [res] as it was. *)
#[export] Instance read_top_string : TopRead (list Z) :=
  {| top_init := [];
     ReadTop res :=
       let! typeId := In.ReadInt8 in
       if typeId =? DOCUMENTDB_TYPE_STRING then
         let! realLen := In.ReadInt32 in
         if 0 <? realLen then In.ReadInt8Array realLen else ret res
       else if typeId =? DOCUMENTDB_HDR_NULL then ret []
       else invalid_header |}.

Definition ReadArrayToVectorInternal {T} (res : list T) (func : Z -> inp (list T)) (expHdr : Z) : inp (list T) :=
  let! hdr := In.ReadInt8 in
  if hdr =? expHdr then
    let! realLen := In.ReadInt32 in
    if 0 <? realLen then func realLen else ret res
  else if hdr =? DOCUMENTDB_HDR_NULL then ret []
  else invalid_header.
Definition vector_read {T} (func : Z -> inp (list T)) (expHdr : Z) : TopRead (list T) :=
  {| top_init := []; ReadTop res := ReadArrayToVectorInternal res func expHdr |}.
Definition read_vector_int8 : TopRead (list Z) := vector_read BU.ReadInt8Array DOCUMENTDB_TYPE_ARRAY_BYTE.
Definition read_vector_int16 : TopRead (list Z) := vector_read BU.ReadInt16Array DOCUMENTDB_TYPE_ARRAY_SHORT.
Definition read_vector_int32 : TopRead (list Z) := vector_read BU.ReadInt32Array DOCUMENTDB_TYPE_ARRAY_INT.
Definition read_vector_int64 : TopRead (list Z) := vector_read BU.ReadInt64Array DOCUMENTDB_TYPE_ARRAY_LONG.

(** Objects, and pointers to them. *)
Definition object_read {T} `{BinaryType T} `{ObjectRead T} (depth : nat) (init : T) : TopRead T :=
  {| top_init := init; ReadTop := ReadTopObject0 depth |}.
#[export] Instance read_pointer {T} `{TopRead T} : TopRead (option T) :=
  {| top_init := None;
     ReadTop _ :=
       let! null := SkipIfNull in
       if null : bool then ret None else let! t := ReadTopObject in ret (Some t) |}.

Definition ReadObject {T} `{TopRead T} : reader T := R.CheckRawMode true ;;; of_stream ReadTopObject.

(** There is no check of a session here. *)
Definition ReadObject_f {T} `{TopRead T} (null : T) (f : option name) : reader T :=
  R.CheckRawMode false ;;;
  let! p := R.field_pos f in
  match p with
  | None => ret null
  | Some p => of_stream (In.set_Position p ;;; ReadTopObject)
  end.

Definition TryReadObject {T} `{TopRead T} (res : T) : reader (bool * T) :=
  R.CheckRawMode true ;;;
  let! null := of_stream SkipIfNull in
  if null : bool then ret (false, res) else let! t := ReadObject in ret (true, t).

Definition ReadElement {T} `{TopRead T} (id : Z) : reader T :=
  R.CheckSession id ;;; R.element_read ;;; of_stream ReadTopObject.
Definition ReadElement_map {K V} `{TopRead K} `{TopRead V} (id : Z) : reader (K * V) :=
  R.CheckSession id ;;; R.element_read ;;;
  let! k := of_stream ReadTopObject in let! v := of_stream ReadTopObject in ret (k, v).

(** [while (HasNextElement(id))]: there are at most [n] elements left. *)
Fixpoint read_elements {T} `{TopRead T} (n : nat) (id : Z) : reader (list T) := fun r =>
  if R.HasNextElement id r then
    match n with
    | O => UB
    | Datatypes.S k =>
        let* (t, r) := ReadElement id r in let* (l, r) := read_elements k id r in Ok (t :: l, r)
    end
  else Ok ([], r).
Definition read_session {T} `{TopRead T} (id size : Z) : reader (Z * list T) :=
  (if negb (size =? -1) then of_stream In.ReadInt8 ;;; ret tt else ret tt) ;;;
  let! l := read_elements (Z.to_nat size) id in
  ret (size, l).
Definition ReadCollection_out {T} `{TopRead T} : reader (Z * list T) :=
  let! (id, size) := R.StartContainerSession true DOCUMENTDB_TYPE_COLLECTION in read_session id size.
Definition ReadCollection_out_f {T} `{TopRead T} (f : option name) : reader (Z * list T) :=
  R.CheckRawMode false ;;; R.CheckSingleMode true ;;;
  let! p := R.field_pos f in
  match p with
  | None => ret (-1, [])
  | Some p =>
      of_stream (In.set_Position p) ;;;
      let! (id, size) := R.StartContainerSession false DOCUMENTDB_TYPE_COLLECTION in read_session id size
  end.

(** A vector of objects is an array that a reader in raw mode reads. *)
Definition ReadVector {T} `{TopRead T} : reader (list T) :=
  let! hdr := of_stream In.ReadInt8 in
  if hdr =? DOCUMENTDB_TYPE_ARRAY then
    let! elementNum := of_stream In.ReadInt32 in
    if elementNum <? 0 then throw length_error else repeat_op (Z.to_nat elementNum) ReadObject
  else invalid_header.

Definition DeserializeEnumEntry {T} `{BinaryEnum T} (entry : BinaryEnumEntry) : reader T :=
  if en_IsNull entry then ret (enum_GetNull T)
  else if negb (en_typeId entry =? enum_GetTypeId T) then invalid_header
  else ret (enum_FromOrdinal (en_ordinal entry)).
Definition ReadEnum {T} `{BinaryEnum T} : reader T :=
  let! e := R.ReadBinaryEnum in DeserializeEnumEntry e.
Definition ReadEnum_f {T} `{BinaryEnum T} (f : option name) : reader T :=
  let! e := R.ReadBinaryEnum_f f in DeserializeEnumEntry e.

(** ** Objects in memory, as values *)

Definition Deserialize {T} `{BinaryType T} `{TopRead T} (o : BinaryObjectImpl) : outcome Z T :=
  let* actualTypeId := object_GetTypeId o in
  if negb (GetTypeId T =? actualTypeId) then Throw DOCUMENTDB_ERR_BINARY
  else
    let* (_, s) := In.set_Position (bo_start o) (new_in (bo_mem o)) in
    let* (v, _) := ReadTopObject s in
    Ok v.

Definition GetField {T} `{TopRead T} (u : option Updater) (mgr : option BinaryTypeManager) (f : option name)
    (o : BinaryObjectImpl) : outcome Z (T * (BinaryObjectImpl * option BinaryTypeManager)) :=
  let* (pos, st) := field_position u mgr f o in
  if pos =? -1 then Ok (top_init, st)
  else
    let* (_, s) := In.set_Position pos (new_in (bo_mem o)) in
    let* (v, _) := ReadTopObject s in
    Ok (v, st).
