(* ===== verification/BinValues.v ===== *)
(** Arrays, strings and whole values of the binary protocol: the bytes that the writers
    produce, and that reading or skipping them consumes them. *)
From S2P Require Import Prelude Memory Chrono Interop InteropProps BinUtils BinSchema BinObject BinWriter BinReader.

(** * Arrays *)

Lemma concat_length (w : nat) {A} (f : A -> list Z) l :
  (forall a, length (f a) = w) -> length (concat (map f l)) = (length l * w)%nat.
Proof. intros H. induction l as [|a l IH]; cbn; [done|]. rewrite length_app, H, IH. lia. Qed.

Definition array_fits (w : nat) {A} (l : list A) : Prop := Z.of_nat (length l) * Z.of_nat w < 2 ^ 31.

Lemma emit_int32_check z : - 2 ^ 31 <= z < 2 ^ 31 -> emits (int32 z) z [].
Proof. intros Hz s Hs Hfit. rewrite int32_small by done. by apply emits_ret. Qed.
Lemma parse_int32_check z : - 2 ^ 31 <= z < 2 ^ 31 -> parses (int32 z) [] z.
Proof. intros Hz s Hs Hh Hl. rewrite int32_small by done. by apply (parses_ret z). Qed.

(** [WriteInt16Array] and the like; the length is that of the array. *)
Lemma emit_array w (l : list Z) :
  array_fits w l -> emits (Out.write_array w l (Z.of_nat (length l))) tt (concat (map (le_bytes w) l)).
Proof.
  intros Hfit. unfold array_fits in Hfit. unfold Out.write_array.
  destruct (Z.ltb_spec (Z.of_nat (length l)) 0); [lia|].
  assert (Hlen : length (Out.array_bytes w l) = (length l * w)%nat)
    by apply (concat_length w), le_bytes_length.
  apply (emits_ret_bind _ _ (Z.of_nat (length l) * Z.of_nat w)).
  - apply emit_int32_check. change (2 ^ 31) with 2147483648 in *. lia.
  - replace (concat (map (le_bytes w) l)) with
      (take (Z.to_nat (Z.of_nat (length l) * Z.of_nat w)) (Out.array_bytes w l)).
    + apply emit_copy. rewrite <- Nat2Z.inj_mul, <- Hlen. split; [lia|done].
    + apply take_ge. rewrite <- Nat2Z.inj_mul, <- Hlen, Nat2Z.id. done.
Qed.

Lemma split_concat w {A} (f : A -> list Z) l :
  (forall a, length (f a) = w) -> In.split_every w (length l) (concat (map f l)) = map f l.
Proof.
  intros H. induction l as [|a l IH]; cbn [length map concat In.split_every]; [done|].
  rewrite take_app_length', drop_app_length', IH; done.
Qed.

Lemma parse_array w (l : list Z) :
  array_fits w l ->
  parses (In.read_array w (Z.of_nat (length l))) (concat (map (le_bytes w) l))
    (map (fun z => z mod 2 ^ (8 * Z.of_nat w)) l).
Proof.
  intros Hfit. unfold array_fits in Hfit. unfold In.read_array.
  destruct (Z.ltb_spec (Z.of_nat (length l)) 0); [lia|].
  assert (Hlen : length (concat (map (le_bytes w) l)) = (length l * w)%nat)
    by apply (concat_length w), le_bytes_length.
  apply (parses_bind _ _ (Z.of_nat (length l) * Z.of_nat w) _ []).
  { apply parse_int32_check. change (2 ^ 31) with 2147483648 in *. lia. }
  replace (map (fun z => z mod 2 ^ (8 * Z.of_nat w)) l)
    with (map le_val (In.split_every w (Z.to_nat (Z.of_nat (length l))) (concat (map (le_bytes w) l)))).
  - apply (parses_map _ (fun bs => map le_val (In.split_every w _ bs))).
    replace (Z.of_nat (length l) * Z.of_nat w) with (Z.of_nat (length (concat (map (le_bytes w) l))))
      by (rewrite Hlen; lia). apply parse_copy.
  - rewrite Nat2Z.id, split_concat by apply le_bytes_length. rewrite map_map.
    apply map_ext. intros z. apply le_val_bytes.
Qed.

(** The elements as the reader gives them. *)
Lemma parse_array_as w (g : Z -> Z) (l : list Z) :
  array_fits w l -> Forall (fun z => g (z mod 2 ^ (8 * Z.of_nat w)) = z) l ->
  parses (let! v := In.read_array w (Z.of_nat (length l)) in ret (map g v)) (concat (map (le_bytes w) l)) l.
Proof.
  intros Hfit Hg. replace l with (map g (map (fun z => z mod 2 ^ (8 * Z.of_nat w)) l)) at 3.
  - by apply parses_map, parse_array.
  - rewrite map_map. etransitivity; [|apply map_id]. apply map_ext_in. intros z Hz.
    rewrite Forall_forall in Hg. by apply Hg, list_elem_of_In.
Qed.

(** [WriteInt8Array] with bytes. *)
Lemma emit_int8_array l :
  emits (Out.WriteInt8Array l (Z.of_nat (length l))) tt (concat (map (le_bytes 1) l)).
Proof.
  unfold Out.WriteInt8Array.
  replace (concat (map (le_bytes 1) l)) with (take (Z.to_nat (Z.of_nat (length l))) (map u8 l)).
  - apply emit_copy. rewrite length_map. lia.
  - rewrite take_ge by (rewrite length_map; lia).
    induction l as [|z l IH]; [done|]. cbn [map concat]. rewrite <- IH. done.
Qed.

Lemma parse_int8_array l :
  Forall (inS 8) l ->
  parses (In.ReadInt8Array (Z.of_nat (length l))) (concat (map (le_bytes 1) l)) l.
Proof.
  intros Hl. unfold In.ReadInt8Array.
  assert (Hlen : length (concat (map (le_bytes 1) l)) = length l).
  { rewrite (concat_length 1) by apply le_bytes_length. lia. }
  replace l with (map i8 (concat (map (le_bytes 1) l))) at 3.
  - rewrite <- Hlen at 1. apply parses_map, parse_copy.
  - clear Hlen. induction Hl as [|z l Hz _ IH]; [done|]. cbn [map concat]. rewrite map_app, IH. cbn.
    f_equal. by apply (wrapS_mod 8).
Qed.

(** An array type: how it is written and read, and its elements' bytes. *)
Class ArrayCodec (A : Type) : Type := {
  elem_valid : A -> Prop;
  elem_bytes : A -> list Z;
  elem_width : nat;
  awr : list A -> Z -> out unit;
  ard : Z -> inp (list A);
  awr_emits l : Forall elem_valid l -> array_fits elem_width l ->
    emits (awr l (Z.of_nat (length l))) tt (concat (map elem_bytes l));
  ard_parses l : Forall elem_valid l -> array_fits elem_width l ->
    parses (ard (Z.of_nat (length l))) (concat (map elem_bytes l)) l
}.

Lemma emit_elements {A} (f : A -> out unit) (enc : A -> list Z) (l : list A) :
  Forall (fun a => emits (f a) tt (enc a)) l ->
  emits (let! l := Out.elements l (Z.of_nat (length l)) in for_each f l) tt (concat (map enc l)).
Proof.
  intros H. apply (emits_ret_bind _ _ l).
  - unfold Out.elements. destruct (Z.ltb_spec (Z.of_nat (length l)) (Z.of_nat (length l))); [lia|].
    rewrite Nat2Z.id, take_ge by lia. apply emits_ret.
  - apply emits_for_each. intros a Ha. rewrite Forall_forall in H. by apply H.
Qed.

Lemma parse_elements {A} (f : inp A) (enc : A -> list Z) (l : list A) :
  Forall (fun a => parses f (enc a) a) l ->
  parses (repeat_op (Z.to_nat (Z.of_nat (length l))) f) (concat (map enc l)) l.
Proof.
  intros H. rewrite Nat2Z.id. apply parses_repeat. intros a Ha. rewrite Forall_forall in H. by apply H.
Qed.

Lemma forall_signed w l : 0 < w -> Forall (inS w) l -> Forall (fun z => wrapS w (z mod 2 ^ w) = z) l.
Proof. intros Hw H. eapply Forall_impl; [exact H|]. intros z Hz. by apply wrapS_mod. Qed.

Lemma parse_unsigned_array w l :
  array_fits w l -> Forall (inU (8 * Z.of_nat w)) l ->
  parses (In.read_array w (Z.of_nat (length l))) (concat (map (le_bytes w) l)) l.
Proof.
  intros Hfit H. replace l with (map (fun z => z mod 2 ^ (8 * Z.of_nat w)) l) at 3; [by apply parse_array|].
  etransitivity; [|apply map_id]. apply map_ext_in. intros z Hz. apply Z.mod_small.
  rewrite Forall_forall in H. by apply H, list_elem_of_In.
Qed.

Definition int8_array : ArrayCodec Z :=
  {| elem_valid := inS 8; elem_bytes := le_bytes 1; elem_width := 1;
     awr := BU.WriteInt8Array; ard := BU.ReadInt8Array;
     awr_emits l _ _ := emit_int8_array l; ard_parses l H _ := parse_int8_array l H |}.
Definition int16_array : ArrayCodec Z :=
  {| elem_valid := inS 16; elem_bytes := le_bytes 2; elem_width := 2;
     awr := BU.WriteInt16Array; ard := BU.ReadInt16Array; awr_emits l _ := emit_array 2 l;
     ard_parses l H F := parse_array_as 2 i16 l F (forall_signed 16 l eq_refl H) |}.
Definition uint16_array : ArrayCodec Z :=
  {| elem_valid := inU 16; elem_bytes := le_bytes 2; elem_width := 2;
     awr := BU.WriteUInt16Array; ard := BU.ReadUInt16Array; awr_emits l _ := emit_array 2 l;
     ard_parses l H F := parse_unsigned_array 2 l F H |}.
Definition int32_array : ArrayCodec Z :=
  {| elem_valid := inS 32; elem_bytes := le_bytes 4; elem_width := 4;
     awr := BU.WriteInt32Array; ard := BU.ReadInt32Array; awr_emits l _ := emit_array 4 l;
     ard_parses l H F := parse_array_as 4 i32 l F (forall_signed 32 l eq_refl H) |}.
Definition int64_array : ArrayCodec Z :=
  {| elem_valid := inS 64; elem_bytes := le_bytes 8; elem_width := 8;
     awr := BU.WriteInt64Array; ard := BU.ReadInt64Array; awr_emits l _ := emit_array 8 l;
     ard_parses l H F := parse_array_as 8 i64 l F (forall_signed 64 l eq_refl H) |}.

(** Floating-point arrays are written one by one and read at once. *)
Definition float_array : ArrayCodec Z.
Proof.
  refine {| elem_valid := inU 32; elem_bytes := le_bytes 4; elem_width := 4;
            awr := BU.WriteFloatArray; ard := BU.ReadFloatArray;
            ard_parses l H F := parse_unsigned_array 4 l F H |}.
  intros l _ _. apply emit_elements. apply Forall_forall. intros b _. apply emit_float.
Defined.
Definition double_array : ArrayCodec Z.
Proof.
  refine {| elem_valid := inU 64; elem_bytes := le_bytes 8; elem_width := 8;
            awr := BU.WriteDoubleArray; ard := BU.ReadDoubleArray;
            ard_parses l H F := parse_unsigned_array 8 l F H |}.
  intros l _ _. apply emit_elements. apply Forall_forall. intros b _. apply emit_double.
Defined.
#[export] Instance bool_array : ArrayCodec bool.
Proof.
  refine {| elem_valid _ := True; elem_bytes := bool_bytes; elem_width := 1;
            awr := BU.WriteBoolArray; ard := BU.ReadBoolArray |}.
  - intros l _ _. apply emit_elements. apply Forall_forall. intros b _. apply emit_bool.
  - intros l _ _. apply parse_elements. apply Forall_forall. intros b _. apply parse_bool.
Defined.

(** * Tagged values *)

Definition tagged (hdr : Z) (bs : list Z) : list Z := le_bytes 1 hdr ++ bs.

Definition is_code (z : Z) : Prop := inS 8 z.

Lemma emit_tagged {A} `{Codec A} hdr a :
  valid a -> emits (W.write_tagged hdr wr a) tt (tagged hdr (enc a)).
Proof. intros Ha. apply (emits_bind _ _ tt); [apply emit_int8|by apply wr_emits]. Qed.

Lemma parse_nullable {A} `{Codec A} hdr dflt a :
  is_code hdr -> valid a -> parses (ReadNullable rd dflt hdr) (tagged hdr (enc a)) a.
Proof.
  intros Hh Ha. apply (parses_bind _ _ hdr); [by apply parse_int8|]. rewrite Z.eqb_refl. by apply rd_parses.
Qed.

Lemma parse_prim {A} `{Codec A} hdr dflt a :
  is_code hdr -> valid a -> parses (top_prim hdr rd dflt) (tagged hdr (enc a)) a.
Proof.
  intros Hh Ha. apply (parses_bind _ _ hdr); [by apply parse_int8|]. rewrite Z.eqb_refl. by apply rd_parses.
Qed.

(** Strings: the code, the length and the characters. *)
Definition string_bytes (s : list Z) : list Z :=
  tagged DOCUMENTDB_TYPE_STRING (le_bytes 4 (Z.of_nat (length s)) ++ concat (map (le_bytes 1) s)).

Definition string_ok (s : list Z) : Prop := Forall (inS 8) s /\ Z.of_nat (length s) < 2 ^ 31.

Lemma emit_string s : emits (W.write_string (Some s) (Z.of_nat (length s))) tt (string_bytes s).
Proof.
  apply (emits_bind _ _ tt); [apply emit_int8|].
  apply (emits_bind _ _ tt); [apply emit_int32|apply emit_int8_array].
Qed.

Lemma parse_length n : 0 <= n < 2 ^ 31 -> parses In.ReadInt32 (le_bytes 4 n) n.
Proof. intros H. apply parse_int32. widths. lia. Qed.

Lemma parse_string s : string_ok s -> parses (ReadTop []) (string_bytes s) s.
Proof.
  intros [Hs Hl]. cbn [ReadTop read_top_string].
  apply (parses_bind _ _ DOCUMENTDB_TYPE_STRING); [apply parse_int8; by vm_compute|].
  rewrite Z.eqb_refl. apply (parses_bind _ _ (Z.of_nat (length s))); [apply parse_length; lia|].
  destruct (Z.ltb_spec 0 (Z.of_nat (length s))); [by apply parse_int8_array|].
  destruct s; [apply parses_ret|cbn in *; lia].
Qed.

(** * Kinds of values *)

Inductive kind : Type :=
| KByte | KBool | KShort | KChar | KInt | KLong | KFloat | KDouble
| KGuid | KDate | KTimestamp | KTime | KEnum.

Definition ty (k : kind) : Type :=
  match k with
  | KByte | KShort | KChar | KInt | KLong | KFloat | KDouble => Z
  | KBool => bool
  | KGuid => Guid
  | KDate => Date
  | KTimestamp => Timestamp
  | KTime => Time
  | KEnum => BinaryEnumEntry
  end.

Definition code (k : kind) : Z :=
  match k with
  | KByte => DOCUMENTDB_TYPE_BYTE
  | KBool => DOCUMENTDB_TYPE_BOOL
  | KShort => DOCUMENTDB_TYPE_SHORT
  | KChar => DOCUMENTDB_TYPE_CHAR
  | KInt => DOCUMENTDB_TYPE_INT
  | KLong => DOCUMENTDB_TYPE_LONG
  | KFloat => DOCUMENTDB_TYPE_FLOAT
  | KDouble => DOCUMENTDB_TYPE_DOUBLE
  | KGuid => DOCUMENTDB_TYPE_UUID
  | KDate => DOCUMENTDB_TYPE_DATE
  | KTimestamp => DOCUMENTDB_TYPE_TIMESTAMP
  | KTime => DOCUMENTDB_TYPE_TIME
  | KEnum => DOCUMENTDB_TYPE_ENUM
  end.

#[export] Instance kind_codec (k : kind) : Codec (ty k) :=
  match k with
  | KByte => int8_codec
  | KBool => bool_codec
  | KShort => int16_codec
  | KChar => uint16_codec
  | KInt => int32_codec
  | KLong => int64_codec
  | KFloat => float_codec
  | KDouble => double_codec
  | KGuid => guid_codec
  | KDate => date_codec
  | KTimestamp => timestamp_codec
  | KTime => time_codec
  | KEnum => enum_codec
  end.

#[export] Instance kind_eq_dec : EqDecision kind.
Proof. solve_decision. Defined.

Lemma code_range k : is_code (code k).
Proof. destruct k; by vm_compute. Qed.

Inductive akind : Type := ABytes | ABools | AShorts | AChars | AInts | ALongs | AFloats | ADoubles.

Definition aty (k : akind) : Type := match k with ABools => bool | _ => Z end.
Definition acode (k : akind) : Z :=
  match k with
  | ABytes => DOCUMENTDB_TYPE_ARRAY_BYTE
  | ABools => DOCUMENTDB_TYPE_ARRAY_BOOL
  | AShorts => DOCUMENTDB_TYPE_ARRAY_SHORT
  | AChars => DOCUMENTDB_TYPE_ARRAY_CHAR
  | AInts => DOCUMENTDB_TYPE_ARRAY_INT
  | ALongs => DOCUMENTDB_TYPE_ARRAY_LONG
  | AFloats => DOCUMENTDB_TYPE_ARRAY_FLOAT
  | ADoubles => DOCUMENTDB_TYPE_ARRAY_DOUBLE
  end.
#[export] Instance akind_codec (k : akind) : ArrayCodec (aty k) :=
  match k with
  | ABytes => int8_array
  | ABools => bool_array
  | AShorts => int16_array
  | AChars => uint16_array
  | AInts => int32_array
  | ALongs => int64_array
  | AFloats => float_array
  | ADoubles => double_array
  end.

Definition awidth (k : akind) : nat := @elem_width _ (akind_codec k).

Lemma acode_range k : is_code (acode k).
Proof. destruct k; by vm_compute. Qed.

Definition array_bytes {A} `{ArrayCodec A} (hdr : Z) (l : list A) : list Z :=
  tagged hdr (le_bytes 4 (Z.of_nat (length l)) ++ concat (map elem_bytes l)).

Lemma aelem_length k (a : aty k) : length (elem_bytes a) = awidth k.
Proof. by destruct k. Qed.
Lemma awidth_pos k : (0 < awidth k)%nat.
Proof. destruct k; unfold awidth; cbn; lia. Qed.
