(* ===== verification/BinLayout.v ===== *)
(** The layout of an object: what [WriteTopObject0] leaves in the memory, as a function
    of the fields and the raw data of the object ([object_bytes]). *)
From S2P Require Import Prelude Memory Chrono Interop InteropProps BinUtils BinSchema BinObject BinWriter BinReader BinValues.

(** * The format *)

(** A field is its id and its bytes, type code included. *)
Abbreviation field := (Z * list Z)%type.

Definition payload (flds : list field) : list Z := concat (map snd flds).
Definition body (flds : list field) (raw : option (list Z)) : list Z := payload flds ++ default [] raw.

Fixpoint offsets (off : Z) (flds : list field) : list BinarySchemaFieldInfo :=
  match flds with
  | [] => []
  | (id, bs) :: t => MkField id off :: offsets (off + Z.of_nat (length bs)) t
  end.

Fixpoint build_schema (off : Z) (flds : list field) (sc : BinarySchema) : BinarySchema :=
  match flds with
  | [] => sc
  | (id, bs) :: t => build_schema (off + Z.of_nat (length bs)) t (AddField id off sc)
  end.
Definition schema_of (flds : list field) : BinarySchema := build_schema Hdr.SIZE flds new_schema.

Definition type_of_offset (off : Z) : BinaryOffsetType :=
  if off <? 0x100 then ONE_BYTE else if off <? 0x10000 then TWO_BYTES else FOUR_BYTES.
Definition table_type (flds : list field) : BinaryOffsetType :=
  type_of_offset (default 0 (fi_offset <$> last (offsets Hdr.SIZE flds))).

Definition offset_width (t : BinaryOffsetType) : nat :=
  match t with ONE_BYTE => 1 | TWO_BYTES => 2 | FOUR_BYTES => 4 end.
Definition entry_bytes (t : BinaryOffsetType) (f : BinarySchemaFieldInfo) : list Z :=
  le_bytes 4 (fi_id f) ++ le_bytes (offset_width t) (fi_offset f).
Definition table (flds : list field) : list Z :=
  concat (map (entry_bytes (table_type flds)) (offsets Hdr.SIZE flds)).

Definition data_start (flds : list field) : Z := Hdr.SIZE + Z.of_nat (length (payload flds)).
Definition data_end (flds : list field) (raw : option (list Z)) : Z :=
  Hdr.SIZE + Z.of_nat (length (body flds raw)).

(** Behind the data: the table, and where the raw data starts. *)
Definition footer (flds : list field) (raw : option (list Z)) : list Z :=
  match flds with
  | [] => []
  | _ => table flds ++ match raw with Some _ => le_bytes 4 (data_start flds) | None => [] end
  end.

Definition object_length (flds : list field) (raw : option (list Z)) : Z :=
  data_end flds raw + Z.of_nat (length (footer flds raw)).

Definition object_flags (flds : list field) (raw : option (list Z)) : Z :=
  let user := Z.lor DOCUMENTDB_BINARY_FLAG_USER_TYPE
                (match raw with Some _ => DOCUMENTDB_BINARY_FLAG_HAS_RAW | None => 0 end) in
  match flds with
  | [] => user
  | _ => Z.lor (Z.lor user DOCUMENTDB_BINARY_FLAG_HAS_SCHEMA) (W.offset_flag (table_type flds))
  end.

Definition schema_or_raw (flds : list field) (raw : option (list Z)) : Z :=
  match flds with [] => Hdr.SIZE | _ => data_end flds raw end.

Definition header_bytes (typeId hash : Z) (flds : list field) (raw : option (list Z)) : list Z :=
  (le_bytes 1 DOCUMENTDB_HDR_FULL ++ le_bytes 1 DOCUMENTDB_PROTO_VER) ++ le_bytes 2 (object_flags flds raw)
  ++ le_bytes 4 typeId ++ le_bytes 4 hash ++ le_bytes 4 (object_length flds raw)
  ++ le_bytes 4 (sc_id (schema_of flds)) ++ le_bytes 4 (schema_or_raw flds raw).

Definition object_bytes (typeId : Z) (flds : list field) (raw : option (list Z)) : list Z :=
  header_bytes typeId (GetDataHashCode (Some (body flds raw))) flds raw ++ body flds raw ++ footer flds raw.

(** * Schemas *)

Lemma offsets_app off a b :
  offsets off (a ++ b) = offsets off a ++ offsets (off + Z.of_nat (length (payload a))) b.
Proof.
  revert off. induction a as [|[id bs] a IH]; intros off; cbn [offsets app payload map concat].
  - unfold payload. cbn. by rewrite Z.add_0_r.
  - rewrite IH. unfold payload. cbn [map concat snd]. by rewrite length_app, Nat2Z.inj_add, Z.add_assoc.
Qed.

Lemma build_schema_app off a b sc :
  build_schema off (a ++ b) sc
  = build_schema (off + Z.of_nat (length (payload a))) b (build_schema off a sc).
Proof.
  revert off sc. induction a as [|[id bs] a IH]; intros off sc; cbn [build_schema app].
  - unfold payload. cbn. by rewrite Z.add_0_r.
  - rewrite IH. unfold payload. cbn [map concat snd]. by rewrite length_app, Nat2Z.inj_add, Z.add_assoc.
Qed.

Lemma schema_snoc flds id bs :
  schema_of (flds ++ [(id, bs)]) = AddField id (data_start flds) (schema_of flds).
Proof. unfold schema_of. by rewrite build_schema_app. Qed.

Lemma schema_fields off flds sc :
  fieldsInfo (build_schema off flds sc) = fieldsInfo sc ++ offsets off flds.
Proof.
  revert off sc. induction flds as [|[id bs] flds IH]; intros off sc; cbn [build_schema offsets].
  - by rewrite app_nil_r.
  - rewrite IH. cbn [AddField fieldsInfo]. by rewrite <- app_assoc.
Qed.
Lemma schema_of_fields flds : fieldsInfo (schema_of flds) = offsets Hdr.SIZE flds.
Proof. unfold schema_of. by rewrite schema_fields. Qed.

Lemma schema_empty flds : schema_Empty (schema_of flds) = match flds with [] => true | _ => false end.
Proof. unfold schema_Empty. rewrite schema_of_fields. by destruct flds as [|[]]. Qed.

Lemma payload_app a b : payload (a ++ b) = payload a ++ payload b.
Proof. unfold payload. by rewrite map_app, concat_app. Qed.

Lemma last_offset flds : flds <> [] -> exists f, last (offsets Hdr.SIZE flds) = Some f.
Proof.
  intros H. destruct flds as [|[id bs] flds]; [done|]. cbn [offsets].
  destruct (last (MkField id Hdr.SIZE :: offsets (Hdr.SIZE + Z.of_nat (length bs)) flds)) eqn:E; [eauto|].
  by apply last_None in E.
Qed.

Lemma schema_type flds : flds <> [] -> schema_GetType (schema_of flds) = Ok (table_type flds).
Proof.
  intros H. destruct (last_offset flds H) as [f Hf]. unfold schema_GetType, table_type, type_of_offset.
  rewrite schema_of_fields, Hf. cbn. by repeat case_match.
Qed.

Lemma emit_entry t f : emits (write_field t f) tt (entry_bytes t f).
Proof.
  apply (emits_bind _ _ tt); [apply emit_int32|]. destruct t; cbn [offset_width].
  - rewrite <- (le_bytes_wrapS 1) by lia. apply emit_int8.
  - rewrite <- (le_bytes_wrapS 2) by lia. apply emit_int16.
  - apply emit_int32.
Qed.

Lemma emit_table flds : flds <> [] -> emits (schema_Write (schema_of flds)) tt (table flds).
Proof.
  intros H. unfold schema_Write. apply (emits_ret_bind _ _ (table_type flds)).
  - rewrite schema_type by done. apply emits_ret.
  - rewrite schema_of_fields. apply emits_for_each. intros f _. apply emit_entry.
Qed.

(** * The states of a writer of an object *)

Definition header_start (typeId : Z) : list Z :=
  le_bytes 1 DOCUMENTDB_HDR_FULL ++ le_bytes 1 DOCUMENTDB_PROTO_VER
  ++ le_bytes 2 DOCUMENTDB_BINARY_FLAG_USER_TYPE ++ le_bytes 4 typeId.

(** The writer of an object that started where [s0] stood, after the fields [flds] and, in
    raw mode, the data [raw].  There is no manager of types. *)
Record writing (s0 : OutStream) (rslvr : option name -> outcome Z Z) (typeId : Z)
    (flds : list field) (raw : option (list Z)) (w : BinaryWriterImpl) : Prop := {
  ow_ok : out_ok (w_stream w);
  ow_rslvr : w_idRslvr w = Some rslvr;
  ow_mgr : w_metaMgr w = None /\ w_metaHnd w = None;
  ow_session : w_elemId w = 0 /\ w_elemCnt w = 0 /\ w_elemPos w = -1;
  ow_raw : w_rawPos w = match raw with Some _ => os_pos s0 + data_start flds | None => -1 end;
  ow_schema : w_schema w = schema_of flds;
  ow_start : w_start w = os_pos s0 /\ 0 <= os_pos s0;
  ow_pos : os_pos (w_stream w) = os_pos s0 + data_end flds raw;
  ow_head : holds (cells (w_stream w)) (os_pos s0) (header_start typeId);
  ow_body : holds (cells (w_stream w)) (os_pos s0 + Hdr.SIZE) (body flds raw);
  ow_keeps : keeps (os_pos s0) (os_pos (w_stream w)) s0 (w_stream w)
}.

(** An operation that writes one field, and one that writes raw data. *)
Definition field_op (rslvr : option name -> outcome Z Z) (f : writer unit) (id : Z) (bs : list Z) : Prop :=
  forall s0 typeId flds w,
  writing s0 rslvr typeId flds None w ->
  os_pos s0 + data_start flds + Z.of_nat (length bs) <= max_size ->
  exists w', f w = Ok (tt, w') /\ writing s0 rslvr typeId (flds ++ [(id, bs)]) None w'.
Definition raw_op (f : writer unit) (bs : list Z) : Prop :=
  forall s0 rslvr typeId flds raw w,
  writing s0 rslvr typeId flds (Some raw) w ->
  os_pos s0 + data_end flds (Some raw) + Z.of_nat (length bs) <= max_size ->
  exists w', f w = Ok (tt, w') /\ writing s0 rslvr typeId flds (Some (raw ++ bs)) w'.

Lemma body_none flds : body flds None = payload flds.
Proof. apply app_nil_r. Qed.
Lemma data_end_none flds : data_end flds None = data_start flds.
Proof. unfold data_end. by rewrite body_none. Qed.
Lemma data_end_some flds raw bs :
  data_end flds (Some (raw ++ bs)) = data_end flds (Some raw) + Z.of_nat (length bs).
Proof. unfold data_end, body. cbn [default from_option id]. rewrite !length_app. lia. Qed.
Lemma data_start_snoc flds id bs :
  data_start (flds ++ [(id, bs)]) = data_start flds + Z.of_nat (length bs).
Proof. unfold data_start. rewrite payload_app, length_app. unfold payload at 2. cbn. rewrite app_nil_r. lia. Qed.
Lemma payload_snoc flds id bs : payload (flds ++ [(id, bs)]) = payload flds ++ bs.
Proof. rewrite payload_app. unfold payload at 2. cbn. by rewrite app_nil_r. Qed.
Lemma data_start_pos flds : Hdr.SIZE <= data_start flds.
Proof. unfold data_start. lia. Qed.
Lemma data_end_pos flds raw : Hdr.SIZE <= data_end flds raw.
Proof. unfold data_end. lia. Qed.

(** What the stream appends to the data. *)
Lemma append_spec s0 typeId s bs s' (data : list Z) :
  wrote s bs s' -> 0 <= os_pos s0 -> os_pos s = os_pos s0 + Hdr.SIZE + Z.of_nat (length data) ->
  holds (cells s) (os_pos s0) (header_start typeId) -> holds (cells s) (os_pos s0 + Hdr.SIZE) data ->
  keeps (os_pos s0) (os_pos s) s0 s ->
  holds (cells s') (os_pos s0) (header_start typeId)
  /\ holds (cells s') (os_pos s0 + Hdr.SIZE) (data ++ bs) /\ keeps (os_pos s0) (os_pos s') s0 s'.
Proof.
  intros (Ho & Hp & Hh & Hk) H0 Hpos Hhead Hbody Hkeep. unfold Hdr.SIZE in *. split; [|split].
  - apply (holds_agree (cells s)); [done|]. intros x Hx. apply Hk.
    change (length (header_start typeId)) with 8%nat in Hx. lia.
  - apply holds_app. split.
    + apply (holds_agree (cells s)); [done|]. intros x Hx. apply Hk. lia.
    + by replace (os_pos s0 + 24 + Z.of_nat (length data)) with (os_pos s) by lia.
  - intros x Hx. rewrite Hk, Hkeep; [done|lia|lia].
Qed.

(** The guards. *)
Lemma check_raw b w : b = negb (w_rawPos w =? -1) -> W.CheckRawMode b w = Ok (tt, w).
Proof. intros ->. unfold W.CheckRawMode. by destruct (w_rawPos w =? -1). Qed.
Lemma check_single b w : b = (w_elemId w =? 0) -> W.CheckSingleMode b w = Ok (tt, w).
Proof. intros ->. unfold W.CheckSingleMode. by destruct (w_elemId w =? 0). Qed.
Lemma bind_ok {S A B} (f : op S A) (k : A -> op S B) (s s' : S) a :
  f s = Ok (a, s') -> bind f k s = k a s'.
Proof. unfold bind. by intros ->. Qed.

(** A write that appends [bs] to the stream and changes nothing else, in the states [P]. *)
Definition wemits (P : BinaryWriterImpl -> Prop) (f : writer unit) (bs : list Z) : Prop :=
  forall w, out_ok (w_stream w) -> w_metaMgr w = None -> P w ->
  os_pos (w_stream w) + Z.of_nat (length bs) <= max_size ->
  exists s', f w = Ok (tt, w_set_stream s' w) /\ wrote (w_stream w) bs s'.

Definition anywhere (w : BinaryWriterImpl) : Prop := True.
Definition in_raw (w : BinaryWriterImpl) : Prop := w_rawPos w <> -1 /\ w_elemId w = 0.

Lemma wemits_stream P (f : out unit) bs : emits f tt bs -> wemits P (on_stream f) bs.
Proof.
  intros Hf w Ho _ _ Hfit. destruct (Hf _ Ho Hfit) as (s' & E & W'). exists s'. split; [|done].
  unfold on_stream. by rewrite E.
Qed.

Lemma wemits_ret P : wemits P (ret tt) [].
Proof.
  intros w Ho _ _ Hfit. destruct (emits_ret tt (w_stream w) Ho Hfit) as (s' & E & W').
  unfold ret in *. simplify_eq. eexists. split; [|exact W']. unfold w_set_stream. by destruct w.
Qed.

Lemma wemits_bind P (f g : writer unit) a b :
  (forall w s, P w -> P (w_set_stream s w)) ->
  wemits P f a -> wemits P g b -> wemits P (f ;;; g) (a ++ b).
Proof.
  intros HP Hf Hg w Ho Hm Hw Hfit. rewrite length_app in Hfit.
  destruct (Hf w Ho Hm Hw ltac:(lia)) as (s1 & E1 & W1). pose proof W1 as (Ho1 & Hp1 & _).
  destruct (Hg (w_set_stream s1 w) Ho1 Hm (HP _ _ Hw)) as (s2 & E2 & W2); [cbn; lia|].
  exists s2. split; [|by apply (wrote_trans _ _ s1)]. unfold bind. rewrite E1. cbn [obind]. by rewrite E2.
Qed.

Lemma in_raw_stream w s : in_raw w -> in_raw (w_set_stream s w).
Proof. done. Qed.

Lemma wemits_weaken (P Q : BinaryWriterImpl -> Prop) f bs :
  (forall w, Q w -> P w) -> wemits P f bs -> wemits Q f bs.
Proof. intros H Hf w Ho Hm HQ. by apply Hf, H. Qed.

Lemma wemits_raw (f : writer unit) bs :
  wemits anywhere f bs -> wemits in_raw (W.CheckRawMode true ;;; W.CheckSingleMode true ;;; f) bs.
Proof.
  intros Hf w Ho Hm [Hr Hs] Hfit.
  rewrite (bind_ok _ _ w w tt) by (apply check_raw; by destruct (Z.eqb_spec (w_rawPos w) (-1))).
  rewrite (bind_ok _ _ w w tt) by (apply check_single; by rewrite Hs). by apply Hf.
Qed.

(** The frame of all operations on fields. *)
Lemma field_op_intro rslvr n id t (f : writer unit) bs :
  rslvr (Some n) = Ok id -> wemits anywhere f bs ->
  field_op rslvr (W.WriteFieldId (Some n) t ;;; f) id bs.
Proof.
  intros Hid Hf s0 typeId flds w [Ho Hr [Hm1 Hm2] (Hs1 & Hs2 & Hs3) Hraw Hsc [Hst H0] Hpos Hh Hb Hk] Hfit.
  rewrite data_end_none in Hpos. rewrite body_none in Hb. unfold max_size in Hfit. change (2 ^ 30) with 1073741824 in Hfit.
  pose proof (data_start_pos flds) as Hds. unfold Hdr.SIZE in Hds.
  unfold bind, W.WriteFieldId. rewrite Hr, Hid, Hm2. cbn [obind].
  rewrite Hpos, Hst. rewrite checked_ok by (widths; lia). cbn [obind].
  replace (os_pos s0 + data_start flds - os_pos s0) with (data_start flds) by lia.
  rewrite Hsc, <- (schema_snoc _ _ bs).
  destruct (Hf (w_set_schema (schema_of (flds ++ [(id, bs)])) None w) Ho Hm1 I) as (s1 & E & W1);
    [cbn; unfold max_size; change (2 ^ 30) with 1073741824; lia|].
  rewrite E. eexists. split; [done|].
  destruct (append_spec s0 typeId (w_stream w) bs s1 (payload flds)) as (A & B & C); try done.
  { unfold data_start in Hpos. lia. }
  destruct W1 as (Ho1 & Hp1 & _). cbn [w_stream w_set_schema] in Hp1.
  constructor; cbn [w_stream w_set_stream w_set_schema w_idRslvr w_metaMgr w_metaHnd w_elemId w_elemCnt
    w_elemPos w_rawPos w_schema w_start]; try done.
  - rewrite data_end_none, data_start_snoc. lia.
  - by rewrite body_none, payload_snoc.
Qed.

Lemma field_op_raw_check rslvr f id bs :
  field_op rslvr f id bs -> field_op rslvr (W.CheckRawMode false ;;; f) id bs.
Proof.
  intros Hf s0 typeId flds w Hw Hfit.
  rewrite (bind_ok _ _ w w tt) by (apply check_raw; by rewrite (ow_raw _ _ _ _ _ _ Hw)). by apply Hf.
Qed.
Lemma field_op_check rslvr f id bs :
  field_op rslvr f id bs -> field_op rslvr (W.CheckRawMode false ;;; W.CheckSingleMode true ;;; f) id bs.
Proof.
  intros Hf. apply field_op_raw_check. intros s0 typeId flds w Hw Hfit.
  rewrite (bind_ok _ _ w w tt) by (apply check_single; by rewrite (proj1 (ow_session _ _ _ _ _ _ Hw))).
  by apply Hf.
Qed.

Lemma raw_op_intro (f : writer unit) bs : wemits in_raw f bs -> raw_op f bs.
Proof.
  intros Hf s0 rslvr typeId flds raw w [Ho Hr [Hm1 Hm2] (Hs1 & Hs2 & Hs3) Hraw Hsc [Hst H0] Hpos Hh Hb Hk] Hfit.
  pose proof (data_start_pos flds) as Hds. unfold Hdr.SIZE in Hds.
  destruct (Hf w Ho Hm1) as (s1 & E & W1); [split; [lia|done]|lia|].
  rewrite E. eexists. split; [done|].
  destruct (append_spec s0 typeId (w_stream w) bs s1 (body flds (Some raw))) as (A & B & C); try done.
  { unfold data_end in Hpos. lia. }
  destruct W1 as (Ho1 & Hp1 & _).
  constructor; cbn [w_stream w_set_stream w_idRslvr w_metaMgr w_metaHnd w_elemId w_elemCnt
    w_elemPos w_rawPos w_schema w_start]; try done.
  - rewrite data_end_some. lia.
  - unfold body in *. cbn [default from_option id] in *. by rewrite app_assoc.
Qed.

Lemma set_raw_mode s0 rslvr typeId flds w :
  writing s0 rslvr typeId flds None w ->
  exists w', W.SetRawMode w = Ok (tt, w') /\ writing s0 rslvr typeId flds (Some []) w'.
Proof.
  intros [Ho Hr [Hm1 Hm2] (Hs1 & Hs2 & Hs3) Hraw Hsc [Hst H0] Hpos Hh Hb Hk].
  rewrite data_end_none in Hpos.
  unfold W.SetRawMode.
  rewrite (bind_ok _ _ w w tt) by (apply check_raw; by rewrite Hraw).
  rewrite (bind_ok _ _ w w tt) by (apply check_single; by rewrite Hs1).
  unfold modify. eexists. split; [done|].
  assert (Ed : data_end flds (Some []) = data_start flds).
  { unfold data_end, body, data_start. cbn [default from_option id]. by rewrite app_nil_r. }
  constructor; cbn [w_stream w_set_raw w_idRslvr w_metaMgr w_metaHnd w_elemId w_elemCnt
    w_elemPos w_rawPos w_schema w_start]; try done.
  by rewrite Ed.
Qed.
