(* ===== verification/BinTop.v ===== *)
(** Whole objects: [WriteTopObject0] leaves [object_bytes] in the memory. *)
From S2P Require Import Prelude Memory Chrono Interop InteropProps BinUtils BinSchema BinObject BinWriter BinReader BinValues BinLayout.

(** * The header, once the object is written *)

Lemma holds_keeps s s' p q a bs :
  holds (cells s) a bs -> keeps p q s s' -> a + Z.of_nat (length bs) <= p \/ q <= a -> holds (cells s') a bs.
Proof. intros Hh Hk Hd. apply (holds_agree (cells s)); [done|]. intros x Hx. apply Hk. lia. Qed.

Lemma keeps_sub p q p' q' s s' : keeps p q s s' -> p' <= p -> q <= q' -> keeps p' q' s s'.
Proof. intros H Hp Hq x Hx. apply H. lia. Qed.
Lemma keeps_trans p q s s' s'' : keeps p q s s' -> keeps p q s' s'' -> keeps p q s s''.
Proof. intros H H' x Hx. by rewrite H', H. Qed.

Lemma patch_spec start flags len sid off s :
  out_ok s -> 0 <= start -> start + Hdr.SIZE <= os_pos s -> os_pos s <= max_size ->
  exists s', W.patch_header start flags len sid off s = Ok (tt, s') /\ out_ok s' /\ os_pos s' = os_pos s
    /\ holds (cells s') (start + 2) (le_bytes 2 flags)
    /\ holds (cells s') (start + 12) (le_bytes 4 len ++ le_bytes 4 sid ++ le_bytes 4 off)
    /\ keeps (start + 2) (start + Hdr.SIZE) s s'
    /\ (forall x, start + 4 <= x < start + 12 -> cell_at (cells s') x = cell_at (cells s) x).
Proof.
  intros Hs H0 Hl Hfit. unfold max_size, Hdr.SIZE in *. change (2 ^ 30) with 1073741824 in *.
  unfold W.patch_header, DOCUMENTDB_OFFSET_FLAGS, DOCUMENTDB_OFFSET_LEN, DOCUMENTDB_OFFSET_SCHEMA_ID,
    DOCUMENTDB_OFFSET_SCHEMA_OR_RAW_OFF.
  rewrite (bind_ok _ _ s s (start + 2)) by (apply int32_small; lia).
  destruct (write_to_spec 2 (start + 2) (i16 flags) s Hs) as (s1 & E1 & Hs1 & Hp1 & Hh1 & Hk1 & _);
    [lia|lia|unfold max_size; lia|].
  rewrite (bind_ok _ _ s s1 tt) by exact E1.
  rewrite (bind_ok _ _ s1 s1 (start + 12)) by (apply int32_small; lia).
  destruct (write_to_spec 4 (start + 12) len s1 Hs1) as (s2 & E2 & Hs2 & Hp2 & Hh2 & Hk2 & _);
    [lia|lia|unfold max_size; lia|].
  rewrite (bind_ok _ _ s1 s2 tt) by exact E2.
  rewrite (bind_ok _ _ s2 s2 (start + 16)) by (apply int32_small; lia).
  destruct (write_to_spec 4 (start + 16) sid s2 Hs2) as (s3 & E3 & Hs3 & Hp3 & Hh3 & Hk3 & _);
    [lia|lia|unfold max_size; lia|].
  rewrite (bind_ok _ _ s2 s3 tt) by exact E3.
  rewrite (bind_ok _ _ s3 s3 (start + 20)) by (apply int32_small; lia).
  destruct (write_to_spec 4 (start + 20) off s3 Hs3) as (s4 & E4 & Hs4 & Hp4 & Hh4 & Hk4 & _);
    [lia|lia|unfold max_size; lia|].
  exists s4. split; [exact E4|]. split; [done|]. split; [lia|]. split; [|split; [|split]].
  - rewrite (le_bytes_wrapS 2) in Hh1 by lia.
    refine (holds_keeps _ _ _ _ _ _ _ Hk4 _); [|rewrite le_bytes_length; lia].
    refine (holds_keeps _ _ _ _ _ _ _ Hk3 _); [|rewrite le_bytes_length; lia].
    refine (holds_keeps _ _ _ _ _ _ _ Hk2 _); [done|rewrite le_bytes_length; lia].
  - rewrite !holds_app, !le_bytes_length.
    replace (start + 12 + Z.of_nat 4) with (start + 16) by lia.
    replace (start + 16 + Z.of_nat 4) with (start + 20) by lia. split; [|split; [|done]].
    + refine (holds_keeps _ _ _ _ _ _ _ Hk4 _); [|rewrite le_bytes_length; lia].
      refine (holds_keeps _ _ _ _ _ _ _ Hk3 _); [done|rewrite le_bytes_length; lia].
    + refine (holds_keeps _ _ _ _ _ _ _ Hk4 _); [done|rewrite le_bytes_length; lia].
  - intros x Hx. rewrite Hk4, Hk3, Hk2, Hk1; try done; lia.
  - intros x Hx. rewrite Hk4, Hk3, Hk2, Hk1; try done; lia.
Qed.

(** What [PostWrite] leaves but for the hash code. *)
Record written (s0 : OutStream) (typeId : Z) (flds : list field) (raw : option (list Z)) (s : OutStream)
  : Prop := {
  wt_ok : out_ok s;
  wt_pos : os_pos s = os_pos s0 + object_length flds raw;
  wt_head : holds (cells s) (os_pos s0) ((le_bytes 1 DOCUMENTDB_HDR_FULL ++ le_bytes 1 DOCUMENTDB_PROTO_VER)
              ++ le_bytes 2 (object_flags flds raw) ++ le_bytes 4 typeId);
  wt_sizes : holds (cells s) (os_pos s0 + 12) (le_bytes 4 (object_length flds raw)
               ++ le_bytes 4 (sc_id (schema_of flds)) ++ le_bytes 4 (schema_or_raw flds raw));
  wt_body : holds (cells s) (os_pos s0 + Hdr.SIZE) (body flds raw ++ footer flds raw);
  wt_keeps : keeps (os_pos s0) (os_pos s) s0 s
}.

Lemma object_length_pos flds raw : Hdr.SIZE <= object_length flds raw.
Proof. unfold object_length, data_end. lia. Qed.

Lemma object_length_body flds raw :
  object_length flds raw = Hdr.SIZE + Z.of_nat (length (body flds raw ++ footer flds raw)).
Proof. unfold object_length, data_end. rewrite length_app. lia. Qed.

(** The last step, on a stream that has the whole object but for its header. *)
Lemma patched s0 typeId flds raw w :
  out_ok (w_stream w) -> 0 <= os_pos s0 ->
  os_pos (w_stream w) = os_pos s0 + object_length flds raw ->
  os_pos (w_stream w) <= max_size ->
  holds (cells (w_stream w)) (os_pos s0) (header_start typeId) ->
  holds (cells (w_stream w)) (os_pos s0 + Hdr.SIZE) (body flds raw ++ footer flds raw) ->
  keeps (os_pos s0) (os_pos (w_stream w)) s0 (w_stream w) ->
  exists s', on_stream (W.patch_header (os_pos s0) (object_flags flds raw) (object_length flds raw)
               (sc_id (schema_of flds)) (schema_or_raw flds raw)) w = Ok (tt, w_set_stream s' w)
    /\ written s0 typeId flds raw s'.
Proof.
  intros Hs H0 Hp Hfit Hh Hb Hk. pose proof (object_length_pos flds raw) as Hlen.
  destruct (patch_spec (os_pos s0) (object_flags flds raw) (object_length flds raw) (sc_id (schema_of flds))
              (schema_or_raw flds raw) (w_stream w) Hs H0)
    as (s' & E & Hs' & Hp' & Hf & Hz & Hk' & Hmid); [lia|lia|].
  exists s'. unfold on_stream. rewrite E. split; [done|]. unfold Hdr.SIZE in *.
  unfold header_start in Hh. rewrite !holds_app, !le_bytes_length in Hh.
  destruct Hh as (Ha & Hv & Hfl & Ht).
  constructor; try done.
  - lia.
  - rewrite !holds_app, !length_app, !le_bytes_length. split; [split|split].
    + refine (holds_keeps _ _ _ _ _ _ _ Hk' _); [done|rewrite le_bytes_length; lia].
    + refine (holds_keeps _ _ _ _ _ _ _ Hk' _); [done|rewrite le_bytes_length; lia].
    + exact Hf.
    + eapply holds_agree; [by replace (os_pos s0 + Z.of_nat (1 + 1) + Z.of_nat 2) with
        (os_pos s0 + Z.of_nat 1 + Z.of_nat 1 + Z.of_nat 2) by lia|].
      intros x Hx. apply Hmid. rewrite le_bytes_length in Hx. lia.
  - refine (holds_keeps _ _ _ _ _ _ _ Hk' _); [done|unfold Hdr.SIZE; lia].
  - rewrite Hp'. eapply keeps_trans; [exact Hk|]. eapply keeps_sub; [exact Hk'|lia|unfold Hdr.SIZE; lia].
Qed.

Lemma user_flags s0 typeId rslvr flds raw w :
  writing s0 rslvr typeId flds raw w ->
  Z.lor DOCUMENTDB_BINARY_FLAG_USER_TYPE (if 0 <? w_rawPos w then DOCUMENTDB_BINARY_FLAG_HAS_RAW else 0)
  = Z.lor DOCUMENTDB_BINARY_FLAG_USER_TYPE
      (match raw with Some _ => DOCUMENTDB_BINARY_FLAG_HAS_RAW | None => 0 end).
Proof.
  intros [_ _ _ _ Hraw _ [_ H0] _ _ _ _]. rewrite Hraw. destruct raw; [|done].
  pose proof (data_start_pos flds). unfold Hdr.SIZE in *.
  by destruct (Z.ltb_spec 0 (os_pos s0 + data_start flds)); [|lia].
Qed.

(** The table and the offset of the raw data. *)
Lemma footer_emits s0 rslvr typeId flds raw w :
  flds <> [] -> writing s0 rslvr typeId flds raw w -> os_pos s0 + object_length flds raw <= max_size ->
  exists s', W.WriteAndClearSchema w
      = Ok (tt, w_set_schema (schema_Clear (schema_of flds)) None (w_set_stream s' w))
    /\ exists s'', (if 0 <? w_rawPos w
                    then let! off := int32 (w_rawPos w - w_start w) in on_stream (Out.WriteInt32 off)
                    else ret tt) (w_set_schema (schema_Clear (schema_of flds)) None (w_set_stream s' w))
      = Ok (tt, w_set_schema (schema_Clear (schema_of flds)) None (w_set_stream s'' w))
    /\ wrote (w_stream w) (footer flds raw) s''.
Proof.
  intros Hne Hw Hfit. pose proof Hw as [Ho Hr [Hm1 Hm2] _ Hraw Hsc [Hst H0] Hpos _ _ _].
  assert (Hf : footer flds raw = table flds ++ match raw with Some _ => le_bytes 4 (data_start flds) | None => [] end)
    by (by destruct flds).
  unfold object_length in Hfit. rewrite Hf in *. rewrite length_app in Hfit.
  destruct (emit_table flds Hne (w_stream w) Ho) as (s' & E & W1); [lia|].
  exists s'. split. { unfold W.WriteAndClearSchema. rewrite Hsc, E, Hm2. done. }
  pose proof W1 as (Ho1 & Hp1 & _). pose proof (data_start_pos flds) as Hds. unfold Hdr.SIZE in Hds.
  rewrite Hraw, Hst. destruct raw as [r|].
  - destruct (Z.ltb_spec 0 (os_pos s0 + data_start flds)); [|lia].
    replace (os_pos s0 + data_start flds - os_pos s0) with (data_start flds) by lia.
    unfold max_size in Hfit. change (2 ^ 30) with 1073741824 in Hfit.
    assert (data_start flds <= data_end flds (Some r)).
    { unfold data_start, data_end, body. rewrite length_app. lia. }
    rewrite (bind_ok _ _ _ (w_set_schema (schema_Clear (schema_of flds)) None (w_set_stream s' w))
               (data_start flds)) by (apply int32_small; lia).
    destruct (emit_int32 (data_start flds) s' Ho1) as (s'' & E2 & W2).
    { rewrite le_bytes_length in *. unfold max_size. change (2 ^ 30) with 1073741824. lia. }
    exists s''. split; [|by apply (wrote_trans _ _ s')]. unfold on_stream. cbn [w_stream w_set_schema w_set_stream].
    by rewrite E2.
  - exists s'. split; [done|]. by rewrite app_nil_r.
Qed.

Lemma post_write s0 rslvr typeId flds raw w :
  writing s0 rslvr typeId flds raw w -> os_pos s0 + object_length flds raw <= max_size ->
  exists w', W.PostWrite w = Ok (tt, w') /\ w_metaMgr w' = None /\ w_metaHnd w' = None
    /\ written s0 typeId flds raw (w_stream w').
Proof.
  intros Hw Hfit. pose proof Hw as [Ho Hr [Hm1 Hm2] _ Hraw Hsc [Hst H0] Hpos Hh Hb Hk].
  pose proof (object_length_pos flds raw) as Hol. unfold Hdr.SIZE in Hol.
  pose proof (data_end_pos flds raw) as Hde. unfold Hdr.SIZE in Hde.
  unfold max_size in Hfit. change (2 ^ 30) with 1073741824 in Hfit.
  assert (Hle : data_end flds raw <= object_length flds raw) by (unfold object_length; lia).
  unfold W.PostWrite. rewrite (user_flags s0 typeId rslvr flds raw w Hw), Hpos, Hst.
  replace (os_pos s0 + data_end flds raw - os_pos s0) with (data_end flds raw) by lia.
  rewrite checked_ok by (widths; lia). cbn [obind].
  unfold HasSchema. rewrite Hsc, schema_empty.
  destruct (decide (flds = [])) as [->|Hne].
  - cbn [negb].
    assert (Eo : W.GetRawPosition w - os_pos s0 = Hdr.SIZE).
    { unfold W.GetRawPosition. rewrite Hraw. destruct raw as [r|].
      - destruct (Z.eqb_spec (os_pos s0 + data_start []) (-1)) as [E|_];
          [unfold data_start, Hdr.SIZE, payload in E; cbn in E; lia|].
        unfold data_start, payload. cbn. lia.
      - rewrite Hpos. unfold data_end, body, payload. cbn. lia. }
    rewrite Eo. cbn [obind checked].
    assert (El : object_length [] raw = data_end [] raw) by (unfold object_length, footer; cbn; lia).
    destruct (patched s0 typeId [] raw w) as (s' & E & Hwt); try done.
    + lia.
    + unfold max_size. change (2 ^ 30) with 1073741824. lia.
    + unfold footer. by rewrite app_nil_r.
    + exists (w_set_stream s' w). split; [|done]. rewrite <- El. exact E.
  - replace (match flds with [] => true | _ => false end) with false by (by destruct flds). cbn [negb].
    rewrite schema_type by done. cbn [obind].
    destruct (footer_emits s0 rslvr typeId flds raw w Hne Hw) as (s' & E1 & s'' & E2 & W2);
      [unfold max_size; change (2 ^ 30) with 1073741824; lia|].
    rewrite E1. cbn [obind]. rewrite Hst in E2.
    change (w_rawPos (w_set_schema (schema_Clear (schema_of flds)) None (w_set_stream s' w))) with (w_rawPos w).
    rewrite E2. cbn [obind w_stream w_set_schema w_set_stream].
    pose proof W2 as (Ho2 & Hp2 & _).
    assert (Hp : os_pos s'' = os_pos s0 + object_length flds raw) by (unfold object_length; lia).
    rewrite Hp. replace (os_pos s0 + object_length flds raw - os_pos s0) with (object_length flds raw) by lia.
    rewrite checked_ok by (widths; lia). cbn [obind].
    destruct (append_spec s0 typeId (w_stream w) (footer flds raw) s'' (body flds raw)) as (A & B & C); try done.
    { unfold data_end in Hpos. lia. }
    destruct (patched s0 typeId flds raw (w_set_schema (schema_Clear (schema_of flds)) None (w_set_stream s'' w)))
      as (s3 & E3 & Hwt); try done.
    + cbn. unfold max_size. change (2 ^ 30) with 1073741824. lia.
    + eexists. split; [|split; [|split]]; [etransitivity; [|exact E3]| | |]; try done.
      do 2 f_equal; try (unfold object_flags, schema_or_raw; by destruct flds).
Qed.

(** * The hash code *)

Lemma flags_schema flds raw :
  (Z.land (object_flags flds raw) DOCUMENTDB_BINARY_FLAG_HAS_SCHEMA =? 0)
  = match flds with [] => true | _ => false end.
Proof. unfold object_flags. destruct flds as [|f flds]; [by destruct raw|]. by destruct raw, (table_type (f :: flds)). Qed.
Lemma flags_raw flds raw :
  (Z.land (object_flags flds raw) DOCUMENTDB_BINARY_FLAG_HAS_RAW =? 0)
  = match raw with Some _ => false | None => true end.
Proof. unfold object_flags. destruct flds as [|f flds]; [by destruct raw|]. by destruct raw, (table_type (f :: flds)). Qed.
Lemma flags_compact flds raw :
  (Z.land (object_flags flds raw) DOCUMENTDB_BINARY_FLAG_COMPACT_FOOTER =? 0) = true.
Proof. unfold object_flags. destruct flds as [|f flds]; [by destruct raw|]. by destruct raw, (table_type (f :: flds)). Qed.
Lemma flags_type flds raw : flds <> [] -> offset_type (object_flags flds raw) = table_type flds.
Proof.
  intros H. unfold object_flags. destruct flds as [|f flds]; [done|].
  by destruct raw, (table_type (f :: flds)).
Qed.
Lemma flags_range flds raw : inS 16 (object_flags flds raw).
Proof. unfold object_flags. destruct flds as [|f flds]; [by destruct raw|]. by destruct raw, (table_type (f :: flds)). Qed.

Lemma schema_or_raw_range flds raw : Hdr.SIZE <= schema_or_raw flds raw <= object_length flds raw.
Proof.
  unfold schema_or_raw, object_length. pose proof (data_end_pos flds raw). destruct flds; lia.
Qed.

(** A number in memory. *)
Lemma mem_read n m p z :
  (0 < n)%nat -> holds (mm_data m) p (le_bytes n z) -> inS (8 * Z.of_nat n) z ->
  BU.UnsafeReadPrimitive n m p = Ok z.
Proof.
  intros Hn Hh Hz. unfold BU.UnsafeReadPrimitive. rewrite <- (le_bytes_length n z) at 1.
  rewrite fetch_holds by done. cbn [obind]. rewrite le_val_bytes, wrapS_mod by (done || lia). done.
Qed.

Lemma mem_read_checked n m p z :
  (0 < n)%nat -> holds (mm_data m) p (le_bytes n z) -> inS (8 * Z.of_nat n) z ->
  0 <= p -> p + Z.of_nat n <= mm_len m -> mm_len m < 2 ^ 31 ->
  BU.ReadPrimitive n m p = Ok z.
Proof.
  intros Hn Hh Hz Hp Hl Hm. unfold BU.ReadPrimitive, BU.CheckEnoughData.
  rewrite checked_ok by (widths; lia). cbn [obind].
  destruct (Z.ltb_spec (mm_len m) (p + Z.of_nat n)); [lia|]. cbn [obind]. by apply mem_read.
Qed.

(** The memory's header, read back. *)
Section in_memory.
Context (s0 : OutStream) (typeId : Z) (flds : list field) (raw : option (list Z)) (s : OutStream) (m : InteropMemory).
Context (Hwt : written s0 typeId flds raw s) (Hd : mm_data m = cells s) (H0 : 0 <= os_pos s0).
Context (Hfit : os_pos s0 + object_length flds raw <= max_size).

Lemma in_mem_flags : Hdr.GetFlags m (os_pos s0) = Ok (object_flags flds raw).
Proof.
  apply (mem_read 2); [lia| |apply flags_range]. rewrite Hd. pose proof (wt_head _ _ _ _ _ Hwt) as H.
  rewrite !holds_app in H. apply H.
Qed.
Lemma in_mem_length : Hdr.GetLength m (os_pos s0) = Ok (object_length flds raw).
Proof.
  apply (mem_read 4); [lia| |].
  - rewrite Hd. pose proof (wt_sizes _ _ _ _ _ Hwt) as H. rewrite !holds_app in H. apply H.
  - pose proof (object_length_pos flds raw). unfold max_size, Hdr.SIZE in *.
    change (2 ^ 30) with 1073741824 in *. widths. lia.
Qed.
Lemma in_mem_offset : Hdr.GetSchemaOffset m (os_pos s0) = Ok (schema_or_raw flds raw).
Proof.
  apply (mem_read 4); [lia| |].
  - rewrite Hd. pose proof (wt_sizes _ _ _ _ _ Hwt) as H. rewrite !holds_app, !le_bytes_length in H.
    replace (os_pos s0 + 20) with (os_pos s0 + 12 + Z.of_nat 4 + Z.of_nat 4) by lia. apply H.
  - pose proof (schema_or_raw_range flds raw). unfold max_size, Hdr.SIZE in *.
    change (2 ^ 30) with 1073741824 in *. widths. lia.
Qed.

Lemma in_mem_data : Hdr.GetDataLength m (os_pos s0) = Ok (Z.of_nat (length (body flds raw))).
Proof.
  unfold Hdr.GetDataLength, Hdr.GetFooterOffset, Hdr.HasSchema. rewrite in_mem_flags. cbn [obind].
  rewrite flags_schema, in_mem_length, in_mem_offset.
  replace (if negb match flds with [] => true | _ => false end then Ok (schema_or_raw flds raw)
           else Ok (object_length flds raw)) with (Ok (data_end flds raw) : outcome Z Z).
  - cbn [obind]. rewrite checked_ok; [f_equal; unfold data_end; lia|].
    pose proof (data_end_pos flds raw). unfold object_length, max_size, Hdr.SIZE in *.
    change (2 ^ 30) with 1073741824 in *. widths. lia.
  - unfold schema_or_raw, object_length, footer. destruct flds; cbn; [|done]. by rewrite Z.add_0_r.
Qed.

Lemma in_mem_hash :
  mm_len m = os_pos s -> object_hash m (os_pos s0) = Ok (GetDataHashCode (Some (body flds raw))).
Proof.
  intros Hl. pose proof (object_length_pos flds raw) as Hol. pose proof (wt_pos _ _ _ _ _ Hwt) as Hp.
  unfold Hdr.SIZE, max_size in *. change (2 ^ 30) with 1073741824 in *.
  unfold object_hash, new_object, BU.ReadInt8_mem.
  rewrite (mem_read_checked 1 m (os_pos s0) DOCUMENTDB_HDR_FULL); try lia.
  2:{ rewrite Hd. pose proof (wt_head _ _ _ _ _ Hwt) as H. rewrite !holds_app in H. apply H. }
  2:{ by vm_compute. }
  cbn [obind]. change (DOCUMENTDB_HDR_FULL =? DOCUMENTDB_TYPE_BINARY) with false.
  change (negb (DOCUMENTDB_HDR_FULL =? DOCUMENTDB_TYPE_OBJECT)) with false. cbn [obind].
  unfold object_GetLength. cbn [bo_mem bo_start]. rewrite in_mem_data. cbn [obind].
  unfold object_GetData. cbn [bo_mem bo_start]. rewrite Hd, fetch_holds; [done|].
  pose proof (wt_body _ _ _ _ _ Hwt) as H. apply holds_app in H. apply H.
Qed.
End in_memory.

(** * Objects *)

Lemma header_written typeId s rslvr mgr :
  out_ok s -> os_pos s + Hdr.SIZE <= max_size -> mgr = None ->
  exists s', write_header typeId s = Ok (os_pos s + 8, s')
    /\ writing s rslvr typeId [] None (object_writer s' rslvr mgr None (os_pos s)).
Proof.
  intros Hs Hfit ->. pose proof Hs as (H0 & _). unfold Hdr.SIZE, max_size in Hfit. change (2 ^ 30) with 1073741824 in Hfit.
  assert (Hh : emits (Out.WriteInt8 DOCUMENTDB_HDR_FULL ;;; Out.WriteInt8 DOCUMENTDB_PROTO_VER ;;;
                      Out.WriteInt16 DOCUMENTDB_BINARY_FLAG_USER_TYPE ;;; Out.WriteInt32 typeId) tt
                 (header_start typeId)).
  { unfold header_start. repeat (emit_step; [auto with codec|]). auto with codec. }
  destruct (Hh s Hs) as (s1 & E1 & W1); [cbn; unfold max_size; change (2 ^ 30) with 1073741824; lia|].
  pose proof W1 as (Ho1 & Hp1 & Hh1 & Hk1). change (Z.of_nat (length (header_start typeId))) with 8 in Hp1.
  destruct (reserve_spec 4 s1 Ho1) as (s2 & E2 & Ho2 & Hp2 & Hk2 & _);
    [lia|unfold max_size; change (2 ^ 30) with 1073741824; lia|].
  destruct (reserve_spec 12 s2 Ho2) as (s3 & E3 & Ho3 & Hp3 & Hk3 & _);
    [lia|unfold max_size; change (2 ^ 30) with 1073741824; lia|].
  exists s3. split.
  - transitivity (bind (Out.WriteInt8 DOCUMENTDB_HDR_FULL ;;; Out.WriteInt8 DOCUMENTDB_PROTO_VER ;;;
                      Out.WriteInt16 DOCUMENTDB_BINARY_FLAG_USER_TYPE ;;; Out.WriteInt32 typeId)
      (fun _ => let! hashPos := Out.Reserve 4 in Out.Reserve 12 ;;; ret hashPos) s).
    + unfold write_header, bind. do 3 (destruct (Out.WriteInt8 _ _) as [[??]| |] || destruct (Out.WriteInt16 _ _) as [[??]| |]; cbn [obind]; try done).
    + rewrite (bind_ok _ _ s s1 tt) by exact E1. rewrite (bind_ok _ _ s1 s2 (os_pos s1)) by exact E2.
      rewrite (bind_ok _ _ s2 s3 (os_pos s2)) by exact E3. unfold ret. by rewrite Hp1.
  - unfold data_start. constructor; cbn [w_stream object_writer w_idRslvr w_metaMgr w_metaHnd w_elemId w_elemCnt
      w_elemPos w_rawPos w_schema w_start]; try done.
    + rewrite data_end_none. unfold data_start, Hdr.SIZE, payload. cbn. lia.
    + eapply holds_agree; [exact Hh1|]. intros x _. by rewrite Hk3, Hk2 by lia.
    + intros x Hx. rewrite Hk3, Hk2, Hk1; [done|lia..].
Qed.

(** Writing the fields of [obj]. *)
Definition writes_object {T} `{BinaryType T} `{ObjectWrite T} (obj : T) (flds : list field)
    (raw : option (list Z)) : Prop :=
  forall s0 w,
  writing s0 (templated_field_id (GetFieldId T)) (GetTypeId T) [] None w ->
  os_pos s0 + object_length flds raw <= max_size ->
  exists w', Write obj w = Ok (tt, w')
    /\ writing s0 (templated_field_id (GetFieldId T)) (GetTypeId T) flds raw w'.

Lemma header_bytes_length typeId hash flds raw : length (header_bytes typeId hash flds raw) = 24%nat.
Proof. reflexivity. Qed.
Lemma object_bytes_length typeId flds raw :
  Z.of_nat (length (object_bytes typeId flds raw)) = object_length flds raw.
Proof.
  unfold object_bytes. rewrite length_app, header_bytes_length, object_length_body. unfold Hdr.SIZE. lia.
Qed.

Lemma hashed s0 typeId flds raw s s' :
  written s0 typeId flds raw s -> out_ok s' -> os_pos s' = os_pos s ->
  holds (cells s') (os_pos s0 + 8) (le_bytes 4 (GetDataHashCode (Some (body flds raw)))) ->
  keeps (os_pos s0 + 8) (os_pos s0 + 12) s s' ->
  wrote s0 (object_bytes typeId flds raw) s'.
Proof.
  intros [Ho Hp Hh Hz Hb Hk] Ho' Hp' Hhash Hk'. pose proof (object_length_pos flds raw) as Hol.
  unfold Hdr.SIZE in *. unfold wrote. rewrite object_bytes_length. split; [done|]. split; [lia|]. split.
  - unfold object_bytes. apply holds_app. rewrite header_bytes_length.
    change (Z.of_nat 24) with 24. split; [|by refine (holds_keeps _ _ _ _ _ _ Hb Hk' _); lia].
    pose proof (holds_keeps _ _ _ _ _ _ Hz Hk' ltac:(lia)) as Hz'.
    pose proof (holds_keeps _ _ _ _ _ _ Hh Hk') as Hh'. rewrite !length_app, !le_bytes_length in Hh'.
    specialize (Hh' ltac:(lia)). unfold header_bytes.
    rewrite !holds_app, !length_app, !le_bytes_length in Hh'.
    rewrite !holds_app, !length_app, !le_bytes_length. destruct Hh' as [Ha [Hf Ht]].
    rewrite !holds_app, !le_bytes_length in Hz'. destruct Hz' as (Hz1 & Hz2 & Hz3).
    repeat split; try done.
    + by apply Ha.
    + by apply Ha.
    + by replace (os_pos s0 + Z.of_nat (1 + 1) + Z.of_nat 2 + Z.of_nat 4) with (os_pos s0 + 8) by lia.
    + by replace (os_pos s0 + Z.of_nat (1 + 1) + Z.of_nat 2 + Z.of_nat 4 + Z.of_nat 4) with (os_pos s0 + 12) by lia.
    + by replace (os_pos s0 + Z.of_nat (1 + 1) + Z.of_nat 2 + Z.of_nat 4 + Z.of_nat 4 + Z.of_nat 4)
        with (os_pos s0 + 12 + Z.of_nat 4) by lia.
    + by replace (os_pos s0 + Z.of_nat (1 + 1) + Z.of_nat 2 + Z.of_nat 4 + Z.of_nat 4 + Z.of_nat 4 + Z.of_nat 4)
        with (os_pos s0 + 12 + Z.of_nat 4 + Z.of_nat 4) by lia.
  - rewrite Hp'. eapply keeps_trans; [exact Hk|]. eapply keeps_sub; [exact Hk'|lia|lia].
Qed.

Lemma emit_object {T} `{BinaryType T} `{ObjectWrite T} (obj : T) flds raw :
  IsNull obj = false -> writes_object obj flds raw ->
  wemits anywhere (WriteTopObject0 obj) (object_bytes (GetTypeId T) flds raw).
Proof.
  intros Hnull Hobj w Ho Hm _ Hfit. rewrite object_bytes_length in Hfit.
  pose proof (object_length_pos flds raw) as Hol. unfold Hdr.SIZE in Hol.
  pose proof Ho as (Hpos & _).
  unfold WriteTopObject0. rewrite Hnull, Hm. cbn [get_handler obind].
  destruct (header_written (GetTypeId T) (w_stream w) (templated_field_id (GetFieldId T)) None Ho)
    as (s1 & E1 & Hw1); [unfold Hdr.SIZE; lia|done|].
  rewrite E1. cbn [obind].
  destruct (Hobj _ _ Hw1 Hfit) as (w2 & E2 & Hw2). rewrite E2. cbn [obind].
  destruct (post_write _ _ _ _ _ _ Hw2 Hfit) as (w3 & E3 & Hm3 & _ & Hwt). rewrite E3. cbn [obind].
  unfold Out.Synchronize, modify. cbn [obind]. rewrite Hm3. cbn [submit_handler obind].
  set (s4 := MkOut _ _ _). assert (Hc4 : cells s4 = cells (w_stream w3)) by done.
  assert (Hwt4 : written (w_stream w) (GetTypeId T) flds raw s4) by (by destruct Hwt; constructor).
  cbn [os_mem]. rewrite (in_mem_hash (w_stream w) (GetTypeId T) flds raw s4 _ Hwt4); try done.
  cbn [obind].
  destruct (write_to_spec 4 (os_pos (w_stream w) + 8) (GetDataHashCode (Some (body flds raw))) s4 (wt_ok _ _ _ _ _ Hwt4))
    as (s5 & E5 & Ho5 & Hp5 & Hh5 & Hk5 & _); [lia| | |].
  - rewrite (wt_pos _ _ _ _ _ Hwt4). lia.
  - rewrite (wt_pos _ _ _ _ _ Hwt4). lia.
  - unfold Out.WriteInt32_to. rewrite E5. cbn [obind]. exists s5. split.
    + unfold w_set_mgr, w_set_stream. cbn. by rewrite Hm.
    + apply (hashed _ _ _ _ s4); try done.
      by replace (os_pos (w_stream w) + 12) with (os_pos (w_stream w) + 8 + Z.of_nat 4) by lia.
Qed.
