(* ===== verification/BinFields.v ===== *)
(** Reading an object: its header, its table of fields, and a field by its name. *)
From S2P Require Import Prelude Memory Chrono Interop InteropProps BinUtils BinSchema BinObject BinWriter BinReader BinValues BinLayout.
From S2P Require Import BinTop.

(** * One stream after the other *)

(** What another stream sees of the memory of an output stream, once it is synchronized. *)
Definition reopen (s : OutStream) (p : Z) : InStream := in_at p (new_in (mem_Length (os_pos s) (os_mem s))).

Lemma reopen_ok s p bs s' :
  out_ok s -> os_pos s + Z.of_nat (length bs) <= max_size -> wrote s bs s' -> p = os_pos s ->
  in_ok (reopen s' p) /\ holds (is_data (reopen s' p)) (is_pos (reopen s' p)) bs
  /\ is_pos (reopen s' p) + Z.of_nat (length bs) <= is_len (reopen s' p).
Proof.
  intros [H0 _] Hfit (Ho & Hp & Hh & _) ->. unfold max_size in *. change (2 ^ 30) with 1073741824 in *.
  unfold in_ok. cbn. change (2 ^ 31) with 2147483648. split; [lia|]. split; [done|lia].
Qed.

(** * The table of fields *)

Definition has_id (id : Z) (f : BinarySchemaFieldInfo) : bool := id =? fi_id f.
Definition find_entry (id : Z) (l : list BinarySchemaFieldInfo) : option BinarySchemaFieldInfo :=
  head (List.filter (has_id id) l).

Definition fits_type (t : BinaryOffsetType) (off : Z) : Prop :=
  match t with
  | ONE_BYTE => 0 <= off < 0x100
  | TWO_BYTES => 0 <= off < 0x10000
  | FOUR_BYTES => 0 <= off < 2 ^ 31
  end.

Lemma entry_bytes_length t f : Z.of_nat (length (entry_bytes t f)) = entry_size t.
Proof. unfold entry_bytes. rewrite length_app, !le_bytes_length. by destruct t. Qed.

Definition entries (t : BinaryOffsetType) (l : list BinarySchemaFieldInfo) : list Z :=
  concat (map (entry_bytes t) l).
Lemma entries_length t l : Z.of_nat (length (entries t l)) = entry_size t * Z.of_nat (length l).
Proof.
  induction l as [|f l IH]; [by rewrite Z.mul_0_r|]. unfold entries in *. cbn [map concat length].
  rewrite length_app, Nat2Z.inj_add, IH, entry_bytes_length. lia.
Qed.
Lemma table_entries flds : table flds = entries (table_type flds) (offsets Hdr.SIZE flds).
Proof. done. Qed.

(** A walk over entries from [p] finds the first one with the id; [ok] is what the reads
    of an entry rely on. *)
Lemma scan_spec {S} (t : BinaryOffsetType) (read_id read_off : Z -> op S Z) id l s :
  forall p fuel,
  (forall k f, l !! k = Some f ->
     read_id (p + entry_size t * Z.of_nat k) s = Ok (fi_id f, s)
     /\ read_off (p + entry_size t * Z.of_nat k + 4) s = Ok (fi_offset f, s)) ->
  0 <= p -> p + entry_size t * Z.of_nat (length l) < 2 ^ 31 -> (length l < fuel)%nat ->
  scan fuel (entry_size t) read_id read_off id (p + entry_size t * Z.of_nat (length l)) p s
  = Ok (fi_offset <$> find_entry id l, s).
Proof.
  assert (Hsz : 4 < entry_size t) by (by destruct t).
  change (2 ^ 31) with 2147483648.
  induction l as [|f l IH]; intros p fuel Hrd H0 Hlt Hfuel.
  - destruct fuel; [cbn in Hfuel; lia|]. cbn [scan length]. rewrite Z.mul_0_r, Z.add_0_r, Z.ltb_irrefl. done.
  - destruct fuel as [|k]; [lia|]. cbn [length] in *. cbn [scan].
    replace (Z.of_nat (Datatypes.S (length l))) with (Z.of_nat (length l) + 1) in * by lia.
    destruct (Z.ltb_spec p (p + entry_size t * (Z.of_nat (length l) + 1))); [|nia].
    destruct (Hrd 0%nat f eq_refl) as [Hi Ho]. cbn in Hi, Ho. rewrite Z.mul_0_r, Z.add_0_r in Hi, Ho.
    rewrite (bind_ok _ _ s s (fi_id f)) by exact Hi.
    unfold find_entry, has_id. cbn [List.filter]. destruct (Z.eqb_spec id (fi_id f)).
    + rewrite (bind_ok _ _ s s (p + 4)) by (apply int32_small; change (2 ^ 31) with 2147483648; nia).
      by rewrite (bind_ok _ _ s s (fi_offset f)) by exact Ho.
    + rewrite (bind_ok _ _ s s (p + entry_size t)) by (apply int32_small; change (2 ^ 31) with 2147483648; nia).
      replace (p + entry_size t * (Z.of_nat (length l) + 1))
        with (p + entry_size t + entry_size t * Z.of_nat (length l)) by lia.
      apply IH; [|lia|lia|lia]. intros j g Hj.
      replace (p + entry_size t + entry_size t * Z.of_nat j)
        with (p + entry_size t * Z.of_nat (Datatypes.S j)) by lia. by apply Hrd.
Qed.

(** Offsets grow, so the last one tells the width of all. *)
Lemma offsets_bounds off flds f :
  f ∈ offsets off flds -> off <= fi_offset f /\ fi_offset f <= off + Z.of_nat (length (payload flds)).
Proof.
  revert off. induction flds as [|[id bs] flds IH]; intros off; cbn [offsets]; [by rewrite elem_of_nil|].
  rewrite elem_of_cons. unfold payload in *. cbn [map concat snd]. rewrite length_app.
  intros [->|Hf]; [cbn; lia|]. specialize (IH _ Hf). lia.
Qed.
Lemma offsets_last off flds f g :
  f ∈ offsets off flds -> last (offsets off flds) = Some g -> fi_offset f <= fi_offset g.
Proof.
  revert off. induction flds as [|[id bs] flds IH]; intros off; cbn [offsets]; [by rewrite elem_of_nil|].
  rewrite elem_of_cons, last_cons.
  destruct (last (offsets (off + Z.of_nat (length bs)) flds)) as [h|] eqn:E.
  - intros [->|Hf] [= <-]; [|by apply (IH _ Hf)].
    assert (Hh : h ∈ offsets (off + Z.of_nat (length bs)) flds) by (by apply list.last_Some_elem_of in E).
    apply offsets_bounds in Hh as [Hh _]. cbn [fi_offset]. lia.
  - apply last_None in E. rewrite E. intros [->|Hf] [= <-]; [done|]. by apply elem_of_nil in Hf.
Qed.
Lemma offsets_fit flds f :
  f ∈ offsets Hdr.SIZE flds -> data_start flds < 2 ^ 31 -> fits_type (table_type flds) (fi_offset f).
Proof.
  intros Hf Hlt. pose proof (offsets_bounds _ _ _ Hf) as Hb. unfold data_start, Hdr.SIZE in *.
  unfold table_type. change (offsets Hdr.SIZE flds) with (offsets 24 flds).
  destruct (last (offsets 24 flds)) as [g|] eqn:E.
  2:{ apply last_None in E. rewrite E in Hf. by apply elem_of_nil in Hf. }
  pose proof (offsets_last _ _ _ _ Hf E) as Hle. unfold type_of_offset. change (default 0 (fi_offset <$> Some g)) with (fi_offset g).
  destruct (Z.ltb_spec (fi_offset g) 0x100); [cbn [fits_type]; lia|].
  destruct (Z.ltb_spec (fi_offset g) 0x10000); cbn [fits_type]; lia.
Qed.

Lemma offsets_ids off flds : map fi_id (offsets off flds) = map fst flds.
Proof. revert off. induction flds as [|[id bs] flds IH]; intros off; cbn; [done|]. by rewrite IH. Qed.

(** The field that a search for [id] finds. *)
Definition lookup_field (id : Z) (flds : list field) : option (list Z) :=
  snd <$> head (List.filter (fun f => id =? f.1) flds).

Lemma find_offset id off flds :
  match lookup_field id flds, find_entry id (offsets off flds) with
  | Some bs, Some f => exists a b, flds = a ++ (id, bs) :: b
                       /\ fi_offset f = off + Z.of_nat (length (payload a))
  | None, None => True
  | _, _ => False
  end.
Proof.
  revert off. induction flds as [|[id' bs] flds IH]; intros off; [done|].
  unfold lookup_field, find_entry, has_id in *. cbn [offsets List.filter fst fi_id].
  destruct (Z.eqb_spec id id') as [<-|Hne]; cbn.
  - exists [], flds. split; [done|]. unfold payload. cbn. lia.
  - specialize (IH (off + Z.of_nat (length bs))).
    destruct (head (List.filter _ flds)) as [[i b']|], (head (List.filter _ (offsets _ flds))) as [f|]; try done.
    destruct IH as (a & b & -> & Hf). exists ((id', bs) :: a), b. split; [done|].
    rewrite Hf. unfold payload. cbn [map concat snd]. rewrite length_app. lia.
Qed.

(** * The header *)

Lemma parse_int32_any z : parses In.ReadInt32 (le_bytes 4 z) (i32 (z mod 2 ^ 32)).
Proof.
  unfold In.ReadInt32. change (2 ^ 32) with (2 ^ (8 * Z.of_nat 4)). rewrite <- le_val_bytes.
  apply (parses_map _ i32), parse_read, le_bytes_length.
Qed.

Lemma run_parse {A B} (f : inp A) (k : A -> inp B) bs a s :
  parses f bs a -> in_ok s -> holds (is_data s) (is_pos s) bs ->
  is_pos s + Z.of_nat (length bs) <= is_len s ->
  bind f k s = k a (in_at (is_pos s + Z.of_nat (length bs)) s).
Proof. intros Hf Hs Hh Hl. unfold bind. by rewrite (Hf s Hs Hh Hl). Qed.

(** The stream [s] holds an object at [P]. *)
Record object_at (s : InStream) (P typeId : Z) (flds : list field) (raw : option (list Z)) : Prop := {
  oa_ok : 0 <= is_len s < 2 ^ 31;
  oa_pos : 0 <= P;
  oa_fits : P + object_length flds raw <= is_len s;
  oa_holds : holds (is_data s) P (object_bytes typeId flds raw);
  oa_ids : Forall (inS 32) (map fst flds)
}.

Definition raw_offset (flds : list field) (raw : option (list Z)) : Z :=
  match raw with Some _ => data_start flds | None => schema_or_raw flds raw end.
Definition table_begin (P : Z) (flds : list field) (raw : option (list Z)) : Z := P + data_end flds raw.
Definition table_end (P : Z) (flds : list field) (raw : option (list Z)) : Z :=
  table_begin P flds raw + Z.of_nat (length (table flds)).

Lemma table_nil : table [] = [].
Proof. done. Qed.

Lemma footer_length flds raw :
  Z.of_nat (length (footer flds raw))
  = Z.of_nat (length (table flds))
    + match flds, raw with _ :: _, Some _ => 4 | _, _ => 0 end.
Proof.
  destruct flds; [done|]. unfold footer. rewrite length_app. destruct raw; [rewrite le_bytes_length|cbn [length]]; lia.
Qed.

Lemma holds_at d p q bs : p = q -> holds d p bs -> holds d q bs.
Proof. by intros ->. Qed.

(** The parts of the object, by their addresses. *)
Lemma object_cells s P typeId flds raw :
  object_at s P typeId flds raw ->
  holds (is_data s) P (le_bytes 1 DOCUMENTDB_HDR_FULL)
  /\ holds (is_data s) (P + 1) (le_bytes 1 DOCUMENTDB_PROTO_VER)
  /\ holds (is_data s) (P + 2) (le_bytes 2 (object_flags flds raw))
  /\ holds (is_data s) (P + 4) (le_bytes 4 typeId)
  /\ holds (is_data s) (P + 8) (le_bytes 4 (GetDataHashCode (Some (body flds raw))))
  /\ holds (is_data s) (P + 12) (le_bytes 4 (object_length flds raw))
  /\ holds (is_data s) (P + 16) (le_bytes 4 (sc_id (schema_of flds)))
  /\ holds (is_data s) (P + 20) (le_bytes 4 (schema_or_raw flds raw))
  /\ holds (is_data s) (P + 24) (body flds raw)
  /\ holds (is_data s) (P + data_end flds raw) (footer flds raw).
Proof.
  intros [_ _ _ Hh _]. unfold object_bytes, header_bytes in Hh. unfold data_end, Hdr.SIZE.
  rewrite !holds_app, !length_app, !le_bytes_length in Hh.
  destruct Hh as (((H0 & H1) & H2 & H3 & H4 & H5 & H6 & H7) & H8 & H9).
  repeat split; first [done | by eapply holds_at; [|eassumption]; lia].
Qed.

(** One read of the header. *)
Lemma read_step {A B} (f : inp A) (k : A -> inp B) bs a p q s :
  parses f bs a -> 0 <= is_len s < 2 ^ 31 -> holds (is_data s) p bs -> 0 <= p ->
  q = p + Z.of_nat (length bs) -> q <= is_len s ->
  bind f k (in_at p s) = k a (in_at q s).
Proof.
  intros Hf Hs Hh Hp -> Hq. unfold bind. rewrite (Hf (in_at p s)); [done|by split|done|done].
Qed.

(** Behind the header, when the numbers in it are known. *)
Lemma header_tail s P p typeId flds raw :
  object_at s P typeId flds raw -> 0 <= p <= is_len s ->
  header_parts P (object_flags flds raw) (object_length flds raw) (schema_or_raw flds raw) (in_at p s)
  = Ok ((object_length flds raw, raw_offset flds raw, table_begin P flds raw, table_end P flds raw,
         offset_type (object_flags flds raw)), in_at p s).
Proof.
  intros Ho Hp. pose proof Ho as [Hok HP Hfit _ _]. pose proof (object_cells _ _ _ _ _ Ho) as Hcells.
  pose proof (data_end_pos flds raw) as Hde. pose proof (footer_length flds raw) as Hfl.
  pose proof (table_nil) as Htn. unfold Hdr.SIZE in Hde.
  assert (Hol : object_length flds raw = data_end flds raw + Z.of_nat (length (footer flds raw))) by done.
  unfold header_parts. rewrite flags_schema, flags_raw. unfold table_end, table_begin.
  rewrite (bind_ok _ _ _ (in_at p s) (P + data_end flds raw)).
  2:{ replace (if negb _ then _ else _) with (data_end flds raw); [apply int32_small; lia|].
      unfold schema_or_raw, object_length, footer. destruct flds; cbn [negb length]; lia. }
  rewrite (bind_ok _ _ _ (in_at p s) (P + object_length flds raw)) by (apply int32_small; lia).
  destruct flds as [|f flds]; [|destruct raw as [r|]]; cbn [negb andb].
  - rewrite andb_false_r. unfold ret.
    assert (Er : schema_or_raw [] raw = raw_offset [] raw) by (by destruct raw).
    assert (Ee : P + object_length [] raw = P + data_end [] raw + Z.of_nat (length (table []))) by lia.
    by rewrite Er, Ee.
  - rewrite (bind_ok _ _ _ (in_at p s) (P + object_length (f :: flds) (Some r) - 4)) by (apply int32_small; lia).
    assert (Hds : 0 <= data_start (f :: flds) <= data_end (f :: flds) (Some r)).
    { unfold data_start, data_end, body, Hdr.SIZE. rewrite length_app. lia. }
    unfold In.ReadInt32_from. rewrite (bind_ok _ _ _ (in_at p s) (data_start (f :: flds))).
    + unfold ret, raw_offset.
      assert (Ee : P + object_length (f :: flds) (Some r) - 4
        = P + data_end (f :: flds) (Some r) + Z.of_nat (length (table (f :: flds)))) by lia.
      by rewrite Ee.
    + rewrite (bind_ok _ _ _ (in_at p s) (le_val (le_bytes 4 (data_start (f :: flds))))).
      * unfold ret. rewrite le_val_bytes. change (2 ^ (8 * Z.of_nat 4)) with (2 ^ 32).
        rewrite wrapS_mod by (widths; lia). done.
      * apply read_from_spec; cbn [is_pos is_len is_data in_at]; try lia.
        -- split; cbn; lia.
        -- by rewrite le_bytes_length.
        -- destruct Hcells as (_ & _ & _ & _ & _ & _ & _ & _ & _ & H). unfold footer in H.
           apply holds_app in H as [_ H]. eapply holds_at; [|exact H]. lia.
  - unfold ret.
    assert (Ee : P + object_length (f :: flds) None
      = P + data_end (f :: flds) None + Z.of_nat (length (table (f :: flds)))) by lia.
    by rewrite Ee.
Qed.

Lemma header_read s P typeId flds raw :
  object_at s P typeId flds raw ->
  read_header P (in_at (P + 1) s)
  = Ok ((object_length flds raw, raw_offset flds raw, table_begin P flds raw, table_end P flds raw,
         offset_type (object_flags flds raw)), in_at (P + Hdr.SIZE) s).
Proof.
  intros Ho. pose proof Ho as [Hok HP Hfit _ _].
  pose proof (object_cells _ _ _ _ _ Ho) as (_ & H1 & H2 & H3 & H4 & H5 & H6 & H7 & _).
  pose proof (object_length_pos flds raw) as Hol. pose proof (schema_or_raw_range flds raw) as Hsr.
  unfold Hdr.SIZE in *. unfold read_header.
  rewrite (read_step _ _ _ DOCUMENTDB_PROTO_VER _ (P + 2) s (parse_int8 DOCUMENTDB_PROTO_VER ltac:(by vm_compute)) Hok H1)
    by (rewrite ?le_bytes_length; lia).
  rewrite Z.eqb_refl. cbn [negb].
  rewrite (read_step _ _ _ _ _ (P + 4) s (parse_int16 _ (flags_range _ _)) Hok H2) by (rewrite ?le_bytes_length; lia).
  rewrite flags_compact. cbn [negb].
  rewrite (read_step _ _ _ _ _ (P + 8) s (parse_int32_any _) Hok H3) by (rewrite ?le_bytes_length; lia).
  rewrite (read_step _ _ _ _ _ (P + 12) s (parse_int32_any _) Hok H4) by (rewrite ?le_bytes_length; lia).
  rewrite (read_step _ _ _ _ _ (P + 16) s (parse_length (object_length flds raw) ltac:(lia)) Hok H5) by (rewrite ?le_bytes_length; lia).
  rewrite (read_step _ _ _ _ _ (P + 20) s (parse_int32_any _) Hok H6) by (rewrite ?le_bytes_length; lia).
  rewrite (read_step _ _ _ _ _ (P + 24) s (parse_length (schema_or_raw flds raw) ltac:(lia)) Hok H7) by (rewrite ?le_bytes_length; lia).
  apply (header_tail _ _ _ typeId); [done|lia].
Qed.

(** * Fields by name *)

Lemma entry_holds d p t l k f :
  holds d p (entries t l) -> l !! k = Some f -> holds d (p + entry_size t * Z.of_nat k) (entry_bytes t f).
Proof.
  intros Hh Hk. apply take_drop_middle in Hk as E. rewrite <- E in Hh. unfold entries in Hh.
  rewrite map_app, concat_app in Hh. apply holds_app in Hh as [_ Hh]. cbn [map concat] in Hh.
  apply holds_app in Hh as [Hh _]. eapply holds_at; [|exact Hh].
  change (concat (map (entry_bytes t) (take k l))) with (entries t (take k l)).
  rewrite entries_length, length_take. apply lookup_lt_Some in Hk. f_equal. f_equal. lia.
Qed.

Lemma number_from n p z s :
  in_ok s -> is_pos s <= is_len s -> 0 <= p -> p + Z.of_nat n <= is_len s ->
  holds (is_data s) p (le_bytes n z) -> In.read_from n p s = Ok (z mod 2 ^ (8 * Z.of_nat n), s).
Proof.
  intros Hs Hle Hp Hl Hh. rewrite <- le_val_bytes. apply read_from_spec; try done. apply le_bytes_length.
Qed.

Lemma unsigned_again w z : 0 < w -> 0 <= z < 2 ^ w -> wrapU w (wrapS w (z mod 2 ^ w)) = z.
Proof.
  intros Hw Hz. rewrite wrapS_cases by done. unfold wrapU. rewrite Zmod_mod, (Z.mod_small z) by done.
  case_match; [by apply Z.mod_small|]. rewrite <- (Z.mod_add _ 1) by lia. rewrite Z.mod_small; lia.
Qed.

(** One entry of the table, read from the stream. *)
Lemma read_entry t f p s :
  in_ok s -> is_pos s <= is_len s -> 0 <= p -> p + entry_size t <= is_len s ->
  holds (is_data s) p (entry_bytes t f) -> inS 32 (fi_id f) -> fits_type t (fi_offset f) ->
  In.ReadInt32_from p s = Ok (fi_id f, s) /\ R.stream_off t (p + 4) s = Ok (fi_offset f, s).
Proof.
  intros Hs Hle Hp Hl Hh Hid Hoff. unfold entry_bytes in Hh. apply holds_app in Hh as [H1 H2].
  rewrite le_bytes_length in H2. change (Z.of_nat 4) with 4 in H2.
  unfold fits_type in Hoff. change (2 ^ 31) with 2147483648 in Hoff. split.
  - unfold In.ReadInt32_from. rewrite (bind_ok _ _ s s _ (number_from 4 p (fi_id f) s Hs Hle Hp ltac:(destruct t; cbn in *; lia) H1)).
    unfold ret. rewrite (wrapS_mod 32) by done. done.
  - destruct t; cbn [R.stream_off offset_width entry_size] in *.
    + unfold In.ReadInt8_from. unfold bind at 1.
      rewrite (bind_ok _ _ s s _ (number_from 1 (p + 4) _ s Hs Hle ltac:(lia) ltac:(lia) H2)).
      unfold ret. cbn [obind]. do 2 f_equal.
      by apply (unsigned_again 8).
    + unfold In.ReadInt16_from. unfold bind at 1.
      rewrite (bind_ok _ _ s s _ (number_from 2 (p + 4) _ s Hs Hle ltac:(lia) ltac:(lia) H2)).
      unfold ret. cbn [obind]. do 2 f_equal.
      by apply (unsigned_again 16).
    + unfold In.ReadInt32_from.
      rewrite (bind_ok _ _ s s _ (number_from 4 (p + 4) _ s Hs Hle ltac:(lia) ltac:(lia) H2)).
      unfold ret. rewrite (wrapS_mod 32) by (done || (widths; lia)). done.
Qed.

(** A reader of the object at [P] of [s], in schema mode. *)
Record reading (s : InStream) (P typeId : Z) (flds : list field) (raw : option (list Z))
    (rslvr : option name -> outcome Z Z) (r : BinaryReaderImpl) : Prop := {
  rd_object : object_at s P typeId flds raw;
  rd_stream : exists p, r_stream r = in_at p s /\ 0 <= p <= is_len s;
  rd_rslvr : r_idRslvr r = Some rslvr;
  rd_pos : r_pos r = P /\ r_rawOff r = raw_offset flds raw;
  rd_table : r_footerBegin r = table_begin P flds raw /\ r_footerEnd r = table_end P flds raw
             /\ r_schemaType r = offset_type (object_flags flds raw);
  rd_mode : r_rawMode r = false /\ r_elemId r = 0
}.

Lemma r_same_stream r : r_set_stream (r_stream r) r = r.
Proof. by destruct r. Qed.

Lemma field_bytes_at s P typeId flds raw a id bs b :
  object_at s P typeId flds raw -> flds = a ++ (id, bs) :: b ->
  holds (is_data s) (P + (Hdr.SIZE + Z.of_nat (length (payload a)))) bs
  /\ P + (Hdr.SIZE + Z.of_nat (length (payload a))) + Z.of_nat (length bs) <= is_len s.
Proof.
  intros Ho ->. pose proof (object_cells _ _ _ _ _ Ho) as (_ & _ & _ & _ & _ & _ & _ & _ & H & _).
  pose proof (oa_fits _ _ _ _ _ Ho) as Hfit. unfold object_length, data_end in Hfit.
  unfold body, payload in *. rewrite map_app, concat_app in *. cbn [map concat snd] in *.
  rewrite <- !app_assoc in *. apply holds_app in H as [_ H]. apply holds_app in H as [H _].
  rewrite !length_app in Hfit. unfold Hdr.SIZE in *. split; [|lia]. eapply holds_at; [|exact H]. lia.
Qed.

Lemma find_field s P typeId flds raw rslvr id r :
  reading s P typeId flds raw rslvr r ->
  R.FindField id r
  = Ok (match find_entry id (offsets Hdr.SIZE flds) with Some f => fi_offset f + P | None => -1 end, r).
Proof.
  intros [Ho (p & Hst & Hp) Hrs [Hpos _] (Hb & He & Ht) _].
  pose proof Ho as [Hok HP Hfit _ Hids]. pose proof (footer_length flds raw) as Hfl.
  pose proof (data_end_pos flds raw) as Hde. unfold Hdr.SIZE in Hde.
  pose proof (object_cells _ _ _ _ _ Ho) as (_ & _ & _ & _ & _ & _ & _ & _ & _ & Hft).
  unfold object_length in Hfit.
  set (l := offsets Hdr.SIZE flds).
  assert (Hlen : Z.of_nat (length (table flds)) = entry_size (table_type flds) * Z.of_nat (length l)).
  { rewrite table_entries. apply entries_length. }
  assert (Hle : Z.of_nat (length (table flds)) <= Z.of_nat (length (footer flds raw)))
    by (rewrite Hfl; destruct flds, raw; lia).
  assert (Hes : 4 < entry_size (table_type flds)) by (by destruct (table_type flds)).
  unfold R.FindField, of_stream, In.guarded. rewrite Hb, He, Ht, Hst.
  unfold table_end, table_begin.
  rewrite (bind_ok _ _ _ (in_at p s) p) by done.
  assert (Hscan : scan (scan_fuel (P + data_end flds raw) (P + data_end flds raw + Z.of_nat (length (table flds))))
    (entry_size (offset_type (object_flags flds raw))) In.ReadInt32_from
    (R.stream_off (offset_type (object_flags flds raw))) id
    (P + data_end flds raw + Z.of_nat (length (table flds))) (P + data_end flds raw) (in_at (P + data_end flds raw) s)
    = Ok (fi_offset <$> find_entry id l, in_at (P + data_end flds raw) s)).
  { destruct (decide (flds = [])) as [->|Hne].
    { cbn [table offsets map concat length]. unfold scan_fuel. cbn. rewrite Z.add_0_r, Z.ltb_irrefl. done. }
    rewrite flags_type, Hlen by done. apply scan_spec.
    - intros k f Hk. apply lookup_lt_Some in Hk as Hkl.
      assert (Hfin : f ∈ offsets Hdr.SIZE flds) by (by apply list_elem_of_lookup; eauto).
      apply read_entry; cbn [is_pos is_len is_data in_at]; try lia.
      + split; cbn; lia.
      + assert (entry_size (table_type flds) * (Z.of_nat k + 1) <= entry_size (table_type flds) * Z.of_nat (length l))
          by (apply Z.mul_le_mono_nonneg_l; lia). lia.
      + apply entry_holds with l; [|done]. unfold footer in Hft. destruct flds; [done|].
        by apply holds_app in Hft as [Hft _].
      + rewrite Forall_forall in Hids. apply Hids. rewrite <- (offsets_ids Hdr.SIZE).
        by apply (list_elem_of_fmap_2 fi_id).
      + apply offsets_fit; [done|]. unfold data_start, data_end, body in *. rewrite length_app in *. unfold Hdr.SIZE in *. lia.
    - lia.
    - lia.
    - unfold scan_fuel. nia. }
  rewrite (bind_ok _ _ _ (in_at (P + data_end flds raw) s)
    (match find_entry id l with Some f => fi_offset f + P | None => -1 end)).
  - rewrite (bind_ok _ _ _ (in_at p s) tt)
      by exact (in_position_spec p (in_at (P + data_end flds raw) s) (proj2 Hp)).
    unfold ret. cbn [obind]. rewrite <- Hst, r_same_stream. done.
  - rewrite (bind_ok _ _ _ (in_at (P + data_end flds raw) s) tt)
      by exact (in_position_spec (P + data_end flds raw) (in_at p s) ltac:(cbn; lia)).
    rewrite (bind_ok _ _ _ _ _ Hscan). pose proof (find_offset id Hdr.SIZE flds) as Hfo. fold l in Hfo.
    destruct (lookup_field id flds) as [bs|], (find_entry id l) as [f|]; try done.
    destruct Hfo as (a & b & E & Hoff). change (fi_offset <$> Some f) with (Some (fi_offset f)).
    cbv iota beta. rewrite Hpos, Hoff. apply int32_small.
    destruct (field_bytes_at _ _ _ _ _ _ _ _ _ Ho E). unfold Hdr.SIZE in *. lia.
Qed.

(** ** Operations of a reader in schema mode *)

Section reads.
Context (s : InStream) (P typeId : Z) (flds : list field) (raw : option (list Z)).
Context (rslvr : option name -> outcome Z Z).

(** [f] returns [a], whatever was read before. *)
Definition reads {A} (f : reader A) (a : A) : Prop :=
  forall r, reading s P typeId flds raw rslvr r ->
  exists r', f r = Ok (a, r') /\ reading s P typeId flds raw rslvr r'.

Lemma reads_ret {A} (a : A) : reads (ret a) a.
Proof. intros r Hr. by exists r. Qed.
Lemma reads_bind {A B} (f : reader A) (k : A -> reader B) a b :
  reads f a -> reads (k a) b -> reads (bind f k) b.
Proof.
  intros Hf Hk r Hr. destruct (Hf r Hr) as (r1 & E1 & Hr1). destruct (Hk r1 Hr1) as (r2 & E2 & Hr2).
  exists r2. split; [|done]. by rewrite (bind_ok _ _ r r1 a).
Qed.

Lemma reads_check_raw : reads (R.CheckRawMode false) tt.
Proof.
  intros r Hr. exists r. split; [|done]. unfold R.CheckRawMode.
  by rewrite (proj1 (rd_mode _ _ _ _ _ _ _ Hr)).
Qed.
Lemma reads_check_single : reads (R.CheckSingleMode true) tt.
Proof.
  intros r Hr. exists r. split; [|done]. unfold R.CheckSingleMode.
  by rewrite (proj2 (rd_mode _ _ _ _ _ _ _ Hr)).
Qed.

Lemma reads_stream {A} (f : inp A) p bs a :
  (exists r, reading s P typeId flds raw rslvr r) ->
  parses f bs a -> 0 <= p -> p + Z.of_nat (length bs) <= is_len s -> holds (is_data s) p bs ->
  reads (of_stream (In.set_Position p ;;; f)) a.
Proof.
  intros _ Hf Hp Hl Hh r Hr. pose proof (rd_stream _ _ _ _ _ _ _ Hr) as (q & Hst & Hq).
  pose proof (oa_ok _ _ _ _ _ (rd_object _ _ _ _ _ _ _ Hr)) as Hok.
  unfold of_stream. rewrite Hst.
  rewrite (bind_ok _ _ _ (in_at p s) tt) by exact (in_position_spec p (in_at q s) ltac:(cbn; lia)).
  rewrite (Hf (in_at p s)); [|split; cbn; lia|done|done]. cbn [obind]. eexists. split; [done|].
  destruct Hr as [Ho _ Hrs Hps Ht Hm]. constructor; cbn [r_stream r_set_stream r_idRslvr r_pos r_rawOff
    r_footerBegin r_footerEnd r_schemaType r_rawMode r_elemId]; try done.
  eexists. split; [done|]. cbn. lia.
Qed.

(** Where the field is, if it is there. *)
Definition field_place (id : Z) : option Z :=
  match find_entry id (offsets Hdr.SIZE flds) with Some f => Some (fi_offset f + P) | None => None end.

Lemma reads_field_pos n id : rslvr (Some n) = Ok id -> reads (R.field_pos (Some n)) (field_place id).
Proof.
  intros Hid r Hr. exists r. split; [|done]. unfold R.field_pos. rewrite (rd_rslvr _ _ _ _ _ _ _ Hr), Hid.
  cbn [obind]. rewrite (find_field _ _ _ _ _ _ id _ Hr). cbn [obind]. do 2 f_equal.
  unfold field_place. pose proof (find_offset id Hdr.SIZE flds) as Hf.
  pose proof (oa_pos _ _ _ _ _ (rd_object _ _ _ _ _ _ _ Hr)) as HP.
  destruct (lookup_field id flds), (find_entry id _) as [f|]; try done.
  destruct Hf as (a & b & _ & Hoff). unfold Hdr.SIZE in Hoff. by destruct (Z.leb_spec (fi_offset f + P) 0); [lia|].
Qed.

Lemma field_place_spec id :
  (exists r, reading s P typeId flds raw rslvr r) ->
  match lookup_field id flds, field_place id with
  | Some bs, Some p => 0 <= p /\ p + Z.of_nat (length bs) <= is_len s /\ holds (is_data s) p bs
  | None, None => True
  | _, _ => False
  end.
Proof.
  intros [r Hr]. unfold field_place. pose proof (find_offset id Hdr.SIZE flds) as Hf.
  pose proof (rd_object _ _ _ _ _ _ _ Hr) as Ho. pose proof (oa_pos _ _ _ _ _ Ho) as HP.
  destruct (lookup_field id flds) as [bs|], (find_entry id _) as [f|]; try done.
  destruct Hf as (a & b & E & Hoff). destruct (field_bytes_at _ _ _ _ _ _ _ _ _ Ho E) as [Hh Hl].
  rewrite Hoff. split; [unfold Hdr.SIZE; lia|]. split; [lia|]. eapply holds_at; [|exact Hh]. lia.
Qed.

Lemma at_field_found {A} n id bs (dflt : A) (f : inp A) a :
  rslvr (Some n) = Ok id -> lookup_field id flds = Some bs -> parses f bs a ->
  reads (R.at_field (Some n) dflt f) a.
Proof.
  intros Hid Hl Hf r Hr. pose proof (field_place_spec id (ex_intro _ r Hr)) as Hp. rewrite Hl in Hp.
  destruct (field_place id) as [p|] eqn:E; [|done]. destruct Hp as (Hp & Hfit & Hh).
  apply (reads_bind _ _ tt); [apply reads_check_raw| |done].
  apply (reads_bind _ _ tt); [apply reads_check_single|].
  apply (reads_bind _ _ (Some p)); [rewrite <- E; by apply reads_field_pos|].
  apply (reads_stream f p bs); eauto.
Qed.

Lemma at_field_missing {A} n id (dflt : A) (f : inp A) :
  rslvr (Some n) = Ok id -> lookup_field id flds = None -> reads (R.at_field (Some n) dflt f) dflt.
Proof.
  intros Hid Hl r Hr. pose proof (field_place_spec id (ex_intro _ r Hr)) as Hp. rewrite Hl in Hp.
  destruct (field_place id) as [p|] eqn:E; [done|].
  apply (reads_bind _ _ tt); [apply reads_check_raw| |done].
  apply (reads_bind _ _ tt); [apply reads_check_single|].
  apply (reads_bind _ _ None); [rewrite <- E; by apply reads_field_pos|]. apply reads_ret.
Qed.

Lemma reads_if_found {A} (o : option (list Z)) (f : reader A) dflt v :
  (forall bs, o = Some bs -> reads f v) -> (o = None -> reads f dflt) ->
  reads f (match o with Some _ => v | None => dflt end).
Proof. destruct o; eauto. Qed.

End reads.

(** * Raw data *)

(** A reader in raw mode whose stream stands at [p]. *)
Definition raw_reading (s : InStream) (p : Z) (r : BinaryReaderImpl) : Prop :=
  in_ok s /\ 0 <= p <= is_len s /\ r_stream r = in_at p s /\ r_rawMode r = true /\ r_elemId r = 0.

Definition raw_reads {A} (f : reader A) (bs : list Z) (a : A) : Prop :=
  forall s p r, raw_reading s p r -> holds (is_data s) p bs -> p + Z.of_nat (length bs) <= is_len s ->
  exists r', f r = Ok (a, r') /\ raw_reading s (p + Z.of_nat (length bs)) r'.

Lemma raw_reads_ret {A} (a : A) : raw_reads (ret a) [] a.
Proof. intros s p r Hr _ _. exists r. by rewrite Z.add_0_r. Qed.
Lemma raw_reads_bind {A B} (f : reader A) (k : A -> reader B) a b bs1 bs2 :
  raw_reads f bs1 a -> raw_reads (k a) bs2 b -> raw_reads (bind f k) (bs1 ++ bs2) b.
Proof.
  intros Hf Hk s p r Hr Hh Hl. rewrite length_app, Nat2Z.inj_add in *. apply holds_app in Hh as [H1 H2].
  destruct (Hf s p r Hr H1 ltac:(lia)) as (r1 & E1 & Hr1).
  destruct (Hk s _ r1 Hr1 H2 ltac:(lia)) as (r2 & E2 & Hr2).
  exists r2. rewrite Z.add_assoc. split; [|done]. by rewrite (bind_ok _ _ r r1 a).
Qed.

Lemma raw_reads_stream {A} (f : inp A) bs a : parses f bs a -> raw_reads (R.raw f) bs a.
Proof.
  intros Hf s p r (Hs & Hp & Hst & Hm & Hid) Hh Hl.
  unfold R.raw, R.CheckRawMode, R.CheckSingleMode. unfold bind at 1. rewrite Hm. cbn [negb andb obind].
  unfold bind at 1. rewrite Hid. cbn [negb andb obind Z.eqb].
  unfold of_stream. rewrite Hst, (Hf (in_at p s)); [|split; cbn; destruct Hs; lia|done|done].
  cbn [obind]. eexists. split; [done|]. destruct Hs as [Hs1 Hs2]. by repeat split; cbn; try lia.
Qed.

Lemma set_raw_reader s P typeId flds raw rslvr r :
  reading s P typeId flds (Some raw) rslvr r -> in_ok s ->
  exists r', R.SetRawMode r = Ok (tt, r') /\ raw_reading s (P + data_start flds) r'
    /\ holds (is_data s) (P + data_start flds) raw
    /\ P + data_start flds + Z.of_nat (length raw) <= is_len s.
Proof.
  intros Hr Hs. pose proof Hr as [Ho (p & Hst & Hp) _ [Hpos Hoff] _ [Hm Hid]].
  pose proof Ho as [Hok HP Hfit _ _].
  pose proof (object_cells _ _ _ _ _ Ho) as (_ & _ & _ & _ & _ & _ & _ & _ & H & _).
  unfold body in H. cbn [default from_option id] in H. apply holds_app in H as [_ H].
  assert (Hd : P + data_start flds + Z.of_nat (length raw) <= is_len s).
  { unfold object_length, data_end, body in Hfit. cbn [default from_option id] in Hfit.
    rewrite length_app in Hfit. unfold data_start. lia. }
  pose proof (data_start_pos flds) as Hds. unfold Hdr.SIZE in Hds.
  unfold R.SetRawMode, R.CheckRawMode, R.CheckSingleMode. unfold bind at 1. rewrite Hm. cbn [negb andb obind].
  unfold bind at 1. rewrite Hid. cbn [negb andb obind Z.eqb].
  rewrite Hpos, Hoff. cbn [raw_offset]. rewrite checked_ok by (widths; lia). cbn [obind]. rewrite Hst.
  unfold In.set_Position. cbn [is_len in_at]. destruct (Z.leb_spec (P + data_start flds) (is_len s)); [|lia].
  cbn [obind]. eexists. split; [done|]. split; [|split; [|done]].
  - by repeat split; cbn; try (destruct Hs; lia).
  - eapply holds_at; [|exact H]. unfold data_start, Hdr.SIZE. lia.
Qed.

(** * Objects *)

(** [ReadFields] makes [v] of an object with these fields. *)
Definition reads_object {T} `{BinaryType T} `{ObjectRead T} (res v : T) (flds : list field)
    (raw : option (list Z)) : Prop :=
  forall s P r, in_ok s -> reading s P (GetTypeId T) flds raw (templated_field_id (GetFieldId T)) r ->
  exists r' p, ReadFields res r = Ok (v, r') /\ r_stream r' = in_at p s.

Lemma object_at_stream s typeId flds raw :
  in_ok s -> holds (is_data s) (is_pos s) (object_bytes typeId flds raw) ->
  is_pos s + Z.of_nat (length (object_bytes typeId flds raw)) <= is_len s ->
  Forall (inS 32) (map fst flds) ->
  object_at s (is_pos s) typeId flds raw.
Proof. intros [H0 H1] Hh Hl Hid. rewrite object_bytes_length in Hl. by constructor. Qed.

Lemma parse_object {T} `{BinaryType T} `{ObjectRead T} d (res v : T) flds raw :
  Forall (inS 32) (map fst flds) -> reads_object res v flds raw ->
  parses (ReadTopObject0 (Datatypes.S d) res) (object_bytes (GetTypeId T) flds raw) v.
Proof.
  intros Hids Hrd s Hs Hh Hl. pose proof (object_at_stream _ _ _ _ Hs Hh Hl Hids) as Ho.
  rewrite object_bytes_length in *. pose proof Hs as [Hp Hlen].
  pose proof (object_cells _ _ _ _ _ Ho) as (H0' & _).
  pose proof (object_length_pos flds raw) as Hol. unfold Hdr.SIZE in Hol.
  cbn [ReadTopObject0]. rewrite (bind_ok _ _ s s (is_pos s)) by done.
  rewrite (run_parse _ _ _ DOCUMENTDB_HDR_FULL s (parse_int8 DOCUMENTDB_HDR_FULL ltac:(by vm_compute)) Hs H0')
    by (rewrite le_bytes_length; lia).
  change (DOCUMENTDB_HDR_FULL =? DOCUMENTDB_HDR_NULL) with false.
  change (DOCUMENTDB_HDR_FULL =? DOCUMENTDB_HDR_HND) with false.
  change (DOCUMENTDB_HDR_FULL =? DOCUMENTDB_TYPE_BINARY) with false. rewrite Z.eqb_refl. cbv iota.
  rewrite le_bytes_length. change (Z.of_nat 1) with 1.
  rewrite (bind_ok _ _ _ _ _ (header_read _ _ _ _ _ Ho)). unfold read_fields.
  destruct (Hrd s (is_pos s) (object_reader (in_at (is_pos s + Hdr.SIZE) s) (templated_field_id (GetFieldId T))
    (is_pos s) (raw_offset flds raw) (table_begin (is_pos s) flds raw) (table_end (is_pos s) flds raw)
    (offset_type (object_flags flds raw))) Hs) as (r' & p & E & Hst).
  - constructor; try done. cbn. eexists. split; [done|]. unfold Hdr.SIZE. lia.
  - rewrite E. cbn [obind]. rewrite checked_ok by (widths; lia). cbn [obind]. rewrite Hst.
    rewrite in_position_spec by (cbn; lia). done.
Qed.
