(* ===== verification/BinSkip.v ===== *)
(** [BinaryReaderImpl::Skip] reads over a whole value of any kind that it knows: scalars,
    strings, arrays, collections and maps of such values, and objects. *)
From S2P Require Import Prelude Memory Interop InteropProps BinUtils BinSchema BinObject BinWriter BinReader BinValues BinLayout BinTop.
From S2P Require Import BinFields.

(** Sequences of values: the elements of arrays of strings, GUIDs, dates and the like
    and of arrays of objects, and collections and maps, which have a kind. *)
#[local] Set Warnings "-register-all".
Inductive value : Type :=
| VNull
| VScalar (k : kind) (v : ty k)
| VString (s : list Z)
| VPrims (k : akind) (l : list (aty k))
| VSeq (hdr : Z) (l : list value)
| VColl (typ : Z) (l : list value)
| VMap (typ : Z) (l : list (value * value))
| VObject (typeId : Z) (flds : list field) (raw : option (list Z)).

Definition seq_bytes (hdr : Z) (typ : option Z) (bss : list (list Z)) : list Z :=
  tagged hdr (le_bytes 4 (Z.of_nat (length bss))
              ++ match typ with Some t => le_bytes 1 t | None => [] end ++ concat bss).

Fixpoint value_bytes (v : value) : list Z :=
  match v with
  | VNull => le_bytes 1 DOCUMENTDB_HDR_NULL
  | VScalar k v => tagged (code k) (enc v)
  | VString s => string_bytes s
  | VPrims k l => array_bytes (acode k) l
  | VSeq hdr l => seq_bytes hdr None (map value_bytes l)
  | VColl typ l => seq_bytes DOCUMENTDB_TYPE_COLLECTION (Some typ) (map value_bytes l)
  | VMap typ l =>
      seq_bytes DOCUMENTDB_TYPE_MAP (Some typ)
        (map (fun p => value_bytes p.1 ++ value_bytes p.2) l)
  | VObject typeId flds raw => object_bytes typeId flds raw
  end.

(** How deep the recursion of [Skip] goes. *)
Fixpoint value_depth (v : value) : nat :=
  match v with
  | VSeq _ l | VColl _ l => S (fold_right Nat.max 0%nat (map value_depth l))
  | VMap _ l => S (fold_right Nat.max 0%nat (map (fun p => Nat.max (value_depth p.1) (value_depth p.2)) l))
  | _ => 1%nat
  end.

(** The types are those of arrays, and no sequence is longer than an [int32_t] counts. *)
Fixpoint shape_ok (v : value) : Prop :=
  match v with
  | VString s => Z.of_nat (length s) < 2 ^ 31
  | VPrims k l => array_fits (awidth k) l
  | VSeq hdr l =>
      skips_elements hdr = true /\ Z.of_nat (length l) < 2 ^ 31
      /\ fold_right and True (map shape_ok l)
  | VColl typ l => Z.of_nat (length l) < 2 ^ 31 /\ fold_right and True (map shape_ok l)
  | VMap typ l =>
      Z.of_nat (length l) < 2 ^ 31
      /\ fold_right and True (map (fun p => shape_ok p.1 /\ shape_ok p.2) l)
  | VObject _ flds _ => Forall (inS 32) (map fst flds)
  | _ => True
  end.

(** * Skipping *)

Lemma parse_ignore bs n :
  n = Z.of_nat (length bs) -> parses (In.Ignore n) bs tt.
Proof.
  intros -> s [H0 H1] Hh Hl. unfold In.Ignore, In.Shift. rewrite checked_ok by (widths; lia). done.
Qed.

Lemma skip_tagged d hdr bs :
  is_code hdr -> parses (skip_body (Skip d) hdr) bs tt -> parses (Skip (S d)) (tagged hdr bs) tt.
Proof. intros Hh H. apply (parses_bind _ _ hdr); [by apply parse_int8|done]. Qed.

(** The bytes of a scalar are as many as its header says. *)
Lemma skip_scalar d k (v : ty k) : parses (Skip (S d)) (tagged (code k) (enc v)) tt.
Proof.
  apply skip_tagged; [apply code_range|].
  replace (skip_body (Skip d) (code k)) with (In.Ignore (Z.of_nat (length (enc v)))) by (by destruct k).
  by apply parse_ignore.
Qed.

Lemma parse_skip_array (w : nat) n bs :
  length bs = (n * w)%nat -> Z.of_nat n * Z.of_nat w < 2 ^ 31 -> Z.of_nat n < 2 ^ 31 ->
  parses (skip_array (Z.of_nat w)) (le_bytes 4 (Z.of_nat n) ++ bs) tt.
Proof.
  intros Hl Hf Hn. apply (parses_bind _ _ (Z.of_nat n)); [apply parse_length; lia|].
  destruct (Z.ltb_spec 0 (Z.of_nat n)).
  - apply (parses_bind _ _ (Z.of_nat n * Z.of_nat w) _ []).
    + apply parse_int32_check. change (2 ^ 31) with 2147483648 in *. lia.
    + apply parse_ignore. lia.
  - destruct bs; [apply (parses_ret tt)|]. cbn in Hl. lia.
Qed.

Lemma skip_string d s : Z.of_nat (length s) < 2 ^ 31 -> parses (Skip (S d)) (string_bytes s) tt.
Proof.
  intros Hs. apply skip_tagged; [by vm_compute|].
  apply (parse_skip_array 1); [|lia|done].
  rewrite (concat_length 1) by apply le_bytes_length. lia.
Qed.


Lemma skip_prims d k (l : list (aty k)) :
  array_fits (awidth k) l -> parses (Skip (S d)) (array_bytes (acode k) l) tt.
Proof.
  intros Hf. apply skip_tagged; [apply acode_range|]. unfold array_fits in Hf.
  pose proof (awidth_pos k).
  replace (skip_body (Skip d) (acode k))
    with (skip_array (Z.of_nat (awidth k))) by (by destruct k).
  apply parse_skip_array; [apply concat_length, aelem_length|done|].
  change (2 ^ 31) with 2147483648 in *. nia.
Qed.

Lemma parse_for_each (f : inp unit) (bss : list (list Z)) z :
  (forall bs, bs ∈ bss -> parses f bs tt) ->
  parses (for_each (fun _ => f) (seqZ z (Z.of_nat (length bss)))) (concat bss) tt.
Proof.
  revert z. induction bss as [|bs bss IH]; intros z H; [apply (parses_ret tt)|].
  cbn [length concat]. rewrite seqZ_cons by lia. cbn [for_each].
  apply (parses_bind _ _ tt); [apply H; left|].
  replace (Z.pred (Z.of_nat (S (length bss)))) with (Z.of_nat (length bss)) by lia.
  apply IH. intros b Hb. apply H. by right.
Qed.

Lemma skip_seq d hdr (bss : list (list Z)) :
  skips_elements hdr = true -> Z.of_nat (length bss) < 2 ^ 31 ->
  (forall bs, bs ∈ bss -> parses (Skip d) bs tt) ->
  parses (Skip (S d)) (seq_bytes hdr None bss) tt.
Proof.
  intros Hh Hl H.
  assert (E : is_code hdr /\ skip_body (Skip d) hdr
    = let! cnt := In.ReadInt32 in for_each (fun _ => Skip d) (seqZ 0 cnt)).
  { unfold skips_elements in Hh. apply bool_decide_eq_true in Hh.
    repeat (apply elem_of_cons in Hh as [->|Hh]; [by split|]). by apply elem_of_nil in Hh. }
  destruct E as [Hc E]. apply skip_tagged; [done|]. rewrite E.
  apply (parses_bind _ _ (Z.of_nat (length bss))); [apply parse_length; lia|]. cbn [app].
  by apply parse_for_each.
Qed.

(** Collections and maps. *)
Lemma skip_kinded d (f : inp unit) hdr typ (bss : list (list Z)) :
  is_code hdr ->
  skip_body (Skip d) hdr
    = (let! cnt := In.ReadInt32 in In.Ignore 1 ;;; for_each (fun _ => f) (seqZ 0 cnt)) ->
  Z.of_nat (length bss) < 2 ^ 31 ->
  (forall bs, bs ∈ bss -> parses f bs tt) ->
  parses (Skip (S d)) (seq_bytes hdr (Some typ) bss) tt.
Proof.
  intros Hc E Hl H. apply skip_tagged; [done|]. rewrite E.
  apply (parses_bind _ _ (Z.of_nat (length bss))); [apply parse_length; lia|].
  apply (parses_bind _ _ tt); [by apply parse_ignore|]. by apply parse_for_each.
Qed.

Lemma fold_max_le {A} (f : A -> nat) l a n :
  a ∈ l -> (fold_right Nat.max 0%nat (map f l) <= n)%nat -> (f a <= n)%nat.
Proof.
  induction l as [|b l IH]; [by rewrite elem_of_nil|]. rewrite elem_of_cons. cbn.
  intros [->|Ha] Hn; [lia|]. apply IH; [done|lia].
Qed.
Lemma fold_and_in {A} (P : A -> Prop) l a : a ∈ l -> fold_right and True (map P l) -> P a.
Proof.
  induction l as [|b l IH]; [by rewrite elem_of_nil|]. rewrite elem_of_cons. cbn.
  intros [->|Ha] [Hb Hl]; [done|]. by apply IH.
Qed.
Lemma in_map_elem {A B} (f : A -> B) l b : b ∈ map f l -> exists a, b = f a /\ a ∈ l.
Proof. apply list_elem_of_fmap_1. Qed.

(** The length in its header leads behind an object. *)
Lemma skip_object d typeId flds raw :
  Forall (inS 32) (map fst flds) -> parses (Skip (S d)) (object_bytes typeId flds raw) tt.
Proof.
  intros Hids s Hs Hh Hl. pose proof (object_at_stream _ _ _ _ Hs Hh Hl Hids) as Ho.
  rewrite object_bytes_length in *. pose proof Hs as [Hp Hlen]. change (2 ^ 31) with 2147483648 in Hlen.
  pose proof (object_cells _ _ _ _ _ Ho) as (H0 & _ & _ & _ & _ & H12 & _).
  pose proof (object_length_pos flds raw) as Hol. unfold Hdr.SIZE in Hol. cbn [Skip].
  rewrite (run_parse _ _ _ DOCUMENTDB_HDR_FULL s (parse_int8 DOCUMENTDB_HDR_FULL ltac:(by vm_compute)) Hs H0)
    by (rewrite le_bytes_length; lia).
  rewrite le_bytes_length. change (Z.of_nat 1) with 1. set (s1 := in_at (is_pos s + 1) s).
  change (skip_body (Skip d) DOCUMENTDB_HDR_FULL s1) with
    ((let! pos := In.Position in let! objectBegin := int32 (pos - 1) in
      let! p := int32 (objectBegin + DOCUMENTDB_OFFSET_LEN) in let! objectLen := In.ReadInt32_from p in
      let! q := int32 (objectBegin + objectLen) in In.set_Position q) s1).
  rewrite (bind_ok _ _ s1 s1 (is_pos s + 1)) by done.
  rewrite (bind_ok _ _ s1 s1 (is_pos s)) by (replace (is_pos s + 1 - 1) with (is_pos s) by lia; apply int32_small; lia).
  unfold DOCUMENTDB_OFFSET_LEN.
  rewrite (bind_ok _ _ s1 s1 (is_pos s + 12)) by (apply int32_small; lia).
  rewrite (bind_ok _ _ s1 s1 (object_length flds raw)).
  - rewrite (bind_ok _ _ s1 s1 (is_pos s + object_length flds raw)) by (apply int32_small; lia).
    rewrite in_position_spec by (cbn; lia). done.
  - unfold In.ReadInt32_from.
    rewrite (bind_ok _ _ s1 s1 _ (number_from 4 (is_pos s + 12) (object_length flds raw) s1
      ltac:(split; cbn; lia) ltac:(cbn; lia) ltac:(lia) ltac:(cbn; lia) H12)).
    unfold ret. change (2 ^ (8 * Z.of_nat 4)) with (2 ^ 32). rewrite wrapS_mod by (widths; lia). done.
Qed.

Lemma skip_values d : forall v,
  shape_ok v -> (value_depth v <= d)%nat -> parses (Skip d) (value_bytes v) tt.
Proof.
  induction d as [|d IH]; intros v Hv Hd; [destruct v; cbn in Hd; lia|].
  destruct v as [|k v|s|k l|hdr l|typ l|typ l|typeId flds raw]; cbn [shape_ok value_depth value_bytes] in *.
  - apply (skip_tagged d DOCUMENTDB_HDR_NULL []); [by vm_compute|]. apply (parses_ret tt).
  - apply skip_scalar.
  - by apply skip_string.
  - by apply skip_prims.
  - destruct Hv as (Hh & Hl & Hv). apply skip_seq; [done|by rewrite length_map|].
    intros bs (v & -> & Hin)%in_map_elem. apply IH; [by apply (fold_and_in _ l)|].
    apply (fold_max_le value_depth l); [done|lia].
  - destruct Hv as (Hl & Hv). apply (skip_kinded d (Skip d)); [by vm_compute|done|by rewrite length_map|].
    intros bs (v & -> & Hin)%in_map_elem. apply IH; [by apply (fold_and_in _ l)|].
    apply (fold_max_le value_depth l); [done|lia].
  - destruct Hv as (Hl & Hv).
    apply (skip_kinded d (Skip d ;;; Skip d)); [by vm_compute|done|by rewrite length_map|].
    intros bs ([k v] & -> & Hin)%in_map_elem.
    pose proof (fold_and_in _ l _ Hin Hv) as [Hk Hv'].
    pose proof (fold_max_le (fun p => Nat.max (value_depth p.1) (value_depth p.2)) l (k, v) d Hin
      ltac:(lia)) as Hm. cbn in Hk, Hv', Hm.
    apply (parses_bind _ _ tt); apply IH; first [done|cbn; lia].
  - by apply skip_object.
Qed.
