(* ===== verification/BinDoc.v ===== *)
(** Objects with any fields: a type of documents, written with the operations on fields
    and on raw data, and read by the names of the fields, in any order. *)
From S2P Require Import Prelude Memory Chrono Interop InteropProps BinUtils BinSchema BinObject BinWriter BinReader BinValues BinLayout.
From S2P Require Import BinTop BinFields.

(** * Values of fields *)

Inductive shape : Type := SPrim (k : kind) | SArray (a : akind) | SString.

Definition sty (sh : shape) : Type :=
  match sh with SPrim k => ty k | SArray a => list (aty a) | SString => list Z end.

Record fvalue : Type := MkValue { fv_shape : shape; fv_val : sty fv_shape }.

Definition zero (k : kind) : ty k :=
  match k with
  | KByte | KShort | KChar | KInt | KLong | KFloat | KDouble => 0
  | KBool => false
  | KGuid => MkGuid 0 0
  | KDate => MkDate 0
  | KTimestamp => MkTimestamp 0 0
  | KTime => MkTime 0
  | KEnum => MkEnum 0 0
  end.
Definition zero_of (sh : shape) : sty sh :=
  match sh with SPrim k => zero k | SArray a => [] | SString => [] end.
Definition zero_value (sh : shape) : fvalue := MkValue sh (zero_of sh).

(** ** Writing *)

Definition write_prim (k : kind) (f : option name) : ty k -> writer unit :=
  match k with
  | KByte => W.WriteInt8_f f
  | KBool => W.WriteBool_f f
  | KShort => W.WriteInt16_f f
  | KChar => W.WriteUInt16_f f
  | KInt => W.WriteInt32_f f
  | KLong => W.WriteInt64_f f
  | KFloat => W.WriteFloat_f f
  | KDouble => W.WriteDouble_f f
  | KGuid => W.WriteGuid_f f
  | KDate => W.WriteDate_f f
  | KTimestamp => W.WriteTimestamp_f f
  | KTime => W.WriteTime_f f
  | KEnum => W.WriteBinaryEnum_f f
  end.
Definition write_array (a : akind) (f : option name) : option (list (aty a)) -> Z -> writer unit :=
  match a with
  | ABytes => W.WriteInt8Array_f f
  | ABools => W.WriteBoolArray_f f
  | AShorts => W.WriteInt16Array_f f
  | AChars => W.WriteUInt16Array_f f
  | AInts => W.WriteInt32Array_f f
  | ALongs => W.WriteInt64Array_f f
  | AFloats => W.WriteFloatArray_f f
  | ADoubles => W.WriteDoubleArray_f f
  end.
Definition write_shape (sh : shape) (f : option name) : sty sh -> writer unit :=
  match sh with
  | SPrim k => write_prim k f
  | SArray a => fun l => write_array a f (Some l) (Z.of_nat (length l))
  | SString => W.WriteString_std_f f
  end.

Definition write_prim_raw (k : kind) : ty k -> writer unit :=
  match k with
  | KByte => W.WriteInt8
  | KBool => W.WriteBool
  | KShort => W.WriteInt16
  | KChar => W.WriteUInt16
  | KInt => W.WriteInt32
  | KLong => W.WriteInt64
  | KFloat => W.WriteFloat
  | KDouble => W.WriteDouble
  | KGuid => W.WriteGuid
  | KDate => W.WriteDate
  | KTimestamp => W.WriteTimestamp
  | KTime => W.WriteTime
  | KEnum => W.WriteBinaryEnum
  end.
Definition write_array_raw (a : akind) : option (list (aty a)) -> Z -> writer unit :=
  match a with
  | ABytes => W.WriteInt8Array
  | ABools => W.WriteBoolArray
  | AShorts => W.WriteInt16Array
  | AChars => W.WriteUInt16Array
  | AInts => W.WriteInt32Array
  | ALongs => W.WriteInt64Array
  | AFloats => W.WriteFloatArray
  | ADoubles => W.WriteDoubleArray
  end.
Definition write_raw (sh : shape) : sty sh -> writer unit :=
  match sh with
  | SPrim k => write_prim_raw k
  | SArray a => fun l => write_array_raw a (Some l) (Z.of_nat (length l))
  | SString => W.WriteString_std
  end.

(** ** Reading

    Arrays and strings are read into buffers with room for [cap] elements. *)

Definition read_prim (k : kind) (f : option name) : reader (ty k) :=
  match k with
  | KByte => R.ReadInt8_f f
  | KBool => R.ReadBool_f f
  | KShort => R.ReadInt16_f f
  | KChar => R.ReadUInt16_f f
  | KInt => R.ReadInt32_f f
  | KLong => R.ReadInt64_f f
  | KFloat => R.ReadFloat_f f
  | KDouble => R.ReadDouble_f f
  | KGuid => R.ReadGuid_f f
  | KDate => R.ReadDate_f f
  | KTimestamp => R.ReadTimestamp_f f
  | KTime => R.ReadTime_f f
  | KEnum => R.ReadBinaryEnum_f f
  end.
Definition read_array (a : akind) (f : option name) : bool -> Z -> reader (Z * option (list (aty a))) :=
  match a with
  | ABytes => R.ReadInt8Array_f f
  | ABools => R.ReadBoolArray_f f
  | AShorts => R.ReadInt16Array_f f
  | AChars => R.ReadUInt16Array_f f
  | AInts => R.ReadInt32Array_f f
  | ALongs => R.ReadInt64Array_f f
  | AFloats => R.ReadFloatArray_f f
  | ADoubles => R.ReadDoubleArray_f f
  end.

Definition buffer {A} (r : Z * option (list A)) : list A := take (Z.to_nat r.1) (default [] r.2).

Definition read_shape (cap : Z) (sh : shape) (f : option name) : reader (sty sh) :=
  match sh with
  | SPrim k => read_prim k f
  | SArray a => let! r := read_array a f true cap in ret (buffer r)
  | SString => let! r := R.ReadString_f f true cap in ret (buffer r)
  end.

Definition read_prim_raw (k : kind) : reader (ty k) :=
  match k with
  | KByte => R.ReadInt8
  | KBool => R.ReadBool
  | KShort => R.ReadInt16
  | KChar => R.ReadUInt16
  | KInt => R.ReadInt32
  | KLong => R.ReadInt64
  | KFloat => R.ReadFloat
  | KDouble => R.ReadDouble
  | KGuid => R.ReadGuid
  | KDate => R.ReadDate
  | KTimestamp => R.ReadTimestamp
  | KTime => R.ReadTime
  | KEnum => R.ReadBinaryEnum
  end.
Definition read_array_raw (a : akind) : bool -> Z -> reader (Z * option (list (aty a))) :=
  match a with
  | ABytes => R.ReadInt8Array
  | ABools => R.ReadBoolArray
  | AShorts => R.ReadInt16Array
  | AChars => R.ReadUInt16Array
  | AInts => R.ReadInt32Array
  | ALongs => R.ReadInt64Array
  | AFloats => R.ReadFloatArray
  | ADoubles => R.ReadDoubleArray
  end.
Definition read_raw (cap : Z) (sh : shape) : reader (sty sh) :=
  match sh with
  | SPrim k => read_prim_raw k
  | SArray a => let! r := read_array_raw a true cap in ret (buffer r)
  | SString => let! r := R.ReadString true cap in ret (buffer r)
  end.

(** * Documents *)

Record Doc : Type := MkDoc {
  d_fields : list (name * fvalue);
  d_raw : option (list fvalue)
}.

Definition write_doc (d : Doc) : writer unit :=
  for_each (fun '(n, v) => write_shape (fv_shape v) (Some n) (fv_val v)) (d_fields d) ;;;
  match d_raw d with
  | Some l => W.SetRawMode ;;; for_each (fun v => write_raw (fv_shape v) (fv_val v)) l
  | None => ret tt
  end.

Fixpoint map_op {S A B} (f : A -> op S B) (l : list A) : op S (list B) :=
  match l with
  | [] => ret []
  | a :: t => let! b := f a in let! bs := map_op f t in ret (b :: bs)
  end.

(** Which fields and raw data a reader asks for is a document, too: its values do not
    matter. *)
Definition read_doc (cap : Z) (want : Doc) : reader Doc :=
  let! fs := map_op (fun '(n, v) =>
               let! x := read_shape cap (fv_shape v) (Some n) in ret (n, MkValue (fv_shape v) x)) (d_fields want) in
  match d_raw want with
  | Some l =>
      R.SetRawMode ;;;
      let! vs := map_op (fun v => let! x := read_raw cap (fv_shape v) in ret (MkValue (fv_shape v) x)) l in
      ret (MkDoc fs (Some vs))
  | None => ret (MkDoc fs None)
  end.

(** The type of documents, given how names get their ids. *)
Class Names : Type := { doc_type : Z; field_id : name -> Z }.
#[export] Instance doc_binary_type `{Names} : BinaryType Doc :=
  {| GetTypeId := doc_type; GetTypeName := []; GetAffinityFieldName := []; GetFieldId := field_id;
     IsNull _ := false; GetNull := MkDoc [] None |}.
#[export] Instance doc_write : ObjectWrite Doc := write_doc.
Definition doc_read (cap : Z) : ObjectRead Doc := read_doc cap.

(** * What is written *)

Definition shape_bytes (sh : shape) : sty sh -> list Z :=
  match sh with
  | SPrim k => fun v => tagged (code k) (enc v)
  | SArray a => fun l => array_bytes (acode a) l
  | SString => string_bytes
  end.

(** In raw mode numbers carry no code. *)
Definition raw_tagged (k : kind) : bool :=
  match k with KGuid | KDate | KTimestamp | KTime | KEnum => true | _ => false end.
Definition raw_bytes (sh : shape) : sty sh -> list Z :=
  match sh with
  | SPrim k => fun v => if raw_tagged k then tagged (code k) (enc v) else enc v
  | SArray a => fun l => array_bytes (acode a) l
  | SString => string_bytes
  end.

(** The values that fit their types and the reader's buffers. *)
Definition shape_valid (cap : Z) (sh : shape) : sty sh -> Prop :=
  match sh with
  | SPrim k => fun v => valid v
  | SArray a => fun l => Forall elem_valid l /\ array_fits (awidth a) l /\ Z.of_nat (length l) <= cap
  | SString => fun s => string_ok s /\ Z.of_nat (length s) <= cap
  end.

Lemma emit_array_body a (l : list (aty a)) :
  Forall elem_valid l -> array_fits (awidth a) l ->
  emits (W.write_array_body (Some l) (Z.of_nat (length l)) awr (acode a)) tt (array_bytes (acode a) l).
Proof.
  intros Hl Hf. apply (emits_bind _ _ tt); [apply emit_int8|].
  apply (emits_bind _ _ tt); [apply emit_int32|]. by apply awr_emits.
Qed.

Lemma array_length_small a (l : list (aty a)) : array_fits (awidth a) l -> Z.of_nat (length l) < 2 ^ 31.
Proof.
  unfold array_fits. pose proof (awidth_pos a). change (2 ^ 31) with 2147483648. nia.
Qed.

Lemma std_length (s : list Z) : string_ok s -> i32 (Z.of_nat (length s)) = Z.of_nat (length s).
Proof. intros [_ H]. apply wrapS_small; widths; lia. Qed.

Lemma write_shape_op rslvr n id cap sh (v : sty sh) :
  rslvr (Some n) = Ok id -> shape_valid cap sh v ->
  field_op rslvr (write_shape sh (Some n) v) id (shape_bytes sh v).
Proof.
  intros Hid. destruct sh as [k|a|]; cbn [sty write_shape shape_bytes shape_valid] in *.
  - intros Hv. pose proof (wemits_stream anywhere _ _ (emit_tagged (code k) v Hv)) as He.
    destruct k; apply field_op_check, field_op_intro; done.
  - intros (Hv & Hf & _). pose proof (wemits_stream anywhere _ _ (emit_array_body a v Hv Hf)) as He.
    destruct a; apply field_op_check, field_op_intro; done.
  - intros [Hs _]. apply field_op_check, field_op_intro; [done|]. rewrite std_length by done.
    apply wemits_stream, emit_string.
Qed.

Lemma emit_raw cap sh (v : sty sh) :
  shape_valid cap sh v -> wemits in_raw (write_raw sh v) (raw_bytes sh v).
Proof.
  revert v. destruct sh as [k|a|]; cbn [sty write_raw raw_bytes shape_valid]; intros v.
  - intros Hv. pose proof (wemits_stream anywhere _ _ (emit_tagged (code k) v Hv)) as Ht.
    pose proof (wemits_stream anywhere _ _ (wr_emits v Hv)) as He.
    destruct k; apply wemits_raw; done.
  - intros (Hv & Hf & _). pose proof (wemits_stream anywhere _ _ (emit_array_body a v Hv Hf)) as He.
    destruct a; apply wemits_raw; done.
  - intros [Hs _]. apply wemits_raw. rewrite std_length by done. apply wemits_stream, emit_string.
Qed.

Lemma write_raw_op cap sh (v : sty sh) :
  shape_valid cap sh v -> raw_op (write_raw sh v) (raw_bytes sh v).
Proof. intros Hv. by apply raw_op_intro, emit_raw with cap. Qed.

Section docs.
Context `{Names}.

Definition doc_flds (d : Doc) : list field :=
  map (fun '(n, v) => (field_id n, shape_bytes (fv_shape v) (fv_val v))) (d_fields d).
Definition doc_raw_bytes (d : Doc) : option (list Z) :=
  (fun l => concat (map (fun v => raw_bytes (fv_shape v) (fv_val v)) l)) <$> d_raw d.

Definition value_valid (cap : Z) (v : fvalue) : Prop := shape_valid cap (fv_shape v) (fv_val v).
Definition doc_valid (cap : Z) (d : Doc) : Prop :=
  Forall (fun '(n, v) => value_valid cap v) (d_fields d) /\ Forall (value_valid cap) (default [] (d_raw d)).

Lemma write_fields cap l : forall s0 flds w,
  Forall (fun '(n, v) => value_valid cap v) l ->
  writing s0 (templated_field_id field_id) doc_type flds None w ->
  os_pos s0 + data_start (flds ++ map (fun '(n, v) => (field_id n, shape_bytes (fv_shape v) (fv_val v))) l) <= max_size ->
  exists w', for_each (fun '(n, v) => write_shape (fv_shape v) (Some n) (fv_val v)) l w = Ok (tt, w')
    /\ writing s0 (templated_field_id field_id) doc_type
         (flds ++ map (fun '(n, v) => (field_id n, shape_bytes (fv_shape v) (fv_val v))) l) None w'.
Proof.
  induction l as [|[n v] l IH]; intros s0 flds w Hv Hw Hfit.
  - exists w. cbn [map]. by rewrite app_nil_r.
  - apply Forall_cons_1 in Hv as [Hv Hl]. cbn [map for_each] in *.
    rewrite cons_middle, app_assoc in Hfit.
    destruct (write_shape_op (templated_field_id field_id) n (field_id n) cap (fv_shape v) (fv_val v) eq_refl Hv
      _ _ _ _ Hw) as (w1 & E1 & Hw1).
    { pose proof (data_start_snoc flds (field_id n) (shape_bytes (fv_shape v) (fv_val v))) as E.
      unfold data_start in *. rewrite payload_app, length_app in Hfit. lia. }
    destruct (IH s0 _ w1 Hl Hw1 Hfit) as (w2 & E2 & Hw2).
    exists w2. rewrite cons_middle, app_assoc. split; [|done]. by rewrite (bind_ok _ _ w w1 tt).
Qed.

Lemma write_raws cap l : forall s0 rslvr flds raw w,
  Forall (value_valid cap) l -> writing s0 rslvr doc_type flds (Some raw) w ->
  os_pos s0 + data_end flds (Some (raw ++ concat (map (fun v => raw_bytes (fv_shape v) (fv_val v)) l))) <= max_size ->
  exists w', for_each (fun v => write_raw (fv_shape v) (fv_val v)) l w = Ok (tt, w')
    /\ writing s0 rslvr doc_type flds (Some (raw ++ concat (map (fun v => raw_bytes (fv_shape v) (fv_val v)) l))) w'.
Proof.
  induction l as [|v l IH]; intros s0 rslvr flds raw w Hv Hw Hfit.
  - exists w. cbn [map concat]. by rewrite app_nil_r.
  - apply Forall_cons_1 in Hv as [Hv Hl]. cbn [map concat for_each] in *. rewrite app_assoc in *.
    destruct (write_raw_op cap (fv_shape v) (fv_val v) Hv _ _ _ _ _ _ Hw) as (w1 & E1 & Hw1).
    { rewrite !data_end_some in Hfit. lia. }
    destruct (IH s0 _ _ _ w1 Hl Hw1 Hfit) as (w2 & E2 & Hw2).
    exists w2. split; [|done]. by rewrite (bind_ok _ _ w w1 tt).
Qed.

Lemma data_end_le flds raw : data_start flds <= data_end flds raw <= object_length flds raw.
Proof. unfold data_start, data_end, object_length, body. rewrite length_app. unfold data_end, body. rewrite length_app. lia. Qed.

Lemma doc_writes cap d :
  doc_valid cap d -> writes_object d (doc_flds d) (doc_raw_bytes d).
Proof.
  intros [Hf Hr] s0 w Hw Hfit. pose proof (data_end_le (doc_flds d) (doc_raw_bytes d)) as Hle.
  destruct (write_fields cap (d_fields d) s0 [] w Hf Hw ltac:(cbn [app]; fold (doc_flds d); lia)) as (w1 & E1 & Hw1).
  cbn [app] in Hw1. fold (doc_flds d) in Hw1. unfold Write, doc_write, write_doc.
  rewrite (bind_ok _ _ w w1 tt) by done. unfold doc_raw_bytes in *.
  destruct (d_raw d) as [l|]; [|by exists w1].
  destruct (set_raw_mode _ _ _ _ _ Hw1) as (w2 & E2 & Hw2). rewrite (bind_ok _ _ w1 w2 tt) by done.
  destruct (write_raws cap l s0 _ _ [] w2 Hr Hw2) as (w3 & E3 & Hw3).
  { change (Some ([] ++ ?x)) with ((fun l => concat (map (fun v => raw_bytes (fv_shape v) (fv_val v)) l)) <$> Some l). lia. }
  by exists w3.
Qed.

End docs.

(** * What is read *)

Lemma parse_checked {A} `{Codec A} hdr dflt a :
  is_code hdr -> hdr <> DOCUMENTDB_HDR_NULL -> valid a ->
  parses (let! typeId := In.ReadInt8 in
          if typeId =? DOCUMENTDB_HDR_NULL then ret dflt
          else if negb (typeId =? hdr) then invalid_header else rd) (tagged hdr (enc a)) a.
Proof.
  intros Hc Hn Ha. apply (parses_bind _ _ hdr); [by apply parse_int8|].
  destruct (Z.eqb_spec hdr DOCUMENTDB_HDR_NULL); [done|]. rewrite Z.eqb_refl. by apply rd_parses.
Qed.

Lemma parse_enum_entry (e : BinaryEnumEntry) :
  @valid _ enum_codec e -> parses ReadBinaryEnumInternal (tagged DOCUMENTDB_TYPE_ENUM (@enc _ enum_codec e)) e.
Proof.
  intros He. apply (parses_bind _ _ DOCUMENTDB_TYPE_ENUM); [apply parse_int8; by vm_compute|].
  by apply (@rd_parses _ enum_codec).
Qed.

Lemma parse_array_internal a cap (l : list (aty a)) :
  Forall elem_valid l -> array_fits (awidth a) l -> Z.of_nat (length l) <= cap ->
  parses (ReadArrayInternal true cap ard (acode a)) (array_bytes (acode a) l) (Z.of_nat (length l), Some l).
Proof.
  intros Hv Hf Hc. pose proof (array_length_small a l Hf) as Hl.
  apply (parses_bind _ _ (acode a)); [apply parse_int8, acode_range|]. rewrite Z.eqb_refl.
  apply (parses_bind _ _ (Z.of_nat (length l))); [apply parse_length; lia|].
  destruct (Z.leb_spec (Z.of_nat (length l)) cap); [|lia]. rewrite orb_true_r.
  apply (parses_map _ (fun v => (Z.of_nat (length l), Some v))). by apply ard_parses.
Qed.

Lemma parse_string_internal cap s :
  string_ok s -> Z.of_nat (length s) <= cap ->
  parses (ReadStringInternal true cap) (string_bytes s)
    (Z.of_nat (length s), Some (s ++ (if Z.of_nat (length s) <? cap then [0] else []))).
Proof.
  intros [Hs Hl] Hc. apply (parses_bind _ _ DOCUMENTDB_TYPE_STRING); [apply parse_int8; by vm_compute|].
  rewrite Z.eqb_refl. apply (parses_bind _ _ (Z.of_nat (length s))); [apply parse_length; lia|].
  destruct (Z.leb_spec (Z.of_nat (length s)) cap); [|lia]. cbn [andb].
  apply (parses_map _ (fun x => (Z.of_nat (length s), Some (x ++ (if Z.of_nat (length s) <? cap then [0] else []))))).
  by apply parse_int8_array.
Qed.

Lemma buffer_whole {A} (l t : list A) : buffer (Z.of_nat (length l), Some (l ++ t)) = l.
Proof. unfold buffer. cbn. by rewrite Nat2Z.id, take_app_length. Qed.

Section reading_shapes.
Context (s : InStream) (P typeId : Z) (flds : list field) (raw : option (list Z)).
Context (rslvr : option name -> outcome Z Z) (cap : Z).

Abbreviation reads' := (reads s P typeId flds raw rslvr).

Lemma read_shape_found n id sh (v : sty sh) :
  rslvr (Some n) = Ok id -> lookup_field id flds = Some (shape_bytes sh v) -> shape_valid cap sh v ->
  reads' (read_shape cap sh (Some n)) v.
Proof.
  intros Hid Hl Hv. destruct sh as [k|a|]; cbn [sty shape_bytes shape_valid read_shape] in *.
  - assert (Hp := fun dflt (H : code k <> DOCUMENTDB_HDR_NULL) => parse_checked (code k) dflt v (code_range k) H Hv).
    assert (Hn := fun dflt => parse_nullable (code k) dflt v (code_range k) Hv).
    destruct k; eapply at_field_found; try exact Hid; try exact Hl;
      first [by apply Hp | by apply Hn | by apply parse_enum_entry].
  - destruct Hv as (Hv & Hf & Hc). pose proof (parse_array_internal a cap v Hv Hf Hc) as Hp.
    apply (reads_bind _ _ _ _ _ _ _ _ (Z.of_nat (length v), Some v)).
    + destruct a; eapply at_field_found; try exact Hid; try exact Hl; exact Hp.
    + rewrite <- (app_nil_r v) at 2. rewrite buffer_whole. apply reads_ret.
  - destruct Hv as (Hs & Hc). pose proof (parse_string_internal cap v Hs Hc) as Hp.
    eapply reads_bind; [eapply at_field_found; [exact Hid|exact Hl|exact Hp]|].
    rewrite buffer_whole. apply reads_ret.
Qed.

Lemma read_shape_missing n id sh :
  rslvr (Some n) = Ok id -> lookup_field id flds = None ->
  reads' (read_shape cap sh (Some n)) (zero_of sh).
Proof.
  intros Hid Hl. destruct sh as [k|a|]; cbn [sty read_shape zero_of] in *.
  - destruct k; eapply at_field_missing; try exact Hid; exact Hl.
  - apply (reads_bind _ _ _ _ _ _ _ _ (-1, None)).
    + destruct a; eapply at_field_missing; try exact Hid; exact Hl.
    + unfold buffer. cbn. rewrite take_nil. apply reads_ret.
  - eapply reads_bind; [eapply at_field_missing; [exact Hid|exact Hl]|].
    unfold buffer. cbn. rewrite take_nil. apply reads_ret.
Qed.

End reading_shapes.

Lemma read_raw_value cap sh (v : sty sh) :
  shape_valid cap sh v -> raw_reads (read_raw cap sh) (raw_bytes sh v) v.
Proof.
  destruct sh as [k|a|]; cbn [sty shape_valid read_raw raw_bytes] in *; intros Hv.
  - pose proof (rd_parses v Hv) as Hr.
    assert (Hn := fun dflt => parse_nullable (code k) dflt v (code_range k) Hv).
    destruct k; apply raw_reads_stream; first [exact Hr | by apply Hn | by apply parse_enum_entry].
  - destruct Hv as (Hv & Hf & Hc). pose proof (parse_array_internal a cap v Hv Hf Hc) as Hp.
    rewrite <- (app_nil_r (array_bytes _ _)).
    apply (raw_reads_bind _ _ (Z.of_nat (length v), Some v)).
    + destruct a; apply raw_reads_stream; exact Hp.
    + rewrite <- (app_nil_r v) at 2. rewrite buffer_whole. apply raw_reads_ret.
  - destruct Hv as (Hs & Hc). pose proof (parse_string_internal cap v Hs Hc) as Hp.
    rewrite <- (app_nil_r (string_bytes _)). eapply raw_reads_bind; [apply raw_reads_stream; exact Hp|].
    rewrite buffer_whole. apply raw_reads_ret.
Qed.

(** * Round trips *)

Section round_trips.
Context `{Names}.

(** The value of the first field that has the name's id. *)
Definition doc_find (n : name) (d : Doc) : option fvalue :=
  snd <$> head (List.filter (fun f => field_id n =? field_id f.1) (d_fields d)).

Definition expected (d want : Doc) : Doc :=
  MkDoc (map (fun '(n, v) => (n, default (zero_value (fv_shape v)) (doc_find n d))) (d_fields want))
    (match d_raw want with Some _ => d_raw d | None => None end).

(** Every field is asked for with the type that it has, and so is the raw data. *)
Definition agrees (d want : Doc) : Prop :=
  Forall (fun '(n, v) => forall u, doc_find n d = Some u -> fv_shape u = fv_shape v) (d_fields want)
  /\ match d_raw want with
     | Some l => exists l', d_raw d = Some l' /\ map fv_shape l = map fv_shape l'
     | None => True
     end.

Lemma doc_lookup n d :
  lookup_field (field_id n) (doc_flds d) = (fun v => shape_bytes (fv_shape v) (fv_val v)) <$> doc_find n d.
Proof.
  unfold lookup_field, doc_find, doc_flds. induction (d_fields d) as [|[n' v] l IH]; [done|].
  cbn [map List.filter fst]. by destruct (field_id n =? field_id n').
Qed.

Lemma doc_find_valid cap n d v : doc_valid cap d -> doc_find n d = Some v -> value_valid cap v.
Proof.
  intros [Hf _]. unfold doc_find. induction (d_fields d) as [|[n' u] l IH]; [done|].
  apply Forall_cons_1 in Hf as [Hu Hf]. cbn [List.filter fst].
  destruct (field_id n =? field_id n'); [cbn; by intros [= <-]|by apply IH].
Qed.

Lemma reads_fields cap d raw s P l :
  doc_valid cap d ->
  Forall (fun '(n, v) => forall u, doc_find n d = Some u -> fv_shape u = fv_shape v) l ->
  reads s P doc_type (doc_flds d) raw (templated_field_id field_id)
    (map_op (fun '(n, v) => let! x := read_shape cap (fv_shape v) (Some n) in ret (n, MkValue (fv_shape v) x)) l)
    (map (fun '(n, v) => (n, default (zero_value (fv_shape v)) (doc_find n d))) l).
Proof.
  intros Hd Hl. induction l as [|[n v] l IH]; [apply reads_ret|]. apply Forall_cons_1 in Hl as [Hv Hl].
  cbn [map_op map]. eapply reads_bind; [|eapply reads_bind; [by apply IH|apply reads_ret]].
  pose proof (doc_lookup n d) as Hlk. destruct (doc_find n d) as [u|] eqn:E; cbn in Hlk |- *.
  - pose proof (doc_find_valid _ _ _ _ Hd E) as Hu. specialize (Hv u eq_refl).
    destruct u as [sh x]. cbn in *. subst sh.
    eapply reads_bind; [by eapply read_shape_found|]. apply reads_ret.
  - eapply reads_bind; [by eapply read_shape_missing|]. apply reads_ret.
Qed.

Lemma reads_raws cap l l' :
  Forall (value_valid cap) l' -> map fv_shape l = map fv_shape l' ->
  raw_reads (map_op (fun v => let! x := read_raw cap (fv_shape v) in ret (MkValue (fv_shape v) x)) l)
    (concat (map (fun v => raw_bytes (fv_shape v) (fv_val v)) l')) l'.
Proof.
  revert l. induction l' as [|[sh x] l' IH]; intros [|v l] Hv E; try done; [apply raw_reads_ret|].
  apply Forall_cons_1 in Hv as [Hv Hl]. cbn [map fv_shape fv_val concat map_op] in *. injection E as -> E.
  apply (raw_reads_bind _ _ (MkValue sh x)).
  - rewrite <- (app_nil_r (raw_bytes _ _)). apply (raw_reads_bind _ _ x); [by apply read_raw_value|].
    apply raw_reads_ret.
  - rewrite <- (app_nil_r (concat _)). apply (raw_reads_bind _ _ l'); [by apply IH|]. apply raw_reads_ret.
Qed.

Lemma doc_reads cap d want :
  doc_valid cap d -> agrees d want ->
  @reads_object Doc doc_binary_type (doc_read cap) want (expected d want) (doc_flds d) (doc_raw_bytes d).
Proof.
  intros Hd [Hf Hr] s P r Hs Hrd. unfold ReadFields, doc_read, read_doc.
  destruct (reads_fields cap d _ s P (d_fields want) Hd Hf r Hrd) as (r1 & E1 & Hr1).
  rewrite (bind_ok _ _ r r1 _ E1). unfold expected. destruct (d_raw want) as [l|].
  - destruct Hr as (l' & E & Hsh). unfold doc_raw_bytes in *. rewrite E in *.
    destruct (set_raw_reader _ _ _ _ _ _ _ Hr1 Hs) as (r2 & E2 & Hr2 & Hh & Hl).
    rewrite (bind_ok _ _ r1 r2 tt E2). destruct Hd as [_ Hv]. rewrite E in Hv.
    destruct (reads_raws cap l l' Hv Hsh _ _ _ Hr2 Hh Hl) as (r3 & E3 & Hr3).
    rewrite (bind_ok _ _ r2 r3 _ E3). unfold ret. destruct Hr3 as (_ & _ & Hst & _). eauto.
  - unfold ret. destruct (rd_stream _ _ _ _ _ _ _ Hr1) as (p & Hst & _). eauto.
Qed.

Lemma doc_ids d :
  Forall (fun '(n, _) => inS 32 (field_id n)) (d_fields d) -> Forall (inS 32) (map fst (doc_flds d)).
Proof.
  intros H'. unfold doc_flds. rewrite map_map. apply Forall_map. eapply Forall_impl; [exact H'|]. by intros [].
Qed.

End round_trips.
