(* ===== verification/BinColl.v ===== *)
(** Containers: a session writes the elements one by one and fills in their number at the
    end; a session of the reader takes them back. *)
From S2P Require Import Prelude Memory Interop InteropProps BinUtils BinSchema BinObject BinWriter BinReader BinValues BinLayout BinTop.
From S2P Require Import BinFields BinSkip.

(** * Writing *)

Definition kind_bytes (typ : option Z) : list Z := match typ with Some t => le_bytes 1 t | None => [] end.

(** Opening leaves a gap for the number. *)
Lemma open_container_spec hdr typ w :
  out_ok (w_stream w) -> os_pos (w_stream w) + 6 <= max_size ->
  exists s', W.open_container hdr typ w = Ok (w_elemId w, w_set_stream s' w) /\ out_ok s'
    /\ os_pos s' = os_pos (w_stream w) + 5 + Z.of_nat (length (kind_bytes typ))
    /\ holds (cells s') (os_pos (w_stream w)) (le_bytes 1 hdr)
    /\ holds (cells s') (os_pos (w_stream w) + 5) (kind_bytes typ)
    /\ keeps (os_pos (w_stream w)) (os_pos s') (w_stream w) s'.
Proof.
  intros Ho Hfit. pose proof Ho as (H0 & _). unfold max_size in Hfit. change (2 ^ 30) with 1073741824 in Hfit.
  set (s := w_stream w) in *.
  destruct (emit_int8 hdr s Ho) as (s1 & E1 & Ho1 & Hp1 & Hh1 & Hk1);
    [rewrite le_bytes_length; unfold max_size; change (2 ^ 30) with 1073741824; lia|].
  rewrite le_bytes_length in Hp1. change (Z.of_nat 1) with 1 in Hp1.
  destruct (out_position_spec (os_pos s1 + 4) s1 Ho1) as (s2 & E2 & Ho2 & Hp2 & Hk2 & _);
    [unfold max_size; change (2 ^ 30) with 1073741824; lia|].
  assert (Hkind : emits (match typ with Some t => Out.WriteInt8 (i8 t) | None => ret tt end) tt (kind_bytes typ)).
  { destruct typ as [t|]; [|apply emits_ret]. cbn [kind_bytes]. rewrite <- (le_bytes_wrapS 1) by lia. apply emit_int8. }
  destruct (Hkind s2 Ho2) as (s3 & E3 & Ho3 & Hp3 & Hh3 & Hk3).
  { unfold kind_bytes. destruct typ; rewrite ?le_bytes_length; unfold max_size; change (2 ^ 30) with 1073741824;
      cbn [length]; lia. }
  exists s3. split; [|split; [done|split; [lia|split; [|split]]]].
  - unfold W.open_container, on_stream. unfold bind at 1. fold s. unfold bind at 1. rewrite E1. cbn [obind].
    unfold W.skip_count. unfold bind at 1. unfold bind at 1. unfold Out.Position, gets. cbn [obind].
    rewrite (bind_ok _ _ s1 s1 (os_pos s1 + 4)) by (apply int32_small; change (2 ^ 31) with 2147483648; lia).
    rewrite E2. cbn [obind]. rewrite E3. done.
  - eapply holds_agree; [exact Hh1|]. intros x Hx. rewrite le_bytes_length in Hx. rewrite Hk3, Hk2; [done|lia|lia].
  - by replace (os_pos s + 5) with (os_pos s2) by lia.
  - intros x Hx. rewrite Hk3, Hk2, Hk1; [done|lia..].
Qed.

Section collections.
Context {T : Type} `{TopWrite T} `{TopRead T} (enc : T -> list Z).

(** Elements are written after each other, and counted. *)
Lemma elements_spec id l : forall w,
  (forall t, t ∈ l -> wemits anywhere (WriteTopObject t) (enc t)) ->
  out_ok (w_stream w) -> w_metaMgr w = None -> w_elemId w = id ->
  0 <= w_elemCnt w -> w_elemCnt w + Z.of_nat (length l) < 2 ^ 31 ->
  os_pos (w_stream w) + Z.of_nat (length (concat (map enc l))) <= max_size ->
  exists s', for_each (fun t => let! id := W.session_id in WriteElement id t) l w
    = Ok (tt, w_set_session (w_elemIdGen w) id (w_elemCnt w + Z.of_nat (length l)) (w_elemPos w) (w_set_stream s' w))
    /\ wrote (w_stream w) (concat (map enc l)) s'.
Proof.
  induction l as [|t l IH]; intros w Hl Ho Hm Hid Hc Hcl Hfit.
  - exists (w_stream w). split.
    + rewrite Z.add_0_r, <- Hid. by destruct w.
    + destruct (emits_ret tt (w_stream w) Ho) as (s' & E & W'); [done|]. unfold ret in E. by simplify_eq.
  - cbn [map concat length] in *. rewrite length_app in Hfit.
    destruct (Hl t ltac:(left) w Ho Hm I ltac:(lia)) as (s1 & E1 & W1). pose proof W1 as (Ho1 & Hp1 & _).
    set (w1 := w_set_session (w_elemIdGen w) (w_elemId w) (w_elemCnt w + 1) (w_elemPos w) (w_set_stream s1 w)).
    destruct (IH w1) as (s2 & E2 & W2); try done.
    { intros u Hu. apply Hl. by right. }
    { cbn. lia. }
    { cbn. lia. }
    { cbn [w1 w_stream w_set_session w_set_stream]. lia. }
    exists s2. split; [|by apply (wrote_trans _ _ s1)]. cbn [for_each].
    rewrite (bind_ok _ _ w w1 tt).
    + rewrite E2. unfold w1. cbn. do 2 f_equal. unfold w_set_session, w_set_stream. cbn. f_equal. lia.
    + unfold W.session_id. rewrite (bind_ok _ _ w w (w_elemId w)) by done.
      unfold WriteElement, W.CheckSession. unfold bind at 1. rewrite Z.eqb_refl. cbn [obind].
      rewrite (bind_ok _ _ w (w_set_stream s1 w) tt) by done.
      unfold W.count_element. cbn [w_elemCnt w_set_stream]. change (2 ^ 31) with 2147483648 in Hcl.
      rewrite checked_ok by (widths; lia). done.
Qed.

(** The bytes of a collection. *)
Definition collection_bytes (typ : Z) (l : list T) : list Z :=
  seq_bytes DOCUMENTDB_TYPE_COLLECTION (Some typ) (map enc l).

Lemma collection_length typ l :
  Z.of_nat (length (collection_bytes typ l)) = 6 + Z.of_nat (length (concat (map enc l))).
Proof. unfold collection_bytes, seq_bytes, tagged. rewrite !length_app, !le_bytes_length. lia. Qed.

Lemma commit_spec w p n :
  out_ok (w_stream w) -> w_elemPos w = p -> w_elemCnt w = n -> 0 <= p -> p + 5 <= os_pos (w_stream w) ->
  os_pos (w_stream w) <= max_size ->
  exists s', W.CommitContainer (w_elemId w) w
    = Ok (tt, w_set_session (w_elemIdGen w) 0 0 (-1) (w_set_stream s' w))
    /\ out_ok s' /\ os_pos s' = os_pos (w_stream w) /\ holds (cells s') (p + 1) (le_bytes 4 n)
    /\ keeps (p + 1) (p + 5) (w_stream w) s'.
Proof.
  intros Ho <- <- Hp Hl Hfit. unfold max_size in *. change (2 ^ 30) with 1073741824 in *.
  destruct (write_to_spec 4 (w_elemPos w + 1) (w_elemCnt w) (w_stream w) Ho) as (s' & E & Ho' & Hp' & Hh & Hk & _);
    [lia|lia|unfold max_size; change (2 ^ 30) with 1073741824; lia|].
  exists s'. split; [|split; [done|split; [done|split; [done|]]]].
  - unfold W.CommitContainer, W.CheckSession. unfold bind at 1. rewrite Z.eqb_refl. cbn [obind].
    unfold bind at 1. rewrite checked_ok by (widths; lia). cbn [obind]. unfold Out.WriteInt32_to. by rewrite E.
  - by replace (w_elemPos w + 5) with (w_elemPos w + 1 + Z.of_nat 4) by lia.
Qed.

Lemma write_collection typ l w :
  (forall t, t ∈ l -> wemits anywhere (WriteTopObject t) (enc t)) ->
  out_ok (w_stream w) -> w_metaMgr w = None -> in_raw w -> w_elemCnt w = 0 ->
  0 <= w_elemIdGen w < 2 ^ 31 - 1 -> Z.of_nat (length l) < 2 ^ 31 ->
  os_pos (w_stream w) + Z.of_nat (length (collection_bytes typ l)) <= max_size ->
  exists s', WriteCollection_range l typ w
    = Ok (tt, w_set_session (w_elemIdGen w + 1) 0 0 (-1) (w_set_stream s' w))
    /\ wrote (w_stream w) (collection_bytes typ l) s'.
Proof.
  intros Hl Ho Hm [Hr Hid] Hcnt Hgen Hlen Hfit. rewrite collection_length in Hfit. pose proof Ho as (Hp0 & _).
  unfold WriteCollection_range, W.StartContainerSession, bind at 1.
  rewrite (bind_ok _ _ w w tt) by (apply check_raw; by destruct (Z.eqb_spec (w_rawPos w) (-1))).
  rewrite (bind_ok _ _ w w tt) by (apply check_single; by rewrite Hid).
  change (2 ^ 31) with 2147483648 in *.
  rewrite checked_ok by (widths; lia). cbn [obind].
  set (gen := w_elemIdGen w + 1). set (p := os_pos (w_stream w)) in *.
  set (w1 := w_set_session gen gen (w_elemCnt w) p w).
  destruct (open_container_spec DOCUMENTDB_TYPE_COLLECTION (Some typ) w1 Ho) as (s2 & E2 & Ho2 & Hp2 & Hh2 & Ht2 & Hk2).
  { cbn [w1 w_stream w_set_session]. fold p. lia. }
  unfold WriteCollectionWithinSession. rewrite (bind_ok _ _ w1 _ _ E2).
  cbn [kind_bytes] in Hp2. rewrite le_bytes_length in Hp2. cbn [w1 w_stream w_set_session] in Hp2, Hh2, Ht2, Hk2.
  fold p in Hp2, Hh2, Ht2, Hk2.
  destruct (elements_spec gen l (w_set_stream s2 w1) Hl Ho2 Hm) as (s3 & E3 & Ho3 & Hp3 & Hh3 & Hk3); try done.
  { cbn. lia. }
  { cbn. rewrite Hcnt. lia. }
  { cbn [w_stream w_set_stream]. lia. }
  rewrite (bind_ok _ _ _ _ _ E3). cbn [w_stream w_set_stream w_elemIdGen w_elemCnt w_elemPos w1 w_set_session] in *.
  rewrite Hcnt, Z.add_0_l. unfold W.session_id, gets. unfold bind at 1. cbn [obind w_elemId w_set_session].
  set (w3 := w_set_session gen gen (Z.of_nat (length l)) p (w_set_stream s3 (w_set_stream s2 (w_set_session gen gen (w_elemCnt w) p w)))).
  destruct (commit_spec w3 p (Z.of_nat (length l))) as (s4 & E4 & Ho4 & Hp4 & Hh4 & Hk4); try done.
  { cbn [w3 w_stream w_set_session w_set_stream]. lia. }
  { cbn [w3 w_stream w_set_session w_set_stream]. lia. }
  cbn [w3 w_stream w_set_session w_set_stream] in Hp4, Hk4.
  exists s4. split; [exact E4|]. unfold wrote. rewrite collection_length. split; [done|]. split; [lia|]. split.
  - fold p. unfold collection_bytes, seq_bytes, tagged. rewrite length_map, !holds_app, !le_bytes_length.
    split; [|split; [|split]].
    + apply (holds_keeps s3 s4 (p + 1) (p + 5)); [|done|rewrite le_bytes_length; lia].
      apply (holds_keeps s2 s3 (os_pos s2) (os_pos s3)); [done|done|rewrite le_bytes_length; lia].
    + exact Hh4.
    + replace (p + Z.of_nat 1 + Z.of_nat 4) with (p + 5) by lia.
      apply (holds_keeps s3 s4 (p + 1) (p + 5)); [|done|lia].
      apply (holds_keeps s2 s3 (os_pos s2) (os_pos s3)); [done|done|cbn [kind_bytes]; rewrite le_bytes_length; lia].
    + apply (holds_keeps s3 s4 (p + 1) (p + 5)); [|done|lia].
      eapply holds_at; [|exact Hh3]. lia.
  - fold p. intros x Hx. rewrite Hk4, Hk3, Hk2; [done|lia..].
Qed.

End collections.

(** * Reading *)

Section read_collections.
Context {T : Type} `{TopWrite T} `{TopRead T} (enc : T -> list Z).

(** The reader in a session [id] of [cnt] elements, after [k] of them. *)
Definition in_session (s : InStream) (p id cnt k : Z) (r : BinaryReaderImpl) : Prop :=
  in_ok s /\ 0 <= p <= is_len s /\ r_stream r = in_at p s /\ r_rawMode r = true
  /\ r_elemId r = id /\ r_elemCnt r = cnt /\ r_elemRead r = k.

Lemma next_element s p id cnt k r :
  in_session s p id cnt k r -> 0 < id -> 0 <= k < cnt -> cnt < 2 ^ 31 ->
  R.HasNextElement id r = true
  /\ exists r', R.element_read r = Ok (tt, r')
     /\ if decide (k + 1 = cnt) then raw_reading s p r' else in_session s p id cnt (k + 1) r'.
Proof.
  intros (Hs & Hp & Hst & Hm & Hid & Hc & Hk) Hi Hkc Hmax. split.
  - unfold R.HasNextElement. rewrite Hid, Hc, Hk, Z.eqb_refl. by destruct (Z.ltb_spec k cnt); [|lia].
  - unfold R.element_read. rewrite Hk, Hc, Hid. rewrite checked_ok by (widths; change (2 ^ 31) with 2147483648 in *; lia).
    cbn [obind]. eexists. split; [done|].
    destruct (decide (k + 1 = cnt)) as [E|E], (Z.eqb_spec (k + 1) cnt) as [E'|E']; try done;
      by repeat split; cbn; try (destruct Hs; lia).
Qed.

Lemma stream_session {A} (f : inp A) bs a s p id cnt k r :
  parses f bs a -> in_session s p id cnt k r -> holds (is_data s) p bs -> p + Z.of_nat (length bs) <= is_len s ->
  exists r', of_stream f r = Ok (a, r') /\ in_session s (p + Z.of_nat (length bs)) id cnt k r'.
Proof.
  intros Hf (Hs & Hp & Hst & Hrest) Hh Hl. unfold of_stream. rewrite Hst, (Hf (in_at p s));
    [|split; cbn; destruct Hs; lia|done|done].
  cbn [obind]. eexists. split; [done|]. destruct Hrest as (Hm & Hid & Hc & Hk). destruct Hs.
  by repeat split; cbn; try lia.
Qed.

Lemma session_end s p r : raw_reading s p r -> exists cnt k, in_session s p 0 cnt k r.
Proof. intros (Hs & Hp & Hst & Hm & Hid). exists (r_elemCnt r), (r_elemRead r). unfold in_session. repeat (split; [done|]). done. Qed.

Lemma elements_read id cnt l : forall s p k n r,
  (forall t, t ∈ l -> parses ReadTopObject (enc t) t) ->
  l <> [] -> in_session s p id cnt k r -> 0 < id -> 0 <= k -> k + Z.of_nat (length l) = cnt -> cnt < 2 ^ 31 ->
  (length l <= n)%nat -> holds (is_data s) p (concat (map enc l)) ->
  p + Z.of_nat (length (concat (map enc l))) <= is_len s ->
  exists r', read_elements n id r = Ok (l, r')
    /\ raw_reading s (p + Z.of_nat (length (concat (map enc l)))) r'.
Proof.
  induction l as [|t l IH]; intros s p k n r Hl Hne Hr Hid Hk0 Hk Hmax Hn Hh Hfit; [done|].
  cbn [map concat length] in *. rewrite length_app, Nat2Z.inj_add in *. apply holds_app in Hh as [Hh1 Hh2].
  destruct (next_element s p id cnt k r Hr Hid ltac:(lia) Hmax) as (Hnext & r1 & E1 & Hr1).
  destruct n as [|n]; [lia|]. cbn [read_elements]. rewrite Hnext.
  assert (E : exists r2, ReadElement id r = Ok (t, r2)
    /\ if decide (k + 1 = cnt) then raw_reading s (p + Z.of_nat (length (enc t))) r2
       else in_session s (p + Z.of_nat (length (enc t))) id cnt (k + 1) r2).
  { unfold ReadElement, R.CheckSession. unfold bind at 1. destruct Hr as (_ & _ & _ & _ & -> & _).
    rewrite Z.eqb_refl. cbn [obind]. rewrite (bind_ok _ _ r r1 tt E1).
    pose proof (Hl t ltac:(left)) as Ht. destruct (decide (k + 1 = cnt)) as [Hlast|Hlast].
    - destruct (session_end _ _ _ Hr1) as (c' & k' & Hr1').
      destruct (stream_session _ _ _ _ _ _ _ _ _ Ht Hr1' Hh1 ltac:(lia)) as (r2 & E2 & Hr2).
      exists r2. split; [done|]. destruct Hr2 as (Hs & Hp & Hst & Hm & Hi & _). by repeat split; try apply Hs; try lia.
    - by destruct (stream_session _ _ _ _ _ _ _ _ _ Ht Hr1 Hh1 ltac:(lia)) as (r2 & E2 & Hr2); exists r2. }
  destruct E as (r2 & E2 & Hr2). rewrite E2. cbn [obind].
  destruct l as [|u l].
  - destruct (decide (k + 1 = cnt)) as [_|E]; [|cbn in Hk; lia]. cbn [map concat length].
    assert (Hdone : R.HasNextElement id r2 = false).
    { unfold R.HasNextElement. destruct Hr2 as (_ & _ & _ & _ & ->). by destruct (Z.eqb_spec 0 id); [lia|]. }
    exists r2. rewrite Z.add_0_r. split; [|done]. destruct n; cbn [read_elements]; by rewrite Hdone.
  - destruct (decide (k + 1 = cnt)) as [E|_]; [cbn [length] in Hk; lia|].
    destruct (IH s (p + Z.of_nat (length (enc t))) (k + 1) n r2) as (r3 & E3 & Hr3); try done.
    { intros v Hv. apply Hl. by right. }
    { cbn [length] in *. lia. }
    { cbn [length] in *. lia. }
    { cbn [length] in *. lia. }
    { lia. }
    exists r3. rewrite E3. cbn [obind]. rewrite Z.add_assoc. by split.
Qed.

(** Opening a container for reading. *)
Lemma start_session hdr n s p r :
  is_code hdr -> 0 <= n < 2 ^ 31 -> raw_reading s p r -> 0 <= r_elemIdGen r < 2 ^ 31 - 1 ->
  holds (is_data s) p (le_bytes 1 hdr ++ le_bytes 4 n) -> p + 5 <= is_len s ->
  exists id r', R.StartContainerSession true hdr r = Ok ((id, n), r') /\ 0 < id
    /\ if decide (n = 0) then raw_reading s (p + 5) r' else in_session s (p + 5) id n 0 r'.
Proof.
  intros Hc Hn Hr Hgen Hh Hl. apply holds_app in Hh as [Hh1 Hh2]. rewrite le_bytes_length in Hh2.
  destruct (session_end _ _ _ Hr) as (c0 & k0 & Hr0). destruct Hr as (Hs & Hp & Hst & Hm & Hid).
  unfold R.StartContainerSession, R.CheckRawMode, R.CheckSingleMode. unfold bind at 1. rewrite Hm.
  cbn [negb andb obind]. unfold bind at 1. rewrite Hid. cbn [negb andb obind Z.eqb].
  assert (Hrng : is_code hdr) by done.
  destruct (stream_session _ _ _ _ _ _ _ _ _ (parse_int8 hdr Hc) Hr0 Hh1) as (r1 & E1 & Hr1);
    [rewrite le_bytes_length; lia|].
  rewrite (bind_ok _ _ r r1 _ E1), Z.eqb_refl. rewrite le_bytes_length in Hr1.
  destruct (stream_session _ _ _ _ _ _ _ _ _ (parse_length n Hn) Hr1 Hh2) as (r2 & E2 & Hr2);
    [rewrite le_bytes_length; lia|].
  rewrite (bind_ok _ _ r1 r2 _ E2). rewrite le_bytes_length in Hr2.
  assert (Hg : r_elemIdGen r2 = r_elemIdGen r).
  { unfold of_stream in E1, E2. destruct (In.ReadInt8 _) as [[? ?]| |]; [|done..]. cbn [obind] in E1. simplify_eq.
    destruct (In.ReadInt32 _) as [[? ?]| |]; [|done..]. cbn [obind] in E2. by simplify_eq. }
  change (2 ^ 31) with 2147483648 in *.
  assert (E3 : R.next_id r2 = Ok (r_elemIdGen r + 1,
    r_set_session (r_elemIdGen r + 1) (r_elemId r2) (r_elemCnt r2) (r_elemRead r2) r2)).
  { unfold R.next_id. rewrite Hg, checked_ok by (widths; lia). done. }
  rewrite (bind_ok _ _ r2 _ _ E3). replace (p + 5) with (p + Z.of_nat 1 + Z.of_nat 4) by lia.
  destruct Hr2 as (Hs2 & Hp2 & Hst2 & Hm2 & Hi2 & Hc2 & Hk2).
  destruct (decide (n = 0)) as [->|Hne].
  - cbn [Z.eqb negb]. eexists _, _. split; [reflexivity|]. split; [lia|]. by repeat split; cbn; try (destruct Hs; lia).
  - destruct (Z.eqb_spec n 0); [done|]. cbn [negb]. eexists _, _. split; [reflexivity|]. split; [lia|].
    by repeat split; cbn; try (destruct Hs; lia).
Qed.

Lemma read_collection typ l s p r :
  (forall t, t ∈ l -> parses ReadTopObject (enc t) t) -> Z.of_nat (length l) < 2 ^ 31 -> inS 8 typ ->
  raw_reading s p r -> 0 <= r_elemIdGen r < 2 ^ 31 - 1 ->
  holds (is_data s) p (collection_bytes enc typ l) ->
  p + Z.of_nat (length (collection_bytes enc typ l)) <= is_len s ->
  exists r', ReadCollection_out r = Ok ((Z.of_nat (length l), l), r')
    /\ raw_reading s (p + Z.of_nat (length (collection_bytes enc typ l))) r'.
Proof.
  intros Hl Hlen Htyp Hr Hgen Hh Hfit. rewrite collection_length in *. unfold collection_bytes, seq_bytes, tagged in Hh.
  rewrite length_map in Hh. rewrite !app_assoc in Hh. rewrite <- app_assoc in Hh.
  rewrite !holds_app, !length_app, !le_bytes_length in Hh. destruct Hh as [Hh1 [Hh2 Hh3]].
  assert (Hh0 : holds (is_data s) p (le_bytes 1 DOCUMENTDB_TYPE_COLLECTION ++ le_bytes 4 (Z.of_nat (length l))))
    by (apply holds_app; by rewrite le_bytes_length).
  destruct (start_session DOCUMENTDB_TYPE_COLLECTION (Z.of_nat (length l)) s p r ltac:(by vm_compute) ltac:(lia) Hr Hgen Hh0 ltac:(lia)) as (id & r1 & E1 & Hid & Hr1).
  unfold ReadCollection_out. rewrite (bind_ok _ _ r r1 _ E1). unfold read_session.
  destruct (Z.eqb_spec (Z.of_nat (length l)) (-1)); [lia|]. cbn [negb].
  assert (Hk : exists r2, of_stream In.ReadInt8 r1 = Ok (typ, r2)
    /\ if decide (Z.of_nat (length l) = 0) then raw_reading s (p + 6) r2
       else in_session s (p + 6) id (Z.of_nat (length l)) 0 r2).
  { assert (Ht : holds (is_data s) (p + 5) (le_bytes 1 typ)) by (eapply holds_at; [|exact Hh2]; lia).
    replace (p + 6) with (p + 5 + Z.of_nat (length (le_bytes 1 typ))) by (rewrite le_bytes_length; lia).
    assert (Hf : p + 5 + Z.of_nat (length (le_bytes 1 typ)) <= is_len s) by (rewrite le_bytes_length; lia).
    destruct (decide _) as [Hz|Hz].
    - destruct (session_end _ _ _ Hr1) as (c & k & Hx).
      destruct (stream_session _ _ _ _ _ _ _ _ _ (parse_int8 typ Htyp) Hx Ht Hf) as (r2 & E2 & Hr2).
      exists r2. split; [done|]. destruct Hr2 as (Hs & Hp & Hst & Hm & Hi & _).
      unfold raw_reading. repeat (split; [done|]). done.
    - by destruct (stream_session _ _ _ _ _ _ _ _ _ (parse_int8 typ Htyp) Hr1 Ht Hf) as (r2 & E2 & Hr2); exists r2. }
  destruct Hk as (r2 & E2 & Hr2). unfold bind at 1. unfold bind at 1. rewrite E2. cbn [obind ret].
  rewrite Nat2Z.id. destruct l as [|t l].
  - destruct (decide _) as [_|E]; [|done]. exists r2. cbn [map concat length]. rewrite Z.add_0_r.
    split; [|done]. unfold bind. cbn [read_elements length]. unfold R.HasNextElement.
    destruct Hr2 as (_ & _ & _ & _ & ->). by destruct (Z.eqb_spec 0 id); [lia|].
  - destruct (decide _) as [E|_]; [done|].
    destruct (elements_read id (Z.of_nat (length (t :: l))) (t :: l) s (p + 6) 0 (length (t :: l)) r2)
      as (r3 & E3 & Hr3); try done; try lia.
    { eapply holds_at; [|exact Hh3]. lia. }
    rewrite (bind_ok _ _ r2 r3 _ E3). exists r3. rewrite Z.add_assoc. by split.
Qed.

End read_collections.
