(* ===== verification/BinProps.v ===== *)
(** The properties of the binary protocol: objects and containers come back as they were
    written, objects have the layout of the format, and values can be skipped. *)
From S2P Require Import Prelude Memory Chrono Interop InteropProps BinUtils BinSchema BinObject BinWriter BinReader BinValues BinLayout.
From S2P Require Import BinTop BinFields BinSkip BinDoc BinColl.

(** * A document for the witnesses *)

Definition sample_names : Names :=
  {| doc_type := 77; field_id n := GetBinaryStringHashCode (Some n) |}.
Definition sample_doc : Doc :=
  MkDoc [([97], MkValue (SPrim KInt) (-5)); ([98; 99], MkValue SString [104; 105]);
         ([100], MkValue (SArray AShorts) [1; -2; 3]); ([101], MkValue (SPrim KBool) true)]
    (Some [MkValue (SPrim KLong) 1000; MkValue (SPrim KGuid) (MkGuid 1 2)]).
(** Read in another order, one field twice and one that is not there. *)
Definition sample_want : Doc :=
  MkDoc [([101], zero_value (SPrim KBool)); ([97], zero_value (SPrim KInt)); ([120], zero_value (SPrim KLong));
         ([98; 99], zero_value SString); ([97], zero_value (SPrim KInt)); ([100], zero_value (SArray AShorts))]
    (Some [zero_value (SPrim KLong); zero_value (SPrim KGuid)]).
Definition sample_writer : BinaryWriterImpl := raw_writer (new_out (new_memory 16)) None.

Lemma sample_ok : out_ok (w_stream sample_writer).
Proof. apply new_out_ok. by vm_compute. Qed.

Lemma sample_valid : doc_valid 16 sample_doc.
Proof.
  split; repeat constructor; cbn; try lia; unfold inS, inU; cbn; try lia.
Qed.
Lemma sample_agrees : @agrees sample_names sample_doc sample_want.
Proof.
  split; [|by eexists].
  repeat (apply Forall_cons_2; [intros u Hu; vm_compute in Hu; by simplify_eq|]). apply Forall_nil_2.
Qed.

(** C15: A document is written and read back from the same memory: the fields that are asked
    for, in any order and any number of times, have the values that were written; a field
    that is not there has the zero of its type; and the raw data comes back as it was. *)
Theorem object_roundtrip `{Names} cap d want w depth :
  doc_valid cap d -> agrees d want ->
  Forall (fun '(n, _) => inS 32 (field_id n)) (d_fields d) ->
  out_ok (w_stream w) -> w_metaMgr w = None ->
  os_pos (w_stream w) + object_length (doc_flds d) (doc_raw_bytes d) <= max_size ->
  exists w', WriteTopObject0 d w = Ok (tt, w')
    /\ let s := reopen (w_stream w') (os_pos (w_stream w)) in
       @ReadTopObject0 Doc doc_binary_type (doc_read cap) (S depth) want s
       = Ok (expected d want, in_at (os_pos (w_stream w')) s).
Proof.
  intros Hd Ha Hids Ho Hm Hfit. rewrite <- object_bytes_length with (typeId := doc_type) in Hfit.
  destruct (@emit_object Doc doc_binary_type doc_write d _ _ eq_refl (doc_writes cap d Hd) w Ho Hm I Hfit) as (s' & E & Hw).
  exists (w_set_stream s' w). split; [done|]. cbn [w_stream w_set_stream] in *.
  destruct (reopen_ok _ (os_pos (w_stream w)) _ _ Ho Hfit Hw eq_refl) as (Hs & Hh & Hl).
  pose proof (@parse_object Doc doc_binary_type (doc_read cap) depth want (expected d want) _ _ (doc_ids d Hids)
    (doc_reads cap d want Hd Ha) _ Hs Hh Hl) as Hp.
  cbv zeta. rewrite Hp. destruct Hw as (_ & Hpos & _). do 2 f_equal. cbn [is_pos reopen in_at]. by rewrite Hpos.
Qed.

Lemma object_roundtrip_witness :
  exists w', @WriteTopObject0 Doc (@doc_binary_type sample_names) doc_write sample_doc sample_writer = Ok (tt, w')
    /\ let s := reopen (w_stream w') 0 in
       @ReadTopObject0 Doc (@doc_binary_type sample_names) (doc_read 16) 1 sample_want s
       = Ok (@expected sample_names sample_doc sample_want, in_at (os_pos (w_stream w')) s).
Proof.
  apply (@object_roundtrip sample_names 16 sample_doc sample_want sample_writer 0).
  - exact sample_valid.
  - exact sample_agrees.
  - repeat constructor; by vm_compute.
  - exact sample_ok.
  - reflexivity.
  - by vm_compute.
Defined.

(** A written object has the layout of the format: the header with the flags, the type,
    the hash code of the data, the length, the schema's id and the offset of the table;
    the fields in the order of writing; the raw data; the table of ids and offsets in the
    width that the last offset needs; and where the raw data starts.  Nothing in front of
    the object changes, and the type manager and the sessions of the writer stay. *)
Theorem object_layout `{Names} cap d w :
  doc_valid cap d -> out_ok (w_stream w) -> w_metaMgr w = None ->
  os_pos (w_stream w) + object_length (doc_flds d) (doc_raw_bytes d) <= max_size ->
  exists s', WriteTopObject0 d w = Ok (tt, w_set_stream s' w)
    /\ wrote (w_stream w) (object_bytes doc_type (doc_flds d) (doc_raw_bytes d)) s'.
Proof.
  intros Hd Ho Hm Hfit. rewrite <- object_bytes_length with (typeId := doc_type) in Hfit.
  exact (@emit_object Doc doc_binary_type doc_write d _ _ eq_refl (doc_writes cap d Hd) w Ho Hm I Hfit).
Qed.

Lemma object_layout_witness :
  exists s', @WriteTopObject0 Doc (@doc_binary_type sample_names) doc_write sample_doc sample_writer
      = Ok (tt, w_set_stream s' sample_writer)
    /\ wrote (w_stream sample_writer)
         (object_bytes 77 (@doc_flds sample_names sample_doc) (doc_raw_bytes sample_doc)) s'.
Proof.
  apply (@object_layout sample_names 16 sample_doc sample_writer);
    [exact sample_valid|exact sample_ok|reflexivity|by vm_compute].
Defined.

(** * Collections *)

(** Elements whose bytes are [enc]. *)
Definition element_codec {T} `{TopWrite T} `{TopRead T} (enc : T -> list Z) (t : T) : Prop :=
  wemits anywhere (WriteTopObject t) (enc t) /\ parses ReadTopObject (enc t) t.

(** A collection that was written element by element, with its number filled in at the
    end, is read back element by element; both sessions are closed afterwards, and the
    streams stand behind the collection. *)
Theorem collection_roundtrip {T} `{TopWrite T} `{TopRead T} (enc : T -> list Z) typ l w r :
  (forall t, t ∈ l -> element_codec enc t) -> inS 8 typ -> Z.of_nat (length l) < 2 ^ 31 ->
  out_ok (w_stream w) -> w_metaMgr w = None -> w_rawPos w <> -1 -> w_elemId w = 0 -> w_elemCnt w = 0 ->
  0 <= w_elemIdGen w < 2 ^ 31 - 1 ->
  os_pos (w_stream w) + Z.of_nat (length (collection_bytes enc typ l)) <= max_size ->
  r_rawMode r = true -> r_elemId r = 0 -> 0 <= r_elemIdGen r < 2 ^ 31 - 1 ->
  exists w', WriteCollection_range l typ w = Ok (tt, w') /\ w_elemId w' = 0
    /\ forall s, s = reopen (w_stream w') (os_pos (w_stream w)) ->
       exists r', ReadCollection_out (r_set_stream s r) = Ok ((Z.of_nat (length l), l), r')
         /\ r_elemId r' = 0 /\ r_stream r' = in_at (os_pos (w_stream w')) s.
Proof.
  intros Hl Htyp Hlen Ho Hm Hraw Hid Hcnt Hgen Hfit Hrm Hri Hrg.
  destruct (write_collection enc typ l w (fun t Ht => proj1 (Hl t Ht)) Ho Hm (conj Hraw Hid) Hcnt Hgen Hlen Hfit)
    as (s' & E & Hw).
  eexists. split; [exact E|]. split; [done|]. intros s ->. cbn [w_stream w_set_session w_set_stream].
  destruct (reopen_ok _ (os_pos (w_stream w)) _ _ Ho Hfit Hw eq_refl) as (Hs & Hh & Hf).
  set (s0 := reopen s' (os_pos (w_stream w))) in *.
  destruct (read_collection enc typ l s0 (is_pos s0) (r_set_stream s0 r) (fun t Ht => proj2 (Hl t Ht)) Hlen Htyp)
    as (r' & Er & Hr'); try done.
  { repeat split; try done; try (destruct Hs; lia). }
  exists r'. split; [exact Er|]. destruct Hr' as (_ & _ & Hst & _ & Hi). split; [done|].
  rewrite Hst. destruct Hw as (_ & Hpos & _). by rewrite Hpos.
Qed.

Lemma string_element (s : list Z) : string_ok s -> element_codec string_bytes s.
Proof.
  intros Hs. split; [|by apply parse_string]. unfold WriteTopObject, top_string. rewrite std_length by done.
  apply wemits_stream, emit_string.
Qed.

Lemma sample_strings (t : list Z) : t ∈ [[104; 105]; []; [106]] -> string_ok t.
Proof.
  intros Ht. repeat (apply elem_of_cons in Ht as [->|Ht];
    [split; [repeat (apply Forall_cons_2; [unfold inS; cbn; lia|]); apply Forall_nil_2|by vm_compute]|]).
  by apply elem_of_nil in Ht.
Qed.

Lemma collection_roundtrip_witness :
  exists w', WriteCollection_range [[104; 105]; []; [106]] 1 sample_writer = Ok (tt, w') /\ w_elemId w' = 0
    /\ forall s, s = reopen (w_stream w') 0 ->
       exists r', ReadCollection_out (r_set_stream s (raw_reader (new_in (new_memory 0))))
           = Ok ((3, [[104; 105]; []; [106]]), r')
         /\ r_elemId r' = 0 /\ r_stream r' = in_at (os_pos (w_stream w')) s.
Proof.
  apply (collection_roundtrip string_bytes 1 [[104; 105]; []; [106]] sample_writer).
  - intros t Ht. apply string_element. apply sample_strings. exact Ht.
  - unfold inS. cbn. lia.
  - by vm_compute.
  - exact sample_ok.
  - reflexivity.
  - discriminate.
  - reflexivity.
  - reflexivity.
  - cbn. lia.
  - by vm_compute.
  - reflexivity.
  - reflexivity.
  - cbn. lia.
Defined.

(** C35: Skipping a value leaves the stream where reading it would: behind the value's last
    byte, for scalars, strings, arrays, nested collections and maps, and objects. *)
Theorem skip_reads_over v d s :
  shape_ok v -> (value_depth v <= d)%nat -> in_ok s -> holds (is_data s) (is_pos s) (value_bytes v) ->
  is_pos s + Z.of_nat (length (value_bytes v)) <= is_len s ->
  Skip d s = Ok (tt, in_at (is_pos s + Z.of_nat (length (value_bytes v))) s).
Proof. intros Hv Hd. by apply skip_values. Qed.

Definition sample_value : value :=
  VColl 1 [VString [104; 105]; VScalar KInt 7; VMap 2 [(VScalar KBool true, VNull)];
           VObject 3 [(8, value_bytes (VScalar KShort 9))] None].
Definition sample_stream : InStream :=
  MkIn (new_memory 0) (map Some (value_bytes sample_value)) (Z.of_nat (length (value_bytes sample_value))) 0.

Lemma skip_reads_over_witness :
  Skip 3 sample_stream = Ok (tt, in_at (0 + Z.of_nat (length (value_bytes sample_value))) sample_stream).
Proof.
  apply (skip_reads_over sample_value 3 sample_stream).
  - cbn. repeat split; try lia. repeat constructor; by vm_compute.
  - by vm_compute.
  - by vm_compute.
  - apply holds_src.
  - reflexivity.
Defined.
