(* ===== verification/ParamWire.v ===== *)
(** Parameters and decimals in the binary protocol: [Parameter::Write] of
    [app/parameter.cpp], [ParameterSet::Write] of [app/parameter_set.cpp] and the
    stream functions of [utility.cpp]. *)
From S2P Require Import Prelude OrdMap Memory Chrono Utf8 TypeTraits BigInteger BigBytes Decimal AppBuffer AppRead Params.
From S2P Require Import Interop InteropProps BinUtils BinSchema BinObject BinWriter BinReader.

(** * utility.cpp *)

(** [ReadString(reader, str)]: the length first, then the characters. *)
Definition u_ReadString : reader (list Z) :=
  let! (strLen, _) := R.ReadString false 0 in
  if 0 <? strLen then
    let! (_, s) := R.ReadString true strLen in
    ret (default (replicate (Z.to_nat strLen) 0) s)
  else if strLen =? 0 then R.ReadString true 1 ;;; ret []
  else ret [].

Definition u_WriteString (str : list Z) : writer unit :=
  W.WriteString (Some str) (i32 (Z.of_nat (length str))).

Definition u_ReadByteArray : reader (list Z) :=
  let! (len, _) := R.ReadInt8Array false 0 in
  if 0 <? len then
    let! (_, l) := R.ReadInt8Array true len in
    ret (default (replicate (Z.to_nat len) 0) l)
  else ret [].

(** The header is only checked by an assertion.  The first byte of an empty magnitude is
    not there, and [resize] throws for a negative length. *)
Definition u_ReadDecimal : reader Decimal :=
  R.ReadInt8 ;;;
  let! scale := R.ReadInt32 in
  let! len := R.ReadInt32 in
  if len <? 0 then throw length_error
  else
    let! mag := of_stream (BU.ReadInt8Array len) in
    match mag with
    | [] => undefined
    | _ => ret (ReadDecimal (scale, len, mag))
    end.

Definition u_WriteDecimal (d : Decimal) : writer unit :=
  W.WriteInt8 DOCUMENTDB_TYPE_DECIMAL ;;;
  W.WriteInt32 (scale d) ;;;
  let mag := MagnitudeToBytes (magnitude d) in
  let size := Z.of_nat (length mag) in
  let addBit := if sign (magnitude d) =? -1 then -0x80 else 0 in
  if mag !!! 0%nat <? 0 then
    W.WriteInt32 (size + 1) ;;; W.WriteInt8 addBit ;;; on_stream (BU.WriteInt8Array mag size)
  else
    W.WriteInt32 size ;;;
    on_stream (BU.WriteInt8Array (<[0%nat := i8 (Z.lor (mag !!! 0%nat) addBit)]> mag) size).

(** * Parameters *)

(** The ODBC 2 codes. *)
Definition SQL_DATE : Z := 9.
Definition SQL_TIME : Z := 10.
Definition SQL_TIMESTAMP : Z := 11.

(** What reading numbers and GUIDs from texts gives, and decimals from doubles. *)
Class ParamTexts : Type := {
  parse_float : list Z -> Z;
  parse_guid_text : list Z -> Guid;
  decimal_of_double : Z -> Decimal
}.

(** [GetNum<T>] for [float] and [double], as bits; [of_int] and [of_single] and [of_double]
    convert. *)
Section get_float.
Context `{Platform} (parse : list Z -> Z) (of_int of_single of_double : Z -> Z).

Definition GetNumF (b : ApplicationDataBuffer) (m : mem) : outcome Z Z :=
  match adb_type b with
  | AI_CHAR | AI_WCHAR =>
      let* paramLen := GetInputSize b m in
      if paramLen =? 0 then Ok 0 else
      let* str := get_text b (u64 paramLen) m in
      Ok (parse str)
  | AI_SIGNED_TINYINT => let* v := get_fixed b 1 true m in Ok (of_int v)
  | AI_BIT | AI_UNSIGNED_TINYINT => let* v := get_fixed b 1 false m in Ok (of_int v)
  | AI_SIGNED_SHORT => let* v := get_fixed b 2 true m in Ok (of_int v)
  | AI_UNSIGNED_SHORT => let* v := get_fixed b 2 false m in Ok (of_int v)
  | AI_SIGNED_LONG => let* v := get_fixed b sizeof_long true m in Ok (of_int v)
  | AI_UNSIGNED_LONG => let* v := get_fixed b sizeof_long false m in Ok (of_int v)
  | AI_SIGNED_BIGINT => let* v := get_fixed b 8 true m in Ok (of_int v)
  | AI_UNSIGNED_BIGINT => let* v := get_fixed b 8 false m in Ok (of_int v)
  | AI_FLOAT => let* v := get_fixed b 4 false m in Ok (of_single v)
  | AI_DOUBLE => let* v := get_fixed b 8 false m in Ok (of_double v)
  | AI_NUMERIC =>
      let* dec := get_numeric b m in
      let* v := dec_ToInt64 dec in
      Ok (of_int v)
  | _ => Ok 0
  end.

End get_float.

Section parameters.
Context `{Platform} `{ParamTexts}.

Definition GetFloat (b : ApplicationDataBuffer) (m : mem) : outcome Z Z :=
  GetNumF parse_float int_to_float (fun v => v) double_to_float b m.
Definition GetDouble (b : ApplicationDataBuffer) (m : mem) : outcome Z Z :=
  GetNumF Utf8.parse_double int_to_double float_to_double (fun v => v) b m.

(** The value is taken from the application's memory first, then written. *)
Definition put_value {A} (v : outcome Z A) (f : A -> writer unit) : writer unit := let! a := from v in f a.

Definition write_by_type (sqlType columnSize : Z) (buf : ApplicationDataBuffer) (m : mem) : writer unit :=
  if bool_decide (sqlType ∈ [SQL_CHAR; SQL_VARCHAR; SQL_LONGVARCHAR; SQL_WCHAR; SQL_WVARCHAR; SQL_WLONGVARCHAR]) then
    put_value (GetString buf columnSize m) u_WriteString
  else if sqlType =? SQL_SMALLINT then put_value (GetInt16 buf m) (@WriteObject Z top_int16)
  else if sqlType =? SQL_INTEGER then put_value (GetInt32 buf m) (@WriteObject Z top_int32)
  else if sqlType =? SQL_FLOAT then put_value (GetFloat buf m) (@WriteObject Z top_float)
  else if sqlType =? SQL_DOUBLE then put_value (GetDouble buf m) (@WriteObject Z top_double)
  else if sqlType =? SQL_TINYINT then put_value (GetInt8 buf m) (@WriteObject Z top_int8)
  else if sqlType =? SQL_BIT then put_value (GetInt8 buf m) (fun v => WriteObject (negb (v =? 0)))
  else if sqlType =? SQL_BIGINT then put_value (GetInt64 buf m) (@WriteObject Z top_int64)
  else if bool_decide (sqlType ∈ [SQL_TYPE_DATE; SQL_DATE]) then put_value (GetDate buf m) W.WriteDate
  else if bool_decide (sqlType ∈ [SQL_TYPE_TIMESTAMP; SQL_TIMESTAMP]) then
    put_value (GetTimestamp buf m) W.WriteTimestamp
  else if bool_decide (sqlType ∈ [SQL_TYPE_TIME; SQL_TIME]) then put_value (GetTime buf m) W.WriteTime
  else if bool_decide (sqlType ∈ [SQL_BINARY; SQL_VARBINARY; SQL_LONGVARBINARY]) then
    if GetResLen buf =? 0 then ret tt
    else
      put_value (let* l := ld (GetResLen buf) 8 m in
                 let paramLen := i32 (le_val l) in
                 if GetData buf =? 0 then Ok (None, paramLen)
                 else if paramLen <? 0 then UB
                 else
                   let* bs := ld (GetData buf) (Z.to_nat paramLen) m in
                   Ok (Some (map i8 bs), paramLen))
        (fun '(bs, n) => W.WriteInt8Array bs n)
  else if sqlType =? SQL_GUID then put_value (GetGuid buf parse_guid_text m) W.WriteGuid
  else if sqlType =? SQL_DECIMAL then
    put_value (GetDecimal buf dec_zero decimal_of_double m) u_WriteDecimal
  else ret tt.

(** The data sent at execution is the driver's own, at [stored], with its length at
    [lenPtr]; a pointer to the first byte of nothing is undefined. *)
Context (stored lenPtr : Z).

Fixpoint place (a : Z) (bs : list Z) (m : mem) : mem :=
  match bs with
  | [] => m
  | b :: t => <[a := b]> (place (a + 1) t m)
  end.

Definition at_exec (p : BoundParameter) (m : mem) : outcome Z (ApplicationDataBuffer * mem) :=
  match p_storedData p with
  | [] => UB
  | data =>
      let len := Z.of_nat (length data) in
      Ok (ADB (adb_type (p_buffer p)) stored len lenPtr 0 0, place stored data (place lenPtr (le_bytes 8 len) m))
  end.

(** [SetByteOffset] and [SetElementOffset] of a copy of the buffer. *)
Definition buffer_at (offset idx : Z) (b : ApplicationDataBuffer) : ApplicationDataBuffer :=
  ADB (adb_type b) (adb_buffer b) (adb_buflen b) (adb_reslen b) offset idx.

Definition param_Write (p : BoundParameter) (offset idx : Z) (m : mem) : writer unit :=
  let! size := from (GetInputSize (p_buffer p) m) in
  if size =? SQL_NULL_DATA then W.WriteNull
  else
    let! atExec := from (IsDataAtExec (p_buffer p) m) in
    let! (buf, m) := from (if atExec : bool then at_exec p m else Ok (buffer_at offset idx (p_buffer p), m)) in
    write_by_type (p_sqlType p) (p_columnSize p) buf m.

(** ** Sets *)

(** [while ((paramIdx - prev) > 1)]. *)
Definition write_gap (prev paramIdx : Z) : writer unit :=
  for_each (fun _ => W.WriteNull) (seqZ (prev + 1) (paramIdx - prev - 1)).

Fixpoint write_params (l : omap BoundParameter) (prev offset idx : Z) (m : mem) : writer unit :=
  match l with
  | [] => ret tt
  | (paramIdx, p) :: t =>
      write_gap prev paramIdx ;;;
      param_Write p offset idx m ;;;
      write_params t paramIdx offset idx m
  end.

Definition app_offset (ps : ParameterSet) (m : mem) : outcome Z Z :=
  if ps_paramBindOffset ps =? 0 then Ok 0
  else let* bs := ld (ps_paramBindOffset ps) 4 m in Ok (i32 (le_val bs)).

Definition WriteRow (ps : ParameterSet) (idx : Z) (m : mem) : writer unit :=
  let! appOffset := from (app_offset ps m) in
  write_params (ps_parameters ps) 0 appOffset idx m.

Definition set_Write (ps : ParameterSet) (m : mem) : writer unit :=
  W.WriteInt32 (CalculateRowLen ps) ;;; WriteRow ps 0 m.

(** The rows from [first] to [stop] of the set; an assertion says that there are some. *)
Definition set_Write_rows (ps : ParameterSet) (first stop : Z) (last : bool) (m : mem) : writer unit :=
  let rowLen := CalculateRowLen ps in
  W.WriteInt32 rowLen ;;;
  let intervalEnd := Z.min (ps_paramSetSize ps) stop in
  W.WriteInt32 (i32 (u64 (intervalEnd - first))) ;;;
  W.WriteBool last ;;;
  if negb (rowLen =? 0) then for_each (fun i => WriteRow ps i m) (seqZ first (intervalEnd - first)) else ret tt.

End parameters.
