(* ===== verification/PageRow.v ===== *)
(** Rows in result pages of the binary protocol: [column.cpp], [row.cpp],
    [result_page.cpp] and [cursor.cpp].  Assertions are off, as in a release build. *)
From S2P Require Import Prelude Memory Utf8 Chrono BigInteger Decimal TypeTraits AppBuffer DocColumn.
From S2P Require Import Interop InteropProps BinUtils BinSchema BinObject BinWriter BinReader ParamWire.

(** The characters and bytes that the streams give are signed. *)
Definition bytes_of (l : list Z) : list Z := map u8 l.

(** * Columns *)

Record Column : Type := MkColumn {
  c_type : Z;
  c_startPos : Z;
  c_endPos : Z;
  c_offset : Z;
  c_size : Z
}.

Definition invalid_column : Column := MkColumn 0 (-1) (-1) 0 0.
Definition IsValid (c : Column) : bool := 0 <=? c_startPos c.
Definition GetUnreadDataLength (c : Column) : outcome Z Z := checked 32 (c_size c - c_offset c).

Definition IncreaseOffset (value : Z) (c : Column) : outcome Z Column :=
  let* off := checked 32 (c_offset c + value) in
  Ok (MkColumn (c_type c) (c_startPos c) (c_endPos c) (if c_size c <? off then c_size c else off) (c_size c)).

(** [GetObjectLength]: the position stays. *)
Definition GetObjectLength : inp (option Z) :=
  In.guarded (
    let! hdr := In.ReadInt8 in
    if hdr =? DOCUMENTDB_TYPE_BINARY then
      let! n := In.ReadInt32 in
      let! len := int32 (1 + 4 + n + 4) in
      ret (Some len)
    else if hdr =? DOCUMENTDB_TYPE_OBJECT then
      let! protoVer := In.ReadInt8 in
      if negb (protoVer =? DOCUMENTDB_PROTO_VER) then ret None
      else
        let! pos := In.Position in
        let! p := int32 (pos + 2 + 4 + 4) in
        let! len := In.ReadInt32_from p in
        ret (Some len)
    else ret None).

(** The header is consumed when what follows has no header of its own. *)
Definition ReadColumnHeader : inp Z :=
  let! headerPos := In.Position in
  let! hdr := In.ReadInt8 in
  if bool_decide (hdr ∈ [DOCUMENTDB_TYPE_BYTE; DOCUMENTDB_TYPE_SHORT; DOCUMENTDB_TYPE_CHAR; DOCUMENTDB_TYPE_INT;
       DOCUMENTDB_TYPE_LONG; DOCUMENTDB_TYPE_FLOAT; DOCUMENTDB_TYPE_DOUBLE; DOCUMENTDB_TYPE_BOOL;
       DOCUMENTDB_HDR_NULL; DOCUMENTDB_TYPE_ARRAY_BYTE])
  then ret hdr
  else In.set_Position headerPos ;;; ret hdr.

(** [stream->Position(stream->Position() + n)]. *)
Definition advance (n : Z) : inp unit :=
  let! pos := In.Position in let! p := int32 (pos + n) in In.set_Position p.

(** Reading over the value: its size and, for byte arrays, where it starts; nothing when
    the column stays invalid. *)
Definition column_extent (hdr : Z) : reader (option (Z * option Z)) :=
  let sized {A} (f : reader A) (n : Z) : reader (option (Z * option Z)) := f ;;; ret (Some (n, None)) in
  if hdr =? DOCUMENTDB_HDR_NULL then ret (Some (1, None))
  else if hdr =? DOCUMENTDB_TYPE_BYTE then sized R.ReadInt8 1
  else if hdr =? DOCUMENTDB_TYPE_BOOL then sized R.ReadBool 1
  else if (hdr =? DOCUMENTDB_TYPE_SHORT) || (hdr =? DOCUMENTDB_TYPE_CHAR) then sized R.ReadInt16 2
  else if hdr =? DOCUMENTDB_TYPE_FLOAT then sized R.ReadFloat 4
  else if hdr =? DOCUMENTDB_TYPE_INT then sized R.ReadInt32 4
  else if hdr =? DOCUMENTDB_TYPE_DOUBLE then sized R.ReadDouble 8
  else if hdr =? DOCUMENTDB_TYPE_LONG then sized R.ReadInt64 8
  else if hdr =? DOCUMENTDB_TYPE_STRING then
    let! str := u_ReadString in ret (Some (i32 (Z.of_nat (length str)), None))
  else if hdr =? DOCUMENTDB_TYPE_UUID then sized R.ReadGuid 16
  else if (hdr =? DOCUMENTDB_TYPE_BINARY) || (hdr =? DOCUMENTDB_TYPE_OBJECT) then
    let! len := of_stream GetObjectLength in
    match len with
    | None => ret None
    | Some len => of_stream (advance len) ;;; ret (Some (len, None))
    end
  else if hdr =? DOCUMENTDB_TYPE_DECIMAL then
    let! res := u_ReadDecimal in
    let! n := int32 (GetMagnitudeLength res + 8) in
    ret (Some (n, None))
  else if hdr =? DOCUMENTDB_TYPE_DATE then sized R.ReadDate 8
  else if hdr =? DOCUMENTDB_TYPE_TIME then sized R.ReadTime 8
  else if hdr =? DOCUMENTDB_TYPE_TIMESTAMP then sized R.ReadTimestamp 12
  else if hdr =? DOCUMENTDB_TYPE_ARRAY_BYTE then
    let! n := R.ReadInt32 in
    let! start := of_stream In.Position in
    of_stream (advance n) ;;;
    ret (Some (n, Some start))
  else ret None.

(** [Column(reader)]; the guard goes back to the column's first byte. *)
Definition new_column : reader Column :=
  let! here := of_stream In.Position in
  let! hdr := of_stream ReadColumnHeader in
  let! startPosTmp := of_stream In.Position in
  let! extent := column_extent hdr in
  let! stop := of_stream In.Position in
  of_stream (In.set_Position here) ;;;
  ret (match extent with
       | None => invalid_column
       | Some (sizeTmp, start) => MkColumn hdr (default startPosTmp start) stop 0 sizeTmp
       end).

(** ** Into the application's buffer *)

Section into_buffer.
Context `{Platform} `{Calendar} (toDouble : Decimal -> Z).

(** Conversions that give the number of units written, and those that do not. *)
Definition written_result := (ConversionResult * Z * mem)%type.

Definition put_whole (r : outcome Z (ConversionResult * mem)) (c : Column)
  : reader (ConversionResult * Column * mem) :=
  let! (res, m) := from r in
  let! c := from (IncreaseOffset (c_size c) c) in
  ret (res, c, m).
Definition put_part (r : outcome Z written_result) (c : Column) : reader (ConversionResult * Column * mem) :=
  let! (res, written, m) := from r in
  let! c := from (IncreaseOffset written c) in
  ret (res, c, m).
(** Dates and times: the offset stays. *)
Definition put_again (r : outcome Z (ConversionResult * mem)) (c : Column)
  : reader (ConversionResult * Column * mem) :=
  let! (res, m) := from r in ret (res, c, m).

(** The switch of [ReadToBuffer], with the stream at the value. *)
Definition put_column (c : Column) (b : ApplicationDataBuffer) (m : mem)
  : reader (ConversionResult * Column * mem) :=
  let type := c_type c in
  if type =? DOCUMENTDB_TYPE_BYTE then let! v := R.ReadInt8 in put_whole (PutInt8 b v m) c
  else if (type =? DOCUMENTDB_TYPE_SHORT) || (type =? DOCUMENTDB_TYPE_CHAR) then
    let! v := R.ReadInt16 in put_whole (PutInt16 b v m) c
  else if type =? DOCUMENTDB_TYPE_INT then let! v := R.ReadInt32 in put_whole (PutInt32 b v m) c
  else if type =? DOCUMENTDB_TYPE_LONG then let! v := R.ReadInt64 in put_whole (PutInt64 b v m) c
  else if type =? DOCUMENTDB_TYPE_FLOAT then let! v := R.ReadFloat in put_whole (PutNumF f_float b v m) c
  else if type =? DOCUMENTDB_TYPE_DOUBLE then let! v := R.ReadDouble in put_whole (PutNumF f_double b v m) c
  else if type =? DOCUMENTDB_TYPE_BOOL then
    let! v := R.ReadBool in put_whole (PutInt8 b (if v : bool then 1 else 0) m) c
  else if type =? DOCUMENTDB_TYPE_STRING then
    let! str := u_ReadString in
    if Z.of_nat (length str) <? u64 (c_offset c) then throw length_error
    else put_part (PutStringWritten b (drop (Z.to_nat (c_offset c)) (bytes_of str)) m) c
  else if type =? DOCUMENTDB_TYPE_UUID then let! v := R.ReadGuid in put_whole (PutGuid b v m) c
  else if type =? DOCUMENTDB_HDR_NULL then put_whole (PutNull b m) c
  else if (type =? DOCUMENTDB_TYPE_BINARY) || (type =? DOCUMENTDB_TYPE_OBJECT) then
    let! len := of_stream GetObjectLength in
    match len with
    | None => ret (AI_FAILURE, c, m)
    | Some len =>
        if len <? 0 then throw length_error
        else if len =? 0 then undefined
        else
          let! data := of_stream (In.ReadInt8Array len) in
          if (c_offset c <? 0) || (len <? c_offset c) then undefined
          else put_part (PutBinaryData b (drop (Z.to_nat (c_offset c)) (bytes_of data)) m) c
    end
  else if type =? DOCUMENTDB_TYPE_DECIMAL then
    let! res := u_ReadDecimal in put_whole (PutDecimal b res toDouble m) c
  else if type =? DOCUMENTDB_TYPE_DATE then let! v := R.ReadDate in put_again (PutDate b v m) c
  else if type =? DOCUMENTDB_TYPE_TIMESTAMP then let! v := R.ReadTimestamp in put_again (PutTimestamp b v m) c
  else if type =? DOCUMENTDB_TYPE_TIME then let! v := R.ReadTime in put_again (PutTime b v m) c
  else if type =? DOCUMENTDB_TYPE_ARRAY_BYTE then
    let! p := int32 (c_startPos c + c_offset c) in
    of_stream (In.set_Position p) ;;;
    let! unread := from (GetUnreadDataLength c) in
    let maxRead := Z.min unread (i32 (GetSize b)) in
    if maxRead <? 0 then throw length_error
    else if maxRead =? 0 then undefined
    else
      let! data := of_stream (In.ReadInt8Array maxRead) in
      put_part (PutBinaryData b (bytes_of data) m) c
  else ret (AI_UNSUPPORTED_CONVERSION, c, m).

Definition ReadToBuffer (c : Column) (b : ApplicationDataBuffer) (m : mem)
  : reader (ConversionResult * Column * mem) :=
  if negb (IsValid c) then ret (AI_FAILURE, c, m)
  else
    let! unread := from (GetUnreadDataLength c) in
    if unread =? 0 then
      let! (_, m) := from (PutNull b m) in ret (AI_NO_DATA, c, m)
    else
      let! here := of_stream In.Position in
      of_stream (In.set_Position (c_startPos c)) ;;;
      let! r := put_column c b m in
      of_stream (In.set_Position here) ;;;
      ret r.

(** * Rows *)

Record Row : Type := MkRow {
  rw_beginPos : Z;
  rw_pos : Z;
  rw_size : Z;
  rw_reader : BinaryReaderImpl;
  rw_columns : list Column
}.

(** [reserve] throws for a negative size. *)
Definition Reinit (r : Row) : outcome Z Row :=
  let* (size, rd) := of_stream In.ReadInt32 (rw_reader r) in
  if size <? 0 then Throw length_error
  else Ok (MkRow (is_pos (r_stream rd)) 0 size rd []).

Definition new_row (pageData : InteropMemory) : outcome Z Row :=
  let r := MkRow 0 0 0 (raw_reader (new_in pageData)) [] in
  if 4 <=? mm_len pageData then Reinit r else Ok r.

(** [while (columns.size() < columnIdx)], for [n] more columns. *)
Fixpoint discover (n : nat) (cols : list Column) : reader (bool * list Column) :=
  match n with
  | O => ret (true, cols)
  | S k =>
      (match last cols with
       | Some column => of_stream (In.set_Position (c_endPos column))
       | None => ret tt
       end) ;;;
      let! newColumn := new_column in
      if IsValid newColumn then discover k (cols ++ [newColumn]) else ret (false, cols)
  end.

Definition set_columns (rd : BinaryReaderImpl) (cols : list Column) (r : Row) : Row :=
  MkRow (rw_beginPos r) (rw_pos r) (rw_size r) rd cols.

Definition EnsureColumnDiscovered (columnIdx : Z) (r : Row) : outcome Z (bool * Row) :=
  let have := Z.of_nat (length (rw_columns r)) in
  if columnIdx <=? have then Ok (true, r)
  else if (rw_size r <? columnIdx) || (columnIdx <? 1) then Ok (false, r)
  else
    let* ((ok, cols), rd) := discover (Z.to_nat (columnIdx - have)) (rw_columns r) (rw_reader r) in
    Ok (ok, set_columns rd cols r).

(** [columns[columnIdx - 1]]. *)
Definition GetColumn (columnIdx : Z) (r : Row) : outcome Z Column :=
  if columnIdx <? 1 then UB
  else match rw_columns r !! Z.to_nat (columnIdx - 1) with Some c => Ok c | None => UB end.

Definition ReadColumnToBuffer (columnIdx : Z) (b : ApplicationDataBuffer) (r : Row) (m : mem)
  : outcome Z (ConversionResult * Row * mem) :=
  let* (ok, r) := EnsureColumnDiscovered columnIdx r in
  if negb ok then Ok (AI_FAILURE, r, m)
  else
    let* column := GetColumn columnIdx r in
    let* ((res, column, m), rd) := ReadToBuffer column b m (rw_reader r) in
    Ok (res, set_columns rd (<[Z.to_nat (columnIdx - 1) := column]> (rw_columns r)) r, m).

(** The last column's number becomes a [uint16_t]. *)
Definition MoveToNext (r : Row) : outcome Z (bool * Row) :=
  let lastColumnIdx := u16 (rw_size r) in
  let* (ok, r) := EnsureColumnDiscovered lastColumnIdx r in
  if negb ok then Ok (false, r)
  else
    let* lastColumn := GetColumn lastColumnIdx r in
    let* (_, rd) := of_stream (In.set_Position (c_endPos lastColumn)) (rw_reader r) in
    let* r := Reinit (set_columns rd (rw_columns r) r) in
    Ok (true, r).

End into_buffer.

(** * Pages *)

Definition DEFAULT_ALLOCATED_MEMORY : Z := 1024.

Record ResultPage : Type := MkPage { pg_last : bool; pg_size : Z; pg_data : InteropMemory }.
Definition new_page : ResultPage := MkPage false 0 (new_memory DEFAULT_ALLOCATED_MEMORY).

(** The rest of the stream is copied. *)
Definition page_Read (p : ResultPage) : reader ResultPage :=
  let! last := R.ReadBool in
  let! size := R.ReadInt32 in
  let! dataToRead := of_stream In.Remaining in
  let data := mem_Length dataToRead (pg_data p) in
  if negb (dataToRead =? 0) then
    let! data := from (Reallocate dataToRead data) in
    let! bs := of_stream (In.ReadInt8Array dataToRead) in
    let! d := from (put_at (mm_data data) 0 (bytes_of bs)) in
    ret (MkPage last size (mem_set_data d data))
  else ret (MkPage last size data).

(** * Cursors *)

Record Cursor : Type := MkCursor {
  cu_queryId : Z;
  currentPage : option ResultPage;
  currentPagePos : Z;
  currentRow : option Row
}.

Definition new_cursor (queryId : Z) : Cursor := MkCursor queryId None 0 None.

Definition cursor_Increment (c : Cursor) : outcome Z (bool * Cursor) :=
  match currentPage c with
  | Some page =>
      if currentPagePos c <? pg_size page then
        let* pos := checked 32 (currentPagePos c + 1) in
        if pos =? pg_size page then Ok (true, MkCursor (cu_queryId c) (Some page) pos None)
        else
          match currentRow c with
          | Some row =>
              let* (_, row) := MoveToNext row in
              Ok (true, MkCursor (cu_queryId c) (Some page) pos (Some row))
          | None => Ok (true, MkCursor (cu_queryId c) (Some page) pos None)
          end
      else Ok (false, c)
  | None => Ok (false, c)
  end.

Definition NeedDataUpdate (c : Cursor) : bool :=
  match currentPage c with
  | None => true
  | Some page => negb (pg_last page) && (currentPagePos c =? pg_size page)
  end.

Definition cursor_HasData (c : Cursor) : bool :=
  match currentPage c with
  | None => true
  | Some page => negb (pg_last page) || (currentPagePos c <? pg_size page)
  end.

Definition IsClosedRemotely (c : Cursor) : bool :=
  match currentPage c with Some page => pg_last page | None => false end.

Definition UpdateData (newPage : ResultPage) (c : Cursor) : outcome Z Cursor :=
  let* row := new_row (pg_data newPage) in
  Ok (MkCursor (cu_queryId c) (Some newPage) 0 (Some row)).

Definition GetRow (c : Cursor) : option Row := currentRow c.
