(* ===== verification/Message.v ===== *)
(** The messages of the binary protocol: [message.{h,cpp}] and [protocol_version.cpp].

    A request writes itself with a raw writer; a response reads itself with a raw
    reader, into what its constructor made of it. *)
From S2P Require Import Prelude OrdMap Memory Utf8 TypeTraits BigText Decimal AppBuffer AppRead Params Diag Config DocColumn.
From S2P Require Import Interop InteropProps BinUtils BinSchema BinObject BinWriter BinReader ParamWire PageRow.

Definition DOCUMENTDB_ERR_GENERIC : Z := 2000.

(** * ProtocolVersion *)

Record ProtocolVersion : Type := MkVersion { vmajor : Z; vminor : Z; vmaintenance : Z }.

Definition VERSION_2_1_0 : ProtocolVersion := MkVersion 2 1 0.
Definition VERSION_2_1_5 : ProtocolVersion := MkVersion 2 1 5.
Definition VERSION_2_3_0 : ProtocolVersion := MkVersion 2 3 0.
Definition VERSION_2_3_2 : ProtocolVersion := MkVersion 2 3 2.
Definition VERSION_2_5_0 : ProtocolVersion := MkVersion 2 5 0.
Definition VERSION_2_7_0 : ProtocolVersion := MkVersion 2 7 0.
Definition VERSION_2_8_0 : ProtocolVersion := MkVersion 2 8 0.
Definition supported : list ProtocolVersion :=
  [VERSION_2_1_0; VERSION_2_1_5; VERSION_2_3_0; VERSION_2_3_2; VERSION_2_5_0; VERSION_2_7_0; VERSION_2_8_0].
Definition GetCurrent : ProtocolVersion := VERSION_2_8_0.

Definition version_Compare (a b : ProtocolVersion) : Z :=
  let res := vmajor a - vmajor b in
  let res := if res =? 0 then vminor a - vminor b else res in
  if res =? 0 then vmaintenance a - vmaintenance b else res.

Definition version_lt (a b : ProtocolVersion) : bool := version_Compare a b <? 0.
Definition version_ge (a b : ProtocolVersion) : bool := 0 <=? version_Compare a b.
Definition version_eq (a b : ProtocolVersion) : bool := version_Compare a b =? 0.

(** A set finds what is neither less nor greater. *)
Definition IsSupported (v : ProtocolVersion) : bool :=
  existsb (fun s => negb (version_lt s v) && negb (version_lt v s)) supported.

Definition version_ToString (v : ProtocolVersion) : list Z :=
  show_int (vmajor v) ++ [46] ++ show_int (vminor v) ++ [46] ++ show_int (vmaintenance v).

(** [buf >> x] for an [int16_t]: the number, whether the stream is good afterwards, and
    the rest of the text.  Out of range, the number is the nearest one. *)
Definition read_short (s : list Z) : Z * bool * list Z :=
  let s := drop_spaces s in
  let '(sgn, s) := match s with 45 :: t => (-1, t) | 43 :: t => (1, t) | _ => (1, s) end in
  let ds := leading_digits 10 s in
  let rest := drop (length ds) s in
  let v := sgn * base_value 10 ds in
  let good := negb (bool_decide (ds = [])) && bool_decide (inS 16 v) && negb (bool_decide (rest = [])) in
  (Z.max (- 2 ^ 15) (Z.min v (2 ^ 15 - 1)), good, rest).

(** [buf.get() != '.' || !buf.good()]; a stream that has been read to its end is still good
    until more is asked for. *)
Definition read_dot (s : list Z) : outcome Z (list Z) :=
  match s with 46 :: t => Ok t | _ => Throw DOCUMENTDB_ERR_GENERIC end.

(** The last number is not checked: only [bad] is tested, and no failure to read a
    number sets it. *)
Definition version_FromString (version : list Z) : outcome Z ProtocolVersion :=
  let '(major, good, s) := read_short version in
  if negb good then Throw DOCUMENTDB_ERR_GENERIC
  else
    let* s := read_dot s in
    let '(minor, good, s) := read_short s in
    if negb good then Throw DOCUMENTDB_ERR_GENERIC
    else
      let* s := read_dot s in
      let '(maintenance, _, _) := read_short s in
      Ok (MkVersion major minor maintenance).

(** * Requests *)

Module RT.
Definition HANDSHAKE : Z := 1.
Definition EXECUTE_SQL_QUERY : Z := 2.
Definition FETCH_SQL_QUERY : Z := 3.
Definition CLOSE_SQL_QUERY : Z := 4.
Definition GET_COLUMNS_METADATA : Z := 5.
Definition GET_TABLES_METADATA : Z := 6.
Definition GET_PARAMS_METADATA : Z := 7.
Definition EXECUTE_SQL_QUERY_BATCH : Z := 8.
Definition QUERY_MORE_RESULTS : Z := 9.
Definition STREAMING_BATCH : Z := 10.
Definition META_RESULTSET : Z := 11.
End RT.
Definition ClientType_ODBC : Z := 0.

(** What a request writes besides numbers and texts is given as an operation: the
    parameters, and the rows of a batch with their number. *)
Inductive Request : Type :=
| HandshakeRequest
| QueryExecuteRequest (schema sql : list Z) (params : writer unit) (timeout : Z)
| QueryExecuteBatchRequest (schema sql : list Z) (params : writer unit) (timeout : Z)
| QueryCloseRequest (queryId : Z)
| QueryFetchRequest (queryId pageSize : Z)
| QueryGetColumnsMetaRequest (schema table column : list Z)
| QueryGetResultsetMetaRequest (schema sqlQuery : list Z)
| QueryGetTablesMetaRequest (catalog schema table tableTypes : list Z)
| QueryGetParamsMetaRequest (schema sqlQuery : list Z)
| QueryMoreResultsRequest (queryId pageSize : Z)
| StreamingBatchRequest (schema : list Z) (size : Z) (data : list Z) (last : bool) (order : Z).

(** The requests of [QueryExecuteRequest] and [QueryExecuteBatchRequest] with their set of
    parameters. *)
Definition execute_request `{Platform} `{ParamTexts} (stored lenPtr : Z) (schema sql : list Z)
    (params : ParameterSet) (timeout : Z) (m : mem) : Request :=
  QueryExecuteRequest schema sql (set_Write stored lenPtr params m) timeout.
Definition execute_batch_request `{Platform} `{ParamTexts} (stored lenPtr : Z) (schema sql : list Z)
    (params : ParameterSet) (first stop : Z) (last : bool) (timeout : Z) (m : mem) : Request :=
  QueryExecuteBatchRequest schema sql (set_Write_rows stored lenPtr params first stop last m) timeout.

Definition write_schema (schema : list Z) : writer unit :=
  match schema with [] => W.WriteNull | _ => WriteObject schema end.
Definition write_timeout (ver : ProtocolVersion) (timeout : Z) : writer unit :=
  if version_ge ver VERSION_2_3_2 then W.WriteInt32 timeout else ret tt.

Definition handshake_Write : writer unit :=
  W.WriteInt8 RT.HANDSHAKE ;;;
  W.WriteInt16 (vmajor GetCurrent) ;;;
  W.WriteInt16 (vminor GetCurrent) ;;;
  W.WriteInt16 (vmaintenance GetCurrent) ;;;
  W.WriteInt8 ClientType_ODBC.

Definition execute_Write (schema sql : list Z) (params : writer unit) (timeout : Z) (ver : ProtocolVersion)
  : writer unit :=
  W.WriteInt8 RT.EXECUTE_SQL_QUERY ;;; write_schema schema ;;; WriteObject sql ;;; params ;;;
  write_timeout ver timeout.

Definition execute_batch_Write (schema sql : list Z) (params : writer unit) (timeout : Z) (ver : ProtocolVersion)
  : writer unit :=
  W.WriteInt8 RT.EXECUTE_SQL_QUERY_BATCH ;;; write_schema schema ;;; WriteObject sql ;;; params ;;;
  write_timeout ver timeout.

Definition close_Write (queryId : Z) : writer unit :=
  W.WriteInt8 RT.CLOSE_SQL_QUERY ;;; W.WriteInt64 queryId.

Definition fetch_Write (queryId pageSize : Z) : writer unit :=
  W.WriteInt8 RT.FETCH_SQL_QUERY ;;; W.WriteInt64 queryId ;;; W.WriteInt32 pageSize.

Definition columns_meta_Write (schema table column : list Z) : writer unit :=
  W.WriteInt8 RT.GET_COLUMNS_METADATA ;;; WriteObject schema ;;; WriteObject table ;;; WriteObject column.

Definition resultset_meta_Write (schema sqlQuery : list Z) : writer unit :=
  W.WriteInt8 RT.META_RESULTSET ;;; WriteObject schema ;;; WriteObject sqlQuery.

Definition tables_meta_Write (catalog schema table tableTypes : list Z) : writer unit :=
  W.WriteInt8 RT.GET_TABLES_METADATA ;;; WriteObject catalog ;;; WriteObject schema ;;; WriteObject table ;;;
  WriteObject tableTypes.

Definition params_meta_Write (schema sqlQuery : list Z) : writer unit :=
  W.WriteInt8 RT.GET_PARAMS_METADATA ;;; WriteObject schema ;;; WriteObject sqlQuery.

Definition more_results_Write (queryId pageSize : Z) : writer unit :=
  W.WriteInt8 RT.QUERY_MORE_RESULTS ;;; W.WriteInt64 queryId ;;; W.WriteInt32 pageSize.

Definition streaming_batch_Write (schema : list Z) (size : Z) (data : list Z) (last : bool) (order : Z)
  : writer unit :=
  W.WriteInt8 RT.STREAMING_BATCH ;;;
  W.WriteString_std schema ;;;
  W.WriteInt32 size ;;;
  (if negb (size =? 0) then on_stream (Out.WriteInt8Array data (Z.of_nat (length data))) else ret tt) ;;;
  W.WriteBool last ;;;
  W.WriteInt64 order.

Definition request_Write (r : Request) (ver : ProtocolVersion) : writer unit :=
  match r with
  | HandshakeRequest => handshake_Write
  | QueryExecuteRequest schema sql params timeout => execute_Write schema sql params timeout ver
  | QueryExecuteBatchRequest schema sql params timeout => execute_batch_Write schema sql params timeout ver
  | QueryCloseRequest queryId => close_Write queryId
  | QueryFetchRequest queryId pageSize => fetch_Write queryId pageSize
  | QueryGetColumnsMetaRequest schema table column => columns_meta_Write schema table column
  | QueryGetResultsetMetaRequest schema sqlQuery => resultset_meta_Write schema sqlQuery
  | QueryGetTablesMetaRequest catalog schema table tableTypes => tables_meta_Write catalog schema table tableTypes
  | QueryGetParamsMetaRequest schema sqlQuery => params_meta_Write schema sqlQuery
  | QueryMoreResultsRequest queryId pageSize => more_results_Write queryId pageSize
  | StreamingBatchRequest schema size data last order => streaming_batch_Write schema size data last order
  end.

(** * Responses *)

(** [Response::Read], for what [ReadOnSuccess] reads into [init]: the status, the error
    and the rest of the response. *)
Record Response (A : Type) : Type := MkResponse { rs_status : Z; rs_error : list Z; rs_body : A }.
Arguments MkResponse {A}.
Arguments rs_status {A}.
Arguments rs_error {A}.
Arguments rs_body {A}.

Definition new_response {A} (init : A) : Response A := MkResponse RS.UNKNOWN_ERROR [] init.

Definition Response_Read {A} (ver : ProtocolVersion) (ReadOnSuccess : A -> reader A) (rsp : Response A)
  : reader (Response A) :=
  let! status := (if version_lt ver VERSION_2_1_5 then R.ReadInt8 else R.ReadInt32) in
  if status =? RS.SUCCESS then
    let! body := ReadOnSuccess (rs_body rsp) in ret (MkResponse status (rs_error rsp) body)
  else
    let! error := u_ReadString in ret (MkResponse status error (rs_body rsp)).

Record HandshakeResponse : Type := MkHandshake { hs_accepted : bool; hs_currentVer : ProtocolVersion; hs_error : list Z }.
Definition new_handshake : HandshakeResponse := MkHandshake false (MkVersion 0 0 0) [].

Definition handshake_Read (r : HandshakeResponse) : reader HandshakeResponse :=
  let! accepted := R.ReadBool in
  if negb accepted then
    let! major := R.ReadInt16 in
    let! minor := R.ReadInt16 in
    let! maintenance := R.ReadInt16 in
    let! error := u_ReadString in
    ret (MkHandshake accepted (MkVersion major minor maintenance) error)
  else ret (MkHandshake accepted (hs_currentVer r) (hs_error r)).

(** [reserve] throws for a negative number. *)
Definition ReadAffectedRows (ver : ProtocolVersion) : reader (list Z) :=
  if version_lt ver VERSION_2_3_2 then let! n := R.ReadInt64 in ret [n]
  else
    let! len := R.ReadInt32 in
    if len <? 0 then throw length_error else repeat_op (Z.to_nat len) R.ReadInt64.

(** Nothing more is read for [QueryExecuteResponse] and [QueryGetResultsetMetaResponse]. *)
Definition plain_Read {A} (a : A) : reader A := ret a.

Definition close_Read (queryId : Z) : reader Z := R.ReadInt64.

Record ExecuteBatchBody : Type := MkExecuteBatch {
  eb_affectedRows : list Z;
  eb_errorMessage : list Z;
  eb_errorCode : Z
}.
Definition new_execute_batch : ExecuteBatchBody := MkExecuteBatch [] [] 1.

Definition execute_batch_Read (ver : ProtocolVersion) (b : ExecuteBatchBody) : reader ExecuteBatchBody :=
  let! success := R.ReadBool in
  let! affectedRows := ReadAffectedRows ver in
  if negb success then
    R.ReadInt64 ;;;
    let! errorMessage := ReadObject in
    let! errorCode := (if version_ge ver VERSION_2_1_5 then R.ReadInt32 else ret (eb_errorCode b)) in
    ret (MkExecuteBatch affectedRows errorMessage errorCode)
  else ret (MkExecuteBatch affectedRows (eb_errorMessage b) (eb_errorCode b)).

Record StreamingBatchBody : Type := MkStreaming { sb_errorMessage : list Z; sb_errorCode : Z; sb_order : Z }.
Definition new_streaming_body : StreamingBatchBody := MkStreaming [] RS.SUCCESS 0.

Definition streaming_batch_Read (b : StreamingBatchBody) : reader StreamingBatchBody :=
  let! errorMessage := ReadObject in
  let! errorCode := R.ReadInt32 in
  let! order := R.ReadInt64 in
  ret (MkStreaming errorMessage errorCode order).

(** [QueryFetchResponse] and [QueryMoreResultsResponse]: the query and the page. *)
Definition fetch_Read (b : Z * ResultPage) : reader (Z * ResultPage) :=
  let! queryId := R.ReadInt64 in let! page := page_Read b.2 in ret (queryId, page).

Definition params_meta_Read (typeIds : list Z) : reader (list Z) := u_ReadByteArray.
