(* ===== verification/Streaming.v ===== *)
(** Streaming of rows: [streaming/streaming_batch.cpp] and [streaming_context.cpp].

    Rows are collected in a batch and sent when it is full, when streaming ends, or on a
    flush.  [stream_server] is what the exchange of a batch with the server gives; the
    driver's own exchange, [SyncMessage], leaves the response as it is. *)
From S2P Require Import Prelude OrdMap Memory Utf8 TypeTraits AppBuffer AppRead Params Diag SqlLex Config Statement Driver.
From S2P Require Import Interop InteropProps BinUtils BinSchema BinObject BinWriter BinReader ParamWire PageRow Message.

(** * Batches *)

Record StreamingBatch : Type := MkStreamBatch {
  currentSql : list Z;
  sb_size : Z;
  sb_data : InteropMemory
}.

Definition new_stream_batch : StreamingBatch := MkStreamBatch [] 0 (new_memory (1024 * 16)).

(** A row is the statement, or a null when it is the same as before, and the parameters. *)
Definition AddRow (sql : list Z) (params : writer unit) (b : StreamingBatch) : outcome Z StreamingBatch :=
  let* (_, out) := Out.set_Position (mm_len (sb_data b)) (new_out (sb_data b)) in
  let w := raw_writer out None in
  let same := bool_decide (currentSql b = sql) in
  let* (_, w) := (if same then W.WriteNull else W.WriteString_std sql) w in
  let* (_, w) := params w in
  let* size := checked 32 (sb_size b + 1) in
  let* (_, out) := Out.Synchronize (w_stream w) in
  Ok (MkStreamBatch (if same then currentSql b else sql) size (os_mem out)).

Definition batch_Clear (b : StreamingBatch) : StreamingBatch := MkStreamBatch [] 0 (mem_Length 0 (sb_data b)).

(** [GetData] and [GetDataLength]: the bytes that go into the request. *)
Definition batch_bytes (b : StreamingBatch) : outcome Z (list Z) :=
  fetch (mm_data (sb_data b)) 0 (mm_len (sb_data b)).

(** * The context *)

(** [connection->AddStatusRecord(err)] and the like are appended to the connection's
    records. *)
Record StreamingContext : Type := MkContext {
  sx_batchSize : Z;
  sx_order : Z;
  sx_enabled : bool;
  sx_batch : StreamingBatch
}.
Definition new_context : StreamingContext := MkContext 0 0 false new_stream_batch.

Definition set_batch (b : StreamingBatch) (c : StreamingContext) : StreamingContext :=
  MkContext (sx_batchSize c) (sx_order c) (sx_enabled c) b.

Inductive stream_answer : Type :=
| StreamOdbcError (e : OdbcError)
| StreamDocumentDbError (msg : text)
| StreamAnswer (rsp : Response StreamingBatchBody).

(** The state of the other side is of type [S]. *)
Class StreamServer (S : Type) : Type :=
  send_batch : Request -> Response StreamingBatchBody -> S -> stream_answer * S.

(** [Connection::SyncMessage] does nothing. *)
#[export] Instance DriverStreamServer : StreamServer unit := fun _ rsp s => (StreamAnswer (SyncMessage rsp).2, s).

Section context.
Context {S : Type} `{StreamServer S} (schema : list Z).

Abbreviation stream_state := (StreamingContext * diags * S)%type.

(** An assertion says that the answer has the order of the request. *)
Definition MakeRequestStreamingBatch (last : bool) (st : stream_state)
  : outcome Z (SR.SqlResult * stream_state) :=
  let '(c, d, sv) := st in
  let* data := batch_bytes (sx_batch c) in
  let (answer, sv) := send_batch (StreamingBatchRequest schema (sb_size (sx_batch c)) (map i8 data) last (sx_order c))
                        (new_response new_streaming_body) sv in
  match answer with
  | StreamOdbcError e => Ok (SR.AI_ERROR, (c, AddStatusRecord false e.1 e.2 d, sv))
  | StreamDocumentDbError msg => Ok (SR.AI_ERROR, (c, AddStatusRecord false SS.SHY000_GENERAL_ERROR msg d, sv))
  | StreamAnswer rsp =>
      let c := set_batch (batch_Clear (sx_batch c)) c in
      if negb (rs_status rsp =? RS.SUCCESS) then
        Ok (SR.AI_ERROR, (c, AddStatusRecord false (ResponseStatusToSqlState (rs_status rsp)) (rs_error rsp) d, sv))
      else if negb (sb_errorCode (rs_body rsp) =? RS.SUCCESS) then
        Ok (SR.AI_ERROR,
            (c, AddStatusRecord false (ResponseStatusToSqlState (sb_errorCode (rs_body rsp)))
                  (sb_errorMessage (rs_body rsp)) d, sv))
      else
        let* order := checked 64 (sx_order c + 1) in
        Ok (SR.AI_SUCCESS, (MkContext (sx_batchSize c) order (sx_enabled c) (sx_batch c), d, sv))
  end.

Definition Flush (last : bool) (st : stream_state) : outcome Z (SR.SqlResult * stream_state) :=
  let '(c, d, sv) := st in
  if (sb_size (sx_batch c) =? 0) && negb last then Ok (SR.AI_SUCCESS, st)
  else
    let* (res, (c, d, sv)) := MakeRequestStreamingBatch last st in
    Ok (res, (set_batch (batch_Clear (sx_batch c)) c, d, sv)).

Definition Disable (st : stream_state) : outcome Z (SR.SqlResult * stream_state) :=
  let '(c, d, sv) := st in
  let* (res, (c, d, sv)) := (if sx_enabled c then Flush true st else Ok (SR.AI_SUCCESS, st)) in
  Ok (res, (MkContext (sx_batchSize c) (sx_order c) false (sx_batch c), d, sv)).

Definition Enable (cmd : SqlSetStreamingCommand) (st : stream_state) : outcome Z (SR.SqlResult * stream_state) :=
  let '(c, d, sv) := st in
  let* (res, (c, d, sv)) := (if sx_enabled c then Disable st else Ok (SR.AI_SUCCESS, st)) in
  if bool_decide (res <> SR.AI_SUCCESS) then Ok (res, (c, d, sv))
  else Ok (SR.AI_SUCCESS, (MkContext (batchSize cmd) 0 true (sx_batch c), d, sv)).

(** An assertion says that streaming is enabled. *)
Definition stream_Execute (sql : list Z) (params : writer unit) (st : stream_state)
  : outcome Z (SR.SqlResult * stream_state) :=
  let '(c, d, sv) := st in
  let* b := AddRow sql params (sx_batch c) in
  let c := set_batch b c in
  if sb_size b <? sx_batchSize c then Ok (SR.AI_SUCCESS, (c, d, sv))
  else Flush false (c, d, sv).

End context.
