(* ===== verification/MessageProps.v ===== *)
(** The properties of the messages: a request determines its fields, and a response that
    a server writes is read as it was meant. *)
From S2P Require Import Prelude OrdMap Memory Chrono Utf8 TypeTraits BigText Decimal AppBuffer AppRead Params Diag Config DocColumn.
From S2P Require Import Interop InteropProps BinUtils BinSchema BinObject BinWriter BinReader BinValues BinLayout BinTop BinFields BinDoc.
From S2P Require Import ParamWire PageRow Message.

(** * Raw fields *)

Lemma emit_field k (v : ty k) : valid v -> wemits in_raw (write_prim_raw k v) (raw_bytes (SPrim k) v).
Proof. exact (emit_raw 0 (SPrim k) v). Qed.
Lemma read_field k (v : ty k) : valid v -> raw_reads (read_prim_raw k) (raw_bytes (SPrim k) v) v.
Proof. exact (read_raw_value 0 (SPrim k) v). Qed.

Lemma emit_text s : string_ok s -> wemits in_raw (WriteObject s) (string_bytes s).
Proof.
  intros Hs w Ho Hm [Hr Hi] Hfit. unfold WriteObject.
  rewrite (bind_ok _ _ w w tt) by (apply check_raw; by destruct (Z.eqb_spec (w_rawPos w) (-1))).
  unfold WriteTopObject, top_string. rewrite std_length by done.
  by apply (wemits_stream anywhere _ _ (emit_string s)).
Qed.

Lemma raw_object {T} `{TopRead T} bs (t : T) : parses ReadTopObject bs t -> raw_reads ReadObject bs t.
Proof.
  intros Hf s p r (Hs & Hp & Hst & Hm & Hid) Hh Hl. unfold ReadObject, R.CheckRawMode. unfold bind at 1.
  rewrite Hm. cbn [negb andb obind]. unfold of_stream. rewrite Hst, (Hf (in_at p s));
    [|split; cbn; destruct Hs; lia|done|done].
  cbn [obind]. eexists. split; [done|]. destruct Hs. by repeat split; cbn; try lia.
Qed.
Lemma read_text s : string_ok s -> raw_reads ReadObject (string_bytes s) s.
Proof. intros Hs. by apply raw_object, parse_string. Qed.

Lemma emit_null : wemits in_raw W.WriteNull (le_bytes 1 DOCUMENTDB_HDR_NULL).
Proof. apply wemits_raw, wemits_stream, emit_int8. Qed.

(** * Texts read with their length first *)

Lemma raw_peek {A B} (f : inp A) (k : A -> reader B) bs a b :
  (forall s, in_ok s -> holds (is_data s) (is_pos s) bs -> is_pos s + Z.of_nat (length bs) <= is_len s ->
     f s = Ok (a, s)) ->
  raw_reads (k a) bs b -> raw_reads (bind (R.raw f) k) bs b.
Proof.
  intros Hf Hk s p r Hr Hh Hl. pose proof Hr as (Hs & Hp & Hst & Hm & Hid).
  rewrite (bind_ok _ _ r r a); [by apply Hk|].
  unfold R.raw, R.CheckRawMode, R.CheckSingleMode. unfold bind at 1. rewrite Hm. cbn [negb andb obind].
  unfold bind at 1. rewrite Hid. cbn [negb andb obind Z.eqb]. unfold of_stream. rewrite Hst.
  rewrite (Hf (in_at p s)); [|split; cbn; destruct Hs; lia|done|done]. cbn [obind]. rewrite <- Hst.
  by rewrite r_same_stream.
Qed.

Lemma string_length s : Z.of_nat (length (string_bytes s)) = 5 + Z.of_nat (length s).
Proof.
  unfold string_bytes, tagged. rewrite !length_app, !le_bytes_length, (concat_length 1) by apply le_bytes_length. lia.
Qed.

Lemma peek_string st bs :
  string_ok bs -> in_ok st -> holds (is_data st) (is_pos st) (string_bytes bs) ->
  is_pos st + Z.of_nat (length (string_bytes bs)) <= is_len st ->
  ReadStringInternal false 0 st = Ok ((Z.of_nat (length bs), None), st).
Proof.
  intros [_ Hl] Hs Hh Hfit. rewrite string_length in Hfit. unfold string_bytes, tagged in Hh.
  rewrite !holds_app, !le_bytes_length in Hh. destruct Hh as (H1 & H2 & _). pose proof Hs as [Hp Hlen].
  unfold ReadStringInternal.
  rewrite (run_parse _ _ _ DOCUMENTDB_TYPE_STRING st (parse_int8 DOCUMENTDB_TYPE_STRING ltac:(by vm_compute)) Hs H1)
    by (rewrite le_bytes_length; lia).
  rewrite Z.eqb_refl, le_bytes_length.
  rewrite (read_step _ _ _ _ _ (is_pos st + 5) st (parse_length (Z.of_nat (length bs)) ltac:(lia)) Hlen H2)
    by (rewrite ?le_bytes_length; lia).
  cbn [andb]. rewrite (bind_ok _ _ _ (in_at (is_pos st + 5) st) (is_pos st + 5)) by done.
  rewrite (bind_ok _ _ _ (in_at (is_pos st + 5) st) (is_pos st)).
  - rewrite (bind_ok _ _ _ st tt); [done|]. rewrite in_position_spec by (cbn; lia). by destruct st.
  - replace (is_pos st + 5 - 4 - 1) with (is_pos st) by lia. apply int32_small. lia.
Qed.

Lemma u_read_string s : string_ok s -> raw_reads u_ReadString (string_bytes s) s.
Proof.
  intros Hs. pose proof Hs as [_ Hl]. unfold u_ReadString, R.ReadString.
  apply (raw_peek _ _ _ (Z.of_nat (length s), None)); [intros st; by apply peek_string|].
  destruct (Z.ltb_spec 0 (Z.of_nat (length s))).
  - rewrite <- (app_nil_r (string_bytes s)).
    eapply raw_reads_bind; [apply raw_reads_stream, parse_string_internal; [done|lia]|].
    rewrite Z.ltb_irrefl. cbn [default from_option id]. rewrite app_nil_r. apply raw_reads_ret.
  - destruct s; [|cbn in *; lia]. cbn [length Z.of_nat Z.eqb]. rewrite <- (app_nil_r (string_bytes [])).
    eapply raw_reads_bind; [apply raw_reads_stream, parse_string_internal; [done|cbn; lia]|]. apply raw_reads_ret.
Qed.

Lemma u_write_string s : string_ok s -> wemits in_raw (u_WriteString s) (string_bytes s).
Proof.
  intros Hs. unfold u_WriteString. rewrite std_length by done. apply wemits_raw, wemits_stream, emit_string.
Qed.

(** * Requests *)

Definition i8_bytes (z : Z) : list Z := le_bytes 1 z.
Definition schema_bytes (schema : list Z) : list Z :=
  match schema with [] => le_bytes 1 DOCUMENTDB_HDR_NULL | _ => string_bytes schema end.
Definition timeout_bytes (ver : ProtocolVersion) (timeout : Z) : list Z :=
  if version_ge ver VERSION_2_3_2 then le_bytes 4 timeout else [].

(** The bytes of a request; [params] are those of the parameters. *)
Definition request_bytes (params : list Z) (r : Request) (ver : ProtocolVersion) : list Z :=
  match r with
  | HandshakeRequest => i8_bytes 1 ++ le_bytes 2 2 ++ le_bytes 2 8 ++ le_bytes 2 0 ++ i8_bytes 0
  | QueryExecuteRequest schema sql _ timeout =>
      i8_bytes 2 ++ schema_bytes schema ++ string_bytes sql ++ params ++ timeout_bytes ver timeout
  | QueryExecuteBatchRequest schema sql _ timeout =>
      i8_bytes 8 ++ schema_bytes schema ++ string_bytes sql ++ params ++ timeout_bytes ver timeout
  | QueryCloseRequest queryId => i8_bytes 4 ++ le_bytes 8 queryId
  | QueryFetchRequest queryId pageSize => i8_bytes 3 ++ le_bytes 8 queryId ++ le_bytes 4 pageSize
  | QueryGetColumnsMetaRequest schema table column =>
      i8_bytes 5 ++ string_bytes schema ++ string_bytes table ++ string_bytes column
  | QueryGetResultsetMetaRequest schema sqlQuery => i8_bytes 11 ++ string_bytes schema ++ string_bytes sqlQuery
  | QueryGetTablesMetaRequest catalog schema table tableTypes =>
      i8_bytes 6 ++ string_bytes catalog ++ string_bytes schema ++ string_bytes table ++ string_bytes tableTypes
  | QueryGetParamsMetaRequest schema sqlQuery => i8_bytes 7 ++ string_bytes schema ++ string_bytes sqlQuery
  | QueryMoreResultsRequest queryId pageSize => i8_bytes 9 ++ le_bytes 8 queryId ++ le_bytes 4 pageSize
  | StreamingBatchRequest schema size data last order =>
      i8_bytes 10 ++ string_bytes schema ++ le_bytes 4 size
      ++ (if size =? 0 then [] else concat (map (le_bytes 1) data)) ++ bool_bytes last ++ le_bytes 8 order
  end.

Definition request_valid (params : list Z) (r : Request) : Prop :=
  match r with
  | HandshakeRequest => True
  | QueryExecuteRequest schema sql f timeout | QueryExecuteBatchRequest schema sql f timeout =>
      string_ok schema /\ string_ok sql /\ wemits in_raw f params /\ inS 32 timeout
  | QueryCloseRequest queryId => inS 64 queryId
  | QueryFetchRequest queryId pageSize | QueryMoreResultsRequest queryId pageSize => inS 64 queryId /\ inS 32 pageSize
  | QueryGetColumnsMetaRequest a b c => string_ok a /\ string_ok b /\ string_ok c
  | QueryGetResultsetMetaRequest a b | QueryGetParamsMetaRequest a b => string_ok a /\ string_ok b
  | QueryGetTablesMetaRequest a b c d => string_ok a /\ string_ok b /\ string_ok c /\ string_ok d
  | StreamingBatchRequest schema size data last order => string_ok schema /\ inS 32 size /\ inS 64 order
  end.

Ltac write_step := apply (wemits_bind in_raw _ _ _ _ in_raw_stream).

Lemma emit_schema schema : string_ok schema -> wemits in_raw (write_schema schema) (schema_bytes schema).
Proof. intros Hs. destruct schema; [apply emit_null|by apply emit_text]. Qed.
Lemma emit_timeout ver timeout :
  inS 32 timeout -> wemits in_raw (write_timeout ver timeout) (timeout_bytes ver timeout).
Proof.
  intros Ht. unfold write_timeout, timeout_bytes. case_match; [by apply (emit_field KInt)|apply wemits_ret].
Qed.

Lemma emit_request params r ver :
  request_valid params r -> wemits in_raw (request_Write r ver) (request_bytes params r ver).
Proof.
  assert (H8 : forall z, inS 8 z -> wemits in_raw (W.WriteInt8 z) (i8_bytes z)) by (intros z Hz; by apply (emit_field KByte)).
  assert (H16 : forall z, inS 16 z -> wemits in_raw (W.WriteInt16 z) (le_bytes 2 z)) by (intros z Hz; by apply (emit_field KShort)).
  assert (H32 : forall z, inS 32 z -> wemits in_raw (W.WriteInt32 z) (le_bytes 4 z)) by (intros z Hz; by apply (emit_field KInt)).
  assert (H64 : forall z, inS 64 z -> wemits in_raw (W.WriteInt64 z) (le_bytes 8 z)) by (intros z Hz; by apply (emit_field KLong)).
  assert (Ht : forall n, 0 < n < 12 -> inS 8 n) by (intros n Hn; unfold inS; cbn; lia).
  destruct r; cbn [request_Write request_bytes request_valid]; intros Hv;
    unfold handshake_Write, execute_Write, execute_batch_Write, close_Write, fetch_Write, columns_meta_Write,
      resultset_meta_Write, tables_meta_Write, params_meta_Write, more_results_Write, streaming_batch_Write;
    (write_step; [apply H8; by vm_compute|]).
  - repeat (write_step; [apply H16; by vm_compute|]). apply H8. by vm_compute.
  - destruct Hv as (Hs & Hq & Hp & Hto). write_step; [by apply emit_schema|]. write_step; [by apply emit_text|].
    write_step; [done|]. by apply emit_timeout.
  - destruct Hv as (Hs & Hq & Hp & Hto). write_step; [by apply emit_schema|]. write_step; [by apply emit_text|].
    write_step; [done|]. by apply emit_timeout.
  - by apply H64.
  - destruct Hv. write_step; [by apply H64|by apply H32].
  - destruct Hv as (? & ? & ?). repeat (write_step; [by apply emit_text|]). by apply emit_text.
  - destruct Hv as (? & ?). repeat (write_step; [by apply emit_text|]). by apply emit_text.
  - destruct Hv as (? & ? & ? & ?). repeat (write_step; [by apply emit_text|]). by apply emit_text.
  - destruct Hv as (? & ?). repeat (write_step; [by apply emit_text|]). by apply emit_text.
  - destruct Hv. write_step; [by apply H64|by apply H32].
  - destruct Hv as (Hs & H1 & H2). write_step; [by apply u_write_string|]. write_step; [by apply H32|].
    write_step; [|write_step; [by apply (emit_field KBool)|by apply H64]].
    destruct (size =? 0); [apply wemits_ret|]. apply wemits_stream, emit_int8_array.
Qed.

(** What a server reads, with the operations of the driver's reader.  Requests with
    parameters need their types, and a batch its rows. *)
Definition request_Read : reader (option Request) :=
  let! type := R.ReadInt8 in
  if type =? RT.HANDSHAKE then
    let! a := R.ReadInt16 in let! b := R.ReadInt16 in let! c := R.ReadInt16 in let! client := R.ReadInt8 in
    ret (if version_eq (MkVersion a b c) GetCurrent && (client =? ClientType_ODBC) then Some HandshakeRequest else None)
  else if type =? RT.CLOSE_SQL_QUERY then let! id := R.ReadInt64 in ret (Some (QueryCloseRequest id))
  else if type =? RT.FETCH_SQL_QUERY then
    let! id := R.ReadInt64 in let! n := R.ReadInt32 in ret (Some (QueryFetchRequest id n))
  else if type =? RT.QUERY_MORE_RESULTS then
    let! id := R.ReadInt64 in let! n := R.ReadInt32 in ret (Some (QueryMoreResultsRequest id n))
  else if type =? RT.GET_COLUMNS_METADATA then
    let! a := ReadObject in let! b := ReadObject in let! c := ReadObject in ret (Some (QueryGetColumnsMetaRequest a b c))
  else if type =? RT.META_RESULTSET then
    let! a := ReadObject in let! b := ReadObject in ret (Some (QueryGetResultsetMetaRequest a b))
  else if type =? RT.GET_PARAMS_METADATA then
    let! a := ReadObject in let! b := ReadObject in ret (Some (QueryGetParamsMetaRequest a b))
  else if type =? RT.GET_TABLES_METADATA then
    let! a := ReadObject in let! b := ReadObject in let! c := ReadObject in let! d := ReadObject in
    ret (Some (QueryGetTablesMetaRequest a b c d))
  else ret None.

Definition plain (r : Request) : Prop :=
  match r with
  | QueryExecuteRequest _ _ _ _ | QueryExecuteBatchRequest _ _ _ _ | StreamingBatchRequest _ _ _ _ _ => False
  | _ => True
  end.

Lemma raw_reads_end {A B} (f : reader A) (g : A -> B) bs a :
  raw_reads f bs a -> raw_reads (let! v := f in ret (g v)) bs (g a).
Proof.
  intros H. rewrite <- (app_nil_r bs). apply (raw_reads_bind _ _ a); [done|apply raw_reads_ret].
Qed.

Lemma read_request params r ver :
  request_valid params r -> plain r -> raw_reads request_Read (request_bytes params r ver) (Some r).
Proof.
  assert (H8 : forall z, inS 8 z -> raw_reads R.ReadInt8 (i8_bytes z) z) by (intros z Hz; by apply (read_field KByte)).
  assert (H16 : forall z, inS 16 z -> raw_reads R.ReadInt16 (le_bytes 2 z) z) by (intros z Hz; by apply (read_field KShort)).
  assert (H32 : forall z, inS 32 z -> raw_reads R.ReadInt32 (le_bytes 4 z) z) by (intros z Hz; by apply (read_field KInt)).
  assert (H64 : forall z, inS 64 z -> raw_reads R.ReadInt64 (le_bytes 8 z) z) by (intros z Hz; by apply (read_field KLong)).
  destruct r; cbn [request_bytes request_valid plain]; intros Hv Hp; try done; unfold request_Read;
    (eapply raw_reads_bind; [apply H8; by vm_compute|]); cbn [Z.eqb Pos.eqb RT.HANDSHAKE RT.CLOSE_SQL_QUERY
      RT.FETCH_SQL_QUERY RT.QUERY_MORE_RESULTS RT.GET_COLUMNS_METADATA RT.META_RESULTSET RT.GET_PARAMS_METADATA
      RT.GET_TABLES_METADATA].
  - do 3 (eapply raw_reads_bind; [apply H16; by vm_compute|]).
    apply (raw_reads_end _ (fun client => if version_eq (MkVersion 2 8 0) GetCurrent && (client =? ClientType_ODBC)
      then Some HandshakeRequest else None) _ 0). apply H8. by vm_compute.
  - apply (raw_reads_end _ (fun id => Some (QueryCloseRequest id))). by apply H64.
  - destruct Hv. eapply raw_reads_bind; [by apply H64|].
    apply (raw_reads_end _ (fun n => Some (QueryFetchRequest queryId n))). by apply H32.
  - destruct Hv as (? & ? & ?). do 2 (eapply raw_reads_bind; [by apply read_text|]).
    apply (raw_reads_end _ (fun c => Some (QueryGetColumnsMetaRequest schema table c))). by apply read_text.
  - destruct Hv as (? & ?). eapply raw_reads_bind; [by apply read_text|].
    apply (raw_reads_end _ (fun b => Some (QueryGetResultsetMetaRequest schema b))). by apply read_text.
  - destruct Hv as (? & ? & ? & ?). do 3 (eapply raw_reads_bind; [by apply read_text|]).
    apply (raw_reads_end _ (fun d => Some (QueryGetTablesMetaRequest catalog schema table d))). by apply read_text.
  - destruct Hv as (? & ?). eapply raw_reads_bind; [by apply read_text|].
    apply (raw_reads_end _ (fun b => Some (QueryGetParamsMetaRequest schema b))). by apply read_text.
  - destruct Hv. eapply raw_reads_bind; [by apply H64|].
    apply (raw_reads_end _ (fun n => Some (QueryMoreResultsRequest queryId n))). by apply H32.
Qed.

(** * Responses *)

Definition status_bytes (ver : ProtocolVersion) (status : Z) : list Z :=
  if version_lt ver VERSION_2_1_5 then le_bytes 1 status else le_bytes 4 status.
Definition status_ok (ver : ProtocolVersion) (status : Z) : Prop :=
  if version_lt ver VERSION_2_1_5 then inS 8 status else inS 32 status.

Lemma read_status ver status :
  status_ok ver status ->
  raw_reads (if version_lt ver VERSION_2_1_5 then R.ReadInt8 else R.ReadInt32) (status_bytes ver status) status.
Proof.
  unfold status_ok, status_bytes. destruct (version_lt ver VERSION_2_1_5); intros H;
    [by apply (read_field KByte)|by apply (read_field KInt)].
Qed.

Lemma read_success {A} ver (f : A -> reader A) rsp bs a :
  raw_reads (f (rs_body rsp)) bs a ->
  raw_reads (Response_Read ver f rsp) (status_bytes ver RS.SUCCESS ++ bs) (MkResponse RS.SUCCESS (rs_error rsp) a).
Proof.
  intros Hf. unfold Response_Read. eapply raw_reads_bind.
  - apply read_status. unfold status_ok. by case_match.
  - rewrite Z.eqb_refl. by apply (raw_reads_end _ (fun body => MkResponse RS.SUCCESS (rs_error rsp) body)).
Qed.

Lemma read_failure {A} ver (f : A -> reader A) rsp status error :
  status_ok ver status -> status <> RS.SUCCESS -> string_ok error ->
  raw_reads (Response_Read ver f rsp) (status_bytes ver status ++ string_bytes error)
    (MkResponse status error (rs_body rsp)).
Proof.
  intros Hs Hne He. unfold Response_Read. eapply raw_reads_bind; [by apply read_status|].
  destruct (Z.eqb_spec status RS.SUCCESS); [done|].
  apply (raw_reads_end _ (fun error => MkResponse status error (rs_body rsp))). by apply u_read_string.
Qed.

Definition rows_bytes (ver : ProtocolVersion) (rows : list Z) : list Z :=
  if version_lt ver VERSION_2_3_2 then concat (map (le_bytes 8) rows)
  else le_bytes 4 (Z.of_nat (length rows)) ++ concat (map (le_bytes 8) rows).
(** Before version 2.3.2 there is one number. *)
Definition rows_ok (ver : ProtocolVersion) (rows : list Z) : Prop :=
  Forall (inS 64) rows /\ Z.of_nat (length rows) < 2 ^ 31
  /\ (version_lt ver VERSION_2_3_2 = true -> length rows = 1%nat).

Lemma raw_reads_repeat {A} (f : reader A) (enc : A -> list Z) l :
  Forall (fun a => raw_reads f (enc a) a) l -> raw_reads (repeat_op (length l) f) (concat (map enc l)) l.
Proof.
  induction 1 as [|a l Ha _ IH]; cbn [repeat_op length map concat]; [apply raw_reads_ret|].
  eapply raw_reads_bind; [exact Ha|]. by apply (raw_reads_end _ (cons a)).
Qed.

Lemma read_rows ver rows : rows_ok ver rows -> raw_reads (ReadAffectedRows ver) (rows_bytes ver rows) rows.
Proof.
  intros (Hr & Hl & Hone). unfold ReadAffectedRows, rows_bytes.
  destruct (version_lt ver VERSION_2_3_2).
  - specialize (Hone eq_refl). destruct rows as [|n [|]]; try done. cbn [map concat]. rewrite app_nil_r.
    apply (raw_reads_end _ (fun n => [n])). apply (read_field KLong). by inversion Hr.
  - eapply raw_reads_bind; [apply (read_field KInt); unfold ty; cbn [valid kind_codec int32_codec]; widths; lia|].
    destruct (Z.ltb_spec (Z.of_nat (length rows)) 0); [lia|]. rewrite Nat2Z.id. apply raw_reads_repeat.
    eapply Forall_impl; [exact Hr|]. intros n Hn. by apply (read_field KLong).
Qed.

(** The body of the answer to a batch of parameters: whether all went well, the numbers
    of rows, and otherwise the row that failed, the message and, in newer versions, the
    code. *)
Definition batch_response_bytes (ver : ProtocolVersion) (success : bool) (failed : Z) (b : ExecuteBatchBody) : list Z :=
  bool_bytes success ++ rows_bytes ver (eb_affectedRows b)
  ++ (if success then []
      else le_bytes 8 failed ++ string_bytes (eb_errorMessage b)
           ++ (if version_ge ver VERSION_2_1_5 then le_bytes 4 (eb_errorCode b) else [])).

(** What the driver makes of it. *)
Definition batch_response_read (ver : ProtocolVersion) (success : bool) (b : ExecuteBatchBody) : ExecuteBatchBody :=
  if success then MkExecuteBatch (eb_affectedRows b) [] 1
  else MkExecuteBatch (eb_affectedRows b) (eb_errorMessage b)
         (if version_ge ver VERSION_2_1_5 then eb_errorCode b else 1).

Lemma read_batch_body ver success failed b :
  rows_ok ver (eb_affectedRows b) -> string_ok (eb_errorMessage b) -> inS 32 (eb_errorCode b) -> inS 64 failed ->
  raw_reads (execute_batch_Read ver new_execute_batch) (batch_response_bytes ver success failed b)
    (batch_response_read ver success b).
Proof.
  intros Hr Hm Hc Hf. unfold execute_batch_Read, batch_response_bytes, batch_response_read.
  eapply raw_reads_bind; [by apply (read_field KBool)|]. eapply raw_reads_bind; [by apply read_rows|].
  destruct success; cbn [negb]; [apply raw_reads_ret|].
  eapply raw_reads_bind; [by apply (read_field KLong)|]. eapply raw_reads_bind; [by apply read_text|].
  apply (raw_reads_end _ (fun code => MkExecuteBatch (eb_affectedRows b) (eb_errorMessage b) code)).
  case_match; [by apply (read_field KInt)|apply raw_reads_ret].
Qed.

(** * Written, then read *)

(** What a raw writer has written is read by a raw reader over the same memory. *)
Lemma written_then_read {A} (f : writer unit) (g : reader A) bs a w :
  wemits in_raw f bs -> raw_reads g bs a ->
  out_ok (w_stream w) -> w_metaMgr w = None -> in_raw w ->
  os_pos (w_stream w) + Z.of_nat (length bs) <= max_size ->
  exists s', f w = Ok (tt, w_set_stream s' w) /\ wrote (w_stream w) bs s'
    /\ exists r, g (raw_reader (reopen s' (os_pos (w_stream w)))) = Ok (a, r)
         /\ r_stream r = in_at (os_pos s') (reopen s' (os_pos (w_stream w))).
Proof.
  intros Hf Hg Ho Hm Hr Hfit. destruct (Hf w Ho Hm Hr Hfit) as (s' & E & Hw).
  exists s'. split; [done|]. split; [done|].
  destruct (reopen_ok _ (os_pos (w_stream w)) _ _ Ho Hfit Hw eq_refl) as (Hs & Hh & Hl).
  set (s := reopen s' (os_pos (w_stream w))) in *.
  destruct (Hg s (is_pos s) (raw_reader s)) as (r & Er & Hr'); [|done|done|].
  { split; [done|]. split; [destruct Hs; lia|]. split; [by destruct s|done]. }
  exists r. split; [done|]. destruct Hr' as (_ & _ & Hst & _). rewrite Hst.
  destruct Hw as (_ & Hp & _). by rewrite Hp.
Qed.

Definition sample_out : BinaryWriterImpl := raw_writer (new_out (new_memory 64)) None.
Lemma sample_out_ok : out_ok (w_stream sample_out).
Proof. apply new_out_ok. by vm_compute. Qed.
Lemma sample_out_raw : in_raw sample_out.
Proof. done. Qed.

(** * The properties *)

(** A request is written as its code and its fields, in order, whatever the version of
    the protocol, and what a server reads from the memory is the request that was
    written, for every request without parameters or rows. *)
Theorem request_roundtrip params r ver w :
  request_valid params r -> out_ok (w_stream w) -> w_metaMgr w = None -> in_raw w ->
  os_pos (w_stream w) + Z.of_nat (length (request_bytes params r ver)) <= max_size ->
  exists s', request_Write r ver w = Ok (tt, w_set_stream s' w)
    /\ wrote (w_stream w) (request_bytes params r ver) s'
    /\ (plain r ->
        exists rd, request_Read (raw_reader (reopen s' (os_pos (w_stream w)))) = Ok (Some r, rd)
          /\ r_stream rd = in_at (os_pos s') (reopen s' (os_pos (w_stream w)))).
Proof.
  intros Hv Ho Hm Hr Hfit. pose proof (emit_request params r ver Hv) as He.
  destruct (He w Ho Hm Hr Hfit) as (s' & E & Hw). exists s'. split; [done|]. split; [done|]. intros Hp.
  destruct (written_then_read _ _ _ _ w He (read_request params r ver Hv Hp) Ho Hm Hr Hfit) as (s2 & E2 & _ & Hrd).
  rewrite E in E2. by injection E2 as <-.
Qed.

Definition sample_request : Request := QueryGetTablesMetaRequest [37] [] [116; 49] [84; 65].

Lemma request_roundtrip_witness :
  exists s', request_Write sample_request VERSION_2_8_0 sample_out = Ok (tt, w_set_stream s' sample_out)
    /\ wrote (w_stream sample_out) (request_bytes [] sample_request VERSION_2_8_0) s'
    /\ (plain sample_request ->
        exists rd, request_Read (raw_reader (reopen s' 0)) = Ok (Some sample_request, rd)
          /\ r_stream rd = in_at (os_pos s') (reopen s' 0)).
Proof.
  apply (request_roundtrip [] sample_request VERSION_2_8_0 sample_out).
  - repeat split; repeat constructor; by vm_compute.
  - exact sample_out_ok.
  - reflexivity.
  - exact sample_out_raw.
  - apply Z.leb_le. vm_compute. reflexivity.
Defined.

(** The answer to a batch of parameters is read as it was sent, in every version of the
    protocol: on success the numbers of rows of each row of parameters, and when a row
    failed also the message and, from version 2.1.5 on, its code; a status other than
    success carries the error instead, and leaves the body as it was. *)
Theorem batch_response_read_back ver s p rd failed success b status error :
  rows_ok ver (eb_affectedRows b) -> string_ok (eb_errorMessage b) -> inS 32 (eb_errorCode b) -> inS 64 failed ->
  status_ok ver status -> status <> RS.SUCCESS -> string_ok error -> raw_reading s p rd ->
  let good := status_bytes ver RS.SUCCESS ++ batch_response_bytes ver success failed b in
  let bad := status_bytes ver status ++ string_bytes error in
  let read := Response_Read ver (execute_batch_Read ver) (new_response new_execute_batch) in
  (holds (is_data s) p good -> p + Z.of_nat (length good) <= is_len s ->
   exists rd', read rd = Ok (MkResponse RS.SUCCESS [] (batch_response_read ver success b), rd')
     /\ r_stream rd' = in_at (p + Z.of_nat (length good)) s)
  /\ (holds (is_data s) p bad -> p + Z.of_nat (length bad) <= is_len s ->
      exists rd', read rd = Ok (MkResponse status error new_execute_batch, rd')
        /\ r_stream rd' = in_at (p + Z.of_nat (length bad)) s).
Proof.
  intros Hr Hm Hc Hf Hst Hne He Hrd good bad read. split; intros Hh Hl.
  - destruct (read_success ver (execute_batch_Read ver) (new_response new_execute_batch) _ _
      (read_batch_body ver success failed b Hr Hm Hc Hf) s p rd Hrd Hh Hl) as (rd' & E & Hrd').
    exists rd'. split; [exact E|]. by destruct Hrd' as (_ & _ & ? & _).
  - destruct (read_failure ver (execute_batch_Read ver) (new_response new_execute_batch) status error Hst Hne He
      s p rd Hrd Hh Hl) as (rd' & E & Hrd').
    exists rd'. split; [exact E|]. by destruct Hrd' as (_ & _ & ? & _).
Qed.

Definition sample_body : ExecuteBatchBody := MkExecuteBatch [1; 0] [111; 104] 23.
Definition sample_answer : list Z :=
  status_bytes VERSION_2_8_0 RS.SUCCESS ++ batch_response_bytes VERSION_2_8_0 false 1 sample_body.
Definition sample_in : InStream :=
  MkIn (new_memory 0) (map Some sample_answer) (Z.of_nat (length sample_answer)) 0.

Lemma batch_response_read_back_witness :
  exists rd', Response_Read VERSION_2_8_0 (execute_batch_Read VERSION_2_8_0) (new_response new_execute_batch)
      (raw_reader sample_in)
    = Ok (MkResponse RS.SUCCESS [] sample_body, rd')
    /\ r_stream rd' = in_at (0 + Z.of_nat (length sample_answer)) sample_in.
Proof.
  apply (batch_response_read_back VERSION_2_8_0 sample_in 0 (raw_reader sample_in) 1 false sample_body 1 []).
  - repeat split; repeat constructor; by vm_compute.
  - repeat split; repeat constructor; by vm_compute.
  - split; by vm_compute.
  - split; by vm_compute.
  - split; by vm_compute.
  - discriminate.
  - split; [constructor|by vm_compute].
  - split; [split; by vm_compute|]. split; [split; by vm_compute|]. by repeat split.
  - exact (holds_src sample_answer).
  - apply Z.leb_le. vm_compute. reflexivity.
Defined.
