(* ===== verification/ParamProps.v ===== *)
(** Decimals and rows of parameters in the binary protocol. *)
From S2P Require Import Prelude OrdMap Memory Chrono Utf8 TypeTraits BigInteger BigBytes Decimal AppBuffer AppRead Params.
From S2P Require Import Interop InteropProps BinUtils BinSchema BinObject BinWriter BinReader BinValues BinLayout BinTop BinFields BinDoc.
From S2P Require Import ParamWire PageRow Message MessageProps.

(** * Decimals *)

Definition decimal_bytes (d : Decimal) : list Z :=
  let '(sc, len, bytes) := WriteDecimal d in
  le_bytes 1 DOCUMENTDB_TYPE_DECIMAL ++ le_bytes 4 sc ++ le_bytes 4 len ++ concat (map (le_bytes 1) bytes).

Definition decimal_ok (d : Decimal) : Prop :=
  canonical (magnitude d) /\ fits (magnitude d) /\ 0 <= scale d /\ inS 32 (scale d).

Lemma le_bytes1 z : le_bytes 1 z = [u8 z].
Proof. done. Qed.

Lemma emit_decimal d : inS 32 (scale d) -> wemits in_raw (u_WriteDecimal d) (decimal_bytes d).
Proof.
  intros Hs. unfold u_WriteDecimal, decimal_bytes, WriteDecimal.
  assert (Hn : forall z, wemits in_raw (W.WriteInt32 z) (le_bytes 4 z))
    by (intros z; apply wemits_raw, wemits_stream, emit_int32).
  assert (Hb : forall z, wemits in_raw (W.WriteInt8 z) (le_bytes 1 z))
    by (intros z; apply wemits_raw, wemits_stream, emit_int8).
  set (m := MagnitudeToBytes (magnitude d)).
  destruct (m !!! 0%nat <? 0); cbn [map concat];
    (write_step; [apply Hb|]); (write_step; [apply Hn|]); (write_step; [apply Hn|]).
  - write_step; [apply Hb|]. apply wemits_stream, emit_int8_array.
  - set (l := <[0%nat := _]> m). replace (Z.of_nat (length m)) with (Z.of_nat (length l)) by (unfold l; by rewrite length_insert).
    apply wemits_stream, emit_int8_array.
Qed.

Lemma write_decimal_int8s d : int8s (WriteDecimal d).2 /\ (WriteDecimal d).2 <> []
  /\ (WriteDecimal d).1.2 = Z.of_nat (length (WriteDecimal d).2) /\ (WriteDecimal d).1.1 = scale d
  \/ MagnitudeToBytes (magnitude d) = [].
Proof.
  destruct (MagnitudeToBytes (magnitude d)) as [|x t] eqn:E; [by right|left].
  pose proof (magnitude_int8s (magnitude d)) as Hi. rewrite E in Hi.
  unfold WriteDecimal. rewrite E. destruct (_ <? 0); cbn [fst snd].
  - split; [|split; [done|split; [|done]]].
    + apply Forall_cons_2; [|done]. by destruct (_ =? -1).
    + cbn [length]. lia.
  - split; [apply int8s_insert; [done|apply int8_i8]|]. split; [done|]. split; [by rewrite length_insert|done].
Qed.

Lemma raw_stream_reads {A} (f : inp A) bs a : parses f bs a -> raw_reads (of_stream f) bs a.
Proof.
  intros Hf s p r (Hs & Hp & Hst & Hm & Hid) Hh Hl. unfold of_stream.
  rewrite Hst, (Hf (in_at p s)); [|split; cbn; destruct Hs; lia|done|done].
  cbn [obind]. eexists. split; [done|]. destruct Hs. by repeat split; cbn; try lia.
Qed.

Lemma read_decimal d :
  decimal_ok d -> Z.of_nat (length (decimal_bytes d)) < 2 ^ 31 -> raw_reads u_ReadDecimal (decimal_bytes d) d.
Proof.
  intros (Hc & Hf & H0 & Hs) Hlen. pose proof (write_decimal_bytes d Hc Hf) as Hrw.
  destruct (write_decimal_int8s d) as [(Hi & Hne & El & Es)|E].
  2:{ by destruct (magnitude_bytes_any (magnitude d) (proj1 Hc) Hf) as [_ ?]. }
  unfold decimal_bytes in *. destruct (WriteDecimal d) as [[sc len] bytes]. cbn [fst snd] in *. subst sc len.
  rewrite !length_app, !le_bytes_length, (concat_length 1) in Hlen by apply le_bytes_length.
  unfold u_ReadDecimal. eapply raw_reads_bind; [by apply (read_field KByte)|].
  eapply raw_reads_bind; [by apply (read_field KInt)|].
  eapply raw_reads_bind; [apply (read_field KInt); cbn [valid kind_codec int32_codec]; widths; lia|].
  destruct (Z.ltb_spec (Z.of_nat (length bytes)) 0); [lia|].
  rewrite <- (app_nil_r (concat _)). eapply raw_reads_bind; [apply raw_stream_reads; by apply parse_int8_array|].
  destruct bytes as [|x t]; [done|]. rewrite Hrw.
  replace (Dec (Z.land (scale d) 0x7FFFFFFF) (magnitude d)) with d; [apply raw_reads_ret|].
  change 0x7FFFFFFF with (Z.ones 31). rewrite Z.land_ones by lia. rewrite Z.mod_small; [by destruct d|].
  unfold inS in Hs. change (2 ^ (32 - 1)) with (2 ^ 31) in Hs. lia.
Qed.

(** * Rows of parameters *)

Section rows.
Context `{Platform} `{ParamTexts} (stored lenPtr offset idx : Z) (m : mem).

Definition null_bytes : list Z := le_bytes 1 DOCUMENTDB_HDR_NULL.

(** The bytes of the positions after [prev]: those of the parameters, and nulls between. *)
Fixpoint row_bytes (bytes : Z -> list Z) (prev : Z) (l : omap BoundParameter) : list Z :=
  match l with
  | [] => []
  | (k, p) :: t => concat (replicate (Z.to_nat (k - prev - 1)) null_bytes) ++ bytes k ++ row_bytes bytes k t
  end.

Lemma emit_gap prev k : wemits in_raw (write_gap prev k) (concat (replicate (Z.to_nat (k - prev - 1)) null_bytes)).
Proof.
  unfold write_gap. generalize (prev + 1). intros z. destruct (Z.le_gt_cases (k - prev - 1) 0).
  - rewrite seqZ_nil by lia. replace (Z.to_nat (k - prev - 1)) with 0%nat by lia. apply wemits_ret.
  - rewrite <- (Z2Nat.id (k - prev - 1)) at 1 by lia. revert z. induction (Z.to_nat (k - prev - 1)) as [|n IH]; intros z.
    + apply wemits_ret.
    + rewrite seqZ_cons by lia. cbn [for_each replicate concat]. write_step; [apply emit_null|].
      replace (Z.pred (Z.of_nat (S n))) with (Z.of_nat n) by lia. apply IH.
Qed.

Lemma emit_params bytes l prev :
  (forall k p, (k, p) ∈ l -> wemits in_raw (param_Write stored lenPtr p offset idx m) (bytes k)) ->
  wemits in_raw (write_params stored lenPtr l prev offset idx m) (row_bytes bytes prev l).
Proof.
  revert prev. induction l as [|[k p] l IH]; intros prev Hl; cbn [write_params row_bytes]; [apply wemits_ret|].
  write_step; [apply emit_gap|]. write_step; [apply Hl; left|]. apply IH. intros j q Hj. apply Hl. by right.
Qed.

(** Position by position. *)
Definition position_bytes (bytes : Z -> list Z) (l : omap BoundParameter) (i : Z) : list Z :=
  match om_lookup i l with Some _ => bytes i | None => null_bytes end.
End rows.

Lemma om_lookup_below {T} i (l : omap T) : Forall (fun q => i < q.1) l -> om_lookup i l = None.
Proof.
  induction l as [|[k v] l IH]; intros Hl; [done|]. apply Forall_cons_1 in Hl as [Hk Hl]. cbn [fst om_lookup] in *.
  destruct (Z.eqb_spec i k); [lia|]. by apply IH.
Qed.

Lemma row_positions bytes (l : omap BoundParameter) : forall prev,
  om_sorted l -> Forall (fun q => prev < q.1) l ->
  row_bytes bytes prev l
  = concat (map (position_bytes bytes l)
      (seqZ (prev + 1) (match last l with Some q => q.1 - prev | None => 0 end))).
Proof.
  induction l as [|[k p] t IH]; intros prev Hs Hp; [done|].
  apply om_sorted_cons in Hs as [Hs Hk]. apply Forall_cons_1 in Hp as [Hp Hpt]. cbn [fst] in Hk, Hp.
  cbn [row_bytes]. rewrite (IH k Hs Hk).
  set (L := match last t with Some q => q.1 - k | None => 0 end).
  assert (HL : 0 <= L).
  { unfold L. destruct (last t) as [q|] eqn:E; [|lia]. rewrite Forall_forall in Hk.
    apply list.last_Some_elem_of in E. specialize (Hk _ E). cbn in Hk. lia. }
  assert (El : match last ((k, p) :: t) with Some q => q.1 - prev | None => 0 end = (k - prev - 1) + (1 + L)).
  { rewrite last_cons. unfold L. destruct (last t); cbn; lia. }
  rewrite El, seqZ_app by lia. rewrite map_app, concat_app. f_equal.
  - assert (Hnull : Forall (fun i => position_bytes bytes ((k, p) :: t) i = null_bytes) (seqZ (prev + 1) (k - prev - 1))).
    { apply Forall_forall. intros i Hi. apply elem_of_seqZ in Hi. unfold position_bytes. cbn [om_lookup].
      destruct (Z.eqb_spec i k); [lia|]. rewrite om_lookup_below; [done|].
      eapply Forall_impl; [exact Hk|]. cbn. lia. }
    clear -Hnull. rewrite <- (length_seqZ (prev + 1)). induction Hnull as [|i l Hi _ IH]; [done|].
    cbn [length replicate map concat]. by rewrite Hi, IH.
  - rewrite seqZ_app by lia. replace (prev + 1 + (k - prev - 1)) with k by lia.
    rewrite (seqZ_cons k 1) by lia. change (Z.pred 1) with 0. rewrite (seqZ_nil (Z.succ k) 0) by lia.
    cbn [app map concat].
    assert (Hb : position_bytes bytes ((k, p) :: t) k = bytes k).
    { unfold position_bytes. cbn [om_lookup]. by rewrite Z.eqb_refl. }
    rewrite Hb. f_equal. f_equal.
    apply map_ext_in. intros i Hi. apply list_elem_of_In, elem_of_seqZ in Hi.
    unfold position_bytes. cbn [om_lookup]. by destruct (Z.eqb_spec i k); [lia|].
Qed.

Lemma wemits_from {A} P (o : outcome Z A) a (k : A -> writer unit) bs :
  o = Ok a -> wemits P (k a) bs -> wemits P (bind (from o) k) bs.
Proof.
  intros -> Hk w Ho Hm Hp Hfit. unfold bind, from. cbn [obind]. by apply Hk.
Qed.

Lemma row_length (ps : ParameterSet) :
  match last (ps_parameters ps) with Some q => q.1 - 0 | None => 0 end = CalculateRowLen ps.
Proof. unfold CalculateRowLen. destruct (last _) as [[k p]|]; cbn; lia. Qed.

(** The bytes of one set of parameters, from position 1 to the last that is bound. *)
Definition set_row_bytes (bytes : Z -> list Z) (ps : ParameterSet) : list Z :=
  concat (map (position_bytes bytes (ps_parameters ps)) (seqZ 1 (CalculateRowLen ps))).

Section sets.
Context `{Platform} `{ParamTexts} (stored lenPtr : Z).

Lemma emit_row bytes ps idx off (m : mem) :
  om_sorted (ps_parameters ps) -> Forall (fun q => 0 < q.1) (ps_parameters ps) -> app_offset ps m = Ok off ->
  (forall k p, (k, p) ∈ ps_parameters ps -> wemits in_raw (param_Write stored lenPtr p off idx m) (bytes k)) ->
  wemits in_raw (WriteRow stored lenPtr ps idx m) (set_row_bytes bytes ps).
Proof.
  intros Hs Hp Hoff Hl. unfold WriteRow. apply (wemits_from _ _ off); [done|].
  pose proof (row_positions bytes _ 0 Hs Hp) as Hr. rewrite row_length in Hr.
  unfold set_row_bytes. change 1 with (0 + 1). rewrite <- Hr. by apply emit_params.
Qed.

Lemma emit_for_each {A} (f : A -> writer unit) (enc : A -> list Z) l :
  (forall a, a ∈ l -> wemits in_raw (f a) (enc a)) -> wemits in_raw (for_each f l) (concat (map enc l)).
Proof.
  induction l as [|a l IH]; intros Hl; cbn [for_each map concat]; [apply wemits_ret|].
  write_step; [apply Hl; left|]. apply IH. intros b Hb. apply Hl. by right.
Qed.

End sets.

(** * What a parameter becomes *)

Inductive wire : Type :=
| WNothing
| WNull
| WScalar (k : kind) (v : ty k)
| WText (s : list Z)
| WBytes (l : list Z)
| WDecimal (d : Decimal).

Definition wire_bytes (v : wire) : list Z :=
  match v with
  | WNothing => []
  | WNull => null_bytes
  | WScalar k v => tagged (code k) (enc v)
  | WText s => string_bytes s
  | WBytes l => array_bytes (acode ABytes) (l : list (aty ABytes))
  | WDecimal d => decimal_bytes d
  end.

Definition wire_ok (v : wire) : Prop :=
  match v with
  | WNothing | WNull => True
  | WScalar k v => valid v
  | WText s | WBytes s => Z.of_nat (length s) < 2 ^ 31
  | WDecimal d => inS 32 (scale d)
  end.

Section values.
Context `{Platform} `{ParamTexts} (stored lenPtr : Z).

Definition as_wire {A} (f : A -> wire) (o : outcome Z A) : outcome Z wire := let* a := o in Ok (f a).

Definition is_text_type (t : Z) : bool :=
  bool_decide (t ∈ [SQL_CHAR; SQL_VARCHAR; SQL_LONGVARCHAR; SQL_WCHAR; SQL_WVARCHAR; SQL_WLONGVARCHAR]).
Definition is_binary_type (t : Z) : bool := bool_decide (t ∈ [SQL_BINARY; SQL_VARBINARY; SQL_LONGVARBINARY]).

(** The value of a type, converted from the application's buffer. *)
Definition typed_value (t columnSize : Z) (b : ApplicationDataBuffer) (m : mem) : outcome Z wire :=
  if is_text_type t then as_wire WText (GetString b columnSize m)
  else if t =? SQL_SMALLINT then as_wire (WScalar KShort) (GetInt16 b m)
  else if t =? SQL_INTEGER then as_wire (WScalar KInt) (GetInt32 b m)
  else if t =? SQL_FLOAT then as_wire (WScalar KFloat) (GetFloat b m)
  else if t =? SQL_DOUBLE then as_wire (WScalar KDouble) (GetDouble b m)
  else if t =? SQL_TINYINT then as_wire (WScalar KByte) (GetInt8 b m)
  else if t =? SQL_BIT then as_wire (fun v => WScalar KBool (negb (v =? 0))) (GetInt8 b m)
  else if t =? SQL_BIGINT then as_wire (WScalar KLong) (GetInt64 b m)
  else if bool_decide (t ∈ [SQL_TYPE_DATE; SQL_DATE]) then as_wire (WScalar KDate) (GetDate b m)
  else if bool_decide (t ∈ [SQL_TYPE_TIMESTAMP; SQL_TIMESTAMP]) then as_wire (WScalar KTimestamp) (GetTimestamp b m)
  else if bool_decide (t ∈ [SQL_TYPE_TIME; SQL_TIME]) then as_wire (WScalar KTime) (GetTime b m)
  else if is_binary_type t then
    if GetResLen b =? 0 then Ok WNothing
    else
      let* l := ld (GetResLen b) 8 m in
      let n := i32 (le_val l) in
      if GetData b =? 0 then Ok WNull
      else if n <? 0 then UB
      else as_wire (fun bs => WBytes (map i8 bs)) (ld (GetData b) (Z.to_nat n) m)
  else if t =? SQL_GUID then as_wire (WScalar KGuid) (GetGuid b parse_guid_text m)
  else if t =? SQL_DECIMAL then as_wire WDecimal (GetDecimal b dec_zero decimal_of_double m)
  else Ok WNothing.

(** A null, the data that was sent for the parameter, or the value in the buffer of the
    row [idx]. *)
Definition param_value (p : BoundParameter) (offset idx : Z) (m : mem) : outcome Z wire :=
  let* size := GetInputSize (p_buffer p) m in
  if size =? SQL_NULL_DATA then Ok WNull
  else
    let* late := IsDataAtExec (p_buffer p) m in
    let* (b, m) := (if late : bool then at_exec stored lenPtr p m else Ok (buffer_at offset idx (p_buffer p), m)) in
    typed_value (p_sqlType p) (p_columnSize p) b m.

Lemma as_wire_ok {A} (f : A -> wire) o v : as_wire f o = Ok v -> exists a, o = Ok a /\ v = f a.
Proof. destruct o; cbn; intros [= <-]. eauto. Qed.

Lemma emit_value {A} (o : outcome Z A) (f : A -> wire) (g : A -> writer unit) v :
  (forall a, wire_ok (f a) -> wemits in_raw (g a) (wire_bytes (f a))) ->
  as_wire f o = Ok v -> wire_ok v -> wemits in_raw (put_value o g) (wire_bytes v).
Proof.
  intros Hg Hv Hok. apply as_wire_ok in Hv as (a & Ha & ->). apply (wemits_from _ _ a); [done|by apply Hg].
Qed.

Lemma emit_top (f : writer unit) bs :
  wemits anywhere f bs -> wemits in_raw (W.CheckRawMode true ;;; f) bs.
Proof.
  intros Hf w Ho Hm [Hr Hi] Hfit.
  rewrite (bind_ok _ _ w w tt) by (apply check_raw; by destruct (Z.eqb_spec (w_rawPos w) (-1))). by apply Hf.
Qed.

Lemma emit_write_string s : Z.of_nat (length s) < 2 ^ 31 -> wemits in_raw (u_WriteString s) (string_bytes s).
Proof.
  intros Hs. unfold u_WriteString. rewrite wrapS_small by (widths; lia). apply wemits_raw, wemits_stream, emit_string.
Qed.

Lemma emit_scalar k (v : ty k) :
  valid v -> wemits in_raw (W.CheckRawMode true ;;; on_stream (W.write_tagged (code k) wr v)) (wire_bytes (WScalar k v)).
Proof. intros Hv. by apply emit_top, wemits_stream, emit_tagged. Qed.

Lemma emit_typed t size b m v :
  typed_value t size b m = Ok v -> wire_ok v -> wemits in_raw (write_by_type t size b m) (wire_bytes v).
Proof.
  unfold typed_value, write_by_type. fold (is_text_type t) (is_binary_type t).
  repeat match goal with |- (if ?c then as_wire _ _ else _) = _ -> _ => destruct c end;
    try (apply emit_value; intros a Ha).
  - by apply emit_write_string.
  - by apply (emit_scalar KShort).
  - by apply (emit_scalar KInt).
  - by apply (emit_scalar KFloat).
  - by apply (emit_scalar KDouble).
  - by apply (emit_scalar KByte).
  - by apply (emit_scalar KBool).
  - by apply (emit_scalar KLong).
  - by apply (emit_field KDate).
  - by apply (emit_field KTimestamp).
  - by apply (emit_field KTime).
  - destruct (is_binary_type t).
    + destruct (GetResLen b =? 0); [intros [= <-] _; apply wemits_ret|].
      intros Hv Hok. unfold put_value. destruct (ld (GetResLen b) 8 m) as [l| |]; try done. cbn [obind] in *.
      cbv zeta in *. destruct (GetData b =? 0).
      { simplify_eq. apply (wemits_from _ _ (None, i32 (le_val l))); [done|]. apply emit_null. }
      destruct (Z.ltb_spec (i32 (le_val l)) 0); [done|].
      apply as_wire_ok in Hv as (bs & Hb & ->).
      apply (wemits_from _ _ (Some (map i8 bs), i32 (le_val l))); [by rewrite Hb|].
      assert (Hl : Z.of_nat (length (map i8 bs)) = i32 (le_val l)).
      { unfold ld in Hb. destruct (load _ _ m) as [bs'|] eqn:E; [|done]. simplify_eq.
        apply load_length in E. rewrite length_map. lia. }
      rewrite <- Hl. cbn [wire_ok] in Hok.
      apply wemits_raw, (wemits_stream anywhere), (emit_array_body ABytes).
      * apply Forall_map, Forall_true. intros z. apply int8_i8.
      * unfold array_fits. rewrite Z.mul_1_r. exact Hok.
    + repeat match goal with |- (if ?c then as_wire _ _ else _) = _ -> _ => destruct c end;
        try (apply emit_value; intros a Ha).
      * by apply (emit_field KGuid).
      * by apply emit_decimal.
      * intros [= <-] _. apply wemits_ret.
Qed.
End values.

Section sets_values.
Context `{Platform} `{ParamTexts} (stored lenPtr : Z).

Lemma emit_param p off idx m v :
  param_value stored lenPtr p off idx m = Ok v -> wire_ok v ->
  wemits in_raw (param_Write stored lenPtr p off idx m) (wire_bytes v).
Proof.
  unfold param_value, param_Write. intros Hv Hok.
  destruct (GetInputSize (p_buffer p) m) as [size| |] eqn:E; try done. cbn [obind] in Hv.
  apply (wemits_from _ _ size); [done|]. destruct (size =? SQL_NULL_DATA).
  { simplify_eq. apply emit_null. }
  destruct (IsDataAtExec (p_buffer p) m) as [late| |] eqn:El; try done. cbn [obind] in Hv.
  apply (wemits_from _ _ late); [done|].
  destruct (if late then _ else _) as [[b m']| |] eqn:Eb; try done. cbn [obind] in Hv.
  apply (wemits_from _ _ (b, m')); [done|]. by apply emit_typed.
Qed.

(** The values of a row: those of the bound positions, and nulls at the others. *)
Definition row_wire (value : Z -> wire) (ps : ParameterSet) : list wire :=
  map (fun i => match om_lookup i (ps_parameters ps) with Some _ => value i | None => WNull end)
    (seqZ 1 (CalculateRowLen ps)).
Definition row_wire_bytes (value : Z -> wire) (ps : ParameterSet) : list Z :=
  concat (map wire_bytes (row_wire value ps)).

Lemma set_row_wire value ps : set_row_bytes (fun k => wire_bytes (value k)) ps = row_wire_bytes value ps.
Proof.
  unfold set_row_bytes, row_wire_bytes, row_wire. rewrite map_map. f_equal. apply map_ext. intros i.
  unfold position_bytes. by destruct (om_lookup i _).
Qed.

(** A set that can be written: the values of the rows [idx] of [rows]. *)
Definition row_values (ps : ParameterSet) (off : Z) (m : mem) (value : Z -> Z -> wire) (idx : Z) : Prop :=
  forall k p, (k, p) ∈ ps_parameters ps ->
    param_value stored lenPtr p off idx m = Ok (value idx k) /\ wire_ok (value idx k).

Lemma emit_row_values ps off m value idx :
  om_sorted (ps_parameters ps) -> Forall (fun q => 0 < q.1) (ps_parameters ps) -> app_offset ps m = Ok off ->
  row_values ps off m value idx ->
  wemits in_raw (WriteRow stored lenPtr ps idx m) (row_wire_bytes (value idx) ps).
Proof.
  intros Hs Hp Ho Hv. rewrite <- set_row_wire. apply emit_row with off; [done..|].
  intros k p Hk. destruct (Hv k p Hk). by apply emit_param.
Qed.

Lemma no_row value ps : CalculateRowLen ps = 0 -> row_wire_bytes value ps = [].
Proof. intros E. unfold row_wire_bytes, row_wire. by rewrite E. Qed.

Lemma emit_no_rows value ps l : CalculateRowLen ps = 0 -> concat (map (fun i : Z => row_wire_bytes (value i) ps) l) = [].
Proof.
  intros E. induction l as [|i l IH]; [done|]. cbn [map concat]. by rewrite no_row, IH.
Qed.

End sets_values.

(** * Two rows for the witnesses: a number, nothing, and a text. *)

Definition sample_texts : ParamTexts :=
  {| parse_float _ := 0; parse_guid_text _ := MkGuid 0 0; decimal_of_double _ := dec_zero |}.
Definition sample_mem : mem :=
  place 1000 (le_bytes 8 7 ++ le_bytes 8 (-8)) (place 2000 [104; 105; 0; 0; 33; 0; 0; 0]
    (place 3000 (le_bytes 8 2 ++ le_bytes 8 1) ∅)).
Definition sample_set : ParameterSet :=
  SetParamSetSize 2 (set_parameters
    [(1, new_param (ADB AI_SIGNED_BIGINT 1000 8 0 0 0) SQL_INTEGER 0 0);
     (3, new_param (ADB AI_CHAR 2000 4 3000 0 0) SQL_VARCHAR 10 0)] new_set).

(** C22: A set of parameters is written position by position, up to the last position that is
    bound: the value of each bound position, converted from the application's buffer, and
    nulls for the others; first the number of positions, and for several rows also the
    number of rows, whether they are the last ones, and every row of the interval. *)
Theorem parameter_rows `{Platform} `{ParamTexts} stored lenPtr ps m off value first stop last :
  let rowLen := CalculateRowLen ps in
  let n := Z.min (ps_paramSetSize ps) stop - first in
  om_sorted (ps_parameters ps) -> Forall (fun q => 0 < q.1) (ps_parameters ps) -> app_offset ps m = Ok off ->
  0 <= first -> 0 <= n < 2 ^ 31 ->
  (forall idx, idx = 0 \/ first <= idx < first + n -> row_values stored lenPtr ps off m value idx) ->
  wemits in_raw (set_Write stored lenPtr ps m) (le_bytes 4 rowLen ++ row_wire_bytes (value 0) ps)
  /\ wemits in_raw (set_Write_rows stored lenPtr ps first stop last m)
       (le_bytes 4 rowLen ++ le_bytes 4 n ++ bool_bytes last
        ++ concat (map (fun idx => row_wire_bytes (value idx) ps) (seqZ first n))).
Proof.
  intros rowLen n Hs Hp Ho Hf Hn Hv.
  assert (Hi : forall z, wemits in_raw (W.WriteInt32 z) (le_bytes 4 z))
    by (intros z; apply wemits_raw, wemits_stream, emit_int32).
  split; [write_step; [apply Hi|]; apply emit_row_values with off; auto|].
  unfold set_Write_rows. fold n rowLen. write_step; [apply Hi|].
  rewrite wrapU_small, wrapS_small by (widths; unfold inU; change (2 ^ 64) with 18446744073709551616;
    change (2 ^ 31) with 2147483648 in *; lia).
  write_step; [apply Hi|]. write_step; [by apply (emit_field KBool)|].
  destruct (Z.eqb_spec rowLen 0) as [E|_]; cbn [negb]; [rewrite emit_no_rows by done; apply wemits_ret|].
  apply emit_for_each. intros idx Hidx. apply elem_of_seqZ in Hidx. apply emit_row_values with off; auto.
Qed.

(** A decimal that is written to a stream is read back: the scale, the sign and the
    magnitude, and the reader stands behind it. *)
Theorem decimal_stream_roundtrip d w :
  decimal_ok d -> out_ok (w_stream w) -> w_metaMgr w = None -> in_raw w ->
  os_pos (w_stream w) + Z.of_nat (length (decimal_bytes d)) <= max_size ->
  exists s', u_WriteDecimal d w = Ok (tt, w_set_stream s' w) /\ wrote (w_stream w) (decimal_bytes d) s'
    /\ exists r, u_ReadDecimal (raw_reader (reopen s' (os_pos (w_stream w)))) = Ok (d, r)
         /\ r_stream r = in_at (os_pos s') (reopen s' (os_pos (w_stream w))).
Proof.
  intros Hd Ho Hm Hr Hfit. apply written_then_read; try done.
  - apply emit_decimal. by destruct Hd as (_ & _ & _ & Hs).
  - apply read_decimal; [done|]. destruct Ho as [H0 _]. unfold max_size in *.
    change (2 ^ 30) with 1073741824 in *. change (2 ^ 31) with 2147483648. lia.
Qed.

Definition sample_value : Z -> Z -> wire := fun idx k =>
  if k =? 1 then WScalar KInt (if idx =? 0 then 7 else -8) else WText (if idx =? 0 then [104; 105] else [33]).

Lemma sample_values idx : 0 <= idx < 2 -> @row_values _ sample_texts 4000 5000 sample_set 0 sample_mem sample_value idx.
Proof.
  intros Hidx k p Hk. unfold sample_set, SetParamSetSize, set_parameters in Hk. cbn [ps_parameters] in Hk. assert (Hi : idx = 0 \/ idx = 1) by lia.
  apply elem_of_cons in Hk as [E|Hk]; [|apply elem_of_cons in Hk as [E|Hk]; [|by apply elem_of_nil in Hk]];
    injection E as -> ->; destruct Hi as [-> | ->]; (split; [reflexivity|by vm_compute]).
Qed.

Lemma parameter_rows_witness :
  wemits in_raw (@set_Write _ sample_texts 4000 5000 sample_set sample_mem)
    (le_bytes 4 3 ++ row_wire_bytes (sample_value 0) sample_set)
  /\ wemits in_raw (@set_Write_rows _ sample_texts 4000 5000 sample_set 0 9 true sample_mem)
       (le_bytes 4 3 ++ le_bytes 4 2 ++ bool_bytes true
        ++ concat (map (fun idx => row_wire_bytes (sample_value idx) sample_set) [0; 1])).
Proof.
  apply (@parameter_rows _ sample_texts 4000 5000 sample_set sample_mem 0 sample_value 0 9 true).
  - repeat constructor; by vm_compute.
  - repeat constructor; by vm_compute.
  - reflexivity.
  - lia.
  - split; by vm_compute.
  - intros idx Hidx. apply sample_values. change (Z.min (ps_paramSetSize sample_set) 9 - 0) with 2 in Hidx. lia.
Defined.

Definition sample_decimal : Decimal := Dec 3 (BigInt (-1) [0xff030405]).

Lemma decimal_stream_roundtrip_witness :
  exists s', u_WriteDecimal sample_decimal sample_out = Ok (tt, w_set_stream s' sample_out)
    /\ wrote (w_stream sample_out) (decimal_bytes sample_decimal) s'
    /\ exists r, u_ReadDecimal (raw_reader (reopen s' 0)) = Ok (sample_decimal, r)
         /\ r_stream r = in_at (os_pos s') (reopen s' 0).
Proof.
  apply (decimal_stream_roundtrip sample_decimal sample_out).
  - split; [apply (bool_decide_unpack _); vm_compute; exact I|].
    split; [reflexivity|split; [apply Z.leb_le; reflexivity|split; [apply Z.leb_le|apply Z.ltb_lt]; reflexivity]].
  - exact sample_out_ok.
  - reflexivity.
  - exact sample_out_raw.
  - apply Z.leb_le. vm_compute. reflexivity.
Defined.
