(* ===== verification/PageProps.v ===== *)
(** Walking over a result page: the columns of a row are found where the server put them,
    and the rows follow one another. *)
From S2P Require Import Prelude OrdMap Memory Chrono Utf8 TypeTraits BigInteger BigBytes Decimal AppBuffer AppRead DocColumn.
From S2P Require Import Interop InteropProps BinUtils BinSchema BinObject BinWriter BinReader BinValues BinLayout BinTop BinFields BinDoc.
From S2P Require Import ParamWire PageRow Message MessageProps ParamProps.

(** * Values in columns *)

Definition kind_width (k : kind) : Z :=
  match k with
  | KByte | KBool => 1
  | KShort | KChar => 2
  | KInt | KFloat => 4
  | KLong | KDouble | KDate | KTime | KEnum => 8
  | KTimestamp => 12
  | KGuid => 16
  end.

(** The code of a column, whether the header is consumed before the start of the value is
    noted, and the size. *)
Definition col_type (v : wire) : Z :=
  match v with
  | WNothing => 0
  | WNull => DOCUMENTDB_HDR_NULL
  | WScalar k _ => code k
  | WText _ => DOCUMENTDB_TYPE_STRING
  | WBytes _ => DOCUMENTDB_TYPE_ARRAY_BYTE
  | WDecimal _ => DOCUMENTDB_TYPE_DECIMAL
  end.
Definition bare (v : wire) : bool :=
  match v with WNull | WBytes _ => true | WScalar k _ => negb (raw_tagged k) | _ => false end.
Definition col_size (v : wire) : Z :=
  match v with
  | WNothing => 0
  | WNull => 1
  | WScalar k _ => kind_width k
  | WText s | WBytes s => Z.of_nat (length s)
  | WDecimal d => GetMagnitudeLength d + 8
  end.
Definition col_lead (v : wire) : Z :=
  match v with WBytes _ => 5 | _ => if bare v then 1 else 0 end.

(** The column of a value whose bytes start at [p], read up to [off]. *)
Definition col_at (p : Z) (v : wire) (off : Z) : Column :=
  MkColumn (col_type v) (p + col_lead v) (p + Z.of_nat (length (wire_bytes v))) off (col_size v).

Definition col_ok (v : wire) : Prop :=
  match v with
  | WNothing => False
  | WNull => True
  | WScalar k v => k <> KEnum /\ valid v
  | WText s | WBytes s => string_ok s
  | WDecimal d => decimal_ok d
  end.

(** What follows the header that was consumed. *)
Definition tail_bytes (v : wire) : list Z :=
  match v with
  | WNothing | WNull => []
  | WScalar k v => raw_bytes (SPrim k) v
  | WBytes l => le_bytes 4 (Z.of_nat (length l)) ++ concat (map (le_bytes 1) l)
  | _ => wire_bytes v
  end.

Lemma wire_tail v :
  col_ok v -> wire_bytes v = (if bare v then le_bytes 1 (col_type v) else []) ++ tail_bytes v.
Proof. destruct v as [| |k v| | |]; try done. intros _. destruct k; done. Qed.

Lemma wire_head v : col_ok v -> exists rest, wire_bytes v = le_bytes 1 (col_type v) ++ rest.
Proof.
  destruct v as [| |k v|s|l|d]; cbn [col_ok wire_bytes col_type]; intros Hv; try done; try by eexists.
  unfold decimal_bytes. destruct (WriteDecimal d) as [[sc len] bytes]. by eexists.
Qed.

Lemma col_type_code v : col_ok v -> is_code (col_type v).
Proof. destruct v as [| |k v| | |]; try done; intros _; try by vm_compute. apply code_range. Qed.

Lemma enc_width k (v : ty k) : Z.of_nat (length (enc v)) = kind_width k.
Proof. by destruct k. Qed.

(** * The header and the extent *)

Lemma read_header s p v :
  col_ok v -> 0 <= is_len s < 2 ^ 31 -> 0 <= p -> holds (is_data s) p (wire_bytes v) ->
  p + Z.of_nat (length (wire_bytes v)) <= is_len s ->
  ReadColumnHeader (in_at p s) = Ok (col_type v, in_at (p + if bare v then 1 else 0) s).
Proof.
  intros Hv Hs Hp Hh Hl. destruct (wire_head v Hv) as [rest E]. rewrite E in Hh, Hl.
  apply holds_app in Hh as [Hh _]. rewrite length_app, le_bytes_length in Hl.
  unfold ReadColumnHeader. rewrite (bind_ok _ _ _ (in_at p s) p) by done.
  rewrite (read_step _ _ _ _ _ (p + 1) s (parse_int8 (col_type v) (col_type_code v Hv)) Hs Hh)
    by (rewrite ?le_bytes_length; lia).
  assert (Hset : In.set_Position p (in_at (p + 1) s) = Ok (tt, in_at p s))
    by (exact (in_position_spec p (in_at (p + 1) s) ltac:(cbn; lia))).
  assert (Hback : (In.set_Position p ;;; ret (col_type v)) (in_at (p + 1) s) = Ok (col_type v, in_at (p + 0) s)).
  { rewrite (bind_ok _ _ _ (in_at p s) tt) by done. by rewrite Z.add_0_r. }
  destruct v as [| |k v| | |]; try done. by destruct k.
Qed.

Lemma raw_reads_const {A B} (f : reader A) (b : B) bs a :
  raw_reads f bs a -> raw_reads (f ;;; ret b) bs b.
Proof. intros H. by apply (raw_reads_end _ (fun _ => b) _ a). Qed.

Lemma read_char (v : Z) : inU 16 v -> raw_reads R.ReadInt16 (le_bytes 2 v) (i16 v).
Proof.
  intros Hv. rewrite <- (le_bytes_wrapS 2) by lia. apply (read_field KShort). by apply wrapS_range.
Qed.

(** Values are read over, and the reader stands behind them. *)
Lemma extent_reads v :
  col_ok v -> Z.of_nat (length (wire_bytes v)) < 2 ^ 31 ->
  match v with WBytes _ => True | _ => raw_reads (column_extent (col_type v)) (tail_bytes v) (Some (col_size v, None)) end.
Proof.
  intros Hv Hl. destruct v as [| |k v|s|l|d]; try done.
  - apply raw_reads_ret.
  - destruct Hv as [Hk Hv]. destruct k; try done;
      try (apply (raw_reads_const _ _ _ v), (read_field _ v Hv)).
    by apply (raw_reads_const _ _ _ (i16 v)), read_char.
  - cbn [col_ok] in Hv. destruct Hv as [Hs Hn].
    change (column_extent (col_type (WText s)))
      with (let! str := u_ReadString in ret (Some (i32 (Z.of_nat (length str)), @None Z))).
    cbn [col_size tail_bytes wire_bytes].
    rewrite <- (wrapS_small 32 (Z.of_nat (length s))) by (widths; lia).
    apply (raw_reads_end _ (fun str => Some (i32 (Z.of_nat (length str)), None))). by apply u_read_string.
  - cbn [col_ok] in Hv. pose proof (read_decimal d Hv Hl) as Hd. destruct Hv as (_ & Hfit & _).
    change (column_extent (col_type (WDecimal d)))
      with (let! res := u_ReadDecimal in let! n := int32 (GetMagnitudeLength res + 8) in ret (Some (n, @None Z))).
    cbn [col_size tail_bytes wire_bytes]. rewrite <- (app_nil_r (decimal_bytes d)).
    eapply raw_reads_bind; [exact Hd|]. unfold GetMagnitudeLength, fits in *. change (2 ^ 26) with 67108864 in Hfit.
    intros st p r Hr Hh Hfit'. exists r. rewrite Z.add_0_r. split; [|done].
    by rewrite (bind_ok _ _ _ r (Z.of_nat (length (mag (magnitude d))) + 8)) by (apply int32_small; lia).
Qed.

Lemma at_stream {A} (f : inp A) s p q a r :
  f (in_at p s) = Ok (a, in_at q s) -> raw_reading s p r -> 0 <= q <= is_len s ->
  exists r', of_stream f r = Ok (a, r') /\ raw_reading s q r'.
Proof.
  intros Hf (Hs & Hp & Hst & Hm & Hid) Hq. unfold of_stream. rewrite Hst, Hf. cbn [obind].
  eexists. split; [done|]. by repeat split; cbn; try (destruct Hs; lia).
Qed.

Lemma set_at s p q r :
  raw_reading s p r -> 0 <= q <= is_len s ->
  exists r', of_stream (In.set_Position q) r = Ok (tt, r') /\ raw_reading s q r'.
Proof.
  intros Hr Hq. apply (at_stream _ _ p); [|done|done].
  exact (in_position_spec q (in_at p s) ltac:(cbn; lia)).
Qed.

Lemma raw_length s p r : raw_reading s p r -> 0 <= is_len s < 2 ^ 31.
Proof. by intros ((_ & H) & _). Qed.

Lemma extent_at s p v r :
  col_ok v -> holds (is_data s) p (wire_bytes v) -> p + Z.of_nat (length (wire_bytes v)) <= is_len s -> 0 <= p ->
  raw_reading s (p + if bare v then 1 else 0) r ->
  exists r', column_extent (col_type v) r
             = Ok (Some (col_size v, match v with WBytes _ => Some (p + 5) | _ => None end), r')
    /\ raw_reading s (p + Z.of_nat (length (wire_bytes v))) r'.
Proof.
  intros Hv Hh Hl Hp Hr. pose proof (raw_length _ _ _ Hr) as Hs. pose proof (wire_tail v Hv) as E.
  rewrite E in Hh. apply holds_app in Hh as [_ Hh].
  assert (Eb : Z.of_nat (length (if bare v then le_bytes 1 (col_type v) else [])) = if bare v then 1 else 0)
    by (by destruct (bare v)).
  rewrite Eb in Hh. rewrite E, length_app, Nat2Z.inj_add, Eb in Hl |- *. rewrite Z.add_assoc in *.
  destruct v as [| |k v|s'|l|d]; try (apply (extent_reads _ Hv); [rewrite E, length_app, Nat2Z.inj_add, Eb; lia|done|done|lia]).
  clear E Eb. cbn [bare tail_bytes] in *. rewrite length_app, Nat2Z.inj_add, le_bytes_length in Hl |- *.
  apply holds_app in Hh as [H1 _]. rewrite (concat_length 1) in Hl |- * by apply le_bytes_length.
  destruct Hv as [_ Hn].
  change (column_extent (col_type (WBytes l))) with
    (let! n := R.ReadInt32 in let! start := of_stream In.Position in of_stream (advance n) ;;; ret (Some (n, Some start))).
  destruct (read_field KInt (Z.of_nat (length l))
    ltac:(unfold ty; cbn [valid kind_codec int32_codec]; widths; lia) s (p + 1) r Hr H1) as (r1 & E1 & Hr1);
    [change (p + 1 + Z.of_nat 4 <= is_len s); lia|].
  change (raw_reading s (p + 1 + Z.of_nat 4) r1) in Hr1.
  rewrite (bind_ok _ _ _ r1 (Z.of_nat (length l))) by exact E1.
  destruct (at_stream In.Position s (p + 1 + Z.of_nat 4) (p + 1 + Z.of_nat 4) (p + 1 + Z.of_nat 4) r1 eq_refl Hr1)
    as (r2 & E2 & Hr2); [lia|].
  rewrite (bind_ok _ _ _ r2 (p + 1 + Z.of_nat 4)) by exact E2.
  destruct (at_stream (advance (Z.of_nat (length l))) s (p + 1 + Z.of_nat 4)
    (p + 1 + Z.of_nat 4 + Z.of_nat (length l)) tt r2) as (r3 & E3 & Hr3); [|done|lia|].
  { unfold advance. rewrite (bind_ok _ _ _ (in_at (p + 1 + Z.of_nat 4) s) (p + 1 + Z.of_nat 4)) by done.
    rewrite (bind_ok _ _ _ (in_at (p + 1 + Z.of_nat 4) s) (p + 1 + Z.of_nat 4 + Z.of_nat (length l)))
      by (apply int32_small; lia).
    exact (in_position_spec (p + 1 + Z.of_nat 4 + Z.of_nat (length l)) (in_at (p + 1 + Z.of_nat 4) s) ltac:(cbn [is_len in_at]; lia)). }
  rewrite (bind_ok _ _ _ r3 tt) by exact E3. exists r3. split.
  - by replace (p + 5) with (p + 1 + Z.of_nat 4) by lia.
  - refine (eq_rect _ (fun q => raw_reading s q r3) Hr3 _ _). lia.
Qed.

(** * Finding columns *)

(** A column is made without moving the reader. *)
Lemma new_column_at s p v r :
  col_ok v -> holds (is_data s) p (wire_bytes v) -> p + Z.of_nat (length (wire_bytes v)) <= is_len s ->
  raw_reading s p r ->
  exists r', new_column r = Ok (col_at p v 0, r') /\ raw_reading s p r'.
Proof.
  intros Hv Hh Hl Hr. pose proof (raw_length _ _ _ Hr) as Hs. pose proof Hr as (_ & Hp & _).
  assert (Hb : p + (if bare v then 1 else 0) <= is_len s).
  { rewrite (wire_tail v Hv), length_app in Hl. destruct (bare v); cbn [length le_bytes] in Hl; lia. }
  unfold new_column.
  destruct (at_stream In.Position s p p p r eq_refl Hr Hp) as (r1 & E1 & Hr1). rewrite (bind_ok _ _ _ r1 p) by exact E1.
  destruct (at_stream ReadColumnHeader s p (p + if bare v then 1 else 0) (col_type v) r1) as (r2 & E2 & Hr2);
    [apply read_header; done || lia|done|destruct (bare v); lia|].
  rewrite (bind_ok _ _ _ r2 (col_type v)) by exact E2. set (q := p + if bare v then 1 else 0) in *.
  assert (Hq : 0 <= q <= is_len s) by (unfold q; destruct (bare v); lia).
  destruct (at_stream In.Position s q q q r2 eq_refl Hr2 Hq) as (r3 & E3 & Hr3). rewrite (bind_ok _ _ _ r3 q) by exact E3.
  destruct (extent_at s p v r3 Hv Hh Hl ltac:(lia) Hr3) as (r4 & E4 & Hr4).
  rewrite (bind_ok _ _ _ r4 _) by exact E4. set (e := p + Z.of_nat (length (wire_bytes v))) in *.
  destruct (at_stream In.Position s e e e r4 eq_refl Hr4) as (r5 & E5 & Hr5); [unfold e; lia|].
  rewrite (bind_ok _ _ _ r5 e) by exact E5.
  destruct (set_at s e p r5 Hr5 Hp) as (r6 & E6 & Hr6). rewrite (bind_ok _ _ _ r6 tt) by exact E6.
  exists r6. split; [|done]. unfold ret, col_at, col_lead. fold e. subst q. by destruct v.
Qed.

Definition row_data (vs : list wire) : list Z := concat (map wire_bytes vs).

(** The columns of a row whose data starts at [p], with the offsets [offs]. *)
Fixpoint cols_at (p : Z) (vs : list wire) (offs : list Z) : list Column :=
  match vs, offs with
  | v :: vs, o :: offs => col_at p v o :: cols_at (p + Z.of_nat (length (wire_bytes v))) vs offs
  | _, _ => []
  end.

Lemma cols_at_length p vs offs : length offs = length vs -> length (cols_at p vs offs) = length vs.
Proof.
  revert p offs. induction vs as [|v vs IH]; intros p [|o offs]; cbn; try done. intros [=]. by rewrite IH.
Qed.

Lemma row_data_cons v vs : row_data (v :: vs) = wire_bytes v ++ row_data vs.
Proof. done. Qed.
Lemma row_data_app a b : row_data (a ++ b) = row_data a ++ row_data b.
Proof. unfold row_data. by rewrite map_app, concat_app. Qed.

Lemma cols_at_app p a b oa ob :
  length oa = length a ->
  cols_at p (a ++ b) (oa ++ ob) = cols_at p a oa ++ cols_at (p + Z.of_nat (length (row_data a))) b ob.
Proof.
  revert p oa. induction a as [|v a IH]; intros p [|o oa] E; try done.
  - cbn [app cols_at]. unfold row_data. cbn. by rewrite Z.add_0_r.
  - injection E as E. cbn [app cols_at]. rewrite IH by done. rewrite row_data_cons, length_app, Nat2Z.inj_add.
    by rewrite Z.add_assoc.
Qed.

Lemma cols_at_last p vs offs :
  length offs = length vs ->
  match last (cols_at p vs offs) with
  | Some c => c_endPos c = p + Z.of_nat (length (row_data vs))
  | None => vs = []
  end.
Proof.
  revert p offs. induction vs as [|v vs IH]; intros p [|o offs] E; try done. injection E as E.
  cbn [cols_at]. rewrite last_cons. specialize (IH (p + Z.of_nat (length (wire_bytes v))) offs E).
  rewrite row_data_cons, length_app, Nat2Z.inj_add.
  destruct (last (cols_at _ vs offs)) as [c|]; [rewrite IH; lia|]. subst vs. cbn. lia.
Qed.

(** Column after column, from the ones that are known. *)
Lemma discover_at s base vs : forall done offs p r,
  Forall col_ok vs -> length offs = length done ->
  (done <> [] \/ p = base) ->
  holds (is_data s) base (row_data (done ++ vs)) ->
  base + Z.of_nat (length (row_data (done ++ vs))) <= is_len s -> 0 <= base ->
  raw_reading s p r ->
  exists r' q, discover (length vs) (cols_at base done offs) r
       = Ok ((true, cols_at base (done ++ vs) (offs ++ replicate (length vs) 0)), r')
    /\ raw_reading s q r' /\ (done ++ vs <> [] \/ q = base).
Proof.
  induction vs as [|v vs IH]; intros done offs p r Hv Ho Hp Hh Hl Hb Hr.
  { exists r, p. cbn [length discover replicate]. by rewrite !app_nil_r. }
  apply Forall_cons_1 in Hv as [Hv Hvs]. cbn [length discover].
  set (q := base + Z.of_nat (length (row_data done))).
  pose proof Hh as Hh'. pose proof Hl as Hl'.
  rewrite row_data_app, row_data_cons in Hh, Hl. rewrite !length_app in Hl. rewrite !holds_app in Hh.
  destruct Hh as (_ & Hh & _). fold q in Hh.
  assert (E : exists r1, match last (cols_at base done offs) with
                         | Some column => of_stream (In.set_Position (c_endPos column))
                         | None => ret tt end r = Ok (tt, r1) /\ raw_reading s q r1).
  { pose proof (cols_at_last base done offs Ho) as Hlast. destruct (last _) as [c|].
    - rewrite Hlast. apply (set_at s p); [done|]. unfold q. lia.
    - exists r. split; [done|]. destruct Hp as [Hp| ->]; [done|]. subst done. unfold q, row_data. cbn. by rewrite Z.add_0_r. }
  destruct E as (r1 & E1 & Hr1). rewrite (bind_ok _ _ _ r1 tt) by exact E1.
  destruct (new_column_at s q v r1 Hv Hh ltac:(unfold q; lia) Hr1) as (r2 & E2 & Hr2).
  rewrite (bind_ok _ _ _ r2 (col_at q v 0)) by exact E2.
  assert (Hvalid : IsValid (col_at q v 0) = true).
  { unfold IsValid. cbn [c_startPos col_at]. apply Z.leb_le. unfold q, col_lead. destruct v; try (destruct (bare _)); lia. }
  rewrite Hvalid.
  assert (Ec : cols_at base done offs ++ [col_at q v 0] = cols_at base (done ++ [v]) (offs ++ [0])).
  { rewrite cols_at_app by done. done. }
  rewrite Ec. destruct (IH (done ++ [v]) (offs ++ [0]) q r2) as (r3 & q' & E3 & Hr3 & Hq'); try done.
  - rewrite !length_app. cbn. lia.
  - left. by destruct done.
  - by rewrite <- app_assoc.
  - by rewrite <- app_assoc.
  - exists r3, q'. rewrite <- !app_assoc in E3. rewrite <- app_assoc in Hq'. done.
Qed.

(** * Reading a column into a buffer *)

(** What reading does, without the stream: the result, the new offset and the memory. *)
Section put.
Context `{Platform} `{Calendar} (toDouble : Decimal -> Z).

Definition moved (v : wire) (off n : Z) : outcome Z Z :=
  let* o := checked 32 (off + n) in Ok (Z.min o (col_size v)).

Definition whole (v : wire) (off : Z) (r : outcome Z (ConversionResult * mem)) : outcome Z (ConversionResult * Z * mem) :=
  let* (res, m) := r in let* o := moved v off (col_size v) in Ok (res, o, m).
Definition part (v : wire) (off : Z) (r : outcome Z (ConversionResult * Z * mem))
  : outcome Z (ConversionResult * Z * mem) :=
  let* (res, n, m) := r in let* o := moved v off n in Ok (res, o, m).
Definition again (off : Z) (r : outcome Z (ConversionResult * mem)) : outcome Z (ConversionResult * Z * mem) :=
  let* (res, m) := r in Ok (res, off, m).

Definition put_scalar (k : kind) (off : Z) (b : ApplicationDataBuffer) (m : mem)
  : ty k -> outcome Z (ConversionResult * Z * mem) :=
  match k as k return ty k -> outcome Z (ConversionResult * Z * mem) with
  | KByte => fun x => whole (WScalar KByte x) off (PutInt8 b x m)
  | KBool => fun x => whole (WScalar KBool x) off (PutInt8 b (if x then 1 else 0) m)
  | KShort => fun x => whole (WScalar KShort x) off (PutInt16 b x m)
  | KChar => fun x => whole (WScalar KChar x) off (PutInt16 b (i16 x) m)
  | KInt => fun x => whole (WScalar KInt x) off (PutInt32 b x m)
  | KLong => fun x => whole (WScalar KLong x) off (PutInt64 b x m)
  | KFloat => fun x => whole (WScalar KFloat x) off (PutNumF f_float b x m)
  | KDouble => fun x => whole (WScalar KDouble x) off (PutNumF f_double b x m)
  | KGuid => fun x => whole (WScalar KGuid x) off (PutGuid b x m)
  | KDate => fun x => again off (PutDate b x m)
  | KTimestamp => fun x => again off (PutTimestamp b x m)
  | KTime => fun x => again off (PutTime b x m)
  | KEnum => fun _ => UB
  end.

(** The part of a text behind the offset, and the next piece of a byte array, no longer
    than the buffer. *)
Definition put_value_at (v : wire) (off : Z) (b : ApplicationDataBuffer) (m : mem)
  : outcome Z (ConversionResult * Z * mem) :=
  match v with
  | WNothing => UB
  | WNull => whole v off (PutNull b m)
  | WScalar k x => put_scalar k off b m x
  | WText s =>
      if Z.of_nat (length s) <? u64 off then Throw length_error
      else part v off (PutStringWritten b (drop (Z.to_nat off) (bytes_of s)) m)
  | WBytes l =>
      if (off <? 0) || (col_size v <? off) then UB
      else
        let n := Z.min (col_size v - off) (i32 (GetSize b)) in
        if n <? 0 then Throw length_error
        else if n =? 0 then UB
        else part v off (PutBinaryData b (bytes_of (take (Z.to_nat n) (drop (Z.to_nat off) l))) m)
  | WDecimal d => whole v off (PutDecimal b d toDouble m)
  end.

(** A column that was read to its end is null, and there is no data. *)
Definition put_wire (v : wire) (off : Z) (b : ApplicationDataBuffer) (m : mem)
  : outcome Z (ConversionResult * Z * mem) :=
  let* unread := checked 32 (col_size v - off) in
  if unread =? 0 then let* (_, m) := PutNull b m in Ok (AI_NO_DATA, off, m)
  else put_value_at v off b m.

(** What the code must do when the outcome is defined. *)
Definition put_like (s : InStream) (p : Z) (v : wire) (o : outcome Z (ConversionResult * Z * mem))
    (o' : outcome Z ((ConversionResult * Column * mem) * BinaryReaderImpl)) : Prop :=
  match o with
  | Ok (res, off, m) => exists r q, o' = Ok ((res, col_at p v off, m), r) /\ raw_reading s q r
  | Throw e => o' = Throw e
  | UB => True
  end.

Lemma increase p v off n : IncreaseOffset n (col_at p v off) = let* o := moved v off n in Ok (col_at p v o).
Proof.
  unfold IncreaseOffset, moved. cbn [c_offset c_size col_at]. destruct (checked 32 (off + n)) as [o| |]; try done.
  cbn [obind]. destruct (Z.ltb_spec (col_size v) o); do 2 f_equal; unfold col_at; f_equal; lia.
Qed.

Lemma put_whole_like s p v off q r o :
  raw_reading s q r -> put_like s p v (whole v off o) (put_whole o (col_at p v off) r).
Proof.
  intros Hr. unfold put_like, whole, put_whole, bind, from, ret. destruct o as [[res m]| |]; cbn [obind]; try done.
  rewrite increase. cbn [c_size col_at]. destruct (moved v off (col_size v)); cbn [obind]; try done. eauto.
Qed.
Lemma put_part_like s p v off q r o :
  raw_reading s q r -> put_like s p v (part v off o) (put_part o (col_at p v off) r).
Proof.
  intros Hr. unfold put_like, part, put_part, bind, from, ret. destruct o as [[[res n] m]| |]; cbn [obind]; try done.
  rewrite increase. destruct (moved v off n); cbn [obind]; try done. eauto.
Qed.
Lemma put_again_like s p v off q r o :
  raw_reading s q r -> put_like s p v (again off o) (put_again o (col_at p v off) r).
Proof.
  intros Hr. unfold put_like, again, put_again, bind, from, ret. destruct o as [[res m]| |]; cbn [obind]; try done. eauto.
Qed.

Lemma after_read {A} (f : reader A) bs a s q r (k : A -> reader (ConversionResult * Column * mem)) p v o :
  raw_reads f bs a -> raw_reading s q r -> holds (is_data s) q bs -> q + Z.of_nat (length bs) <= is_len s ->
  (forall r', raw_reading s (q + Z.of_nat (length bs)) r' -> put_like s p v o (k a r')) ->
  put_like s p v o (bind f k r).
Proof.
  intros Hf Hr Hh Hl Hk. destruct (Hf s q r Hr Hh Hl) as (r' & E & Hr'). rewrite (bind_ok _ _ r r' a) by done. by apply Hk.
Qed.

Lemma tail_at s p v :
  col_ok v -> holds (is_data s) p (wire_bytes v) -> p + Z.of_nat (length (wire_bytes v)) <= is_len s ->
  holds (is_data s) (p + if bare v then 1 else 0) (tail_bytes v)
  /\ p + (if bare v then 1 else 0) + Z.of_nat (length (tail_bytes v)) = p + Z.of_nat (length (wire_bytes v)).
Proof.
  intros Hv Hh Hl. rewrite (wire_tail v Hv) in Hh |- *. apply holds_app in Hh as [_ Hh].
  rewrite length_app. destruct (bare v); cbn [length le_bytes] in *; [split; [exact Hh|lia]|].
  split; [exact Hh|lia].
Qed.

Lemma put_scalar_like s p k (x : ty k) off b m r :
  col_ok (WScalar k x) -> holds (is_data s) p (wire_bytes (WScalar k x)) ->
  p + Z.of_nat (length (wire_bytes (WScalar k x))) <= is_len s ->
  raw_reading s (p + col_lead (WScalar k x)) r ->
  put_like s p (WScalar k x) (put_scalar k off b m x) (put_column toDouble (col_at p (WScalar k x) off) b m r).
Proof.
  intros Hv Hh Hl Hr. destruct (tail_at s p _ Hv Hh Hl) as [Ht Hf]. pose proof Hv as [Hk Hx].
  rewrite <- Hf in Hl.
  assert (Hrd : forall bs (kr : ty k -> reader (ConversionResult * Column * mem)) o,
    bs = tail_bytes (WScalar k x) ->
    (forall q r', raw_reading s q r' -> put_like s p (WScalar k x) o (kr x r')) ->
    put_like s p (WScalar k x) o (bind (read_prim_raw k) kr r)).
  { intros bs kr o -> Hkr. eapply (after_read _ _ x); [by apply read_field|exact Hr|exact Ht|exact Hl|].
    intros r' Hr'. by apply (Hkr _ _ Hr'). }
  destruct k; try done; try (refine (Hrd _ _ _ eq_refl _); intros q r' Hr';
    first [exact (put_whole_like _ _ _ _ _ _ _ Hr')|exact (put_again_like _ _ _ _ _ _ _ Hr')]).
  eapply (after_read _ _ (i16 x)); [by apply read_char|exact Hr|exact Ht|exact Hl|].
  intros r' Hr'. exact (put_whole_like _ _ _ _ _ _ _ Hr').
Qed.

Lemma int8_slice l a n :
  Forall (inS 8) l -> Forall (inS 8) (take n (drop a l)).
Proof. intros Hl. by apply Forall_take, Forall_drop. Qed.

Lemma concat_slice l a n :
  take n (drop a (concat (map (le_bytes 1) l))) = concat (map (le_bytes 1) (take n (drop a l))).
Proof.
  assert (E : forall l, concat (map (le_bytes 1) l) = map u8 l) by (induction l0 as [|z t IH]; [done|]; cbn [map concat]; by rewrite IH).
  rewrite !E. by rewrite (fmap_take u8), (fmap_drop u8).
Qed.

Lemma holds_slice d p bs a n :
  holds d p bs -> holds d (p + Z.of_nat a) (take n (drop a bs)).
Proof.
  intros Hb. destruct (decide (a <= length bs)%nat) as [Ha|Ha]; [|rewrite drop_ge by lia; rewrite take_nil; apply holds_nil].
  rewrite <- (take_drop a bs) in Hb. apply holds_app in Hb as [_ Hb]. rewrite length_take_le in Hb by done.
  rewrite <- (take_drop n (drop a bs)) in Hb. by apply holds_app in Hb as [Hb _].
Qed.

Lemma put_bytes_like s p l off b m r :
  col_ok (WBytes l) -> holds (is_data s) p (wire_bytes (WBytes l)) ->
  p + Z.of_nat (length (wire_bytes (WBytes l))) <= is_len s -> 0 <= p ->
  raw_reading s (p + 5) r ->
  put_like s p (WBytes l) (put_value_at (WBytes l) off b m) (put_column toDouble (col_at p (WBytes l) off) b m r).
Proof.
  intros [Hi Hn] Hh Hl Hp Hr. pose proof (raw_length _ _ _ Hr) as Hs.
  destruct (tail_at s p (WBytes l) (conj Hi Hn) Hh Hl) as [Ht Hf]. cbn [bare tail_bytes] in Ht, Hf.
  rewrite length_app, le_bytes_length, (concat_length 1) in Hf by apply le_bytes_length.
  apply holds_app in Ht as [_ Ht]. rewrite le_bytes_length in Ht. cbn [put_value_at].
  destruct ((off <? 0) || (col_size (WBytes l) <? off)) eqn:Eo; [done|].
  apply orb_false_iff in Eo as [E1%Z.ltb_ge E2%Z.ltb_ge]. cbn [col_size] in E2 |- *.
  assert (Ec : put_column toDouble (col_at p (WBytes l) off) b m =
    (let! q := int32 (p + 5 + off) in
     of_stream (In.set_Position q) ;;;
     let! unread := from (checked 32 (Z.of_nat (length l) - off)) in
     let maxRead := Z.min unread (i32 (GetSize b)) in
     if maxRead <? 0 then throw length_error
     else if maxRead =? 0 then undefined
     else
       let! data := of_stream (In.ReadInt8Array maxRead) in
       put_part (PutBinaryData b (bytes_of data) m) (col_at p (WBytes l) off))) by reflexivity.
  rewrite Ec. rewrite (bind_ok _ _ r r (p + 5 + off)) by (apply int32_small; lia).
  destruct (set_at s (p + 5) (p + 5 + off) r Hr ltac:(lia)) as (r1 & Er1 & Hr1).
  rewrite (bind_ok _ _ r r1 tt) by exact Er1.
  rewrite (bind_ok _ _ r1 r1 (Z.of_nat (length l) - off)) by (unfold from; rewrite checked_ok by (widths; lia); done).
  cbv zeta. set (n := Z.min (Z.of_nat (length l) - off) (i32 (GetSize b))).
  destruct (Z.ltb_spec n 0); [done|]. destruct (Z.eqb_spec n 0); [done|].
  set (data := take (Z.to_nat n) (drop (Z.to_nat off) l)).
  assert (Hd : Z.of_nat (length data) = n) by (unfold data; rewrite length_take, length_drop; lia).
  assert (Hdl : Z.of_nat (length (concat (map (le_bytes 1) data))) = n)
    by (rewrite (concat_length 1) by apply le_bytes_length; lia).
  eapply (after_read _ (concat (map (le_bytes 1) data)) data); [|exact Hr1| | |].
  - rewrite <- Hd. by apply raw_stream_reads, parse_int8_array, int8_slice.
  - unfold data. rewrite <- concat_slice. pose proof (holds_slice _ _ _ (Z.to_nat off) (Z.to_nat n) Ht) as H'.
    eapply holds_at; [|exact H']. lia.
  - rewrite Hdl. lia.
  - intros r' Hr'. exact (put_part_like _ _ _ _ _ _ _ Hr').
Qed.

Lemma put_column_like s p v off b m r :
  col_ok v -> holds (is_data s) p (wire_bytes v) -> p + Z.of_nat (length (wire_bytes v)) <= is_len s -> 0 <= p ->
  raw_reading s (p + col_lead v) r ->
  put_like s p v (put_value_at v off b m) (put_column toDouble (col_at p v off) b m r).
Proof.
  intros Hv Hh Hl Hp Hr. pose proof (raw_length _ _ _ Hr) as Hs. destruct v as [| |k x|str|l|d].
  - done.
  - exact (put_whole_like _ _ _ _ _ _ _ Hr).
  - by apply put_scalar_like.
  - cbn [col_lead bare] in Hr. rewrite Z.add_0_r in Hr.
    eapply (after_read u_ReadString (string_bytes str) str); [by apply u_read_string|exact Hr|exact Hh|exact Hl|].
    intros r' Hr'. cbn [put_value_at col_at c_offset]. destruct (_ <? u64 off); [done|].
    exact (put_part_like _ _ _ _ _ _ _ Hr').
  - by apply put_bytes_like.
  - cbn [col_lead bare] in Hr. rewrite Z.add_0_r in Hr. cbn [wire_bytes] in Hh, Hl.
    eapply (after_read u_ReadDecimal (decimal_bytes d) d); [apply read_decimal; [done|lia]|exact Hr|exact Hh|exact Hl|].
    intros r' Hr'. exact (put_whole_like _ _ _ _ _ _ _ Hr').
Qed.

(** Reading a column, wherever the reader stands, and going back there. *)
Lemma read_column_like s p v off b m q r :
  col_ok v -> holds (is_data s) p (wire_bytes v) -> p + Z.of_nat (length (wire_bytes v)) <= is_len s -> 0 <= p ->
  raw_reading s q r ->
  put_like s p v (put_wire v off b m) (ReadToBuffer toDouble (col_at p v off) b m r).
Proof.
  intros Hv Hh Hl Hp Hr. unfold ReadToBuffer, put_wire.
  assert (Hlead : p + col_lead v <= p + Z.of_nat (length (wire_bytes v)) /\ 0 <= col_lead v).
  { rewrite (wire_tail v Hv), length_app. destruct v as [| |k x| | |]; cbn [col_lead bare tail_bytes];
      rewrite ?length_app, ?le_bytes_length; try lia. destruct (negb _); rewrite ?le_bytes_length; cbn [length]; lia. }
  assert (Hvalid : IsValid (col_at p v off) = true) by (apply Z.leb_le; cbn [col_at c_startPos]; lia).
  rewrite Hvalid. cbn [negb]. unfold GetUnreadDataLength. cbn [c_size c_offset col_at].
  unfold bind at 1, from at 1. destruct (checked 32 (col_size v - off)) as [unread| |]; cbn [obind]; try done.
  destruct (unread =? 0).
  { unfold bind, from, ret. destruct (PutNull b m) as [[res m']| |]; cbn [obind]; try done. by exists r, q. }
  pose proof Hr as (_ & Hq & _).
  destruct (at_stream In.Position s q q q r eq_refl Hr Hq) as (r1 & E1 & Hr1). rewrite (bind_ok _ _ _ r1 q) by exact E1.
  destruct (set_at s q (p + col_lead v) r1 Hr1 ltac:(lia)) as (r2 & E2 & Hr2). rewrite (bind_ok _ _ _ r2 tt) by exact E2.
  pose proof (put_column_like s p v off b m r2 Hv Hh Hl Hp Hr2) as Hput.
  unfold bind at 1. destruct (put_value_at v off b m) as [[[res o] m']| |]; cbn [put_like] in Hput |- *; try done.
  - destruct Hput as (r3 & q3 & -> & Hr3). cbn [obind].
    destruct (set_at s q3 q r3 Hr3 Hq) as (r4 & E4 & Hr4). rewrite (bind_ok _ _ _ r4 tt) by exact E4. by exists r4, q.
  - by rewrite Hput.
Qed.
End put.

(** * Rows *)

Definition place_of (p : Z) (vs : list wire) (i : nat) : Z := p + Z.of_nat (length (row_data (take i vs))).

Lemma cols_at_lookup p vs offs i v o :
  vs !! i = Some v -> offs !! i = Some o -> cols_at p vs offs !! i = Some (col_at (place_of p vs i) v o).
Proof.
  revert p offs i. induction vs as [|v' vs IH]; intros p [|o' offs] [|i]; try done; cbn [lookup list_lookup cols_at].
  - intros [= ->] [= ->]. unfold place_of, row_data. cbn. by rewrite Z.add_0_r.
  - intros Hv Ho. rewrite (IH _ _ _ Hv Ho). unfold place_of. cbn [take]. rewrite row_data_cons, length_app.
    do 2 f_equal. lia.
Qed.

Lemma cols_at_insert p vs offs i v o :
  vs !! i = Some v ->
  <[i := col_at (place_of p vs i) v o]> (cols_at p vs offs) = cols_at p vs (<[i := o]> offs).
Proof.
  revert p offs i. induction vs as [|v' vs IH]; intros p [|o' offs] [|i]; try done; cbn [lookup list_lookup].
  - intros [= ->]. unfold place_of, row_data. cbn. by rewrite Z.add_0_r.
  - intros Hv. change (<[S i := col_at (place_of p (v' :: vs) (S i)) v o]> (cols_at p (v' :: vs) (o' :: offs)))
      with (col_at p v' o' :: <[i := col_at (place_of p (v' :: vs) (S i)) v o]>
              (cols_at (p + Z.of_nat (length (wire_bytes v'))) vs offs)).
    change (<[S i := o]> (o' :: offs)) with (o' :: <[i := o]> offs). cbn [cols_at]. rewrite <- IH by done.
    f_equal. f_equal. unfold place_of. cbn [take]. rewrite row_data_cons, length_app. f_equal. lia.
Qed.

Lemma place_bounds vs i v :
  vs !! i = Some v -> row_data vs = row_data (take i vs) ++ wire_bytes v ++ row_data (drop (S i) vs).
Proof. intros Hv. rewrite <- row_data_cons, <- row_data_app. by rewrite take_drop_middle. Qed.

(** A row of the values [vs], which start at [base], read up to [offs]. *)
Record row_at (s : InStream) (base : Z) (vs : list wire) (offs : list Z) (r : Row) : Prop := {
  ra_size : rw_size r = Z.of_nat (length vs);
  ra_offs : length offs = length vs;
  ra_ok : Forall col_ok vs;
  ra_base : 0 <= base;
  ra_holds : holds (is_data s) base (row_data vs);
  ra_fits : base + Z.of_nat (length (row_data vs)) <= is_len s;
  ra_known : exists d q, (d <= length vs)%nat /\ rw_columns r = cols_at base (take d vs) (take d offs)
    /\ drop d offs = replicate (length vs - d) 0 /\ raw_reading s q (rw_reader r) /\ (d <> 0%nat \/ q = base)
}.

Definition knows (n : nat) (r : Row) : Prop := (n <= length (rw_columns r))%nat.

Lemma ensure_column s base vs offs r j :
  row_at s base vs offs r -> 1 <= j <= Z.of_nat (length vs) ->
  exists r', EnsureColumnDiscovered j r = Ok (true, r') /\ row_at s base vs offs r' /\ knows (Z.to_nat j) r'.
Proof.
  intros Hr Hj. pose proof Hr as [Hsize Ho Hv Hb Hh Hf (d & q & Hd & Hc & Hz & Hrd & Hq)].
  assert (El : length (rw_columns r) = d).
  { rewrite Hc, cols_at_length; rewrite !length_take; lia. }
  unfold EnsureColumnDiscovered. rewrite El. destruct (Z.leb_spec j (Z.of_nat d)) as [Hle|Hgt].
  { exists r. split; [done|]. split; [done|]. unfold knows. rewrite El. lia. }
  rewrite Hsize. destruct (Z.ltb_spec (Z.of_nat (length vs)) j); [lia|]. destruct (Z.ltb_spec j 1); [lia|]. cbn [orb].
  set (n := Z.to_nat (j - Z.of_nat d)).
  assert (Ev : take (d + n) vs = take d vs ++ take n (drop d vs)) by (by rewrite take_take_drop).
  assert (Eo : take (d + n) offs = take d offs ++ replicate n 0).
  { rewrite <- take_take_drop, Hz, take_replicate. do 2 f_equal. lia. }
  assert (En : length (take n (drop d vs)) = n) by (rewrite length_take, length_drop; lia).
  assert (Epre : row_data vs = row_data (take (d + n) vs) ++ row_data (drop (d + n) vs))
    by (by rewrite <- row_data_app, take_drop).
  rewrite Epre in Hh, Hf. apply holds_app in Hh as [Hh _]. rewrite length_app in Hf. rewrite Ev in Hh, Hf.
  destruct (discover_at s base (take n (drop d vs)) (take d vs) (take d offs) q (rw_reader r))
    as (rd & q' & E & Hrd' & Hq'); try done; try lia.
  - by apply Forall_take, Forall_drop.
  - rewrite !length_take. lia.
  - destruct Hq as [Hq|Hq]; [left|by right]. destruct d; [done|]. destruct vs; [cbn in Hd; lia|done].
  - rewrite En, <- Hc in E. rewrite E. cbn [obind]. eexists. split; [done|].
    assert (Ec : cols_at base (take (d + n) vs) (take (d + n) offs)
      = cols_at base (take d vs ++ take n (drop d vs)) (take d offs ++ replicate n 0)) by (by rewrite Ev, Eo).
    split.
    + destruct Hr as [_ _ _ _ Hh0 Hf0 _]. constructor; cbn [rw_size rw_columns rw_reader set_columns]; try done.
      exists (d + n)%nat, q'. split; [lia|]. split; [by rewrite Ec|]. split; [|split; [done|]].
      * rewrite <- drop_drop, Hz, drop_replicate. f_equal. lia.
      * left. lia.
    + unfold knows. cbn [rw_columns set_columns]. rewrite <- Ec, cols_at_length; rewrite !length_take; lia.
Qed.

Section read_rows.
Context `{Platform} `{Calendar} (toDouble : Decimal -> Z).

(** Reading the column [j] of a row, without the stream. *)
Definition read_value (vs : list wire) (offs : list Z) (j : Z) (b : ApplicationDataBuffer) (m : mem)
  : outcome Z (ConversionResult * list Z * mem) :=
  if j <? 1 then UB
  else match vs !! Z.to_nat (j - 1), offs !! Z.to_nat (j - 1) with
       | Some v, Some off =>
           let* (res, off, m) := put_wire toDouble v off b m in
           Ok (res, <[Z.to_nat (j - 1) := off]> offs, m)
       | _, _ => Ok (AI_FAILURE, offs, m)
       end.

Lemma read_row s base vs offs r j b m :
  row_at s base vs offs r ->
  match read_value vs offs j b m with
  | Ok (res, offs', m') => exists r', ReadColumnToBuffer toDouble j b r m = Ok (res, r', m') /\ row_at s base vs offs' r'
  | Throw e => ReadColumnToBuffer toDouble j b r m = Throw e
  | UB => True
  end.
Proof.
  intros Hr. unfold read_value. destruct (Z.ltb_spec j 1); [done|]. pose proof Hr as [Hsize Ho Hv Hb Hh Hf _].
  destruct (vs !! Z.to_nat (j - 1)) as [v|] eqn:Ev.
  2:{ apply lookup_ge_None in Ev. exists r. split; [|done]. unfold ReadColumnToBuffer, EnsureColumnDiscovered.
      destruct (ra_known _ _ _ _ _ Hr) as (d & q & Hd & Hc & _).
      assert (El : length (rw_columns r) = d) by (rewrite Hc, cols_at_length; rewrite !length_take; lia).
      rewrite El. destruct (Z.leb_spec j (Z.of_nat d)); [lia|]. rewrite Hsize.
      by destruct (Z.ltb_spec (Z.of_nat (length vs)) j); [|lia]. }
  pose proof (lookup_lt_Some _ _ _ Ev) as Hlt.
  destruct (lookup_lt_is_Some_2 offs (Z.to_nat (j - 1)) ltac:(lia)) as [off Eo]. rewrite Eo.
  destruct (ensure_column s base vs offs r j Hr ltac:(lia)) as (r1 & E1 & Hr1 & Hk).
  unfold ReadColumnToBuffer. rewrite E1. cbn [obind negb].
  destruct Hr1 as [Hsize1 _ _ _ _ _ (d & q & Hd & Hc & Hz & Hrd & Hq)].
  set (i := Z.to_nat (j - 1)) in *.
  assert (Hi : (i < d)%nat).
  { assert (El : length (rw_columns r1) = d) by (rewrite Hc, cols_at_length; rewrite !length_take; lia).
    unfold knows in Hk. lia. }
  assert (Evd : take d vs !! i = Some v) by (by rewrite lookup_take_lt).
  assert (Eod : take d offs !! i = Some off) by (by rewrite lookup_take_lt).
  unfold GetColumn. destruct (Z.ltb_spec j 1); [lia|]. fold i.
  assert (Ecol : rw_columns r1 !! i = Some (col_at (place_of base (take d vs) i) v off)) by (by rewrite Hc, cols_at_lookup with (v := v) (o := off)).
  rewrite Ecol. cbn [obind].
  pose proof (place_bounds vs i v Ev) as Ep.
  assert (Epl : place_of base (take d vs) i = place_of base vs i).
  { unfold place_of. rewrite take_take. by replace (i `min` d)%nat with i by lia. }
  rewrite Epl. rewrite Ep in Hh, Hf. rewrite !holds_app in Hh. destruct Hh as (_ & Hh & _).
  rewrite !length_app in Hf. fold (place_of base vs i) in Hh.
  pose proof (read_column_like toDouble s (place_of base vs i) v off b m q (rw_reader r1)) as Hread.
  rewrite Forall_lookup in Hv. specialize (Hread (Hv _ _ Ev) Hh ltac:(unfold place_of; lia) ltac:(unfold place_of; lia) Hrd).
  destruct (put_wire toDouble v off b m) as [[[res off'] m']| |]; cbn [put_like obind] in *; try done.
  2:{ by rewrite Hread. }
  destruct Hread as (rd & q' & -> & Hrd').
  cbn [obind]. eexists. split; [done|]. destruct Hr as [_ _ Hv0 _ Hh0 Hf0 _].
  constructor; cbn [rw_size rw_columns rw_reader set_columns]; try done; [by rewrite length_insert|].
  exists d, q'. split; [done|]. split.
  { rewrite Hc, <- Epl, cols_at_insert by done. by rewrite take_insert_lt by done. }
  split; [by rewrite drop_insert_lt by done|]. split; [done|left; lia].
Qed.
End read_rows.

(** ** From row to row *)

Definition encode_row (vs : list wire) : list Z := le_bytes 4 (Z.of_nat (length vs)) ++ row_data vs.
Definition page_data (rows : list (list wire)) : list Z := concat (map encode_row rows).

(** Rows with at least one column; the number of the last one is a [uint16_t]. *)
Definition row_ok (vs : list wire) : Prop := Forall col_ok vs /\ 1 <= Z.of_nat (length vs) < 2 ^ 16.

Lemma reinit_at s q vs r :
  row_ok vs -> raw_reading s q (rw_reader r) -> holds (is_data s) q (encode_row vs) ->
  q + Z.of_nat (length (encode_row vs)) <= is_len s ->
  exists r', Reinit r = Ok r' /\ row_at s (q + 4) vs (replicate (length vs) 0) r'.
Proof.
  intros [Hv Hn] Hr Hh Hl. pose proof (raw_length _ _ _ Hr) as Hs. pose proof Hr as (_ & Hq & _).
  change (2 ^ 16) with 65536 in Hn. unfold encode_row in Hh, Hl.
  apply holds_app in Hh as [H1 H2]. rewrite length_app, le_bytes_length in Hl. rewrite le_bytes_length in H2.
  assert (Hp : raw_reads (of_stream In.ReadInt32) (le_bytes 4 (Z.of_nat (length vs))) (Z.of_nat (length vs)))
    by (apply raw_stream_reads, parse_int32; widths; lia).
  destruct (Hp s q _ Hr H1 ltac:(rewrite le_bytes_length; lia)) as (rd & E & Hrd). rewrite le_bytes_length in Hrd.
  unfold Reinit. rewrite E. cbn [obind]. destruct (Z.ltb_spec (Z.of_nat (length vs)) 0); [lia|].
  eexists. split; [done|]. change (Z.of_nat 4) with 4 in *. constructor; cbn [rw_size rw_columns rw_reader]; try done; try lia.
  - by rewrite length_replicate.
  - exists 0%nat, (q + 4). split; [lia|]. split; [done|]. rewrite Nat.sub_0_r. split; [done|]. split; [done|]. by right.
Qed.

Lemma move_next s base vs vs' offs r :
  row_at s base vs offs r -> row_ok vs -> row_ok vs' ->
  holds (is_data s) (base + Z.of_nat (length (row_data vs))) (encode_row vs') ->
  base + Z.of_nat (length (row_data vs)) + Z.of_nat (length (encode_row vs')) <= is_len s ->
  exists r', MoveToNext r = Ok (true, r')
    /\ row_at s (base + Z.of_nat (length (row_data vs)) + 4) vs' (replicate (length vs') 0) r'.
Proof.
  intros Hr [Hv Hn] Hvs' Hh Hl. change (2 ^ 16) with 65536 in Hn.
  pose proof Hr as [Hsize Ho _ Hb _ _ _]. unfold MoveToNext. rewrite Hsize.
  rewrite wrapU_small by (unfold inU; change (2 ^ 16) with 65536; lia).
  destruct (ensure_column s base vs offs r (Z.of_nat (length vs)) Hr ltac:(lia)) as (r1 & E & Hr1 & Hk).
  rewrite E. cbn [obind negb]. pose proof Hr1 as [_ _ _ _ _ _ (d & q & Hd & Hc & _ & Hrd & _)].
  assert (El : length (rw_columns r1) = d) by (rewrite Hc, cols_at_length; rewrite !length_take; lia).
  unfold knows in Hk. assert (Ed : d = length vs) by lia. rewrite Ed in El, Hc.
  rewrite !firstn_all2 in Hc by lia.
  unfold GetColumn. destruct (Z.ltb_spec (Z.of_nat (length vs)) 1); [lia|].
  pose proof (cols_at_last base vs offs Ho) as Hlast. rewrite last_lookup, <- Hc, El in Hlast.
  replace (Z.to_nat (Z.of_nat (length vs) - 1)) with (pred (length vs)) by lia.
  destruct (rw_columns r1 !! pred (length vs)) as [c|] eqn:Ec; [|subst vs; cbn in *; lia]. cbn [obind].
  set (e := base + Z.of_nat (length (row_data vs))) in *. rewrite Hlast.
  destruct (set_at s q e (rw_reader r1) Hrd ltac:(lia)) as (rd & -> & Hrd'). cbn [obind].
  destruct (reinit_at s e vs' (set_columns rd (rw_columns r1) r1)) as (r2 & -> & Hr2); try done.
  cbn [obind]. by exists r2.
Qed.

(** * The cursor *)

Section cursor.
Context `{Platform} `{Calendar} (toDouble : Decimal -> Z).

(** What a reader of the results does: it reads columns of the current row, and goes on. *)
Inductive page_act : Type := ReadCol (j : Z) (b : ApplicationDataBuffer) | NextRow.
Inductive page_fact : Type :=
| Converted (res : ConversionResult)
| NoRow
| Moved (ok hasData needData : bool).

Definition act (a : page_act) (c : Cursor) (m : mem) : outcome Z (page_fact * Cursor * mem) :=
  match a with
  | ReadCol j b =>
      match GetRow c with
      | None => Ok (NoRow, c, m)
      | Some row =>
          let* (res, row, m) := ReadColumnToBuffer toDouble j b row m in
          Ok (Converted res, MkCursor (cu_queryId c) (currentPage c) (currentPagePos c) (Some row), m)
      end
  | NextRow =>
      let* (ok, c) := cursor_Increment c in Ok (Moved ok (cursor_HasData c) (NeedDataUpdate c), c, m)
  end.

Fixpoint acts (l : list page_act) (c : Cursor) (m : mem) : outcome Z (list page_fact * mem) :=
  match l with
  | [] => Ok ([], m)
  | a :: t => let* (f, c, m) := act a c m in let* (fs, m) := acts t c m in Ok (f :: fs, m)
  end.

(** The same on the rows themselves: the current one first, with its offsets. *)
Definition view : Type := list (list wire) * list Z.
Definition fresh (rows : list (list wire)) : view :=
  (rows, match rows with vs :: _ => replicate (length vs) 0 | [] => [] end).

Definition view_act (last : bool) (a : page_act) (w : view) (m : mem) : outcome Z (page_fact * view * mem) :=
  match a, w.1 with
  | ReadCol j b, [] => Ok (NoRow, w, m)
  | ReadCol j b, vs :: _ =>
      let* (res, offs, m) := read_value toDouble vs w.2 j b m in Ok (Converted res, (w.1, offs), m)
  | NextRow, [] => Ok (Moved false (negb last) (negb last), w, m)
  | NextRow, _ :: rest =>
      let ended := bool_decide (rest = []) in
      Ok (Moved true (negb last || negb ended) (negb last && ended), fresh rest, m)
  end.

Fixpoint view_acts (last : bool) (l : list page_act) (w : view) (m : mem) : outcome Z (list page_fact * mem) :=
  match l with
  | [] => Ok ([], m)
  | a :: t =>
      let* (f, w, m) := view_act last a w m in let* (fs, m) := view_acts last t w m in Ok (f :: fs, m)
  end.

(** The cursor shows the rest of the rows. *)
Record shows (s : InStream) (last : bool) (w : view) (c : Cursor) : Prop := {
  sh_page : exists page, currentPage c = Some page /\ pg_last page = last
    /\ currentPagePos c + Z.of_nat (length w.1) = pg_size page /\ 0 <= currentPagePos c /\ pg_size page < 2 ^ 31;
  sh_rows : Forall row_ok w.1;
  sh_row : match w.1 with
    | [] => currentRow c = None
    | vs :: rest => exists base r, currentRow c = Some r /\ row_at s base vs w.2 r
        /\ holds (is_data s) (base + Z.of_nat (length (row_data vs))) (page_data rest)
        /\ base + Z.of_nat (length (row_data vs)) + Z.of_nat (length (page_data rest)) <= is_len s
    end
}.

Lemma shows_has s last w c :
  shows s last w c ->
  cursor_HasData c = negb last || negb (bool_decide (w.1 = []))
  /\ NeedDataUpdate c = negb last && bool_decide (w.1 = []).
Proof.
  intros [(page & Ep & El & Hn & Hp0 & Hp1) _ _]. unfold cursor_HasData, NeedDataUpdate. rewrite Ep, El.
  destruct w as [[|vs rest] offs]; cbn [fst length] in *; [rewrite bool_decide_true by done|rewrite bool_decide_false by done];
    destruct (Z.ltb_spec (currentPagePos c) (pg_size page)), (Z.eqb_spec (currentPagePos c) (pg_size page)); lia || done.
Qed.

Lemma increment_shows s last vs rest offs c :
  shows s last (vs :: rest, offs) c ->
  exists c', cursor_Increment c = Ok (true, c') /\ shows s last (fresh rest) c'.
Proof.
  intros [(page & Ep & El & Hn & Hp0 & Hp1) Hok Hrow]. cbn [fst snd length] in *.
  destruct Hrow as (base & r & Er & Hr & Hh & Hl). apply Forall_cons_1 in Hok as [Hvs Hrest].
  unfold cursor_Increment. rewrite Ep. destruct (Z.ltb_spec (currentPagePos c) (pg_size page)); [|lia].
  rewrite checked_ok by (widths; lia). cbn [obind]. rewrite Er.
  destruct rest as [|vs' rest].
  - cbn [length] in Hn. destruct (Z.eqb_spec (currentPagePos c + 1) (pg_size page)); [|lia]. eexists. split; [done|].
    constructor; cbn [fresh fst]; try done. exists page. cbn [currentPage currentPagePos length].
    split; [done|]. split; [done|]. lia.
  - cbn [length] in Hn. destruct (Z.eqb_spec (currentPagePos c + 1) (pg_size page)); [lia|].
    change (page_data (vs' :: rest)) with (encode_row vs' ++ page_data rest) in Hh, Hl.
    apply holds_app in Hh as [Hh1 Hh2]. rewrite length_app in Hl.
    pose proof (proj1 (Forall_cons _ _ _) Hrest) as [Hvs' _].
    destruct (move_next s base vs vs' offs r Hr Hvs Hvs' Hh1 ltac:(lia)) as (r' & -> & Hr'). cbn [obind].
    eexists. split; [done|]. constructor; cbn [fresh fst snd]; try done.
    + exists page. cbn [currentPage currentPagePos length]. split; [done|]. split; [done|]. lia.
    + eexists _, r'. split; [done|]. split; [exact Hr'|].
      unfold encode_row in Hh2, Hl. rewrite length_app, le_bytes_length in Hh2, Hl.
      split; [eapply holds_at; [|exact Hh2]; lia|lia].
Qed.

Lemma act_shows s last w c a m :
  shows s last w c ->
  match view_act last a w m with
  | Ok (f, w', m') => exists c', act a c m = Ok (f, c', m') /\ shows s last w' c'
  | Throw e => act a c m = Throw e
  | UB => True
  end.
Proof.
  intros Hs. destruct a as [j b|]; cbn [view_act act].
  - destruct w as [[|vs rest] offs]; cbn [fst snd].
    + exists c. unfold GetRow. by rewrite (sh_row _ _ _ _ Hs).
    + destruct Hs as [Hp Hok (base & r & Er & Hr & Hh & Hl)]. cbn [fst snd] in *. unfold GetRow. rewrite Er.
      pose proof (read_row toDouble s base vs offs r j b m Hr) as Hread.
      destruct (read_value toDouble vs offs j b m) as [[[res offs'] m']| |]; cbn [obind] in *; try done.
      2:{ by rewrite Hread. }
      destruct Hread as (r' & -> & Hr'). cbn [obind]. eexists. split; [done|].
      constructor; cbn [fst snd]; try done. by exists base, r'.
  - destruct w as [[|vs rest] offs]; cbn [fst snd].
    + exists c. destruct (shows_has s last _ c Hs) as [Hd Hn].
      destruct Hs as [(page & Ep & El & Hlen & Hp0 & Hp1) Hok Hrow]. cbn [fst length] in *.
      unfold cursor_Increment. rewrite Ep. destruct (Z.ltb_spec (currentPagePos c) (pg_size page)); [lia|]. cbn [obind].
      rewrite Hd, Hn, bool_decide_true by done. split; [by destruct last|]. constructor; try done. exists page. done.
    + destruct (increment_shows s last vs rest offs c Hs) as (c' & -> & Hs'). cbn [obind].
      destruct (shows_has s last _ c' Hs') as [-> ->]. by exists c'.
Qed.

Lemma acts_show s last l : forall w c m fs m',
  shows s last w c -> view_acts last l w m = Ok (fs, m') -> acts l c m = Ok (fs, m').
Proof.
  induction l as [|a l IH]; intros w c m fs m' Hs Hv; [done|]. cbn [view_acts acts] in *.
  pose proof (act_shows s last w c a m Hs) as Ha.
  destruct (view_act last a w m) as [[[f w'] m1]| |]; cbn [obind] in *; try done.
  destruct Ha as (c' & -> & Hs'). cbn [obind].
  destruct (view_acts last l w' m1) as [[fs1 m2]| |] eqn:E; try done. by rewrite (IH _ _ _ _ _ Hs' E).
Qed.
End cursor.

(** * The page *)

Definition page_bytes (last : bool) (rows : list (list wire)) : list Z :=
  bool_bytes last ++ le_bytes 4 (Z.of_nat (length rows)) ++ page_data rows.

Lemma le_bytes_u8 n z : Forall (inU 8) (le_bytes n z).
Proof.
  revert z. induction n as [|n IH]; intros z; cbn [le_bytes]; [done|].
  constructor; [|apply IH]. unfold inU. pose proof (Z.mod_pos_bound z 256). change (2 ^ 8) with 256. lia.
Qed.
Lemma concat_u8 {A} (f : A -> list Z) l : (forall a, a ∈ l -> Forall (inU 8) (f a)) -> Forall (inU 8) (concat (map f l)).
Proof.
  induction l as [|a l IH]; intros Hl; [done|]. cbn [map concat]. apply Forall_app. split; [apply Hl; left|].
  apply IH. intros b Hb. apply Hl. by right.
Qed.
Create HintDb bytes.
#[export] Hint Resolve le_bytes_u8 : bytes.
Lemma bytes_u8 l : Forall (inU 8) (concat (map (le_bytes 1) l)).
Proof. apply concat_u8. intros. apply le_bytes_u8. Qed.
#[export] Hint Resolve bytes_u8 : bytes.

Lemma enc_u8 k (v : ty k) : Forall (inU 8) (enc v).
Proof.
  destruct k; try exact (le_bytes_u8 _ _); try (apply Forall_app; split; apply le_bytes_u8).
  destruct v; repeat constructor; by vm_compute.
Qed.
#[export] Hint Resolve enc_u8 : bytes.

Lemma wire_u8 v : Forall (inU 8) (wire_bytes v).
Proof.
  destruct v as [| |k v|s|l|d]; cbn [wire_bytes]; unfold null_bytes, tagged, string_bytes, array_bytes;
    try (repeat (apply Forall_app; split)); auto with bytes.
  unfold decimal_bytes. destruct (WriteDecimal d) as [[sc len] bytes]. repeat (apply Forall_app; split); auto with bytes.
Qed.

Lemma page_u8 rows : Forall (inU 8) (page_data rows).
Proof.
  apply concat_u8. intros vs _. apply Forall_app. split; [apply le_bytes_u8|]. apply concat_u8. intros v _. apply wire_u8.
Qed.

(** A page takes the rest of its message. *)
Lemma read_page s p rd last rows :
  raw_reading s p rd -> holds (is_data s) p (page_bytes last rows) ->
  p + Z.of_nat (length (page_bytes last rows)) = is_len s -> Z.of_nat (length rows) < 2 ^ 31 ->
  exists page rd', page_Read new_page rd = Ok (page, rd') /\ pg_last page = last
    /\ pg_size page = Z.of_nat (length rows) /\ mm_len (pg_data page) = Z.of_nat (length (page_data rows))
    /\ holds (mm_data (pg_data page)) 0 (page_data rows).
Proof.
  intros Hr Hh Hl Hn. pose proof (raw_length _ _ _ Hr) as Hs. pose proof Hr as (_ & Hp0 & _).
  change (2 ^ 31) with 2147483648 in *. unfold page_bytes in Hh, Hl.
  rewrite !holds_app in Hh. destruct Hh as (H1 & H2 & H3). rewrite !length_app, le_bytes_length in Hl.
  change (length (bool_bytes last)) with 1%nat in *. rewrite le_bytes_length in H3. change (Z.of_nat 1) with 1 in *. change (Z.of_nat 4) with 4 in *.
  unfold page_Read.
  destruct (read_field KBool last I s p rd Hr H1 ltac:(change (p + 1 <= is_len s); lia)) as (r1 & E1 & Hr1).
  rewrite (bind_ok _ _ _ r1 last) by exact E1. change (raw_reading s (p + 1) r1) in Hr1.
  destruct (read_field KInt (Z.of_nat (length rows))
    ltac:(unfold ty; cbn [valid kind_codec int32_codec]; widths; lia) s (p + 1) r1 Hr1 H2
    ltac:(change (p + 1 + 4 <= is_len s); lia)) as (r2 & E2 & Hr2).
  rewrite (bind_ok _ _ _ r2 (Z.of_nat (length rows))) by exact E2. change (raw_reading s (p + 1 + 4) r2) in Hr2.
  set (len := Z.of_nat (length (page_data rows))) in *.
  destruct (at_stream In.Remaining s (p + 1 + 4) (p + 1 + 4) len r2) as (r3 & E3 & Hr3); [|exact Hr2|lia|].
  { unfold In.Remaining. rewrite (bind_ok _ _ _ (in_at (p + 1 + 4) s) (is_len s)) by done.
    rewrite (bind_ok _ _ _ (in_at (p + 1 + 4) s) (p + 1 + 4)) by done.
    replace (is_len s - (p + 1 + 4)) with len by lia. apply int32_small. change (2 ^ 31) with 2147483648. lia. }
  rewrite (bind_ok _ _ _ r3 len) by exact E3. cbv zeta.
  destruct (Z.eqb_spec len 0) as [Ez|Hz]; cbn [negb].
  { eexists _, r3. split; [done|]. cbn [pg_last pg_size pg_data mm_len mem_Length]. split; [done|]. split; [done|]. split; [done|].
    unfold len in Ez. destruct (page_data rows); [apply holds_nil|cbn in Ez; lia]. }
  assert (Hre : exists mm, Reallocate len (mem_Length len (pg_data new_page)) = Ok mm /\ mm_len mm = len
                 /\ len <= Z.of_nat (length (mm_data mm))).
  { unfold Reallocate, twice. cbn [mm_cap mem_Length pg_data new_page new_memory]. unfold DEFAULT_ALLOCATED_MEMORY.
    rewrite checked_ok by (by vm_compute). cbn [obind Z.ltb Z.compare].
    eexists. split; [done|]. split; [done|]. cbn [mm_data mem_Capacity mem_set_data mem_Length].
    unfold realloc, malloc. rewrite length_app, length_take, !length_replicate. destruct (Z.ltb_spec len (2 * 1024)); lia. }
  destruct Hre as (mm & Emm & Hmlen & Hmcap).
  rewrite (bind_ok _ _ _ r3 mm) by (unfold from; by rewrite Emm).
  assert (Hbytes : exists l, length l = length (page_data rows) /\ map u8 l = page_data rows
    /\ raw_reads (of_stream (In.ReadInt8Array len)) (page_data rows) l).
  { exists (map i8 (page_data rows)). split; [by rewrite length_map|]. split.
    - rewrite map_map. etransitivity; [|apply map_id]. apply map_ext_in. intros z Hin.
      pose proof (page_u8 rows) as Hu. rewrite Forall_forall in Hu. specialize (Hu z (proj2 (list_elem_of_In _ _) Hin)).
      rewrite wrapU_wrapS by lia. by apply wrapU_small.
    - apply raw_stream_reads. unfold In.ReadInt8Array, len. apply (parses_map _ (map i8)), parse_copy. }
  destruct Hbytes as (l & Hll & Hlu & Hlr).
  destruct (Hlr s (p + 1 + 4) r3 Hr3 H3 ltac:(fold len; lia)) as (r4 & E4 & Hr4).
  rewrite (bind_ok _ _ _ r4 l) by exact E4. unfold bytes_of. rewrite Hlu.
  destruct (put_at_spec (mm_data mm) 0 (page_data rows)) as (d & Ed & Hdl & Hdh & _); [lia|fold len; lia|].
  rewrite (bind_ok _ _ _ r4 d) by (unfold from; by rewrite Ed).
  by eexists _, r4.
Qed.

(** C11: A page that the server sends shows its rows: the page takes its message, the cursor
    stands on the first row, each column is found where its value is and put into the
    application's buffer from where the last read ended, and moving on goes through the
    rows, to the end of the page; the cursor tells when data is missing.  So for every
    sequence of reads and moves the results and the memory are those of the same
    sequence on the list of rows. *)
Theorem page_refines_rows `{Platform} `{Calendar} toDouble s p rd last rows q l m fs m' :
  rows <> [] -> Forall row_ok rows -> Z.of_nat (length rows) < 2 ^ 31 ->
  raw_reading s p rd -> holds (is_data s) p (page_bytes last rows) ->
  p + Z.of_nat (length (page_bytes last rows)) = is_len s ->
  view_acts toDouble last l (fresh rows) m = Ok (fs, m') ->
  exists page rd' c, page_Read new_page rd = Ok (page, rd') /\ UpdateData page (new_cursor q) = Ok c
    /\ acts toDouble l c m = Ok (fs, m').
Proof.
  intros Hne Hok Hn Hr Hh Hl Hv. pose proof (raw_length _ _ _ Hr) as Hs. pose proof Hr as (_ & Hp0 & _).
  destruct (read_page s p rd last rows Hr Hh Hl Hn) as (page & rd' & E & Elast & Esize & Elen & Hdata).
  exists page, rd'. unfold UpdateData, new_row. rewrite Elen.
  unfold page_bytes in Hl. rewrite !length_app in Hl.
  destruct rows as [|vs rest]; [done|]. pose proof (proj1 (Forall_cons _ _ _) Hok) as [Hvs _].
  change (page_data (vs :: rest)) with (encode_row vs ++ page_data rest) in *. set (s1 := new_in (pg_data page)) in *.
  pose proof Hdata as Hdata'. apply holds_app in Hdata' as [Hd1 Hd2]. rewrite length_app in Hl |- *.
  assert (Hrow : 4 <= Z.of_nat (length (encode_row vs))) by (unfold encode_row; rewrite length_app, le_bytes_length; lia).
  destruct (Z.leb_spec 4 (Z.of_nat (length (encode_row vs) + length (page_data rest)))); [|lia].
  assert (Elen1 : is_len s1 = Z.of_nat (length (encode_row vs) + length (page_data rest))) by (cbn [is_len s1 new_in]; rewrite Elen, length_app; done).
  assert (Hr1 : raw_reading s1 0 (raw_reader s1)).
  { split; [split; [done|lia]|]. split; [lia|]. by repeat split. }
  destruct (reinit_at s1 0 vs (MkRow 0 0 0 (raw_reader s1) []) Hvs Hr1 Hd1 ltac:(lia)) as (r & Er & Hrat).
  fold s1. rewrite Er. cbn [obind]. eexists. split; [done|]. split; [done|].
  apply (acts_show toDouble s1 last l (fresh (vs :: rest)) _ m); [|done].
  constructor; cbn [fresh fst snd]; [|done|].
  - exists page. cbn [currentPage currentPagePos]. rewrite Esize. split; [done|]. split; [done|]. lia.
  - exists (0 + 4), r. split; [done|]. split; [done|]. unfold encode_row in Hd2, Elen1. rewrite length_app, le_bytes_length in Hd2, Elen1.
    split; [eapply holds_at; [|exact Hd2]; lia|lia].
Qed.

(** Two rows: a number and a text that is read in pieces, then bytes and a null. *)
Definition sample_rows : list (list wire) :=
  [[WScalar KInt (-5); WText [104; 101; 108; 108; 111]]; [WBytes [1; -1; 3]; WNull]].
Definition sample_page : list Z := page_bytes true sample_rows.
Definition sample_stream : InStream :=
  MkIn (new_memory 0) (map Some sample_page) (Z.of_nat (length sample_page)) 0.
Definition sample_buffers : mem :=
  place 1000 (replicate 4 0) (place 2000 (replicate 8 0) (place 3000 (replicate 8 0) ∅)).
Definition text_buffer : ApplicationDataBuffer := ADB AI_CHAR 1000 4 3000 0 0.
Definition sample_acts : list page_act :=
  [ReadCol 2 text_buffer; ReadCol 1 (ADB AI_SIGNED_BIGINT 2000 8 3000 0 0); ReadCol 2 text_buffer; ReadCol 2 text_buffer;
   ReadCol 3 text_buffer; NextRow; ReadCol 1 (ADB AI_BINARY 1000 2 3000 0 0); ReadCol 2 text_buffer; NextRow; NextRow].
Definition sample_facts : list page_fact :=
  [Converted AI_VARLEN_DATA_TRUNCATED; Converted AI_SUCCESS; Converted AI_SUCCESS; Converted AI_NO_DATA;
   Converted AI_FAILURE; Moved true true false; Converted AI_SUCCESS; Converted AI_SUCCESS;
   Moved true false false; Moved false false false].
Definition sample_after : mem :=
  match view_acts (fun _ => 0) true sample_acts (fresh sample_rows) sample_buffers with Ok (_, m) => m | _ => ∅ end.

Lemma sample_view :
  view_acts (fun _ => 0) true sample_acts (fresh sample_rows) sample_buffers = Ok (sample_facts, sample_after).
Proof. by vm_compute. Qed.
Lemma sample_rows_ok : Forall row_ok sample_rows.
Proof. repeat constructor; try discriminate; by vm_compute. Qed.
Lemma sample_reading : raw_reading sample_stream 0 (raw_reader sample_stream).
Proof. split; [split; by vm_compute|]. split; [by vm_compute|]. by repeat split. Qed.

Lemma page_refines_rows_witness :
  exists page rd' c, page_Read new_page (raw_reader sample_stream) = Ok (page, rd')
    /\ UpdateData page (new_cursor 7) = Ok c
    /\ acts (fun _ => 0) sample_acts c sample_buffers = Ok (sample_facts, sample_after).
Proof.
  apply (page_refines_rows (fun _ => 0) sample_stream 0 (raw_reader sample_stream) true sample_rows).
  - discriminate.
  - exact sample_rows_ok.
  - reflexivity.
  - exact sample_reading.
  - exact (holds_src sample_page).
  - reflexivity.
  - exact sample_view.
Defined.

(** ** What the code gets wrong *)

(** A byte array is never cut off with a notice: whatever is left is as long as the buffer,
    which is then large enough. *)
Example bytes_cut_silently :
  put_wire (fun _ => 0) (WBytes [1; -1; 3]) 0 (ADB AI_BINARY 1000 2 3000 0 0) sample_buffers
  = Ok (AI_SUCCESS, 2, <[1000 := 1]> (<[1001 := 255]> (<[3000 := 2]> sample_buffers))).
Proof. by vm_compute. Qed.

(** An empty text is null, and there is no data, when it is read for the first time. *)
Lemma empty_text_no_data `{Platform} `{Calendar} toDouble b m :
  put_wire toDouble (WText []) 0 b m = let* (_, m) := PutNull b m in Ok (AI_NO_DATA, 0, m).
Proof. done. Qed.

(** Dates can be read again and again. *)
Lemma dates_never_end `{Platform} `{Calendar} toDouble d b m res off m' :
  put_wire toDouble (WScalar KDate d) 0 b m = Ok (res, off, m') -> off = 0.
Proof.
  unfold put_wire. rewrite checked_ok by (by vm_compute). cbn [obind]. change (col_size (WScalar KDate d) - 0 =? 0) with false.
  cbn [put_value_at put_scalar again]. unfold again. destruct (PutDate b d m) as [[r m1]| |]; cbn [obind]; try done. by intros [= _ <- _].
Qed.
