(* ===== verification/StreamProps.v ===== *)
(** Streaming delivers the rows: in order, in batches of the size that was asked for. *)
From S2P Require Import Prelude OrdMap Memory Utf8 TypeTraits AppBuffer AppRead Params Diag SqlLex Config Statement Driver.
From S2P Require Import Interop InteropProps BinUtils BinSchema BinObject BinWriter BinReader BinValues BinLayout BinTop BinFields BinDoc.
From S2P Require Import ParamWire PageRow Message MessageProps Streaming.

(** * Batches *)

(** A statement with its parameters and their bytes. *)
Record stream_row : Type := MkStreamRow { sr_sql : list Z; sr_params : writer unit; sr_bytes : list Z }.

Definition stream_row_ok (M : Z) (r : stream_row) : Prop :=
  wemits in_raw (sr_params r) (sr_bytes r) /\ Z.of_nat (length (sr_sql r)) < 2 ^ 31
  /\ Z.of_nat (length (string_bytes (sr_sql r))) + Z.of_nat (length (sr_bytes r)) <= M.

(** The text of the statement is left out when it is that of the row before. *)
Definition sql_bytes (before sql : list Z) : list Z :=
  if bool_decide (before = sql) then le_bytes 1 DOCUMENTDB_HDR_NULL else string_bytes sql.

Fixpoint encode_rows (before : list Z) (rows : list stream_row) : list Z :=
  match rows with
  | [] => []
  | r :: t => sql_bytes before (sr_sql r) ++ sr_bytes r ++ encode_rows (sr_sql r) t
  end.

Definition last_sql (rows : list stream_row) : list Z := match last rows with Some r => sr_sql r | None => [] end.

Lemma encode_snoc before rows r :
  encode_rows before (rows ++ [r])
  = encode_rows before rows ++ sql_bytes (match last rows with Some r => sr_sql r | None => before end) (sr_sql r) ++ sr_bytes r.
Proof.
  revert before. induction rows as [|a rows IH]; intros before; cbn [app encode_rows].
  - by rewrite app_nil_r.
  - rewrite IH, last_cons, <- !app_assoc. by destruct (last rows).
Qed.

Lemma encode_rows_length M before rows :
  Forall (stream_row_ok M) rows -> Z.of_nat (length (encode_rows before rows)) <= Z.of_nat (length rows) * M.
Proof.
  intros Hr. revert before. induction Hr as [|r rows (_ & _ & Hm) _ IH]; intros before; [done|].
  cbn [encode_rows length]. rewrite !length_app. specialize (IH (sr_sql r)).
  assert (Hs : (length (sql_bytes before (sr_sql r)) <= length (string_bytes (sr_sql r)))%nat).
  { unfold sql_bytes. case_bool_decide; [|done]. unfold string_bytes, tagged. rewrite !length_app, !le_bytes_length. lia. }
  rewrite !Nat2Z.inj_add, Nat2Z.inj_succ. nia.
Qed.

(** The batch holds these rows. *)
Record batch_of (rows : list stream_row) (b : StreamingBatch) : Prop := {
  bo_size : sb_size b = Z.of_nat (length rows);
  bo_sql : currentSql b = last_sql rows;
  bo_mem : out_ok (new_out (sb_data b));
  bo_len : mm_len (sb_data b) = Z.of_nat (length (encode_rows [] rows));
  bo_data : holds (mm_data (sb_data b)) 0 (encode_rows [] rows)
}.

Lemma new_batch_of : batch_of [] new_stream_batch.
Proof. constructor; done. Qed.

Lemma clear_batch_of rows b : batch_of rows b -> batch_of [] (batch_Clear b).
Proof. intros [_ _ Ho _ _]. by constructor. Qed.

Lemma bytes_of_batch rows b : batch_of rows b -> batch_bytes b = Ok (encode_rows [] rows).
Proof. intros [_ _ _ Hl Hh]. unfold batch_bytes. rewrite Hl. by apply fetch_holds. Qed.

Lemma emit_sql before sql :
  Z.of_nat (length sql) < 2 ^ 31 ->
  wemits in_raw (if bool_decide (before = sql) then W.WriteNull else W.WriteString_std sql) (sql_bytes before sql).
Proof.
  intros Hs. unfold sql_bytes. case_bool_decide; [apply emit_null|].
  unfold W.WriteString_std. rewrite wrapS_small by (widths; lia). apply wemits_raw, wemits_stream, emit_string.
Qed.

Lemma add_row M rows b r :
  batch_of rows b -> Forall (stream_row_ok M) (rows ++ [r]) ->
  Z.of_nat (length (rows ++ [r])) * M <= max_size -> Z.of_nat (length rows) < 2 ^ 31 - 1 ->
  exists b', AddRow (sr_sql r) (sr_params r) b = Ok b' /\ batch_of (rows ++ [r]) b'.
Proof.
  intros [Hn Hq Ho Hl Hh] Hr Hfit Hsmall. change (2 ^ 31) with 2147483648 in Hsmall.
  pose proof (Z.le_trans _ _ _ (encode_rows_length M [] _ Hr) Hfit) as Hlen. rewrite encode_snoc in Hlen.
  change (match last rows with Some r => sr_sql r | None => [] end) with (last_sql rows) in Hlen. rewrite <- Hq in Hlen.
  apply Forall_app in Hr as [_ Hr]. apply Forall_cons_1 in Hr as [(Hp & Hs & _) _].
  rewrite !length_app in Hlen. rewrite !Nat2Z.inj_add in Hlen. set (len := Z.of_nat (length (encode_rows [] rows))) in *.
  destruct (out_position_spec len (new_out (sb_data b)) Ho ltac:(lia)) as (s1 & E1 & Ho1 & Hp1 & Hk1 & _).
  unfold AddRow. rewrite Hl, E1. cbn [obind].
  destruct (emit_sql (currentSql b) (sr_sql r) Hs (raw_writer s1 None) Ho1 eq_refl ltac:(by split)) as (s2 & E2 & W2);
    [cbn [w_stream raw_writer]; lia|]. rewrite E2. cbn [obind]. pose proof W2 as (Ho2 & Hp2 & _). cbn [w_stream raw_writer] in Hp2, W2.
  destruct (Hp (w_set_stream s2 (raw_writer s1 None)) Ho2 eq_refl ltac:(by split)) as (s3 & E3 & W3);
    [cbn [w_stream w_set_stream]; lia|]. rewrite E3. cbn [obind]. cbn [w_stream w_set_stream] in W3.
  pose proof (wrote_trans _ _ _ _ _ Ho1 W2 W3) as (Ho3 & Hp3 & Hh3 & Hk3).
  rewrite Hn, checked_ok by (widths; lia). cbn [obind Out.Synchronize modify w_stream w_set_stream os_mem].
  eexists. split; [done|]. rewrite Hp1 in Hp3, Hh3, Hk3. rewrite length_app, Nat2Z.inj_add in Hp3.
  constructor; cbn [sb_size currentSql sb_data mm_len mm_data mem_Length].
  - rewrite length_app. cbn [length]. lia.
  - unfold last_sql. rewrite last_snoc. case_bool_decide as Heq; [done|done].
  - destruct Ho3 as (Ha & Hb & Hc & Hd & He). repeat split; cbn; try done; lia.
  - rewrite encode_snoc, !length_app, !Nat2Z.inj_add. fold len.
    change (match last rows with Some r => sr_sql r | None => [] end) with (last_sql rows). rewrite <- Hq. lia.
  - rewrite encode_snoc. change (match last rows with Some r => sr_sql r | None => [] end) with (last_sql rows). rewrite <- Hq.
    apply holds_app. rewrite Z.add_0_l. fold len. split; [|exact Hh3].
    eapply holds_agree; [exact Hh|]. intros x Hx. fold len in Hx. change (mm_data (os_mem s3)) with (cells s3).
    rewrite Hk3 by lia. rewrite Hk1 by lia. done.
Qed.

Ltac nums := change (2 ^ 31) with 2147483648 in *; change (2 ^ 63) with 9223372036854775808 in *; lia.

(** * Contexts *)

Section delivery.
Context {S : Type} `{StreamServer S} (schema : list Z) (M B : Z).

(** The other side takes every batch. *)
Definition accepts (a : stream_answer) : Prop :=
  match a with
  | StreamAnswer rsp => rs_status rsp = RS.SUCCESS /\ sb_errorCode (rs_body rsp) = RS.SUCCESS
  | _ => False
  end.
Definition accepting : Prop := forall req s, accepts (send_batch req (new_response new_streaming_body) s).1.
Definition deliver (reqs : list Request) (s : S) : S :=
  foldl (fun s req => (send_batch req (new_response new_streaming_body) s).2) s reqs.

Definition batch_request (last : bool) (order : Z) (rows : list stream_row) : Request :=
  StreamingBatchRequest schema (Z.of_nat (length rows)) (map i8 (encode_rows [] rows)) last order.

(** Streaming with a batch of these rows, after [order] batches. *)
Record streams (order : Z) (rows : list stream_row) (c : StreamingContext) : Prop := {
  st_enabled : sx_enabled c = true;
  st_size : sx_batchSize c = B;
  st_order : sx_order c = order;
  st_batch : batch_of rows (sx_batch c)
}.

Lemma send_rows last order rows c d s :
  accepting -> streams order rows c -> 0 <= order < 2 ^ 63 - 1 -> rows <> [] \/ last = true ->
  exists c', Flush schema last (c, d, s)
             = Ok (SR.AI_SUCCESS, (c', d, deliver [batch_request last order rows] s))
    /\ streams (order + 1) [] c'.
Proof.
  intros Ha [He Hsz Ho Hb] Hlt Hne. pose proof (bo_size _ _ Hb) as Hsize. unfold Flush.
  assert (Eif : (sb_size (sx_batch c) =? 0) && negb last = false).
  { destruct Hne as [Hne| ->]; [|by rewrite andb_false_r]. destruct (Z.eqb_spec (sb_size (sx_batch c)) 0) as [E|]; [|done].
    rewrite Hsize in E. destruct rows; [done|cbn in E; lia]. }
  rewrite Eif. unfold MakeRequestStreamingBatch. rewrite (bytes_of_batch _ _ Hb). cbn [obind]. rewrite Hsize, Ho.
  fold (batch_request last order rows). specialize (Ha (batch_request last order rows) s). unfold deliver. cbn [foldl].
  destruct (send_batch (batch_request last order rows) _ s) as [a s']. cbn [fst snd] in Ha |- *.
  destruct a as [| |rsp]; try done. destruct Ha as [-> ->]. cbn [negb Z.eqb]. rewrite Z.eqb_refl. cbn [negb].
  cbn [sx_order set_batch]. rewrite Ho, checked_ok by (widths; lia). cbn [obind]. eexists. split; [done|].
  constructor; cbn [sx_enabled sx_batchSize sx_order sx_batch set_batch]; try done.
  by apply (clear_batch_of []), (clear_batch_of rows).
Qed.

(** The batches of [n] rows, and what is left. *)
Definition slice (n : nat) (rows : list stream_row) (i : nat) : list stream_row := take n (drop (i * n) rows).
Definition full_batches (n : nat) (rows : list stream_row) : nat := (length rows / n)%nat.
Definition full_requests (order : Z) (rows : list stream_row) : list Request :=
  map (fun i => batch_request false (order + Z.of_nat i) (slice (Z.to_nat B) rows i))
    (seq 0 (full_batches (Z.to_nat B) rows)).
Definition rest_rows (rows : list stream_row) : list stream_row :=
  drop (full_batches (Z.to_nat B) rows * Z.to_nat B) rows.

Lemma requests_short order rows :
  Z.of_nat (length rows) < B -> full_requests order rows = [] /\ rest_rows rows = rows.
Proof.
  intros Hlt. unfold full_requests, rest_rows, full_batches. rewrite Nat.div_small by lia. done.
Qed.

Lemma requests_full order rows more :
  1 <= B -> Z.of_nat (length rows) = B ->
  full_requests order (rows ++ more) = batch_request false order rows :: full_requests (order + 1) more
  /\ rest_rows (rows ++ more) = rest_rows more.
Proof.
  intros HB Hl. set (n := Z.to_nat B). assert (Hn : length rows = n) by lia.
  assert (Hq : full_batches n (rows ++ more) = Datatypes.S (full_batches n more)).
  { unfold full_batches. rewrite length_app, Hn, <- (Nat.mul_1_l n) at 1. rewrite Nat.add_comm, Nat.div_add by lia. lia. }
  unfold full_requests, rest_rows. fold n. rewrite Hq. split.
  - cbn [seq map]. f_equal.
    + unfold slice. rewrite Nat.mul_0_l, drop_0, Z.add_0_r. f_equal. by apply take_app_length'.
    + rewrite <- seq_shift, map_map. apply map_ext. intros i. unfold slice. f_equal; [lia|].
      cbn [Nat.mul]. rewrite drop_app_ge by lia. do 2 f_equal. lia.
  - cbn [Nat.mul]. rewrite drop_app_ge by lia. f_equal. lia.
Qed.

(** Rows one after the other. *)
Fixpoint execute_rows (rows : list stream_row) (st : StreamingContext * diags * S)
  : outcome Z (list SR.SqlResult * (StreamingContext * diags * S)) :=
  match rows with
  | [] => Ok ([], st)
  | r :: t =>
      let* (res, st) := stream_Execute schema (sr_sql r) (sr_params r) st in
      let* (l, st) := execute_rows t st in Ok (res :: l, st)
  end.

Lemma rows_delivered rows : forall order pending c d s,
  accepting -> 1 <= B < 2 ^ 31 -> B * M <= max_size -> 0 <= M -> Forall (stream_row_ok M) (pending ++ rows) ->
  0 <= order -> order + Z.of_nat (length rows) < 2 ^ 63 - 1 ->
  streams order pending c -> Z.of_nat (length pending) < B ->
  exists c', execute_rows rows (c, d, s)
      = Ok (replicate (length rows) SR.AI_SUCCESS, (c', d, deliver (full_requests order (pending ++ rows)) s))
    /\ streams (order + Z.of_nat (full_batches (Z.to_nat B) (pending ++ rows))) (rest_rows (pending ++ rows)) c'.
Proof.
  induction rows as [|r rows IH]; intros order pending c d s Ha HB HM HM0 Hok H0 Hord Hc Hlt.
  { destruct (requests_short order pending Hlt) as [E1 E2]. rewrite app_nil_r, E1, E2. exists c. split; [done|].
    unfold full_batches. rewrite Nat.div_small by lia. by rewrite Z.add_0_r. }
  cbn [execute_rows length replicate] in *. change (pending ++ r :: rows) with (pending ++ [r] ++ rows) in *.
  rewrite app_assoc in *. change (2 ^ 31) with 2147483648 in HB. change (2 ^ 63) with 9223372036854775808 in *.
  assert (Hlp : Z.of_nat (length (pending ++ [r])) = Z.of_nat (length pending) + 1) by (rewrite length_app; cbn [length]; lia).
  destruct (add_row M pending (sx_batch c) r (st_batch _ _ _ Hc)) as (b' & Eb & Hb').
  { by apply Forall_app in Hok as [Hok _]. }
  { rewrite Hlp. nia. }
  { change (2 ^ 31) with 2147483648. lia. }
  unfold stream_Execute. rewrite Eb. cbn [obind].
  assert (Hc' : streams order (pending ++ [r]) (set_batch b' c)) by (destruct Hc; by constructor).
  rewrite (bo_size _ _ Hb'). cbn [set_batch sx_batchSize]. rewrite (st_size _ _ _ Hc).
  destruct (Z.ltb_spec (Z.of_nat (length (pending ++ [r]))) B) as [Hs|Hs].
  - cbn [obind]. destruct (IH order (pending ++ [r]) (set_batch b' c) d s) as (c' & E & Hc2); try done; try (cbn [length] in *; nums).
    rewrite E. by exists c'.
  - assert (HlB : Z.of_nat (length (pending ++ [r])) = B) by lia.
    destruct (requests_full order (pending ++ [r]) rows ltac:(lia) HlB) as [Er Es].
    destruct (send_rows false order (pending ++ [r]) (set_batch b' c) d s Ha Hc') as (c1 & E1 & Hc1);
      [change (2 ^ 63) with 9223372036854775808; lia|left; by destruct pending|].
    rewrite E1. cbn [obind].
    destruct (IH (order + 1) [] c1 d (deliver [batch_request false order (pending ++ [r])] s)) as (c' & E & Hc2);
      try done; try (cbn [length] in *; nums).
    { by apply Forall_app in Hok as [_ Hok]. }
    rewrite E, Er, Es. cbn [app obind]. exists c'. split; [done|].
    refine (eq_rect _ (fun o => streams o (rest_rows rows) c') Hc2 _ _).
    unfold full_batches. rewrite (length_app (pending ++ [r])).
    replace (length (pending ++ [r]) + length rows)%nat with (length rows + 1 * Z.to_nat B)%nat by lia.
    rewrite Nat.div_add by lia. cbn [app]. lia.
Qed.

(** Enabling, sending rows and disabling. *)
Definition stream_session (cmd : SqlSetStreamingCommand) (rows : list stream_row) (st : StreamingContext * diags * S)
  : outcome Z (SR.SqlResult * list SR.SqlResult * SR.SqlResult * (StreamingContext * diags * S)) :=
  let* (res, st) := Enable schema cmd st in
  let* (l, st) := execute_rows rows st in
  let* (res', st) := Disable schema st in
  Ok (res, l, res', st).

End delivery.

(** A server that keeps what it gets, and three rows in batches of two. *)
Definition LogServer : StreamServer (list Request) := fun req _ s =>
  (StreamAnswer (MkResponse RS.SUCCESS [] (MkStreaming [] RS.SUCCESS 0)), s ++ [req]).
Definition sample_stream_row (sql : list Z) (s : list Z) : stream_row := MkStreamRow sql (u_WriteString s) (string_bytes s).
Definition sample_stream_rows : list stream_row :=
  [sample_stream_row [73] [97]; sample_stream_row [73] [98]; sample_stream_row [74] []].
Definition sample_command : SqlSetStreamingCommand := Streaming true false 2 0 0 0 false.

Lemma sample_row_ok sql t :
  string_ok t -> Z.of_nat (length sql) + Z.of_nat (length t) <= 90 -> stream_row_ok 100 (sample_stream_row sql t).
Proof.
  intros Ht Hl. split; [by apply u_write_string|]. cbn [sr_sql sr_bytes sample_stream_row]. rewrite !string_length. nums.
Qed.
Lemma sample_stream_rows_ok : Forall (stream_row_ok 100) sample_stream_rows.
Proof.
  repeat (apply Forall_cons_2; [apply sample_row_ok; [split; [repeat constructor; by vm_compute|by vm_compute]|by vm_compute]|]).
  apply Forall_nil_2.
Qed.

