(* ===== verification/Jni.v ===== *)
(** The calls into the Java virtual machine: the parts of [jni/java.cpp] and [jni/java.h]
    on which every operation rests, then the classes and methods of Java that the driver
    uses, the members and [JniContext::Create].

    The machine is a parameter, the class [Jvm]: what it holds, what its methods answer
    and which exceptions they throw.  Written out is what the JNI keeps for the native
    side: the references, which are numbers (0 is null) and lead to objects until they are
    deleted, and the exception that is pending.  Calling a function of the JNI while an
    exception is pending is undefined, but for the few that are made for it, and so is
    using a reference that was deleted, a null receiver, and a null method.  The native
    side is one thread; its references are never dropped by a return to Java. *)
From S2P Require Import Prelude Memory Utf8 Diag Config Interop.

(** * Strings of Java

    A string is a list of UTF-16 units; the JNI hands it out, and takes it, in the
    modified UTF-8, where the unit 0 has two bytes and the halves of a pair three each. *)

Definition mutf8_unit (u : Z) : list Z :=
  if (1 <=? u) && (u <=? 0x7F) then [u]
  else if u <=? 0x7FF then [0xC0 + u ≫ 6; 0x80 + Z.land u 0x3F]
  else [0xE0 + u ≫ 12; 0x80 + Z.land (u ≫ 6) 0x3F; 0x80 + Z.land u 0x3F].
Definition mutf8 (us : list Z) : list Z := concat (map mutf8_unit us).

Definition is_tail (b : Z) : bool := (0x80 <=? b) && (b <=? 0xBF).

(** The unit at the front of the bytes; [None] when they are not modified UTF-8. *)
Definition mutf8_next (bs : list Z) : option (Z * list Z) :=
  match bs with
  | b :: t =>
      if (1 <=? b) && (b <=? 0x7F) then Some (b, t)
      else if (0xC0 <=? b) && (b <=? 0xDF) then
        match t with
        | c :: t => if is_tail c then Some (Z.land b 0x1F ≪ 6 + Z.land c 0x3F, t) else None
        | _ => None
        end
      else if (0xE0 <=? b) && (b <=? 0xEF) then
        match t with
        | c :: d :: t =>
            if is_tail c && is_tail d then
              Some (Z.land b 0x0F ≪ 12 + Z.land c 0x3F ≪ 6 + Z.land d 0x3F, t)
            else None
        | _ => None
        end
      else None
  | [] => None
  end.
Fixpoint mutf8_units (fuel : nat) (bs : list Z) : option (list Z) :=
  match bs, fuel with
  | [], _ => Some []
  | _, O => None
  | _, Datatypes.S k =>
      match mutf8_next bs with
      | Some (u, t) => match mutf8_units k t with Some us => Some (u :: us) | None => None end
      | None => None
      end
  end.

(** * The virtual machine *)

(** [JniMethod]. *)
Record JniMethod : Type := MkMethod { jm_name : string; jm_sign : string; jm_isStatic : bool }.

(** Arguments and results of methods. *)
Inductive jvalue (O : Type) : Type :=
| VObject (o : option O)
| VInt (z : Z)
| VLong (z : Z)
| VBoolean (b : bool)
| VVoid.
Arguments VObject {O} o.
Arguments VInt {O} z.
Arguments VLong {O} z.
Arguments VBoolean {O} b.
Arguments VVoid {O}.

(** [J] is the state of the machine and [O] its objects, classes included; an answer on
    the right is an exception.  Method identifiers are not 0. *)
Class Jvm (J O : Type) : Type := {
  attach_thread : J -> Z * J;
  find_class : string -> J -> (O + O) * J;
  method_id : O -> JniMethod -> J -> (Z + O) * J;
  invoke : Z -> O -> list (jvalue O) -> J -> (jvalue O + O) * J;
  class_of : O -> O;
  string_units : O -> list Z;
  make_string : list Z -> J -> (O + O) * J;
  make_array : Z -> J -> (O + O) * J;
  set_element : O -> Z -> option O -> J -> (unit + O) * J;
  (** [JNI_GetCreatedJavaVMs] with [GetEnv], [JNI_CreateJavaVM] and [DestroyJavaVM]. *)
  created_jvm : J -> bool;
  create_jvm : list (list Z) -> J -> Z * J;
  destroy_jvm : J -> J
}.

Definition JNI_OK : Z := 0.
Definition JNI_ERR : Z := -1.
Definition JNI_EDETACHED : Z := -2.
Definition JNI_EVERSION : Z := -3.
Definition JNI_ENOMEM : Z := -4.
Definition JNI_EEXIST : Z := -5.
Definition JNI_EINVAL : Z := -6.

(** * Errors *)

Definition DOCUMENTDB_JNI_ERR_SUCCESS : Z := 0.
Definition DOCUMENTDB_JNI_ERR_GENERIC : Z := 1.
Definition DOCUMENTDB_JNI_ERR_JVM_INIT : Z := 2.
Definition DOCUMENTDB_JNI_ERR_JVM_ATTACH : Z := 3.

(** [JniErrorInfo]. *)
Record ErrorInfo : Type := MkInfo { ei_code : Z; ei_cls : text; ei_msg : text }.
Definition no_info : ErrorInfo := MkInfo DOCUMENTDB_JNI_ERR_SUCCESS [] [].
Definition is_success (e : ErrorInfo) : bool := ei_code e =? DOCUMENTDB_JNI_ERR_SUCCESS.

(** [errInfo.code = GENERIC; errInfo.errMsg = msg]. *)
Definition set_generic (msg : string) (e : ErrorInfo) : ErrorInfo :=
  MkInfo DOCUMENTDB_JNI_ERR_GENERIC (ei_cls e) (str msg).

(** The C++ exception [JvmException]. *)
Definition JvmException : Z := -3.

(** * The native side *)

(** The references (local or global); the [GlobalJObject]s, each with its reference and
    the number of [SharedPointer]s to it; the static [JVM] with its members, and
    [PRINT_EXCEPTION]; the calls of the error handler, when there is one. *)
Record jenv (J O : Type) : Type := MkEnv {
  j_vm : J;
  j_refs : gmap Z (O * bool);
  j_pending : option O;
  j_shared : gmap Z (Z * Z);
  j_next : Z;
  j_jvm : bool;
  j_members : gmap string Z;
  j_print : bool;
  j_handler : bool;
  j_events : list (Z * text * text)
}.
Arguments MkEnv {J O}.
Arguments j_vm {J O}.
Arguments j_refs {J O}.
Arguments j_pending {J O}.
Arguments j_shared {J O}.
Arguments j_next {J O}.
Arguments j_jvm {J O}.
Arguments j_members {J O}.
Arguments j_print {J O}.
Arguments j_handler {J O}.
Arguments j_events {J O}.

Section env.
Context {J O : Type} `{Jvm J O}.
Abbreviation jop := (op (jenv J O)).

Definition j_set_vm (v : J) (s : jenv J O) : jenv J O :=
  MkEnv v (j_refs s) (j_pending s) (j_shared s) (j_next s) (j_jvm s) (j_members s) (j_print s) (j_handler s) (j_events s).
Definition j_set_refs (r : gmap Z (O * bool)) (s : jenv J O) : jenv J O :=
  MkEnv (j_vm s) r (j_pending s) (j_shared s) (j_next s) (j_jvm s) (j_members s) (j_print s) (j_handler s) (j_events s).
Definition j_set_pending (p : option O) (s : jenv J O) : jenv J O :=
  MkEnv (j_vm s) (j_refs s) p (j_shared s) (j_next s) (j_jvm s) (j_members s) (j_print s) (j_handler s) (j_events s).
Definition j_set_shared (m : gmap Z (Z * Z)) (s : jenv J O) : jenv J O :=
  MkEnv (j_vm s) (j_refs s) (j_pending s) m (j_next s) (j_jvm s) (j_members s) (j_print s) (j_handler s) (j_events s).
Definition j_set_next (n : Z) (s : jenv J O) : jenv J O :=
  MkEnv (j_vm s) (j_refs s) (j_pending s) (j_shared s) n (j_jvm s) (j_members s) (j_print s) (j_handler s) (j_events s).
Definition j_set_jvm (b : bool) (m : gmap string Z) (p : bool) (s : jenv J O) : jenv J O :=
  MkEnv (j_vm s) (j_refs s) (j_pending s) (j_shared s) (j_next s) b m p (j_handler s) (j_events s).
Definition j_add_event (v : Z * text * text) (s : jenv J O) : jenv J O :=
  MkEnv (j_vm s) (j_refs s) (j_pending s) (j_shared s) (j_next s) (j_jvm s) (j_members s) (j_print s) (j_handler s)
    (j_events s ++ [v]).

(** * The functions of the JNI *)

(** Only with no exception pending. *)
Definition idle : jop unit := fun s => match j_pending s with Some _ => UB | None => Ok (tt, s) end.

Definition new_ref (global : bool) (o : O) : jop Z := fun s =>
  Ok (j_next s, j_set_next (j_next s + 1) (j_set_refs (<[j_next s := (o, global)]> (j_refs s)) s)).
Definition new_local (o : option O) : jop Z :=
  match o with Some o => new_ref false o | None => ret 0 end.

Definition deref (r : Z) : jop O := fun s =>
  match j_refs s !! r with Some (o, _) => Ok (o, s) | None => UB end.
(** A reference as an argument: null is allowed. *)
Definition deref_null (r : Z) : jop (option O) :=
  if r =? 0 then ret None else let! o := deref r in ret (Some o).

Definition delete_ref (global : bool) (r : Z) : jop unit := fun s =>
  if r =? 0 then Ok (tt, s)
  else match j_refs s !! r with
       | Some (_, g) => if Bool.eqb g global then Ok (tt, j_set_refs (delete r (j_refs s)) s) else UB
       | None => UB
       end.
Definition DeleteLocalRef : Z -> jop unit := delete_ref false.
Definition DeleteGlobalRef : Z -> jop unit := delete_ref true.
Definition NewGlobalRef (r : Z) : jop Z :=
  idle ;;; let! o := deref_null r in match o with Some o => new_ref true o | None => ret 0 end.

(** A step of the machine: its answer, or an exception that is then pending. *)
Definition in_java {A} (f : J -> (A + O) * J) (dflt : A) : jop A := fun s =>
  let (a, v) := f (j_vm s) in
  match a with
  | inl a => Ok (a, j_set_vm v s)
  | inr t => Ok (dflt, j_set_pending (Some t) (j_set_vm v s))
  end.

Definition call (m r : Z) (args : list (jvalue O)) (dflt : jvalue O) : jop (jvalue O) :=
  idle ;;;
  if (m =? 0) || (r =? 0) then undefined
  else let! o := deref r in in_java (invoke m o args) dflt.
Definition CallObjectMethod (r m : Z) (args : list (jvalue O)) : jop Z :=
  let! v := call m r args (VObject None) in
  match v with VObject o => new_local o | _ => undefined end.
Definition CallIntMethod (r m : Z) (args : list (jvalue O)) : jop Z :=
  let! v := call m r args (VInt 0) in
  match v with VInt z => ret z | _ => undefined end.
Definition CallBooleanMethod (r m : Z) (args : list (jvalue O)) : jop bool :=
  let! v := call m r args (VBoolean false) in
  match v with VBoolean b => ret b | _ => undefined end.
Definition CallLongMethod (r m : Z) (args : list (jvalue O)) : jop Z :=
  let! v := call m r args (VLong 0) in
  match v with VLong z => ret z | _ => undefined end.
Definition CallVoidMethod (r m : Z) (args : list (jvalue O)) : jop unit :=
  let! v := call m r args VVoid in
  match v with VVoid => ret tt | _ => undefined end.

(** [NewStringUTF(s.c_str())]. *)
Definition NewStringUTF (s : text) : jop Z :=
  idle ;;;
  match mutf8_units (length s) (c_str s) with
  | None => undefined
  | Some us =>
      fun st => let (a, v) := make_string us (j_vm st) in
                match a with
                | inl o => new_ref false o (j_set_vm v st)
                | inr t => Ok (0, j_set_pending (Some t) (j_set_vm v st))
                end
  end.
Definition optional_string (s : option text) : jop Z :=
  match s with Some s => NewStringUTF s | None => ret 0 end.

(** [GetStringUTFChars], up to the terminator. *)
Definition GetStringUTFChars (r : Z) : jop text :=
  idle ;;; let! o := deref r in ret (mutf8 (string_units o)).

Definition NewObjectArray (n : Z) : jop Z :=
  idle ;;; fun st => let (a, v) := make_array n (j_vm st) in
                     match a with
                     | inl o => new_ref false o (j_set_vm v st)
                     | inr t => Ok (0, j_set_pending (Some t) (j_set_vm v st))
                     end.
Definition SetObjectArrayElement (arr i r : Z) : jop unit :=
  idle ;;;
  let! a := deref arr in
  let! o := deref_null r in
  in_java (set_element a i o) tt.

Definition GetObjectClass (r : Z) : jop Z := idle ;;; let! o := deref r in new_ref false (class_of o).
Definition ExceptionOccurred : jop Z := fun s => new_local (j_pending s) s.
Definition ExceptionClear : jop unit := modify (j_set_pending None).

(** * SharedPointer<GlobalJObject>

    A pointer is the number of its [GlobalJObject], 0 when it is null. *)

Definition shared_new (ref : Z) : jop Z := fun s =>
  Ok (j_next s, j_set_next (j_next s + 1) (j_set_shared (<[j_next s := (ref, 1)]> (j_shared s)) s)).
Definition shared_copy (p : Z) : jop Z := fun s =>
  if p =? 0 then Ok (0, s)
  else match j_shared s !! p with
       | Some (ref, n) => Ok (p, j_set_shared (<[p := (ref, n + 1)]> (j_shared s)) s)
       | None => UB
       end.
(** The destructor; with the last pointer goes the global reference. *)
Definition shared_release (p : Z) : jop unit := fun s =>
  if p =? 0 then Ok (tt, s)
  else match j_shared s !! p with
       | Some (ref, n) =>
           if n =? 1 then DeleteGlobalRef ref (j_set_shared (delete p (j_shared s)) s)
           else Ok (tt, j_set_shared (<[p := (ref, n - 1)]> (j_shared s)) s)
       | None => UB
       end.
(** [p.Get()->GetRef()]. *)
Definition GetRef (p : Z) : jop Z := fun s =>
  match j_shared s !! p with Some (ref, _) => Ok (ref, s) | None => UB end.

(** [connection = new GlobalJObject(env, env->NewGlobalRef(result))] and
    [connection = nullptr]. *)
Definition assign_global (old result : Z) : jop Z :=
  let! g := NewGlobalRef result in
  let! p := shared_new g in
  shared_release old ;;;
  ret p.
Definition assign_null (old : Z) : jop Z := shared_release old ;;; ret 0.

(** * Members, texts, attaching and exceptions *)

(** A member of [JniJavaMembers] or [JniMembers], by name: 0 until it is initialised.
    Both structures have a [c_PlatformUtils], which nothing initialises. *)
Definition member (name : string) : jop Z := gets (fun s => default 0 (j_members s !! name)).

(** [StringToChars] and [JavaStringToCString]. *)
Definition StringToChars (r : Z) : jop (option text) :=
  if r =? 0 then ret None else let! t := GetStringUTFChars r in ret (Some (c_str t)).
Definition JavaStringToCString (r : Z) : jop text :=
  let! t := StringToChars r in ret (default [] t).

(** [hnds.error(...)], if there is a handler. *)
Definition notify (code : Z) (cls msg : text) : jop unit :=
  modify (fun s => if j_handler s then j_add_event (code, cls, msg) s else s).

Definition Attach (e : ErrorInfo) : jop ErrorInfo := fun s =>
  let (res, v) := attach_thread (j_vm s) in
  let s := j_set_vm v s in
  if res =? JNI_OK then Ok (MkInfo DOCUMENTDB_JNI_ERR_SUCCESS (ei_cls e) (ei_msg e), s)
  else
    let* (_, s) := notify DOCUMENTDB_JNI_ERR_JVM_ATTACH [] [] s in
    Ok (MkInfo DOCUMENTDB_JNI_ERR_JVM_ATTACH (ei_cls e) (str "Failed to connect to JVM"), s).

(** Class, message and trace of the exception [err], which was cleared: its methods are
    called, and the references to the texts stay. *)
Definition describe (err : Z) : jop (text * text) :=
  let! cls := GetObjectClass err in
  let! getName := member "m_Class_getName" in
  let! clsName := CallObjectMethod cls getName [] in
  let! getMessage := member "m_Throwable_getMessage" in
  let! msg := CallObjectMethod err getMessage [] in
  let! utils := member "c_PlatformUtils" in
  let! getTrace := member "m_PlatformUtils_getFullStackTrace" in
  (if negb (utils =? 0) && negb (getTrace =? 0) then
     let! o := deref_null err in
     let! trace := CallObjectMethod utils getTrace [VObject o] in
     let! _ := JavaStringToCString trace in ret tt
   else ret tt) ;;;
  DeleteLocalRef cls ;;;
  let! clsName0 := JavaStringToCString clsName in
  let! msg0 := JavaStringToCString msg in
  ret (clsName0, msg0).

(** [ExceptionCheck(env, &errInfo)]: the new value of [errInfo].  The error data, for
    which [c_PlatformUtils] would be needed, only go to the handler. *)
Definition ExceptionCheck : jop ErrorInfo := fun s =>
  match j_pending s with
  | None => Ok (no_info, s)
  | Some _ =>
      (let! err := ExceptionOccurred in
       let! printing := gets j_print in
       (if printing : bool then
          let! print := member "m_Throwable_printStackTrace" in CallVoidMethod err print []
        else ret tt) ;;;
       ExceptionClear ;;;
       let! (cls, msg) := describe err in
       let! utils := member "c_PlatformUtils" in
       let! errData := member "m_PlatformUtils_errData" in
       (if negb (utils =? 0) && negb (errData =? 0) then
          let! o := deref_null err in
          let! _ := CallObjectMethod utils errData [VObject o] in ret tt
        else ret tt) ;;;
       notify DOCUMENTDB_JNI_ERR_GENERIC cls msg ;;;
       DeleteLocalRef err ;;;
       ret (MkInfo DOCUMENTDB_JNI_ERR_GENERIC cls msg)) s
  end.

End env.

(** * Classes and methods *)

Definition C_THROWABLE : string := "java/lang/Throwable".
Definition M_THROWABLE_GET_MESSAGE : JniMethod := MkMethod "getMessage" "()Ljava/lang/String;" false.
Definition M_THROWABLE_PRINT_STACK_TRACE : JniMethod := MkMethod "printStackTrace" "()V" false.
Definition C_CLASS : string := "java/lang/Class".
Definition M_CLASS_GET_NAME : JniMethod := MkMethod "getName" "()Ljava/lang/String;" false.
Definition C_STRING : string := "java/lang/String".
Definition C_DOCUMENTDB_CONNECTION_PROPERTIES : string :=
  "software/amazon/documentdb/jdbc/DocumentDbConnectionProperties".
Definition M_DOCUMENTDB_CONNECTION_PROPERTIES_GET_PROPERTIES_FROM_CONNECTION_STRING : JniMethod :=
  MkMethod "getPropertiesFromConnectionString"
    "(Ljava/lang/String;)Lsoftware/amazon/documentdb/jdbc/DocumentDbConnectionProperties;"
    true.
Definition C_RECORD_SET : string := "java/sql/ResultSet".
Definition M_RECORD_SET_CLOSE : JniMethod := MkMethod "close" "()V" false.
Definition M_RECORD_SET_NEXT : JniMethod := MkMethod "next" "()Z" false.
Definition M_RECORD_SET_GET_STRING_BY_INDEX : JniMethod := MkMethod "getString" "(I)Ljava/lang/String;" false.
Definition M_RECORD_SET_GET_STRING_BY_NAME : JniMethod :=
  MkMethod "getString" "(Ljava/lang/String;)Ljava/lang/String;" false.
Definition M_RECORD_SET_GET_INT_BY_INDEX : JniMethod := MkMethod "getInt" "(I)I" false.
Definition M_RECORD_SET_GET_INT_BY_NAME : JniMethod := MkMethod "getInt" "(Ljava/lang/String;)I" false.
Definition M_RECORD_SET_GET_ROW : JniMethod := MkMethod "getRow" "()I" false.
Definition M_RECORD_SET_WAS_NULL : JniMethod := MkMethod "wasNull" "()Z" false.
Definition C_DATABASE_META_DATA : string := "java/sql/DatabaseMetaData".
Definition M_DATABASE_META_DATA_GET_TABLES : JniMethod :=
  MkMethod "getTables"
    "(Ljava/lang/String;Ljava/lang/String;Ljava/lang/String;[Ljava/lang/String;)Ljava/sql/ResultSet;"
    false.
Definition M_DATABASE_META_DATA_GET_COLUMNS : JniMethod :=
  MkMethod "getColumns"
    "(Ljava/lang/String;Ljava/lang/String;Ljava/lang/String;Ljava/lang/String;)Ljava/sql/ResultSet;"
    false.
Definition M_DATABASE_META_DATA_GET_PRIMARY_KEYS : JniMethod :=
  MkMethod "getPrimaryKeys" "(Ljava/lang/String;Ljava/lang/String;Ljava/lang/String;)Ljava/sql/ResultSet;" false.
Definition M_DATABASE_META_DATA_GET_IMPORTED_KEYS : JniMethod :=
  MkMethod "getImportedKeys" "(Ljava/lang/String;Ljava/lang/String;Ljava/lang/String;)Ljava/sql/ResultSet;" false.
Definition M_DATABASE_META_DATA_GET_TYPE_INFO : JniMethod := MkMethod "getTypeInfo" "()Ljava/sql/ResultSet;" false.
Definition C_DOCUMENTDB_CONNECTION : string := "software/amazon/documentdb/jdbc/DocumentDbConnection".
Definition M_DOCUMENTDB_CONNECTION_GET_SSH_LOCAL_PORT : JniMethod := MkMethod "getSshLocalPort" "()I" false.
Definition M_DOCUMENTDB_CONNECTION_IS_SSH_TUNNEL_ACTIVE : JniMethod := MkMethod "isSshTunnelActive" "()Z" false.
Definition M_DOCUMENTDB_CONNECTION_GET_DATABASE_METADATA : JniMethod :=
  MkMethod "getDatabaseMetadata"
    "()Lsoftware/amazon/documentdb/jdbc/metadata/DocumentDbDatabaseSchemaMetadata;"
    false.
Definition M_DOCUMENTDB_CONNECTION_GET_CONNECTION_PROPERTIES : JniMethod :=
  MkMethod "getConnectionProperties" "()Lsoftware/amazon/documentdb/jdbc/DocumentDbConnectionProperties;" false.
Definition C_DOCUMENTDB_DATABASE_SCHEMA_METADATA : string :=
  "software/amazon/documentdb/jdbc/metadata/DocumentDbDatabaseSchemaMetadata".
Definition M_DOCUMENTDB_DATABASE_SCHEMA_METADATA_GET_SCHEMA_NAME : JniMethod :=
  MkMethod "getSchemaName" "()Ljava/lang/String;" false.
Definition C_DRIVERMANAGER : string := "java/sql/DriverManager".
Definition M_DRIVERMANAGER_GET_CONNECTION : JniMethod :=
  MkMethod "getConnection" "(Ljava/lang/String;)Ljava/sql/Connection;" true.
Definition C_JAVA_SQL_CONNECTION : string := "java/sql/Connection".
Definition M_JAVA_SQL_CONNECTION_CLOSE : JniMethod := MkMethod "close" "()V" false.
Definition M_JAVA_SQL_CONNECTION_GET_META_DATA : JniMethod :=
  MkMethod "getMetaData" "()Ljava/sql/DatabaseMetaData;" false.
Definition C_LIST : string := "java/util/List".
Definition M_LIST_SIZE : JniMethod := MkMethod "size" "()I" false.
Definition M_LIST_GET : JniMethod := MkMethod "get" "(I)Ljava/lang/Object;" false.
Definition C_DOCUMENTDB_MQL_QUERY_CONTEXT : string :=
  "software/amazon/documentdb/jdbc/query/DocumentDbMqlQueryContext".
Definition M_DOCUMENTDB_MQL_QUERY_CONTEXT_GET_AGGREGATE_OPERATIONS_AS_STRINGS : JniMethod :=
  MkMethod "getAggregateOperationsAsStrings" "()Ljava/util/List;" false.
Definition M_DOCUMENTDB_MQL_QUERY_CONTEXT_GET_COLUMN_METADATA : JniMethod :=
  MkMethod "getColumnMetaData" "()Ljava/util/List;" false.
Definition M_DOCUMENTDB_MQL_QUERY_CONTEXT_GET_COLLECTION_NAME : JniMethod :=
  MkMethod "getCollectionName" "()Ljava/lang/String;" false.
Definition M_DOCUMENTDB_MQL_QUERY_CONTEXT_GET_PATHS : JniMethod := MkMethod "getPaths" "()Ljava/util/List;" false.
Definition C_JDBC_COLUMN_METADATA : string := "software/amazon/documentdb/jdbc/common/utilities/JdbcColumnMetaData".
Definition M_JDBC_COLUMN_METADATA_GET_ORDINAL : JniMethod := MkMethod "getOrdinal" "()I" false.
Definition M_JDBC_COLUMN_METADATA_IS_AUTO_INCREMENT : JniMethod := MkMethod "isAutoIncrement" "()Z" false.
Definition M_JDBC_COLUMN_METADATA_IS_CASE_SENSITIVE : JniMethod := MkMethod "isCaseSensitive" "()Z" false.
Definition M_JDBC_COLUMN_METADATA_IS_SEARCHABLE : JniMethod := MkMethod "isSearchable" "()Z" false.
Definition M_JDBC_COLUMN_METADATA_IS_CURRENCY : JniMethod := MkMethod "isCurrency" "()Z" false.
Definition M_JDBC_COLUMN_METADATA_GET_NULLABLE : JniMethod := MkMethod "getNullable" "()I" false.
Definition M_JDBC_COLUMN_METADATA_IS_SIGNED : JniMethod := MkMethod "isSigned" "()Z" false.
Definition M_JDBC_COLUMN_METADATA_GET_COLUMN_DISPLAY_SIZE : JniMethod := MkMethod "getColumnDisplaySize" "()I" false.
Definition M_JDBC_COLUMN_METADATA_GET_COLUMN_LABEL : JniMethod :=
  MkMethod "getColumnLabel" "()Ljava/lang/String;" false.
Definition M_JDBC_COLUMN_METADATA_GET_COLUMN_NAME : JniMethod :=
  MkMethod "getColumnName" "()Ljava/lang/String;" false.
Definition M_JDBC_COLUMN_METADATA_GET_SCHEMA_NAME : JniMethod :=
  MkMethod "getSchemaName" "()Ljava/lang/String;" false.
Definition M_JDBC_COLUMN_METADATA_GET_PRECISION : JniMethod := MkMethod "getPrecision" "()I" false.
Definition M_JDBC_COLUMN_METADATA_GET_SCALE : JniMethod := MkMethod "getScale" "()I" false.
Definition M_JDBC_COLUMN_METADATA_GET_TABLE_NAME : JniMethod := MkMethod "getTableName" "()Ljava/lang/String;" false.
Definition M_JDBC_COLUMN_METADATA_GET_CATALOG_NAME : JniMethod :=
  MkMethod "getCatalogName" "()Ljava/lang/String;" false.
Definition M_JDBC_COLUMN_METADATA_GET_COLUMN_TYPE : JniMethod := MkMethod "getColumnType" "()I" false.
Definition M_JDBC_COLUMN_METADATA_GET_COLUMN_TYPE_NAME : JniMethod :=
  MkMethod "getColumnTypeName" "()Ljava/lang/String;" false.
Definition M_JDBC_COLUMN_METADATA_IS_READ_ONLY : JniMethod := MkMethod "isReadOnly" "()Z" false.
Definition M_JDBC_COLUMN_METADATA_IS_WRITABLE : JniMethod := MkMethod "isWritable" "()Z" false.
Definition M_JDBC_COLUMN_METADATA_IS_DEFINITELY_WRITABLE : JniMethod := MkMethod "isDefinitelyWritable" "()Z" false.
Definition M_JDBC_COLUMN_METADATA_GET_COLUMN_CLASS_NAME : JniMethod :=
  MkMethod "getColumnClassName" "()Ljava/lang/String;" false.
Definition C_DOCUMENTDB_QUERY_MAPPING_SERVICE : string :=
  "software/amazon/documentdb/jdbc/query/DocumentDbQueryMappingService".
Definition M_DOCUMENTDB_QUERY_MAPPING_SERVICE_INIT : JniMethod :=
  MkMethod "<init>"
    "(Lsoftware/amazon/documentdb/jdbc/DocumentDbConnectionProperties;Lsoftware/amazon/documentdb/jdbc/metadata/DocumentDbDatabaseSchemaMetadata;)V"
    false.
Definition M_DOCUMENTDB_QUERY_MAPPING_SERVICE_GET : JniMethod :=
  MkMethod "get" "(Ljava/lang/String;J)Lsoftware/amazon/documentdb/jdbc/query/DocumentDbMqlQueryContext;" false.

(** * Members *)

(** [c = FindClass(env, name)] and [m = FindMethod(env, c, method)]. *)
Inductive init_step : Type :=
| IClass (field name : string)
| IMethod (field cls : string) (m : JniMethod).

(** [JniJavaMembers::Initialize]. *)
Definition java_steps : list init_step :=
  [IClass "c_Class" C_CLASS;
   IMethod "m_Class_getName" "c_Class" M_CLASS_GET_NAME;
   IClass "c_Throwable" C_THROWABLE;
   IMethod "m_Throwable_getMessage" "c_Throwable" M_THROWABLE_GET_MESSAGE;
   IMethod "m_Throwable_printStackTrace" "c_Throwable" M_THROWABLE_PRINT_STACK_TRACE;
   IClass "c_String" C_STRING].

(** [JniMembers::Initialize]. *)
Definition member_steps : list init_step :=
  [IClass "c_DocumentDbConnectionProperties" C_DOCUMENTDB_CONNECTION_PROPERTIES;
   IMethod "m_DocumentDbConnectionPropertiesGetPropertiesFromConnectionString" "c_DocumentDbConnectionProperties"
     M_DOCUMENTDB_CONNECTION_PROPERTIES_GET_PROPERTIES_FROM_CONNECTION_STRING;
   IClass "c_DocumentDbConnection" C_DOCUMENTDB_CONNECTION;
   IMethod "m_DocumentDbConnectionGetSshLocalPort" "c_DocumentDbConnection"
     M_DOCUMENTDB_CONNECTION_GET_SSH_LOCAL_PORT;
   IMethod "m_DocumentDbConnectionIsSshTunnelActive" "c_DocumentDbConnection"
     M_DOCUMENTDB_CONNECTION_IS_SSH_TUNNEL_ACTIVE;
   IMethod "m_DocumentDbConnectionGetDatabaseMetadata" "c_DocumentDbConnection"
     M_DOCUMENTDB_CONNECTION_GET_DATABASE_METADATA;
   IMethod "m_DocumentDbConnectionGetConnectionProperties" "c_DocumentDbConnection"
     M_DOCUMENTDB_CONNECTION_GET_CONNECTION_PROPERTIES;
   IClass "c_DocumentDbDatabaseSchemaMetadata" C_DOCUMENTDB_DATABASE_SCHEMA_METADATA;
   IMethod "m_DocumentDbDatabaseSchemaMetadataGetSchemaName" "c_DocumentDbDatabaseSchemaMetadata"
     M_DOCUMENTDB_DATABASE_SCHEMA_METADATA_GET_SCHEMA_NAME;
   IClass "c_DriverManager" C_DRIVERMANAGER;
   IMethod "m_DriverManagerGetConnection" "c_DriverManager" M_DRIVERMANAGER_GET_CONNECTION;
   IClass "c_ResultSet" C_RECORD_SET;
   IMethod "m_ResultSetClose" "c_ResultSet" M_RECORD_SET_CLOSE;
   IMethod "m_ResultSetNext" "c_ResultSet" M_RECORD_SET_NEXT;
   IMethod "m_ResultSetGetStringByIndex" "c_ResultSet" M_RECORD_SET_GET_STRING_BY_INDEX;
   IMethod "m_ResultSetGetStringByName" "c_ResultSet" M_RECORD_SET_GET_STRING_BY_NAME;
   IMethod "m_ResultSetGetIntByIndex" "c_ResultSet" M_RECORD_SET_GET_INT_BY_INDEX;
   IMethod "m_ResultSetGetIntByName" "c_ResultSet" M_RECORD_SET_GET_INT_BY_NAME;
   IMethod "m_ResultSetGetRow" "c_ResultSet" M_RECORD_SET_GET_ROW;
   IMethod "m_ResultSetWasNull" "c_ResultSet" M_RECORD_SET_WAS_NULL;
   IClass "c_DatabaseMetaData" C_DATABASE_META_DATA;
   IMethod "m_DatabaseMetaDataGetTables" "c_DatabaseMetaData" M_DATABASE_META_DATA_GET_TABLES;
   IMethod "m_DatabaseMetaDataGetColumns" "c_DatabaseMetaData" M_DATABASE_META_DATA_GET_COLUMNS;
   IMethod "m_DatabaseMetaDataGetPrimaryKeys" "c_DatabaseMetaData" M_DATABASE_META_DATA_GET_PRIMARY_KEYS;
   IMethod "m_DatabaseMetaDataGetImportedKeys" "c_DatabaseMetaData" M_DATABASE_META_DATA_GET_IMPORTED_KEYS;
   IMethod "m_DatabaseMetaDataGetTypeInfo" "c_DatabaseMetaData" M_DATABASE_META_DATA_GET_TYPE_INFO;
   IClass "c_Connection" C_JAVA_SQL_CONNECTION;
   IMethod "m_ConnectionClose" "c_Connection" M_JAVA_SQL_CONNECTION_CLOSE;
   IMethod "m_ConnectionGetMetaData" "c_Connection" M_JAVA_SQL_CONNECTION_GET_META_DATA;
   IClass "c_List" C_LIST;
   IMethod "m_ListSize" "c_List" M_LIST_SIZE;
   IMethod "m_ListGet" "c_List" M_LIST_GET;
   IClass "c_DocumentDbMqlQueryContext" C_DOCUMENTDB_MQL_QUERY_CONTEXT;
   IMethod "m_DocumentDbMqlQueryContextGetAggregateOperationsAsStrings" "c_DocumentDbMqlQueryContext"
     M_DOCUMENTDB_MQL_QUERY_CONTEXT_GET_AGGREGATE_OPERATIONS_AS_STRINGS;
   IMethod "m_DocumentDbMqlQueryContextGetColumnMetadata" "c_DocumentDbMqlQueryContext"
     M_DOCUMENTDB_MQL_QUERY_CONTEXT_GET_COLUMN_METADATA;
   IMethod "m_DocumentDbMqlQueryContextGetCollectionName" "c_DocumentDbMqlQueryContext"
     M_DOCUMENTDB_MQL_QUERY_CONTEXT_GET_COLLECTION_NAME;
   IMethod "m_DocumentDbMqlQueryContextGetPaths" "c_DocumentDbMqlQueryContext"
     M_DOCUMENTDB_MQL_QUERY_CONTEXT_GET_PATHS;
   IClass "c_JdbcColumnMetadata" C_JDBC_COLUMN_METADATA;
   IMethod "m_JdbcColumnMetadataGetOrdinal" "c_JdbcColumnMetadata" M_JDBC_COLUMN_METADATA_GET_ORDINAL;
   IMethod "m_JdbcColumnMetadataIsAutoIncrement" "c_JdbcColumnMetadata" M_JDBC_COLUMN_METADATA_IS_AUTO_INCREMENT;
   IMethod "m_JdbcColumnMetadataIsCaseSensitive" "c_JdbcColumnMetadata" M_JDBC_COLUMN_METADATA_IS_CASE_SENSITIVE;
   IMethod "m_JdbcColumnMetadataIsSearchable" "c_JdbcColumnMetadata" M_JDBC_COLUMN_METADATA_IS_SEARCHABLE;
   IMethod "m_JdbcColumnMetadataIsCurrency" "c_JdbcColumnMetadata" M_JDBC_COLUMN_METADATA_IS_CURRENCY;
   IMethod "m_JdbcColumnMetadataGetNullable" "c_JdbcColumnMetadata" M_JDBC_COLUMN_METADATA_GET_NULLABLE;
   IMethod "m_JdbcColumnMetadataIsSigned" "c_JdbcColumnMetadata" M_JDBC_COLUMN_METADATA_IS_SIGNED;
   IMethod "m_JdbcColumnMetadataGetColumnDisplaySize" "c_JdbcColumnMetadata"
     M_JDBC_COLUMN_METADATA_GET_COLUMN_DISPLAY_SIZE;
   IMethod "m_JdbcColumnMetadataGetColumnLabel" "c_JdbcColumnMetadata" M_JDBC_COLUMN_METADATA_GET_COLUMN_LABEL;
   IMethod "m_JdbcColumnMetadataGetColumnName" "c_JdbcColumnMetadata" M_JDBC_COLUMN_METADATA_GET_COLUMN_NAME;
   IMethod "m_JdbcColumnMetadataGetSchemaName" "c_JdbcColumnMetadata" M_JDBC_COLUMN_METADATA_GET_SCHEMA_NAME;
   IMethod "m_JdbcColumnMetadataGetPrecision" "c_JdbcColumnMetadata" M_JDBC_COLUMN_METADATA_GET_PRECISION;
   IMethod "m_JdbcColumnMetadataGetScale" "c_JdbcColumnMetadata" M_JDBC_COLUMN_METADATA_GET_SCALE;
   IMethod "m_JdbcColumnMetadataGetTableName" "c_JdbcColumnMetadata" M_JDBC_COLUMN_METADATA_GET_TABLE_NAME;
   IMethod "m_JdbcColumnMetadataGetCatalogName" "c_JdbcColumnMetadata" M_JDBC_COLUMN_METADATA_GET_CATALOG_NAME;
   IMethod "m_JdbcColumnMetadataGetColumnType" "c_JdbcColumnMetadata" M_JDBC_COLUMN_METADATA_GET_COLUMN_TYPE;
   IMethod "m_JdbcColumnMetadataGetColumnTypeName" "c_JdbcColumnMetadata" M_JDBC_COLUMN_METADATA_GET_COLUMN_TYPE_NAME;
   IMethod "m_JdbcColumnMetadataIsReadOnly" "c_JdbcColumnMetadata" M_JDBC_COLUMN_METADATA_IS_READ_ONLY;
   IMethod "m_JdbcColumnMetadataIsWritable" "c_JdbcColumnMetadata" M_JDBC_COLUMN_METADATA_IS_WRITABLE;
   IMethod "m_JdbcColumnMetadataIsDefinitelyWritable" "c_JdbcColumnMetadata"
     M_JDBC_COLUMN_METADATA_IS_DEFINITELY_WRITABLE;
   IMethod "m_JdbcColumnMetadataGetColumnClassName" "c_JdbcColumnMetadata"
     M_JDBC_COLUMN_METADATA_GET_COLUMN_CLASS_NAME;
   IClass "c_DocumentDbQueryMappingService" C_DOCUMENTDB_QUERY_MAPPING_SERVICE;
   IMethod "m_DocumentDbQueryMappingServiceCtor" "c_DocumentDbQueryMappingService"
     M_DOCUMENTDB_QUERY_MAPPING_SERVICE_INIT;
   IMethod "m_DocumentDbQueryMappingServiceGet" "c_DocumentDbQueryMappingService"
     M_DOCUMENTDB_QUERY_MAPPING_SERVICE_GET].

Section create.
Context {J O : Type} `{Jvm J O}.
Abbreviation jop := (op (jenv J O)).
Abbreviation members := (gmap string Z).

(** Nothing stands for the exception [JvmException]. *)
Definition FindClass (name : string) : jop (option Z) :=
  idle ;;;
  fun s => let (a, v) := find_class name (j_vm s) in
    match a with
    | inl o =>
        (let! res := new_ref false o in
         let! res0 := NewGlobalRef res in
         DeleteLocalRef res ;;;
         ret (Some res0)) (j_set_vm v s)
    | inr t => Ok (None, j_set_pending (Some t) (j_set_vm v s))
    end.

Definition FindMethod (cls : Z) (m : JniMethod) : jop (option Z) :=
  idle ;;;
  let! o := deref cls in
  let! id := in_java (method_id o m) 0 in
  ret (if id =? 0 then None else Some id).

Definition field (m : members) (name : string) : Z := default 0 (m !! name).

(** Whether all was found, and the members so far. *)
Fixpoint Initialize (steps : list init_step) (m : members) : jop (bool * members) :=
  match steps with
  | [] => ret (true, m)
  | step :: t =>
      let! r := match step with
                | IClass _ name => FindClass name
                | IMethod _ cls mthd => FindMethod (field m cls) mthd
                end in
      let name := match step with IClass f _ | IMethod f _ _ => f end in
      match r with
      | Some z => Initialize t (<[name := z]> m)
      | None => ret (false, m)
      end
  end.

Definition DeleteClass (cls : Z) : jop unit := DeleteGlobalRef cls.
(** [JniMembers::Destroy] and [JniJavaMembers::Destroy]. *)
Definition Destroy (m : members) : jop unit :=
  for_each (fun c => DeleteClass (field m c)) ["c_IgniteException"; "c_PlatformIgnition"; "c_PlatformTarget"; "c_PlatformUtils"].
Definition java_Destroy (m : members) : jop unit :=
  for_each (fun c => DeleteClass (field m c)) ["c_Class"; "c_Throwable"; "c_PlatformUtils"].

(** Class and message of the pending exception, if there is one that can be asked. *)
Definition WriteErrorInfo (m : members) : jop (option text * option text) := fun s =>
  match j_pending s with
  | None => Ok ((None, None), s)
  | Some _ =>
      (if negb (field m "m_Class_getName" =? 0) && negb (field m "m_Throwable_getMessage" =? 0) then
         let! err := ExceptionOccurred in
         ExceptionClear ;;;
         let! errCls := GetObjectClass err in
         let! clsName := CallObjectMethod errCls (field m "m_Class_getName") [] in
         let! cls := StringToChars clsName in
         let! msg := CallObjectMethod err (field m "m_Throwable_getMessage") [] in
         let! text := StringToChars msg in
         DeleteLocalRef errCls ;;;
         DeleteLocalRef clsName ;;;
         DeleteLocalRef msg ;;;
         ret (cls, text)
       else ExceptionClear ;;; ret (None, None)) s
  end.

Definition GetJniErrorMessage (res : Z) : text :=
  if res =? JNI_ERR then str "Unknown error (JNI_ERR)."
  else if res =? JNI_EDETACHED then str "Thread detached from the JVM."
  else if res =? JNI_EVERSION then str "JNI version error."
  else if res =? JNI_ENOMEM then str "Could not reserve enough space for object heap. Check Xmx option."
  else if res =? JNI_EEXIST then str "JVM already created."
  else if res =? JNI_EINVAL then str "Invalid JVM arguments."
  else str "Unexpected JNI_CreateJavaVM result.".

Definition GetOrCreateJvm (opts : list text) : jop Z := fun s =>
  if created_jvm (j_vm s) then Ok (JNI_OK, s)
  else let (res, v) := create_jvm opts (j_vm s) in Ok (res, j_set_vm v s).

(** [DestroyJavaVM]: with the machine go its references. *)
Definition DestroyJavaVM : jop unit := modify (fun s => j_set_refs ∅ (j_set_vm (destroy_jvm (j_vm s)) s)).

(** The context, or the error; [printStack] is the variable of the environment. *)
Definition JniContext_Create (opts : list text) (printStack : bool) (e : ErrorInfo) : jop (bool * ErrorInfo) :=
  let failed (cls msg : text) : jop (bool * ErrorInfo) :=
    notify DOCUMENTDB_JNI_ERR_JVM_INIT cls msg ;;;
    ret (false, MkInfo DOCUMENTDB_JNI_ERR_JVM_INIT cls msg) in
  let! exists_ := gets j_jvm in
  if exists_ : bool then ret (true, e)
  else
    let! res := GetOrCreateJvm opts in
    if negb (res =? JNI_OK) then failed [] (GetJniErrorMessage res)
    else
      let! (ok, m) := Initialize java_steps ∅ in
      let! (ok, m) := (if ok : bool then Initialize member_steps m else ret (false, m)) in
      if ok then modify (j_set_jvm true m printStack) ;;; ret (true, e)
      else
        let! (cls, msg) := WriteErrorInfo m in
        Destroy m ;;;
        java_Destroy m ;;;
        DestroyJavaVM ;;;
        failed (default [] cls) (default [] msg).

(** ** Contexts that are made or found *)

(** [BuildJvmOptions]. *)
Definition BuildJvmOptions (java9 : bool) (cp : text) (xms xmx : Z) : list text :=
  [str "-Dcalcite.default.charset=utf8"; c_str (str "-Djava.class.path=" ++ cp)%list;
   (str "-Xms" ++ show_int xms ++ str "m")%list; (str "-Xmx" ++ show_int xmx ++ str "m")%list;
   str "-Dfile.encoding=UTF-8"]
  ++ (if java9 then
        [str "--add-exports=java.base/jdk.internal.misc=ALL-UNNAMED";
         str "--add-exports=java.base/sun.nio.ch=ALL-UNNAMED";
         str "--add-exports=java.management/com.sun.jmx.mbeanserver=ALL-UNNAMED";
         str "--add-exports=jdk.internal.jvmstat/sun.jvmstat.monitor=ALL-UNNAMED";
         str "--add-exports=java.base/sun.reflect.generics.reflectiveObjects=ALL-UNNAMED";
         str "--add-opens=jdk.management/com.sun.management.internal=ALL-UNNAMED"]
      else []).

Definition Detach (s : jenv J O) : jenv J O :=
  if j_jvm s then j_set_refs (filter (fun kv => kv.2.2 = true) (j_refs s)) s else s.

End create.
