(* ===== verification/JniContext.v ===== *)
(** The operations of [JniContext] ([jni/java.cpp]): each checks its object, attaches the
    thread, calls one method of Java and turns what it answers, or throws, into its
    results.

    An output parameter is an argument, its value before, and a result; so is [errInfo],
    whose code is what the operation returns. *)
From S2P Require Import Prelude Memory Utf8 Diag Config Interop Jni.

Section context.
Context {J O : Type} `{Jvm J O}.
Abbreviation jop := (op (jenv J O)).

(** * The frame of the operations *)

(** [JNIEnv* env = Attach(errInfo); if (errInfo.code != SUCCESS) return errInfo.code]. *)
Definition attached {A} (e : ErrorInfo) (dflt : A) (k : jop (A * ErrorInfo)) : jop (A * ErrorInfo) :=
  let! e := Attach e in
  if is_success e then k else ret (dflt, e).

(** With the check of the object in front. *)
Definition with_object {A} (p : Z) (msg : string) (e : ErrorInfo) (dflt : A) (k : Z -> jop (A * ErrorInfo))
  : jop (A * ErrorInfo) :=
  if p =? 0 then ret (dflt, set_generic msg e)
  else attached e dflt (let! r := GetRef p in k r).

(** A new global reference to the result, or null. *)
Definition take_object (old result : Z) (e : ErrorInfo) : jop (Z * ErrorInfo) :=
  if (result =? 0) || negb (is_success e) then let! p := assign_null old in ret (p, e)
  else let! p := assign_global old result in ret (p, e).

Definition object_call (m : string) (args : list (jvalue O)) (old r : Z) : jop (Z * ErrorInfo) :=
  let! id := member m in
  let! result := CallObjectMethod r id args in
  let! e := ExceptionCheck in
  take_object old result e.

Definition bool_call (m : string) (value : bool) (r : Z) : jop (bool * ErrorInfo) :=
  let! id := member m in
  let! res := CallBooleanMethod r id [] in
  let! e := ExceptionCheck in
  ret (if is_success e then res else value, e).

Definition int_call (m : string) (value : Z) (r : Z) : jop (Z * ErrorInfo) :=
  let! id := member m in
  let! res := CallIntMethod r id [] in
  let! e := ExceptionCheck in
  ret (if is_success e then res else value, e).

Definition void_call (m : string) (r : Z) : jop (unit * ErrorInfo) :=
  let! id := member m in
  CallVoidMethod r id [] ;;;
  let! e := ExceptionCheck in
  ret (tt, e).

(** The text of a string object; null is [None]. *)
Definition optional_text (e : ErrorInfo) (r : Z) : jop (option text * ErrorInfo) :=
  if is_success e && negb (r =? 0) then let! t := GetStringUTFChars r in ret (Some (c_str t), e)
  else ret (None, e).

Definition string_arg (r : Z) : jop (jvalue O) := let! o := deref_null r in ret (VObject o).
Fixpoint map_op {A B} (f : A -> jop B) (l : list A) : jop (list B) :=
  match l with
  | [] => ret []
  | a :: t => let! b := f a in let! bs := map_op f t in ret (b :: bs)
  end.
Definition string_args : list Z -> jop (list (jvalue O)) := map_op string_arg.

(** * Connections *)

Definition DriverManagerGetConnection (connectionString : text) (connection : Z) (e : ErrorInfo)
  : jop (Z * ErrorInfo) :=
  attached e connection (
    let! jConnectionString := NewStringUTF connectionString in
    let! cls := member "c_DriverManager" in
    let! id := member "m_DriverManagerGetConnection" in
    let! args := string_args [jConnectionString] in
    let! result := CallObjectMethod cls id args in
    let! e := ExceptionCheck in
    let! r := take_object connection result e in
    DeleteLocalRef jConnectionString ;;;
    ret r).

Definition ConnectionClose (connection : Z) (e : ErrorInfo) : jop (unit * ErrorInfo) :=
  with_object connection "Connection object must be set." e tt (void_call "m_ConnectionClose").

Definition DocumentDbConnectionIsSshTunnelActive (connection : Z) (isActive : bool) (e : ErrorInfo)
  : jop (bool * ErrorInfo) :=
  with_object connection "Connection object must be set." e isActive
    (bool_call "m_DocumentDbConnectionIsSshTunnelActive" isActive).

(** The port is assigned also when the call threw. *)
Definition DocumentDbConnectionGetSshLocalPort (connection : Z) (result : Z) (e : ErrorInfo)
  : jop (Z * ErrorInfo) :=
  with_object connection "Connection object must be set." e result (fun r =>
    let! id := member "m_DocumentDbConnectionGetSshLocalPort" in
    let! res := CallIntMethod r id [] in
    let! e := ExceptionCheck in
    ret (res, e)).

Definition DocumentDbConnectionGetDatabaseMetadata (connection metadata : Z) (e : ErrorInfo)
  : jop (Z * ErrorInfo) :=
  with_object connection "Connection object must be set." e metadata
    (object_call "m_DocumentDbConnectionGetDatabaseMetadata" [] metadata).
Definition DocumentDbConnectionGetConnectionProperties (connection connectionProperties : Z) (e : ErrorInfo)
  : jop (Z * ErrorInfo) :=
  with_object connection "Connection object must be set." e connectionProperties
    (object_call "m_DocumentDbConnectionGetConnectionProperties" [] connectionProperties).

(** The value and whether it was null. *)
Definition DocumentDbDatabaseSchemaMetadataGetSchemaName (databaseMetadata : Z) (value : text * bool) (e : ErrorInfo)
  : jop (text * bool * ErrorInfo) :=
  with_object databaseMetadata "DatabaseMetadata object must be set." e value (fun r =>
    let! id := member "m_DocumentDbDatabaseSchemaMetadataGetSchemaName" in
    let! result := CallObjectMethod r id [] in
    let! e := ExceptionCheck in
    let! t := optional_text e result in
    ret (if is_success e then (default value.1 t.1, result =? 0) else value, e)).

Definition ConnectionGetMetaData (connection databaseMetaData : Z) (e : ErrorInfo) : jop (Z * ErrorInfo) :=
  with_object connection "Connection object must be set." e databaseMetaData
    (object_call "m_ConnectionGetMetaData" [] databaseMetaData).

(** * Catalogs *)

(** A call whose arguments are texts, which are deleted behind it. *)
Definition texts_call (m : string) (texts : list (option text)) (old r : Z) : jop (Z * ErrorInfo) :=
  let! refs := map_op optional_string texts in
  let! args := string_args refs in
  let! id := member m in
  let! result := CallObjectMethod r id args in
  let! e := ExceptionCheck in
  for_each DeleteLocalRef refs ;;;
  take_object old result e.

(** The array of [types]: the references to its elements stay. *)
Definition type_array (types : option (list text)) : jop Z :=
  match types with
  | None => ret 0
  | Some l =>
      let! cls := member "c_String" in
      let! _ := deref cls in
      let! arr := NewObjectArray (Z.of_nat (length l)) in
      for_each (fun it : Z * text => let! r := NewStringUTF it.2 in SetObjectArrayElement arr it.1 r)
        (zip (seqZ 0 (Z.of_nat (length l))) l) ;;;
      ret arr
  end.

Definition DatabaseMetaDataGetTables (databaseMetaData : Z) (catalog schemaPattern : option text)
    (tableNamePattern : text) (types : option (list text)) (resultSet : Z) (e : ErrorInfo) : jop (Z * ErrorInfo) :=
  with_object databaseMetaData "DatabaseMetaData object must be set." e resultSet (fun r =>
    let! jCatalog := optional_string catalog in
    let! jSchemaPattern := optional_string schemaPattern in
    let! jTableNamePattern := NewStringUTF tableNamePattern in
    let! jTypes := type_array types in
    let! args := string_args [jCatalog; jSchemaPattern; jTableNamePattern; jTypes] in
    let! id := member "m_DatabaseMetaDataGetTables" in
    let! result := CallObjectMethod r id args in
    let! e := ExceptionCheck in
    for_each DeleteLocalRef [jCatalog; jSchemaPattern; jTableNamePattern; jTypes] ;;;
    take_object resultSet result e).

Definition DatabaseMetaDataGetColumns (databaseMetaData : Z) (catalog schemaPattern : option text)
    (tableNamePattern columnNamePattern : text) (resultSet : Z) (e : ErrorInfo) : jop (Z * ErrorInfo) :=
  with_object databaseMetaData "DatabaseMetaData object must be set." e resultSet
    (texts_call "m_DatabaseMetaDataGetColumns"
       [catalog; schemaPattern; Some tableNamePattern; Some columnNamePattern] resultSet).
Definition DatabaseMetaDataGetPrimaryKeys (databaseMetaData : Z) (catalog schema table : option text)
    (resultSet : Z) (e : ErrorInfo) : jop (Z * ErrorInfo) :=
  with_object databaseMetaData "DatabaseMetaData object must be set." e resultSet
    (texts_call "m_DatabaseMetaDataGetPrimaryKeys" [catalog; schema; table] resultSet).
Definition DatabaseMetaDataGetImportedKeys (databaseMetaData : Z) (catalog schema : option text) (table : text)
    (resultSet : Z) (e : ErrorInfo) : jop (Z * ErrorInfo) :=
  with_object databaseMetaData "DatabaseMetaData object must be set." e resultSet
    (texts_call "m_DatabaseMetaDataGetImportedKeys" [catalog; schema; Some table] resultSet).
Definition DatabaseMetaDataGetTypeInfo (databaseMetaData resultSet : Z) (e : ErrorInfo) : jop (Z * ErrorInfo) :=
  with_object databaseMetaData "DatabaseMetaData object must be set." e resultSet
    (object_call "m_DatabaseMetaDataGetTypeInfo" [] resultSet).

(** * Result sets *)

Definition ResultSetClose (resultSet : Z) (e : ErrorInfo) : jop (unit * ErrorInfo) :=
  with_object resultSet "ResultSet object must be set." e tt (void_call "m_ResultSetClose").
Definition ResultSetNext (resultSet : Z) (hasNext : bool) (e : ErrorInfo) : jop (bool * ErrorInfo) :=
  with_object resultSet "ResultSet object must be set." e hasNext (bool_call "m_ResultSetNext" hasNext).
Definition ResultSetWasNull (resultSet : Z) (value : bool) (e : ErrorInfo) : jop (bool * ErrorInfo) :=
  with_object resultSet "ResultSet object must be set." e value (bool_call "m_ResultSetWasNull" value).

(** [value = boost::none] comes behind the check of the object. *)
Definition reset_with {A} (resultSet : Z) (value : option A) (e : ErrorInfo) (k : Z -> jop (option A * ErrorInfo))
  : jop (option A * ErrorInfo) :=
  if resultSet =? 0 then ret (value, set_generic "ResultSet object must be set." e)
  else attached e None (let! r := GetRef resultSet in k r).

Definition ResultSetGetString_index (resultSet : Z) (columnIndex : Z) (value : option text) (e : ErrorInfo)
  : jop (option text * ErrorInfo) :=
  reset_with resultSet value e (fun r =>
    let! id := member "m_ResultSetGetStringByIndex" in
    let! result := CallObjectMethod r id [VInt columnIndex] in
    let! e := ExceptionCheck in
    optional_text e result).
Definition ResultSetGetString_name (resultSet : Z) (columnName : text) (value : option text) (e : ErrorInfo)
  : jop (option text * ErrorInfo) :=
  reset_with resultSet value e (fun r =>
    let! jColumnName := NewStringUTF columnName in
    let! args := string_args [jColumnName] in
    let! id := member "m_ResultSetGetStringByName" in
    let! result := CallObjectMethod r id args in
    let! e := ExceptionCheck in
    DeleteLocalRef jColumnName ;;;
    optional_text e result).

(** [bool wasNull] is not initialised: looking at it is undefined when it was not
    assigned. *)
Definition int_unless_null (resultSet : Z) (value : option Z) (result : Z) (e : ErrorInfo)
  : jop (option Z * ErrorInfo) :=
  if is_success e then
    let! (wasNull, e) := ResultSetWasNull resultSet false e in
    if is_success e then ret (if wasNull then value else Some result, e) else undefined
  else ret (None, e).

Definition ResultSetGetInt_index (resultSet : Z) (columnIndex : Z) (value : option Z) (e : ErrorInfo)
  : jop (option Z * ErrorInfo) :=
  reset_with resultSet value e (fun r =>
    let! id := member "m_ResultSetGetIntByIndex" in
    let! result := CallIntMethod r id [VInt columnIndex] in
    let! e := ExceptionCheck in
    int_unless_null resultSet None result e).
Definition ResultSetGetInt_name (resultSet : Z) (columnName : text) (value : option Z) (e : ErrorInfo)
  : jop (option Z * ErrorInfo) :=
  reset_with resultSet value e (fun r =>
    let! jColumnName := NewStringUTF columnName in
    let! args := string_args [jColumnName] in
    let! id := member "m_ResultSetGetIntByName" in
    let! result := CallIntMethod r id args in
    let! e := ExceptionCheck in
    DeleteLocalRef jColumnName ;;;
    int_unless_null resultSet None result e).
(** The value is there already when [wasNull] is asked. *)
Definition ResultSetGetRow (resultSet : Z) (value : option Z) (e : ErrorInfo) : jop (option Z * ErrorInfo) :=
  reset_with resultSet value e (fun r =>
    let! id := member "m_ResultSetGetRow" in
    let! result := CallIntMethod r id [] in
    let! e := ExceptionCheck in
    int_unless_null resultSet (Some result) result e).

(** * Lists and the mapping service *)

Definition ListSize (list_ : Z) (size : Z) (e : ErrorInfo) : jop (Z * ErrorInfo) :=
  with_object list_ "List object must be set." e size (int_call "m_ListSize" size).
Definition ListGet (list_ index value : Z) (e : ErrorInfo) : jop (Z * ErrorInfo) :=
  with_object list_ "List object must be set." e value (object_call "m_ListGet" [VInt index] value).

Definition DocumentdbMqlQueryContextGetAggregateOperationsAsStrings (ctx list_ : Z) (e : ErrorInfo)
  : jop (Z * ErrorInfo) :=
  with_object ctx "MQL Query Context object must be set." e list_
    (object_call "m_DocumentDbMqlQueryContextGetAggregateOperationsAsStrings" [] list_).
Definition DocumentdbMqlQueryContextGetColumnMetadata (ctx columnMetadata : Z) (e : ErrorInfo)
  : jop (Z * ErrorInfo) :=
  with_object ctx "MQL Query Context object must be set." e columnMetadata
    (object_call "m_DocumentDbMqlQueryContextGetColumnMetadata" [] columnMetadata).
Definition DocumentdbMqlQueryContextGetPaths (ctx list_ : Z) (e : ErrorInfo) : jop (Z * ErrorInfo) :=
  with_object ctx "MQL Query Context object must be set." e list_
    (object_call "m_DocumentDbMqlQueryContextGetPaths" [] list_).
Definition DocumentdbMqlQueryContextGetCollectionName (ctx : Z) (collectionName : text) (e : ErrorInfo)
  : jop (text * ErrorInfo) :=
  with_object ctx "MQL Query Context object must be set." e collectionName (fun r =>
    let! id := member "m_DocumentDbMqlQueryContextGetCollectionName" in
    let! result := CallObjectMethod r id [] in
    let! e := ExceptionCheck in
    if (result =? 0) || negb (is_success e) then ret ([], e)
    else let! t := JavaStringToCString result in ret (t, e)).

Definition DocumentDbQueryMappingServiceCtor (connectionProperties databaseMetadata queryMappingService : Z)
    (e : ErrorInfo) : jop (Z * ErrorInfo) :=
  if (connectionProperties =? 0) || (databaseMetadata =? 0) then
    ret (queryMappingService, set_generic "Connection Properties and Database Metadata objects must be set." e)
  else
    attached e queryMappingService (
      let! cls := member "c_DocumentDbQueryMappingService" in
      let! id := member "m_DocumentDbQueryMappingServiceCtor" in
      let! r1 := GetRef connectionProperties in
      let! r2 := GetRef databaseMetadata in
      let! args := string_args [r1; r2] in
      let! result := CallObjectMethod cls id args in
      let! e := ExceptionCheck in
      take_object queryMappingService result e).

(** Here the text is deleted before the exception is looked for. *)
Definition DocumentDbQueryMappingServiceGet (queryMappingService : Z) (sql : text) (maxRowCount : Z)
    (mqlQueryContext : Z) (e : ErrorInfo) : jop (Z * ErrorInfo) :=
  with_object queryMappingService "Query Mapping Service object must be set." e mqlQueryContext (fun r =>
    let! sqlString := NewStringUTF sql in
    let! id := member "m_DocumentDbQueryMappingServiceGet" in
    let! args := string_args [sqlString] in
    let! result := CallObjectMethod r id (args ++ [VLong maxRowCount]) in
    DeleteLocalRef sqlString ;;;
    let! e := ExceptionCheck in
    take_object mqlQueryContext result e).

(** [value.Get()] is not tested. *)
Definition JavaStringToCppString (value : Z) (e : ErrorInfo) : jop (text * ErrorInfo) :=
  let! e := Attach e in
  if is_success e then
    let! r := GetRef value in
    let! t := JavaStringToCString r in
    ret (t, e)
  else ret ([], e).

(** * Columns *)

Definition context_CallBooleanMethod (object : Z) (m : string) (value : bool) (e : ErrorInfo) : jop (bool * ErrorInfo) :=
  with_object object "JDBC Column Metadata object must be set." e value (bool_call m value).
Definition context_CallIntMethod (object : Z) (m : string) (value : Z) (e : ErrorInfo) : jop (Z * ErrorInfo) :=
  with_object object "JDBC Column Metadata object must be set." e value (int_call m value).
Definition context_CallStringMethod (object : Z) (m : string) (value : option text) (e : ErrorInfo)
  : jop (option text * ErrorInfo) :=
  with_object object "JDBC Column Metadata object must be set." e value (fun r =>
    let! id := member m in
    let! result := CallObjectMethod r id [] in
    let! e := ExceptionCheck in
    if negb (is_success e) then ret (value, e)
    else if result =? 0 then ret (None, e)
    else let! t := JavaStringToCString result in ret (Some t, e)).

Definition JdbcColumnMetadataGetOrdinal (column ordinal : Z) (e : ErrorInfo) : jop (Z * ErrorInfo) :=
  with_object column "JDBC Column Metaata object must be set." e ordinal (int_call "m_JdbcColumnMetadataGetOrdinal" ordinal).
Definition JdbcColumnMetadataIsAutoIncrement (column : Z) :=
  context_CallBooleanMethod column "m_JdbcColumnMetadataIsAutoIncrement".
Definition JdbcColumnMetadataIsCaseSensitive (column : Z) :=
  context_CallBooleanMethod column "m_JdbcColumnMetadataIsCaseSensitive".
Definition JdbcColumnMetadataIsSearchable (column : Z) :=
  context_CallBooleanMethod column "m_JdbcColumnMetadataIsSearchable".
Definition JdbcColumnMetadataIsCurrency (column : Z) :=
  context_CallBooleanMethod column "m_JdbcColumnMetadataIsCurrency".
Definition JdbcColumnMetadataGetNullable (column : Z) :=
  context_CallIntMethod column "m_JdbcColumnMetadataGetNullable".
Definition JdbcColumnMetadataIsSigned (column : Z) :=
  context_CallBooleanMethod column "m_JdbcColumnMetadataIsSigned".
Definition JdbcColumnMetadataGetColumnDisplaySize (column : Z) :=
  context_CallIntMethod column "m_JdbcColumnMetadataGetColumnDisplaySize".
Definition JdbcColumnMetadataGetColumnLabel (column : Z) :=
  context_CallStringMethod column "m_JdbcColumnMetadataGetColumnLabel".
Definition JdbcColumnMetadataGetColumnName (column : Z) :=
  context_CallStringMethod column "m_JdbcColumnMetadataGetColumnName".
Definition JdbcColumnMetadataGetSchemaName (column : Z) :=
  context_CallStringMethod column "m_JdbcColumnMetadataGetSchemaName".
Definition JdbcColumnMetadataGetPrecision (column : Z) :=
  context_CallIntMethod column "m_JdbcColumnMetadataGetPrecision".
Definition JdbcColumnMetadataGetScale (column : Z) :=
  context_CallIntMethod column "m_JdbcColumnMetadataGetScale".
Definition JdbcColumnMetadataGetTableName (column : Z) :=
  context_CallStringMethod column "m_JdbcColumnMetadataGetTableName".
Definition JdbcColumnMetadataGetCatalogName (column : Z) :=
  context_CallStringMethod column "m_JdbcColumnMetadataGetCatalogName".
Definition JdbcColumnMetadataGetColumnType (column : Z) :=
  context_CallIntMethod column "m_JdbcColumnMetadataGetColumnType".
Definition JdbcColumnMetadataGetColumnTypeName (column : Z) :=
  context_CallStringMethod column "m_JdbcColumnMetadataGetColumnTypeName".
Definition JdbcColumnMetadataIsReadOnly (column : Z) :=
  context_CallBooleanMethod column "m_JdbcColumnMetadataIsReadOnly".
Definition JdbcColumnMetadataIsWritable (column : Z) :=
  context_CallBooleanMethod column "m_JdbcColumnMetadataIsWritable".
Definition JdbcColumnMetadataIsDefinitelyWritable (column : Z) :=
  context_CallBooleanMethod column "m_JdbcColumnMetadataIsDefinitelyWritable".
Definition JdbcColumnMetadataGetColumnClassName (column : Z) :=
  context_CallStringMethod column "m_JdbcColumnMetadataGetColumnClassName".

(** * What is left of Ignite

    The members of these calls are never initialised. *)

Definition LocalToGlobal (localRef : Z) : jop Z :=
  if localRef =? 0 then ret 0
  else
    let! globalRef := NewGlobalRef localRef in
    DeleteLocalRef localRef ;;;
    (if globalRef =? 0 then let! _ := ExceptionCheck in ret tt else ret tt) ;;;
    ret globalRef.

Definition target_long (m : string) (obj opType val : Z) (e : ErrorInfo) : jop (Z * ErrorInfo) :=
  attached e 0 (
    let! id := member m in
    let! res := CallLongMethod obj id [VInt opType; VLong val] in
    let! e := ExceptionCheck in
    ret (res, e)).
Definition TargetInLongOutLong := target_long "m_PlatformTarget_inLongOutLong".
Definition TargetInStreamOutLong := target_long "m_PlatformTarget_inStreamOutLong".

Definition target_object (m : string) (obj : Z) (args : list (jvalue O)) (e : ErrorInfo) : jop (Z * ErrorInfo) :=
  attached e 0 (
    let! id := member m in
    let! res := CallObjectMethod obj id args in
    let! e := ExceptionCheck in
    let! g := LocalToGlobal res in
    ret (g, e)).
Definition TargetOutObject (obj opType : Z) := target_object "m_PlatformTarget_outObject" obj [VInt opType].
Definition TargetInStreamOutObject (obj opType memPtr : Z) :=
  target_object "m_PlatformTarget_inStreamOutObject" obj [VInt opType; VLong memPtr].
Definition CacheOutOpQueryCursor (obj type_ memPtr : Z) :=
  target_object "m_PlatformTarget_inStreamOutObject" obj [VInt type_; VLong memPtr].
Definition CacheOutOpContinuousQuery (obj type_ memPtr : Z) :=
  target_object "m_PlatformTarget_inStreamOutObject" obj [VInt type_; VLong memPtr].

Definition target_void (m : string) (obj : Z) (args : list (jvalue O)) (e : ErrorInfo) : jop (unit * ErrorInfo) :=
  attached e tt (
    let! id := member m in
    CallVoidMethod obj id args ;;;
    let! e := ExceptionCheck in
    ret (tt, e)).
Definition TargetInStreamOutStream (obj opType inMemPtr outMemPtr : Z) :=
  target_void "m_PlatformTarget_inStreamOutStream" obj [VInt opType; VLong inMemPtr; VLong outMemPtr].
Definition TargetOutStream (obj opType memPtr : Z) :=
  target_void "m_PlatformTarget_outStream" obj [VInt opType; VLong memPtr].

(** [Reallocate]: 0, or -1. *)
Definition Reallocate_memory (memPtr cap : Z) : jop Z := fun s =>
  let (res, v) := attach_thread (j_vm s) in
  (if negb (res =? JNI_OK) then ret (-1)
   else
     let! utils := member "c_PlatformUtils" in
     let! id := member "m_PlatformUtils_reallocate" in
     CallVoidMethod utils id [VLong memPtr; VInt cap] ;;;
     let! thrown := gets j_pending in
     match thrown with Some _ => ExceptionClear ;;; ret (-1) | None => ret 0 end) (j_set_vm v s).

Definition Acquire (obj : Z) : jop Z :=
  if obj =? 0 then ret 0
  else
    let! e := Attach no_info in
    if is_success e then let! g := NewGlobalRef obj in let! _ := ExceptionCheck in ret g else ret 0.
Definition Release (obj : Z) : jop unit := fun s =>
  if (obj =? 0) || negb (j_jvm s) then Ok (tt, s)
  else
    let (res, v) := attach_thread (j_vm s) in
    (if res =? JNI_OK then DeleteGlobalRef obj else ret tt) (j_set_vm v s).

End context.
