(* ===== verification/JniWrap.v ===== *)
(** The objects that the driver keeps for Java objects ([jni/*.cpp] without [java.cpp]):
    the connection, the metadata, the result set and the mapping service.

    Each has a context and the pointer to its Java object, which is a result of the
    operations that change it.  Only the connection can be without a context: the others
    are made by calls through one.  A pointer that is a local variable is released at the
    end of its scope. *)
From S2P Require Import Prelude Memory Utf8 Diag Config Interop Jni JniContext Meta DataQuery.

Section wrap.
Context {J O : Type} `{Jvm J O}.
Abbreviation jop := (op (jenv J O)).

(** * Scopes *)

(** A local pointer, which is null at first: the rest of the scope says what it is in
    the end. *)
Definition scoped {A} (k : jop (A * Z)) : jop A :=
  let! (a, p) := k in shared_release p ;;; ret a.

(** [success = f(..., result, errInfo); if (success != SUCCESS) return nullptr;
    return new T(context, result)], with [result] local. *)
Definition new_object (f : ErrorInfo -> jop (Z * ErrorInfo)) (e : ErrorInfo) : jop (option Z * ErrorInfo) :=
  scoped (
    let! (p, e) := f e in
    if is_success e then let! q := shared_copy p in ret (Some q, e, p) else ret (None, e, p)).

(** * ResultSet *)

Definition ResultSet_Close (resultSet : Z) (e : ErrorInfo) : jop (Z * ErrorInfo * Z) :=
  if resultSet =? 0 then ret (DOCUMENTDB_JNI_ERR_SUCCESS, e, 0)
  else
    let! (_, e) := ResultSetClose resultSet e in
    let! p := assign_null resultSet in
    ret (ei_code e, e, p).
Definition ResultSet_destroy (resultSet : Z) : jop unit :=
  let! (_, p) := ResultSet_Close resultSet no_info in shared_release p.

Definition ResultSet_Next (resultSet : Z) (hasNext : bool) (e : ErrorInfo) : jop (bool * ErrorInfo) :=
  ResultSetNext resultSet hasNext e.
Definition GetString_index (resultSet columnIndex : Z) (value : option text) (e : ErrorInfo) : jop (option text * ErrorInfo) :=
  ResultSetGetString_index resultSet columnIndex value e.
Definition GetString_name (resultSet : Z) (columnName : text) (value : option text) (e : ErrorInfo)
  : jop (option text * ErrorInfo) :=
  ResultSetGetString_name resultSet columnName value e.
Definition GetInt_index (resultSet columnIndex : Z) (value : option Z) (e : ErrorInfo) : jop (option Z * ErrorInfo) :=
  ResultSetGetInt_index resultSet columnIndex value e.
Definition GetInt_name (resultSet : Z) (columnName : text) (value : option Z) (e : ErrorInfo) : jop (option Z * ErrorInfo) :=
  ResultSetGetInt_name resultSet columnName value e.

(** The value stays as it was when there is none. *)
Definition GetSmallInt_index (resultSet columnIndex : Z) (value : option Z) (e : ErrorInfo) : jop (option Z * ErrorInfo) :=
  let! (val, e) := ResultSetGetInt_index resultSet columnIndex None e in
  ret (match val with Some v => Some (i16 v) | None => value end, e).
Definition GetSmallInt_name (resultSet : Z) (columnName : text) (value : option Z) (e : ErrorInfo)
  : jop (option Z * ErrorInfo) :=
  let! (val, e) := ResultSetGetInt_name resultSet columnName None e in
  ret (match val with Some v => Some (i16 v) | None => value end, e).

(** ** Reading all rows *)

(** [TableMeta::Read], on a new [TableMeta]. *)
Definition jni_TableMeta_Read (resultSet : Z) (e : ErrorInfo) : jop (TableMeta * ErrorInfo) :=
  let! (cat, e) := GetString_name resultSet (str "TABLE_CAT") None e in
  let! (schem, e) := GetString_name resultSet (str "TABLE_SCHEM") None e in
  let! (name, e) := GetString_name resultSet (str "TABLE_NAME") None e in
  let! (type_, e) := GetString_name resultSet (str "TABLE_TYPE") None e in
  let! (remarks, e) := GetString_name resultSet (str "REMARKS") None e in
  ret (MkTableMeta cat schem name type_ remarks, e).

(** [ReadTableMetaVector]; [None] when [fuel] rows are not all. *)
Fixpoint read_tables (fuel : nat) (resultSet : Z) (hasNext : bool) (meta : list TableMeta) (e : ErrorInfo)
  : jop (option (list TableMeta)) :=
  match fuel with
  | 0%nat => ret None
  | Datatypes.S k =>
      let! (hasNext, e) := ResultSet_Next resultSet hasNext e in
      if negb hasNext || negb (is_success e) then ret (Some meta)
      else
        let! (t, e) := jni_TableMeta_Read resultSet e in
        read_tables k resultSet hasNext (meta ++ [t])%list e
  end.
Definition jni_ReadTableMetaVector (fuel : nat) (resultSet : option Z) : jop (option (list TableMeta)) :=
  match resultSet with
  | None => ret (Some [])
  | Some resultSet => read_tables fuel resultSet false [] no_info
  end.

(** * DatabaseMetaData *)

Definition GetTables (databaseMetaData : Z) (catalog schemaPattern : option text) (tableNamePattern : text)
    (types : option (list text)) : ErrorInfo -> jop (option Z * ErrorInfo) :=
  new_object (DatabaseMetaDataGetTables databaseMetaData catalog schemaPattern tableNamePattern types 0).
Definition GetColumns (databaseMetaData : Z) (catalog schemaPattern : option text)
    (tableNamePattern columnNamePattern : text) : ErrorInfo -> jop (option Z * ErrorInfo) :=
  new_object (DatabaseMetaDataGetColumns databaseMetaData catalog schemaPattern tableNamePattern columnNamePattern 0).
Definition GetPrimaryKeys (databaseMetaData : Z) (catalog schema table : option text)
  : ErrorInfo -> jop (option Z * ErrorInfo) :=
  new_object (DatabaseMetaDataGetPrimaryKeys databaseMetaData catalog schema table 0).
Definition GetImportedKeys (databaseMetaData : Z) (catalog schema : option text) (table : text)
  : ErrorInfo -> jop (option Z * ErrorInfo) :=
  new_object (DatabaseMetaDataGetImportedKeys databaseMetaData catalog schema table 0).
Definition GetTypeInfo (databaseMetaData : Z) : ErrorInfo -> jop (option Z * ErrorInfo) :=
  new_object (DatabaseMetaDataGetTypeInfo databaseMetaData 0).

(** * DocumentDbConnection *)

Record DocumentDbConnection : Type := MkDocConnection { dc_jniContext : bool; dc_connection : Z }.

(** A call through the context; there is nothing behind an invalid one. *)
Definition through {A} (c : DocumentDbConnection) (k : jop A) : jop A :=
  if dc_jniContext c then k else undefined.

Definition connection_Close (e : ErrorInfo) (c : DocumentDbConnection) : jop (Z * ErrorInfo * DocumentDbConnection) :=
  if dc_connection c =? 0 then ret (DOCUMENTDB_JNI_ERR_SUCCESS, e, c)
  else through c (
    let! (_, e) := ConnectionClose (dc_connection c) e in
    let! p := assign_null (dc_connection c) in
    ret (ei_code e, e, MkDocConnection (dc_jniContext c) p)).

(** [Open], with the string [config.ToJdbcConnectionString()]. *)
Definition connection_Open (connectionString : text) (e : ErrorInfo) (c : DocumentDbConnection)
  : jop (Z * ErrorInfo * DocumentDbConnection) :=
  if negb (dc_jniContext c) then
    let e := MkInfo DOCUMENTDB_JNI_ERR_JVM_INIT (ei_cls e) (str "Unable to get initialized JVM.") in
    ret (ei_code e, e, c)
  else if negb (dc_connection c =? 0) then ret (DOCUMENTDB_JNI_ERR_SUCCESS, e, c)
  else
    scoped (
      let! (result, e) := DriverManagerGetConnection (c_str connectionString) 0 e in
      if is_success e then
        let! p := shared_copy result in
        shared_release (dc_connection c) ;;;
        ret (ei_code e, e, MkDocConnection (dc_jniContext c) p, result)
      else
        let! (_, c) := connection_Close no_info c in
        ret (ei_code e, e, c, result)).

Definition connection_destroy (c : DocumentDbConnection) : jop unit :=
  let! c := (if dc_jniContext c then let! (_, c) := connection_Close no_info c in ret c else ret c) in
  shared_release (dc_connection c).

(** No connection: no metadata, and here no error. *)
Definition connection_GetMetaData (c : DocumentDbConnection) (e : ErrorInfo) : jop (option Z * ErrorInfo) :=
  if dc_connection c =? 0 then ret (None, e)
  else through c (new_object (ConnectionGetMetaData (dc_connection c) 0) e).

Definition connection_IsSshTunnelActive (c : DocumentDbConnection) (isActive : bool) (e : ErrorInfo) : jop (bool * ErrorInfo) :=
  through c (DocumentDbConnectionIsSshTunnelActive (dc_connection c) isActive e).
Definition connection_GetSshLocalPort (c : DocumentDbConnection) (localPort : Z) (e : ErrorInfo) : jop (Z * ErrorInfo) :=
  through c (DocumentDbConnectionGetSshLocalPort (dc_connection c) localPort e).

Definition unset_connection : ErrorInfo := MkInfo DOCUMENTDB_JNI_ERR_GENERIC [] (str "Connection must be set.").
Definition connection_GetConnectionProperties (c : DocumentDbConnection) (e : ErrorInfo) : jop (option Z * ErrorInfo) :=
  if dc_connection c =? 0 then ret (None, unset_connection)
  else through c (new_object (DocumentDbConnectionGetConnectionProperties (dc_connection c) 0) e).
Definition connection_GetDatabaseMetadata (c : DocumentDbConnection) (e : ErrorInfo) : jop (option Z * ErrorInfo) :=
  if dc_connection c =? 0 then ret (None, unset_connection)
  else through c (new_object (DocumentDbConnectionGetDatabaseMetadata (dc_connection c) 0) e).

(** * DocumentDbQueryMappingService *)

Definition mapping_service_Create (connectionProperties databaseMetadata : option Z) (e : ErrorInfo)
  : jop (option Z * ErrorInfo) :=
  match connectionProperties, databaseMetadata with
  | Some p, Some m => new_object (DocumentDbQueryMappingServiceCtor p m 0) e
  | _, _ => ret (None, MkInfo DOCUMENTDB_JNI_ERR_GENERIC [] (str "Connection and metadata must be set."))
  end.

(** ** Lists *)

(** Steps that an error ends: [success = ...; if (success != SUCCESS) return false;]. *)
Definition jtry (A : Type) : Type := ErrorInfo -> jop (option A * ErrorInfo).
Definition try_bind {A B} (m : ErrorInfo -> jop (A * ErrorInfo)) (k : A -> jtry B) : jtry B := fun e =>
  let! (a, e) := m e in if is_success e then k a e else ret (None, e).
Definition try_ret {A} (a : A) : jtry A := fun e => ret (Some a, e).

(** The elements [index], [index + 1], ... of a Java list, each read by [f], which gives
    [None] to stop: whether all were read, and those that were. *)
Fixpoint read_elements {A} (n : nat) (f : Z -> jtry A) (sourceList index : Z) (acc : list A) (e : ErrorInfo)
  : jop (bool * list A * ErrorInfo) :=
  match n with
  | 0%nat => ret (true, acc, e)
  | Datatypes.S k =>
      let! (a, e) := scoped (
        let! (p, e) := ListGet sourceList index 0 e in
        let! (a, e) := (if is_success e then f p e else ret (None, e)) in
        ret (a, e, p)) in
      match a with
      | Some a => read_elements k f sourceList (index + 1) (acc ++ [a])%list e
      | None => ret (false, acc, e)
      end
  end.
Definition read_list {A} (f : Z -> jtry A) (sourceList : Z) (acc : list A) (e : ErrorInfo) : jop (bool * list A * ErrorInfo) :=
  let! (listSize, e) := ListSize sourceList 0 e in
  if is_success e then read_elements (Z.to_nat listSize) f sourceList 0 acc e else ret (false, acc, e).

(** [ReadListOfString], whose error is its own. *)
Definition read_string (p : Z) : jtry text := fun e =>
  let! (t, e) := JavaStringToCppString p e in ret (if is_success e then Some t else None, e).
Definition ReadListOfString (sourceList : Z) (targetList : list text) : jop (bool * list text) :=
  let! (ok, l, _) := read_list read_string sourceList targetList no_info in ret (ok, l).

(** [JdbcColumnMetadata], all of it. *)
Record JdbcColumn : Type := MkColumn {
  jn_ordinal : Z; jn_autoIncrement : bool; jn_caseSensitive : bool; jn_searchable : bool; jn_currency : bool;
  jn_nullable : Z; jn_signed : bool; jn_columnDisplaySize : Z; jn_columnLabel : option text;
  jn_columnName : option text; jn_schemaName : option text; jn_precision : Z; jn_scale : Z;
  jn_tableName : option text; jn_catalogName : option text; jn_columnType : Z; jn_columnTypeName : option text;
  jn_readOnly : bool; jn_writable : bool; jn_definitelyWritable : bool; jn_columnClassName : option text
}.

(** What the driver reads of it. *)
Definition jdbc_column (c : JdbcColumn) : JdbcColumnMetadata :=
  MkJdbcColumn (jn_catalogName c) (jn_schemaName c) (jn_tableName c) (jn_columnName c) (jn_columnType c)
    (jn_nullable c) (jn_ordinal c) (jn_autoIncrement c).

Definition read_column (p : Z) : jtry JdbcColumn :=
  try_bind (JdbcColumnMetadataGetOrdinal p 0) (fun ordinal =>
  try_bind (JdbcColumnMetadataIsAutoIncrement p false) (fun autoIncrement =>
  try_bind (JdbcColumnMetadataIsCaseSensitive p false) (fun caseSensitive =>
  try_bind (JdbcColumnMetadataIsSearchable p false) (fun searchable =>
  try_bind (JdbcColumnMetadataIsCurrency p false) (fun currency =>
  try_bind (JdbcColumnMetadataGetNullable p 0) (fun nullable =>
  try_bind (JdbcColumnMetadataIsSigned p false) (fun isSigned =>
  try_bind (JdbcColumnMetadataGetColumnDisplaySize p 0) (fun columnDisplaySize =>
  try_bind (JdbcColumnMetadataGetColumnLabel p None) (fun columnLabel =>
  try_bind (JdbcColumnMetadataGetColumnName p None) (fun columnName =>
  try_bind (JdbcColumnMetadataGetSchemaName p None) (fun schemaName =>
  try_bind (JdbcColumnMetadataGetPrecision p 0) (fun precision =>
  try_bind (JdbcColumnMetadataGetScale p 0) (fun scale =>
  try_bind (JdbcColumnMetadataGetTableName p None) (fun tableName =>
  try_bind (JdbcColumnMetadataGetCatalogName p None) (fun catalogName =>
  try_bind (JdbcColumnMetadataGetColumnType p 0) (fun columnType =>
  try_bind (JdbcColumnMetadataGetColumnTypeName p None) (fun columnTypeName =>
  try_bind (JdbcColumnMetadataIsReadOnly p false) (fun readOnly =>
  try_bind (JdbcColumnMetadataIsWritable p false) (fun writable =>
  try_bind (JdbcColumnMetadataIsDefinitelyWritable p false) (fun definitelyWritable =>
  try_bind (JdbcColumnMetadataGetColumnClassName p None) (fun columnClassName =>
  try_ret (MkColumn ordinal autoIncrement caseSensitive searchable currency nullable isSigned columnDisplaySize
    columnLabel columnName schemaName precision scale tableName catalogName columnType columnTypeName
    readOnly writable definitelyWritable columnClassName)))))))))))))))))))))).

Definition ReadJdbcColumnMetadata (columnMetadata : Z) (columnMetadataList : list JdbcColumn) (e : ErrorInfo)
  : jop (bool * list JdbcColumn * ErrorInfo) :=
  read_list read_column columnMetadata columnMetadataList e.

(** ** Contexts *)

(** A local pointer that [f] sets, and the rest of the scope, unless [f] failed. *)
Definition with_local {A} (f : ErrorInfo -> jop (Z * ErrorInfo)) (k : Z -> jtry A) : jtry A := fun e =>
  scoped (
    let! (p, e) := f e in
    let! (a, e) := (if is_success e then k p e else ret (None, e)) in
    ret (a, e, p)).

(** The lists go with the object that is dropped; no error is set when one of them cannot
    be read, and the columns are those read before the error. *)
Definition service_GetMqlQueryContext (queryMappingService : Z) (sql : text) (maxRowCount : Z) : jtry MqlQueryContext :=
  with_local (DocumentDbQueryMappingServiceGet queryMappingService sql maxRowCount 0) (fun mqlQueryContext =>
  try_bind (DocumentdbMqlQueryContextGetCollectionName mqlQueryContext []) (fun collectionName =>
  with_local (DocumentdbMqlQueryContextGetAggregateOperationsAsStrings mqlQueryContext 0) (fun aggregateOperations e =>
    let! (ok, operations) := ReadListOfString aggregateOperations [] in
    if negb ok then ret (None, e)
    else
      with_local (DocumentdbMqlQueryContextGetPaths mqlQueryContext 0) (fun paths e =>
        let! (ok, paths) := ReadListOfString paths [] in
        if negb ok then ret (None, e)
        else
          with_local (DocumentdbMqlQueryContextGetColumnMetadata mqlQueryContext 0) (fun columnMetadata e =>
            let! (_, columns, e) := ReadJdbcColumnMetadata columnMetadata [] e in
            ret (Some (MkMql operations (MkLayout (map jdbc_column columns) paths) collectionName), e)) e) e))).

End wrap.
