(* ===== verification/JniRules.v ===== *)
(** Rules for the calls into Java: what a sound state of the bridge is, what a call does
    to it, and what a method answers, seen from above the references; then rules for the
    operations of [JniContext]: what each answers, given what the method of Java answers,
    and what it leaves of the references and pointers. *)
From S2P Require Import Prelude Memory Utf8 Diag Config Interop Jni JniContext.

(** * The methods of the bridge *)

(** The type of a method's results, from its signature; a constructor gives the object. *)
Inductive jkind : Type := KObject | KInt | KLong | KBoolean | KVoid.
#[export] Instance jkind_eq_dec : EqDecision jkind.
Proof. solve_decision. Defined.

Fixpoint after_paren (s : string) : option Ascii.ascii :=
  match s with
  | String c t => if Ascii.eqb c ")"%char then match t with String d _ => Some d | EmptyString => None end
                  else after_paren t
  | EmptyString => None
  end.
Definition result_kind (m : JniMethod) : jkind :=
  if String.eqb (jm_name m) "<init>" then KObject
  else match after_paren (jm_sign m) with
       | Some c => if Ascii.eqb c "I"%char then KInt else if Ascii.eqb c "J"%char then KLong
                   else if Ascii.eqb c "Z"%char then KBoolean else if Ascii.eqb c "V"%char then KVoid else KObject
       | None => KVoid
       end.

Definition steps : list init_step := java_steps ++ member_steps.

(** The class and the description of a method, and its kind. *)
Fixpoint method_in (l : list init_step) (f : string) : option (string * JniMethod) :=
  match l with
  | IMethod g c m :: t => if String.eqb f g then Some (c, m) else method_in t f
  | IClass _ _ :: t => method_in t f
  | [] => None
  end.
Definition method_of : string -> option (string * JniMethod) := method_in steps.
Definition kind_of (f : string) : option jkind := result_kind ∘ snd <$> method_of f.
Definition is_class (f : string) : bool :=
  existsb (fun st => match st with IClass g _ => String.eqb f g | IMethod _ _ _ => false end) steps.

(** What the JNI documents: a method answers what its signature says. *)
Class JvmTyped (J O : Type) `{Jvm J O} : Prop :=
  typed : forall cls m v id o args v',
    (method_id cls m v).1 = inl id ->
    match (invoke id o args v').1 with
    | inl (VObject _) => result_kind m = KObject
    | inl (VInt _) => result_kind m = KInt
    | inl (VLong _) => result_kind m = KLong
    | inl (VBoolean _) => result_kind m = KBoolean
    | inl VVoid => result_kind m = KVoid
    | inr _ => True
    end.

Section calls.
Context {J O : Type} `{Jvm J O}.
Abbreviation jop := (op (jenv J O)).

(** * Operations that end *)

Definition wp {A} (m : jop A) (s : jenv J O) (Q : A -> jenv J O -> Prop) : Prop :=
  match m s with Ok (a, s') => Q a s' | _ => False end.

Lemma wp_ret {A} (a : A) s (Q : A -> jenv J O -> Prop) : Q a s -> wp (ret a) s Q.
Proof. done. Qed.
Lemma wp_bind {A B} (m : jop A) (k : A -> jop B) s Q :
  wp m s (fun a s1 => wp (k a) s1 Q) -> wp (bind m k) s Q.
Proof. unfold wp, bind. by destruct (m s) as [[a s1]| |]. Qed.
Lemma wp_mono {A} (m : jop A) s (P Q : A -> jenv J O -> Prop) :
  wp m s P -> (forall a s', P a s' -> Q a s') -> wp m s Q.
Proof. unfold wp. destruct (m s) as [[a s1]| |]; auto. Qed.
Lemma wp_gets {A} (f : jenv J O -> A) s (Q : A -> jenv J O -> Prop) : Q (f s) s -> wp (gets f) s Q.
Proof. done. Qed.
Lemma wp_ok {A} (m : jop A) s (Q : A -> jenv J O -> Prop) : wp m s Q <-> exists a s', m s = Ok (a, s') /\ Q a s'.
Proof.
  unfold wp. split.
  - destruct (m s) as [[a s1]| |]; [eauto|done|done].
  - by intros (a & s' & -> & HQ).
Qed.

(** * States *)

Definition id_of (s : jenv J O) (f : string) : Z := default 0 (j_members s !! f).

(** What a reference, and what a pointer, leads to. *)
Definition object_at (s : jenv J O) (r : Z) : option O := fst <$> j_refs s !! r.
Definition pointee (s : jenv J O) (p : Z) : option O := j_shared s !! p ≫= fun x => object_at s x.1.

(** All is found; every global reference is that of one [GlobalJObject] or of one class. *)
Record sound (s : jenv J O) : Prop := {
  so_next : 0 < j_next s;
  so_refs : forall r x, j_refs s !! r = Some x -> 0 < r < j_next s;
  so_pointers : forall p x, j_shared s !! p = Some x -> 0 < p < j_next s;
  so_class : forall f, is_class f = true -> exists o, j_refs s !! id_of s f = Some (o, true);
  so_method : forall f c m, method_of f = Some (c, m) ->
    exists cls v, (method_id cls m v).1 = inl (id_of s f) /\ id_of s f <> 0;
  so_utils : id_of s "c_PlatformUtils" = 0;
  so_shared : forall p ref n, j_shared s !! p = Some (ref, n) -> exists o, j_refs s !! ref = Some (o, true);
  so_own : forall p q ref m n, j_shared s !! p = Some (ref, m) -> j_shared s !! q = Some (ref, n) -> p = q;
  so_own_class : forall p f n, is_class f = true -> j_shared s !! p <> Some (id_of s f, n);
  so_global : forall r o, j_refs s !! r = Some (o, true) ->
    (exists p n, j_shared s !! p = Some (r, n)) \/ (exists f, is_class f = true /\ id_of s f = r)
}.

(** A state from which the JNI may be called. *)
Definition ready (s : jenv J O) : Prop := sound s /\ j_pending s = None.

(** No pointer changes, and no reference but for new local ones. *)
Record calm (s s' : jenv J O) : Prop := {
  ca_members : j_members s' = j_members s;
  ca_print : j_print s' = j_print s;
  ca_jvm : j_jvm s' = j_jvm s;
  ca_shared : j_shared s' = j_shared s;
  ca_next : j_next s <= j_next s';
  ca_old : forall r, r < j_next s -> j_refs s' !! r = j_refs s !! r;
  ca_new : forall r x, j_next s <= r -> j_refs s' !! r = Some x ->
    (x.2 = false /\ r < j_next s') \/ j_refs s !! r = Some x
}.

#[export] Instance calm_refl : Reflexive calm.
Proof. intros s. split; auto. lia. Qed.
#[export] Instance calm_trans : Transitive calm.
Proof.
  intros s1 s2 s3 H1 H2. destruct H1 as [m1 p1 v1 h1 n1 o1 w1], H2 as [m2 p2 v2 h2 n2 o2 w2].
  split; [congruence..|lia| |].
  - intros r Hr. rewrite o2 by lia. auto.
  - intros r x Hr Hx. destruct (decide (r < j_next s2)) as [Hlt|Hge].
    + rewrite o2 in Hx by done. destruct (w1 r x Hr Hx) as [[? ?]|?]; [left; split; [done|]; lia|auto].
    + destruct (w2 r x ltac:(lia) Hx) as [?|Hx1]; [auto|].
      destruct (w1 r x Hr Hx1) as [[? ?]|?]; [left; split; [done|]; lia|auto].
Qed.

Lemma calm_id_of s s' f : calm s s' -> id_of s' f = id_of s f.
Proof. intros Hc. unfold id_of. by rewrite (ca_members _ _ Hc). Qed.

Lemma calm_global s s' r o : sound s -> calm s s' -> j_refs s' !! r = Some (o, true) <-> j_refs s !! r = Some (o, true).
Proof.
  intros Hs Hc. destruct (decide (r < j_next s)) as [Hlt|Hge]; [by rewrite (ca_old _ _ Hc)|].
  split; intros Hr.
  - destruct (ca_new _ _ Hc r _ ltac:(lia) Hr) as [[? _]|?]; [done|done].
  - apply (so_refs _ Hs) in Hr. lia.
Qed.

Lemma calm_object s s' r o : sound s -> calm s s' -> object_at s r = Some o -> object_at s' r = Some o.
Proof.
  intros Hs Hc. unfold object_at. destruct (j_refs s !! r) as [[o' g]|] eqn:Hr; [|done].
  rewrite (ca_old _ _ Hc), Hr; [done|]. apply (so_refs _ Hs) in Hr. lia.
Qed.

Lemma sound_calm s s' : sound s -> calm s s' -> sound s'.
Proof.
  intros Hs Hc. pose proof (ca_next _ _ Hc) as Hn. split.
  - pose proof (so_next _ Hs). lia.
  - intros r x Hx. destruct (decide (r < j_next s)) as [Hlt|Hge].
    + rewrite (ca_old _ _ Hc) in Hx by done. apply (so_refs _ Hs) in Hx. lia.
    + destruct (ca_new _ _ Hc r x ltac:(lia) Hx) as [[_ ?]|Hx']; [pose proof (so_next _ Hs); lia|].
      apply (so_refs _ Hs) in Hx'. lia.
  - intros p x. rewrite (ca_shared _ _ Hc). intros Hx%(so_pointers _ Hs). lia.
  - intros f Hf. rewrite (calm_id_of _ _ _ Hc). destruct (so_class _ Hs f Hf) as [o Ho]. exists o.
    by apply (calm_global s s').
  - intros f c m Hf. rewrite (calm_id_of _ _ _ Hc). by apply (so_method _ Hs f c m).
  - rewrite (calm_id_of _ _ _ Hc). apply Hs.
  - intros p ref n. rewrite (ca_shared _ _ Hc). intros [o Ho]%(so_shared _ Hs). exists o. by apply (calm_global s s').
  - intros p q ref m n. rewrite (ca_shared _ _ Hc). apply (so_own _ Hs).
  - intros p f n Hf. rewrite (ca_shared _ _ Hc), (calm_id_of _ _ _ Hc). by apply (so_own_class _ Hs).
  - intros r o Hr. rewrite (ca_shared _ _ Hc). apply (calm_global s s') in Hr; [|done..].
    destruct (so_global _ Hs r o Hr) as [?|(f & Hf & <-)]; [auto|]. right. exists f.
    by rewrite (calm_id_of _ _ _ Hc).
Qed.

Lemma calm_pointee s s' p : sound s -> calm s s' -> pointee s' p = pointee s p.
Proof.
  intros Hs Hc. unfold pointee. rewrite (ca_shared _ _ Hc).
  destruct (j_shared s !! p) as [[ref n]|] eqn:Hp; [|done]. cbn.
  destruct (so_shared _ Hs p ref n Hp) as [o Ho]. unfold object_at.
  rewrite Ho. by apply (calm_global s s') in Ho as ->.
Qed.

(** ** What leaves references and pointers alone *)

Lemma calm_same (s s' : jenv J O) :
  j_refs s' = j_refs s -> j_shared s' = j_shared s -> j_next s' = j_next s -> j_members s' = j_members s ->
  j_print s' = j_print s -> j_jvm s' = j_jvm s -> calm s s'.
Proof. intros Hr Hs Hn Hm Hp Hj. split; rewrite ?Hr, ?Hs, ?Hn; auto. lia. Qed.

Lemma calm_set_vm v s : calm s (j_set_vm v s).
Proof. by apply calm_same. Qed.
Lemma calm_set_pending p s : calm s (j_set_pending p s).
Proof. by apply calm_same. Qed.
Lemma calm_java v p s : calm s (j_set_pending p (j_set_vm v s)).
Proof. by apply calm_same. Qed.

(** The state the rules hand on: the machine, and what is pending. *)
Definition after (s s' : jenv J O) (v : J) (p : option O) : Prop := calm s s' /\ j_vm s' = v /\ j_pending s' = p.

Lemma after_trans s1 s2 s3 v p w q : after s1 s2 v p -> after s2 s3 w q -> after s1 s3 w q.
Proof. intros (H1 & _) (H2 & ? & ?). split; [by transitivity s2|done]. Qed.
Lemma after_self s : after s s (j_vm s) (j_pending s).
Proof. split; [reflexivity|done]. Qed.

(** ** References *)

Definition local_at (s : jenv J O) (r : Z) (o : O) : Prop := r <> 0 /\ j_refs s !! r = Some (o, false).

Lemma local_object s r o : local_at s r o -> object_at s r = Some o.
Proof. intros [_ Hr]. unfold object_at. by rewrite Hr. Qed.

(** New references are not in use. *)
Definition fresh (s : jenv J O) : Prop := 0 < j_next s /\ forall r x, j_refs s !! r = Some x -> 0 < r < j_next s.
Lemma sound_fresh s : sound s -> fresh s.
Proof. intros Hs. split; apply Hs. Qed.

Lemma fresh_local_rule o s :
  fresh s -> wp (new_local o) s (fun r s' => after s s' (j_vm s) (j_pending s)
    /\ match o with Some x => local_at s' r x /\ j_next s <= r | None => r = 0 end).
Proof.
  intros [Hn Hs]. destruct o as [x|]; cbn; [|by split; [apply after_self|]].
  assert (Hfresh : j_refs s !! j_next s = None).
  { destruct (j_refs s !! j_next s) as [y|] eqn:Hy; [|done]. apply Hs in Hy. lia. }
  split; [split; [split; cbn; auto; [lia| |]|done]|].
  - intros r Hr. apply lookup_insert_ne. lia.
  - intros r y Hr. destruct (decide (r = j_next s)) as [->|Hne].
    + rewrite lookup_insert_eq. intros [= <-]. left. split; [done|lia].
    + rewrite lookup_insert_ne by done. auto.
  - split; [|lia]. split; [lia|]. cbn. apply lookup_insert_eq.
Qed.

Lemma new_local_rule o s :
  sound s -> wp (new_local o) s (fun r s' => after s s' (j_vm s) (j_pending s)
    /\ match o with Some x => local_at s' r x /\ j_next s <= r | None => r = 0 end).
Proof. intros Hs. by apply fresh_local_rule, sound_fresh. Qed.

Lemma fresh_calm s s' : fresh s -> calm s s' -> fresh s'.
Proof.
  intros [Hn Hf] Hc. pose proof (ca_next _ _ Hc). split; [lia|]. intros r x Hx.
  destruct (decide (r < j_next s)) as [Hlt|Hge].
  - rewrite (ca_old _ _ Hc) in Hx by done. apply Hf in Hx. lia.
  - destruct (ca_new _ _ Hc r x ltac:(lia) Hx) as [[_ ?]|Hx']; [lia|]. apply Hf in Hx'. lia.
Qed.

(** A local reference of one's own, or null, is deleted. *)
Definition own (s0 s : jenv J O) (r : Z) : Prop := r = 0 \/ (j_next s0 <= r /\ exists o, local_at s r o).

Lemma delete_rule s0 s r :
  calm s0 s -> own s0 s r ->
  wp (DeleteLocalRef r) s (fun _ s' => after s0 s' (j_vm s) (j_pending s)
    /\ forall r', r' <> r -> j_refs s' !! r' = j_refs s !! r').
Proof.
  intros Hc Hown. unfold DeleteLocalRef, delete_ref. destruct Hown as [->|(Hge & o & Hne & Hr)]; [done|].
  unfold wp. destruct (Z.eqb_spec r 0); [done|]. rewrite Hr. cbn.
  split; [|by intros r' Hr'; rewrite lookup_delete_ne].
  split; [|done]. destruct Hc as [? ? ? ? ? Hold Hnew]. split; auto.
  - intros r' Hr'. cbn. rewrite lookup_delete_ne by lia. auto.
  - intros r' x Hr' Hx. cbn in *. apply lookup_delete_Some in Hx as [_ Hx]. auto.
Qed.

(** ** Calls *)

Section typed.
Context `{!JvmTyped J O}.

Lemma method_id_of s f k :
  sound s -> kind_of f = Some k -> exists m cls v, result_kind m = k /\ (method_id cls m v).1 = inl (id_of s f) /\ id_of s f <> 0.
Proof.
  intros Hs. unfold kind_of. destruct (method_of f) as [[c m]|] eqn:Hm; [|done]. intros [= <-].
  destruct (so_method _ Hs f c m Hm) as (cls & v & Hid & Hne). by exists m, cls, v.
Qed.

Lemma call_rule s f k r o args dflt :
  ready s -> kind_of f = Some k -> object_at s r = Some o ->
  wp (call (id_of s f) r args dflt) s (fun x s' =>
    match invoke (id_of s f) o args (j_vm s) with
    | (inl y, v) => after s s' v None /\ x = y
    | (inr t, v) => after s s' v (Some t) /\ x = dflt
    end).
Proof.
  intros [Hs Hidle] Hk Ho. destruct (method_id_of s f k Hs Hk) as (m & cls & v & _ & _ & Hid).
  unfold call, idle. apply wp_bind. unfold wp at 1. rewrite Hidle.
  unfold object_at in Ho. destruct (j_refs s !! r) as [[o' g]|] eqn:Hr; [|done]. injection Ho as ->.
  destruct (Z.eqb_spec (id_of s f) 0); [done|].
  destruct (Z.eqb_spec r 0) as [->|_]; [by apply (so_refs _ Hs) in Hr as [? _]|]. cbn [orb].
  apply wp_bind. unfold deref, wp at 1. rewrite Hr. unfold in_java, wp.
  destruct (invoke _ o args (j_vm s)) as [[y|t] w]; (split; [|done]).
  - split; [apply calm_set_vm|done].
  - split; [apply calm_java|done].
Qed.

(** The answers of a call, by kind; an exception is pending behind the last. *)
Ltac typed_answer s f Hs Hk :=
  let m := fresh "m" in let cls := fresh "cls" in let v := fresh "v" in let Hm := fresh "Hm" in let Hid := fresh "Hid" in
  destruct (method_id_of s f _ Hs Hk) as (m & cls & v & Hm & Hid & _);
  match goal with
  | |- context [invoke ?i ?o ?args ?w] =>
      pose proof (typed cls m v i o args w Hid) as Hty; destruct (invoke i o args w) as [[y|t] w'];
      [destruct y; cbn in Hty; try congruence|]
  end.

Lemma CallObject_rule s f r o args :
  ready s -> kind_of f = Some KObject -> object_at s r = Some o ->
  wp (CallObjectMethod r (id_of s f) args) s (fun x s' =>
    match invoke (id_of s f) o args (j_vm s) with
    | (inl (VObject (Some y)), v) => after s s' v None /\ local_at s' x y /\ j_next s <= x
    | (inl (VObject None), v) => after s s' v None /\ x = 0
    | (inr t, v) => after s s' v (Some t) /\ x = 0
    | _ => False
    end).
Proof.
  intros Hr Hk Ho. unfold CallObjectMethod. apply wp_bind.
  eapply wp_mono; [by apply (call_rule s f KObject r o args)|]. intros x s1.
  destruct Hr as [Hs Hidle]. typed_answer s f Hs Hk; intros [Ha ->].
  - eapply wp_mono; [apply new_local_rule, (sound_calm s); [done|apply Ha]|]. intros r' s' [Ha' Hl].
    destruct Ha as (Hc & <- & Hp). rewrite Hp in Ha'.
    assert (after s s' (j_vm s1) None) by (eapply after_trans; [split; [exact Hc|done]|exact Ha']).
    destruct o0; [|done]. split; [done|]. split; [apply Hl|]. pose proof (ca_next _ _ Hc). lia.
  - cbn. done.
Qed.

Lemma CallBoolean_rule s f r o args :
  ready s -> kind_of f = Some KBoolean -> object_at s r = Some o ->
  wp (CallBooleanMethod r (id_of s f) args) s (fun x s' =>
    match invoke (id_of s f) o args (j_vm s) with
    | (inl (VBoolean y), v) => after s s' v None /\ x = y
    | (inr t, v) => after s s' v (Some t) /\ x = false
    | _ => False
    end).
Proof.
  intros Hr Hk Ho. apply wp_bind. eapply wp_mono; [by apply (call_rule s f KBoolean r o args)|]. intros x s1.
  destruct Hr as [Hs _]. typed_answer s f Hs Hk; by intros [Ha ->].
Qed.

Lemma CallInt_rule s f r o args :
  ready s -> kind_of f = Some KInt -> object_at s r = Some o ->
  wp (CallIntMethod r (id_of s f) args) s (fun x s' =>
    match invoke (id_of s f) o args (j_vm s) with
    | (inl (VInt y), v) => after s s' v None /\ x = y
    | (inr t, v) => after s s' v (Some t) /\ x = 0
    | _ => False
    end).
Proof.
  intros Hr Hk Ho. apply wp_bind. eapply wp_mono; [by apply (call_rule s f KInt r o args)|]. intros x s1.
  destruct Hr as [Hs _]. typed_answer s f Hs Hk; by intros [Ha ->].
Qed.

Lemma CallVoid_rule s f r o args :
  ready s -> kind_of f = Some KVoid -> object_at s r = Some o ->
  wp (CallVoidMethod r (id_of s f) args) s (fun _ s' =>
    match invoke (id_of s f) o args (j_vm s) with
    | (inl _, v) => after s s' v None
    | (inr t, v) => after s s' v (Some t)
    end).
Proof.
  intros Hr Hk Ho. apply wp_bind. eapply wp_mono; [by apply (call_rule s f KVoid r o args)|]. intros x s1.
  destruct Hr as [Hs _]. typed_answer s f Hs Hk; by intros [Ha ->].
Qed.

(** ** Texts, attaching and exceptions *)

Definition answer_text (a : jvalue O + O) : text :=
  match a with inl (VObject (Some o)) => c_str (mutf8 (string_units o)) | _ => [] end.

(** Class and message of an exception, as its methods give them. *)
Definition describe_in (s : jenv J O) (t : O) (v : J) : ErrorInfo * J :=
  let (n, v) := invoke (id_of s "m_Class_getName") (class_of t) [] v in
  let (m, v) := invoke (id_of s "m_Throwable_getMessage") t [] v in
  (MkInfo DOCUMENTDB_JNI_ERR_GENERIC (answer_text n) (answer_text m), v).

(** Nothing is printed, and the methods that describe exceptions do not throw. *)
Definition polite (s : jenv J O) : Prop :=
  j_print s = false
  /\ forall f o v, f = "m_Class_getName" \/ f = "m_Throwable_getMessage" ->
     exists y, (invoke (id_of s f) o [] v).1 = inl y.

Lemma polite_calm s s' : calm s s' -> polite s -> polite s'.
Proof.
  intros Hc [Hp Hf]. split; [by rewrite (ca_print _ _ Hc)|].
  intros f o v Hin. rewrite (calm_id_of _ _ _ Hc). by apply Hf.
Qed.

Lemma wp_member f s Q : Q (id_of s f) s -> wp (member f) s Q.
Proof. done. Qed.

Lemma GetStringUTFChars_rule s r o :
  j_pending s = None -> object_at s r = Some o ->
  wp (GetStringUTFChars r) s (fun t s' => s' = s /\ t = mutf8 (string_units o)).
Proof.
  intros Hp Ho. unfold GetStringUTFChars, idle, deref, bind, wp. rewrite Hp.
  unfold object_at in Ho. destruct (j_refs s !! r) as [[o' g]|] eqn:Hr; [|done]. injection Ho as ->. cbn. by rewrite Hr.
Qed.

Lemma StringToChars_rule s r o :
  j_pending s = None -> r <> 0 -> object_at s r = Some o ->
  wp (StringToChars r) s (fun t s' => s' = s /\ t = Some (c_str (mutf8 (string_units o)))).
Proof.
  intros Hp Hr Ho. unfold StringToChars. destruct (Z.eqb_spec r 0); [done|].
  apply wp_bind. eapply wp_mono; [by apply (GetStringUTFChars_rule s r o)|]. by intros t s' [-> ->].
Qed.

Lemma JavaStringToCString_rule s r y :
  j_pending s = None -> match y with Some o => r <> 0 /\ object_at s r = Some o | None => r = 0 end ->
  wp (JavaStringToCString r) s (fun t s' => s' = s /\ t = answer_text (inl (VObject y))).
Proof.
  intros Hp Hy. apply wp_bind. destruct y as [o|].
  - destruct Hy. eapply wp_mono; [by apply (StringToChars_rule s r o)|]. by intros t s' [-> ->].
  - by subst r.
Qed.

(** A getter of texts that does not throw: the reference stays until the text is read. *)
Lemma text_call_rule s f r o :
  ready s -> kind_of f = Some KObject -> object_at s r = Some o ->
  (exists y, (invoke (id_of s f) o [] (j_vm s)).1 = inl y) ->
  wp (CallObjectMethod r (id_of s f) []) s (fun x s' =>
    after s s' (invoke (id_of s f) o [] (j_vm s)).2 None
    /\ exists y, (invoke (id_of s f) o [] (j_vm s)).1 = inl (VObject y)
       /\ match y with Some z => local_at s' x z /\ j_next s <= x | None => x = 0 end).
Proof.
  intros Hr Hk Ho [y Hy]. eapply wp_mono; [by apply (CallObject_rule s f r o)|]. intros x s'.
  destruct (invoke (id_of s f) o [] (j_vm s)) as [[z|t] v]; [|done]. cbn.
  destruct z as [[z|]| | | |]; try done; intros [Ha Hx]; (split; [exact Ha|]); eauto.
Qed.

Lemma describe_rule s err t :
  ready s -> polite s -> object_at s err = Some t ->
  wp (describe err) s (fun r s' =>
    let (e, v) := describe_in s t (j_vm s) in after s s' v None /\ r = (ei_cls e, ei_msg e)).
Proof.
  intros [Hs Hp] Hpol Ht. unfold describe.
  apply wp_bind. unfold GetObjectClass, idle, deref. apply wp_bind. unfold wp at 1. rewrite Hp.
  apply wp_bind. unfold wp at 1. pose proof Ht as Ht'. unfold object_at in Ht'.
  destruct (j_refs s !! err) as [[t' g]|]; [|done]. injection Ht' as ->.
  eapply wp_mono; [apply (new_local_rule (Some (class_of t)) s Hs)|]. intros cls s1 [Ha1 [Hcls Hge1]].
  rewrite Hp in Ha1. destruct Ha1 as (Hc1 & Hv1 & Hp1). pose proof (sound_calm _ _ Hs Hc1) as Hs1.
  apply wp_bind, wp_member, wp_bind.
  eapply wp_mono; [apply (text_call_rule s1 _ cls (class_of t)); [done|reflexivity|by apply local_object|]|].
  { apply (polite_calm _ _ Hc1 Hpol). by left. }
  intros n s2 [(Hc2 & Hv2 & Hp2) (yn & Hyn & Hn)]. pose proof (sound_calm _ _ Hs1 Hc2) as Hs2.
  assert (Hc02 : calm s s2) by (by transitivity s1).
  apply wp_bind, wp_member, wp_bind.
  eapply wp_mono; [apply (text_call_rule s2 _ err t); [done|reflexivity|by apply (calm_object s)|]|].
  { apply (polite_calm _ _ Hc02 Hpol). by right. }
  intros m s3 [(Hc3 & Hv3 & Hp3) (ym & Hym & Hm)].
  assert (Hc03 : calm s s3) by (by transitivity s2).
  apply wp_bind, wp_member, wp_bind, wp_member, wp_bind.
  rewrite (so_utils s3) by (by apply (sound_calm s2)). cbn [Z.eqb negb andb].
  apply wp_ret, wp_bind.
  assert (Hcls3 : local_at s3 cls (class_of t)).
  { destruct Hcls as [Hne Hcls]. split; [done|]. rewrite (ca_old _ _ Hc3), (ca_old _ _ Hc2); [done|..].
    - by apply (so_refs _ Hs1) in Hcls as [_ ?].
    - apply (so_refs _ Hs1) in Hcls as [_ ?]. pose proof (ca_next _ _ Hc2). lia. }
  eapply wp_mono; [apply (delete_rule s s3 cls Hc03); right; split; [done|by eexists]|].
  intros [] s4 [(Hc4 & Hv4 & Hp4) Hkeep].
  apply wp_bind. eapply wp_mono; [apply (JavaStringToCString_rule s4 n yn)|].
  { by rewrite Hp4. }
  { destruct yn as [z|]; [|done]. destruct Hn as [[Hn0 Hn] Hge]. split; [done|]. unfold object_at.
    rewrite Hkeep, (ca_old _ _ Hc3), Hn; [done|..].
    - by apply (so_refs _ Hs2) in Hn as [_ ?].
    - intros ->. destruct Hcls as [_ Hx]. apply (so_refs _ Hs1) in Hx. lia. }
  intros ? s5 [-> ->]. apply wp_bind. eapply wp_mono; [apply (JavaStringToCString_rule s4 m ym)|].
  { by rewrite Hp4. }
  { destruct ym as [z|]; [|done]. destruct Hm as [[Hm0 Hm] Hge]. split; [done|]. unfold object_at.
    rewrite Hkeep, Hm; [done|].
    intros ->. destruct Hcls as [_ Hx]. apply (so_refs _ Hs1) in Hx. pose proof (ca_next _ _ Hc2). lia. }
  intros ? s6 [-> ->]. apply wp_ret. unfold describe_in.
  rewrite (calm_id_of _ _ _ Hc1), Hv1 in Hyn, Hv2. rewrite (calm_id_of _ _ _ Hc02), Hv2 in Hym, Hv3.
  destruct (invoke _ (class_of t) [] (j_vm s)) as [an vn]. cbn in Hyn, Hv2, Hym, Hv3. subst an.
  destruct (invoke _ t [] vn) as [am vm]. cbn in *. subst am.
  split; [|done]. split; [done|]. split; congruence.
Qed.

Lemma ExceptionCheck_rule s :
  sound s -> polite s ->
  wp ExceptionCheck s (fun e s' =>
    match j_pending s with
    | None => s' = s /\ e = no_info
    | Some t => let (e', v) := describe_in s t (j_vm s) in after s s' v None /\ e = e'
    end).
Proof.
  intros Hs Hpol. unfold ExceptionCheck, wp at 1. destruct (j_pending s) as [t|] eqn:Hp; [|done].
  match goal with |- context [match ?m s with _ => _ end] => change (wp m s (fun e s' =>
    let (e', v) := describe_in s t (j_vm s) in after s s' v None /\ e = e')) end.
  apply wp_bind. match goal with |- wp _ s ?Q => change (wp (new_local (j_pending s)) s Q) end. rewrite Hp.
  eapply wp_mono; [apply (new_local_rule (Some t) s Hs)|]. intros err s1 [(Hc1 & Hv1 & Hp1) [Herr Hge]].
  apply wp_bind, wp_gets. rewrite (ca_print _ _ Hc1), (proj1 Hpol). apply wp_bind, wp_ret, wp_bind.
  unfold ExceptionClear, modify, wp at 1. set (s2 := j_set_pending None s1).
  assert (Hc2 : calm s s2) by (etransitivity; [exact Hc1|apply calm_set_pending]).
  apply wp_bind. eapply wp_mono; [apply (describe_rule s2 err t)|].
  { split; [by apply (sound_calm s)|done]. }
  { by apply (polite_calm s). }
  { by apply (local_object s1). }
  intros r s3 Hd. unfold describe_in in Hd |- *. rewrite !(calm_id_of _ _ _ Hc2) in Hd.
  cbn [s2 j_vm j_set_pending] in Hd. rewrite Hv1 in Hd.
  destruct (invoke _ (class_of t) [] (j_vm s)) as [an vn]. destruct (invoke _ t [] vn) as [am vm].
  destruct Hd as [(Hc3 & Hv3 & Hp3) ->]. cbn [ei_cls ei_msg].
  assert (Hc03 : calm s s3) by (by transitivity s2).
  apply wp_bind, wp_member, wp_bind, wp_member, wp_bind.
  rewrite (so_utils s3) by (by apply (sound_calm s)). apply wp_ret, wp_bind. unfold notify, modify, wp at 1.
  set (s4 := if j_handler s3 then _ else s3).
  assert (Hs4 : after s3 s4 vm None).
  { unfold s4. destruct (j_handler s3); (split; [|done]); [by apply calm_same|reflexivity]. }
  destruct Hs4 as (Hc4 & Hv4 & Hp4). apply wp_bind.
  eapply wp_mono; [apply (delete_rule s s4 err)|].
  { by transitivity s3. }
  { right. split; [done|]. exists t. destruct Herr as [Hne Herr]. split; [done|].
    pose proof (so_refs _ (sound_calm _ _ Hs Hc1) _ _ Herr) as Hlt.
    rewrite (ca_old _ _ Hc4), (ca_old _ _ Hc3); [done|cbn; lia|]. pose proof (ca_next _ _ Hc3) as Hn. cbn in Hn. lia. }
  intros [] s5 [(Hc5 & Hv5 & Hp5) _]. apply wp_ret. split; [|done]. split; [done|]. split; congruence.
Qed.

End typed.
End calls.

Section rules.
Context {J O : Type} `{Jvm J O} `{!JvmTyped J O}.
Abbreviation jop := (op (jenv J O)).

(** * A method, seen from the operation that calls it *)

(** The answer, or the description of the exception. *)
Definition java_call (s : jenv J O) (f : string) (o : O) (args : list (jvalue O)) (v : J) : (jvalue O + ErrorInfo) * J :=
  match invoke (id_of s f) o args v with
  | (inl y, v) => (inl y, v)
  | (inr t, v) => let (e, v) := describe_in s t v in (inr e, v)
  end.

Definition attach_info (e : ErrorInfo) (res : Z) : ErrorInfo :=
  if res =? JNI_OK then MkInfo DOCUMENTDB_JNI_ERR_SUCCESS (ei_cls e) (ei_msg e)
  else MkInfo DOCUMENTDB_JNI_ERR_JVM_ATTACH (ei_cls e) (str "Failed to connect to JVM").

(** With the attaching in front. *)
Definition bridged (s : jenv J O) (e : ErrorInfo) (f : string) (o : O) (args : list (jvalue O)) : (jvalue O + ErrorInfo) * J :=
  let (res, v) := attach_thread (j_vm s) in
  if res =? JNI_OK then java_call s f o args v else (inr (attach_info e res), v).

Lemma java_call_calm s s' f o args v : calm s s' -> java_call s' f o args v = java_call s f o args v.
Proof. intros Hc. unfold java_call, describe_in. by rewrite !(calm_id_of _ _ _ Hc). Qed.

Lemma described_failed s t v : is_success (describe_in s t v).1 = false.
Proof. unfold describe_in. destruct (invoke _ _ _ v) as [n v1]. by destruct (invoke _ _ _ v1). Qed.

Lemma ready_after s s' v : ready s -> after s s' v None -> ready s'.
Proof. intros [Hs _] (Hc & _ & Hp). split; [by apply (sound_calm s)|done]. Qed.

(** * Frames *)

Lemma Attach_rule e s :
  sound s -> wp (Attach e) s (fun e' s' =>
    let (res, v) := attach_thread (j_vm s) in after s s' v (j_pending s) /\ e' = attach_info e res).
Proof.
  intros Hs. unfold Attach, attach_info, wp. destruct (attach_thread (j_vm s)) as [res v].
  destruct (res =? JNI_OK); cbn.
  - split; [|done]. split; [apply calm_set_vm|done].
  - split; [|done]. destruct (j_handler _); (split; [by apply calm_same|done]).
Qed.

Lemma GetRef_rule p s o :
  sound s -> pointee s p = Some o -> wp (GetRef p) s (fun r s' => s' = s /\ object_at s r = Some o) /\ p <> 0.
Proof.
  intros Hs. unfold pointee. destruct (j_shared s !! p) as [[ref n]|] eqn:Hp; [|done]. cbn. intros Ho. split.
  - unfold GetRef, wp. by rewrite Hp.
  - apply (so_pointers _ Hs) in Hp. lia.
Qed.

Lemma attached_rule {A} e (dflt : A) k s Q :
  ready s ->
  (forall v s', attach_thread (j_vm s) = (JNI_OK, v) -> after s s' v None -> wp k s' Q) ->
  (forall res v s', attach_thread (j_vm s) = (res, v) -> res <> JNI_OK -> after s s' v None ->
     Q (dflt, attach_info e res) s') ->
  wp (attached e dflt k) s Q.
Proof.
  intros [Hs Hp] Hk Hf. apply wp_bind. eapply wp_mono; [by apply Attach_rule|]. intros e' s'.
  destruct (attach_thread (j_vm s)) as [res v]. intros [Ha ->]. rewrite Hp in Ha.
  destruct (Z.eqb_spec res JNI_OK) as [->|Hne].
  - by apply (Hk v).
  - assert (Hfail : is_success (attach_info e res) = false).
    { unfold attach_info. by destruct (Z.eqb_spec res JNI_OK). }
    rewrite Hfail. apply wp_ret. by apply (Hf res v).
Qed.

(** The object is there, or the operation says that it must be set. *)
Lemma with_object_rule {A} p msg e (dflt : A) k s o Q :
  ready s -> pointee s p = Some o ->
  (forall v s' r, attach_thread (j_vm s) = (JNI_OK, v) -> after s s' v None -> object_at s' r = Some o -> wp (k r) s' Q) ->
  (forall res v s', attach_thread (j_vm s) = (res, v) -> res <> JNI_OK -> after s s' v None ->
     Q (dflt, attach_info e res) s') ->
  wp (with_object p msg e dflt k) s Q.
Proof.
  intros Hr Ho Hk Hf. destruct (GetRef_rule p s o (proj1 Hr) Ho) as [_ Hne].
  unfold with_object. destruct (Z.eqb_spec p 0); [done|].
  apply attached_rule; [done| |done]. intros v s' Hv Ha. apply wp_bind.
  assert (Ho' : pointee s' p = Some o) by (by rewrite (calm_pointee s s'); [|apply Hr|apply Ha]).
  destruct (GetRef_rule p s' o) as [Hg _]; [by eapply ready_after|done|].
  eapply wp_mono; [exact Hg|]. intros r s1 [-> Hr']. by apply (Hk v).
Qed.

Lemma with_object_unset {A} msg e (dflt : A) k s :
  with_object 0 msg e dflt k s = Ok ((dflt, set_generic msg e), s).
Proof. done. Qed.

(** * Calls without objects in their results *)

(** The rest of an operation behind the call: the exception is gone. *)
Lemma check_rule s s1 v p :
  sound s -> polite s -> after s s1 v p ->
  wp ExceptionCheck s1 (fun e s' =>
    match p with
    | None => s' = s1 /\ e = no_info
    | Some t => after s s' (describe_in s t v).2 None /\ calm s1 s' /\ e = (describe_in s t v).1
    end).
Proof.
  intros Hs Hpol (Hc & Hv & Hp). eapply wp_mono; [apply ExceptionCheck_rule|].
  { by apply (sound_calm s). }
  { by apply (polite_calm s). }
  intros e s'. rewrite Hp. destruct p as [t|]; [|done].
  unfold describe_in. rewrite !(calm_id_of _ _ _ Hc), Hv.
  destruct (invoke _ _ _ v) as [n v1]. destruct (invoke _ _ _ v1) as [m v2]. cbn. intros [(Hc' & ? & ?) ->].
  split; [|done]. split; [by transitivity s1|done].
Qed.

Lemma bool_call_rule s m value r o :
  ready s -> polite s -> kind_of m = Some KBoolean -> object_at s r = Some o ->
  wp (bool_call m value r) s (fun x s' =>
    let (a, v) := java_call s m o [] (j_vm s) in
    after s s' v None /\ match a with inl (VBoolean b) => x = (b, no_info) | inr e => x = (value, e) | _ => False end).
Proof.
  intros Hr Hpol Hk Ho. pose proof (proj1 Hr) as Hs. apply wp_bind, wp_member, wp_bind.
  eapply wp_mono; [by apply (CallBoolean_rule s m r o)|]. intros res s1. unfold java_call.
  destruct (invoke _ o [] (j_vm s)) as [[[| | |b|]|t] v]; try done; intros [Ha ->]; apply wp_bind;
    (eapply wp_mono; [by apply (check_rule s s1)|]); intros e s'; cbn beta iota.
  - by intros [-> ->].
  - pose proof (described_failed s t v) as Hf. destruct (describe_in s t v) as [e' v']. cbn in Hf |- *.
    intros (Ha' & _ & ->). by rewrite Hf.
Qed.

Lemma int_call_rule s m value r o :
  ready s -> polite s -> kind_of m = Some KInt -> object_at s r = Some o ->
  wp (int_call m value r) s (fun x s' =>
    let (a, v) := java_call s m o [] (j_vm s) in
    after s s' v None /\ match a with inl (VInt b) => x = (b, no_info) | inr e => x = (value, e) | _ => False end).
Proof.
  intros Hr Hpol Hk Ho. pose proof (proj1 Hr) as Hs. apply wp_bind, wp_member, wp_bind.
  eapply wp_mono; [by apply (CallInt_rule s m r o)|]. intros res s1. unfold java_call.
  destruct (invoke _ o [] (j_vm s)) as [[[|b| | |]|t] v]; try done; intros [Ha ->]; apply wp_bind;
    (eapply wp_mono; [by apply (check_rule s s1)|]); intros e s'; cbn beta iota.
  - by intros [-> ->].
  - pose proof (described_failed s t v) as Hf. destruct (describe_in s t v) as [e' v']. cbn in Hf |- *.
    intros (Ha' & _ & ->). by rewrite Hf.
Qed.

Lemma void_call_rule s m r o :
  ready s -> polite s -> kind_of m = Some KVoid -> object_at s r = Some o ->
  wp (void_call m r) s (fun x s' =>
    let (a, v) := java_call s m o [] (j_vm s) in
    after s s' v None /\ x = (tt, match a with inl _ => no_info | inr e => e end)).
Proof.
  intros Hr Hpol Hk Ho. pose proof (proj1 Hr) as Hs. apply wp_bind, wp_member, wp_bind.
  eapply wp_mono; [by apply (CallVoid_rule s m r o)|]. intros res s1. unfold java_call.
  destruct (invoke _ o [] (j_vm s)) as [[y|t] v]; intros Ha; apply wp_bind;
    (eapply wp_mono; [by apply (check_rule s s1)|]); intros e s'; cbn beta iota.
  - by intros [-> ->].
  - destruct (describe_in s t v) as [e' v']. cbn. by intros (Ha' & _ & ->).
Qed.

(** * Pointers *)

(** The references that were there stay as they are. *)
Record steady (s s' : jenv J O) : Prop := {
  st_members : j_members s' = j_members s;
  st_print : j_print s' = j_print s;
  st_next : j_next s <= j_next s';
  st_old : forall r, r < j_next s -> j_refs s' !! r = j_refs s !! r
}.

#[export] Instance steady_refl : Reflexive steady.
Proof. intros s. split; auto. lia. Qed.
#[export] Instance steady_trans : Transitive steady.
Proof.
  intros s1 s2 s3 [m1 p1 n1 o1] [m2 p2 n2 o2]. split; [congruence..|lia|].
  intros r Hr. rewrite o2 by lia. auto.
Qed.
Lemma calm_steady s s' : calm s s' -> steady s s'.
Proof. intros []. by split. Qed.
Lemma steady_id_of s s' f : steady s s' -> id_of s' f = id_of s f.
Proof. intros Hc. unfold id_of. by rewrite (st_members _ _ Hc). Qed.
Lemma polite_steady s s' : steady s s' -> polite s -> polite s'.
Proof.
  intros Hc [Hp Hf]. split; [by rewrite (st_print _ _ Hc)|].
  intros f o v Hin. rewrite (steady_id_of _ _ _ Hc). by apply Hf.
Qed.
Lemma java_call_steady s s' f o args v : steady s s' -> java_call s' f o args v = java_call s f o args v.
Proof. intros Hc. unfold java_call, describe_in. by rewrite !(steady_id_of _ _ _ Hc). Qed.
Lemma steady_pointee s s' p :
  sound s -> steady s s' -> j_shared s' !! p = j_shared s !! p -> pointee s' p = pointee s p.
Proof.
  intros Hs Hc Hp. unfold pointee. rewrite Hp. destruct (j_shared s !! p) as [[ref n]|] eqn:Hq; [|done]. cbn.
  destruct (so_shared _ Hs p ref n Hq) as [o Ho]. unfold object_at. rewrite (st_old _ _ Hc); [done|].
  apply (so_refs _ Hs) in Ho. lia.
Qed.

(** One pointer less. *)
Definition drop_pointer (p : Z) (m : gmap Z (Z * Z)) : gmap Z (Z * Z) :=
  match m !! p with
  | Some (ref, n) => if n =? 1 then delete p m else <[p := (ref, n - 1)]> m
  | None => m
  end.

Lemma drop_null (s : jenv J O) : sound s -> drop_pointer 0 (j_shared s) = j_shared s.
Proof.
  intros Hs. unfold drop_pointer. destruct (j_shared s !! 0) as [x|] eqn:H0; [|done].
  apply (so_pointers _ Hs) in H0. lia.
Qed.

(** Losing a pointer for good, with its global reference. *)
Lemma sound_delete s p ref n :
  sound s -> j_shared s !! p = Some (ref, n) ->
  sound (j_set_refs (delete ref (j_refs s)) (j_set_shared (delete p (j_shared s)) s)).
Proof.
  intros Hs Hp. split; cbn; [apply Hs| | | | | | | | |].
  - intros r x [_ Hx]%lookup_delete_Some. by apply (so_refs _ Hs) in Hx.
  - intros q x [_ Hx]%lookup_delete_Some. by apply (so_pointers _ Hs) in Hx.
  - intros f Hf. destruct (so_class _ Hs f Hf) as [o Ho]. exists o. rewrite lookup_delete_ne; [done|].
    intros Heq. apply (so_own_class _ Hs p f n Hf). by rewrite Hp, Heq.
  - apply Hs.
  - apply Hs.
  - intros q ref' n' [Hne Hq]%lookup_delete_Some. destruct (so_shared _ Hs q ref' n' Hq) as [o Ho]. exists o.
    rewrite lookup_delete_ne; [done|]. intros ->. apply Hne. by apply (so_own _ Hs p q ref' n n').
  - intros q q' ref' m' n' [_ Hq]%lookup_delete_Some [_ Hq']%lookup_delete_Some. by apply (so_own _ Hs q q' ref' m' n').
  - intros q f n' Hf [_ Hq]%lookup_delete_Some. by apply (so_own_class _ Hs q f n' Hf).
  - intros r o [Hne Hr]%lookup_delete_Some. destruct (so_global _ Hs r o Hr) as [(q & n' & Hq)|?]; [|auto].
    left. exists q, n'. rewrite lookup_delete_ne; [done|]. intros ->. congruence.
Qed.

(** A pointer with another count. *)
Lemma sound_count s p ref n n' :
  sound s -> j_shared s !! p = Some (ref, n) -> sound (j_set_shared (<[p := (ref, n')]> (j_shared s)) s).
Proof.
  intros Hs Hp.
  assert (Hsame : forall q r m, <[p := (ref, n')]> (j_shared s) !! q = Some (r, m) -> exists m', j_shared s !! q = Some (r, m')).
  { intros q r m. destruct (decide (q = p)) as [->|Hne].
    - rewrite lookup_insert_eq. intros [= <- <-]. eauto.
    - rewrite lookup_insert_ne by done. eauto. }
  split; cbn; [apply Hs|apply Hs| |apply Hs|apply Hs|apply Hs| | | |].
  - intros q [r m] [m' Hq]%Hsame. by apply (so_pointers _ Hs) in Hq.
  - intros q r m [m' Hq]%Hsame. by apply (so_shared _ Hs) in Hq.
  - intros q q' r m m' [k Hq]%Hsame [k' Hq']%Hsame. by apply (so_own _ Hs q q' r k k').
  - intros q f m Hf [m' Hq]%Hsame. by apply (so_own_class _ Hs q f m').
  - intros r o Hr. destruct (so_global _ Hs r o Hr) as [(q & m & Hq)|?]; [|auto]. left.
    destruct (decide (q = p)) as [->|Hne].
    + exists p, n'. rewrite Hp in Hq. injection Hq as -> ->. apply lookup_insert_eq.
    + exists q, m. by rewrite lookup_insert_ne.
Qed.

Lemma release_rule s p :
  ready s -> p = 0 \/ is_Some (j_shared s !! p) ->
  wp (shared_release p) s (fun _ s' =>
    ready s' /\ j_vm s' = j_vm s /\ j_next s' = j_next s /\ j_members s' = j_members s /\ j_print s' = j_print s
    /\ j_shared s' = drop_pointer p (j_shared s)
    /\ forall r, j_refs s' !! r = j_refs s !! r \/ exists n, j_shared s !! p = Some (r, n)).
Proof.
  intros [Hs Hp]. destruct (Z.eqb_spec p 0) as [->|Hne].
  { intros _. unfold shared_release, wp. cbn. rewrite drop_null by done. split; [done|]. repeat split; auto. }
  intros [->|[[ref n] Hx]]; [done|]. unfold shared_release, drop_pointer, wp. rewrite Hx.
  destruct (Z.eqb_spec p 0); [done|]. destruct (Z.eqb_spec n 1) as [->|Hn].
  - destruct (so_shared _ Hs p ref 1 Hx) as [o Ho]. pose proof (so_refs _ Hs _ _ Ho) as Href.
    unfold DeleteGlobalRef, delete_ref. destruct (Z.eqb_spec ref 0); [lia|].
    cbn [j_refs j_set_shared]. rewrite Ho. cbn [Bool.eqb].
    split; [split; [by eapply sound_delete|done]|]. repeat split; [done..|]. intros r. cbn.
    destruct (decide (r = ref)) as [->|Hr]; [eauto|]. left. by rewrite lookup_delete_ne.
  - split; [split; [by eapply sound_count|done]|]. repeat split; [done..|]. intros r. by left.
Qed.

(** A new pointer to an object. *)
Record obtained (s s' : jenv J O) (p : Z) (o : O) : Prop := {
  ob_ready : ready s';
  ob_vm : j_vm s' = j_vm s;
  ob_steady : steady s s';
  ob_place : j_next s <= p;
  ob_shared : exists g, j_next s <= g /\ j_shared s' = <[p := (g, 1)]> (j_shared s);
  ob_object : pointee s' p = Some o
}.

Lemma fresh_ref s r : sound s -> j_next s <= r -> j_refs s !! r = None.
Proof. intros Hs Hr. destruct (j_refs s !! r) as [x|] eqn:Hx; [|done]. apply (so_refs _ Hs) in Hx. lia. Qed.
Lemma fresh_pointer s p : sound s -> j_next s <= p -> j_shared s !! p = None.
Proof. intros Hs Hp. destruct (j_shared s !! p) as [x|] eqn:Hx; [|done]. apply (so_pointers _ Hs) in Hx. lia. Qed.

Lemma sound_insert s g p o :
  sound s -> j_next s <= g -> j_next s <= p ->
  sound (j_set_next (Z.max g p + 1) (j_set_shared (<[p := (g, 1)]> (j_shared s)) (j_set_refs (<[g := (o, true)]> (j_refs s)) s))).
Proof.
  intros Hs Hg Hp. pose proof (so_next _ Hs). pose proof (fresh_pointer s p Hs Hp) as Hfp.
  assert (Hold : forall r x, j_refs s !! r = Some x -> <[g := (o, true)]> (j_refs s) !! r = Some x).
  { intros r x Hx. rewrite lookup_insert_ne; [done|]. apply (so_refs _ Hs) in Hx. lia. }
  assert (Hsh : forall q r m, j_shared s !! q = Some (r, m) -> r <> g).
  { intros q r m [y Hy]%(so_shared _ Hs). apply (so_refs _ Hs) in Hy. lia. }
  split; cbn; [lia| | | | | | | | |].
  - intros r x [[<- _]|[_ Hx]]%lookup_insert_Some; [lia|]. apply (so_refs _ Hs) in Hx. lia.
  - intros q x [[<- _]|[_ Hx]]%lookup_insert_Some; [lia|]. apply (so_pointers _ Hs) in Hx. lia.
  - intros f Hf. destruct (so_class _ Hs f Hf) as [y Hy]. exists y. by apply Hold.
  - apply Hs.
  - apply Hs.
  - intros q r m [[<- [= <- <-]]|[_ Hq]]%lookup_insert_Some; [exists o; apply lookup_insert_eq|].
    destruct (so_shared _ Hs q r m Hq) as [y Hy]. exists y. by apply Hold.
  - intros q q' r m m' [[<- [= <- <-]]|[_ Hq]]%lookup_insert_Some [[<- [= <-]]|[_ Hq']]%lookup_insert_Some; try done.
    + by apply Hsh in Hq'.
    + subst. by apply Hsh in Hq.
    + by apply (so_own _ Hs q q' r m m').
  - intros q f m Hf [[<- [= Hfg <-]]|[_ Hq]]%lookup_insert_Some; [|by apply (so_own_class _ Hs q f m)].
    destruct (so_class _ Hs f Hf) as [y Hy]. apply (so_refs _ Hs) in Hy.
    change (id_of _ f) with (id_of s f) in Hfg. lia.
  - intros r y [[<- [= <-]]|[_ Hr]]%lookup_insert_Some.
    + left. exists p, 1. apply lookup_insert_eq.
    + destruct (so_global _ Hs r y Hr) as [(q & m & Hq)|?]; [|auto]. left. exists q, m.
      rewrite lookup_insert_ne; [done|]. congruence.
Qed.

Lemma obtain_rule s r o :
  ready s -> r <> 0 -> object_at s r = Some o ->
  wp (let! g := NewGlobalRef r in shared_new g) s (fun p s' => obtained s s' p o).
Proof.
  intros [Hs Hp] Hne Ho. unfold NewGlobalRef, deref_null. destruct (Z.eqb_spec r 0); [done|].
  unfold object_at in Ho. destruct (j_refs s !! r) as [[o' g]|] eqn:Hr; [|done]. injection Ho as ->.
  unfold idle, deref, wp, bind. rewrite Hp. cbn. rewrite Hr. cbn.
  pose proof (sound_insert s (j_next s) (j_next s + 1) o Hs ltac:(lia) ltac:(lia)) as Hi.
  replace (Z.max (j_next s) (j_next s + 1) + 1) with (j_next s + 1 + 1) in Hi by lia.
  split; cbn; [split; [exact Hi|done]|done| |lia| |].
  - split; cbn; [done..|lia|]. intros r' Hr'. apply lookup_insert_ne. lia.
  - exists (j_next s). split; [lia|done].
  - unfold pointee, object_at. cbn. rewrite lookup_insert_eq. cbn. by rewrite lookup_insert_eq.
Qed.

Lemma obtained_others s s' p o q : ready s -> obtained s s' p o -> q <> p -> pointee s' q = pointee s q.
Proof.
  intros [Hs _] Ho Hne. apply steady_pointee; [done|apply Ho|]. destruct (ob_shared _ _ _ _ Ho) as (g & _ & ->).
  by rewrite lookup_insert_ne.
Qed.

Lemma wp_assoc {A B C} (m : jop A) (f : A -> jop B) (k : B -> jop C) s Q :
  wp (bind (bind m f) k) s Q -> wp (bind m (fun a => bind (f a) k)) s Q.
Proof. unfold wp, bind. by destruct (m s) as [[a s1]| |]. Qed.

Lemma take_object_rule s old result y e Q :
  ready s ->
  match y with Some o => result <> 0 /\ object_at s result = Some o | None => result = 0 \/ is_success e = false end ->
  (match y with Some o => is_success e = true | None => True end) ->
  match y with
  | Some o => forall p s1, obtained s s1 p o -> wp (shared_release old) s1 (fun _ s2 => Q (p, e) s2)
  | None => wp (shared_release old) s (fun _ s2 => Q (0, e) s2)
  end ->
  wp (take_object old result e) s Q.
Proof.
  intros Hr Hy He HQ. unfold take_object. destruct y as [o|].
  - destruct Hy as [Hne Ho]. destruct (Z.eqb_spec result 0); [done|]. rewrite He. cbn [orb negb].
    apply wp_bind. unfold assign_global. apply wp_assoc.
    apply wp_bind. eapply wp_mono; [by apply (obtain_rule s result o)|]. intros p s1 Hob.
    apply wp_bind. eapply wp_mono; [exact (HQ p s1 Hob)|]. by intros [] s2 HQ2.
  - assert (Hfail : (result =? 0) || negb (is_success e) = true) by (destruct Hy as [->| ->]; [done|apply orb_true_r]).
    rewrite Hfail. apply wp_bind. unfold assign_null. apply wp_bind. eapply wp_mono; [exact HQ|].
    by intros [] s2 HQ2.
Qed.

(** A method that gives an object, and the check behind it. *)
Lemma object_answer_rule {A} s m r o args (k : Z -> ErrorInfo -> jop A) Q :
  ready s -> polite s -> kind_of m = Some KObject -> object_at s r = Some o ->
  (forall result e s1, calm s s1 ->
     (let (a, v) := java_call s m o args (j_vm s) in
      after s s1 v None
      /\ match a with
         | inl (VObject (Some y)) => local_at s1 result y /\ j_next s <= result /\ e = no_info
         | inl (VObject None) => result = 0 /\ e = no_info
         | inr e' => result = 0 /\ e = e' /\ is_success e = false
         | _ => False
         end) ->
     wp (k result e) s1 Q) ->
  wp (let! result := CallObjectMethod r (id_of s m) args in let! e := ExceptionCheck in k result e) s Q.
Proof.
  intros Hr Hpol Hk Ho HQ. pose proof (proj1 Hr) as Hs. apply wp_bind.
  eapply wp_mono; [by apply (CallObject_rule s m r o)|]. intros res s1. unfold java_call in HQ.
  destruct (invoke _ o args (j_vm s)) as [[[[y|]| | | |]|t] v]; try done; intros [Ha Hres]; apply wp_bind;
    (eapply wp_mono; [by apply (check_rule s s1)|]); intros e s'; cbn beta iota.
  - intros [-> ->]. apply HQ; [apply Ha|]. by destruct Hres.
  - intros [-> ->]. apply HQ; [apply Ha|]. done.
  - pose proof (described_failed s t v) as Hf. destruct (describe_in s t v) as [e' v']. cbn in Hf |- *.
    intros (Ha' & _ & ->). apply HQ; [apply Ha'|]. done.
Qed.

(** * Texts and arrays as arguments *)

(** The machine has room: strings and arrays are made, and an array of strings takes
    strings. *)
Class JvmRoom : Prop := {
  makes_string : forall us v, exists o v', make_string us v = (inl o, v') /\ string_units o = us;
  makes_array : forall n v, exists o v', make_array n v = (inl o, v');
  sets_element : forall a i o v, exists v', set_element a i o v = (inl tt, v')
}.
Context {Hroom : JvmRoom}.

(** Texts that are modified UTF-8. *)
Definition java_text (t : text) : bool :=
  match mutf8_units (length t) (c_str t) with Some _ => true | None => false end.
Definition java_texts (l : list (option text)) : bool :=
  forallb (fun t => match t with Some t => java_text t | None => true end) l.

Lemma local_lt s r o : sound s -> local_at s r o -> r < j_next s.
Proof. intros Hs [_ Hr]. apply (so_refs _ Hs) in Hr. lia. Qed.
Lemma local_calm s s' r o : sound s -> calm s s' -> local_at s r o -> local_at s' r o.
Proof.
  intros Hs Hc Hl. pose proof (local_lt s r o Hs Hl). destruct Hl as [Hne Hr]. split; [done|].
  by rewrite (ca_old _ _ Hc).
Qed.

Lemma NewStringUTF_rule s t us :
  ready s -> mutf8_units (length t) (c_str t) = Some us ->
  wp (NewStringUTF t) s (fun r s' => exists o, make_string us (j_vm s) = (inl o, j_vm s') /\ string_units o = us
    /\ after s s' (j_vm s') None /\ local_at s' r o /\ j_next s <= r).
Proof.
  intros [Hs Hp] Hu. unfold NewStringUTF, idle. apply wp_bind. unfold wp at 1. rewrite Hp, Hu.
  destruct (makes_string us (j_vm s)) as (o & v & Hm & Ho). unfold wp at 1. rewrite Hm.
  eapply wp_mono; [apply (new_local_rule (Some o) (j_set_vm v s))|].
  { apply (sound_calm s); [done|apply calm_set_vm]. }
  intros r s' [(Hc & Hv & Hp') [Hl Hge]]. cbn in Hv, Hge. exists o. rewrite Hv.
  split; [done|]. split; [done|]. split; [|done]. split; [|split; [done|by rewrite Hp']].
  etransitivity; [apply calm_set_vm|exact Hc].
Qed.

(** What an argument refers to. *)
Definition refers (s : jenv J O) (r : Z) (y : option O) : Prop :=
  match y with Some o => r <> 0 /\ object_at s r = Some o | None => r = 0 end.

Lemma refers_calm s s' r y : sound s -> calm s s' -> refers s r y -> refers s' r y.
Proof. intros Hs Hc. destruct y as [o|]; [|done]. intros [? ?]. split; [done|]. by apply (calm_object s). Qed.

Lemma string_args_rule s rs ys :
  Forall2 (refers s) rs ys -> wp (string_args rs) s (fun args s' => s' = s /\ args = map VObject ys).
Proof.
  induction 1 as [|r y rs ys Hr _ IH]; [done|]. apply wp_bind. apply wp_bind.
  apply (wp_mono _ _ (fun y' s' => s' = s /\ y' = y)).
  - unfold deref_null. destruct y as [o|].
    + destruct Hr as [Hne Ho]. destruct (Z.eqb_spec r 0); [done|]. unfold deref, bind, wp.
      unfold object_at in Ho. destruct (j_refs s !! r) as [[o' g]|]; [|done]. by injection Ho as ->.
    + by rewrite Hr.
  - intros y' s' [-> ->]. apply wp_bind. eapply wp_mono; [exact IH|]. by intros args s' [-> ->].
Qed.

(** Null, or local references made since [n] and all different. *)
Fixpoint apart (l : list Z) : Prop := match l with [] => True | r :: t => (r = 0 \/ r ∉ t) /\ apart t end.
Definition made (n : Z) (s : jenv J O) (r : Z) : Prop := r = 0 \/ (n <= r /\ exists o, local_at s r o).

Lemma made_calm n s s' r : sound s -> calm s s' -> made n s r -> made n s' r.
Proof. intros Hs Hc [->|(Hn & o & Ho)]; [by left|]. right. split; [done|]. exists o. by apply (local_calm s). Qed.
Lemma made_lt n s r : sound s -> made n s r -> 0 < j_next s -> r < j_next s.
Proof. intros Hs [->|(_ & o & Ho)]; [done|]. intros _. by apply (local_lt s r o). Qed.

Lemma deletes_rule s0 l : forall s,
  calm s0 s -> Forall (made (j_next s0) s) l -> apart l ->
  wp (for_each DeleteLocalRef l) s (fun _ s' => after s0 s' (j_vm s) (j_pending s)
    /\ forall r, r ∉ l -> j_refs s' !! r = j_refs s !! r).
Proof.
  induction l as [|r l IH]; intros s Hc Hl Ha.
  - apply wp_ret. split; [split; [done|done]|done].
  - inversion Hl as [|? ? Hr Hl']; subst. destruct Ha as [Hra Ha]. apply wp_bind.
    eapply wp_mono; [apply (delete_rule s0 s r Hc Hr)|]. intros [] s1 [(Hc1 & Hv1 & Hp1) Hk].
    eapply wp_mono; [apply (IH s1 Hc1)|].
    + apply Forall_forall. intros r' Hin. eapply Forall_forall in Hl'; [|exact Hin].
      destruct Hl' as [->|(Hn & o & Hne & Ho)]; [by left|]. right. split; [done|]. exists o. split; [done|].
      rewrite Hk; [done|]. intros ->. by destruct Hra.
    + done.
    + intros [] s2 [Ha2 Hk2]. rewrite <- Hv1, <- Hp1. split; [done|]. intros r' [Hr1 Hr2]%not_elem_of_cons.
      by rewrite Hk2, Hk.
Qed.

Lemma optional_string_rule s t :
  ready s -> java_texts [t] = true ->
  wp (optional_string t) s (fun r s' => after s s' (j_vm s') None /\ made (j_next s) s' r
    /\ exists y, refers s' r y).
Proof.
  intros Hr. destruct t as [t|].
  - unfold java_texts, java_text. cbn [forallb]. rewrite andb_true_r.
    destruct (mutf8_units _ (c_str t)) as [us|] eqn:Hu; [intros _|done].
    eapply wp_mono; [by apply (NewStringUTF_rule s t us)|]. intros r s' (o & _ & _ & Ha & Hl & Hge).
    split; [done|]. split; [right; eauto|]. exists (Some o). split; [apply Hl|by apply local_object].
  - intros _. apply wp_ret. destruct Hr as [_ Hp]. split; [rewrite <- Hp; apply after_self|].
    split; [by left|]. by exists None.
Qed.

Lemma optional_strings_rule ts : forall s,
  ready s -> java_texts ts = true ->
  wp (map_op optional_string ts) s (fun rs s' => after s s' (j_vm s') None
    /\ Forall (made (j_next s) s') rs /\ apart rs /\ exists ys, Forall2 (refers s') rs ys).
Proof.
  induction ts as [|t ts IH]; intros s Hr Ht.
  - apply wp_ret. destruct Hr as [_ Hp]. split; [rewrite <- Hp; apply after_self|]. split; [done|].
    split; [done|]. by exists [].
  - cbn [java_texts forallb] in Ht. apply andb_true_iff in Ht as [Ht Hts]. apply wp_bind.
    eapply wp_mono; [apply (optional_string_rule s t Hr)|].
    { unfold java_texts. cbn [forallb]. by rewrite Ht. }
    intros r s1 (Ha1 & Hm1 & y & Hy). pose proof (ready_after _ _ _ Hr Ha1) as Hr1.
    apply wp_bind. eapply wp_mono; [by apply (IH s1)|]. intros rs s2 (Ha2 & Hm2 & Hap & ys & Hys).
    apply wp_ret. assert (Hc2 : calm s1 s2) by apply Ha2. destruct Hr1 as [Hs1 _].
    split; [by eapply after_trans|]. split; [|split; [split; [|done]|]].
    + constructor; [by apply (made_calm _ s1)|]. eapply Forall_impl; [exact Hm2|].
      intros r' [->|(Hn & Ho)]; [by left|]. right. split; [|done]. pose proof (ca_next _ _ (proj1 Ha1)). lia.
    + destruct (decide (r = 0)) as [->|Hne]; [by left|]. right. intros Hin.
      eapply Forall_forall in Hm2; [|exact Hin]. destruct Hm2 as [->|(Hn & _)]; [done|].
      pose proof (made_lt _ s1 r Hs1 Hm1 (so_next _ Hs1)). lia.
    + exists (y :: ys). constructor; [by apply (refers_calm s1)|done].
Qed.

End rules.
