(* ===== verification/JniSafe.v ===== *)
(** Sequences of calls through the bridge: none uses a reference that is gone, calls with
    an exception pending, or leaves a global reference without an owner. *)
From S2P Require Import Prelude Memory Utf8 Diag Config Interop Jni JniContext JniRules.

(** * The operations, by the form of their results *)

(** Those that give a new object. *)
Inductive object_op : Type :=
| OpDatabaseMetadata | OpConnectionProperties | OpMetaData | OpTypeInfo | OpOperations | OpColumnMetadata | OpPaths
| OpTables (catalog schemaPattern : option text) (tableNamePattern : text) (types : option (list text))
| OpColumns (catalog schemaPattern : option text) (tableNamePattern columnNamePattern : text)
| OpPrimaryKeys (catalog schema table : option text)
| OpImportedKeys (catalog schema : option text) (table : text)
| OpListGet (index : Z)
| OpServiceGet (sql : text) (maxRowCount : Z).

(** Those that give a value, or nothing. *)
Inductive value_op : Type :=
| OpConnectionClose | OpIsSshTunnelActive | OpGetSshLocalPort | OpSchemaName | OpClose | OpNext | OpWasNull
| OpStringByIndex (i : Z) | OpStringByName (name : text) | OpIntByIndex (i : Z) | OpIntByName (name : text) | OpGetRow
| OpListSize | OpCollectionName | OpJavaString
| OpColumnBoolean (m : string) | OpColumnInt (m : string) | OpColumnString (m : string).

Section ops.
Context {J O : Type} `{Jvm J O}.
Abbreviation jop := (op (jenv J O)).

Definition object_run (c : object_op) (obj old : Z) (e : ErrorInfo) : jop (Z * ErrorInfo) :=
  match c with
  | OpDatabaseMetadata => DocumentDbConnectionGetDatabaseMetadata obj old e
  | OpConnectionProperties => DocumentDbConnectionGetConnectionProperties obj old e
  | OpMetaData => ConnectionGetMetaData obj old e
  | OpTypeInfo => DatabaseMetaDataGetTypeInfo obj old e
  | OpOperations => DocumentdbMqlQueryContextGetAggregateOperationsAsStrings obj old e
  | OpColumnMetadata => DocumentdbMqlQueryContextGetColumnMetadata obj old e
  | OpPaths => DocumentdbMqlQueryContextGetPaths obj old e
  | OpTables c s t types => DatabaseMetaDataGetTables obj c s t types old e
  | OpColumns c s t n => DatabaseMetaDataGetColumns obj c s t n old e
  | OpPrimaryKeys c s t => DatabaseMetaDataGetPrimaryKeys obj c s t old e
  | OpImportedKeys c s t => DatabaseMetaDataGetImportedKeys obj c s t old e
  | OpListGet i => ListGet obj i old e
  | OpServiceGet sql n => DocumentDbQueryMappingServiceGet obj sql n old e
  end.

(** The value is of no interest here. *)
Definition result_error {A} (m : jop (A * ErrorInfo)) : jop ErrorInfo := let! (_, e) := m in ret e.
Definition value_run (c : value_op) (obj : Z) (e : ErrorInfo) : jop ErrorInfo :=
  match c with
  | OpConnectionClose => result_error (ConnectionClose obj e)
  | OpIsSshTunnelActive => result_error (DocumentDbConnectionIsSshTunnelActive obj false e)
  | OpGetSshLocalPort => result_error (DocumentDbConnectionGetSshLocalPort obj 0 e)
  | OpSchemaName => result_error (DocumentDbDatabaseSchemaMetadataGetSchemaName obj ([], false) e)
  | OpClose => result_error (ResultSetClose obj e)
  | OpNext => result_error (ResultSetNext obj false e)
  | OpWasNull => result_error (ResultSetWasNull obj false e)
  | OpStringByIndex i => result_error (ResultSetGetString_index obj i None e)
  | OpStringByName n => result_error (ResultSetGetString_name obj n None e)
  | OpIntByIndex i => result_error (ResultSetGetInt_index obj i None e)
  | OpIntByName n => result_error (ResultSetGetInt_name obj n None e)
  | OpGetRow => result_error (ResultSetGetRow obj None e)
  | OpListSize => result_error (ListSize obj 0 e)
  | OpCollectionName => result_error (DocumentdbMqlQueryContextGetCollectionName obj [] e)
  | OpJavaString => if obj =? 0 then ret e else result_error (JavaStringToCppString obj e)
  | OpColumnBoolean m => result_error (context_CallBooleanMethod obj m false e)
  | OpColumnInt m => result_error (context_CallIntMethod obj m 0 e)
  | OpColumnString m => result_error (context_CallStringMethod obj m None e)
  end.

(** ** What a client does

    A client keeps pointers in variables, here numbered. *)
Inductive client_op : Type :=
| ClConnect (to : nat) (connectionString : text)
| ClService (to properties metadata : nat)
| ClObject (c : object_op) (to obj : nat)
| ClValue (c : value_op) (obj : nat)
| ClCopy (to obj : nat)
| ClReset (to : nat).

Definition slot (vars : list Z) (i : nat) : Z := nth i vars 0.

Definition client_run (c : client_op) (vars : list Z) : jop (list Z) :=
  match c with
  | ClConnect to t =>
      let! (p, _) := DriverManagerGetConnection t (slot vars to) no_info in ret (<[to := p]> vars)
  | ClService to a b =>
      let! (p, _) := DocumentDbQueryMappingServiceCtor (slot vars a) (slot vars b) (slot vars to) no_info in
      ret (<[to := p]> vars)
  | ClObject c to a =>
      let! (p, _) := object_run c (slot vars a) (slot vars to) no_info in ret (<[to := p]> vars)
  | ClValue c a => let! _ := value_run c (slot vars a) no_info in ret vars
  | ClCopy to a =>
      let! p := shared_copy (slot vars a) in
      shared_release (slot vars to) ;;;
      ret (<[to := p]> vars)
  | ClReset to => let! p := assign_null (slot vars to) in ret (<[to := p]> vars)
  end.
Fixpoint client_runs (l : list client_op) (vars : list Z) : jop (list Z) :=
  match l with
  | [] => ret vars
  | c :: t => let! vars := client_run c vars in client_runs t vars
  end.

End ops.

Section safe.
Context {J O : Type} `{Jvm J O} `{!JvmTyped J O} `{!JvmRoom}.
Abbreviation jop := (op (jenv J O)).

(** * One operation *)

(** The ways in which an output pointer is assigned. *)
Definition takes (s : jenv J O) (old : Z) (Q : Z * ErrorInfo -> jenv J O -> Prop) : Prop :=
  (forall s1 s2 p y e, calm s s1 -> ready s1 -> obtained s1 s2 p y ->
     wp (shared_release old) s2 (fun _ s3 => Q (p, e) s3))
  /\ forall s1 e, calm s s1 -> ready s1 -> wp (shared_release old) s1 (fun _ s3 => Q (0, e) s3).

Lemma takes_calm s s' old Q : calm s s' -> takes s old Q -> takes s' old Q.
Proof.
  intros Hc [H1 H2]. split.
  - intros s1 s2 p y e Hc1. apply H1. by transitivity s'.
  - intros s1 e Hc1. apply H2. by transitivity s'.
Qed.

Definition got (y : option O) (e : ErrorInfo) : Prop := match y with Some _ => is_success e = true | None => True end.

(** The end of the operations: [result] is what the method gave. *)
Lemma take_rule s old result y e Q :
  ready s -> refers s result y -> got y e -> takes s old Q ->
  wp (take_object old result e) s Q.
Proof.
  intros Hr Hy He [HQ1 HQ2]. apply (take_object_rule s old result y); [done|by destruct y; [|left]|by destruct y|].
  destruct y as [o|].
  - intros p s1 Hob. by apply (HQ1 s s1 p o).
  - by apply (HQ2 s e).
Qed.

(** A method that gives an object, when only its safety matters. *)
Lemma object_safe_rule {A} s m r o args (k : Z -> ErrorInfo -> jop A) Q :
  ready s -> polite s -> kind_of m = Some KObject -> object_at s r = Some o ->
  (forall result e s1 y, calm s s1 -> ready s1 -> refers s1 result y -> result = 0 \/ j_next s <= result ->
     got y e -> wp (k result e) s1 Q) ->
  wp (let! result := CallObjectMethod r (id_of s m) args in let! e := ExceptionCheck in k result e) s Q.
Proof.
  intros Hr Hpol Hk Ho HQ. apply (object_answer_rule s m r o args); [done..|]. intros result e s1 Hc.
  destruct (java_call s m o args (j_vm s)) as [[[[y|]| | | |]|e'] v]; intros [Ha Hres]; try done;
    pose proof (ready_after _ _ _ Hr Ha) as Hr1.
  - destruct Hres as (Hl & Hge & ->). apply (HQ _ _ _ (Some y)); [done|done| |by right|done].
    split; [apply Hl|by apply local_object].
  - destruct Hres as (-> & ->). apply (HQ _ _ _ None); [done|done|done|by left|done].
  - destruct Hres as (-> & -> & _). apply (HQ _ _ _ None); [done|done|done|by left|done].
Qed.

Lemma object_call_safe s m args old r o Q :
  ready s -> polite s -> kind_of m = Some KObject -> object_at s r = Some o -> takes s old Q ->
  wp (object_call m args old r) s Q.
Proof.
  intros Hr Hpol Hk Ho HQ. unfold object_call. apply wp_bind, wp_member.
  apply (object_safe_rule s m r o); [done..|]. intros result e s1 y Hc Hr1 Hy _ He.
  eapply take_rule; [done|exact Hy|done|by apply (takes_calm s)].
Qed.

(** The same with texts, which are deleted behind the call. *)
Lemma refers_kept (s s' : jenv J O) r y : refers s r y -> j_refs s' !! r = j_refs s !! r -> refers s' r y.
Proof. intros Hy Hr. destruct y; [|done]. destruct Hy. split; [done|]. unfold object_at. by rewrite Hr. Qed.

Lemma deletes_safe s0 s rs result y :
  sound s0 -> calm s0 s -> ready s -> Forall (made (j_next s0) s) rs -> apart rs ->
  refers s result y -> (result = 0 \/ Forall (fun r => r < result) rs) ->
  wp (for_each DeleteLocalRef rs) s (fun _ s' => calm s0 s' /\ ready s' /\ refers s' result y).
Proof.
  intros Hs0 Hc [Hs Hp] Hm Ha Hy Hres. eapply wp_mono; [by apply (deletes_rule s0)|].
  intros [] s' [(Hc' & _ & Hp') Hkeep]. rewrite Hp in Hp'. split; [done|]. split.
  { split; [by apply (sound_calm s0)|done]. }
  destruct Hres as [->|Hlt]; [by destruct y; [destruct Hy|]|]. eapply refers_kept; [exact Hy|]. apply Hkeep.
  intros Hin. eapply Forall_forall in Hlt; [|exact Hin]. cbn in Hlt. lia.
Qed.

Lemma made_below n s rs : sound s -> Forall (made n s) rs -> Forall (fun r => r < j_next s) rs.
Proof.
  intros Hs Hm. eapply Forall_impl; [exact Hm|]. intros r [->|(_ & o & Ho)]; [by apply so_next|by apply (local_lt s r o)].
Qed.

Lemma made_all_calm n s s' rs : sound s -> calm s s' -> Forall (made n s) rs -> Forall (made n s') rs.
Proof. intros Hs Hc Hm. eapply Forall_impl; [exact Hm|]. intros r. by apply made_calm. Qed.

(** What is between the call and the assignment. *)
Lemma call_with_locals s0 s m r o args rs old Q :
  sound s0 -> calm s0 s -> ready s -> polite s -> kind_of m = Some KObject -> object_at s r = Some o ->
  Forall (made (j_next s0) s) rs -> apart rs -> takes s0 old Q ->
  wp (let! result := CallObjectMethod r (id_of s m) args in
      let! e := ExceptionCheck in
      for_each DeleteLocalRef rs ;;; take_object old result e) s Q.
Proof.
  intros Hs0 Hc Hr Hpol Hk Ho Hm Hap HQ. apply (object_safe_rule s m r o); [done..|].
  intros result e s1 y Hc1 Hr1 Hy Hge He. pose proof (proj1 Hr) as Hs. apply wp_bind.
  eapply wp_mono; [apply (deletes_safe s0 s1 rs result y)|].
  - done.
  - by transitivity s.
  - done.
  - by apply (made_all_calm _ s).
  - done.
  - done.
  - destruct Hge as [?|Hge]; [by left|]. right. eapply Forall_impl; [by eapply (made_below _ s)|]. cbn. lia.
  - intros [] s2 (Hc2 & Hr2 & Hy2). eapply take_rule; [done|exact Hy2|done|by apply (takes_calm s0)].
Qed.

Lemma texts_call_safe s m ts old r o Q :
  ready s -> polite s -> kind_of m = Some KObject -> object_at s r = Some o -> java_texts ts = true -> takes s old Q ->
  wp (texts_call m ts old r) s Q.
Proof.
  intros Hr Hpol Hk Ho Ht HQ. unfold texts_call. pose proof (proj1 Hr) as Hs. apply wp_bind.
  eapply wp_mono; [by apply optional_strings_rule|]. intros rs s1 (Ha1 & Hm & Hap & ys & Hys).
  pose proof (ready_after _ _ _ Hr Ha1) as Hr1. destruct Ha1 as (Hc1 & _). apply wp_bind.
  eapply wp_mono; [by apply (string_args_rule s1 rs ys)|]. intros args ? [-> ->].
  apply wp_bind, wp_member. apply (call_with_locals s s1 m r o); try done.
  - by apply (polite_calm s).
  - by apply (calm_object s).
Qed.

Lemma made_cons s s1 s2 r rs :
  ready s1 -> calm s s1 -> calm s1 s2 -> made (j_next s) s1 r -> Forall (made (j_next s1) s2) rs -> apart rs ->
  Forall (made (j_next s) s2) (r :: rs) /\ apart (r :: rs).
Proof.
  intros [Hs1 _] Hc1 Hc2 Hm Hms Hap. split; [constructor; [by apply (made_calm _ s1)|]|split; [|done]].
  - eapply Forall_impl; [exact Hms|]. intros r' [->|(Hn & Ho)]; [by left|]. right. split; [|done].
    pose proof (ca_next _ _ Hc1). lia.
  - destruct (decide (r = 0)) as [->|Hne]; [by left|]. right. intros Hin.
    eapply Forall_forall in Hms; [|exact Hin]. destruct Hms as [->|(Hn & _)]; [done|].
    pose proof (made_lt _ s1 r Hs1 Hm (so_next _ Hs1)). lia.
Qed.

(** ** The array of types *)

Lemma set_element_rule s arr i r a x :
  ready s -> object_at s arr = Some a -> r <> 0 -> object_at s r = Some x ->
  wp (SetObjectArrayElement arr i r) s (fun _ s' => after s s' (j_vm s') None).
Proof.
  intros [Hs Hp] Ha Hr Hx. unfold SetObjectArrayElement, idle, deref_null. destruct (Z.eqb_spec r 0); [done|].
  unfold object_at in Ha, Hx. destruct (j_refs s !! arr) as [[a' g]|] eqn:Harr; [|done].
  destruct (j_refs s !! r) as [[x' g']|] eqn:Hrr; [|done]. injection Ha as ->. injection Hx as ->.
  unfold deref, wp, bind. rewrite Hp. cbn. rewrite Harr. cbn. rewrite Hrr. cbn. unfold in_java.
  destruct (sets_element a i (Some x) (j_vm s)) as [v ->]. split; [apply calm_set_vm|done].
Qed.

Lemma new_array_rule s n :
  ready s -> wp (NewObjectArray n) s (fun r s' => after s s' (j_vm s') None /\ made (j_next s) s' r
    /\ exists a, refers s' r (Some a)).
Proof.
  intros [Hs Hp]. unfold NewObjectArray, idle. apply wp_bind. unfold wp at 1. rewrite Hp.
  destruct (makes_array n (j_vm s)) as (a & v & Hm). unfold wp at 1. rewrite Hm.
  eapply wp_mono; [apply (new_local_rule (Some a) (j_set_vm v s))|].
  { apply (sound_calm s); [done|apply calm_set_vm]. }
  intros r s' [(Hc & Hv & Hp') [Hl Hge]]. cbn in Hge. cbn in Hp'. rewrite Hp in Hp'.
  split; [split; [|done]|split; [right; eauto|]].
  - etransitivity; [apply calm_set_vm|exact Hc].
  - exists a. split; [apply Hl|by apply local_object].
Qed.

Lemma fill_array_rule arr a l : forall s i,
  ready s -> object_at s arr = Some a -> forallb java_text l = true ->
  wp (for_each (fun it : Z * text => let! r := NewStringUTF it.2 in SetObjectArrayElement arr it.1 r) (zip (seqZ i (Z.of_nat (length l))) l)) s
    (fun _ s' => after s s' (j_vm s') None).
Proof.
  induction l as [|t l IH]; intros s i Hr Ha Ht.
  - destruct Hr as [_ Hp]. cbn. apply wp_ret. rewrite <- Hp. apply after_self.
  - cbn [forallb] in Ht. apply andb_true_iff in Ht as [Ht Hl].
    unfold java_text in Ht. destruct (mutf8_units (length t) (c_str t)) as [us|] eqn:Hu; [|done].
    rewrite seqZ_cons by (cbn; lia). cbn [zip_with for_each fst snd]. apply wp_bind, wp_bind.
    eapply wp_mono; [by apply (NewStringUTF_rule s t us)|]. intros r s1 (o & _ & _ & Ha1 & Hlo & _).
    pose proof (ready_after _ _ _ Hr Ha1) as Hr1.
    eapply wp_mono; [apply (set_element_rule s1 arr i r a o); [done| |apply Hlo|by apply local_object]|].
    { apply (calm_object s); [apply Hr|apply Ha1|done]. }
    intros [] s2 Ha2. pose proof (ready_after _ _ _ Hr1 Ha2) as Hr2.
    replace (Z.pred (Z.of_nat (length (t :: l)))) with (Z.of_nat (length l)) by (cbn [length]; lia).
    eapply wp_mono; [apply (IH s2 (Z.succ i) Hr2)|].
    { apply (calm_object s1); [apply Hr1|apply Ha2|]. apply (calm_object s); [apply Hr|apply Ha1|done]. }
    { done. }
    intros [] s3 Ha3. eapply after_trans; [exact Ha1|]. by eapply after_trans.
Qed.

Lemma type_array_rule s types :
  ready s -> match types with Some l => forallb java_text l = true | None => True end ->
  wp (type_array types) s (fun r s' => after s s' (j_vm s') None /\ made (j_next s) s' r /\ exists y, refers s' r y).
Proof.
  intros Hr Ht. destruct types as [l|].
  - apply wp_bind, wp_member, wp_bind. destruct (so_class _ (proj1 Hr) "c_String" eq_refl) as [c Hc].
    unfold deref, wp at 1. rewrite Hc. apply wp_bind.
    eapply wp_mono; [by apply new_array_rule|]. intros r s1 (Ha1 & Hm1 & a & Ha). pose proof (ready_after _ _ _ Hr Ha1) as Hr1.
    apply wp_bind. eapply wp_mono; [apply (fill_array_rule r a l s1 0 Hr1); [apply Ha|done]|].
    intros [] s2 Ha2. apply wp_ret. assert (Hc2 : calm s1 s2) by apply Ha2. destruct Hr1 as [Hs1 _].
    split; [by eapply after_trans|]. split; [by apply (made_calm _ s1)|]. exists (Some a). by apply (refers_calm s1).
  - apply wp_ret. destruct Hr as [_ Hp]. split; [rewrite <- Hp; apply after_self|]. split; [by left|]. by exists None.
Qed.

(** ** Objects that may be unset *)

Definition held (s : jenv J O) (p : Z) : Prop := p = 0 \/ exists o, pointee s p = Some o.

Lemma held_calm s s' p : sound s -> calm s s' -> held s p -> held s' p.
Proof. intros Hs Hc [->|[o Ho]]; [by left|]. right. exists o. by rewrite (calm_pointee s s'). Qed.

Lemma with_object_safe {A} s p msg e (dflt : A) k Q :
  ready s -> held s p ->
  (forall s1 r o, calm s s1 -> ready s1 -> object_at s1 r = Some o -> pointee s1 p = Some o -> wp (k r) s1 Q) ->
  (forall s1 e', calm s s1 -> ready s1 -> Q (dflt, e') s1) ->
  wp (with_object p msg e dflt k) s Q.
Proof.
  intros Hr Hp Hk Hd. destruct Hp as [->|[o Ho]].
  - apply Hd; [reflexivity|done].
  - apply (with_object_rule p msg e dflt k s o); [done|done| |].
    + intros v s' r Hv Ha Hobj. apply (Hk s' r o); [apply Ha|by eapply ready_after|done|].
      rewrite (calm_pointee s s'); [done|apply Hr|apply Ha].
    + intros res v s' Hv Hne Ha. apply Hd; [apply Ha|by eapply ready_after].
Qed.

(** ** All operations *)

Definition allowed_object (c : object_op) : bool :=
  match c with
  | OpTables c s t types => java_texts [c; s; Some t] && match types with Some l => forallb java_text l | None => true end
  | OpColumns c s t n => java_texts [c; s; Some t; Some n]
  | OpPrimaryKeys c s t => java_texts [c; s; t]
  | OpImportedKeys c s t => java_texts [c; s; Some t]
  | OpServiceGet sql _ => java_text sql
  | _ => true
  end.

Lemma java_texts_cons t l : java_texts (t :: l) = java_texts [t] && java_texts l.
Proof. unfold java_texts. cbn [forallb]. by rewrite andb_true_r. Qed.

Lemma GetTables_safe s obj c sc t types old e Q :
  ready s -> polite s -> held s obj -> allowed_object (OpTables c sc t types) = true -> takes s old Q ->
  (forall s1 e', calm s s1 -> ready s1 -> Q (old, e') s1) ->
  wp (DatabaseMetaDataGetTables obj c sc t types old e) s Q.
Proof.
  intros Hr Hpol Hp Hal HQ Hd. cbn [allowed_object] in Hal. apply andb_true_iff in Hal as [Hal Hty].
  rewrite java_texts_cons, (java_texts_cons sc) in Hal. apply andb_true_iff in Hal as [Hal1 Hal].
  apply andb_true_iff in Hal as [Hal2 Hal3].
  apply with_object_safe; [done|done| |done]. intros s0 r o Hc0 Hr0 Ho _.
  apply wp_bind. eapply wp_mono; [by apply (optional_string_rule s0 c)|]. intros r1 s1 (Ha1 & Hm1 & y1 & Hy1).
  pose proof (ready_after _ _ _ Hr0 Ha1) as Hr1. destruct Ha1 as (Hc1 & _).
  apply wp_bind. eapply wp_mono; [by apply (optional_string_rule s1 sc)|]. intros r2 s2 (Ha2 & Hm2 & y2 & Hy2).
  pose proof (ready_after _ _ _ Hr1 Ha2) as Hr2. destruct Ha2 as (Hc2 & _).
  apply wp_bind. eapply wp_mono; [by apply (optional_string_rule s2 (Some t))|]. intros r3 s3 (Ha3 & Hm3 & y3 & Hy3).
  pose proof (ready_after _ _ _ Hr2 Ha3) as Hr3. destruct Ha3 as (Hc3 & _).
  apply wp_bind. eapply wp_mono; [apply (type_array_rule s3 types Hr3); by destruct types|].
  intros r4 s4 (Ha4 & Hm4 & y4 & Hy4). pose proof (ready_after _ _ _ Hr3 Ha4) as Hr4. destruct Ha4 as (Hc4 & _).
  destruct (made_cons s2 s3 s4 r3 [r4] Hr3 Hc3 Hc4 Hm3 ltac:(by constructor) ltac:(split; [right; set_solver|done])) as [F3 A3].
  assert (Hc24 : calm s2 s4) by (by transitivity s3).
  destruct (made_cons s1 s2 s4 r2 [r3; r4] Hr2 Hc2 Hc24 Hm2 F3 A3) as [F2 A2].
  assert (Hc14 : calm s1 s4) by (by transitivity s2).
  destruct (made_cons s0 s1 s4 r1 [r2; r3; r4] Hr1 Hc1 Hc14 Hm1 F2 A2) as [F1 A1].
  assert (Hc04 : calm s0 s4) by (by transitivity s1).
  apply wp_bind. eapply wp_mono; [apply (string_args_rule s4 _ [y1; y2; y3; y4])|].
  { constructor; [by apply (refers_calm s1); [apply Hr1| |]|]. constructor; [by apply (refers_calm s2); [apply Hr2| |]|].
    constructor; [by apply (refers_calm s3); [apply Hr3| |]|]. by constructor. }
  intros args ? [-> ->]. apply wp_bind, wp_member.
  apply (call_with_locals s0 s4 _ r o); try done.
  - apply Hr0.
  - apply (polite_calm s0); [done|]. by apply (polite_calm s).
  - apply (calm_object s0); [apply Hr0|done|done].
  - by apply (takes_calm s).
Qed.

Lemma ServiceGet_safe s obj sql n old e Q :
  ready s -> polite s -> held s obj -> java_text sql = true -> takes s old Q ->
  (forall s1 e', calm s s1 -> ready s1 -> Q (old, e') s1) ->
  wp (DocumentDbQueryMappingServiceGet obj sql n old e) s Q.
Proof.
  intros Hr Hpol Hp Ht HQ Hd. apply with_object_safe; [done|done| |done]. intros s0 r o Hc0 Hr0 Ho _.
  unfold java_text in Ht. destruct (mutf8_units (length sql) (c_str sql)) as [us|] eqn:Hu; [|done].
  apply wp_bind. eapply wp_mono; [by apply (NewStringUTF_rule s0 sql us)|]. intros rs s1 (x & _ & _ & Ha1 & Hl & Hge).
  pose proof (ready_after _ _ _ Hr0 Ha1) as Hr1. destruct Ha1 as (Hc1 & _). apply wp_bind, wp_member, wp_bind.
  eapply wp_mono; [apply (string_args_rule s1 [rs] [Some x])|].
  { constructor; [|done]. split; [apply Hl|by apply local_object]. }
  intros args ? [-> ->]. apply wp_bind.
  assert (Hs0 : sound s0) by apply Hr0. assert (Hs1 : sound s1) by apply Hr1.
  assert (Hpol1 : polite s1) by (apply (polite_calm s0); [done|]; by apply (polite_calm s)).
  eapply wp_mono; [apply (CallObject_rule s1 "m_DocumentDbQueryMappingServiceGet" r o); [done|done|by apply (calm_object s0)]|].
  intros result s2. set (as_ := (_ ++ _)%list).
  assert (Hgen : forall v q, after s1 s2 v q -> (result = 0 \/ (j_next s1 <= result /\ exists y, local_at s2 result y)) ->
    (q = None \/ result = 0) ->
    wp (let! _ := DeleteLocalRef rs in let! e0 := ExceptionCheck in take_object old result e0) s2 Q).
  { intros v q (Hc2 & Hv2 & Hp2) Hres Hq. apply wp_bind. assert (Hc02 : calm s0 s2) by (by transitivity s1).
    eapply wp_mono; [apply (delete_rule s0 s2 rs Hc02)|].
    { right. split; [done|]. exists x. by apply (local_calm s1). }
    intros [] s3 [(Hc3 & Hv3 & Hp3) Hkeep]. apply wp_bind. rewrite Hp2 in Hp3.
    eapply wp_mono; [apply (check_rule s0 s3 (j_vm s3) q Hs0); [by apply (polite_calm s)|done]|].
    intros e' s4 He. assert (Hy : exists y, refers s4 result y /\ got y e' /\ calm s0 s4 /\ ready s4).
    { destruct q as [t|].
      - destruct He as (Ha4 & _ & ->). destruct Hq as [?| ->]; [done|]. exists None.
        split; [done|]. split; [done|]. split; [apply Ha4|exact (ready_after _ _ _ Hr0 Ha4)].
      - destruct He as [-> ->]. assert (Hr3 : ready s3) by (split; [by apply (sound_calm s0)|done]).
        destruct Hres as [->|(Hn & y & Hne & Hy)]; [by exists None|]. exists (Some y).
        split; [|done]. split; [done|]. unfold object_at. rewrite Hkeep; [by rewrite Hy|].
        pose proof (local_lt s1 rs x Hs1 Hl). lia. }
    destruct Hy as (y & Hy & Hg & Hc4 & Hr4). eapply take_rule; [done|exact Hy|done|].
    apply (takes_calm s); [by transitivity s0|done]. }
  destruct (invoke _ o as_ (j_vm s1)) as [[[[y|]| | | |]|t] v]; try done.
  - intros (Ha & Hl2 & Hn). apply (Hgen v None Ha); [right; eauto|by left].
  - intros (Ha & ->). apply (Hgen v None Ha); by left.
  - intros (Ha & ->). apply (Hgen v (Some t) Ha); [by left|by right].
Qed.

Lemma object_run_safe s c obj old e Q :
  ready s -> polite s -> held s obj -> allowed_object c = true -> takes s old Q ->
  (forall s1 e', calm s s1 -> ready s1 -> Q (old, e') s1) ->
  wp (object_run c obj old e) s Q.
Proof.
  intros Hr Hpol Hp Hal HQ Hd.
  destruct c; [..|by apply ServiceGet_safe]; try (by apply GetTables_safe);
    (apply with_object_safe; [done|done| |done]); intros s0 r o Hc0 Hr0 Ho _;
    (apply (takes_calm s s0) in HQ; [|done]); (assert (Hpol0 : polite s0) by (by apply (polite_calm s)));
    first [by apply (object_call_safe s0 _ _ old r o) | by apply (texts_call_safe s0 _ _ old r o)].
Qed.

(** ** Values *)

Definition settled {A} (s : jenv J O) (_ : A) (s' : jenv J O) : Prop := calm s s' /\ ready s'.

Lemma settled_after {A} s s' v (a : A) : ready s -> after s s' v None -> settled s a s'.
Proof. intros Hr Ha. split; [apply Ha|by eapply ready_after]. Qed.
Lemma settled_mono {A} s s1 (m : jop A) : calm s s1 -> wp m s1 (settled s1) -> wp m s1 (settled s).
Proof. intros Hc Hm. eapply wp_mono; [exact Hm|]. intros a s2 [? ?]. split; [by transitivity s1|done]. Qed.

(** The answer of a call, when only its safety matters. *)
Lemma answer_settled {A} (m : jop A) s o f args (P : A -> jvalue O + ErrorInfo -> Prop) :
  ready s ->
  wp m s (fun x s' => let (a, v) := java_call s f o args (j_vm s) in after s s' v None /\ P x a) ->
  wp m s (settled s).
Proof.
  intros Hr Hm. eapply wp_mono; [exact Hm|]. intros x s'. destruct (java_call _ _ _ _ _) as [a v]. intros [Ha _].
  by eapply settled_after.
Qed.

Lemma with_object_settled {A} s p msg e (dflt : A) k :
  ready s -> polite s -> held s p ->
  (forall s1 r o, ready s1 -> polite s1 -> object_at s1 r = Some o -> calm s s1 -> pointee s1 p = Some o -> wp (k r) s1 (settled s1)) ->
  wp (with_object p msg e dflt k) s (settled s).
Proof.
  intros Hr Hpol Hp Hk. apply with_object_safe; [done|done| |].
  - intros s1 r o Hc Hr1 Ho Hp1. apply settled_mono; [done|]. apply (Hk s1 r o); [done|by apply (polite_calm s)|done..].
  - by intros s1 e' Hc Hr1.
Qed.
Lemma reset_with_settled {A} s p value e (k : Z -> jop (option A * ErrorInfo)) :
  ready s -> polite s -> held s p ->
  (forall s1 r o, ready s1 -> polite s1 -> object_at s1 r = Some o -> calm s s1 -> pointee s1 p = Some o -> wp (k r) s1 (settled s1)) ->
  wp (reset_with p value e k) s (settled s).
Proof.
  intros Hr Hpol Hp Hk. assert (Hw := with_object_settled s p "" e None k Hr Hpol Hp Hk).
  unfold reset_with, with_object in *. destruct (p =? 0); [|done]. apply wp_ret. by split.
Qed.

Lemma bool_settled s m value r o :
  ready s -> polite s -> object_at s r = Some o -> kind_of m = Some KBoolean -> wp (bool_call m value r) s (settled s).
Proof. intros Hr Hpol Ho Hk. eapply answer_settled; [done|]. by apply (bool_call_rule s m value r o). Qed.
Lemma int_settled s m value r o :
  ready s -> polite s -> object_at s r = Some o -> kind_of m = Some KInt -> wp (int_call m value r) s (settled s).
Proof. intros Hr Hpol Ho Hk. eapply answer_settled; [done|]. by apply (int_call_rule s m value r o). Qed.
Lemma void_settled s m r o :
  ready s -> polite s -> object_at s r = Some o -> kind_of m = Some KVoid -> wp (void_call m r) s (settled s).
Proof. intros Hr Hpol Ho Hk. eapply answer_settled; [done|]. by apply (void_call_rule s m r o). Qed.

Lemma optional_text_settled s e r y :
  ready s -> refers s r y -> wp (optional_text e r) s (settled s).
Proof.
  intros Hr Hy. unfold optional_text. destruct (is_success e && negb (r =? 0)) eqn:Hb; [|by apply wp_ret].
  apply andb_true_iff in Hb as [_ Hb]. destruct (Z.eqb_spec r 0); [done|]. destruct y as [o|]; [|done].
  apply wp_bind. eapply wp_mono; [apply (GetStringUTFChars_rule s r o); [apply Hr|apply Hy]|].
  by intros t s' [-> ->].
Qed.
Lemma cstring_settled s r y : ready s -> refers s r y -> wp (JavaStringToCString r) s (settled s).
Proof.
  intros Hr Hy. eapply wp_mono; [apply (JavaStringToCString_rule s r y); [apply Hr|exact Hy]|].
  by intros t s' [-> ->].
Qed.

(** Integers: whether the value was null is asked behind it. *)
Definition null_known (s : jenv J O) : Prop :=
  (forall o v, exists y, (invoke (id_of s "m_ResultSetWasNull") o [] v).1 = inl y)
  /\ forall v, (attach_thread v).1 = JNI_OK.
Lemma null_known_steady s s' : steady s s' -> null_known s -> null_known s'.
Proof. intros Hc [Hn Ha]. split; [|done]. intros o v. rewrite (steady_id_of _ _ _ Hc). apply Hn. Qed.

Lemma WasNull_rule s p o e :
  ready s -> polite s -> null_known s -> pointee s p = Some o ->
  wp (ResultSetWasNull p false e) s (fun x s' => settled s x s' /\ x.2 = no_info
    /\ exists v b, attach_thread (j_vm s) = (JNI_OK, v) /\ invoke (id_of s "m_ResultSetWasNull") o [] v = (inl (VBoolean b), j_vm s')
       /\ x.1 = b).
Proof.
  intros Hr Hpol [Hn Hat] Ho. apply (with_object_rule p _ e false _ s o); [done|done| |].
  - intros v s' r Hv Ha Hobj. pose proof (ready_after _ _ _ Hr Ha) as Hr'.
    eapply wp_mono; [apply (bool_call_rule s' "m_ResultSetWasNull" false r o Hr'); [|done|done]|].
    { by apply (polite_calm s); [apply Ha|]. }
    intros x s2. rewrite (java_call_calm s) by apply Ha. replace (j_vm s') with v by (symmetry; apply Ha). unfold java_call.
    destruct (Hn o v) as [y Hy]. destruct (invoke _ o [] v) as [a w] eqn:Hi. cbn in Hy. subst a.
    intros [Ha2 Hx]. destruct y as [| | |b|]; try done. subst x. cbn. split.
    { eapply settled_after; [exact Hr|]. by eapply after_trans. }
    split; [done|]. exists v, b. split; [done|]. destruct Ha2 as (_ & -> & _). by rewrite Hi.
  - intros res v s' Hv Hne _. pose proof (Hat (j_vm s)) as Hok. by rewrite Hv in Hok.
Qed.

Lemma int_unless_null_settled s p o value result e :
  ready s -> polite s -> null_known s -> pointee s p = Some o ->
  wp (int_unless_null p value result e) s (settled s).
Proof.
  intros Hr Hpol Hn Ho. unfold int_unless_null. destruct (is_success e) eqn:He; [|by apply wp_ret].
  apply wp_bind. eapply wp_mono; [by apply (WasNull_rule s p o e)|]. intros [b e'] s' (Hset & He' & _).
  cbn in He'. subst e'. by apply wp_ret.
Qed.

Definition allowed_value (c : value_op) : bool :=
  match c with
  | OpStringByName n | OpIntByName n => java_text n
  | OpColumnBoolean m => bool_decide (kind_of m = Some KBoolean)
  | OpColumnInt m => bool_decide (kind_of m = Some KInt)
  | OpColumnString m => bool_decide (kind_of m = Some KObject)
  | _ => true
  end.

(** A method with a text as its argument, up to the deletion of the text. *)
Lemma name_argument_rule {A} s name (k : Z -> list (jvalue O) -> jop A) :
  ready s -> java_text name = true ->
  (forall jname o s1, calm s s1 -> ready s1 -> local_at s1 jname o -> j_next s <= jname ->
     wp (k jname [VObject (Some o)]) s1 (settled s)) ->
  wp (let! jname := NewStringUTF name in let! args := string_args [jname] in k jname args) s (settled s).
Proof.
  intros Hr Ht Hk. unfold java_text in Ht. destruct (mutf8_units (length name) (c_str name)) as [us|] eqn:Hu; [|done].
  apply wp_bind. eapply wp_mono; [by apply (NewStringUTF_rule s name us)|]. intros jname s1 (x & _ & _ & Ha & Hl & Hge).
  apply wp_bind. eapply wp_mono; [apply (string_args_rule s1 [jname] [Some x])|].
  { constructor; [|done]. split; [apply Hl|by apply local_object]. }
  intros args ? [-> ->]. apply (Hk jname x s1); [apply Ha|by eapply ready_after|done|done].
Qed.

Lemma delete_settled s s1 r o : ready s -> calm s s1 -> ready s1 -> local_at s1 r o -> j_next s <= r ->
  wp (DeleteLocalRef r) s1 (fun _ s' => settled s tt s' /\ forall r', r' <> r -> j_refs s' !! r' = j_refs s1 !! r').
Proof.
  intros [Hs _] Hc [_ Hp1] Hl Hge. eapply wp_mono; [apply (delete_rule s s1 r Hc); right; eauto|].
  intros [] s' [(Hc' & _ & Hp') Hk]. rewrite Hp1 in Hp'. split; [|done]. split; [done|]. split; [|done].
  by apply (sound_calm s).
Qed.

Lemma int_call_safe {A} s m r o args (k : Z -> ErrorInfo -> jop A) Q :
  ready s -> polite s -> kind_of m = Some KInt -> object_at s r = Some o ->
  (forall res e s1, calm s s1 -> ready s1 -> wp (k res e) s1 Q) ->
  wp (let! res := CallIntMethod r (id_of s m) args in let! e := ExceptionCheck in k res e) s Q.
Proof.
  intros Hr Hpol Hk Ho HQ. apply wp_bind. eapply wp_mono; [by apply (CallInt_rule s m r o)|]. intros res s1.
  assert (Hgen : forall v q, after s s1 v q -> wp (let! e := ExceptionCheck in k res e) s1 Q).
  { intros v q Ha. apply wp_bind. eapply wp_mono; [apply (check_rule s s1 v q); [apply Hr|done|done]|]. intros e s2.
    destruct q as [t|].
    - intros (Ha2 & _ & _). apply HQ; [apply Ha2|exact (ready_after _ _ _ Hr Ha2)].
    - intros [-> _]. apply HQ; [apply Ha|exact (ready_after _ _ _ Hr Ha)]. }
  destruct (invoke _ o args (j_vm s)) as [[[| b| | |]|t] v]; try done; intros [Ha _]; by eapply Hgen.
Qed.

Lemma error_of_settled {A} s (m : jop (A * ErrorInfo)) : wp m s (settled s) -> wp (result_error m) s (settled s).
Proof. intros Hm. apply wp_bind. eapply wp_mono; [exact Hm|]. by intros [a e] s' Hs. Qed.

Lemma string_name_settled s p name value e :
  ready s -> polite s -> held s p -> java_text name = true -> wp (ResultSetGetString_name p name value e) s (settled s).
Proof.
  intros Hr Hpol Hp Ht. apply reset_with_settled; [done..|]. intros s1 r o Hr1 Hpol1 Ho _ _.
  apply name_argument_rule; [done..|]. intros jname x s2 Hc2 Hr2 Hl Hge. apply wp_bind, wp_member.
  assert (Hs1 : sound s1) by apply Hr1. assert (Hs2 : sound s2) by apply Hr2.
  apply (object_safe_rule s2 _ r o); [done|by apply (polite_calm s1)|done|by apply (calm_object s1)|].
  intros result e' s3 y Hc3 Hr3 Hy Hres _. apply wp_bind.
  assert (Hc13 : calm s1 s3) by (by transitivity s2).
  eapply wp_mono; [apply (delete_settled s1 s3 jname x Hr1 Hc13 Hr3); [by apply (local_calm s2)|done]|].
  intros [] s4 [[Hc4 Hr4] Hk]. apply settled_mono; [done|]. eapply optional_text_settled; [done|].
  eapply refers_kept; [exact Hy|]. destruct Hres as [->|Hge'].
  - apply Hk. intros <-. by destruct Hl.
  - apply Hk. pose proof (local_lt s2 jname x Hs2 Hl). lia.
Qed.

Lemma int_name_settled s p name value e :
  ready s -> polite s -> null_known s -> held s p -> java_text name = true ->
  wp (ResultSetGetInt_name p name value e) s (settled s).
Proof.
  intros Hr Hpol Hn Hp Ht. apply reset_with_settled; [done..|]. intros s1 r o Hr1 Hpol1 Ho Hc1 Hob.
  apply name_argument_rule; [done..|]. intros jname x s2 Hc2 Hr2 Hl Hge. apply wp_bind, wp_member.
  assert (Hs1 : sound s1) by apply Hr1. assert (Hs2 : sound s2) by apply Hr2.
  apply (int_call_safe s2 _ r o); [done|by apply (polite_calm s1)|done|by apply (calm_object s1)|].
  intros res e' s3 Hc3 Hr3. apply wp_bind. assert (Hc13 : calm s1 s3) by (by transitivity s2).
  eapply wp_mono; [apply (delete_settled s1 s3 jname x Hr1 Hc13 Hr3); [by apply (local_calm s2)|done]|].
  intros [] s4 [[Hc4 Hr4] _]. apply settled_mono; [done|]. apply (int_unless_null_settled s4 p o).
  - done.
  - by apply (polite_calm s1).
  - apply (null_known_steady s); [|done]. apply calm_steady. by transitivity s1.
  - by rewrite (calm_pointee s1).
Qed.

Lemma int_index_settled s p m args (value : Z -> option Z) v0 e :
  ready s -> polite s -> null_known s -> held s p -> kind_of m = Some KInt ->
  wp (reset_with p v0 e (fun r =>
    let! id := member m in
    let! result := CallIntMethod r id args in
    let! e := ExceptionCheck in
    int_unless_null p (value result) result e)) s (settled s).
Proof.
  intros Hr Hpol Hn Hp Hk. apply reset_with_settled; [done..|]. intros s1 r o Hr1 Hpol1 Ho Hc1 Hob.
  apply wp_bind, wp_member. apply (int_call_safe s1 _ r o); [done..|]. intros res e' s3 Hc3 Hr3.
  apply settled_mono; [done|]. assert (Hs1 : sound s1) by apply Hr1. apply (int_unless_null_settled s3 p o).
  - done.
  - by apply (polite_calm s1).
  - apply (null_known_steady s); [|done]. apply calm_steady. by transitivity s1.
  - by rewrite (calm_pointee s1).
Qed.

(** Texts that methods give. *)
Lemma text_settled {A} s m r o args (k : Z -> ErrorInfo -> jop A) :
  ready s -> polite s -> kind_of m = Some KObject -> object_at s r = Some o ->
  (forall result e s1 y, ready s1 -> refers s1 result y -> wp (k result e) s1 (settled s1)) ->
  wp (let! id := member m in let! result := CallObjectMethod r id args in let! e := ExceptionCheck in k result e) s (settled s).
Proof.
  intros Hr Hpol Hk Ho HQ. apply wp_bind, wp_member. apply (object_safe_rule s m r o); [done..|].
  intros result e s1 y Hc Hr1 Hy _ _. apply settled_mono; [done|]. by apply (HQ result e s1 y).
Qed.

Lemma settled_bind {A B} s (m : jop A) (k : A -> jop B) :
  wp m s (settled s) -> (forall a s1, ready s1 -> wp (k a) s1 (settled s1)) -> wp (bind m k) s (settled s).
Proof.
  intros Hm Hk. apply wp_bind. eapply wp_mono; [exact Hm|]. intros a s1 [Hc Hr].
  apply settled_mono; [done|]. by apply Hk.
Qed.

Lemma java_string_settled s p e :
  ready s -> held s p -> p <> 0 -> wp (JavaStringToCppString p e) s (settled s).
Proof.
  intros Hr [?|[o Ho]] Hne; [done|]. unfold JavaStringToCppString. apply wp_bind.
  eapply wp_mono; [apply Attach_rule, Hr|]. intros e' s1. destruct (attach_thread (j_vm s)) as [res v]. intros [Ha _].
  destruct Hr as [Hs Hp]. rewrite Hp in Ha. assert (Hr1 : ready s1) by (by apply (ready_after s s1 v)).
  apply settled_mono; [apply Ha|]. destruct (is_success e'); [|by apply wp_ret].
  rewrite <- (calm_pointee s s1) in Ho by (done || apply Ha).
  destruct (GetRef_rule p s1 o (proj1 Hr1) Ho) as [Hg _]. apply wp_bind. eapply wp_mono; [exact Hg|].
  intros r ? [-> Hobj]. apply settled_bind; [|by intros; apply wp_ret].
  apply (cstring_settled s1 r (Some o)); [done|]. split; [|done]. intros ->. unfold object_at in Hobj.
  destruct (j_refs s1 !! 0) as [x|] eqn:H0'; [|done]. destruct Hr1 as [Hs1 _]. apply (so_refs _ Hs1) in H0'. lia.
Qed.

Lemma value_run_safe s c obj e :
  ready s -> polite s -> null_known s -> held s obj -> allowed_value c = true -> wp (value_run c obj e) s (settled s).
Proof.
  intros Hr Hpol Hn Hp Hal.
  assert (Htrivial : forall s1 : jenv J O, ready s1 -> settled s1 e s1) by (by split).
  destruct c; cbn [value_run allowed_value] in *; try apply error_of_settled;
    try (apply with_object_settled; [done..|]; intros s1 r o Hr1 Hpol1 Ho _ _;
         first [by apply (void_settled s1 _ r o) | by apply (bool_settled s1 _ _ r o) | by apply (int_settled s1 _ _ r o)]).
  - apply with_object_settled; [done..|]. intros s1 r o Hr1 Hpol1 Ho _ _. apply wp_bind, wp_member.
    apply (int_call_safe s1 _ r o); [done..|]. by intros res e' s2 Hc2 Hr2.
  - apply with_object_settled; [done..|]. intros s1 r o Hr1 Hpol1 Ho _ _. apply (text_settled s1 _ r o); [done..|].
    intros result e' s2 y Hr2 Hy. apply settled_bind; [by apply (optional_text_settled s2 e' result y)|].
    by intros t s3 Hr3.
  - apply reset_with_settled; [done..|]. intros s1 r o Hr1 Hpol1 Ho _ _. apply (text_settled s1 _ r o); [done..|].
    intros result e' s2 y Hr2 Hy. by apply (optional_text_settled s2 e' result y).
  - by apply string_name_settled.
  - by apply int_index_settled.
  - by apply int_name_settled.
  - by apply int_index_settled.
  - apply with_object_settled; [done..|]. intros s1 r o Hr1 Hpol1 Ho _ _. apply (text_settled s1 _ r o); [done..|].
    intros result e' s2 y Hr2 Hy. destruct (_ || _); [by apply wp_ret|].
    apply settled_bind; [by apply (cstring_settled s2 result y)|]. by intros t s3 Hr3.
  - destruct (Z.eqb_spec obj 0); [by apply wp_ret|]. by apply error_of_settled, java_string_settled.
  - apply bool_decide_eq_true in Hal. apply with_object_settled; [done..|]. intros s1 r o Hr1 Hpol1 Ho _ _.
    by apply (bool_settled s1 _ _ r o).
  - apply bool_decide_eq_true in Hal. apply with_object_settled; [done..|]. intros s1 r o Hr1 Hpol1 Ho _ _.
    by apply (int_settled s1 _ _ r o).
  - apply bool_decide_eq_true in Hal. apply with_object_settled; [done..|]. intros s1 r o Hr1 Hpol1 Ho _ _.
    apply (text_settled s1 _ r o); [done..|]. intros result e' s2 y Hr2 Hy. destruct (negb _); [by apply wp_ret|].
    destruct (result =? 0); [by apply wp_ret|].
    apply settled_bind; [by apply (cstring_settled s2 result y)|]. by intros t s3 Hr3.
Qed.

(** * Clients *)

(** Every pointer is counted as often as the client's variables have it. *)
Definition uses (p : Z) (vars : list Z) : Z := Z.of_nat (count_occ Z.eq_dec vars p).
Definition count_of (m : gmap Z (Z * Z)) (p : Z) : Z := match m !! p with Some (_, n) => n | None => 0 end.
Definition counted (m : gmap Z (Z * Z)) (vars : list Z) : Prop :=
  (forall p, p <> 0 -> count_of m p = uses p vars) /\ forall p ref n, m !! p = Some (ref, n) -> 0 < n.

Definition one (p q : Z) : Z := if Z.eq_dec p q then 1 else 0.

Lemma uses_insert vars i p q :
  (i < length vars)%nat -> uses q (<[i := p]> vars) = uses q vars - one (slot vars i) q + one p q.
Proof.
  intros Hi. unfold uses, slot, one. revert i Hi. induction vars as [|x vars IH]; intros i Hi; [cbn in Hi; lia|].
  destruct i as [|i].
  - cbn. destruct (Z.eq_dec p q), (Z.eq_dec x q); lia.
  - specialize (IH i ltac:(cbn in Hi; lia)). change (<[S i := p]> (x :: vars)) with (x :: <[i := p]> vars).
    cbn [count_occ nth]. destruct (Z.eq_dec x q); lia.
Qed.

Lemma uses_slot vars i : (i < length vars)%nat -> 0 < uses (slot vars i) vars.
Proof.
  intros Hi. unfold uses, slot. assert (Hin : In (nth i vars 0) vars) by (by apply nth_In).
  apply (count_occ_In Z.eq_dec) in Hin. lia.
Qed.

Lemma counted_held s vars i : ready s -> counted (j_shared s) vars -> held s (slot vars i).
Proof.
  intros [Hs _] [Hc _]. destruct (Z.eq_dec (slot vars i) 0) as [->|Hne]; [by left|]. right.
  destruct (decide (i < length vars)%nat) as [Hi|Hi].
  - specialize (Hc _ Hne). pose proof (uses_slot vars i Hi). unfold count_of in Hc. unfold pointee.
    destruct (j_shared s !! slot vars i) as [[ref n]|] eqn:Hp; [|lia]. cbn.
    destruct (so_shared _ Hs _ _ _ Hp) as [o Ho]. exists o. unfold object_at. by rewrite Ho.
  - exfalso. apply Hne. unfold slot. apply nth_overflow. lia.
Qed.
Lemma held_shared s p : held s p -> p = 0 \/ is_Some (j_shared s !! p).
Proof.
  intros [->|[o Ho]]; [by left|]. right. unfold pointee in Ho. destruct (j_shared s !! p); [by eexists|done].
Qed.

Lemma drop_counts m p q : p <> 0 -> is_Some (m !! p) -> count_of (drop_pointer p m) q = count_of m q - one p q.
Proof.
  intros _ [[ref n] Hp]. unfold drop_pointer, count_of, one. rewrite Hp.
  destruct (Z.eqb_spec n 1) as [->|Hn]; destruct (Z.eq_dec p q) as [->|Hne].
  - by rewrite lookup_delete_eq, Hp.
  - rewrite lookup_delete_ne by done. lia.
  - by rewrite lookup_insert_eq, Hp.
  - rewrite lookup_insert_ne by done. lia.
Qed.

(** A variable gets a pointer, which was counted before; the old one goes. *)
Lemma counted_assign m vars i p :
  m !! 0 = None -> (i < length vars)%nat -> (slot vars i = 0 \/ is_Some (m !! slot vars i)) ->
  (forall q, q <> 0 -> count_of m q = uses q vars + one p q) -> (forall q ref n, m !! q = Some (ref, n) -> 0 < n) ->
  counted (drop_pointer (slot vars i) m) (<[i := p]> vars).
Proof.
  intros Hz0 Hi Hold Hc Hpos. split.
  - intros q Hq. rewrite uses_insert by done. specialize (Hc q Hq). destruct Hold as [Hz|Hsome].
    + rewrite Hz. unfold drop_pointer. rewrite Hz0, Hc. unfold one. destruct (Z.eq_dec 0 q); lia.
    + rewrite drop_counts; [lia| |done]. intros Hz. rewrite Hz, Hz0 in Hsome. by destruct Hsome.
  - intros q ref n. unfold drop_pointer. destruct (m !! slot vars i) as [[r k]|] eqn:Hk; [|apply Hpos].
    destruct (Z.eqb_spec k 1) as [->|Hne].
    + intros [_ Hq]%lookup_delete_Some. by apply Hpos in Hq.
    + intros [[<- [= <- <-]]|[_ Hq]]%lookup_insert_Some; [|by apply Hpos in Hq]. apply Hpos in Hk. lia.
Qed.

(** ** What an assignment does to the state *)

Record assigned (s : jenv J O) (old : Z) (r : Z * ErrorInfo) (s' : jenv J O) : Prop := {
  as_ready : ready s';
  as_members : j_members s' = j_members s;
  as_print : j_print s' = j_print s;
  as_shared : (r.1 = old /\ j_shared s' = j_shared s)
    \/ (r.1 = 0 /\ j_shared s' = drop_pointer old (j_shared s))
    \/ exists g, j_next s <= r.1 /\ j_shared s' = drop_pointer old (<[r.1 := (g, 1)]> (j_shared s));
  as_local : forall x o, local_at s x o -> local_at s' x o
}.

Lemma release_local (s s' : jenv J O) p x o :
  sound s -> (forall r, j_refs s' !! r = j_refs s !! r \/ exists n, j_shared s !! p = Some (r, n)) ->
  local_at s x o -> local_at s' x o.
Proof.
  intros Hs Hr [Hne Hx]. split; [done|]. destruct (Hr x) as [->|[n Hn]]; [done|].
  destruct (so_shared _ Hs _ _ _ Hn) as [o' Ho']. rewrite Hx in Ho'. done.
Qed.

Lemma takes_assigned s old : ready s -> held s old -> takes s old (assigned s old).
Proof.
  intros Hr Hold. pose proof (proj1 Hr) as Hs. split.
  - intros s1 s2 p y e Hc Hr1 Hob. destruct Hob as [Hr2 _ Hst Hp (g & Hg & Hsh) _].
    pose proof (ca_next _ _ Hc). eapply wp_mono; [apply (release_rule s2 old Hr2)|].
    { destruct (held_shared s old Hold) as [->|[x Hx]]; [by left|]. right. exists x.
      rewrite Hsh, (ca_shared _ _ Hc), lookup_insert_ne; [done|]. apply (so_pointers _ Hs) in Hx. lia. }
    intros [] s3 (Hr3 & _ & _ & Hm & Hpr & Hsh3 & Hrefs). split; [done| | | |].
    + rewrite Hm, (st_members _ _ Hst). apply Hc.
    + rewrite Hpr, (st_print _ _ Hst). apply Hc.
    + right. right. exists g. cbn. split; [lia|]. by rewrite Hsh3, Hsh, (ca_shared _ _ Hc).
    + intros x o Hl. apply (release_local s2 s3 old); [apply Hr2|done|].
      apply (local_calm s s1) in Hl; [|done..]. pose proof (local_lt s1 x o (proj1 Hr1) Hl).
      destruct Hl as [Hne Hx]. split; [done|]. by rewrite (st_old _ _ Hst).
  - intros s1 e Hc Hr1. eapply wp_mono; [apply (release_rule s1 old Hr1)|].
    { rewrite (ca_shared _ _ Hc). by apply held_shared. }
    intros [] s3 (Hr3 & _ & _ & Hm & Hpr & Hsh3 & Hrefs). split; [done| | | |].
    + rewrite Hm. apply Hc.
    + rewrite Hpr. apply Hc.
    + right. left. by rewrite Hsh3, (ca_shared _ _ Hc).
    + intros x o Hl. apply (release_local s1 s3 old); [apply Hr1|done|]. by apply (local_calm s s1).
Qed.

Lemma kept_assigned s old s1 e : ready s -> calm s s1 -> ready s1 -> assigned s old (old, e) s1.
Proof.
  intros Hr Hc Hr1. split; [done|apply Hc|apply Hc| |].
  - left. split; [done|apply Hc].
  - intros x o. apply local_calm; [apply Hr|done].
Qed.

Lemma assigned_counted s vars i r s' :
  ready s -> counted (j_shared s) vars -> (i < length vars)%nat -> assigned s (slot vars i) r s' ->
  counted (j_shared s') (<[i := r.1]> vars).
Proof.
  intros Hr Hc Hi Ha. pose proof (counted_held s vars i Hr Hc) as Hheld. destruct Hr as [Hs _].
  pose proof (held_shared s _ Hheld) as Hsl.
  assert (Hnull : j_shared s !! 0 = None).
  { destruct (j_shared s !! 0) as [x|] eqn:Hx; [|done]. apply (so_pointers _ Hs) in Hx. lia. }
  destruct Hc as [Hc Hpos]. destruct (as_shared _ _ _ _ Ha) as [[Hp ->]|[[Hp ->]|(g & Hp & ->)]].
  - rewrite Hp. split; [|done]. intros q Hq. rewrite uses_insert by done. rewrite Hc by done. lia.
  - rewrite Hp. apply counted_assign; [done..| |done]. intros q Hq. rewrite Hc by done. unfold one.
    destruct (Z.eq_dec 0 q); lia.
  - pose proof (so_next _ Hs) as Hn. pose proof (fresh_pointer s _ Hs Hp) as Hf.
    apply counted_assign; [|done| | |].
    + rewrite lookup_insert_ne; [done|lia].
    + destruct Hsl as [?|[x Hx]]; [by left|]. right. exists x. rewrite lookup_insert_ne; [done|]. congruence.
    + intros q Hq. unfold count_of, one. destruct (Z.eq_dec r.1 q) as [<-|Hne].
      * rewrite lookup_insert_eq. specialize (Hc r.1 Hq). unfold count_of in Hc. rewrite Hf in Hc. lia.
      * rewrite lookup_insert_ne by done. specialize (Hc q Hq). unfold count_of in Hc. lia.
    + intros q ref n [[_ [= _ <-]]|[_ Hq]]%lookup_insert_Some; [done|by apply Hpos in Hq].
Qed.

Record client_ok (s : jenv J O) (vars : list Z) : Prop := {
  co_ready : ready s;
  co_polite : polite s;
  co_null : null_known s;
  co_counted : counted (j_shared s) vars
}.

Lemma client_ok_members (s s' : jenv J O) vars :
  ready s' -> j_members s' = j_members s -> j_print s' = j_print s -> polite s -> null_known s ->
  counted (j_shared s') vars -> client_ok s' vars.
Proof.
  intros Hr Hm Hp [Hpr Hpol] [Hn Hat] Hc.
  assert (Hid : forall f, id_of s' f = id_of s f) by (intros f; unfold id_of; by rewrite Hm).
  split; [done| | |done].
  - split; [congruence|]. intros f o v Hf. rewrite Hid. by apply Hpol.
  - split; [|done]. intros o v. rewrite Hid. apply Hn.
Qed.

Lemma client_assigned s vars i r s' :
  client_ok s vars -> (i < length vars)%nat -> assigned s (slot vars i) r s' -> client_ok s' (<[i := r.1]> vars).
Proof.
  intros [Hr Hpol Hn Hc] Hi Ha. apply (client_ok_members s); [apply Ha..|done|done|].
  by apply (assigned_counted s vars i r s').
Qed.

(** What a client may ask for. *)
Definition allowed (n : nat) (c : client_op) : bool :=
  match c with
  | ClConnect to t => (to <? n)%nat && java_text t
  | ClService to _ _ | ClReset to | ClCopy to _ => (to <? n)%nat
  | ClObject c to _ => (to <? n)%nat && allowed_object c
  | ClValue c _ => allowed_value c
  end.

(** A local reference goes. *)
Lemma delete_local_rule s r o : ready s -> local_at s r o ->
  wp (DeleteLocalRef r) s (fun _ s' => ready s' /\ j_members s' = j_members s /\ j_print s' = j_print s
    /\ j_shared s' = j_shared s /\ forall q, q <> r -> j_refs s' !! q = j_refs s !! q).
Proof.
  intros [Hs Hp] [Hne Hr]. unfold DeleteLocalRef, delete_ref, wp. destruct (Z.eqb_spec r 0); [done|].
  rewrite Hr. cbn [Bool.eqb]. split; [split; [|done]|].
  2: { split; [done|]. split; [done|]. split; [done|]. intros q Hq. by apply lookup_delete_ne. }
  assert (Hg : forall q x, j_refs s !! q = Some (x, true) -> delete r (j_refs s) !! q = Some (x, true)).
  { intros q x Hq. rewrite lookup_delete_ne; [done|]. intros <-. congruence. }
  split; cbn; [apply Hs| |apply Hs| |apply Hs|apply Hs| |apply Hs|apply Hs|].
  - intros q x [_ Hx]%lookup_delete_Some. by apply (so_refs _ Hs) in Hx.
  - intros f Hf. destruct (so_class _ Hs f Hf) as [x Hx]. exists x. by apply Hg.
  - intros p ref k Hq. destruct (so_shared _ Hs p ref k Hq) as [x Hx]. exists x. by apply Hg.
  - intros q x [_ Hq]%lookup_delete_Some. by apply (so_global _ Hs) in Hq.
Qed.

Lemma takes_mono s old (P Q : Z * ErrorInfo -> jenv J O -> Prop) :
  takes s old P -> (forall r s', P r s' -> Q r s') -> takes s old Q.
Proof.
  intros [H1 H2] HPQ. split.
  - intros s1 s2 p y e Hc Hr Hob. eapply wp_mono; [by eapply H1|]. intros [] s3. apply HPQ.
  - intros s1 e Hc Hr. eapply wp_mono; [by eapply (H2 s1 e)|]. intros [] s3. apply HPQ.
Qed.

Lemma connect_safe s t old e :
  ready s -> polite s -> held s old -> java_text t = true ->
  wp (DriverManagerGetConnection t old e) s (assigned s old).
Proof.
  intros Hr Hpol Hold Ht. apply attached_rule; [done| |].
  - intros v s1 _ Ha. assert (Hr1 : ready s1) by (by apply (ready_after s s1 v)). assert (Hc1 : calm s s1) by apply Ha.
    unfold java_text in Ht. destruct (mutf8_units (length t) (c_str t)) as [us|] eqn:Hu; [|done].
    apply wp_bind. eapply wp_mono; [by apply (NewStringUTF_rule s1 t us)|]. intros js s2 (x & _ & _ & Ha2 & Hl & Hge).
    pose proof (ready_after _ _ _ Hr1 Ha2) as Hr2. assert (Hc2 : calm s1 s2) by apply Ha2.
    destruct (so_class _ (proj1 Hr2) "c_DriverManager" eq_refl) as [cls Hcls].
    apply wp_bind, wp_member, wp_bind, wp_member, wp_bind.
    eapply wp_mono; [apply (string_args_rule s2 [js] [Some x])|].
    { constructor; [|done]. split; [apply Hl|by apply local_object]. }
    intros args ? [-> ->]. assert (Hc02 : calm s s2) by (by transitivity s1).
    apply (object_safe_rule s2 _ _ cls); [done|by apply (polite_calm s)|done|unfold object_at; by rewrite Hcls|].
    intros result e' s3 y Hc3 Hr3 Hy _ He. assert (Hc03 : calm s s3) by (by transitivity s2).
    apply wp_bind. assert (Hl3 : local_at s3 js x) by (apply (local_calm s2); [apply Hr2|done|done]).
    eapply take_rule; [done|exact Hy|done|]. assert (Hold3 : held s3 old) by (by apply (held_calm s); [apply Hr| |]).
    destruct (takes_assigned s3 old Hr3 Hold3) as [T1 T2].
    eapply takes_mono; [by apply (takes_assigned s3 old)|]. intros r s4 Has.
    apply wp_bind. eapply wp_mono; [apply (delete_local_rule s4 js x); [apply Has|by apply Has]|].
    intros [] s5 (Hr5 & Hm5 & Hp5 & Hsh5 & Hk5). apply wp_ret. destruct Has as [_ Hm4 Hp4 Hsh4 Hl4]. split; [done| | | |].
    + rewrite Hm5, Hm4. apply Hc03.
    + rewrite Hp5, Hp4. apply Hc03.
    + rewrite Hsh5. rewrite (ca_shared _ _ Hc03) in Hsh4. destruct Hsh4 as [?|[?|(g & Hg & ?)]]; [auto|auto|].
      right. right. exists g. split; [|done]. pose proof (ca_next _ _ Hc03). lia.
    + intros z o Hz. pose proof (local_lt s z o (proj1 Hr) Hz). apply (local_calm s s3) in Hz; [|apply Hr|done].
      apply Hl4 in Hz as [Hz0 Hz]. split; [done|]. rewrite Hk5; [done|]. pose proof (ca_next _ _ Hc1). lia.
  - intros res v s' _ _ Ha. apply kept_assigned; [done|apply Ha|by apply (ready_after s s' v)].
Qed.

Lemma service_safe s a b old e :
  ready s -> polite s -> held s a -> held s b -> held s old ->
  wp (DocumentDbQueryMappingServiceCtor a b old e) s (assigned s old).
Proof.
  intros Hr Hpol Hha Hhb Hold. unfold DocumentDbQueryMappingServiceCtor.
  destruct (Z.eqb_spec a 0) as [|Hna]; [by apply wp_ret, kept_assigned|].
  destruct (Z.eqb_spec b 0) as [|Hnb]; [by apply wp_ret, kept_assigned|].
  destruct Hha as [?|[oa Hoa]]; [done|]. destruct Hhb as [?|[ob Hob]]; [done|].
  apply attached_rule; [done| |].
  - intros v s1 _ Ha. assert (Hr1 : ready s1) by (by apply (ready_after s s1 v)). assert (Hc1 : calm s s1) by apply Ha.
    destruct (so_class _ (proj1 Hr1) "c_DocumentDbQueryMappingService" eq_refl) as [cls Hcls].
    rewrite <- (calm_pointee s s1) in Hoa, Hob by (done || apply Hr).
    destruct (GetRef_rule a s1 oa (proj1 Hr1) Hoa) as [Hga _]. destruct (GetRef_rule b s1 ob (proj1 Hr1) Hob) as [Hgb _].
    apply wp_bind, wp_member, wp_bind, wp_member, wp_bind. eapply wp_mono; [exact Hga|]. intros ra ? [-> Hra].
    apply wp_bind. eapply wp_mono; [exact Hgb|]. intros rb ? [-> Hrb]. apply wp_bind.
    assert (Hnz : forall r o, object_at s1 r = Some o -> refers s1 r (Some o)).
    { intros r o Ho. split; [|done]. intros ->. unfold object_at in Ho. destruct (j_refs s1 !! 0) as [x|] eqn:Hx; [|done].
      apply (so_refs _ (proj1 Hr1)) in Hx. lia. }
    eapply wp_mono; [apply (string_args_rule s1 [ra; rb] [Some oa; Some ob])|].
    { constructor; [by apply Hnz|]. constructor; [by apply Hnz|done]. }
    intros args ? [-> ->].
    apply (object_safe_rule s1 _ _ cls); [done|by apply (polite_calm s)|done|unfold object_at; by rewrite Hcls|].
    intros result e' s3 y Hc3 Hr3 Hy _ He. assert (Hc03 : calm s s3) by (by transitivity s1).
    eapply take_rule; [done|exact Hy|done|]. by apply (takes_calm s), takes_assigned.
  - intros res v s' _ _ Ha. apply kept_assigned; [done|apply Ha|by apply (ready_after s s' v)].
Qed.

Lemma copy_rule s p :
  ready s -> held s p ->
  wp (shared_copy p) s (fun q s' => q = p /\ ready s' /\ j_members s' = j_members s /\ j_print s' = j_print s
    /\ (forall q, q <> 0 -> count_of (j_shared s') q = count_of (j_shared s) q + one p q)
    /\ (forall q, is_Some (j_shared s' !! q) <-> is_Some (j_shared s !! q))
    /\ ((forall q ref n, j_shared s !! q = Some (ref, n) -> 0 < n) ->
        forall q ref n, j_shared s' !! q = Some (ref, n) -> 0 < n)).
Proof.
  intros [Hs Hp] Hh. unfold shared_copy, wp. destruct (Z.eqb_spec p 0) as [->|Hne].
  { split; [done|]. split; [done|]. split; [done|]. split; [done|]. split; [|done].
    intros q Hq. unfold one. destruct (Z.eq_dec 0 q); lia. }
  destruct Hh as [?|[o Ho]]; [done|]. unfold pointee in Ho. destruct (j_shared s !! p) as [[ref n]|] eqn:Hx; [|done].
  split; [done|]. split; [split; [by eapply sound_count|done]|]. split; [done|]. split; [done|]. cbn. split; [|split].
  - intros q Hq. unfold count_of, one. destruct (Z.eq_dec p q) as [<-|Hd].
    + by rewrite lookup_insert_eq, Hx.
    + rewrite lookup_insert_ne by done. lia.
  - intros q. destruct (Z.eq_dec p q) as [<-|Hd].
    + rewrite lookup_insert_eq, Hx. split; by eexists.
    + by rewrite lookup_insert_ne.
  - intros Hpos q r k [[_ [= _ <-]]|[_ Hq]]%lookup_insert_Some; [|by apply Hpos in Hq]. apply Hpos in Hx. lia.
Qed.

Lemma client_run_safe s vars c :
  client_ok s vars -> allowed (length vars) c = true ->
  wp (client_run c vars) s (fun vars' s' => client_ok s' vars' /\ length vars' = length vars).
Proof.
  intros Hok Hal. pose proof Hok as [Hr Hpol Hn Hc].
  assert (Hheld : forall i, held s (slot vars i)) by (intros i; by apply counted_held).
  assert (Hassign : forall to (m : jop (Z * ErrorInfo)), (to < length vars)%nat -> wp m s (assigned s (slot vars to)) ->
    wp (let! (p, _) := m in ret (<[to := p]> vars)) s (fun vars' s' => client_ok s' vars' /\ length vars' = length vars)).
  { intros to m Hto Hm. apply wp_bind. eapply wp_mono; [exact Hm|]. intros [p e] s' Ha. apply wp_ret.
    split; [by apply (client_assigned s vars to (p, e))|apply length_insert]. }
  destruct c as [to t|to a b|c to a|c a|to a|to]; cbn [allowed client_run] in *;
    try (apply andb_true_iff in Hal as [Hi Hal]); try (apply Nat.ltb_lt in Hal); try (apply Nat.ltb_lt in Hi).
  - apply Hassign; [done|]. by apply connect_safe.
  - apply Hassign; [done|]. by apply service_safe.
  - apply Hassign; [done|]. apply object_run_safe; [done..|by apply takes_assigned|]. intros s1 e' Hc1 Hr1.
    by apply kept_assigned.
  - apply wp_bind. eapply wp_mono; [by apply value_run_safe|]. intros e s' [Hc' Hr']. apply wp_ret.
    split; [|done]. apply (client_ok_members s); [done|apply Hc'|apply Hc'|done|done|]. by rewrite (ca_shared _ _ Hc').
  - apply wp_bind. eapply wp_mono; [by apply copy_rule|]. intros q s1 (-> & Hr1 & Hm1 & Hp1 & Hcnt & Hdom & Hpos).
    apply wp_bind. eapply wp_mono; [apply (release_rule s1 (slot vars to) Hr1)|].
    { rewrite Hdom. by apply held_shared. }
    intros [] s2 (Hr2 & _ & _ & Hm2 & Hp2 & Hsh2 & _). apply wp_ret. split; [|apply length_insert].
    apply (client_ok_members s); [done|congruence|congruence|done|done|]. rewrite Hsh2. apply counted_assign; [|done| | |].
    + destruct (j_shared s1 !! 0) as [x|] eqn:Hx; [|done]. apply (so_pointers _ (proj1 Hr1)) in Hx. lia.
    + rewrite Hdom. by apply held_shared.
    + intros q Hq. rewrite Hcnt by done. f_equal. by apply Hc.
    + apply Hpos, Hc.
  - apply wp_bind. unfold assign_null. apply wp_bind.
    eapply wp_mono; [apply (release_rule s (slot vars to) Hr); by apply held_shared|].
    intros [] s2 (Hr2 & _ & _ & Hm2 & Hp2 & Hsh2 & _). apply wp_ret, wp_ret. split; [|apply length_insert].
    apply (client_ok_members s); [done|congruence|congruence|done|done|]. rewrite Hsh2.
    destruct Hc as [Hc Hpos]. apply counted_assign; [|done|by apply held_shared| |done].
    + destruct (j_shared s !! 0) as [x|] eqn:Hx; [|done]. apply (so_pointers _ (proj1 Hr)) in Hx. lia.
    + intros q Hq. rewrite Hc by done. unfold one. destruct (Z.eq_dec 0 q); lia.
Qed.

Lemma client_runs_safe l : forall s vars,
  client_ok s vars -> forallb (allowed (length vars)) l = true ->
  wp (client_runs l vars) s (fun vars' s' => client_ok s' vars').
Proof.
  induction l as [|c l IH]; intros s vars Hok Hal; [by apply wp_ret|].
  cbn [forallb] in Hal. apply andb_true_iff in Hal as [Hc Hl]. apply wp_bind.
  eapply wp_mono; [by apply client_run_safe|]. intros vars' s' [Hok' Hlen]. apply IH; [done|]. by rewrite Hlen.
Qed.

(** Without pointers, only the classes have global references. *)
Lemma no_pointers s vars :
  client_ok s vars -> Forall (eq 0) vars -> j_shared s = ∅.
Proof.
  intros [Hr _ _ [Hc Hpos]] Hz. apply map_eq. intros p. rewrite lookup_empty.
  destruct (j_shared s !! p) as [[ref n]|] eqn:Hp; [|done].
  assert (Hne : p <> 0) by (apply (so_pointers _ (proj1 Hr)) in Hp; lia).
  specialize (Hc p Hne). specialize (Hpos _ _ _ Hp). unfold count_of in Hc. rewrite Hp in Hc. exfalso.
  assert (Hu : uses p vars = 0); [|lia]. unfold uses.
  assert (Hnin : ~ In p vars). { intros Hin. rewrite List.Forall_forall in Hz. by apply Hne, eq_sym, Hz. }
  by apply (count_occ_not_In Z.eq_dec) in Hnin as ->.
Qed.

End safe.
