(* ===== verification/JniCreate.v ===== *)
(** Making a context: [JniContext::Create] against a search through the classes and
    methods that knows nothing of references. *)
From S2P Require Import Prelude Memory Utf8 Diag Config Interop Jni JniContext JniRules JniSafe.

Section create.
Context {J O : Type} `{Jvm J O}.
Abbreviation jop := (op (jenv J O)).
Abbreviation members := (gmap string Z).

(** * The search *)

(** The classes and the method identifiers that were found, and the exception, if there
    is one, that ends the search. *)
Record found : Type := MkFound { fo_classes : gmap string O; fo_ids : gmap string Z }.
Inductive searched : Type := SAll | SMissing (thrown : option O).

Fixpoint search (l : list init_step) (k : found) (v : J) : searched * found * J :=
  match l with
  | [] => (SAll, k, v)
  | IClass f name :: t =>
      match find_class name v with
      | (inl o, v) => search t (MkFound (<[f := o]> (fo_classes k)) (fo_ids k)) v
      | (inr x, v) => (SMissing (Some x), k, v)
      end
  | IMethod f c m :: t =>
      match fo_classes k !! c with
      | Some o =>
          match method_id o m v with
          | (inl id, v) => if id =? 0 then (SMissing None, k, v)
                           else search t (MkFound (fo_classes k) (<[f := id]> (fo_ids k))) v
          | (inr x, v) => (SMissing (Some x), k, v)
          end
      | None => (SMissing None, k, v)
      end
  end.

(** Class and message of the exception, when the methods for them were found. *)
Definition search_error (x : option O) (k : found) (v : J) : text * text :=
  match x, fo_ids k !! "m_Class_getName", fo_ids k !! "m_Throwable_getMessage" with
  | Some t, Some getName, Some getMessage =>
      let (n, v) := invoke getName (class_of t) [] v in
      let (m, _) := invoke getMessage t [] v in (answer_text n, answer_text m)
  | _, _, _ => ([], [])
  end.

(** What [JniContext::Create] gives. *)
Definition create_spec (opts : list text) (e : ErrorInfo) (v : J) : bool * ErrorInfo :=
  let failed (r : text * text) := (false, MkInfo DOCUMENTDB_JNI_ERR_JVM_INIT r.1 r.2) in
  let (res, v) := if created_jvm v then (JNI_OK, v) else create_jvm opts v in
  if negb (res =? JNI_OK) then failed ([], GetJniErrorMessage res)
  else match search steps (MkFound ∅ ∅) v with
       | (SAll, _, _) => (true, e)
       | (SMissing x, k, v) => failed (search_error x k v)
       end.

(** * The members so far *)

Definition step_name (st : init_step) : string := match st with IClass f _ | IMethod f _ _ => f end.

(** Behind the steps [done], with no exception. *)
Record initialising (s : jenv J O) (m : members) (k : found) (done_ : list init_step) : Prop := {
  in_next : 0 < j_next s;
  in_shared : j_shared s = ∅;
  in_refs : forall r x, j_refs s !! r = Some x -> 0 < r < j_next s;
  in_class : forall f name, In (IClass f name) done_ ->
    exists o, fo_classes k !! f = Some o /\ j_refs s !! field m f = Some (o, true);
  in_class_only : forall f o, fo_classes k !! f = Some o -> exists name, In (IClass f name) done_;
  in_method : forall f c mt, In (IMethod f c mt) done_ ->
    field m f <> 0 /\ fo_ids k !! f = Some (field m f) /\ exists cls v, (method_id cls mt v).1 = inl (field m f);
  in_method_only : forall f id, fo_ids k !! f = Some id -> exists c mt, In (IMethod f c mt) done_;
  in_global : forall r o, j_refs s !! r = Some (o, true) -> exists f name, In (IClass f name) done_ /\ field m f = r;
  in_distinct : forall f g n1 n2, In (IClass f n1) done_ -> In (IClass g n2) done_ -> field m f = field m g -> f = g;
  in_others : forall f, f ∉ map step_name done_ -> m !! f = None
}.

Lemma field_insert m f z g : field (<[f := z]> m) g = if String.eqb f g then z else field m g.
Proof.
  unfold field. destruct (String.eqb_spec f g) as [->|Hne]; [by rewrite lookup_insert_eq|by rewrite lookup_insert_ne].
Qed.
Lemma field_new m f z done_ g :
  (f ∉ map step_name done_) -> g ∈ map step_name done_ -> field (<[f := z]> m) g = field m g.
Proof. intros Hf Hg. rewrite field_insert. destruct (String.eqb_spec f g) as [->|]; [done|done]. Qed.

Lemma in_name st (l : list init_step) : In st l -> step_name st ∈ map step_name l.
Proof. intros Hin. apply list_elem_of_In. by apply in_map. Qed.

Lemma empty_initialising s :
  0 < j_next s -> j_shared s = ∅ -> j_refs s = ∅ -> initialising s ∅ (MkFound ∅ ∅) [].
Proof.
  intros Hn Hs Hr. split; [done|done|rewrite ?Hr; done..].
Qed.

(** ** One step *)

Definition with_class (o : O) (v : J) (s : jenv J O) : jenv J O :=
  j_set_next (j_next s + 1 + 1)
    (j_set_refs (delete (j_next s) (<[j_next s + 1 := (o, true)]> (<[j_next s := (o, false)]> (j_refs s)))) (j_set_vm v s)).

Lemma FindClass_rule s name :
  j_pending s = None -> 0 < j_next s ->
  wp (FindClass name) s (fun r s' =>
    match find_class name (j_vm s) with
    | (inl o, v) => r = Some (j_next s + 1) /\ s' = with_class o v s
    | (inr t, v) => r = None /\ s' = j_set_pending (Some t) (j_set_vm v s)
    end).
Proof.
  intros Hp Hn. unfold FindClass, idle, bind, wp. rewrite Hp. cbn.
  destruct (find_class name (j_vm s)) as [[o|t] v]; [|done]. cbn.
  unfold NewGlobalRef, deref_null, idle, deref, bind. cbn. rewrite Hp.
  destruct (Z.eqb_spec (j_next s) 0); [lia|]. cbn. rewrite lookup_insert_eq. cbn.
  unfold DeleteLocalRef, delete_ref. destruct (Z.eqb_spec (j_next s) 0); [lia|]. cbn.
  rewrite lookup_insert_ne, lookup_insert_eq by lia. cbn. done.
Qed.

Lemma FindMethod_rule s cls o mt :
  j_pending s = None -> j_refs s !! cls = Some (o, true) ->
  wp (FindMethod cls mt) s (fun r s' =>
    match method_id o mt (j_vm s) with
    | (inl id, v) => r = (if id =? 0 then None else Some id) /\ s' = j_set_vm v s
    | (inr t, v) => r = None /\ s' = j_set_pending (Some t) (j_set_vm v s)
    end).
Proof.
  intros Hp Hr. unfold FindMethod, idle, deref, bind, wp. rewrite Hp. cbn. rewrite Hr. cbn. unfold in_java.
  by destruct (method_id o mt (j_vm s)) as [[id|t] v].
Qed.

Lemma initialising_set_vm s m k done_ v : initialising s m k done_ -> initialising (j_set_vm v s) m k done_.
Proof. intros []. by split. Qed.
Lemma initialising_java s m k done_ v p : initialising s m k done_ -> initialising (j_set_pending p (j_set_vm v s)) m k done_.
Proof. intros []. by split. Qed.

Lemma with_class_ref s o v r x :
  0 < j_next s -> (forall r x, j_refs s !! r = Some x -> 0 < r < j_next s) ->
  j_refs (with_class o v s) !! r = Some x <-> (r = j_next s + 1 /\ x = (o, true)) \/ j_refs s !! r = Some x.
Proof.
  intros Hn Hr. cbn. rewrite lookup_delete_Some. split.
  - intros [Hne [[<- <-]|[_ Hx]]%lookup_insert_Some]; [by left|]. right. by rewrite lookup_insert_ne in Hx.
  - intros [[-> ->]|Hx].
    + split; [lia|]. apply lookup_insert_eq.
    + pose proof (Hr _ _ Hx). split; [lia|]. rewrite !lookup_insert_ne by lia. done.
Qed.

Lemma initialising_class s m k done_ f name o v :
  initialising s m k done_ -> f ∉ map step_name done_ ->
  initialising (with_class o v s) (<[f := j_next s + 1]> m) (MkFound (<[f := o]> (fo_classes k)) (fo_ids k))
    (done_ ++ [IClass f name]).
Proof.
  intros Hi Hf. destruct Hi as [Hn Hsh Hr Hcl Hclo Hme Hmeo Hg Hd Ho].
  assert (Hnew : forall st, In st done_ -> field (<[f := j_next s + 1]> m) (step_name st) = field m (step_name st)).
  { intros st Hin. apply (field_new _ _ _ done_); [done|by apply in_name]. }
  assert (Hneq : forall st, In st done_ -> step_name st <> f) by (intros st Hin <-; by apply Hf, in_name).
  split; cbn [j_next with_class j_set_next fo_classes fo_ids]; [lia|done| | | | | | | |].
  - intros r x [[-> _]|Hx]%with_class_ref; [lia| |done|done]. pose proof (Hr _ _ Hx). lia.
  - intros g nm [Hin|[[= <- <-]|[]]]%in_app_or.
    + destruct (Hcl g nm Hin) as (x & Hx & Hrx). exists x. pose proof (Hnew _ Hin) as Hfl. pose proof (Hneq _ Hin) as Hdf.
      cbn in Hfl, Hdf. rewrite Hfl, lookup_insert_ne by done. split; [done|]. apply with_class_ref; auto.
    + exists o. rewrite lookup_insert_eq, field_insert, String.eqb_refl. split; [done|]. apply with_class_ref; auto.
  - intros g x [[<- _]|[_ Hx]]%lookup_insert_Some; [exists name; apply in_or_app; right; by left|].
    destruct (Hclo g x Hx) as [nm Hin]. exists nm. apply in_or_app. by left.
  - intros g c mt [Hin|[?|[]]]%in_app_or; [|done]. pose proof (Hnew _ Hin) as Hfl. cbn in Hfl. rewrite Hfl. by apply (Hme g c).
  - intros g id Hid. destruct (Hmeo g id Hid) as (c & mt & Hin). exists c, mt. apply in_or_app. by left.
  - intros r x [[-> _]|Hx]%with_class_ref; [| |done|done].
    + exists f, name. rewrite field_insert, String.eqb_refl. split; [apply in_or_app; right; by left|done].
    + destruct (Hg r x Hx) as (g & nm & Hin & Hfl). exists g, nm. pose proof (Hnew _ Hin) as Hfl2. cbn in Hfl2.
      rewrite Hfl2. split; [apply in_or_app; by left|done].
  - assert (Hlt : forall g n1, In (IClass g n1) done_ -> field (<[f := j_next s + 1]> m) g < j_next s).
    { intros g n1 Hin. pose proof (Hnew _ Hin) as Hfl. cbn in Hfl. rewrite Hfl. destruct (Hcl g n1 Hin) as (x & _ & Hx).
      by apply Hr in Hx as [_ ?]. }
    assert (Hff : field (<[f := j_next s + 1]> m) f = j_next s + 1) by (by rewrite field_insert, String.eqb_refl).
    intros g h n1 n2 [Hin1|[[= <- <-]|[]]]%in_app_or [Hin2|[[= <- <-]|[]]]%in_app_or; try done.
    + pose proof (Hnew _ Hin1) as Hf1. pose proof (Hnew _ Hin2) as Hf2. cbn in Hf1, Hf2. rewrite Hf1, Hf2. by apply (Hd g h n1 n2).
    + rewrite Hff. pose proof (Hlt _ _ Hin1). lia.
    + rewrite Hff. pose proof (Hlt _ _ Hin2). lia.
  - intros g Hgn. rewrite map_app, elem_of_app in Hgn. cbn in Hgn. rewrite lookup_insert_ne.
    + apply Ho. intros Hin. apply Hgn. by left.
    + intros ->. apply Hgn. right. by apply list_elem_of_singleton.
Qed.

Lemma initialising_method s m k done_ f c mt id cls v :
  initialising s m k done_ -> f ∉ map step_name done_ -> id <> 0 -> (method_id cls mt v).1 = inl id ->
  initialising s (<[f := id]> m) (MkFound (fo_classes k) (<[f := id]> (fo_ids k))) (done_ ++ [IMethod f c mt]).
Proof.
  intros Hi Hf Hid Hmid. destruct Hi as [Hn Hsh Hr Hcl Hclo Hme Hmeo Hg Hd Ho].
  assert (Hnew : forall st, In st done_ -> field (<[f := id]> m) (step_name st) = field m (step_name st)).
  { intros st Hin. apply (field_new _ _ _ done_); [done|by apply in_name]. }
  assert (Hneq : forall st, In st done_ -> step_name st <> f) by (intros st Hin <-; by apply Hf, in_name).
  split; cbn [fo_classes fo_ids]; [done..| | | | | | |].
  - intros g nm [Hin|[?|[]]]%in_app_or; [|done]. pose proof (Hnew _ Hin) as Hfl. cbn in Hfl. rewrite Hfl. by apply (Hcl g nm).
  - intros g x Hx. destruct (Hclo g x Hx) as [nm Hin]. exists nm. apply in_or_app. by left.
  - intros g c' mt' [Hin|[[= <- <- <-]|[]]]%in_app_or.
    + pose proof (Hnew _ Hin) as Hfl. pose proof (Hneq _ Hin). cbn in *. rewrite Hfl, lookup_insert_ne by done. by apply (Hme g c').
    + rewrite field_insert, String.eqb_refl, lookup_insert_eq. split; [done|]. split; [done|]. by exists cls, v.
  - intros g i [[<- _]|[_ Hx]]%lookup_insert_Some; [exists c, mt; apply in_or_app; right; by left|].
    destruct (Hmeo g i Hx) as (c' & mt' & Hin). exists c', mt'. apply in_or_app. by left.
  - intros r x Hx. destruct (Hg r x Hx) as (g & nm & Hin & Hfl). exists g, nm. pose proof (Hnew _ Hin) as Hfl2. cbn in Hfl2.
    rewrite Hfl2. split; [apply in_or_app; by left|done].
  - intros g h n1 n2 [Hin1|[?|[]]]%in_app_or [Hin2|[?|[]]]%in_app_or; try done.
    pose proof (Hnew _ Hin1) as Hf1. pose proof (Hnew _ Hin2) as Hf2. cbn in Hf1, Hf2. rewrite Hf1, Hf2. by apply (Hd g h n1 n2).
  - intros g Hgn. rewrite map_app, elem_of_app in Hgn. cbn in Hgn. rewrite lookup_insert_ne.
    + apply Ho. intros Hin. apply Hgn. by left.
    + intros ->. apply Hgn. right. by apply list_elem_of_singleton.
Qed.

(** ** All steps *)

(** Every name is new, and the class of a method was looked for before it. *)
Fixpoint ordered (l done_ : list init_step) : bool :=
  match l with
  | [] => true
  | st :: t =>
      negb (existsb (fun d => String.eqb (step_name d) (step_name st)) done_)
      && match st with
         | IMethod _ c _ => existsb (fun d => match d with IClass g _ => String.eqb g c | IMethod _ _ _ => false end) done_
         | IClass _ _ => true
         end
      && ordered t (done_ ++ [st])
  end.

Lemma ordered_new st done_ :
  existsb (fun d => String.eqb (step_name d) (step_name st)) done_ = false -> step_name st ∉ map step_name done_.
Proof.
  intros Hf Hin. apply list_elem_of_In, in_map_iff in Hin as (d & Hd & Hin).
  assert (Ht : existsb (fun d => String.eqb (step_name d) (step_name st)) done_ = true); [|congruence].
  apply existsb_exists. exists d. split; [done|]. by apply String.eqb_eq.
Qed.

Definition same_flags (s s' : jenv J O) : Prop :=
  j_jvm s' = j_jvm s /\ j_members s' = j_members s /\ j_print s' = j_print s /\ j_handler s' = j_handler s.

Lemma Initialize_rule l : forall s m k done_,
  initialising s m k done_ -> j_pending s = None -> ordered l done_ = true ->
  wp (Initialize l m) s (fun r s' =>
    same_flags s s'
    /\ match search l k (j_vm s) with
       | (SAll, k', v) => r.1 = true /\ j_vm s' = v /\ j_pending s' = None /\ initialising s' r.2 k' (done_ ++ l)
       | (SMissing x, k', v) => r.1 = false /\ j_vm s' = v /\ j_pending s' = x
           /\ exists d t, l = d ++ t /\ initialising s' r.2 k' (done_ ++ d)
       end).
Proof.
  induction l as [|st l IH]; intros s m k done_ Hi Hp Hord.
  { apply wp_ret. split; [done|]. by rewrite app_nil_r. }
  cbn [ordered] in Hord. apply andb_true_iff in Hord as [[Hnew Hcls]%andb_true_iff Hord].
  apply negb_true_iff, ordered_new in Hnew. cbn [Initialize search]. apply wp_bind.
  assert (Hstop : forall v x, initialising (j_set_pending x (j_set_vm v s)) m k (done_ ++ [])).
  { intros v x. rewrite app_nil_r. by apply initialising_java. }
  destruct st as [f name|f c mt]; cbn [step_name] in *.
  - eapply wp_mono; [apply (FindClass_rule s name Hp), Hi|]. intros r s'.
    destruct (find_class name (j_vm s)) as [[o|t] v]; intros [-> ->].
    + pose proof (initialising_class s m k done_ f name o v Hi Hnew) as Hi'.
      eapply wp_mono; [by apply (IH (with_class o v s) _ _ _ Hi')|]. intros [ok m'] s' [Hfl Hr]. split; [exact Hfl|].
      cbn [j_vm with_class j_set_next j_set_refs j_set_vm] in Hr. rewrite <- app_assoc in Hr.
      destruct (search l _ v) as [[[|x] k'] v']; [exact Hr|]. destruct Hr as (? & ? & ? & d & t & -> & Hd).
      split; [done|]. split; [done|]. split; [done|]. exists (IClass f name :: d), t. split; [done|].
      by rewrite <- app_assoc in Hd.
    + apply wp_ret. split; [done|]. cbn. split; [done|]. split; [done|]. split; [done|]. by exists [], (IClass f name :: l).
  - apply existsb_exists in Hcls as ([g nm|] & Hin & Hg); [|done]. apply String.eqb_eq in Hg. subst g.
    destruct (in_class _ _ _ _ Hi c nm Hin) as (o & Ho & Hro). rewrite Ho.
    eapply wp_mono; [by apply (FindMethod_rule s (field m c) o mt)|]. intros r s'.
    destruct (method_id o mt (j_vm s)) as [[id|t] v] eqn:Hmid; intros [-> ->].
    + destruct (Z.eqb_spec id 0) as [->|Hne].
      * apply wp_ret. split; [done|]. cbn. split; [done|]. split; [done|]. split; [done|]. exists [], (IMethod f c mt :: l).
        split; [done|]. rewrite app_nil_r. by apply initialising_set_vm.
      * assert (Hi' : initialising (j_set_vm v s) (<[f := id]> m) (MkFound (fo_classes k) (<[f := id]> (fo_ids k)))
          (done_ ++ [IMethod f c mt])).
        { apply (initialising_method _ m k done_ f c mt id o (j_vm s)); [by apply initialising_set_vm|done|done|by rewrite Hmid]. }
        eapply wp_mono; [by apply (IH (j_set_vm v s) _ _ _ Hi')|]. intros [ok m'] s' [Hfl Hr]. split; [exact Hfl|].
        cbn [j_vm j_set_vm] in Hr. rewrite <- app_assoc in Hr.
        destruct (search l _ v) as [[[|x] k'] v']; [exact Hr|]. destruct Hr as (? & ? & ? & d & t & -> & Hd).
        split; [done|]. split; [done|]. split; [done|]. exists (IMethod f c mt :: d), t. split; [done|].
        by rewrite <- app_assoc in Hd.
    + apply wp_ret. split; [done|]. cbn. split; [done|]. split; [done|]. split; [done|]. by exists [], (IMethod f c mt :: l).
Qed.

Lemma search_app l1 l2 : forall k v,
  search (l1 ++ l2) k v = match search l1 k v with (SAll, k', v') => search l2 k' v' | r => r end.
Proof.
  induction l1 as [|[f name|f c mt] l1 IH]; intros k v; [done| |]; cbn [app search].
  - destruct (find_class name v) as [[o|t] v']; [apply IH|done].
  - destruct (fo_classes k !! c) as [o|]; [|done]. destruct (method_id o mt v) as [[id|t] v']; [|done].
    destruct (id =? 0); [done|apply IH].
Qed.

(** * When all is found *)

Lemma is_class_in f : is_class f = true -> exists name, In (IClass f name) steps.
Proof.
  unfold is_class. intros ([g nm|] & Hin & Hf)%existsb_exists; [|done]. apply String.eqb_eq in Hf. subst. by exists nm.
Qed.
Lemma in_is_class f name : In (IClass f name) steps -> is_class f = true.
Proof. intros Hin. apply existsb_exists. exists (IClass f name). split; [done|]. apply String.eqb_refl. Qed.
Lemma method_of_in f c m : method_of f = Some (c, m) -> In (IMethod f c m) steps.
Proof.
  unfold method_of. induction steps as [|[g nm|g c' m'] l IH]; [done| |]; cbn.
  - intros Hm. right. auto.
  - destruct (String.eqb_spec f g) as [<-|]; [intros [= <- <-]; by left|]. intros Hm. right. auto.
Qed.

Lemma steps_ordered : ordered steps [] = true.
Proof. by vm_compute. Qed.
Lemma utils_unknown : "c_PlatformUtils" ∉ map step_name steps.
Proof. apply (bool_decide_eq_false _). by vm_compute. Qed.

Lemma initialised_ready s m k p :
  initialising s m k steps -> j_pending s = None -> ready (j_set_jvm true m p s).
Proof.
  intros [Hn Hsh Hr Hcl Hclo Hme Hmeo Hg _ Ho] Hp. split; [|done].
  assert (Hid : forall f, id_of (j_set_jvm true m p s) f = field m f) by done.
  split; cbn; rewrite ?Hsh; try done.
  - intros f [name Hin]%is_class_in. destruct (Hcl f name Hin) as (o & _ & Hro). exists o. by rewrite Hid.
  - intros f c mt Hin%method_of_in. destruct (Hme f c mt Hin) as (Hne & _ & cls & v & Hmid). exists cls, v. by rewrite Hid.
  - rewrite Hid. unfold field. by rewrite (Ho _ utils_unknown).
  - intros r o Hro. right. destruct (Hg r o Hro) as (f & name & Hin & Hf). exists f. split; [by eapply in_is_class|].
    by rewrite Hid.
Qed.

(** * When something is missing *)

(** The two methods that describe exceptions do not throw. *)
Class JvmTalks : Prop :=
  talks : forall mt cls v id, mt = M_CLASS_GET_NAME \/ mt = M_THROWABLE_GET_MESSAGE ->
    (method_id cls mt v).1 = inl id -> forall o v', exists y, (invoke id o [] v').1 = inl y.
Context `{!JvmTyped J O} {Htalks : JvmTalks}.

Lemma raw_text_rule s r o mt cls v id :
  fresh s -> j_pending s = None -> object_at s r = Some o -> id <> 0 ->
  mt = M_CLASS_GET_NAME \/ mt = M_THROWABLE_GET_MESSAGE -> (method_id cls mt v).1 = inl id ->
  wp (CallObjectMethod r id []) s (fun x s' =>
    after s s' (invoke id o [] (j_vm s)).2 None
    /\ exists y, (invoke id o [] (j_vm s)).1 = inl (VObject y)
       /\ match y with Some z => local_at s' x z /\ j_next s <= x | None => x = 0 end).
Proof.
  intros Hs Hp Ho Hid Hmt Hmid. destruct (talks mt cls v id Hmt Hmid o (j_vm s)) as [y Hy].
  pose proof (typed cls mt v id o [] (j_vm s) Hmid) as Hty.
  unfold CallObjectMethod, call, idle. apply wp_bind, wp_bind. unfold wp at 1. rewrite Hp.
  destruct (Z.eqb_spec id 0); [done|]. unfold object_at in Ho. destruct (j_refs s !! r) as [[o' g]|] eqn:Hr; [|done].
  injection Ho as ->. destruct (Z.eqb_spec r 0) as [->|_]; [by apply Hs in Hr as [? _]|]. cbn [orb].
  apply wp_bind. unfold deref, wp at 1. rewrite Hr. unfold in_java, wp at 1.
  destruct (invoke id o [] (j_vm s)) as [a w]. cbn in Hy, Hty. subst a. cbn [fst snd].
  assert (Hk : result_kind mt = KObject) by (by destruct Hmt as [->| ->]).
  destruct y as [y| | | |]; try congruence.
  eapply wp_mono; [apply fresh_local_rule|].
  { apply (fresh_calm s); [done|apply calm_set_vm]. }
  intros x s' [(Hc & Hv & Hp') Hl]. cbn in Hv, Hp'. split.
  - split; [|split; [done|congruence]]. etransitivity; [apply calm_set_vm|exact Hc].
  - exists y. split; [done|]. destruct y; [|done]. cbn in Hl. done.
Qed.

(** A name that is set belongs to its step. *)
Definition named (n : string) (mt : JniMethod) (st : init_step) : Prop :=
  step_name st = n -> exists f c, st = IMethod f c mt.
Lemma steps_named : Forall (named "m_Class_getName" M_CLASS_GET_NAME) steps
  /\ Forall (named "m_Throwable_getMessage" M_THROWABLE_GET_MESSAGE) steps.
Proof.
  split; unfold steps, java_steps, member_steps, named; cbn [app];
    repeat (constructor; [cbn; intros Heq; first [discriminate Heq | eauto]|]); constructor.
Qed.

Lemma field_known s m k d t n mt :
  initialising s m k d -> steps = (d ++ t)%list -> Forall (named n mt) steps ->
  match fo_ids k !! n with
  | Some id => field m n = id /\ id <> 0 /\ exists cls v, (method_id cls mt v).1 = inl id
  | None => field m n = 0
  end.
Proof.
  intros [_ _ _ Hcl Hclo Hme Hmeo Hg _ Ho] Hst Hn. rewrite Hst, List.Forall_forall in Hn.
  assert (Hin : forall st, In st d -> step_name st = n -> exists f c, st = IMethod f c mt).
  { intros st Hs. apply Hn. apply in_or_app. by left. }
  destruct (fo_ids k !! n) as [id|] eqn:Hid.
  - destruct (Hmeo n id Hid) as (c & mt' & Hd). destruct (Hin _ Hd eq_refl) as (f & c' & [= -> -> ->]).
    destruct (Hme f c' mt Hd) as (Hne & Hid' & Hm). rewrite Hid in Hid'. injection Hid' as ->. done.
  - destruct (decide (n ∈ map step_name d)) as [Hd|Hd]; [|unfold field; by rewrite (Ho n Hd)].
    apply list_elem_of_In, in_map_iff in Hd as (st & Hs & Hd). destruct (Hin st Hd Hs) as (f & c & ->).
    cbn in Hs. subst f. destruct (Hme n c mt Hd) as (_ & Hid' & _). congruence.
Qed.

Lemma string_chars_rule s r y :
  j_pending s = None -> match y with Some o => local_at s r o | None => r = 0 end ->
  wp (StringToChars r) s (fun t s' => s' = s /\ default [] t = answer_text (inl (VObject y))).
Proof.
  intros Hp Hy. destruct y as [o|].
  - eapply wp_mono; [apply (StringToChars_rule s r o Hp); [apply Hy|by apply local_object]|]. by intros t s' [-> ->].
  - by subst r.
Qed.

(** Asking the exception [err], which was cleared: the texts, and the references that are
    deleted behind it. *)
Lemma ask_exception_rule {A} s err t getName getMessage clsN vN clsM vM (k : Z -> Z -> option text -> Z -> option text -> jop A) Q :
  fresh s -> j_pending s = None -> local_at s err t -> getName <> 0 -> getMessage <> 0 ->
  (method_id clsN M_CLASS_GET_NAME vN).1 = inl getName -> (method_id clsM M_THROWABLE_GET_MESSAGE vM).1 = inl getMessage ->
  (forall cls n tn g tg s', after s s' (j_vm s') None -> Forall (made (j_next s) s') [cls; n; g] -> apart [cls; n; g] ->
     (let (a, v) := invoke getName (class_of t) [] (j_vm s) in
      let (b, _) := invoke getMessage t [] v in default [] tn = answer_text a /\ default [] tg = answer_text b) ->
     wp (k cls n tn g tg) s' Q) ->
  wp (let! cls := GetObjectClass err in
      let! n := CallObjectMethod cls getName [] in
      let! tn := StringToChars n in
      let! g := CallObjectMethod err getMessage [] in
      let! tg := StringToChars g in k cls n tn g tg) s Q.
Proof.
  intros Hs Hp Herr Hne Hne' Hmn Hmm HQ. pose proof Herr as [Herr0 Herr1].
  apply wp_bind. unfold GetObjectClass, idle, deref. apply wp_bind. unfold wp at 1. rewrite Hp.
  apply wp_bind. unfold wp at 1. rewrite Herr1.
  eapply wp_mono; [apply (fresh_local_rule (Some (class_of t)) s Hs)|]. intros cls s3 [(Hc3 & Hv3 & Hp3) [Hcls Hge3]].
  rewrite Hp in Hp3. assert (Hs3 : fresh s3) by (by apply (fresh_calm s)).
  apply wp_bind. eapply wp_mono; [apply (raw_text_rule s3 cls (class_of t) M_CLASS_GET_NAME clsN vN getName Hs3 Hp3);
    [by apply local_object|done|by left|done]|]. intros n s4 [(Hc4 & Hv4 & Hp4) (yn & Hyn & Hn4)].
  assert (Hs4 : fresh s4) by (by apply (fresh_calm s3)). assert (Hc04 : calm s s4) by (by transitivity s3).
  apply wp_bind. eapply wp_mono; [apply (string_chars_rule s4 n yn Hp4); by destruct yn; [apply Hn4|]|].
  intros tn ? [-> Htn].
  assert (Herr4 : object_at s4 err = Some t).
  { unfold object_at. rewrite (ca_old _ _ Hc04), Herr1; [done|]. by apply Hs in Herr1 as [_ ?]. }
  apply wp_bind. eapply wp_mono; [apply (raw_text_rule s4 err t M_THROWABLE_GET_MESSAGE clsM vM getMessage Hs4 Hp4);
    [done|done|by right|done]|]. intros g s5 [(Hc5 & Hv5 & Hp5) (yg & Hyg & Hg5)].
  assert (Hc05 : calm s s5) by (by transitivity s4).
  apply wp_bind. eapply wp_mono; [apply (string_chars_rule s5 g yg Hp5); by destruct yg; [apply Hg5|]|].
  intros tg ? [-> Htg]. pose proof (ca_next _ _ Hc3) as N3. pose proof (ca_next _ _ Hc4) as N4.
  assert (Hkeep : forall s' r o, fresh s' -> calm s' s5 -> local_at s' r o -> local_at s5 r o /\ r < j_next s').
  { intros s' r o Hs' Hc' [Hr0 Hr]. pose proof (proj2 Hs' _ _ Hr) as [_ Hlt]. split; [|done]. split; [done|].
    by rewrite (ca_old _ _ Hc'). }
  assert (Hc35 : calm s3 s5) by (by transitivity s4).
  destruct (Hkeep s3 cls _ Hs3 Hc35 Hcls) as [Hcls5 Hclt].
  assert (Hn5 : n = 0 \/ (j_next s3 <= n < j_next s4 /\ exists z, local_at s5 n z)).
  { destruct yn as [zn|]; [|by left]. right. destruct Hn4 as [Hl ?].
    destruct (Hkeep s4 n zn Hs4 Hc5 Hl) as [Hl5 ?]. split; [lia|eauto]. }
  assert (Hg6 : g = 0 \/ (j_next s4 <= g /\ exists z, local_at s5 g z)).
  { destruct yg as [zg|]; [|by left]. right. destruct Hg5. eauto. }
  apply HQ.
  - done.
  - constructor; [right; split; [lia|by eexists]|]. constructor; [|constructor; [|done]].
    + destruct Hn5 as [?|[? ?]]; [by left|]. right. split; [lia|done].
    + destruct Hg6 as [?|[? ?]]; [by left|]. right. split; [lia|done].
  - cbn [apart]. rewrite !not_elem_of_cons. pose proof (proj1 Hcls). pose proof (proj1 Hs3).
    repeat split; try (right; repeat split; try apply not_elem_of_nil; lia).
    destruct Hn5 as [?|[? _]]; [by left|]. right. split; [lia|apply not_elem_of_nil].
  - rewrite Hv3 in Hyn, Hv4. destruct (invoke getName (class_of t) [] (j_vm s)) as [an vn].
    cbn in Hyn, Hv4. subst an. rewrite Hv4 in Hyg.
    destruct (invoke getMessage t [] vn) as [ag vg]. cbn in Hyg |- *. by subst ag.
Qed.

Lemma describing_rule s t m getName getMessage clsN vN clsM vM :
  fresh s -> j_pending s = Some t -> field m "m_Class_getName" = getName -> field m "m_Throwable_getMessage" = getMessage ->
  getName <> 0 -> getMessage <> 0 ->
  (method_id clsN M_CLASS_GET_NAME vN).1 = inl getName -> (method_id clsM M_THROWABLE_GET_MESSAGE vM).1 = inl getMessage ->
  wp (WriteErrorInfo m) s (fun r s' => calm s s' /\ j_pending s' = None
    /\ let (n, v) := invoke getName (class_of t) [] (j_vm s) in
       let (g, _) := invoke getMessage t [] v in (default [] r.1, default [] r.2) = (answer_text n, answer_text g)).
Proof.
  intros Hs Hp Hn Hm Hne Hne' Hmn Hmm. unfold WriteErrorInfo, wp at 1. rewrite Hp, Hn, Hm.
  destruct (Z.eqb_spec getName 0) as [|_]; [done|]. destruct (Z.eqb_spec getMessage 0) as [|_]; [done|]. cbn [negb andb].
  match goal with |- context [match ?f s with _ => _ end] => change (wp f s (fun r s' => calm s s' /\ j_pending s' = None
    /\ let (n, v) := invoke getName (class_of t) [] (j_vm s) in
       let (g, _) := invoke getMessage t [] v in (default [] r.1, default [] r.2) = (answer_text n, answer_text g))) end.
  apply wp_bind. match goal with |- wp _ s ?Q => change (wp (new_local (j_pending s)) s Q) end. rewrite Hp.
  eapply wp_mono; [apply (fresh_local_rule (Some t) s Hs)|]. intros err s1 [(Hc1 & Hv1 & Hp1) [Herr Hge]].
  apply wp_bind. unfold ExceptionClear, modify, wp at 1. set (s2 := j_set_pending None s1).
  assert (Hc2 : calm s s2) by (etransitivity; [exact Hc1|apply calm_set_pending]).
  assert (Hs2 : fresh s2) by (by apply (fresh_calm s)).
  apply (ask_exception_rule s2 err t getName getMessage clsN vN clsM vM); [done..|].
  intros cls n tn g tg s5 Ha5 Hmade Hap Htexts. cbn [j_vm s2 j_set_pending] in Htexts. rewrite Hv1 in Htexts.
  assert (Hdel := deletes_rule s2 [cls; n; g] s5 (proj1 Ha5) Hmade Hap). cbn [for_each] in Hdel.
  rewrite (proj2 (proj2 Ha5)) in Hdel. unfold wp, bind in Hdel |- *.
  destruct (DeleteLocalRef cls s5) as [[[] s6]| |]; [|done..]. cbn in Hdel |- *.
  destruct (DeleteLocalRef n s6) as [[[] s7]| |]; [|done..]. cbn in Hdel |- *.
  destruct (DeleteLocalRef g s7) as [[[] s8]| |]; [|done..]. cbn in Hdel |- *.
  destruct Hdel as [(Hc8 & _ & Hp8) _]. split; [by transitivity s2|]. split; [done|].
  destruct (invoke getName (class_of t) [] (j_vm s)) as [an vn]. destruct (invoke getMessage t [] vn) as [ag vg].
  by destruct Htexts as [-> ->].
Qed.

Lemma initialising_fresh s m k d : initialising s m k d -> fresh s.
Proof. intros Hi. split; apply Hi. Qed.

Lemma WriteErrorInfo_rule s m k d t :
  initialising s m k d -> steps = (d ++ t)%list ->
  wp (WriteErrorInfo m) s (fun r s' => calm s s' /\ j_pending s' = None
    /\ (default [] r.1, default [] r.2) = search_error (j_pending s) k (j_vm s)).
Proof.
  intros Hi Hst. pose proof (field_known s m k d t _ _ Hi Hst (proj1 steps_named)) as Hn.
  pose proof (field_known s m k d t _ _ Hi Hst (proj2 steps_named)) as Hm. unfold search_error.
  destruct (j_pending s) as [x|] eqn:Hp.
  - destruct (fo_ids k !! "m_Class_getName") as [getName|], (fo_ids k !! "m_Throwable_getMessage") as [getMessage|].
    + destruct Hn as (Hn & Hn0 & clsN & vN & Hmn). destruct Hm as (Hm & Hm0 & clsM & vM & Hmm).
      eapply wp_mono; [by eapply describing_rule; try done; apply (initialising_fresh s m k d)|].
      intros r s' (Hc & Hp' & Hr). split; [done|]. split; [done|].
      destruct (invoke getName (class_of x) [] (j_vm s)) as [an vn]. by destruct (invoke getMessage x [] vn).
    + unfold WriteErrorInfo, wp. rewrite Hp, Hm, andb_false_r. cbn. split; [apply calm_set_pending|done].
    + unfold WriteErrorInfo, wp. rewrite Hp, Hn. cbn. split; [apply calm_set_pending|done].
    + unfold WriteErrorInfo, wp. rewrite Hp, Hn. cbn. split; [apply calm_set_pending|done].
  - unfold WriteErrorInfo, wp. rewrite Hp. split; [reflexivity|done].
Qed.

(** Deleting the classes, which are there when they were found. *)
Lemma delete_class_rule (s : jenv J O) m c :
  field m c = 0 \/ (exists o, j_refs s !! field m c = Some (o, true)) ->
  wp (DeleteClass (field m c)) s (fun _ s' =>
    s' = s \/ s' = j_set_refs (delete (field m c) (j_refs s)) s).
Proof.
  intros Hc. unfold DeleteClass, DeleteGlobalRef, delete_ref, wp. destruct (Z.eqb_spec (field m c) 0) as [|Hne]; [by left|].
  destruct Hc as [?|[o ->]]; [done|]. by right.
Qed.

Definition reference (s : jenv J O) (m : members) (c : string) : Prop :=
  field m c = 0 \/ exists o, j_refs s !! field m c = Some (o, true).

(** The references apart, nothing changes. *)
Definition only_refs (s s' : jenv J O) : Prop := exists rs, s' = j_set_refs rs s.
Lemma only_refs_trans (s1 s2 s3 : jenv J O) : only_refs s1 s2 -> only_refs s2 s3 -> only_refs s1 s3.
Proof. intros [r1 ->] [r2 ->]. by exists r2. Qed.

Lemma delete_classes_rule m l : forall s,
  Forall (reference s m) l -> NoDup (map (field m) (List.filter (fun c => negb (field m c =? 0)) l)) ->
  wp (for_each (fun c => DeleteClass (field m c)) l) s (fun _ s' => only_refs s s').
Proof.
  induction l as [|c l IH]; intros s Hl Hnd.
  - apply wp_ret. exists (j_refs s). by destruct s.
  - inversion Hl as [|? ? Hc Hl']; subst. apply wp_bind. eapply wp_mono; [by apply delete_class_rule|].
    intros [] s1 Hs1. cbn [List.filter] in Hnd.
    assert (Hnd' : NoDup (map (field m) (List.filter (fun c => negb (field m c =? 0)) l))).
    { destruct (negb _); [by inversion Hnd|done]. }
    destruct Hs1 as [->| ->]; [by apply IH|].
    destruct (Z.eqb_spec (field m c) 0) as [Hz|Hne]; cbn [negb] in Hnd.
    + eapply wp_mono; [apply IH; [|done]|].
      * eapply Forall_impl; [exact Hl'|]. intros g [?|[o Ho]]; [by left|].
        destruct (Z.eq_dec (field m g) 0) as [|Hgz]; [by left|]. right. exists o. cbn. rewrite lookup_delete_ne; [done|]. congruence.
      * intros [] s2 H2. eapply only_refs_trans; [by eexists|exact H2].
    + inversion Hnd as [|? ? Hnin _]; subst. eapply wp_mono; [apply IH; [|done]|].
      * apply Forall_forall. intros g Hg. eapply Forall_forall in Hl'; [|exact Hg]. destruct Hl' as [?|[o Ho]]; [by left|].
        destruct (Z.eq_dec (field m g) 0) as [|Hgz]; [by left|]. right. exists o. cbn. rewrite lookup_delete_ne; [done|].
        intros Heq. apply Hnin. rewrite Heq. apply list_elem_of_In, in_map, filter_In. split; [by apply list_elem_of_In|].
        by destruct (Z.eqb_spec (field m g) 0).
      * intros [] s2 H2. eapply only_refs_trans; [by eexists|exact H2].
Qed.

(** * Creation *)

(** No machine is in use, and nothing refers to one. *)
Record bare (s : jenv J O) : Prop := {
  ba_next : 0 < j_next s;
  ba_shared : j_shared s = ∅;
  ba_refs : j_refs s = ∅;
  ba_pending : j_pending s = None;
  ba_jvm : j_jvm s = false
}.

Definition created (r : bool * ErrorInfo) (s : jenv J O) : Prop :=
  if r.1 then ready s /\ j_jvm s = true /\ j_shared s = ∅ /\ j_print s = false else bare s.

Lemma unknown_field s m k d t c :
  initialising s m k d -> steps = (d ++ t)%list -> c ∉ map step_name steps -> field m c = 0.
Proof.
  intros Hi Hst Hc. unfold field. rewrite (in_others _ _ _ _ Hi c); [done|].
  intros Hin. apply Hc. rewrite Hst, map_app. apply elem_of_app. by left.
Qed.

Definition class_named (c : string) (st : init_step) : Prop := step_name st = c -> exists name, st = IClass c name.
Lemma steps_classes : Forall (class_named "c_Class") steps /\ Forall (class_named "c_Throwable") steps.
Proof.
  split; unfold steps, java_steps, member_steps, class_named; cbn [app];
    repeat (constructor; [cbn; intros Heq; first [discriminate Heq | eauto]|]); constructor.
Qed.
Lemma class_field s m k d t c :
  initialising s m k d -> steps = (d ++ t)%list -> Forall (class_named c) steps ->
  field m c = 0 \/ exists name, In (IClass c name) d.
Proof.
  intros Hi Hst Hn. rewrite Hst, List.Forall_forall in Hn. destruct (decide (c ∈ map step_name d)) as [Hin|Hin].
  - right. apply list_elem_of_In, in_map_iff in Hin as (st & Hs & Hd).
    destruct (Hn st (in_or_app _ _ _ (or_introl Hd)) Hs) as [name ->]. by exists name.
  - left. unfold field. by rewrite (in_others _ _ _ _ Hi c Hin).
Qed.

Lemma Destroy_rule s s1 m k d t :
  initialising s m k d -> steps = (d ++ t)%list -> calm s s1 ->
  wp (Destroy m) s1 (fun _ s' => s' = s1) /\ wp (java_Destroy m) s1 (fun _ s' => only_refs s1 s').
Proof.
  intros Hi Hst Hc. assert (Hunk : forall c, bool_decide (c ∉ map step_name steps) = true -> field m c = 0).
  { intros c Hb. apply (unknown_field s m k d t); [done|done|]. by apply bool_decide_eq_true in Hb. }
  split.
  - unfold Destroy. cbn [for_each]. by rewrite !Hunk by (by vm_compute).
  - pose proof (class_field s m k d t _ Hi Hst (proj1 steps_classes)) as H1.
    pose proof (class_field s m k d t _ Hi Hst (proj2 steps_classes)) as H2.
    assert (Href : forall c, field m c = 0 \/ (exists name, In (IClass c name) d) -> reference s1 m c).
    { intros c [?|[name Hin]]; [by left|]. right. destruct (in_class _ _ _ _ Hi c name Hin) as (o & _ & Ho). exists o.
      rewrite (ca_old _ _ Hc); [done|]. by apply (in_refs _ _ _ _ Hi) in Ho as [_ ?]. }
    apply delete_classes_rule.
    + repeat (constructor; [by apply Href|]). constructor; [left; apply Hunk; by vm_compute|constructor].
    + cbn [List.filter]. rewrite (Hunk "c_PlatformUtils") by (by vm_compute). cbn [Z.eqb negb].
      destruct (Z.eqb_spec (field m "c_Class") 0) as [|Hn1], (Z.eqb_spec (field m "c_Throwable") 0) as [|Hn2]; cbn [negb map];
        repeat constructor; try (by apply not_elem_of_nil).
      destruct H1 as [?|[n1 Hin1]]; [done|]. destruct H2 as [?|[n2 Hin2]]; [done|].
      intros [Heq|Hnil]%elem_of_cons; [|by apply not_elem_of_nil in Hnil].
      by apply (in_distinct _ _ _ _ Hi _ _ _ _ Hin1 Hin2) in Heq.
Qed.

(** The rest of [JniContext::Create] behind a missing class or method. *)
Lemma cleanup_rule s m k d t (x : option O) Q :
  initialising s m k d -> steps = (d ++ t)%list -> j_pending s = x -> j_jvm s = false ->
  (forall cls msg s', bare s' -> (cls, msg) = search_error x k (j_vm s) -> Q (false, MkInfo DOCUMENTDB_JNI_ERR_JVM_INIT cls msg) s') ->
  wp (let! (cls, msg) := WriteErrorInfo m in
      Destroy m ;;; java_Destroy m ;;; DestroyJavaVM ;;;
      (notify DOCUMENTDB_JNI_ERR_JVM_INIT (default [] cls) (default [] msg) ;;;
       ret (false, MkInfo DOCUMENTDB_JNI_ERR_JVM_INIT (default [] cls) (default [] msg)))) s Q.
Proof.
  intros Hi Hst Hp Hj HQ. apply wp_bind. eapply wp_mono; [by apply (WriteErrorInfo_rule s m k d t)|].
  intros [cls msg] s1 (Hc1 & Hp1 & Htexts). rewrite Hp in Htexts. cbn [fst snd] in Htexts.
  apply wp_bind. eapply wp_mono; [by apply (proj1 (Destroy_rule s s1 m k d t Hi Hst Hc1))|]. intros [] s2 ->.
  apply wp_bind. eapply wp_mono; [by apply (proj2 (Destroy_rule s s1 m k d t Hi Hst Hc1))|]. intros [] s3 [r3 ->].
  apply wp_bind. unfold DestroyJavaVM, modify, wp at 1. apply wp_bind. unfold notify, modify, wp at 1. apply wp_ret.
  apply HQ; [|by rewrite <- Htexts].
  pose proof (in_next _ _ _ _ Hi). pose proof (ca_next _ _ Hc1).
  cbn [j_handler j_set_refs j_set_vm]. destruct (j_handler s1); (split; cbn; [lia| |done|done|]);
    by rewrite ?(ca_shared _ _ Hc1), ?(in_shared _ _ _ _ Hi), ?(ca_jvm _ _ Hc1).
Qed.

(** The two initialisations are one. *)
Lemma Initialize_app {A} l1 l2 (k : bool -> members -> jop A) Q : forall m s,
  wp (let! (ok, m') := Initialize (l1 ++ l2) m in k ok m') s Q ->
  wp (let! (ok, m') := Initialize l1 m in
      let! (ok, m') := (if ok : bool then Initialize l2 m' else ret (false, m')) in k ok m') s Q.
Proof.
  induction l1 as [|st l1 IH]; intros m s Hw; [exact Hw|].
  cbn [app Initialize] in Hw |- *. unfold wp, bind in Hw, IH |- *.
  destruct (match st with IClass _ name => FindClass name | IMethod _ cls mthd => FindMethod (field m cls) mthd end s)
    as [[r s1]| |]; [|done..]. cbn in Hw |- *. destruct r as [z|]; [|exact Hw].
  exact (IH _ _ Hw).
Qed.

Lemma create_rule opts e s :
  bare s -> wp (JniContext_Create opts false e) s (fun r s' => r = create_spec opts e (j_vm s) /\ created r s').
Proof.
  intros [Hn Hsh Hr Hp Hj]. unfold JniContext_Create. apply wp_bind, wp_gets. rewrite Hj.
  apply wp_bind. unfold create_spec.
  assert (Hget : wp (GetOrCreateJvm opts) s (fun res s1 =>
    let (r, v) := if created_jvm (j_vm s) then (JNI_OK, j_vm s) else create_jvm opts (j_vm s) in
    res = r /\ s1 = j_set_vm v s)).
  { unfold GetOrCreateJvm, wp. destruct (created_jvm (j_vm s)); [split; [done|by destruct s]|].
    by destruct (create_jvm opts (j_vm s)) as [r v]. }
  eapply wp_mono; [exact Hget|]. intros res s1.
  destruct (if created_jvm (j_vm s) then _ else _) as [r v]. intros [-> ->].
  destruct (Z.eqb_spec r JNI_OK) as [->|Hne]; cbn [negb].
  - assert (Hi : initialising (j_set_vm v s) ∅ (MkFound ∅ ∅) []) by (by apply empty_initialising).
    apply (Initialize_app java_steps member_steps). apply wp_bind.
    eapply wp_mono; [apply (Initialize_rule steps _ _ _ _ Hi Hp steps_ordered)|]. intros [ok m] s2 [(Hj2 & _) Hres].
    cbn [j_jvm j_set_vm j_vm] in Hj2, Hres. rewrite Hj in Hj2. cbn [app] in Hres.
    destruct (search steps (MkFound ∅ ∅) v) as [[[|x] k] v'].
    + destruct Hres as (Hok & Hv2 & Hp2 & Hi2). cbn in Hok. subst ok. apply wp_bind. unfold modify, wp at 1. apply wp_ret.
      split; [done|]. cbn. split; [by apply (initialised_ready s2 m k)|]. split; [done|]. split; [|done]. apply Hi2.
    + destruct Hres as (Hok & Hv2 & Hp2 & d & t & Hst & Hi2). cbn in Hok. subst ok.
      apply (cleanup_rule s2 m k d t x); [done..|]. intros cls msg s' Hb Htexts. rewrite Hv2 in Htexts.
      split; [by rewrite <- Htexts|done].
  - apply wp_bind. unfold notify, modify, wp at 1. apply wp_ret. split; [done|]. cbn. destruct (j_handler s); by split.
Qed.

End create.
