(* ===== verification/JniRead.v ===== *)
(** Reading a result set through the bridge, row by row, against the rows themselves;
    getters of Java objects on all their branches, and the query context that is read
    through them. *)
From S2P Require Import Prelude Memory Utf8 Diag Config Meta DataQuery Interop Jni JniContext JniWrap JniRules JniSafe.

Section rows.
Context {J O : Type} `{Jvm J O} `{!JvmTyped J O} `{!JvmRoom}.
Abbreviation jop := (op (jenv J O)).

(** * Result sets of Java

    [rep o c rest v]: in the machine [v] the object [o] is a result set on the row [c], if
    it is on one, with the rows [rest] to come.  What the JDBC documents of [next] and
    [getString], for the methods that the state [s0] knows them by: *)
Class JavaResultSet (s0 : jenv J O) (rep : O -> option ResultRow -> list ResultRow -> J -> Prop) : Prop := {
  rep_attach : forall o c rest v, rep o c rest v ->
    (attach_thread v).1 = JNI_OK /\ rep o c rest (attach_thread v).2;
  rep_string : forall o c rest v us, rep o c rest v -> rep o c rest (make_string us v).2;
  rep_describe : forall o c rest v t, rep o c rest v -> rep o c rest (describe_in s0 t v).2;
  (** The next row; behind the last, no, or an exception. *)
  rep_next : forall o c rest v, rep o c rest v ->
    match rest, invoke (id_of s0 "m_ResultSetNext") o [] v with
    | row :: rest', (inl (VBoolean b), v') => b = true /\ rep o (Some row) rest' v'
    | [], (inl (VBoolean b), v') => b = false /\ rep o None [] v'
    | [], (inr _, v') => rep o None [] v'
    | _, _ => False
    end;
  (** The field of that name; null, or an exception, when the row has none. *)
  rep_get : forall o row rest v name, rep o (Some row) rest v ->
    let (a, v') := invoke (id_of s0 "m_ResultSetGetStringByName") o [VObject (Some name)] v in
    rep o (Some row) rest v'
    /\ match a with
       | inl (VObject (Some z)) => rs_string row (mutf8 (string_units name)) = Some (c_str (mutf8 (string_units z)))
       | inl (VObject None) | inr _ => rs_string row (mutf8 (string_units name)) = None
       | _ => False
       end
}.

(** The state of the bridge while a result set is read. *)
Record reading (s0 s : jenv J O) : Prop := { re_ready : ready s; re_steady : calm s0 s }.

Lemma reading_after s0 s s' v : reading s0 s -> after s s' v None -> reading s0 s'.
Proof. intros [Hr Hc] Ha. split; [by apply (ready_after s s' v)|]. transitivity s; [done|apply Ha]. Qed.

Context (s0 : jenv J O) (rep : O -> option ResultRow -> list ResultRow -> J -> Prop) {Hrep : JavaResultSet s0 rep}.
Context (Hr0 : ready s0) (Hpol0 : polite s0) (p : Z) (o : O) (Hp : pointee s0 p = Some o).

Lemma describe_in_calm s s' t v : calm s s' -> describe_in s' t v = describe_in s t v.
Proof. intros Hc. unfold describe_in. by rewrite !(calm_id_of _ _ _ Hc). Qed.

Lemma attached_rep {A} s c rest e (dflt : A) k msg Q :
  reading s0 s -> rep o c rest (j_vm s) ->
  (forall s' r, reading s0 s' -> rep o c rest (j_vm s') -> object_at s' r = Some o -> wp (k r) s' Q) ->
  wp (with_object p msg e dflt k) s Q.
Proof.
  intros Hrd Hre Hk. destruct (rep_attach _ _ _ _ Hre) as [Hok Hre'].
  apply (with_object_rule p msg e dflt k s o); [apply Hrd|by rewrite (calm_pointee s0); [|apply Hr0|apply Hrd]| |].
  - intros v s' r Hv Ha Ho. rewrite Hv in Hre'. apply Hk; [by apply (reading_after s0 s s' v)| |done].
    by destruct Ha as (_ & -> & _).
  - intros res v s' Hv Hne _. by rewrite Hv in Hok.
Qed.

(** ** Next *)

Lemma next_rule s c rest hasNext e :
  reading s0 s -> rep o c rest (j_vm s) ->
  wp (ResultSetNext p hasNext e) s (fun r s' => reading s0 s'
    /\ match rest with
       | row :: rest' => r = (true, no_info) /\ rep o (Some row) rest' (j_vm s')
       | [] => negb r.1 || negb (is_success r.2) = true /\ rep o None [] (j_vm s')
       end).
Proof.
  intros Hrd Hre. apply (attached_rep s c rest); [done..|]. intros s1 r Hrd1 Hre1 Ho.
  assert (Hc1 : calm s0 s1) by apply Hrd1.
  eapply wp_mono; [apply (bool_call_rule s1 "m_ResultSetNext" hasNext r o); [apply Hrd1|by apply (polite_calm s0)|done|done]|].
  intros x s2. rewrite (java_call_calm s0 s1) by done. unfold java_call. pose proof (rep_next o c rest (j_vm s1) Hre1) as Hn.
  destruct rest as [|row rest], (invoke _ o [] (j_vm s1)) as [[[| | |b|]|t] v]; try done.
  - destruct Hn as [-> Hre2]. intros [Ha ->]. split; [by apply (reading_after s0 s1 s2 v)|]. by destruct Ha as (_ & -> & _).
  - pose proof (described_failed s0 t v) as Hf. pose proof (rep_describe o None [] v t Hn) as Hre2.
    destruct (describe_in s0 t v) as [e' v']. cbn in Hf, Hre2. intros [Ha ->].
    split; [by apply (reading_after s0 s1 s2 v')|]. cbn. rewrite Hf, orb_true_r. split; [done|]. by destruct Ha as (_ & -> & _).
  - destruct Hn as [-> Hre2]. intros [Ha ->]. split; [by apply (reading_after s0 s1 s2 v)|]. by destruct Ha as (_ & -> & _).
Qed.

(** ** Fields *)

Lemma get_string_rule s row rest cs value e :
  reading s0 s -> rep o (Some row) rest (j_vm s) ->
  mutf8_units (length cs) (c_str cs) = Some cs -> mutf8 cs = cs ->
  wp (ResultSetGetString_name p cs value e) s (fun r s' => reading s0 s' /\ rep o (Some row) rest (j_vm s')
    /\ r.1 = rs_string row cs).
Proof.
  intros Hrd Hre Hu Hm. unfold ResultSetGetString_name, reset_with.
  destruct (GetRef_rule p s0 o (proj1 Hr0) Hp) as [_ Hne]. destruct (Z.eqb_spec p 0) as [|_]; [done|].
  match goal with |- wp (attached e None (bind (GetRef p) ?k)) s ?Q =>
    assert (Hw : wp (with_object p "" e None k) s Q); [|unfold with_object in Hw; by destruct (Z.eqb_spec p 0)] end.
  apply (attached_rep s (Some row) rest); [done..|]. intros s1 r Hrd1 Hre1 Ho.
  assert (Hr1 : ready s1) by apply Hrd1.
  apply wp_bind. eapply wp_mono; [by apply (NewStringUTF_rule s1 cs cs)|]. intros js s2 (x & Hmk & Hx & Ha2 & Hl & Hge).
  pose proof (rep_string o (Some row) rest (j_vm s1) cs Hre1) as Hre2. rewrite Hmk in Hre2. cbn in Hre2.
  pose proof (reading_after _ _ _ _ Hrd1 Ha2) as Hrd2. assert (Hc2 : calm s1 s2) by apply Ha2.
  apply wp_bind. eapply wp_mono; [apply (string_args_rule s2 [js] [Some x])|].
  { constructor; [|done]. split; [apply Hl|by apply local_object]. }
  intros args ? [-> ->]. apply wp_bind, wp_member. assert (Hc02 : calm s0 s2) by apply Hrd2.
  apply (object_answer_rule s2 _ r o); [apply Hrd2|by apply (polite_calm s0)|done|by apply (calm_object s1); [apply Hr1| |]|].
  intros result e' s3 Hc3. rewrite (java_call_calm s0 s2) by done. unfold java_call.
  pose proof (rep_get o row rest (j_vm s2) x Hre2) as Hg. rewrite Hx, Hm in Hg.
  assert (Hc13 : calm s1 s3) by (by transitivity s2).
  assert (Hl3 : local_at s3 js x) by (apply (local_calm s2); [apply Hrd2|done|done]).
  assert (Hend : forall y v, after s2 s3 v None -> rep o (Some row) rest v -> refers s3 result y ->
    (result = 0 \/ j_next s2 <= result) -> (y <> None -> is_success e' = true) ->
    (match y with Some z => rs_string row cs = Some (c_str (mutf8 (string_units z))) | None => rs_string row cs = None end) ->
    wp (let! _ := DeleteLocalRef js in optional_text e' result) s3 (fun r s' => reading s0 s'
      /\ rep o (Some row) rest (j_vm s') /\ r.1 = rs_string row cs)).
  { intros y v Ha3 Hre3 Hy Hres He Hrow. pose proof (reading_after _ _ _ _ Hrd2 Ha3) as Hrd3. apply wp_bind.
    eapply wp_mono; [apply (delete_rule s1 s3 js Hc13); right; eauto|]. intros [] s4 [(Hc4 & Hv4 & Hp4) Hk].
    assert (Hrd4 : reading s0 s4).
    { rewrite (proj2 (re_ready _ _ Hrd3)) in Hp4.
      apply (reading_after s0 s1 s4 (j_vm s3) Hrd1). by split. }
    replace (j_vm s3) with v in Hv4 by (symmetry; apply Ha3). unfold optional_text. destruct y as [z|].
    - destruct Hy as [Hz Hobj]. rewrite He by done. destruct (Z.eqb_spec result 0); [done|]. cbn [negb andb].
      destruct Hres as [?|Hge']; [done|]. apply wp_bind.
      eapply wp_mono; [apply (GetStringUTFChars_rule s4 result z); [apply Hrd4|]|].
      + unfold object_at. rewrite Hk; [exact Hobj|]. pose proof (local_lt s2 js x (proj1 (re_ready _ _ Hrd2)) Hl). lia.
      + intros t ? [-> ->]. apply wp_ret. split; [done|]. split; [by rewrite Hv4|]. by rewrite Hrow.
    - cbn in Hy. subst result. cbn [Z.eqb negb]. rewrite andb_false_r. apply wp_ret. split; [done|].
      split; [by rewrite Hv4|]. by rewrite Hrow. }
  destruct (invoke _ o _ (j_vm s2)) as [[[[z|]| | | |]|t] v]; destruct Hg as [Hre3 Hrow]; try done; cbn [map].
  - intros (Ha3 & Hlz & Hgz & ->). apply (Hend (Some z) v); try done; [split; [apply Hlz|by apply local_object]|by right].
  - intros (Ha3 & Hz & ->). apply (Hend None v); try done. by left.
  - pose proof (rep_describe o (Some row) rest v t Hre3) as Hre4. destruct (describe_in s0 t v) as [e2 v2].
    intros (Ha3 & Hz & -> & Hf). apply (Hend None v2); try done. by left.
Qed.

(** ** All rows *)

Definition plain (cs : text) : bool :=
  bool_decide (mutf8_units (length cs) (c_str cs) = Some cs) && bool_decide (mutf8 cs = cs).

Lemma get_field_rule s row rest cs value e :
  reading s0 s -> rep o (Some row) rest (j_vm s) -> plain cs = true ->
  wp (GetString_name p cs value e) s (fun r s' => (reading s0 s' /\ rep o (Some row) rest (j_vm s'))
    /\ r.1 = rs_string row cs).
Proof.
  intros Hrd Hre Hpl. apply andb_true_iff in Hpl as [Hu%bool_decide_eq_true Hm%bool_decide_eq_true].
  eapply wp_mono; [by apply (get_string_rule s row rest cs value e)|]. by intros r s' (? & ? & ?).
Qed.

Lemma table_rule s row rest e :
  reading s0 s -> rep o (Some row) rest (j_vm s) ->
  wp (jni_TableMeta_Read p e) s (fun r s' => (reading s0 s' /\ rep o (Some row) rest (j_vm s')) /\ r.1 = TableMeta_Read row).
Proof.
  intros Hrd Hre. unfold jni_TableMeta_Read, TableMeta_Read.
  do 5 (apply wp_bind; eapply wp_mono; [by apply get_field_rule|]; clear Hrd Hre; intros [? ?] ? [[Hrd Hre] ?]; cbn in *; subst).
  exact (conj (conj Hrd Hre) eq_refl).
Qed.

Lemma read_tables_rule rest : forall fuel c s hasNext meta e,
  (length rest < fuel)%nat -> reading s0 s -> rep o c rest (j_vm s) ->
  wp (read_tables fuel p hasNext meta e) s (fun r s' =>
    r = Some (meta ++ map TableMeta_Read rest)%list /\ reading s0 s' /\ rep o None [] (j_vm s')).
Proof.
  induction rest as [|row rest IH]; intros fuel c s hasNext meta e Hf Hrd Hre;
    (destruct fuel as [|fuel]; [cbn in Hf; lia|]); cbn [read_tables];
    (apply wp_bind; eapply wp_mono; [by apply (next_rule s c)|]); intros [b e'] s1 (Hrd1 & Hn); cbn in Hn.
  - destruct Hn as [-> Hre1]. apply wp_ret. by rewrite app_nil_r.
  - destruct Hn as [[= -> ->] Hre1]. cbn [negb orb is_success ei_code no_info]. apply wp_bind.
    eapply wp_mono; [by apply table_rule|]. intros [t e2] s2 [[Hrd2 Hre2] Ht]. cbn in Ht. subst t.
    eapply wp_mono; [apply (IH fuel (Some row)); [cbn in Hf; lia|done|done]|].
    intros r s3 (-> & Hrd3 & Hre3). by rewrite <- app_assoc.
Qed.

Lemma read_vector_rule c rows err fuel :
  rep o c rows (j_vm s0) -> (length rows < fuel)%nat ->
  wp (jni_ReadTableMetaVector fuel (Some p)) s0 (fun r s' =>
    r = Some (ReadTableMetaVector (MkResultSet rows err)) /\ reading s0 s' /\ rep o None [] (j_vm s')).
Proof. intros Hre Hf. apply (read_tables_rule rows fuel c s0 false [] no_info Hf); [|done]. by split. Qed.

End rows.

(** The getters without arguments, and the index of a list. *)
Definition getter (c : object_op) : option string :=
  match c with
  | OpDatabaseMetadata => Some "m_DocumentDbConnectionGetDatabaseMetadata"
  | OpConnectionProperties => Some "m_DocumentDbConnectionGetConnectionProperties"
  | OpMetaData => Some "m_ConnectionGetMetaData"
  | OpTypeInfo => Some "m_DatabaseMetaDataGetTypeInfo"
  | OpOperations => Some "m_DocumentDbMqlQueryContextGetAggregateOperationsAsStrings"
  | OpColumnMetadata => Some "m_DocumentDbMqlQueryContextGetColumnMetadata"
  | OpPaths => Some "m_DocumentDbMqlQueryContextGetPaths"
  | OpListGet _ => Some "m_ListGet"
  | _ => None
  end.

Section query.
Context {J O : Type} `{Jvm J O} `{!JvmTyped J O} `{!JvmRoom}.
Abbreviation jop := (op (jenv J O)).

Definition getter_args (c : object_op) : list (jvalue O) := match c with OpListGet i => [VInt i] | _ => [] end.

(** * What stays *)

(** The pointers are those from before, and so are the references that they have. *)
Record kept (s s' : jenv J O) : Prop := {
  ke_ready : ready s';
  ke_steady : steady s s';
  ke_shared : j_shared s' = j_shared s
}.
(** One more pointer, to [y]. *)
Record gained (s s' : jenv J O) (p : Z) (y : O) : Prop := {
  ga_ready : ready s';
  ga_steady : steady s s';
  ga_place : j_next s <= p;
  ga_shared : exists g, j_next s <= g /\ j_shared s' = <[p := (g, 1)]> (j_shared s);
  ga_object : pointee s' p = Some y
}.

Lemma kept_refl s : ready s -> kept s s.
Proof. intros Hr. by split. Qed.
Lemma kept_trans s1 s2 s3 : kept s1 s2 -> kept s2 s3 -> kept s1 s3.
Proof. intros [? ? H1] [? ? H2]. split; [done|by transitivity s2|by rewrite H2]. Qed.
Lemma kept_calm s s' : ready s' -> calm s s' -> kept s s'.
Proof. intros Hr Hc. split; [done|by apply calm_steady|apply Hc]. Qed.
Lemma kept_after s s' v : ready s -> after s s' v None -> kept s s'.
Proof. intros Hr Ha. apply kept_calm; [by apply (ready_after s s' v)|apply Ha]. Qed.
Lemma kept_pointee s s' p : ready s -> kept s s' -> pointee s' p = pointee s p.
Proof. intros [Hs _] [_ Hst Hsh]. apply steady_pointee; [done|done|by rewrite Hsh]. Qed.
Lemma gained_pointee s s' p y q : ready s -> gained s s' p y -> q <> p -> pointee s' q = pointee s q.
Proof.
  intros [Hs _] [_ Hst _ (g & _ & Hsh) _] Hne. apply steady_pointee; [done|done|].
  by rewrite Hsh, lookup_insert_ne.
Qed.
Lemma gained_calm s s1 s2 p y : ready s -> calm s s1 -> obtained s1 s2 p y -> gained s s2 p y.
Proof.
  intros Hr Hc [Hr2 _ Hst Hp (g & Hg & Hsh) Ho]. pose proof (ca_next _ _ Hc).
  split; [done|transitivity s1; [by apply calm_steady|done]|lia| |done].
  exists g. split; [lia|]. by rewrite Hsh, (ca_shared _ _ Hc).
Qed.

(** A local pointer is released at the end of its scope. *)
Lemma release_gained s s1 s2 p y :
  ready s -> gained s s1 p y -> kept s1 s2 -> wp (shared_release p) s2 (fun _ s3 => kept s s3).
Proof.
  intros [Hs Hp0] [Hr1 Hst1 Hp (g & Hg & Hsh1) _] [Hr2 Hst2 Hsh2]. rewrite Hsh1 in Hsh2.
  eapply wp_mono; [apply (release_rule s2 p Hr2)|].
  { right. rewrite Hsh2, lookup_insert_eq. by eexists. }
  intros [] s3 (Hr3 & _ & Hn3 & Hm3 & Hpr3 & Hsh3 & Hrefs). split; [done| |].
  - assert (Hst : steady s s2) by (by transitivity s1). split.
    + by rewrite Hm3, (st_members _ _ Hst).
    + by rewrite Hpr3, (st_print _ _ Hst).
    + rewrite Hn3. apply Hst.
    + intros r Hr. rewrite <- (st_old _ _ Hst r Hr). destruct (Hrefs r) as [?|[n Hn]]; [done|].
      rewrite Hsh2, lookup_insert_eq in Hn. injection Hn as <- _. lia.
  - rewrite Hsh3, Hsh2. unfold drop_pointer. rewrite lookup_insert_eq. cbn.
    rewrite delete_insert_eq. apply delete_id. by apply fresh_pointer.
Qed.

(** * One getter *)

(** What the operation gives, for what the method answered. *)
Definition getter_outcome (s : jenv J O) (a : jvalue O + ErrorInfo) (r : Z * ErrorInfo) (s' : jenv J O) : Prop :=
  match a with
  | inl (VObject (Some y)) => r.2 = no_info /\ gained s s' r.1 y
  | inl (VObject None) => r = (0, no_info) /\ kept s s'
  | inr e => r = (0, e) /\ kept s s'
  | _ => False
  end.

Lemma object_call_rule s m args r o :
  ready s -> polite s -> kind_of m = Some KObject -> object_at s r = Some o ->
  wp (object_call m args 0 r) s (fun x s' =>
    let (a, v) := java_call s m o args (j_vm s) in j_vm s' = v /\ getter_outcome s a x s').
Proof.
  intros Hr Hpol Hk Ho. unfold object_call. apply wp_bind, wp_member.
  apply (object_answer_rule s m r o args); [done..|]. intros result e s1 Hc.
  destruct (java_call s m o args (j_vm s)) as [[[[y|]| | | |]|e'] v]; intros [Ha Hres]; try done;
    pose proof (ready_after _ _ _ Hr Ha) as Hr1; pose proof (proj1 (proj2 Ha)) as Hv.
  - destruct Hres as (Hl & Hge & ->).
    apply (take_object_rule s1 0 result (Some y)); [done|split; [apply Hl|by apply local_object]|done|].
    intros p s2 Hob. cbn. split; [by rewrite (ob_vm _ _ _ _ Hob)|]. split; [done|]. by apply (gained_calm s s1).
  - destruct Hres as (-> & ->). apply (take_object_rule s1 0 0 None); [done|by left|done|].
    cbn. split; [done|]. split; [done|]. by apply kept_calm.
  - destruct Hres as (-> & -> & _). apply (take_object_rule s1 0 0 None); [done|by left|done|].
    cbn. split; [done|]. split; [done|]. by apply kept_calm.
Qed.

Lemma object_getter_rule s msg m args p o e :
  ready s -> polite s -> kind_of m = Some KObject -> pointee s p = Some o ->
  wp (with_object p msg e 0 (object_call m args 0)) s (fun x s' =>
    let (a, v) := bridged s e m o args in j_vm s' = v /\ getter_outcome s a x s').
Proof.
  intros Hr Hpol Hk Ho. unfold bridged. apply (with_object_rule p msg e 0 _ s o); [done|done| |].
  - intros v s1 r Hv Ha Hobj. rewrite Hv. cbn [Z.eqb JNI_OK]. pose proof (ready_after _ _ _ Hr Ha) as Hr1.
    assert (Hc : calm s s1) by apply Ha.
    eapply wp_mono; [apply (object_call_rule s1 m args r o Hr1); [by apply (polite_calm s)|done|done]|].
    intros x s2. rewrite (java_call_calm s) by done. replace (j_vm s1) with v by (symmetry; apply Ha).
    destruct (java_call s m o args v) as [[[[y|]| | | |]|e'] w]; intros [Hv2 Hout]; (split; [done|]); try done.
    + destruct Hout as [? Hg]. split; [done|]. destruct Hg as [Hr2 Hst Hpl (g & Hg & Hsh) Hob]. pose proof (ca_next _ _ Hc).
      split; [done|transitivity s1; [by apply calm_steady|done]|lia| |done]. exists g. split; [lia|].
      by rewrite Hsh, (ca_shared _ _ Hc).
    + destruct Hout as [? Hg]. split; [done|]. eapply kept_trans; [by apply (kept_calm s s1)|done].
    + destruct Hout as [? Hg]. split; [done|]. eapply kept_trans; [by apply (kept_calm s s1)|done].
  - intros res v s1 Hv Hne Ha. rewrite Hv. destruct (Z.eqb_spec res JNI_OK) as [|_]; [done|].
    split; [apply Ha|]. split; [done|]. by apply (kept_after s s1 v).
Qed.

Lemma getter_rule s c f p o e :
  ready s -> polite s -> getter c = Some f -> pointee s p = Some o ->
  wp (object_run c p 0 e) s (fun x s' =>
    let (a, v) := bridged s e f o (getter_args c) in j_vm s' = v /\ getter_outcome s a x s').
Proof.
  intros Hr Hpol Hg Ho. destruct c; try discriminate Hg; injection Hg as <-; by apply object_getter_rule.
Qed.

(** * Objects that do not change

    What a method of [o] answers in every state of the machine, for the method that [s0]
    knows by that name. *)
Definition says (s0 : jenv J O) (o : O) (f : string) (args : list (jvalue O)) (y : jvalue O) : Prop :=
  forall v, (invoke (id_of s0 f) o args v).1 = inl y.
Definition text_of (o : O) : text := c_str (mutf8 (string_units o)).
Definition says_text (s0 : jenv J O) (o : O) (f : string) (t : option text) : Prop :=
  match t with
  | Some t => exists z, says s0 o f [] (VObject (Some z)) /\ text_of z = t
  | None => says s0 o f [] (VObject None)
  end.

(** A list and its elements. *)
Definition JavaList (s0 : jenv J O) (o : O) (xs : list O) : Prop :=
  says s0 o "m_ListSize" [] (VInt (Z.of_nat (length xs)))
  /\ forall i x, xs !! i = Some x -> says s0 o "m_ListGet" [VInt (Z.of_nat i)] (VObject (Some x)).

Record JavaColumn (s0 : jenv J O) (o : O) (c : JdbcColumn) : Prop := {
  cj_ordinal : says s0 o "m_JdbcColumnMetadataGetOrdinal" [] (VInt (jn_ordinal c));
  cj_autoIncrement : says s0 o "m_JdbcColumnMetadataIsAutoIncrement" [] (VBoolean (jn_autoIncrement c));
  cj_caseSensitive : says s0 o "m_JdbcColumnMetadataIsCaseSensitive" [] (VBoolean (jn_caseSensitive c));
  cj_searchable : says s0 o "m_JdbcColumnMetadataIsSearchable" [] (VBoolean (jn_searchable c));
  cj_currency : says s0 o "m_JdbcColumnMetadataIsCurrency" [] (VBoolean (jn_currency c));
  cj_nullable : says s0 o "m_JdbcColumnMetadataGetNullable" [] (VInt (jn_nullable c));
  cj_signed : says s0 o "m_JdbcColumnMetadataIsSigned" [] (VBoolean (jn_signed c));
  cj_columnDisplaySize : says s0 o "m_JdbcColumnMetadataGetColumnDisplaySize" [] (VInt (jn_columnDisplaySize c));
  cj_columnLabel : says_text s0 o "m_JdbcColumnMetadataGetColumnLabel" (jn_columnLabel c);
  cj_columnName : says_text s0 o "m_JdbcColumnMetadataGetColumnName" (jn_columnName c);
  cj_schemaName : says_text s0 o "m_JdbcColumnMetadataGetSchemaName" (jn_schemaName c);
  cj_precision : says s0 o "m_JdbcColumnMetadataGetPrecision" [] (VInt (jn_precision c));
  cj_scale : says s0 o "m_JdbcColumnMetadataGetScale" [] (VInt (jn_scale c));
  cj_tableName : says_text s0 o "m_JdbcColumnMetadataGetTableName" (jn_tableName c);
  cj_catalogName : says_text s0 o "m_JdbcColumnMetadataGetCatalogName" (jn_catalogName c);
  cj_columnType : says s0 o "m_JdbcColumnMetadataGetColumnType" [] (VInt (jn_columnType c));
  cj_columnTypeName : says_text s0 o "m_JdbcColumnMetadataGetColumnTypeName" (jn_columnTypeName c);
  cj_readOnly : says s0 o "m_JdbcColumnMetadataIsReadOnly" [] (VBoolean (jn_readOnly c));
  cj_writable : says s0 o "m_JdbcColumnMetadataIsWritable" [] (VBoolean (jn_writable c));
  cj_definitelyWritable : says s0 o "m_JdbcColumnMetadataIsDefinitelyWritable" [] (VBoolean (jn_definitelyWritable c));
  cj_columnClassName : says_text s0 o "m_JdbcColumnMetadataGetColumnClassName" (jn_columnClassName c)
}.

(** The context of a query: its collection, its stages, the paths and the columns. *)
Definition JavaContext (s0 : jenv J O) (o : O) (collection : text) (operations paths : list text) (columns : list JdbcColumn) : Prop :=
  says_text s0 o "m_DocumentDbMqlQueryContextGetCollectionName" (Some collection)
  /\ (exists l xs, says s0 o "m_DocumentDbMqlQueryContextGetAggregateOperationsAsStrings" [] (VObject (Some l))
      /\ JavaList s0 l xs /\ map text_of xs = operations)
  /\ (exists l xs, says s0 o "m_DocumentDbMqlQueryContextGetPaths" [] (VObject (Some l))
      /\ JavaList s0 l xs /\ map text_of xs = paths)
  /\ exists l xs, says s0 o "m_DocumentDbMqlQueryContextGetColumnMetadata" [] (VObject (Some l))
      /\ JavaList s0 l xs /\ Forall2 (JavaColumn s0) xs columns.

(** ** Reading them *)

Section stable.
Context (s0 : jenv J O) (Hpol0 : polite s0) (Hattach : forall v, (attach_thread v).1 = JNI_OK).

(** A state in which the methods are those of [s0]. *)
Definition known (s : jenv J O) : Prop := ready s /\ steady s0 s.

Lemma known_kept s s' : known s -> kept s s' -> known s'.
Proof. intros [Hr Hst] [Hr' Hst' _]. split; [done|by transitivity s]. Qed.
Lemma known_polite s : known s -> polite s.
Proof. intros [_ Hst]. by apply (polite_steady s0). Qed.

Lemma says_bridged s e o f args y :
  known s -> says s0 o f args y -> (bridged s e f o args).1 = inl y.
Proof.
  intros [_ Hst] Hy. unfold bridged. pose proof (Hattach (j_vm s)) as Ha.
  destruct (attach_thread (j_vm s)) as [res v]. cbn in Ha. subst res. cbn [Z.eqb JNI_OK].
  unfold java_call. rewrite (steady_id_of _ _ _ Hst). specialize (Hy v).
  destruct (invoke _ o args v) as [a w]. cbn in Hy. by subst a.
Qed.
Lemma says_invoke s o f args y v : known s -> says s0 o f args y -> (invoke (id_of s f) o args v).1 = inl y.
Proof. intros [_ Hst] Hy. rewrite (steady_id_of _ _ _ Hst). apply Hy. Qed.

(** The object, with the thread attached. *)
Lemma with_object_says {A} s p msg e (dflt : A) k o (P : A * ErrorInfo -> Prop) :
  known s -> pointee s p = Some o ->
  (forall s1 r, known s1 -> object_at s1 r = Some o -> wp (k r) s1 (fun x s' => P x /\ kept s1 s')) ->
  wp (with_object p msg e dflt k) s (fun x s' => P x /\ kept s s').
Proof.
  intros Hk Ho Hb. pose proof (proj1 Hk) as Hr. apply (with_object_rule p msg e dflt k s o); [done|done| |].
  - intros v s1 r _ Ha Hobj. pose proof (kept_after s s1 v Hr Ha) as Hk1.
    eapply wp_mono; [by apply (Hb s1 r); [apply (known_kept s)|]|]. intros x s2 [Hx Hk2]. split; [done|].
    by apply (kept_trans s s1).
  - intros res v s1 Hv Hne _. pose proof (Hattach (j_vm s)) as Hok. by rewrite Hv in Hok.
Qed.

(** A call that answers and does not throw. *)
Lemma answered s f o args y : known s -> says s0 o f args y ->
  java_call s f o args (j_vm s) = (inl y, (invoke (id_of s f) o args (j_vm s)).2).
Proof.
  intros Hk Hy. pose proof (says_invoke s o f args y (j_vm s) Hk Hy) as Hi. unfold java_call.
  destruct (invoke _ o args (j_vm s)) as [a v]. cbn in Hi. by subst a.
Qed.

Lemma int_says s p msg e dflt m o z :
  known s -> pointee s p = Some o -> kind_of m = Some KInt -> says s0 o m [] (VInt z) ->
  wp (with_object p msg e dflt (int_call m dflt)) s (fun x s' => x = (z, no_info) /\ kept s s').
Proof.
  intros Hk Ho Hm Hy. apply (with_object_says s p msg e dflt _ o); [done|done|]. intros s1 r Hk1 Hobj.
  eapply wp_mono; [apply (int_call_rule s1 m dflt r o); [apply Hk1|by apply known_polite|done|done]|].
  intros x s2. rewrite (answered s1 m o [] (VInt z)) by done. intros [Ha ->]. split; [done|].
  by eapply kept_after; [apply Hk1|].
Qed.
Lemma bool_says s p msg e dflt m o b :
  known s -> pointee s p = Some o -> kind_of m = Some KBoolean -> says s0 o m [] (VBoolean b) ->
  wp (with_object p msg e dflt (bool_call m dflt)) s (fun x s' => x = (b, no_info) /\ kept s s').
Proof.
  intros Hk Ho Hm Hy. apply (with_object_says s p msg e dflt _ o); [done|done|]. intros s1 r Hk1 Hobj.
  eapply wp_mono; [apply (bool_call_rule s1 m dflt r o); [apply Hk1|by apply known_polite|done|done]|].
  intros x s2. rewrite (answered s1 m o [] (VBoolean b)) by done. intros [Ha ->]. split; [done|].
  by eapply kept_after; [apply Hk1|].
Qed.

(** The frame of the getters of texts. *)
Lemma text_frame {A} s m r o t (k : Z -> ErrorInfo -> jop A) (P : A -> Prop) :
  known s -> kind_of m = Some KObject -> object_at s r = Some o -> says_text s0 o m t ->
  (forall result s1, known s1 -> kept s s1 ->
     match t with Some t => exists z, refers s1 result (Some z) /\ text_of z = t | None => result = 0 end ->
     wp (k result no_info) s1 (fun x s' => P x /\ s' = s1)) ->
  wp (let! id := member m in let! result := CallObjectMethod r id [] in let! e := ExceptionCheck in k result e) s
    (fun x s' => P x /\ kept s s').
Proof.
  intros Hk Hm Ho Ht Hb. pose proof (proj1 Hk) as Hr. apply wp_bind, wp_member.
  apply (object_answer_rule s m r o []); [done|by apply known_polite|done|done|]. intros result e s1 Hc.
  assert (Hfin : forall v, after s s1 v None ->
    match t with Some t => exists z, refers s1 result (Some z) /\ text_of z = t | None => result = 0 end -> e = no_info ->
    wp (k result e) s1 (fun x s' => P x /\ kept s s')).
  { intros v Ha Hres ->. pose proof (kept_after s s1 v Hr Ha) as Hks.
    eapply wp_mono; [by apply (Hb result s1); [apply (known_kept s)| |]|]. by intros x s2 [Hx ->]. }
  destruct t as [t|].
  - destruct Ht as (z & Hz & Htz). rewrite (answered s m o [] (VObject (Some z))) by done.
    intros (Ha & Hl & Hge & He). eapply Hfin; [exact Ha| |done]. exists z. split; [|done].
    split; [apply Hl|by apply local_object].
  - rewrite (answered s m o [] (VObject None)) by done. intros (Ha & Hz & He). by eapply Hfin.
Qed.

Lemma read_cstring s r z : ready s -> refers s r (Some z) ->
  wp (JavaStringToCString r) s (fun t s' => t = text_of z /\ s' = s).
Proof.
  intros [_ Hp] Hz. eapply wp_mono; [by apply (JavaStringToCString_rule s r (Some z))|]. by intros t s' [-> ->].
Qed.

Lemma string_says s p m e o t :
  known s -> pointee s p = Some o -> kind_of m = Some KObject -> says_text s0 o m t ->
  wp (context_CallStringMethod p m None e) s (fun x s' => x = (t, no_info) /\ kept s s').
Proof.
  intros Hk Ho Hm Ht. apply (with_object_says s p _ e None _ o); [done|done|]. intros s1 r Hk1 Hobj.
  apply (text_frame s1 m r o t); [done..|]. intros result s2 [Hr2 _] _ Hres. cbn [is_success no_info ei_code Z.eqb negb].
  destruct t as [t|].
  - destruct Hres as (z & Hz & <-). pose proof (proj1 Hz) as Hne. destruct (Z.eqb_spec result 0); [done|].
    apply wp_bind. eapply wp_mono; [by apply (read_cstring s2 result z)|]. by intros t s3 [-> ->].
  - subst result. by apply wp_ret.
Qed.

Lemma collection_says s p e o t :
  known s -> pointee s p = Some o -> says_text s0 o "m_DocumentDbMqlQueryContextGetCollectionName" (Some t) ->
  wp (DocumentdbMqlQueryContextGetCollectionName p [] e) s (fun x s' => x = (t, no_info) /\ kept s s').
Proof.
  intros Hk Ho Ht. apply (with_object_says s p _ e [] _ o); [done|done|]. intros s1 r Hk1 Hobj.
  apply (text_frame s1 _ r o (Some t)); [done..|]. intros result s2 [Hr2 _] _ (z & Hz & <-).
  cbn [is_success no_info ei_code Z.eqb negb]. pose proof (proj1 Hz) as Hne. destruct (Z.eqb_spec result 0); [done|].
  cbn [orb]. apply wp_bind. eapply wp_mono; [by apply (read_cstring s2 result z)|]. by intros x s3 [-> ->].
Qed.

(** The scope of a local pointer that was gained. *)
Lemma scope_rule {A} s (f : ErrorInfo -> jop (Z * ErrorInfo)) y e (k : Z -> jtry A) (P : option A * ErrorInfo -> Prop) :
  known s -> wp (f e) s (fun x s' => x.2 = no_info /\ gained s s' x.1 y) ->
  (forall q s1, known s1 -> gained s s1 q y -> wp (k q no_info) s1 (fun x s' => P x /\ kept s1 s')) ->
  wp (with_local f k e) s (fun x s' => P x /\ kept s s').
Proof.
  intros Hk Hf Hb. apply wp_bind, wp_bind. eapply wp_mono; [exact Hf|]. intros [q e'] s1 [He Hga]. cbn in He. subst e'.
  cbn [fst snd is_success no_info ei_code Z.eqb] in Hga |- *.
  assert (Hk1 : known s1) by (split; [apply Hga|transitivity s; [apply Hk|apply Hga]]).
  apply wp_bind. eapply wp_mono; [by apply (Hb q s1)|]. intros [x e2] s2 [HP Hks]. apply wp_ret, wp_bind.
  eapply wp_mono; [by apply (release_gained s s1 s2 q y); [apply Hk| |]|]. intros [] s3 Hk3. by apply wp_ret.
Qed.

(** A local pointer to what a getter gives, and the scope of it. *)
Lemma local_says {A} s c f p o y e (k : Z -> jtry A) (P : option A * ErrorInfo -> Prop) :
  known s -> getter c = Some f -> pointee s p = Some o -> says s0 o f (getter_args c) (VObject (Some y)) ->
  (forall q s1, known s1 -> gained s s1 q y -> wp (k q no_info) s1 (fun x s' => P x /\ kept s1 s')) ->
  wp (with_local (object_run c p 0) k e) s (fun x s' => P x /\ kept s s').
Proof.
  intros Hk Hg Ho Hy Hb. pose proof (proj1 Hk) as Hr. apply (scope_rule s _ y); [done| |done].
  eapply wp_mono; [by apply (getter_rule s c f p o e Hr); [apply known_polite| |]|]. intros x s1.
  pose proof (says_bridged s e o f _ _ Hk Hy) as Hbr. destruct (bridged s e f o (getter_args c)) as [a v].
  cbn in Hbr. subst a. by intros [_ Hout].
Qed.

(** ** Lists *)

Lemma java_string_says s p o e :
  known s -> pointee s p = Some o -> wp (read_string p e) s (fun x s' => (x.1 = Some (text_of o) /\ is_success x.2 = true) /\ kept s s').
Proof.
  intros Hk Ho. pose proof (proj1 Hk) as Hr. apply wp_bind, wp_bind.
  eapply wp_mono; [apply Attach_rule, Hr|]. intros e' s1. pose proof (Hattach (j_vm s)) as Ha.
  destruct (attach_thread (j_vm s)) as [res v]. cbn in Ha. subst res. intros [Ha ->]. rewrite (proj2 Hr) in Ha.
  pose proof (kept_after s s1 v Hr Ha) as Hks. assert (Hk1 : known s1) by (by apply (known_kept s)).
  cbn [attach_info Z.eqb JNI_OK is_success ei_code]. rewrite <- (kept_pointee s s1) in Ho by done.
  destruct (GetRef_rule p s1 o (proj1 (proj1 Hk1)) Ho) as [Hg _].
  apply wp_bind. eapply wp_mono; [exact Hg|]. intros r ? [-> Hobj].
  apply wp_bind. eapply wp_mono; [apply (read_cstring s1 r o (proj1 Hk1))|].
  { split; [|done]. intros ->. unfold object_at in Hobj. destruct (j_refs s1 !! 0) as [x|] eqn:Hx; [|done].
    apply (so_refs _ (proj1 (proj1 Hk1))) in Hx. lia. }
  intros t ? [-> ->]. apply wp_ret, wp_ret. by split.
Qed.

Lemma read_elements_rule {A} (f : Z -> jtry A) (rel : O -> A -> Prop) l o xs (p : Z) :
  (forall s q x a e, known s -> pointee s q = Some x -> rel x a -> e = no_info ->
     wp (f q e) s (fun r s' => (r.1 = Some a /\ is_success r.2 = true) /\ kept s s')) ->
  (forall i x, xs !! i = Some x -> says s0 o "m_ListGet" [VInt (Z.of_nat i)] (VObject (Some x))) ->
  forall ys n i acc e s, drop i xs = l -> length l = n -> Forall2 rel l ys -> known s -> pointee s p = Some o -> is_success e = true ->
  wp (read_elements n f p (Z.of_nat i) acc e) s (fun r s' =>
    (r.1 = (true, (acc ++ ys)%list) /\ is_success r.2 = true) /\ kept s s').
Proof.
  intros Hf Hget. induction l as [|x l IH]; intros ys n i acc e s Hd Hn Hrel Hk Ho He.
  - subst n. inversion Hrel; subst. apply wp_ret. rewrite app_nil_r. split; [done|]. apply kept_refl, Hk.
  - subst n. inversion Hrel as [|? y ? ys' Hxy Hrel']; subst. cbn [length read_elements].
    assert (Hx : xs !! i = Some x).
    { pose proof (lookup_drop xs i 0) as Hl. rewrite Hd, Nat.add_0_r in Hl. by rewrite <- Hl. }
    apply wp_bind. change (scoped _) with (with_local (object_run (OpListGet (Z.of_nat i)) p 0) f e).
    eapply wp_mono; [apply (local_says s (OpListGet (Z.of_nat i)) "m_ListGet" p o x e f
      (fun r => r.1 = Some y /\ is_success r.2 = true)); [done|done|done|by apply Hget|]|].
    { intros q s1 Hk1 Hga. apply (Hf s1 q x y no_info); [done|apply Hga|done|done]. }
    intros [a e'] s1 [[Ha He'] Hks]. cbn in Ha, He'. subst a.
    replace (Z.of_nat i + 1) with (Z.of_nat (S i)) by lia.
    eapply wp_mono; [apply (IH ys' (length l) (S i) (acc ++ [y])%list e' s1)|].
    + by apply drop_S in Hx as Hx'; rewrite Hd in Hx'; injection Hx'.
    + done.
    + done.
    + by apply (known_kept s).
    + rewrite (kept_pointee s s1); [done|apply Hk|done].
    + done.
    + intros r s2 [[Hr Hsu] Hks2]. rewrite <- app_assoc in Hr. split; [done|]. by apply (kept_trans s s1).
Qed.

Lemma read_list_rule {A} (f : Z -> jtry A) (rel : O -> A -> Prop) p o xs ys s e :
  (forall s q x a e, known s -> pointee s q = Some x -> rel x a -> e = no_info ->
     wp (f q e) s (fun r s' => (r.1 = Some a /\ is_success r.2 = true) /\ kept s s')) ->
  JavaList s0 o xs -> Forall2 rel xs ys -> known s -> pointee s p = Some o ->
  wp (read_list f p [] e) s (fun r s' => (r.1 = (true, ys) /\ is_success r.2 = true) /\ kept s s').
Proof.
  intros Hf [Hsize Hget] Hrel Hk Ho. apply wp_bind. eapply wp_mono; [by apply (int_says s p _ e 0 _ o)|].
  intros [n e'] s1 [[= -> ->] Hks]. cbn [is_success no_info ei_code Z.eqb]. rewrite Nat2Z.id.
  eapply wp_mono; [apply (read_elements_rule f rel xs o xs p Hf Hget ys (length xs) 0 [] no_info s1)|].
  - done.
  - done.
  - done.
  - by apply (known_kept s).
  - rewrite (kept_pointee s s1); [done|apply Hk|done].
  - done.
  - intros r s2 [Hr Hks2]. split; [exact Hr|]. by apply (kept_trans s s1).
Qed.

Lemma strings_rule p o xs s :
  JavaList s0 o xs -> known s -> pointee s p = Some o ->
  wp (ReadListOfString p []) s (fun r s' => r = (true, map text_of xs) /\ kept s s').
Proof.
  intros Hl Hk Ho. apply wp_bind.
  eapply wp_mono; [apply (read_list_rule read_string (fun x t => text_of x = t) p o xs (map text_of xs) s no_info)|].
  - intros s1 q x a e Hk1 Hq <- ->. by apply java_string_says.
  - done.
  - clear. induction xs; by constructor.
  - done.
  - done.
  - intros [[ok l] e] s1 [[[= -> ->] _] Hks]. by apply wp_ret.
Qed.

(** ** Columns *)

Lemma try_says {A B} (m : ErrorInfo -> jop (A * ErrorInfo)) (k : A -> jtry B) s e a (P : option B * ErrorInfo -> Prop) :
  known s -> wp (m e) s (fun x s' => x = (a, no_info) /\ kept s s') ->
  (forall s1, known s1 -> kept s s1 -> wp (k a no_info) s1 (fun x s' => P x /\ kept s1 s')) ->
  wp (try_bind m k e) s (fun x s' => P x /\ kept s s').
Proof.
  intros Hk Hm Hb. apply wp_bind. eapply wp_mono; [exact Hm|]. intros x s1 [-> Hks].
  cbn [is_success no_info ei_code Z.eqb]. eapply wp_mono; [apply Hb; [by apply (known_kept s)|done]|].
  intros x s2 [HP Hks2]. split; [done|]. by apply (kept_trans s s1).
Qed.

(** One getter of a column, and on with the state behind it. *)
Ltac next_getter :=
  match goal with
  | Hk : known ?s, Ho : pointee ?s _ = Some _ |- wp (try_bind _ _ _) ?s _ =>
      eapply try_says;
      [exact Hk
      |first [eapply int_says | eapply bool_says | eapply string_says]; [exact Hk|exact Ho|reflexivity|eassumption]
      |let s1 := fresh "s" in let Hk1 := fresh "Hk" in let Hks := fresh "Hks" in
       intros s1 Hk1 Hks; rewrite <- (kept_pointee s s1 _ (proj1 Hk) Hks) in Ho; clear Hk Hks]
  end.

Lemma column_rule s p o c e :
  known s -> pointee s p = Some o -> JavaColumn s0 o c ->
  wp (read_column p e) s (fun r s' => (r.1 = Some c /\ is_success r.2 = true) /\ kept s s').
Proof.
  intros Hk Ho Hc. destruct Hc. unfold read_column.
  do 21 next_getter.
  apply wp_ret. split; [by destruct c|]. match goal with Hk : known _ |- _ => apply kept_refl, Hk end.
Qed.

Lemma columns_rule p o xs cs s :
  JavaList s0 o xs -> Forall2 (JavaColumn s0) xs cs -> known s -> pointee s p = Some o ->
  wp (ReadJdbcColumnMetadata p [] no_info) s (fun r s' => (r.1 = (true, cs) /\ is_success r.2 = true) /\ kept s s').
Proof.
  intros Hl Hcs Hk Ho. unfold ReadJdbcColumnMetadata. apply (read_list_rule read_column (JavaColumn s0) p o xs cs);
    [|exact Hl|exact Hcs|exact Hk|exact Ho].
  intros s1 q x a e Hk1 Hq Ha _. exact (column_rule s1 q x a e Hk1 Hq Ha).
Qed.

(** ** The context *)

Lemma ServiceGet_says s p o sql n e ctx us :
  known s -> pointee s p = Some o -> mutf8_units (length sql) (c_str sql) = Some us ->
  (forall so v, string_units so = us ->
     (invoke (id_of s0 "m_DocumentDbQueryMappingServiceGet") o [VObject (Some so); VLong n] v).1 = inl (VObject (Some ctx))) ->
  wp (DocumentDbQueryMappingServiceGet p sql n 0 e) s (fun x s' => x.2 = no_info /\ gained s s' x.1 ctx).
Proof.
  intros Hk Ho Hu Hsay. pose proof (proj1 Hk) as Hr. apply (with_object_rule p _ e 0 _ s o); [done|done| |].
  - intros v s1 r _ Ha Hobj. pose proof (ready_after _ _ _ Hr Ha) as Hr1. assert (Hc1 : calm s s1) by apply Ha.
    apply wp_bind. eapply wp_mono; [by apply (NewStringUTF_rule s1 sql us)|]. intros rs s2 (x & _ & Hx & Ha2 & Hl & Hge).
    pose proof (ready_after _ _ _ Hr1 Ha2) as Hr2. assert (Hc2 : calm s1 s2) by apply Ha2.
    assert (Hc02 : calm s s2) by (by transitivity s1).
    apply wp_bind, wp_member, wp_bind. eapply wp_mono; [apply (string_args_rule s2 [rs] [Some x])|].
    { constructor; [|done]. split; [apply Hl|by apply local_object]. }
    intros args ? [-> ->]. cbn [map app]. apply wp_bind.
    eapply wp_mono; [apply (CallObject_rule s2 "m_DocumentDbQueryMappingServiceGet" r o _ Hr2);
      [done|by apply (calm_object s1); [apply Hr1| |]]|].
    intros result s3. rewrite (calm_id_of s s2) by done. rewrite (steady_id_of s0 s) by apply Hk.
    pose proof (Hsay x (j_vm s2) Hx) as Hi. destruct (invoke _ o _ (j_vm s2)) as [a w]. cbn in Hi. subst a.
    intros (Ha3 & Hlr & Hgr). assert (Hc13 : calm s1 s3) by (transitivity s2; [done|apply Ha3]).
    assert (Hl3 : local_at s3 rs x) by (apply (local_calm s2); [apply Hr2|apply Ha3|done]).
    apply wp_bind. eapply wp_mono; [apply (delete_rule s1 s3 rs Hc13); right; eauto|].
    intros [] s4 [(Hc4 & _ & Hp4) Hkeep]. rewrite (proj2 (proj2 Ha3)) in Hp4.
    assert (Hr4 : ready s4) by (split; [by apply (sound_calm s1); [apply Hr1|]|done]).
    apply wp_bind. unfold ExceptionCheck, wp at 1. rewrite Hp4.
    assert (Hc04 : calm s s4) by (by transitivity s1).
    apply (take_object_rule s4 0 result (Some ctx)); [done| |done|].
    + split; [apply Hlr|]. unfold object_at. rewrite Hkeep; [by rewrite (proj2 Hlr)|].
      pose proof (local_lt s2 rs x (proj1 Hr2) Hl). lia.
    + intros q s5 Hob. split; [done|]. by apply (gained_calm s s4).
  - intros res v s1 Hv Hne _. pose proof (Hattach (j_vm s)) as Hok. by rewrite Hv in Hok.
Qed.

Lemma context_rule s p o sql n e ctx us collection operations paths columns :
  known s -> pointee s p = Some o -> mutf8_units (length sql) (c_str sql) = Some us ->
  (forall so v, string_units so = us ->
     (invoke (id_of s0 "m_DocumentDbQueryMappingServiceGet") o [VObject (Some so); VLong n] v).1 = inl (VObject (Some ctx))) ->
  JavaContext s0 ctx collection operations paths columns ->
  wp (service_GetMqlQueryContext p sql n e) s (fun r s' =>
    (r.1 = Some (MkMql operations (MkLayout (map jdbc_column columns) paths) collection) /\ is_success r.2 = true) /\ kept s s').
Proof.
  intros Hk Ho Hu Hsay (Hcol & (lo & xo & Hlo & Hjo & <-) & (lp & xp & Hlp & Hjp & <-) & lc & xc & Hlc & Hjc & Hcols).
  apply (scope_rule s _ ctx); [done|by apply (ServiceGet_says s p o sql n e ctx us)|]. intros q s1 Hk1 Hga.
  pose proof (ga_object _ _ _ _ Hga) as Hq. eapply try_says; [done|by eapply collection_says|]. intros s2 Hk2 Hks2.
  rewrite <- (kept_pointee s1 s2 q (proj1 Hk1) Hks2) in Hq.
  apply (local_says s2 OpOperations "m_DocumentDbMqlQueryContextGetAggregateOperationsAsStrings" q ctx lo); [done..|].
  intros qo s3 Hk3 Hga3. assert (Hq3 : pointee s3 q = Some ctx).
  { rewrite (gained_pointee s2 s3 qo lo); [done|apply Hk2|done|]. intros ->. pose proof (ga_place _ _ _ _ Hga3).
    unfold pointee in Hq. rewrite (fresh_pointer s2 qo (proj1 (proj1 Hk2))) in Hq by done. done. }
  apply wp_bind. eapply wp_mono; [apply (strings_rule qo lo xo s3 Hjo Hk3), Hga3|]. intros r s4 [-> Hks4].
  cbn [negb]. assert (Hk4 : known s4) by (by apply (known_kept s3)).
  rewrite <- (kept_pointee s3 s4 q (proj1 Hk3) Hks4) in Hq3.
  eapply wp_mono; [apply (local_says s4 OpPaths "m_DocumentDbMqlQueryContextGetPaths" q ctx lp); [done..|]|].
  2: { intros x s5 [HP Hks5]. split; [exact HP|]. by apply (kept_trans s3 s4). }
  intros qp s5 Hk5 Hga5. assert (Hq5 : pointee s5 q = Some ctx).
  { rewrite (gained_pointee s4 s5 qp lp); [done|apply Hk4|done|]. intros ->. pose proof (ga_place _ _ _ _ Hga5).
    unfold pointee in Hq3. rewrite (fresh_pointer s4 qp (proj1 (proj1 Hk4))) in Hq3 by done. done. }
  apply wp_bind. eapply wp_mono; [apply (strings_rule qp lp xp s5 Hjp Hk5), Hga5|]. intros r s6 [-> Hks6].
  cbn [negb]. assert (Hk6 : known s6) by (by apply (known_kept s5)).
  rewrite <- (kept_pointee s5 s6 q (proj1 Hk5) Hks6) in Hq5.
  eapply wp_mono; [apply (local_says s6 OpColumnMetadata "m_DocumentDbMqlQueryContextGetColumnMetadata" q ctx lc); [done..|]|].
  2: { intros x s7 [HP Hks7]. split; [exact HP|]. by apply (kept_trans s5 s6). }
  intros qc s7 Hk7 Hga7. apply wp_bind.
  eapply wp_mono; [exact (columns_rule qc lc xc columns s7 Hjc Hcols Hk7 (ga_object _ _ _ _ Hga7))|].
  intros [[ok l] e8] s8 [[Hr Hsu] Hks8]. cbn in Hr, Hsu. injection Hr as -> ->. by apply wp_ret.
Qed.

End stable.
End query.
