(* ===== verification/JniProps.v ===== *)
(** What the bridge to Java promises: sequences of its operations are safe, its getters
    give what the methods of Java give, results are read as they are.

    First a small machine: every class and method is found, one result set with two
    tables, a mapping service with one query, and a connection whose getters throw.  It
    shows that what is assumed of a machine can hold. *)
From S2P Require Import Prelude Memory Utf8 Diag Config Meta DataQuery Interop Jni JniContext JniWrap JniRules JniSafe JniCreate JniRead.

Inductive tobj : Type :=
| TClass | TStr (us : list Z) | TArr | TErr | TConnection | TRs | TService | TContext
| TStrs (l : list (list Z)) | TColumns | TColumn.

(** * Methods *)

Definition toy_methods : list JniMethod := omap (fun st => match st with IMethod _ _ m => Some m | IClass _ _ => None end) steps.

Definition same_method (m n : JniMethod) : bool := String.eqb (jm_name m) (jm_name n) && String.eqb (jm_sign m) (jm_sign n).
Fixpoint method_index (l : list JniMethod) (m : JniMethod) : option nat :=
  match l with
  | [] => None
  | n :: t => if same_method n m then Some 0%nat else S <$> method_index t m
  end.
Definition no_method : JniMethod := MkMethod "" "()V" false.
Definition toy_method (id : Z) : JniMethod := nth (Z.to_nat (id - 1)) toy_methods no_method.

Lemma method_index_spec l m i : method_index l m = Some i -> same_method (nth i l no_method) m = true.
Proof.
  revert i. induction l as [|n l IH]; intros i; [done|]. cbn. destruct (same_method n m) eqn:Hs.
  - by intros [= <-].
  - destruct (method_index l m) as [j|]; [|done]. intros [= <-]. by apply IH.
Qed.

(** * Answers *)

(** Two tables. *)
Definition toy_fields : list (list (text * list Z)) :=
  [[(str "TABLE_NAME", str "orders"); (str "TABLE_TYPE", str "TABLE")];
   [(str "TABLE_NAME", str "people"); (str "REMARKS", [233; 8364])]].
Definition toy_field (row : list (text * list Z)) (name : text) : option (list Z) :=
  snd <$> List.find (fun f => bool_decide (f.1 = name)) row.
Definition toy_row (row : list (text * list Z)) : ResultRow :=
  MkRow (fun name => (fun us => c_str (mutf8 us)) <$> toy_field row name) (fun _ => None).
Definition toy_rows : list ResultRow := map toy_row toy_fields.

(** The state is the number of the rows that were taken. *)
Definition toy_answer (name : string) (o : tobj) (args : list (jvalue tobj)) (v : nat) : (jvalue tobj + tobj) * nat :=
  match o, args with
  | TRs, [] => if String.eqb name "next" then (inl (VBoolean (v <? length toy_fields)%nat), S v) else (inl VVoid, v)
  | TRs, [VObject (Some x)] =>
      let us := match x with TStr us => us | _ => [] end in
      match toy_fields !! pred v with
      | Some row => (inl (VObject (TStr <$> toy_field row (mutf8 us))), v)
      | None => (inl (VObject None), v)
      end
  | TService, [VObject _; VLong _] => (inl (VObject (Some TContext)), v)
  | TContext, [] =>
      (inl (VObject (Some (
        if String.eqb name "getCollectionName" then TStr (str "orders")
        else if String.eqb name "getAggregateOperationsAsStrings" then TStrs [str "{$match:{}}"; str "{$limit:1}"]
        else if String.eqb name "getPaths" then TStrs [str "_id"]
        else TColumns))), v)
  | TStrs l, [] => (inl (VInt (Z.of_nat (length l))), v)
  | TStrs l, [VInt i] => (inl (VObject (TStr <$> l !! Z.to_nat i)), v)
  | TColumns, [] => (inl (VInt 1), v)
  | TColumns, [VInt _] => (inl (VObject (Some TColumn)), v)
  | TConnection, [] => (inr TErr, v)
  | TErr, [] => (inl (VObject (Some (TStr (str "connection closed")))), v)
  | TClass, [] => (inl (VObject (Some (TStr (str "java.sql.SQLException")))), v)
  | _, _ => (inl VVoid, v)
  end.

(** As the signature has it. *)
Definition coerce (k : jkind) (y : jvalue tobj) : jvalue tobj :=
  match k, y with
  | KObject, VObject o => VObject o
  | KInt, VInt z => VInt z
  | KLong, VLong z => VLong z
  | KBoolean, VBoolean b => VBoolean b
  | KObject, _ => VObject None
  | KInt, _ => VInt 0
  | KLong, _ => VLong 0
  | KBoolean, _ => VBoolean false
  | KVoid, _ => VVoid
  end.
(** The methods that describe exceptions, and [wasNull], do not throw. *)
Definition never_throws (name : string) : bool := existsb (String.eqb name) ["getName"; "getMessage"; "wasNull"].
Definition toy_invoke (id : Z) (o : tobj) (args : list (jvalue tobj)) (v : nat) : (jvalue tobj + tobj) * nat :=
  let m := toy_method id in
  match toy_answer (jm_name m) o args v with
  | (inl y, v) => (inl (coerce (result_kind m) y), v)
  | (inr t, v) => if never_throws (jm_name m) then (inl (coerce (result_kind m) VVoid), v) else (inr t, v)
  end.

#[export] Instance toy_jvm : Jvm nat tobj := {
  attach_thread v := (JNI_OK, v);
  find_class _ v := (inl TClass, v);
  method_id _ m v := (match method_index toy_methods m with Some i => inl (Z.of_nat i + 1) | None => inr TErr end, v);
  invoke := toy_invoke;
  class_of _ := TClass;
  string_units o := match o with TStr us => us | _ => [] end;
  make_string us v := (inl (TStr us), v);
  make_array _ v := (inl TArr, v);
  set_element _ _ _ v := (inl tt, v);
  created_jvm _ := false;
  create_jvm _ v := (JNI_OK, v);
  destroy_jvm v := v
}.

Lemma toy_method_id cls m v id : (method_id cls m v).1 = inl id ->
  jm_name (toy_method id) = jm_name m /\ jm_sign (toy_method id) = jm_sign m.
Proof.
  cbn [method_id toy_jvm fst]. destruct (method_index toy_methods m) as [i|] eqn:Hi; [|done]. intros [= <-].
  unfold toy_method. replace (Z.to_nat (Z.of_nat i + 1 - 1)) with i by lia.
  apply method_index_spec, andb_true_iff in Hi as [Hn Hs]. by apply String.eqb_eq in Hn, Hs.
Qed.
Lemma toy_kind cls m v id : (method_id cls m v).1 = inl id -> result_kind (toy_method id) = result_kind m.
Proof. intros Hid. destruct (toy_method_id _ _ _ _ Hid) as [Hn Hs]. unfold result_kind. by rewrite Hn, Hs. Qed.

#[export] Instance toy_typed : JvmTyped nat tobj.
Proof.
  intros cls m v id o args v' Hid. rewrite <- (toy_kind _ _ _ _ Hid). cbn [invoke toy_jvm]. unfold toy_invoke.
  destruct (toy_answer _ o args v') as [[y|t] w]; [|destruct (never_throws _); [|done]]; cbn [fst];
    destruct (result_kind (toy_method id)); try destruct y; done.
Qed.
#[export] Instance toy_room : JvmRoom.
Proof. split; cbn; eauto. Qed.
#[export] Instance toy_talks : JvmTalks.
Proof.
  intros mt cls v id Hmt Hid o v'. destruct (toy_method_id _ _ _ _ Hid) as [Hn _]. cbn [invoke toy_jvm]. unfold toy_invoke.
  assert (Hnt : never_throws (jm_name (toy_method id)) = true) by (rewrite Hn; by destruct Hmt as [->| ->]).
  rewrite Hnt. destruct (toy_answer _ o [] v') as [[y|t] w]; cbn; eauto.
Qed.

(** * A context *)

Definition toy_start : jenv nat tobj := MkEnv 0%nat ∅ None ∅ 1 false ∅ false true [].
Lemma toy_bare : bare toy_start.
Proof. by split. Qed.

Definition toy_state : jenv nat tobj :=
  match JniContext_Create [] false no_info toy_start with Ok (_, s) => s | _ => toy_start end.
Lemma toy_created : ready toy_state /\ j_jvm toy_state = true /\ j_shared toy_state = ∅ /\ j_print toy_state = false.
Proof.
  destruct (proj1 (wp_ok _ _ _) (create_rule [] no_info toy_start toy_bare)) as (r & s & Hs & Hr & Hc).
  assert (Hspec : create_spec [] no_info (j_vm toy_start) = (true, no_info)) by (by vm_compute).
  rewrite Hspec in Hr. subst r. unfold toy_state. by rewrite Hs.
Qed.

(** Names of methods, as the state has them. *)
Lemma toy_id (s : jenv nat tobj) f c m : ready s -> method_of f = Some (c, m) ->
  jm_name (toy_method (id_of s f)) = jm_name m /\ result_kind (toy_method (id_of s f)) = result_kind m.
Proof.
  intros [Hs _] Hm. destruct (so_method _ Hs f c m Hm) as (cls & v & Hid & _).
  split; [by apply (toy_method_id cls m v)|by apply (toy_kind cls m v)].
Qed.

Lemma toy_silent (s : jenv nat tobj) f c m o v : ready s -> method_of f = Some (c, m) -> never_throws (jm_name m) = true ->
  exists y, (invoke (id_of s f) o [] v).1 = inl y.
Proof.
  intros Hr Hm Hn. destruct (toy_id s f c m Hr Hm) as [Hname _]. cbn [invoke toy_jvm]. unfold toy_invoke.
  rewrite Hname, Hn. destruct (toy_answer _ o [] v) as [[y|t] w]; cbn; eauto.
Qed.

Lemma toy_polite (s : jenv nat tobj) : ready s -> j_print s = false -> polite s.
Proof.
  intros Hr Hp. split; [done|]. intros f o v [->| ->].
  - by apply (toy_silent s _ "c_Class" M_CLASS_GET_NAME).
  - by apply (toy_silent s _ "c_Throwable" M_THROWABLE_GET_MESSAGE).
Qed.
Lemma toy_null_known (s : jenv nat tobj) : ready s -> null_known s.
Proof. intros Hr. split; [|done]. intros o v. by apply (toy_silent s _ "c_ResultSet" M_RECORD_SET_WAS_NULL). Qed.

(** A pointer to an object. *)
Definition toy_new (o : tobj) (s : jenv nat tobj) : outcome Z (Z * jenv nat tobj) :=
  (let! r := new_local (Some o) in let! g := NewGlobalRef r in shared_new g) s.
Lemma toy_new_rule o s : ready s -> exists p s', toy_new o s = Ok (p, s') /\ ready s' /\ pointee s' p = Some o
  /\ j_members s' = j_members s /\ j_print s' = j_print s /\ j_vm s' = j_vm s.
Proof.
  intros Hr. pose proof (proj1 Hr) as Hs. unfold toy_new. apply wp_ok.
  change (wp (let! r := new_local (Some o) in let! g := NewGlobalRef r in shared_new g) s (fun p s' => ready s'
    /\ pointee s' p = Some o /\ j_members s' = j_members s /\ j_print s' = j_print s /\ j_vm s' = j_vm s)).
  apply wp_bind. eapply wp_mono; [apply (new_local_rule (Some o) s Hs)|]. intros r s1 [Ha [Hl _]].
  destruct Hr as [_ Hp]. rewrite Hp in Ha. assert (Hr1 : ready s1) by (split; [apply (sound_calm s); [done|apply Ha]|apply Ha]).
  eapply wp_mono; [apply (obtain_rule s1 r o Hr1); [apply Hl|by apply local_object]|]. intros p s2 [Hr2 Hv2 Hst2 _ _ Ho].
  split; [done|]. split; [done|]. rewrite (st_members _ _ Hst2), (st_print _ _ Hst2), Hv2.
  split; [apply Ha|]. split; [apply Ha|]. apply Ha.
Qed.

(** * Its result set *)

Definition toy_rep (o : tobj) (c : option ResultRow) (rest : list ResultRow) (v : nat) : Prop :=
  o = TRs /\ c = match v with O => None | S k => toy_rows !! k end /\ rest = drop v toy_rows.

(** What an answer becomes. *)
Lemma toy_call (s : jenv nat tobj) f c m o args v y w : ready s -> method_of f = Some (c, m) ->
  toy_answer (jm_name m) o args v = (inl y, w) -> invoke (id_of s f) o args v = (inl (coerce (result_kind m) y), w).
Proof.
  intros Hr Hm Ha. destruct (toy_id s f c m Hr Hm) as [Hname Hkind]. cbn [invoke toy_jvm]. unfold toy_invoke.
  by rewrite Hname, Ha, Hkind.
Qed.

(** The methods that describe exceptions leave the state alone. *)
Lemma toy_describe (s : jenv nat tobj) t v : ready s -> (describe_in s t v).2 = v.
Proof.
  intros Hr. unfold describe_in.
  assert (Hv : forall f c m x, method_of f = Some (c, m) -> String.eqb (jm_name m) "next" = false ->
    (invoke (id_of s f) x [] v).2 = v).
  { intros f c m x Hm Hn. destruct (toy_id s f c m Hr Hm) as [Hname _]. cbn [invoke toy_jvm]. unfold toy_invoke.
    rewrite Hname. assert (Hst : (toy_answer (jm_name m) x [] v).2 = v) by (destruct x; try reflexivity; cbn; by rewrite Hn).
    destruct (toy_answer (jm_name m) x [] v) as [[y|z] w]; cbn in Hst; subst w; [done|]. by destruct (never_throws _). }
  pose proof (Hv "m_Class_getName" "c_Class" M_CLASS_GET_NAME (class_of t) eq_refl eq_refl) as H1.
  destruct (invoke (id_of s "m_Class_getName") (class_of t) [] v) as [n v1]. cbn in H1. subst v1.
  pose proof (Hv "m_Throwable_getMessage" "c_Throwable" M_THROWABLE_GET_MESSAGE t eq_refl eq_refl) as H2.
  destruct (invoke (id_of s "m_Throwable_getMessage") t [] v) as [g v2]. cbn in H2. by subst v2.
Qed.

Lemma toy_rows_ok (s : jenv nat tobj) : ready s -> JavaResultSet s toy_rep.
Proof.
  intros Hr. split.
  - by intros o c rest v Hrep.
  - by intros o c rest v us Hrep.
  - intros o c rest v t Hrep. by rewrite toy_describe.
  - intros o c rest v (-> & -> & ->).
    rewrite (toy_call s "m_ResultSetNext" "c_ResultSet" M_RECORD_SET_NEXT TRs [] v (VBoolean (v <? 2)%nat) (S v) Hr eq_refl eq_refl).
    destruct v as [|[|v]]; [done|done|]. change (drop (S (S v)) toy_rows) with (@drop ResultRow v []).
    rewrite drop_nil. split; [done|]. split; [done|]. split; [|by destruct v]. by destruct v.
  - intros o row rest v name (-> & Hc & ->). destruct v as [|k]; [done|].
    assert (Hname : invoke (id_of s "m_ResultSetGetStringByName") TRs [VObject (Some name)] (S k)
      = (inl (VObject (TStr <$> toy_field (default [] (toy_fields !! k)) (mutf8 (string_units name)))), S k)
      /\ row = toy_row (default [] (toy_fields !! k))).
    { assert (Hrow : row = toy_row (default [] (toy_fields !! k)) /\ (k < 2)%nat).
      { unfold toy_rows in Hc. rewrite list_lookup_fmap in Hc. destruct k as [|[|k]]; cbn in Hc; [injection Hc as ->; split; [done|lia]|injection Hc as ->; split; [done|lia]|done]. }
      destruct Hrow as [Hrow Hk]. split; [|exact Hrow].
      rewrite (toy_call s "m_ResultSetGetStringByName" "c_ResultSet" M_RECORD_SET_GET_STRING_BY_NAME TRs [VObject (Some name)] (S k)
        (VObject (TStr <$> toy_field (default [] (toy_fields !! k)) (mutf8 (string_units name)))) (S k) Hr eq_refl); [done|].
      destruct name; destruct k as [|[|k]]; try lia; try reflexivity. }
    destruct Hname as [-> ->]. split; [by split|]. cbn [rs_string toy_row].
    by destruct (toy_field (default [] (toy_fields !! k)) (mutf8 (string_units name))).
Qed.

(** * Its query *)

Lemma toy_says (s : jenv nat tobj) f c m o args y : ready s -> method_of f = Some (c, m) ->
  (forall v, toy_answer (jm_name m) o args v = (inl y, v)) -> coerce (result_kind m) y = y -> says s o f args y.
Proof. intros Hr Hm Ha Hc v. rewrite (toy_call s f c m o args v y v Hr Hm (Ha v)). by rewrite Hc. Qed.

Lemma toy_list (s : jenv nat tobj) l : ready s -> JavaList s (TStrs l) (map TStr l).
Proof.
  intros Hr. split.
  - rewrite length_map. by apply (toy_says s _ "c_List" M_LIST_SIZE).
  - intros i x Hx. rewrite list_lookup_fmap in Hx. destruct (l !! i) as [us|] eqn:Hi; [|done]. injection Hx as <-.
    apply (toy_says s _ "c_List" M_LIST_GET); [done|done| |done]. intros v. cbn. by rewrite Nat2Z.id, Hi.
Qed.

Definition toy_column : JdbcColumn :=
  MkColumn 0 false false false false 0 false 0 None None None 0 0 None None 0 None false false false None.
Lemma toy_defaults (s : jenv nat tobj) f c m y : ready s -> method_of f = Some (c, m) ->
  y = coerce (result_kind m) VVoid -> says s TColumn f [] y.
Proof. intros Hr Hm ->. intros v. by rewrite (toy_call s f c m TColumn [] v VVoid v Hr Hm eq_refl). Qed.
Lemma toy_column_ok (s : jenv nat tobj) : ready s -> JavaColumn s TColumn toy_column.
Proof. intros Hr. split; (eapply toy_defaults; [exact Hr|reflexivity|reflexivity]). Qed.

Lemma toy_context (s : jenv nat tobj) : ready s ->
  JavaContext s TContext (str "orders") [str "{$match:{}}"; str "{$limit:1}"] [str "_id"] [toy_column].
Proof.
  intros Hr. split; [|split; [|split]].
  - exists (TStr (str "orders")). split; [|by vm_compute].
    by apply (toy_says s _ "c_DocumentDbMqlQueryContext" M_DOCUMENTDB_MQL_QUERY_CONTEXT_GET_COLLECTION_NAME).
  - exists (TStrs [str "{$match:{}}"; str "{$limit:1}"]), (map TStr [str "{$match:{}}"; str "{$limit:1}"]).
    split; [|split; [by apply toy_list|by vm_compute]].
    by apply (toy_says s _ "c_DocumentDbMqlQueryContext" M_DOCUMENTDB_MQL_QUERY_CONTEXT_GET_AGGREGATE_OPERATIONS_AS_STRINGS).
  - exists (TStrs [str "_id"]), (map TStr [str "_id"]). split; [|split; [by apply toy_list|by vm_compute]].
    by apply (toy_says s _ "c_DocumentDbMqlQueryContext" M_DOCUMENTDB_MQL_QUERY_CONTEXT_GET_PATHS).
  - exists TColumns, [TColumn]. split; [|split].
    + by apply (toy_says s _ "c_DocumentDbMqlQueryContext" M_DOCUMENTDB_MQL_QUERY_CONTEXT_GET_COLUMN_METADATA).
    + split; [by apply (toy_says s _ "c_List" M_LIST_SIZE)|]. intros [|i] x Hx; [|done]. injection Hx as <-.
      by apply (toy_says s _ "c_List" M_LIST_GET).
    + constructor; [by apply toy_column_ok|constructor].
Qed.
Lemma toy_query (s : jenv nat tobj) n so v : ready s ->
  (invoke (id_of s "m_DocumentDbQueryMappingServiceGet") TService [VObject (Some so); VLong n] v).1 = inl (VObject (Some TContext)).
Proof.
  intros Hr. by rewrite (toy_call s "m_DocumentDbQueryMappingServiceGet" "c_DocumentDbQueryMappingService" M_DOCUMENTDB_QUERY_MAPPING_SERVICE_GET
    TService [VObject (Some so); VLong n] v (VObject (Some TContext)) v Hr eq_refl eq_refl).
Qed.

(** * Texts *)


Definition bmp (c : Z) : bool := c <=? 0xFFFF.

Lemma land_63 z : Z.land z 0x3F = z mod 64.
Proof. change 0x3F with (Z.ones 6). by rewrite Z.land_ones by lia. Qed.

Lemma mutf8_unit_div u : 0 < u <= 0xFFFF ->
  mutf8_unit u = if u <? 0x80 then [u] else if u <? 0x800 then [0xC0 + u / 64; 0x80 + u mod 64]
    else [0xE0 + u / 4096; 0x80 + u / 64 mod 64; 0x80 + u mod 64].
Proof.
  intros Hu. unfold mutf8_unit. rewrite !land_63, !Z.shiftr_div_pow2 by lia. change (2 ^ 6) with 64. change (2 ^ 12) with 4096.
  destruct (Z.ltb_spec u 0x80).
  - by decide_cmp.
  - destruct (Z.leb_spec 1 u), (Z.leb_spec u 0x7F); try lia; cbn [andb].
    destruct (Z.ltb_spec u 0x800); by decide_cmp.
Qed.

(** In the basic plane, the modified UTF-8 of a code point is its UTF-8. *)
Lemma mutf8_encode cs : scalars cs -> nonzero cs -> forallb bmp cs = true -> mutf8 cs = encode cs.
Proof.
  induction cs as [|c cs IH]; [done|]. intros [Hc Hcs]%Forall_cons [Hz Hzs]%Forall_cons Hb.
  cbn [forallb] in Hb. apply andb_true_iff in Hb as [Hb Hbs]. unfold bmp in Hb. apply Z.leb_le in Hb.
  change (mutf8 (c :: cs)) with (mutf8_unit c ++ mutf8 cs). change (encode (c :: cs)) with (utf8_encode c ++ encode cs).
  rewrite IH by done. f_equal. apply is_scalar_spec in Hc as [Hc _]. rewrite mutf8_unit_div by lia.
  unfold utf8_encode. destruct (c <? 0x80); [done|]. destruct (c <? 0x800); [done|]. by decide_cmp.
Qed.

Lemma land_concat k n a : 0 <= n -> 0 <= a < 2 ^ n -> Z.land (k * 2 ^ n + a) (Z.ones n) = a.
Proof. intros Hn Ha. rewrite Z.land_ones by done. rewrite Z.add_comm, Z.mod_add by lia. by apply Z.mod_small. Qed.
Lemma tail_low a : 0 <= a < 64 -> Z.land (0x80 + a) 0x3F = a.
Proof. apply (land_concat 2 6 a). lia. Qed.

Lemma mutf8_next_encode c rest : is_scalar c = true -> c <> 0 ->
  mutf8_next (utf8_encode c ++ rest) = if bmp c then Some (c, rest) else None.
Proof.
  intros [Hc _]%is_scalar_spec Hz. destruct (split64 c) as (E1 & E2 & E3).
  pose proof (Z.mod_pos_bound c 64 ltac:(lia)). pose proof (Z.mod_pos_bound (c / 64) 64 ltac:(lia)).
  pose proof (Z.mod_pos_bound (c / 4096) 64 ltac:(lia)). unfold utf8_encode, bmp.
  destruct (Z.ltb_spec c 0x80); [|destruct (Z.ltb_spec c 0x800); [|destruct (Z.ltb_spec c 0x10000)]];
    cbn [app]; unfold mutf8_next, is_tail.
  - by decide_cmp.
  - assert (0 <= c / 64 < 32) by lia. decide_cmp. cbn [andb]. decide_cmp. cbn [andb].
    pose proof (land_concat 6 5 (c / 64) ltac:(lia) ltac:(change (2 ^ 5) with 32; lia)) as Hl.
    change (6 * 2 ^ 5) with 192 in Hl. change (Z.ones 5) with 31 in Hl. rewrite Hl, tail_low by lia.
    rewrite Z.shiftl_mul_pow2 by lia. change (2 ^ 6) with 64. by rewrite <- E1.
  - assert (0 <= c / 4096 < 16) by lia. decide_cmp. cbn [andb]. decide_cmp. cbn [andb].
    pose proof (land_concat 14 4 (c / 4096) ltac:(lia) ltac:(change (2 ^ 4) with 16; lia)) as Hl.
    change (14 * 2 ^ 4) with 224 in Hl. change (Z.ones 4) with 15 in Hl. rewrite Hl, !tail_low by lia.
    rewrite !Z.shiftl_mul_pow2 by lia. change (2 ^ 6) with 64. change (2 ^ 12) with 4096. do 2 f_equal. lia.
  - assert (0 <= c / 262144 < 5) by lia. decide_cmp. cbn [andb]. by decide_cmp.
Qed.

Lemma mutf8_units_encode cs : forall fuel, (length cs <= fuel)%nat -> scalars cs -> nonzero cs ->
  mutf8_units fuel (encode cs) = if forallb bmp cs then Some cs else None.
Proof.
  induction cs as [|c cs IH]; intros fuel Hf Hs Hz; [by destruct fuel|].
  apply Forall_cons in Hs as [Hc Hs], Hz as [Hcz Hz]. destruct fuel as [|fuel]; [cbn in Hf; lia|].
  change (encode (c :: cs)) with (utf8_encode c ++ encode cs). pose proof (mutf8_next_encode c (encode cs) Hc Hcz) as Hn.
  destruct (utf8_encode_cons c) as (b & t & Hbt). rewrite Hbt in Hn |- *. cbn [app mutf8_units forallb] in Hn |- *.
  rewrite Hn. destruct (bmp c); [|done]. rewrite IH by (done || (cbn in Hf; lia)). cbn [andb]. by destruct (forallb bmp cs).
Qed.

Lemma encoded_units cs : scalars cs -> nonzero cs ->
  mutf8_units (length (encode cs)) (c_str (encode cs)) = if forallb bmp cs then Some cs else None.
Proof. intros Hs Hz. rewrite c_str_encode by done. apply mutf8_units_encode; [apply encode_length|done|done]. Qed.


(** * The properties *)


Lemma toy_client : client_ok toy_state [0; 0; 0].
Proof.
  destruct toy_created as (Hr & _ & Hsh & Hp). split; [done|by apply toy_polite|by apply toy_null_known|].
  rewrite Hsh. clear. split; [|done]. intros p Hp. unfold uses, count_of. rewrite lookup_empty. cbn [count_occ].
  destruct (Z.eq_dec 0 p) as [Heq|_]; [by destruct Hp|reflexivity].
Qed.

(** C18: [JniContext::Create], where no machine is in use, gives what a plain search through
    the classes and methods gives, in the order of the code: a context when all are there,
    and then the bridge is ready for calls; otherwise [JVM_INIT] with class and message of
    the exception, when the methods that tell them were found, and then no reference and no
    exception is left. *)
Theorem context_creation {J O} `{Jvm J O} `{!JvmTyped J O} `{!JvmTalks} (opts : list text) (e : ErrorInfo) (s : jenv J O)
    (Hbare : bare s) :
  exists r s', JniContext_Create opts false e s = Ok (r, s') /\ r = create_spec opts e (j_vm s)
    /\ (if r.1 then ready s' /\ j_jvm s' = true /\ j_shared s' = ∅ else bare s' /\ ei_code r.2 = DOCUMENTDB_JNI_ERR_JVM_INIT).
Proof.
  destruct (proj1 (wp_ok _ _ _) (create_rule opts e s Hbare)) as (r & s' & Hrun & Hr & Hc).
  exists r, s'. split; [exact Hrun|]. split; [exact Hr|]. unfold created in Hc. destruct r.1 eqn:Hok.
  - destruct Hc as (? & ? & ? & _). auto.
  - split; [exact Hc|]. subst r. unfold create_spec in *.
    destruct (if created_jvm (j_vm s) then _ else _) as [res v]. destruct (negb (res =? JNI_OK)); [done|].
    by destruct (search steps (MkFound ∅ ∅) v) as [[[|x] k] w].
Qed.
Lemma context_creation_witness :
  exists r s', JniContext_Create [] false no_info toy_start = Ok (r, s') /\ r = create_spec [] no_info 0%nat
    /\ (if r.1 then ready s' /\ j_jvm s' = true /\ j_shared s' = ∅ else bare s' /\ ei_code r.2 = DOCUMENTDB_JNI_ERR_JVM_INIT).
Proof. exact (context_creation [] no_info toy_start toy_bare). Defined.


Definition toy_with (o : tobj) : Z * jenv nat tobj := match toy_new o toy_state with Ok x => x | _ => (0, toy_state) end.
Lemma toy_with_ok o : let (p, s) := toy_with o in
  ready s /\ polite s /\ pointee s p = Some o /\ j_vm s = j_vm toy_state.
Proof.
  destruct toy_created as (Hr & _ & _ & Hp). destruct (toy_new_rule o toy_state Hr) as (p & s & Hn & Hr' & Ho & _ & Hpr & Hv).
  unfold toy_with. rewrite Hn. split; [exact Hr'|]. split; [apply toy_polite; [exact Hr'|rewrite Hpr; exact Hp]|].
  split; [exact Ho|exact Hv].
Qed.
Lemma toy_vm : j_vm toy_state = 0%nat.
Proof. by vm_compute. Qed.


(** C14: what [GetMqlQueryContext] gives for a query that the Java service maps: the
    collection, the stages, the paths and the columns of the Java context, each in its
    order; every pointer that was made on the way is released again. *)
Theorem query_context_read {J O} `{Jvm J O} `{!JvmTyped J O} `{!JvmRoom} (s : jenv J O) (p : Z) (service : O)
    (sql : text) (n : Z) (e : ErrorInfo) (us : list Z) (ctx : O) collection operations paths columns
    (Hready : ready s) (Hpolite : polite s) (Hattach : forall v, (attach_thread v).1 = JNI_OK)
    (Hp : pointee s p = Some service) (Hsql : mutf8_units (length sql) (c_str sql) = Some us)
    (Hget : forall so v, string_units so = us ->
       (invoke (id_of s "m_DocumentDbQueryMappingServiceGet") service [VObject (Some so); VLong n] v).1 = inl (VObject (Some ctx)))
    (Hctx : JavaContext s ctx collection operations paths columns) :
  exists e' s', service_GetMqlQueryContext p sql n e s
      = Ok ((Some (MkMql operations (MkLayout (map jdbc_column columns) paths) collection), e'), s')
    /\ is_success e' = true /\ ready s' /\ j_shared s' = j_shared s.
Proof.
  assert (Hk : known s s) by (split; [exact Hready|reflexivity]).
  destruct (proj1 (wp_ok _ _ _) (context_rule s Hpolite Hattach s p service sql n e ctx us _ _ _ _ Hk Hp Hsql Hget Hctx))
    as ([a e'] & s' & Hrun & [Ha He] & [Hr _ Hsh]).
  cbn in Ha, He. subst a. exists e', s'. split; [exact Hrun|]. split; [exact He|]. by split.
Qed.
Lemma query_context_read_witness :
  exists e' s', service_GetMqlQueryContext (toy_with TService).1 (str "SELECT 1") 0 no_info (toy_with TService).2
      = Ok ((Some (MkMql [str "{$match:{}}"; str "{$limit:1}"] (MkLayout (map jdbc_column [toy_column]) [str "_id"]) (str "orders")), e'), s')
    /\ is_success e' = true /\ ready s' /\ j_shared s' = j_shared (toy_with TService).2.
Proof.
  pose proof (toy_with_ok TService) as Hw. destruct (toy_with TService) as [p s]. destruct Hw as (Hr & Hpol & Ho & _).
  apply (query_context_read s p TService (str "SELECT 1") 0 no_info (str "SELECT 1") TContext).
  - exact Hr.
  - exact Hpol.
  - reflexivity.
  - exact Ho.
  - reflexivity.
  - intros so v _. exact (toy_query s 0 so v Hr).
  - exact (toy_context s Hr).
Defined.


